(* ===== verification/_CoqProject ===== *)
-Q . S2P
Prelude.v
Rmap.v
Pframe.v
Pdir.v
Owns.v
Kmem.v
Kmalloc.v
Hndl.v
Timer.v
Cmem.v
Str.v
Ctype.v
Strtol.v
Time.v
Qsort.v
Vmm.v
Dlist.v
Dpc.v
Sched.v
Object.v
Awake.v
Waits.v
Buf.v
Bufcache.v
Bufview.v
Bitops.v
Blocks.v
Group.v
Groups.v
Space.v
Poolblocks.v
Volume.v
Dinode.v
Dtree.v
Dshrink.v
Inodes.v
