(* ===== verification/Prelude.v ===== *)
(** * Verification of the Sanos kernel

    Sanos is a small operating system for 32-bit PCs.  Its kernel (src/src/sys)
    manages memory, threads, timers, kernel objects, handles, disk buffers,
    file systems, drivers and a network stack; a C library (src/src/lib) is
    shared between the kernel and programs; programs, a compiler and an
    assembler complete the system.  This development models the parts of the
    kernel that everything else is built on, and routines of the C library, as
    Rocq functions, and proves that they do what they are for.

    ** How the code is modelled

    C functions that change state are functions in the monad [K] of this file:
    explicit state passing with the outcomes [Done], [Panic] (the code calls
    [panic]), [Fault] (an access to memory or to an array element that does not
    exist) and [Hang] (a loop has used up its bound of iterations).  The state
    of a component is a record with a field for each variable of the source;
    [kzoom] runs the operations of a component on its part of a larger state.
    Machine integers are in [Z], with [u32], [s32], [u16] and [s16] where the
    code computes modulo a power of two.  Linked structures keep their links:
    records are found in a map by their addresses, 0 is the null pointer, and
    the invariants say which lists the links form.  Where a thread gives the
    processor away in the middle of a function, the function is cut in two
    there, so that other operations can come in between.

    Loops that are not structural have a bound.  It is never a restriction: the
    theorems show that the bound in the definition is enough for every state
    that satisfies the invariant (the size of the table that a list lives in
    for list walks, 32 rounds for the digits of a number, the length of the
    block for memory routines, the number of ticks for the timer wheel), except
    where they show that the code itself does not end.

    Code outside of a component is a parameter with a class of laws: the
    procedures of timers and deferred calls, [ObjectOps] for what hndl.c needs
    of objects, [FileMapOps] for what vmm.c needs of files, [ObjectKinds] for
    the closing of files, sockets and multiplexers, [BlockCache] for what the
    disk file system needs of the buffer cache.

    ** Memory

    - Rmap.v: resource maps, the allocator of address ranges (lib/rmap.c:
      [rmap_alloc], [rmap_alloc_align], [rmap_reserve], [rmap_free],
      [rmap_status]).  Allocation is first fit, what is allocated was free and
      is not free any more, freeing gives back and merges; any sequence of
      allocations by the owners of a map keeps their ranges apart.
    - Pframe.v: the page frame database and its free list (sys/krnl/pframe.c).
      No frame has two owners.
    - Pdir.v: the page directory and page tables (sys/krnl/pdir.c), with
      recursive mapping and faults.  What [mem_access] checks of a range is
      stated exactly; the last page of some ranges is not checked, which is
      shown.
    - Owns.v: the ownership of frames that the allocators above share.
    - Kmem.v: the kernel's page allocator (sys/krnl/kmem.c); Kmalloc.v: its heap
      of buckets on top (sys/krnl/kmalloc.c).  Live allocations never overlap,
      each is backed by frames of its own, and freeing returns everything; the
      address that [kmalloc] returns is in page 0 only if the heap has no room
      left, which the code does not check.
    - Vmm.v: user address spaces (sys/krnl/vmm.c), as a refinement of a map from
      pages to protections that fixes every result and error code, with the
      isolation of frames.  Ranges end below the top of the address space and
      no tag is [FREE], the mark of free ranges.

    ** Threads and objects

    - Timer.v: the timer wheel (sys/krnl/timer.c).  Timers fire at their own
      tick and in order, over the wrap-around of the clock.
    - Dlist.v: doubly linked lists, shared by the files below.
    - Dpc.v: deferred procedure calls, and Sched.v: the scheduler
      (sys/krnl/sched.c): ready queues and their summary for any sequence of
      operations, the choice of [dispatch], round robin in a priority.
    - Object.v, Awake.v, Waits.v: kernel objects and waiting
      (sys/krnl/object.c), on the scheduler and the timers.  Awake.v: which
      operations keep the threads that sleep for objects on wait lists.
      Waits.v: no wakeup is lost and no thread that was released sleeps on, for
      sequences of signals, waits for one or any of several objects, waitable
      timers and closed objects; semaphores and mutexes serve those who wait
      longest; four errors are shown.
    - Hndl.v: the handle table (sys/krnl/hndl.c and the handle calls of
      sys/krnl/syscall.c), as a refinement of a map from handles to objects, with
      the growth of the table and its failures.

    ** Disk buffers

    - Buf.v: the buffer cache (sys/krnl/buf.c), cut into the steps between
      device calls and waits.  Bufcache.v: its invariant and what each operation
      does.  Bufview.v: the cache as a store of blocks, for every interleaving
      of the steps of threads that follow the rules [keeps_rules]: those of
      the interface, no request for a block that another thread is bringing
      in, and no change to a buffer while [sync_buffers] writes it.  The device
      has everything that was stored once no buffer is dirty or in use.  The
      last two rules are not enforced by the code: two theorems show, for
      every state where it can happen, how data are lost without them.

    ** The disk file system

    - Bitops.v: bitmaps in disk blocks (lib/bitops.c, include/bitops.h).
    - Blocks.v: the classes [BlockCache] and [CacheSpec], what the file system
      calls of the buffer cache and what it relies on.  Poolblocks.v proves the
      laws of the buffer pool: a thread that runs alone completes each call of
      Buf.v, with a write and a read of the device at most.
    - Group.v: the allocation of blocks and inodes in groups
      (sys/fs/dfs/group.c).  Groups.v: its invariant (bitmaps, counters, hints
      and buffers) and what each routine does.  Space.v: the routines as steps
      of the set of free blocks and inodes, and clients that call them in any
      order.  Volume.v: these theorems on the buffer pool; a client never gets
      what is in use; a full volume is reported exactly if the hints are right;
      after the first [free_blocks] on a mounted volume they need not be, and
      free blocks stay hidden.
    - Dinode.v: inodes and the block trees of files (sys/fs/dfs/inode.c, all
      of it).  Dtree.v: the tree of a file, its invariant at any depth, and the
      functions that read and extend it; Dshrink.v: the functions that cut it,
      with the pages that they keep locked.  Inodes.v: a file is a list of
      blocks; [get_inode_block] is its lookup, [expand_inode] appends to it and
      [truncate_inode] takes its first blocks; on a full disk [expand_inode]
      leaves the directory page it was filling locked.  [truncate_inode] runs with fuel for one round per
      block to remove, which is enough since each round removes one at least.

    ** The C library

    - Cmem.v: byte memory and loops; Str.v: lib/string.c; Ctype.v: lib/ctype.c;
      Strtol.v: lib/strtol.c and lib/xtoa.c; Time.v: lib/time.c; Qsort.v:
      lib/qsort.c and lib/bsearch.c.  The copying, comparing and searching
      routines do what their specification says and touch nothing else; numbers
      are read and written correctly; calendar times round trip; [qsort] sorts
      within its array and its stacks.

    ** What is not modelled

    Interrupts and the context switch are in assembler; a context switch is a
    change of the current thread.  The contents of memory pages are not part of
    the memory components, and the TLB is not modelled.  The counters for
    statistics and files in /proc are left out.  Device drivers (sys/dev), bus
    and firmware access (pci.c, apm.c, pnpbios.c, pit.c, pic.c, virtio.c) are
    access to ports and device memory.  Directories,
    files and mounting in the disk file system, the other file systems, the
    network stack, the module loader, the system call dispatch, the debugger,
    the boot loaders, the rest of the C library, the programs and the compiler
    are not modelled yet.

    ** This file

    Machine integers, the monad [K] with its laws, loops, lemmas on
    lists and maps, and the tactics and hints that the other files use. *)

From stdpp Require Export base tactics numbers list gmap strings.

#[global] Open Scope Z_scope.

(** ** Machine integers

    Sanos is a 32-bit system: [unsigned int], [unsigned long] and pointers are
    32 bits wide and arithmetic on them wraps around.  Values are kept in [Z];
    [u32] is the wrap-around of an unsigned result and [s32] the reading of a
    32-bit pattern as a signed [int]. *)

Definition W32 : Z := 4294967296.

Definition u32 (z : Z) : Z := z mod W32.

Definition s32 (z : Z) : Z :=
  if u32 z <? 2147483648 then u32 z else u32 z - W32.

Definition u16 (z : Z) : Z := z mod 65536.
Definition s16 (z : Z) : Z := if u16 z <? 32768 then u16 z else u16 z - 65536.

Definition is_u32 (z : Z) : Prop := 0 <= z < W32.

(** Boolean tests of the code become propositions. *)
Ltac breflect :=
  repeat match goal with
  | H : (_ =? _)%Z = true |- _ => apply Z.eqb_eq in H
  | H : (_ =? _)%Z = false |- _ => apply Z.eqb_neq in H
  | H : (_ <? _)%Z = true |- _ => apply Z.ltb_lt in H
  | H : (_ <? _)%Z = false |- _ => apply Z.ltb_ge in H
  | H : (_ <=? _)%Z = true |- _ => apply Z.leb_le in H
  | H : (_ <=? _)%Z = false |- _ => apply Z.leb_gt in H
  | H : (_ =? _)%nat = true |- _ => apply Nat.eqb_eq in H
  | H : (_ =? _)%nat = false |- _ => apply Nat.eqb_neq in H
  | H : (_ <? _)%nat = true |- _ => apply Nat.ltb_lt in H
  | H : (_ <? _)%nat = false |- _ => apply Nat.ltb_ge in H
  | H : (_ <=? _)%nat = true |- _ => apply Nat.leb_le in H
  | H : (_ <=? _)%nat = false |- _ => apply Nat.leb_gt in H
  | H : (_ && _) = true |- _ => apply andb_true_iff in H; destruct H
  | H : (_ || _) = false |- _ => apply orb_false_iff in H; destruct H
  | H : negb _ = true |- _ => apply negb_true_iff in H
  | H : negb _ = false |- _ => apply negb_false_iff in H
  end.

(** Case analysis on the first test the goal is stuck on. *)
Ltac ctest :=
  match goal with
  | |- context [if ?b then _ else _] => destruct b eqn:?; breflect
  end.

Lemma u32_small z : is_u32 z -> u32 z = z.
Proof. intros H. apply Z.mod_small. exact H. Qed.

Lemma u32_range z : is_u32 (u32 z).
Proof. apply Z.mod_pos_bound. reflexivity. Qed.

Lemma u32_idemp z : u32 (u32 z) = u32 z.
Proof. apply u32_small, u32_range. Qed.

Lemma u32_add_l a b : u32 (u32 a + b) = u32 (a + b).
Proof. apply Zplus_mod_idemp_l. Qed.

Lemma u32_add_r a b : u32 (a + u32 b) = u32 (a + b).
Proof. apply Zplus_mod_idemp_r. Qed.

Lemma u32_sub_l a b : u32 (u32 a - b) = u32 (a - b).
Proof. apply Zminus_mod_idemp_l. Qed.

Lemma u32_sub_r a b : u32 (a - u32 b) = u32 (a - b).
Proof. apply Zminus_mod_idemp_r. Qed.

(** The facts that hold without side conditions. *)
Create HintDb sanos.
#[export] Hint Resolve u32_range : sanos.
#[export] Hint Rewrite u32_idemp u32_add_l u32_add_r u32_sub_l u32_sub_r : sanos.

(** Linear arithmetic that knows the 32-bit bound. *)
Ltac u32_lia := unfold is_u32, W32 in *; lia.

Lemma s32_small z : 0 <= z < 2147483648 -> s32 z = z.
Proof.
  intros H. unfold s32. rewrite u32_small by u32_lia. by destruct (Z.ltb_spec z 2147483648); [|lia].
Qed.

Lemma s32_range z : -2147483648 <= z < 2147483648 -> s32 z = z.
Proof.
  intros H. destruct (Z.ltb_spec z 0); [|apply s32_small; lia]. unfold s32.
  assert (u32 z = z + W32) as ->.
  { unfold u32. symmetry. apply (Z.mod_unique _ _ (-1)); u32_lia. }
  by destruct (Z.ltb_spec (z + W32) 2147483648); u32_lia.
Qed.

Lemma s32_cong x y : u32 x = u32 y -> s32 x = s32 y.
Proof. intros H. unfold s32. by rewrite H. Qed.

Lemma s32_bounds z : -2147483648 <= s32 z < 2147483648 /\ u32 (s32 z) = u32 z.
Proof.
  unfold s32. pose proof (u32_range z). destruct (Z.ltb_spec (u32 z) 2147483648) as [Hl|Hl].
  - split; [u32_lia|apply u32_idemp].
  - split; [u32_lia|]. rewrite <- (u32_idemp z) at 2. unfold u32 at 1 3.
    replace (u32 z) with (u32 z - W32 + 1 * W32) at 2 by lia. by rewrite Z_mod_plus_full.
Qed.

(** Removes the wrap-around where the operands cannot overflow. *)
Ltac nowrap :=
  repeat match goal with
  | |- context [u32 ?z] => rewrite (u32_small z) by u32_lia
  | H : context [u32 ?z] |- _ =>
      rewrite (u32_small z) in H by u32_lia
  end.

(** ** Outcomes of kernel code

    A kernel routine returns, stops the machine through [panic], or touches
    memory it must not touch (a null or unmapped address, an index outside of
    an array), which on the real machine is a page fault inside the kernel.
    [Hang] is the outcome of a loop that has used up the iterations it was
    given; theorems that say a routine returns exclude it. *)

Inductive outcome (A : Type) : Type :=
| Done (a : A)
| Panic (msg : string)
| Fault
| Hang.
Arguments Done {A} a.
Arguments Panic {A} msg.
Arguments Fault {A}.
Arguments Hang {A}.

(** State-passing kernel code: [K S A] runs in a state [S]. *)
Definition K (S A : Type) : Type := S -> outcome (A * S).

Definition kret {S A} (a : A) : K S A := fun s => Done (a, s).

Definition kbind {S A B} (m : K S A) (f : A -> K S B) : K S B :=
  fun s => match m s with
           | Done (a, s') => f a s'
           | Panic msg => Panic msg
           | Fault => Fault
           | Hang => Hang
           end.

Definition kget {S} : K S S := fun s => Done (s, s).
Definition kput {S} (s' : S) : K S unit := fun _ => Done (tt, s').
Definition kmod {S} (f : S -> S) : K S unit := fun s => Done (tt, f s).
Definition kpanic {S A} (msg : string) : K S A := fun _ => Panic msg.
Definition kfault {S A} : K S A := fun _ => Fault.
Definition khang {S A} : K S A := fun _ => Hang.

(** Reading through a pointer or an index that may be invalid. *)
Definition kopt {S A} (o : option A) : K S A :=
  match o with Some a => kret a | None => kfault end.

(** Runs code of a component on the part of the state that component owns. *)
Definition kzoom {S T A} (get : T -> S) (set : S -> T -> T) (m : K S A) : K T A :=
  fun t => match m (get t) with
           | Done (a, s') => Done (a, set s' t)
           | Panic msg => Panic msg
           | Fault => Fault
           | Hang => Hang
           end.

(** [for (i = 0; i < n; i++) body(i)] *)
Fixpoint kfor {S} (n i : nat) (body : nat -> K S unit) : K S unit :=
  match n with
  | O => kret tt
  | Datatypes.S n' => kbind (body i) (fun _ => kfor n' (Datatypes.S i) body)
  end.

Declare Scope k_scope.
Delimit Scope k_scope with K.
Notation "'let*' p := m 'in' k" := (kbind m (fun p => k))
  (at level 10, p as pattern, m at level 100, k at level 200) : k_scope.
Notation "m ;;; k" := (kbind m (fun _ => k))
  (at level 100, right associativity) : k_scope.

(** [m] run in [s] returns [a] and leaves state [s']. *)
Definition returns {S A} (m : K S A) (s : S) (a : A) (s' : S) : Prop := m s = Done (a, s').

Lemma kbind_done {S A B} (m : K S A) (f : A -> K S B) s a s' :
  m s = Done (a, s') -> kbind m f s = f a s'.
Proof. intros H. unfold kbind. by rewrite H. Qed.

Lemma kbind_inv {S A B} (m : K S A) (f : A -> K S B) s b s'' :
  kbind m f s = Done (b, s'') -> exists a s', m s = Done (a, s') /\ f a s' = Done (b, s'').
Proof. unfold kbind. destruct (m s) as [[a s']| | |]; intros; simplify_eq. eauto. Qed.

Lemma kbind_same {S A B} (m m' : K S A) (f : A -> K S B) s s' : m s = m' s' -> kbind m f s = kbind m' f s'.
Proof. intros H. unfold kbind. by rewrite H. Qed.

Lemma kbind_next {S A B} (m : K S A) (f g : A -> K S B) s : (forall a s', f a s' = g a s') -> kbind m f s = kbind m g s.
Proof. intros H. unfold kbind. destruct (m s) as [[a s']| | |]; auto. Qed.

Lemma kbind_assoc {S A B C} (m : K S A) (f : A -> K S B) (g : B -> K S C) s :
  kbind (kbind m f) g s = kbind m (fun a => kbind (f a) g) s.
Proof. unfold kbind. by destruct (m s) as [[a s']| | |]. Qed.

Lemma kbind_kget {S A} (f : S -> K S A) s : kbind kget f s = f s s.
Proof. reflexivity. Qed.

Lemma kbind_kmod {S A} (g : S -> S) (f : unit -> K S A) s : kbind (kmod g) f s = f tt (g s).
Proof. reflexivity. Qed.

Lemma kbind_kret {S A B} (a : A) (f : A -> K S B) s : kbind (kret a) f s = f a s.
Proof. reflexivity. Qed.

#[export] Hint Rewrite @kbind_kget @kbind_kmod @kbind_kret : sanos.

(** Runs the monadic structure of a program, up to the next test or call. *)
Ltac krun := cbn [kbind kget kopt kret kmod kput kpanic kfault khang].

(** The same, also where the run is stuck on a call. *)
Ltac kx :=
  cbv beta iota delta [kbind kget kopt kret kmod kput kpanic kfault khang kzoom].

(** Steps through the binds of a run that is known to return. *)
Ltac kinv :=
  repeat match goal with
  | H : kbind _ _ _ = Done _ |- _ =>
      let a := fresh "a" in let s := fresh "s" in
      apply kbind_inv in H; destruct H as (a & s & ? & H)
  | H : kget _ = Done _ |- _ => injection H as <- <-
  | H : kret _ _ = Done _ |- _ => injection H as <- <-
  | H : kput _ _ = Done _ |- _ => injection H as <- <-
  | H : kmod _ _ = Done _ |- _ => injection H as <- <-
  end.

(** ** Arrays

    A C array is a list; [memmove] moves [n] elements from index [src] to
    index [dst], the source being read before the destination is written. *)

Definition memmove {A} (dst src n : nat) (l : list A) : list A :=
  take dst l ++ take n (drop src l) ++ drop (dst + n) l.

(** [for (r = r0; n iterations; r++) if (p(a[r])) break;] gives the index at
    which the loop stops. *)
Fixpoint scan {A} `{Inhabited A} (p : A -> bool) (a : list A) (n r : nat) : nat :=
  match n with
  | O => r
  | S n' => if p (a !!! r) then r else scan p a n' (S r)
  end.

Lemma lookup_total_mid {A} `{Inhabited A} (l1 l2 : list A) x :
  (l1 ++ x :: l2) !!! length l1 = x.
Proof. rewrite lookup_total_app_r by lia. by rewrite Nat.sub_diag. Qed.

Lemma insert_mid {A} (l1 l2 : list A) x y :
  <[length l1 := y]> (l1 ++ x :: l2) = l1 ++ y :: l2.
Proof. rewrite insert_app_r_alt by lia. by rewrite Nat.sub_diag. Qed.

Lemma elem_of_mid {A} (l1 l2 : list A) x : x ∈ l1 ++ x :: l2.
Proof. rewrite elem_of_app, elem_of_cons. auto. Qed.

Lemma elem_of_mid_weaken {A} (l1 l2 : list A) x y : y ∈ l1 ++ l2 -> y ∈ l1 ++ x :: l2.
Proof. rewrite !elem_of_app, elem_of_cons. tauto. Qed.

#[export] Hint Resolve elem_of_mid elem_of_mid_weaken : sanos.

(** Distinct indices below [n] are at most [n] many. *)
Lemma NoDup_lt_length (l : list nat) n :
  NoDup l -> (forall i, i ∈ l -> (i < n)%nat) -> (length l <= n)%nat.
Proof.
  intros Hn Hb. replace n with (length (seq 0 n)) by apply length_seq.
  apply submseteq_length, NoDup_submseteq; [done|].
  intros i Hi. apply elem_of_seq. specialize (Hb i Hi). lia.
Qed.

Lemma alter_mid {A} (f : A -> A) (l1 l2 : list A) x :
  alter f (length l1) (l1 ++ x :: l2) = l1 ++ f x :: l2.
Proof. induction l1 as [|y l1 IH]; [done|]. exact (f_equal (cons y) IH). Qed.

(** Sliding the tail up by one slot: what inserting into an array does. *)
Lemma memmove_up {A} (l1 l2 : list A) j junk :
  memmove (S (length l1)) (length l1) (length l2) (l1 ++ l2 ++ j :: junk) =
  l1 ++ (match l2 with [] => j | y :: _ => y end) :: l2 ++ junk.
Proof.
  unfold memmove.
  replace (drop (length l1) (l1 ++ l2 ++ j :: junk)) with (l2 ++ j :: junk)
    by (by rewrite drop_app_length).
  rewrite take_app_length.
  replace (drop (S (length l1) + length l2) (l1 ++ l2 ++ j :: junk)) with junk.
  2:{ rewrite drop_app_ge by lia. rewrite drop_app_ge by lia.
      replace (S (length l1) + length l2 - length l1 - length l2)%nat with 1%nat by lia.
      reflexivity. }
  rewrite take_app_ge by lia.
  replace (S (length l1) - length l1)%nat with 1%nat by lia.
  destruct l2; simpl; rewrite <- app_assoc; [ done | ].
  by destruct l2.
Qed.

(** Sliding the tail down by one slot: what deleting from an array does. *)
Lemma memmove_down {A} (l1 l2 : list A) x junk :
  exists j,
  memmove (length l1) (S (length l1)) (length l2) (l1 ++ x :: l2 ++ junk) =
  l1 ++ l2 ++ j :: junk.
Proof.
  unfold memmove. rewrite take_app_length.
  replace (drop (S (length l1)) (l1 ++ x :: l2 ++ junk)) with (l2 ++ junk).
  2:{ rewrite drop_app_ge by lia.
      by replace (S (length l1) - length l1)%nat with 1%nat by lia. }
  rewrite take_app_length, drop_app_add.
  change (x :: l2 ++ junk) with ((x :: l2) ++ junk).
  rewrite drop_app_le by (simpl; lia).
  assert (exists j, drop (length l2) (x :: l2) = [j]) as [j ->].
  { clear. induction l2 as [|y l2 IH] using rev_ind; [ by eexists | ].
    exists y. rewrite length_app; simpl. rewrite Nat.add_1_r. simpl.
    by rewrite drop_app_length. }
  by exists j.
Qed.

Lemma forallb_seq_S f n :
  forallb f (seq 0 (S n)) = f 0%nat && forallb (fun k => f (S k)) (seq 0 n).
Proof.
  cbn [seq forallb]. f_equal. generalize 0%nat as i.
  induction n as [|n IH]; intros i; [done|]. cbn [seq forallb]. by rewrite IH.
Qed.

Lemma forallb_eq {A} (f g : A -> bool) l : (forall x, f x = g x) -> forallb f l = forallb g l.
Proof. intros H. induction l as [|x l IH]; [done|]. cbn [forallb]. by rewrite H, IH. Qed.

Lemma forallb_True_seq f n : forallb f (seq 0 n) = true <-> forall k, (k < n)%nat -> f k = true.
Proof.
  revert f. induction n as [|n IH]; intros f; [split; [lia|done]|].
  rewrite forallb_seq_S, andb_true_iff, IH. split.
  - intros [H0 H] [|k] Hk; [done|]. apply (H k). lia.
  - intros H. split; [apply H; lia|]. intros k Hk. apply H. lia.
Qed.
