(* ===== verification/Rmap.v ===== *)
(** * Resource maps (lib/rmap.c, include/rmap.h)

    A resource map is an array of [struct rmap].  Slot 0 is a header: its
    [offset] is the number of used slots and its [size] the number of slots
    available.  Slots 1 .. [offset] hold the free ranges in ascending order.
    The kernel keeps its three address-space allocators in such maps.

    The operations below work on the array, index by index, as the code does.
    [rep] relates an array to the list of its free ranges, and [In_free] to
    the set of free positions; the theorems are about that set. *)

From S2P Require Import Prelude.

Record rmap := Rmap { offset : Z; size : Z }.

#[global] Instance rmap_inhabited : Inhabited rmap := populate (Rmap 0 0).
#[global] Instance rmap_eq_dec : EqDecision rmap.
Proof. solve_decision. Defined.

(** ** The operations *)

Definition set_offset (v : Z) (e : rmap) : rmap := Rmap v (size e).
Definition set_size (v : Z) (e : rmap) : rmap := Rmap (offset e) v.

(** [rlim = &rmap[rmap->offset]] *)
Definition rlim_of (m : list rmap) : nat := Z.to_nat (offset (m !!! 0%nat)).

Definition rmap_init (m : list rmap) (sz : Z) : list rmap :=
  <[0%nat := Rmap 0 (u32 (sz - 1))]> m.

(** Result [true] is the code's 1: there is no room for the element. *)
Definition makespace (m : list rmap) (r : nat) : bool * list rmap :=
  let rlim := rlim_of m in
  if size (m !!! 0%nat) =? offset (m !!! 0%nat) then (true, m)
  else
    let m := alter (fun h => set_offset (u32 (offset h + 1)) h) 0%nat m in
    if (r <=? rlim)%nat then (false, memmove (S r) r (rlim - r + 1) m)
    else (false, m).

Definition collapse (m : list rmap) (r : nat) : list rmap :=
  let rlim := rlim_of m in
  let m := alter (fun h => set_offset (u32 (offset h - 1)) h) 0%nat m in
  if (r <? rlim)%nat then memmove r (S r) (rlim - r) m else m.

Definition rmap_alloc (m : list rmap) (sz : Z) : Z * list rmap :=
  let rlim := rlim_of m in
  let r := scan (fun e => sz <=? size e) m rlim 1 in
  if (rlim <? r)%nat then (0, m)
  else
    let idx := offset (m !!! r) in
    if sz <? size (m !!! r) then
      (idx, alter (fun e => Rmap (u32 (offset e + sz)) (u32 (size e - sz))) r m)
    else (idx, collapse m r).

(** The part of [rmap_free] after the loop: a new slot is needed.
    [lost] is the global [lost_elems].  *)
Definition free_insert (r : nat) (m : list rmap) (lost off sz : Z) : list rmap * Z :=
  match makespace m r with
  | (true, m') => (m', u32 (lost + sz))
  | (false, m') => (<[r := Rmap off sz]> m', lost)
  end.

(** The scan of [rmap_free] from slot [r], with [n] slots left to look at. *)
Fixpoint rmap_free_from (n r : nat) (m : list rmap) (lost off sz : Z) : list rmap * Z :=
  match n with
  | O => free_insert r m lost off sz
  | S n' =>
      let e := m !!! r in
      let rlim := rlim_of m in
      if u32 (offset e + size e) =? off then
        let m := alter (fun e => set_size (u32 (size e + sz)) e) r m in
        let e := m !!! r in
        if (r <? rlim)%nat && (u32 (offset e + size e) =? offset (m !!! S r)) then
          let m := alter (fun e => set_size (u32 (size e + size (m !!! S r))) e) r m in
          let m := alter (fun h => set_offset (u32 (offset h - 1)) h) 0%nat m in
          (if (S r <? rlim)%nat then memmove (S r) (S (S r)) (rlim - S r) m else m, lost)
        else (m, lost)
      else if u32 (off + sz) =? offset e then
        (alter (fun e => Rmap off (u32 (size e + sz))) r m, lost)
      else if off <? offset e then free_insert r m lost off sz
      else rmap_free_from n' (S r) m lost off sz
  end.

Definition rmap_free (m : list rmap) (lost off sz : Z) : list rmap * Z :=
  rmap_free_from (rlim_of m) 1 m lost off sz.

(** The body of [rmap_reserve] for the slot [r] that contains the requested
    start; result [true] is the code's 1 (failure). *)
Definition reserve_at (r : nat) (m : list rmap) (lost off sz : Z) : bool * (list rmap * Z) :=
  let e := m !!! r in
  let top := u32 (offset e + size e) in
  let rtop := u32 (off + sz) in
  if top <? rtop then (true, (m, lost))
  else if off =? offset e then
    let m := alter (fun e => Rmap (u32 (offset e + sz)) (u32 (size e - sz))) r m in
    (false, (if size (m !!! r) =? 0 then collapse m r else m, lost))
  else if rtop =? top then
    (false, (alter (fun e => set_size (u32 (size e - sz)) e) r m, lost))
  else
    match makespace m r with
    | (true, m) =>
        let osize := size (m !!! r) in
        let m := alter (fun e => Rmap rtop (u32 (top - rtop))) r m in
        (false, (m, u32 (lost + (osize - size (m !!! r) - sz))))
    | (false, m) =>
        let m := alter (fun e => set_size (u32 (off - offset e)) e) r m in
        (false, (<[S r := Rmap rtop (u32 (top - rtop))]> m, lost))
    end.

(** The scan of [rmap_reserve] from slot [r]. *)
Fixpoint rmap_reserve_from (n r : nat) (m : list rmap) (lost off sz : Z)
  : bool * (list rmap * Z) :=
  match n with
  | O => (true, (m, lost))
  | S n' =>
      let e := m !!! r in
      if off <? offset e then (true, (m, lost))
      else if negb ((offset e <=? off) && (off <? u32 (offset e + size e))) then
        rmap_reserve_from n' (S r) m lost off sz
      else reserve_at r m lost off sz
  end.

Definition rmap_reserve (m : list rmap) (lost off sz : Z) : bool * (list rmap * Z) :=
  rmap_reserve_from (rlim_of m) 1 m lost off sz.

Definition align_gap (align : Z) (e : rmap) : Z :=
  if offset e mod align =? 0 then 0 else u32 (align - offset e mod align).

Definition rmap_alloc_align (m : list rmap) (lost sz align : Z) : Z * (list rmap * Z) :=
  let rlim := rlim_of m in
  let r := scan (fun e => u32 (sz + align_gap align e) <=? size e) m rlim 1 in
  if (rlim <? r)%nat then (0, (m, lost))
  else
    let idx := u32 (offset (m !!! r) + align_gap align (m !!! r)) in
    match rmap_reserve m lost idx sz with
    | (true, st) => (0, st)
    | (false, st) => (idx, st)
    end.

Fixpoint rmap_status_from (n r : nat) (m : list rmap) (off sz : Z) : Z :=
  match n with
  | O => 1
  | S n' =>
      let e := m !!! r in
      if off <? offset e then
        if offset e <? u32 (off + sz) then -1 else 1
      else
        let top := u32 (offset e + size e) in
        if negb ((offset e <=? off) && (off <? top)) then rmap_status_from n' (S r) m off sz
        else if u32 (off + sz) <? top then 0 else -1
  end.

Definition rmap_status (m : list rmap) (off sz : Z) : Z :=
  rmap_status_from (rlim_of m) 1 m off sz.

(** ** What an array represents *)

(** The used slots of the array. *)
Definition ents (m : list rmap) : list rmap := take (rlim_of m) (drop 1 m).

(** [m] is a resource map with [cap] slots whose used slots hold [es]. *)
Definition rep (cap : nat) (es m : list rmap) : Prop :=
  Z.of_nat cap < W32 /\
  exists junk,
    m = Rmap (Z.of_nat (length es)) (Z.of_nat cap) :: es ++ junk /\
    (length es + length junk = cap)%nat.

(** Ascending, non-empty, non-adjacent ranges above [lo] inside the 32-bit
    range: the invariant the list of free ranges keeps. *)
Fixpoint chain (lo : Z) (l : list rmap) : Prop :=
  match l with
  | [] => True
  | e :: l' =>
      lo < offset e /\ 0 < size e /\ offset e + size e < W32 /\
      chain (offset e + size e) l'
  end.

(** The positions a list of ranges covers. *)
Fixpoint covers (l : list rmap) (y : Z) : Prop :=
  match l with
  | [] => False
  | e :: l' => (offset e <= y < offset e + size e) \/ covers l' y
  end.

(** The number of positions a list of ranges covers. *)
Fixpoint total (l : list rmap) : Z :=
  match l with [] => 0 | e :: l' => size e + total l' end.

Definition rmap_wf (m : list rmap) : Prop := exists cap, rep cap (ents m) m /\ chain 0 (ents m).

Definition In_free (m : list rmap) (y : Z) : Prop := covers (ents m) y.

Lemma rep_rlim cap es m : rep cap es m -> rlim_of m = length es.
Proof. intros (_ & junk & -> & _). unfold rlim_of. simpl. lia. Qed.

Lemma rep_ents cap es m : rep cap es m -> ents m = es.
Proof.
  intros H. unfold ents. rewrite (rep_rlim _ _ _ H).
  destruct H as (_ & junk & -> & _). simpl. by rewrite drop_0, take_app_length.
Qed.

Lemma rep_wf cap es m : rep cap es m -> chain 0 es -> rmap_wf m.
Proof. intros H C. exists cap. rewrite (rep_ents _ _ _ H). done. Qed.

Lemma rep_length cap es m : rep cap es m -> (length es <= cap)%nat.
Proof. intros (_ & junk & _ & ?). lia. Qed.

Lemma rep_lookup cap l1 e l2 m :
  rep cap (l1 ++ e :: l2) m -> m !!! S (length l1) = e.
Proof.
  intros (_ & junk & -> & _). simpl. rewrite <- app_assoc. apply lookup_total_mid.
Qed.

Lemma rep_alter cap l1 e l2 m f :
  rep cap (l1 ++ e :: l2) m ->
  rep cap (l1 ++ f e :: l2) (alter f (S (length l1)) m).
Proof.
  intros (Hc & junk & -> & Hl). split; [done|]. exists junk.
  rewrite !length_app in *. simpl in *. split; [| lia].
  rewrite <- !app_assoc. simpl.
  exact (f_equal (cons _) (alter_mid f l1 (l2 ++ junk) e)).
Qed.

Lemma rep_insert cap l1 e l2 m x :
  rep cap (l1 ++ e :: l2) m ->
  rep cap (l1 ++ x :: l2) (<[S (length l1) := x]> m).
Proof.
  intros (Hc & junk & -> & Hl). split; [done|]. exists junk.
  rewrite !length_app in *. simpl in *. split; [| lia].
  f_equal. rewrite <- !app_assoc. simpl. apply insert_mid.
Qed.

Lemma makespace_full cap es m r :
  rep cap es m -> length es = cap -> makespace m r = (true, m).
Proof.
  intros (_ & junk & -> & Hl) He. unfold makespace. simpl.
  by rewrite He, Z.eqb_refl.
Qed.

Lemma makespace_rep cap l1 l2 m :
  rep cap (l1 ++ l2) m -> length (l1 ++ l2) <> cap ->
  exists x m', makespace m (S (length l1)) = (false, m') /\
    rep cap (l1 ++ x :: l2) m' /\ (forall y l2', l2 = y :: l2' -> x = y).
Proof.
  intros H He. pose proof (rep_rlim _ _ _ H) as Hr.
  destruct H as (Hc & junk & -> & Hl).
  destruct junk as [|j junk]; [ simpl in Hl; lia |].
  rewrite length_app in *. simpl in Hl.
  set (x := match l2 with [] => j | y :: _ => y end).
  exists x, (Rmap (Z.of_nat (length l1 + S (length l2))) (Z.of_nat cap)
             :: (l1 ++ x :: l2) ++ junk).
  split; [| split; [| subst x; by intros ? ? ->]].
  2:{ split; [done|]. exists junk. rewrite !length_app. simpl. split; [done | lia]. }
  unfold makespace. rewrite Hr. simpl lookup_total. simpl size. simpl offset.
  destruct (Z.eqb_spec (Z.of_nat cap) (Z.of_nat (length l1 + length l2))); [lia|].
  change (alter ?f 0%nat (?h :: ?t)) with (f h :: t). unfold set_offset. simpl offset. simpl size.
  replace (u32 (Z.of_nat (length l1 + length l2) + 1))
    with (Z.of_nat (length l1 + S (length l2))) by (nowrap; lia).
  destruct (Nat.leb_spec (S (length l1)) (length l1 + length l2)) as [Hle|Hle].
  - f_equal.
    replace (length l1 + length l2 - S (length l1) + 1)%nat with (length l2) by lia.
    rewrite <- !app_assoc.
    exact (f_equal (cons _) (memmove_up l1 l2 j junk)).
  - subst x. destruct l2; [| simpl in Hle; lia]. by rewrite app_nil_r, <- app_assoc.
Qed.

Lemma collapse_rep cap l1 e l2 m :
  rep cap (l1 ++ e :: l2) m -> rep cap (l1 ++ l2) (collapse m (S (length l1))).
Proof.
  intros H. pose proof (rep_rlim _ _ _ H) as Hr.
  destruct H as (Hc & junk & -> & Hl). unfold collapse. rewrite Hr.
  change (alter ?f 0%nat (?h :: ?t)) with (f h :: t). unfold set_offset. simpl offset. simpl size.
  rewrite !length_app in *. simpl in Hl. cbn [length].
  replace (length l1 + S (length l2) - S (length l1))%nat with (length l2) by lia.
  replace (u32 (Z.of_nat (length l1 + S (length l2)) - 1))
    with (Z.of_nat (length (l1 ++ l2))) by (nowrap; rewrite length_app; lia).
  rewrite <- app_assoc. cbn [app].
  destruct (memmove_down l1 l2 e junk) as [j Hj].
  destruct (Nat.ltb_spec (S (length l1)) (length l1 + S (length l2))) as [Hle|Hle].
  - split; [done|]. exists (j :: junk). rewrite length_app. simpl. split; [| lia].
    rewrite <- app_assoc. rewrite <- length_app. exact (f_equal (cons _) Hj).
  - destruct l2; [| simpl in Hle; lia]. split; [done|]. exists (e :: junk).
    rewrite app_nil_r. simpl in *. split; [done | lia].
Qed.

Lemma scan_rep cap p l1 l2 m :
  rep cap (l1 ++ l2) m ->
  (exists l2a e l2b, l2 = l2a ++ e :: l2b /\ p e = true /\
     Forall (fun e => p e = false) l2a /\
     scan p m (length l2) (S (length l1)) = S (length (l1 ++ l2a))) \/
  (Forall (fun e => p e = false) l2 /\
   scan p m (length l2) (S (length l1)) = S (length (l1 ++ l2))).
Proof.
  revert l1. induction l2 as [|e l2 IH]; intros l1 H; simpl.
  - right. by rewrite app_nil_r.
  - pose proof (rep_lookup _ _ _ _ _ H) as He. rewrite He.
    destruct (p e) eqn:Hp.
    + left. exists [], e, l2. rewrite app_nil_r. done.
    + replace (l1 ++ e :: l2) with ((l1 ++ [e]) ++ l2) in H by (by rewrite <- app_assoc).
      replace (S (S (length l1))) with (S (length (l1 ++ [e])))
        by (rewrite length_app; simpl; lia).
      destruct (IH _ H) as [(l2a & e' & l2b & -> & Hp' & Hf & Hs)|[Hf Hs]]; rewrite Hs.
      * left. exists (e :: l2a), e', l2b. repeat split; auto.
        by rewrite <- app_assoc.
      * right. split; [by constructor|]. by rewrite <- app_assoc.
Qed.

(** ** Reference definitions on the list of ranges

    The same operations on an ideal list of ranges with unbounded integers.
    [full] says that the array has no slot left. *)

Fixpoint alloc_ref (sz : Z) (l : list rmap) : option (Z * list rmap) :=
  match l with
  | [] => None
  | e :: l' =>
      if sz <=? size e then
        Some (offset e, if sz <? size e then Rmap (offset e + sz) (size e - sz) :: l' else l')
      else
        match alloc_ref sz l' with
        | Some (idx, l'') => Some (idx, e :: l'')
        | None => None
        end
  end.

Fixpoint free_ref (full : bool) (off sz : Z) (l : list rmap) : option (list rmap) :=
  match l with
  | [] => if full then None else Some [Rmap off sz]
  | e :: l' =>
      if offset e + size e =? off then
        Some (match l' with
              | e' :: l'' =>
                  if off + sz =? offset e' then Rmap (offset e) (size e + sz + size e') :: l''
                  else Rmap (offset e) (size e + sz) :: l'
              | [] => [Rmap (offset e) (size e + sz)]
              end)
      else if off + sz =? offset e then Some (Rmap off (size e + sz) :: l')
      else if off <? offset e then if full then None else Some (Rmap off sz :: l)
      else option_map (cons e) (free_ref full off sz l')
  end.

(** The second component is the space that is lost when there is no slot for
    the lower half of a split range. *)
Definition reserve_at_ref (full : bool) (off sz : Z) (e : rmap) : option (list rmap * Z) :=
  let top := offset e + size e in
  if top <? off + sz then None
  else if off =? offset e then
    Some (if size e =? sz then [] else [Rmap (off + sz) (size e - sz)], 0)
  else if off + sz =? top then Some ([Rmap (offset e) (size e - sz)], 0)
  else if full then Some ([Rmap (off + sz) (top - (off + sz))], off - offset e)
  else Some ([Rmap (offset e) (off - offset e); Rmap (off + sz) (top - (off + sz))], 0).

Fixpoint reserve_ref (full : bool) (off sz : Z) (l : list rmap) : option (list rmap * Z) :=
  match l with
  | [] => None
  | e :: l' =>
      if off <? offset e then None
      else if off <? offset e + size e then
        match reserve_at_ref full off sz e with
        | Some (es, lost) => Some (es ++ l', lost)
        | None => None
        end
      else
        match reserve_ref full off sz l' with
        | Some (l'', lost) => Some (e :: l'', lost)
        | None => None
        end
  end.

Lemma chain_weaken lo lo' l : chain lo l -> lo' <= lo -> chain lo' l.
Proof. destruct l; simpl; [done|]. intros (?&?&?&?) ?. repeat split; auto; lia. Qed.

Lemma chain_app lo l1 e l2 :
  chain lo (l1 ++ e :: l2) ->
  chain lo l1 /\ lo < offset e /\ 0 < size e /\ offset e + size e < W32 /\
  chain (offset e + size e) l2.
Proof.
  revert lo. induction l1 as [|e1 l1 IH]; simpl; intros lo H.
  - tauto.
  - destruct H as (?&?&?&H). destruct (IH _ H) as (?&?&?&?&?). repeat split; auto; lia.
Qed.

(** The array operations implement the reference definitions. *)

Lemma rmap_alloc_rep cap es m sz :
  rep cap es m -> chain 0 es -> 0 <= sz < W32 ->
  match alloc_ref sz es with
  | Some (idx, es') => exists m', rmap_alloc m sz = (idx, m') /\ rep cap es' m'
  | None => rmap_alloc m sz = (0, m)
  end.
Proof.
  intros H C Hsz. unfold rmap_alloc. rewrite (rep_rlim _ _ _ H).
  destruct (scan_rep cap (fun e => sz <=? size e) [] es m H)
    as [(l1 & e & l2 & -> & Hp & Hf & Hs)|[Hf Hs]]; simpl in Hs; rewrite Hs.
  - destruct (Nat.ltb_spec (length (l1 ++ e :: l2)) (S (length l1))) as [Hlt|_].
    { rewrite length_app in Hlt. simpl in Hlt. lia. }
    rewrite (rep_lookup _ _ _ _ _ H).
    destruct (chain_app _ _ _ _ C) as (_&?&?&?&_). breflect.
    assert (alloc_ref sz (l1 ++ e :: l2) = Some (offset e,
      l1 ++ (if sz <? size e then [Rmap (offset e + sz) (size e - sz)] else []) ++ l2)) as ->.
    { clear H Hs C. induction Hf as [|x l1 Hx Hf IH]; simpl.
      - destruct (Z.leb_spec sz (size e)); [|lia]. by destruct (sz <? size e).
      - by rewrite Hx, IH. }
    destruct (Z.ltb_spec sz (size e)); (eexists; split; [reflexivity|]).
    + apply (rep_alter _ _ _ _ _
        (fun e => Rmap (u32 (offset e + sz)) (u32 (size e - sz)))) in H.
      cbn beta in H. rewrite (u32_small (offset e + sz)), (u32_small (size e - sz)) in H
        by u32_lia. exact H.
    + simpl. by eapply collapse_rep.
  - destruct (Nat.ltb_spec (length es) (S (length es))); [|lia].
    assert (alloc_ref sz es = None) as ->; [|done].
    clear -Hf. induction Hf as [|x l Hx Hf IH]; simpl; [done|]. by rewrite Hx, IH.
Qed.

Lemma free_insert_rep cap l1 l2 m lost off sz :
  rep cap (l1 ++ l2) m ->
  match (if bool_decide (length (l1 ++ l2) = cap) then None else Some (Rmap off sz :: l2)) with
  | Some l2' => exists m', free_insert (S (length l1)) m lost off sz = (m', lost) /\
                           rep cap (l1 ++ l2') m'
  | None => free_insert (S (length l1)) m lost off sz = (m, u32 (lost + sz))
  end.
Proof.
  intros H. unfold free_insert. case_bool_decide as Hd.
  - by rewrite (makespace_full _ _ _ _ H Hd).
  - destruct (makespace_rep _ _ _ _ H Hd) as (x & m' & -> & Hm & _).
    eexists; split; [reflexivity|]. by eapply rep_insert.
Qed.

(** Joining slot [r] with the slot after it. *)
Lemma coalesce_rep cap l1 e e' l2 m rlim :
  rep cap (l1 ++ e :: e' :: l2) m -> rlim = length (l1 ++ e :: e' :: l2) ->
  size e + size e' < W32 -> 0 <= size e -> 0 <= size e' ->
  let r := S (length l1) in
  let m1 := alter (fun e => set_size (u32 (size e + size e')) e) r m in
  let m2 := alter (fun h => set_offset (u32 (offset h - 1)) h) 0%nat m1 in
  rep cap (l1 ++ Rmap (offset e) (size e + size e') :: l2)
    (if (S r <? rlim)%nat then memmove (S r) (S (S r)) (rlim - S r) m2 else m2).
Proof.
  intros H -> Hb Hp Hp' r m1 m2.
  pose proof (rep_alter _ _ _ _ _ (fun e => set_size (u32 (size e + size e')) e) H) as H2.
  cbn beta in H2. unfold set_size in H2 at 1.
  rewrite (u32_small (size e + size e')) in H2 by u32_lia.
  set (x := Rmap (offset e) (size e + size e')) in *.
  replace (l1 ++ x :: e' :: l2) with ((l1 ++ [x]) ++ e' :: l2) in H2 by (by rewrite <- app_assoc).
  pose proof (collapse_rep _ _ _ _ _ H2) as H3. unfold collapse in H3.
  rewrite (rep_rlim _ _ _ H2), <- app_assoc, !length_app in H3. rewrite length_app.
  cbn [length app] in *. rewrite Nat.add_1_r in H3.
  replace (S (length l1) + S (length l2))%nat with (length l1 + S (S (length l2)))%nat
    in H3 by lia.
  exact H3.
Qed.

Lemma rep_lookup_next cap l1 e e' l2 m :
  rep cap (l1 ++ e :: e' :: l2) m -> m !!! S (S (length l1)) = e'.
Proof.
  intros H. pose proof (rep_lookup cap (l1 ++ [e]) e' l2 m) as Q.
  rewrite <- app_assoc, length_app in Q. simpl in Q. rewrite Nat.add_1_r in Q. by apply Q.
Qed.

Lemma rep_insert_next cap l1 e e' l2 m x :
  rep cap (l1 ++ e :: e' :: l2) m ->
  rep cap (l1 ++ e :: x :: l2) (<[S (S (length l1)) := x]> m).
Proof.
  intros H. pose proof (rep_insert cap (l1 ++ [e]) e' l2 m x) as Q.
  rewrite <- !app_assoc, length_app in Q. simpl in Q. rewrite Nat.add_1_r in Q. by apply Q.
Qed.

Lemma free_extend_rep cap l1 e l2 m sz off :
  rep cap (l1 ++ e :: l2) m -> chain 0 (l1 ++ e :: l2) ->
  0 < sz -> off + sz < W32 -> offset e + size e = off ->
  (forall y, off <= y < off + sz -> ~ covers l2 y) ->
  let r := S (length l1) in
  let rlim := rlim_of m in
  let m1 := alter (fun e => set_size (u32 (size e + sz)) e) r m in
  let e1 := m1 !!! r in
  rep cap
    (l1 ++ match l2 with
           | e' :: l'' =>
               if off + sz =? offset e' then Rmap (offset e) (size e + sz + size e') :: l''
               else Rmap (offset e) (size e + sz) :: l2
           | [] => [Rmap (offset e) (size e + sz)]
           end)
    (if (r <? rlim)%nat && (u32 (offset e1 + size e1) =? offset (m1 !!! S r)) then
       let m2 := alter (fun e => set_size (u32 (size e + size (m1 !!! S r))) e) r m1 in
       let m3 := alter (fun h => set_offset (u32 (offset h - 1)) h) 0%nat m2 in
       if (S r <? rlim)%nat then memmove (S r) (S (S r)) (rlim - S r) m3 else m3
     else m1).
Proof.
  intros H C Hsz Hb He Hd r rlim m1 e1.
  destruct (chain_app _ _ _ _ C) as (_&Hlo&Hpos&Hmax&C2).
  pose proof (rep_alter _ _ _ _ _ (fun e => set_size (u32 (size e + sz)) e) H) as H1.
  cbn beta in H1. unfold set_size in H1 at 1.
  rewrite (u32_small (size e + sz)) in H1 by u32_lia.
  fold r in H1. fold m1 in H1. subst e1 rlim r. rewrite (rep_rlim _ _ _ H).
  rewrite (rep_lookup _ _ _ _ _ H1). cbn [offset size].
  rewrite (u32_small (offset e + (size e + sz))) by u32_lia.
  destruct l2 as [|e' l2].
  - destruct (Nat.ltb_spec (S (length l1)) (length (l1 ++ [e]))) as [Hl|Hl]; [|done].
    rewrite length_app in Hl; simpl in Hl; lia.
  - simpl in C2. destruct C2 as (Hlo'&Hpos'&Hmax'&_).
    destruct (Nat.ltb_spec (S (length l1)) (length (l1 ++ e :: e' :: l2))) as [Hl|Hl];
      [|rewrite length_app in Hl; simpl in Hl; lia].
    rewrite (rep_lookup_next _ _ _ _ _ _ H1). cbn [andb].
    replace (offset e + (size e + sz)) with (off + sz) by lia.
    destruct (Z.eqb_spec (off + sz) (offset e')) as [Hc|Hc]; [|done].
    refine (coalesce_rep _ _ _ _ _ _ _ H1 _ _ _ _); [by rewrite !length_app|..];
      cbn [offset size]; lia.
Qed.

Lemma rmap_free_from_rep cap l1 l2 m lost off sz :
  rep cap (l1 ++ l2) m -> chain 0 (l1 ++ l2) ->
  0 < sz -> 0 < off -> off + sz < W32 -> (forall y, off <= y < off + sz -> ~ covers l2 y) ->
  match free_ref (bool_decide (length (l1 ++ l2) = cap)) off sz l2 with
  | Some l2' => exists m', rmap_free_from (length l2) (S (length l1)) m lost off sz = (m', lost)
                           /\ rep cap (l1 ++ l2') m'
  | None => rmap_free_from (length l2) (S (length l1)) m lost off sz = (m, u32 (lost + sz))
  end.
Proof.
  intros H C Hsz Hoff Hb Hd. revert l1 H C.
  induction l2 as [|e l2 IH]; intros l1 H C; [exact (free_insert_rep _ l1 [] _ lost off sz H)|].
  destruct (chain_app _ _ _ _ C) as (_&Hlo&Hpos&Hmax&_).
  assert (Hd2 : forall y, off <= y < off + sz -> ~ covers l2 y)
    by (intros y Hy c; exact (Hd y Hy (or_intror c))).
  cbn [length rmap_free_from free_ref].
  rewrite (rep_lookup _ _ _ _ _ H).
  rewrite (u32_small (offset e + size e)) by u32_lia.
  rewrite (u32_small (off + sz)) by u32_lia.
  destruct (Z.eqb_spec (offset e + size e) off) as [He|He].
  { pose proof (free_extend_rep _ _ _ _ _ _ _ H C Hsz Hb He Hd2) as R. cbv zeta in *.
    destruct (_ && _); (eexists; split; [reflexivity | exact R]). }
  destruct (Z.eqb_spec (off + sz) (offset e)) as [Hc|Hc].
  { eexists; split; [reflexivity|].
    pose proof (rep_alter _ _ _ _ _ (fun e => Rmap off (u32 (size e + sz))) H) as H1.
    cbn beta in H1. by rewrite (u32_small (size e + sz)) in H1 by u32_lia. }
  destruct (Z.ltb_spec off (offset e)) as [Hlt|Hlt];
    [exact (free_insert_rep _ l1 (e :: l2) _ lost off sz H)|].
  replace (l1 ++ e :: l2) with ((l1 ++ [e]) ++ l2) in * by (by rewrite <- app_assoc).
  replace (S (S (length l1))) with (S (length (l1 ++ [e])))
    by (rewrite length_app; simpl; lia).
  specialize (IH Hd2 _ H C).
  destruct (free_ref _ off sz l2); simpl; [|done].
  by rewrite <- app_assoc in IH.
Qed.

Lemma reserve_at_rep cap l1 e l2 m lost off sz :
  rep cap (l1 ++ e :: l2) m -> chain 0 (l1 ++ e :: l2) ->
  0 < sz -> off + sz < W32 -> is_u32 lost -> offset e <= off < offset e + size e ->
  match reserve_at_ref (bool_decide (length (l1 ++ e :: l2) = cap)) off sz e with
  | Some (es, k) => exists m', reserve_at (S (length l1)) m lost off sz =
                      (false, (m', u32 (lost + k))) /\ rep cap (l1 ++ es ++ l2) m'
  | None => reserve_at (S (length l1)) m lost off sz = (true, (m, lost))
  end.
Proof.
  intros H C Hsz Hb Hlost Hin.
  destruct (chain_app _ _ _ _ C) as (_&Hlo&Hpos&Hmax&_).
  unfold reserve_at, reserve_at_ref. rewrite (rep_lookup _ _ _ _ _ H).
  rewrite (u32_small (offset e + size e)), (u32_small (off + sz)) by u32_lia.
  destruct (Z.ltb_spec (offset e + size e) (off + sz)); [done|].
  assert (Hk : u32 (lost + 0) = lost) by (rewrite Z.add_0_r; by apply u32_small).
  destruct (Z.eqb_spec off (offset e)) as [He|He].
  { rewrite Hk. eexists; split; [reflexivity|].
    pose proof (rep_alter _ _ _ _ _
      (fun e => Rmap (u32 (offset e + sz)) (u32 (size e - sz))) H) as R.
    cbn beta in R.
    rewrite (u32_small (offset e + sz)), (u32_small (size e - sz)) in R by u32_lia.
    rewrite (rep_lookup _ _ _ _ _ R). cbn [size]. rewrite He.
    destruct (Z.eqb_spec (size e - sz) 0), (Z.eqb_spec (size e) sz); try lia; [|done].
    by eapply collapse_rep. }
  destruct (Z.eqb_spec (off + sz) (offset e + size e)).
  { rewrite Hk. eexists; split; [reflexivity|].
    pose proof (rep_alter _ _ _ _ _ (fun e => set_size (u32 (size e - sz)) e) H) as R.
    cbn beta in R. unfold set_size in R at 1.
    by rewrite (u32_small (size e - sz)) in R by u32_lia. }
  rewrite (u32_small (offset e + size e - (off + sz))) by u32_lia.
  case_bool_decide as Hd.
  - rewrite (makespace_full _ _ _ _ H Hd), (rep_lookup _ _ _ _ _ H).
    pose proof (rep_alter _ _ _ _ _
      (fun _ => Rmap (off + sz) (offset e + size e - (off + sz))) H) as R.
    cbn beta in R. rewrite (rep_lookup _ _ _ _ _ R). cbn [size].
    eexists; split; [|exact R]. do 3 f_equal. lia.
  - destruct (makespace_rep _ _ _ _ H Hd) as (x & m' & -> & R & Hx).
    specialize (Hx _ _ eq_refl) as ->. rewrite Hk. eexists; split; [reflexivity|].
    apply (rep_alter _ _ _ _ _ (fun e => set_size (u32 (off - offset e)) e)) in R.
    cbn beta in R. unfold set_size in R at 1.
    rewrite (u32_small (off - offset e)) in R by u32_lia.
    by eapply rep_insert_next.
Qed.

Lemma rmap_reserve_from_rep cap l1 l2 m lost off sz :
  rep cap (l1 ++ l2) m -> chain 0 (l1 ++ l2) ->
  0 < sz -> 0 < off -> off + sz < W32 -> is_u32 lost ->
  match reserve_ref (bool_decide (length (l1 ++ l2) = cap)) off sz l2 with
  | Some (l2', k) =>
      exists m', rmap_reserve_from (length l2) (S (length l1)) m lost off sz =
                   (false, (m', u32 (lost + k))) /\ rep cap (l1 ++ l2') m'
  | None => rmap_reserve_from (length l2) (S (length l1)) m lost off sz = (true, (m, lost))
  end.
Proof.
  intros H C Hsz Hoff Hb Hlost. revert l1 H C.
  induction l2 as [|e l2 IH]; intros l1 H C; [done|].
  destruct (chain_app _ _ _ _ C) as (_&Hlo&Hpos&Hmax&_).
  cbn [length rmap_reserve_from reserve_ref]. rewrite (rep_lookup _ _ _ _ _ H).
  destruct (Z.ltb_spec off (offset e)) as [?|Hge]; [done|].
  rewrite (u32_small (offset e + size e)) by u32_lia.
  destruct (Z.leb_spec (offset e) off); [|lia]. cbn [andb].
  destruct (Z.ltb_spec off (offset e + size e)) as [Hin|Hout]; cbn [negb].
  - pose proof (reserve_at_rep _ _ _ _ _ lost off sz H C Hsz Hb Hlost (conj Hge Hin)) as R.
    destruct (reserve_at_ref _ off sz e) as [[es k]|]; done.
  - replace (l1 ++ e :: l2) with ((l1 ++ [e]) ++ l2) in * by (by rewrite <- app_assoc).
    replace (S (S (length l1))) with (S (length (l1 ++ [e])))
      by (rewrite length_app; simpl; lia).
    specialize (IH _ H C). destruct (reserve_ref _ off sz l2) as [[l' k]|]; [|done].
    by rewrite <- app_assoc in IH.
Qed.

(** ** The set of free positions *)

Lemma chain_covers lo l y : chain lo l -> covers l y -> lo < y /\ y + 1 < W32.
Proof.
  revert lo. induction l as [|e l IH]; simpl; [done|].
  intros lo (?&?&?&C) [?|Hc]; [lia|]. specialize (IH _ C Hc). lia.
Qed.

(** Free ranges are maximal: a run of free positions lies in one range. *)
Lemma chain_run lo l x n :
  chain lo l -> 0 < n -> (forall y, x <= y < x + n -> covers l y) ->
  Exists (fun e => offset e <= x /\ x + n <= offset e + size e) l.
Proof.
  revert lo. induction l as [|e l IH]; simpl; intros lo C Hn Hr.
  - destruct (Hr x); lia.
  - destruct C as (?&?&?&C). destruct (Hr x) as [Hx|Hx]; [lia| |].
    + left. split; [lia|]. destruct (Z.le_gt_cases (x + n) (offset e + size e)); [done|].
      destruct (Hr (offset e + size e)) as [?|Hc]; [lia..|].
      pose proof (chain_covers _ _ _ C Hc). lia.
    + right. apply (IH _ C Hn). intros y Hy.
      pose proof (chain_covers _ _ _ C Hx). destruct (Hr y Hy); [lia|done].
Qed.

Lemma chain_mem lo l e :
  chain lo l -> e ∈ l -> lo < offset e /\ 0 < size e /\ offset e + size e < W32.
Proof.
  intros C He. apply list_elem_of_split in He as (l1 & l2 & ->).
  apply chain_app in C. tauto.
Qed.

Lemma covers_mem l e y : e ∈ l -> offset e <= y < offset e + size e -> covers l y.
Proof. induction 1; simpl; auto. Qed.

Lemma alloc_ref_some lo l sz idx l' :
  chain lo l -> 0 < sz -> alloc_ref sz l = Some (idx, l') ->
  lo < idx /\ (forall y, idx <= y < idx + sz -> covers l y) /\ chain lo l' /\
  (forall y, covers l' y <-> covers l y /\ ~ (idx <= y < idx + sz)) /\ total l' = total l - sz.
Proof.
  revert lo l'. induction l as [|e l IH]; simpl; intros lo l' C Hsz Ha; [done|].
  destruct C as (Hlo&Hpos&Hmax&C).
  assert (Hl : forall y, covers l y -> offset e + size e < y)
    by (intros y Hy; apply (chain_covers _ _ _ C Hy)).
  destruct (Z.leb_spec sz (size e)).
  - simplify_eq. destruct (Z.ltb_spec sz (size e)); simpl.
    + split_and!; try lia; auto.
      * by replace (offset e + sz + (size e - sz)) with (offset e + size e) by lia.
      * intros y. specialize (Hl y). intuition lia.
    + split_and!; try lia; [auto..|].
      * eapply chain_weaken; [done|lia].
      * intros y. specialize (Hl y). intuition lia.
  - destruct (alloc_ref sz l) as [[i l'']|]; simplify_eq.
    destruct (IH _ _ C Hsz eq_refl) as (?&Hr&?&Hc&Ht). simpl. split_and!; try lia; auto.
    intros y. rewrite Hc. specialize (Hl y). specialize (Hr y). intuition lia.
Qed.

Lemma alloc_ref_none l sz :
  alloc_ref sz l = None -> Forall (fun e => size e < sz) l.
Proof.
  induction l as [|e l IH]; simpl; [by constructor|].
  destruct (Z.leb_spec sz (size e)); [done|].
  destruct (alloc_ref sz l) as [[]|]; [done|]. auto.
Qed.

Lemma free_ref_some lo l full off sz l' :
  chain lo l -> 0 < sz -> lo < off -> off + sz < W32 ->
  (forall y, off <= y < off + sz -> ~ covers l y) ->
  free_ref full off sz l = Some l' ->
  chain lo l' /\ (forall y, covers l' y <-> covers l y \/ off <= y < off + sz) /\
  total l' = total l + sz.
Proof.
  revert lo l'. induction l as [|e l IH]; simpl; intros lo l' C Hsz Hlo' Hb Hd Hf.
  - destruct full; simplify_eq. simpl. repeat split; auto; lia.
  - destruct C as (Hlo&Hpos&Hmax&C).
    assert (Hd1 : off + sz <= offset e \/ offset e + size e <= off).
    { destruct (Z.le_gt_cases (off + sz) (offset e)); [by left|right].
      destruct (Z.le_gt_cases (offset e + size e) off); [done|].
      destruct (Hd (Z.max off (offset e))); lia. }
    assert (Hd2 : forall y, off <= y < off + sz -> ~ covers l y) by (intros y Hy c; eapply Hd; eauto).
    destruct (Z.eqb_spec (offset e + size e) off) as [Heq|Heq].
    + injection Hf as <-.
      destruct l as [|e' l]; simpl in *; [split_and!; auto; try lia; intros; lia|].
      destruct C as (Hlo2&Hpos2&Hmax2&C2).
      assert (off + sz <= offset e').
      { destruct (Z.le_gt_cases (off + sz) (offset e')); [done|]. destruct (Hd2 (offset e')); lia. }
      destruct (Z.eqb_spec (off + sz) (offset e')); simpl; split_and!; auto; try lia;
        try (intros y; split; intros; intuition lia).
      by replace (offset e + (size e + sz + size e')) with (offset e' + size e') by lia.
    + destruct (Z.eqb_spec (off + sz) (offset e)) as [Heq'|Heq'].
      { injection Hf as <-. simpl. split_and!; auto; try lia; [|intros y; intuition lia].
        by replace (off + (size e + sz)) with (offset e + size e) by lia. }
      destruct (Z.ltb_spec off (offset e)).
      { destruct full; [done|]. injection Hf as <-. simpl.
        split_and!; auto; try lia. intros y. intuition lia. }
      destruct (free_ref full off sz l) as [l2|] eqn:E; [|done].
      injection Hf as <-. simpl.
      assert (offset e + size e < off) as Hoff by lia.
      destruct (IH _ _ C Hsz Hoff Hb Hd2 eq_refl) as (?&Hc&Ht).
      split_and!; auto; try lia. intros y. rewrite Hc. tauto.
Qed.

Lemma free_ref_none l full off sz : free_ref full off sz l = None -> full = true.
Proof.
  induction l as [|e l IH]; simpl; [by destruct full|].
  destruct (offset e + size e =? off); [done|]. destruct (off + sz =? offset e); [done|].
  destruct (off <? offset e); [by destruct full|].
  destruct (free_ref full off sz l); [done|auto].
Qed.

Lemma reserve_at_ref_some full off sz e es k :
  0 < sz -> 0 < size e -> offset e <= off < offset e + size e ->
  reserve_at_ref full off sz e = Some (es, k) ->
  off + sz <= offset e + size e /\ 0 <= k <= off - offset e /\ (full = false -> k = 0) /\
  (forall l lo, lo < offset e -> offset e + size e < W32 ->
     chain (offset e + size e) l -> chain lo (es ++ l)) /\
  (forall y, covers es y <->
     (offset e <= y < offset e + size e) /\ ~ (off - k <= y < off + sz)) /\
  total es = size e - sz - k.
Proof.
  unfold reserve_at_ref. intros Hsz Hpos Hin.
  destruct (Z.ltb_spec (offset e + size e) (off + sz)); [done|].
  destruct (Z.eqb_spec off (offset e)) as [Ho|Ho].
  { intros [= <- <-]. destruct (Z.eqb_spec (size e) sz); simpl; split_and!; auto; try lia.
    - intros. eapply chain_weaken; [done|lia].
    - intros. split_and!; try lia. eapply chain_weaken; [done|lia]. }
  destruct (Z.eqb_spec (off + sz) (offset e + size e)) as [Ht|Ht].
  { intros [= <- <-]. simpl. split_and!; auto; try lia.
    intros. split_and!; try lia. eapply chain_weaken; [done|lia]. }
  destruct full; intros [= <- <-]; simpl; split_and!; auto; try lia; intros; split_and!; try lia;
    (eapply chain_weaken; [done|lia]).
Qed.

Lemma covers_app l1 l2 y : covers (l1 ++ l2) y <-> covers l1 y \/ covers l2 y.
Proof. induction l1; simpl; tauto. Qed.

Lemma total_app l1 l2 : total (l1 ++ l2) = total l1 + total l2.
Proof. induction l1; simpl; lia. Qed.

Lemma reserve_ref_some lo l full off sz l' k :
  chain lo l -> 0 < sz -> reserve_ref full off sz l = Some (l', k) ->
  (forall y, off <= y < off + sz -> covers l y) /\ 0 <= k < off - lo /\ (full = false -> k = 0) /\
  chain lo l' /\ (forall y, covers l' y <-> covers l y /\ ~ (off - k <= y < off + sz)) /\
  total l' = total l - sz - k.
Proof.
  revert lo l'. induction l as [|e l IH]; simpl; intros lo l' C Hsz Hr; [done|].
  destruct C as (Hlo&Hpos&Hmax&C).
  assert (Hl : forall y, covers l y -> offset e + size e < y)
    by (intros y Hy; apply (chain_covers _ _ _ C Hy)).
  destruct (Z.ltb_spec off (offset e)); [done|].
  destruct (Z.ltb_spec off (offset e + size e)).
  - destruct (reserve_at_ref full off sz e) as [[es k']|] eqn:E; [|done].
    injection Hr as <- <-.
    destruct (reserve_at_ref_some _ _ _ _ _ _ Hsz Hpos (conj H H0) E) as (?&?&?&Hch&Hc&Ht).
    split_and!; [intros y ?; left; lia|lia|lia|auto|auto| |rewrite total_app; lia].
    intros y. rewrite covers_app, Hc. specialize (Hl y). intuition lia.
  - destruct (reserve_ref full off sz l) as [[l2 k']|] eqn:E; [|done].
    injection Hr as <- <-. destruct (IH _ _ C Hsz eq_refl) as (Hin&?&?&?&Hc&Ht).
    simpl. split_and!; auto; try lia. intros y. rewrite Hc. intuition lia.
Qed.

Lemma reserve_ref_none lo l full off sz :
  chain lo l -> 0 < sz -> reserve_ref full off sz l = None ->
  ~ (forall y, off <= y < off + sz -> covers l y).
Proof.
  revert lo. induction l as [|e l IH]; simpl; intros lo C Hsz Hr Hall; [apply (Hall off); lia|].
  destruct C as (Hlo&Hpos&Hmax&C).
  assert (Hl : forall y, covers l y -> offset e + size e < y)
    by (intros y Hy; apply (chain_covers _ _ _ C Hy)).
  destruct (Z.ltb_spec off (offset e)).
  { destruct (Hall off) as [?|Hc]; [lia..|]. specialize (Hl _ Hc). lia. }
  destruct (Z.ltb_spec off (offset e + size e)).
  - unfold reserve_at_ref in Hr.
    destruct (Z.ltb_spec (offset e + size e) (off + sz)); [|by repeat case_match].
    destruct (Hall (offset e + size e)) as [?|Hc]; [lia..|]. specialize (Hl _ Hc). lia.
  - destruct (reserve_ref full off sz l) as [[]|]; [done|]. apply (IH _ C Hsz eq_refl).
    intros y Hy. destruct (Hall y Hy); [lia|done].
Qed.

(** Free ranges are a canonical form: the free set determines the list. *)
Lemma chain_ext lo lo' l l' :
  chain lo l -> chain lo' l' -> (forall y, covers l y <-> covers l' y) -> l = l'.
Proof.
  revert lo lo' l'. induction l as [|[o s] l IH]; intros lo lo' [|[o' s'] l'] C C' Heq; simpl in *.
  - done.
  - destruct (proj2 (Heq o')). left; lia.
  - destruct (proj1 (Heq o)). left; lia.
  - destruct C as (?&?&?&C), C' as (?&?&?&C').
    assert (Hb := fun y => chain_covers _ _ y C). assert (Hb' := fun y => chain_covers _ _ y C').
    assert (o = o') as <-.
    { destruct (proj1 (Heq o)) as [?|Hc]; [lia| |apply Hb' in Hc];
      (destruct (proj2 (Heq o')) as [?|Hc']; [lia| |apply Hb in Hc']); lia. }
    assert (s = s') as <-.
    { destruct (Z.lt_total s s') as [Hs|[?|Hs]]; [|done|].
      - destruct (proj2 (Heq (o + s))) as [?|Hc]; [lia|lia|apply Hb in Hc; lia].
      - destruct (proj1 (Heq (o + s'))) as [?|Hc]; [lia|lia|apply Hb' in Hc; lia]. }
    f_equal. apply (IH _ _ _ C C'). intros y. specialize (Heq y).
    specialize (Hb y). specialize (Hb' y). intuition lia.
Qed.

Lemma alloc_free_ref lo l sz idx l' cap :
  chain lo l -> 0 < sz -> alloc_ref sz l = Some (idx, l') -> (length l <= cap)%nat ->
  lo < idx /\ free_ref (bool_decide (length l' = cap)) idx sz l' = Some l.
Proof.
  revert lo l' cap. induction l as [|[o s] l IH]; simpl; intros lo l' cap C Hsz Ha Hcap; [done|].
  destruct C as (Hlo&Hpos&Hmax&C).
  destruct (Z.leb_spec sz s).
  - injection Ha as <- <-. split; [done|]. destruct (Z.ltb_spec sz s); simpl.
    + destruct (Z.eqb_spec (o + sz + (s - sz)) o); [lia|]. rewrite Z.eqb_refl.
      do 2 f_equal. f_equal. lia.
    + assert (s = sz) as -> by lia. rewrite bool_decide_false by lia.
      destruct l as [|[o2 s2] l]; simpl in *; [done|]. destruct C as (?&?&?&?).
      destruct (Z.eqb_spec (o2 + s2) o); [lia|]. destruct (Z.eqb_spec (o + sz) o2); [lia|].
      destruct (Z.ltb_spec o o2); [done|lia].
  - destruct (alloc_ref sz l) as [[i l2]|] eqn:E; [|done]. injection Ha as <- <-.
    destruct (alloc_ref_some _ _ _ _ _ C Hsz E) as (?&_&_&_&_).
    destruct (IH _ _ (pred cap) C Hsz eq_refl ltac:(lia)) as [? IHf]. simpl. split; [lia|].
    destruct (Z.eqb_spec (o + s) i); [lia|]. destruct (Z.eqb_spec (i + sz) o); [lia|].
    destruct (Z.ltb_spec i o); [lia|].
    replace (bool_decide (S (length l2) = cap)) with (bool_decide (length l2 = pred cap))
      by (apply bool_decide_ext; lia).
    by rewrite IHf.
Qed.

(** ** The contract of the operations

    Shared lemmas on well-formed maps, in terms of the set of free positions. *)

(** [In_range off sz y]: position [y] lies in the [sz] positions from [off]. *)
Definition In_range (off sz y : Z) : Prop := off <= y < off + sz.

Lemma rmap_init_rep m sz :
  0 < sz < W32 -> length m = Z.to_nat sz -> rep (Z.to_nat (sz - 1)) [] (rmap_init m sz).
Proof.
  intros Hsz Hl. unfold rmap_init. rewrite u32_small by u32_lia.
  destruct m as [|h m]; simpl in *; [lia|]. split; [lia|]. exists m. split; [|simpl; lia].
  simpl. do 2 f_equal. lia.
Qed.

Lemma rmap_alloc_spec m sz :
  rmap_wf m -> 0 < sz < W32 ->
  match rmap_alloc m sz with
  | (idx, m') =>
      rmap_wf m' /\
      ((idx = 0 /\ m' = m /\
        forall x, ~ (forall y, In_range x sz y -> In_free m y)) \/
       (0 < idx /\ (forall y, In_range idx sz y -> In_free m y) /\
        (forall y, In_free m' y <-> In_free m y /\ ~ In_range idx sz y) /\
        total (ents m') = total (ents m) - sz))
  end.
Proof.
  intros (cap & R & C) Hsz. unfold In_free, In_range.
  pose proof (rmap_alloc_rep _ _ _ sz R C ltac:(lia)) as H.
  destruct (alloc_ref sz (ents m)) as [[idx es']|] eqn:E.
  - destruct H as (m' & -> & R').
    destruct (alloc_ref_some _ _ _ _ _ C (proj1 Hsz) E) as (?&?&?&?&?).
    split; [by eapply rep_wf|]. right. rewrite (rep_ents _ _ _ R'). auto.
  - rewrite H. split; [by exists cap|]. left. split_and!; [done..|]. intros x Hx.
    apply alloc_ref_none in E.
    pose proof (chain_run _ _ x sz C (proj1 Hsz) Hx) as Hrun.
    apply Exists_exists in Hrun as (e & He & ? & ?).
    pose proof (proj1 (Forall_forall _ _) E e He). simpl in *. lia.
Qed.

Lemma rmap_free_spec m lost off sz :
  rmap_wf m -> 0 < sz -> 0 < off -> off + sz < W32 ->
  (forall y, In_range off sz y -> ~ In_free m y) ->
  match rmap_free m lost off sz with
  | (m', lost') =>
      rmap_wf m' /\
      ((lost' = lost /\ (forall y, In_free m' y <-> In_free m y \/ In_range off sz y) /\
        total (ents m') = total (ents m) + sz) \/
       (lost' = u32 (lost + sz) /\ m' = m /\ size (m !!! 0%nat) = offset (m !!! 0%nat)))
  end.
Proof.
  intros (cap & R & C) Hsz Hoff Hb Hd. unfold In_free, In_range in *.
  pose proof (rmap_free_from_rep cap [] _ m lost off sz R C Hsz Hoff Hb Hd) as H.
  unfold rmap_free. rewrite (rep_rlim _ _ _ R). simpl in H.
  destruct (free_ref _ off sz (ents m)) as [es'|] eqn:E.
  - destruct H as (m' & -> & R').
    destruct (free_ref_some _ _ _ _ _ _ C Hsz Hoff Hb Hd E) as (?&?&?).
    split; [by eapply rep_wf|]. left. rewrite (rep_ents _ _ _ R'). auto.
  - rewrite H. apply free_ref_none, bool_decide_eq_true in E.
    split; [by exists cap|]. right. split_and!; [done..|].
    destruct R as (_ & junk & -> & _). simpl. by rewrite E.
Qed.

Lemma rmap_reserve_spec m lost off sz :
  rmap_wf m -> 0 < sz -> 0 < off -> off + sz < W32 -> is_u32 lost ->
  match rmap_reserve m lost off sz with
  | (true, (m', lost')) =>
      m' = m /\ lost' = lost /\ ~ (forall y, In_range off sz y -> In_free m y)
  | (false, (m', lost')) =>
      rmap_wf m' /\ (forall y, In_range off sz y -> In_free m y) /\
      exists k, 0 <= k < off /\ lost' = u32 (lost + k) /\
        (k <> 0 -> size (m !!! 0%nat) = offset (m !!! 0%nat)) /\
        (forall y, In_free m' y <-> In_free m y /\ ~ In_range (off - k) (sz + k) y) /\
        total (ents m') = total (ents m) - sz - k
  end.
Proof.
  intros (cap & R & C) Hsz Hoff Hb Hlost. unfold In_free, In_range.
  pose proof (rmap_reserve_from_rep cap [] _ m lost off sz R C Hsz Hoff Hb Hlost) as H.
  unfold rmap_reserve. rewrite (rep_rlim _ _ _ R). simpl in H.
  destruct (reserve_ref _ off sz (ents m)) as [[es' k]|] eqn:E.
  - destruct H as (m' & -> & R').
    destruct (reserve_ref_some _ _ _ _ _ _ _ C Hsz E) as (Hin&?&Hk&?&Hc&?).
    split_and!; [by eapply rep_wf|done|]. exists k.
    rewrite (rep_ents _ _ _ R'). split_and!; auto; try lia.
    + intros Hk0. case_bool_decide as Hd; [|specialize (Hk eq_refl); lia].
      destruct R as (_ & junk & -> & _). simpl. by rewrite Hd.
    + intros y. rewrite Hc. intuition lia.
  - rewrite H. split_and!; [done..|]. by eapply reserve_ref_none.
Qed.

Lemma alloc_ref_least lo l sz idx l' x :
  chain lo l -> 0 < sz -> alloc_ref sz l = Some (idx, l') ->
  (forall y, In_range x sz y -> covers l y) -> idx <= x.
Proof.
  intros C Hsz Ha Hx. apply (chain_run _ _ _ _ C Hsz) in Hx. revert lo C l' Ha.
  induction l as [|e l IH]; simpl; intros lo C l' Ha; [by apply Exists_nil in Hx|].
  destruct C as (_&_&_&C). apply Exists_cons in Hx.
  destruct (Z.leb_spec sz (size e)).
  - injection Ha as <- <-. destruct Hx as [?|Hx]; [lia|].
    apply Exists_exists in Hx as (e' & He' & ? & ?).
    pose proof (chain_mem _ _ _ C He'). lia.
  - destruct (alloc_ref sz l) as [[i l2]|] eqn:E; [|done]. injection Ha as <- <-.
    destruct Hx as [?|Hx]; [lia|]. eauto.
Qed.

Lemma align_gap_spec align e :
  0 < align < W32 -> 0 <= offset e ->
  0 <= align_gap align e < align /\ (offset e + align_gap align e) mod align = 0 /\
  (forall x, offset e <= x -> x mod align = 0 -> offset e + align_gap align e <= x).
Proof.
  intros Ha Ho. unfold align_gap. pose proof (Z.mod_pos_bound (offset e) align).
  destruct (Z.eqb_spec (offset e mod align) 0) as [Hz|Hz].
  - rewrite Z.add_0_r. split_and!; auto; lia.
  - rewrite u32_small by u32_lia.
    pose proof (Z.div_mod (offset e) align ltac:(lia)) as Hdm.
    replace (offset e + (align - offset e mod align)) with ((offset e / align + 1) * align) by lia.
    split_and!; [lia|lia|apply Z.mod_mul; lia|]. intros x Hx Hxa.
    pose proof (Z.div_mod x align ltac:(lia)) as Hxm. rewrite Hxa, Z.add_0_r in Hxm.
    assert (offset e / align < x / align) by nia. nia.
Qed.

Lemma rmap_alloc_align_spec m lost sz align :
  rmap_wf m -> 0 < sz -> 0 < align -> sz + align < W32 -> is_u32 lost ->
  match rmap_alloc_align m lost sz align with
  | (idx, (m', lost')) =>
      rmap_wf m' /\
      ((idx = 0 /\ m' = m /\ lost' = lost /\
        forall x, x mod align = 0 -> ~ (forall y, In_range x sz y -> In_free m y)) \/
       (0 < idx /\ idx mod align = 0 /\ rmap_reserve m lost idx sz = (false, (m', lost')) /\
        forall y, In_range idx sz y -> In_free m y))
  end.
Proof.
  intros W Hsz Hal Hb Hlost. pose proof W as (cap & R & C).
  unfold rmap_alloc_align. rewrite (rep_rlim _ _ _ R).
  assert (Hg : forall e, e ∈ ents m -> u32 (sz + align_gap align e) = sz + align_gap align e).
  { intros e He. apply (chain_mem _ _ _ C) in He as (?&_&_).
    destruct (align_gap_spec align e) as (?&_&_); [lia..|]. apply u32_small. unfold is_u32. lia. }
  destruct (scan_rep cap (fun e => u32 (sz + align_gap align e) <=? size e) [] (ents m) m R)
    as [(l1 & e & l2 & Hl & Hp & _ & Hs)|[Hf Hs]]; simpl in Hs; rewrite Hs.
  - assert (He : e ∈ ents m) by (rewrite Hl; apply elem_of_mid).
    rewrite Hg in Hp by done. breflect.
    destruct (chain_mem _ _ _ C He) as (?&?&?).
    destruct (align_gap_spec align e) as (?&Hmod&_); [lia..|].
    assert (length (ents m) = length l1 + S (length l2))%nat by (by rewrite Hl, length_app).
    destruct (Nat.ltb_spec (length (ents m)) (S (length l1))); [lia|].
    rewrite (rep_lookup cap l1 e l2) by (by rewrite <- Hl).
    rewrite (u32_small (offset e + _)) by u32_lia.
    remember (offset e + align_gap align e) as idx eqn:Hidx in *.
    assert (Hfree : forall y, In_range idx sz y -> In_free m y).
    { intros y Hy. unfold In_range in Hy. eapply covers_mem; [done|]. lia. }
    pose proof (rmap_reserve_spec m lost idx sz W Hsz ltac:(lia) ltac:(lia) Hlost) as Hr.
    destruct (rmap_reserve m lost idx sz) as [[] [m' lost']] eqn:E.
    + destruct Hr as (_&_&Hno). done.
    + destruct Hr as (?&_&_). split; [done|]. right. split_and!; auto; lia.
  - destruct (Nat.ltb_spec (length (ents m)) (S (length (ents m)))); [|lia].
    split; [done|]. left. split_and!; [done..|]. intros x Hxa Hx.
    apply (chain_run _ _ _ _ C Hsz) in Hx.
    apply Exists_exists in Hx as (e & He & ? & ?).
    pose proof (proj1 (Forall_forall _ _) Hf e He) as Hfe. simpl in Hfe.
    rewrite Hg in Hfe by done. breflect.
    destruct (chain_mem _ _ _ C He) as (?&?&?).
    destruct (align_gap_spec align e) as (?&_&Hleast); [lia..|].
    specialize (Hleast x ltac:(lia) Hxa). lia.
Qed.

Lemma rmap_status_from_rep cap l1 l2 m off sz :
  rep cap (l1 ++ l2) m -> chain 0 (l1 ++ l2) -> 0 < sz -> 0 < off -> off + sz < W32 ->
  match rmap_status_from (length l2) (S (length l1)) m off sz with
  | 1 => forall y, In_range off sz y -> ~ covers l2 y
  | 0 => forall y, In_range off (sz + 1) y -> covers l2 y
  | -1 => (exists y, In_range off sz y /\ covers l2 y) /\
          ~ (forall y, In_range off (sz + 1) y -> covers l2 y)
  | _ => False
  end.
Proof.
  intros H C Hsz Hoff Hb. unfold In_range. revert l1 H C.
  induction l2 as [|e l2 IH]; intros l1 H C; [simpl; auto|].
  destruct (chain_app _ _ _ _ C) as (_&Hlo&Hpos&Hmax&C2).
  assert (Hl : forall y, covers l2 y -> offset e + size e < y)
    by (intros y Hy; apply (chain_covers _ _ _ C2 Hy)).
  cbn [length rmap_status_from]. rewrite (rep_lookup _ _ _ _ _ H).
  rewrite (u32_small (offset e + size e)), (u32_small (off + sz)) by u32_lia.
  destruct (Z.ltb_spec off (offset e)).
  - destruct (Z.ltb_spec (offset e) (off + sz)); simpl.
    + split; [exists (offset e); lia|]. intros Hall.
      destruct (Hall off) as [?|Hc]; [lia..|]. apply Hl in Hc. lia.
    + intros y Hy [?|Hc]; [lia|]. apply Hl in Hc. lia.
  - destruct (Z.leb_spec (offset e) off); [|lia]. cbn [andb].
    destruct (Z.ltb_spec off (offset e + size e)); cbn [negb].
    + destruct (Z.ltb_spec (off + sz) (offset e + size e)); simpl; [intros; left; lia|].
      split; [exists off; lia|]. intros Hall.
      destruct (Hall (offset e + size e)) as [?|Hc]; [lia..|]. apply Hl in Hc. lia.
    + replace (l1 ++ e :: l2) with ((l1 ++ [e]) ++ l2) in * by (by rewrite <- app_assoc).
      replace (S (S (length l1))) with (S (length (l1 ++ [e])))
        by (rewrite length_app; simpl; lia).
      specialize (IH _ H C). cbn [covers].
      destruct (rmap_status_from _ _ m off sz) as [|[]|[]]; try done.
      * auto.
      * intros y Hy [?|?]; [lia|]. by eapply IH.
      * destruct IH as [(y & ? & ?) Hno]. split; [exists y; auto|].
        intros Hall. apply Hno. intros z Hz. destruct (Hall z Hz); [lia|done].
Qed.

(** ** Clients of a map

    The protocol of a client: it takes ranges with [rmap_alloc],
    [rmap_alloc_align] and [rmap_reserve] and gives back ranges it owns with
    [rmap_free].  A state is the map, the global [lost_elems] and the ranges
    that are handed out. *)

Record pool := Pool { p_map : list rmap; p_lost : Z; p_owned : list (Z * Z) }.

Inductive pool_step : pool -> pool -> Prop :=
| ps_alloc m lost own sz idx m' :
    0 < sz < W32 -> rmap_alloc m sz = (idx, m') -> idx <> 0 ->
    pool_step (Pool m lost own) (Pool m' lost ((idx, sz) :: own))
| ps_alloc_align m lost own sz align idx m' lost' :
    0 < sz -> 0 < align -> sz + align < W32 ->
    rmap_alloc_align m lost sz align = (idx, (m', lost')) -> idx <> 0 ->
    pool_step (Pool m lost own) (Pool m' lost' ((idx, sz) :: own))
| ps_reserve m lost own off sz m' lost' :
    0 < sz -> 0 < off -> off + sz < W32 ->
    rmap_reserve m lost off sz = (false, (m', lost')) ->
    pool_step (Pool m lost own) (Pool m' lost' ((off, sz) :: own))
| ps_free m lost own1 off sz own2 m' lost' :
    rmap_free m lost off sz = (m', lost') ->
    pool_step (Pool m lost (own1 ++ (off, sz) :: own2)) (Pool m' lost' (own1 ++ own2)).

(** A map of [n] slots managing the [len] positions from [base]. *)
Definition pool_init (n : nat) (base len : Z) : pool :=
  let '(m, lost) := rmap_free (rmap_init (replicate n (Rmap 0 0)) (Z.of_nat n)) 0 base len in
  Pool m lost [].

Definition disjoint (a b : Z * Z) : Prop :=
  forall y, In_range a.1 a.2 y -> ~ In_range b.1 b.2 y.

Fixpoint all_disjoint (l : list (Z * Z)) : Prop :=
  match l with
  | [] => True
  | a :: l' => (forall b, b ∈ l' -> disjoint a b) /\ all_disjoint l'
  end.

Record pool_inv (base len : Z) (p : pool) : Prop := {
  pi_wf : rmap_wf (p_map p);
  pi_lost : is_u32 (p_lost p);
  pi_owned : forall a y, a ∈ p_owned p -> In_range a.1 a.2 y ->
               In_range base len y /\ ~ In_free (p_map p) y;
  pi_pos : forall a, a ∈ p_owned p -> 0 < a.1 /\ 0 < a.2 /\ a.1 + a.2 < W32;
  pi_disj : all_disjoint (p_owned p);
  pi_free : forall y, In_free (p_map p) y -> In_range base len y;
}.

Lemma pool_take base len m lost own m' lost' off sz :
  pool_inv base len (Pool m lost own) -> rmap_wf m' -> is_u32 lost' ->
  0 < off -> 0 < sz -> off + sz < W32 ->
  (forall y, In_range off sz y -> In_free m y) ->
  (forall y, In_free m' y -> In_free m y /\ ~ In_range off sz y) ->
  pool_inv base len (Pool m' lost' ((off, sz) :: own)).
Proof.
  intros [? _ Ho Hp Hd Hf] W L ? ? ? Hin Hout. simpl in *. split; simpl; [done|done|..].
  - intros a y Ha Hy. apply elem_of_cons in Ha as [->|Ha].
    + split; [by apply Hf, Hin|]. intros ?. by apply (Hout y).
    + destruct (Ho a y Ha Hy) as [? Hn]. split; [done|]. intros Hc. by apply Hn, Hout.
  - intros a Ha. apply elem_of_cons in Ha as [->|Ha]; [done|auto].
  - split; [|done]. intros b Hb y Hy Hyb. by destruct (Ho b y Hb Hyb) as [_ []]; auto.
  - intros y Hy. apply Hf. by apply Hout.
Qed.

Lemma all_disjoint_app l1 a l2 :
  all_disjoint (l1 ++ a :: l2) ->
  all_disjoint (l1 ++ l2) /\ forall b, b ∈ l1 ++ l2 -> disjoint a b /\ disjoint b a.
Proof.
  induction l1 as [|c l1 IH]; simpl.
  - intros [Ha Hl]. split; [done|]. intros b Hb. split; [by apply Ha|].
    intros y Hy Hy'. by apply (Ha b Hb y).
  - intros [Hc Hl]. destruct (IH Hl) as [Hl' Ha]. split.
    + split; [|done]. intros b Hb. by apply Hc, elem_of_mid_weaken.
    + intros b Hb. apply elem_of_cons in Hb as [->|Hb]; [|by apply Ha].
      assert (disjoint c a) as Hca by (apply Hc, elem_of_mid).
      split; [|done]. intros y Hy Hy'. by apply (Hca y).
Qed.

Lemma pool_give base len m lost own1 off sz own2 m' lost' :
  pool_inv base len (Pool m lost (own1 ++ (off, sz) :: own2)) ->
  rmap_free m lost off sz = (m', lost') ->
  pool_inv base len (Pool m' lost' (own1 ++ own2)).
Proof.
  intros [W L Ho Hp Hd Hf] E. simpl in *.
  assert (Hmem : (off, sz) ∈ own1 ++ (off, sz) :: own2) by apply elem_of_mid.
  destruct (Hp _ Hmem) as (?&?&?). simpl in *.
  assert (Hmine : forall y, In_range off sz y -> ~ In_free m y)
    by (intros y Hy; by apply (Ho _ y Hmem)).
  destruct (all_disjoint_app _ _ _ Hd) as [Hd' Hda].
  assert (Hsub : forall a, a ∈ own1 ++ own2 -> a ∈ own1 ++ (off, sz) :: own2)
    by (intros a; apply elem_of_mid_weaken).
  pose proof (rmap_free_spec m lost off sz W ltac:(lia) ltac:(lia) ltac:(lia) Hmine) as Hs.
  rewrite E in Hs.
  assert (is_u32 lost') by (destruct Hs as [_ [(-> & _)|(-> & _)]]; [done|apply u32_range]).
  assert (Hs' : forall y, In_free m' y -> In_free m y \/ In_range off sz y)
    by (destruct Hs as [_ [(_ & Hs & _)|(_ & -> & _)]]; [intros y; apply Hs|auto]).
  destruct Hs as [W' _]. split; simpl; auto.
  - intros a y Ha Hy. destruct (Ho a y (Hsub a Ha) Hy) as [? Hn]. split; [done|].
    intros [?|Hr]%Hs'; [done|]. destruct (Hda a Ha) as [Hda1 _]. by apply (Hda1 y).
  - intros y [?|?]%Hs'; [by apply Hf|]. by apply (Ho _ y Hmem).
Qed.

(** A range that was handed out lies below the 32-bit limit. *)
Lemma taken_bound m off sz :
  rmap_wf m -> 0 < sz -> (forall y, In_range off sz y -> In_free m y) -> off + sz < W32.
Proof.
  intros (cap & _ & C) Hsz Hin.
  destruct (chain_covers _ _ (off + sz - 1) C); [|lia].
  apply Hin. unfold In_range. lia.
Qed.

Lemma alloc_free_run m sz lost idx m' :
  rmap_wf m -> 0 < sz < W32 -> rmap_alloc m sz = (idx, m') -> idx <> 0 ->
  exists m'', rmap_free m' lost idx sz = (m'', lost) /\ ents m'' = ents m /\ rmap_wf m''.
Proof.
  intros W Hsz E Hidx. pose proof W as (cap & R & C).
  pose proof (rmap_alloc_rep _ _ _ sz R C ltac:(lia)) as Ha. rewrite E in Ha.
  destruct (alloc_ref sz (ents m)) as [[i es]|] eqn:Ea; [|injection Ha as -> _; lia].
  destruct Ha as (m1 & [= <- <-] & R').
  destruct (alloc_free_ref _ _ _ _ _ cap C (proj1 Hsz) Ea (rep_length _ _ _ R)) as [Hpos Hf].
  destruct (alloc_ref_some _ _ _ _ _ C (proj1 Hsz) Ea) as (_&Hin&C'&Hc&_).
  pose proof (taken_bound m idx sz W (proj1 Hsz) Hin) as Hb.
  pose proof (rmap_free_from_rep cap [] es m' lost idx sz R' C' (proj1 Hsz) Hpos Hb) as Hfr.
  simpl in Hfr. rewrite Hf in Hfr. destruct Hfr as (m2 & Hm2 & R2).
  { intros y Hy. rewrite Hc. tauto. }
  exists m2. unfold rmap_free. rewrite (rep_rlim _ _ _ R'), (rep_ents _ _ _ R2).
  split_and!; [done|done|by eapply rep_wf].
Qed.

(** The first fit: where there is a run, the lowest one is taken. *)
Lemma alloc_least m sz idx m' x :
  rmap_wf m -> 0 < sz < W32 -> rmap_alloc m sz = (idx, m') ->
  (forall y, In_range x sz y -> In_free m y) ->
  0 < idx /\ idx <= x /\ (forall y, In_range idx sz y -> In_free m y).
Proof.
  intros W Hsz E Hx. pose proof (rmap_alloc_spec m sz W Hsz) as Hs. rewrite E in Hs.
  destruct Hs as [_ [(_ & _ & Hno)|(Hp & Hin & _)]]; [by destruct (Hno x)|].
  split_and!; [done| |done].
  destruct W as (cap & R & C). pose proof (rmap_alloc_rep _ _ _ sz R C ltac:(lia)) as Ha.
  destruct (alloc_ref sz (ents m)) as [[i es]|] eqn:Ea; rewrite E in Ha;
    [destruct Ha as (? & [= <- _] & _)|injection Ha as -> _; lia].
  exact (alloc_ref_least _ _ _ _ _ x C (proj1 Hsz) Ea Hx).
Qed.

Lemma pool_reserve base len m lost own off sz m' lost' :
  rmap_wf m -> is_u32 lost -> pool_inv base len (Pool m lost own) ->
  0 < sz -> 0 < off -> off + sz < W32 ->
  rmap_reserve m lost off sz = (false, (m', lost')) ->
  pool_inv base len (Pool m' lost' ((off, sz) :: own)).
Proof.
  intros W L I Hsz Hoff Hb E.
  pose proof (rmap_reserve_spec m lost off sz W Hsz Hoff Hb L) as Hs. rewrite E in Hs.
  destruct Hs as (W' & Hin & k & ? & -> & _ & Hs & _).
  eapply pool_take; eauto; [apply u32_range|]. intros y [? Hn]%Hs. split; [done|].
  unfold In_range in *. lia.
Qed.

Lemma pool_step_inv base len p p' : pool_step p p' -> pool_inv base len p -> pool_inv base len p'.
Proof.
  intros Hst I. pose proof (pi_wf _ _ _ I) as W. pose proof (pi_lost _ _ _ I) as L.
  destruct Hst as [m lost own sz idx m' Hsz E Hi|m lost own sz align idx m' lost' Hsz Hal Hb E Hi
                  |m lost own off sz m' lost' Hsz Hoff Hb E|m lost own1 off sz own2 m' lost' E];
    simpl in W, L; [| |by eapply pool_reserve|by eapply pool_give].
  - pose proof (rmap_alloc_spec m sz W Hsz) as Hs. rewrite E in Hs.
    destruct Hs as [W' [(?&_)|(?&Hin&Hs&_)]]; [done|].
    eapply pool_take; eauto; [lia|exact (taken_bound m idx sz W (proj1 Hsz) Hin)|by intros y Hy%Hs].
  - pose proof (rmap_alloc_align_spec m lost sz align W Hsz Hal Hb L) as Hs. rewrite E in Hs.
    destruct Hs as [W' [(?&_)|(?&_&Hr&Hin)]]; [done|].
    apply (pool_reserve _ _ m lost own idx sz m' lost'); auto. exact (taken_bound m idx sz W Hsz Hin).
Qed.

Lemma pool_init_inv n base len :
  (1 < n)%nat -> Z.of_nat n < W32 -> 0 < base -> 0 < len -> base + len < W32 ->
  pool_inv base len (pool_init n base len) /\
  (forall y, In_free (p_map (pool_init n base len)) y <-> In_range base len y) /\
  p_owned (pool_init n base len) = [].
Proof.
  intros Hn Hn' Hb Hl Hbl. unfold pool_init.
  pose proof (rmap_init_rep (replicate n (Rmap 0 0)) (Z.of_nat n) ltac:(lia)) as R.
  rewrite length_replicate in R. specialize (R ltac:(lia)).
  set (m0 := rmap_init _ _) in *.
  pose proof (rep_wf _ _ _ R I) as W. pose proof (rep_ents _ _ _ R) as E0.
  assert (Hno : forall y, ~ In_free m0 y) by (intros y; unfold In_free; rewrite E0; simpl; tauto).
  pose proof (rmap_free_spec m0 0 base len W Hl Hb Hbl (fun y _ => Hno y)) as Hs.
  destruct (rmap_free m0 0 base len) as [m lost].
  destruct Hs as [W' [(-> & Hs & _)|(_ & _ & Hfull)]].
  - assert (Hs' : forall y, In_free m y <-> In_range base len y)
      by (intros y; rewrite Hs; specialize (Hno y); tauto).
    split_and!; [|done|done]. split; simpl; auto; [by split|..].
    + intros a y Ha. by apply elem_of_nil in Ha.
    + intros a Ha. by apply elem_of_nil in Ha.
    + intros y. by rewrite Hs'.
  - destruct R as (_ & junk & Hm & Hj). rewrite Hm in Hfull. simpl in Hfull. lia.
Qed.

(** ** Properties *)

(** A map with four slots and the free ranges 10-14 and 20-25; and the same
    free ranges in a map without a spare slot. *)
Definition demo : list rmap := [Rmap 2 4; Rmap 10 5; Rmap 20 6; Rmap 0 0; Rmap 0 0].
Definition demo_full : list rmap := [Rmap 2 2; Rmap 10 5; Rmap 20 6].

Lemma demo_wf : rmap_wf demo.
Proof.
  apply (rep_wf 4 [Rmap 10 5; Rmap 20 6]); [|by repeat split].
  split; [done|]. by exists [Rmap 0 0; Rmap 0 0].
Qed.

Lemma demo_full_wf : rmap_wf demo_full.
Proof.
  apply (rep_wf 2 [Rmap 10 5; Rmap 20 6]); [|by repeat split]. split; [done|]. by exists [].
Qed.

(** C16: [rmap_alloc] is a complete first-fit allocator.  On a well-formed map
    it fails (result 0, map unchanged) exactly when no run of [sz] free
    positions exists; otherwise it returns the lowest start of such a run,
    takes exactly the [sz] positions from it out of the free set, and keeps
    the map well-formed. *)
Theorem rmap_alloc_first_fit m sz :
  rmap_wf m -> 0 < sz < W32 ->
  match rmap_alloc m sz with
  | (idx, m') =>
      rmap_wf m' /\
      (idx = 0 <-> forall x, ~ (forall y, In_range x sz y -> In_free m y)) /\
      (idx = 0 -> m' = m) /\
      (idx <> 0 ->
       (forall y, In_range idx sz y -> In_free m y) /\
       (forall x, (forall y, In_range x sz y -> In_free m y) -> idx <= x) /\
       (forall y, In_free m' y <-> In_free m y /\ ~ In_range idx sz y))
  end.
Proof.
  intros W Hsz. pose proof (rmap_alloc_spec m sz W Hsz) as Hs.
  destruct (rmap_alloc m sz) as [idx m'] eqn:E.
  destruct Hs as [W' [(-> & -> & Hno)|(Hp & Hin & Hs & _)]]; (split; [done|]).
  - split_and!; [done|done|lia].
  - split_and!; [split; [lia|intros Hno; by destruct (Hno idx)]|lia|]. intros _.
    split_and!; [done| |done]. intros x Hx. by apply (alloc_least m sz idx m' x W Hsz E).
Qed.

Lemma rmap_alloc_first_fit_witness :
  rmap_alloc demo 6 = (20, [Rmap 1 4; Rmap 10 5; Rmap 20 6; Rmap 0 0; Rmap 0 0]) /\
  forall x, (forall y, In_range x 6 y -> In_free demo y) -> 20 <= x.
Proof.
  split; [reflexivity|].
  destruct (rmap_alloc_first_fit demo 6 demo_wf ltac:(u32_lia)) as (_ & _ & _ & H).
  apply H. discriminate.
Defined.

(** Giving back what [rmap_alloc] handed out restores the map: the list of
    free ranges is the one before the allocation and nothing is lost, even
    when every slot of the map is in use. *)
Theorem rmap_alloc_free_roundtrip m sz lost idx m' :
  rmap_wf m -> 0 < sz < W32 -> rmap_alloc m sz = (idx, m') -> idx <> 0 ->
  exists m'', rmap_free m' lost idx sz = (m'', lost) /\ ents m'' = ents m /\ rmap_wf m''.
Proof.
  intros W Hsz E Hidx. exact (alloc_free_run m sz lost idx m' W Hsz E Hidx).
Qed.

Lemma rmap_alloc_free_roundtrip_witness :
  exists m'', rmap_free (rmap_alloc demo_full 3).2 7 10 3 = (m'', 7) /\
              ents m'' = ents demo_full /\ rmap_wf m''.
Proof.
  apply (rmap_alloc_free_roundtrip demo_full 3 7 10 (rmap_alloc demo_full 3).2 demo_full_wf);
    [u32_lia|reflexivity|discriminate].
Defined.

(** [rmap_reserve] succeeds exactly when the whole requested range is free.
    It then takes the range; only when every slot is in use may it also lose
    [k] positions directly below the range, which are added to [lost_elems]. *)
Theorem rmap_reserve_exact m lost off sz :
  rmap_wf m -> 0 < sz -> 0 < off -> off + sz < W32 -> is_u32 lost ->
  match rmap_reserve m lost off sz with
  | (failed, (m', lost')) =>
      (failed = false <-> forall y, In_range off sz y -> In_free m y) /\
      (failed = true -> m' = m /\ lost' = lost) /\
      (failed = false ->
       rmap_wf m' /\ exists k, 0 <= k /\ lost' = u32 (lost + k) /\
         (k <> 0 -> size (m !!! 0%nat) = offset (m !!! 0%nat)) /\
         (forall y, In_free m' y <-> In_free m y /\ ~ In_range (off - k) (sz + k) y) /\
         total (ents m') + sz + k = total (ents m))
  end.
Proof.
  intros W Hsz Hoff Hb L. pose proof (rmap_reserve_spec m lost off sz W Hsz Hoff Hb L) as Hs.
  destruct (rmap_reserve m lost off sz) as [[] [m' lost']].
  - destruct Hs as (-> & -> & Hno). split_and!; [|done|done]. split; [done|]. intros Hin. by destruct Hno.
  - destruct Hs as (W' & Hin & k & ? & -> & Hk & Hs & Ht). split_and!; [done|done|]. intros _.
    split; [done|]. exists k. split_and!; auto; lia.
Qed.

Lemma rmap_reserve_exact_witness :
  rmap_reserve demo_full 0 12 2 = (false, ([Rmap 2 2; Rmap 14 1; Rmap 20 6], 2)) /\
  forall y, In_range 12 2 y -> In_free demo_full y.
Proof.
  split; [reflexivity|].
  destruct (rmap_reserve_exact demo_full 0 12 2 demo_full_wf) as (H & _ & _);
    [u32_lia..|]. by apply H.
Defined.

(** [rmap_alloc_align] returns an aligned start of a free run and reserves
    exactly that run, or returns 0 with the map unchanged when no aligned run
    of the requested length is free. *)
Theorem rmap_alloc_align_correct m lost sz align :
  rmap_wf m -> 0 < sz -> 0 < align -> sz + align < W32 -> is_u32 lost ->
  match rmap_alloc_align m lost sz align with
  | (idx, (m', lost')) =>
      rmap_wf m' /\
      (idx = 0 <-> forall x, x mod align = 0 -> ~ (forall y, In_range x sz y -> In_free m y)) /\
      (idx = 0 -> m' = m /\ lost' = lost) /\
      (idx <> 0 -> idx mod align = 0 /\ (forall y, In_range idx sz y -> In_free m y) /\
                   rmap_reserve m lost idx sz = (false, (m', lost')))
  end.
Proof.
  intros W Hsz Hal Hb L. pose proof (rmap_alloc_align_spec m lost sz align W Hsz Hal Hb L) as Hs.
  destruct (rmap_alloc_align m lost sz align) as [idx [m' lost']].
  destruct Hs as [W' [(-> & -> & -> & Hno)|(Hp & Hmod & Hr & Hin)]]; (split; [done|]).
  - split_and!; [done|done|lia].
  - split_and!; [split; [lia|]|lia|done]. intros Hno. by destruct (Hno idx).
Qed.

Lemma rmap_alloc_align_correct_witness :
  rmap_alloc_align demo 0 3 8 = (0, (demo, 0)) /\
  ~ (forall y, In_range 16 3 y -> In_free demo y) /\
  (rmap_alloc_align demo 0 3 4).1 = 12 /\ 12 mod 4 = 0.
Proof.
  split_and!; [reflexivity| |reflexivity|].
  - destruct (rmap_alloc_align_correct demo 0 3 8 demo_wf) as (_ & H & _);
      [u32_lia..|]. by apply H.
  - destruct (rmap_alloc_align_correct demo 0 3 4 demo_wf) as (_ & _ & _ & H);
      [u32_lia..|]. by apply H.
Defined.

(** What [rmap_status] reports.  1 is returned exactly when no position of
    the range is free.  0 is returned exactly when the range and the position
    behind it are free, so a free range that ends where its free block ends is
    reported as partially allocated (-1), unlike the comment in the code says. *)
Theorem rmap_status_exact m off sz :
  rmap_wf m -> 0 < sz -> 0 < off -> off + sz < W32 ->
  (rmap_status m off sz = 1 <-> forall y, In_range off sz y -> ~ In_free m y) /\
  (rmap_status m off sz = 0 <-> forall y, In_range off (sz + 1) y -> In_free m y) /\
  (rmap_status m off sz = 1 \/ rmap_status m off sz = 0 \/ rmap_status m off sz = -1).
Proof.
  intros (cap & R & C) Hsz Hoff Hb.
  pose proof (rmap_status_from_rep cap [] (ents m) m off sz R C Hsz Hoff Hb) as H.
  unfold rmap_status, In_free. rewrite (rep_rlim _ _ _ R). simpl in H.
  assert (Hr : In_range off sz off /\ In_range off (sz + 1) off) by (unfold In_range; lia).
  destruct (rmap_status_from _ 1 m off sz) as [|[]|[]]; try done.
  - split_and!; [split; [done|]|done|lia]. intros Hno. exfalso. exact (Hno off (proj1 Hr) (H off (proj2 Hr))).
  - split_and!; [done|split; [done|]|lia]. intros Hall. exfalso. exact (H off (proj1 Hr) (Hall off (proj2 Hr))).
  - destruct H as [(y & Hy & Hc) Hno]. split_and!; [split; [done|]|split; [done|]|lia].
    + intros Hall. exfalso. exact (Hall y Hy Hc).
    + intros Hall. exfalso. exact (Hno Hall).
Qed.

Lemma rmap_status_exact_witness :
  rmap_status demo 20 6 = -1 /\ (forall y, In_range 20 6 y -> In_free demo y) /\
  (forall y, In_range 20 (5 + 1) y -> In_free demo y) /\
  (forall y, In_range 15 5 y -> ~ In_free demo y).
Proof.
  destruct (rmap_status_exact demo 20 5 demo_wf) as (_ & H & _); [u32_lia..|].
  destruct (rmap_status_exact demo 15 5 demo_wf) as (H' & _ & _); [u32_lia..|].
  split_and!; [reflexivity|by apply H|by apply H|by apply H'].
Defined.

(** Safety of the address-space allocators built on resource maps.  In
    every state that a client reaches from a fresh map by allocating,
    reserving and freeing what it owns, the ranges handed out are pairwise
    disjoint, lie in the managed space and contain no position the map still
    counts as free. *)
Theorem pool_safety n base len p :
  (1 < n)%nat -> Z.of_nat n < W32 -> 0 < base -> 0 < len -> base + len < W32 ->
  rtc pool_step (pool_init n base len) p ->
  rmap_wf (p_map p) /\ all_disjoint (p_owned p) /\
  forall a y, a ∈ p_owned p -> In_range a.1 a.2 y ->
    In_range base len y /\ ~ In_free (p_map p) y.
Proof.
  intros Hn Hn' Hb Hl Hbl Hst.
  assert (pool_inv base len p) as [W _ Ho _ Hd _]; [|done].
  pose proof (proj1 (pool_init_inv n base len Hn Hn' Hb Hl Hbl)) as I. revert I.
  induction Hst as [|p1 p2 p3 H12 _ IH]; [done|]. eauto using pool_step_inv.
Qed.

Lemma pool_safety_witness :
  let p := Pool (rmap_alloc (p_map (pool_init 8 16 100)) 10).2 0 [(16, 10)] in
  rtc pool_step (pool_init 8 16 100) p /\ rmap_wf (p_map p) /\
  ~ In_free (p_map p) 20.
Proof.
  intros p. assert (Hst : rtc pool_step (pool_init 8 16 100) p).
  { apply rtc_once. apply (ps_alloc (p_map (pool_init 8 16 100)) 0 [] 10 16);
      [u32_lia|reflexivity|discriminate]. }
  split; [exact Hst|].
  destruct (pool_safety 8 16 100 p) as (W & _ & Ho); [u32_lia..|exact Hst|].
  split; [exact W|]. apply (Ho (16, 10) 20); [by left|unfold In_range; simpl; lia].
Defined.
