(* ===== verification/Pframe.v ===== *)
(** * Page frames (sys/krnl/pframe.c, include/os/pframe.h)

    The page frame database has one entry per page of physical memory.  An
    entry has a tag that says what the page is used for and a word that is a
    union in the code: the next free page while the page is free, afterwards
    a lock count, the size of a kernel allocation or the owner of a file map.
    The free pages form a linked list through the database. *)

From S2P Require Import Prelude.

Definition PFDBBASE : Z := 0x90800000.
Definition NULL : Z := 0.
Definition NOFRAME : Z := 0xFFFFFFFF.

(** A multi-character constant such as ['FREE']. *)
Fixpoint mctag_from (acc : Z) (s : string) : Z :=
  match s with
  | EmptyString => acc
  | String c s' => mctag_from (acc * 256 + Z.of_N (Ascii.N_of_ascii c)) s'
  end.
Definition mctag (s : string) : Z := mctag_from 0 s.

Definition FREE : Z := mctag "FREE".
Definition RESV : Z := mctag "RESV".
Definition BAD : Z := mctag "BAD".
Definition PTAB : Z := mctag "PTAB".
Definition DMA : Z := mctag "DMA".

Record pageframe := PF { tag : Z; word : Z }.

#[global] Instance pageframe_inhabited : Inhabited pageframe := populate (PF 0 0).
#[global] Instance pageframe_eq_dec : EqDecision pageframe.
Proof. solve_decision. Defined.

Record pfs := Pfs {
  freemem : Z;
  totalmem : Z;
  maxmem : Z;
  pfdb : list pageframe;
  freelist : Z;              (** pointer to the first free page frame *)
}.

Definition set_pfdb (db : list pageframe) (s : pfs) : pfs :=
  Pfs (freemem s) (totalmem s) (maxmem s) db (freelist s).
Definition set_freelist (p : Z) (s : pfs) : pfs :=
  Pfs (freemem s) (totalmem s) (maxmem s) (pfdb s) p.
Definition set_freemem (n : Z) (s : pfs) : pfs :=
  Pfs n (totalmem s) (maxmem s) (pfdb s) (freelist s).

(** [&pfdb[i]]; a page frame entry is 8 bytes. *)
Definition pfptr (i : nat) : Z := PFDBBASE + 8 * Z.of_nat i.

(** [pf - pfdb], for a pointer to an entry of the database. *)
Definition pfindex (db : list pageframe) (p : Z) : option nat :=
  if (PFDBBASE <=? p) && ((p - PFDBBASE) mod 8 =? 0) then
    let i := Z.to_nat ((p - PFDBBASE) / 8) in
    if (i <? length db)%nat then Some i else None
  else None.

Local Open Scope k_scope.

Definition alloc_pageframe (t : Z) : K pfs Z :=
  let* s := kget in
  if freemem s =? 0 then kpanic "out of memory"
  else
    let* i := kopt (pfindex (pfdb s) (freelist s)) in
    let* pf := kopt (pfdb s !! i) in
    kmod (set_freelist (word pf)) ;;;
    kmod (set_freemem (u32 (freemem s - 1))) ;;;
    kmod (set_pfdb (<[i := PF t NULL]> (pfdb s))) ;;;
    kret (Z.of_nat i).

(** The two checks of the loop over [n] in [alloc_linear_pageframes]: how many
    of the [n] frames from [i + k] on follow each other on the free list. *)
Fixpoint linear_run (db : list pageframe) (i k n : nat) : nat :=
  match n with
  | O => k
  | S n' =>
      match db !! (i + k)%nat with
      | None => k
      | Some pf =>
          if negb (tag pf =? FREE) then k
          else if negb (k =? 0)%nat &&
                  negb (word (db !!! (i + k - 1)%nat) =? pfptr (i + k)) then k
          else linear_run db i (S k) n'
      end
  end.

(** [for (n = 0; n < pages; n++) { pf[n].tag = tag; pf[n].next = NULL; }] *)
Fixpoint tag_run (t : Z) (i n : nat) (db : list pageframe) : list pageframe :=
  match n with
  | O => db
  | S n' => tag_run t (S i) n' (<[i := PF t NULL]> db)
  end.

(** Unlinking a run from the list: its predecessor, or the list head, gets the
    pointer behind the run. *)
Definition unlink (prev : option nat) (w : Z) (s : pfs) : pfs :=
  match prev with
  | Some j => set_pfdb (alter (fun e => PF (tag e) w) j (pfdb s)) s
  | None => set_freelist w s
  end.

(** The loop [while (pf)]; [prevpf] is the list predecessor of [pf], if any. *)
Fixpoint alloc_linear_from (fuel : nat) (prevpf : option nat) (pf : Z) (pages t : Z) : K pfs Z :=
  match fuel with
  | O => khang
  | S fuel' =>
      if pf =? NULL then kret NOFRAME
      else
        let* s := kget in
        let* i := kopt (pfindex (pfdb s) pf) in
        let* e := kopt (pfdb s !! i) in
        let n := Z.to_nat pages in
        if (Z.of_nat i + pages <? s32 (maxmem s)) && (linear_run (pfdb s) i 0 n =? n)%nat then
          let* last := kopt (if 0 <? pages then pfdb s !! (i + n - 1)%nat else None) in
          kmod (unlink prevpf (word last)) ;;;
          kmod (fun s => set_pfdb (tag_run t i n (pfdb s)) s) ;;;
          kmod (fun s => set_freemem (u32 (freemem s - pages)) s) ;;;
          kret (Z.of_nat i)
        else alloc_linear_from fuel' (Some i) (word e) pages t
  end.

Definition alloc_linear_pageframes (pages t : Z) : K pfs Z :=
  if pages =? 1 then alloc_pageframe t
  else
    let* s := kget in
    if s32 (freemem s) <? pages then kret NOFRAME
    else alloc_linear_from (S (length (pfdb s))) None (freelist s) pages t.

Definition free_pageframe (pfn : Z) : K pfs unit :=
  let* s := kget in
  let* i := kopt (if (0 <=? pfn) && (pfn <? Z.of_nat (length (pfdb s)))
                  then Some (Z.to_nat pfn) else None) in
  kmod (set_pfdb (<[i := PF FREE (freelist s)]> (pfdb s))) ;;;
  kmod (set_freelist (pfptr i)) ;;;
  kmod (set_freemem (u32 (freemem s + 1))).

(** The last loop of [init_pfdb], from frame [n - 1] down to frame 0: every
    frame tagged free is pushed on the free list. *)
Fixpoint build_freelist (n : nat) (s : pfs) : pfs :=
  match n with
  | O => s
  | S i =>
      build_freelist i
        (if tag (pfdb s !!! i) =? FREE then
           Pfs (u32 (freemem s + 1)) (totalmem s) (maxmem s)
             (alter (fun e => PF (tag e) (freelist s)) i (pfdb s)) (pfptr i)
         else s)
  end.

(** [tag2str]: the non-zero bytes of a tag, most significant first. *)
Definition tag2str (t : Z) : list Z :=
  (if Z.land t 0xFF000000 =? 0 then [] else [Z.land (Z.shiftr t 24) 0xFF]) ++
  (if Z.land t 0x00FF0000 =? 0 then [] else [Z.land (Z.shiftr t 16) 0xFF]) ++
  (if Z.land t 0x0000FF00 =? 0 then [] else [Z.land (Z.shiftr t 8) 0xFF]) ++
  (if Z.land t 0x000000FF =? 0 then [] else [Z.land t 0xFF]).

Definition MAX_MEMTAGS : nat := 128.

(** One iteration of the counting loop of [memusage_proc]: the first slot with
    the tag is counted up, or a new slot is added while there is room. *)
Fixpoint count_tag (room : nat) (t : Z) (l : list (Z * Z)) : list (Z * Z) :=
  match l with
  | [] => match room with O => [] | S _ => [(t, 1)] end
  | (t', n) :: l' =>
      if t =? t' then (t', n + 1) :: l' else (t', n) :: count_tag (pred room) t l'
  end.

(** The table [memusage_proc] prints: pages per tag, in order of appearance. *)
Definition memusage (db : list pageframe) : list (Z * Z) :=
  fold_left (fun l e => count_tag MAX_MEMTAGS (tag e) l) db [].

(** ** The free list *)

(** The list segment from pointer [p] to pointer [q] runs through the free
    frames [fl]. *)
Fixpoint seg (db : list pageframe) (p : Z) (fl : list nat) (q : Z) : Prop :=
  match fl with
  | [] => p = q
  | i :: fl' => p = pfptr i /\ exists w, db !! i = Some (PF FREE w) /\ seg db w fl' q
  end.

(** The state describes a machine whose free frames are [fl], in list order. *)
Record pfs_rep (s : pfs) (fl : list nat) : Prop := {
  pr_seg : seg (pfdb s) (freelist s) fl NULL;
  pr_nodup : NoDup fl;
  pr_count : freemem s = Z.of_nat (length fl);
  pr_max : maxmem s = Z.of_nat (length (pfdb s));
  pr_limit : Z.of_nat (length (pfdb s)) <= 1048576;
  pr_free : forall i e, pfdb s !! i = Some e -> (tag e = FREE <-> i ∈ fl);
}.

Definition pfs_wf (s : pfs) : Prop := exists fl, pfs_rep s fl.

Lemma pfindex_pfptr db i : (i < length db)%nat -> pfindex db (pfptr i) = Some i.
Proof.
  intros Hi. unfold pfindex, pfptr.
  replace (PFDBBASE + 8 * Z.of_nat i - PFDBBASE) with (Z.of_nat i * 8) by lia.
  rewrite Z.mod_mul, Z.div_mul, Nat2Z.id by lia.
  destruct (Z.leb_spec PFDBBASE (PFDBBASE + 8 * Z.of_nat i)); [|lia].
  by destruct (Nat.ltb_spec i (length db)); [|lia].
Qed.

Lemma pfptr_inj i j : pfptr i = pfptr j -> i = j.
Proof. unfold pfptr. lia. Qed.

Lemma pfptr_not_null i : pfptr i <> NULL.
Proof. unfold pfptr, PFDBBASE, NULL. lia. Qed.

Lemma seg_app db p l1 l2 q :
  seg db p (l1 ++ l2) q <-> exists m, seg db p l1 m /\ seg db m l2 q.
Proof.
  revert p. induction l1 as [|i l1 IH]; simpl; intros p.
  - split; [intros H; by exists p|by intros (m & -> & H)].
  - split.
    + intros (-> & w & Hw & Hs). apply IH in Hs as (m & ? & ?). exists m. eauto.
    + intros (m & (-> & w & Hw & Hs) & Hm). split; [done|]. exists w. split; [done|].
      apply IH. eauto.
Qed.

Lemma seg_insert db p fl q j x : j ∉ fl -> seg db p fl q -> seg (<[j := x]> db) p fl q.
Proof.
  revert p. induction fl as [|i fl IH]; simpl; intros p Hj; [done|].
  apply not_elem_of_cons in Hj as [Hji Hj]. intros (-> & w & Hw & Hs). split; [done|].
  exists w. rewrite list_lookup_insert_ne by done. eauto.
Qed.

Lemma seg_bound db p fl q i : seg db p fl q -> i ∈ fl -> (i < length db)%nat.
Proof.
  revert p. induction fl as [|j fl IH]; simpl; intros p; [by intros _ ?%elem_of_nil|].
  intros (_ & w & Hw & Hs) [->|Hi]%elem_of_cons; [by eapply lookup_lt_Some|eauto].
Qed.

Lemma seg_tail_ptr db p fl q i w : seg db p (fl ++ [i]) q -> db !! i = Some (PF FREE w) -> w = q.
Proof. intros (m & _ & Hs)%seg_app. simpl in Hs. destruct Hs as (_ & w' & ? & ->). naive_solver. Qed.

Lemma pfs_rep_length s fl : pfs_rep s fl -> (length fl <= length (pfdb s))%nat.
Proof.
  intros [Hs Hn _ _ _ _]. apply NoDup_lt_length; [done|]. intros i. by eapply seg_bound.
Qed.

(** What a successful [alloc_pageframe] does to the state. *)
Definition pf_allocated (t : Z) (i : nat) (s : pfs) : pfs :=
  Pfs (freemem s - 1) (totalmem s) (maxmem s) (<[i := PF t NULL]> (pfdb s)) (word (pfdb s !!! i)).

Lemma alloc_pageframe_rep s i fl t :
  pfs_rep s (i :: fl) -> t <> FREE ->
  alloc_pageframe t s = Done (Z.of_nat i, pf_allocated t i s) /\ pfs_rep (pf_allocated t i s) fl.
Proof.
  intros H Ht. pose proof (pfs_rep_length _ _ H) as Hlen.
  destruct H as [Hs Hn Hc Hm Hl Hf]. simpl in *. destruct Hs as (Hp & w & Hw & Hs).
  pose proof (lookup_lt_Some _ _ _ Hw) as Hi.
  unfold alloc_pageframe. krun. rewrite Hc, Hp, pfindex_pfptr by done.
  destruct (Z.eqb_spec (Z.of_nat (S (length fl))) 0); [lia|].
  krun. rewrite Hw. krun. unfold set_freelist, set_pfdb, set_freemem, pf_allocated. simpl.
  rewrite u32_small by u32_lia. rewrite (list_lookup_total_correct _ _ _ Hw).
  apply NoDup_cons in Hn as [Hni Hn].
  split; [by do 3 f_equal; rewrite Hc|]. split; simpl; auto.
  - by apply seg_insert.
  - lia.
  - by rewrite length_insert.
  - by rewrite length_insert.
  - intros j e Hj. rewrite list_lookup_insert in Hj. case_decide as Hd.
    + destruct Hd as [-> _]. injection Hj as <-. simpl. split; [done|]. by intros ?%Hni.
    + rewrite (Hf j e Hj), elem_of_cons. naive_solver.
Qed.

Lemma free_pageframe_rep s i fl :
  pfs_rep s fl -> (i < length (pfdb s))%nat -> i ∉ fl ->
  exists s', free_pageframe (Z.of_nat i) s = Done (tt, s') /\ pfs_rep s' (i :: fl) /\
    s' = Pfs (freemem s + 1) (totalmem s) (maxmem s) (<[i := PF FREE (freelist s)]> (pfdb s)) (pfptr i).
Proof.
  intros H Hi Hni. assert (length (i :: fl) <= length (pfdb s))%nat as Hlen.
  { apply NoDup_lt_length; [apply NoDup_cons; split; [done|apply H]|].
    intros j [->|Hj]%elem_of_cons; [done|]. by eapply seg_bound; [apply H|]. }
  destruct H as [Hs Hn Hc Hm Hl Hf]. simpl in Hlen.
  unfold free_pageframe. krun.
  destruct (Z.leb_spec 0 (Z.of_nat i)); [|lia].
  destruct (Z.ltb_spec (Z.of_nat i) (Z.of_nat (length (pfdb s)))); [|lia].
  rewrite Nat2Z.id. cbn [andb]. krun. unfold set_freelist, set_pfdb, set_freemem. simpl.
  rewrite u32_small by u32_lia. eexists; split; [reflexivity|]. split; [|done].
  split; simpl; rewrite ?length_insert; auto.
  - split; [done|]. exists (freelist s). rewrite list_lookup_insert_eq by done.
    split; [done|]. by apply seg_insert.
  - by apply NoDup_cons.
  - lia.
  - intros j e Hj. rewrite elem_of_cons. rewrite list_lookup_insert in Hj. case_decide as Hd.
    + destruct Hd as [-> _]. injection Hj as <-. simpl. tauto.
    + rewrite (Hf j e Hj). naive_solver.
Qed.

(** ** Contiguous allocation *)

Lemma seg_ext db db' p fl q :
  (forall i, i ∈ fl -> db' !! i = db !! i) -> seg db p fl q -> seg db' p fl q.
Proof.
  revert p. induction fl as [|i fl IH]; simpl; intros p He; [done|].
  intros (-> & w & Hw & Hs). split; [done|]. exists w. rewrite He by (by left).
  split; [done|]. apply IH; [|done]. intros j Hj. apply He. by right.
Qed.

Lemma length_tag_run t i n db : length (tag_run t i n db) = length db.
Proof. revert i db. induction n; intros; simpl; [done|]. by rewrite IHn, length_insert. Qed.

Lemma lookup_tag_run t i n db j :
  (i + n <= length db)%nat ->
  tag_run t i n db !! j =
  if decide (i <= j < i + n)%nat then Some (PF t NULL) else db !! j.
Proof.
  revert i db. induction n as [|n IH]; intros i db Hl; simpl.
  - by rewrite decide_False by lia.
  - rewrite IH by (rewrite length_insert; lia).
    destruct (decide (i = j)) as [->|Hne].
    + rewrite decide_False, decide_True by lia. apply list_lookup_insert_eq. lia.
    + rewrite list_lookup_insert_ne by done.
      destruct (decide (S i <= j < S i + n)%nat); [by rewrite decide_True by lia|].
      by rewrite decide_False by lia.
Qed.

(** The frames from [i] on are free and each points to the next one. *)
Lemma linear_run_spec db i k n :
  linear_run db i k n = (k + n)%nat ->
  forall j, (k <= j < k + n)%nat ->
    (exists w, db !! (i + j)%nat = Some (PF FREE w)) /\
    (j <> 0%nat -> word (db !!! (i + j - 1)%nat) = pfptr (i + j)).
Proof.
  assert (Hub : forall n k, (linear_run db i k n <= k + n)%nat).
  { clear. intros n. induction n as [|n IH]; intros k; simpl; [lia|].
    specialize (IH (S k)). repeat case_match; lia. }
  revert k. induction n as [|n IH]; intros k Hr j Hj; simpl in Hr; [lia|].
  destruct (db !! (i + k)%nat) as [[tg w]|] eqn:Hk; [|lia]. simpl in Hr.
  destruct (Z.eqb_spec tg FREE) as [->|]; [|simpl in Hr; lia]. simpl in Hr.
  destruct (negb (k =? 0)%nat && negb (word (db !!! (i + k - 1)%nat) =? pfptr (i + k)))
    eqn:Hc; [lia|].
  destruct (decide (j = k)) as [->|Hne].
  - split; [by exists w|]. intros Hk0. apply andb_false_iff in Hc as [Hc|Hc]; breflect; [lia|done].
  - apply (IH (S k)); lia.
Qed.

Lemma linear_seg db i n fl :
  seg db (pfptr i) fl NULL -> linear_run db i 0 (S n) = S n ->
  exists l2 w, fl = seq i (S n) ++ l2 /\ db !! (i + n)%nat = Some (PF FREE w) /\ seg db w l2 NULL.
Proof.
  intros Hs Hr. pose proof (linear_run_spec db i 0 (S n) Hr) as Hrun. clear Hr.
  assert (Hgen : forall k, (k <= n)%nat -> exists l2 w,
    fl = seq i (S k) ++ l2 /\ db !! (i + k)%nat = Some (PF FREE w) /\ seg db w l2 NULL);
    [|by apply Hgen].
  intros k. induction k as [|k IH]; intros Hk.
  - destruct fl as [|i' fl]; simpl in Hs; [by apply pfptr_not_null in Hs|].
    destruct Hs as (<-%pfptr_inj & w & Hw & Hs). exists fl, w. by rewrite Nat.add_0_r.
  - destruct IH as (l2 & w & -> & Hw & Hs2); [lia|].
    destruct (Hrun (S k)) as [[w' Hw'] Hnext]; [lia|]. specialize (Hnext ltac:(lia)).
    replace (i + S k - 1)%nat with (i + k)%nat in Hnext by lia.
    rewrite (list_lookup_total_correct _ _ _ Hw) in Hnext. simpl in Hnext. subst w.
    destruct l2 as [|i' l2]; simpl in Hs2; [by apply pfptr_not_null in Hs2|].
    destruct Hs2 as (<-%pfptr_inj & w & Hw2 & Hs2). exists l2, w.
    split_and!; [|done|done]. rewrite (seq_S (S k)), <- app_assoc. simpl.
    by do 2 f_equal.
Qed.

Lemma unlink_seg s l1 p w :
  seg (pfdb s) (freelist s) l1 p -> NoDup l1 ->
  seg (pfdb (unlink (last l1) w s)) (freelist (unlink (last l1) w s)) l1 w.
Proof.
  destruct l1 as [|j l1 _] using rev_ind; [done|]. rewrite last_snoc.
  intros (m & Hs & Hj)%seg_app Hn. apply NoDup_app in Hn as (_ & Hn & _).
  simpl in *. destruct Hj as (-> & w' & Hw & _). apply seg_app. exists (pfptr j). split.
  - eapply seg_ext; [|done]. intros i Hi. apply list_lookup_alter_ne. intros <-.
    by apply (Hn _ Hi), list_elem_of_singleton.
  - simpl. split; [done|]. exists w. by rewrite list_lookup_alter_eq, Hw.
Qed.

Lemma unlink_fields prev w s :
  freemem (unlink prev w s) = freemem s /\ totalmem (unlink prev w s) = totalmem s /\
  maxmem (unlink prev w s) = maxmem s /\ length (pfdb (unlink prev w s)) = length (pfdb s) /\
  forall i, tag <$> pfdb (unlink prev w s) !! i = tag <$> pfdb s !! i.
Proof.
  destruct prev as [j|]; simpl; [|done]. rewrite length_alter. split_and!; auto. intros i.
  destruct (decide (i = j)) as [->|Hne]; [|by rewrite list_lookup_alter_ne].
  rewrite list_lookup_alter_eq. by destruct (pfdb s !! j).
Qed.

Lemma unlink_lookup_ne prev w s i :
  prev <> Some i -> pfdb (unlink prev w s) !! i = pfdb s !! i.
Proof. destruct prev as [j|]; simpl; [|done]. intros H. apply list_lookup_alter_ne. congruence. Qed.

(** The state after the run of [n] frames from [i] on has been taken. *)
Definition pf_taken (prev : option nat) (w t : Z) (i n : nat) (s : pfs) : pfs :=
  let s := unlink prev w s in
  set_freemem (freemem s - Z.of_nat n) (set_pfdb (tag_run t i n (pfdb s)) s).

Lemma pf_taken_rep s l1 i n l2 w t :
  pfs_rep s (l1 ++ seq i n ++ l2) -> t <> FREE -> (i + n <= length (pfdb s))%nat ->
  (exists p, seg (pfdb s) (freelist s) l1 p) -> seg (pfdb s) w l2 NULL ->
  pfs_rep (pf_taken (last l1) w t i n s) (l1 ++ l2).
Proof.
  intros [Hs Hn Hc Hm Hl Hf] Ht Hin [p Hs1] Hs2.
  destruct (unlink_fields (last l1) w s) as (Hfm & _ & Hmx & Hlen & Htag).
  apply NoDup_app in Hn as (Hn1 & Hd1 & (Hnr & Hd2 & Hn2)%NoDup_app).
  assert (Hout : forall j, j ∈ l1 ++ l2 -> ~ (i <= j < i + n)%nat).
  { intros j Hj Hr. assert (j ∈ seq i n) as Hq by (apply elem_of_seq; lia).
    apply elem_of_app in Hj as [Hj|Hj]; [|by apply (Hd2 j)].
    apply (Hd1 j Hj). apply elem_of_app. by left. }
  assert (Hlast : forall j, j ∈ l2 -> last l1 <> Some j).
  { intros j Hj Hla. apply last_Some in Hla as [l' ->]. apply (Hd1 j); [apply elem_of_mid|].
    apply elem_of_app. by right. }
  unfold pf_taken. split; simpl; rewrite ?length_tag_run, ?Hlen; try lia.
  - apply seg_app. exists w. split.
    + eapply seg_ext; [|by eapply unlink_seg]. intros j Hj.
      rewrite lookup_tag_run, decide_False by (rewrite ?Hlen; auto; apply Hout, elem_of_app; auto).
      done.
    + eapply seg_ext; [|done]. intros j Hj.
      rewrite lookup_tag_run, decide_False by (rewrite ?Hlen; auto; apply Hout, elem_of_app; auto).
      by apply unlink_lookup_ne, Hlast.
  - apply NoDup_app. split_and!; [done| |done]. intros j Hj Hj2. apply (Hd1 j Hj).
    apply elem_of_app. by right.
  - rewrite Hfm, Hc, !length_app, length_seq. lia.
  - intros j e. rewrite lookup_tag_run by (by rewrite Hlen). case_decide as Hd; intros Hj.
    + injection Hj as <-. simpl. split; [done|]. intros Hj. by apply Hout in Hj.
    + specialize (Htag j). rewrite Hj in Htag. symmetry in Htag.
      apply fmap_Some in Htag as (e' & He' & ->). rewrite (Hf j e' He'), !elem_of_app, elem_of_seq.
      tauto.
Qed.

Lemma linear_run_complete db i k n lb q :
  seg db (pfptr (i + k)) (seq (i + k) n ++ lb) q ->
  (k <> 0%nat -> word (db !!! (i + k - 1)%nat) = pfptr (i + k)) ->
  linear_run db i k n = (k + n)%nat.
Proof.
  revert k. induction n as [|n IH]; intros k Hs Hp; [simpl; lia|].
  simpl in Hs |- *. destruct Hs as (_ & w & Hw & Hs). rewrite Hw. simpl.
  destruct (negb (k =? 0)%nat && negb (word (db !!! (i + k - 1)%nat) =? pfptr (i + k))) eqn:Hc.
  { breflect. by destruct (Hp ltac:(done)). }
  rewrite <- Nat.add_succ_comm. destruct n as [|n]; [simpl; lia|].
  replace (S (i + k)) with (i + S k)%nat in Hs by lia.
  simpl in Hs. destruct Hs as (-> & w' & Hw' & Hs).
  apply IH; [simpl; eauto|]. intros _. replace (i + S k - 1)%nat with (i + k)%nat by lia.
  by rewrite (list_lookup_total_correct _ _ _ Hw).
Qed.

Section linear.
Context (s : pfs) (pages t : Z).
Local Abbreviation n := (Z.to_nat pages).
Hypothesis Hpages : 2 <= pages <= freemem s.
Hypothesis Ht : t <> FREE.

(** The loop body at a frame [i] where it finds a run. *)
Lemma alloc_linear_hit fuel l1 i l2 :
  pfs_rep s (l1 ++ i :: l2) -> seg (pfdb s) (freelist s) l1 (pfptr i) ->
  seg (pfdb s) (pfptr i) (i :: l2) NULL ->
  Z.of_nat i + pages < maxmem s -> linear_run (pfdb s) i 0 n = n ->
  exists lb w, i :: l2 = seq i n ++ lb /\ (i + n <= length (pfdb s))%nat /\
    alloc_linear_from (S fuel) (last l1) (pfptr i) pages t s =
      Done (Z.of_nat i, pf_taken (last l1) w t i n s) /\
    pfs_rep (pf_taken (last l1) w t i n s) (l1 ++ lb).
Proof.
  intros R Hs1 Hsi Hroom Hrun. pose proof (pfs_rep_length _ _ R) as Hlen.
  pose proof R as [_ _ Hc Hm Hl _].
  assert (exists n', n = S n') as [n' En] by (exists (pred n); lia). rewrite En in *.
  destruct (linear_seg _ _ _ _ Hsi Hrun) as (lb & w & Hfl & Hlast & Hslb).
  exists lb, w. split; [done|]. split; [lia|]. rewrite Hfl in R.
  split; [|by eapply pf_taken_rep; eauto; lia].
  simpl in Hsi. destruct Hsi as (_ & w0 & Hw & _).
  cbn [alloc_linear_from]. destruct (Z.eqb_spec (pfptr i) NULL) as [?%pfptr_not_null|_]; [done|].
  krun. rewrite pfindex_pfptr by (by eapply lookup_lt_Some). krun. rewrite Hw. krun.
  rewrite s32_small by u32_lia. rewrite En, Hrun, Nat.eqb_refl.
  destruct (Z.ltb_spec (Z.of_nat i + pages) (maxmem s)); [|lia].
  destruct (Z.ltb_spec 0 pages); [|lia].
  replace (i + S n' - 1)%nat with (i + n')%nat by lia. cbn [andb]. rewrite Hlast. krun.
  unfold pf_taken. destruct (unlink_fields (last l1) w s) as (Hfm & _).
  replace (Z.of_nat (S n')) with pages by lia.
  cbn [word freemem set_pfdb set_freemem]. by rewrite Hfm, u32_small by u32_lia.
Qed.

Lemma alloc_linear_from_rep fuel l1 l2 p :
  pfs_rep s (l1 ++ l2) -> seg (pfdb s) (freelist s) l1 p -> seg (pfdb s) p l2 NULL ->
  (length l2 < fuel)%nat ->
  (alloc_linear_from fuel (last l1) p pages t s = Done (NOFRAME, s) /\
   forall la i lb, l2 = la ++ seq i n ++ lb -> maxmem s <= Z.of_nat i + pages) \/
  (exists la i lb w, l1 ++ l2 = la ++ seq i n ++ lb /\ (i + n <= length (pfdb s))%nat /\
     alloc_linear_from fuel (last l1) p pages t s =
       Done (Z.of_nat i, pf_taken (last la) w t i n s) /\
     pfs_rep (pf_taken (last la) w t i n s) (la ++ lb)).
Proof.
  revert fuel l1 p. induction l2 as [|i l2 IH]; intros [|fuel] l1 p R Hs1 Hs2 Hf;
    try (simpl in Hf; lia); simpl in Hs2.
  - subst p. left. split; [done|]. intros [|? la] i lb H; [|done].
    destruct n eqn:E; [lia|done].
  - destruct Hs2 as (-> & w & Hw & Hs2).
    assert (Hsi : seg (pfdb s) (pfptr i) (i :: l2) NULL) by (simpl; eauto).
    destruct (decide (Z.of_nat i + pages < maxmem s /\ linear_run (pfdb s) i 0 n = n))
      as [[Hroom Hrun]|Hno].
    { right. destruct (alloc_linear_hit fuel _ _ _ R Hs1 Hsi Hroom Hrun)
        as (lb & w' & Hfl & ? & ? & ?). exists l1, i, lb, w'. by rewrite Hfl. }
    assert (Hstep : alloc_linear_from (S fuel) (last l1) (pfptr i) pages t s =
                    alloc_linear_from fuel (last (l1 ++ [i])) w pages t s).
    { rewrite last_snoc. cbn [alloc_linear_from].
      destruct (Z.eqb_spec (pfptr i) NULL) as [?%pfptr_not_null|_]; [done|].
      krun. rewrite pfindex_pfptr by (by eapply lookup_lt_Some). krun. rewrite Hw. krun.
      pose proof R as [_ _ _ Hm Hl _]. rewrite s32_small by u32_lia.
      destruct (Z.ltb_spec (Z.of_nat i + pages) (maxmem s)); [|done].
      destruct (Nat.eqb_spec (linear_run (pfdb s) i 0 n) n); [tauto|done]. }
    rewrite Hstep. replace (l1 ++ i :: l2) with ((l1 ++ [i]) ++ l2) in * by (by rewrite <- app_assoc).
    destruct (IH fuel (l1 ++ [i]) w R) as [[Hr Hnone]|?]; [|done|simpl in Hf; lia| |by right].
    { apply seg_app. exists (pfptr i). simpl. eauto. }
    left. split; [done|]. intros [|i' la] j lb Hj; [|injection Hj as -> Hj; eauto].
    destruct (Z.le_gt_cases (maxmem s) (Z.of_nat j + pages)); [done|]. destruct Hno.
    assert (j = i) as -> by (destruct n eqn:E; [lia|]; simpl in Hj; congruence).
    split; [lia|]. apply (linear_run_complete _ _ 0 _ lb NULL); [|done].
    rewrite Nat.add_0_r. simpl in Hj. by rewrite <- Hj.
Qed.
End linear.

(** ** Boot: the initial free list *)

Definition free_frames (db : list pageframe) (n m : nat) : list nat :=
  filter (fun i => tag (db !!! i) = FREE) (seq n (m - n)).

Lemma free_frames_ext db db' n m :
  (forall i, tag <$> db' !! i = tag <$> db !! i) -> free_frames db' n m = free_frames db n m.
Proof.
  intros H. unfold free_frames. apply list_filter_iff. intros i.
  rewrite !list_lookup_total_alt. specialize (H i).
  destruct (db' !! i), (db !! i); simplify_eq/=; by rewrite ?H.
Qed.

Lemma free_frames_step db i N :
  (i < N)%nat -> free_frames db i N =
    (if decide (tag (db !!! i) = FREE) then [i] else []) ++ free_frames db (S i) N.
Proof.
  intros Hi. unfold free_frames. replace (N - i)%nat with (S (N - S i)) by lia. simpl.
  rewrite filter_cons. by case_decide.
Qed.

Lemma free_frames_length db n N : (length (free_frames db n N) <= N)%nat.
Proof. unfold free_frames. etrans; [apply length_filter|]. rewrite length_seq. lia. Qed.

Lemma elem_of_free_frames db n N i :
  i ∈ free_frames db n N <-> (n <= i < N)%nat /\ tag (db !!! i) = FREE.
Proof. unfold free_frames. rewrite list_elem_of_filter, elem_of_seq. naive_solver lia. Qed.

Lemma alter_word_tag (f : pageframe -> pageframe) j (db : list pageframe) i :
  (forall e, tag (f e) = tag e) -> tag <$> alter f j db !! i = tag <$> db !! i.
Proof.
  intros Hf. rewrite list_lookup_alter. case_decide as Hd; [subst|done].
  destruct (db !! i); simpl; by rewrite ?Hf.
Qed.

Lemma build_freelist_seg n s :
  (n <= length (pfdb s))%nat -> Z.of_nat (length (pfdb s)) <= 1048576 ->
  seg (pfdb s) (freelist s) (free_frames (pfdb s) n (length (pfdb s))) NULL ->
  freemem s = Z.of_nat (length (free_frames (pfdb s) n (length (pfdb s)))) ->
  let s' := build_freelist n s in
  seg (pfdb s') (freelist s') (free_frames (pfdb s) 0 (length (pfdb s))) NULL /\
  freemem s' = Z.of_nat (length (free_frames (pfdb s) 0 (length (pfdb s)))) /\
  maxmem s' = maxmem s /\ totalmem s' = totalmem s /\ length (pfdb s') = length (pfdb s) /\
  forall i, tag <$> pfdb s' !! i = tag <$> pfdb s !! i.
Proof.
  revert s. induction n as [|i IH]; intros s Hn Hl Hs Hc; [done|]. cbn [build_freelist].
  pose proof (free_frames_step (pfdb s) i _ Hn) as Hsplit.
  pose proof (free_frames_length (pfdb s) (S i) (length (pfdb s))) as Hlen.
  destruct (Z.eqb_spec (tag (pfdb s !!! i)) FREE) as [Hf|Hf].
  2:{ rewrite decide_False in Hsplit by done. simpl in Hsplit.
      apply IH; rewrite ?Hsplit; auto; lia. }
  rewrite decide_True in Hsplit by done. simpl in Hsplit.
  set (f := fun e => PF (tag e) (freelist s)).
  set (s1 := Pfs (u32 (freemem s + 1)) _ _ (alter f i (pfdb s)) (pfptr i)).
  assert (Htag : forall j, tag <$> pfdb s1 !! j = tag <$> pfdb s !! j)
    by (intros j; by apply alter_word_tag).
  assert (Hlen1 : length (pfdb s1) = length (pfdb s)) by apply length_alter.
  assert (Hfr : forall n m, free_frames (pfdb s1) n m = free_frames (pfdb s) n m)
    by (intros; by apply free_frames_ext).
  destruct (IH s1) as (?&?&?&?&?&Ht1); rewrite ?Hlen1, ?Hfr, ?Hsplit in *; [lia|lia| | |].
  - simpl. split; [done|]. exists (freelist s). split.
    + rewrite list_lookup_alter_eq.
      destruct (pfdb s !! i) as [e|] eqn:E; [|apply lookup_ge_None in E; lia].
      rewrite (list_lookup_total_correct _ _ _ E) in Hf. by rewrite <- Hf.
    + eapply seg_ext; [|done]. intros j Hj. apply list_lookup_alter_ne.
      apply elem_of_free_frames in Hj. lia.
  - simpl. rewrite u32_small; u32_lia.
  - split_and!; auto. intros j. by rewrite Ht1.
Qed.

(** Pushing every free frame of a tagged database gives a well-formed state
    whose free list is in ascending order. *)
Lemma build_freelist_rep s :
  freelist s = NULL -> freemem s = 0 -> maxmem s = Z.of_nat (length (pfdb s)) ->
  Z.of_nat (length (pfdb s)) <= 1048576 ->
  pfs_rep (build_freelist (length (pfdb s)) s) (free_frames (pfdb s) 0 (length (pfdb s))).
Proof.
  intros Hfl Hfm Hm Hl.
  destruct (build_freelist_seg (length (pfdb s)) s) as (Hs&Hc&Hmx&_&Hlen&Ht); auto.
  - unfold free_frames at 1. rewrite Nat.sub_diag. by rewrite Hfl.
  - unfold free_frames at 1. rewrite Nat.sub_diag. by rewrite Hfm.
  - split; auto.
    + unfold free_frames. apply NoDup_filter, NoDup_seq.
    + by rewrite Hmx, Hlen.
    + by rewrite Hlen.
    + intros i e He. specialize (Ht i). rewrite He in Ht. symmetry in Ht.
      apply fmap_Some in Ht as (e' & He' & ->). rewrite elem_of_free_frames.
      rewrite (list_lookup_total_correct _ _ _ He').
      apply lookup_lt_Some in He'. intuition lia.
Qed.

(** ** Users of page frames

    The frames handed out so far are [fr_owned].  A user may also write the
    tag and the union word of a frame it owns. *)

Record frames := Frames { fr_state : pfs; fr_owned : list nat }.

Inductive frame_step : frames -> frames -> Prop :=
| fs_alloc s own t i s' :
    t <> FREE -> alloc_pageframe t s = Done (Z.of_nat i, s') ->
    frame_step (Frames s own) (Frames s' (i :: own))
| fs_linear s own pages t i s' :
    2 <= pages < 2147483648 -> t <> FREE -> Z.of_nat i <> NOFRAME ->
    alloc_linear_pageframes pages t s = Done (Z.of_nat i, s') ->
    frame_step (Frames s own) (Frames s' (seq i (Z.to_nat pages) ++ own))
| fs_free s own1 i own2 s' :
    free_pageframe (Z.of_nat i) s = Done (tt, s') ->
    frame_step (Frames s (own1 ++ i :: own2)) (Frames s' (own1 ++ own2))
| fs_use s own i t w :
    i ∈ own -> t <> FREE ->
    frame_step (Frames s own) (Frames (set_pfdb (<[i := PF t w]> (pfdb s)) s) own).

(** The frames are shared out between the free list and the users. *)
Definition frames_inv (total : Z) (f : frames) : Prop :=
  exists fl, pfs_rep (fr_state f) fl /\ NoDup (fl ++ fr_owned f) /\
    (forall i, i ∈ fr_owned f -> (i < length (pfdb (fr_state f)))%nat) /\
    freemem (fr_state f) + Z.of_nat (length (fr_owned f)) = total.

Lemma alloc_pageframe_none s t : pfs_rep s [] -> alloc_pageframe t s = Panic "out of memory".
Proof. intros [_ _ Hc _ _ _]. unfold alloc_pageframe. krun. by rewrite Hc. Qed.

Lemma alloc_linear_rep s fl pages t :
  pfs_rep s fl -> 2 <= pages < 2147483648 -> t <> FREE ->
  let n := Z.to_nat pages in
  (alloc_linear_pageframes pages t s = Done (NOFRAME, s) /\
   forall la i lb, fl = la ++ seq i n ++ lb -> maxmem s <= Z.of_nat i + pages) \/
  (exists la i lb w, fl = la ++ seq i n ++ lb /\ (i + n <= length (pfdb s))%nat /\
     alloc_linear_pageframes pages t s = Done (Z.of_nat i, pf_taken (last la) w t i n s) /\
     pfs_rep (pf_taken (last la) w t i n s) (la ++ lb)).
Proof.
  intros R Hp Ht n. pose proof (pfs_rep_length _ _ R) as Hlen. pose proof R as [Hs _ Hc _ Hl _].
  unfold alloc_linear_pageframes. destruct (Z.eqb_spec pages 1); [lia|]. krun.
  rewrite s32_small by u32_lia. destruct (Z.ltb_spec (freemem s) pages) as [Hlt|Hge].
  - left. split; [done|]. intros la i lb ->. rewrite !length_app, length_seq in Hc. lia.
  - apply (alloc_linear_from_rep s pages t ltac:(lia) Ht _ [] fl (freelist s)); auto; [done|lia].
Qed.

(** Frames that change sides between the free list [fl] and the users. *)
Lemma frames_inv_move k s own fl s' own' fl' :
  pfs_rep s fl -> NoDup (fl ++ own) -> freemem s + Z.of_nat (length own) = k ->
  (forall i, i ∈ own -> (i < length (pfdb s))%nat) ->
  pfs_rep s' fl' -> length (pfdb s') = length (pfdb s) -> fl ++ own ≡ₚ fl' ++ own' ->
  frames_inv k (Frames s' own').
Proof.
  intros R Hn Hk Ho R' Hlen Hp. exists fl'. simpl. split_and!; [done|by rewrite <- Hp| |].
  - intros i Hi. rewrite Hlen. assert (Hi' : i ∈ fl ++ own).
    { rewrite Hp. apply elem_of_app. by right. }
    apply elem_of_app in Hi' as [Hi'|Hi']; [|auto]. eapply seg_bound; [apply R|done].
  - rewrite (pr_count _ _ R'). rewrite (pr_count _ _ R) in Hk.
    apply Permutation_length in Hp. rewrite !length_app in Hp. lia.
Qed.

Lemma frame_use_rep s fl i t w :
  pfs_rep s fl -> i ∉ fl -> t <> FREE -> pfs_rep (set_pfdb (<[i := PF t w]> (pfdb s)) s) fl.
Proof.
  intros [Hs Hnd Hc Hm Hl Hf] Hi Ht. split; simpl; rewrite ?length_insert; auto.
  - by apply seg_insert.
  - intros j e. rewrite list_lookup_insert. case_decide as Hd; intros He; [|auto].
    destruct Hd as [-> _]. by injection He as <-.
Qed.

Lemma frame_step_inv k f f' : frame_step f f' -> frames_inv k f -> frames_inv k f'.
Proof.
  intros Hst (fl & R & Hn & Ho & Hk).
  destruct Hst as [s own t i s' Ht E|s own pages t i s' Hp Ht Hi E|s own1 i own2 s' E|s own i t w Hi Ht];
    simpl in *.
  - destruct fl as [|j fl]; [by rewrite alloc_pageframe_none in E|].
    destruct (alloc_pageframe_rep _ _ _ _ R Ht) as (E' & R'). rewrite E' in E.
    injection E as ->%Nat2Z.inj <-.
    apply (frames_inv_move k s own (i :: fl) _ _ fl); auto; [apply length_insert|solve_Permutation].
  - destruct (alloc_linear_rep _ _ _ _ R Hp Ht) as [[E' _]|(la & j & lb & w & -> & Hb & E' & R')];
      rewrite E' in E; injection E as E <-; [congruence|]. apply Nat2Z.inj in E as ->.
    eapply (frames_inv_move k s own _ _ _ (la ++ lb)); eauto; [|solve_Permutation].
    simpl. rewrite length_tag_run. by destruct (unlink_fields (last la) w s) as (_ & _ & _ & ? & _).
  - assert (Hni : i ∉ fl).
    { intros Hfl. apply NoDup_app in Hn as (_ & Hd & _). by apply (Hd i), elem_of_mid. }
    destruct (free_pageframe_rep _ _ _ R (Ho i (elem_of_mid _ _ _)) Hni) as (s2 & E' & R' & Hs2).
    rewrite E' in E. injection E as <-.
    apply (frames_inv_move k s (own1 ++ i :: own2) fl _ _ (i :: fl)); auto; [|solve_Permutation].
    subst s2. apply length_insert.
  - assert (Hni : i ∉ fl) by (intros Hfl; apply NoDup_app in Hn as (_ & Hd & _); by apply (Hd i)).
    apply (frames_inv_move k s own fl _ _ fl); auto using frame_use_rep. apply length_insert.
Qed.

(** ** Properties *)

(** A machine with eight page frames, five of them free. *)
Definition demo_boot : pfs :=
  Pfs 0 5 8 (map (fun t => PF t 0) [RESV; FREE; FREE; FREE; BAD; FREE; FREE; DMA]) NULL.
Definition demo_pfs : pfs := build_freelist 8 demo_boot.

Lemma demo_rep : pfs_rep demo_pfs [1; 2; 3; 5; 6]%nat.
Proof. exact (build_freelist_rep demo_boot eq_refl eq_refl eq_refl ltac:(done)). Qed.

Lemma demo_pfs_wf : pfs_wf demo_pfs.
Proof. eexists. exact demo_rep. Qed.

(** [alloc_pageframe] stops the machine exactly when no frame is free;
    otherwise it returns a frame that was free, marks it with the tag, leaves
    every other frame as it was, and keeps the free list well-formed. *)
Theorem alloc_pageframe_correct s t :
  pfs_wf s -> t <> FREE ->
  (freemem s = 0 /\ alloc_pageframe t s = Panic "out of memory") \/
  (freemem s <> 0 /\ exists i s',
     alloc_pageframe t s = Done (Z.of_nat i, s') /\ pfs_wf s' /\
     (tag <$> pfdb s !! i = Some FREE) /\ pfdb s' !! i = Some (PF t NULL) /\
     (forall j, j <> i -> pfdb s' !! j = pfdb s !! j) /\
     freemem s' = freemem s - 1 /\ totalmem s' = totalmem s /\ maxmem s' = maxmem s).
Proof.
  intros [[|i fl] R] Ht; [left|right].
  - split; [apply (pr_count _ _ R)|by apply alloc_pageframe_none].
  - split; [rewrite (pr_count _ _ R); simpl; lia|].
    destruct (alloc_pageframe_rep _ _ _ _ R Ht) as (E & R').
    exists i, (pf_allocated t i s). pose proof (pr_seg _ _ R) as (_ & w' & Hw & _).
    pose proof (lookup_lt_Some _ _ _ Hw). split_and!; [done|by exists fl|by rewrite Hw| | |done..].
    + by apply list_lookup_insert_eq.
    + intros j Hj. by apply list_lookup_insert_ne.
Qed.

Lemma alloc_pageframe_correct_witness :
  exists s', alloc_pageframe PTAB demo_pfs = Done (1, s') /\ pfs_wf s'.
Proof.
  destruct (alloc_pageframe_correct demo_pfs PTAB demo_pfs_wf ltac:(done)) as [[H _]|[_ H]].
  - vm_compute in H. discriminate.
  - destruct H as (i & s' & E & W & _). exists s'. split; [|exact W].
    assert (exists s1, alloc_pageframe PTAB demo_pfs = Done (1, s1)) as [s1 E1]
      by (eexists; vm_compute; reflexivity).
    rewrite E1 in E |- *. by injection E as _ <-.
Defined.

(** The free list is a stack: allocating right after freeing a frame gives
    that frame back and restores the list and the number of free pages. *)
Theorem free_alloc_pageframe s i e t :
  pfs_wf s -> pfdb s !! i = Some e -> tag e <> FREE -> t <> FREE ->
  exists s1, free_pageframe (Z.of_nat i) s = Done (tt, s1) /\
    alloc_pageframe t s1 = Done (Z.of_nat i, set_pfdb (<[i := PF t NULL]> (pfdb s)) s).
Proof.
  intros [fl R] He Hte Ht. pose proof (lookup_lt_Some _ _ _ He) as Hi.
  destruct (free_pageframe_rep s i fl R Hi) as (s1 & E & R1 & Hs1).
  { rewrite <- (pr_free _ _ R i e He). done. }
  exists s1. split; [done|]. destruct (alloc_pageframe_rep _ _ _ t R1 Ht) as (-> & _).
  subst s1. unfold pf_allocated, set_pfdb. simpl.
  rewrite list_lookup_total_insert_eq by done. simpl.
  rewrite list_insert_insert_eq. do 3 f_equal. lia.
Qed.

Lemma free_alloc_pageframe_witness :
  exists s1, free_pageframe 7 demo_pfs = Done (tt, s1) /\
    alloc_pageframe PTAB s1 = Done (7, set_pfdb (<[7%nat := PF PTAB NULL]> (pfdb demo_pfs)) demo_pfs).
Proof.
  apply (free_alloc_pageframe demo_pfs 7 (PF DMA 0) PTAB demo_pfs_wf); [reflexivity|done|done].
Defined.

(** [alloc_linear_pageframes] always returns.  It either returns
    0xFFFFFFFF with the state unchanged, and then no run of [pages] consecutive
    list elements ends below the last frame, or it takes [pages] contiguous
    free frames out of the list and tags them, leaving the others alone. *)
Theorem alloc_linear_correct s fl pages t :
  pfs_rep s fl -> 2 <= pages < 2147483648 -> t <> FREE ->
  (alloc_linear_pageframes pages t s = Done (NOFRAME, s) /\
   forall la i lb, fl = la ++ seq i (Z.to_nat pages) ++ lb -> maxmem s <= Z.of_nat i + pages) \/
  (exists la i lb s',
     alloc_linear_pageframes pages t s = Done (Z.of_nat i, s') /\
     fl = la ++ seq i (Z.to_nat pages) ++ lb /\ pfs_rep s' (la ++ lb) /\
     (forall j, (i <= j < i + Z.to_nat pages)%nat -> pfdb s' !! j = Some (PF t NULL)) /\
     (forall j, ~ (i <= j < i + Z.to_nat pages)%nat -> tag <$> pfdb s' !! j = tag <$> pfdb s !! j) /\
     freemem s' = freemem s - pages).
Proof.
  intros R Hp Ht. destruct (alloc_linear_rep s fl pages t R Hp Ht)
    as [?|(la & i & lb & w & -> & Hb & E & R')]; [by left|right].
  destruct (unlink_fields (last la) w s) as (Hfm & _ & _ & Hlen & Htag).
  exists la, i, lb, (pf_taken (last la) w t i (Z.to_nat pages) s). split_and!; auto.
  - intros j Hj. simpl. by rewrite lookup_tag_run, decide_True by (rewrite ?Hlen; done).
  - intros j Hj. simpl. by rewrite lookup_tag_run, decide_False by (rewrite ?Hlen; done).
  - simpl. rewrite Hfm. lia.
Qed.

Lemma alloc_linear_correct_witness :
  exists s', alloc_linear_pageframes 3 PTAB demo_pfs = Done (1, s') /\ pfs_rep s' [5; 6]%nat.
Proof.
  destruct (alloc_linear_correct demo_pfs _ 3 PTAB demo_rep ltac:(lia) ltac:(done))
    as [[E _]|(la & i & lb & s' & E & Hfl & R & _)].
  - vm_compute in E. discriminate.
  - exists s'.
    assert (exists s1, alloc_linear_pageframes 3 PTAB demo_pfs = Done (1, s1)) as [s1 E1]
      by (eexists; vm_compute; reflexivity).
    assert (i = 1%nat) as -> by (rewrite E1 in E; injection E; lia).
    split; [exact E|]. destruct la as [|x la]; simpl in Hfl; [by injection Hfl as <-|].
    exfalso. injection Hfl as <- Hfl.
    assert (1%nat ∈ [2; 3; 5; 6]%nat) as Hin by (rewrite Hfl; apply elem_of_app; right; by left).
    repeat (apply elem_of_cons in Hin as [?|Hin]; [lia|]). by apply elem_of_nil in Hin.
Defined.

(** C19: No page frame is ever handed out twice.  In every state reached by
    allocating single frames and runs, freeing owned frames and writing owned
    entries, the owned frames are distinct, none of them is on the free list,
    and owned and free frames together are as many as at the start. *)
Theorem frames_exclusive s0 f :
  pfs_wf s0 -> rtc frame_step (Frames s0 []) f ->
  pfs_wf (fr_state f) /\ NoDup (fr_owned f) /\
  (forall i e, i ∈ fr_owned f -> pfdb (fr_state f) !! i = Some e -> tag e <> FREE) /\
  freemem (fr_state f) + Z.of_nat (length (fr_owned f)) = freemem s0.
Proof.
  intros [fl0 R0] Hst. assert (frames_inv (freemem s0) f) as (fl & R & Hn & Ho & Hk).
  { assert (I : frames_inv (freemem s0) (Frames s0 [])).
    { exists fl0. simpl. rewrite app_nil_r, Z.add_0_r. split_and!; [done|apply R0| |done].
      by intros i ?%elem_of_nil. }
    revert I. induction Hst; eauto using frame_step_inv. }
  apply NoDup_app in Hn as (_ & Hd & Hn). split_and!; [by exists fl|done| |done].
  intros i e Hi He Ht. apply (Hd i); [|done]. by apply (pr_free _ _ R i e He).
Qed.

Lemma frames_exclusive_witness :
  exists s1 s2, rtc frame_step (Frames demo_pfs []) (Frames s2 [5; 1; 2; 3]%nat) /\
    alloc_linear_pageframes 3 PTAB demo_pfs = Done (1, s1) /\
    freemem s2 + 4 = freemem demo_pfs.
Proof.
  assert (exists s1 s2, alloc_linear_pageframes 3 PTAB demo_pfs = Done (1, s1) /\
                        alloc_pageframe DMA s1 = Done (5, s2)) as (s1 & s2 & E1 & E2)
    by (do 2 eexists; split; [vm_compute; reflexivity|]; vm_compute; reflexivity).
  exists s1, s2.
  assert (Hst : rtc frame_step (Frames demo_pfs []) (Frames s2 [5; 1; 2; 3]%nat)).
  { eapply rtc_l; [apply (fs_linear demo_pfs [] 3 PTAB 1 s1); [lia|done|done|exact E1]|].
    apply rtc_once. by apply (fs_alloc s1 [1; 2; 3]%nat DMA 5 s2). }
  split_and!; [exact Hst|exact E1|].
  destruct (frames_exclusive demo_pfs _ demo_pfs_wf Hst) as (_ & _ & _ & H). exact H.
Defined.

(** The free list that the kernel builds at boot holds exactly the frames
    tagged free, in ascending order, and [freemem] counts them. *)
Theorem build_freelist_correct s :
  freelist s = NULL -> freemem s = 0 -> maxmem s = Z.of_nat (length (pfdb s)) ->
  Z.of_nat (length (pfdb s)) <= 1048576 ->
  pfs_rep (build_freelist (length (pfdb s)) s)
    (filter (fun i => tag (pfdb s !!! i) = FREE) (seq 0 (length (pfdb s)))).
Proof.
  intros. rewrite <- (Nat.sub_0_r (length (pfdb s))) at 2. by apply build_freelist_rep.
Qed.

Lemma build_freelist_correct_witness :
  pfs_rep (build_freelist 8 demo_boot) [1; 2; 3; 5; 6]%nat.
Proof.
  apply (build_freelist_correct demo_boot); reflexivity || (simpl; lia).
Defined.
