(* ===== verification/Pdir.v ===== *)
(** * Page tables (sys/krnl/pdir.c, include/os/pdir.h)

    The page directory and the page tables, seen through the recursive mapping
    the kernel uses: [pdir[i]] are the 1024 directory entries and [ptab[i]] the
    2^20 page table entries.  A page table entry can only be touched while the
    directory entry above it is present; otherwise the access faults.  The TLB
    is not modelled: every change is followed by [invlpage] in the code. *)

From S2P Require Import Prelude Pframe.

Definition PAGESIZE : Z := 4096.
Definition PAGESHIFT : Z := 12.
Definition PTES_PER_PAGE : Z := 1024.

Definition PT_PRESENT : Z := 0x001.
Definition PT_WRITABLE : Z := 0x002.
Definition PT_USER : Z := 0x004.
Definition PT_ACCESSED : Z := 0x020.
Definition PT_DIRTY : Z := 0x040.
Definition PT_GUARD : Z := 0x200.
Definition PT_FILE : Z := 0x400.
Definition PT_FLAGMASK : Z :=
  Z.lor PT_PRESENT (Z.lor PT_WRITABLE (Z.lor PT_USER (Z.lor PT_ACCESSED
    (Z.lor PT_DIRTY (Z.lor PT_GUARD PT_FILE))))).
Definition PT_PROTECTMASK : Z := Z.lor PT_WRITABLE (Z.lor PT_USER PT_GUARD).
Definition PT_PFNMASK : Z := 0xFFFFF000.

Definition PDEIDX (vaddr : Z) : Z := Z.shiftr vaddr 22.
Definition PTABIDX (vaddr : Z) : Z := Z.shiftr vaddr 12.
Definition PGOFF (vaddr : Z) : Z := Z.land vaddr 0xFFF.
Definition PAGES (x : Z) : Z := Z.shiftr (u32 (x + (PAGESIZE - 1))) PAGESHIFT.
Definition PAGEADDR (x : Z) : Z := Z.land x 0xFFFFF000.
Definition PTOB (x : Z) : Z := u32 (Z.shiftl x PAGESHIFT).
Definition BTOP (x : Z) : Z := Z.shiftr x PAGESHIFT.

Record mmu := Mmu {
  m_pf : pfs;
  pdir : gmap Z Z;
  ptab : gmap Z Z;
}.

Definition set_pf (p : pfs) (s : mmu) : mmu := Mmu p (pdir s) (ptab s).

Local Open Scope k_scope.

(** Code of the page frame component, run on its part of the state. *)
Definition with_pf {A} (m : K pfs A) : K mmu A := kzoom m_pf set_pf m.

Definition pde (s : mmu) (vaddr : Z) : Z := default 0 (pdir s !! PDEIDX vaddr).
Definition pte (s : mmu) (vaddr : Z) : Z := default 0 (ptab s !! PTABIDX vaddr).

Definition has (flag x : Z) : bool := negb (Z.land x flag =? 0).

Definition GET_PDE (vaddr : Z) : K mmu Z := fun s => Done (pde s vaddr, s).
Definition GET_PTE (vaddr : Z) : K mmu Z :=
  fun s => if has PT_PRESENT (pde s vaddr) then Done (pte s vaddr, s) else Fault.
Definition SET_PDE (vaddr v : Z) : K mmu unit :=
  kmod (fun s => Mmu (m_pf s) (<[PDEIDX vaddr := v]> (pdir s)) (ptab s)).
Definition SET_PTE (vaddr v : Z) : K mmu unit :=
  fun s => if has PT_PRESENT (pde s vaddr)
           then Done (tt, Mmu (m_pf s) (pdir s) (<[PTABIDX vaddr := v]> (ptab s)))
           else Fault.

(** [memset(pt, 0, PAGESIZE)] on the page table with the first entry [base]. *)
Definition clear_table (base : Z) (t : gmap Z Z) : gmap Z Z :=
  filter (fun kv => ~ (base <= kv.1 < base + PTES_PER_PAGE)) t.

Definition map_page (vaddr pfn flags : Z) : K mmu unit :=
  let* d := GET_PDE vaddr in
  (if Z.land d PT_PRESENT =? 0 then
     let* pdfn := with_pf (alloc_pageframe PTAB) in
     if pfn =? NOFRAME then kpanic "no memory for page table"
     else
       SET_PDE vaddr (Z.lor (PTOB pdfn) (Z.lor PT_PRESENT (Z.lor PT_WRITABLE PT_USER))) ;;;
       kmod (fun s => Mmu (m_pf s) (pdir s) (clear_table (PDEIDX vaddr * PTES_PER_PAGE) (ptab s)))
   else kret tt) ;;;
  SET_PTE vaddr (Z.lor (PTOB pfn) flags).

Definition unmap_page (vaddr : Z) : K mmu unit := SET_PTE vaddr 0.

Definition virt2phys (vaddr : Z) : K mmu Z :=
  let* e := GET_PTE vaddr in kret (u32 (Z.land e PT_PFNMASK + PGOFF vaddr)).

Definition virt2pfn (vaddr : Z) : K mmu Z :=
  let* e := GET_PTE vaddr in kret (BTOP (Z.land e PT_PFNMASK)).

Definition get_page_flags (vaddr : Z) : K mmu Z :=
  let* e := GET_PTE vaddr in kret (Z.land e PT_FLAGMASK).

Definition set_page_flags (vaddr flags : Z) : K mmu unit :=
  let* e := GET_PTE vaddr in SET_PTE vaddr (Z.lor (Z.land e PT_PFNMASK) flags).

Definition page_mapped (vaddr : Z) : K mmu bool :=
  let* d := GET_PDE vaddr in
  if Z.land d PT_PRESENT =? 0 then kret false
  else
    let* e := GET_PTE vaddr in
    if Z.land e PT_PRESENT =? 0 then kret false else kret true.

Definition page_directory_mapped (vaddr : Z) : K mmu bool :=
  let* d := GET_PDE vaddr in kret (negb (Z.land d PT_PRESENT =? 0)).

Definition unguard_page (vaddr : Z) : K mmu unit :=
  let* e := GET_PTE vaddr in
  SET_PTE vaddr (Z.lor (Z.land e (W32 - 1 - PT_GUARD)) PT_USER).

Definition clear_dirty (vaddr : Z) : K mmu unit :=
  let* e := GET_PTE vaddr in SET_PTE vaddr (Z.land e (W32 - 1 - PT_DIRTY)).

(** [for (i = 0; i < PTES_PER_PAGE; i++) SET_PTE(PTOB(i), 0)] *)
Definition init_pdir : K mmu unit :=
  kfor 1024 0 (fun i => SET_PTE (PTOB (Z.of_nat i)) 0).

(** [set_pageframe_tag] of pframe.c tags the frames behind a virtual range. *)
Fixpoint tag_range (fuel : nat) (vaddr vend t : Z) : K mmu unit :=
  if vaddr <? vend then
    match fuel with
    | O => khang
    | S fuel' =>
        let* pa := virt2phys vaddr in
        let pfn := Z.to_nat (Z.shiftr pa PAGESHIFT) in
        let* s := kget in
        let* _ := kopt (pfdb (m_pf s) !! pfn) in
        kmod (fun s => set_pf (set_pfdb
          (alter (fun e => PF t (word e)) pfn (pfdb (m_pf s))) (m_pf s)) s) ;;;
        tag_range fuel' (u32 (vaddr + PAGESIZE)) vend t
    end
  else kret tt.

Definition set_pageframe_tag (addr len t : Z) : K mmu unit :=
  tag_range (S (Z.to_nat (len / PAGESIZE))) addr (u32 (addr + len)) t.

(** [struct pdirstat] and the walk of [pdir_stat], which skips to the next
    4 MB boundary where there is no page table. *)
Record pdirstat := Pdirstat {
  st_present : Z; st_readonly : Z; st_readwrite : Z;
  st_user : Z; st_kernel : Z; st_accessed : Z; st_dirty : Z;
}.

Definition b2z (b : bool) : Z := if b then 1 else 0.

Definition stat_pte (e : Z) (b : pdirstat) : pdirstat :=
  if has PT_PRESENT e then
    let rw := has PT_WRITABLE e in
    let us := has PT_USER e in
    Pdirstat (st_present b + 1)
      (if rw then st_readonly b else st_readonly b + 1)
      (if rw then st_readwrite b + 1 else st_readwrite b)
      (if us then st_user b + 1 else st_user b)
      (if us then st_kernel b else st_kernel b + 1)
      (if has PT_ACCESSED e then st_accessed b + 1 else st_accessed b)
      (if has PT_DIRTY e then st_dirty b + 1 else st_dirty b)
  else b.

Fixpoint pdir_stat_loop (fuel : nat) (vaddr vend : Z) (buf : pdirstat) : K mmu pdirstat :=
  if vaddr <? vend then
    match fuel with
    | O => khang
    | S fuel' =>
        let* d := GET_PDE vaddr in
        if Z.land d PT_PRESENT =? 0 then
          let vaddr := u32 (vaddr + PTES_PER_PAGE * PAGESIZE) in
          let vaddr := Z.land vaddr (W32 - PTES_PER_PAGE * PAGESIZE) in
          pdir_stat_loop fuel' vaddr vend buf
        else
          let* e := GET_PTE vaddr in
          pdir_stat_loop fuel' (u32 (vaddr + PAGESIZE)) vend (stat_pte e buf)
    end
  else kret buf.

Definition pdir_stat (addr len : Z) : K mmu pdirstat :=
  pdir_stat_loop (S (Z.to_nat (len / PAGESIZE))) addr (u32 (addr + len)) (Pdirstat 0 0 0 0 0 0 0).

Section access.
(** [fetch_page] of vmm.c brings in a page of a mapped file; it is called
    for pages that are marked as file pages and are not accessible yet. *)
Variable fetch_page : Z -> K mmu Z.

(** The test that both access checks make for the page of [addr]. *)
Definition check_page (addr access : Z) : K mmu bool :=
  let* d := GET_PDE addr in
  if Z.land d PT_PRESENT =? 0 then kret false
  else
    let* e := GET_PTE addr in
    if negb (Z.land e access =? access) then
      if negb (Z.land e PT_FILE =? 0) then
        let* rc := fetch_page (PAGEADDR addr) in
        if rc <? 0 then kret false
        else
          let* e := GET_PTE addr in
          kret (Z.land e access =? access)
      else kret false
    else kret true.

(** The loop of [mem_access]; [size] is a signed int. *)
Fixpoint mem_access_loop (fuel : nat) (addr next size access : Z) : K mmu bool :=
  match fuel with
  | O => khang
  | S fuel' =>
      let* ok := check_page addr access in
      if negb ok then kret false
      else
        let size := s32 (size - u32 (next - addr)) in
        if size <=? 0 then kret true
        else mem_access_loop fuel' next (u32 (next + PAGESIZE)) size access
  end.

(** [next = (addr & ~PAGESIZE) + PAGESIZE] *)
Definition mem_access (fuel : nat) (vaddr size access : Z) : K mmu bool :=
  let next := u32 (Z.land vaddr (W32 - 1 - PAGESIZE) + PAGESIZE) in
  mem_access_loop fuel vaddr next size access.

(** [str_access] with the memory contents given by [byte]. *)
Variable byte : Z -> Z.

(** The inner loop: [None] when the end of the string was found, otherwise
    the start of the next page. *)
Fixpoint str_scan (fuel : nat) (s : Z) : option (option Z) :=
  match fuel with
  | O => None
  | S fuel' =>
      if byte s =? 0 then Some None
      else
        let s := u32 (s + 1) in
        if PGOFF s =? 0 then Some (Some s) else str_scan fuel' s
  end.

Fixpoint str_access (fuel : nat) (s access : Z) : K mmu bool :=
  match fuel with
  | O => khang
  | S fuel' =>
      let* ok := check_page s access in
      if negb ok then kret false
      else
        match str_scan (Z.to_nat PAGESIZE) s with
        | None => khang
        | Some None => kret true
        | Some (Some s') => str_access fuel' s' access
        end
  end.
End access.

(** ** Bits of page table entries *)

Lemma testbit_high x n k : 0 <= x < 2 ^ n -> n <= k -> Z.testbit x k = false.
Proof.
  intros H Hk. destruct (Z.eq_dec x 0) as [->|]; [apply Z.bits_0|].
  apply Z.bits_above_log2; [lia|]. assert (x < 2 ^ k).
  { eapply Z.lt_le_trans; [apply H|]. apply Z.pow_le_mono_r; lia. }
  apply Z.log2_lt_pow2; lia.
Qed.

Lemma land_high x n : 0 <= n <= 32 -> is_u32 x -> Z.land x (2 ^ 32 - 2 ^ n) = x / 2 ^ n * 2 ^ n.
Proof.
  intros Hn Hx. replace (2 ^ 32 - 2 ^ n) with (Z.shiftl (Z.ones (32 - n)) n).
  2:{ rewrite Z.shiftl_mul_pow2, Z.ones_equiv by lia. rewrite <- Z.sub_1_r, Z.mul_sub_distr_r.
      rewrite <- Z.pow_add_r by lia. f_equal; [f_equal|]; lia. }
  rewrite <- Z.shiftr_div_pow2, <- Z.shiftl_mul_pow2 by lia.
  apply Z.bits_inj'. intros k Hk. rewrite Z.land_spec, !Z.shiftl_spec by lia.
  destruct (Z.ltb_spec k n).
  - rewrite !(Z.testbit_neg_r _ (k - n)) by lia. apply andb_false_r.
  - rewrite Z.shiftr_spec by lia. replace (k - n + n) with k by lia.
    rewrite Z.testbit_ones_nonneg by lia. destruct (Z.ltb_spec (k - n) (32 - n)); [apply andb_true_r|].
    rewrite andb_false_r. symmetry. apply (testbit_high _ 32); [exact Hx|lia].
Qed.

Lemma land_pfnmask x : is_u32 x -> Z.land x PT_PFNMASK = x / 4096 * 4096.
Proof. apply (land_high x 12). lia. Qed.

Lemma land_shiftl_low p f n : 0 <= n -> 0 <= f < 2 ^ n -> Z.land (Z.shiftl p n) f = 0.
Proof.
  intros Hn Hf. apply Z.bits_inj'. intros k Hk. rewrite Z.land_spec, Z.shiftl_spec, Z.bits_0 by lia.
  destruct (Z.ltb_spec k n); [by rewrite Z.testbit_neg_r by lia|].
  by rewrite (testbit_high f n), andb_false_r by lia.
Qed.

Lemma lor_pte p f : 0 <= f < 4096 -> Z.lor (Z.shiftl p 12) f = p * 4096 + f.
Proof.
  intros Hf. rewrite <- Z.add_nocarry_lor; [by rewrite Z.shiftl_mul_pow2|].
  by apply land_shiftl_low.
Qed.

Lemma PTOB_small p : 0 <= p < 1048576 -> PTOB p = Z.shiftl p 12.
Proof.
  intros H. unfold PTOB. apply u32_small. unfold is_u32, W32, PAGESHIFT.
  rewrite Z.shiftl_mul_pow2 by lia. lia.
Qed.

Lemma land_low x m : 0 <= m < 4096 -> Z.land x m = Z.land (x mod 4096) m.
Proof.
  intros Hm. change 4096 with (2 ^ 12). rewrite <- Z.land_ones by lia.
  rewrite <- Z.land_assoc. f_equal. rewrite Z.land_comm, Z.land_ones by lia.
  symmetry. by apply Z.mod_small.
Qed.

Lemma PGOFF_mod v : PGOFF v = v mod 4096.
Proof. unfold PGOFF. change 0xFFF with (Z.ones 12). by rewrite Z.land_ones. Qed.

Lemma PTABIDX_div v : PTABIDX v = v / 4096.
Proof. unfold PTABIDX. by rewrite Z.shiftr_div_pow2. Qed.

Lemma PDEIDX_PTABIDX v : PDEIDX v = PTABIDX v / 1024.
Proof.
  unfold PDEIDX, PTABIDX. change 1024 with (2 ^ 10).
  by rewrite <- Z.shiftr_div_pow2, Z.shiftr_shiftr by lia.
Qed.

Lemma has_present x : has PT_PRESENT x = Z.testbit x 0.
Proof.
  unfold has, PT_PRESENT. change 1 with (Z.ones 1). rewrite Z.land_ones by lia.
  change (2 ^ 1) with 2. rewrite Z.bit0_odd, Zmod_odd. by destruct (Z.odd x).
Qed.

(** The tests [(x & f) == 0] of the code. *)
Lemma has_test f x : (Z.land x f =? 0) = negb (has f x).
Proof. unfold has. by rewrite negb_involutive. Qed.

(** The frame number and the flags of an entry built by [map_page]. *)
Lemma pte_fields p f m :
  0 <= p < 1048576 -> 0 <= f < 4096 -> 0 <= m < 4096 ->
  is_u32 (Z.lor (PTOB p) f) /\ Z.land (Z.lor (PTOB p) f) PT_PFNMASK = p * 4096 /\
  Z.land (Z.lor (PTOB p) f) m = Z.land f m.
Proof.
  intros Hp Hf Hm. rewrite PTOB_small, lor_pte by lia.
  assert (is_u32 (p * 4096 + f)) as Hu by u32_lia. split; [done|]. split.
  - rewrite land_pfnmask by done. by rewrite Z.div_add_l, Z.div_small, Z.add_0_r by lia.
  - rewrite land_low by done. by rewrite Z.add_comm, Z.mod_add, Z.mod_small by lia.
Qed.

(** ** The address space the tables describe

    [view s n] is the entry of virtual page [n], 0 where there is no page
    table.  The operations are specified by what they do to it. *)

Definition view (s : mmu) (n : Z) : Z :=
  if has PT_PRESENT (default 0 (pdir s !! (n / 1024))) then default 0 (ptab s !! n) else 0.

Record mmu_wf (s : mmu) : Prop := {
  mw_pf : pfs_wf (m_pf s);
  mw_pte : map_Forall (fun _ e => is_u32 e) (ptab s);
}.

(** The address space with the entry of one page changed. *)
Definition updated (vaddr e : Z) (s s' : mmu) : Prop :=
  forall n, view s' n = if decide (n = PTABIDX vaddr) then e else view s n.

Lemma view_pde s v : has PT_PRESENT (pde s v) = true -> view s (PTABIDX v) = pte s v.
Proof. unfold pde, view. rewrite PDEIDX_PTABIDX. by intros ->. Qed.

Lemma view_u32 s n : mmu_wf s -> is_u32 (view s n).
Proof.
  intros [_ Hp]. unfold view. destruct (has _ _); [|u32_lia].
  destruct (ptab s !! n) as [e|] eqn:E; simpl; [by apply (Hp n)|u32_lia].
Qed.

Lemma GET_PTE_view s v :
  has PT_PRESENT (pde s v) = true -> GET_PTE v s = Done (view s (PTABIDX v), s).
Proof. intros H. unfold GET_PTE. by rewrite H, view_pde. Qed.

Lemma SET_PTE_view s v e :
  has PT_PRESENT (pde s v) = true -> mmu_wf s -> is_u32 e ->
  exists s', SET_PTE v e s = Done (tt, s') /\ updated v e s s' /\ mmu_wf s' /\
    m_pf s' = m_pf s /\ pdir s' = pdir s.
Proof.
  intros H [Hf Hp] He. unfold SET_PTE. rewrite H. eexists. split; [done|]. split_and!; try done.
  - intros n. unfold view, updated. simpl. case_decide as Hn.
    + subst n. rewrite lookup_insert_eq. unfold pde in H. rewrite PDEIDX_PTABIDX in H. by rewrite H.
    + by rewrite lookup_insert_ne by done.
  - split; simpl; [done|]. by apply map_Forall_insert_2.
Qed.

Lemma clear_table_lookup b t n :
  clear_table b t !! n = if decide (b <= n < b + 1024) then None else t !! n.
Proof.
  unfold clear_table. case_decide as Hd.
  - apply map_lookup_filter_None. right. intros x _ Hx. simpl in Hx. unfold PTES_PER_PAGE in Hx. lia.
  - destruct (t !! n) as [x|] eqn:E.
    + apply map_lookup_filter_Some. split; [done|]. done.
    + apply map_lookup_filter_None. by left.
Qed.

(** The new, empty table of [map_page] leaves the address space as it was. *)
Lemma new_table_view s p v d :
  has PT_PRESENT (pde s v) = false -> has PT_PRESENT d = true -> mmu_wf s -> pfs_wf p ->
  let s' := Mmu p (<[PDEIDX v := d]> (pdir s)) (clear_table (PDEIDX v * 1024) (ptab s)) in
  (forall n, view s' n = view s n) /\ mmu_wf s' /\ has PT_PRESENT (pde s' v) = true.
Proof.
  intros H Hd [_ Hp] Hpf s'. split_and!.
  - intros n. unfold view, s', pde in *. cbn [m_pf pdir ptab]. rewrite clear_table_lookup.
    destruct (decide (n / 1024 = PDEIDX v)) as [E|E].
    + rewrite E, lookup_insert_eq, H. change (default 0 (Some d)) with d. rewrite Hd. rewrite decide_True; [done|].
      rewrite <- E. pose proof (Z.mod_pos_bound n 1024). rewrite (Z.div_mod n 1024) at 2 3 by lia. lia.
    + rewrite lookup_insert_ne by done. rewrite decide_False; [done|].
      intros Hr. apply E. symmetry. apply (Z.div_unique _ _ _ (n - PDEIDX v * 1024)); lia.
  - split; [done|]. intros n x. unfold s'. cbn [m_pf pdir ptab]. rewrite clear_table_lookup. case_decide; [done|apply Hp].
  - unfold pde, s'. cbn [pdir]. by rewrite lookup_insert_eq.
Qed.

(** The run of [map_page] in each case: the table is there, there is no
    frame for one, or the first free frame becomes one. *)
Definition new_pde (i : nat) : Z :=
  Z.lor (PTOB (Z.of_nat i)) (Z.lor PT_PRESENT (Z.lor PT_WRITABLE PT_USER)).

Lemma new_pde_present i : has PT_PRESENT (new_pde i) = true.
Proof. rewrite has_present. unfold new_pde. rewrite Z.lor_spec. apply orb_true_iff. by right. Qed.

Lemma map_page_table s v pfn flags :
  has PT_PRESENT (pde s v) = true -> map_page v pfn flags s = SET_PTE v (Z.lor (PTOB pfn) flags) s.
Proof. intros Hd. unfold map_page, GET_PDE. krun. rewrite !has_test, Hd. done. Qed.

Lemma map_page_none s v pfn flags :
  has PT_PRESENT (pde s v) = false -> pfs_rep (m_pf s) [] ->
  map_page v pfn flags s = Panic "out of memory".
Proof.
  intros Hd R. unfold map_page, GET_PDE. krun. rewrite !has_test, Hd. cbn [negb]. unfold with_pf. kx.
  by rewrite (alloc_pageframe_none _ PTAB R).
Qed.

Lemma map_page_new s v pfn flags i fl :
  has PT_PRESENT (pde s v) = false -> pfs_rep (m_pf s) (i :: fl) -> 0 <= pfn < 1048576 ->
  map_page v pfn flags s =
    SET_PTE v (Z.lor (PTOB pfn) flags)
      (Mmu (pf_allocated PTAB i (m_pf s)) (<[PDEIDX v := new_pde i]> (pdir s))
           (clear_table (PDEIDX v * 1024) (ptab s))).
Proof.
  intros Hd R Hp. unfold map_page, GET_PDE. krun. rewrite !has_test, Hd. cbn [negb].
  destruct (alloc_pageframe_rep _ _ _ PTAB R) as (E & _); [done|].
  unfold with_pf. kx. rewrite E. unfold NOFRAME. by destruct (Z.eqb_spec pfn 4294967295); [lia|].
Qed.

(** [grown s s' fl fl']: what a call may do to the directory and the frames
    while it maps a page. *)
Inductive grown (s : mmu) (v : Z) : list nat -> mmu -> list nat -> Prop :=
| grown_same fl s' :
    has PT_PRESENT (pde s v) = true -> m_pf s' = m_pf s -> pdir s' = pdir s -> grown s v fl s' fl
| grown_table i fl s' :
    has PT_PRESENT (pde s v) = false -> m_pf s' = pf_allocated PTAB i (m_pf s) ->
    pdir s' = <[PDEIDX v := new_pde i]> (pdir s) -> grown s v (i :: fl) s' fl.

Lemma map_page_run s v pfn flags fl :
  mmu_wf s -> pfs_rep (m_pf s) fl -> 0 <= pfn < 1048576 -> 0 <= flags < 4096 ->
  (has PT_PRESENT (pde s v) = false /\ fl = [] /\ map_page v pfn flags s = Panic "out of memory") \/
  exists s' fl', map_page v pfn flags s = Done (tt, s') /\
    updated v (Z.lor (PTOB pfn) flags) s s' /\ mmu_wf s' /\ has PT_PRESENT (pde s' v) = true /\
    grown s v fl s' fl' /\ pfs_rep (m_pf s') fl'.
Proof.
  intros Hwf R Hpfn Hfl. pose proof (pte_fields pfn flags 0 Hpfn Hfl) as (Hu & _); [lia|].
  destruct (has PT_PRESENT (pde s v)) eqn:Hd; [right|destruct fl as [|i fl]; [left|right]].
  - destruct (SET_PTE_view s v _ Hd Hwf Hu) as (s' & E & ? & ? & Hm & Hp).
    exists s', fl. rewrite (map_page_table _ _ _ _ Hd). split_and!; auto.
    + unfold pde in *. by rewrite Hp.
    + by constructor.
    + by rewrite Hm.
  - by rewrite map_page_none.
  - destruct (alloc_pageframe_rep _ _ _ PTAB R) as (_ & R'); [done|].
    rewrite (map_page_new _ _ _ _ _ _ Hd R Hpfn).
    destruct (new_table_view s _ v _ Hd (new_pde_present i) Hwf (ex_intro _ _ R')) as (Hv & Hw & Hp).
    destruct (SET_PTE_view _ v _ Hp Hw Hu) as (s' & E' & Hup & Hw' & Hm & Hpd). exists s', fl.
    rewrite E'. split_and!; auto.
    + intros m. rewrite Hup. case_decide; auto.
    + unfold pde. rewrite Hpd. exact Hp.
    + by constructor.
    + by rewrite Hm.
Qed.

(** What [map_page] does: shared by the theorems of the clients. *)
Lemma map_page_spec s v pfn flags :
  mmu_wf s -> 0 <= pfn < 1048576 -> 0 <= flags < 4096 ->
  has PT_PRESENT (pde s v) = true \/ 0 < freemem (m_pf s) ->
  exists s', map_page v pfn flags s = Done (tt, s') /\
    updated v (Z.lor (PTOB pfn) flags) s s' /\ mmu_wf s' /\
    has PT_PRESENT (pde s' v) = true /\
    freemem (m_pf s') = freemem (m_pf s) - b2z (negb (has PT_PRESENT (pde s v))).
Proof.
  intros Hwf Hpfn Hfl Hfree. destruct (mw_pf s Hwf) as [fl R].
  destruct (map_page_run s v pfn flags fl Hwf R Hpfn Hfl) as [(Hd & -> & _)|(s' & fl' & E & Hup & Hw & Hd & G & R')].
  - pose proof (pr_count _ _ R) as Hc. simpl in Hc. destruct Hfree; [congruence|lia].
  - exists s'. split_and!; auto. destruct G as [fl s' Hp Hm _|i fl s' Hp Hm _]; rewrite Hm, Hp; simpl; lia.
Qed.

(** The readers, in terms of the address space. *)
Lemma page_mapped_view s v : page_mapped v s = Done (has PT_PRESENT (view s (PTABIDX v)), s).
Proof.
  unfold page_mapped, GET_PDE. kx. rewrite !has_test.
  destruct (has PT_PRESENT (pde s v)) eqn:Hd; cbn [negb].
  - rewrite (GET_PTE_view _ _ Hd), has_test. by destruct (has PT_PRESENT (view s (PTABIDX v))).
  - unfold view, pde in *. rewrite PDEIDX_PTABIDX in Hd. by rewrite Hd.
Qed.

Lemma present_pde s v : has PT_PRESENT (view s (PTABIDX v)) = true -> has PT_PRESENT (pde s v) = true.
Proof. unfold view, pde. rewrite PDEIDX_PTABIDX. by destruct (has _ (default _ (pdir s !! _))). Qed.

Lemma virt2phys_view s v :
  has PT_PRESENT (pde s v) = true -> mmu_wf s ->
  virt2phys v s = Done (view s (PTABIDX v) / 4096 * 4096 + v mod 4096, s).
Proof.
  intros Hd Hw. unfold virt2phys. kx. rewrite (GET_PTE_view _ _ Hd), PGOFF_mod.
  pose proof (view_u32 s (PTABIDX v) Hw) as Hu. rewrite land_pfnmask by done.
  rewrite u32_small; [done|]. pose proof (Z.mod_pos_bound v 4096).
  assert (view s (PTABIDX v) / 4096 < 1048576) by (apply Z.div_lt_upper_bound; u32_lia).
  assert (0 <= view s (PTABIDX v) / 4096) by (apply Z.div_pos; u32_lia). u32_lia.
Qed.

Lemma virt2pfn_view s v :
  has PT_PRESENT (pde s v) = true -> mmu_wf s ->
  virt2pfn v s = Done (view s (PTABIDX v) / 4096, s).
Proof.
  intros Hd Hw. unfold virt2pfn. kx. rewrite (GET_PTE_view _ _ Hd).
  rewrite land_pfnmask by (by apply view_u32). unfold BTOP, PAGESHIFT.
  rewrite Z.shiftr_div_pow2 by lia. change (2 ^ 12) with 4096. by rewrite Z.div_mul.
Qed.

Lemma get_page_flags_view s v :
  has PT_PRESENT (pde s v) = true ->
  get_page_flags v s = Done (Z.land (view s (PTABIDX v)) PT_FLAGMASK, s).
Proof. intros Hd. unfold get_page_flags. kx. by rewrite (GET_PTE_view _ _ Hd). Qed.

Lemma pte_div p f : 0 <= p < 1048576 -> 0 <= f < 4096 -> Z.lor (PTOB p) f / 4096 = p.
Proof.
  intros Hp Hf. rewrite PTOB_small, lor_pte by lia.
  by rewrite Z.div_add_l, Z.div_small, Z.add_0_r by lia.
Qed.

Lemma same_page_pde s v w : PTABIDX w = PTABIDX v -> pde s w = pde s v.
Proof. intros E. unfold pde. by rewrite !PDEIDX_PTABIDX, E. Qed.

(** The address space invariants are enough for [set_page_flags],
    [unguard_page], [clear_dirty] and [unmap_page] to return. *)
Lemma set_page_flags_spec s v flags :
  has PT_PRESENT (pde s v) = true -> mmu_wf s -> 0 <= flags < 4096 ->
  exists s', set_page_flags v flags s = Done (tt, s') /\ mmu_wf s' /\ m_pf s' = m_pf s /\
    pdir s' = pdir s /\
    updated v (view s (PTABIDX v) / 4096 * 4096 + flags) s s'.
Proof.
  intros Hd Hw Hf. unfold set_page_flags. kx. rewrite (GET_PTE_view _ _ Hd).
  pose proof (view_u32 s (PTABIDX v) Hw) as Hu. rewrite land_pfnmask by done.
  set (q := view s (PTABIDX v) / 4096).
  assert (0 <= q < 1048576) as Hq.
  { split; [apply Z.div_pos; u32_lia|apply Z.div_lt_upper_bound; u32_lia]. }
  replace (q * 4096) with (Z.shiftl q 12) by (by rewrite Z.shiftl_mul_pow2).
  destruct (SET_PTE_view s v (Z.lor (Z.shiftl q 12) flags) Hd Hw) as (s' & E & ? & ? & ? & ?).
  { rewrite lor_pte by done. u32_lia. }
  exists s'. rewrite lor_pte in * by done. rewrite Z.shiftl_mul_pow2 by lia. by split_and!.
Qed.

Lemma unmap_page_spec s v :
  has PT_PRESENT (pde s v) = true -> mmu_wf s ->
  exists s', unmap_page v s = Done (tt, s') /\ mmu_wf s' /\ m_pf s' = m_pf s /\
    pdir s' = pdir s /\ updated v 0 s s'.
Proof.
  intros Hd Hw. destruct (SET_PTE_view s v 0 Hd Hw) as (s' & E & ? & ? & ? & ?); [u32_lia|].
  exists s'. by split_and!.
Qed.

(** ** Access checks *)

Lemma land_pow2 x n : 0 <= n -> Z.land x (2 ^ n) = if Z.testbit x n then 2 ^ n else 0.
Proof.
  intros Hn. apply Z.bits_inj'. intros k Hk. rewrite Z.land_spec, Z.pow2_bits_eqb by done.
  destruct (Z.eqb_spec n k) as [->|Hne].
  - rewrite andb_true_r. destruct (Z.testbit x k); [by rewrite Z.pow2_bits_true|by rewrite Z.bits_0].
  - rewrite andb_false_r. destruct (Z.testbit x n); [by rewrite Z.pow2_bits_false|by rewrite Z.bits_0].
Qed.

(** [addr & ~PAGESIZE] clears only bit 12, it does not round to a page. *)
Lemma land_not_pagesize x :
  is_u32 x -> Z.land x (W32 - 1 - PAGESIZE) = if Z.testbit x 12 then x - 4096 else x.
Proof.
  intros Hx. assert (Z.land x (W32 - 1 - PAGESIZE) + Z.land x (2 ^ 12) = x) as H.
  { rewrite Z.add_nocarry_lor.
    - rewrite <- Z.land_lor_distr_r. change (Z.lor _ (2 ^ 12)) with (Z.ones 32).
      rewrite Z.land_ones by lia. apply Z.mod_small. exact Hx.
    - rewrite (Z.land_comm x (2 ^ 12)), Z.land_assoc, <- (Z.land_assoc x).
      change (Z.land (W32 - 1 - PAGESIZE) (2 ^ 12)) with 0. by rewrite Z.land_0_r. }
  rewrite land_pow2 in H by lia. destruct (Z.testbit x 12); lia.
Qed.

Definition page_ok (s : mmu) (access vaddr : Z) : bool :=
  has PT_PRESENT (pde s vaddr) && (Z.land (pte s vaddr) access =? access).

(** The page is accessible, or it is refused without asking [fetch_page]. *)
Definition settled (s : mmu) (access vaddr : Z) : Prop :=
  page_ok s access vaddr = true \/ has PT_FILE (pte s vaddr) = false.

Definition visited (vaddr : Z) (k : nat) : Z := u32 (vaddr + 4096 * Z.of_nat k).

Section access_spec.
Variable fetch_page : Z -> K mmu Z.
Variables (s : mmu) (access : Z).

Lemma check_page_settled v :
  settled s access v -> check_page fetch_page v access s = Done (page_ok s access v, s).
Proof.
  unfold check_page, GET_PDE, GET_PTE, settled, page_ok. kx. rewrite has_test.
  destruct (has PT_PRESENT (pde s v)) eqn:Hd; cbn [negb andb]; [|done]. rewrite ?Hd. cbn beta iota.
  destruct (Z.eqb_spec (Z.land (pte s v) access) access) as [E|E]; cbn [negb andb]; [done|].
  intros [?|Hf]; [done|]. unfold has in Hf. by rewrite Hf.
Qed.

Lemma visited_S v k : visited (u32 (v + 4096)) k = visited v (S k).
Proof. unfold visited. rewrite u32_add_l. f_equal. lia. Qed.

Lemma mem_access_loop_spec n : forall fuel v size,
  is_u32 v -> 4096 * Z.of_nat n < size <= 4096 * Z.of_nat (S n) \/ (size <= 0 /\ n = 0%nat) ->
  -1073741824 <= size < 2147483648 -> (n < fuel)%nat ->
  (forall k, (k <= n)%nat -> settled s access (visited v k)) ->
  mem_access_loop fetch_page fuel v (u32 (v + PAGESIZE)) size access s =
    Done (forallb (fun k => page_ok s access (visited v k)) (seq 0 (S n)), s).
Proof.
  induction n as [|n IH]; intros [|fuel] v size Hv Hn Hs Hf Hset; try lia;
    cbn [mem_access_loop]; kx;
    (assert (visited v 0 = v) as Hv0 by (unfold visited; rewrite Z.mul_0_r, Z.add_0_r; by apply u32_small));
    pose proof (Hset 0%nat ltac:(lia)) as H0; rewrite Hv0 in H0;
    rewrite (check_page_settled v H0), forallb_seq_S, Hv0.
  - destruct (page_ok s access v); cbn [negb andb]; [|done].
    rewrite u32_sub_l. replace (v + PAGESIZE - v) with 4096 by (unfold PAGESIZE; lia).
    change (u32 4096) with 4096. rewrite s32_range by lia.
    by destruct (Z.leb_spec (size - 4096) 0); [|lia].
  - destruct (page_ok s access v); cbn [negb andb]; [|done].
    rewrite u32_sub_l. replace (v + PAGESIZE - v) with 4096 by (unfold PAGESIZE; lia).
    change (u32 4096) with 4096. rewrite s32_range by lia.
    destruct (Z.leb_spec (size - 4096) 0); [lia|].
    rewrite IH; [|apply u32_range|lia|lia|lia|].
    + do 2 f_equal. apply forallb_eq. intros k. by rewrite visited_S.
    + intros k Hk. rewrite visited_S. apply Hset. lia.
Qed.
End access_spec.

(** The addresses [mem_access] looks at: one in each page-sized step from
    [vaddr], as many as it takes to use up [size]. *)
Definition steps_of (size : Z) : nat := Z.to_nat ((size - 1) / 4096).

Lemma steps_of_range size :
  0 <= size -> 4096 * Z.of_nat (steps_of size) < size <= 4096 * Z.of_nat (S (steps_of size)) \/
    (size <= 0 /\ steps_of size = 0%nat).
Proof.
  intros Hs. unfold steps_of. destruct (Z.eq_dec size 0) as [->|]; [by right|left].
  pose proof (Z.div_mod (size - 1) 4096). pose proof (Z.mod_pos_bound (size - 1) 4096).
  assert (0 <= (size - 1) / 4096) by (apply Z.div_pos; lia). lia.
Qed.

Lemma mem_access_spec fetch_page s access v size fuel :
  is_u32 v -> 0 <= size < 2147483648 -> (S (steps_of size) < fuel)%nat ->
  (forall k, (k <= steps_of size)%nat -> settled s access (visited v k)) ->
  mem_access fetch_page fuel v size access s =
    Done (forallb (fun k => page_ok s access (visited v k)) (seq 0 (S (steps_of size))), s).
Proof.
  intros Hv Hs Hf Hset. unfold mem_access. rewrite land_not_pagesize by done.
  pose proof (steps_of_range size ltac:(lia)) as Hn.
  destruct (Z.testbit v 12) eqn:Hb; [|apply mem_access_loop_spec; auto; lia].
  replace (v - 4096 + PAGESIZE) with v by (unfold PAGESIZE; lia). rewrite (u32_small v) by done.
  destruct fuel as [|fuel]; [lia|]. cbn [mem_access_loop]. kx.
  assert (visited v 0 = v) as Hv0 by (unfold visited; rewrite Z.mul_0_r, Z.add_0_r; by apply u32_small).
  pose proof (Hset 0%nat ltac:(lia)) as H0. rewrite Hv0 in H0.
  rewrite (check_page_settled _ _ _ v H0). rewrite Z.sub_diag. change (u32 0) with 0.
  rewrite Z.sub_0_r, s32_small by lia.
  destruct (page_ok s access v) eqn:Ho; cbn [negb].
  - destruct (Z.leb_spec size 0).
    + destruct Hn as [|[_ Hn]]; [lia|]. rewrite Hn. cbn [seq forallb]. by rewrite Hv0, Ho.
    + apply mem_access_loop_spec; auto; lia.
  - by rewrite forallb_seq_S, Hv0, Ho.
Qed.

(** ** Statistics *)

Definition stat_pages (s : mmu) (b : pdirstat) (ps : list Z) : pdirstat :=
  foldl (fun b p => stat_pte (view s p) b) b ps.

Lemma stat_pages_absent s b ps : (forall p, p ∈ ps -> view s p = 0) -> stat_pages s b ps = b.
Proof.
  induction ps as [|p ps IH]; intros H; [done|]. unfold stat_pages. cbn [foldl].
  rewrite H by (by left). apply IH. intros q Hq. apply H. by right.
Qed.

Lemma view_no_table s p q :
  has PT_PRESENT (pde s (4096 * p)) = false -> q / 1024 = p / 1024 -> view s q = 0.
Proof.
  unfold pde, view. rewrite PDEIDX_PTABIDX, PTABIDX_div, Z.mul_comm, Z.div_mul by lia. by intros H ->; rewrite H.
Qed.

Lemma skip_table p :
  0 <= p < 1047552 ->
  Z.land (u32 (4096 * p + PTES_PER_PAGE * PAGESIZE)) (W32 - PTES_PER_PAGE * PAGESIZE) =
    4096 * (1024 * (p / 1024 + 1)).
Proof.
  intros Hp. change (PTES_PER_PAGE * PAGESIZE) with (2 ^ 22). change W32 with (2 ^ 32).
  rewrite u32_small by u32_lia. rewrite land_high by u32_lia.
  replace (4096 * p + 2 ^ 22) with (4096 * (p + 1024)) by lia.
  change (2 ^ 22) with (4096 * 1024). rewrite Z.div_mul_cancel_l by lia.
  replace (p + 1024) with (p + 1 * 1024) by lia. rewrite Z.div_add by lia. lia.
Qed.

Lemma pdir_stat_loop_spec s vend : 0 <= vend <= 4290772992 ->
  forall fuel m p b, (m <= fuel)%nat -> 0 <= p ->
  vend <= 4096 * (p + Z.of_nat m) -> (m <> 0%nat -> 4096 * (p + Z.of_nat m - 1) < vend) ->
  pdir_stat_loop fuel (4096 * p) vend b s = Done (stat_pages s b (seqZ p (Z.of_nat m)), s).
Proof.
  intros Hv. induction fuel as [|fuel IH]; intros m p b Hf Hp Hup Hlo.
  - assert (m = 0%nat) as -> by lia. cbn [pdir_stat_loop].
    by destruct (Z.ltb_spec (4096 * p) vend); [lia|].
  - cbn [pdir_stat_loop]. destruct (Z.ltb_spec (4096 * p) vend) as [Hlt|Hge].
    2:{ assert (m = 0%nat) as -> by (destruct m; [done|]; specialize (Hlo ltac:(done)); lia). done. }
    assert (m <> 0%nat) as Hm by (intros ->; lia). specialize (Hlo Hm).
    unfold GET_PDE. kx. rewrite has_test.
    destruct (has PT_PRESENT (pde s (4096 * p))) eqn:Hd; cbn [negb].
    + rewrite (GET_PTE_view _ _ Hd), PTABIDX_div, (Z.mul_comm 4096 p), Z.div_mul by lia.
      rewrite u32_small by (unfold PAGESIZE; u32_lia).
      replace (p * 4096 + PAGESIZE) with (4096 * (p + 1)) by (unfold PAGESIZE; lia).
      rewrite (IH (pred m)) by lia. rewrite (seqZ_cons p) by lia. unfold stat_pages. cbn [foldl].
      by replace (Z.of_nat (pred m)) with (Z.pred (Z.of_nat m)) by lia.
    + set (q := 1024 * (p / 1024 + 1)). assert (p < q <= p + 1024).
      { pose proof (Z.div_mod p 1024). pose proof (Z.mod_pos_bound p 1024). unfold q. lia. }
      rewrite skip_table by lia. fold q.
      rewrite (IH (Z.to_nat (Z.of_nat m - (q - p)))) by lia.
      set (j := Z.min (q - p) (Z.of_nat m)).
      replace (Z.of_nat m) with (j + Z.of_nat (Z.to_nat (Z.of_nat m - (q - p)))) at 2 by lia.
      rewrite seqZ_app by lia. unfold stat_pages. rewrite foldl_app. fold (stat_pages s b (seqZ p j)).
      rewrite stat_pages_absent.
      * destruct (decide (j = q - p)) as [->|].
        { by replace (p + (q - p)) with q by lia. }
        by replace (Z.to_nat (Z.of_nat m - (q - p))) with 0%nat by lia.
      * intros r Hr%elem_of_seqZ. apply (view_no_table _ p); [done|].
        symmetry. apply (Z.div_unique _ _ _ (r - 1024 * (p / 1024))); [|lia].
        pose proof (Z.div_mod p 1024). pose proof (Z.mod_pos_bound p 1024). unfold j, q in *. lia.
Qed.

(** ** Properties *)

(** [map_page] returns whenever there is a page table or a free frame for
    one, and then every address of the page translates to the same offset in
    the given frame, has the given flags and is mapped exactly if the present
    bit was asked for; every other page has the entry it had before, also
    when a new page table was put in; and at most one frame was used. *)
Theorem map_page_correct s v pfn flags :
  mmu_wf s -> 0 <= pfn < 1048576 -> 0 <= flags < 4096 ->
  has PT_PRESENT (pde s v) = true \/ 0 < freemem (m_pf s) ->
  exists s', map_page v pfn flags s = Done (tt, s') /\ mmu_wf s' /\
    (forall w, PTABIDX w = PTABIDX v ->
       virt2phys w s' = Done (pfn * 4096 + w mod 4096, s') /\
       virt2pfn w s' = Done (pfn, s') /\
       get_page_flags w s' = Done (Z.land flags PT_FLAGMASK, s') /\
       page_mapped w s' = Done (has PT_PRESENT flags, s')) /\
    (forall n, n <> PTABIDX v -> view s' n = view s n) /\
    freemem (m_pf s) - 1 <= freemem (m_pf s') <= freemem (m_pf s).
Proof.
  intros Hw Hp Hf Hfree. destruct (map_page_spec s v pfn flags Hw Hp Hf Hfree)
    as (s' & E & Hup & Hw' & Hd & Hm).
  exists s'. split_and!; auto; [|intros n Hn; by rewrite Hup, decide_False|destruct (has _ _); simpl in Hm; lia..].
  intros w Hpg. rewrite <- (same_page_pde s' v w) in Hd by done.
  assert (view s' (PTABIDX w) = Z.lor (PTOB pfn) flags) as Hview by (by rewrite Hup, decide_True).
  rewrite virt2phys_view, virt2pfn_view, get_page_flags_view, page_mapped_view, Hview, pte_div by done.
  split_and!; try done.
  - by rewrite (proj2 (proj2 (pte_fields pfn flags PT_FLAGMASK Hp Hf ltac:(done)))).
  - unfold has. by rewrite (proj2 (proj2 (pte_fields pfn flags PT_PRESENT Hp Hf ltac:(done)))).
Qed.

Definition demo_mmu : mmu := Mmu demo_pfs ∅ ∅.

Lemma demo_mmu_wf : mmu_wf demo_mmu.
Proof. split; [apply demo_pfs_wf|apply map_Forall_empty]. Qed.

Lemma map_page_correct_witness :
  exists s', map_page 0x90000010 5 3 demo_mmu = Done (tt, s') /\
    virt2phys 0x90000123 s' = Done (0x5123, s').
Proof.
  destruct (map_page_correct demo_mmu 0x90000010 5 3 demo_mmu_wf ltac:(lia) ltac:(lia))
    as (s' & E & _ & H & _); [right; reflexivity|].
  exists s'. split; [exact E|]. apply (H 0x90000123). reflexivity.
Defined.

(** [set_page_flags] on a page that has a page table returns, keeps the
    translation of every address, gives the page the new flags and leaves
    every other page and the page frame database alone. *)
Theorem set_page_flags_keeps_frame s v flags :
  mmu_wf s -> 0 <= flags < 4096 -> has PT_PRESENT (pde s v) = true ->
  exists s', set_page_flags v flags s = Done (tt, s') /\ mmu_wf s' /\ m_pf s' = m_pf s /\
    get_page_flags v s' = Done (Z.land flags PT_FLAGMASK, s') /\
    (forall w, has PT_PRESENT (pde s w) = true ->
       exists pa, virt2phys w s = Done (pa, s) /\ virt2phys w s' = Done (pa, s')) /\
    (forall n, n <> PTABIDX v -> view s' n = view s n).
Proof.
  intros Hw Hf Hd. destruct (set_page_flags_spec s v flags Hd Hw Hf) as (s' & E & Hw' & Hm & Hpd & Hup).
  assert (forall w, pde s' w = pde s w) as Hpde by (intros w; unfold pde; by rewrite Hpd).
  exists s'. split_and!; auto.
  - rewrite get_page_flags_view, Hup, decide_True by (rewrite ?Hpde; done).
    rewrite (land_low _ PT_FLAGMASK) by done. by rewrite Z.add_comm, Z.mod_add, Z.mod_small by lia.
  - intros w Hdw. rewrite (virt2phys_view s w), (virt2phys_view s' w) by (rewrite ?Hpde; done).
    eexists. split; [done|]. rewrite Hup. case_decide as Hn; [|done].
    by rewrite Hn, Z.div_add_l, (Z.div_small flags), Z.add_0_r by lia.
  - intros n Hn. by rewrite Hup, decide_False.
Qed.

Definition demo_mapped : mmu := Mmu demo_pfs (<[0x240 := 0x3007]> ∅) (<[0x90000 := 0x5003]> ∅).

Lemma demo_mapped_wf : mmu_wf demo_mapped.
Proof.
  split; [apply demo_pfs_wf|]. apply map_Forall_insert_2; [|apply map_Forall_empty]. u32_lia.
Qed.

Lemma set_page_flags_keeps_frame_witness :
  exists s', set_page_flags 0x90000000 1 demo_mapped = Done (tt, s') /\
    virt2phys 0x90000123 s' = Done (0x5123, s').
Proof.
  destruct (set_page_flags_keeps_frame demo_mapped 0x90000000 1 demo_mapped_wf ltac:(lia))
    as (s' & E & _ & _ & _ & H & _); [reflexivity|].
  exists s'. split; [exact E|]. destruct (H 0x90000123) as (pa & E1 & E2); [reflexivity|].
  rewrite E2. vm_compute in E1. by injection E1 as <-.
Defined.

(** [mem_access] terminates and returns true exactly if each of the
    addresses [vaddr], [vaddr + 4096], ... below [vaddr + size] lies in a page
    with the requested access (where no page has to be fetched from a file);
    it does not change the state. *)
Theorem mem_access_exact fetch_page s access v size fuel :
  is_u32 v -> 0 <= size < 2147483648 -> (S (steps_of size) < fuel)%nat ->
  (forall k, (k <= steps_of size)%nat -> settled s access (visited v k)) ->
  exists r, mem_access fetch_page fuel v size access s = Done (r, s) /\
    (r = true <-> forall k, (k <= steps_of size)%nat -> page_ok s access (visited v k) = true).
Proof.
  intros Hv Hs Hf Hset. eexists. split; [by apply mem_access_spec|].
  rewrite forallb_True_seq. split; intros H k Hk; apply H; lia.
Qed.

Lemma mem_access_exact_witness :
  exists r, mem_access (fun _ => kret 0) 9 0x90000004 16 PT_PRESENT demo_mapped = Done (r, demo_mapped) /\
    (r = true <-> forall k, (k <= 0)%nat -> page_ok demo_mapped PT_PRESENT (visited 0x90000004 k) = true).
Proof.
  apply (mem_access_exact (fun _ => kret 0) demo_mapped PT_PRESENT 0x90000004 16 9).
  - u32_lia.
  - lia.
  - vm_compute. lia.
  - intros k Hk. vm_compute in Hk. assert (k = 0%nat) as -> by lia. by left.
Defined.

Lemma page_ok_page s access v w :
  PTABIDX v = PTABIDX w -> page_ok s access v = page_ok s access w.
Proof.
  intros H. unfold page_ok, pde, pte. by rewrite !PDEIDX_PTABIDX, H.
Qed.

(** C20: [mem_access] rounds with [~PAGESIZE], which does not round to a
    page: it looks at one address in each page-sized step from the start of the
    buffer.  So a buffer whose last byte lies at a lower offset in its page than
    the first one is accepted if all its pages but the last are accessible,
    whatever the last page is. *)
Theorem mem_access_unchecked_page fetch_page s access v size fuel :
  0 <= v -> 0 < size < 2147483648 -> v + size <= W32 -> 4096 <= v mod 4096 + (size - 1) mod 4096 ->
  (S (steps_of size) < fuel)%nat ->
  (forall q, v / 4096 <= q < (v + size - 1) / 4096 -> page_ok s access (4096 * q) = true) ->
  v / 4096 < (v + size - 1) / 4096 /\ mem_access fetch_page fuel v size access s = Done (true, s).
Proof.
  intros Hv Hs Hend Hoff Hf Hok. set (n := (size - 1) / 4096).
  assert (0 <= n) by (apply Z.div_pos; lia).
  assert (Hlast : (v + size - 1) / 4096 = v / 4096 + n + 1).
  { symmetry. apply (Z.div_unique _ _ _ (v mod 4096 + (size - 1) mod 4096 - 4096)).
    - pose proof (Z.mod_pos_bound v 4096). pose proof (Z.mod_pos_bound (size - 1) 4096). lia.
    - pose proof (Z.div_mod v 4096). pose proof (Z.div_mod (size - 1) 4096). unfold n. lia. }
  assert (Hvis : forall k, (k <= steps_of size)%nat -> page_ok s access (visited v k) = true).
  { intros k Hk. unfold steps_of in Hk. fold n in Hk. rewrite <- (Hok (v / 4096 + Z.of_nat k)) by lia.
    apply page_ok_page. unfold visited. pose proof (Z.div_mod (size - 1) 4096). pose proof (Z.mod_pos_bound (size - 1) 4096).
    rewrite u32_small by (unfold n in *; u32_lia).
    rewrite !PTABIDX_div, (Z.mul_comm 4096 (v / 4096 + _)), Z.div_mul, (Z.mul_comm 4096), Z.div_add by lia. done. }
  split; [lia|]. rewrite mem_access_spec by (try (intros k Hk; left; by apply Hvis); u32_lia || done).
  do 2 f_equal. apply forallb_True_seq. intros k Hk. apply Hvis. lia.
Qed.

Lemma mem_access_unchecked_page_witness :
  page_ok demo_mapped PT_PRESENT 0x90001000 = false /\
  mem_access (fun _ => kret 0) 9 0x90000FFF 2 PT_PRESENT demo_mapped = Done (true, demo_mapped).
Proof.
  split; [reflexivity|].
  apply (mem_access_unchecked_page (fun _ => kret 0) demo_mapped PT_PRESENT 0x90000FFF 2 9).
  - lia.
  - lia.
  - vm_compute. discriminate.
  - vm_compute. discriminate.
  - vm_compute. lia.
  - intros q Hq. change (0x90000 <= q < 0x90001) in Hq. assert (q = 0x90000) as -> by lia. reflexivity.
Defined.

(** [pdir_stat] counts exactly the pages of the range, also those it
    passes over by skipping page tables that do not exist. *)
Theorem pdir_stat_exact s v len :
  0 <= v -> v mod 4096 = 0 -> 0 <= len -> v + len <= 0xFFC00000 ->
  pdir_stat v len s =
    Done (stat_pages s (Pdirstat 0 0 0 0 0 0 0) (seqZ (PTABIDX v) ((len + 4095) / 4096)), s).
Proof.
  intros Hv Hal Hl Hend. unfold pdir_stat. rewrite u32_small by u32_lia.
  rewrite PTABIDX_div. pose proof (Z.div_mod v 4096 ltac:(lia)) as Hdv. rewrite Hal, Z.add_0_r in Hdv.
  assert (0 <= v / 4096) by (apply Z.div_pos; lia).
  set (m := (len + 4095) / 4096). assert (4096 * m < len + 4096 /\ len <= 4096 * m) as Hm.
  { pose proof (Z.div_mod (len + 4095) 4096). pose proof (Z.mod_pos_bound (len + 4095) 4096). unfold m. lia. }
  assert (m <= len / 4096 + 1).
  { pose proof (Z.div_mod len 4096). pose proof (Z.mod_pos_bound len 4096). lia. }
  rewrite Hdv at 1. rewrite (pdir_stat_loop_spec s (v + len) ltac:(lia) _ (Z.to_nat m)); try lia.
  - by rewrite Z2Nat.id by lia.
  - unfold PAGESIZE. lia.
Qed.

Lemma pdir_stat_exact_witness :
  pdir_stat 0x8FFFE000 0x5000 demo_mapped = Done (Pdirstat 1 0 1 0 1 0 0, demo_mapped).
Proof.
  rewrite (pdir_stat_exact demo_mapped 0x8FFFE000 0x5000); [|lia|reflexivity|lia|lia].
  vm_compute. reflexivity.
Defined.
