(* ===== verification/Owns.v ===== *)
(** * Ownership of page frames

    What the allocators above the page tables rely on: every frame is free, or
    it is the frame of one live virtual page, or it holds one page table, or it
    is held by code that has allocated it and has not mapped it yet; never two
    of these.  The operations of pframe.c and pdir.c move frames between these
    states, and each such move is a lemma here. *)

From S2P Require Import Prelude Pframe Pdir.

Local Open Scope k_scope.

Inductive use := UPage (q : Z) | UTable (d : Z) | UHeld (f : Z).

Definition uses (s : mmu) (live held : gset Z) (u : use) (f : Z) : Prop :=
  match u with
  | UPage q => q ∈ live /\ f = view s q / 4096
  | UTable d => has PT_PRESENT (default 0 (pdir s !! d)) = true /\ f = default 0 (pdir s !! d) / 4096
  | UHeld g => g ∈ held /\ f = g
  end.

Record owns_fl (s : mmu) (live held : gset Z) (fl : list nat) : Prop := {
  ow_wf : mmu_wf s;
  ow_rep : pfs_rep (m_pf s) fl;
  ow_used : forall u f, uses s live held u f ->
              0 <= f /\ (Z.to_nat f < length (pfdb (m_pf s)))%nat /\ Z.to_nat f ∉ fl;
  ow_inj : forall u u' f, uses s live held u f -> uses s live held u' f -> u = u';
  ow_present : forall q, q ∈ live -> has PT_PRESENT (view s q) = true;
}.

Definition owns (s : mmu) (live held : gset Z) : Prop := exists fl, owns_fl s live held fl.

(** The entries of frames in use stay as they are, except for [ex]. *)
Definition keeps (ex : gset Z) (p p' : pfs) : Prop :=
  forall i e, pfdb p !! i = Some e -> tag e <> FREE -> Z.of_nat i ∉ ex -> pfdb p' !! i = Some e.

Lemma keeps_refl ex p : keeps ex p p.
Proof. by intros i e. Qed.

Lemma keeps_trans ex p1 p2 p3 : keeps ex p1 p2 -> keeps ex p2 p3 -> keeps ex p1 p3.
Proof. intros H1 H2 i e He Ht Hx. by apply H2; [apply H1|..]. Qed.

Lemma keeps_mono ex ex' p p' : ex ⊆ ex' -> keeps ex p p' -> keeps ex' p p'.
Proof. intros Hs H i e He Ht Hx. apply H; [done..|]. set_solver. Qed.

Lemma keeps_alloc t i fl p : pfs_rep p (i :: fl) -> keeps ∅ p (pf_allocated t i p).
Proof.
  intros R j e He Ht _. simpl. rewrite list_lookup_insert_ne; [done|]. intros ->.
  apply Ht. apply (pr_free _ _ R _ _ He). by left.
Qed.

Lemma held_range s live held f :
  owns s live held -> f ∈ held -> 0 <= f < 1048576.
Proof.
  intros [fl [_ R Hu _ _]] Hf. destruct (Hu (UHeld f) f) as (? & ? & _); [done|].
  pose proof (pr_limit _ _ R). lia.
Qed.

(** Changing the sets of owned pages and frames so that the uses stay. *)
Lemma owns_fl_shift s live held live' held' fl :
  owns_fl s live held fl ->
  (forall u f, uses s live' held' u f -> exists u', uses s live held u' f) ->
  (forall u u' f, uses s live' held' u f -> uses s live' held' u' f -> u = u') ->
  (forall q, q ∈ live' -> has PT_PRESENT (view s q) = true) ->
  owns_fl s live' held' fl.
Proof.
  intros [Hw R Hu Hi Hp] Hsub Hinj Hpr. split; auto.
  intros u f [u' H]%Hsub. by apply (Hu u').
Qed.

Lemma owns_forget s live live' held : owns s live held -> live' ⊆ live -> owns s live' held.
Proof.
  intros [fl O] Hs. exists fl. pose proof O as [_ _ _ Hi Hp].
  assert (forall u f, uses s live' held u f -> uses s live held u f) as Hsub.
  { intros [q|d|g] f; simpl; [|done|done]. intros [? ->]. auto. }
  apply (owns_fl_shift _ _ _ _ _ _ O); [eauto|intros u u' f H%Hsub H'%Hsub; by apply (Hi u u' f)|auto].
Qed.

(** A held frame that page [q] maps becomes the frame of the live page [q]. *)
Lemma owns_adopt s live held q f :
  owns s live held -> f ∈ held -> q ∉ live -> view s q / 4096 = f ->
  has PT_PRESENT (view s q) = true -> owns s ({[q]} ∪ live) (held ∖ {[f]}).
Proof.
  intros [fl O] Hf Hq Hv Hpr. exists fl. pose proof O as [_ _ _ Hi Hp].
  assert (Hsub : forall u f', uses s ({[q]} ∪ live) (held ∖ {[f]}) u f' ->
            (u = UPage q /\ f' = f) \/ (uses s live held u f' /\ u <> UHeld f)).
  { intros [p|d|g] f' H; simpl in *.
    - destruct H as [Hin ->]. destruct (decide (p = q)) as [->|]; [left|right]; [done|].
      split; [set_solver|done].
    - by right.
    - destruct H as [Hin ->]. right. split; [set_solver|]. intros [= ->]. set_solver. }
  apply (owns_fl_shift _ _ _ _ _ _ O).
  - intros u f' [[-> ->]|[H _]]%Hsub; [exists (UHeld f)|exists u]; done.
  - intros u u' f' [[-> ->]|[H1 N1]]%Hsub [[-> H2]|[H2 N2]]%Hsub; try done.
    + by destruct N2; apply (Hi u' (UHeld f) f).
    + subst f'. by destruct N1; apply (Hi u (UHeld f) f).
    + by apply (Hi u u' f').
  - intros p Hin. destruct (decide (p = q)) as [->|]; [done|]. apply Hp. set_solver.
Qed.

(** The frame of a live page is taken back from it. *)
Lemma owns_disown s live held q :
  owns s live held -> q ∈ live ->
  ~ (view s q / 4096) ∈ held /\ owns s (live ∖ {[q]}) ({[view s q / 4096]} ∪ held).
Proof.
  intros [fl O] Hq. pose proof O as [_ _ _ Hi Hp]. set (f := view s q / 4096).
  assert (Huq : uses s live held (UPage q) f) by done.
  split; [intros Hf; by discriminate (Hi (UPage q) (UHeld f) f Huq)|]. exists fl.
  assert (Hsub : forall u f', uses s (live ∖ {[q]}) ({[f]} ∪ held) u f' ->
            (u = UHeld f /\ f' = f) \/ (uses s live held u f' /\ u <> UPage q)).
  { intros [p|d|g] f' H; simpl in *.
    - destruct H as [Hin ->]. right. split; [set_solver|]. intros [= ->]. set_solver.
    - by right.
    - destruct H as [Hin ->]. destruct (decide (g = f)) as [->|]; [left|right]; [done|].
      split; [set_solver|done]. }
  apply (owns_fl_shift _ _ _ _ _ _ O).
  - intros u f' [[-> ->]|[H _]]%Hsub; [exists (UPage q)|exists u]; done.
  - intros u u' f' [[-> ->]|[H1 N1]]%Hsub [[-> H2]|[H2 N2]]%Hsub; try done.
    + by destruct N2; apply (Hi u' (UPage q) f).
    + subst f'. by destruct N1; apply (Hi u (UPage q) f).
    + by apply (Hi u u' f').
  - intros p Hin. apply Hp. set_solver.
Qed.

(** The same uses in a state that has changed elsewhere. *)
Lemma owns_fl_frame s s' live held fl fl' :
  owns_fl s live held fl -> mmu_wf s' -> pfs_rep (m_pf s') fl' ->
  length (pfdb (m_pf s')) = length (pfdb (m_pf s)) -> (forall i, i ∈ fl' -> i ∈ fl) ->
  pdir s' = pdir s -> (forall q, q ∈ live -> view s' q = view s q) ->
  owns_fl s' live held fl'.
Proof.
  intros [Hw R Hu Hi Hp] Hw' R' Hlen Hfl Hpd Hv.
  assert (Hus : forall u f, uses s' live held u f -> uses s live held u f).
  { intros [q|d|g] f; simpl; [|by rewrite Hpd|done]. intros [Hq ->]. by rewrite Hv. }
  split; auto.
  - intros u f H%Hus. rewrite Hlen. destruct (Hu u f H) as (?&?&?). split_and!; auto.
  - intros u u' f H%Hus H'%Hus. by apply (Hi u u' f).
  - intros q Hq. rewrite Hv by done. auto.
Qed.

(** A word in the entry of a frame in use changes. *)
Lemma owns_set_word s live held i e w :
  owns s live held -> pfdb (m_pf s) !! i = Some e -> tag e <> FREE ->
  owns (set_pf (set_pfdb (<[i := PF (tag e) w]> (pfdb (m_pf s))) (m_pf s)) s) live held.
Proof.
  intros [fl O] He Ht. exists fl. pose proof (ow_rep _ _ _ _ O) as R.
  assert (i ∉ fl) as Hi by (by rewrite <- (pr_free _ _ R i e He)).
  pose proof (frame_use_rep _ _ _ (tag e) w R Hi Ht) as R'.
  apply (owns_fl_frame s _ live held fl fl); auto; [|apply length_insert].
  split; [by eexists|apply (ow_wf _ _ _ _ O)].
Qed.

(** [unmap_page] on a page that is not live. *)
Lemma owns_unmap_page s live held v :
  owns s live held -> PTABIDX v ∉ live -> has PT_PRESENT (pde s v) = true ->
  exists s', unmap_page v s = Done (tt, s') /\ owns s' live held /\ updated v 0 s s' /\
    pdir s' = pdir s /\ m_pf s' = m_pf s.
Proof.
  intros [fl O] Hq Hd. destruct (unmap_page_spec s v Hd (ow_wf _ _ _ _ O)) as (s' & E & Hw & Hm & Hpd & Hup).
  exists s'. split_and!; auto. exists fl. apply (owns_fl_frame s s' live held fl fl); auto; rewrite ?Hm.
  - apply O.
  - done.
  - intros q Hin. rewrite Hup, decide_False; [done|]. by intros ->.
Qed.

(** Frames [xs] leave the free list and are held. *)
Definition frames (xs : list nat) : gset Z := list_to_set (Z.of_nat <$> xs).

Lemma elem_of_frames xs f : f ∈ frames xs <-> 0 <= f /\ Z.to_nat f ∈ xs.
Proof.
  unfold frames. rewrite elem_of_list_to_set, list_elem_of_fmap. split.
  - intros (i & -> & Hi). rewrite Nat2Z.id. split; [lia|done].
  - intros [? Hi]. exists (Z.to_nat f). by rewrite Z2Nat.id.
Qed.

Lemma owns_take s live held fl xs fl' p :
  owns_fl s live held fl -> fl ≡ₚ xs ++ fl' -> pfs_rep p fl' ->
  length (pfdb p) = length (pfdb (m_pf s)) ->
  frames xs ## held /\ owns (set_pf p s) live (frames xs ∪ held).
Proof.
  intros [Hw R Hu Hi Hp] Hperm R' Hlen.
  pose proof (pr_nodup _ _ R) as Hnd. rewrite Hperm in Hnd. apply NoDup_app in Hnd as (_ & Hdis & _).
  assert (Hin : forall i, i ∈ xs \/ i ∈ fl' -> i ∈ fl) by (intros i; by rewrite Hperm, elem_of_app).
  assert (Hout : forall u f, uses s live held u f -> ~ f ∈ frames xs).
  { intros u f H [_ Hx]%elem_of_frames. destruct (Hu u f H) as (_ & _ & []). auto. }
  assert (frames xs ## held) as Hdj.
  { intros f Hf Hh. by apply (Hout (UHeld f) f). }
  split; [done|]. exists fl'.
  assert (Hsub : forall u f, uses (set_pf p s) live (frames xs ∪ held) u f ->
            (u = UHeld f /\ f ∈ frames xs) \/ uses s live held u f).
  { intros [q|d|g] f H; cbn [uses] in *; [by right..|]. destruct H as [[?|?]%elem_of_union ->]; auto. }
  split; [split; [by eexists|apply Hw]|done|..].
  - intros u f [[-> Hf]|H]%Hsub; simpl; rewrite Hlen.
    + apply elem_of_frames in Hf as [? Hx]. split_and!; [done| |by intros ?; apply (Hdis (Z.to_nat f))].
      eapply seg_bound; [apply R|auto].
    + destruct (Hu u f H) as (?&?&Hn). split_and!; auto.
  - intros u u' f [[-> Hf]|H1]%Hsub [[-> Hf']|H2]%Hsub; try done.
    + by destruct (Hout u' f H2).
    + by destruct (Hout u f H1).
    + by apply (Hi u u' f).
  - apply Hp.
Qed.

(** [alloc_pageframe] hands out a frame that nobody uses. *)
Lemma owns_alloc_pageframe s live held t :
  owns s live held -> t <> FREE ->
  (freemem (m_pf s) = 0 /\ with_pf (alloc_pageframe t) s = Panic "out of memory") \/
  exists f s', with_pf (alloc_pageframe t) s = Done (f, s') /\ ~ f ∈ held /\
    owns s' live ({[f]} ∪ held) /\ (forall q, view s' q = view s q) /\ pdir s' = pdir s /\
    ptab s' = ptab s /\ freemem (m_pf s') = freemem (m_pf s) - 1 /\ keeps ∅ (m_pf s) (m_pf s').
Proof.
  intros [fl O] Ht. pose proof (ow_rep _ _ _ _ O) as R. unfold with_pf. kx.
  destruct fl as [|i fl].
  { left. rewrite alloc_pageframe_none by done. by rewrite (pr_count _ _ R). }
  right. destruct (alloc_pageframe_rep _ _ _ _ R Ht) as (E & R'). rewrite E.
  exists (Z.of_nat i). eexists. split; [done|].
  destruct (owns_take s live held (i :: fl) [i] fl _ O ltac:(done) R') as [Hdj O'].
  { simpl. by rewrite length_insert. }
  assert (frames [i] = {[Z.of_nat i]}) as Hfr by (unfold frames; simpl; set_solver).
  rewrite Hfr in *. split_and!; auto; [|by eapply keeps_alloc].
  intros ?. by apply (Hdj (Z.of_nat i)); [set_solver|].
Qed.

(** [alloc_linear_pageframes] hands out consecutive frames that nobody uses. *)
Lemma owns_alloc_linear s live held n t :
  owns s live held -> t <> FREE -> 1 <= n < 2147483648 ->
  (exists msg, with_pf (alloc_linear_pageframes n t) s = Panic msg) \/
  with_pf (alloc_linear_pageframes n t) s = Done (NOFRAME, s) \/
  exists i s', with_pf (alloc_linear_pageframes n t) s = Done (Z.of_nat i, s') /\
    frames (seq i (Z.to_nat n)) ## held /\
    owns s' live (frames (seq i (Z.to_nat n)) ∪ held) /\ (forall q, view s' q = view s q) /\
    pdir s' = pdir s.
Proof.
  intros [fl O] Ht Hn. pose proof (ow_rep _ _ _ _ O) as R. destruct (Z.eq_dec n 1) as [->|].
  { unfold alloc_linear_pageframes, with_pf. kx. cbn [Z.eqb Pos.eqb]. destruct fl as [|i fl].
    { left. rewrite alloc_pageframe_none by done. by eexists. }
    right. right. destruct (alloc_pageframe_rep _ _ _ _ R Ht) as (E & R'). rewrite E.
    exists i. eexists. split; [done|].
    destruct (owns_take s live held (i :: fl) [i] fl _ O ltac:(done) R') as [Hdj O'].
    { simpl. by rewrite length_insert. }
    by split_and!. }
  right. unfold with_pf. kx.
  destruct (alloc_linear_rep _ _ n t R ltac:(lia) Ht) as [[E _]|(la & i & lb & w & -> & Hb & E & R')];
    rewrite E; [left; by destruct s|right].
  exists i. eexists. split; [done|].
  destruct (owns_take s live held _ (seq i (Z.to_nat n)) (la ++ lb) _ O ltac:(solve_Permutation) R') as [Hdj O'].
  { simpl. rewrite length_tag_run. by destruct (unlink_fields (last la) w (m_pf s)) as (_ & _ & _ & ? & _). }
  by split_and!.
Qed.

(** [free_pageframe] on a frame that is held. *)
Lemma owns_free_pageframe s live held f :
  owns s live held -> f ∈ held ->
  exists s', with_pf (free_pageframe f) s = Done (tt, s') /\ owns s' live (held ∖ {[f]}) /\
    (forall q, view s' q = view s q) /\ pdir s' = pdir s /\ ptab s' = ptab s /\
    freemem (m_pf s') = freemem (m_pf s) + 1 /\ keeps {[f]} (m_pf s) (m_pf s').
Proof.
  intros [fl O] Hf. pose proof O as [Hw R Hu Hi Hp].
  destruct (Hu (UHeld f) f ltac:(done)) as (Hf0 & Hlt & Hn).
  destruct (free_pageframe_rep _ _ _ R Hlt Hn) as (p & E & R' & Hpe).
  unfold with_pf. kx. rewrite Z2Nat.id in E by done. rewrite E.
  eexists. split; [done|]. split_and!; auto; [|by rewrite Hpe|].
  2:{ intros i e He Ht Hx. simpl. rewrite Hpe. simpl. rewrite list_lookup_insert_ne; [done|].
      intros Heq. apply Hx. apply elem_of_singleton. lia. }
  exists (Z.to_nat f :: fl).
  assert (Hsub : forall u f', uses s live (held ∖ {[f]}) u f' -> uses s live held u f' /\ u <> UHeld f).
  { intros [q|d|g] f' H; simpl in *; [done|done|]. destruct H as [Hin ->].
    split; [set_solver|]. intros [= ->]. set_solver. }
  split; [split; [by eexists|apply Hw]|done|..].
  - intros u f' [H N]%Hsub. simpl. rewrite Hpe. simpl. rewrite length_insert.
    destruct (Hu u f' H) as (?&?&Hn'). split_and!; auto.
    intros [Heq|?]%elem_of_cons; [|done]. apply Z2Nat.inj in Heq; [|done..]. subst f'.
    destruct N. by apply (Hi u (UHeld f) f).
  - intros u u' f' [H1 _]%Hsub [H2 _]%Hsub. by apply (Hi u u' f').
  - apply Hp.
Qed.

Lemma new_pde_frame i : Z.of_nat i < 1048576 -> new_pde i / 4096 = Z.of_nat i.
Proof. intros Hi. unfold new_pde. by apply pte_div; [lia|]. Qed.

(** [map_page] on a page that is not live: a page table may be added. *)
Lemma owns_map_page s live held v pfn flags :
  owns s live held -> PTABIDX v ∉ live -> 0 <= pfn < 1048576 -> 0 <= flags < 4096 ->
  (freemem (m_pf s) = 0 /\ map_page v pfn flags s = Panic "out of memory") \/
  exists s', map_page v pfn flags s = Done (tt, s') /\ owns s' live held /\
    updated v (Z.lor (PTOB pfn) flags) s s' /\ has PT_PRESENT (pde s' v) = true /\
    freemem (m_pf s) - 1 <= freemem (m_pf s') <= freemem (m_pf s) /\ keeps ∅ (m_pf s) (m_pf s').
Proof.
  intros [fl O] Hq Hp Hf. pose proof O as [Hw R Hu Hi Hpr].
  destruct (map_page_run s v pfn flags fl Hw R Hp Hf)
    as [(_ & -> & E)|(s' & fl' & E & Hup & Hw' & Hd & G & R')].
  { left. split; [apply (pr_count _ _ R)|done]. }
  right. exists s'. assert (Hv : forall q, q ∈ live -> view s' q = view s q).
  { intros q Hin. rewrite Hup, decide_False; [done|]. by intros ->. }
  destruct G as [fl s' Hd0 Hm Hpd|i fl s' Hd0 Hm Hpd].
  { split_and!; auto; rewrite ?Hm; try lia; [|apply keeps_refl]. exists fl.
    apply (owns_fl_frame s s' live held fl fl); auto; by rewrite ?Hm. }
  pose proof (seg_bound _ _ _ _ i (pr_seg _ _ R) ltac:(by left)) as Hib.
  pose proof (pr_limit _ _ R) as Hlim. pose proof (pr_nodup _ _ R) as [Hni _]%NoDup_cons.
  split_and!; auto; rewrite ?Hm; simpl; try lia; [|by eapply keeps_alloc]. exists fl.
  assert (Hi' : forall u f, uses s live held u f -> f <> Z.of_nat i).
  { intros u f H ->. destruct (Hu u _ H) as (_ & _ & Hn). rewrite Nat2Z.id in Hn. by destruct Hn; left. }
  assert (Hsub : forall u f, uses s' live held u f ->
            (u = UTable (PDEIDX v) /\ f = Z.of_nat i) \/ uses s live held u f).
  { intros [q|d|g] f H; cbn [uses] in *; [|rewrite Hpd in H|auto].
    - right. destruct H as [Hin ->]. by rewrite Hv.
    - destruct (decide (d = PDEIDX v)) as [->|].
      + left. rewrite lookup_insert_eq in H. destruct H as [_ ->]. cbn [default from_option id].
        by rewrite new_pde_frame by lia.
      + right. by rewrite lookup_insert_ne in H. }
  split; auto.
  - intros u f [[-> ->]|H]%Hsub; rewrite Hm; simpl; rewrite length_insert.
    + rewrite Nat2Z.id. split_and!; [lia|done..].
    + destruct (Hu u f H) as (?&?&Hn). split_and!; auto. intros ?. by destruct Hn; right.
  - intros u u' f [[-> ->]|H1]%Hsub [[-> H2]|H2]%Hsub; try done.
    + by destruct (Hi' u' (Z.of_nat i) H2).
    + by destruct (Hi' u f H1).
    + by apply (Hi u u' f).
  - intros q Hin. rewrite Hv; auto.
Qed.

(** Mapping a held frame makes the page live. *)
Lemma owns_map_held s live held v pfn flags :
  owns s live held -> PTABIDX v ∉ live -> pfn ∈ held -> 0 <= flags < 4096 ->
  has PT_PRESENT flags = true ->
  (freemem (m_pf s) = 0 /\ map_page v pfn flags s = Panic "out of memory") \/
  exists s', map_page v pfn flags s = Done (tt, s') /\
    owns s' ({[PTABIDX v]} ∪ live) (held ∖ {[pfn]}) /\
    updated v (Z.lor (PTOB pfn) flags) s s' /\ has PT_PRESENT (pde s' v) = true /\
    freemem (m_pf s) - 1 <= freemem (m_pf s') <= freemem (m_pf s) /\ keeps ∅ (m_pf s) (m_pf s').
Proof.
  intros O Hq Hpfn Hf Hpr. pose proof (held_range _ _ _ _ O Hpfn) as Hp.
  destruct (owns_map_page s live held v pfn flags O Hq Hp Hf)
    as [?|(s' & E & O' & Hup & Hd & Hfm & Hk)]; [by left|right].
  assert (view s' (PTABIDX v) = Z.lor (PTOB pfn) flags) as Hv by (by rewrite Hup, decide_True).
  exists s'. split_and!; auto; try lia. apply owns_adopt; auto; rewrite Hv; [by apply pte_div|].
  unfold has in *. by rewrite (proj2 (proj2 (pte_fields pfn flags PT_PRESENT Hp Hf ltac:(done)))).
Qed.

(** [pfn = BTOP(virt2phys(v)); free_pageframe(pfn); unmap_page(v)] on a live page. *)
Definition release_page (v : Z) : K mmu unit :=
  let* pa := virt2phys v in
  with_pf (free_pageframe (BTOP pa)) ;;; unmap_page v.

Lemma owns_release_page s live v :
  owns s live ∅ -> PTABIDX v ∈ live ->
  exists s', release_page v s = Done (tt, s') /\ owns s' (live ∖ {[PTABIDX v]}) ∅ /\
    updated v 0 s s' /\ freemem (m_pf s') = freemem (m_pf s) + 1 /\
    keeps {[view s (PTABIDX v) / 4096]} (m_pf s) (m_pf s') /\ (forall w, pde s' w = pde s w).
Proof.
  intros O Hq. pose proof O as [fl [Hw _ _ _ Hpr]]. pose proof (Hpr _ Hq) as Hd%present_pde.
  unfold release_page. kx. rewrite virt2phys_view by done.
  destruct (owns_disown _ _ _ _ O Hq) as (_ & O1). set (f := view s (PTABIDX v) / 4096) in *.
  assert (BTOP (f * 4096 + v mod 4096) = f) as ->.
  { unfold BTOP, PAGESHIFT. rewrite Z.shiftr_div_pow2 by lia. change (2 ^ 12) with 4096.
    rewrite Z.div_add_l, Z.div_small, Z.add_0_r by (try apply Z.mod_pos_bound; lia). done. }
  destruct (owns_free_pageframe _ _ _ f O1) as (s1 & E1 & O2 & Hv1 & Hpd1 & _ & Hfm1 & Hk1); [set_solver|].
  rewrite E1. assert (({[f]} ∪ ∅) ∖ {[f]} = (∅ : gset Z)) as Hemp by set_solver. rewrite Hemp in O2.
  assert (forall w, pde s1 w = pde s w) as Hpde1 by (intros w; unfold pde; by rewrite Hpd1).
  destruct (owns_unmap_page s1 _ _ v O2) as (s2 & E2 & O3 & Hup & Hpd2 & Hm2); [set_solver|by rewrite Hpde1|].
  exists s2. rewrite E2, Hm2. split_and!; auto.
  - intros n. rewrite Hup, Hv1. done.
  - intros w. rewrite <- Hpde1. unfold pde. by rewrite Hpd2.
Qed.
