(* ===== verification/Kmem.v ===== *)
(** * Kernel memory (sys/krnl/kmem.c)

    The kernel heap and the module area: ranges of virtual pages come from the
    resource maps [osvmap] and [kmodmap], frames from the page frame database,
    and [map_page] puts them together.  The contents of the pages are not part
    of the state, so the [memset] in [alloc_module_mem] is not visible. *)

From S2P Require Import Prelude Rmap Pframe Pdir Owns.

Definition OSBASE : Z := 0x80000000.
Definition SYSBASE : Z := 0x90400000.
Definition KHEAPBASE : Z := 0x92000000.
Definition KMODSIZE : Z := 0x10000000.
Definition KHEAPSIZE : Z := 0x6E000000.
Definition OSVMAP_ADDRESS : Z := SYSBASE + 4 * PAGESIZE.
Definition KMODMAP_ADDRESS : Z := SYSBASE + 5 * PAGESIZE.
Definition OSVMAP_ENTRIES : Z := 512.
Definition KMODMAP_ENTRIES : Z := 512.

Definition KMEM : Z := mctag "KMEM".
Definition KMOD : Z := mctag "KMOD".
Definition SYS : Z := mctag "SYS".

Record kmem := Kmem {
  k_mmu : mmu;
  osvmap : list rmap;
  kmodmap : list rmap;
  k_lost : Z;
}.

Definition set_mmu (p : mmu) (s : kmem) : kmem := Kmem p (osvmap s) (kmodmap s) (k_lost s).

Local Open Scope k_scope.

Definition with_mmu {A} (m : K mmu A) : K kmem A := kzoom k_mmu set_mmu m.

Definition osv_alloc (n : Z) : K kmem Z := fun s =>
  let '(idx, m) := rmap_alloc (osvmap s) (u32 n) in
  Done (idx, Kmem (k_mmu s) m (kmodmap s) (k_lost s)).

Definition osv_alloc_align (n align : Z) : K kmem Z := fun s =>
  let '(idx, (m, lost)) := rmap_alloc_align (osvmap s) (k_lost s) (u32 n) (u32 align) in
  Done (idx, Kmem (k_mmu s) m (kmodmap s) lost).

Definition osv_free (off n : Z) : K kmem unit := fun s =>
  let '(m, lost) := rmap_free (osvmap s) (k_lost s) off (u32 n) in
  Done (tt, Kmem (k_mmu s) m (kmodmap s) lost).

Definition kmod_alloc (n : Z) : K kmem Z := fun s =>
  let '(idx, m) := rmap_alloc (kmodmap s) (u32 n) in
  Done (idx, Kmem (k_mmu s) (osvmap s) m (k_lost s)).

Definition kmod_free (off n : Z) : K kmem unit := fun s =>
  let '(m, lost) := rmap_free (kmodmap s) (k_lost s) off (u32 n) in
  Done (tt, Kmem (k_mmu s) (osvmap s) m lost).

(** [vaddr + PTOB(i)] *)
Definition page_at (vaddr : Z) (i : nat) : Z := u32 (vaddr + PTOB (Z.of_nat i)).

Definition RW : Z := Z.lor PT_WRITABLE PT_PRESENT.

(** [pfn = alloc_pageframe(tag); map_page(v, pfn, PT_WRITABLE | PT_PRESENT)] *)
Definition fresh_page (t v : Z) : K mmu unit :=
  let* pfn := with_pf (alloc_pageframe t) in map_page v pfn RW.

Definition alloc_pages (pages t : Z) : K kmem Z :=
  let t := if t =? 0 then KMEM else t in
  let* idx := osv_alloc pages in
  let vaddr := PTOB idx in
  with_mmu (kfor (Z.to_nat pages) 0 (fun i => fresh_page t (page_at vaddr i))) ;;;
  kret vaddr.

Definition alloc_pages_align (pages align t : Z) : K kmem Z :=
  let t := if t =? 0 then KMEM else t in
  let* idx := osv_alloc_align pages align in
  let vaddr := PTOB idx in
  with_mmu (kfor (Z.to_nat pages) 0 (fun i => fresh_page t (page_at vaddr i))) ;;;
  kret vaddr.

Definition alloc_pages_linear (pages t : Z) : K kmem Z :=
  let t := if t =? 0 then KMEM else t in
  let* pfn := with_mmu (with_pf (alloc_linear_pageframes pages t)) in
  if pfn =? NOFRAME then kret 0
  else
    let* idx := osv_alloc pages in
    let vaddr := PTOB idx in
    with_mmu (kfor (Z.to_nat pages) 0 (fun i =>
      map_page (page_at vaddr i) (u32 (pfn + Z.of_nat i)) RW)) ;;;
    kret vaddr.

Definition free_pages (addr pages : Z) : K kmem unit :=
  with_mmu (kfor (Z.to_nat pages) 0 (fun i => release_page (page_at addr i))) ;;;
  osv_free (BTOP addr) pages.

Definition iomap (addr size : Z) : K kmem Z :=
  let pages := PAGES size in
  let* idx := osv_alloc pages in
  let vaddr := PTOB idx in
  with_mmu (kfor (Z.to_nat pages) 0 (fun i =>
    map_page (page_at vaddr i) (u32 (BTOP addr + Z.of_nat i)) RW)) ;;;
  kret vaddr.

Definition iounmap (addr size : Z) : K kmem unit :=
  let pages := PAGES size in
  with_mmu (kfor (Z.to_nat pages) 0 (fun i => unmap_page (page_at addr i))) ;;;
  osv_free (BTOP addr) pages.

Definition alloc_module_mem (pages : Z) : K kmem Z :=
  let* idx := kmod_alloc pages in
  let vaddr := PTOB idx in
  with_mmu (kfor (Z.to_nat pages) 0 (fun i => fresh_page KMOD (page_at vaddr i))) ;;;
  kret vaddr.

Definition free_module_mem (addr pages : Z) : K kmem unit :=
  with_mmu (kfor (Z.to_nat pages) 0 (fun i => release_page (page_at addr i))) ;;;
  kmod_free (BTOP addr) pages.

(** [junk1] and [junk2] are what the two frames hold before [rmap_init];
    [image] is the size of the kernel image from its header. *)
Definition init_kmem (junk1 junk2 : list rmap) (image : Z) : K kmem unit :=
  let* pfn := with_mmu (with_pf (alloc_pageframe SYS)) in
  with_mmu (map_page OSVMAP_ADDRESS pfn RW) ;;;
  kmod (fun s => Kmem (k_mmu s) (rmap_init junk1 OSVMAP_ENTRIES) (kmodmap s) (k_lost s)) ;;;
  osv_free (BTOP KHEAPBASE) (BTOP KHEAPSIZE) ;;;
  let* pfn := with_mmu (with_pf (alloc_pageframe SYS)) in
  with_mmu (map_page KMODMAP_ADDRESS pfn RW) ;;;
  kmod (fun s => Kmem (k_mmu s) (osvmap s) (rmap_init junk2 KMODMAP_ENTRIES) (k_lost s)) ;;;
  kmod_free (BTOP OSBASE) (BTOP KMODSIZE) ;;;
  kmod (fun s =>
    let '(_, (m, lost)) := rmap_reserve (kmodmap s) (k_lost s) (BTOP OSBASE) (BTOP image) in
    Kmem (k_mmu s) (osvmap s) m lost).

(** ** Loops over a range of pages *)

Definition pages_of (p n : Z) : gset Z := list_to_set (seqZ p n).

Lemma elem_of_pages p n q : q ∈ pages_of p n <-> p <= q < p + n.
Proof. unfold pages_of. rewrite elem_of_list_to_set, elem_of_seqZ. done. Qed.

Lemma pages_of_S p n : 0 <= n -> pages_of p (n + 1) = {[p]} ∪ pages_of (p + 1) n.
Proof.
  intros Hn. apply set_eq. intros q. rewrite elem_of_union, elem_of_singleton, !elem_of_pages. lia.
Qed.

Lemma page_at_idx p i :
  0 <= p -> p + Z.of_nat i < 1048576 -> PTABIDX (page_at (PTOB p) i) = p + Z.of_nat i.
Proof.
  intros Hp Hi. unfold page_at. rewrite !PTOB_small, !Z.shiftl_mul_pow2 by lia.
  rewrite u32_small by u32_lia. rewrite PTABIDX_div.
  replace (p * 2 ^ 12 + Z.of_nat i * 2 ^ 12) with ((p + Z.of_nat i) * 4096) by lia. by apply Z.div_mul.
Qed.

Lemma page_at_addr p i :
  0 <= p -> p + Z.of_nat i < 1048576 -> page_at (PTOB p) i = (p + Z.of_nat i) * 4096.
Proof.
  intros Hp Hi. unfold page_at. rewrite !PTOB_small, !Z.shiftl_mul_pow2 by lia.
  rewrite u32_small by u32_lia. lia.
Qed.

Lemma BTOP_PTOB p : 0 <= p < 1048576 -> BTOP (PTOB p) = p.
Proof.
  intros Hp. rewrite PTOB_small by done. unfold BTOP, PAGESHIFT.
  rewrite Z.shiftr_shiftl_l by lia. change (12 - 12) with 0. apply Z.shiftl_0_r.
Qed.

(** Outside of [pages_of p n] nothing changed; inside, [P] holds. *)
Definition view_outside (p n : Z) (s s' : mmu) : Prop :=
  forall q, ~ (p <= q < p + n) -> view s' q = view s q.

Lemma owns_fresh_page s live t v :
  owns s live ∅ -> PTABIDX v ∉ live -> t <> FREE ->
  (freemem (m_pf s) < 2 /\ fresh_page t v s = Panic "out of memory") \/
  exists s', fresh_page t v s = Done (tt, s') /\ owns s' ({[PTABIDX v]} ∪ live) ∅ /\
    (forall q, q <> PTABIDX v -> view s' q = view s q) /\
    Z.land (view s' (PTABIDX v)) PT_FLAGMASK = RW /\
    freemem (m_pf s) - 2 <= freemem (m_pf s') <= freemem (m_pf s) - 1 /\ keeps ∅ (m_pf s) (m_pf s').
Proof.
  intros O Hq Ht. unfold fresh_page. kx.
  destruct (owns_alloc_pageframe s live ∅ t O Ht)
    as [[Hfm ->]|(f & s1 & -> & _ & O1 & Hv1 & _ & _ & Hfm1 & Hk1)]; [left; split; [lia|done]|].
  destruct (owns_map_held s1 live _ v f RW O1 Hq) as [[Hfm ->]|(s2 & -> & O2 & Hup & _ & Hfm2 & Hk2)];
    [set_solver|done|done|left; split; [lia|done]|right].
  assert (({[f]} ∪ ∅) ∖ {[f]} = (∅ : gset Z)) as Hemp by set_solver. rewrite Hemp in O2.
  exists s2. split_and!; auto; try lia; [..|by eapply keeps_trans].
  - intros q Hne. by rewrite Hup, decide_False, Hv1.
  - rewrite Hup, decide_True by done.
    apply (pte_fields f RW PT_FLAGMASK); [|done..]. eapply held_range; [exact O1|set_solver].
Qed.

Lemma map_fresh_spec t p n : forall i s live,
  owns s live ∅ -> t <> FREE -> 0 <= p -> p + Z.of_nat (i + n) <= 1048576 ->
  pages_of (p + Z.of_nat i) (Z.of_nat n) ## live ->
  let loop := kfor n i (fun i => fresh_page t (page_at (PTOB p) i)) in
  (freemem (m_pf s) < 2 * Z.of_nat n /\ loop s = Panic "out of memory") \/
  exists s', loop s = Done (tt, s') /\
    owns s' (pages_of (p + Z.of_nat i) (Z.of_nat n) ∪ live) ∅ /\
    view_outside (p + Z.of_nat i) (Z.of_nat n) s s' /\
    (forall q, p + Z.of_nat i <= q < p + Z.of_nat (i + n) -> Z.land (view s' q) PT_FLAGMASK = RW) /\
    freemem (m_pf s) - 2 * Z.of_nat n <= freemem (m_pf s') <= freemem (m_pf s) - Z.of_nat n /\
    keeps ∅ (m_pf s) (m_pf s').
Proof.
  induction n as [|n IH]; intros i s live O Ht Hp Hb Hdj loop; unfold loop; cbn [kfor].
  { right. exists s. split; [done|]. split_and!; try lia; [|done|apply keeps_refl].
    by replace (pages_of _ _ ∪ live) with live by (change (pages_of _ _) with (∅ : gset Z); set_solver). }
  assert (PTABIDX (page_at (PTOB p) i) = p + Z.of_nat i) as Hidx by (apply page_at_idx; lia).
  remember (p + Z.of_nat i) as q0 eqn:Eq0.
  assert (q0 ∉ live) as Hq0. { intros H. apply (Hdj q0); [apply elem_of_pages; lia|done]. }
  kx. destruct (owns_fresh_page s live t (page_at (PTOB p) i) O) as [[Hfm ->]|(s1 & -> & O1 & Hv1 & Hfl1 & Hfm1 & Hk1)];
    [by rewrite Hidx|done|left; split; [lia|done]|]. rewrite Hidx in *.
  replace (Z.of_nat (S n)) with (Z.of_nat n + 1) in * by lia. rewrite pages_of_S in * by lia.
  destruct (IH (S i) s1 ({[q0]} ∪ live) O1 Ht Hp) as [[Hfm E]|(s2 & E & O2 & Hv2 & Hfl2 & Hfm2 & Hk2)];
    [lia| |rewrite E; left; split; [lia|done]|rewrite E; right].
  { intros q Hq%elem_of_pages [->%elem_of_singleton|Hl]%elem_of_union; [lia|].
    apply (Hdj q); [|done]. apply elem_of_union. right. apply elem_of_pages. lia. }
  exists s2. replace (p + Z.of_nat (S i)) with (q0 + 1) in * by lia. split_and!; auto; try lia.
  - by replace ({[q0]} ∪ pages_of (q0 + 1) (Z.of_nat n) ∪ live)
      with (pages_of (q0 + 1) (Z.of_nat n) ∪ ({[q0]} ∪ live)) by set_solver.
  - intros q Hq. rewrite Hv2, Hv1 by lia. done.
  - intros q Hq. destruct (decide (q = q0)) as [->|]; [|apply Hfl2; lia]. rewrite Hv2 by lia. done.
  - by eapply keeps_trans.
Qed.

(** The frames behind a range of pages. *)
Definition page_frames (s : mmu) (p n : Z) : gset Z :=
  set_map (fun q => view s q / 4096) (pages_of p n).

Lemma elem_of_page_frames s p n f :
  f ∈ page_frames s p n <-> exists q, p <= q < p + n /\ f = view s q / 4096.
Proof. unfold page_frames. rewrite elem_of_map. setoid_rewrite elem_of_pages. naive_solver. Qed.

Lemma release_spec p n : forall i s live,
  owns s live ∅ -> 0 <= p -> p + Z.of_nat (i + n) <= 1048576 ->
  pages_of (p + Z.of_nat i) (Z.of_nat n) ⊆ live ->
  exists s', kfor n i (fun i => release_page (page_at (PTOB p) i)) s = Done (tt, s') /\
    owns s' (live ∖ pages_of (p + Z.of_nat i) (Z.of_nat n)) ∅ /\
    view_outside (p + Z.of_nat i) (Z.of_nat n) s s' /\
    (forall q, p + Z.of_nat i <= q < p + Z.of_nat (i + n) -> view s' q = 0) /\
    freemem (m_pf s') = freemem (m_pf s) + Z.of_nat n /\
    keeps (page_frames s (p + Z.of_nat i) (Z.of_nat n)) (m_pf s) (m_pf s').
Proof.
  induction n as [|n IH]; intros i s live O Hp Hb Hsub; cbn [kfor].
  { exists s. split; [done|]. split_and!; try lia; [|done|apply keeps_refl].
    by replace (live ∖ pages_of _ _) with live by (change (pages_of _ _) with (∅ : gset Z); set_solver). }
  assert (PTABIDX (page_at (PTOB p) i) = p + Z.of_nat i) as Hidx by (apply page_at_idx; lia).
  remember (p + Z.of_nat i) as q0 eqn:Eq0.
  replace (Z.of_nat (S n)) with (Z.of_nat n + 1) in * by lia. rewrite pages_of_S in * by lia.
  kx. destruct (owns_release_page s live (page_at (PTOB p) i) O) as (s1 & -> & O1 & Hup & Hfm1 & Hk1 & _);
    [rewrite Hidx; set_solver|]. unfold updated in Hup. rewrite Hidx in *.
  destruct (IH (S i) s1 (live ∖ {[q0]}) O1 Hp) as (s2 & E & O2 & Hv2 & Hz & Hfm2 & Hk2); [lia|..].
  { replace (p + Z.of_nat (S i)) with (q0 + 1) by lia. intros q Hq.
    apply elem_of_difference. split; [set_solver|]. intros ->%elem_of_singleton. apply elem_of_pages in Hq. lia. }
  rewrite E. exists s2. replace (p + Z.of_nat (S i)) with (q0 + 1) in * by lia. split_and!; auto; try lia.
  - by rewrite <- difference_difference_l_L.
  - intros q Hq. rewrite Hv2, Hup, decide_False by lia. done.
  - intros q Hq. destruct (decide (q = q0)) as [->|]; [|apply Hz; lia].
    rewrite Hv2, Hup, decide_True by lia. done.
  - eapply keeps_trans; (eapply keeps_mono; [|eassumption]); intros f; rewrite !elem_of_page_frames.
    + intros ->%elem_of_singleton. exists q0. split; [lia|done].
    + intros (q & Hq & ->). exists q. rewrite Hup, decide_False by lia. split; [lia|done].
Qed.

(** Mapping consecutive frames that belong to someone else. *)
Lemma map_foreign_spec p f n : forall i s live held,
  owns s live held -> 0 <= p -> p + Z.of_nat (i + n) <= 1048576 ->
  0 <= f -> f + Z.of_nat (i + n) <= 1048576 ->
  pages_of (p + Z.of_nat i) (Z.of_nat n) ## live ->
  let loop := kfor n i (fun i => map_page (page_at (PTOB p) i) (u32 (f + Z.of_nat i)) RW) in
  loop s = Panic "out of memory" \/
  exists s', loop s = Done (tt, s') /\ owns s' live held /\
    view_outside (p + Z.of_nat i) (Z.of_nat n) s s' /\
    (forall j, (i <= j < i + n)%nat ->
       view s' (p + Z.of_nat j) = Z.lor (PTOB (f + Z.of_nat j)) RW).
Proof.
  induction n as [|n IH]; intros i s live held O Hp Hb Hf Hfb Hdj loop; unfold loop; cbn [kfor].
  { right. exists s. split; [done|]. split_and!; [done|done|lia]. }
  assert (PTABIDX (page_at (PTOB p) i) = p + Z.of_nat i) as Hidx by (apply page_at_idx; lia).
  assert (PTABIDX (page_at (PTOB p) i) ∉ live).
  { rewrite Hidx. intros H. apply (Hdj (p + Z.of_nat i)); [apply elem_of_pages; lia|done]. }
  kx. rewrite u32_small by u32_lia.
  destruct (owns_map_page s live held (page_at (PTOB p) i) (f + Z.of_nat i) RW O)
    as [[_ ->]|(s1 & -> & O1 & Hup & _ & _)]; [done|lia|done|by left|].
  unfold updated in Hup. rewrite Hidx in Hup.
  destruct (IH (S i) s1 live held O1 Hp) as [E|(s2 & E & O2 & Hv2 & Hmap)];
    [lia..| |rewrite E; by left|rewrite E; right].
  { intros q Hq%elem_of_pages Hl. apply (Hdj q); [|done]. apply elem_of_pages. lia. }
  exists s2. split_and!; auto.
  - intros q Hq. rewrite Hv2, Hup, decide_False by lia. done.
  - intros j Hj. destruct (decide (j = i)) as [->|]; [|apply Hmap; lia].
    rewrite Hv2, Hup, decide_True by lia. done.
Qed.

Lemma unmap_foreign_spec p n : forall i s live held,
  owns s live held -> 0 <= p -> p + Z.of_nat (i + n) <= 1048576 ->
  pages_of (p + Z.of_nat i) (Z.of_nat n) ## live ->
  (forall q, p + Z.of_nat i <= q < p + Z.of_nat (i + n) -> has PT_PRESENT (view s q) = true) ->
  exists s', kfor n i (fun i => unmap_page (page_at (PTOB p) i)) s = Done (tt, s') /\
    owns s' live held /\ view_outside (p + Z.of_nat i) (Z.of_nat n) s s' /\
    (forall q, p + Z.of_nat i <= q < p + Z.of_nat (i + n) -> view s' q = 0).
Proof.
  induction n as [|n IH]; intros i s live held O Hp Hb Hdj Hpr; cbn [kfor].
  { exists s. split; [done|]. split_and!; [done|done|lia]. }
  assert (PTABIDX (page_at (PTOB p) i) = p + Z.of_nat i) as Hidx by (apply page_at_idx; lia).
  kx. destruct (owns_unmap_page s live held (page_at (PTOB p) i) O) as (s1 & -> & O1 & Hup & _ & _).
  { rewrite Hidx. intros H. apply (Hdj (p + Z.of_nat i)); [apply elem_of_pages; lia|done]. }
  { apply present_pde. rewrite Hidx. apply Hpr. lia. }
  unfold updated in Hup. rewrite Hidx in Hup.
  destruct (IH (S i) s1 live held O1 Hp) as (s2 & E & O2 & Hv2 & Hz); [lia|..].
  { intros q Hq%elem_of_pages Hl. apply (Hdj q); [|done]. apply elem_of_pages. lia. }
  { intros q Hq. rewrite Hup, decide_False by lia. apply Hpr. lia. }
  rewrite E. exists s2. split_and!; auto.
  - intros q Hq. rewrite Hv2, Hup, decide_False by lia. done.
  - intros q Hq. destruct (decide (q = p + Z.of_nat i)) as [->|]; [|apply Hz; lia].
    rewrite Hv2, Hup, decide_True by lia. done.
Qed.

(** Mapping a run of frames that is held makes the pages live. *)
Lemma owns_adopt_run p f n : forall s live held,
  owns s live (frames (seq f n) ∪ held) -> frames (seq f n) ## held ->
  Z.of_nat (f + n) <= 1048576 -> pages_of p (Z.of_nat n) ## live ->
  (forall j, (j < n)%nat -> view s (p + Z.of_nat j) = Z.lor (PTOB (Z.of_nat (f + j))) RW) ->
  owns s (pages_of p (Z.of_nat n) ∪ live) held.
Proof.
  revert p f. induction n as [|n IH]; intros p f s live held O Hdj Hb Hl Hv.
  { change (pages_of p _) with (∅ : gset Z). change (frames _) with (∅ : gset Z) in O.
    by rewrite !union_empty_l_L in *. }
  replace (Z.of_nat (S n)) with (Z.of_nat n + 1) in * by lia. rewrite pages_of_S in * by lia.
  assert (frames (seq f (S n)) = {[Z.of_nat f]} ∪ frames (seq (S f) n)) as Hfr by done.
  rewrite Hfr in *. replace ({[p]} ∪ pages_of (p + 1) (Z.of_nat n) ∪ live)
    with (pages_of (p + 1) (Z.of_nat n) ∪ ({[p]} ∪ live)) by set_solver.
  assert (Z.of_nat f ∉ frames (seq (S f) n)) as Hnf.
  { intros [_ H%elem_of_seq]%elem_of_frames. lia. }
  assert (p ∉ pages_of (p + 1) (Z.of_nat n)) by (intros H%elem_of_pages; lia).
  apply (IH (p + 1) (S f)); [|set_solver|lia|set_solver|].
  - pose proof (Hv 0%nat ltac:(lia)) as Hv0. rewrite Z.add_0_r, Nat.add_0_r in Hv0.
    replace (frames (seq (S f) n) ∪ held)
      with (({[Z.of_nat f]} ∪ frames (seq (S f) n) ∪ held) ∖ {[Z.of_nat f]}) by set_solver.
    apply owns_adopt; auto; [set_solver|set_solver|rewrite Hv0; apply pte_div; [lia|done]|].
    rewrite Hv0. unfold has. by rewrite (proj2 (proj2 (pte_fields (Z.of_nat f) RW PT_PRESENT ltac:(lia) ltac:(done) ltac:(done)))).
  - intros j Hj. replace (p + 1 + Z.of_nat j) with (p + Z.of_nat (S j)) by lia.
    rewrite Hv by lia. do 3 f_equal. lia.
Qed.

(** ** The state of the kernel memory

    [own] and [mods] list the ranges handed out of the heap and of the module
    area: [Heap] ranges have frames of their own, [Io] ranges map foreign
    frames, and [Fixed] is the kernel image. *)

Inductive kind := Heap | Io | Fixed.
Definition alloc : Type := kind * (Z * Z).

Fixpoint live_of (l : list alloc) : gset Z :=
  match l with
  | [] => ∅
  | (Heap, (p, n)) :: l' => pages_of p n ∪ live_of l'
  | _ :: l' => live_of l'
  end.

Definition KHEAP_P : Z := 0x92000.
Definition KHEAP_N : Z := 0x6E000.
Definition KMOD_P : Z := 0x80000.
Definition KMOD_N : Z := 0x10000.

Definition area_inv (base len : Z) (m : list rmap) (lost : Z) (own : list alloc) : Prop :=
  pool_inv base len (Pool m lost own.*2).

Record kinv (s : kmem) (own mods : list alloc) : Prop := {
  ki_os : area_inv KHEAP_P KHEAP_N (osvmap s) (k_lost s) own;
  ki_mod : area_inv KMOD_P KMOD_N (kmodmap s) (k_lost s) mods;
  ki_owns : owns (k_mmu s) (live_of own ∪ live_of mods) ∅;
  ki_io : forall p n q, (Io, (p, n)) ∈ own -> p <= q < p + n ->
            has PT_PRESENT (view (k_mmu s) q) = true;
}.

Lemma elem_of_live l q :
  q ∈ live_of l <-> exists p n, (Heap, (p, n)) ∈ l /\ p <= q < p + n.
Proof.
  induction l as [|[k [p n]] l IH]; simpl.
  - split; [set_solver|]. intros (p & n & H & _). by apply elem_of_nil in H.
  - assert ((exists p' n', (Heap, (p', n')) ∈ (k, (p, n)) :: l /\ p' <= q < p' + n') <->
      (k = Heap /\ p <= q < p + n) \/ exists p' n', (Heap, (p', n')) ∈ l /\ p' <= q < p' + n') as H.
    { split.
      - intros (p' & n' & [[= <- <- <-]|Hin]%elem_of_cons & Hq); [by left|right; eauto].
      - intros [[-> Hq]|(p' & n' & Hin & Hq)]; [exists p, n|exists p', n'];
          (split; [|done]); [by left|by right]. }
    rewrite H. destruct k; rewrite ?elem_of_union, ?elem_of_pages, IH; naive_solver.
Qed.

Lemma live_of_app l1 l2 : live_of (l1 ++ l2) = live_of l1 ∪ live_of l2.
Proof.
  apply set_eq. intros q. rewrite elem_of_union, !elem_of_live.
  setoid_rewrite elem_of_app. naive_solver.
Qed.

Lemma area_bounds base len m lost own k p n :
  area_inv base len m lost own -> (k, (p, n)) ∈ own -> base <= p /\ 0 < n /\ p + n <= base + len.
Proof.
  intros [_ _ Ho Hp _ _] Hin. assert (Hin' : (p, n) ∈ own.*2).
  { apply list_elem_of_fmap. by exists (k, (p, n)). }
  simpl in *. destruct (Hp _ Hin') as (_ & Hn & _). simpl in Hn.
  destruct (Ho _ p Hin') as [H1 _]; [unfold In_range; simpl; lia|].
  destruct (Ho _ (p + n - 1) Hin') as [H2 _]; [unfold In_range; simpl; lia|].
  unfold In_range in *. lia.
Qed.

Lemma area_lost base len m lost lost' own :
  is_u32 lost' -> area_inv base len m lost own -> area_inv base len m lost' own.
Proof. intros Hl [? ? ? ? ? ?]. by split. Qed.

Lemma area_live base len m lost own q :
  area_inv base len m lost own -> q ∈ live_of own -> base <= q < base + len.
Proof.
  intros A (p & n & Hin & Hq)%elem_of_live. destruct (area_bounds _ _ _ _ _ _ _ _ A Hin) as (?&?&?). lia.
Qed.

(** The ranges of one area do not overlap. *)
Lemma area_apart base len m lost l1 l2 k p n k' p' n' q :
  area_inv base len m lost (l1 ++ (k, (p, n)) :: l2) -> (k', (p', n')) ∈ l1 ++ l2 ->
  p <= q < p + n -> ~ (p' <= q < p' + n').
Proof.
  intros [_ _ _ _ Hd _] Hin Hq Hq'. simpl in Hd. rewrite fmap_app in Hd. simpl in Hd.
  apply all_disjoint_app in Hd as [_ Hd]. destruct (Hd (p', n')) as [Hd' _].
  { rewrite <- fmap_app. apply list_elem_of_fmap. by exists (k', (p', n')). }
  by apply (Hd' q); unfold In_range.
Qed.

Lemma area_fresh base len m lost own k p n :
  area_inv base len m lost ((k, (p, n)) :: own) -> pages_of p n ## live_of own.
Proof.
  intros A q Hq%elem_of_pages (p' & n' & Hin & Hq')%elem_of_live.
  by apply (area_apart _ _ _ _ [] own k p n Heap p' n' q A).
Qed.

Lemma area_removed base len m lost l1 p n l2 :
  area_inv base len m lost (l1 ++ (Heap, (p, n)) :: l2) ->
  pages_of p n ⊆ live_of (l1 ++ (Heap, (p, n)) :: l2) /\
  live_of (l1 ++ (Heap, (p, n)) :: l2) ∖ pages_of p n = live_of (l1 ++ l2).
Proof.
  intros A. assert (pages_of p n ## live_of (l1 ++ l2)).
  { intros q Hq%elem_of_pages (p' & n' & Hin & Hq')%elem_of_live.
    by apply (area_apart _ _ _ _ l1 l2 Heap p n Heap p' n' q A). }
  rewrite !live_of_app in *. simpl. split; [set_solver|]. set_solver.
Qed.

Lemma kinv_apart s own mods : kinv s own mods -> live_of own ## live_of mods.
Proof.
  intros K q Ho Hm. pose proof (area_live _ _ _ _ _ _ (ki_os _ _ _ K) Ho).
  pose proof (area_live _ _ _ _ _ _ (ki_mod _ _ _ K) Hm). unfold KHEAP_P, KMOD_P, KMOD_N in *. lia.
Qed.

(** A range has been taken out of [osvmap] and its pages have been set up. *)
Lemma kinv_took s own mods k p n m lost mm :
  kinv s own mods -> area_inv KHEAP_P KHEAP_N m lost ((k, (p, n)) :: own) ->
  owns mm (live_of ((k, (p, n)) :: own) ∪ live_of mods) ∅ -> view_outside p n (k_mmu s) mm ->
  (k = Io -> forall q, p <= q < p + n -> has PT_PRESENT (view mm q) = true) ->
  kinv (Kmem mm m (kmodmap s) lost) ((k, (p, n)) :: own) mods.
Proof.
  intros K A O Hv Hio. split; simpl; auto.
  - apply (area_lost _ _ _ (k_lost s)); [apply A|apply K].
  - intros p' n' q [[= <- <- <-]|Hin]%elem_of_cons Hq; [auto|].
    rewrite Hv; [by apply (ki_io _ _ _ K p' n')|].
    intros Hq'. by apply (area_apart _ _ _ _ [] own k p n Io p' n' q A).
Qed.

(** The pages of a range have been taken down and it goes back to [osvmap]. *)
Lemma kinv_gave s own1 own2 mods k p n m lost mm :
  kinv s (own1 ++ (k, (p, n)) :: own2) mods ->
  rmap_free (osvmap s) (k_lost s) p n = (m, lost) ->
  owns mm (live_of (own1 ++ own2) ∪ live_of mods) ∅ -> view_outside p n (k_mmu s) mm ->
  kinv (Kmem mm m (kmodmap s) lost) (own1 ++ own2) mods.
Proof.
  intros K E O Hv. pose proof (ki_os _ _ _ K) as A. pose proof A as A'.
  unfold area_inv in A'. rewrite fmap_app, fmap_cons in A'. pose proof (pool_give _ _ _ _ _ _ _ _ _ _ A' E) as A''.
  rewrite <- fmap_app in A''. split; simpl; auto.
  - apply (area_lost _ _ _ (k_lost s)); [apply A''|apply K].
  - intros p' n' q Hin Hq. rewrite Hv; [apply (ki_io _ _ _ K p' n' q); [by apply elem_of_mid_weaken|done]|].
    intros Hq'. by apply (area_apart _ _ _ _ own1 own2 k p n Io p' n' q A).
Qed.

Lemma osv_took s own mods n idx m k :
  kinv s own mods -> 0 < n < W32 -> rmap_alloc (osvmap s) n = (idx, m) -> idx <> 0 ->
  area_inv KHEAP_P KHEAP_N m (k_lost s) ((k, (idx, n)) :: own).
Proof.
  intros K Hn E Hi. unfold area_inv. simpl. eapply (pool_step_inv _ _ (Pool (osvmap s) _ _)); [|apply (ki_os _ _ _ K)].
  by constructor.
Qed.

(** The new range in numbers. *)
Lemma took_bounds m lost own k p n :
  area_inv KHEAP_P KHEAP_N m lost ((k, (p, n)) :: own) -> 0 < p /\ 0 < n /\ p + n <= 1048576.
Proof.
  intros A. destruct (area_bounds _ _ _ _ _ _ _ _ A ltac:(by left)) as (?&?&?).
  unfold KHEAP_P, KHEAP_N in *. lia.
Qed.

Lemma took_fresh s own mods m lost k p n :
  kinv s own mods -> area_inv KHEAP_P KHEAP_N m lost ((k, (p, n)) :: own) ->
  pages_of p n ## live_of own ∪ live_of mods.
Proof.
  intros K A. pose proof (area_fresh _ _ _ _ _ _ _ _ A) as H1.
  intros q Hq [Hl|Hl]%elem_of_union; [by apply (H1 q)|].
  pose proof (area_live _ _ _ _ _ _ (ki_mod _ _ _ K) Hl).
  destruct (area_bounds _ _ _ _ _ _ _ _ A ltac:(by left)) as (?&?&?).
  apply elem_of_pages in Hq. unfold KHEAP_P, KMOD_P, KMOD_N in *. lia.
Qed.

Definition ktag (t : Z) : Z := if t =? 0 then KMEM else t.

Lemma ktag_not_free t : t <> FREE -> ktag t <> FREE.
Proof. unfold ktag. by destruct (t =? 0). Qed.

Definition free_frames_left (s : kmem) : Z := freemem (m_pf (k_mmu s)).

(** What an allocation of [n] heap pages from page [p] leaves behind. *)
Record heap_added (s : kmem) (own mods : list alloc) (p n : Z) (s' : kmem) : Prop := {
  ha_inv : kinv s' ((Heap, (p, n)) :: own) mods;
  ha_view : view_outside p n (k_mmu s) (k_mmu s');
  ha_flags : forall q, p <= q < p + n -> Z.land (view (k_mmu s') q) PT_FLAGMASK = RW;
  ha_frames : free_frames_left s - 2 * n <= free_frames_left s' <= free_frames_left s - n;
  ha_mods : kmodmap s' = kmodmap s;
  ha_keeps : keeps ∅ (m_pf (k_mmu s)) (m_pf (k_mmu s'));
}.

(** The mapping loop shared by [alloc_pages] and [alloc_pages_align]. *)
Lemma heap_loop s own mods p n m lost t :
  kinv s own mods -> area_inv KHEAP_P KHEAP_N m lost ((Heap, (p, n)) :: own) -> t <> FREE ->
  let loop := with_mmu (kfor (Z.to_nat n) 0 (fun i => fresh_page t (page_at (PTOB p) i))) in
  let s1 := Kmem (k_mmu s) m (kmodmap s) lost in
  (free_frames_left s < 2 * n /\ loop s1 = Panic "out of memory") \/
  exists mm, loop s1 = Done (tt, Kmem mm m (kmodmap s) lost) /\
    heap_added s own mods p n (Kmem mm m (kmodmap s) lost).
Proof.
  intros K A Ht loop s1. destruct (took_bounds _ _ _ _ _ _ A) as (?&?&?).
  pose proof (took_fresh _ _ _ _ _ _ _ _ K A) as Hfresh.
  destruct (map_fresh_spec t p (Z.to_nat n) 0 (k_mmu s) _ (ki_owns _ _ _ K) Ht) as
    [[Hfm E]|(mm & E & O & Hv & Hfl & Hfm & Hk)]; rewrite ?Nat.add_0_l, ?Z.add_0_r, ?Z2Nat.id in *; try lia; [done|..].
  - left. unfold loop, with_mmu. kx. simpl k_mmu. rewrite E. split; [done|done].
  - right. exists mm. unfold loop, with_mmu. kx. simpl k_mmu. rewrite E. split; [done|].
    split; simpl; auto; try lia. apply (kinv_took s); auto; [|done]. simpl. by rewrite <- union_assoc_L.
Qed.

Lemma alloc_pages_run s own mods n t idx m :
  kinv s own mods -> 0 < n < 2147483648 -> t <> FREE -> rmap_alloc (osvmap s) n = (idx, m) -> idx <> 0 ->
  (free_frames_left s < 2 * n /\ alloc_pages n t s = Panic "out of memory") \/
  exists s', alloc_pages n t s = Done (PTOB idx, s') /\ heap_added s own mods idx n s' /\ osvmap s' = m.
Proof.
  intros K Hn Ht E Hi. pose proof (osv_took s own mods n idx m Heap K ltac:(u32_lia) E Hi) as A.
  unfold alloc_pages, osv_alloc. fold (ktag t). kx. rewrite u32_small, E by u32_lia.
  destruct (heap_loop s own mods idx n m (k_lost s) (ktag t) K A (ktag_not_free t Ht))
    as [[Hfm ->]|(mm & -> & H)]; [by left|right]. by exists (Kmem mm m (kmodmap s) (k_lost s)).
Qed.

Lemma alloc_pages_align_run s own mods n align t idx m lost :
  kinv s own mods -> 0 < n < 2147483648 -> 0 < align < 2147483648 -> t <> FREE ->
  rmap_alloc_align (osvmap s) (k_lost s) n align = (idx, (m, lost)) -> idx <> 0 ->
  (free_frames_left s < 2 * n /\ alloc_pages_align n align t s = Panic "out of memory") \/
  exists s', alloc_pages_align n align t s = Done (PTOB idx, s') /\ heap_added s own mods idx n s' /\ osvmap s' = m.
Proof.
  intros K Hn Hal Ht E Hi.
  assert (area_inv KHEAP_P KHEAP_N m lost ((Heap, (idx, n)) :: own)) as A.
  { unfold area_inv. simpl. eapply (pool_step_inv _ _ (Pool (osvmap s) _ _)); [|apply (ki_os _ _ _ K)].
    apply (ps_alloc_align _ _ _ _ align); auto; u32_lia. }
  unfold alloc_pages_align, osv_alloc_align. fold (ktag t). kx. rewrite !u32_small, E by u32_lia.
  destruct (heap_loop s own mods idx n m lost (ktag t) K A (ktag_not_free t Ht))
    as [[Hfm ->]|(mm & -> & H)]; [by left|right]. by exists (Kmem mm m (kmodmap s) lost).
Qed.

(** [free_pages] of a range that was handed out always returns. *)
Lemma free_pages_run s own1 p n own2 mods :
  kinv s (own1 ++ (Heap, (p, n)) :: own2) mods ->
  exists s', free_pages (PTOB p) n s = Done (tt, s') /\ kinv s' (own1 ++ own2) mods /\
    view_outside p n (k_mmu s) (k_mmu s') /\ (forall q, p <= q < p + n -> view (k_mmu s') q = 0) /\
    free_frames_left s' = free_frames_left s + n /\
    (osvmap s', k_lost s') = rmap_free (osvmap s) (k_lost s) p n /\
    keeps (page_frames (k_mmu s) p n) (m_pf (k_mmu s)) (m_pf (k_mmu s')).
Proof.
  intros K. pose proof (ki_os _ _ _ K) as A.
  destruct (area_bounds _ _ _ _ _ _ _ _ A ltac:(apply elem_of_mid)) as (Hb1 & Hb2 & Hb3).
  unfold KHEAP_P, KHEAP_N in Hb1, Hb3.
  destruct (area_removed _ _ _ _ _ _ _ _ A) as [Hsub Hrem]. pose proof (kinv_apart _ _ _ K) as Hap.
  destruct (release_spec p (Z.to_nat n) 0 (k_mmu s) _ (ki_owns _ _ _ K)) as (mm & E & O & Hv & Hz & Hfm & Hk);
    rewrite ?Nat.add_0_l, ?Z.add_0_r, ?Z2Nat.id in *; try lia; [set_solver|].
  unfold free_pages, with_mmu, osv_free. kx. rewrite E. simpl osvmap. simpl k_lost.
  rewrite BTOP_PTOB, u32_small by u32_lia.
  destruct (rmap_free (osvmap s) (k_lost s) p n) as [m lost] eqn:Ef.
  eexists. split; [done|]. split_and!; auto; try lia.
  apply (kinv_gave s own1 own2 mods Heap p n); auto.
  rewrite <- Hrem. assert (forall X Y Z : gset Z, Z ⊆ X -> X ## Y -> (X ∪ Y) ∖ Z = X ∖ Z ∪ Y) as Hset by set_solver.
  rewrite Hset in O by done. done.
Qed.

Lemma alloc_pages_linear_run s own mods n t idx m :
  kinv s own mods -> 0 < n < 2147483648 -> t <> FREE -> rmap_alloc (osvmap s) n = (idx, m) -> idx <> 0 ->
  (exists msg, alloc_pages_linear n t s = Panic msg) \/ alloc_pages_linear n t s = Done (0, s) \/
  exists s' f, alloc_pages_linear n t s = Done (PTOB idx, s') /\ kinv s' ((Heap, (idx, n)) :: own) mods /\
    view_outside idx n (k_mmu s) (k_mmu s') /\
    (forall j, 0 <= j < n -> view (k_mmu s') (idx + j) = Z.lor (PTOB (f + j)) RW).
Proof.
  intros K Hn Ht E Hi. pose proof (osv_took s own mods n idx m Heap K ltac:(u32_lia) E Hi) as A.
  destruct (took_bounds _ _ _ _ _ _ A) as (Hb1 & _ & Hb2). pose proof (took_fresh _ _ _ _ _ _ _ _ K A) as Hfresh.
  unfold alloc_pages_linear, osv_alloc, with_mmu. fold (ktag t). kx.
  destruct (owns_alloc_linear (k_mmu s) _ _ n (ktag t) (ki_owns _ _ _ K) (ktag_not_free t Ht) ltac:(lia))
    as [[msg ->]|[->|(f & mm1 & -> & Hdj & O1 & Hv1 & _)]]; [left; by eexists|right; left; by destruct s|].
  assert (Hfb : Z.of_nat (f + Z.to_nat n) <= 1048576).
  { pose proof (held_range _ _ _ (Z.of_nat (f + Z.to_nat n - 1)) O1) as Hr.
    destruct Hr; [|lia]. apply elem_of_union_l, elem_of_frames. rewrite Nat2Z.id, elem_of_seq. lia. }
  unfold NOFRAME. destruct (Z.eqb_spec (Z.of_nat f) 4294967295); [lia|]. simpl osvmap. simpl k_mmu.
  rewrite (u32_small n), E by u32_lia. simpl k_mmu.
  destruct (map_foreign_spec idx (Z.of_nat f) (Z.to_nat n) 0 mm1 _ _ O1) as [E2|(mm2 & E2 & O2 & Hv2 & Hmap)];
    rewrite ?Nat.add_0_l, ?Z.add_0_r, ?Z2Nat.id in *; try lia; [done|rewrite E2; left; by eexists|].
  rewrite E2. right. right. eexists _, (Z.of_nat f). split; [done|]. split; [|split].
  - apply (kinv_took s own mods Heap idx n m); auto; [|intros q Hq; by rewrite Hv2, Hv1|done].
    simpl live_of. rewrite <- union_assoc_L. replace n with (Z.of_nat (Z.to_nat n)) by lia.
    apply (owns_adopt_run idx f); auto; [by rewrite Z2Nat.id by lia|].
    intros j Hj. rewrite Hmap by lia. do 2 f_equal. lia.
  - intros q Hq. simpl. by rewrite Hv2, Hv1.
  - intros j Hj. simpl. replace j with (Z.of_nat (Z.to_nat j)) by lia. by rewrite Hmap by lia.
Qed.

(** Physical ranges that end below 4 GB. *)
Definition io_range (addr size : Z) : Prop := 0 <= addr /\ 0 < size /\ addr + size + 8192 <= W32.

Lemma PAGES_range addr sz :
  io_range addr sz -> sz < 2147483648 -> 0 < PAGES sz < 1048576 /\ 0 <= BTOP addr /\ BTOP addr + PAGES sz <= 1048576.
Proof.
  intros (Ha & Hs & Hb) Hs2. unfold PAGES, BTOP, PAGESHIFT, PAGESIZE.
  rewrite u32_small by u32_lia. rewrite !Z.shiftr_div_pow2 by lia. change (2 ^ 12) with 4096.
  unfold W32 in Hb. pose proof (Z.div_mod (sz + (4096 - 1)) 4096). pose proof (Z.mod_pos_bound (sz + (4096 - 1)) 4096).
  pose proof (Z.div_mod addr 4096). pose proof (Z.mod_pos_bound addr 4096). lia.
Qed.

Lemma iomap_run s own mods addr sz idx m :
  kinv s own mods -> io_range addr sz -> sz < 2147483648 ->
  rmap_alloc (osvmap s) (PAGES sz) = (idx, m) -> idx <> 0 ->
  iomap addr sz s = Panic "out of memory" \/
  exists s', iomap addr sz s = Done (PTOB idx, s') /\ kinv s' ((Io, (idx, PAGES sz)) :: own) mods /\
    view_outside idx (PAGES sz) (k_mmu s) (k_mmu s') /\
    (forall j, 0 <= j < PAGES sz -> view (k_mmu s') (idx + j) = Z.lor (PTOB (BTOP addr + j)) RW).
Proof.
  intros K Hio Hs2 E Hi. destruct (PAGES_range _ _ Hio Hs2) as (Hpg & Hba & Hbb).
  set (n := PAGES sz) in *.
  pose proof (osv_took s own mods n idx m Io K ltac:(u32_lia) E Hi) as A.
  destruct (took_bounds _ _ _ _ _ _ A) as (Hb1 & _ & Hb2). pose proof (took_fresh _ _ _ _ _ _ _ _ K A) as Hfresh.
  unfold iomap, osv_alloc, with_mmu. kx. fold n. rewrite (u32_small n), E by u32_lia. simpl k_mmu.
  destruct (map_foreign_spec idx (BTOP addr) (Z.to_nat n) 0 (k_mmu s) _ _ (ki_owns _ _ _ K))
    as [E2|(mm & E2 & O & Hv & Hmap)];
    rewrite ?Nat.add_0_l, ?Z.add_0_r, ?Z2Nat.id in *; try lia; [done|rewrite E2; by left|].
  assert (Hmap' : forall j, 0 <= j < n -> view mm (idx + j) = Z.lor (PTOB (BTOP addr + j)) RW).
  { intros j Hj. replace j with (Z.of_nat (Z.to_nat j)) by lia. by rewrite Hmap by lia. }
  rewrite E2. right. eexists. split; [done|]. split_and!; auto.
  apply (kinv_took s own mods Io idx n m); auto. intros _ q Hq.
  replace q with (idx + (q - idx)) by lia. rewrite Hmap' by lia. unfold has.
  by rewrite (proj2 (proj2 (pte_fields (BTOP addr + (q - idx)) RW PT_PRESENT ltac:(lia) ltac:(done) ltac:(done)))).
Qed.

Lemma iounmap_run s own1 p sz own2 mods :
  0 < sz < 2147483648 -> kinv s (own1 ++ (Io, (p, PAGES sz)) :: own2) mods ->
  exists s', iounmap (PTOB p) sz s = Done (tt, s') /\ kinv s' (own1 ++ own2) mods /\
    view_outside p (PAGES sz) (k_mmu s) (k_mmu s') /\
    (forall q, p <= q < p + PAGES sz -> view (k_mmu s') q = 0).
Proof.
  intros Hs K. pose proof (ki_os _ _ _ K) as A. set (n := PAGES sz) in *.
  destruct (area_bounds _ _ _ _ _ _ _ _ A ltac:(apply elem_of_mid)) as (Hb1 & Hb2 & Hb3).
  unfold KHEAP_P, KHEAP_N in Hb1, Hb3.
  assert (Hlive : live_of (own1 ++ (Io, (p, n)) :: own2) = live_of (own1 ++ own2)) by (by rewrite !live_of_app).
  assert (Hdj : pages_of p n ## live_of (own1 ++ own2) ∪ live_of mods).
  { intros q Hq%elem_of_pages [(p' & n' & Hin & Hq')%elem_of_live|Hm]%elem_of_union.
    - by apply (area_apart _ _ _ _ own1 own2 Io p n Heap p' n' q A).
    - pose proof (area_live _ _ _ _ _ _ (ki_mod _ _ _ K) Hm). unfold KMOD_P, KMOD_N in *. lia. }
  pose proof (ki_owns _ _ _ K) as O. rewrite Hlive in O.
  destruct (unmap_foreign_spec p (Z.to_nat n) 0 (k_mmu s) _ _ O) as (mm & E & O' & Hv & Hz);
    rewrite ?Nat.add_0_l, ?Z.add_0_r, ?Z2Nat.id in *; try lia; [done| |].
  { intros q Hq. apply (ki_io _ _ _ K p n q); [apply elem_of_mid|lia]. }
  unfold iounmap, with_mmu, osv_free. fold n. kx. rewrite E. simpl osvmap. simpl k_lost.
  rewrite BTOP_PTOB, u32_small by u32_lia.
  destruct (rmap_free (osvmap s) (k_lost s) p n) as [m lost] eqn:Ef.
  eexists. split; [done|]. split_and!; auto.
  by apply (kinv_gave s own1 own2 mods Io p n).
Qed.

(** ** The module area *)

Lemma alloc_module_mem_run s own mods n idx m :
  kinv s own mods -> 0 < n < 2147483648 -> rmap_alloc (kmodmap s) n = (idx, m) -> idx <> 0 ->
  (free_frames_left s < 2 * n /\ alloc_module_mem n s = Panic "out of memory") \/
  exists s', alloc_module_mem n s = Done (PTOB idx, s') /\ kinv s' own ((Heap, (idx, n)) :: mods) /\
    view_outside idx n (k_mmu s) (k_mmu s').
Proof.
  intros K Hn E Hi.
  assert (area_inv KMOD_P KMOD_N m (k_lost s) ((Heap, (idx, n)) :: mods)) as A.
  { unfold area_inv. simpl. eapply (pool_step_inv _ _ (Pool (kmodmap s) _ _)); [|apply (ki_mod _ _ _ K)].
    constructor; auto. u32_lia. }
  destruct (area_bounds _ _ _ _ _ _ _ _ A ltac:(by left)) as (Hb1 & Hb2 & Hb3). unfold KMOD_P, KMOD_N in Hb1, Hb3.
  assert (Hos : forall q, idx <= q < idx + n -> ~ (KHEAP_P <= q)) by (unfold KHEAP_P; lia).
  assert (Hfresh : pages_of idx n ## live_of own ∪ live_of mods).
  { intros q Hq [Hl|Hl]%elem_of_union; [|by apply (area_fresh _ _ _ _ _ _ _ _ A q)].
    apply elem_of_pages in Hq. apply (Hos q Hq). by apply (area_live _ _ _ _ _ _ (ki_os _ _ _ K) Hl). }
  unfold alloc_module_mem, kmod_alloc, with_mmu. kx. rewrite u32_small, E by u32_lia. simpl k_mmu.
  destruct (map_fresh_spec KMOD idx (Z.to_nat n) 0 (k_mmu s) _ (ki_owns _ _ _ K)) as
    [[Hfm E2]|(mm & E2 & O & Hv & _ & _)];
    rewrite ?Nat.add_0_l, ?Z.add_0_r, ?Z2Nat.id in *; try lia; [done|done|rewrite E2; by left|].
  rewrite E2. right. eexists. split; [done|]. split; [|done]. split; simpl; auto; [apply K| |].
  - by replace (live_of own ∪ (pages_of idx n ∪ live_of mods))
      with (pages_of idx n ∪ (live_of own ∪ live_of mods)) by set_solver.
  - intros p' n' q Hin Hq. rewrite Hv; [by apply (ki_io _ _ _ K p' n')|].
    intros Hq'. apply (Hos q Hq'). destruct (area_bounds _ _ _ _ _ _ _ _ (ki_os _ _ _ K) Hin). lia.
Qed.

Lemma free_module_mem_run s own mods1 p n mods2 :
  kinv s own (mods1 ++ (Heap, (p, n)) :: mods2) ->
  exists s', free_module_mem (PTOB p) n s = Done (tt, s') /\ kinv s' own (mods1 ++ mods2) /\
    view_outside p n (k_mmu s) (k_mmu s') /\ free_frames_left s' = free_frames_left s + n.
Proof.
  intros K. pose proof (ki_mod _ _ _ K) as A.
  destruct (area_bounds _ _ _ _ _ _ _ _ A ltac:(apply elem_of_mid)) as (Hb1 & Hb2 & Hb3).
  unfold KMOD_P, KMOD_N in Hb1, Hb3.
  destruct (area_removed _ _ _ _ _ _ _ _ A) as [Hsub Hrem]. pose proof (kinv_apart _ _ _ K) as Hap.
  destruct (release_spec p (Z.to_nat n) 0 (k_mmu s) _ (ki_owns _ _ _ K)) as (mm & E & O & Hv & Hz & Hfm & Hk);
    rewrite ?Nat.add_0_l, ?Z.add_0_r, ?Z2Nat.id in *; try lia; [set_solver|].
  unfold free_module_mem, with_mmu, kmod_free. kx. rewrite E. simpl kmodmap. simpl k_lost.
  rewrite BTOP_PTOB, u32_small by u32_lia.
  destruct (rmap_free (kmodmap s) (k_lost s) p n) as [m lost] eqn:Ef.
  pose proof A as A'. unfold area_inv in A'. rewrite fmap_app, fmap_cons in A'.
  pose proof (pool_give _ _ _ _ _ _ _ _ _ _ A' Ef) as A''. rewrite <- fmap_app in A''.
  eexists. split; [done|]. split_and!; auto. split; simpl; auto.
  - apply (area_lost _ _ _ (k_lost s)); [apply A''|apply K].
  - rewrite <- Hrem. assert (forall X Y Z : gset Z, Z ⊆ Y -> X ## Y -> (X ∪ Y) ∖ Z = X ∪ Y ∖ Z) as Hset by set_solver.
    rewrite Hset in O by done. done.
  - intros p' n' q Hin Hq. rewrite Hv; [by apply (ki_io _ _ _ K p' n')|].
    destruct (area_bounds _ _ _ _ _ _ _ _ (ki_os _ _ _ K) Hin). unfold KHEAP_P in *. lia.
Qed.

(** ** Initialization *)

(** A resource map right after [rmap_init] and the first [rmap_free]. *)
Lemma fresh_area junk entries lost base len m lost' :
  length junk = Z.to_nat entries -> 1 < entries < W32 -> is_u32 lost ->
  0 < base -> 0 < len -> base + len < W32 ->
  rmap_free (rmap_init junk entries) lost base len = (m, lost') ->
  area_inv base len m lost' [] /\ lost' = lost /\ (forall y, base <= y < base + len -> In_free m y).
Proof.
  intros Hj Hn Hl Hb Hlen Hbl E. pose proof (rmap_init_rep junk entries ltac:(lia)) as R.
  specialize (R ltac:(lia)). pose proof (rep_wf _ _ _ R I) as W. pose proof (rep_ents _ _ _ R) as E0.
  assert (Hno : forall y, ~ In_free (rmap_init junk entries) y).
  { intros y. unfold In_free. rewrite E0. simpl. tauto. }
  pose proof (rmap_free_spec _ lost base len W Hlen Hb Hbl (fun y _ => Hno y)) as Hs.
  rewrite E in Hs. destruct Hs as [W' [(-> & Hs & _)|(_ & _ & Hfull)]].
  - split_and!; [|done|intros y Hy; apply Hs; by right].
    split; simpl; auto; [intros a y Ha; by apply elem_of_nil in Ha|intros a Ha; by apply elem_of_nil in Ha|].
    intros y [Hf|Hr]%Hs; [by destruct (Hno y)|done].
  - exfalso. destruct R as (_ & j & Hm & Hlj). rewrite Hm in Hfull. simpl in *. lia.
Qed.

(** The pages of the two maps themselves. *)
Lemma sys_page s v :
  owns s ∅ ∅ -> 2 <= freemem (m_pf s) ->
  exists pfn s1 s', with_pf (alloc_pageframe SYS) s = Done (pfn, s1) /\
    map_page v pfn RW s1 = Done (tt, s') /\ owns s' ∅ ∅ /\ freemem (m_pf s) - 2 <= freemem (m_pf s').
Proof.
  intros O Hfm. destruct (owns_alloc_pageframe s ∅ ∅ SYS O) as [[? _]|(f & s1 & E1 & _ & O1 & _ & _ & _ & Hfm1 & _)];
    [done|lia|]. exists f, s1.
  destruct (owns_map_held s1 ∅ _ v f RW O1) as [[? _]|(s2 & E2 & O2 & _ & _ & Hfm2 & _)];
    [set_solver|set_solver|done|done|lia|].
  assert (({[f]} ∪ ∅) ∖ {[f]} = (∅ : gset Z)) as Hemp by set_solver. rewrite Hemp in O2.
  exists s2. split_and!; auto; [|lia]. eapply owns_forget; [exact O2|apply empty_subseteq].
Qed.

Lemma init_kmem_run s junk1 junk2 image :
  owns (k_mmu s) ∅ ∅ -> is_u32 (k_lost s) -> 4 <= free_frames_left s ->
  length junk1 = 512%nat -> length junk2 = 512%nat -> 4096 <= image <= KMODSIZE ->
  exists s', init_kmem junk1 junk2 image s = Done (tt, s') /\
    kinv s' [] [(Fixed, (KMOD_P, BTOP image))] /\
    (forall y, KHEAP_P <= y < KHEAP_P + KHEAP_N -> In_free (osvmap s') y).
Proof.
  intros O Hl Hfm Hj1 Hj2 Him. unfold init_kmem, with_mmu, osv_free, kmod_free. kx.
  destruct (sys_page (k_mmu s) OSVMAP_ADDRESS O ltac:(unfold free_frames_left in *; lia))
    as (f1 & mm1 & mm2 & -> & E2 & O2 & Hfm2).
  simpl k_mmu. rewrite E2. cbn [k_mmu osvmap kmodmap k_lost set_mmu].
  change (u32 (BTOP KHEAPSIZE)) with KHEAP_N. change (BTOP KHEAPBASE) with KHEAP_P.
  destruct (rmap_free (rmap_init junk1 OSVMAP_ENTRIES) (k_lost s) KHEAP_P KHEAP_N) as [m1 lost1] eqn:F1.
  destruct (fresh_area junk1 OSVMAP_ENTRIES (k_lost s) KHEAP_P KHEAP_N m1 lost1) as (A1 & -> & Hfree); auto;
    [unfold OSVMAP_ENTRIES, KHEAP_P, KHEAP_N; u32_lia..|].
  cbn [k_mmu osvmap kmodmap k_lost set_mmu].
  destruct (sys_page mm2 KMODMAP_ADDRESS O2 ltac:(unfold free_frames_left in *; lia))
    as (f3 & mm3 & mm4 & -> & E4 & O4 & _).
  simpl k_mmu. rewrite E4. cbn [k_mmu osvmap kmodmap k_lost set_mmu].
  change (u32 (BTOP KMODSIZE)) with KMOD_N. change (BTOP OSBASE) with KMOD_P.
  destruct (rmap_free (rmap_init junk2 KMODMAP_ENTRIES) (k_lost s) KMOD_P KMOD_N) as [m2 lost2] eqn:F2.
  destruct (fresh_area junk2 KMODMAP_ENTRIES (k_lost s) KMOD_P KMOD_N m2 lost2) as (A2 & -> & Hfree2); auto;
    [unfold KMODMAP_ENTRIES, KMOD_P, KMOD_N; u32_lia..|].
  cbn [k_mmu osvmap kmodmap k_lost set_mmu].
  assert (1 <= BTOP image <= KMOD_N) as Hbt.
  { unfold BTOP, PAGESHIFT, KMOD_N, KMODSIZE in *. rewrite Z.shiftr_div_pow2 by lia.
    change (2 ^ 12) with 4096. pose proof (Z.div_mod image 4096). pose proof (Z.mod_pos_bound image 4096). lia. }
  assert (0 < KMOD_P /\ KMOD_P + BTOP image < W32) as [Hp1 Hp2] by (unfold KMOD_P, KMOD_N in *; u32_lia).
  pose proof (rmap_reserve_spec m2 (k_lost s) KMOD_P (BTOP image) (pi_wf _ _ _ A2) ltac:(lia) Hp1 Hp2 Hl) as Hs.
  destruct (rmap_reserve m2 (k_lost s) KMOD_P (BTOP image)) as [[|] [m3 lost3]] eqn:Er.
  { destruct Hs as (_ & _ & []). intros y Hy. apply Hfree2. unfold In_range in Hy. lia. }
  eexists. split; [done|]. split; [|done].
  assert (A3 : area_inv KMOD_P KMOD_N m3 lost3 [(Fixed, (KMOD_P, BTOP image))]).
  { unfold area_inv. simpl. eapply pool_reserve; [..|apply A2|lia|done|done|exact Er]; [apply A2|done]. }
  split; cbn [k_mmu osvmap kmodmap k_lost]; [|exact A3| |intros p n q Hin; by apply elem_of_nil in Hin].
  - eapply area_lost; [apply A3|exact A1].
  - change (live_of _) with (∅ : gset Z) at 1. by rewrite union_empty_l_L.
Qed.

(** The order in which the ranges are listed does not matter. *)
Lemma all_disjoint_perm l l' : l ≡ₚ l' -> all_disjoint l -> all_disjoint l'.
Proof.
  induction 1 as [|x l l' H IH|x y l|l1 l2 l3 _ IH1 _ IH2]; simpl; auto.
  - intros [Hx Hl]. split; [|auto]. intros b. rewrite <- H. auto.
  - intros (Hy & Hx & Hl). split_and!; auto.
    + intros b [->|Hb]%elem_of_cons; [|auto]. intros z Hz Hz'. by apply (Hy x ltac:(by left) z).
    + intros b Hb. apply Hy. by right.
Qed.

Lemma area_inv_perm base len m lost l l' :
  l ≡ₚ l' -> area_inv base len m lost l -> area_inv base len m lost l'.
Proof.
  intros H [? ? Ho Hp Hd ?]. split; simpl in *; auto.
  - intros a y. rewrite <- H. apply Ho.
  - intros a. rewrite <- H. apply Hp.
  - apply (all_disjoint_perm l.*2); [by rewrite H|done].
Qed.

Lemma live_of_perm l l' : l ≡ₚ l' -> live_of l = live_of l'.
Proof. intros H. apply set_eq. intros q. rewrite !elem_of_live. by setoid_rewrite H. Qed.

#[export] Instance kinv_proper s : Proper ((≡ₚ) ==> (≡ₚ) ==> iff) (kinv s).
Proof.
  assert (forall l l' m m', l ≡ₚ l' -> m ≡ₚ m' -> kinv s l m -> kinv s l' m') as H.
  { intros l l' m m' Hl Hm [? ? ? Hio]. split.
    - by apply (area_inv_perm _ _ _ _ l).
    - by apply (area_inv_perm _ _ _ _ m).
    - by rewrite <- (live_of_perm l l'), <- (live_of_perm m m').
    - intros p n q. rewrite <- Hl. apply Hio. }
  intros l l' Hl m m' Hm. split; [by apply H|]. apply H; by symmetry.
Qed.

(** ** Sequences of operations *)

(** The address returned is that of the range taken from the map. *)
Lemma heap_result {A} (al : K kmem Z) (m : Z -> K kmem A) (s s' : kmem) v :
  kbind al (fun idx => kbind (m idx) (fun _ => kret (PTOB idx))) s = Done (v, s') ->
  exists idx s1, al s = Done (idx, s1) /\ v = PTOB idx.
Proof.
  intros (idx & s1 & E1 & (a & s2 & _ & E3)%kbind_inv)%kbind_inv.
  injection E3 as <- _. eauto.
Qed.

Record kworld := KW { kw : kmem; kw_own : list alloc; kw_mods : list alloc }.

Inductive kstep : kworld -> kworld -> Prop :=
| ks_alloc s own mods n t v s' :
    0 < n < 2147483648 -> t <> FREE -> alloc_pages n t s = Done (v, s') -> v <> 0 ->
    kstep (KW s own mods) (KW s' ((Heap, (BTOP v, n)) :: own) mods)
| ks_align s own mods n align t v s' :
    0 < n < 2147483648 -> 0 < align < 2147483648 -> t <> FREE ->
    alloc_pages_align n align t s = Done (v, s') -> v <> 0 ->
    kstep (KW s own mods) (KW s' ((Heap, (BTOP v, n)) :: own) mods)
| ks_linear s own mods n t v s' :
    0 < n < 2147483648 -> t <> FREE -> alloc_pages_linear n t s = Done (v, s') -> v <> 0 ->
    kstep (KW s own mods) (KW s' ((Heap, (BTOP v, n)) :: own) mods)
| ks_free s own1 p n own2 mods s' :
    free_pages (PTOB p) n s = Done (tt, s') ->
    kstep (KW s (own1 ++ (Heap, (p, n)) :: own2) mods) (KW s' (own1 ++ own2) mods)
| ks_iomap s own mods addr sz v s' :
    io_range addr sz -> sz < 2147483648 -> iomap addr sz s = Done (v, s') -> v <> 0 ->
    kstep (KW s own mods) (KW s' ((Io, (BTOP v, PAGES sz)) :: own) mods)
| ks_iounmap s own1 p sz own2 mods s' :
    0 < sz < 2147483648 -> iounmap (PTOB p) sz s = Done (tt, s') ->
    kstep (KW s (own1 ++ (Io, (p, PAGES sz)) :: own2) mods) (KW s' (own1 ++ own2) mods)
| ks_mod_alloc s own mods n v s' :
    0 < n < 2147483648 -> alloc_module_mem n s = Done (v, s') -> v <> 0 ->
    kstep (KW s own mods) (KW s' own ((Heap, (BTOP v, n)) :: mods))
| ks_mod_free s own mods1 p n mods2 s' :
    free_module_mem (PTOB p) n s = Done (tt, s') ->
    kstep (KW s own (mods1 ++ (Heap, (p, n)) :: mods2)) (KW s' own (mods1 ++ mods2)).

Lemma kinv_page s own mods k p n :
  kinv s ((k, (p, n)) :: own) mods -> BTOP (PTOB p) = p.
Proof.
  intros K. destruct (took_bounds _ _ _ _ _ _ (ki_os _ _ _ K)) as (?&?&?). apply BTOP_PTOB. lia.
Qed.

(** From the address an allocation returned to the call of the resource map. *)
Lemma osv_result s idx s1 n :
  0 < n < W32 -> osv_alloc n s = Done (idx, s1) -> PTOB idx <> 0 ->
  exists m, rmap_alloc (osvmap s) n = (idx, m) /\ idx <> 0.
Proof.
  unfold osv_alloc. intros Hn. rewrite u32_small by u32_lia.
  destruct (rmap_alloc (osvmap s) n) as [i m]. intros [= -> _] Hz. exists m. split; [done|]. by intros ->.
Qed.

Lemma ks_alloc_inv s own mods n t v s' :
  kinv s own mods -> 0 < n < 2147483648 -> t <> FREE -> alloc_pages n t s = Done (v, s') -> v <> 0 ->
  kinv s' ((Heap, (BTOP v, n)) :: own) mods.
Proof.
  intros K Hn Ht E Hv. pose proof E as (idx & s1 & E1 & ->)%heap_result.
  destruct (osv_result _ _ _ n ltac:(u32_lia) E1 Hv) as (m & Er & Hi).
  destruct (alloc_pages_run s own mods n t idx m K Hn Ht Er Hi) as [[_ E2]|(s2 & E2 & [K' _ _ _ _ _] & _)];
    rewrite E2 in E; [done|]. injection E as <-. by rewrite (kinv_page _ _ _ _ _ _ K').
Qed.

Lemma ks_align_inv s own mods n align t v s' :
  kinv s own mods -> 0 < n < 2147483648 -> 0 < align < 2147483648 -> t <> FREE ->
  alloc_pages_align n align t s = Done (v, s') -> v <> 0 ->
  kinv s' ((Heap, (BTOP v, n)) :: own) mods.
Proof.
  intros K Hn Hal Ht E Hv. pose proof E as (idx & s1 & E1 & ->)%heap_result.
  unfold osv_alloc_align in E1. rewrite !u32_small in E1 by u32_lia.
  destruct (rmap_alloc_align (osvmap s) (k_lost s) n align) as [i [m lost]] eqn:Er. injection E1 as -> _.
  assert (idx <> 0) as Hi by (by intros ->).
  destruct (alloc_pages_align_run s own mods n align t idx m lost K Hn Hal Ht Er Hi)
    as [[_ E2]|(s2 & E2 & [K' _ _ _ _ _] & _)]; rewrite E2 in E; [done|].
  injection E as <-. by rewrite (kinv_page _ _ _ _ _ _ K').
Qed.

Lemma ks_linear_inv s own mods n t v s' :
  kinv s own mods -> 0 < n < 2147483648 -> t <> FREE -> alloc_pages_linear n t s = Done (v, s') -> v <> 0 ->
  kinv s' ((Heap, (BTOP v, n)) :: own) mods.
Proof.
  intros K Hn Ht E Hv.
  assert (exists idx m, rmap_alloc (osvmap s) n = (idx, m) /\ idx <> 0 /\ v = PTOB idx) as (idx & m & Er & Hi & ->).
  { unfold alloc_pages_linear in E. apply kbind_inv in E as (pfn & s1 & E1 & E).
    destruct (pfn =? NOFRAME); [by injection E as <- _|].
    apply heap_result in E as (idx & s2 & E2 & ->).
    destruct (osv_result _ _ _ n ltac:(u32_lia) E2 Hv) as (m & Er & Hi). exists idx, m.
    unfold with_mmu, kzoom in E1. destruct (with_pf _ _) as [[]| | |]; [|done..]. by injection E1 as -> <-. }
  destruct (alloc_pages_linear_run s own mods n t idx m K Hn Ht Er Hi)
    as [[msg E2]|[E2|(s2 & f & E2 & K' & _)]]; rewrite E2 in E; [done|congruence|].
  injection E as <-. by rewrite (kinv_page _ _ _ _ _ _ K').
Qed.

Lemma ks_iomap_inv s own mods addr sz v s' :
  kinv s own mods -> io_range addr sz -> sz < 2147483648 -> iomap addr sz s = Done (v, s') -> v <> 0 ->
  kinv s' ((Io, (BTOP v, PAGES sz)) :: own) mods.
Proof.
  intros K Hio Hs E Hv. pose proof E as (idx & s1 & E1 & ->)%heap_result.
  destruct (PAGES_range _ _ Hio Hs) as (Hpg & _).
  destruct (osv_result _ _ _ (PAGES sz) ltac:(u32_lia) E1 Hv) as (m & Er & Hi).
  destruct (iomap_run s own mods addr sz idx m K Hio Hs Er Hi) as [E2|(s2 & E2 & K' & _)];
    rewrite E2 in E; [done|]. injection E as <-. by rewrite (kinv_page _ _ _ _ _ _ K').
Qed.

Lemma ks_mod_inv s own mods n v s' :
  kinv s own mods -> 0 < n < 2147483648 -> alloc_module_mem n s = Done (v, s') -> v <> 0 ->
  kinv s' own ((Heap, (BTOP v, n)) :: mods).
Proof.
  intros K Hn E Hv. pose proof E as (idx & s1 & E1 & ->)%heap_result.
  unfold kmod_alloc in E1. rewrite u32_small in E1 by u32_lia.
  destruct (rmap_alloc (kmodmap s) n) as [i m] eqn:Er. injection E1 as -> _.
  assert (idx <> 0) as Hi by (by intros ->).
  destruct (alloc_module_mem_run s own mods n idx m K Hn Er Hi) as [[_ E2]|(s2 & E2 & K' & _)];
    rewrite E2 in E; [done|]. injection E as <-.
  destruct (area_bounds _ _ _ _ _ _ _ _ (ki_mod _ _ _ K') ltac:(by left)) as (?&?&?).
  by rewrite BTOP_PTOB by (unfold KMOD_P, KMOD_N in *; lia).
Qed.

Lemma kstep_inv w w' :
  kstep w w' -> kinv (kw w) (kw_own w) (kw_mods w) -> kinv (kw w') (kw_own w') (kw_mods w').
Proof.
  intros [] K; simpl in *.
  - by eapply ks_alloc_inv.
  - by eapply ks_align_inv.
  - by eapply ks_linear_inv.
  - destruct (free_pages_run _ _ _ _ _ _ K) as (s2 & E2 & K' & _). by assert (s' = s2) as -> by congruence.
  - by eapply ks_iomap_inv.
  - destruct (iounmap_run s own1 p sz own2 mods) as (s2 & E2 & K' & _); [done|done|]. by assert (s' = s2) as -> by congruence.
  - by eapply ks_mod_inv.
  - destruct (free_module_mem_run _ _ _ _ _ _ K) as (s2 & E2 & K' & _). by assert (s' = s2) as -> by congruence.
Qed.

Lemma kreach_inv w w' :
  rtc kstep w w' -> kinv (kw w) (kw_own w) (kw_mods w) -> kinv (kw w') (kw_own w') (kw_mods w').
Proof. induction 1; eauto using kstep_inv. Qed.

(** ** Properties *)

(** The page is mapped, and its frame is not one that can be handed out. *)
Definition page_backed (mm : mmu) (q : Z) : Prop :=
  page_mapped (q * 4096) mm = Done (true, mm) /\
  exists e, pfdb (m_pf mm) !! Z.to_nat (view mm q / 4096) = Some e /\ tag e <> FREE.

Lemma owns_backed mm live q : owns mm live ∅ -> q ∈ live -> page_backed mm q.
Proof.
  intros [fl [Hw R Hu _ Hp]] Hq. unfold page_backed.
  rewrite page_mapped_view, PTABIDX_div, Z.div_mul, (Hp q Hq) by lia. split; [done|].
  destruct (Hu (UPage q) (view mm q / 4096)) as (_ & Hlt & Hn); [done|].
  apply lookup_lt_is_Some in Hlt as [e He]. exists e. split; [done|].
  intros Ht. apply Hn. by apply (pr_free _ _ R _ e).
Qed.

Lemma owns_frames_apart mm live q q' :
  owns mm live ∅ -> q ∈ live -> q' ∈ live -> q <> q' -> view mm q / 4096 <> view mm q' / 4096.
Proof.
  intros [fl [_ _ _ Hi _]] Hq Hq' Hne Heq. apply Hne.
  pose proof (Hi (UPage q) (UPage q') (view mm q / 4096)) as H. simpl in H. naive_solver.
Qed.


Definition demo_kmem : kmem := Kmem demo_mmu [] [] 0.
Definition demo_junk : list rmap := replicate 512 (Rmap 0 0).

Lemma demo_owns : owns demo_mmu ∅ ∅.
Proof.
  exists [1; 2; 3; 5; 6]%nat. split; [apply demo_mmu_wf|apply demo_rep|..].
  - intros [q|d|g] f; cbn [uses demo_mmu pdir];
      [by intros [?%elem_of_empty _]|rewrite lookup_empty; by intros [? _]|by intros [?%elem_of_empty _]].
  - intros [q|d|g] u' f; cbn [uses demo_mmu pdir];
      [by intros [?%elem_of_empty _]|rewrite lookup_empty; by intros [? _]|by intros [?%elem_of_empty _]].
  - by intros q ?%elem_of_empty.
Qed.


(** When the heap has a run of [n] free pages and there are enough free
    frames, [alloc_pages] takes the first such run, gives each of its pages a
    writable kernel mapping, leaves every other page as it was and uses at
    most [2 n] frames; the invariant of the kernel memory is kept. *)
Theorem alloc_pages_correct s own mods n t x :
  kinv s own mods -> 0 < n < 2147483648 -> t <> FREE ->
  (forall y, In_range x n y -> In_free (osvmap s) y) -> 2 * n <= free_frames_left s ->
  exists p s', alloc_pages n t s = Done (PTOB p, s') /\ p <= x /\
    (forall y, In_range p n y -> In_free (osvmap s) y) /\ heap_added s own mods p n s'.
Proof.
  intros K Hn Ht Hx Hfm. pose proof (pi_wf _ _ _ (ki_os _ _ _ K)) as W. simpl in W.
  destruct (rmap_alloc (osvmap s) n) as [p m] eqn:E.
  destruct (alloc_least (osvmap s) n p m x W ltac:(u32_lia) E Hx) as (Hp & Hle & Hin).
  destruct (alloc_pages_run s own mods n t p m K Hn Ht E) as [[? _]|(s' & E' & H & _)]; [lia|lia|].
  exists p, s'. by split_and!.
Qed.

(** The kernel memory right after the start of a small machine. *)
Definition demo_started : kmem :=
  match init_kmem demo_junk demo_junk 0x8000 demo_kmem with Done (_, s) => s | _ => demo_kmem end.

Lemma demo_started_inv :
  kinv demo_started [] [(Fixed, (KMOD_P, BTOP 0x8000))] /\
  (forall y, KHEAP_P <= y < KHEAP_P + KHEAP_N -> In_free (osvmap demo_started) y).
Proof.
  destruct (init_kmem_run demo_kmem demo_junk demo_junk 0x8000) as (s' & E & H);
    [apply demo_owns|split; [discriminate|reflexivity]|vm_compute; discriminate|apply length_replicate
    |apply length_replicate|split; discriminate|].
  unfold demo_started. rewrite E. exact H.
Qed.

Lemma alloc_pages_correct_witness :
  exists p s', alloc_pages 1 0 demo_started = Done (PTOB p, s') /\ p <= KHEAP_P.
Proof.
  destruct demo_started_inv as [K Hf].
  destruct (alloc_pages_correct demo_started _ _ 1 0 KHEAP_P K) as (p & s' & E & Hp & _);
    [lia|discriminate| |vm_compute; discriminate|exists p, s'; split; [exact E|exact Hp]].
  intros y Hy. apply Hf. unfold In_range, KHEAP_N in *. lia.
Defined.

(** [free_pages] undoes [alloc_pages]: the free ranges of [osvmap] are the
    ones before, the pages are unmapped, and all frames but those that became
    page tables are free again. *)
Theorem alloc_free_pages s own mods n t v s1 :
  kinv s own mods -> 0 < n < 2147483648 -> t <> FREE ->
  alloc_pages n t s = Done (v, s1) -> v <> 0 ->
  exists s2, free_pages v n s1 = Done (tt, s2) /\ kinv s2 own mods /\
    ents (osvmap s2) = ents (osvmap s) /\ k_lost s2 = k_lost s1 /\
    (forall q, view (k_mmu s2) q = if decide (BTOP v <= q < BTOP v + n) then 0 else view (k_mmu s) q) /\
    free_frames_left s - n <= free_frames_left s2 <= free_frames_left s.
Proof.
  intros K Hn Ht E Hv. pose proof E as (p & s0 & E1 & ->)%heap_result.
  destruct (osv_result _ _ _ n ltac:(u32_lia) E1 Hv) as (m & Er & Hi).
  destruct (alloc_pages_run s own mods n t p m K Hn Ht Er Hi) as [[_ E2]|(s2 & E2 & [K' Hv1 _ Hf1 _ _] & Hm)];
    rewrite E2 in E; [done|]. injection E as ->. rewrite (kinv_page _ _ _ _ _ _ K').
  destruct (free_pages_run s1 [] p n own mods K') as (s3 & E3 & K3 & Hv3 & Hz & Hf3 & Em & _).
  pose proof (pi_wf _ _ _ (ki_os _ _ _ K)) as W.
  destruct (alloc_free_run (osvmap s) n (k_lost s1) p m W ltac:(u32_lia) Er Hi) as (m3 & Ef & Hents & _).
  rewrite Hm, Ef in Em. injection Em as Em1 Em2. rewrite <- Em1 in Hents. exists s3. split_and!; auto; try lia.
  intros q. case_decide as Hq; [auto|]. by rewrite Hv3, Hv1.
Qed.

Lemma alloc_free_pages_witness :
  exists s1 s2, alloc_pages 1 0 demo_started = Done (0x92000000, s1) /\
    free_pages 0x92000000 1 s1 = Done (tt, s2) /\ ents (osvmap s2) = ents (osvmap demo_started).
Proof.
  destruct demo_started_inv as [K _].
  assert (exists s1, alloc_pages 1 0 demo_started = Done (0x92000000, s1)) as [s1 E1]
    by (eexists; vm_compute; reflexivity).
  destruct (alloc_free_pages demo_started _ _ 1 0 0x92000000 s1 K) as (s2 & E2 & _ & He & _);
    [lia|discriminate|exact E1|discriminate|]. exists s1, s2. split; [exact E1|]. split; [exact E2|exact He].
Defined.

(** [alloc_pages] does not check the result of [rmap_alloc]: when the heap
    has no run of [n] free pages it returns 0, but only after it has mapped
    [n] fresh frames at the virtual addresses from 0 on. *)
Theorem alloc_pages_exhausted s live n t :
  owns (k_mmu s) live ∅ -> rmap_wf (osvmap s) -> 0 < n <= 1048576 -> t <> FREE ->
  pages_of 0 n ## live -> 2 * n <= free_frames_left s ->
  (forall x, ~ (forall y, In_range x n y -> In_free (osvmap s) y)) ->
  exists s', alloc_pages n t s = Done (0, s') /\ osvmap s' = osvmap s /\
    (forall q, 0 <= q < n -> page_backed (k_mmu s') q) /\
    free_frames_left s' <= free_frames_left s - n.
Proof.
  intros O W Hn Ht Hdj Hfm Hno. pose proof (rmap_alloc_spec (osvmap s) n W ltac:(u32_lia)) as Ha.
  unfold alloc_pages, osv_alloc, with_mmu. fold (ktag t). kx. rewrite u32_small by u32_lia.
  destruct (rmap_alloc (osvmap s) n) as [idx m]. destruct Ha as [_ [(-> & -> & _)|(_ & Hin & _)]];
    [|by destruct (Hno idx)]. cbn [k_mmu osvmap kmodmap k_lost].
  destruct (map_fresh_spec (ktag t) 0 (Z.to_nat n) 0 (k_mmu s) live O (ktag_not_free t Ht))
    as [[? _]|(mm & E & O' & _ & _ & Hf & _)];
    rewrite ?Nat.add_0_l, ?Z.add_0_r, ?Z2Nat.id in * by lia; unfold free_frames_left in *; try lia; [done|].
  rewrite E. eexists. split; [done|]. split_and!; [done| |simpl; lia].
  intros q Hq. apply (owns_backed mm _ q O'). apply elem_of_union_l, elem_of_pages. lia.
Qed.

Lemma alloc_pages_exhausted_witness :
  exists s', alloc_pages 1 0 (Kmem demo_mmu [Rmap 0 1; Rmap 0 0] [] 0) = Done (0, s') /\
    page_backed (k_mmu s') 0.
Proof.
  assert (rep 1 [] [Rmap 0 1; Rmap 0 0]) as R by (split; [reflexivity|]; by exists [Rmap 0 0]).
  destruct (alloc_pages_exhausted (Kmem demo_mmu [Rmap 0 1; Rmap 0 0] [] 0) ∅ 1 0) as (s' & E & _ & H & _).
  - exact demo_owns.
  - exact (rep_wf _ _ _ R I).
  - lia.
  - discriminate.
  - set_solver.
  - vm_compute. discriminate.
  - intros x H. apply (H x). unfold In_range. lia.
  - exists s'. split; [exact E|]. apply H. lia.
Defined.
