(* ===== verification/Kmalloc.v ===== *)
(** * The kernel heap (sys/krnl/kmalloc.c)

    Blocks of up to half a page come from buckets, one for each power of two
    from 16 bytes up; the free chunks of a bucket are linked through their
    first word.  Larger blocks are whole pages.  The page frame entry of a
    block's first page tells [kfree] which of the two it is.  [words] is the
    part of memory that is read and written through pointers. *)

From S2P Require Import Prelude Rmap Pframe Pdir Owns Kmem.

Definition ALOC : Z := mctag "ALOC".
Definition HEAP : Z := mctag "HEAP".

Record bucket := Bucket { b_mem : Z; b_elems : Z; b_pages : Z; b_size : Z }.

Record kheap := Kheap {
  h_km : kmem;
  buckets : list bucket;
  words : gmap Z Z;
}.

Definition set_km (k : kmem) (s : kheap) : kheap := Kheap k (buckets s) (words s).
Definition set_buckets (b : list bucket) (s : kheap) : kheap := Kheap (h_km s) b (words s).
Definition set_words (w : gmap Z Z) (s : kheap) : kheap := Kheap (h_km s) (buckets s) w.
Definition set_b_mem (a : Z) (b : bucket) : bucket := Bucket a (b_elems b) (b_pages b) (b_size b).

Local Open Scope k_scope.

Definition with_km {A} (m : K kmem A) : K kheap A := kzoom h_km set_km m.

(** Access to a word of memory faults where the page is not mapped. *)
Definition mapped (s : kheap) (a : Z) : bool := has PT_PRESENT (view (k_mmu (h_km s)) (PTABIDX a)).

Definition peek (a : Z) : K kheap Z := fun s =>
  if mapped s a then Done (default 0 (words s !! a), s) else Fault.

Definition poke (a v : Z) : K kheap unit := fun s =>
  if mapped s a then Done (tt, set_words (<[a := v]> (words s)) s) else Fault.

(** [pfdb[BTOP(virt2phys(addr))].size], read and written *)
Definition get_frame_size (addr : Z) : K kheap Z :=
  let* pa := with_km (with_mmu (virt2phys addr)) in
  let* s := kget in
  let* e := kopt (pfdb (m_pf (k_mmu (h_km s))) !! Z.to_nat (BTOP pa)) in
  kret (word e).

Definition set_frame_size (addr v : Z) : K kheap unit :=
  let* pa := with_km (with_mmu (virt2phys addr)) in
  let* s := kget in
  let* e := kopt (pfdb (m_pf (k_mmu (h_km s))) !! Z.to_nat (BTOP pa)) in
  with_km (with_mmu (with_pf (kmod (fun p =>
    set_pfdb (<[Z.to_nat (BTOP pa) := PF (tag e) v]> (pfdb p)) p)))).

(** The table [log2] has the bucket of each size from 1 to 2048. *)
Definition log2 : list Z :=
  replicate 16 4 ++ replicate 16 5 ++ replicate 32 6 ++ replicate 64 7 ++
  replicate 128 8 ++ replicate 256 9 ++ replicate 512 10 ++ replicate 1024 11.

Definition BUCKET (n : Z) : option Z := if 1 <=? n then log2 !! Z.to_nat (n - 1) else None.

Definition set_mem (bk : nat) (a : Z) : K kheap unit :=
  kmod (fun s => set_buckets (alter (set_b_mem a) bk (buckets s)) s).

(** [for (i = 0; i < PAGESIZE; i += b->size)], pushing each chunk of page [p]. *)
Fixpoint split_page (fuel : nat) (bk : nat) (p i : Z) : K kheap unit :=
  if i <? PAGESIZE then
    match fuel with
    | O => khang
    | S fuel' =>
        let* s := kget in
        let* b := kopt (buckets s !! bk) in
        poke (u32 (p + i)) (b_mem b) ;;;
        set_mem bk (u32 (p + i)) ;;;
        split_page fuel' bk p (i + b_size b)
    end
  else kret tt.

(** One more page for an empty bucket. *)
Definition grow_bucket (bk : nat) : K kheap unit :=
  let* addr := with_km (alloc_pages 1 HEAP) in
  set_frame_size addr (Z.of_nat bk) ;;;
  split_page (Z.to_nat PAGESIZE) bk addr 0 ;;;
  kmod (fun s => set_buckets
    (alter (fun b => Bucket (b_mem b) (b_elems b) (u32 (b_pages b + 1)) (b_size b)) bk (buckets s)) s).

Definition kmalloc_tag (sz t : Z) : K kheap Z :=
  if PAGESIZE / 2 <? sz then
    let* addr := with_km (alloc_pages (PAGES sz) (if t =? 0 then ALOC else t)) in
    set_frame_size addr (PAGES sz + PAGESHIFT) ;;;
    kret addr
  else
    let* bk := kopt (BUCKET sz) in
    let bk := Z.to_nat bk in
    let* s := kget in
    let* b := kopt (buckets s !! bk) in
    (if b_mem b =? 0 then grow_bucket bk else kret tt) ;;;
    let* s := kget in
    let* b := kopt (buckets s !! bk) in
    let addr := b_mem b in
    let* next := peek addr in
    set_mem bk next ;;;
    kret addr.

Definition kfree (addr : Z) : K kheap unit :=
  if addr =? 0 then kret tt
  else
    let* bk := get_frame_size addr in
    if PAGESHIFT <=? bk then with_km (free_pages addr (bk - PAGESHIFT))
    else
      let* s := kget in
      let* b := kopt (buckets s !! Z.to_nat bk) in
      poke addr (b_mem b) ;;;
      set_mem (Z.to_nat bk) addr.

Definition init_malloc : K kheap unit :=
  kfor (Z.to_nat PAGESHIFT) 0 (fun i =>
    kmod (fun s => set_buckets
      (alter (fun b => Bucket (b_mem b) (b_elems b) (b_pages b) (Z.shiftl 1 (Z.of_nat i))) i (buckets s)) s)).

Definition kmalloc (sz : Z) : K kheap Z := kmalloc_tag sz 0.

(** [heapavail] of [kheapstat_proc] counts the free chunks of a bucket. *)
Fixpoint count_chunks (fuel : nat) (addr : Z) : K kheap Z :=
  if addr =? 0 then kret 0
  else
    match fuel with
    | O => khang
    | S fuel' =>
        let* next := peek addr in
        let* n := count_chunks fuel' next in
        kret (n + 1)
    end.

(** ** Buckets *)

(** The bucket of a size is the smallest power of two, from 16 on, that holds it. *)
Definition bucket_ok (n : nat) : bool :=
  match log2 !! n with
  | Some b => (4 <=? b) && (b <=? 11) && (Z.of_nat n + 1 <=? 2 ^ b) &&
              ((b =? 4) || (2 ^ (b - 1) <? Z.of_nat n + 1))
  | None => false
  end.

Lemma log2_table : forallb bucket_ok (seq 0 2048) = true.
Proof. vm_compute. reflexivity. Qed.

Lemma BUCKET_spec n :
  1 <= n <= 2048 ->
  exists b, BUCKET n = Some b /\ 4 <= b <= 11 /\ n <= 2 ^ b /\ (b = 4 \/ 2 ^ (b - 1) < n).
Proof.
  intros Hn. pose proof (proj1 (forallb_True_seq _ _) log2_table (Z.to_nat (n - 1)) ltac:(lia)) as H.
  unfold bucket_ok in H. unfold BUCKET. destruct (Z.leb_spec 1 n); [|lia].
  destruct (log2 !! Z.to_nat (n - 1)) as [b|]; [|done]. exists b. split; [done|].
  rewrite !andb_true_iff, orb_true_iff in H. destruct H as (((H1 & H2) & H3) & H4).
  rewrite Z2Nat.id in * by lia. destruct H4; breflect; (split_and!; [lia..|]); [left|right]; lia.
Qed.

(** The free list of a bucket: [l] linked from address [a]. *)
Fixpoint lseg (w : gmap Z Z) (a : Z) (l : list Z) : Prop :=
  match l with
  | [] => a = 0
  | x :: l' => a = x /\ x <> 0 /\ lseg w (default 0 (w !! x)) l'
  end.

Lemma lseg_ext w w' a l : (forall x, x ∈ l -> w' !! x = w !! x) -> lseg w a l -> lseg w' a l.
Proof.
  revert a. induction l as [|x l IH]; intros a Hw; simpl; [done|].
  intros (-> & Hx & Hl). rewrite Hw by (by left). split_and!; auto.
  apply IH; [|done]. intros y Hy. apply Hw. by right.
Qed.

Lemma lseg_push w a l x : lseg w a l -> x <> 0 -> x ∉ l -> lseg (<[x := a]> w) x (x :: l).
Proof.
  intros H Hx Hn. simpl. split_and!; auto. rewrite lookup_insert_eq. simpl.
  eapply lseg_ext; [|exact H]. intros y Hy. apply lookup_insert_ne. by intros ->.
Qed.

(** Chunk [a] of size [2 ^ b] lies in one of the pages [cps] that are split
    for bucket [b]. *)
Definition chunk (cps : list (Z * Z)) (a b : Z) : Prop :=
  exists p, (p, b) ∈ cps /\ 4096 * p <= a /\ a + 2 ^ b <= 4096 * (p + 1) /\ a mod 2 ^ b = 0.

Lemma multiples_apart d a a' :
  0 < d -> a mod d = 0 -> a' mod d = 0 -> a <= a' < a + d -> a = a'.
Proof.
  intros Hd Ha Ha' Hr. pose proof (Z.div_mod a d ltac:(lia)). pose proof (Z.div_mod a' d ltac:(lia)).
  assert (a' / d = a / d) by (assert (a / d <= a' / d < a / d + 1); nia). nia.
Qed.

Lemma NoDup_fst_eq {A B} (l : list (A * B)) x y y' :
  NoDup l.*1 -> (x, y) ∈ l -> (x, y') ∈ l -> y = y'.
Proof.
  induction l as [|[a b] l IH]; simpl; [intros _ H; by apply elem_of_nil in H|].
  intros [Hn Hl]%NoDup_cons [E1|H1]%elem_of_cons [E2|H2]%elem_of_cons; [congruence|..|auto].
  - injection E1 as -> ->. destruct Hn. apply list_elem_of_fmap. by exists (a, y').
  - injection E2 as -> ->. destruct Hn. apply list_elem_of_fmap. by exists (a, y).
Qed.

Lemma chunk_apart cps a b a' b' x :
  NoDup cps.*1 -> (forall p c, (p, c) ∈ cps -> 4 <= c <= 11) ->
  chunk cps a b -> chunk cps a' b' -> a <= x < a + 2 ^ b -> a' <= x < a' + 2 ^ b' -> a = a' /\ b = b'.
Proof.
  intros Hnd Hb (p & Hp & H1 & H2 & H3) (p' & Hp' & H1' & H2' & H3') Hx Hx'.
  assert (p' = p) as -> by lia. rewrite (NoDup_fst_eq _ _ _ _ Hnd Hp' Hp) in *. split; [|done].
  assert (0 < 2 ^ b) by (apply Z.pow_pos_nonneg; [lia|]; specialize (Hb p b Hp); lia).
  destruct (Z.le_gt_cases a a').
  - apply (multiples_apart (2 ^ b)); auto; lia.
  - symmetry. apply (multiples_apart (2 ^ b)); auto; lia.
Qed.

(** ** Page frame entries of heap pages *)

Definition frame_word (k : kmem) (q : Z) : option Z :=
  word <$> (pfdb (m_pf (k_mmu k)) !! Z.to_nat (view (k_mmu k) q / 4096)).

Lemma frame_index s own mods addr :
  kinv s own mods -> PTABIDX addr ∈ live_of own ->
  exists pa e, with_mmu (virt2phys addr) s = Done (pa, s) /\
    BTOP pa = view (k_mmu s) (PTABIDX addr) / 4096 /\
    pfdb (m_pf (k_mmu s)) !! Z.to_nat (BTOP pa) = Some e /\ tag e <> FREE.
Proof.
  intros K Hq. pose proof (ki_owns _ _ _ K) as O. pose proof O as [fl [Hw _ _ _ Hp]].
  destruct (owns_backed _ _ _ O (elem_of_union_l _ _ _ Hq)) as (_ & e & He & Ht).
  unfold with_mmu. kx. rewrite virt2phys_view; [|apply present_pde, Hp, elem_of_union_l, Hq|done].
  eexists _, e. split; [by destruct s|]. set (f := view (k_mmu s) (PTABIDX addr) / 4096) in *.
  assert (BTOP (f * 4096 + addr mod 4096) = f) as ->; [|by split_and!].
  unfold BTOP, PAGESHIFT. rewrite Z.shiftr_div_pow2 by lia. change (2 ^ 12) with 4096.
  rewrite Z.div_add_l, Z.div_small, Z.add_0_r by (try apply Z.mod_pos_bound; lia). done.
Qed.

Lemma get_frame_size_run s own mods addr v :
  kinv (h_km s) own mods -> PTABIDX addr ∈ live_of own ->
  frame_word (h_km s) (PTABIDX addr) = Some v -> get_frame_size addr s = Done (v, s).
Proof.
  intros K Hq Hv. destruct (frame_index _ _ _ _ K Hq) as (pa & e & E & Hpa & He & _).
  unfold get_frame_size, with_km. kx. rewrite E. cbn [h_km set_km]. rewrite He.
  unfold frame_word in Hv. rewrite <- Hpa, He in Hv. injection Hv as <-. by destruct s.
Qed.

(** Everything but the contents of the frame entries is the same. *)
Record same_layout (k k' : kmem) : Prop := {
  sl_view : forall q, view (k_mmu k') q = view (k_mmu k) q;
  sl_os : osvmap k' = osvmap k;
  sl_free : free_frames_left k' = free_frames_left k;
}.

Lemma set_frame_size_run s own mods addr v :
  kinv (h_km s) own mods -> PTABIDX addr ∈ live_of own ->
  exists s', set_frame_size addr v s = Done (tt, s') /\ kinv (h_km s') own mods /\
    buckets s' = buckets s /\ words s' = words s /\ same_layout (h_km s) (h_km s') /\
    frame_word (h_km s') (PTABIDX addr) = Some v /\
    (forall q, q ∈ live_of own -> q <> PTABIDX addr -> frame_word (h_km s') q = frame_word (h_km s) q).
Proof.
  intros K Hq. destruct (frame_index _ _ _ _ K Hq) as (pa & e & E & Hpa & He & Ht).
  unfold set_frame_size, with_km. kx. rewrite E. cbn [h_km set_km buckets words]. rewrite He.
  unfold with_mmu, with_pf. kx. eexists. split; [done|]. cbn [h_km set_km buckets words].
  pose proof (ki_owns _ _ _ K) as O. pose proof (owns_set_word _ _ _ _ _ v O He Ht) as O'.
  assert (Hview : forall q, view (set_pf (set_pfdb (<[Z.to_nat (BTOP pa) := PF (tag e) v]>
    (pfdb (m_pf (k_mmu (h_km s))))) (m_pf (k_mmu (h_km s)))) (k_mmu (h_km s))) q = view (k_mmu (h_km s)) q) by done.
  split_and!; auto.
  - split; try apply K. exact O'.
  - by split.
  - unfold frame_word. cbn [k_mmu set_mmu m_pf set_pf pfdb set_pfdb]. rewrite Hview, <- Hpa.
    by rewrite list_lookup_insert_eq by (by eapply lookup_lt_Some).
  - intros q Hl Hne. unfold frame_word. cbn [k_mmu set_mmu m_pf set_pf pfdb set_pfdb]. rewrite Hview.
    rewrite list_lookup_insert_ne; [done|]. rewrite Hpa. intros Heq.
    assert (forall q', q' ∈ live_of own -> 0 <= view (k_mmu (h_km s)) q' / 4096) as Hpos.
    { intros q' _. apply Z.div_pos; [|lia]. destruct O as [fl O]. apply (view_u32 _ q' (ow_wf _ _ _ _ O)). }
    apply Z2Nat.inj in Heq; [|by apply Hpos..]. symmetry in Heq. revert Heq.
    apply (owns_frames_apart _ _ _ _ O); [by apply elem_of_union_l..|done].
Qed.

(** ** Splitting a page into chunks *)

Fixpoint addrs (a d : Z) (m : nat) : list Z :=
  match m with O => [] | S m' => a :: addrs (a + d) d m' end.

Lemma elem_of_addrs a d m x :
  x ∈ addrs a d m <-> exists k, (k < m)%nat /\ x = a + Z.of_nat k * d.
Proof.
  revert a. induction m as [|m IH]; intros a; simpl.
  - split; [intros H; by apply elem_of_nil in H|intros (k & ? & _); lia].
  - rewrite elem_of_cons, IH. split.
    + intros [->|(k & ? & ->)]; [exists 0%nat|exists (S k)]; split; lia.
    + intros ([|k] & ? & ->); [left; lia|right; exists k; split; lia].
Qed.

Lemma NoDup_addrs a d m : 0 < d -> NoDup (addrs a d m).
Proof.
  intros Hd. revert a. induction m as [|m IH]; intros a; simpl; [constructor|].
  constructor; [|apply IH]. intros (k & _ & Hk)%elem_of_addrs. nia.
Qed.

Lemma split_page_spec bk b p : 4 <= b <= 11 -> 0 < p < 1048576 -> forall m fuel s i b0 l,
  i = 4096 - Z.of_nat m * 2 ^ b -> 0 <= i -> (m <= fuel)%nat ->
  buckets s !! bk = Some b0 -> b_size b0 = 2 ^ b ->
  has PT_PRESENT (view (k_mmu (h_km s)) p) = true ->
  lseg (words s) (b_mem b0) l -> (forall x, x ∈ l -> ~ (4096 * p + i <= x < 4096 * (p + 1))) ->
  exists s' b1, split_page fuel bk (4096 * p) i s = Done (tt, s') /\ h_km s' = h_km s /\
    buckets s' = <[bk := b1]> (buckets s) /\ b_size b1 = 2 ^ b /\
    lseg (words s') (b_mem b1) (reverse (addrs (4096 * p + i) (2 ^ b) m) ++ l) /\
    (forall a, ~ (4096 * p + i <= a < 4096 * (p + 1)) -> words s' !! a = words s !! a).
Proof.
  intros Hb Hp. assert (0 < 2 ^ b) as Hd by (apply Z.pow_pos_nonneg; lia).
  induction m as [|m IH]; intros fuel s i b0 l Hi Hi0 Hf Hbk Hsz Hpr Hl Hout.
  - exists s, b0. assert (i = 4096) as -> by lia. destruct fuel; cbn [split_page];
      change (4096 <? PAGESIZE) with false; cbn iota;
      (split; [done|]); split_and!; auto; by rewrite list_insert_id.
  - destruct fuel as [|fuel]; [lia|]. cbn [split_page].
    destruct (Z.ltb_spec i PAGESIZE); [|unfold PAGESIZE in *; nia].
    assert (i < 4096) by (unfold PAGESIZE in *; lia).
    kx. rewrite Hbk. unfold poke, mapped, set_mem. kx. rewrite (u32_small (4096 * p + i)) by u32_lia.
    assert (PTABIDX (4096 * p + i) = p) as Hidx.
    { rewrite PTABIDX_div, Z.mul_comm, Z.div_add_l, Z.div_small by lia. lia. }
    rewrite Hidx, Hpr. cbn [set_words buckets h_km words].
    set (x := 4096 * p + i) in *. set (s1 := set_buckets _ _).
    assert (x ∉ l) as Hxl. { intros Hx. apply (Hout x Hx). lia. }
    pose proof (lookup_lt_Some _ _ _ Hbk) as Hlt.
    destruct (IH fuel s1 (i + b_size b0) (set_b_mem x b0) (x :: l)) as (s' & b1 & E & Hk & Hbs & Hs1 & Hls & Hw); auto.
    + rewrite Hsz. lia.
    + rewrite Hsz. lia.
    + lia.
    + simpl. rewrite list_lookup_alter_eq, Hbk. done.
    + simpl. apply lseg_push; auto. lia.
    + intros y [->|Hy]%elem_of_cons; [rewrite Hsz; lia|]. intros Hr. apply (Hout y Hy). rewrite Hsz in Hr. lia.
    + exists s', b1. split; [exact E|]. split_and!; auto.
      * rewrite Hbs. simpl. apply list_eq. intros j. rewrite !list_lookup_insert, length_alter.
        case_decide; [done|]. destruct (decide (bk = j)) as [->|]; [tauto|]. by rewrite list_lookup_alter_ne.
      * simpl addrs. rewrite reverse_cons, <- app_assoc. simpl app.
        replace (4096 * p + (i + b_size b0)) with (x + 2 ^ b) in Hls by (unfold x; lia). exact Hls.
      * intros a Ha. rewrite Hw by (rewrite Hsz; unfold x in Ha; lia). simpl. apply lookup_insert_ne. intros Heq. apply Ha. rewrite <- Heq. unfold x. lia.
Qed.

(** ** The state of the heap

    [cps] are the pages split into chunks, with their bucket; [big] the blocks
    of whole pages; [rest] and [mods] what others got from kmem.c; [fls] the
    free chunks and [ac] the chunks in use of each bucket. *)

Record hview := HV {
  cps : list (Z * Z);
  big : list (Z * Z);
  rest : list alloc;
  mods : list alloc;
  fls : Z -> list Z;
  ac : list (Z * Z);
}.

Definition upd (b : Z) (l : list Z) (f : Z -> list Z) : Z -> list Z :=
  fun c => if decide (c = b) then l else f c.

Definition hown (v : hview) : list alloc :=
  ((fun c => (Heap, (c.1, 1))) <$> cps v) ++ (pair Heap <$> big v) ++ rest v.

Record hinv (s : kheap) (v : hview) : Prop := {
  hi_k : kinv (h_km s) (hown v) (mods v);
  hi_len : length (buckets s) = 12%nat;
  hi_b : forall b bk, buckets s !! b = Some bk ->
           b_size bk = 2 ^ Z.of_nat b /\ lseg (words s) (b_mem bk) (fls v (Z.of_nat b));
  hi_cps : forall p b, (p, b) ∈ cps v -> 4 <= b <= 11 /\ frame_word (h_km s) p = Some b;
  hi_big : forall p n, (p, n) ∈ big v -> frame_word (h_km s) p = Some (n + 12);
  hi_fl : forall b a, a ∈ fls v b -> chunk (cps v) a b;
  hi_fnd : forall b, NoDup (fls v b);
  hi_ac : forall a b, (a, b) ∈ ac v -> chunk (cps v) a b /\ a ∉ fls v b;
  hi_and : NoDup (ac v).*1;
}.

Lemma hown_cps v p b : (p, b) ∈ cps v -> (Heap, (p, 1)) ∈ hown v.
Proof.
  intros H. unfold hown. apply elem_of_app. left. apply list_elem_of_fmap. by exists (p, b).
Qed.

Lemma hown_big v p n : (p, n) ∈ big v -> (Heap, (p, n)) ∈ hown v.
Proof.
  intros H. unfold hown. apply elem_of_app. right. apply elem_of_app. left.
  apply list_elem_of_fmap. by exists (p, n).
Qed.

Lemma own_bounds k own ms p n :
  kinv k own ms -> (Heap, (p, n)) ∈ own -> 0 < p /\ 0 < n /\ p + n <= 1048576 /\
    (forall q, p <= q < p + n -> q ∈ live_of own).
Proof.
  intros K Hin. destruct (area_bounds _ _ _ _ _ _ _ _ (ki_os _ _ _ K) Hin) as (?&?&?).
  unfold KHEAP_P, KHEAP_N in *. split_and!; [lia..|]. intros q Hq. apply elem_of_live. by exists p, n.
Qed.

Lemma cps_nodup s v : hinv s v -> NoDup (cps v).*1.
Proof.
  intros H. pose proof (pi_disj _ _ _ (ki_os _ _ _ (hi_k _ _ H))) as Hd. simpl in Hd. unfold hown in Hd.
  rewrite fmap_app in Hd. revert Hd. generalize ((pair Heap <$> big v) ++ rest v). intros l.
  induction (cps v) as [|[p b] cs IH]; simpl; [constructor|]. intros [Hp Hd].
  constructor; [|by apply IH]. intros ([p' b'] & -> & Hin)%list_elem_of_fmap. simpl in *.
  apply (Hp (p', 1)) with p'; [|unfold In_range; simpl; lia..].
  apply elem_of_app. left. apply list_elem_of_fmap. exists (Heap, (p', 1)). split; [done|].
  apply list_elem_of_fmap. by exists (p', b').
Qed.

(** Where a chunk is. *)
Lemma chunk_page s v a b :
  hinv s v -> chunk (cps v) a b ->
  exists p, (p, b) ∈ cps v /\ PTABIDX a = p /\ p ∈ live_of (hown v) /\ 4 <= b <= 11 /\
    0 < a < 4294967296 /\ has PT_PRESENT (view (k_mmu (h_km s)) p) = true.
Proof.
  intros H (p & Hp & H1 & H2 & _). destruct (hi_cps _ _ H p b Hp) as [Hb _].
  destruct (own_bounds _ _ _ _ _ (hi_k _ _ H) (hown_cps _ _ _ Hp)) as (Hp0 & _ & Hp1 & Hl).
  assert (0 < 2 ^ b) by (apply Z.pow_pos_nonneg; lia). specialize (Hl p ltac:(lia)).
  exists p. split_and!; auto; try lia.
  - rewrite PTABIDX_div. symmetry. apply (Z.div_unique _ _ _ (a - 4096 * p)); lia.
  - destruct (ki_owns _ _ _ (hi_k _ _ H)) as [fl O]. apply (ow_present _ _ _ _ O). by apply elem_of_union_l.
Qed.

(** Frame entries of live pages outside of what is freed stay. *)
Lemma frame_word_keeps k own ms k' q ex :
  kinv k own ms -> q ∈ live_of own -> view (k_mmu k') q = view (k_mmu k) q ->
  keeps ex (m_pf (k_mmu k)) (m_pf (k_mmu k')) -> view (k_mmu k) q / 4096 ∉ ex ->
  frame_word k' q = frame_word k q.
Proof.
  intros K Hq Hv Hk Hx. pose proof (ki_owns _ _ _ K) as O.
  destruct (owns_backed _ _ q O ltac:(by apply elem_of_union_l)) as (_ & e & He & Ht).
  unfold frame_word. rewrite Hv, He. rewrite (Hk _ _ He Ht); [done|].
  rewrite Z2Nat.id; [done|]. apply Z.div_pos; [|lia]. destruct O as [fl O].
  apply (view_u32 _ q (ow_wf _ _ _ _ O)).
Qed.

Lemma upd_eq b l f : upd b l f b = l.
Proof. unfold upd. by rewrite decide_True. Qed.

Lemma upd_ne b l f c : c <> b -> upd b l f c = f c.
Proof. intros H. unfold upd. by rewrite decide_False. Qed.

(** The bucket entries after the head of the list of bucket [b] has changed. *)
Lemma hi_b_set s v b a l w :
  hinv s v -> 0 <= b -> lseg w a l ->
  (forall c x, c <> b -> x ∈ fls v c -> w !! x = words s !! x) ->
  forall c bk, alter (set_b_mem a) (Z.to_nat b) (buckets s) !! c = Some bk ->
    b_size bk = 2 ^ Z.of_nat c /\ lseg w (b_mem bk) (upd b l (fls v) (Z.of_nat c)).
Proof.
  intros H Hb Hl Hw c bk Hc. destruct (decide (c = Z.to_nat b)) as [->|Hne].
  - rewrite list_lookup_alter_eq in Hc. destruct (buckets s !! Z.to_nat b) as [b0|] eqn:E; [|done].
    injection Hc as <-. destruct (hi_b _ _ H _ _ E) as [Hs _]. split; [done|].
    by rewrite Z2Nat.id, upd_eq.
  - rewrite list_lookup_alter_ne in Hc by done. destruct (hi_b _ _ H _ _ Hc) as [Hs Hls]. split; [done|].
    rewrite upd_ne by lia. eapply lseg_ext; [|exact Hls]. intros x Hx. eapply Hw; [|exact Hx]. lia.
Qed.

(** Taking the first free chunk of a bucket. *)
Lemma pop_run s v b bk a l :
  hinv s v -> 0 <= b < 12 -> fls v b = a :: l -> buckets s !! Z.to_nat b = Some bk ->
  exists next s', b_mem bk = a /\ peek a s = Done (next, s) /\ set_mem (Z.to_nat b) next s = Done (tt, s') /\
    hinv s' (HV (cps v) (big v) (rest v) (mods v) (upd b l (fls v)) ((a, b) :: ac v)) /\
    h_km s' = h_km s.
Proof.
  intros H Hb Hl Hbk. destruct (hi_b _ _ H _ _ Hbk) as [Hs Hls]. rewrite Z2Nat.id, Hl in Hls by lia.
  simpl in Hls. destruct Hls as (Ha & Ha0 & Hls).
  assert (a ∈ fls v b) as Hin by (rewrite Hl; by left).
  pose proof (hi_fl _ _ H _ _ Hin) as Hc. destruct (chunk_page _ _ _ _ H Hc) as (p & _ & Hp & _ & _ & _ & Hpr).
  pose proof (hi_fnd _ _ H b) as Hnd. rewrite Hl in Hnd. apply NoDup_cons in Hnd as [Hal Hnd].
  exists (default 0 (words s !! a)). eexists. split; [done|]. unfold peek, mapped, set_mem. kx. rewrite Hp, Hpr.
  split; [done|]. split; [done|]. split; [|done].
  assert (Hsub : forall c x, x ∈ upd b l (fls v) c -> x ∈ fls v c).
  { intros c x. unfold upd. case_decide; [|done]. subst c. rewrite Hl. by right. }
  split; cbn [h_km set_buckets buckets words cps big rest mods fls ac]; try apply H.
  - rewrite length_alter. apply H.
  - apply (hi_b_set s v); auto. lia.
  - intros c x Hx%Hsub. by apply H.
  - intros c. unfold upd. case_decide; [done|apply H].
  - intros a' b' [[= -> ->]|Hac]%elem_of_cons.
    + split; [done|]. by rewrite upd_eq.
    + destruct (hi_ac _ _ H _ _ Hac) as [? Hn]. split; [done|]. intros Hx%Hsub. done.
  - simpl. constructor; [|apply H]. intros ([a' b'] & -> & Hac)%list_elem_of_fmap. simpl in *.
    destruct (hi_ac _ _ H _ _ Hac) as [Hc' Hn].
    assert (0 < 2 ^ b /\ 0 < 2 ^ b') as [? ?].
    { destruct (chunk_page _ _ _ _ H Hc') as (_&_&_&_&?&_). split; apply Z.pow_pos_nonneg; lia. }
    destruct (chunk_apart _ a' b a' b' a' (cps_nodup _ _ H)) as [_ Hbb]; auto; [|lia|lia|by subst b'].
    intros p' c Hpc. by apply (hi_cps _ _ H p' c).
Qed.

(** [kfree] of a chunk pushes it on the list of its bucket. *)
Lemma kfree_chunk_run s v a b ac1 ac2 :
  hinv s v -> ac v = ac1 ++ (a, b) :: ac2 ->
  exists s', kfree a s = Done (tt, s') /\
    hinv s' (HV (cps v) (big v) (rest v) (mods v) (upd b (a :: fls v b) (fls v)) (ac1 ++ ac2)) /\
    h_km s' = h_km s.
Proof.
  intros H Hac. assert ((a, b) ∈ ac v) as Hin by (rewrite Hac; apply elem_of_mid).
  destruct (hi_ac _ _ H _ _ Hin) as [Hc Hn].
  destruct (chunk_page _ _ _ _ H Hc) as (p & Hp & Hidx & Hl & Hb & Ha & Hpr).
  destruct (hi_cps _ _ H p b Hp) as [_ Hfw].
  unfold kfree. destruct (Z.eqb_spec a 0); [lia|]. kx.
  rewrite (get_frame_size_run s _ _ a b (hi_k _ _ H)); rewrite ?Hidx; [|done..].
  unfold PAGESHIFT. destruct (Z.leb_spec 12 b); [lia|].
  destruct (lookup_lt_is_Some_2 (buckets s) (Z.to_nat b)) as [bk Hbk]; [rewrite (hi_len _ _ H); lia|].
  rewrite Hbk. unfold poke, mapped, set_mem. kx. rewrite Hidx, Hpr. eexists. split; [done|]. split; [|done].
  destruct (hi_b _ _ H _ _ Hbk) as [Hs Hls]. rewrite Z2Nat.id in Hls by lia.
  assert (Hfree : forall c x, x ∈ upd b (a :: fls v b) (fls v) c -> (c = b /\ x = a) \/ x ∈ fls v c).
  { intros c x. unfold upd. case_decide as Hd; [|by right]. subst c. intros [->|?]%elem_of_cons; auto. }
  assert (Hsub : forall x, x ∈ ac1 ++ ac2 -> x ∈ ac v).
  { intros x. rewrite Hac. apply elem_of_mid_weaken. }
  pose proof (hi_and _ _ H) as Hnd. rewrite Hac, fmap_app, fmap_cons in Hnd.
  apply NoDup_app in Hnd as (Hn1 & Hd1 & Hn2). apply NoDup_cons in Hn2 as [Hn2 Hn3].
  assert (Ha12 : forall b', (a, b') ∉ ac1 ++ ac2).
  { intros b' [H1|H2]%elem_of_app.
    - apply (Hd1 a); [apply list_elem_of_fmap; by exists (a, b')|by left].
    - apply Hn2. apply list_elem_of_fmap. by exists (a, b'). }
  split; cbn [h_km set_buckets set_words buckets words cps big rest mods fls ac]; try apply H.
  - rewrite length_alter. apply H.
  - apply (hi_b_set s v); auto; [lia|apply lseg_push; auto; lia|].
    intros c x Hcb Hx. apply lookup_insert_ne. intros <-.
    destruct (chunk_apart _ a b a c a (cps_nodup _ _ H)) as [_ ?]; auto; try congruence.
    + intros p' c' Hpc. by apply (hi_cps _ _ H p' c').
    + by apply (hi_fl _ _ H).
    + assert (0 < 2 ^ b) by (apply Z.pow_pos_nonneg; lia). lia.
    + pose proof (hi_fl _ _ H _ _ Hx) as Hcx. destruct (chunk_page _ _ _ _ H Hcx) as (_&_&_&_&?&_).
      assert (0 < 2 ^ c) by (apply Z.pow_pos_nonneg; lia). lia.
  - intros c x [[-> ->]|Hx]%Hfree; [done|by apply H].
  - intros c. unfold upd. case_decide; [|apply H]. constructor; [done|apply H].
  - intros a' b' Hin'. destruct (hi_ac _ _ H _ _ (Hsub _ Hin')) as [? Hna]. split; [done|].
    intros [[-> ->]|Hx]%Hfree; [by apply (Ha12 b)|done].
  - rewrite fmap_app. apply NoDup_app. split_and!; auto. intros x Hx Hx2. apply (Hd1 x Hx). by right.
Qed.

(** [alloc_pages] seen from the heap: the frame entries of live pages stay. *)
Record heap_grown (s : kheap) (v : hview) (n p : Z) (k' : kmem) : Prop := {
  hg_inv : kinv k' ((Heap, (p, n)) :: hown v) (mods v);
  hg_view : view_outside p n (k_mmu (h_km s)) (k_mmu k');
  hg_words : forall q, q ∈ live_of (hown v) -> frame_word k' q = frame_word (h_km s) q;
}.

Lemma heap_alloc s v n t :
  hinv s v -> 0 < n < 2147483648 -> t <> FREE -> (rmap_alloc (osvmap (h_km s)) n).1 <> 0 ->
  (free_frames_left (h_km s) < 2 * n /\ alloc_pages n t (h_km s) = Panic "out of memory") \/
  exists p k', alloc_pages n t (h_km s) = Done (PTOB p, k') /\ heap_grown s v n p k'.
Proof.
  intros H Hn Ht Hp. pose proof (hi_k _ _ H) as Kh.
  destruct (rmap_alloc (osvmap (h_km s)) n) as [p m] eqn:E. simpl in Hp.
  destruct (alloc_pages_run (h_km s) _ _ n t p m Kh Hn Ht E Hp) as [?|(k' & E' & [K' Hv _ _ _ Hk] & _)]; [by left|right].
  exists p, k'. split; [done|]. split; auto. intros q Hq.
  apply (frame_word_keeps _ _ _ _ _ ∅ Kh); auto; [|set_solver]. apply Hv. intros Hr.
  apply (area_fresh _ _ _ _ _ _ _ _ (ki_os _ _ _ K') q); [by apply elem_of_pages|done].
Qed.

Lemma PTABIDX_PTOB p : 0 <= p < 1048576 -> PTABIDX (PTOB p) = p.
Proof. intros Hp. rewrite <- (BTOP_PTOB p) at 2 by done. done. Qed.

(** A block of more than half a page. *)
Lemma kmalloc_big_run s v sz t :
  hinv s v -> 2048 < sz < 2147483648 -> t <> FREE -> (rmap_alloc (osvmap (h_km s)) (PAGES sz)).1 <> 0 ->
  (free_frames_left (h_km s) < 2 * PAGES sz /\ kmalloc_tag sz t s = Panic "out of memory") \/
  exists p s', kmalloc_tag sz t s = Done (PTOB p, s') /\
    hinv s' (HV (cps v) ((p, PAGES sz) :: big v) (rest v) (mods v) (fls v) (ac v)).
Proof.
  intros H Hsz Ht Hp. destruct (PAGES_range 0 sz) as (Hn & _); [unfold io_range, W32; lia|lia|].
  set (n := PAGES sz) in *. unfold kmalloc_tag. change (PAGESIZE / 2) with 2048.
  destruct (Z.ltb_spec 2048 sz); [|lia]. fold n. unfold with_km. kx.
  destruct (heap_alloc s v n (if t =? 0 then ALOC else t) H ltac:(lia)) as [[Hfm ->]|(p & k' & E & [K' Hv Hfw])]; auto.
  { by destruct (t =? 0). }
  right. rewrite E.
  destruct (own_bounds _ _ _ p n K' ltac:(by left)) as (Hp0 & _ & Hp1 & Hpl).
  set (s1 := set_km k' s). assert (PTABIDX (PTOB p) = p) as Hidx by (apply PTABIDX_PTOB; lia).
  destruct (set_frame_size_run s1 _ _ (PTOB p) (n + PAGESHIFT) K') as (s2 & E2 & K2 & Hb2 & Hw2 & _ & Hfp & Hfo).
  { rewrite Hidx. apply Hpl. lia. }
  rewrite Hidx in *. fold s1. rewrite E2.
  exists p, s2. split; [done|].
  pose proof (area_fresh _ _ _ _ _ _ _ _ (ki_os _ _ _ K')) as Hfresh.
  assert (Hold : forall q, q ∈ live_of (hown v) -> frame_word (h_km s2) q = frame_word (h_km s) q).
  { intros q Hq. rewrite Hfo; [by apply Hfw| |].
    - simpl. apply elem_of_union. by right.
    - intros ->. apply (Hfresh p); [apply elem_of_pages; lia|done]. }
  assert (Hperm : hown (HV (cps v) ((p, n) :: big v) (rest v) (mods v) (fls v) (ac v)) ≡ₚ (Heap, (p, n)) :: hown v).
  { unfold hown. cbn [cps big rest]. rewrite fmap_cons. solve_Permutation. }
  split; cbn [cps big rest mods fls ac]; rewrite ?Hb2, ?Hw2; try apply H.
  - by rewrite Hperm.
  - intros q b Hin. destruct (hi_cps _ _ H q b Hin) as [? <-]. split; [done|]. apply Hold.
    destruct (own_bounds _ _ _ _ _ (hi_k _ _ H) (hown_cps _ _ _ Hin)) as (_&_&_&Hq). apply Hq. lia.
  - intros q m [[= -> ->]|Hin]%elem_of_cons; [done|]. rewrite <- (hi_big _ _ H q m Hin). apply Hold.
    destruct (own_bounds _ _ _ _ _ (hi_k _ _ H) (hown_big _ _ _ Hin)) as (_&?&_&Hq). apply Hq. lia.
Qed.

Lemma kfree_big_run s v p n big1 big2 :
  hinv s v -> big v = big1 ++ (p, n) :: big2 ->
  exists s', kfree (PTOB p) s = Done (tt, s') /\
    hinv s' (HV (cps v) (big1 ++ big2) (rest v) (mods v) (fls v) (ac v)) /\
    free_frames_left (h_km s') = free_frames_left (h_km s) + n.
Proof.
  intros H Hbig. pose proof (hi_k _ _ H) as Kh.
  assert ((p, n) ∈ big v) as Hin by (rewrite Hbig; apply elem_of_mid).
  destruct (own_bounds _ _ _ _ _ Kh (hown_big _ _ _ Hin)) as (Hp0 & Hn0 & Hp1 & Hl).
  assert (PTABIDX (PTOB p) = p) as Hidx by (apply PTABIDX_PTOB; lia).
  unfold kfree. destruct (Z.eqb_spec (PTOB p) 0) as [Hz|].
  { rewrite Hz in Hidx. change (PTABIDX 0) with 0 in Hidx. lia. }
  kx. rewrite (get_frame_size_run s _ _ (PTOB p) (n + 12) Kh); rewrite ?Hidx;
    [|apply Hl; lia|by apply (hi_big _ _ H)].
  unfold PAGESHIFT. destruct (Z.leb_spec 12 (n + 12)); [|lia]. replace (n + 12 - 12) with n by lia.
  set (v' := HV (cps v) (big1 ++ big2) (rest v) (mods v) (fls v) (ac v)).
  assert (Hperm : hown v ≡ₚ (Heap, (p, n)) :: hown v').
  { unfold hown, v'. cbn [cps big rest]. rewrite Hbig, !fmap_app, fmap_cons. solve_Permutation. }
  assert (K1 : kinv (h_km s) ((Heap, (p, n)) :: hown v') (mods v)) by (by rewrite <- Hperm).
  destruct (free_pages_run (h_km s) [] p n (hown v') (mods v) K1) as (k' & E & K' & Hv & _ & Hfm & _ & Hk).
  unfold with_km. kx. rewrite E. eexists. split; [done|]. split; [|done].
  pose proof (area_fresh _ _ _ _ _ _ _ _ (ki_os _ _ _ K1)) as Hfresh.
  assert (Hold : forall q, q ∈ live_of (hown v') -> frame_word k' q = frame_word (h_km s) q).
  { intros q Hq. assert (~ (p <= q < p + n)) as Hnr.
    { intros Hr. apply (Hfresh q); [by apply elem_of_pages|done]. }
    assert (Hlive : forall r, r ∈ live_of (hown v') -> r ∈ live_of (hown v)).
    { intros r Hr. rewrite (live_of_perm _ _ Hperm). simpl. apply elem_of_union. by right. }
    apply (frame_word_keeps _ _ _ _ _ _ Kh (Hlive q Hq) (Hv q Hnr) Hk).
    intros (r & Hr & Heq)%elem_of_page_frames. revert Heq.
    apply (owns_frames_apart _ _ _ _ (ki_owns _ _ _ Kh)); [by apply elem_of_union_l, Hlive|by apply elem_of_union_l, Hl|].
    intros ->. done. }
  split; cbn [h_km set_km buckets words v' cps big rest mods fls ac]; try apply H; [exact K'|..].
  - intros q b Hq. destruct (hi_cps _ _ H q b Hq) as [? <-]. split; [done|]. apply Hold.
    destruct (own_bounds _ _ _ q 1 K' (hown_cps v' _ _ Hq)) as (_&_&_&Hql). apply Hql. lia.
  - intros q m Hq. rewrite <- (hi_big _ _ H q m); [|rewrite Hbig; by apply elem_of_mid_weaken]. apply Hold.
    destruct (own_bounds _ _ _ q m K' (hown_big v' _ _ Hq)) as (_&?&_&Hql). apply Hql. lia.
Qed.

Definition page_chunks (p b : Z) : list Z := reverse (addrs (4096 * p) (2 ^ b) (Z.to_nat (2 ^ (12 - b)))).

Lemma page_size_split b : 4 <= b <= 11 -> Z.of_nat (Z.to_nat (2 ^ (12 - b))) * 2 ^ b = 4096.
Proof.
  intros Hb. rewrite Z2Nat.id by (apply Z.pow_nonneg; lia). rewrite <- Z.pow_add_r by lia.
  by replace (12 - b + b) with 12 by lia.
Qed.

Lemma page_chunks_chunk p b cs a : 4 <= b <= 11 -> a ∈ page_chunks p b -> chunk ((p, b) :: cs) a b.
Proof.
  intros Hb. unfold page_chunks. rewrite elem_of_reverse.
  intros (k & Hk & ->)%elem_of_addrs. pose proof (page_size_split b Hb) as Hs.
  assert (0 < 2 ^ b) by (apply Z.pow_pos_nonneg; lia).
  exists p. split_and!; [by left|nia|nia|].
  replace (4096 * p + Z.of_nat k * 2 ^ b) with ((2 ^ (12 - b) * p + Z.of_nat k) * 2 ^ b); [apply Z.mod_mul; lia|].
  rewrite <- Hs, Z2Nat.id by (apply Z.pow_nonneg; lia). ring.
Qed.

Lemma chunk_weaken c cs a b : chunk cs a b -> chunk (c :: cs) a b.
Proof. intros (p & Hp & H). exists p. split; [by right|done]. Qed.

(** The heap with page [p] split into chunks for bucket [b]. *)
Lemma hinv_grow s v b p k w b1 :
  hinv s v -> 4 <= b <= 11 -> kinv k ((Heap, (p, 1)) :: hown v) (mods v) ->
  frame_word k p = Some b ->
  (forall q, q ∈ live_of (hown v) -> q <> p -> frame_word k q = frame_word (h_km s) q) ->
  b_size b1 = 2 ^ b -> lseg w (b_mem b1) (page_chunks p b) ->
  (forall a, ~ (4096 * p <= a < 4096 * (p + 1)) -> w !! a = words s !! a) ->
  hinv (Kheap k (<[Z.to_nat b := b1]> (buckets s)) w)
    (HV ((p, b) :: cps v) (big v) (rest v) (mods v) (upd b (page_chunks p b) (fls v)) (ac v)).
Proof.
  intros H Hb K Hfp Hold0 Hs1 Hl1 Hw. assert (0 < 2 ^ b) as Hd by (apply Z.pow_pos_nonneg; lia).
  pose proof (area_fresh _ _ _ _ _ _ _ _ (ki_os _ _ _ K)) as Hfresh.
  assert (Hpn : p ∉ live_of (hown v)) by (intros Hq; apply (Hfresh p); [apply elem_of_pages; lia|done]).
  assert (Hold : forall q, q ∈ live_of (hown v) -> frame_word k q = frame_word (h_km s) q).
  { intros q Hq. apply Hold0; [done|]. by intros ->. }
  assert (Hout : forall c y, chunk (cps v) y c -> ~ (4096 * p <= y < 4096 * (p + 1))).
  { intros c y Hy Hr. destruct (chunk_page _ _ _ _ H Hy) as (q & _ & Hq & Hql & _).
    apply Hpn. replace p with q; [done|]. rewrite <- Hq, PTABIDX_div. symmetry.
    apply (Z.div_unique _ _ _ (y - 4096 * p)); lia. }
  split; cbn [h_km buckets words cps big rest mods fls ac]; try apply H.
  - exact K.
  - rewrite length_insert. apply H.
  - intros c ck Hc. destruct (decide (c = Z.to_nat b)) as [->|Hne].
    + rewrite list_lookup_insert_eq in Hc by (rewrite (hi_len _ _ H); lia).
      injection Hc as <-. rewrite Z2Nat.id, upd_eq by lia. done.
    + rewrite list_lookup_insert_ne in Hc by done.
      destruct (hi_b _ _ H _ _ Hc) as [? Hlc]. split; [done|]. rewrite upd_ne by lia.
      eapply lseg_ext; [|exact Hlc]. intros y Hy. apply Hw. by eapply Hout, (hi_fl _ _ H).
  - intros q c [[= -> ->]|Hin]%elem_of_cons; [done|].
    destruct (hi_cps _ _ H q c Hin) as [? <-]. split; [done|]. apply Hold.
    destruct (own_bounds _ _ _ _ _ (hi_k _ _ H) (hown_cps _ _ _ Hin)) as (_&_&_&Hq). apply Hq. lia.
  - intros q m Hin. rewrite <- (hi_big _ _ H q m Hin). apply Hold.
    destruct (own_bounds _ _ _ _ _ (hi_k _ _ H) (hown_big _ _ _ Hin)) as (_&?&_&Hq). apply Hq. lia.
  - intros c y. unfold upd. case_decide as Hdc; [subst c; by apply page_chunks_chunk|].
    intros Hy. apply chunk_weaken. by apply (hi_fl _ _ H).
  - intros c. unfold upd. case_decide; [|apply H]. unfold page_chunks. rewrite reverse_Permutation. by apply NoDup_addrs.
  - intros a c Hin. destruct (hi_ac _ _ H _ _ Hin) as [Hc Hn]. split; [by apply chunk_weaken|].
    unfold upd. case_decide as Hdc; [|done]. subst c.
    intros (q & [[= ->]|Hq]%elem_of_cons & H1 & H2 & _)%(page_chunks_chunk p b []); [|by apply elem_of_nil in Hq|done].
    apply (Hout b a Hc). lia.
Qed.

Lemma alter_insert_eq {A} (f : A -> A) i x (l : list A) : alter f i (<[i := x]> l) = <[i := f x]> l.
Proof.
  apply list_eq. intros j. destruct (decide (j = i)) as [->|].
  - rewrite list_lookup_alter_eq, !list_lookup_insert. by case_decide as Hd; [|destruct (l !! i) eqn:E; [|done];
      apply lookup_lt_Some in E; tauto].
  - by rewrite list_lookup_alter_ne, !list_lookup_insert_ne.
Qed.

Lemma grow_bucket_run s v b :
  hinv s v -> 4 <= b <= 11 -> fls v b = [] -> (rmap_alloc (osvmap (h_km s)) 1).1 <> 0 ->
  (free_frames_left (h_km s) < 2 /\ grow_bucket (Z.to_nat b) s = Panic "out of memory") \/
  exists p s', grow_bucket (Z.to_nat b) s = Done (tt, s') /\
    hinv s' (HV ((p, b) :: cps v) (big v) (rest v) (mods v) (upd b (page_chunks p b) (fls v)) (ac v)).
Proof.
  intros H Hb Hfl Hx. assert (0 < 2 ^ b) as Hd by (apply Z.pow_pos_nonneg; lia).
  unfold grow_bucket, with_km. kx.
  destruct (heap_alloc s v 1 HEAP H ltac:(lia) ltac:(done) Hx) as [[Hfm ->]|(p & k' & E & [K' Hv Hfw])]; [left; split; [lia|done]|].
  right. rewrite E.
  destruct (own_bounds _ _ _ p 1 K' ltac:(by left)) as (Hp0 & _ & Hp1 & Hpl). specialize (Hpl p ltac:(lia)).
  set (s1 := set_km k' s). assert (PTABIDX (PTOB p) = p) as Hidx by (apply PTABIDX_PTOB; lia).
  destruct (set_frame_size_run s1 _ _ (PTOB p) b K') as (s2 & E2 & K2 & Hb2 & Hw2 & [Hv2 _ _] & Hfp & Hfo);
    [by rewrite Hidx|]. rewrite Hidx in *.
  destruct (lookup_lt_is_Some_2 (buckets s) (Z.to_nat b)) as [bk Hbk]; [rewrite (hi_len _ _ H); lia|].
  destruct (hi_b _ _ H _ _ Hbk) as [Hsz Hls]. rewrite Z2Nat.id in * by lia. rewrite Hfl in Hls.
  assert (PTOB p = 4096 * p) as Hpa by (rewrite PTOB_small, Z.shiftl_mul_pow2 by lia; lia).
  pose proof (page_size_split b Hb) as Hm.
  destruct (split_page_spec (Z.to_nat b) b p Hb ltac:(lia) (Z.to_nat (2 ^ (12 - b))) (Z.to_nat PAGESIZE) s2 0 bk [])
    as (s3 & b1 & E3 & Hk3 & Hb3 & Hs3 & Hl3 & Hw3); rewrite ?Hb2, ?Hw2; auto; try lia.
  { unfold PAGESIZE. nia. }
  { destruct (ki_owns _ _ _ K2) as [fl O]. apply (ow_present _ _ _ _ O). apply elem_of_union_l. exact Hpl. }
  { intros y Hy. by apply elem_of_nil in Hy. }
  fold s1. rewrite E2.
  rewrite Hpa, E3. exists p. eexists. split; [done|].
  rewrite Z.add_0_r in *. rewrite app_nil_r in Hl3. unfold set_buckets. rewrite Hb3, Hb2, Hk3, alter_insert_eq.
  apply (hinv_grow s); auto.
  - intros q Hq Hne. rewrite Hfo; [by apply Hfw| |done]. simpl. apply elem_of_union. by right.
  - intros a Ha. by rewrite Hw3, Hw2.
Qed.

(** A block of up to half a page. *)
Lemma kmalloc_small_run s v sz t :
  hinv s v -> 1 <= sz <= 2048 ->
  (forall b, BUCKET sz = Some b -> fls v b = [] -> (rmap_alloc (osvmap (h_km s)) 1).1 <> 0) ->
  (free_frames_left (h_km s) < 2 /\ kmalloc_tag sz t s = Panic "out of memory") \/
  exists a b s' v', kmalloc_tag sz t s = Done (a, s') /\ hinv s' v' /\ BUCKET sz = Some b /\ sz <= 2 ^ b /\
    ac v' = (a, b) :: ac v /\ big v' = big v /\ rest v' = rest v /\ mods v' = mods v.
Proof.
  intros H Hsz Hx. destruct (BUCKET_spec sz Hsz) as (b & Hbu & Hb & Hle & _).
  unfold kmalloc_tag. change (PAGESIZE / 2) with 2048. destruct (Z.ltb_spec 2048 sz); [lia|]. kx. rewrite Hbu.
  destruct (lookup_lt_is_Some_2 (buckets s) (Z.to_nat b)) as [bk Hbk]; [rewrite (hi_len _ _ H); lia|].
  rewrite Hbk. destruct (hi_b _ _ H _ _ Hbk) as [_ Hls]. rewrite Z2Nat.id in Hls by lia.
  assert ((free_frames_left (h_km s) < 2 /\
      (if b_mem bk =? 0 then grow_bucket (Z.to_nat b) else fun s => Done (tt, s)) s = Panic "out of memory") \/
    exists s1 v1 a l, (if b_mem bk =? 0 then grow_bucket (Z.to_nat b) else fun s => Done (tt, s)) s = Done (tt, s1) /\
    hinv s1 v1 /\ fls v1 b = a :: l /\ ac v1 = ac v /\ big v1 = big v /\ rest v1 = rest v /\ mods v1 = mods v)
    as [[Hfm ->]|(s1 & v1 & a & l & -> & H1 & Hfl & Hac & Hbig & Hrest & Hmods)]; [|by left|right].
  { destruct (fls v b) as [|a l] eqn:Hfl; simpl in Hls.
    - rewrite Hls, Z.eqb_refl. destruct (grow_bucket_run s v b H Hb Hfl (Hx b Hbu Hfl)) as [?|(p & s1 & -> & H1)];
        [by left|right]. assert (exists a l, page_chunks p b = a :: l) as (a & l & Hpc).
      { pose proof (page_size_split b Hb). destruct (page_chunks p b) as [|a l] eqn:Hpc; [|eauto].
        assert (4096 * p ∈ page_chunks p b) as Hin.
        { unfold page_chunks. apply elem_of_reverse, elem_of_addrs. exists 0%nat. split; lia. }
        rewrite Hpc in Hin. by apply elem_of_nil in Hin. }
      eexists s1, _, a, l. split; [done|]. split; [exact H1|]. simpl. rewrite upd_eq. done.
    - right. destruct Hls as (-> & Ha & _). destruct (Z.eqb_spec a 0); [done|]. by exists s, v, a, l. }
  destruct (lookup_lt_is_Some_2 (buckets s1) (Z.to_nat b)) as [bk1 Hbk1]; [rewrite (hi_len _ _ H1); lia|].
  rewrite Hbk1. destruct (pop_run s1 v1 b bk1 a l H1 ltac:(lia) Hfl Hbk1) as (nx & s2 & -> & -> & -> & H2 & _).
  eexists a, b, s2, _. split; [done|]. split; [exact H2|]. simpl. rewrite Hac. by split_and!.
Qed.

Definition set_b_size (i : nat) (b : bucket) : bucket :=
  Bucket (b_mem b) (b_elems b) (b_pages b) (Z.shiftl 1 (Z.of_nat i)).

Lemma init_malloc_loop n : forall i s,
  kfor n i (fun i => kmod (fun s => set_buckets (alter (set_b_size i) i (buckets s)) s)) s =
  Done (tt, set_buckets (foldl (fun l j => alter (set_b_size j) j l) (buckets s) (seq i n)) s).
Proof. induction n as [|n IH]; intros i s; cbn [kfor]; [by destruct s|]. kx. by rewrite IH. Qed.

Lemma init_malloc_run s own ms :
  kinv (h_km s) own ms -> buckets s = replicate 12 (Bucket 0 0 0 0) ->
  exists s', init_malloc s = Done (tt, s') /\ h_km s' = h_km s /\
    hinv s' (HV [] [] own ms (fun _ => []) []).
Proof.
  intros K Hb. eexists. split; [exact (init_malloc_loop _ 0 s)|]. split; [done|]. rewrite Hb.
  assert (foldl (fun l j => alter (set_b_size j) j l) (replicate 12 (Bucket 0 0 0 0)) (seq 0 (Z.to_nat PAGESHIFT)) =
    (fun i => Bucket 0 0 0 (2 ^ Z.of_nat i)) <$> seq 0 12) as Hbs by reflexivity.
  rewrite Hbs. split; cbn [h_km set_buckets buckets words cps big rest mods fls ac].
  - exact K.
  - by rewrite length_fmap, length_seq.
  - intros b bk. rewrite list_lookup_fmap. intros (j & Hj & ->)%fmap_Some. apply lookup_seq in Hj as [-> _]. done.
  - intros p b H. by apply elem_of_nil in H.
  - intros p b H. by apply elem_of_nil in H.
  - intros p b H. by apply elem_of_nil in H.
  - intros b. constructor.
  - intros a b H. by apply elem_of_nil in H.
  - constructor.
Qed.

(** ** Writes to blocks in use *)

Definition in_block (v : hview) (x : Z) : Prop :=
  (exists a b, (a, b) ∈ ac v /\ a <= x < a + 2 ^ b) \/
  (exists p n, (p, n) ∈ big v /\ 4096 * p <= x < 4096 * (p + n)).

(** A page is not both split into chunks and part of a larger block. *)
Lemma cps_big_apart s v p b q n :
  hinv s v -> (p, b) ∈ cps v -> (q, n) ∈ big v -> ~ (q <= p < q + n).
Proof.
  intros H Hp Hq Hr. pose proof (ki_os _ _ _ (hi_k _ _ H)) as A.
  apply list_elem_of_split in Hp as (l1 & l2 & Hc). unfold hown in A. rewrite Hc, fmap_app, fmap_cons, <- app_assoc in A.
  simpl in A. apply (area_apart _ _ _ _ _ _ Heap p 1 Heap q n p A); [|lia|done].
  apply elem_of_app. right. apply elem_of_app. right. apply elem_of_app. left.
  apply list_elem_of_fmap. by exists (q, n).
Qed.

Lemma in_block_not_free s v x c y : hinv s v -> in_block v x -> y ∈ fls v c -> x <> y.
Proof.
  intros H Hx Hy ->. pose proof (hi_fl _ _ H _ _ Hy) as Hc.
  destruct (chunk_page _ _ _ _ H Hc) as (p & Hp & Hidx & _ & Hb & _).
  assert (0 < 2 ^ c) by (apply Z.pow_pos_nonneg; lia).
  destruct Hx as [(a & b & Hab & Hr)|(q & n & Hq & Hr)].
  - destruct (hi_ac _ _ H _ _ Hab) as [Hca Hna].
    destruct (chunk_apart _ a b y c y (cps_nodup _ _ H)) as [-> ->]; auto; [|lia].
    intros p' c' Hpc. by apply (hi_cps _ _ H p' c').
  - apply (cps_big_apart _ _ _ _ _ _ H Hp Hq). rewrite <- Hidx, PTABIDX_div.
    split; [apply Z.div_le_lower_bound; lia|apply Z.div_lt_upper_bound; lia].
Qed.

Lemma poke_block_run s v x val s' :
  hinv s v -> in_block v x -> poke x val s = Done (tt, s') -> hinv s' v.
Proof.
  intros H Hx. unfold poke. destruct (mapped s x); [|done]. intros [= <-].
  split; cbn [h_km set_words buckets words]; try apply H.
  intros b bk Hb. destruct (hi_b _ _ H _ _ Hb) as [? Hl]. split; [done|].
  eapply lseg_ext; [|exact Hl]. intros y Hy. apply lookup_insert_ne.
  by eapply in_block_not_free.
Qed.

(** ** The heap without free addresses

    [alloc_pages] then returns 0, and what [kmalloc] returns lies in page 0. *)

Lemma split_page_top bk p fuel : forall i s s',
  0 <= i < PAGESIZE -> (forall b, buckets s !! bk = Some b -> 0 < b_size b) ->
  split_page fuel bk p i s = Done (tt, s') ->
  exists b j, buckets s' !! bk = Some b /\ b_mem b = u32 (p + j) /\ 0 <= j < PAGESIZE.
Proof.
  induction fuel as [|fuel IH]; intros i s s' Hi Hb; cbn [split_page];
    (destruct (Z.ltb_spec i PAGESIZE); [|lia]); [done|].
  kx. destruct (buckets s !! bk) as [b|] eqn:E; [|done]. unfold poke, set_mem. kx.
  destruct (mapped s _); [|done]. set (s1 := set_buckets _ _). pose proof (Hb b eq_refl).
  assert (Hb1 : buckets s1 !! bk = Some (set_b_mem (u32 (p + i)) b)) by (simpl; by rewrite list_lookup_alter_eq, E).
  destruct (Z.ltb_spec (i + b_size b) PAGESIZE).
  - apply IH; [lia|]. rewrite Hb1. by intros ? [= <-].
  - intros E'. assert (s' = s1) as ->.
    { destruct fuel; cbn [split_page] in E'; (destruct (Z.ltb_spec (i + b_size b) PAGESIZE); [lia|]); by injection E'. }
    by exists (set_b_mem (u32 (p + i)) b), i.
Qed.

Lemma alloc_pages_result n t k a k' :
  0 < n < 2147483648 -> alloc_pages n t k = Done (a, k') -> a = PTOB (rmap_alloc (osvmap k) n).1.
Proof.
  intros Hn (idx & k1 & E & ->)%heap_result. unfold osv_alloc in E. rewrite u32_small in E by u32_lia.
  destruct (rmap_alloc (osvmap k) n). by injection E as <- _.
Qed.

Lemma grow_bucket_low s v b s' :
  hinv s v -> 4 <= b <= 11 -> (rmap_alloc (osvmap (h_km s)) 1).1 = 0 -> grow_bucket (Z.to_nat b) s = Done (tt, s') ->
  exists bk, buckets s' !! Z.to_nat b = Some bk /\ 0 <= b_mem bk < PAGESIZE.
Proof.
  intros H Hb Hx. unfold grow_bucket. intros (a & s1 & E1 & (? & s2 & E2 & (? & s3 & E3 & E)%kbind_inv)%kbind_inv)%kbind_inv.
  unfold with_km, kzoom in E1. destruct (alloc_pages 1 HEAP (h_km s)) as [[a' k]| | |] eqn:Ea; [|done..].
  injection E1 as -> <-. apply alloc_pages_result in Ea as ->; [|lia]. rewrite Hx in *.
  assert (buckets s2 = buckets s) as Hbs.
  { unfold set_frame_size, with_km, kzoom in E2. apply kbind_inv in E2 as (pa & s4 & E4 & E2).
    destruct (with_mmu _ _) as [[]| | |]; [|done..]. injection E4 as _ <-. revert E2. kx.
    destruct (_ !! _); [|done]. destruct (with_mmu _ _) as [[]| | |]; [|done..]. by intros [= _ <-]. }
  destruct (split_page_top (Z.to_nat b) (PTOB 0) (Z.to_nat PAGESIZE) 0 s2 s3) as (bk & j & Hbk & Hm & Hj);
    [unfold PAGESIZE; lia| |by destruct x0|].
  - rewrite Hbs. intros bk Hbk. destruct (hi_b _ _ H _ _ Hbk) as [-> _]. apply Z.pow_pos_nonneg; lia.
  - injection E as <-. simpl. rewrite list_lookup_alter_eq, Hbk. eexists. split; [done|]. simpl. rewrite Hm.
    change (PTOB 0) with 0. rewrite u32_small by (unfold PAGESIZE in *; u32_lia). lia.
Qed.

(** A block outside of page 0 was not allocated that way. *)
Lemma kmalloc_small_high s v sz t b a s' :
  hinv s v -> sz <= 2048 -> BUCKET sz = Some b -> kmalloc_tag sz t s = Done (a, s') -> 4096 <= a ->
  fls v b = [] -> (rmap_alloc (osvmap (h_km s)) 1).1 <> 0.
Proof.
  intros H Hsz Hbu E Ha Hfl Hx.
  assert (1 <= sz) as Hsz1 by (revert Hbu; unfold BUCKET; by destruct (Z.leb_spec 1 sz)).
  destruct (BUCKET_spec sz ltac:(lia)) as (b' & Hbu' & Hb & _). assert (b' = b) as -> by congruence.
  revert E. unfold kmalloc_tag. change (PAGESIZE / 2) with 2048. destruct (Z.ltb_spec 2048 sz); [lia|]. kx. rewrite Hbu.
  destruct (lookup_lt_is_Some_2 (buckets s) (Z.to_nat b)) as [bk Hbk]; [rewrite (hi_len _ _ H); lia|].
  rewrite Hbk. destruct (hi_b _ _ H _ _ Hbk) as [_ Hls]. rewrite Z2Nat.id, Hfl in Hls by lia. simpl in Hls.
  rewrite Hls, Z.eqb_refl. destruct (grow_bucket (Z.to_nat b) s) as [[[] s1]| | |] eqn:Eg; [|done..].
  destruct (grow_bucket_low s v b s1 H Hb Hx Eg) as (bk1 & Hbk1 & Hm). rewrite Hbk1.
  unfold peek. destruct (mapped s1 _); [|done]. intros [= <- _]. unfold PAGESIZE in *. lia.
Qed.

Lemma kmalloc_big_high s sz t a s' :
  2048 < sz < 2147483648 -> kmalloc_tag sz t s = Done (a, s') -> 4096 <= a ->
  (rmap_alloc (osvmap (h_km s)) (PAGES sz)).1 <> 0.
Proof.
  intros Hsz E Ha Hx. destruct (PAGES_range 0 sz) as (Hn & _); [unfold io_range, W32; lia|lia|].
  revert E. unfold kmalloc_tag. change (PAGESIZE / 2) with 2048. destruct (Z.ltb_spec 2048 sz); [|lia].
  intros (a' & s1 & E1 & (? & s2 & _ & E2)%kbind_inv)%kbind_inv. injection E2 as -> _.
  unfold with_km, kzoom in E1. destruct (alloc_pages _ _ _) as [[a' k]| | |] eqn:Ea; [|done..].
  injection E1 as -> _. apply alloc_pages_result in Ea; [|lia]. rewrite Hx in Ea. change (PTOB 0) with 0 in Ea. lia.
Qed.

(** ** Sequences of operations

    A [kmalloc] that returns a block is a step; one that runs out of page
    frames does not return, and one that runs out of addresses gives a block
    of page 0 and ends the sequence. *)

Record hworld := HW { hw : kheap; hw_ac : list (Z * Z); hw_big : list (Z * Z) }.

Inductive hstep : hworld -> hworld -> Prop :=
| hs_small s ac big sz t b a s' :
    sz <= 2048 -> BUCKET sz = Some b -> kmalloc_tag sz t s = Done (a, s') -> 4096 <= a ->
    hstep (HW s ac big) (HW s' ((a, b) :: ac) big)
| hs_big s ac big sz t a s' :
    2048 < sz < 2147483648 -> t <> FREE -> kmalloc_tag sz t s = Done (a, s') -> 4096 <= a ->
    hstep (HW s ac big) (HW s' ac ((BTOP a, PAGES sz) :: big))
| hs_free_small s ac1 a b ac2 big s' :
    kfree a s = Done (tt, s') ->
    hstep (HW s (ac1 ++ (a, b) :: ac2) big) (HW s' (ac1 ++ ac2) big)
| hs_free_big s ac big1 p n big2 s' :
    kfree (PTOB p) s = Done (tt, s') ->
    hstep (HW s ac (big1 ++ (p, n) :: big2)) (HW s' ac (big1 ++ big2))
| hs_write s ac big x val s' :
    in_block (HV [] big [] [] (fun _ => []) ac) x -> poke x val s = Done (tt, s') ->
    hstep (HW s ac big) (HW s' ac big).

Definition hw_inv (w : hworld) : Prop := exists v, hinv (hw w) v /\ ac v = hw_ac w /\ big v = hw_big w.

Lemma hstep_inv w w' : hstep w w' -> hw_inv w -> hw_inv w'.
Proof.
  intros Hst (v & H & Ha & Hb). destruct Hst; simpl in *.
  - assert (1 <= sz) as Hsz1 by (pose proof H1 as Hbu; revert Hbu; unfold BUCKET; by destruct (Z.leb_spec 1 sz)).
    destruct (kmalloc_small_run s v sz t H) as [[_ E]|(a' & b' & s2 & v' & E & H' & Hbu & _ & Hac & Hbig & _)];
      [lia| |congruence|]. { intros b' Hb'. assert (b' = b) as -> by congruence. by eapply kmalloc_small_high. }
    exists v'. simpl. assert (a' = a /\ s2 = s' /\ b' = b) as (-> & -> & ->) by (split_and!; congruence).
    by rewrite Hac, Ha, Hbig, Hb.
  - destruct (kmalloc_big_run s v sz t H) as [[_ E]|(p & s2 & E & H')]; auto; [by eapply kmalloc_big_high|congruence|].
    assert (a = PTOB p /\ s2 = s') as [-> ->] by (split; congruence). eexists. split; [exact H'|]. simpl.
    destruct (own_bounds _ _ _ p (PAGES sz) (hi_k _ _ H') ltac:(by apply hown_big; left)) as (?&?&?&_).
    by rewrite BTOP_PTOB, Hb by lia.
  - destruct (kfree_chunk_run s v a b ac1 ac2 H Ha) as (s2 & E & H' & _).
    assert (s2 = s') as -> by congruence. by eexists.
  - destruct (kfree_big_run s v p n big1 big2 H Hb) as (s2 & E & H' & _).
    assert (s2 = s') as -> by congruence. by eexists.
  - exists v. split_and!; auto. eapply poke_block_run; [exact H| |done].
    unfold in_block in *. simpl in *. by rewrite Ha, Hb.
Qed.

(** ** Properties *)

(** The bytes of the blocks in use, as start and length. *)
Definition small_bytes (c : Z * Z) : Z * Z := (c.1, 2 ^ c.2).
Definition big_bytes (c : Z * Z) : Z * Z := (4096 * c.1, 4096 * c.2).
Definition blocks (w : hworld) : list (Z * Z) :=
  (small_bytes <$> hw_ac w) ++ (big_bytes <$> hw_big w).

Lemma all_disjoint_join l1 l2 :
  all_disjoint l1 -> all_disjoint l2 -> (forall a b, a ∈ l1 -> b ∈ l2 -> disjoint a b) ->
  all_disjoint (l1 ++ l2).
Proof.
  induction l1 as [|a l1 IH]; simpl; [done|]. intros [Ha H1] H2 Hx. split.
  - intros b [Hb|Hb]%elem_of_app; [by apply Ha|]. apply Hx; [by left|done].
  - apply IH; auto. intros x y Hx' Hy. apply Hx; [by right|done].
Qed.

Lemma small_disjoint s v l :
  hinv s v -> (forall c, c ∈ l -> c ∈ ac v) -> NoDup l.*1 -> all_disjoint (small_bytes <$> l).
Proof.
  intros H Hsub. induction l as [|[a b] l IH]; simpl; [done|]. intros [Hn Hnd]%NoDup_cons.
  split; [|apply IH; [|done]; intros c Hc; apply Hsub; by right].
  intros y ([a' b'] & -> & Hin)%list_elem_of_fmap x Hx Hx'. unfold In_range, small_bytes in *. simpl in *.
  destruct (hi_ac _ _ H a b (Hsub _ ltac:(by left))) as [Hc _].
  destruct (hi_ac _ _ H a' b' (Hsub _ ltac:(by right))) as [Hc' _].
  destruct (chunk_apart _ a b a' b' x (cps_nodup _ _ H)) as [-> ->]; auto.
  - intros p c Hpc. by apply (hi_cps _ _ H p c).
  - apply Hn. apply list_elem_of_fmap. by exists (a', b').
Qed.

Lemma big_disjoint s v : hinv s v -> all_disjoint (big_bytes <$> big v).
Proof.
  intros H. pose proof (pi_disj _ _ _ (ki_os _ _ _ (hi_k _ _ H))) as Hd. simpl in Hd. unfold hown in Hd.
  rewrite !fmap_app in Hd. revert Hd. generalize ((fun c : Z * Z => (Heap, (c.1, 1))) <$> cps v). intros cs Hd.
  assert (all_disjoint (big v)) as Hb.
  { clear H. induction cs as [|c cs IH]; simpl in Hd; [|by apply IH, Hd].
    revert Hd. generalize ((rest v).*2). intros r. induction (big v) as [|p bs IH]; simpl; [done|].
    intros [Hp Hd]. split; [|by apply IH]. intros q Hq. apply Hp. apply elem_of_app. left.
    apply list_elem_of_fmap. exists (Heap, q). split; [done|]. apply list_elem_of_fmap. by exists q. }
  clear Hd cs. induction (big v) as [|[p n] bs IH]; simpl; [done|]. destruct Hb as [Hp Hb]. split; [|by apply IH].
  intros y ([q m] & -> & Hin)%list_elem_of_fmap x Hx Hx'. unfold In_range, big_bytes in *. simpl in *.
  apply (Hp (q, m) Hin (x / 4096)); unfold In_range; simpl;
    (split; [apply Z.div_le_lower_bound; lia|apply Z.div_lt_upper_bound; lia]).
Qed.

Lemma hinv_blocks s v : hinv s v -> all_disjoint (blocks (HW s (ac v) (big v))).
Proof.
  intros H. apply all_disjoint_join; [by apply (small_disjoint s v); [| |apply H]|by eapply big_disjoint|].
  intros x y ([a b] & -> & Ha)%list_elem_of_fmap ([p n] & -> & Hp)%list_elem_of_fmap z Hz Hz'.
  unfold In_range, small_bytes, big_bytes in *. simpl in *.
  destruct (hi_ac _ _ H a b Ha) as [(q & Hq & H1 & H2 & _) _].
  apply (cps_big_apart _ _ _ _ _ _ H Hq Hp). lia.
Qed.

(** Every byte of a block in use can be accessed. *)
Lemma in_block_mapped s v x : hinv s v -> in_block v x -> mapped s x = true.
Proof.
  intros H [(a & b & Ha & Hx)|(p & n & Hp & Hx)].
  - destruct (hi_ac _ _ H a b Ha) as [Hc _]. pose proof Hc as (q & Hq & H1 & H2 & _).
    destruct (chunk_page _ _ _ _ H Hc) as (q' & Hq' & Hidx & _ & _ & _ & Hpr). unfold mapped.
    replace (PTABIDX x) with q'; [done|]. rewrite <- Hidx, !PTABIDX_div.
    assert (a / 4096 = q) as -> by (symmetry; apply (Z.div_unique _ _ _ (a - 4096 * q)); lia).
    apply (Z.div_unique _ _ _ (x - 4096 * q)); lia.
  - destruct (own_bounds _ _ _ _ _ (hi_k _ _ H) (hown_big _ _ _ Hp)) as (_ & _ & _ & Hl).
    destruct (ki_owns _ _ _ (hi_k _ _ H)) as [fl O]. apply (ow_present _ _ _ _ O). apply elem_of_union_l, Hl.
    rewrite PTABIDX_div. split; [apply Z.div_le_lower_bound; lia|apply Z.div_lt_upper_bound; lia].
Qed.

Lemma hreach_inv w w' : rtc hstep w w' -> hw_inv w -> hw_inv w'.
Proof. induction 1; eauto using hstep_inv. Qed.

(** The heap has no run of [n] free pages. *)
Definition heap_full (s : kheap) (n : Z) : Prop :=
  forall x, ~ (forall y, In_range x n y -> In_free (osvmap (h_km s)) y).

Lemma not_full_alloc s v n :
  hinv s v -> 0 < n < 2147483648 -> (rmap_alloc (osvmap (h_km s)) n).1 = 0 -> heap_full s n.
Proof.
  intros H Hn Hz x Hx. pose proof (pi_wf _ _ _ (ki_os _ _ _ (hi_k _ _ H))) as W. simpl in W.
  destruct (rmap_alloc (osvmap (h_km s)) n) as [p m] eqn:E. simpl in Hz.
  destruct (alloc_least _ n p m x W ltac:(u32_lia) E Hx). lia.
Qed.

Lemma not_full s v n x :
  hinv s v -> 0 < n < 2147483648 -> (forall y, In_range x n y -> In_free (osvmap (h_km s)) y) ->
  (rmap_alloc (osvmap (h_km s)) n).1 <> 0.
Proof. intros H Hn Hx Hz. exact (not_full_alloc s v n H Hn Hz x Hx). Qed.

(** The pages that a [kmalloc] of [sz] bytes may ask for. *)
Definition pages_for (sz : Z) : Z := if 2048 <? sz then PAGES sz else 1.

Lemma kmalloc_low_full s v sz t a s' :
  hinv s v -> sz < 2147483648 -> t <> FREE -> kmalloc_tag sz t s = Done (a, s') -> a < 4096 ->
  heap_full s (pages_for sz).
Proof.
  intros H Hsz Ht E Ha. unfold pages_for. destruct (Z.ltb_spec 2048 sz).
  - destruct (PAGES_range 0 sz) as (Hn & _); [unfold io_range, W32; lia|lia|].
    destruct (decide ((rmap_alloc (osvmap (h_km s)) (PAGES sz)).1 = 0)) as [Hz|Hz]; [apply (not_full_alloc s v); auto; lia|].
    destruct (kmalloc_big_run s v sz t H ltac:(lia) Ht Hz) as [[_ E']|(p & s2 & E' & H')]; [congruence|].
    destruct (own_bounds _ _ _ p (PAGES sz) (hi_k _ _ H') ltac:(by apply hown_big; left)) as (?&?&?&_).
    assert (a = PTOB p) as -> by congruence. rewrite PTOB_small, Z.shiftl_mul_pow2 in Ha by lia. lia.
  - destruct (decide ((rmap_alloc (osvmap (h_km s)) 1).1 = 0)) as [Hz|Hz]; [apply (not_full_alloc s v); auto; lia|].
    assert (1 <= sz) as Hsz1.
    { revert E. unfold kmalloc_tag. change (PAGESIZE / 2) with 2048. destruct (Z.ltb_spec 2048 sz); [lia|].
      unfold BUCKET. by destruct (Z.leb_spec 1 sz). }
    destruct (kmalloc_small_run s v sz t H ltac:(lia)) as [[_ E']|(a' & b & s2 & v' & E' & H' & _ & _ & Hac & _)];
      [done|congruence|]. assert (a' = a) as -> by congruence.
    destruct (hi_ac _ _ H' a b) as [(p & Hp & Hpa & _) _]; [rewrite Hac; by left|].
    destruct (own_bounds _ _ _ _ _ (hi_k _ _ H') (hown_cps _ _ _ Hp)) as (?&_). lia.
Qed.

(** C2: The kernel heap is safe: after [init_malloc] and any sequence of
    [kmalloc], [kfree] and writes to words of blocks in use, no two blocks in
    use overlap and every byte of them is mapped, whatever was written.  Each
    [kmalloc] of the sequence has a tag other than [FREE] and returns a block
    outside of page 0; one that returns an address in page 0 finds no run of
    free pages in the heap's address space, which it does not check. *)
Theorem kheap_isolation s0 own ms s1 w :
  kinv (h_km s0) own ms -> buckets s0 = replicate 12 (Bucket 0 0 0 0) ->
  init_malloc s0 = Done (tt, s1) -> rtc hstep (HW s1 [] []) w ->
  all_disjoint (blocks w) /\
  (forall blk x, blk ∈ blocks w -> In_range blk.1 blk.2 x -> mapped (hw w) x = true) /\
  (forall sz t a s', sz < 2147483648 -> t <> FREE -> kmalloc_tag sz t (hw w) = Done (a, s') -> a < 4096 ->
    heap_full (hw w) (pages_for sz)).
Proof.
  intros K Hb E Hst. destruct (init_malloc_run s0 own ms K Hb) as (s1' & E' & _ & H).
  rewrite E in E'. injection E' as <-.
  destruct (hreach_inv _ _ Hst) as (v & Hv & Ha & Hg); [by eexists|].
  pose proof (hinv_blocks _ _ Hv) as Hd. unfold blocks in *. simpl in Hd. rewrite Ha, Hg in Hd.
  split_and!; [done| |intros sz t a s' Hsz Ht; by apply (kmalloc_low_full _ v)].
  intros blk x [Hin|Hin]%elem_of_app Hx; apply (in_block_mapped _ v); auto;
    apply list_elem_of_fmap in Hin as ([a b] & -> & Hin); unfold In_range, small_bytes, big_bytes in Hx; simpl in Hx.
  - left. exists a, b. rewrite Ha. done.
  - right. exists a, b. rewrite Hg. split; [done|lia].
Qed.

Definition demo_heap : kheap := Kheap demo_started (replicate 12 (Bucket 0 0 0 0)) ∅.

Definition demo_heap1 : kheap :=
  match init_malloc demo_heap with Done (_, s) => s | _ => demo_heap end.

Definition demo_view : hview := HV [] [] [] [(Fixed, (KMOD_P, BTOP 0x8000))] (fun _ => []) [].

Lemma demo_heap1_inv :
  init_malloc demo_heap = Done (tt, demo_heap1) /\ hinv demo_heap1 demo_view /\
  In_free (osvmap (h_km demo_heap1)) KHEAP_P /\ free_frames_left (h_km demo_heap1) = 2.
Proof.
  destruct demo_started_inv as [K Hf].
  destruct (init_malloc_run demo_heap _ _ K eq_refl) as (s & E & Hk & H).
  assert (demo_heap1 = s) as -> by (unfold demo_heap1; by rewrite E). rewrite Hk.
  split_and!; [exact E|exact H|apply Hf; unfold KHEAP_N; lia|vm_compute; reflexivity].
Qed.

Lemma kheap_isolation_witness :
  exists a s', kmalloc 100 demo_heap1 = Done (a, s') /\ mapped s' (a + 99) = true.
Proof.
  destruct demo_heap1_inv as (E & _ & Hfree & Hfm). destruct demo_started_inv as [K _].
  assert (exists a s', kmalloc 100 demo_heap1 = Done (a, s')) as (a & s' & E1)
    by (eexists _, _; vm_compute; reflexivity).
  exists a, s'. split; [exact E1|].
  destruct (kheap_isolation demo_heap [] _ demo_heap1 (HW s' [(a, 7)] []) K eq_refl E) as (_ & H & _).
  - apply rtc_once. apply (hs_small demo_heap1 [] [] 100 0 7); [lia|reflexivity|exact E1|].
    vm_compute in E1. injection E1 as <- _. vm_compute. discriminate.
  - apply (H (a, 128)); [by left|]. unfold In_range. simpl. lia.
Defined.

(** [kmalloc] of up to 2048 bytes returns as long as a page and two frames
    are free: a chunk aligned to the smallest power of two from 16 on that
    holds the size, which was not in use before; the heap stays well-formed. *)
Theorem kmalloc_correct s v sz x :
  hinv s v -> 1 <= sz <= 2048 -> In_free (osvmap (h_km s)) x -> 2 <= free_frames_left (h_km s) ->
  exists a b s' v', kmalloc sz s = Done (a, s') /\ hinv s' v' /\ ac v' = (a, b) :: ac v /\ big v' = big v /\
    sz <= 2 ^ b /\ (b = 4 \/ 2 ^ b < 2 * sz) /\ a mod 2 ^ b = 0 /\
    (forall y, a <= y < a + 2 ^ b -> ~ in_block v y).
Proof.
  intros H Hsz Hx Hfm.
  destruct (kmalloc_small_run s v sz 0 H Hsz) as [[? _]|(a & b & s' & v' & E & H' & Hbu & Hle & Hac & Hbig & _)]; [|lia|].
  { intros _ _ _. apply (not_full s v 1 x H); [lia|]. intros y Hy. unfold In_range in Hy. by replace y with x by lia. }
  destruct (BUCKET_spec sz Hsz) as (b' & Hbu' & Hb & _ & Hmin). rewrite Hbu in Hbu'. injection Hbu' as <-.
  assert (Hin : (a, b) ∈ ac v') by (rewrite Hac; by left).
  destruct (hi_ac _ _ H' a b Hin) as [(p & _ & _ & _ & Hal) _].
  exists a, b, s', v'. split_and!; auto.
  - destruct Hmin as [|Hmin]; [by left|right]. replace (2 ^ b) with (2 * 2 ^ (b - 1)); [lia|].
    rewrite <- Z.pow_succ_r by lia. f_equal. lia.
  - intros y Hy Hblk. pose proof (hinv_blocks _ _ H') as Hd. unfold blocks in Hd. simpl in Hd.
    rewrite Hac, Hbig in Hd. simpl in Hd. destruct Hd as [Hd _].
    destruct Hblk as [(a' & b' & Ha' & Hy')|(q & n & Hq & Hy')].
    + apply (Hd (a', 2 ^ b')) with y; [|done|done]. apply elem_of_app. left. apply list_elem_of_fmap. by exists (a', b').
    + apply (Hd (4096 * q, 4096 * n)) with y; [|done|unfold In_range; simpl; lia].
      apply elem_of_app. right. apply list_elem_of_fmap. by exists (q, n).
Qed.

Lemma kmalloc_correct_witness : exists a s', kmalloc 100 demo_heap1 = Done (a, s') /\ a mod 16 = 0.
Proof.
  destruct demo_heap1_inv as (_ & H & Hfree & Hfm).
  destruct (kmalloc_correct demo_heap1 demo_view 100 KHEAP_P H) as (a & b & s' & v' & E & H' & Hac & _);
    [lia|exact Hfree|rewrite Hfm; lia|].
  exists a, s'. split; [exact E|]. destruct (hi_ac _ _ H' a b) as [(p & Hp & _ & _ & Hal) _]; [rewrite Hac; by left|].
  destruct (hi_cps _ _ H' p b Hp) as [Hb _]. apply Z.mod_divide in Hal; [|apply Z.pow_nonzero; lia].
  apply Z.mod_divide; [lia|]. eapply Z.divide_trans; [|exact Hal].
  exists (2 ^ (b - 4)). change 16 with (2 ^ 4). rewrite <- Z.pow_add_r by lia. f_equal. lia.
Defined.

(** [kfree] and [kmalloc] match: a freed chunk is the one the next
    allocation of its size class returns, and the heap is then in the state
    in which [kfree] was called, except for what the link has overwritten. *)
Theorem kfree_kmalloc s v a b sz ac1 ac2 :
  hinv s v -> ac v = ac1 ++ (a, b) :: ac2 -> 1 <= sz <= 2048 -> BUCKET sz = Some b ->
  exists s1 s2, kfree a s = Done (tt, s1) /\ kmalloc sz s1 = Done (a, s2) /\
    h_km s2 = h_km s /\ buckets s2 = buckets s /\ (forall y, y <> a -> words s2 !! y = words s !! y).
Proof.
  intros H Hac Hsz Hbu. destruct (kfree_chunk_run s v a b ac1 ac2 H Hac) as (s1 & E & H1 & Hk1).
  assert ((a, b) ∈ ac v) as Hin by (rewrite Hac; apply elem_of_mid).
  destruct (hi_ac _ _ H a b Hin) as [Hc _].
  destruct (chunk_page _ _ _ _ H Hc) as (p & Hp & Hidx & Hl & Hb & Ha & Hpr).
  destruct (hi_cps _ _ H p b Hp) as [_ Hfw].
  destruct (lookup_lt_is_Some_2 (buckets s) (Z.to_nat b)) as [bk Hbk]; [rewrite (hi_len _ _ H); lia|].
  set (w1 := <[a := b_mem bk]> (words s)). set (bs1 := alter (set_b_mem a) (Z.to_nat b) (buckets s)).
  assert (s1 = Kheap (h_km s) bs1 w1) as ->.
  { revert E. unfold kfree. destruct (Z.eqb_spec a 0); [lia|]. kx.
    rewrite (get_frame_size_run s _ _ a b (hi_k _ _ H)); rewrite ?Hidx; [|done..].
    unfold PAGESHIFT. destruct (Z.leb_spec 12 b); [lia|]. rewrite Hbk.
    unfold poke, mapped, set_mem. kx. rewrite Hidx, Hpr. by intros [= <-]. }
  assert (bs1 !! Z.to_nat b = Some (set_b_mem a bk)) as Hbk1 by (unfold bs1; by rewrite list_lookup_alter_eq, Hbk).
  eexists _, (Kheap (h_km s) (buckets s) w1). split; [exact E|]. split_and!; auto.
  - unfold kmalloc, kmalloc_tag. change (PAGESIZE / 2) with 2048. destruct (Z.ltb_spec 2048 sz); [lia|]. kx.
    rewrite Hbu. cbn [buckets]. rewrite Hbk1. cbn [set_b_mem b_mem]. destruct (Z.eqb_spec a 0); [lia|].
    cbn [buckets]. rewrite Hbk1. unfold peek, mapped, set_mem. kx. cbn [set_b_mem b_mem h_km words].
    rewrite Hidx, Hpr. unfold w1. rewrite lookup_insert_eq. unfold set_buckets. cbn [h_km buckets words default from_option id].
    do 3 f_equal. unfold bs1. apply list_eq. intros j. destruct (decide (j = Z.to_nat b)) as [->|].
    + rewrite !list_lookup_alter_eq, Hbk. by destruct bk.
    + by rewrite !list_lookup_alter_ne.
  - intros y Hy. simpl. by apply lookup_insert_ne.
Qed.

Lemma kfree_kmalloc_witness :
  exists a s s1 s2, kmalloc 100 demo_heap1 = Done (a, s) /\ kfree a s = Done (tt, s1) /\
    kmalloc 120 s1 = Done (a, s2).
Proof.
  destruct demo_heap1_inv as (_ & H & Hfree & Hfm).
  destruct (kmalloc_small_run demo_heap1 demo_view 100 0 H) as [[? _]|(a & b & s & v & E & Hv & Hbu & _ & Hac & _)];
    [lia|intros _ _ _; vm_compute; discriminate|lia|].
  assert (b = 7) as -> by (vm_compute in Hbu; congruence).
  destruct (kfree_kmalloc s v a 7 120 [] [] Hv) as (s1 & s2 & E1 & E2 & _); [exact Hac|lia|reflexivity|].
  exists a, s, s1, s2. split; [exact E|]. split; [exact E1|exact E2].
Defined.
