(* ===== verification/Hndl.v ===== *)
(** * Handles (sys/krnl/hndl.c)

    The handle table: an entry is either free, and then holds the number of the
    next free handle, or it holds the address of an object with the protection
    flag in its lowest bit.  Objects live in kernel space, so that the highest
    bit tells the two apart.  Each object counts its handles and its locks in
    16 bits.  Closing and destroying an object is the business of the object
    component, seen here through the interface [ObjectOps]. *)

From S2P Require Import Prelude Pframe Pdir Kmem.

Definition HTABBASE : Z := 0x91000000.
Definition HTABSIZE : Z := 0x01000000.
Definition HANDLES_PER_PAGE : Z := 1024.
Definition HTAB : Z := mctag "HTAB".
Definition HPROTECT : Z := 1.
Definition HEND : Z := 0x7FFFFFFF.
Definition HOBJ (x : Z) : Z := Z.land x (W32 - 2).
Definition HPROT (x : Z) : bool := negb (Z.land x HPROTECT =? 0).
Definition HUSED (x : Z) : bool := negb (Z.land x OSBASE =? 0).

Definition EBADF : Z := 9.
Definition EACCES : Z := 13.
Definition ENFILE : Z := 23.
Definition OBJECT_ANY : Z := -1.

(** The fields of [struct object] that the handle table uses. *)
Record object := Object { o_type : Z; handle_count : Z; lock_count : Z }.

Definition set_handle_count (n : Z) (o : object) : object := Object (o_type o) n (lock_count o).
Definition set_lock_count (n : Z) (o : object) : object := Object (o_type o) (handle_count o) n.

(** What the object component offers: closing and destroying the object at an
    address, with an effect on the rest of the system. *)
Class ObjectOps (W : Type) := {
  close_object : Z -> W -> Z * W;
  destroy_object : Z -> W -> Z * W;
}.

Record handles (W : Type) := Handles {
  hs_mmu : mmu;
  htab : list Z;
  hfreelist : Z;
  objs : gmap Z object;
  hs_world : W;
}.
Arguments Handles {W}.
Arguments hs_mmu {W}.
Arguments htab {W}.
Arguments hfreelist {W}.
Arguments objs {W}.
Arguments hs_world {W}.

Local Open Scope k_scope.

Section hndl.
Context {W : Type} `{!ObjectOps W}.
Local Abbreviation H := (handles W).

Definition set_htab (t : list Z) (s : H) : H := Handles (hs_mmu s) t (hfreelist s) (objs s) (hs_world s).
Definition set_hfree (h : Z) (s : H) : H := Handles (hs_mmu s) (htab s) h (objs s) (hs_world s).
Definition set_objs (o : gmap Z object) (s : H) : H := Handles (hs_mmu s) (htab s) (hfreelist s) o (hs_world s).
Definition set_world (w : W) (s : H) : H := Handles (hs_mmu s) (htab s) (hfreelist s) (objs s) w.
Definition set_hmmu (m : mmu) (s : H) : H := Handles m (htab s) (hfreelist s) (objs s) (hs_world s).

Definition with_hmmu {A} (m : K mmu A) : K H A := kzoom hs_mmu set_hmmu m.

Definition htabsize (s : H) : Z := Z.of_nat (length (htab s)).

(** [htab[h]], read and written, for an index inside the table *)
Definition hread (h : Z) : K H Z :=
  let* s := kget in kopt (if 0 <=? h then htab s !! Z.to_nat h else None).
Definition hwrite (h v : Z) : K H unit :=
  let* _ := hread h in kmod (fun s => set_htab (<[Z.to_nat h := v]> (htab s)) s).

(** [for (h = base + n - 1; h >= base; h--) { htab[h] = hfreelist; hfreelist = h; }] *)
Fixpoint link_down (n base : nat) (t : list Z) (fl : Z) : list Z * Z :=
  match n with
  | O => (t, fl)
  | S n' => link_down n' base (<[(base + n')%nat := fl]> t) (Z.of_nat (base + n'))
  end.

(** The new page of the table holds [junk] before it is linked. *)
Definition expand_htab (junk : list Z) : K H Z :=
  let* s := kget in
  if htabsize s =? HTABSIZE / 4 then kret (- ENFILE)
  else
    let* pfn := with_hmmu (with_pf (alloc_pageframe HTAB)) in
    with_hmmu (map_page (u32 (HTABBASE + 4 * htabsize s)) pfn RW) ;;;
    kmod (fun s =>
      let '(t, fl) := link_down (Z.to_nat HANDLES_PER_PAGE) (length (htab s)) (htab s ++ junk) (hfreelist s) in
      set_hfree fl (set_htab t s)) ;;;
    kret 0.

(** The loop of [remove_from_freelist]; it does not advance [fl]. *)
Fixpoint unlink_loop (fuel : nat) (h fl : Z) : K H Z :=
  if fl =? HEND then kret (- EBADF)
  else
    match fuel with
    | O => khang
    | S fuel' =>
        let* nx := hread fl in
        if h =? nx then
          let* v := hread h in
          hwrite fl v ;;; kret 0
        else unlink_loop fuel' h fl
    end.

Definition remove_from_freelist (fuel : nat) (h : Z) : K H Z :=
  let* s := kget in
  if h =? hfreelist s then
    let* v := hread h in
    kmod (set_hfree v) ;;; kret 0
  else unlink_loop fuel h (hfreelist s).

(** The result 0 is the null pointer. *)
Definition hlookup (h : Z) : K H Z :=
  let* s := kget in
  if (h <? 0) || (htabsize s <=? h) then kret 0
  else
    let* e := hread h in
    if negb (HUSED e) then kret 0 else kret (HOBJ e).

Definition get_obj (o : Z) : K H object := let* s := kget in kopt (objs s !! o).
Definition put_obj (o : Z) (ob : object) : K H unit := kmod (fun s => set_objs (<[o := ob]> (objs s)) s).

Definition halloc (junk : list Z) (o : Z) : K H Z :=
  let* s := kget in
  let* rc := (if hfreelist s =? HEND then expand_htab junk else kret 0) in
  if rc <? 0 then kret rc
  else
    let* s := kget in
    let h := hfreelist s in
    let* nx := hread h in
    kmod (set_hfree nx) ;;;
    hwrite h o ;;;
    let* ob := get_obj o in
    put_obj o (set_handle_count (u16 (handle_count ob + 1)) ob) ;;;
    kret h.

Definition close_obj (o : Z) : K H Z := fun s =>
  let '(rc, w) := close_object o (hs_world s) in Done (rc, set_world w s).

(** The memory of the object is gone after [destroy_object]. *)
Definition destroy_obj (o : Z) : K H Z := fun s =>
  let '(rc, w) := destroy_object o (hs_world s) in Done (rc, set_objs (delete o (objs s)) (set_world w s)).

(** Closing the object of a handle that was the last one. *)
Definition last_handle (o : Z) : K H Z :=
  let* rc := close_obj o in
  let* ob := get_obj o in
  (if lock_count ob =? 0 then let* _ := destroy_obj o in kret tt else kret tt) ;;;
  kret rc.

Fixpoint expand_to (fuel : nat) (junk : list Z) (h : Z) : K H Z :=
  let* s := kget in
  if htabsize s <=? h then
    match fuel with
    | O => khang
    | S fuel' =>
        let* rc := expand_htab junk in
        if rc <? 0 then kret rc else expand_to fuel' junk h
    end
  else kret 0.

Definition hassign (fuel : nat) (junk : list Z) (o h : Z) : K H Z :=
  if HTABSIZE / 4 <? u32 h then kret (- EBADF)
  else
    let* rc := expand_to fuel junk h in
    if rc <? 0 then kret rc
    else
      let* e := hread h in
      let* rc :=
        (if negb (HUSED e) then remove_from_freelist fuel h
         else
           let oo := HOBJ e in
           if HPROT e then kret (- EACCES)
           else
             let* ob := get_obj oo in
             put_obj oo (set_handle_count (u16 (handle_count ob - 1)) ob) ;;;
             if u16 (handle_count ob - 1) =? 0 then last_handle oo else kret 0) in
      if rc <? 0 then kret rc
      else
        hwrite h o ;;;
        let* ob := get_obj o in
        put_obj o (set_handle_count (u16 (handle_count ob + 1)) ob) ;;;
        kret 0.

Definition hfree (h : Z) : K H Z :=
  let* o := hlookup h in
  if o =? 0 then kret (- EBADF)
  else
    let* e := hread h in
    if HPROT e then kret (- EACCES)
    else
      let* s := kget in
      hwrite h (hfreelist s) ;;;
      kmod (set_hfree h) ;;;
      let* ob := get_obj o in
      put_obj o (set_handle_count (u16 (handle_count ob - 1)) ob) ;;;
      if 0 <? u16 (handle_count ob - 1) then kret 0 else last_handle o.

Definition hprotect (h : Z) : K H Z :=
  let* o := hlookup h in
  if o =? 0 then kret (- EBADF)
  else
    let* e := hread h in
    hwrite h (Z.lor e HPROTECT) ;;; kret 0.

Definition hunprotect (h : Z) : K H Z :=
  let* o := hlookup h in
  if o =? 0 then kret (- EBADF)
  else
    let* e := hread h in
    hwrite h (Z.land e (W32 - 1 - HPROTECT)) ;;; kret 0.

Definition olock (h type : Z) : K H Z :=
  let* o := hlookup h in
  if o =? 0 then kret 0
  else
    let* ob := get_obj o in
    if negb (o_type ob =? type) && negb (type =? OBJECT_ANY) then kret 0
    else if handle_count ob =? 0 then kret 0
    else
      put_obj o (set_lock_count (u16 (lock_count ob + 1)) ob) ;;;
      kret o.

Definition orel (o : Z) : K H Z :=
  let* ob := get_obj o in
  put_obj o (set_lock_count (u16 (lock_count ob - 1)) ob) ;;;
  if (u16 (lock_count ob - 1) =? 0) && (handle_count ob =? 0) then destroy_obj o else kret 0.

(** System calls that copy handles (sys/krnl/syscall.c). *)
Definition sys_dup (junk : list Z) (h : Z) : K H Z :=
  let* o := olock h OBJECT_ANY in
  if o =? 0 then kret (- EBADF)
  else
    let* newh := halloc junk o in
    let* _ := orel o in
    kret newh.

Definition sys_dup2 (fuel : nat) (junk : list Z) (h1 h2 : Z) : K H Z :=
  let* o := olock h1 OBJECT_ANY in
  if o =? 0 then kret (- EBADF)
  else
    let* rc := hassign fuel junk o h2 in
    let* _ := orel o in
    kret rc.

End hndl.

(** ** Entries *)

Lemma HUSED_spec x : is_u32 x -> HUSED x = (OSBASE <=? x).
Proof.
  intros Hx. unfold HUSED. change OSBASE with (2 ^ 31). rewrite land_pow2 by lia.
  assert (Z.testbit x 31 = (2 ^ 31 <=? x)) as ->; [|by destruct (2 ^ 31 <=? x)].
  destruct (Z.leb_spec (2 ^ 31) x).
  - apply Z.testbit_true; [lia|]. replace (x / 2 ^ 31) with 1; [done|].
    apply (Z.div_unique _ _ _ (x - 2 ^ 31)); u32_lia.
  - apply Z.testbit_false; [lia|]. by rewrite Z.div_small by u32_lia.
Qed.

Lemma HOBJ_spec x : is_u32 x -> HOBJ x = x / 2 * 2.
Proof. intros Hx. exact (land_high x 1 ltac:(lia) Hx). Qed.

Lemma HPROT_spec x : HPROT x = (x mod 2 =? 1).
Proof.
  unfold HPROT, HPROTECT. change 1 with (Z.ones 1) at 1. rewrite Z.land_ones by lia. change (2 ^ 1) with 2.
  pose proof (Z.mod_pos_bound x 2). destruct (Z.eqb_spec (x mod 2) 0), (Z.eqb_spec (x mod 2) 1); simpl; lia || done.
Qed.

(** Addresses of objects: even and in kernel space. *)
Definition obj_addr (o : Z) : Prop := OSBASE <= o < W32 /\ o mod 2 = 0.

Lemma entry_obj o : obj_addr o -> HUSED o = true /\ HOBJ o = o /\ HPROT o = false.
Proof.
  unfold obj_addr, OSBASE. intros [Hr He]. assert (is_u32 o) by u32_lia. rewrite HUSED_spec, HOBJ_spec, HPROT_spec by done.
  unfold OSBASE. split_and!; [apply Z.leb_le; lia| |by rewrite He].
  pose proof (Z.div_mod o 2). lia.
Qed.

Lemma entry_set w :
  is_u32 w -> HUSED w = true ->
  is_u32 (Z.lor w HPROTECT) /\ HUSED (Z.lor w HPROTECT) = true /\ HOBJ (Z.lor w HPROTECT) = HOBJ w /\
  HPROT (Z.lor w HPROTECT) = true.
Proof.
  intros Hw Hu. assert (Z.lor w HPROTECT = w / 2 * 2 + 1) as ->.
  { unfold HPROTECT. rewrite (Z.div_mod w 2) at 1 by lia. rewrite Z.mul_comm.
    pose proof (Z.mod_pos_bound w 2 ltac:(lia)). assert (w mod 2 = 0 \/ w mod 2 = 1) as [->| ->] by lia.
    - rewrite Z.add_0_r, <- Z.add_nocarry_lor; [done|].
      replace (w / 2 * 2) with (Z.shiftl (w / 2) 1) by (by rewrite Z.shiftl_mul_pow2).
      by apply (land_shiftl_low _ 1 1).
    - replace (w / 2 * 2 + 1) with (Z.lor (w / 2 * 2) 1); [by rewrite <- Z.lor_assoc|].
      rewrite <- Z.add_nocarry_lor; [done|].
      replace (w / 2 * 2) with (Z.shiftl (w / 2) 1) by (by rewrite Z.shiftl_mul_pow2).
      by apply (land_shiftl_low _ 1 1). }
  rewrite HUSED_spec in Hu by done. apply Z.leb_le in Hu. unfold OSBASE in Hu.
  pose proof (Z.div_mod w 2). pose proof (Z.mod_pos_bound w 2).
  assert (is_u32 (w / 2 * 2 + 1)) as Hx by u32_lia. split; [done|].
  rewrite HUSED_spec, !HOBJ_spec, HPROT_spec by done. split_and!.
  - unfold OSBASE. apply Z.leb_le. lia.
  - rewrite (Z.add_comm (w / 2 * 2)), Z.div_add by lia. done.
  - rewrite Z.add_comm, Z.mod_add by lia. done.
Qed.

Lemma entry_clear w :
  is_u32 w -> HUSED w = true -> let w' := Z.land w (W32 - 1 - HPROTECT) in
  is_u32 w' /\ HUSED w' = true /\ HOBJ w' = HOBJ w /\ HPROT w' = false.
Proof.
  intros Hw Hu w'. assert (w' = w / 2 * 2) as Hw' by (apply (land_high w 1); [lia|done]).
  rewrite HUSED_spec in Hu by done. apply Z.leb_le in Hu. unfold OSBASE in Hu.
  pose proof (Z.div_mod w 2). pose proof (Z.mod_pos_bound w 2).
  assert (is_u32 w') as Hx by (rewrite Hw'; u32_lia). split; [done|].
  rewrite HUSED_spec, !HOBJ_spec, HPROT_spec, Hw' by done. split_and!.
  - unfold OSBASE. apply Z.leb_le. lia.
  - by rewrite Z.div_mul.
  - by rewrite Z.mod_mul.
Qed.

(** ** The table *)

Section table.
Context {W : Type}.
Local Abbreviation H := (handles W).

(** What handle [i] stands for: the object and whether it is protected. *)
Definition entry (w : Z) : option (Z * bool) := if HUSED w then Some (HOBJ w, HPROT w) else None.
Definition slot (s : H) (i : nat) : option (Z * bool) := htab s !! i ≫= entry.

Fixpoint hchain (t : list Z) (a : Z) (l : list nat) : Prop :=
  match l with
  | [] => a = HEND
  | i :: l' => a = Z.of_nat i /\ a <> HEND /\ exists w, t !! i = Some w /\ is_u32 w /\ hchain t w l'
  end.

(** The number of handles of an object. *)
Definition refs (t : list Z) (o : Z) : nat :=
  length (filter (fun w => HUSED w = true /\ HOBJ w = o) t).

Record ht_inv (s : H) (fl : list nat) : Prop := {
  hv_chain : hchain (htab s) (hfreelist s) fl;
  hv_nodup : NoDup fl;
  hv_free : forall i w, htab s !! i = Some w -> (i ∈ fl <-> HUSED w = false);
  hv_used : forall i w, htab s !! i = Some w -> HUSED w = true -> is_u32 w /\ is_Some (objs s !! HOBJ w);
  hv_size : (length (htab s) mod 1024 = 0)%nat /\ Z.of_nat (length (htab s)) <= 4194304;
  hv_addr : forall o ob, objs s !! o = Some ob -> obj_addr o;
  hv_count : forall o ob, objs s !! o = Some ob ->
               handle_count ob = Z.of_nat (refs (htab s) o) /\ 0 <= handle_count ob < 65536 /\
               0 <= lock_count ob < 65536;
  hv_mmu : mmu_wf (hs_mmu s);
}.

Lemma hchain_insert t a l i v : hchain t a l -> i ∉ l -> hchain (<[i := v]> t) a l.
Proof.
  revert a. induction l as [|j l IH]; intros a; simpl; [done|].
  intros (Ha & Hn & w & Hw & Hu & Hl) Hi. split_and!; auto. exists w.
  rewrite list_lookup_insert_ne by (intros ->; apply Hi; by left). split_and!; auto.
  apply IH; [done|]. intros Hl'. apply Hi. by right.
Qed.

Lemma hchain_bound t a l i : hchain t a l -> i ∈ l -> (i < length t)%nat.
Proof.
  revert a. induction l as [|j l IH]; intros a; simpl; [intros _ H; by apply elem_of_nil in H|].
  intros (_ & _ & w & Hw & _ & Hl) [->|Hi]%elem_of_cons; [by eapply lookup_lt_Some|by eapply IH].
Qed.

Lemma refs_insert t i w v o :
  t !! i = Some w ->
  (refs (<[i := v]> t) o + (if decide (HUSED w = true /\ HOBJ w = o) then 1 else 0) =
   refs t o + (if decide (HUSED v = true /\ HOBJ v = o) then 1 else 0))%nat.
Proof.
  unfold refs. revert i. induction t as [|x t IH]; intros [|i] Hi; simpl in *; [done|done|..].
  - injection Hi as ->. rewrite !filter_cons. repeat case_decide; simpl; lia.
  - specialize (IH i Hi). rewrite !filter_cons. repeat case_decide; simpl in *; lia || tauto.
Qed.

Lemma slot_insert (s : H) i v j :
  (i < length (htab s))%nat ->
  slot (set_htab (<[i := v]> (htab s)) s) j = if decide (j = i) then entry v else slot s j.
Proof.
  intros Hi. unfold slot. simpl. case_decide as Hd.
  - subst j. by rewrite list_lookup_insert_eq.
  - by rewrite list_lookup_insert_ne.
Qed.

Lemma hchain_val t a l :
  hchain t a l -> Z.of_nat (length t) <= 4194304 -> 0 <= a < 2147483648.
Proof.
  destruct l as [|i l]; simpl; [intros -> _; unfold HEND; lia|].
  intros (-> & _ & w & Hw%lookup_lt_Some & _) Hlen. lia.
Qed.

Lemma low_unused a : 0 <= a < 2147483648 -> is_u32 a /\ HUSED a = false.
Proof.
  intros Ha. assert (is_u32 a) by u32_lia. rewrite HUSED_spec by done.
  split; [done|]. unfold OSBASE. apply Z.leb_gt. lia.
Qed.

Lemma link_down_spec n base : forall k t fl l,
  hchain t fl (seq (base + n) k ++ l) -> (forall i, i ∈ l -> (i < base)%nat) ->
  (base + n + k <= length t)%nat -> Z.of_nat (length t) <= 4194304 ->
  exists t' fl', link_down n base t fl = (t', fl') /\ hchain t' fl' (seq base (n + k) ++ l) /\
    length t' = length t /\ (forall i, (i < base \/ base + n <= i)%nat -> t' !! i = t !! i) /\
    (forall i w, (base <= i < base + n)%nat -> t' !! i = Some w -> HUSED w = false).
Proof.
  induction n as [|n IH]; intros k t fl l Hc Hl Hk Hlen; cbn [link_down].
  { exists t, fl. rewrite Nat.add_0_r in Hc. split_and!; auto. lia. }
  set (i := (base + n)%nat) in *. pose proof (hchain_val _ _ _ Hc Hlen) as Hv.
  destruct (low_unused _ Hv) as [Hu Hn].
  destruct (IH (S k) (<[i := fl]> t) (Z.of_nat i) l) as (t' & fl' & E & Hc' & Hlen' & Hout & Hin);
    rewrite ?length_insert in *; auto; try lia.
  - simpl. split_and!; auto; [unfold HEND; lia|]. exists fl.
    rewrite list_lookup_insert_eq by lia. split_and!; auto.
    apply hchain_insert; [by replace (S i) with (base + S n)%nat by lia|].
    intros [Hs%elem_of_seq|Hs]%elem_of_app; [lia|]. apply Hl in Hs. lia.
  - exists t', fl'. split_and!; auto.
    + by replace (S n + k)%nat with (n + S k)%nat by lia.
    + intros j Hj. rewrite Hout by lia. apply list_lookup_insert_ne. lia.
    + intros j w Hj Hw. destruct (decide (j = i)) as [->|]; [|apply (Hin j w); [lia|done]].
      rewrite Hout, list_lookup_insert_eq in Hw by lia. by injection Hw as <-.
Qed.

Lemma refs_app t t' o : refs (t ++ t') o = (refs t o + refs t' o)%nat.
Proof. unfold refs. by rewrite filter_app, length_app. Qed.

Lemma refs_unused t o : (forall w, w ∈ t -> HUSED w = false) -> refs t o = 0%nat.
Proof.
  unfold refs. induction t as [|w t IH]; intros Ht; [done|]. rewrite filter_cons, decide_False.
  - apply IH. intros x Hx. apply Ht. by right.
  - rewrite Ht by (by left). by intros [? _].
Qed.

End table.

(** ** Operations *)

Section ops.
Context {W : Type} `{!ObjectOps W}.
Local Abbreviation H := (handles W).
Implicit Types s : H.

(** Frames for a page of the table: one for the page, and one for a page
    table where there is none yet. *)
Lemma htab_page s v :
  mmu_wf (hs_mmu s) ->
  (freemem (m_pf (hs_mmu s)) < 2 /\
    (with_pf (alloc_pageframe HTAB) (hs_mmu s) = Panic "out of memory" \/
     exists pfn m1, with_pf (alloc_pageframe HTAB) (hs_mmu s) = Done (pfn, m1) /\
       map_page v pfn RW m1 = Panic "out of memory")) \/
  exists pfn m1 m2, with_pf (alloc_pageframe HTAB) (hs_mmu s) = Done (pfn, m1) /\
    map_page v pfn RW m1 = Done (tt, m2) /\ mmu_wf m2.
Proof.
  intros Hw. pose proof (mw_pf _ Hw) as [fl R]. pose proof (pr_count _ _ R) as Hc. unfold with_pf. kx.
  destruct fl as [|i fl]; simpl in Hc.
  { left. split; [lia|]. left. by rewrite (alloc_pageframe_none _ HTAB R). }
  destruct (alloc_pageframe_rep _ _ _ HTAB R) as (E & R'); [done|].
  pose proof (seg_bound _ _ _ _ i (pr_seg _ _ R) ltac:(by left)) as Hi. pose proof (pr_limit _ _ R). rewrite E.
  destruct (map_page_run (set_pf (pf_allocated HTAB i (m_pf (hs_mmu s))) (hs_mmu s)) v (Z.of_nat i) RW fl)
    as [(_ & -> & E2)|(m2 & fl2 & E2 & _ & Hw2 & _)];
    [split; [by eexists|apply Hw]|exact R'|lia|done|left; split; [simpl in *; lia|right; by eexists _, _]|right].
  by eexists _, _, m2.
Qed.

Lemma expand_htab_run s fl junk :
  ht_inv s fl -> htabsize s < 4194304 -> length junk = 1024%nat ->
  (freemem (m_pf (hs_mmu s)) < 2 /\ expand_htab junk s = Panic "out of memory") \/
  exists s', expand_htab junk s = Done (0, s') /\ ht_inv s' (seq (length (htab s)) 1024 ++ fl) /\
    objs s' = objs s /\ hs_world s' = hs_world s /\ length (htab s') = (length (htab s) + 1024)%nat /\
    (forall i, slot s' i = slot s i).
Proof.
  intros I Hsz Hj. unfold htabsize in *. pose proof (hv_size _ _ I) as [Hmod Hmax].
  assert (Z.of_nat (length (htab s)) + 1024 <= 4194304) as Hroom.
  { pose proof (Nat.div_mod_eq (length (htab s)) 1024). lia. }
  unfold expand_htab, with_hmmu. kx. change (HTABSIZE / 4) with 4194304. unfold htabsize.
  destruct (Z.eqb_spec (Z.of_nat (length (htab s))) 4194304); [lia|].
  destruct (htab_page s (u32 (HTABBASE + 4 * Z.of_nat (length (htab s)))) (hv_mmu _ _ I))
    as [[Hf [->|(pfn & m1 & -> & E2)]]|(pfn & m1 & m2 & -> & E2 & Hw2)];
    [by left|left; split; [done|]; simpl hs_mmu; by rewrite E2|right]. simpl hs_mmu. rewrite E2. cbn [set_hmmu htab hfreelist objs hs_world].
  assert (Hc : hchain (htab s ++ junk) (hfreelist s) fl).
  { pose proof (hv_chain _ _ I) as Hc. revert Hc. generalize (hfreelist s). clear I.
    induction fl as [|i fl IH]; intros a; simpl; [done|]. intros (? & ? & w & Hw & Hu & Hl).
    split_and!; auto. exists w. rewrite lookup_app_l by (by eapply lookup_lt_Some). auto. }
  destruct (link_down_spec 1024 (length (htab s)) 0 (htab s ++ junk) (hfreelist s) fl)
    as (t' & fl' & E3 & Hc' & Hlen' & Hout & Hin).
  { exact Hc. }
  { intros i Hi. eapply hchain_bound; [apply I|done]. }
  { rewrite length_app. lia. }
  { rewrite length_app. lia. }
  change (Z.to_nat HANDLES_PER_PAGE) with 1024%nat. rewrite E3. eexists. split; [done|].
  rewrite Nat.add_0_r in Hc'. rewrite length_app, Hj in Hlen'.
  assert (Hold : forall i, (i < length (htab s))%nat -> t' !! i = htab s !! i).
  { intros i Hi. rewrite Hout by lia. by apply lookup_app_l. }
  assert (Hnew : forall i w, (length (htab s) <= i)%nat -> t' !! i = Some w -> HUSED w = false).
  { intros i w Hi Hw. apply (Hin i w); [|done]. apply lookup_lt_Some in Hw. lia. }
  assert (Hrefs : forall o, refs t' o = refs (htab s) o).
  { intros o. rewrite <- (take_drop (length (htab s)) t'), refs_app, (refs_unused (drop _ _)).
    - rewrite Nat.add_0_r. f_equal. apply list_eq. intros i. destruct (decide (i < length (htab s))%nat).
      + by rewrite lookup_take_lt, Hold.
      + rewrite lookup_take_ge by lia. symmetry. apply lookup_ge_None. lia.
    - intros w (i & Hw)%list_elem_of_lookup. rewrite lookup_drop in Hw. by eapply (Hnew _ w); [|exact Hw]; lia. }
  split_and!; auto.
  - split; cbn [set_hfree set_htab set_hmmu hs_mmu htab hfreelist objs hs_world]; auto.
    + apply NoDup_app. split_and!; [apply NoDup_seq| |apply I].
      intros i Hi%elem_of_seq Hfl. pose proof (hchain_bound _ _ _ _ (hv_chain _ _ I) Hfl). lia.
    + intros i w Hw. rewrite elem_of_app, elem_of_seq. destruct (decide (i < length (htab s))%nat).
      * rewrite Hold in Hw by done. rewrite <- (hv_free _ _ I i w Hw). split; [intros [?|?]; [lia|done]|by right].
      * split; [|intros _; left; apply lookup_lt_Some in Hw; lia]. intros _. apply (Hnew i); [lia|done].
    + intros i w Hw Hu. destruct (decide (i < length (htab s))%nat).
      * rewrite Hold in Hw by done. by apply (hv_used _ _ I i).
      * rewrite (Hnew i w) in Hu; [done|lia|done].
    + rewrite Hlen'. split; [|lia]. rewrite <- (Nat.mul_1_l 1024) at 1. rewrite Nat.Div0.mod_add. done.
    + apply (hv_addr _ _ I).
    + intros o ob Ho. rewrite Hrefs. by apply (hv_count _ _ I).
  - intros i. unfold slot. simpl. destruct (decide (i < length (htab s))%nat); [by rewrite Hold|].
    rewrite (lookup_ge_None_2 (htab s)) by lia. simpl. destruct (t' !! i) as [w|] eqn:Hw; [|done].
    simpl. unfold entry. by rewrite (Hnew i w) by (lia || done).
Qed.

(** A free handle gets an object. *)
Lemma inv_take s i fl o ob :
  ht_inv s (i :: fl) -> objs s !! o = Some ob -> handle_count ob < 65535 ->
  exists w, htab s !! i = Some w /\ hfreelist s = Z.of_nat i /\
    let s' := Handles (hs_mmu s) (<[i := o]> (htab s)) w
                (<[o := set_handle_count (handle_count ob + 1) ob]> (objs s)) (hs_world s) in
    ht_inv s' fl /\ slot s i = None /\
    (forall j, slot s' j = if decide (j = i) then Some (o, false) else slot s j).
Proof.
  intros I Ho Hcnt. pose proof (hv_chain _ _ I) as Hc. simpl in Hc. destruct Hc as (Hfl & _ & w & Hw & Hu & Hc).
  pose proof (hv_nodup _ _ I) as [Hni Hnd]%NoDup_cons. pose proof (lookup_lt_Some _ _ _ Hw) as Hi.
  assert (HUSED w = false) as Hwu by (apply (hv_free _ _ I i w Hw); by left).
  destruct (entry_obj o (hv_addr _ _ I o ob Ho)) as (Hou & Hoo & Hop).
  exists w. split; [done|]. split; [done|]. intros s'.
  assert (Hslot : forall j, slot s' j = if decide (j = i) then Some (o, false) else slot s j).
  { intros j. unfold s', slot. simpl. case_decide as Hd; [subst j|by rewrite list_lookup_insert_ne].
    rewrite list_lookup_insert_eq by done. simpl. unfold entry. by rewrite Hou, Hoo, Hop. }
  split_and!; auto; [|unfold slot; rewrite Hw; simpl; unfold entry; by rewrite Hwu].
  split; unfold s'; cbn [hs_mmu htab hfreelist objs hs_world]; auto; try apply I.
  - by apply hchain_insert.
  - intros j v. rewrite list_lookup_insert. case_decide as Hd; [destruct Hd as [<- _]; intros [= <-]|].
    + rewrite Hou. split; [done|done].
    + intros Hv. rewrite <- (hv_free _ _ I j v Hv), elem_of_cons. split; [by right|]. intros [->|?]; [tauto|done].
  - intros j v. rewrite list_lookup_insert. case_decide as Hd; [destruct Hd as [<- _]; intros [= <-] _|].
    + split; [destruct (hv_addr _ _ I o ob Ho); unfold OSBASE in *; u32_lia|]. rewrite Hoo, lookup_insert_eq. done.
    + intros Hv Hvu. destruct (hv_used _ _ I j v Hv Hvu) as [? Hs]. split; [done|].
      by destruct (decide (HOBJ v = o)) as [->|]; [rewrite lookup_insert_eq|rewrite lookup_insert_ne].
  - rewrite length_insert. apply I.
  - intros p pb. destruct (decide (p = o)) as [->|]; [intros _; by eapply (hv_addr _ _ I)|].
    rewrite lookup_insert_ne by done. apply I.
  - intros p pb Hp. pose proof (refs_insert _ _ _ o p Hw) as Hr.
    rewrite (decide_False (P := HUSED w = true /\ _)) in Hr by (rewrite Hwu; by intros [? _]).
    destruct (decide (p = o)) as [->|].
    + rewrite lookup_insert_eq in Hp. injection Hp as <-. destruct (hv_count _ _ I o ob Ho) as (Hh & ? & ?).
      rewrite decide_True in Hr by done. simpl. split_and!; lia.
    + rewrite lookup_insert_ne in Hp by done. rewrite decide_False in Hr by (intros [_ ?]; congruence).
      destruct (hv_count _ _ I p pb Hp) as (Hh & ? & ?). split_and!; lia.
Qed.

Lemma hread_done s i w : htab s !! i = Some w -> hread (Z.of_nat i) s = Done (w, s).
Proof.
  intros Hw. unfold hread. kx. destruct (Z.leb_spec 0 (Z.of_nat i)); [|lia]. by rewrite Nat2Z.id, Hw.
Qed.

Lemma hwrite_done s i w v :
  htab s !! i = Some w -> hwrite (Z.of_nat i) v s = Done (tt, set_htab (<[i := v]> (htab s)) s).
Proof. intros Hw. unfold hwrite. kx. rewrite (hread_done s i w Hw). by rewrite Nat2Z.id. Qed.

Lemma hwrite_at s h w v :
  0 <= h -> htab s !! Z.to_nat h = Some w ->
  hwrite h v s = Done (tt, set_htab (<[Z.to_nat h := v]> (htab s)) s).
Proof. intros Hh Hw. rewrite <- (hwrite_done s _ w v Hw). by rewrite Z2Nat.id. Qed.

(** [halloc] from a free list that is not empty, or after [expand_htab]. *)
Lemma halloc_run s fl junk o ob :
  ht_inv s fl -> objs s !! o = Some ob -> handle_count ob < 65535 ->
  (fl <> [] \/ (htabsize s < 4194304 /\ length junk = 1024%nat)) ->
  (fl = [] /\ freemem (m_pf (hs_mmu s)) < 2 /\ halloc junk o s = Panic "out of memory") \/
  exists h fl' s', halloc junk o s = Done (Z.of_nat h, s') /\ ht_inv s' fl' /\ slot s h = None /\
    (forall j, slot s' j = if decide (j = h) then Some (o, false) else slot s j) /\
    objs s' = <[o := set_handle_count (handle_count ob + 1) ob]> (objs s) /\ hs_world s' = hs_world s /\
    (length (htab s) <= length (htab s'))%nat /\ h = default (length (htab s)) (head fl).
Proof.
  intros I Ho Hcnt Hroom.
  assert ((fl = [] /\ freemem (m_pf (hs_mmu s)) < 2 /\
      (if hfreelist s =? HEND then expand_htab junk else kret 0) s = Panic "out of memory") \/
    exists s1 fl1, (if hfreelist s =? HEND then expand_htab junk else kret 0) s = Done (0, s1) /\
    ht_inv s1 fl1 /\ fl1 <> [] /\ objs s1 = objs s /\ hs_world s1 = hs_world s /\
    (forall i, slot s1 i = slot s i) /\ (length (htab s) <= length (htab s1))%nat /\
    head fl1 = Some (default (length (htab s)) (head fl)))
    as [(-> & Hf & E1)|(s1 & fl1 & E1 & I1 & Hne & Hobjs & Hworld & Hslot & Hlen & Hhd)];
    [|left; split_and!; auto; unfold halloc; kx; fold (@kret H Z 0); by rewrite E1|right].
  { destruct fl as [|i fl].
    - pose proof (hv_chain _ _ I) as ->. destruct Hroom as [|(Hsz & Hj)]; [done|].
      destruct (expand_htab_run s [] junk I Hsz Hj) as [[Hf E]|(s1 & E & I1 & ? & ? & ? & ?)]; [by left|right].
      exists s1, (seq (length (htab s)) 1024 ++ []). split_and!; auto. lia.
    - right. pose proof (hv_chain _ _ I) as (Hfl & Hn & _). exists s, (i :: fl).
      destruct (Z.eqb_spec (hfreelist s) HEND); [done|]. by split_and!. }
  destruct fl1 as [|h fl']; [done|]. injection Hhd as Hhd. rewrite <- Hobjs in Ho.
  destruct (inv_take s1 h fl' o ob I1 Ho Hcnt) as (w & Hw & Hfl & I2 & Hnone & Hslot2).
  eexists h, fl', _. unfold halloc. kx. fold (@kret H Z 0). rewrite E1. change (0 <? 0) with false. cbn beta iota.
  rewrite Hfl, (hread_done s1 h w Hw).
  rewrite (hwrite_done _ h w o) by exact Hw. unfold get_obj, put_obj. kx. cbn [objs set_htab set_hfree]. rewrite Ho.
  assert (u16 (handle_count ob + 1) = handle_count ob + 1) as ->.
  { apply Z.mod_small. destruct (hv_count _ _ I1 o ob Ho). lia. }
  split; [done|]. split_and!; [exact I2|by rewrite <- Hslot|intros j; by rewrite <- (Hslot j), <- Hslot2|..]; auto.
  - simpl. by rewrite Hobjs.
  - simpl. by rewrite length_insert.
Qed.

(** The table is at its limit and has no free handle. *)
Lemma halloc_full s junk o :
  ht_inv s [] -> htabsize s = 4194304 -> halloc junk o s = Done (- ENFILE, s).
Proof.
  intros I Hsz. pose proof (hv_chain _ _ I) as Hf. simpl in Hf. unfold halloc, expand_htab. kx.
  rewrite Hf, Z.eqb_refl. by rewrite Hsz.
Qed.

Lemma full_slots s i :
  ht_inv s [] -> htabsize s = 4194304 -> (i < Z.to_nat 4194304)%nat -> is_Some (slot s i).
Proof.
  intros I Hsz Hi. unfold htabsize in Hsz. destruct (lookup_lt_is_Some_2 (htab s) i) as [w Hw]; [lia|].
  unfold slot, entry. rewrite Hw. simpl. destruct (HUSED w) eqn:Hu; [by eexists|].
  apply (hv_free _ _ I i w Hw) in Hu. by apply elem_of_nil in Hu.
Qed.

Lemma refs_pos t i w : t !! i = Some w -> HUSED w = true -> (0 < refs t (HOBJ w))%nat.
Proof.
  intros Hw Hu. pose proof (refs_insert t i w 0 (HOBJ w) Hw) as Hr.
  rewrite decide_True in Hr by done. rewrite decide_False in Hr by (by intros [? _]). lia.
Qed.

(** A handle in use becomes the head of the free list. *)
Lemma inv_give s fl i w ob :
  ht_inv s fl -> htab s !! i = Some w -> HUSED w = true -> objs s !! HOBJ w = Some ob ->
  let s' := Handles (hs_mmu s) (<[i := hfreelist s]> (htab s)) (Z.of_nat i)
              (<[HOBJ w := set_handle_count (handle_count ob - 1) ob]> (objs s)) (hs_world s) in
  ht_inv s' (i :: fl) /\ (forall j, slot s' j = if decide (j = i) then None else slot s j).
Proof.
  intros I Hw Hwu Ho s'. pose proof (lookup_lt_Some _ _ _ Hw) as Hi. set (o := HOBJ w) in *.
  assert (i ∉ fl) as Hni by (rewrite (hv_free _ _ I i w Hw); by rewrite Hwu).
  pose proof (hchain_val _ _ _ (hv_chain _ _ I) (proj2 (hv_size _ _ I))) as Hv.
  destruct (low_unused _ Hv) as [Hu Hn]. pose proof (proj2 (hv_size _ _ I)) as Hmax.
  split.
  2:{ intros j. unfold s', slot. simpl. case_decide as Hd; [subst j|by rewrite list_lookup_insert_ne].
      rewrite list_lookup_insert_eq by done. simpl. unfold entry. by rewrite Hn. }
  split; unfold s'; cbn [hs_mmu htab hfreelist objs hs_world]; auto; try apply I.
  - simpl. split_and!; auto; [unfold HEND; lia|]. exists (hfreelist s). rewrite list_lookup_insert_eq by done.
    split_and!; auto. apply hchain_insert; [apply I|done].
  - constructor; [done|apply I].
  - intros j v. rewrite list_lookup_insert. case_decide as Hd; [destruct Hd as [<- _]; intros [= <-]|].
    + rewrite Hn. split; [done|by left].
    + intros Hj. rewrite elem_of_cons, (hv_free _ _ I j v Hj). split; [intros [->|?]; [tauto|done]|by right].
  - intros j v. rewrite list_lookup_insert. case_decide as Hd; [destruct Hd as [<- _]; intros [= <-]; by rewrite Hn|].
    intros Hj Hju. destruct (hv_used _ _ I j v Hj Hju) as [? Hs]. split; [done|].
    by destruct (decide (HOBJ v = o)) as [->|]; [rewrite lookup_insert_eq|rewrite lookup_insert_ne].
  - rewrite length_insert. apply I.
  - intros p pb. destruct (decide (p = o)) as [->|]; [intros _; by eapply (hv_addr _ _ I)|].
    rewrite lookup_insert_ne by done. apply I.
  - intros p pb Hp. pose proof (refs_insert _ _ _ (hfreelist s) p Hw) as Hr.
    rewrite (decide_False (P := HUSED (hfreelist s) = true /\ _)) in Hr by (rewrite Hn; by intros [? _]).
    destruct (decide (p = o)) as [->|Hpo].
    + rewrite lookup_insert_eq in Hp. injection Hp as <-. destruct (hv_count _ _ I o ob Ho) as (Hh & ? & ?).
      rewrite decide_True in Hr by done. simpl. split_and!; lia.
    + rewrite lookup_insert_ne in Hp by done. rewrite decide_False in Hr by (by intros [_ <-]).
      destruct (hv_count _ _ I p pb Hp) as (Hh & ? & ?). split_and!; lia.
Qed.

(** An object without handles goes away. *)
Lemma inv_destroy s fl o ob w :
  ht_inv s fl -> objs s !! o = Some ob -> handle_count ob = 0 ->
  ht_inv (set_objs (delete o (objs s)) (set_world w s)) fl.
Proof.
  intros I Ho Hc. destruct (hv_count _ _ I o ob Ho) as (Hr & _ & _).
  split; simpl; auto; try apply I.
  - intros i v Hi Hu. destruct (hv_used _ _ I i v Hi Hu) as [? Hs]. split; [done|].
    rewrite lookup_delete_ne; [done|]. intros ->. pose proof (refs_pos _ _ _ Hi Hu). lia.
  - intros p pb [_ Hp]%lookup_delete_Some. by apply (hv_addr _ _ I p pb).
  - intros p pb [_ Hp]%lookup_delete_Some. by apply (hv_count _ _ I p pb).
Qed.

(** The entry of a handle keeps its object. *)
Lemma inv_flag s fl i w v :
  ht_inv s fl -> htab s !! i = Some w -> HUSED w = true -> is_u32 v -> HUSED v = true -> HOBJ v = HOBJ w ->
  ht_inv (set_htab (<[i := v]> (htab s)) s) fl.
Proof.
  intros I Hw Hwu Hv Hvu Hvo. assert (i ∉ fl) as Hni by (rewrite (hv_free _ _ I i w Hw); by rewrite Hwu).
  split; simpl; auto; try apply I.
  - apply hchain_insert; [apply I|done].
  - intros j x. rewrite list_lookup_insert. case_decide as Hd; [destruct Hd as [<- _]; intros [= <-]|apply I].
    rewrite Hvu. split; done.
  - intros j x. rewrite list_lookup_insert. case_decide as Hd; [destruct Hd as [<- _]; intros [= <-] _|apply I].
    rewrite Hvo. split; [done|]. by apply (hv_used _ _ I i w).
  - rewrite length_insert. apply I.
  - intros p pb Hp. pose proof (refs_insert _ _ _ v p Hw) as Hr. rewrite Hvo, Hvu, Hwu in Hr.
    assert (refs (<[i := v]> (htab s)) p = refs (htab s) p) as -> by lia. by apply (hv_count _ _ I p pb).
Qed.

(** A change of an object that leaves its handle count. *)
Lemma inv_locks s fl o ob n :
  ht_inv s fl -> objs s !! o = Some ob -> 0 <= n < 65536 ->
  ht_inv (set_objs (<[o := set_lock_count n ob]> (objs s)) s) fl.
Proof.
  intros I Ho Hn. split; simpl; auto; try apply I.
  - intros i v Hi Hu. destruct (hv_used _ _ I i v Hi Hu) as [? Hs]. split; [done|].
    by destruct (decide (HOBJ v = o)) as [->|]; [rewrite lookup_insert_eq|rewrite lookup_insert_ne].
  - intros p pb. destruct (decide (p = o)) as [->|]; [intros _; by eapply (hv_addr _ _ I)|].
    rewrite lookup_insert_ne by done. apply I.
  - intros p pb. destruct (decide (p = o)) as [->|].
    + rewrite lookup_insert_eq. intros [= <-]. destruct (hv_count _ _ I o ob Ho) as (? & ? & ?). simpl; split_and!; lia.
    + rewrite lookup_insert_ne by done. apply I.
Qed.

Lemma hlookup_slot s fl h :
  ht_inv s fl -> hlookup h s = Done (if decide (0 <= h) then default 0 (fst <$> slot s (Z.to_nat h)) else 0, s).
Proof.
  intros I. unfold hlookup, htabsize. kx. destruct (Z.ltb_spec h 0); simpl; [by rewrite decide_False by lia|].
  rewrite decide_True by lia. destruct (Z.leb_spec (Z.of_nat (length (htab s))) h); simpl.
  - unfold slot. by rewrite lookup_ge_None_2 by lia.
  - destruct (lookup_lt_is_Some_2 (htab s) (Z.to_nat h)) as [w Hw]; [lia|].
    replace h with (Z.of_nat (Z.to_nat h)) at 1 by lia. rewrite (hread_done _ _ _ Hw).
    unfold slot. rewrite Hw. simpl. unfold entry. by destruct (HUSED w).
Qed.

(** The end of an object whose last handle is gone: it is closed, and
    destroyed unless somebody holds a lock on it. *)
Definition closed (s : H) (o : Z) (ob : object) (rc : Z) (s' : H) : Prop :=
  let '(rc', w1) := close_object o (hs_world s) in
  rc = rc' /\
  if lock_count ob =? 0 then objs s' = delete o (objs s) /\ hs_world s' = (destroy_object o w1).2
  else objs s' = <[o := set_handle_count 0 ob]> (objs s) /\ hs_world s' = w1.

Definition handle (s : H) (h : Z) : option (Z * bool) :=
  if decide (0 <= h) then slot s (Z.to_nat h) else None.

Lemma hlookup_handle s fl h : ht_inv s fl -> hlookup h s = Done (default 0 (fst <$> handle s h), s).
Proof. intros I. rewrite (hlookup_slot s fl h I). unfold handle. by case_decide. Qed.

Lemma handle_entry s fl h o b :
  ht_inv s fl -> handle s h = Some (o, b) ->
  exists w ob, 0 <= h /\ htab s !! Z.to_nat h = Some w /\ HUSED w = true /\ is_u32 w /\ HOBJ w = o /\ HPROT w = b /\
    objs s !! o = Some ob /\ o <> 0 /\ 1 <= handle_count ob < 65536 /\ hread h s = Done (w, s).
Proof.
  intros I. unfold handle, slot. case_decide; [|done].
  destruct (htab s !! Z.to_nat h) as [w|] eqn:Hw; [|done]. simpl. unfold entry.
  destruct (HUSED w) eqn:Hu; [|done]. intros [= <- <-].
  destruct (hv_used _ _ I _ _ Hw Hu) as [Hw32 [ob Ho]]. exists w, ob.
  destruct (hv_addr _ _ I _ _ Ho) as [Ha _]. unfold OSBASE in Ha.
  pose proof (refs_pos _ _ _ Hw Hu). destruct (hv_count _ _ I _ _ Ho) as (? & ? & _).
  pose proof (hread_done s (Z.to_nat h) w Hw) as Hr. rewrite Z2Nat.id in Hr by done.
  split_and!; auto; lia.
Qed.

Lemma last_handle_run s fl o ob :
  ht_inv s fl -> objs s !! o = Some ob -> handle_count ob = 0 ->
  exists rc s', last_handle o s = Done (rc, s') /\ ht_inv s' fl /\ htab s' = htab s /\
    let '(rc', w1) := close_object o (hs_world s) in
    rc = rc' /\
    if lock_count ob =? 0 then objs s' = delete o (objs s) /\ hs_world s' = (destroy_object o w1).2
    else objs s' = objs s /\ hs_world s' = w1.
Proof.
  intros I Ho Hc. unfold last_handle, close_obj, get_obj, destroy_obj. kx.
  destruct (close_object o (hs_world s)) as [rc w1]. cbn [objs set_world]. rewrite Ho.
  destruct (lock_count ob =? 0).
  - cbn [hs_world set_world]. destruct (destroy_object o w1) as [rc2 w2] eqn:Ed. eexists rc, _. split; [done|].
    split; [exact (inv_destroy s fl o ob w2 I Ho Hc)|]. simpl. done.
  - eexists rc, _. split; [done|]. split; [by destruct I; split|]. simpl. done.
Qed.

Lemma hfree_run s fl h o :
  ht_inv s fl -> handle s h = Some (o, false) ->
  exists ob rc s', objs s !! o = Some ob /\ hfree h s = Done (rc, s') /\ ht_inv s' (Z.to_nat h :: fl) /\
    (forall j, slot s' j = if decide (j = Z.to_nat h) then None else slot s j) /\
    (if 1 <? handle_count ob
     then rc = 0 /\ hs_world s' = hs_world s /\ objs s' = <[o := set_handle_count (handle_count ob - 1) ob]> (objs s)
     else closed s o ob rc s').
Proof.
  intros I Hh. destruct (handle_entry s fl h o false I Hh)
    as (w & ob & Hh0 & Hw & Hu & Hw32 & Ho & Hp & Hob & Hnz & Hcnt & Hr).
  exists ob. unfold hfree. kx. rewrite (hlookup_handle s fl h I), Hh. simpl (default 0 _).
  destruct (Z.eqb_spec o 0); [done|]. rewrite Hr, Hp.
  rewrite (hwrite_at s h w) by done. unfold get_obj, put_obj. kx. cbn [objs set_htab set_hfree]. rewrite Hob.
  assert (u16 (handle_count ob - 1) = handle_count ob - 1) as -> by (apply Z.mod_small; lia).
  rewrite <- Ho in Hob. destruct (inv_give s fl _ w ob I Hw Hu Hob) as [I' Hslot]. rewrite Ho in *.
  replace (set_hfree h (set_htab (<[Z.to_nat h := hfreelist s]> (htab s)) s)) with
    (set_hfree (Z.of_nat (Z.to_nat h)) (set_htab (<[Z.to_nat h := hfreelist s]> (htab s)) s)) by (by rewrite Z2Nat.id).
  destruct (Z.ltb_spec 0 (handle_count ob - 1)), (Z.ltb_spec 1 (handle_count ob)); try lia.
  - eexists 0, _. split; [done|]. split; [done|]. split; [exact I'|]. split; [exact Hslot|]. done.
  - assert (handle_count ob - 1 = 0) as Hz by lia.
    destruct (last_handle_run _ _ o (set_handle_count (handle_count ob - 1) ob) I') as (rc & s' & E & I2 & Ht & Hcl);
      [apply lookup_insert_eq|done|].
    exists rc, s'. split; [done|]. split; [exact E|]. split; [done|]. split.
    + intros j. rewrite <- Hslot. unfold slot. by rewrite Ht.
    + unfold closed. cbn [hs_world objs lock_count set_handle_count] in Hcl. rewrite Hz in Hcl.
      destruct (close_object o (hs_world s)) as [rc' w1]. destruct Hcl as [-> Hcl]. split; [done|].
      destruct (lock_count ob =? 0); [|done]. destruct Hcl as [-> ->]. split; [|done]. by rewrite delete_insert_eq.
Qed.

Lemma protect_run s fl h (b : bool) o b0 :
  ht_inv s fl -> handle s h = Some (o, b0) ->
  exists s', (if b then hprotect h else hunprotect h) s = Done (0, s') /\ ht_inv s' fl /\
    objs s' = objs s /\ hs_world s' = hs_world s /\
    (forall j, slot s' j = if decide (j = Z.to_nat h) then Some (o, b) else slot s j).
Proof.
  intros I Hh. destruct (handle_entry s fl h o b0 I Hh)
    as (w & ob & Hh0 & Hw & Hu & Hw32 & Ho & Hp & Hob & Hnz & Hcnt & Hr).
  pose proof (lookup_lt_Some _ _ _ Hw) as Hlt.
  assert (exists v, (if b then hprotect h else hunprotect h) s =
      Done (0, set_htab (<[Z.to_nat h := v]> (htab s)) s) /\
      is_u32 v /\ HUSED v = true /\ HOBJ v = HOBJ w /\ HPROT v = b) as (v & E & Hv & Hvu & Hvo & Hvp).
  { destruct b; [exists (Z.lor w HPROTECT)|exists (Z.land w (W32 - 1 - HPROTECT))];
      unfold hprotect, hunprotect; kx; rewrite (hlookup_handle s fl h I), Hh; simpl (default 0 _);
      (destruct (Z.eqb_spec o 0); [done|]); rewrite Hr;
      rewrite (hwrite_at s h w) by done;
      (split; [done|]); [by apply entry_set|by apply entry_clear]. }
  eexists. split; [exact E|]. split; [by apply (inv_flag s fl _ w v)|]. split_and!; auto.
  intros j. rewrite slot_insert by done. case_decide; [|done]. unfold entry. by rewrite Hvu, Hvo, Hvp, Ho.
Qed.

(** ** Specification

    To its users the table is a finite map from the handles below 4194304 to
    objects with a protection flag; [cl] is the result of closing an object. *)

Inductive hop := OpAlloc (o : Z) | OpFree (h : Z) | OpProtect (h : Z) | OpUnprotect (h : Z) | OpLookup (h : Z).

Definition exec (junk : list Z) (op : hop) : K H Z :=
  match op with
  | OpAlloc o => halloc junk o
  | OpFree h => hfree h
  | OpProtect h => hprotect h
  | OpUnprotect h => hunprotect h
  | OpLookup h => hlookup h
  end.

Definition set_prot (b : bool) (e : Z * bool) : Z * bool := (e.1, b).

Inductive aspec (cl : Z -> Z) (m : gmap Z (Z * bool)) : hop -> Z -> gmap Z (Z * bool) -> Prop :=
| as_alloc o h : 0 <= h < 4194304 -> m !! h = None -> aspec cl m (OpAlloc o) h (<[h := (o, false)]> m)
| as_alloc_full o : (forall h, 0 <= h < 4194304 -> is_Some (m !! h)) -> aspec cl m (OpAlloc o) (- ENFILE) m
| as_free_bad h : m !! h = None -> aspec cl m (OpFree h) (- EBADF) m
| as_free_protected h o : m !! h = Some (o, true) -> aspec cl m (OpFree h) (- EACCES) m
| as_free_shared h o k b :
    m !! h = Some (o, false) -> k <> h -> m !! k = Some (o, b) -> aspec cl m (OpFree h) 0 (delete h m)
| as_free_last h o :
    m !! h = Some (o, false) -> (forall k b, k <> h -> m !! k <> Some (o, b)) ->
    aspec cl m (OpFree h) (cl o) (delete h m)
| as_protect_bad h : m !! h = None -> aspec cl m (OpProtect h) (- EBADF) m
| as_protect h o b : m !! h = Some (o, b) -> aspec cl m (OpProtect h) 0 (<[h := (o, true)]> m)
| as_unprotect_bad h : m !! h = None -> aspec cl m (OpUnprotect h) (- EBADF) m
| as_unprotect h o b : m !! h = Some (o, b) -> aspec cl m (OpUnprotect h) 0 (<[h := (o, false)]> m)
| as_lookup h : aspec cl m (OpLookup h) (default 0 (fst <$> m !! h)) m.

(** The state implements the map, every handle in use stands for an object
    that exists, and the handle counts are right. *)
Definition implements (s : H) (m : gmap Z (Z * bool)) : Prop :=
  (forall h, handle s h = m !! h) /\ exists fl, ht_inv s fl.

(** Only [halloc] asks for something: an object that exists, and that has
    fewer handles than its 16-bit count can tell. *)
Definition op_ready (junk : list Z) (s : H) (op : hop) : Prop :=
  match op with
  | OpAlloc o => length junk = 1024%nat /\ exists ob, objs s !! o = Some ob /\ handle_count ob < 65535
  | _ => True
  end.

Lemma handle_slots s s' i v h :
  (forall j, slot s' j = if decide (j = i) then v else slot s j) ->
  handle s' h = if decide (h = Z.of_nat i) then v else handle s h.
Proof.
  intros Hs. unfold handle. destruct (decide (0 <= h)); [|by rewrite decide_False by lia].
  rewrite Hs. destruct (decide (h = Z.of_nat i)) as [->|].
  - by rewrite Nat2Z.id, decide_True.
  - by rewrite decide_False by lia.
Qed.

Lemma unused_run s fl h :
  ht_inv s fl -> handle s h = None ->
  hfree h s = Done (- EBADF, s) /\ hprotect h s = Done (- EBADF, s) /\ hunprotect h s = Done (- EBADF, s).
Proof.
  intros I Hh. unfold hfree, hprotect, hunprotect. kx. rewrite (hlookup_handle s fl h I), Hh. done.
Qed.

Lemma protected_run s fl h o :
  ht_inv s fl -> handle s h = Some (o, true) -> hfree h s = Done (- EACCES, s).
Proof.
  intros I Hh. destruct (handle_entry s fl h o true I Hh) as (w & ob & _ & _ & _ & _ & _ & Hp & _ & Hnz & _ & Hr).
  unfold hfree. kx. rewrite (hlookup_handle s fl h I), Hh. simpl (default 0 _).
  destruct (Z.eqb_spec o 0); [done|]. by rewrite Hr, Hp.
Qed.

Lemma protect_implements s m h (b : bool) :
  implements s m ->
  (m !! h = None /\ (if b then hprotect h else hunprotect h) s = Done (- EBADF, s)) \/
  exists o b0 s', m !! h = Some (o, b0) /\ (if b then hprotect h else hunprotect h) s = Done (0, s') /\
    implements s' (<[h := (o, b)]> m).
Proof.
  intros [Hm [fl I]]. destruct (handle s h) as [[o b0]|] eqn:Hh; rewrite <- Hm.
  - right. destruct (protect_run s fl h b o b0 I Hh) as (s' & E & I' & _ & _ & Hs).
    destruct (handle_entry s fl h o b0 I Hh) as (_ & _ & Hh0 & _).
    exists o, b0, s'. split; [done|]. split; [done|]. split; [|by eexists].
    intros k. rewrite (handle_slots s s' _ _ k Hs), Hm, Z2Nat.id by done.
    case_decide as Hd; [by subst; rewrite lookup_insert_eq|by rewrite lookup_insert_ne].
  - left. split; [done|]. by destruct (unused_run s fl h I Hh) as (_ & ? & ?), b.
Qed.

Lemma refs_pos_inv t o :
  (0 < refs t o)%nat -> exists i w, t !! i = Some w /\ HUSED w = true /\ HOBJ w = o.
Proof.
  unfold refs. intros Hr. destruct (filter _ t) as [|w l] eqn:E; [simpl in Hr; lia|].
  assert (w ∈ filter (fun w => HUSED w = true /\ HOBJ w = o) t) as Hw by (rewrite E; by left).
  apply list_elem_of_filter in Hw as [[Hu Ho] [i Hi]%list_elem_of_lookup]. by exists i, w.
Qed.

(** The count of an object tells whether it has another handle. *)
Lemma shared_handle s fl h o ob b0 :
  ht_inv s fl -> handle s h = Some (o, b0) -> objs s !! o = Some ob ->
  (1 < handle_count ob <-> exists k b, k <> h /\ handle s k = Some (o, b)).
Proof.
  intros I Hh Ho. destruct (handle_entry s fl h o b0 I Hh) as (w & ob' & Hh0 & Hw & Hu & _ & Hwo & _ & Hob & _).
  assert (ob' = ob) as -> by congruence. destruct (hv_count _ _ I o ob Ho) as (Hc & _).
  pose proof (refs_insert _ _ _ 0 o Hw) as Hr. rewrite decide_True in Hr by done.
  rewrite decide_False in Hr by (by intros [? _]). split.
  - intros H1. destruct (refs_pos_inv (<[Z.to_nat h := 0]> (htab s)) o) as (i & w' & Hi & Hu' & Ho'); [lia|].
    rewrite list_lookup_insert in Hi. case_decide as Hd; [by injection Hi as <-|].
    pose proof (lookup_lt_Some _ _ _ Hw). exists (Z.of_nat i), (HPROT w'). split; [intros <-; apply Hd; split; lia|].
    unfold handle, slot. rewrite decide_True, Nat2Z.id, Hi by lia. simpl. unfold entry. by rewrite Hu', Ho'.
  - intros (k & b & Hk & Hkb). destruct (handle_entry s fl k o b I Hkb) as (w' & _ & Hk0 & Hw' & Hu' & _ & Hwo' & _).
    assert (<[Z.to_nat h := 0]> (htab s) !! Z.to_nat k = Some w') as Hi by (rewrite list_lookup_insert_ne by lia; done).
    pose proof (refs_pos _ _ _ Hi Hu') as Hp. rewrite Hwo' in Hp. lia.
Qed.

Lemma alloc_implements junk s m o :
  implements s m -> op_ready junk s (OpAlloc o) ->
  (exists r s' m', halloc junk o s = Done (r, s') /\
    aspec (fun o => (close_object o (hs_world s)).1) m (OpAlloc o) r m' /\ implements s' m') \/
  (hfreelist s = HEND /\ freemem (m_pf (hs_mmu s)) < 2 /\ halloc junk o s = Panic "out of memory").
Proof.
  intros [Hm [fl I]] (Hj & ob & Ho & Hc).
  assert (fl = [] /\ htabsize s = 4194304 \/ (fl <> [] \/ (htabsize s < 4194304 /\ length junk = 1024%nat)))
    as [[-> Hsz]|Hroom].
  { pose proof (proj2 (hv_size _ _ I)) as Hs. fold (htabsize s) in Hs.
    destruct fl; [|by right; left]. destruct (Z.eq_dec (htabsize s) 4194304); [by left|right; right; split; [lia|done]]. }
  - left. exists (- ENFILE), s, m. split; [by apply halloc_full|]. split; [|by split; [|eexists]].
    constructor. intros h Hh. rewrite <- Hm. unfold handle. rewrite decide_True by lia. apply full_slots; [done|done|lia].
  - destruct (halloc_run s fl junk o ob I Ho Hc Hroom) as [(-> & Hf & E)|(h & fl' & s' & E & I' & Hn & Hs & _)].
    + right. by rewrite (hv_chain _ _ I).
    + left. exists (Z.of_nat h), s', (<[Z.of_nat h := (o, false)]> m). split; [done|].
      assert (Hk : forall k, handle s' k = <[Z.of_nat h := (o, false)]> m !! k).
      { intros k. rewrite (handle_slots s s' h _ k Hs), Hm.
        case_decide as Hd; [by subst; rewrite lookup_insert_eq|by rewrite lookup_insert_ne]. }
      split; [|split; [done|by eexists]]. constructor.
      * destruct (handle_entry s' fl' (Z.of_nat h) o false I') as (w & _ & _ & Hw & _);
          [by rewrite Hk, lookup_insert_eq|].
        pose proof (proj2 (hv_size _ _ I')). apply lookup_lt_Some in Hw. lia.
      * rewrite <- Hm. unfold handle. by rewrite decide_True, Nat2Z.id by lia.
Qed.

Lemma free_implements s m h :
  implements s m ->
  exists r s' m', hfree h s = Done (r, s') /\
    aspec (fun o => (close_object o (hs_world s)).1) m (OpFree h) r m' /\ implements s' m'.
Proof.
  intros [Hm [fl I]]. destruct (handle s h) as [[o [|]]|] eqn:Hh.
  - exists (- EACCES), s, m. split; [by eapply protected_run|].
    split; [econstructor; by rewrite <- Hm|by split; [|eexists]].
  - destruct (hfree_run s fl h o I Hh) as (ob & rc & s' & Ho & E & I' & Hs & Hrc).
    destruct (handle_entry s fl h o false I Hh) as (_ & _ & Hh0 & _).
    pose proof (shared_handle s fl h o ob false I Hh Ho) as Hsh.
    exists rc, s', (delete h m). split; [done|]. split.
    + destruct (Z.ltb_spec 1 (handle_count ob)) as [H1|H1].
      * destruct Hrc as (-> & _). apply Hsh in H1 as (k & b & Hk & Hkb).
        apply (as_free_shared _ _ h o k b); [by rewrite <- Hm|done|by rewrite <- Hm].
      * unfold closed in Hrc. destruct (close_object o (hs_world s)) as [rc' w1] eqn:Ec. destruct Hrc as [-> _].
        replace rc' with (close_object o (hs_world s)).1 by (by rewrite Ec).
        apply (as_free_last (fun o => (close_object o (hs_world s)).1) m h o); [by rewrite <- Hm|]. intros k b Hk. rewrite <- Hm. intros Hkb.
        assert (1 < handle_count ob) by (apply Hsh; by exists k, b). lia.
    + split; [|by eexists]. intros k. rewrite (handle_slots s s' _ _ k Hs), Hm, Z2Nat.id by done.
      case_decide as Hd; [by subst; rewrite lookup_delete_eq|by rewrite lookup_delete_ne].
  - exists (- EBADF), s, m. split; [by eapply unused_run|].
    split; [constructor; by rewrite <- Hm|by split; [|eexists]].
Qed.

(** C3: The handle table implements a map from handles to objects: every
    operation returns, does to the map what the specification says, and gives
    the specified result, errors included; the exception is [halloc], which
    stops the kernel if no handle and fewer than two page frames are free.
    Afterwards every handle in use again stands for an existing object and
    each object's count is the number of its handles.  This holds as long as
    [halloc] is called for objects with less than 65535 handles, the most
    that the 16-bit count can tell. *)
Theorem handles_refine junk s m op :
  implements s m -> op_ready junk s op ->
  (exists r s' m', exec junk op s = Done (r, s') /\
    aspec (fun o => (close_object o (hs_world s)).1) m op r m' /\ implements s' m') \/
  (exists o, op = OpAlloc o /\ hfreelist s = HEND /\ freemem (m_pf (hs_mmu s)) < 2 /\
    exec junk op s = Panic "out of memory").
Proof.
  intros Hi Hrdy. pose proof Hi as [Hm [fl I]]. destruct op as [o|h|h|h|h]; cbn [exec].
  - destruct (alloc_implements junk s m o Hi Hrdy) as [?|?]; [by left|right; by exists o].
  - left. by apply free_implements.
  - left. destruct (protect_implements s m h true Hi) as [[Hn E]|(o & b & s' & Hs & E & I')].
    + exists (- EBADF), s, m. split; [exact E|]. split; [by constructor|done].
    + eexists 0, s', _. split; [exact E|]. split; [by econstructor|done].
  - left. destruct (protect_implements s m h false Hi) as [[Hn E]|(o & b & s' & Hs & E & I')].
    + exists (- EBADF), s, m. split; [exact E|]. split; [by constructor|done].
    + eexists 0, s', _. split; [exact E|]. split; [by econstructor|done].
  - left. exists (default 0 (fst <$> handle s h)), s, m. split; [by eapply hlookup_handle|].
    split; [rewrite Hm; constructor|done].
Qed.

(** [hfree] on a handle in use that is not protected frees it, and the
    object is closed exactly if this was its last handle, and then destroyed
    exactly if nobody holds a lock on it. *)
Theorem hfree_closes_last s fl h o :
  ht_inv s fl -> handle s h = Some (o, false) ->
  exists ob rc s', objs s !! o = Some ob /\ handle_count ob = Z.of_nat (refs (htab s) o) /\
    hfree h s = Done (rc, s') /\ handle s' h = None /\
    (forall k, k <> h -> handle s' k = handle s k) /\
    (if 1 <? handle_count ob
     then rc = 0 /\ hs_world s' = hs_world s /\ objs s' = <[o := set_handle_count (handle_count ob - 1) ob]> (objs s)
     else closed s o ob rc s').
Proof.
  intros I Hh. destruct (hfree_run s fl h o I Hh) as (ob & rc & s' & Ho & E & _ & Hs & Hcl).
  destruct (handle_entry s fl h o false I Hh) as (_ & _ & Hh0 & _).
  exists ob, rc, s'. split_and!; auto; [by apply (hv_count _ _ I)|..].
  - by rewrite (handle_slots s s' _ _ h Hs), Z2Nat.id, decide_True.
  - intros k Hk. by rewrite (handle_slots s s' _ _ k Hs), Z2Nat.id, decide_False.
Qed.

Lemma unlink_stuck fuel s fl0 nx h :
  hread fl0 s = Done (nx, s) -> fl0 <> HEND -> h <> nx -> unlink_loop fuel h fl0 s = Hang.
Proof.
  intros Hr Hn Hne. induction fuel as [|fuel IH]; cbn [unlink_loop]; destruct (Z.eqb_spec fl0 HEND); try done.
  kx. rewrite Hr. by destruct (Z.eqb_spec h nx).
Qed.

(** C35: The search in [remove_from_freelist] never moves on, so that assigning
    an object to a free handle that is neither the first nor the second on the
    free list never returns, whatever bound is put on its iterations. *)
Theorem hassign_free_hangs s a b l1 h l2 o fuel junk :
  ht_inv s (a :: b :: l1 ++ h :: l2) -> hassign fuel junk o (Z.of_nat h) s = Hang.
Proof.
  intros I. pose proof (hv_chain _ _ I) as Hc. simpl in Hc.
  destruct Hc as (Ha & Hae & wa & Hwa & _ & -> & _ & wb & Hwb & _ & Hc).
  pose proof (hv_nodup _ _ I) as [Hna [Hnb Hnd]%NoDup_cons]%NoDup_cons.
  assert (h ∈ a :: b :: l1 ++ h :: l2) as Hin by (do 2 right; apply elem_of_mid).
  pose proof (hchain_bound _ _ _ _ (hv_chain _ _ I) Hin) as Hlt.
  destruct (lookup_lt_is_Some_2 (htab s) h Hlt) as [w Hw].
  assert (HUSED w = false) as Hu by (by apply (hv_free _ _ I h w Hw)).
  assert (h <> a /\ h <> b) as [Hha Hhb].
  { split; intros ->; [apply Hna; right|apply Hnb]; apply elem_of_mid. }
  pose proof (proj2 (hv_size _ _ I)) as Hmax.
  unfold hassign. kx. rewrite u32_small by u32_lia. change (HTABSIZE / 4) with 4194304.
  destruct (Z.ltb_spec 4194304 (Z.of_nat h)); [lia|].
  assert (expand_to fuel junk (Z.of_nat h) s = Done (0, s)) as ->.
  { destruct fuel; cbn [expand_to]; kx; unfold htabsize;
      destruct (Z.leb_spec (Z.of_nat (length (htab s))) (Z.of_nat h)); (done || lia). }
  change (0 <? 0) with false. cbn beta iota. rewrite (hread_done s h w Hw), Hu. cbn [negb].
  unfold remove_from_freelist. kx. rewrite Ha. destruct (Z.eqb_spec (Z.of_nat h) (Z.of_nat a)); [lia|].
  rewrite (unlink_stuck fuel s (Z.of_nat a) (Z.of_nat b) (Z.of_nat h)); [done|..].
  - by apply hread_done.
  - rewrite <- Ha. done.
  - lia.
Qed.

Lemma olock_run s fl h o b ob :
  ht_inv s fl -> handle s h = Some (o, b) -> objs s !! o = Some ob -> lock_count ob < 65535 ->
  olock h OBJECT_ANY s = Done (o, set_objs (<[o := set_lock_count (lock_count ob + 1) ob]> (objs s)) s).
Proof.
  intros I Hh Ho Hl. destruct (handle_entry s fl h o b I Hh)
    as (w & ob' & _ & _ & _ & _ & _ & _ & Hob & Hnz & Hcnt & _).
  assert (ob' = ob) as -> by congruence. destruct (hv_count _ _ I o ob Ho) as (_ & _ & Hlk).
  unfold olock, get_obj, put_obj. kx. rewrite (hlookup_handle s fl h I), Hh. simpl (default 0 _).
  destruct (Z.eqb_spec o 0); [done|]. rewrite Ho. rewrite Z.eqb_refl, andb_false_r.
  destruct (Z.eqb_spec (handle_count ob) 0); [lia|].
  by replace (u16 (lock_count ob + 1)) with (lock_count ob + 1) by (symmetry; apply Z.mod_small; lia).
Qed.

(** [dup2] of a handle onto itself closes the object if the handle is its
    only one: the handle stays in the table, but the object behind it has been
    closed, and if closing it failed it has even been destroyed. *)
Theorem dup2_same_closes fuel junk s fl h o ob rc w1 :
  ht_inv s fl -> handle s h = Some (o, false) -> objs s !! o = Some ob ->
  handle_count ob = 1 -> lock_count ob = 0 -> close_object o (hs_world s) = (rc, w1) ->
  exists s', handle s' h = Some (o, false) /\
    sys_dup2 fuel junk h h s = Done (if rc <? 0 then rc else 0, s') /\
    (if rc <? 0 then objs s' !! o = None /\ hs_world s' = (destroy_object o w1).2
     else objs s' !! o = Some ob /\ hs_world s' = w1).
Proof.
  intros I Hh Ho Hc Hl Hcl. destruct (handle_entry s fl h o false I Hh)
    as (w & ob' & Hh0 & Hw & Hu & Hw32 & Hwo & Hp & Hob & Hnz & Hcnt & Hr).
  pose proof (lookup_lt_Some _ _ _ Hw) as Hlt. pose proof (proj2 (hv_size _ _ I)) as Hmax.
  destruct (entry_obj o (hv_addr _ _ I o ob Ho)) as (Hou & Hoo & Hop).
  assert (Hh2 : forall s', htab s' = <[Z.to_nat h := o]> (htab s) -> handle s' h = Some (o, false)).
  { intros s' Ht. unfold handle, slot. rewrite decide_True, Ht, list_lookup_insert_eq by done. simpl.
    unfold entry. by rewrite Hou, Hoo, Hop. }
  assert (Hh1 : forall s', htab s' = htab s -> handle s' h = Some (o, false)).
  { intros s' Ht. rewrite <- Hh. unfold handle, slot. by rewrite Ht. }
  assert (expand_to fuel junk h (set_objs (<[o := set_lock_count 1 ob]> (objs s)) s) =
    Done (0, set_objs (<[o := set_lock_count 1 ob]> (objs s)) s)) as Hex.
  { destruct fuel; cbn [expand_to]; kx; unfold htabsize; cbn [htab set_objs];
      destruct (Z.leb_spec (Z.of_nat (length (htab s))) h); (done || lia). }
  unfold sys_dup2. kx. rewrite (olock_run s fl h o false ob I Hh Ho) by lia. rewrite Hl.
  destruct (Z.eqb_spec o 0); [done|]. unfold hassign. kx. rewrite u32_small by u32_lia.
  change (HTABSIZE / 4) with 4194304. destruct (Z.ltb_spec 4194304 h); [lia|]. change (0 + 1) with 1. rewrite Hex.
  change (0 <? 0) with false. cbn beta iota. unfold hread, hwrite. kx. cbn [htab set_objs].
  destruct (Z.leb_spec 0 h); [|lia]. rewrite Hw, Hu, Hp. cbn [negb]. rewrite Hwo. unfold get_obj, put_obj. kx.
  cbn [objs set_objs]. rewrite lookup_insert_eq. cbn [handle_count set_lock_count]. rewrite Hc.
  change (u16 (1 - 1)) with 0. cbn [Z.eqb]. unfold last_handle, close_obj, get_obj. kx.
  cbn [hs_world set_objs]. rewrite Hcl. cbn [objs set_world set_objs]. rewrite lookup_insert_eq.
  cbn [lock_count set_handle_count set_lock_count]. cbn [Z.eqb].
  unfold orel, destroy_obj, get_obj, put_obj, hread. kx. destruct (rc <? 0) eqn:Hrc.
  - cbn [objs set_world set_objs]. rewrite lookup_insert_eq. cbn [lock_count handle_count set_handle_count set_lock_count].
    change (u16 (1 - 1)) with 0. cbn [Z.eqb andb]. cbn [hs_world set_world set_objs].
    destruct (destroy_object o w1) as [rc2 w2]. eexists. split; [|split; [done|]]; [by apply Hh1|].
    simpl. by rewrite lookup_delete_eq.
  - cbn [htab set_world set_objs]. destruct (Z.leb_spec 0 h); [|lia]. rewrite Hw. cbn [objs set_htab set_world set_objs].
    rewrite lookup_insert_eq. cbn [objs set_htab set_world set_objs]. rewrite lookup_insert_eq.
    cbn [lock_count handle_count set_handle_count set_lock_count]. change (u16 (1 - 1)) with 0. change (u16 (0 + 1)) with 1.
    cbn [Z.eqb andb]. eexists. split; [|split; [done|]]; [by apply Hh2|]. simpl. rewrite lookup_insert_eq.
    split; [|done]. f_equal. destruct ob. simpl in *. by rewrite Hc, Hl.
Qed.

End ops.

(** ** Examples *)

(** An object component that records what happens to which object. *)
Inductive obj_event := Closed (o : Z) | Destroyed (o : Z).

#[export] Instance log_ops : ObjectOps (list obj_event) := {|
  close_object o l := (0, Closed o :: l);
  destroy_object o l := (0, Destroyed o :: l);
|}.

Definition demo_obj : Z := 0x92000010.
Definition demo_handles : handles (list obj_event) :=
  Handles demo_mmu [] HEND {[ demo_obj := Object 5 0 0 ]} [].
Definition demo_page : list Z := replicate 1024 0.

Lemma demo_handles_inv : ht_inv demo_handles [].
Proof.
  split; simpl; [done|constructor|done|done|split; [done|lia]|..|apply demo_mmu_wf];
    intros o ob [<- <-]%lookup_singleton_Some; [|done].
  split; [unfold OSBASE, demo_obj, W32; lia|done].
Qed.

Lemma handles_refine_witness :
  exists r s' m', exec demo_page (OpAlloc demo_obj) demo_handles = Done (r, s') /\
    aspec (fun _ => 0) ∅ (OpAlloc demo_obj) r m' /\ implements s' m'.
Proof.
  destruct (handles_refine demo_page demo_handles ∅ (OpAlloc demo_obj)) as [H|(o & _ & _ & Hf & _)].
  - split; [|exists []; apply demo_handles_inv].
    intros h. unfold handle, slot. by destruct (decide (0 <= h)).
  - split; [apply length_replicate|]. exists (Object 5 0 0). split; [apply lookup_singleton_eq|simpl; lia].
  - exact H.
  - vm_compute in Hf. discriminate.
Defined.

(** The table after the first [halloc]: handle 0 is in use. *)
Lemma demo_handle0 :
  exists s1 fl1, halloc demo_page demo_obj demo_handles = Done (0, s1) /\ ht_inv s1 fl1 /\
    handle s1 0 = Some (demo_obj, false) /\ objs s1 !! demo_obj = Some (Object 5 1 0) /\ hs_world s1 = [].
Proof.
  destruct (halloc_run demo_handles [] demo_page demo_obj (Object 5 0 0))
    as [(_ & Hf & _)|(h & fl & s1 & E & I & _ & Hs & Ho & Hw & _ & ->)];
    [apply demo_handles_inv|apply lookup_singleton_eq|simpl; lia| |vm_compute in Hf; discriminate|].
  { right. split; [reflexivity|apply length_replicate]. }
  exists s1, fl. split_and!; auto.
  - unfold handle. simpl. rewrite Hs. done.
  - rewrite Ho. apply lookup_insert_eq.
Qed.

Lemma hfree_closes_last_witness :
  exists s1 rc s2, halloc demo_page demo_obj demo_handles = Done (0, s1) /\ hfree 0 s1 = Done (rc, s2) /\
    handle s2 0 = None.
Proof.
  destruct demo_handle0 as (s1 & fl & E & I & Hh & _).
  destruct (hfree_closes_last s1 fl 0 demo_obj I Hh) as (ob & rc & s2 & _ & _ & E2 & Hn & _).
  exists s1, rc, s2. split; [exact E|]. split; [exact E2|exact Hn].
Defined.

Lemma dup2_same_closes_witness :
  exists s1 s2, halloc demo_page demo_obj demo_handles = Done (0, s1) /\
    sys_dup2 9 demo_page 0 0 s1 = Done (0, s2) /\ hs_world s2 = [Closed demo_obj].
Proof.
  destruct demo_handle0 as (s1 & fl & E & I & Hh & Ho & Hw).
  destruct (dup2_same_closes 9 demo_page s1 fl 0 demo_obj (Object 5 1 0) 0 [Closed demo_obj] I Hh Ho)
    as (s2 & _ & E2 & _ & Hw2); [reflexivity|reflexivity|by rewrite Hw|].
  exists s1, s2. split; [exact E|]. split; [exact E2|exact Hw2].
Defined.

Lemma hassign_free_hangs_witness :
  exists s1, expand_htab demo_page demo_handles = Done (0, s1) /\
    hassign 1000 demo_page demo_obj 2 s1 = Hang.
Proof.
  destruct (expand_htab_run demo_handles [] demo_page demo_handles_inv) as [[Hf _]|(s1 & E & I & _)];
    [reflexivity|apply length_replicate|vm_compute in Hf; discriminate|].
  exists s1. split; [exact E|].
  apply (hassign_free_hangs s1 0 1 [] 2 (seq 3 1021 ++ []) demo_obj 1000 demo_page). exact I.
Defined.
