(* ===== verification/Timer.v ===== *)
(** * Kernel timers (sys/krnl/timer.c)

    Timers hang on a hierarchy of five timer vectors: [tv1] has a list for
    each of the next 256 ticks, [tv2] to [tv5] have 64 lists each, whose
    timers are moved ("cascaded") to the vectors below when the clock reaches
    them.  The model keeps the doubly linked rings of the code: [nx] and [pv]
    are the [next] and [prev] fields of all links, and a link is either a list
    head inside a timer vector or the [link] field of a timer.

    The theorems: the timers of a vector are where the clock looks for them at
    the right tick, whatever is added, deleted and modified in between, with
    all the 32-bit wrap-around of the clock; [run_timer_list] returns, calls
    every timer procedure that is due, at its own tick and in the order of
    ticks, and leaves exactly the other timers active. *)

From Stdlib Require Import Sorting.Sorted.
From S2P Require Import Prelude.

(** ** Data *)

(** A [struct timer_link]: slot [i] of vector [tvecs[n]], or the link of timer
    [t], which a pointer to the timer is also a pointer to. *)
Inductive timer_link : Type :=
| TV (n : nat) (i : Z)
| TM (t : Z).

#[global] Instance timer_link_eq_dec : EqDecision timer_link.
Proof. solve_decision. Defined.

#[global] Program Instance timer_link_countable : Countable timer_link :=
  inj_countable' (fun r => match r with TV n i => inl (n, i) | TM t => inr t end)
                 (fun x => match x with inl (n, i) => TV n i | inr t => TM t end) _.
Next Obligation. by intros []. Qed.

(** A [struct timer], its link apart. *)
Record timer := mkTimer {
  expires : Z;
  active : bool;
  handler : Z;
  arg : Z }.

(** The globals of timer.c.  [calls] lists the calls of timer procedures so
    far, each with the value of [timer_ticks] it was made at. *)
Record twheel := mkTwheel {
  nx : gmap timer_link timer_link;
  pv : gmap timer_link timer_link;
  timers : gmap Z timer;
  index : list Z;
  timer_ticks : Z;
  ticks : Z;
  calls : list (Z * Z * Z) }.

Definition TVN_BITS : Z := 6.
Definition TVR_BITS : Z := 8.
Definition TVN_SIZE : Z := 64.
Definition TVR_SIZE : Z := 256.
Definition TVN_MASK : Z := 63.
Definition TVR_MASK : Z := 255.
Definition NOOF_TVECS : nat := 5.

Section Fields.
Local Open Scope k_scope.

(** Field accesses; [NULL] is a link that is not in the map. *)
Definition set_nx (r v : timer_link) : K twheel unit :=
  kmod (fun s => mkTwheel (<[r := v]> (nx s)) (pv s) (timers s) (index s)
                          (timer_ticks s) (ticks s) (calls s)).
Definition set_pv (r v : timer_link) : K twheel unit :=
  kmod (fun s => mkTwheel (nx s) (<[r := v]> (pv s)) (timers s) (index s)
                          (timer_ticks s) (ticks s) (calls s)).
Definition null_nx (r : timer_link) : K twheel unit :=
  kmod (fun s => mkTwheel (delete r (nx s)) (pv s) (timers s) (index s)
                          (timer_ticks s) (ticks s) (calls s)).
Definition null_pv (r : timer_link) : K twheel unit :=
  kmod (fun s => mkTwheel (nx s) (delete r (pv s)) (timers s) (index s)
                          (timer_ticks s) (ticks s) (calls s)).
Definition set_timer (t : Z) (tm : timer) : K twheel unit :=
  kmod (fun s => mkTwheel (nx s) (pv s) (<[t := tm]> (timers s)) (index s)
                          (timer_ticks s) (ticks s) (calls s)).
Definition set_index (n : nat) (i : Z) : K twheel unit :=
  kmod (fun s => mkTwheel (nx s) (pv s) (timers s) (<[n := i]> (index s))
                          (timer_ticks s) (ticks s) (calls s)).
Definition set_timer_ticks (v : Z) : K twheel unit :=
  kmod (fun s => mkTwheel (nx s) (pv s) (timers s) (index s) v (ticks s) (calls s)).
Definition log_call (h a : Z) : K twheel unit :=
  kmod (fun s => mkTwheel (nx s) (pv s) (timers s) (index s)
                          (timer_ticks s) (ticks s) (calls s ++ [(timer_ticks s, h, a)])).

Definition get_nx (r : timer_link) : K twheel timer_link :=
  let* s := kget in kopt (nx s !! r).
Definition get_pv (r : timer_link) : K twheel timer_link :=
  let* s := kget in kopt (pv s !! r).
Definition get_timer (t : Z) : K twheel timer :=
  let* s := kget in kopt (timers s !! t).
Definition get_index (n : nat) : K twheel Z :=
  let* s := kget in kopt (index s !! n).

Definition with_active (tm : timer) (b : bool) : timer :=
  mkTimer (expires tm) b (handler tm) (arg tm).
Definition with_expires (tm : timer) (e : Z) : timer :=
  mkTimer e (active tm) (handler tm) (arg tm).

(** ** Operations *)

(** The list head [attach_timer] chooses. *)
Definition attach_vec (expires timer_ticks index1 : Z) : timer_link :=
  let idx := u32 (expires - timer_ticks) in
  if idx <? TVR_SIZE then TV 0 (Z.land expires TVR_MASK)
  else if idx <? Z.shiftl 1 (TVR_BITS + TVN_BITS) then
    TV 1 (Z.land (Z.shiftr expires TVR_BITS) TVN_MASK)
  else if idx <? Z.shiftl 1 (TVR_BITS + 2 * TVN_BITS) then
    TV 2 (Z.land (Z.shiftr expires (TVR_BITS + TVN_BITS)) TVN_MASK)
  else if idx <? Z.shiftl 1 (TVR_BITS + 3 * TVN_BITS) then
    TV 3 (Z.land (Z.shiftr expires (TVR_BITS + 2 * TVN_BITS)) TVN_MASK)
  else if s32 idx <? 0 then TV 0 index1
  else TV 4 (Z.land (Z.shiftr expires (TVR_BITS + 3 * TVN_BITS)) TVN_MASK).

Definition attach_timer (t : Z) : K twheel unit :=
  let* tm := get_timer t in
  let* s := kget in
  let* index1 := get_index 0 in
  let vec := attach_vec (expires tm) (timer_ticks s) index1 in
  set_nx (TM t) vec ;;;
  let* p := get_pv vec in
  set_pv (TM t) p ;;;
  let* p := get_pv vec in
  set_nx p (TM t) ;;;
  set_pv vec (TM t) ;;;
  set_timer t (with_active tm true).

Definition detach_timer (t : Z) : K twheel Z :=
  let* tm := get_timer t in
  if negb (active tm) then kret 0
  else
    let* n := get_nx (TM t) in
    let* p := get_pv (TM t) in
    set_pv n p ;;;
    let* p := get_pv (TM t) in
    let* n := get_nx (TM t) in
    set_nx p n ;;;
    set_timer t (with_active tm false) ;;;
    kret 1.

(** One list head of the loops in [init_timers]. *)
Definition init_head (n : nat) (i : nat) : K twheel unit :=
  let v := TV n (Z.of_nat i) in set_pv v v ;;; set_nx v v.

Definition init_timers : K twheel unit :=
  kfor 64 0 (fun i => init_head 4 i ;;; init_head 3 i ;;; init_head 2 i ;;; init_head 1 i) ;;;
  kfor 256 0 (init_head 0).

(** [link.next] is cleared twice and [link.prev] not at all. *)
Definition init_timer (t h a : Z) : K twheel unit :=
  null_nx (TM t) ;;; null_nx (TM t) ;;; set_timer t (mkTimer 0 false h a).

Definition add_timer (t : Z) : K twheel unit :=
  let* tm := get_timer t in
  if active tm then kret tt else attach_timer t.

Definition del_timer (t : Z) : K twheel Z :=
  let* rc := detach_timer t in
  null_nx (TM t) ;;; null_pv (TM t) ;;; kret rc.

Definition mod_timer (t e : Z) : K twheel Z :=
  let* tm := get_timer t in
  set_timer t (with_expires tm e) ;;;
  let* rc := detach_timer t in
  attach_timer t ;;;
  kret rc.

Fixpoint cascade_walk (fuel : nat) (head curr : timer_link) : K twheel unit :=
  if decide (curr = head) then kret tt
  else match fuel, curr with
       | O, _ => khang
       | S fuel, TM t =>
           let* next := get_nx curr in
           attach_timer t ;;;
           cascade_walk fuel head next
       | S _, TV _ _ => kfault
       end.

Definition cascade_timers (fuel : nat) (n : nat) : K twheel unit :=
  let* i := get_index n in
  let head := TV n i in
  let* curr := get_nx head in
  cascade_walk fuel head curr ;;;
  set_pv head head ;;;
  set_nx head head ;;;
  let* i := get_index n in
  set_index n (Z.land (i + 1) TVN_MASK).

(** [do { cascade_timers(tvecs[n]); } while (tvecs[n]->index == 1 && ++n < NOOF_TVECS)];
    [rest] is the number of vectors from [n] on. *)
Fixpoint cascade_loop (fuel rest n : nat) : K twheel unit :=
  match rest with
  | O => kret tt
  | S rest =>
      cascade_timers fuel n ;;;
      let* i := get_index n in
      if i =? 1 then cascade_loop fuel rest (S n) else kret tt
  end.

End Fields.

Section Run.
(** What the timer procedures do; they are called with [timer_ticks] at the
    tick being processed. *)
Context (call : Z -> Z -> K twheel unit).
Local Open Scope k_scope.

(** The [while (1)] loop of [run_timer_list]: the timers of the current tick. *)
Fixpoint fire_loop (fuel : nat) : K twheel unit :=
  let* i := get_index 0 in
  let head := TV 0 i in
  let* curr := get_nx head in
  if decide (curr = head) then kret tt
  else match fuel, curr with
       | O, _ => khang
       | S fuel, TM t =>
           let* tm := get_timer t in
           let* _ := detach_timer t in
           null_pv (TM t) ;;; null_nx (TM t) ;;;
           log_call (handler tm) (arg tm) ;;;
           call (handler tm) (arg tm) ;;;
           fire_loop fuel
       | S _, TV _ _ => kfault
       end.

(** One iteration of the outer loop of [run_timer_list]. *)
Definition run_tick (fuel : nat) : K twheel unit :=
  let* i := get_index 0 in
  (if i =? 0 then cascade_loop fuel (NOOF_TVECS - 1) 1 else kret tt) ;;;
  fire_loop fuel ;;;
  let* s := kget in
  set_timer_ticks (u32 (timer_ticks s + 1)) ;;;
  let* i := get_index 0 in
  set_index 0 (Z.land (i + 1) TVR_MASK).

(** [n] bounds the ticks processed, [fuel] the timers of one list. *)
Fixpoint run_timer_list (n fuel : nat) : K twheel unit :=
  let* s := kget in
  if 0 <=? s32 (ticks s - timer_ticks s) then
    match n with
    | O => khang
    | S n => run_tick fuel ;;; run_timer_list n fuel
    end
  else kret tt.
End Run.

(** ** Doubly linked rings *)

(** [links nx pv a l b]: from [a] the links lead through [l] to [b], in both
    directions. *)
Fixpoint links (nx pv : gmap timer_link timer_link) (a : timer_link)
    (l : list timer_link) (b : timer_link) : Prop :=
  match l with
  | [] => nx !! a = Some b /\ pv !! b = Some a
  | x :: l => nx !! a = Some x /\ pv !! x = Some a /\ links nx pv x l b
  end.

Section Links.
Implicit Types (nx pv : gmap timer_link timer_link) (l : list timer_link).

Lemma links_app nx pv a l1 x l2 b :
  links nx pv a (l1 ++ x :: l2) b <-> links nx pv a l1 x /\ links nx pv x l2 b.
Proof.
  revert a. induction l1 as [|y l1 IH]; intros a; cbn [links app]; [tauto|].
  rewrite IH. tauto.
Qed.

Lemma links_frame nx pv nx' pv' a l b :
  (forall r, r ∈ a :: l -> nx' !! r = nx !! r) ->
  (forall r, r ∈ l ++ [b] -> pv' !! r = pv !! r) ->
  links nx pv a l b -> links nx' pv' a l b.
Proof.
  revert a. induction l as [|x l IH]; intros a Hn Hp; cbn [links].
  - rewrite Hn, Hp by set_solver. done.
  - rewrite (Hn a), (Hp x) by set_solver. intros (? & ? & ?).
    split_and!; [done..|]. apply IH; [set_solver..|done].
Qed.

(** Every link of a segment but the last keeps its successor; the last can be
    pointed somewhere else. *)
Lemma links_retarget nx pv a l b :
  links nx pv a l b -> NoDup (a :: l) ->
  exists p, pv !! b = Some p /\ nx !! p = Some b /\ p ∈ a :: l /\
    forall nx' pv' c,
      (forall r, r ∈ a :: l -> r <> p -> nx' !! r = nx !! r) ->
      (forall r, r ∈ l -> pv' !! r = pv !! r) ->
      nx' !! p = Some c -> pv' !! c = Some p -> links nx' pv' a l c.
Proof.
  revert a. induction l as [|x l IH]; intros a; cbn [links].
  - intros [Hn Hp] _. exists a. split_and!; [done|done|set_solver|]. done.
  - intros (Hn & Hp & Hl) Hnd. apply NoDup_cons in Hnd as [Ha Hnd].
    destruct (IH x Hl Hnd) as (p & Hpb & Hnb & Hin & Hre).
    exists p. split_and!; [done|done|set_solver|].
    intros nx' pv' c Hn' Hp' Hnc Hpc. split_and!.
    + rewrite Hn'; [done|set_solver|]. intros ->. set_solver.
    + rewrite Hp' by set_solver. done.
    + apply Hre; [|set_solver|done..]. intros r Hr Hrp. apply Hn'; [set_solver|done].
Qed.

(** Linking [t] in before the head [v] of a ring. *)
Lemma ring_attach nx pv v l t :
  links nx pv v l v -> NoDup (v :: l) -> t ∉ v :: l ->
  exists p, pv !! v = Some p /\ p ∈ v :: l /\
    links (<[p := t]> (<[t := v]> nx)) (<[v := t]> (<[t := p]> pv)) v (l ++ [t]) v.
Proof.
  intros Hl Hnd Ht. destruct (links_retarget _ _ _ _ _ Hl Hnd) as (p & Hpv & Hnp & Hin & Hre).
  exists p. split_and!; [done|done|]. apply links_app. split.
  - apply Hre.
    + intros r Hr Hrp. rewrite !lookup_insert_ne; [done|set_solver..].
    + intros r Hr. rewrite !lookup_insert_ne; [done| |]; intros ->.
      * set_solver.
      * apply NoDup_cons in Hnd as [? ?]. done.
    + by rewrite lookup_insert_eq.
    + rewrite lookup_insert_ne by set_solver. by rewrite lookup_insert_eq.
  - cbn [links]. rewrite lookup_insert_eq. split; [|done].
    rewrite lookup_insert_ne by set_solver. by rewrite lookup_insert_eq.
Qed.

(** Unlinking [t] from a ring. *)
Lemma ring_detach nx pv v l1 t l2 :
  links nx pv v (l1 ++ t :: l2) v -> NoDup (v :: l1 ++ t :: l2) ->
  exists n p, nx !! t = Some n /\ pv !! t = Some p /\
    n ∈ l2 ++ [v] /\ p ∈ v :: l1 /\
    links (<[p := n]> nx) (<[n := p]> pv) v (l1 ++ l2) v.
Proof.
  intros Hl Hnd. apply links_app in Hl as [Hl1 Hl2].
  assert (Hnd1 : NoDup (v :: l1)).
  { apply (NoDup_app (v :: l1) (t :: l2)). by rewrite <- app_comm_cons. }
  assert (Hnd2 : NoDup (t :: l2)).
  { apply (NoDup_app (v :: l1) (t :: l2)). by rewrite <- app_comm_cons. }
  assert (Hdis : forall r, r ∈ v :: l1 -> r ∉ t :: l2).
  { apply (NoDup_app (v :: l1) (t :: l2)). by rewrite <- app_comm_cons. }
  destruct (links_retarget _ _ _ _ _ Hl1 Hnd1) as (p & Hpv & Hnp & Hin & Hre).
  assert (Hout : forall n, n ∉ l1 -> links (<[p := n]> nx) (<[n := p]> pv) v l1 n).
  { intros n Hn. apply Hre.
    - intros r Hr Hrp. by rewrite lookup_insert_ne by done.
    - intros r Hr. rewrite lookup_insert_ne; [done|]. by intros ->.
    - by rewrite lookup_insert_eq.
    - by rewrite lookup_insert_eq. }
  destruct l2 as [|y l2]; cbn [links] in Hl2.
  - exists v, p. destruct Hl2 as [Hnt Hpt]. split_and!; [done|done|set_solver|done|].
    rewrite app_nil_r. apply Hout. by apply NoDup_cons in Hnd1 as [? ?].
  - exists y, p. destruct Hl2 as (Hnt & Hpt & Hl2). split_and!; [done|done|set_solver|done|].
    apply links_app. split; [apply Hout; set_solver|].
    apply NoDup_cons in Hnd2 as [_ Hnd2]. apply NoDup_cons in Hnd2 as [Hy _].
    revert Hl2. apply links_frame.
    + intros r Hr. rewrite lookup_insert_ne; [done|]. intros ->. set_solver.
    + intros r Hr. rewrite lookup_insert_ne; [done|]. intros ->.
      apply elem_of_app in Hr as [Hr|Hr]; [done|].
      apply list_elem_of_singleton in Hr. subst. set_solver.
Qed.
End Links.

(** ** Which list a timer belongs to *)

(** The slots of the timer vectors. *)
Definition vslot (n : nat) (i : Z) : Prop :=
  (n = 0%nat /\ 0 <= i < 256) \/ ((1 <= n <= 4)%nat /\ 0 <= i < 64).

(** A list of [tvecs[n]] spans [2 ^ sh n] ticks. *)
Definition sh (n : nat) : Z := 2 + 6 * Z.of_nat n.

(** The clock without wrap-around: [T] is the next tick to be processed, and
    [c n] the number of the span of [tvecs[n]] that is cascaded next.  A timer
    that expires at [e] belongs to slot [i] of [tvecs[n]]. *)
Definition place (T : Z) (c : nat -> Z) (e : Z) (n : nat) (i : Z) : Prop :=
  match n with
  | O => (T <= e < T + 256 /\ i = e mod 256) \/ (e < T /\ i = T mod 256)
  | _ => c n * 2 ^ sh n <= e < (c n + 64) * 2 ^ sh n /\ i = (e / 2 ^ sh n) mod 64
  end.

Definition clock (T : Z) (c : nat -> Z) : Prop :=
  forall n, (1 <= n <= 4)%nat -> T <= c n * 2 ^ sh n /\ (c n - 1) * 2 ^ sh n <= T.

Lemma sh_values : 2 ^ sh 1 = 256 /\ 2 ^ sh 2 = 16384 /\ 2 ^ sh 3 = 1048576 /\ 2 ^ sh 4 = 67108864.
Proof. done. Qed.

Lemma level_cases n : (1 <= n <= 4)%nat -> n = 1%nat \/ n = 2%nat \/ n = 3%nat \/ n = 4%nat.
Proof. lia. Qed.

Lemma slot_bits e k : 0 <= k <= 26 -> Z.land (Z.shiftr (u32 e) k) 63 = (e / 2 ^ k) mod 64.
Proof.
  intros Hk. change 63 with (Z.ones 6). change 64 with (2 ^ 6). unfold u32.
  change W32 with (2 ^ 32). rewrite <- Z.shiftr_div_pow2 by lia.
  apply Z.bits_inj'. intros m Hm. rewrite Z.land_spec, Z.shiftr_spec by lia.
  destruct (decide (m < 6)).
  - rewrite !Z.mod_pow2_bits_low, Z.ones_spec_low, Z.shiftr_spec by lia. by rewrite andb_true_r.
  - rewrite Z.ones_spec_high, (Z.mod_pow2_bits_high _ 6) by lia. by rewrite andb_false_r.
Qed.

Lemma root_bits e : Z.land (u32 e) 255 = e mod 256.
Proof.
  change 255 with (Z.ones 8). rewrite Z.land_ones by lia. unfold u32.
  change (2 ^ 8) with 256. rewrite Z.mod_mod_divide; [done|].
  by exists 16777216.
Qed.

Lemma u32_signed d : -2147483648 <= d < 2147483648 ->
  u32 d = if d <? 0 then d + W32 else d.
Proof.
  intros H. destruct (Z.ltb_spec d 0); [|apply u32_small; u32_lia].
  unfold u32. symmetry. apply (Z.mod_unique _ _ (-1)); u32_lia.
Qed.

(** The list [attach_timer] chooses is the place of the timer; a timer within
    the next span of a vector goes to a vector below. *)
Lemma attach_vec_place T c e :
  clock T c -> T - 2147483648 <= e < T + 2147483648 ->
  exists n i, attach_vec (u32 e) (u32 T) (T mod 256) = TV n i /\ vslot n i /\
    place T c e n i /\
    forall k, (1 <= k <= 4)%nat -> T <= e < T + 2 ^ sh k -> (n < k)%nat.
Proof.
  intros Hc He. unfold attach_vec. rewrite u32_sub_l, u32_sub_r, (u32_signed (e - T)) by lia.
  destruct sh_values as (S1 & S2 & S3 & S4).
  pose proof (Hc 1%nat ltac:(lia)) as C1. pose proof (Hc 2%nat ltac:(lia)) as C2.
  pose proof (Hc 3%nat ltac:(lia)) as C3. pose proof (Hc 4%nat ltac:(lia)) as C4.
  rewrite S1 in C1. rewrite S2 in C2. rewrite S3 in C3. rewrite S4 in C4.
  unfold TVR_SIZE, TVR_BITS, TVN_BITS, TVR_MASK, TVN_MASK.
  change (Z.shiftl 1 (8 + 6)) with 16384. change (Z.shiftl 1 (8 + 2 * 6)) with 1048576.
  change (Z.shiftl 1 (8 + 3 * 6)) with 67108864. rewrite root_bits.
  change (8 + 6) with 14. change (8 + 2 * 6) with 20. change (8 + 3 * 6) with 26.
  rewrite !slot_bits by lia.
  assert (Hk : forall k, (1 <= k <= 4)%nat -> k = 1%nat \/ k = 2%nat \/ k = 3%nat \/ k = 4%nat)
    by apply level_cases.
  pose proof (Z.mod_pos_bound e 256 ltac:(lia)). pose proof (Z.mod_pos_bound T 256 ltac:(lia)).
  destruct (Z.ltb_spec (e - T) 0) as [Hd|Hd].
  { rewrite (proj2 (Z.ltb_ge (e - T + W32) 256)), (proj2 (Z.ltb_ge (e - T + W32) 16384)),
      (proj2 (Z.ltb_ge (e - T + W32) 1048576)), (proj2 (Z.ltb_ge (e - T + W32) 67108864)) by u32_lia.
    exists 0%nat, (T mod 256). split_and!; [|left; lia|right; lia|intros; lia].
    destruct (Z.ltb_spec (s32 (e - T + W32)) 0) as [|Hs]; [done|exfalso].
    unfold s32 in Hs. rewrite u32_small in Hs by u32_lia.
    destruct (Z.ltb_spec (e - T + W32) 2147483648); u32_lia. }
  rewrite s32_small by lia.
  destruct (Z.ltb_spec (e - T) 256); [|destruct (Z.ltb_spec (e - T) 16384);
    [|destruct (Z.ltb_spec (e - T) 1048576); [|destruct (Z.ltb_spec (e - T) 67108864);
    [|destruct (Z.ltb_spec (e - T) 0); [lia|]]]]].
  - exists 0%nat, (e mod 256). split_and!; [done|left; lia|left; lia|intros; lia].
  - exists 1%nat, ((e / 2 ^ 8) mod 64). split_and!; [done|right; split; [lia|by apply Z.mod_pos_bound]| |].
    + cbn [place]. rewrite S1. split; [lia|done].
    + intros k Hkk Hb. destruct (Hk k Hkk) as [->|[->|[->| ->]]]; lia.
  - exists 2%nat, ((e / 2 ^ 14) mod 64). split_and!; [done|right; split; [lia|by apply Z.mod_pos_bound]| |].
    + cbn [place]. rewrite S2. split; [lia|done].
    + intros k Hkk Hb. destruct (Hk k Hkk) as [->|[->|[->| ->]]]; lia.
  - exists 3%nat, ((e / 2 ^ 20) mod 64). split_and!; [done|right; split; [lia|by apply Z.mod_pos_bound]| |].
    + cbn [place]. rewrite S3. split; [lia|done].
    + intros k Hkk Hb. destruct (Hk k Hkk) as [->|[->|[->| ->]]]; lia.
  - exists 4%nat, ((e / 2 ^ 26) mod 64). split_and!; [done|right; split; [lia|by apply Z.mod_pos_bound]| |].
    + cbn [place]. rewrite S4. split; [lia|done].
    + intros k Hkk Hb. destruct (Hk k Hkk) as [->|[->|[->| ->]]]; lia.
Qed.

(** ** The rings of all the slots *)

Definition tbuckets : Type := nat -> Z -> list Z.

Definition bput (b : tbuckets) (n : nat) (i : Z) (l : list Z) : tbuckets :=
  fun m j => if decide (m = n /\ j = i) then l else b m j.

Lemma bput_eq b n i l : bput b n i l n i = l.
Proof. unfold bput. by rewrite decide_True by done. Qed.

Lemma bput_ne b n i l m j : ~ (m = n /\ j = i) -> bput b n i l m j = b m j.
Proof. intros H. unfold bput. by rewrite decide_False by done. Qed.

(** No timer is on two lists or twice on one. *)
Record shaped (b : tbuckets) : Prop := {
  sh_nodup n i : NoDup (b n i);
  sh_disj n i m j t : t ∈ b n i -> t ∈ b m j -> n = m /\ i = j;
  sh_slot n i t : t ∈ b n i -> vslot n i }.

(** The slots that satisfy [P] head rings of their timers. *)
Definition rings (P : nat -> Z -> Prop) (nx pv : gmap timer_link timer_link) (b : tbuckets) : Prop :=
  forall n i, vslot n i -> P n i -> links nx pv (TV n i) (TM <$> b n i) (TV n i).

Lemma NoDup_TM (l : list Z) n i : NoDup l -> NoDup (TV n i :: (TM <$> l)).
Proof.
  intros H. constructor; [set_solver|]. apply NoDup_fmap_2; [|done]. intros x y Hxy. congruence.
Qed.

Lemma TM_in t (l : list Z) : TM t ∈ TM <$> l <-> t ∈ l.
Proof. rewrite list_elem_of_fmap. naive_solver. Qed.

Lemma TV_in n i (l : list Z) : TV n i ∉ TM <$> l.
Proof. rewrite list_elem_of_fmap. naive_solver. Qed.

Section Rings.
Context (P : nat -> Z -> Prop) (nx pv : gmap timer_link timer_link) (b : tbuckets).
Context (Hr : rings P nx pv b) (Hs : shaped b).

(** The links of two different rings are different. *)
Lemma rings_apart n i m j r :
  ~ (m = n /\ j = i) -> r ∈ TV n i :: (TM <$> b n i) -> r ∉ TV m j :: (TM <$> b m j).
Proof.
  intros Hne. rewrite !elem_of_cons, !list_elem_of_fmap.
  intros [->|(t & -> & Ht)] [Hq|(u & Hu & Hq)]; try congruence.
  - injection Hq as <- <-. tauto.
  - injection Hu as <-. destruct (sh_disj b Hs n i m j t Ht Hq). subst. tauto.
Qed.

Lemma rings_attach n i t :
  vslot n i -> P n i -> (forall m j, t ∉ b m j) ->
  exists p, pv !! TV n i = Some p /\ p ∈ TV n i :: (TM <$> b n i) /\
    rings P (<[p := TM t]> (<[TM t := TV n i]> nx)) (<[TV n i := TM t]> (<[TM t := p]> pv))
      (bput b n i (b n i ++ [t])).
Proof.
  intros Hv HP Ht.
  destruct (ring_attach nx pv (TV n i) (TM <$> b n i) (TM t)) as (p & Hp & Hin & Hl).
  { by apply Hr. }
  { apply NoDup_TM, Hs. }
  { rewrite elem_of_cons, TM_in. intros [?|?]; [done|]. by eapply Ht. }
  exists p. split_and!; [done|done|]. intros m j Hvm HPm.
  destruct (decide (m = n /\ j = i)) as [[-> ->]|Hne].
  - rewrite bput_eq, fmap_app. done.
  - rewrite bput_ne by done. generalize (Hr m j Hvm HPm). apply links_frame.
    + intros r Hrr. assert (r <> TM t) by (intros ->; set_solver).
      rewrite lookup_insert_ne; [by rewrite lookup_insert_ne|].
      intros ->. by apply (rings_apart n i m j r).
    + intros r Hrr. assert (r <> TM t) by (intros ->; set_solver).
      rewrite lookup_insert_ne; [by rewrite lookup_insert_ne|].
      intros <-. apply (rings_apart n i m j (TV n i)); set_solver.
Qed.

Lemma rings_detach n i l1 t l2 :
  vslot n i -> P n i -> b n i = l1 ++ t :: l2 ->
  exists x p, nx !! TM t = Some x /\ pv !! TM t = Some p /\ x <> TM t /\ p <> TM t /\
    rings P (<[p := x]> nx) (<[x := p]> pv) (bput b n i (l1 ++ l2)).
Proof.
  intros Hv HP Hb.
  destruct (ring_detach nx pv (TV n i) (TM <$> l1) (TM t) (TM <$> l2)) as (x & p & Hx & Hp & Hxi & Hpi & Hl).
  { rewrite <- fmap_cons, <- fmap_app, <- Hb. by apply Hr. }
  { rewrite <- fmap_cons, <- fmap_app, <- Hb. apply NoDup_TM, Hs. }
  assert (Hnd : NoDup (l1 ++ t :: l2)) by (rewrite <- Hb; apply Hs).
  apply NoDup_app in Hnd as (_ & Hd1 & Hd2). apply NoDup_cons in Hd2 as [Hd2 _].
  assert (Hx1 : x ∈ TV n i :: (TM <$> b n i)).
  { rewrite Hb, fmap_app, fmap_cons. set_solver. }
  assert (Hp1 : p ∈ TV n i :: (TM <$> b n i)).
  { rewrite Hb, fmap_app, fmap_cons. set_solver. }
  exists x, p. split_and!; [done|done| | |].
  - intros ->. rewrite elem_of_app, TM_in, list_elem_of_singleton in Hxi. naive_solver.
  - intros ->. rewrite elem_of_cons, TM_in in Hpi. destruct Hpi as [|Hpi]; [done|]. set_solver.
  - intros m j Hvm HPm. destruct (decide (m = n /\ j = i)) as [[-> ->]|Hne].
    + rewrite bput_eq, fmap_app. done.
    + rewrite bput_ne by done. generalize (Hr m j Hvm HPm). apply links_frame.
      * intros r Hrr. rewrite lookup_insert_ne; [done|]. intros ->.
        by apply (rings_apart n i m j r).
      * intros r Hrr. rewrite lookup_insert_ne; [done|]. intros ->.
        apply (rings_apart n i m j r); set_solver.
Qed.
End Rings.

Lemma shaped_attach b n i t :
  shaped b -> vslot n i -> (forall m j, t ∉ b m j) -> shaped (bput b n i (b n i ++ [t])).
Proof.
  intros Hs Hv Ht. assert (Hcase : forall m j u, u ∈ bput b n i (b n i ++ [t]) m j ->
    u ∈ b m j \/ (u = t /\ m = n /\ j = i)).
  { intros m j u. unfold bput. destruct (decide _) as [[-> ->]|]; [|tauto].
    rewrite elem_of_app, list_elem_of_singleton. naive_solver. }
  split.
  - intros m j. unfold bput. destruct (decide _); [|apply Hs].
    apply NoDup_app. split_and!; [apply Hs| |apply NoDup_singleton].
    intros u Hu Hq. apply list_elem_of_singleton in Hq. subst. by apply (Ht n i).
  - intros m j m' j' u Hu Hu'. apply Hcase in Hu, Hu'.
    destruct Hu as [Hu|(-> & -> & ->)], Hu' as [Hu'|(Hu' & -> & ->)]; subst.
    + by eapply Hs.
    + by apply Ht in Hu.
    + by apply Ht in Hu'.
    + done.
  - intros m j u Hu. apply Hcase in Hu as [Hu|(-> & -> & ->)]; [by eapply Hs|done].
Qed.

Lemma shaped_sub b n i l :
  shaped b -> NoDup l -> (forall t, t ∈ l -> t ∈ b n i) -> shaped (bput b n i l).
Proof.
  intros Hs Hn Hl. assert (Hcase : forall m j u, u ∈ bput b n i l m j -> u ∈ b m j).
  { intros m j u. unfold bput. destruct (decide _) as [[-> ->]|]; [apply Hl|done]. }
  split.
  - intros m j. unfold bput. destruct (decide _); [done|apply Hs].
  - intros m j m' j' u Hu Hu'. by eapply Hs; apply Hcase.
  - intros m j u Hu. by eapply Hs, Hcase.
Qed.

(** ** The invariant of the timer vectors *)

(** Timer [t] is active and expires at [E t], within half the clock's range. *)
Definition enlisted (s : twheel) (T : Z) (E : Z -> Z) (t : Z) : Prop :=
  exists tm, timers s !! t = Some tm /\ active tm = true /\ expires tm = u32 (E t) /\
    T - 2147483648 <= E t < T + 2147483648.

(** The slots that satisfy [P] hold the timers [b] in their places; the timers
    of [rem] are active but on no list. *)
Record wheel_on (P : nat -> Z -> Prop) (rem : list Z) (s : twheel) (T : Z) (c : nat -> Z)
    (b : tbuckets) (E : Z -> Z) : Prop := {
  w_ticks : timer_ticks s = u32 T;
  w_index : index s = [T mod 256; c 1%nat mod 64; c 2%nat mod 64; c 3%nat mod 64; c 4%nat mod 64];
  w_clock : clock T c;
  w_shaped : shaped b;
  w_rings : rings P (nx s) (pv s) b;
  w_in n i t : t ∈ b n i -> enlisted s T E t /\ place T c (E t) n i;
  w_rem t : t ∈ rem -> enlisted s T E t /\ forall n i, t ∉ b n i;
  w_active t tm : timers s !! t = Some tm -> active tm = true ->
    (exists n i, t ∈ b n i) \/ t ∈ rem }.

Definition wheel : twheel -> Z -> (nat -> Z) -> tbuckets -> (Z -> Z) -> Prop :=
  wheel_on (fun _ _ => True) [].

(** Everything but the links, the timers and the list of calls is the same. *)
Definition same_clock (s s' : twheel) : Prop :=
  index s' = index s /\ timer_ticks s' = timer_ticks s /\ ticks s' = ticks s.

#[global] Instance same_clock_preorder : PreOrder same_clock.
Proof. unfold same_clock. split; [done|]. intros s1 s2 s3. naive_solver congruence. Qed.

Definition set_due (E : Z -> Z) (t e : Z) : Z -> Z := fun u => if decide (u = t) then e else E u.

Lemma enlisted_other s s' T E E' t u :
  u <> t -> (forall v, v <> t -> timers s' !! v = timers s !! v) ->
  (forall v, v <> t -> E' v = E v) ->
  enlisted s T E u -> enlisted s' T E' u.
Proof. intros Hu Ht HE (tm & H). exists tm. by rewrite Ht, HE by done. Qed.

(** Links that are on no ring do not matter. *)
Lemma rings_frame P nx pv nx' pv' b :
  (forall n i r, P n i -> r ∈ TV n i :: (TM <$> b n i) -> nx' !! r = nx !! r /\ pv' !! r = pv !! r) ->
  rings P nx pv b -> rings P nx' pv' b.
Proof.
  intros Hf Hr n i Hv HP. generalize (Hr n i Hv HP). apply links_frame.
  - intros r H. by apply (Hf n i).
  - intros r H. apply (Hf n i); [done|]. set_solver.
Qed.

Section Attach.
Context (P : nat -> Z -> Prop) (rem : list Z) (s : twheel) (T : Z) (c : nat -> Z).
Context (b : tbuckets) (E : Z -> Z) (HW : wheel_on P rem s T c b E).

Lemma attach_run t tm e rem' :
  timers s !! t = Some tm -> expires tm = u32 e -> T - 2147483648 <= e < T + 2147483648 ->
  (forall n i, t ∉ b n i) ->
  (forall n i, vslot n i -> place T c e n i ->
     (forall k, (1 <= k <= 4)%nat -> T <= e < T + 2 ^ sh k -> (n < k)%nat) -> P n i) ->
  t ∉ rem' -> (forall u, u ∈ rem' -> u ∈ rem) -> (forall u, u ∈ rem -> u = t \/ u ∈ rem') ->
  exists s' n i, attach_timer t s = Done (tt, s') /\ P n i /\
    wheel_on P rem' s' T c (bput b n i (b n i ++ [t])) (set_due E t e) /\
    timers s' = <[t := with_active tm true]> (timers s) /\ same_clock s s' /\ calls s' = calls s /\
    forall r, r <> TM t -> (forall m j, P m j -> r ∉ TV m j :: (TM <$> b m j)) -> nx s' !! r = nx s !! r.
Proof.
  intros Htm He Her Ht HP Hr1 Hr2 Hr3. destruct HW as [Wt Wi Wc Ws Wr Win Wrem Wa].
  destruct (attach_vec_place T c e Wc Her) as (n & i & Hvec & Hv & Hpl & Hlow).
  specialize (HP n i Hv Hpl Hlow).
  destruct (rings_attach P (nx s) (pv s) b Wr Ws n i t Hv HP Ht) as (p & Hp & Hpin & Hrings).
  eexists _, n, i. split.
  { unfold attach_timer, get_timer, get_index, get_pv, set_nx, set_pv, set_timer. kx.
    rewrite Htm, Wi. cbn [lookup list_lookup]. rewrite He, Wt, Hvec. cbn [nx pv timers index].
    rewrite Hp. cbn [nx pv timers index]. rewrite lookup_insert_ne by done. rewrite Hp. reflexivity. }
  split; [done|]. split; [|split; [|split; [|split]]]; cbn [timers index timer_ticks ticks calls nx];
    try done.
  2:{ intros r Hrt Hrr. rewrite !lookup_insert_ne; [done|done|].
      intros ->. by apply (Hrr n i). }
  assert (Hcase : forall m j u, u ∈ bput b n i (b n i ++ [t]) m j ->
    (u <> t /\ u ∈ b m j) \/ (u = t /\ m = n /\ j = i)).
  { intros m j u. unfold bput. destruct (decide _) as [[-> ->]|].
    - rewrite elem_of_app, list_elem_of_singleton. intros [Hu|Hu]; [|tauto].
      left. split; [|done]. intros ->. by apply Ht in Hu.
    - intros Hu. left. split; [|done]. intros ->. by apply Ht in Hu. }
  assert (Hoth : forall u, u <> t -> enlisted s T E u -> enlisted
     (mkTwheel (<[p:=TM t]> (<[TM t:=TV n i]> (nx s))) (<[TV n i:=TM t]> (<[TM t:=p]> (pv s)))
       (<[t:=with_active tm true]> (timers s)) (index s) (timer_ticks s) (ticks s) (calls s))
     T (set_due E t e) u).
  { intros u Hu. apply (enlisted_other _ _ _ _ _ t); [done| |].
    - intros v Hvt. cbn [timers]. by rewrite lookup_insert_ne.
    - intros v Hvt. unfold set_due. by rewrite decide_False. }
  split; cbn [timers index timer_ticks nx pv]; try done.
  - by apply shaped_attach.
  - intros m j u Hu. apply Hcase in Hu as [[Hut Hu]|(-> & -> & ->)].
    + destruct (Win m j u Hu). split; [by apply Hoth|]. unfold set_due. by rewrite decide_False.
    + unfold set_due at 2. rewrite decide_True by done. split; [|done].
      exists (with_active tm true). cbn [timers]. rewrite lookup_insert_eq.
      unfold set_due. rewrite decide_True by done. done.
  - intros u Hu. assert (u <> t) by (by intros ->). destruct (Wrem u (Hr2 u Hu)) as [H1 H2].
    split; [by apply Hoth|]. intros m j Hin. apply Hcase in Hin as [[_ Hin]|[-> _]]; [by eapply H2|done].
  - intros u um Hu Hact. destruct (decide (u = t)) as [->|Hut].
    + left. exists n, i. rewrite bput_eq. set_solver.
    + rewrite lookup_insert_ne in Hu by done. destruct (Wa u um Hu Hact) as [(m & j & Hin)|Hin].
      * left. exists m, j. unfold bput. destruct (decide _) as [[-> ->]|]; set_solver.
      * destruct (Hr3 u Hin) as [->|]; [done|]. by right.
Qed.

Lemma detach_run n i l1 t l2 :
  P n i -> b n i = l1 ++ t :: l2 ->
  exists s' tm, timers s !! t = Some tm /\ detach_timer t s = Done (1, s') /\
    wheel_on P rem s' T c (bput b n i (l1 ++ l2)) E /\
    timers s' = <[t := with_active tm false]> (timers s) /\ same_clock s s' /\ calls s' = calls s.
Proof.
  intros HP Hb. destruct HW as [Wt Wi Wc Ws Wr Win Wrem Wa].
  assert (Hin : t ∈ b n i) by (rewrite Hb; apply elem_of_mid).
  pose proof (sh_slot b Ws n i t Hin) as Hv. pose proof (sh_nodup b Ws n i) as Hnd. rewrite Hb in Hnd.
  destruct (rings_detach P (nx s) (pv s) b Wr Ws n i l1 t l2 Hv HP Hb)
    as (x & p & Hx & Hp & Hxt & Hpt & Hrings).
  destruct (Win n i t Hin) as [(tm & Htm & Hact & _) _].
  eexists _, tm. split; [done|]. split.
  { unfold detach_timer, get_timer, get_nx, get_pv, set_nx, set_pv, set_timer. kx.
    rewrite Htm, Hact. cbn [negb]. rewrite Hx. cbn [nx pv timers]. rewrite Hp. cbn [nx pv timers].
    rewrite lookup_insert_ne by done. rewrite Hp. cbn [nx pv timers]. rewrite Hx. reflexivity. }
  split; [|done].
  assert (Hcase : forall m j u, u ∈ bput b n i (l1 ++ l2) m j -> u <> t /\ u ∈ b m j).
  { intros m j u. unfold bput. destruct (decide _) as [[-> ->]|Hne].
    - rewrite Hb. intros Hu. split; [|by apply elem_of_mid_weaken].
      intros ->. apply NoDup_app in Hnd as (_ & H1 & H2). apply NoDup_cons in H2 as [H2 _]. set_solver.
    - intros Hu. split; [|done]. intros ->. destruct (sh_disj b Ws _ _ _ _ t Hin Hu). subst. tauto. }
  split; cbn [timers index timer_ticks nx pv]; try done.
  - apply shaped_sub; [done| |].
    + apply NoDup_app in Hnd as (? & H1 & H2). apply NoDup_cons in H2 as [H2 ?].
      apply NoDup_app. split_and!; [done| |done]. intros u Hu. apply H1 in Hu. set_solver.
    + intros u Hu. rewrite Hb. by apply elem_of_mid_weaken.
  - intros m j u Hu. apply Hcase in Hu as [Hut Hu]. destruct (Win m j u Hu). split; [|done].
    apply (enlisted_other s _ _ E _ t); [done| |done|done].
    intros v Hvt. cbn [timers]. by rewrite lookup_insert_ne.
  - intros u Hu. destruct (Wrem u Hu) as [H1 H2]. split.
    + apply (enlisted_other s _ _ E _ t); [| |done|done].
      * intros ->. by apply (H2 n i).
      * intros v Hvt. cbn [timers]. by rewrite lookup_insert_ne.
    + intros m j Hin'. apply Hcase in Hin' as [_ Hin']. by eapply H2.
  - intros u um Hu Hua. destruct (decide (u = t)) as [->|Hut].
    + rewrite lookup_insert_eq in Hu. injection Hu as <-. done.
    + rewrite lookup_insert_ne in Hu by done. destruct (Wa u um Hu Hua) as [(m & j & Hu')|]; [left|by right].
      exists m, j. unfold bput. destruct (decide _) as [[-> ->]|]; [|done]. rewrite Hb in Hu'. set_solver.
Qed.
End Attach.

(** ** Cascading *)

(** The [next] pointers lead from [curr] through the timers [l] to [head]. *)
Fixpoint path (nx : gmap timer_link timer_link) (curr : timer_link) (l : list Z)
    (head : timer_link) : Prop :=
  match l with
  | [] => curr = head
  | t :: l => curr = TM t /\ exists y, nx !! TM t = Some y /\ path nx y l head
  end.

Lemma links_path nx pv a l b :
  links nx pv a (TM <$> l) b -> exists y, nx !! a = Some y /\ path nx y l b.
Proof.
  revert a. induction l as [|t l IH]; intros a; cbn [links fmap list_fmap].
  - intros [H _]. exists b. done.
  - intros (H & _ & Hl). exists (TM t). split; [done|]. split; [done|]. by apply IH.
Qed.

Lemma path_frame nx nx' curr l head :
  (forall t, t ∈ l -> nx' !! TM t = nx !! TM t) -> path nx curr l head -> path nx' curr l head.
Proof.
  revert curr. induction l as [|t l IH]; intros curr Hf; cbn [path]; [done|].
  intros (-> & y & Hy & Hp). split; [done|]. exists y. rewrite Hf by set_solver.
  split; [done|]. apply IH; [set_solver|done].
Qed.

Lemma wheel_on_ext P rem s T c b E E' :
  (forall t, E' t = E t) -> wheel_on P rem s T c b E -> wheel_on P rem s T c b E'.
Proof.
  intros HE [Wt Wi Wc Ws Wr Win Wrem Wa].
  assert (He : forall t, enlisted s T E t -> enlisted s T E' t).
  { intros t (tm & H). exists tm. by rewrite HE. }
  split; try done.
  - intros n i t Ht. rewrite HE. destruct (Win n i t Ht). auto.
  - intros t Ht. destruct (Wrem t Ht). auto.
Qed.

Definition not_slot (n : nat) (i : Z) : nat -> Z -> Prop := fun m j => ~ (m = n /\ j = i).

Lemma cascade_walk_run n0 i0 T c : forall rem fuel curr s b E,
  wheel_on (not_slot n0 i0) rem s T c b E -> (1 <= n0 <= 4)%nat ->
  NoDup rem -> path (nx s) curr rem (TV n0 i0) ->
  (forall t, t ∈ rem -> T <= E t < T + 2 ^ sh n0) -> b n0 i0 = [] -> (length rem <= fuel)%nat ->
  exists s' b', cascade_walk fuel (TV n0 i0) curr s = Done (tt, s') /\
    wheel_on (not_slot n0 i0) [] s' T c b' E /\ b' n0 i0 = [] /\
    timers s' = timers s /\ same_clock s s' /\ calls s' = calls s.
Proof.
  induction rem as [|t rem IH]; intros fuel curr s b E HW Hn0 Hnd Hp HE Hb0 Hf; cbn [path] in Hp.
  { subst curr. exists s, b. destruct fuel; cbn [cascade_walk]; rewrite decide_True by done; done. }
  destruct Hp as (-> & y & Hy & Hp). apply NoDup_cons in Hnd as [Htr Hnd].
  destruct fuel as [|fuel]; [cbn [length] in Hf; lia|].
  destruct (w_rem _ _ _ _ _ _ _ HW t ltac:(set_solver)) as [(tm & Htm & Hact & Hexp & Hrng) Htb].
  destruct (attach_run _ _ _ _ _ _ _ HW t tm (E t) rem Htm Hexp Hrng Htb)
    as (s1 & n & i & Hrun & HP & HW1 & Htms & Hcl & Hcalls & Hfr).
  { intros n i Hv Hpl Hlow [-> ->]. specialize (Hlow n0 Hn0 (HE t ltac:(set_solver))). lia. }
  { done. }
  { set_solver. }
  { set_solver. }
  assert (Hsame : timers s1 = timers s).
  { rewrite Htms. apply insert_id. rewrite Htm. f_equal. destruct tm; cbn in *. by subst. }
  destruct (IH fuel y s1 (bput b n i (b n i ++ [t])) E) as (s' & b' & Hr' & HW' & Hb' & Ht' & Hc' & Hcc').
  { eapply wheel_on_ext, HW1. intros u. unfold set_due. destruct (decide (u = t)); by subst. }
  { done. }
  { done. }
  { revert Hp. apply path_frame. intros u Hu. apply Hfr; [intros [= ->]; done|].
    intros m j _ Hin. apply elem_of_cons in Hin as [|Hin]; [done|].
    apply TM_in in Hin. destruct (w_rem _ _ _ _ _ _ _ HW u ltac:(set_solver)) as [_ Hub]. by eapply Hub. }
  { intros u Hu. apply HE. set_solver. }
  { rewrite bput_ne; [done|]. intros [-> ->]. by apply HP. }
  { cbn [length] in Hf. lia. }
  exists s', b'. split.
  { cbn [cascade_walk]. rewrite decide_False by done. unfold get_nx. kx. rewrite Hy, Hrun. exact Hr'. }
  split_and!; [done|done|congruence|by etrans|congruence].
Qed.

Definition bump (c : nat -> Z) (n : nat) : nat -> Z := fun k => if decide (k = n) then c n + 1 else c k.

Lemma land63 x : Z.land (x mod 64 + 1) 63 = (x + 1) mod 64.
Proof.
  change 63 with (Z.ones 6). rewrite Z.land_ones by lia. change (2 ^ 6) with 64.
  by rewrite Zplus_mod_idemp_l.
Qed.

(** When the clock is at the start of span [c n] of [tvecs[n]], the timers of
    that span are due within it. *)
Lemma place_span T c e n :
  (1 <= n <= 4)%nat -> c n * 2 ^ sh n = T -> place T c e n (c n mod 64) -> T <= e < T + 2 ^ sh n.
Proof.
  intros Hn HT Hp. assert (0 < 2 ^ sh n) by (apply Z.pow_pos_nonneg; unfold sh; lia).
  destruct n as [|n]; [lia|]. destruct Hp as [Hr Hi]. set (w := 2 ^ sh (S n)) in *.
  assert (e / w = c (S n)) as Hq.
  { assert (c (S n) <= e / w < c (S n) + 64).
    { split; [apply Z.div_le_lower_bound|apply Z.div_lt_upper_bound]; lia. }
    pose proof (Z.div_mod (c (S n)) 64). pose proof (Z.div_mod (e / w) 64). lia. }
  pose proof (Z.div_mod e w). pose proof (Z.mod_pos_bound e w). nia.
Qed.

(** The timers of the other spans keep their places when the span moves on. *)
Lemma place_bump T c e n m i :
  (1 <= n <= 4)%nat -> place T c e m i -> not_slot n (c n mod 64) m i -> place T (bump c n) e m i.
Proof.
  intros Hn Hp Hne. destruct m as [|m]; [done|]. unfold place, bump in *.
  destruct (decide (S m = n)) as [<-|]; [|done]. destruct Hp as [Hr Hi]. split; [|done].
  set (w := 2 ^ sh (S m)) in *. assert (0 < w) by (apply Z.pow_pos_nonneg; unfold sh; lia).
  split; [|lia]. assert (c (S m) <= e / w) by (apply Z.div_le_lower_bound; lia).
  assert (e / w <> c (S m)) by (intros Hq; apply Hne; by rewrite Hi, Hq).
  pose proof (Z.div_mod e w). pose proof (Z.mod_pos_bound e w). nia.
Qed.

Lemma clock_bump T c n :
  (1 <= n <= 4)%nat -> c n * 2 ^ sh n = T -> clock T c -> clock T (bump c n).
Proof.
  intros Hn HT Hc k Hk. unfold bump. destruct (decide (k = n)) as [->|]; [|by apply Hc].
  assert (0 < 2 ^ sh n) by (apply Z.pow_pos_nonneg; unfold sh; lia). lia.
Qed.

Lemma bucket_length P rem s T c b E n i :
  wheel_on P rem s T c b E -> (length (b n i) <= size (timers s))%nat.
Proof.
  intros HW. rewrite <- size_dom, <- (size_list_to_set (C := gset Z) (b n i)).
  - apply subseteq_size. intros t Ht. apply elem_of_list_to_set in Ht.
    destruct (w_in _ _ _ _ _ _ _ HW n i t Ht) as [(tm & Htm & _) _]. apply elem_of_dom. eauto.
  - apply (w_shaped _ _ _ _ _ _ _ HW).
Qed.

Lemma index_lookup s T c b E P rem n :
  wheel_on P rem s T c b E -> (1 <= n <= 4)%nat -> index s !! n = Some (c n mod 64).
Proof.
  intros HW Hn. rewrite (w_index _ _ _ _ _ _ _ HW).
  destruct (level_cases n Hn) as [->|[->|[->| ->]]]; done.
Qed.

Lemma index_bump c n x y :
  (1 <= n <= 4)%nat -> y = (c n + 1) mod 64 ->
  <[n := y]> [x; c 1%nat mod 64; c 2%nat mod 64; c 3%nat mod 64; c 4%nat mod 64] =
  [x; bump c n 1%nat mod 64; bump c n 2%nat mod 64; bump c n 3%nat mod 64; bump c n 4%nat mod 64].
Proof. intros Hn ->. destruct (level_cases n Hn) as [->|[->|[->| ->]]]; done. Qed.

Lemma mkTwheel_eta s :
  mkTwheel (nx s) (pv s) (timers s) (index s) (timer_ticks s) (ticks s) (calls s) = s.
Proof. by destruct s. Qed.

(** Taking the list of a slot off its ring. *)
Lemma wheel_open s T c b E n i :
  wheel s T c b E ->
  wheel_on (not_slot n i) (b n i) s T c (bput b n i []) E.
Proof.
  intros [Wt Wi Wc Ws Wr Win Wrem Wa].
  assert (Hcase : forall m j u, u ∈ bput b n i [] m j -> u ∈ b m j /\ not_slot n i m j).
  { intros m j u. unfold bput. destruct (decide _); [|done]. by intros ?%not_elem_of_nil. }
  split; try done.
  - apply shaped_sub; [done|constructor|]. by intros u ?%not_elem_of_nil.
  - intros m j Hv HP. unfold bput. rewrite decide_False by done. by apply Wr.
  - intros m j u [Hu _]%Hcase. by apply Win.
  - intros u Hu. split; [by eapply Win|]. intros m j [Hu' Hns]%Hcase.
    destruct (sh_disj b Ws n i m j u Hu Hu'). subst. by apply Hns.
  - intros u um Hu Hact. destruct (Wa u um Hu Hact) as [(m & j & Hin)|?]; [|by apply not_elem_of_nil in H].
    destruct (decide (m = n /\ j = i)) as [[-> ->]|]; [by right|].
    left. exists m, j. by rewrite bput_ne.
Qed.

Lemma cascade_timers_run s T c b E n fuel :
  wheel s T c b E -> (1 <= n <= 4)%nat -> c n * 2 ^ sh n = T -> (size (timers s) <= fuel)%nat ->
  exists s' b', cascade_timers fuel n s = Done (tt, s') /\ wheel s' T (bump c n) b' E /\
    timers s' = timers s /\ ticks s' = ticks s /\ calls s' = calls s.
Proof.
  intros HW Hn HT Hf. set (i := c n mod 64).
  assert (Hv : vslot n i) by (right; split; [done|by apply Z.mod_pos_bound]).
  destruct (links_path _ _ _ _ _ (w_rings _ _ _ _ _ _ _ HW n i Hv I)) as (y & Hy & Hp).
  destruct (cascade_walk_run n i T c (b n i) fuel y s (bput b n i []) E)
    as (s1 & b1 & Hrun & HW1 & Hb1 & Htms & Hcl & Hcalls).
  { by apply wheel_open. }
  { done. }
  { apply (w_shaped _ _ _ _ _ _ _ HW). }
  { done. }
  { intros t Ht. eapply place_span; [done|done|]. by apply (w_in _ _ _ _ _ _ _ HW). }
  { apply bput_eq. }
  { etrans; [eapply bucket_length, HW|done]. }
  pose proof (index_lookup _ _ _ _ _ _ _ n HW Hn) as Hi.
  pose proof (index_lookup _ _ _ _ _ _ _ n HW1 Hn) as Hi1.
  eexists _, b1. split.
  { unfold cascade_timers, get_index, get_nx, set_pv, set_nx, set_index. kx.
    rewrite Hi. fold i. rewrite Hy. rewrite Hrun. cbn [index]. rewrite Hi1. reflexivity. }
  split_and!; [|done|by destruct Hcl as (_ & _ & ->)|done].
  destruct HW1 as [Wt Wi Wc Ws Wr Win Wrem Wa].
  assert (Hns : forall m j t, t ∈ b1 m j -> not_slot n i m j).
  { intros m j t Ht [-> ->]. rewrite Hb1 in Ht. by apply not_elem_of_nil in Ht. }
  split; cbn [timers index timer_ticks nx pv]; try done.
  - rewrite Wi. apply index_bump; [done|]. apply land63.
  - by apply clock_bump.
  - intros m j Hvm _. destruct (decide (m = n /\ j = i)) as [[-> ->]|Hne].
    + rewrite Hb1. cbn [fmap list_fmap links]. by rewrite !lookup_insert_eq.
    + generalize (Wr m j Hvm Hne). apply links_frame.
      * intros r Hr. rewrite lookup_insert_ne; [done|]. intros <-.
        apply elem_of_cons in Hr as [Hr|Hr]; [naive_solver|by apply TV_in in Hr].
      * intros r Hr. rewrite lookup_insert_ne; [done|]. intros <-.
        apply elem_of_app in Hr as [Hr|Hr%list_elem_of_singleton]; [by apply TV_in in Hr|naive_solver].
  - intros m j t Ht. destruct (Win m j t Ht) as [H1 H2]. split; [done|].
    apply place_bump; [done|done|]. by eapply Hns.
Qed.

(** Before a tick no vector is ahead of the clock; after the cascade of the
    tick every vector is. *)
Definition before_tick (T : Z) (c : nat -> Z) : Prop :=
  forall n, (1 <= n <= 4)%nat -> (c n - 1) * 2 ^ sh n < T.
Definition in_tick (T : Z) (c : nat -> Z) : Prop :=
  forall n, (1 <= n <= 4)%nat -> T < c n * 2 ^ sh n.

Lemma sh_succ n : (1 <= n)%nat -> 2 ^ sh (S n) = 64 * 2 ^ sh n.
Proof.
  intros Hn. unfold sh. replace (2 + 6 * Z.of_nat (S n)) with (6 + (2 + 6 * Z.of_nat n)) by lia.
  rewrite Z.pow_add_r by lia. done.
Qed.

Lemma sh_divides T n k : (1 <= n <= k)%nat -> (k <= 4)%nat -> (2 ^ sh k | T) -> (2 ^ sh n | T).
Proof.
  intros Hn Hk. apply Z.divide_trans. exists (2 ^ (sh k - sh n)).
  rewrite <- Z.pow_add_r by (unfold sh; lia). f_equal. lia.
Qed.

(** The vectors above one that is not at slot 0 are not due. *)
Lemma not_due_above T c n k :
  clock T c -> (1 <= n < k)%nat -> (k <= 4)%nat -> c n * 2 ^ sh n = T -> c n mod 64 <> 0 ->
  T < c k * 2 ^ sh k.
Proof.
  intros Hc Hn Hk HT Hm. destruct (Hc k ltac:(lia)) as [H1 _].
  destruct (decide (T = c k * 2 ^ sh k)) as [Heq|]; [exfalso|lia].
  assert (Hd : (2 ^ sh (S n) | T)).
  { apply (sh_divides T (S n) k); [lia|lia|]. by exists (c k). }
  destruct Hd as [q Hq]. rewrite sh_succ in Hq by lia. apply Hm.
  assert (0 < 2 ^ sh n) by (apply Z.pow_pos_nonneg; unfold sh; lia).
  assert (c n = q * 64) as -> by nia. apply Z.mod_mul. lia.
Qed.

Lemma cascade_loop_run T E fuel : forall rest n s c b,
  (n + rest = 5)%nat -> (1 <= n <= 4)%nat ->
  wheel s T c b E -> c n * 2 ^ sh n = T -> (size (timers s) <= fuel)%nat ->
  (forall k, (1 <= k < n)%nat -> T < c k * 2 ^ sh k) ->
  (forall k, (n <= k <= 4)%nat -> (c k - 1) * 2 ^ sh k < T) ->
  exists s' c' b', cascade_loop fuel rest n s = Done (tt, s') /\ wheel s' T c' b' E /\
    in_tick T c' /\ timers s' = timers s /\ ticks s' = ticks s /\ calls s' = calls s.
Proof.
  induction rest as [|rest IH]; intros n s c b Hnr Hn HW HT Hf Hlo Hhi; [lia|].
  destruct (cascade_timers_run s T c b E n fuel HW Hn HT Hf) as (s1 & b1 & Hrun & HW1 & Ht1 & Hk1 & Hc1).
  pose proof (index_lookup _ _ _ _ _ _ _ n HW1 Hn) as Hi. unfold bump in Hi at 1.
  rewrite decide_True in Hi by done.
  assert (Hw : 0 < 2 ^ sh n) by (apply Z.pow_pos_nonneg; unfold sh; lia).
  assert (Hlo1 : forall k, (1 <= k < S n)%nat -> T < bump c n k * 2 ^ sh k).
  { intros k Hk. unfold bump. destruct (decide (k = n)) as [->|]; [lia|]. apply Hlo. lia. }
  destruct (decide (c n mod 64 = 0 /\ (n < 4)%nat)) as [[Hz Hn4]|Hz].
  - destruct (IH (S n) s1 (bump c n) b1) as (s2 & c2 & b2 & Hr2 & HW2 & Hin2 & Ht2 & Hk2 & Hc2);
      [lia|lia|done| |by rewrite Ht1|done| |].
    + unfold bump. rewrite decide_False by lia. rewrite sh_succ by lia.
      destruct (w_clock _ _ _ _ _ _ _ HW (S n) ltac:(lia)) as [H1 _]. rewrite sh_succ in H1 by lia.
      specialize (Hhi (S n) ltac:(lia)). rewrite sh_succ in Hhi by lia.
      set (W := 64 * 2 ^ sh n) in *. assert (HT' : T = c n / 64 * W).
      { subst W. pose proof (Z.div_mod (c n) 64). rewrite <- HT. nia. }
      assert (c (S n) - 1 < c n / 64 <= c (S n)); [|nia].
      split; [apply (Z.mul_lt_mono_pos_r W)|apply (Z.mul_le_mono_pos_r _ _ W)]; lia.
    + intros k Hk. unfold bump. rewrite decide_False by lia. apply Hhi. lia.
    + exists s2, c2, b2. split; [|split_and!; [done|done|congruence..]].
      cbn [cascade_loop]. unfold get_index. kx. rewrite Hrun, Hi.
      replace ((c n + 1) mod 64) with 1; [exact Hr2|].
      rewrite <- Zplus_mod_idemp_l, Hz. done.
  - exists s1, (bump c n), b1. split; [|split_and!; [done| |done..]].
    + cbn [cascade_loop]. unfold get_index. kx. rewrite Hrun, Hi.
      destruct (Z.eqb_spec ((c n + 1) mod 64) 1) as [Heq|]; [|done].
      assert (c n mod 64 = 0).
      { pose proof (Z.div_mod (c n + 1) 64). pose proof (Z.div_mod (c n) 64).
        pose proof (Z.mod_pos_bound (c n) 64). lia. }
      destruct rest as [|rest]; [done|]. exfalso. apply Hz. lia.
    + intros k Hk. destruct (decide (k <= n)%nat); [apply Hlo1; lia|].
      unfold bump. rewrite decide_False by lia.
      apply (not_due_above T c n); [apply HW|lia|lia|done|]. intros Hq. apply Hz. lia.
Qed.

(** ** Firing the timers of a tick *)

(** Ticks until a timer is due, as the code compares them. *)
Definition due_in (s : twheel) (tm : timer) : Z := s32 (expires tm - timer_ticks s).

(** [expires] is an [unsigned int]. *)
Definition typed (s : twheel) : Prop :=
  forall t tm, timers s !! t = Some tm -> is_u32 (expires tm).

Lemma typed_put s s' t tm :
  typed s -> is_u32 (expires tm) -> timers s' = <[t := tm]> (timers s) -> typed s'.
Proof.
  intros Hs Ht E u um. rewrite E, lookup_insert_Some. intros [[_ <-]|[_ H]]; [done|]. by eapply Hs.
Qed.

(** The timer vectors while the timers of tick [T] are fired. *)
Definition firing (T : Z) (s : twheel) : Prop :=
  exists c b E, wheel s T c b E /\ in_tick T c /\ typed s.

(** The active timers that are due. *)
Definition due (s : twheel) : gmap Z timer :=
  filter (fun p => active (snd p) = true /\ due_in s (snd p) <= 0) (timers s).

Lemma due_lookup s t tm :
  due s !! t = Some tm <-> timers s !! t = Some tm /\ active tm = true /\ due_in s tm <= 0.
Proof. unfold due. rewrite map_lookup_filter_Some. done. Qed.

Lemma enlisted_due s T E t tm :
  timer_ticks s = u32 T -> enlisted s T E t -> timers s !! t = Some tm ->
  active tm = true /\ due_in s tm = E t - T.
Proof.
  intros HT (tm' & Htm & Ha & He & Hr) Htm'. rewrite Htm in Htm'. injection Htm' as ->.
  split; [done|]. unfold due_in. rewrite He, HT. rewrite <- (s32_range (E t - T)) by lia.
  unfold s32. by rewrite u32_sub_l, u32_sub_r.
Qed.

(** In a tick, the due timers are those of the current list of [tv1]. *)
Lemma due_bucket s T c b E t :
  wheel s T c b E -> in_tick T c -> (t ∈ b 0%nat (T mod 256) <-> is_Some (due s !! t)).
Proof.
  intros HW Hin. split.
  - intros Ht. destruct (w_in _ _ _ _ _ _ _ HW _ _ _ Ht) as [He Hp].
    destruct (id He) as (tm & Htm & _). exists tm. apply due_lookup.
    destruct (enlisted_due _ _ _ _ _ (w_ticks _ _ _ _ _ _ _ HW) He Htm) as [? ->].
    split_and!; [done|done|]. destruct Hp as [[Hr Hm]|[Hr _]]; [|lia].
    pose proof (Z.div_mod T 256). pose proof (Z.div_mod (E t) 256). lia.
  - intros [tm (Htm & Ha & Hd)%due_lookup].
    destruct (w_active _ _ _ _ _ _ _ HW t tm Htm Ha) as [(n & i & Hi)|H]; [|by apply not_elem_of_nil in H].
    destruct (w_in _ _ _ _ _ _ _ HW _ _ _ Hi) as [He Hp].
    destruct (enlisted_due _ _ _ _ _ (w_ticks _ _ _ _ _ _ _ HW) He Htm) as [_ Hd'].
    destruct n as [|n].
    + assert (i = T mod 256) as <-; [|done].
      destruct Hp as [[Hr ->]|[_ ->]]; [|done]. by assert (E t = T) as -> by lia.
    + destruct Hp as [[Hr _] _]. pose proof (sh_slot _ (w_shaped _ _ _ _ _ _ _ HW) _ _ _ Hi) as [[? _]|[? _]]; [lia|].
      specialize (Hin (S n) ltac:(lia)). lia.
Qed.

(** Clearing the links of a timer that is on no list. *)
Lemma wheel_null s T c b E t :
  wheel s T c b E -> (forall n i, t ∉ b n i) ->
  wheel (mkTwheel (delete (TM t) (nx s)) (delete (TM t) (pv s)) (timers s) (index s)
                  (timer_ticks s) (ticks s) (calls s)) T c b E.
Proof.
  intros [Wt Wi Wc Ws Wr Win Wrem Wa] Ht. split; try done. cbn [nx pv].
  revert Wr. apply rings_frame. intros n i r _ Hr. rewrite !lookup_delete_ne; [done|..];
    intros <-; apply elem_of_cons in Hr as [|Hr]; try done; apply TM_in in Hr; by eapply Ht.
Qed.

Lemma wheel_log s T c b E l :
  wheel s T c b E ->
  wheel (mkTwheel (nx s) (pv s) (timers s) (index s) (timer_ticks s) (ticks s) l) T c b E.
Proof. intros [Wt Wi Wc Ws Wr Win Wrem Wa]. by split. Qed.

(** State after taking a due timer off its list. *)
Lemma take_run s T c b E t l2 :
  wheel s T c b E -> b 0%nat (T mod 256) = t :: l2 ->
  exists s1 tm, timers s !! t = Some tm /\ detach_timer t s = Done (1, s1) /\
    timers s1 = <[t := with_active tm false]> (timers s) /\ same_clock s s1 /\ calls s1 = calls s /\
    wheel (mkTwheel (delete (TM t) (nx s1)) (delete (TM t) (pv s1)) (timers s1) (index s1)
             (timer_ticks s1) (ticks s1) (calls s1 ++ [(timer_ticks s1, handler tm, arg tm)]))
       T c (bput b 0%nat (T mod 256) l2) E.
Proof.
  intros HW Hb.
  destruct (detach_run _ _ _ _ _ _ _ HW 0%nat (T mod 256) [] t l2 I Hb)
    as (s1 & tm & Htm & Hd & HW1 & Ht1 & Hc1 & Hl1).
  exists s1, tm. split_and!; [done..|].
  assert (Hnot : forall n i, t ∉ bput b 0%nat (T mod 256) l2 n i);
    [|exact (wheel_log _ T c _ E _ (wheel_null s1 T c _ E t HW1 Hnot))].
  intros n i Hin. pose proof (w_shaped _ _ _ _ _ _ _ HW) as Ws.
  assert (Ht : t ∈ b 0%nat (T mod 256)) by (rewrite Hb; set_solver).
  pose proof (sh_nodup _ Ws 0%nat (T mod 256)) as Hnd. rewrite Hb in Hnd. apply NoDup_cons in Hnd as [Hnd _].
  unfold bput in Hin. destruct (decide _) as [|Hne]; [done|].
  destruct (sh_disj _ Ws _ _ _ _ _ Ht Hin). subst. by apply Hne.
Qed.

(** What is asked of timer procedures: they return, they work on timers
    through the operations of this file, they do not create a timer that is
    due already, and they leave alone the timers that [Kp] picks out. *)
Definition well_behaved (Kp : Z -> timer -> Prop) (call : Z -> Z -> K twheel unit) : Prop :=
  forall T h a s, firing T s -> exists s', call h a s = Done (tt, s') /\ firing T s' /\
    same_clock s s' /\ calls s' = calls s /\ dom (timers s') = dom (timers s) /\
    due s' ⊆ due s /\
    forall u tm, timers s !! u = Some tm -> Kp u tm -> timers s' !! u = Some tm.

Lemma due_empty_bucket s T c b E :
  wheel s T c b E -> in_tick T c -> (b 0%nat (T mod 256) = [] <-> due s = ∅).
Proof.
  intros HW Hin. split; intros H.
  - apply map_eq. intros t. rewrite lookup_empty. apply eq_None_not_Some.
    rewrite <- (due_bucket s T c b E t HW Hin), H. apply not_elem_of_nil.
  - destruct (b 0%nat (T mod 256)) as [|t l] eqn:Hb; [done|].
    assert (is_Some (due s !! t)) as [? Hd].
    { apply (due_bucket s T c b E t HW Hin). rewrite Hb. set_solver. }
    by rewrite H, lookup_empty in Hd.
Qed.

Lemma due_take s s' t tm :
  timers s !! t = Some tm -> timers s' = <[t := with_active tm false]> (timers s) ->
  timer_ticks s' = timer_ticks s -> due s' = delete t (due s).
Proof.
  intros Htm Ht Hk. apply map_eq. intros u. apply option_eq. intros um.
  rewrite lookup_delete_Some, !due_lookup. unfold due_in. rewrite Ht, Hk.
  destruct (decide (t = u)) as [<-|].
  - rewrite lookup_insert_eq. split; [intros ([= <-] & ? & _); done|tauto].
  - rewrite lookup_insert_ne by done. naive_solver.
Qed.

Section Fire.
Context (Kp : Z -> timer -> Prop) (call : Z -> Z -> K twheel unit).
Context (Hcall : well_behaved Kp call).

(** What firing the timers of tick [T] does: [F] are the timers fired. *)
Record fired (T : Z) (s s' : twheel) (F : list (Z * timer)) : Prop := {
  f_firing : firing T s';
  f_due : due s' = ∅;
  f_clock : same_clock s s';
  f_dom : dom (timers s') = dom (timers s);
  f_calls : calls s' = calls s ++ ((fun p => (timer_ticks s, handler (snd p), arg (snd p))) <$> F);
  f_nodup : NoDup F.*1;
  f_only u tm : (u, tm) ∈ F -> due s !! u = Some tm;
  f_keep u tm : timers s !! u = Some tm -> Kp u tm -> due s !! u = None -> timers s' !! u = Some tm;
  f_all u tm : due s !! u = Some tm -> Kp u tm -> (u, tm) ∈ F;
  f_off u tm : due s !! u = Some tm -> Kp u tm -> Kp u (with_active tm false) ->
    timers s' !! u = Some (with_active tm false) }.

Lemma fired_none T s : firing T s -> due s = ∅ -> fired T s s [].
Proof.
  intros Hf Hd. split; try done.
  - by rewrite fmap_nil, app_nil_r.
  - constructor.
  - by intros u tm ?%not_elem_of_nil.
  - intros u tm. by rewrite Hd.
  - intros u tm. by rewrite Hd.
Qed.

(** Firing [t] first, then running its procedure from [s2] to [s3], then the rest. *)
Lemma fired_step T s s2 s3 s' t tm F :
  due s !! t = Some tm -> timers s2 = <[t := with_active tm false]> (timers s) -> same_clock s s2 ->
  calls s2 = calls s ++ [(timer_ticks s, handler tm, arg tm)] ->
  same_clock s2 s3 -> calls s3 = calls s2 -> dom (timers s3) = dom (timers s2) -> due s3 ⊆ due s2 ->
  (forall u um, timers s2 !! u = Some um -> Kp u um -> timers s3 !! u = Some um) ->
  fired T s3 s' F -> fired T s s' ((t, tm) :: F).
Proof.
  intros Hdt Ht2 Hc2 Hl2 Hc3 Hl3 Hd3 Hdue Hk [Ff Fd Fc Fdom Fcalls Fnd Fonly Fkeep Fall Foff].
  destruct (proj1 (due_lookup _ _ _) Hdt) as (Htm & Hta & _).
  assert (Hk2 : timer_ticks s2 = timer_ticks s) by apply Hc2.
  assert (Hk3 : timer_ticks s3 = timer_ticks s) by (transitivity (timer_ticks s2); [apply Hc3|done]).
  pose proof (due_take s s2 t tm Htm Ht2 Hk2) as Hdel. rewrite Hdel in Hdue.
  assert (Hin2 : forall u um, timers s !! u = Some um -> u <> t -> timers s2 !! u = Some um).
  { intros u um Hu Hut. by rewrite Ht2, lookup_insert_ne. }
  assert (Hstay : forall u um, due s !! u = Some um -> u <> t -> Kp u um -> due s3 !! u = Some um).
  { intros u um Hu Hut HK. destruct (proj1 (due_lookup _ _ _) Hu) as (Hum & Hua & Hud).
    apply due_lookup. split_and!; [by apply Hk, HK; apply Hin2|done|]. unfold due_in in *. by rewrite Hk3. }
  split; try done.
  - by etrans; [|etrans].
  - rewrite Fdom, Hd3, Ht2, dom_insert_lookup_L; [done|by eexists].
  - rewrite Fcalls, Hl3, Hl2, <- app_assoc. rewrite Hk3. done.
  - cbn [fmap list_fmap]. apply NoDup_cons. split; [|done].
    intros ([u um] & Hu & Hum)%list_elem_of_fmap. cbn in Hu. subst u.
    apply Fonly in Hum. eapply lookup_weaken in Hum; [|done]. by rewrite lookup_delete_eq in Hum.
  - intros u um [[= -> ->]|Hin]%elem_of_cons; [done|]. apply Fonly in Hin.
    eapply lookup_weaken in Hin; [|done]. by apply lookup_delete_Some in Hin as [_ ?].
  - intros u um Hu HK Hn. destruct (decide (u = t)) as [->|Hut]; [congruence|].
    apply Fkeep; [by apply Hk, HK; apply Hin2|done|].
    destruct (due s3 !! u) eqn:Hq; [|done]. eapply lookup_weaken in Hq; [|done].
    apply lookup_delete_Some in Hq as [_ ?]. congruence.
  - intros u um Hu HK. apply elem_of_cons. destruct (decide (u = t)) as [->|Hut]; [left; congruence|right].
    apply Fall; [by apply Hstay|done].
  - intros u um Hu HK HK'. destruct (decide (u = t)) as [->|Hut]; [|by apply Foff; [apply Hstay|..]].
    assert (um = tm) as -> by congruence. apply Fkeep; [|done|].
    + apply Hk; [by rewrite Ht2, lookup_insert_eq|done].
    + destruct (due s3 !! t) eqn:Hq; [|done]. eapply lookup_weaken in Hq; [|done].
      by rewrite lookup_delete_eq in Hq.
Qed.

Lemma fire_loop_run T : forall fuel s,
  firing T s -> (size (due s) <= fuel)%nat ->
  exists s' F, fire_loop call fuel s = Done (tt, s') /\ fired T s s' F.
Proof.
  induction fuel as [|fuel IH]; intros s Hfs Hsz; destruct (id Hfs) as (c & b & E & HW & Hin & Hty).
  all: pose proof (w_index _ _ _ _ _ _ _ HW) as Hi.
  all: assert (Hv : vslot 0 (T mod 256)) by (left; split; [done|by apply Z.mod_pos_bound]).
  all: pose proof (w_rings _ _ _ _ _ _ _ HW 0%nat (T mod 256) Hv I) as Hl.
  all: destruct (b 0%nat (T mod 256)) as [|t l] eqn:Hb.
  1,3: exists s, []; split; [|apply fired_none; [done|by eapply due_empty_bucket]];
    destruct Hl as [Hl _]; cbn [fire_loop]; unfold get_index, get_nx; kx; rewrite Hi;
    cbn [lookup list_lookup]; rewrite Hl; by rewrite decide_True.
  all: assert (Hdt : is_Some (due s !! t)) by (eapply due_bucket; [done|done|]; rewrite Hb; set_solver).
  { apply Nat.le_0_r, map_size_empty_iff in Hsz. destruct Hdt as [? Hdt]. by rewrite Hsz, lookup_empty in Hdt. }
  destruct (take_run s T c b E t l HW Hb) as (s1 & tm & Htm & Hd & Ht1 & Hc1 & Hl1 & HW2).
  set (s2 := mkTwheel _ _ _ _ _ _ _) in HW2.
  assert (Hdtm : due s !! t = Some tm).
  { destruct Hdt as [tm' Hdt]. destruct (proj1 (due_lookup _ _ _) Hdt). congruence. }
  destruct (Hcall T (handler tm) (arg tm) s2) as (s3 & Hr3 & Hf3 & Hc3 & Hl3 & Hd3 & Hdue & Hk).
  { exists c, (bput b 0%nat (T mod 256) l), E. split_and!; [done|done|].
    eapply (typed_put s s2); [done| |exact Ht1]. exact (Hty t tm Htm). }
  assert (Hk1 : timer_ticks s1 = timer_ticks s) by apply Hc1.
  destruct (IH s3) as (s' & F & Hr' & HF); [done| |].
  { apply map_subseteq_size in Hdue.
    rewrite (due_take s s2 t tm Htm Ht1 Hk1), map_size_delete_Some in Hdue by done. lia. }
  exists s', ((t, tm) :: F). split.
  - destruct Hl as [Hl _]. cbn [fire_loop]. unfold get_index, get_nx, get_timer. kx. rewrite Hi.
    cbn [lookup list_lookup fmap list_fmap] in *. rewrite Hl. rewrite decide_False by done.
    rewrite Htm, Hd. unfold null_pv, null_nx, log_call. kx. cbn [nx pv timers index timer_ticks ticks calls].
    fold s2. rewrite Hr3. exact Hr'.
  - eapply (fired_step T s s2 s3); try done. subst s2. cbn [calls]. by rewrite Hl1, Hk1.
Qed.
End Fire.

(** ** Ticks *)

(** The timer vectors between two ticks; [T] is the next one. *)
Definition ready (T : Z) (s : twheel) : Prop :=
  exists c b E, wheel s T c b E /\ before_tick T c /\ typed s.

Lemma land255 x : Z.land (x mod 256 + 1) 255 = (x + 1) mod 256.
Proof.
  change 255 with (Z.ones 8). rewrite Z.land_ones by lia. change (2 ^ 8) with 256.
  by rewrite Zplus_mod_idemp_l.
Qed.

Lemma tick_start s T c b E fuel :
  wheel s T c b E -> before_tick T c -> typed s -> (size (timers s) <= fuel)%nat ->
  exists s', (if T mod 256 =? 0 then cascade_loop fuel 4 1 else kret tt) s = Done (tt, s') /\
    firing T s' /\ timers s' = timers s /\ ticks s' = ticks s /\ calls s' = calls s.
Proof.
  intros HW Hb Hty Hf. pose proof (w_clock _ _ _ _ _ _ _ HW) as Hc.
  destruct (Z.eqb_spec (T mod 256) 0) as [Hz|Hnz].
  - destruct (cascade_loop_run T E fuel 4 1 s c b) as (s' & c' & b' & Hr & HW' & Hin & Ht & Hk & Hl);
      [done|lia|done| |done|lia| |].
    + destruct (Hc 1%nat ltac:(lia)) as [H1 _]. specialize (Hb 1%nat ltac:(lia)).
      change (2 ^ sh 1) with 256 in *. pose proof (Z.div_mod T 256). lia.
    + intros k Hk. apply Hb. lia.
    + exists s'. split_and!; [done| |done..]. exists c', b', E. split_and!; [done|done|].
      unfold typed. by rewrite Ht.
  - exists s. split_and!; [done| |done..]. exists c, b, E. split; [done|]. split; [|done].
    intros n Hn. destruct (Hc n Hn) as [H1 _]. destruct (decide (T = c n * 2 ^ sh n)) as [Heq|]; [|lia].
    exfalso. apply Hnz. assert (Hd : (2 ^ sh 1 | T)).
    { apply (sh_divides T 1 n); [lia|lia|]. by exists (c n). }
    by apply Z.mod_divide in Hd.
Qed.

(** Moving the clock on when the current list is empty. *)
Definition tick_on (s : twheel) : twheel :=
  mkTwheel (nx s) (pv s) (timers s) (<[0%nat := Z.land (index s !!! 0%nat + 1) TVR_MASK]> (index s))
           (u32 (timer_ticks s + 1)) (ticks s) (calls s).

Lemma tick_end s T : firing T s -> due s = ∅ -> ready (T + 1) (tick_on s).
Proof.
  intros (c & b & E & HW & Hin & Hty) Hd. apply (due_empty_bucket _ _ _ _ _ HW Hin) in Hd.
  destruct HW as [Wt Wi Wc Ws Wr Win Wrem Wa]. exists c, b, E. split; [|split; [|done]].
  - assert (Hlate : forall n i t, t ∈ b n i -> T < E t /\ place (T + 1) c (E t) n i).
    { intros n i t Ht. destruct (Win n i t Ht) as [_ Hp].
      assert (Hne : n = 0%nat -> i <> T mod 256).
      { intros -> ->. rewrite Hd in Ht. by apply not_elem_of_nil in Ht. }
      destruct n as [|n]; cbn [place] in *.
      - destruct Hp as [[Hr Hi]|[Hr Hi]]; [|by destruct (Hne eq_refl)].
        assert (E t <> T) by (intros Heq; apply Hne; [done|by rewrite Hi, Heq]). lia.
      - split; [|done]. destruct (sh_slot b Ws _ _ _ Ht) as [[? _]|[? _]]; [lia|].
        specialize (Hin (S n) ltac:(lia)). lia. }
    split; cbn [tick_on timer_ticks index timers nx pv]; try done.
    + by rewrite Wt, u32_add_l.
    + rewrite Wi. cbn [insert list_insert lookup_total list_lookup_total]. unfold TVR_MASK. by rewrite land255.
    + intros n Hn. specialize (Wc n Hn). specialize (Hin n Hn). lia.
    + intros n i t Ht. destruct (Win n i t Ht) as [(tm & H1 & H2 & H3 & H4) _].
      destruct (Hlate n i t Ht) as [Hlt Hp]. split; [|done]. exists tm. split_and!; [done..|lia|lia].
    + by intros t ?%not_elem_of_nil.
  - intros n Hn. specialize (Wc n Hn). lia.
Qed.

Section Ticks.
Context (Kp : Z -> timer -> Prop) (call : Z -> Z -> K twheel unit).
Context (Hcall : well_behaved Kp call).

Lemma run_tick_run T s fuel :
  ready T s -> (size (timers s) <= fuel)%nat ->
  exists s1 s2 F, run_tick call fuel s = Done (tt, tick_on s2) /\ ready (T + 1) (tick_on s2) /\
    timers s1 = timers s /\ timer_ticks s1 = timer_ticks s /\ ticks s1 = ticks s /\ calls s1 = calls s /\
    fired Kp T s1 s2 F.
Proof.
  intros (c & b & E & HW & Hb & Hty) Hf.
  destruct (tick_start s T c b E fuel HW Hb Hty Hf) as (s1 & Hr1 & Hf1 & Ht1 & Hk1 & Hl1).
  destruct (fire_loop_run Kp call Hcall T fuel s1) as (s2 & F & Hr2 & HF); [done| |].
  { rewrite <- Ht1 in Hf. etrans; [|exact Hf]. apply map_subseteq_size, map_filter_subseteq. }
  pose proof (tick_end s2 T (f_firing _ _ _ _ _ HF) (f_due _ _ _ _ _ HF)) as Hend.
  exists s1, s2, F. split_and!; try done.
  - destruct (f_firing _ _ _ _ _ HF) as (c2 & b2 & E2 & HW2 & _).
    unfold run_tick, get_index, set_timer_ticks, set_index. kx. rewrite (w_index _ _ _ _ _ _ _ HW).
    cbn [lookup list_lookup]. change (NOOF_TVECS - 1)%nat with 4%nat.
    cbv [kret] in Hr1. rewrite Hr1, Hr2. cbn [index]. unfold tick_on.
    rewrite (w_index _ _ _ _ _ _ _ HW2). reflexivity.
  - destruct Hf1 as (c1 & b1 & E1 & HW1 & _).
    by rewrite (w_ticks _ _ _ _ _ _ _ HW1), (w_ticks _ _ _ _ _ _ _ HW).
Qed.
End Ticks.

(** ** Running the timer list *)

Lemma s32_nonneg z : 0 <= s32 z -> u32 z = s32 z /\ s32 z < 2147483648.
Proof.
  unfold s32. pose proof (u32_range z). destruct (Z.ltb_spec (u32 z) 2147483648); u32_lia.
Qed.

Lemma s32_pred z : 0 <= s32 z -> s32 (z - 1) = s32 z - 1.
Proof.
  intros H. destruct (s32_nonneg z H) as [Hu Hl]. rewrite <- (s32_range (s32 z - 1)) by lia.
  apply s32_cong. rewrite <- Hu. by rewrite u32_sub_l.
Qed.

Lemma s32_tick x y : 0 <= s32 (x - y) -> s32 (x - u32 (y + 1)) = s32 (x - y) - 1.
Proof.
  intros H. rewrite <- s32_pred by done. apply s32_cong. rewrite u32_sub_r. f_equal. lia.
Qed.

(** Every active timer has its expiry on the clock without wrap-around. *)
Lemma ready_due T s t tm :
  ready T s -> timers s !! t = Some tm -> active tm = true ->
  is_u32 (expires tm) /\ -2147483648 <= due_in s tm < 2147483648 /\
  (0 <= due_in s tm -> expires tm = u32 (timer_ticks s + due_in s tm)).
Proof.
  intros (c & b & E & HW & _) Htm Ha. pose proof (w_ticks _ _ _ _ _ _ _ HW) as HT.
  destruct (w_active _ _ _ _ _ _ _ HW t tm Htm Ha) as [(n & i & Hi)|H]; [|by apply not_elem_of_nil in H].
  destruct (w_in _ _ _ _ _ _ _ HW _ _ _ Hi) as [He _].
  destruct (enlisted_due _ _ _ _ _ HT He Htm) as [_ Hd]. destruct He as (tm' & Htm' & _ & Hx & Hr).
  assert (tm' = tm) as -> by congruence. split_and!; [|lia|lia|].
  - rewrite Hx. apply u32_range.
  - rewrite Hd, Hx, HT, u32_add_l. intros _. f_equal. lia.
Qed.

(** How far the clock is ahead of the timer list. *)
Definition lag (s : twheel) : Z := s32 (ticks s - timer_ticks s).

Section RunList.
Context (Kp : Z -> timer -> Prop) (call : Z -> Z -> K twheel unit).
Context (Hcall : well_behaved Kp call).

(** One round of [run_timer_list]. *)
Lemma run_round T s fuel :
  ready T s -> (size (timers s) <= fuel)%nat -> 0 <= lag s ->
  exists s' F, (forall n, run_timer_list call (S n) fuel s = run_timer_list call n fuel s') /\
    ready (T + 1) s' /\ lag s' = lag s - 1 /\ ticks s' = ticks s /\
    timer_ticks s' = u32 (timer_ticks s + 1) /\ size (timers s') = size (timers s) /\
    dom (timers s') = dom (timers s) /\
    calls s' = calls s ++ ((fun p => (timer_ticks s, handler (snd p), arg (snd p))) <$> F) /\
    NoDup F.*1 /\
    (forall u tm, (u, tm) ∈ F -> due s !! u = Some tm) /\
    (forall u tm, timers s !! u = Some tm -> Kp u tm -> due s !! u = None -> timers s' !! u = Some tm) /\
    (forall u tm, due s !! u = Some tm -> Kp u tm -> (u, tm) ∈ F) /\
    (forall u tm, due s !! u = Some tm -> Kp u tm -> Kp u (with_active tm false) ->
       timers s' !! u = Some (with_active tm false)).
Proof.
  intros Hr Hf Hlag. destruct (run_tick_run Kp call Hcall T s fuel Hr Hf)
    as (s1 & s2 & F & Hrun & Hr' & Ht1 & Hk1 & Hn1 & Hl1 & [Ff Fd Fc Fdom Fcalls Fnd Fonly Fkeep Fall Foff]).
  assert (Hdue : due s1 = due s) by (unfold due, due_in; by rewrite Ht1, Hk1).
  destruct Fc as (_ & Fk & Fn). rewrite Hdue, Ht1 in *. exists (tick_on s2), F.
  assert (Htk : ticks s2 = ticks s) by congruence.
  split_and!; try done; cbn [tick_on timer_ticks ticks timers calls].
  - intros n. cbn [run_timer_list]. kx. unfold lag in Hlag.
    destruct (Z.leb_spec 0 (s32 (ticks s - timer_ticks s))); [|lia]. by rewrite Hrun.
  - unfold lag. cbn [tick_on timer_ticks ticks]. rewrite Htk, Fk, Hk1. by apply s32_tick.
  - by rewrite Fk, Hk1.
  - by rewrite <- !size_dom, Fdom.
  - by rewrite Fcalls, Hl1, Hk1.
Qed.

Lemma run_done s n fuel : lag s < 0 -> run_timer_list call n fuel s = Done (tt, s).
Proof.
  unfold lag. intros H. destruct n; cbn [run_timer_list]; kx;
    destruct (Z.leb_spec 0 (s32 (ticks s - timer_ticks s))); first [lia|done].
Qed.

(** The loop ends when the timer list has caught up with the clock. *)
Lemma run_list_run : forall n T s fuel,
  ready T s -> (size (timers s) <= fuel)%nat -> -1 <= lag s < Z.of_nat n ->
  exists s' l, run_timer_list call n fuel s = Done (tt, s') /\ ready (T + lag s + 1) s' /\
    lag s' = -1 /\ calls s' = calls s ++ l.
Proof.
  induction n as [|n IH]; intros T s fuel Hr Hf Hl.
  all: destruct (decide (0 <= lag s)) as [Hge|Hge]; [|
    exists s, []; rewrite app_nil_r; split_and!; [apply run_done; lia| |lia|done];
    by replace (T + lag s + 1) with T by lia].
  { lia. }
  destruct (run_round T s fuel Hr Hf ltac:(done))
    as (s1 & F & Hrun & Hr1 & Hl1 & _ & _ & Hsz & _ & Hc1 & _).
  destruct (IH (T + 1) s1 fuel Hr1) as (s' & l & Hrun' & Hr' & Hl' & Hc'); [lia|lia|].
  eexists s', _. split_and!; [by rewrite Hrun| |done|by rewrite Hc', Hc1, <- app_assoc].
  by replace (T + lag s + 1) with (T + 1 + lag s1 + 1) by lia.
Qed.

(** A timer that the procedures leave alone is fired at its tick. *)
Lemma run_list_fires t tm : forall n T s fuel,
  ready T s -> (size (timers s) <= fuel)%nat -> lag s < Z.of_nat n -> Kp t tm ->
  timers s !! t = Some tm -> active tm = true -> 0 <= due_in s tm <= lag s ->
  exists s' l1 l2, run_timer_list call n fuel s = Done (tt, s') /\ ready (T + lag s + 1) s' /\
    lag s' = -1 /\ calls s' = calls s ++ l1 ++ (expires tm, handler tm, arg tm) :: l2.
Proof.
  induction n as [|n IH]; intros T s fuel Hr Hf Hl HK Htm Ha Hd; [lia|].
  destruct (run_round T s fuel Hr Hf ltac:(lia))
    as (s1 & F & Hrun & Hr1 & Hl1 & Hn1 & Hk1 & Hsz & _ & Hc1 & _ & _ & Hkeep & Hall & _).
  replace (T + lag s + 1) with (T + 1 + lag s1 + 1) by lia.
  destruct (decide (due_in s tm = 0)) as [Hz|Hnz].
  - destruct (run_list_run n (T + 1) s1 fuel Hr1) as (s' & l & Hrun' & Hr' & Hl' & Hc'); [lia|lia|].
    assert (Hin : (t, tm) ∈ F) by (apply Hall; [apply due_lookup; split_and!; [done|done|lia]|done]).
    apply list_elem_of_split in Hin as (F1 & F2 & ->).
    set (log := fun p : Z * timer => (timer_ticks s, handler (snd p), arg (snd p))) in Hc1.
    exists s', (log <$> F1), ((log <$> F2) ++ l). split_and!; [by rewrite Hrun|done|done|].
    rewrite Hc', Hc1, fmap_app, fmap_cons, <- !app_assoc. subst log. cbn [snd app].
    destruct (ready_due T s t tm Hr Htm Ha) as (_ & _ & Hx). rewrite Hx, Hz by lia.
    rewrite Z.add_0_r. rewrite (u32_small (timer_ticks s)); [reflexivity|].
    destruct Hr as (c & b & E & HW & _). rewrite (w_ticks _ _ _ _ _ _ _ HW). apply u32_range.
  - assert (Htm1 : timers s1 !! t = Some tm).
    { apply Hkeep; [done|done|]. apply eq_None_not_Some. intros [tm' (Htm' & _ & Hd')%due_lookup].
      assert (tm' = tm) as -> by congruence. lia. }
    assert (Hd1 : due_in s1 tm = due_in s tm - 1).
    { unfold due_in. rewrite Hk1. apply s32_tick. fold (due_in s tm). lia. }
    destruct (IH (T + 1) s1 fuel) as (s' & l1 & l2 & Hrun' & Hr' & Hl' & Hc'); [done|lia|lia|done..|lia|].
    exists s', (((fun p => (timer_ticks s, handler (snd p), arg (snd p))) <$> F) ++ l1), l2.
    split_and!; [by rewrite Hrun|done|done|]. by rewrite Hc', Hc1, <- !app_assoc.
Qed.
End RunList.

(** ** Exactly the timers that are due *)

(** The tick, counted from the next one to be processed, at which a timer is
    fired: its own, or the next one if that is past. *)
Definition due_at (s : twheel) (tm : timer) : Z := Z.max 0 (due_in s tm).

(** A timer after the list has caught up with the clock. *)
Definition retire (s : twheel) (tm : timer) : timer :=
  if active tm && (due_at s tm <=? lag s) then with_active tm false else tm.

Definition call_entry (s : twheel) (p : Z * Z * timer) : Z * Z * Z :=
  (u32 (timer_ticks s + fst (fst p)), handler (snd p), arg (snd p)).

Lemma StronglySorted_shift (l : list Z) m :
  StronglySorted Z.le l -> (forall x, x ∈ l -> 0 <= x) ->
  StronglySorted Z.le (replicate m 0 ++ (Z.succ <$> l)).
Proof.
  intros Hs Hl. induction m as [|m IH]; cbn [replicate app].
  - induction Hs as [|x l Hs IH Hf]; [constructor|]. cbn [fmap list_fmap]. constructor.
    + apply IH. intros y Hy. apply Hl. set_solver.
    + apply Forall_fmap. eapply Forall_impl; [exact Hf|]. cbn. lia.
  - constructor; [done|]. apply Forall_app. split; [apply Forall_replicate; lia|].
    apply Forall_fmap, Forall_forall. intros x Hx. cbn. specialize (Hl x Hx). lia.
Qed.

Section Exact.
Context (call : Z -> Z -> K twheel unit).
Context (Hcall : well_behaved (fun _ _ => True) call).

(** What one round leaves of each timer. *)
Lemma round_timers T s fuel :
  ready T s -> (size (timers s) <= fuel)%nat -> 0 <= lag s ->
  exists s' F, (forall n, run_timer_list call (S n) fuel s = run_timer_list call n fuel s') /\
    ready (T + 1) s' /\ lag s' = lag s - 1 /\ timer_ticks s' = u32 (timer_ticks s + 1) /\
    size (timers s') = size (timers s) /\
    (forall u, timers s' !! u =
       (fun tm => if active tm && (due_in s tm <=? 0) then with_active tm false else tm) <$> timers s !! u) /\
    calls s' = calls s ++ ((fun p => (timer_ticks s, handler (snd p), arg (snd p))) <$> F) /\
    NoDup F.*1 /\ forall u tm, (u, tm) ∈ F <-> due s !! u = Some tm.
Proof.
  intros Hr Hf Hl. destruct (run_round _ call Hcall T s fuel Hr Hf Hl)
    as (s1 & F & Hrun & Hr1 & Hl1 & _ & Hk1 & Hsz & Hdom & Hc1 & Hnd & Honly & Hkeep & Hall & Hoff).
  exists s1, F. split_and!; try done.
  - intros u. destruct (timers s !! u) as [tm|] eqn:Hu; cbn [fmap option_fmap option_map].
    + destruct (due s !! u) as [tm'|] eqn:Hq.
      * pose proof Hq as (Hq1 & Hq2 & Hq3)%due_lookup. assert (tm' = tm) as -> by congruence.
        rewrite Hq2. destruct (Z.leb_spec (due_in s tm) 0); [|lia]. by apply Hoff.
      * destruct (active tm && (due_in s tm <=? 0)) eqn:Ht; [|by apply Hkeep].
        breflect. assert (due s !! u = Some tm) by by apply due_lookup. congruence.
    + apply not_elem_of_dom. by rewrite Hdom, not_elem_of_dom.
  - intros u tm. split; [apply Honly|]. intros H. by apply Hall.
Qed.

Lemma retire_round s s' tm :
  0 <= lag s -> lag s' = lag s - 1 -> timer_ticks s' = u32 (timer_ticks s + 1) ->
  retire s' (if active tm && (due_in s tm <=? 0) then with_active tm false else tm) = retire s tm.
Proof.
  intros Hl Hl' Hk. unfold retire, due_at.
  destruct (active tm) eqn:Ha; cbn [andb]; [|by rewrite Ha].
  destruct (Z.leb_spec (due_in s tm) 0).
  - cbn [with_active active andb]. destruct (Z.leb_spec (Z.max 0 (due_in s tm)) (lag s)); [done|lia].
  - rewrite Ha. cbn [andb]. assert (due_in s' tm = due_in s tm - 1) as ->.
    { unfold due_in. rewrite Hk. apply s32_tick. fold (due_in s tm). lia. }
    destruct (Z.leb_spec (Z.max 0 (due_in s tm - 1)) (lag s')),
      (Z.leb_spec (Z.max 0 (due_in s tm)) (lag s)); (done || lia).
Qed.

(** The timers of a round before those of the following rounds. *)
Definition joined (F0 : list (Z * timer)) (F1 : list (Z * Z * timer)) : list (Z * Z * timer) :=
  ((fun p => (0, fst p, snd p)) <$> F0) ++ ((fun p => (fst (fst p) + 1, snd (fst p), snd p)) <$> F1).

(** [F] are the timers that are fired, with their ticks. *)
Definition all_due (s : twheel) (F : list (Z * Z * timer)) : Prop :=
  forall d u tm, (d, u, tm) ∈ F <->
    timers s !! u = Some tm /\ active tm = true /\ d = due_at s tm /\ d <= lag s.

Section Join.
Context (s s1 : twheel) (F0 : list (Z * timer)) (F1 : list (Z * Z * timer)).
Context (Hge : 0 <= lag s) (Hl1 : lag s1 = lag s - 1).
Context (Hk1 : timer_ticks s1 = u32 (timer_ticks s + 1)).
Context (Htm1 : forall u, timers s1 !! u =
  (fun tm => if active tm && (due_in s tm <=? 0) then with_active tm false else tm) <$> timers s !! u).
Context (HF0 : forall u tm, (u, tm) ∈ F0 <-> due s !! u = Some tm) (HF1 : all_due s1 F1).

Lemma due_in_next tm : 0 < due_in s tm -> due_in s1 tm = due_in s tm - 1.
Proof. intros H. unfold due_in in *. rewrite Hk1. apply s32_tick. lia. Qed.

Lemma joined_due : all_due s (joined F0 F1).
Proof.
  intros d u tm. unfold joined. rewrite elem_of_app, !list_elem_of_fmap. split.
  - intros [([u' tm'] & [= -> -> ->] & Hin)|([[d' u'] tm'] & [= -> -> ->] & Hin)].
    + apply HF0, due_lookup in Hin as (? & ? & ?). unfold due_at. split_and!; [done|done|lia|lia].
    + apply HF1 in Hin as (Hin & Ha & Hd & Hle). rewrite Htm1 in Hin.
      destruct (timers s !! u') as [um|] eqn:Hu; [|done]. cbn in Hin.
      destruct (active um && (due_in s um <=? 0)) eqn:Ht; [injection Hin as <-; done|].
      injection Hin as ->. rewrite Ha in Ht. cbn in Ht. breflect.
      pose proof (due_in_next tm' ltac:(lia)). unfold due_at in *. split_and!; [done|done|lia|lia].
  - intros (Hu & Ha & Hd & Hle). destruct (decide (due_in s tm <= 0)) as [Hz|Hz].
    + left. exists (u, tm). unfold due_at in Hd. rewrite Z.max_l in Hd by lia. subst d.
      split; [done|]. apply HF0, due_lookup. done.
    + right. exists (d - 1, u, tm). cbn. rewrite Z.sub_add. split; [done|]. apply HF1. rewrite Htm1, Hu. cbn.
      rewrite Ha. destruct (Z.leb_spec (due_in s tm) 0); [lia|]. cbn.
      pose proof (due_in_next tm ltac:(lia)). unfold due_at in *. split_and!; [done|done|lia|lia].
Qed.

Lemma joined_sorted : StronglySorted Z.le F1.*1.*1 -> StronglySorted Z.le (joined F0 F1).*1.*1.
Proof.
  intros Hs. unfold joined. rewrite !fmap_app, <- !list_fmap_compose.
  replace (_ <$> F0) with (replicate (length F0) 0).
  2:{ clear. induction F0 as [|p F IH]; [done|]. cbn. by f_equal. }
  replace (_ <$> F1) with (Z.succ <$> F1.*1.*1) by (rewrite <- !list_fmap_compose; by apply list_fmap_ext).
  apply StronglySorted_shift; [done|].
  intros x ([y u] & -> & ([[y' u'] tm] & [= <- <-] & Hin)%list_elem_of_fmap)%list_elem_of_fmap.
  apply HF1 in Hin as (_ & _ & -> & _). unfold due_at. cbn. lia.
Qed.

Lemma joined_NoDup : NoDup F0.*1 -> NoDup F1.*1.*2 -> NoDup (joined F0 F1).*1.*2.
Proof.
  intros Hnd0 Hnd1. unfold joined. rewrite !fmap_app, <- !list_fmap_compose. apply NoDup_app. split_and!.
  - by replace (_ <$> F0) with F0.*1 by by apply list_fmap_ext.
  - intros u ([u' tm] & -> & Hin)%list_elem_of_fmap ([[d w] tm'] & Hw & Hin')%list_elem_of_fmap.
    cbn in Hw. subst w. apply HF0, due_lookup in Hin as (Hin & Ha & Hd). apply HF1 in Hin' as (Hin' & Ha' & _).
    cbn in Hin'. rewrite Htm1, Hin in Hin'. cbn in Hin'. rewrite Ha in Hin'.
    destruct (Z.leb_spec (due_in s tm) 0); [|lia]. injection Hin' as <-. done.
  - by replace (_ <$> F1) with F1.*1.*2 by (rewrite <- !list_fmap_compose; by apply list_fmap_ext).
Qed.

Lemma joined_calls :
  timer_ticks s = u32 (timer_ticks s) ->
  call_entry s <$> joined F0 F1 =
  ((fun p => (timer_ticks s, handler (snd p), arg (snd p))) <$> F0) ++ (call_entry s1 <$> F1).
Proof.
  intros Hu. unfold joined. rewrite fmap_app, <- !list_fmap_compose. f_equal; apply list_fmap_ext.
  - intros i p _. unfold call_entry. cbn. by rewrite Z.add_0_r, <- Hu.
  - intros i [[d u] tm] _. unfold call_entry. cbn. rewrite Hk1, u32_add_l. do 3 f_equal. lia.
Qed.
End Join.

Lemma run_list_exact : forall n T s fuel,
  ready T s -> (size (timers s) <= fuel)%nat -> -1 <= lag s < Z.of_nat n ->
  exists s' F, run_timer_list call n fuel s = Done (tt, s') /\
    timers s' = retire s <$> timers s /\ calls s' = calls s ++ (call_entry s <$> F) /\
    StronglySorted Z.le F.*1.*1 /\ NoDup F.*1.*2 /\ all_due s F.
Proof.
  induction n as [|n IH]; intros T s fuel Hr Hf Hl.
  all: destruct (decide (0 <= lag s)) as [Hge|Hge]; [|
    exists s, []; split_and!; [apply run_done; lia| |by rewrite app_nil_r|constructor|constructor|] ].
  2,5: rewrite <- (map_fmap_id (timers s)) at 1; apply map_fmap_ext; intros u tm _; unfold retire, due_at;
    destruct (Z.leb_spec (Z.max 0 (due_in s tm)) (lag s)); [lia|]; by rewrite andb_false_r.
  2,4: intros d u tm; unfold due_at; split; [by intros ?%not_elem_of_nil|lia].
  { lia. }
  destruct (round_timers T s fuel Hr Hf Hge) as (s1 & F0 & Hrun & Hr1 & Hl1 & Hk1 & Hsz & Htm1 & Hc1 & Hnd0 & HF0).
  destruct (IH (T + 1) s1 fuel Hr1) as (s' & F1 & Hrun' & Ht' & Hc' & Hs' & Hnd' & HF1); [lia|lia|].
  exists s', (joined F0 F1). split; [by rewrite Hrun|]. split; [|split; [|split; [|split]]].
  - rewrite Ht'. apply map_eq. intros u. rewrite !lookup_fmap, Htm1.
    destruct (timers s !! u) as [tm|]; [|done]. cbn [fmap option_fmap option_map]. by rewrite retire_round.
  - rewrite (joined_calls s s1), Hc', Hc1 by
      (done || (destruct Hr as (c & b & E & HW & _); rewrite (w_ticks _ _ _ _ _ _ _ HW), u32_idemp; done)).
    by rewrite app_assoc.
  - by eapply joined_sorted.
  - by eapply joined_NoDup.
  - by eapply joined_due.
Qed.
End Exact.

(** ** The operations of clients *)

Definition put_timer (t : Z) (tm : timer) (s : twheel) : twheel :=
  mkTwheel (nx s) (pv s) (<[t := tm]> (timers s)) (index s) (timer_ticks s) (ticks s) (calls s).

(** The expiry of a timer on the clock without wrap-around. *)
Lemma expiry T s tm :
  timer_ticks s = u32 T -> is_u32 (expires tm) ->
  expires tm = u32 (T + due_in s tm) /\ T - 2147483648 <= T + due_in s tm < T + 2147483648.
Proof.
  intros HT He. destruct (s32_bounds (expires tm - timer_ticks s)) as [Hb Hu].
  unfold due_in. split; [|lia]. rewrite <- u32_add_r, Hu, u32_add_r, HT.
  replace (T + (expires tm - u32 T)) with (T + expires tm - u32 T) by lia.
  rewrite u32_sub_r. replace (T + expires tm - T) with (expires tm) by lia. by rewrite u32_small.
Qed.

Section Client.
Context (s : twheel) (T : Z) (c : nat -> Z) (b : tbuckets) (E : Z -> Z) (HW : wheel s T c b E).

Lemma inactive_free t tm n i : timers s !! t = Some tm -> active tm = false -> t ∉ b n i.
Proof.
  intros Htm Ha Hin. destruct (w_in _ _ _ _ _ _ _ HW n i t Hin) as [(tm' & ? & ? & _) _]. congruence.
Qed.

Lemma absent_free t n i : timers s !! t = None -> t ∉ b n i.
Proof.
  intros Htm Hin. destruct (w_in _ _ _ _ _ _ _ HW n i t Hin) as [(tm' & ? & ? & _) _]. congruence.
Qed.

(** A timer that is on no list can be written. *)
Lemma put_wheel t tm' :
  (forall n i, t ∉ b n i) -> active tm' = false -> wheel (put_timer t tm' s) T c b E.
Proof.
  intros Ht Ha. destruct HW as [Wt Wi Wc Ws Wr Win Wrem Wa].
  split; cbn [put_timer timers index timer_ticks nx pv]; try done.
  - intros n i u Hu. destruct (Win n i u Hu) as [H1 H2]. split; [|done].
    apply (enlisted_other s _ _ E _ t); [intros ->; by eapply Ht| |done|done].
    intros v Hv. cbn [put_timer timers]. by rewrite lookup_insert_ne.
  - by intros u ?%not_elem_of_nil.
  - intros u um Hu Hua. destruct (decide (u = t)) as [->|].
    + rewrite lookup_insert_eq in Hu. congruence.
    + rewrite lookup_insert_ne in Hu by done. eauto.
Qed.

Lemma attach_wheel t tm :
  timers s !! t = Some tm -> active tm = false -> is_u32 (expires tm) ->
  exists s' b' E', attach_timer t s = Done (tt, s') /\ wheel s' T c b' E' /\
    timers s' = <[t := with_active tm true]> (timers s) /\ same_clock s s' /\ calls s' = calls s.
Proof.
  intros Htm Ha He. destruct (expiry T s tm (w_ticks _ _ _ _ _ _ _ HW) He) as [Hx Hr].
  destruct (attach_run _ _ _ _ _ _ _ HW t tm (T + due_in s tm) [] Htm Hx Hr)
    as (s' & n & i & Hrun & _ & HW' & Ht' & Hc' & Hl' & _); try done.
  { intros n i. by eapply inactive_free. }
  { apply not_elem_of_nil. }
  { by intros u ?%not_elem_of_nil. }
  eauto 10.
Qed.

Lemma add_wheel t tm :
  timers s !! t = Some tm -> is_u32 (expires tm) ->
  exists s' b' E', add_timer t s = Done (tt, s') /\ wheel s' T c b' E' /\
    timers s' = <[t := with_active tm true]> (timers s) /\ same_clock s s' /\ calls s' = calls s.
Proof.
  intros Htm He. unfold add_timer, get_timer. kx. rewrite Htm. destruct (active tm) eqn:Ha.
  - exists s, b, E. split_and!; try done. symmetry. apply insert_id. rewrite Htm. f_equal.
    destruct tm; cbn in *. by subst.
  - by apply attach_wheel.
Qed.

Lemma detach_wheel t tm :
  timers s !! t = Some tm ->
  exists rc s' b', detach_timer t s = Done (rc, s') /\ wheel s' T c b' E /\
    rc = (if active tm then 1 else 0) /\
    timers s' = <[t := with_active tm false]> (timers s) /\ same_clock s s' /\ calls s' = calls s.
Proof.
  intros Htm. destruct (active tm) eqn:Ha.
  - destruct (w_active _ _ _ _ _ _ _ HW t tm Htm Ha) as [(n & i & Hi)|H]; [|by apply not_elem_of_nil in H].
    apply list_elem_of_split in Hi as (l1 & l2 & Hb).
    destruct (detach_run _ _ _ _ _ _ _ HW n i l1 t l2 I Hb) as (s' & tm' & Htm' & Hd & HW' & Ht' & Hc' & Hl').
    assert (tm' = tm) as -> by congruence. eauto 10.
  - exists 0, s, b. unfold detach_timer, get_timer. kx. rewrite Htm, Ha. split_and!; try done.
    symmetry. apply insert_id. rewrite Htm. f_equal. destruct tm; cbn in *. by subst.
Qed.
End Client.

Lemma del_wheel s T c b E t tm :
  wheel s T c b E -> timers s !! t = Some tm ->
  exists s' b', del_timer t s = Done (if active tm then 1 else 0, s') /\ wheel s' T c b' E /\
    timers s' = <[t := with_active tm false]> (timers s) /\ same_clock s s' /\ calls s' = calls s.
Proof.
  intros HW Htm. destruct (detach_wheel s T c b E HW t tm Htm) as (rc & s1 & b1 & Hd & HW1 & Hrc & Ht1 & Hc1 & Hl1).
  subst rc. eexists _, b1. split.
  { unfold del_timer, null_nx, null_pv. kx. rewrite Hd. reflexivity. }
  cbn [nx pv timers index timer_ticks ticks calls]. split; [|done].
  apply (wheel_null s1 T c b1 E t HW1). intros n i.
  apply (inactive_free s1 T c b1 E HW1 t (with_active tm false)); [|done].
  by rewrite Ht1, lookup_insert_eq.
Qed.

(** Writing [expires] before the timer is taken off its list. *)
Lemma detach_put s t tm e rc s' :
  timers s !! t = Some tm -> detach_timer t s = Done (rc, s') ->
  timers s' = <[t := with_active tm false]> (timers s) ->
  detach_timer t (put_timer t (with_expires tm e) s) =
    Done (rc, put_timer t (with_expires (with_active tm false) e) s').
Proof.
  intros Htm Hd Ht'. revert Hd. unfold detach_timer, get_timer, get_nx, get_pv, set_nx, set_pv, set_timer, put_timer.
  kx. cbn [timers nx pv index timer_ticks ticks calls]. rewrite Htm, lookup_insert_eq. cbn [with_expires active].
  destruct (active tm) eqn:Ha; cbn [negb].
  - destruct (nx s !! TM t) as [n|] eqn:Hn; [|done]. cbn [timers nx pv index timer_ticks ticks calls].
    destruct (pv s !! TM t) as [p|] eqn:Hp; [|done]. cbn [timers nx pv index timer_ticks ticks calls].
    destruct (<[n := p]> (pv s) !! TM t) as [p'|] eqn:Hp'; [|done]. cbn [timers nx pv index timer_ticks ticks calls].
    rewrite Hn. intros Hq. injection Hq as <- <-.
    repeat (rewrite ?Hn, ?Hp, ?Hp'; cbn [timers nx pv index timer_ticks ticks calls]).
    by rewrite !insert_insert_eq.
  - intros Hq. injection Hq as <- <-. by destruct tm; cbn in *; subst.
Qed.

Lemma mod_wheel s T c b E t tm e :
  wheel s T c b E -> timers s !! t = Some tm -> is_u32 e ->
  exists s' b' E', mod_timer t e s = Done (if active tm then 1 else 0, s') /\ wheel s' T c b' E' /\
    timers s' = <[t := mkTimer e true (handler tm) (arg tm)]> (timers s) /\
    same_clock s s' /\ calls s' = calls s.
Proof.
  intros HW Htm He.
  destruct (detach_wheel s T c b E HW t tm Htm) as (rc & s1 & b1 & Hd & HW1 & -> & Ht1 & Hc1 & Hl1).
  pose proof (detach_put s t tm e _ _ Htm Hd Ht1) as Hd'.
  assert (HW2 : wheel (put_timer t (with_expires (with_active tm false) e) s1) T c b1 E).
  { apply put_wheel; [done| |done]. intros n i.
    apply (inactive_free s1 T c b1 E HW1 t (with_active tm false)); [|done].
    by rewrite Ht1, lookup_insert_eq. }
  destruct (attach_wheel _ T c b1 E HW2 t (with_expires (with_active tm false) e))
    as (s2 & b2 & E2 & Hr2 & HW3 & Ht3 & Hc3 & Hl3); [apply lookup_insert_eq|done|done|].
  exists s2, b2, E2. split_and!; [|done| | |by rewrite Hl3].
  - unfold mod_timer, get_timer, set_timer. kx. rewrite Htm.
    change (mkTwheel _ _ _ _ _ _ _) with (put_timer t (with_expires tm e) s).
    rewrite Hd', Hr2. reflexivity.
  - rewrite Ht3. cbn [put_timer timers]. by rewrite Ht1, !insert_insert_eq.
  - etrans; [exact Hc1|]. etrans; [|exact Hc3]. done.
Qed.

Lemma init_timer_wheel s T c b E t h a :
  wheel s T c b E -> (forall tm, timers s !! t = Some tm -> active tm = false) ->
  exists s', init_timer t h a s = Done (tt, s') /\ wheel s' T c b E /\
    timers s' = <[t := mkTimer 0 false h a]> (timers s) /\ same_clock s s' /\ calls s' = calls s.
Proof.
  intros HW Ht. assert (Hf : forall n i, t ∉ b n i).
  { intros n i. destruct (timers s !! t) as [tm|] eqn:Htm; [|by eapply absent_free].
    by eapply inactive_free; [done|done|apply Ht]. }
  set (s1 := mkTwheel (delete (TM t) (delete (TM t) (nx s))) (pv s) (timers s) (index s)
                      (timer_ticks s) (ticks s) (calls s)).
  exists (put_timer t (mkTimer 0 false h a) s1). split; [done|]. split; [|done].
  apply put_wheel; [|done|done]. subst s1.
  destruct HW as [Wt Wi Wc Ws Wr Win Wrem Wa]. split; try done. cbn [nx pv].
  revert Wr. apply rings_frame. intros n i r _ Hr. assert (TM t <> r).
  { intros <-. apply elem_of_cons in Hr as [|Hr]; [done|]. apply TM_in in Hr. by eapply Hf. }
  by rewrite !lookup_delete_ne.
Qed.

(** ** Start-up and the operations in any order *)

(** The globals before [init_timers]: all zero. *)
Definition boot : twheel := mkTwheel ∅ ∅ ∅ [0; 0; 0; 0; 0] 0 0 [].

Definition heads_ok (s : twheel) : bool :=
  forallb (fun p => bool_decide (nx s !! TV (fst p) (snd p) = Some (TV (fst p) (snd p))) &&
                    bool_decide (pv s !! TV (fst p) (snd p) = Some (TV (fst p) (snd p))))
    (((fun i => (0%nat, i)) <$> seqZ 0 256) ++
     (n ← seq 1 4; (fun i => (n, i)) <$> seqZ 0 64)).

Lemma init_timers_check :
  match init_timers boot with
  | Done (_, s) => heads_ok s && bool_decide (timers s = ∅) && bool_decide (index s = [0; 0; 0; 0; 0]) &&
      (timer_ticks s =? 0) && (ticks s =? 0) && bool_decide (calls s = [])
  | _ => false
  end = true.
Proof. vm_compute. reflexivity. Qed.

Lemma vslot_listed n i :
  vslot n i -> (n, i) ∈ ((fun i => (0%nat, i)) <$> seqZ 0 256) ++
                        (n ← seq 1 4; (fun i => (n, i)) <$> seqZ 0 64).
Proof.
  rewrite elem_of_app, list_elem_of_fmap, list_elem_of_bind. intros [[-> Hi]|[Hn Hi]].
  - left. exists i. split; [done|]. apply elem_of_seqZ. lia.
  - right. exists n. rewrite list_elem_of_fmap, elem_of_seq. split; [|lia].
    exists i. split; [done|]. apply elem_of_seqZ. lia.
Qed.

Lemma init_timers_ready :
  exists s, init_timers boot = Done (tt, s) /\ ready 0 s /\ timers s = ∅ /\ ticks s = 0 /\
    timer_ticks s = 0 /\ calls s = [].
Proof.
  pose proof init_timers_check as H. destruct (init_timers boot) as [[[] s]| | |]; try done.
  rewrite !andb_true_iff, !bool_decide_eq_true in H. destruct H as (((((Hh & Ht) & Hi) & Hk) & Hn) & Hc).
  breflect. exists s. split_and!; try done. exists (fun _ => 0), (fun _ _ => []), (fun _ => 0). split_and!.
  - split; try done.
    + intros n Hn'. assert (0 < 2 ^ sh n) by (apply Z.pow_pos_nonneg; unfold sh; lia). lia.
    + split; [constructor|by intros ????? ?%not_elem_of_nil|by intros ??? ?%not_elem_of_nil].
    + intros n i Hv _. cbn [fmap list_fmap links].
      unfold heads_ok in Hh. rewrite forallb_forall in Hh.
      specialize (Hh (n, i)). rewrite <- list_elem_of_In in Hh.
      specialize (Hh (vslot_listed n i Hv)). cbn [fst snd] in Hh.
      by rewrite andb_true_iff, !bool_decide_eq_true in Hh.
    + by intros n i t ?%not_elem_of_nil.
    + by intros t ?%not_elem_of_nil.
    + intros t tm. by rewrite Ht.
  - intros n Hn'. assert (0 < 2 ^ sh n) by (apply Z.pow_pos_nonneg; unfold sh; lia). lia.
  - intros t tm. by rewrite Ht.
Qed.

Definition put_ticks (tk : Z) (s : twheel) : twheel :=
  mkTwheel (nx s) (pv s) (timers s) (index s) (timer_ticks s) tk (calls s).

(** What clients, the clock interrupt and the deferred call that runs the
    timer list do, in any order. *)
Inductive tstep (call : Z -> Z -> K twheel unit) (s : twheel) : twheel -> Prop :=
| tstep_init t h a s' :
    (forall tm, timers s !! t = Some tm -> active tm = false) ->
    init_timer t h a s = Done (tt, s') -> tstep call s s'
| tstep_expires t tm e :
    timers s !! t = Some tm -> active tm = false -> is_u32 e ->
    tstep call s (put_timer t (with_expires tm e) s)
| tstep_add t s' : add_timer t s = Done (tt, s') -> tstep call s s'
| tstep_del t rc s' : del_timer t s = Done (rc, s') -> tstep call s s'
| tstep_mod t e rc s' : is_u32 e -> mod_timer t e s = Done (rc, s') -> tstep call s s'
| tstep_clock tk : -1 <= s32 (tk - timer_ticks s) -> tstep call s (put_ticks tk s)
| tstep_run s' :
    run_timer_list call (Z.to_nat (lag s + 1)) (size (timers s)) s = Done (tt, s') -> tstep call s s'.

Definition tinv (s : twheel) : Prop := -1 <= lag s /\ exists T, ready T s.

Lemma same_clock_lag s s' : same_clock s s' -> lag s' = lag s.
Proof. intros (_ & H1 & H2). unfold lag. by rewrite H1, H2. Qed.

Lemma get_timer_inv {A} (t : Z) (f : timer -> K twheel A) s r :
  kbind (get_timer t) f s = Done r -> exists tm, timers s !! t = Some tm.
Proof. unfold get_timer. kx. destruct (timers s !! t) as [tm|]; [by exists tm|done]. Qed.

Lemma detach_inv {A} (t : Z) (f : Z -> K twheel A) s r :
  kbind (detach_timer t) f s = Done r -> exists tm, timers s !! t = Some tm.
Proof.
  unfold kbind. destruct (detach_timer t s) as [[rc s']| | |] eqn:E; [|done..]. intros _.
  by eapply get_timer_inv.
Qed.

Lemma tinv_wheel s s' T c b' E' :
  -1 <= lag s -> before_tick T c -> same_clock s s' -> wheel s' T c b' E' -> typed s' -> tinv s'.
Proof.
  intros Hl Hb Hc HW Ht. split; [by rewrite (same_clock_lag s s' Hc)|]. by exists T, c, b', E'.
Qed.

Lemma tstep_inv call s s' :
  well_behaved (fun _ _ => False) call -> tstep call s s' -> tinv s -> tinv s'.
Proof.
  intros Hcall Hstep [Hl (T & c & b & E & HW & Hb & Hty)].
  destruct Hstep as [t h a s' Hi Hr|t tm e Htm Ha He|t s' Hr|t rc s' Hr|t e rc s' He Hr|tk Htk|s' Hr].
  - destruct (init_timer_wheel s T c b E t h a HW Hi) as (s1 & Hr1 & HW1 & Ht1 & Hc1 & _).
    assert (s1 = s') as <- by congruence. eapply tinv_wheel; [done..|].
    eapply typed_put; [done| |done]. done.
  - eapply (tinv_wheel s); [done|done|done| |].
    + apply put_wheel; [exact HW| |done]. intros n i. by eapply inactive_free.
    + exact (typed_put s (put_timer t (with_expires tm e) s) t (with_expires tm e) Hty He eq_refl).
  - destruct (get_timer_inv _ _ _ _ Hr) as [tm Htm].
    destruct (add_wheel s T c b E HW t tm Htm (Hty _ _ Htm)) as (s1 & b1 & E1 & Hr1 & HW1 & Ht1 & Hc1 & _).
    assert (s1 = s') as <- by congruence. eapply tinv_wheel; [done..|].
    eapply typed_put; [done| |done]. exact (Hty _ _ Htm).
  - destruct (detach_inv _ _ _ _ Hr) as [tm Htm].
    destruct (del_wheel s T c b E t tm HW Htm) as (s1 & b1 & Hr1 & HW1 & Ht1 & Hc1 & _).
    assert (s1 = s') as <- by congruence. eapply tinv_wheel; [done..|].
    eapply typed_put; [done| |done]. exact (Hty _ _ Htm).
  - destruct (get_timer_inv _ _ _ _ Hr) as [tm Htm].
    destruct (mod_wheel s T c b E t tm e HW Htm He) as (s1 & b1 & E1 & Hr1 & HW1 & Ht1 & Hc1 & _).
    assert (s1 = s') as <- by congruence. eapply tinv_wheel; [done..|].
    eapply typed_put; [done| |done]. exact He.
  - split; [done|]. exists T, c, b, E. split_and!; [|done|done].
    destruct HW as [Wt Wi Wc Ws Wr Win Wrem Wa]. by split.
  - destruct (run_list_run _ call Hcall (Z.to_nat (lag s + 1)) T s (size (timers s)))
      as (s1 & l & Hr1 & HR1 & Hl1 & _); [by exists c, b, E|done|lia|].
    assert (s1 = s') as <- by congruence. split; [lia|]. eauto.
Qed.

(** ** Properties *)

(** C9: an active timer that its clients and the timer procedures leave alone
    is fired at its own tick: when the clock has reached its expiry,
    [run_timer_list] returns, and the timer's procedure has been called with
    its argument while [timer_ticks] was the expiry, whatever the procedures
    of other timers add, delete and modify meanwhile, as long as they are
    [well_behaved]: they return, leave the clock alone, make and remove no
    timers and make no timer due at once. *)
Theorem timer_fires call s T t tm n fuel :
  well_behaved (fun u um => u = t /\ active um = true) call ->
  ready T s -> timers s !! t = Some tm -> active tm = true ->
  0 <= due_in s tm <= lag s -> lag s < Z.of_nat n -> (size (timers s) <= fuel)%nat ->
  exists s' before after,
    run_timer_list call n fuel s = Done (tt, s') /\ lag s' = -1 /\ ready (T + lag s + 1) s' /\
    calls s' = calls s ++ before ++ (expires tm, handler tm, arg tm) :: after.
Proof.
  intros Hcall Hr Htm Ha Hd Hn Hf.
  destruct (run_list_fires _ call Hcall t tm n T s fuel) as (s' & l1 & l2 & ?); try done.
  exists s', l1, l2. tauto.
Qed.

(** C10: with procedures that do not touch timers, [run_timer_list] fires
    exactly the active timers whose expiry the clock has reached, each once,
    at its expiry (at once if that had passed when it was added), in the order
    of expiry, and leaves the other timers as they are. *)
Theorem timer_list_exact call s T n fuel :
  well_behaved (fun _ _ => True) call -> ready T s ->
  -1 <= lag s < Z.of_nat n -> (size (timers s) <= fuel)%nat ->
  exists s' F, run_timer_list call n fuel s = Done (tt, s') /\
    timers s' = retire s <$> timers s /\ calls s' = calls s ++ (call_entry s <$> F) /\
    StronglySorted Z.le F.*1.*1 /\ NoDup F.*1.*2 /\
    forall d u tm, (d, u, tm) ∈ F <->
      timers s !! u = Some tm /\ active tm = true /\ d = due_at s tm /\ d <= lag s.
Proof. intros Hcall Hr Hl Hf. by apply (run_list_exact call Hcall n T s fuel). Qed.

(** C36: after [init_timers], in whatever order timers are initialised, added,
    deleted and modified and the timer list is run, the timer vectors stay
    well formed, and each of the operations returns: it neither follows a bad
    link nor loops.  The timer procedures are [well_behaved]: they return, leave
    the clock alone, make and remove no timers and make no timer due at once. *)
Theorem timers_safe call s0 s :
  well_behaved (fun _ _ => False) call ->
  init_timers boot = Done (tt, s0) -> rtc (tstep call) s0 s ->
  tinv s /\
  (forall t tm, timers s !! t = Some tm ->
     (exists s', add_timer t s = Done (tt, s')) /\
     (exists s', del_timer t s = Done (if active tm then 1 else 0, s')) /\
     forall e, is_u32 e -> exists s', mod_timer t e s = Done (if active tm then 1 else 0, s')) /\
  exists s', run_timer_list call (Z.to_nat (lag s + 1)) (size (timers s)) s = Done (tt, s') /\ lag s' = -1.
Proof.
  intros Hcall H0 Hsteps. assert (Hinv : tinv s).
  { assert (Hb : tinv s0).
    { destruct init_timers_ready as (s1 & H1 & HR & _ & Hk & Hn & _). assert (s1 = s0) as <- by congruence.
      split; [|by exists 0]. unfold lag. by rewrite Hk, Hn. }
    clear H0. induction Hsteps as [|s0 s1 s2 Hstep _ IH]; [done|]. apply IH. by eapply tstep_inv. }
  split; [done|]. destruct Hinv as [Hl (T & c & b & E & HW & Hb & Hty)]. split.
  - intros t tm Htm. split_and!.
    + destruct (add_wheel s T c b E HW t tm Htm (Hty _ _ Htm)) as (s1 & _ & _ & ? & _). eauto.
    + destruct (del_wheel s T c b E t tm HW Htm) as (s1 & _ & ? & _). eauto.
    + intros e He. destruct (mod_wheel s T c b E t tm e HW Htm He) as (s1 & _ & _ & ? & _). eauto.
  - destruct (run_list_run _ call Hcall (Z.to_nat (lag s + 1)) T s (size (timers s)))
      as (s1 & l & Hr1 & _ & Hl1 & _); [by exists c, b, E|done|lia|]. eauto.
Qed.

(** ** Witnesses *)

(** Procedure 2 restarts the timer it is given, unless that is timer 7. *)
Definition demo_call (h a : Z) : K twheel unit :=
  fun s => if (h =? 2) && negb (a =? 7) then
             match timers s !! a with
             | Some _ => (mod_timer a (u32 (timer_ticks s + 100)) ;;; kret tt)%K s
             | None => Done (tt, s)
             end
           else Done (tt, s).

Lemma demo_call_ok : well_behaved (fun u um => u = 7 /\ active um = true) demo_call.
Proof.
  intros T h a s Hf. unfold demo_call. destruct (id Hf) as (c & b & E & HW & Hin & Hty).
  destruct ((h =? 2) && negb (a =? 7)) eqn:Hc; [|by exists s].
  destruct (timers s !! a) as [tm|] eqn:Htm; [|by exists s]. breflect.
  destruct (mod_wheel s T c b E a tm (u32 (timer_ticks s + 100)) HW Htm) as (s' & b' & E' & Hr & HW' & Ht' & Hc' & Hl').
  { apply u32_range. }
  exists s'. split_and!; try apply Hc'; try done.
  - kx. by rewrite Hr.
  - exists c, b', E'. split_and!; [done|done|]. eapply typed_put; [done| |done]. apply u32_range.
  - rewrite Ht', dom_insert_lookup_L; [done|by eexists].
  - apply map_subseteq_spec. intros u um (Hu & Hua & Hud)%due_lookup. apply due_lookup.
    unfold due_in in *. destruct Hc' as (_ & Hk & _). rewrite Hk in Hud. rewrite Ht' in Hu.
    apply lookup_insert_Some in Hu as [[-> <-]|[Hne Hu]]; [|done]. exfalso. cbn [expires] in Hud.
    rewrite (s32_cong _ 100) in Hud; [vm_compute in Hud; done|]. rewrite u32_sub_l. f_equal. lia.
  - intros u um Hu [-> _]. rewrite Ht', lookup_insert_ne; [done|]. lia.
Qed.

(** Timer 7 expires at tick 300, timer 8 restarts itself from tick 3 on. *)
Definition demo_timers : K twheel unit :=
  (init_timers ;;; init_timer 7 1 5 ;;; init_timer 8 2 8 ;;;
   (let* _ := mod_timer 7 300 in let* _ := mod_timer 8 3 in kmod (put_ticks 310)))%K.

Lemma demo_timers_ready :
  exists s, demo_timers boot = Done (tt, s) /\ ready 0 s /\ ticks s = 310 /\ timer_ticks s = 0 /\ calls s = [] /\
    timers s = <[8 := mkTimer 3 true 2 8]> (<[7 := mkTimer 300 true 1 5]> ∅).
Proof.
  destruct init_timers_ready as (s0 & Hr0 & (c & b & E & HW & Hb & Hty) & Ht0 & Hk0 & Hn0 & Hl0).
  destruct (init_timer_wheel s0 0 c b E 7 1 5 HW) as (s1 & Hr1 & HW1 & Ht1 & Hc1 & Hl1).
  { by rewrite Ht0. }
  destruct (init_timer_wheel s1 0 c b E 8 2 8 HW1) as (s2 & Hr2 & HW2 & Ht2 & Hc2 & Hl2).
  { by rewrite Ht1, Ht0. }
  destruct (mod_wheel s2 0 c b E 7 (mkTimer 0 false 1 5) 300 HW2) as (s3 & b3 & E3 & Hr3 & HW3 & Ht3 & Hc3 & Hl3).
  { by rewrite Ht2, Ht1, lookup_insert_ne, lookup_insert_eq. }
  { done. }
  destruct (mod_wheel s3 0 c b3 E3 8 (mkTimer 0 false 2 8) 3 HW3) as (s4 & b4 & E4 & Hr4 & HW4 & Ht4 & Hc4 & Hl4).
  { by rewrite Ht3, Ht2, lookup_insert_ne, lookup_insert_eq. }
  { done. }
  assert (Ht : timers s4 = <[8 := mkTimer 3 true 2 8]> (<[7 := mkTimer 300 true 1 5]> ∅)).
  { rewrite Ht4, Ht3, Ht2, Ht1, Ht0. vm_compute. reflexivity. }
  exists (put_ticks 310 s4). split_and!; [| |done| |by rewrite <- Hl0, <- Hl1, <- Hl2, <- Hl3, <- Hl4|done].
  - unfold demo_timers. kx. rewrite Hr0, Hr1, Hr2, Hr3, Hr4. reflexivity.
  - exists c, b4, E4. split_and!; [|done|].
    + destruct HW4 as [Wt Wi Wc Ws Wr Win Wrem Wa]. by split.
    + intros t tm. cbn [put_ticks timers]. rewrite Ht.
      intros [[_ <-]|[_ [[_ <-]|[_ H]]%lookup_insert_Some]]%lookup_insert_Some; done.
  - cbn [put_ticks timer_ticks]. rewrite <- Hn0. transitivity (timer_ticks s3); [apply Hc4|].
    transitivity (timer_ticks s2); [apply Hc3|]. transitivity (timer_ticks s1); [apply Hc2|apply Hc1].
Qed.

Lemma timer_fires_witness :
  exists s s' before after, demo_timers boot = Done (tt, s) /\
    run_timer_list demo_call 311 2 s = Done (tt, s') /\
    calls s' = before ++ (300, 1, 5) :: after.
Proof.
  destruct demo_timers_ready as (s & Hs & HR & Hk & Hn & Hc & Ht).
  assert (Hl : lag s = 310) by (unfold lag; by rewrite Hk, Hn).
  destruct (timer_fires demo_call s 0 7 (mkTimer 300 true 1 5) 311 2) as (s' & l1 & l2 & Hr & _ & _ & Hcs).
  - exact demo_call_ok.
  - exact HR.
  - by rewrite Ht.
  - done.
  - rewrite Hl. unfold due_in. rewrite Hn. vm_compute. split; intros; discriminate.
  - rewrite Hl. lia.
  - rewrite Ht. vm_compute. lia.
  - exists s, s', l1, l2. split_and!; [done|done|]. by rewrite Hcs, Hc.
Defined.

Lemma pure_call_ok Kp : well_behaved Kp (fun _ _ => kret tt).
Proof. intros T h a s Hf. by exists s. Qed.

Lemma timer_list_exact_witness :
  exists s s' F, demo_timers boot = Done (tt, s) /\
    run_timer_list (fun _ _ => kret tt) 311 2 s = Done (tt, s') /\ calls s' = call_entry s <$> F /\
    (300, 7, mkTimer 300 true 1 5) ∈ F.
Proof.
  destruct demo_timers_ready as (s & Hs & HR & Hk & Hn & Hc & Ht).
  assert (Hl : lag s = 310) by (unfold lag; by rewrite Hk, Hn).
  destruct (timer_list_exact (fun _ _ => kret tt) s 0 311 2) as (s' & F & Hr & _ & Hcs & _ & _ & HF).
  - apply pure_call_ok.
  - exact HR.
  - rewrite Hl. lia.
  - rewrite Ht. vm_compute. lia.
  - exists s, s', F. split_and!; [done|done|by rewrite Hcs, Hc|]. apply HF. rewrite Ht, Hl.
    split_and!; [done|done| |lia]. unfold due_at, due_in. by rewrite Hn.
Defined.

Lemma timers_safe_witness :
  exists s0 s, init_timers boot = Done (tt, s0) /\ init_timer 7 1 5 s0 = Done (tt, s) /\ tinv s /\
    exists s', mod_timer 7 300 s = Done (0, s').
Proof.
  destruct init_timers_ready as (s0 & Hr0 & (c & b & E & HW & Hb & Hty) & Ht0 & _).
  destruct (init_timer_wheel s0 0 c b E 7 1 5 HW) as (s1 & Hr1 & HW1 & Ht1 & Hc1 & Hl1).
  { by rewrite Ht0. }
  destruct (timers_safe (fun _ _ => kret tt) s0 s1) as (Hinv & Hops & _).
  - apply pure_call_ok.
  - exact Hr0.
  - apply rtc_once. apply (tstep_init _ _ 7 1 5); [by rewrite Ht0|done].
  - exists s0, s1. split_and!; [done|done|apply Hinv|].
    destruct (Hops 7 (mkTimer 0 false 1 5)) as (_ & _ & Hm); [by rewrite Ht1, lookup_insert_eq|].
    by apply Hm.
Defined.
