(* ===== verification/Cmem.v ===== *)
(** * Byte memory and loops of C code

    The string and conversion routines of the C library work on bytes through
    pointers.  [mem] is a memory of bytes, [ld] and [st] its accesses (an
    access to an address that is not mapped faults), [kloop] a C loop over its
    local variables, and [bytes_at] and [cstr] say what a pointer points to. *)

From S2P Require Import Prelude.

Abbreviation mem := (gmap Z Z).

Definition ld (p : Z) : K mem Z := fun m => match m !! p with Some v => Done (v, m) | None => Fault end.

(** Storing a byte; only mapped memory can be written. *)
Definition st (p v : Z) : K mem unit :=
  fun m => match m !! p with Some _ => Done (tt, <[p := v mod 256]> m) | None => Fault end.

(** A byte read as a [char], which is signed. *)
Definition s8 (b : Z) : Z := if b <? 128 then b else b - 256.

(** A loop with local variables [a]: an iteration continues with [inl] new
    values or leaves the loop with [inr]. *)
Fixpoint kloop {S A B} (fuel : nat) (body : A -> K S (A + B)) (a : A) : K S B :=
  match fuel with
  | O => khang
  | Datatypes.S fuel =>
      kbind (body a) (fun r => match r with inl a' => kloop fuel body a' | inr b => kret b end)
  end.

Lemma kloop_next {S A B} fuel (body : A -> K S (A + B)) a s a' s' :
  body a s = Done (inl a', s') -> kloop (Datatypes.S fuel) body a s = kloop fuel body a' s'.
Proof. intros H. cbn [kloop]. unfold kbind. by rewrite H. Qed.

Lemma kloop_exit {S A B} fuel (body : A -> K S (A + B)) a s b s' :
  body a s = Done (inr b, s') -> kloop (Datatypes.S fuel) body a s = Done (b, s').
Proof. intros H. cbn [kloop]. unfold kbind. by rewrite H. Qed.

(** More iterations do not change a result. *)
Lemma kloop_mono {S A B} (body : A -> K S (A + B)) : forall f f' a s r,
  (f <= f')%nat -> kloop f body a s = Done r -> kloop f' body a s = Done r.
Proof.
  induction f as [|f IH]; intros f' a s r Hf; [done|]. destruct f' as [|f']; [lia|].
  cbn [kloop]. unfold kbind. destruct (body a s) as [[[a'|b] s']| | |]; try done.
  apply IH. lia.
Qed.

Lemma kloop_ext {S A B} (body body' : A -> K S (A + B)) :
  (forall a s, body a s = body' a s) -> forall f a s, kloop f body a s = kloop f body' a s.
Proof.
  intros H. induction f as [|f IH]; intros a s; [done|]. cbn [kloop]. unfold kbind. rewrite H.
  destruct (body' a s) as [[[a'|b] s']| | |]; [apply IH|done..].
Qed.

(** The bytes [l] are at address [p]. *)
Fixpoint bytes_at (m : mem) (p : Z) (l : list Z) : Prop :=
  match l with
  | [] => True
  | c :: l => m !! p = Some c /\ 0 <= c < 256 /\ bytes_at m (p + 1) l
  end.

(** [p] points to the null-terminated string [l]. *)
Definition cstr (m : mem) (p : Z) (l : list Z) : Prop :=
  bytes_at m p (l ++ [0]) /\ Forall (fun c => c <> 0) l.

(** Writing the bytes [l] at address [p]. *)
Fixpoint write_at (p : Z) (l : list Z) (m : mem) : mem :=
  match l with
  | [] => m
  | c :: l => write_at (p + 1) l (<[p := c]> m)
  end.

(** The [n] bytes at [p] are mapped. *)
Definition mapped (m : mem) (p : Z) (n : nat) : Prop :=
  forall i, p <= i < p + Z.of_nat n -> is_Some (m !! i).

Section Bytes.
Implicit Types (m : mem) (p : Z) (l : list Z).

Lemma bytes_app m p l1 l2 :
  bytes_at m p (l1 ++ l2) <-> bytes_at m p l1 /\ bytes_at m (p + Z.of_nat (length l1)) l2.
Proof.
  revert p. induction l1 as [|c l1 IH]; intros p; cbn [bytes_at app length].
  - rewrite Z.add_0_r. tauto.
  - rewrite IH. replace (p + 1 + Z.of_nat (length l1)) with (p + Z.of_nat (S (length l1))) by lia. tauto.
Qed.

Lemma bytes_lookup m p l i c :
  bytes_at m p l -> l !! i = Some c -> m !! (p + Z.of_nat i) = Some c /\ 0 <= c < 256.
Proof.
  revert p i. induction l as [|d l IH]; intros p i; [done|]. cbn [bytes_at]. intros (H1 & H2 & H3).
  destruct i as [|i]; cbn [lookup list_lookup].
  - intros [= ->]. by rewrite Z.add_0_r.
  - intros Hi. replace (p + Z.of_nat (S i)) with (p + 1 + Z.of_nat i) by lia. by apply IH.
Qed.

Lemma bytes_range m p l c : bytes_at m p l -> c ∈ l -> 0 <= c < 256.
Proof. intros H [i Hi]%list_elem_of_lookup. by eapply bytes_lookup. Qed.

Lemma bytes_frame m m' p l :
  (forall i, p <= i < p + Z.of_nat (length l) -> m' !! i = m !! i) -> bytes_at m p l -> bytes_at m' p l.
Proof.
  revert p. induction l as [|c l IH]; intros p Hf; [done|]. cbn [bytes_at length] in *.
  intros (H1 & H2 & H3). split_and!; [rewrite Hf by lia; done|lia..|].
  apply IH; [|done]. intros i Hi. apply Hf. lia.
Qed.

Lemma bytes_mapped m p l : bytes_at m p l -> mapped m p (length l).
Proof.
  intros H i Hi. destruct (lookup_lt_is_Some_2 l (Z.to_nat (i - p))) as [c Hc]; [lia|].
  destruct (bytes_lookup m p l _ c H Hc) as [H1 _]. replace (p + Z.of_nat (Z.to_nat (i - p))) with i in H1 by lia.
  by exists c.
Qed.

Lemma cstr_cons m p c l : cstr m p (c :: l) -> m !! p = Some c /\ c <> 0 /\ 0 <= c < 256 /\ cstr m (p + 1) l.
Proof.
  intros [(H1 & H2 & H3) H4]. cbn [app] in *. inversion H4; subst. split_and!; [done|done|lia|lia|by split].
Qed.

Lemma cstr_nil m p : cstr m p [] -> m !! p = Some 0.
Proof. intros [(H1 & _) _]. done. Qed.

Lemma cstr_app m p l1 l2 :
  cstr m p (l1 ++ l2) -> bytes_at m p l1 /\ cstr m (p + Z.of_nat (length l1)) l2.
Proof.
  intros [H1 H2]. rewrite <- app_assoc in H1. apply bytes_app in H1 as [? ?].
  apply Forall_app in H2 as [? ?]. by split; [|split].
Qed.

Lemma cstr_frame m m' p l :
  (forall i, p <= i <= p + Z.of_nat (length l) -> m' !! i = m !! i) -> cstr m p l -> cstr m' p l.
Proof.
  intros Hf [H1 H2]. split; [|done]. revert H1. apply bytes_frame. intros i Hi. apply Hf.
  rewrite length_app in Hi. cbn in Hi. lia.
Qed.

Lemma write_lookup_out m p l i : ~ (p <= i < p + Z.of_nat (length l)) -> write_at p l m !! i = m !! i.
Proof.
  revert m p. induction l as [|c l IH]; intros m p Hi; [done|]. cbn [write_at length] in *.
  rewrite IH by lia. rewrite lookup_insert_ne; [done|lia].
Qed.

Lemma write_bytes m p l : Forall (fun c => 0 <= c < 256) l -> bytes_at (write_at p l m) p l.
Proof.
  revert m p. induction l as [|c l IH]; intros m p Hl; [done|]. inversion Hl; subst.
  cbn [write_at bytes_at]. split_and!; [|lia|lia|by apply IH].
  rewrite write_lookup_out by lia. apply lookup_insert_eq.
Qed.

Lemma write_app m p l1 l2 :
  write_at p (l1 ++ l2) m = write_at (p + Z.of_nat (length l1)) l2 (write_at p l1 m).
Proof.
  revert m p. induction l1 as [|c l1 IH]; intros m p; cbn [write_at app length].
  - by rewrite Z.add_0_r.
  - rewrite IH. f_equal. lia.
Qed.

Lemma write_insert m p l i c :
  ~ (p <= i < p + Z.of_nat (length l)) -> write_at p l (<[i := c]> m) = <[i := c]> (write_at p l m).
Proof.
  revert m p. induction l as [|d l IH]; intros m p Hi; [done|]. cbn [write_at length] in *.
  rewrite <- IH by lia. f_equal. apply insert_insert_ne. lia.
Qed.

Lemma mapped_insert m p n i c : mapped m p n -> mapped (<[i := c]> m) p n.
Proof. intros H j Hj. apply lookup_insert_is_Some'. right. by apply H. Qed.

Lemma mapped_cons m p n : mapped m p (S n) -> is_Some (m !! p) /\ mapped m (p + 1) n.
Proof. intros H. split; [apply H; lia|]. intros i Hi. apply H. lia. Qed.
End Bytes.

Lemma ld_run m p c : m !! p = Some c -> ld p m = Done (c, m).
Proof. intros H. unfold ld. by rewrite H. Qed.

Lemma st_run m p c : is_Some (m !! p) -> 0 <= c < 256 -> st p c m = Done (tt, <[p := c]> m).
Proof. intros [x H] Hc. unfold st. rewrite H. by rewrite Z.mod_small. Qed.

(** Runs the loads whose values the context knows. *)
Ltac kld :=
  repeat match goal with
  | H : ?m !! ?p = Some ?c |- context [ld ?p ?m] => rewrite (ld_run m p c H); cbn beta iota
  end.
