(* ===== verification/Str.v ===== *)
(** * Strings and memory blocks (lib/string.c)

    The routines of string.c over byte memory.  A routine with a loop takes
    the number of iterations it may make; the theorems say how many are
    enough.  [size_t] counters that can wrap around do so in the model.

    The theorems: the copying routines write exactly the bytes they should and
    nothing else, also for overlapping blocks; the comparisons order strings
    as byte sequences; the searches find the first occurrence. *)

From S2P Require Import Prelude Cmem.

Section Code.
Local Open Scope k_scope.

Definition strlen (fuel : nat) (s : Z) : K mem Z :=
  let* eos := kloop fuel (fun eos =>
    let* c := ld eos in
    if c =? 0 then kret (inr (eos + 1)) else kret (inl (eos + 1))) s in
  kret (eos - s - 1).

Definition strcpy (fuel : nat) (dst src : Z) : K mem Z :=
  kloop fuel (fun '(cp, src) =>
    let* c := ld src in
    st cp c ;;;
    if c =? 0 then kret (inr tt) else kret (inl (cp + 1, src + 1))) (dst, src) ;;;
  kret dst.

Definition stpcpy (fuel : nat) (dst src : Z) : K mem Z :=
  kloop fuel (fun '(dst, src) =>
    let* c := ld src in
    st dst c ;;;
    if c =? 0 then kret (inr dst) else kret (inl (dst + 1, src + 1))) (dst, src).

Definition strcat (fuel : nat) (dst src : Z) : K mem Z :=
  let* cp := kloop fuel (fun cp =>
    let* c := ld cp in
    if c =? 0 then kret (inr cp) else kret (inl (cp + 1))) dst in
  kloop fuel (fun '(cp, src) =>
    let* c := ld src in
    st cp c ;;;
    if c =? 0 then kret (inr tt) else kret (inl (cp + 1, src + 1))) (cp, src) ;;;
  kret dst.

Definition strncpy (fuel : nat) (dest source n : Z) : K mem Z :=
  let start := dest in
  let* (n, dest) := kloop fuel (fun '(n, dest, source) =>
    if n =? 0 then kret (inr (n, dest))
    else
      let* c := ld source in
      st dest c ;;;
      if c =? 0 then kret (inr (n, dest + 1))
      else kret (inl (n - 1, dest + 1, source + 1))) (n, dest, source) in
  (if n =? 0 then kret tt
   else kloop fuel (fun '(n, dest) =>
     let n := n - 1 in
     if n =? 0 then kret (inr tt)
     else st dest 0 ;;; kret (inl (n, dest + 1))) (n, dest)) ;;;
  kret start.

Definition strncat (fuel : nat) (s1 s2 n : Z) : K mem Z :=
  let start := s1 in
  let* s1 := kloop fuel (fun s1 =>
    let* c := ld s1 in
    if c =? 0 then kret (inr (s1 + 1)) else kret (inl (s1 + 1))) s1 in
  let s1 := s1 - 1 in
  kloop fuel (fun '(n, s1, s2) =>
    if n =? 0 then st s1 0 ;;; kret (inr start)
    else
      let* c := ld s2 in
      st s1 c ;;;
      if c =? 0 then kret (inr start) else kret (inl (n - 1, s1 + 1, s2 + 1))) (n, s1, s2).

Definition strncmp (fuel : nat) (s1 s2 n : Z) : K mem Z :=
  if n =? 0 then kret 0
  else
    let* (s1, s2) := kloop fuel (fun '(n, s1, s2) =>
      let n := n - 1 in
      if n =? 0 then kret (inr (s1, s2))
      else
        let* c1 := ld s1 in
        if c1 =? 0 then kret (inr (s1, s2))
        else
          let* c2 := ld s2 in
          if c1 =? c2 then kret (inl (n, s1 + 1, s2 + 1)) else kret (inr (s1, s2))) (n, s1, s2) in
    let* c1 := ld s1 in
    let* c2 := ld s2 in
    kret (c1 - c2).

Definition strcmp (fuel : nat) (s1 s2 : Z) : K mem Z :=
  let* ret := kloop fuel (fun '(s1, s2) =>
    let* c1 := ld s1 in
    let* c2 := ld s2 in
    let ret := c1 - c2 in
    if ret =? 0 then
      let* c2 := ld s2 in
      if c2 =? 0 then kret (inr ret) else kret (inl (s1 + 1, s2 + 1))
    else kret (inr ret)) (s1, s2) in
  kret (if ret <? 0 then -1 else if 0 <? ret then 1 else ret).

(** The lower case of a [char]. *)
Definition lower_char (b : Z) : Z :=
  if (s8 b <=? 90) && (65 <=? s8 b) then s8 b + 97 - 65 else s8 b.

Definition stricmp (fuel : nat) (s1 s2 : Z) : K mem Z :=
  kloop fuel (fun '(s1, s2) =>
    let* c1 := ld s1 in
    let f := lower_char c1 in
    let* c2 := ld s2 in
    let l := lower_char c2 in
    if negb (f =? 0) && (f =? l) then kret (inl (s1 + 1, s2 + 1)) else kret (inr (f - l))) (s1, s2).

Definition strnicmp (fuel : nat) (s1 s2 n : Z) : K mem Z :=
  kloop fuel (fun '(s1, s2, n) =>
    let* f := ld s1 in
    let f := if (65 <=? f) && (f <=? 90) then f - (65 - 97) else f in
    let* l := ld s2 in
    let l := if (65 <=? l) && (l <=? 90) then l - (65 - 97) else l in
    let n := u32 (n - 1) in
    if negb (n =? 0) && negb (f =? 0) && (f =? l) then kret (inl (s1 + 1, s2 + 1, n))
    else kret (inr (f - l))) (s1, s2, n).

Definition strcasecmp (fuel : nat) (s1 s2 : Z) : K mem Z := stricmp fuel s1 s2.

Definition strncasecmp (fuel : nat) (s1 s2 n : Z) : K mem Z := strnicmp fuel s1 s2 n.

(** [NULL] is 0. *)
Definition strchr (fuel : nat) (s ch : Z) : K mem Z :=
  let* s := kloop fuel (fun s =>
    let* c := ld s in
    if negb (c =? 0) && negb (c =? ch mod 256) then kret (inl (s + 1)) else kret (inr s)) s in
  let* c := ld s in
  if c =? ch mod 256 then kret s else kret 0.

Definition strrchr (fuel : nat) (s ch : Z) : K mem Z :=
  let start := s in
  let* s := kloop fuel (fun s =>
    let* c := ld s in
    if c =? 0 then kret (inr (s + 1)) else kret (inl (s + 1))) s in
  let* s := kloop fuel (fun s =>
    let s := s - 1 in
    if s =? start then kret (inr s)
    else
      let* c := ld s in
      if c =? ch mod 256 then kret (inr s) else kret (inl s)) s in
  let* c := ld s in
  if c =? ch mod 256 then kret s else kret 0.

(** The inner loop of [strstr]: where the match at [s1] ends in [str2]. *)
Definition strstr_match (fuel : nat) (s1 s2 : Z) : K mem Z :=
  kloop fuel (fun '(s1, s2) =>
    let* c1 := ld s1 in
    if c1 =? 0 then kret (inr s2)
    else
      let* c2 := ld s2 in
      if negb (c2 =? 0) && (s8 c1 - s8 c2 =? 0) then kret (inl (s1 + 1, s2 + 1))
      else kret (inr s2)) (s1, s2).

Definition strstr (fuel : nat) (str1 str2 : Z) : K mem Z :=
  let* c := ld str2 in
  if c =? 0 then kret str1
  else
    kloop fuel (fun cp =>
      let* c := ld cp in
      if c =? 0 then kret (inr 0)
      else
        let* s2 := strstr_match fuel cp str2 in
        let* c2 := ld s2 in
        if c2 =? 0 then kret (inr cp) else kret (inl (cp + 1))) str1.

Definition memmove (fuel : nat) (dst src n : Z) : K mem Z :=
  let ret := dst in
  if (dst <=? src) || (src + n <=? dst) then
    kloop fuel (fun '(dst, src, n) =>
      if n =? 0 then kret (inr tt)
      else
        let* c := ld src in
        st dst c ;;;
        kret (inl (dst + 1, src + 1, n - 1))) (dst, src, n) ;;;
    kret ret
  else
    kloop fuel (fun '(dst, src, n) =>
      if n =? 0 then kret (inr tt)
      else
        let* c := ld src in
        st dst c ;;;
        kret (inl (dst - 1, src - 1, n - 1))) (dst + n - 1, src + n - 1, n) ;;;
    kret ret.

Definition memchr (fuel : nat) (buf ch n : Z) : K mem Z :=
  let* (buf, n) := kloop fuel (fun '(buf, n) =>
    if n =? 0 then kret (inr (buf, n))
    else
      let* c := ld buf in
      if c =? ch mod 256 then kret (inr (buf, n)) else kret (inl (buf + 1, n - 1))) (buf, n) in
  kret (if n =? 0 then 0 else buf).

Definition memset (fuel : nat) (p c n : Z) : K mem Z :=
  let pbend := p + n in
  kloop fuel (fun pb =>
    if pb =? pbend then kret (inr tt) else st pb c ;;; kret (inl (pb + 1))) p ;;;
  kret p.

Definition memcmp (fuel : nat) (dst src n : Z) : K mem Z :=
  if n =? 0 then kret 0
  else
    let* (dst, src) := kloop fuel (fun '(dst, src, n) =>
      let n := n - 1 in
      if n =? 0 then kret (inr (dst, src))
      else
        let* c1 := ld dst in
        let* c2 := ld src in
        if c1 =? c2 then kret (inl (dst + 1, src + 1, n)) else kret (inr (dst, src))) (dst, src, n) in
    let* c1 := ld dst in
    let* c2 := ld src in
    kret (c1 - c2).

Definition strset (fuel : nat) (s c : Z) : K mem Z :=
  let start := s in
  kloop fuel (fun s =>
    let* b := ld s in
    if b =? 0 then kret (inr tt) else st s c ;;; kret (inl (s + 1))) s ;;;
  kret start.

Definition strnset (fuel : nat) (s c n : Z) : K mem Z :=
  kloop fuel (fun '(s, n) =>
    if n =? 0 then kret (inr s)
    else
      let* b := ld s in
      if b =? 0 then kret (inr s) else st s c ;;; kret (inl (s + 1, n - 1))) (s, n).

(** ** Character maps *)

(** [map[c >> 3] |= (1 << (c & 7))] *)
Definition map_set (map : list Z) (c : Z) : list Z :=
  alter (fun b => Z.lor b (Z.shiftl 1 (Z.land c 7))) (Z.to_nat (Z.shiftr c 3)) map.

(** [map[c >> 3] & (1 << (c & 7))] *)
Definition map_test (map : list Z) (c : Z) : bool :=
  negb (Z.land (map !!! Z.to_nat (Z.shiftr c 3)) (Z.shiftl 1 (Z.land c 7)) =? 0).

(** The map of the characters of a control string. *)
Definition control_map (fuel : nat) (ctrl : Z) : K mem (list Z) :=
  kloop fuel (fun '(map, ctrl) =>
    let* c := ld ctrl in
    if c =? 0 then kret (inr map) else kret (inl (map_set map c, ctrl + 1))) (replicate 32 0, ctrl).

Definition strspn (fuel : nat) (string control : Z) : K mem Z :=
  let* map := control_map fuel control in
  let* c := ld string in
  if c =? 0 then kret 0
  else
    kloop fuel (fun '(n, str) =>
      let* c := ld str in
      if map_test map c then kret (inl (n + 1, str + 1)) else kret (inr n)) (0, string).

Definition strcspn (fuel : nat) (string control : Z) : K mem Z :=
  let* map := control_map fuel control in
  let map := alter (fun b => Z.lor b 1) 0%nat map in
  kloop fuel (fun '(n, str) =>
    let* c := ld str in
    if map_test map c then kret (inr n) else kret (inl (n + 1, str + 1))) (0, string).

Definition strpbrk (fuel : nat) (string control : Z) : K mem Z :=
  let* map := control_map fuel control in
  kloop fuel (fun str =>
    let* c := ld str in
    if c =? 0 then kret (inr 0)
    else if map_test map c then kret (inr str) else kret (inl (str + 1))) string.

(** The same with the terminator. *)
Definition delimiter_map (fuel : nat) (ctrl : Z) : K mem (list Z) :=
  kloop fuel (fun '(map, ctrl) =>
    let* c := ld ctrl in
    let map := map_set map c in
    if c =? 0 then kret (inr map) else kret (inl (map, ctrl + 1))) (replicate 32 0, ctrl).

(** The result and the new value of [*lasts]. *)
Definition strtok_r (fuel : nat) (string control lasts : Z) : K mem (Z * Z) :=
  let* map := delimiter_map fuel control in
  let str := if string =? 0 then lasts else string in
  let* str := kloop fuel (fun str =>
    let* c := ld str in
    if map_test map c && negb (c =? 0) then kret (inl (str + 1)) else kret (inr str)) str in
  let string := str in
  let* str := kloop fuel (fun str =>
    let* c := ld str in
    if c =? 0 then kret (inr str)
    else if map_test map c then st str 0 ;;; kret (inr (str + 1))
    else kret (inl (str + 1))) str in
  let lasts := str in
  kret (if string =? str then 0 else string, lasts).

(** The search for [c] in the delimiters of [strsep]. *)
Definition is_delim (fuel : nat) (c delim : Z) : K mem bool :=
  kloop fuel (fun d =>
    let* b := ld d in
    if b =? 0 then kret (inr false)
    else if s8 c =? s8 b then kret (inr true) else kret (inl (d + 1))) delim.

(** The result and the new value of [*stringp]. *)
Definition strsep (fuel : nat) (stringp delim : Z) : K mem (Z * Z) :=
  let start := stringp in
  if start =? 0 then kret (0, stringp)
  else
    kloop fuel (fun s =>
      let* c := ld s in
      let s := s + 1 in
      if c =? 0 then kret (inr (start, 0))
      else
        let* found := is_delim fuel c delim in
        if found then st (s - 1) 0 ;;; kret (inr (start, s)) else kret (inl s)) start.

End Code.

(** ** Lengths and copies *)

Lemma scan_end m l : forall p fuel (f : Z -> Z),
  cstr m p l -> (length l < fuel)%nat ->
  kloop fuel (fun s => (let* c := ld s in if c =? 0 then kret (inr (f s)) else kret (inl (s + 1)))%K) p m =
  Done (f (p + Z.of_nat (length l)), m).
Proof.
  induction l as [|c l IH]; intros p fuel f Hs Hf; (destruct fuel as [|fuel]; [cbn in Hf; lia|]).
  - apply cstr_nil in Hs. erewrite kloop_exit; [by rewrite Z.add_0_r|]. kx. by kld.
  - apply cstr_cons in Hs as (Hc & Hc0 & _ & Hs). erewrite kloop_next.
    2:{ kx. kld. destruct (Z.eqb_spec c 0); [done|]. reflexivity. }
    rewrite IH; [|done|cbn [length] in Hf; lia]. cbn [length]. do 3 f_equal. lia.
Qed.

Lemma strlen_spec m p l fuel :
  cstr m p l -> (length l < fuel)%nat -> strlen fuel p m = Done (Z.of_nat (length l), m).
Proof.
  intros Hs Hf. unfold strlen. kx.
  pose proof (scan_end m l p fuel (fun s => s + 1) Hs Hf) as H. unfold kbind, kret in H. rewrite H.
  do 2 f_equal. lia.
Qed.

(** A loop that copies a string with its terminator. *)
Lemma copy_loop {B} (r : Z -> B) l : forall m d p fuel,
  cstr m p l -> mapped m d (S (length l)) ->
  (d + Z.of_nat (length l) < p \/ p + Z.of_nat (length l) < d) -> (length l < fuel)%nat ->
  kloop fuel (fun '(d, s) => (let* c := ld s in st d c ;;;
    if c =? 0 then kret (inr (r d)) else kret (inl (d + 1, s + 1)))%K) (d, p) m =
  Done (r (d + Z.of_nat (length l)), write_at d (l ++ [0]) m).
Proof.
  induction l as [|c l IH]; intros m d p fuel Hs Hm Hd Hf; (destruct fuel as [|fuel]; [cbn in Hf; lia|]).
  - apply cstr_nil in Hs. erewrite kloop_exit; [by rewrite Z.add_0_r|]. kx. kld.
    rewrite st_run; [reflexivity|apply Hm; cbn; lia|lia].
  - apply cstr_cons in Hs as (Hc & Hc0 & Hcr & Hs). erewrite kloop_next.
    2:{ kx. kld. rewrite st_run; [|apply Hm; cbn [length]; lia|lia].
        destruct (Z.eqb_spec c 0); [done|]. reflexivity. }
    cbn [length] in *. rewrite IH.
    + cbn [app write_at]. do 2 f_equal. f_equal. lia.
    + revert Hs. apply cstr_frame. intros i Hi. rewrite lookup_insert_ne; [done|lia].
    + apply mapped_cons in Hm as [_ Hm]. by apply mapped_insert.
    + lia.
    + lia.
Qed.

Definition apart (d : Z) (n : nat) (p : Z) (k : nat) : Prop :=
  d + Z.of_nat n <= p \/ p + Z.of_nat k <= d.

Lemma strcpy_spec m d p l fuel :
  cstr m p l -> mapped m d (S (length l)) -> apart d (S (length l)) p (S (length l)) ->
  (length l < fuel)%nat -> strcpy fuel d p m = Done (d, write_at d (l ++ [0]) m).
Proof.
  intros Hs Hm Ha Hf. unfold strcpy. kx. unfold apart in Ha.
  pose proof (copy_loop (fun _ => tt) l m d p fuel Hs Hm ltac:(lia) Hf) as H.
  unfold kbind, kret in H. by rewrite H.
Qed.

Lemma stpcpy_spec m d p l fuel :
  cstr m p l -> mapped m d (S (length l)) -> apart d (S (length l)) p (S (length l)) ->
  (length l < fuel)%nat ->
  stpcpy fuel d p m = Done (d + Z.of_nat (length l), write_at d (l ++ [0]) m).
Proof.
  intros Hs Hm Ha Hf. unfold apart in Ha.
  exact (copy_loop (fun d => d) l m d p fuel Hs Hm ltac:(lia) Hf).
Qed.

(** [strcat] appends: the destination then holds both strings. *)
Lemma strcat_spec m d p l1 l2 fuel :
  cstr m d l1 -> cstr m p l2 -> mapped m d (length l1 + S (length l2)) ->
  apart d (length l1 + S (length l2)) p (S (length l2)) ->
  (length l1 < fuel)%nat -> (length l2 < fuel)%nat ->
  strcat fuel d p m = Done (d, write_at (d + Z.of_nat (length l1)) (l2 ++ [0]) m).
Proof.
  intros H1 H2 Hm Ha Hf1 Hf2. unfold strcat. kx. unfold apart in Ha.
  pose proof (scan_end m l1 d fuel (fun s => s) H1 Hf1) as H. unfold kbind, kret in H. rewrite H.
  pose proof (copy_loop (fun _ => tt) l2 m (d + Z.of_nat (length l1)) p fuel H2) as Hc.
  unfold kbind, kret in Hc. rewrite Hc; [done| |lia|done].
  intros i Hi. apply Hm. lia.
Qed.

(** What [strncpy] leaves in the destination: the string, cut off or padded
    with zeros to [n] bytes. *)
Definition ncopy (n : nat) (l : list Z) : list Z := take n l ++ replicate (n - length l) 0.

Lemma length_ncopy n l : length (ncopy n l) = n.
Proof. unfold ncopy. rewrite length_app, length_take, length_replicate. lia. Qed.

Lemma pad_loop n : forall m d fuel,
  mapped m d n -> (n < fuel)%nat ->
  kloop fuel (fun '(n, d) => (let n := n - 1 in if n =? 0 then kret (inr tt)
    else st d 0 ;;; kret (inl (n, d + 1)))%K) (Z.of_nat n + 1, d) m =
  Done (tt, write_at d (replicate n 0) m).
Proof.
  induction n as [|n IH]; intros m d fuel Hm Hf; (destruct fuel as [|fuel]; [lia|]).
  - by erewrite kloop_exit.
  - apply mapped_cons in Hm as [Hd Hm]. erewrite kloop_next.
    2:{ kx. cbv zeta. destruct (Z.eqb_spec (Z.of_nat (S n) + 1 - 1) 0); [lia|]. rewrite st_run by (done || lia).
        reflexivity. }
    replace (Z.of_nat (S n) + 1 - 1) with (Z.of_nat n + 1) by lia.
    rewrite IH; [done| |lia]. by apply mapped_insert.
Qed.

Lemma strncpy_loop l : forall n m d p fuel,
  cstr m p l -> mapped m d n -> apart d n p (S (length l)) -> (n < fuel)%nat ->
  kloop fuel (fun '(n, dest, source) => (if n =? 0 then kret (inr (n, dest))
    else let* c := ld source in st dest c ;;;
         if c =? 0 then kret (inr (n, dest + 1))
         else kret (inl (n - 1, dest + 1, source + 1)))%K) (Z.of_nat n, d, p) m =
  (if decide (n <= length l)%nat then Done ((0, d + Z.of_nat n), write_at d (take n l) m)
   else Done ((Z.of_nat (n - length l), d + Z.of_nat (length l) + 1), write_at d (l ++ [0]) m)).
Proof.
  induction l as [|c l IH]; intros n m d p fuel Hs Hm Ha Hf; (destruct fuel as [|fuel]; [lia|]);
    unfold apart in *; destruct n as [|n].
  - erewrite kloop_exit; [|reflexivity]. rewrite decide_True by (cbn; lia). by rewrite Z.add_0_r.
  - apply cstr_nil in Hs. apply mapped_cons in Hm as [Hd _]. erewrite kloop_exit.
    2:{ kx. change (Z.of_nat (S n) =? 0) with false. cbn beta iota. kld. rewrite st_run by (done || lia).
        reflexivity. }
    rewrite decide_False by (cbn; lia). cbn [length app write_at]. by rewrite Z.add_0_r, Nat.sub_0_r.
  - erewrite kloop_exit; [|reflexivity]. rewrite decide_True by lia. by rewrite Z.add_0_r.
  - apply cstr_cons in Hs as (Hc & Hc0 & Hcr & Hs). apply mapped_cons in Hm as [Hd Hm]. cbn [length] in *.
    erewrite kloop_next.
    2:{ kx. change (Z.of_nat (S n) =? 0) with false. cbn beta iota. kld. rewrite st_run by (done || lia).
        destruct (Z.eqb_spec c 0); [done|]. reflexivity. }
    replace (Z.of_nat (S n) - 1) with (Z.of_nat n) by lia.
    rewrite IH; [|revert Hs; apply cstr_frame; intros i Hi; rewrite lookup_insert_ne; [done|lia]
                 |by apply mapped_insert|lia|lia].
    destruct (decide (n <= length l)%nat).
    + rewrite decide_True by lia. cbn [take write_at]. do 3 f_equal. lia.
    + rewrite decide_False by lia. cbn [app write_at]. do 3 f_equal. lia.
Qed.

Lemma strncpy_spec m d p l n fuel :
  cstr m p l -> mapped m d n -> apart d n p (S (length l)) -> (n < fuel)%nat ->
  strncpy fuel d p (Z.of_nat n) m = Done (d, write_at d (ncopy n l) m).
Proof.
  intros Hs Hm Ha Hf. unfold strncpy. kx.
  pose proof (strncpy_loop l n m d p fuel Hs Hm Ha Hf) as H. unfold kbind, kret in H. rewrite H.
  unfold ncopy. destruct (decide (n <= length l)%nat) as [Hle|Hlt].
  - cbn beta iota. replace (n - length l)%nat with 0%nat by lia. by rewrite app_nil_r.
  - destruct (Z.eqb_spec (Z.of_nat (n - length l)) 0); [lia|].
    pose proof (pad_loop (n - length l - 1) (write_at d (l ++ [0]) m) (d + Z.of_nat (length l) + 1) fuel) as Hp.
    unfold kbind, kret in Hp.
    replace (Z.of_nat (n - length l - 1) + 1) with (Z.of_nat (n - length l)) in Hp by lia.
    rewrite Hp; [| |lia].
    + rewrite take_ge by lia. do 2 f_equal. rewrite write_app. cbn [write_at].
      replace (replicate (n - length l) 0) with (0 :: replicate (n - length l - 1) 0).
      { by rewrite write_app. }
      by replace (n - length l)%nat with (S (n - length l - 1)) at 2 by lia.
    + intros i Hi. rewrite write_lookup_out by (rewrite length_app; cbn; lia). apply Hm. lia.
Qed.

(** ** Blocks *)

Lemma move_up l : forall m d p fuel,
  bytes_at m p l -> mapped m d (length l) ->
  (d <= p \/ p + Z.of_nat (length l) <= d) -> (length l < fuel)%nat ->
  kloop fuel (fun '(dst, src, n) => (if n =? 0 then kret (inr tt)
    else let* c := ld src in st dst c ;;; kret (inl (dst + 1, src + 1, n - 1)))%K)
    (d, p, Z.of_nat (length l)) m = Done (tt, write_at d l m).
Proof.
  induction l as [|c l IH]; intros m d p fuel Hb Hm Ha Hf; (destruct fuel as [|fuel]; [lia|]); cbn [length] in *.
  - by erewrite kloop_exit.
  - destruct Hb as (Hc & Hcr & Hb). apply mapped_cons in Hm as [Hd Hm]. erewrite kloop_next.
    2:{ kx. change (Z.of_nat (S (length l)) =? 0) with false. cbn beta iota. kld.
        rewrite st_run by (done || lia). reflexivity. }
    replace (Z.of_nat (S (length l)) - 1) with (Z.of_nat (length l)) by lia. apply IH; [|by apply mapped_insert|lia|lia].
    revert Hb. apply bytes_frame. intros i Hi. rewrite lookup_insert_ne; [done|lia].
Qed.

Lemma move_down l : forall m d p fuel,
  bytes_at m p l -> mapped m d (length l) -> p < d -> (length l < fuel)%nat ->
  kloop fuel (fun '(dst, src, n) => (if n =? 0 then kret (inr tt)
    else let* c := ld src in st dst c ;;; kret (inl (dst - 1, src - 1, n - 1)))%K)
    (d + Z.of_nat (length l) - 1, p + Z.of_nat (length l) - 1, Z.of_nat (length l)) m =
  Done (tt, write_at d l m).
Proof.
  induction l as [|c l IH] using rev_ind; intros m d p fuel Hb Hm Ha Hf; (destruct fuel as [|fuel]; [lia|]).
  - by erewrite kloop_exit.
  - rewrite length_app in *. cbn [length] in *. apply bytes_app in Hb as [Hb (Hc & Hcr & _)].
    replace (Z.of_nat (length l + 1)) with (Z.of_nat (length l) + 1) by lia.
    replace (p + (Z.of_nat (length l) + 1) - 1) with (p + Z.of_nat (length l)) by lia.
    replace (d + (Z.of_nat (length l) + 1) - 1) with (d + Z.of_nat (length l)) by lia.
    assert (Hdm : is_Some (m !! (d + Z.of_nat (length l)))) by (apply Hm; lia). erewrite kloop_next.
    2:{ kx. destruct (Z.eqb_spec (Z.of_nat (length l) + 1) 0); [lia|]. kld. rewrite st_run by (done || lia).
        reflexivity. }
    replace (Z.of_nat (length l) + 1 - 1) with (Z.of_nat (length l)) by lia.
    rewrite IH; [| |intros i Hi; apply mapped_insert with (n := (length l + 1)%nat) (p := d); [done|lia]|lia|lia].
    + rewrite write_app. cbn [write_at]. by rewrite write_insert by lia.
    + revert Hb. apply bytes_frame. intros i Hi. rewrite lookup_insert_ne; [done|lia].
Qed.

Lemma memset_spec m p c n fuel :
  mapped m p n -> (n < fuel)%nat ->
  memset fuel p c (Z.of_nat n) m = Done (p, write_at p (replicate n (c mod 256)) m).
Proof.
  intros Hm Hf. unfold memset. kx.
  enough (H : forall k m q fuel, mapped m q k -> (k < fuel)%nat -> q + Z.of_nat k = p + Z.of_nat n ->
    kloop fuel (fun pb => (if pb =? p + Z.of_nat n then kret (inr tt)
      else st pb c ;;; kret (inl (pb + 1)))%K) q m = Done (tt, write_at q (replicate k (c mod 256)) m)).
  { specialize (H n m p fuel Hm Hf eq_refl). unfold kbind, kret in H. by rewrite H. }
  clear. induction k as [|k IH]; intros m q fuel Hm Hf Hq; (destruct fuel as [|fuel]; [lia|]).
  - erewrite kloop_exit; [reflexivity|]. destruct (Z.eqb_spec q (p + Z.of_nat n)); [done|lia].
  - apply mapped_cons in Hm as [[x Hx] Hm]. erewrite kloop_next.
    2:{ destruct (Z.eqb_spec q (p + Z.of_nat n)); [lia|]. kx. unfold st. rewrite Hx. reflexivity. }
    rewrite IH; [done|by apply mapped_insert|lia|lia].
Qed.

(** ** Comparisons *)

(** The order of byte strings. *)
Fixpoint lex (l1 l2 : list Z) : Z :=
  match l1, l2 with
  | [], [] => 0
  | [], _ :: _ => -1
  | _ :: _, [] => 1
  | a :: l1, b :: l2 => if a <? b then -1 else if b <? a then 1 else lex l1 l2
  end.

Lemma lex_eq l1 l2 : lex l1 l2 = 0 <-> l1 = l2.
Proof.
  revert l2. induction l1 as [|a l1 IH]; intros [|b l2]; cbn [lex]; try (split; done).
  destruct (Z.ltb_spec a b); [split; [done|]; intros [= ? ?]; lia|].
  destruct (Z.ltb_spec b a); [split; [done|]; intros [= ? ?]; lia|].
  assert (a = b) as -> by lia. rewrite IH. split; [by intros ->|by intros [= ->]].
Qed.

Lemma lex_antisym l1 l2 : lex l2 l1 = - lex l1 l2.
Proof.
  revert l2. induction l1 as [|a l1 IH]; intros [|b l2]; cbn [lex]; try done.
  destruct (Z.ltb_spec a b), (Z.ltb_spec b a); try lia. apply IH.
Qed.

Lemma strcmp_spec l1 : forall m p1 p2 l2 fuel,
  cstr m p1 l1 -> cstr m p2 l2 -> (length l1 < fuel)%nat -> strcmp fuel p1 p2 m = Done (lex l1 l2, m).
Proof.
  intros m p1 p2 l2 fuel H1 H2 Hf. unfold strcmp.
  enough (exists r, kloop fuel (fun '(s1, s2) => (let* c1 := ld s1 in let* c2 := ld s2 in
     let ret := c1 - c2 in if ret =? 0 then let* c2 := ld s2 in
       if c2 =? 0 then kret (inr ret) else kret (inl (s1 + 1, s2 + 1)) else kret (inr ret))%K)
     (p1, p2) m = Done (r, m) /\ lex l1 l2 = if r <? 0 then -1 else if 0 <? r then 1 else r) as (r & Hr & Hl).
  { kx. unfold kbind, kret in Hr. rewrite Hr. by rewrite Hl. }
  revert p1 p2 l2 fuel H1 H2 Hf.
  induction l1 as [|a l1 IH]; intros p1 p2 l2 fuel H1 H2 Hf; (destruct fuel as [|fuel]; [lia|]).
  - apply cstr_nil in H1. destruct l2 as [|b l2].
    + apply cstr_nil in H2. exists 0. split; [|done]. apply kloop_exit. kx. cbv zeta. kld. change (0 - 0) with 0. cbn [Z.eqb]. by kld.
    + apply cstr_cons in H2 as (Hb & Hb0 & Hbr & H2). exists (0 - b). split.
      * apply kloop_exit. kx. cbv zeta. kld. destruct (Z.eqb_spec (0 - b) 0); [lia|done].
      * cbn [lex]. destruct (Z.ltb_spec (0 - b) 0); [done|lia].
  - apply cstr_cons in H1 as (Ha & Ha0 & Har & H1). destruct l2 as [|b l2].
    + apply cstr_nil in H2. exists (a - 0). split.
      * apply kloop_exit. kx. cbv zeta. kld. destruct (Z.eqb_spec (a - 0) 0); [lia|done].
      * cbn [lex]. destruct (Z.ltb_spec (a - 0) 0); [lia|]. destruct (Z.ltb_spec 0 (a - 0)); [done|lia].
    + apply cstr_cons in H2 as (Hb & Hb0 & Hbr & H2). cbn [lex length] in *.
      destruct (decide (a = b)) as [<-|Hab].
      * destruct (IH (p1 + 1) (p2 + 1) l2 fuel H1 H2 ltac:(lia)) as (r & Hr & Hl). exists r. split.
        { erewrite kloop_next; [exact Hr|]. kx. cbv zeta. kld. destruct (Z.eqb_spec (a - a) 0); [|lia].
          kld. destruct (Z.eqb_spec a 0); [done|]. reflexivity. }
        by rewrite Z.ltb_irrefl.
      * exists (a - b). split.
        { apply kloop_exit. kx. cbv zeta. kld. destruct (Z.eqb_spec (a - b) 0); [lia|done]. }
        destruct (Z.ltb_spec a b), (Z.ltb_spec (a - b) 0); try lia; try done.
        destruct (Z.ltb_spec b a), (Z.ltb_spec 0 (a - b)); lia.
Qed.

(** [strncmp] compares the first [n] bytes. *)
Lemma strncmp_spec l1 : forall m p1 p2 l2 n fuel,
  cstr m p1 l1 -> cstr m p2 l2 -> (n < fuel)%nat ->
  exists r, strncmp fuel p1 p2 (Z.of_nat n) m = Done (r, m) /\ Z.sgn r = lex (take n l1) (take n l2).
Proof.
  intros m p1 p2 l2 n fuel H1 H2 Hf. unfold strncmp. destruct n as [|n]; [by exists 0|].
  destruct (Z.eqb_spec (Z.of_nat (S n)) 0); [lia|].
  enough (exists q1 q2 c1 c2, kloop fuel (fun '(n, s1, s2) => (let n := n - 1 in
      if n =? 0 then kret (inr (s1, s2))
      else let* c1 := ld s1 in if c1 =? 0 then kret (inr (s1, s2))
           else let* c2 := ld s2 in
             if c1 =? c2 then kret (inl (n, s1 + 1, s2 + 1)) else kret (inr (s1, s2)))%K)
      (Z.of_nat (S n), p1, p2) m = Done ((q1, q2), m) /\ m !! q1 = Some c1 /\ m !! q2 = Some c2 /\
      Z.sgn (c1 - c2) = lex (take (S n) l1) (take (S n) l2)) as (q1 & q2 & c1 & c2 & Hr & Hq1 & Hq2 & Hl).
  { exists (c1 - c2). split; [|done]. kx. unfold kbind, kret in Hr. rewrite Hr. by do 2 kld. }
  revert p1 p2 l2 n fuel H1 H2 Hf n0.
  induction l1 as [|a l1 IH]; intros p1 p2 l2 n fuel H1 H2 Hf Hn; (destruct fuel as [|fuel]; [lia|]).
  - apply cstr_nil in H1. assert (exists b, m !! p2 = Some b /\ Z.sgn (0 - b) = lex [] (take (S n) l2)) as (b & Hb & Hl).
    { destruct l2 as [|b l2]; [exists 0; by apply cstr_nil in H2|].
      apply cstr_cons in H2 as (? & ? & ? & _). exists b. split; [done|]. cbn [take lex]. lia. }
    exists p1, p2, 0, b. split_and!; [|done..]. apply kloop_exit. kx. cbv zeta.
    destruct (Z.eqb_spec (Z.of_nat (S n) - 1) 0); [done|]. by kld.
  - apply cstr_cons in H1 as (Ha & Ha0 & Har & H1).
    assert (exists b, m !! p2 = Some b /\ (a <> b \/ n = 0%nat -> Z.sgn (a - b) = lex (take (S n) (a :: l1)) (take (S n) l2)))
      as (b & Hb & Hl).
    { destruct l2 as [|b l2].
      - exists 0. apply cstr_nil in H2. split; [done|]. cbn [take lex]. lia.
      - apply cstr_cons in H2 as (? & ? & ? & _). exists b. split; [done|]. cbn [take lex].
        intros Hab. destruct (Z.ltb_spec a b); [lia|]. destruct (Z.ltb_spec b a); [lia|].
        destruct Hab as [?| ->]; [lia|]. rewrite !take_0. cbn [lex]. lia. }
    destruct (decide (a <> b \/ n = 0%nat)) as [Hstop|Hgo].
    + exists p1, p2, a, b. split_and!; [|done|done|by apply Hl]. apply kloop_exit. kx. cbv zeta.
      destruct (Z.eqb_spec (Z.of_nat (S n) - 1) 0); [done|]. kld. destruct (Z.eqb_spec a 0); [done|].
      kld. destruct (Z.eqb_spec a b); [lia|done].
    + destruct n as [|n]; [lia|]. assert (a = b) as <- by (destruct (decide (a = b)); [done|exfalso; tauto]).
      destruct l2 as [|b l2]; [apply cstr_nil in H2; congruence|].
      apply cstr_cons in H2 as (Hb' & _ & _ & H2). assert (b = a) as -> by congruence.
      destruct (IH (p1 + 1) (p2 + 1) l2 n fuel H1 H2 ltac:(lia) ltac:(lia)) as (q1 & q2 & c1 & c2 & Hr & Hq).
      exists q1, q2, c1, c2. split.
      * erewrite kloop_next; [exact Hr|]. kx. cbv zeta. destruct (Z.eqb_spec (Z.of_nat (S (S n)) - 1) 0); [lia|].
        kld. destruct (Z.eqb_spec a 0); [done|]. kld. rewrite Z.eqb_refl.
        by replace (Z.of_nat (S (S n)) - 1) with (Z.of_nat (S n)) by lia.
      * cbn [take lex] in *. by rewrite Z.ltb_irrefl.
Qed.

(** [memcmp] gives 0 exactly for equal blocks and the sign of the first difference. *)
Lemma memcmp_spec l1 : forall m p1 p2 l2 fuel,
  bytes_at m p1 l1 -> bytes_at m p2 l2 -> length l1 = length l2 -> (length l1 < fuel)%nat ->
  exists r, memcmp fuel p1 p2 (Z.of_nat (length l1)) m = Done (r, m) /\ Z.sgn r = lex l1 l2.
Proof.
  intros m p1 p2 l2 fuel H1 H2 Hlen Hf. unfold memcmp.
  destruct l1 as [|a l1]; [exists 0; by destruct l2|]. cbn [length] in *.
  destruct (Z.eqb_spec (Z.of_nat (S (length l1))) 0); [lia|].
  enough (exists q1 q2 c1 c2, kloop fuel (fun '(dst, src, n) => (let n := n - 1 in
      if n =? 0 then kret (inr (dst, src))
      else let* c1 := ld dst in let* c2 := ld src in
             if c1 =? c2 then kret (inl (dst + 1, src + 1, n)) else kret (inr (dst, src)))%K)
      (p1, p2, Z.of_nat (S (length l1))) m = Done ((q1, q2), m) /\ m !! q1 = Some c1 /\ m !! q2 = Some c2 /\
      Z.sgn (c1 - c2) = lex (a :: l1) l2) as (q1 & q2 & c1 & c2 & Hr & Hq1 & Hq2 & Hl).
  { exists (c1 - c2). split; [|done]. kx. unfold kbind, kret in Hr. rewrite Hr. by do 2 kld. }
  clear n. revert a p1 p2 l2 fuel H1 H2 Hlen Hf.
  induction l1 as [|a' l1 IH]; intros a p1 p2 l2 fuel H1 H2 Hlen Hf; (destruct fuel as [|fuel]; [lia|]);
    (destruct l2 as [|b l2]; [done|]); destruct H1 as (Ha & Har & H1), H2 as (Hb & Hbr & H2).
  - exists p1, p2, a, b. split_and!; [by apply kloop_exit|done|done|]. destruct l2; [|done]. cbn [lex].
    destruct (Z.ltb_spec a b); [lia|]. destruct (Z.ltb_spec b a); lia.
  - cbn [length] in *. destruct (decide (a = b)) as [<-|Hab].
    + destruct (IH a' (p1 + 1) (p2 + 1) l2 fuel H1 H2 ltac:(lia) ltac:(lia)) as (q1 & q2 & c1 & c2 & Hr & Hq).
      exists q1, q2, c1, c2. split; [|cbn [lex] in *; by rewrite Z.ltb_irrefl].
      erewrite kloop_next; [exact Hr|]. kx. cbv zeta. destruct (Z.eqb_spec (Z.of_nat (S (S (length l1))) - 1) 0); [lia|].
      do 2 kld. rewrite Z.eqb_refl. by replace (Z.of_nat (S (S (length l1))) - 1) with (Z.of_nat (S (length l1))) by lia.
    + exists p1, p2, a, b. split_and!; [|done|done|].
      * apply kloop_exit. kx. cbv zeta. destruct (Z.eqb_spec (Z.of_nat (S (S (length l1))) - 1) 0); [lia|].
        do 2 kld. by destruct (Z.eqb_spec a b).
      * cbn [lex]. destruct (Z.ltb_spec a b); [lia|]. destruct (Z.ltb_spec b a); lia.
Qed.

(** ** Searches *)

(** The number of bytes at the start of [l] that satisfy [f]. *)
Fixpoint run_length (f : Z -> bool) (l : list Z) : nat :=
  match l with
  | [] => 0
  | c :: l => if f c then S (run_length f l) else 0
  end.

Lemma run_length_le f l : (run_length f l <= length l)%nat.
Proof. induction l as [|c l IH]; cbn [run_length length]; [lia|]. destruct (f c); lia. Qed.

Lemma run_length_split f l :
  Forall (fun c => f c = true) (take (run_length f l) l) /\
  (forall c, l !! run_length f l = Some c -> f c = false).
Proof.
  induction l as [|c l [IH1 IH2]]; cbn [run_length]; [split; [constructor|done]|].
  destruct (f c) eqn:Hc; cbn [take]; split; [by constructor|exact IH2|constructor|].
  intros d [= <-]. done.
Qed.

(** A loop that steps over the bytes that satisfy [f]. *)
Lemma skip_loop {B} (f : Z -> bool) (r : Z -> K mem B) l : forall m p fuel,
  bytes_at m p l -> (exists c, l !! run_length f l = Some c) -> (run_length f l < fuel)%nat ->
  kloop fuel (fun s => (let* c := ld s in
    if f c then kret (inl (s + 1)) else let* b := r s in kret (inr b))%K) p m =
  r (p + Z.of_nat (run_length f l)) m.
Proof.
  induction l as [|c l IH]; intros m p fuel Hb [d Hd] Hf; [done|]. destruct fuel as [|fuel]; [lia|].
  destruct Hb as (Hc & _ & Hb). cbn [run_length] in *. destruct (f c) eqn:Hfc.
  - erewrite kloop_next; [|kx; kld; rewrite Hfc; reflexivity].
    rewrite IH; [|done|by exists d|lia]. f_equal. lia.
  - cbn [kloop]. kx. kld. rewrite Hfc, Z.add_0_r. by destruct (r p m) as [[]| | |].
Qed.

Lemma run_length_cstr f l :
  f 0 = false -> exists c, (l ++ [0]) !! run_length f (l ++ [0]) = Some c.
Proof.
  intros Hf. induction l as [|c l IH]; cbn [app run_length]; [rewrite Hf; by exists 0|].
  destruct (f c); [exact IH|by exists c].
Qed.

(** [strchr] gives the first place of a character, its terminator included. *)
Lemma strchr_spec m p l ch fuel :
  cstr m p l -> (length l < fuel)%nat ->
  let k := run_length (fun c => negb (c =? 0) && negb (c =? ch mod 256)) (l ++ [0]) in
  strchr fuel p ch m =
    Done (if decide ((l ++ [0]) !! k = Some (ch mod 256)) then p + Z.of_nat k else 0, m).
Proof.
  intros [Hb Hz] Hf k. set (f := fun c => negb (c =? 0) && negb (c =? ch mod 256)) in *.
  destruct (run_length_cstr f l eq_refl) as [c Hc].
  assert (Hk : (k < fuel)%nat).
  { apply lookup_lt_Some in Hc. rewrite length_app in Hc. cbn in Hc. subst k. lia. }
  pose proof (skip_loop f kret (l ++ [0]) m p fuel Hb (ex_intro _ c Hc) Hk) as H. fold k in H, Hc.
  destruct (bytes_lookup m p (l ++ [0]) k c Hb Hc) as [Hl _].
  unfold strchr. unfold kbind, kret in *. subst f. cbn beta in H.
  rewrite H. cbn beta iota. kld. rewrite Hc.
  destruct (Z.eqb_spec c (ch mod 256)) as [->|Hne].
  - by rewrite decide_True by done.
  - rewrite decide_False by congruence. done.
Qed.

Lemma strstr_match_spec l2 : forall m p1 p2 l1 fuel,
  cstr m p1 l1 -> cstr m p2 l2 -> (length l1 < fuel)%nat ->
  exists k, strstr_match fuel p1 p2 m = Done (p2 + Z.of_nat k, m) /\ (k <= length l2)%nat /\
    (k = length l2 <-> l2 `prefix_of` l1).
Proof.
  induction l2 as [|b l2 IH]; intros m p1 p2 l1 fuel H1 H2 Hf; (destruct fuel as [|fuel]; [lia|]); unfold strstr_match.
  - apply cstr_nil in H2. exists 0%nat. split; [|split; [done|split; [intros _; apply prefix_nil|done]]].
    apply kloop_exit. kx. destruct l1 as [|a l1].
    + apply cstr_nil in H1. kld. by rewrite Z.add_0_r.
    + apply cstr_cons in H1 as (Ha & Ha0 & _). kld. destruct (Z.eqb_spec a 0); [done|]. kld. by rewrite Z.add_0_r.
  - apply cstr_cons in H2 as (Hb & Hb0 & Hbr & H2). destruct l1 as [|a l1].
    + apply cstr_nil in H1. exists 0%nat. split; [|split; [cbn; lia|]].
      * apply kloop_exit. kx. kld. by rewrite Z.add_0_r.
      * split; [done|]. by intros [? ?].
    + apply cstr_cons in H1 as (Ha & Ha0 & Har & H1). destruct (decide (a = b)) as [<-|Hab].
      * cbn [length] in Hf. destruct (IH m (p1 + 1) (p2 + 1) l1 fuel H1 H2 ltac:(lia)) as (k & Hk & Hle & Hp).
        exists (S k). split; [|split; [cbn; lia|]].
        { erewrite kloop_next; [unfold strstr_match in Hk; rewrite Hk; do 2 f_equal; lia|].
          kx. kld. destruct (Z.eqb_spec a 0); [done|]. kld.
          destruct (Z.eqb_spec a 0); [done|]. by rewrite Z.sub_diag. }
        cbn [length]. split.
        { intros Hk'. apply prefix_cons, Hp. lia. }
        { intros Hpre. apply prefix_cons_inv_2 in Hpre. apply Hp in Hpre. lia. }
      * exists 0%nat. split; [|split; [cbn; lia|]].
        { apply kloop_exit. kx. kld. destruct (Z.eqb_spec a 0); [done|]. kld.
          destruct (Z.eqb_spec b 0); [done|]. destruct (Z.eqb_spec (s8 a - s8 b) 0) as [He|].
          - unfold s8 in He. destruct (Z.ltb_spec a 128), (Z.ltb_spec b 128); lia.
          - by rewrite Z.add_0_r. }
        split; [done|]. intros Hpre. by apply prefix_cons_inv_1 in Hpre.
Qed.

(** The first place where [l2] occurs in [l1]. *)
Fixpoint first_occurrence (l2 l1 : list Z) : option nat :=
  if decide (l2 `prefix_of` l1) then Some 0%nat
  else match l1 with
       | [] => None
       | _ :: l1 => S <$> first_occurrence l2 l1
       end.

Lemma first_occurrence_Some l2 l1 k :
  first_occurrence l2 l1 = Some k <->
  l2 `prefix_of` drop k l1 /\ (k <= length l1)%nat /\ forall j, (j < k)%nat -> ~ l2 `prefix_of` drop j l1.
Proof.
  revert k. induction l1 as [|a l1 IH]; intros k; cbn [first_occurrence]; destruct (decide (l2 `prefix_of` _)) as [Hp|Hp].
  - split; [intros [= <-]; split_and!; [done|lia|lia]|].
    intros (_ & Hk & Hj). destruct k; [done|]. cbn in Hk. lia.
  - split; [done|]. intros (Hq & Hk & _). destruct k; [|cbn in Hk; lia]. done.
  - split; [intros [= <-]; split_and!; [done|lia|lia]|].
    intros (_ & _ & Hj). destruct k; [done|]. destruct (Hj 0%nat ltac:(lia)). done.
  - rewrite fmap_Some. split.
    + intros (k' & Hk' & ->). apply IH in Hk' as (H1 & H2 & H3). split_and!; [done|cbn; lia|].
      intros [|j] Hj; [done|]. apply H3. lia.
    + intros (H1 & H2 & H3). destruct k as [|k]; [done|]. exists k. split; [|done]. apply IH.
      split_and!; [done|cbn in H2; lia|]. intros j Hj. apply (H3 (S j)). lia.
Qed.

Lemma strstr_spec m p1 p2 l1 l2 fuel :
  cstr m p1 l1 -> cstr m p2 l2 -> (length l1 < fuel)%nat ->
  strstr fuel p1 p2 m =
    Done (match first_occurrence l2 l1 with Some k => p1 + Z.of_nat k | None => 0 end, m).
Proof.
  intros H1 H2 Hf. unfold strstr. destruct l2 as [|b l2].
  { apply cstr_nil in H2. kx. kld. destruct l1; cbn [first_occurrence]; rewrite decide_True by apply prefix_nil;
      by rewrite Z.add_0_r. }
  destruct (cstr_cons _ _ _ _ H2) as (Hb & Hb0 & _). kx. kld. destruct (Z.eqb_spec b 0); [done|]. clear Hb Hb0 n.
  enough (H : forall F fuel p l, cstr m p l -> (length l < fuel)%nat -> (length l < F)%nat ->
    kloop fuel (fun cp => (let* c := ld cp in if c =? 0 then kret (inr 0) else
      let* s2 := strstr_match F cp p2 in let* c2 := ld s2 in
      if c2 =? 0 then kret (inr cp) else kret (inl (cp + 1)))%K) p m =
    Done (match first_occurrence (b :: l2) l with Some k => p + Z.of_nat k | None => 0 end, m)).
  { specialize (H fuel fuel p1 l1 H1 Hf Hf). unfold kbind, kret in H. exact H. }
  clear -H2. intros F. induction fuel as [|fuel IH]; intros p l Hs Hf HF; [lia|]. destruct l as [|a l].
  - apply cstr_nil in Hs. apply kloop_exit. kx. kld. cbn [first_occurrence].
    rewrite decide_False; [done|]. by intros [? ?].
  - destruct (strstr_match_spec (b :: l2) m p p2 (a :: l) F Hs H2 HF) as (k & Hk & Hle & Hp).
    destruct (cstr_cons _ _ _ _ Hs) as (Ha & Ha0 & _ & Hs').
    destruct (lookup_lt_is_Some_2 ((b :: l2) ++ [0]) k) as [d Hd]; [rewrite length_app; cbn [length] in *; lia|].
    destruct (bytes_lookup m p2 _ _ _ (proj1 H2) Hd) as [Hdm _].
    assert (Hd0 : d = 0 <-> k = length (b :: l2)).
    { split.
      - intros ->. destruct (decide (k < length (b :: l2))%nat); [|lia]. exfalso.
        rewrite lookup_app_l in Hd by done. destruct H2 as [_ H2]. by eapply Forall_lookup_1 in H2.
      - intros ->. rewrite lookup_app_r, Nat.sub_diag in Hd by lia. by injection Hd. }
    cbn [first_occurrence]. destruct (decide (b :: l2 `prefix_of` a :: l)) as [Hpre|Hpre].
    + apply kloop_exit. kx. kld. destruct (Z.eqb_spec a 0); [done|]. rewrite Hk. kld.
      destruct (Z.eqb_spec d 0) as [|Hne]; [by rewrite Z.add_0_r|]. exfalso. apply Hne, Hd0, Hp, Hpre.
    + erewrite kloop_next.
      2:{ kx. kld. destruct (Z.eqb_spec a 0); [done|]. rewrite Hk. kld.
          destruct (Z.eqb_spec d 0) as [He|]; [|reflexivity]. exfalso. apply Hpre, Hp, Hd0, He. }
      cbn [length] in *. rewrite (IH (p + 1) l); [|done|lia|lia].
      destruct (first_occurrence (b :: l2) l) as [j|]; cbn [fmap option_fmap option_map]; [|done].
      do 2 f_equal. lia.
Qed.

(** ** Character maps and tokens *)

Lemma test_bit x k : 0 <= k -> negb (Z.land x (Z.shiftl 1 k) =? 0) = Z.testbit x k.
Proof.
  intros Hk. rewrite Z.shiftl_1_l. destruct (Z.testbit x k) eqn:Hb.
  - apply negb_true_iff, Z.eqb_neq. intros H0.
    assert (Hx : Z.testbit (Z.land x (2 ^ k)) k = false) by (rewrite H0; apply Z.bits_0).
    by rewrite Z.land_spec, Hb, Z.pow2_bits_true in Hx by done.
  - apply negb_false_iff, Z.eqb_eq. apply Z.bits_inj'. intros i Hi.
    rewrite Z.land_spec, Z.bits_0. destruct (decide (i = k)) as [->|Hne]; [by rewrite Hb|].
    rewrite Z.pow2_bits_false by done. apply andb_false_r.
Qed.

Definition char_map (map : list Z) (S : list Z) : Prop :=
  length map = 32%nat /\ forall c, 0 <= c < 256 -> map_test map c = bool_decide (c ∈ S).

Lemma char_index c : 0 <= c < 256 ->
  (Z.to_nat (Z.shiftr c 3) < 32)%nat /\ Z.shiftr c 3 = c / 8 /\ Z.land c 7 = c mod 8 /\ 0 <= c mod 8 < 8.
Proof.
  intros Hc. rewrite Z.shiftr_div_pow2 by lia. change (2 ^ 3) with 8. change 7 with (Z.ones 3).
  rewrite Z.land_ones by lia. change (2 ^ 3) with 8. pose proof (Z.mod_pos_bound c 8 ltac:(lia)).
  assert (0 <= c / 8 < 32) by (split; [apply Z.div_pos|apply Z.div_lt_upper_bound]; lia).
  split_and!; lia.
Qed.

Lemma char_map_empty : char_map (replicate 32 0) [].
Proof.
  split; [done|]. intros c Hc. destruct (char_index c Hc) as (Hi & _ & _ & Hm).
  unfold map_test. rewrite lookup_total_replicate_2 by done. done.
Qed.

Lemma char_map_set map S c :
  char_map map S -> 0 <= c < 256 -> char_map (map_set map c) (c :: S).
Proof.
  intros [Hlen Hmap] Hc. unfold map_set. split; [by rewrite length_alter|].
  intros d Hd. specialize (Hmap d Hd). unfold map_test in *.
  destruct (char_index c Hc) as (Hic & Hc8 & Hcl & Hcm), (char_index d Hd) as (Hid & Hd8 & Hdl & Hdm).
  rewrite test_bit in Hmap |- * by lia. rewrite Hcl, Hdl in *.
  destruct (lookup_lt_is_Some_2 map (Z.to_nat (Z.shiftr d 3))) as [x Hx]; [lia|].
  rewrite (list_lookup_total_correct _ _ _ Hx) in Hmap.
  assert (Hcd : bool_decide (d ∈ c :: S) = (d =? c) || Z.testbit x (d mod 8)).
  { rewrite Hmap. destruct (Z.eqb_spec d c); case_bool_decide; case_bool_decide; set_solver. }
  rewrite Hcd. destruct (decide (Z.shiftr c 3 = Z.shiftr d 3)) as [He|Hne].
  - rewrite He. erewrite list_lookup_total_correct; [|by rewrite list_lookup_alter_eq, Hx].
    rewrite Z.lor_spec, Z.shiftl_1_l, orb_comm. f_equal. rewrite Z.pow2_bits_eqb by lia.
    pose proof (Z.div_mod c 8). pose proof (Z.div_mod d 8).
    destruct (Z.eqb_spec (c mod 8) (d mod 8)), (Z.eqb_spec d c); (done || lia).
  - assert (0 <= c / 8 /\ 0 <= d / 8) by (split; apply Z.div_pos; lia).
    erewrite list_lookup_total_correct; [|rewrite list_lookup_alter_ne; [exact Hx|lia]].
    destruct (Z.eqb_spec d c); [congruence|done].
Qed.

Lemma char_map_ext map S S' :
  (forall c, c ∈ S <-> c ∈ S') -> char_map map S -> char_map map S'.
Proof.
  intros HS [Hl Hm]. split; [done|]. intros c Hc. rewrite Hm by done. apply bool_decide_ext, HS.
Qed.

(** The two loops that build a map: without and with the terminator. *)
Lemma control_map_spec m p l fuel :
  cstr m p l -> (length l < fuel)%nat ->
  exists map, control_map fuel p m = Done (map, m) /\ char_map map l.
Proof.
  intros Hs Hf. unfold control_map.
  enough (H : forall l p fuel map S, cstr m p l -> (length l < fuel)%nat -> char_map map S ->
    exists map', kloop fuel (fun '(map, ctrl) => (let* c := ld ctrl in
      if c =? 0 then kret (inr map) else kret (inl (map_set map c, ctrl + 1)))%K) (map, p) m =
      Done (map', m) /\ char_map map' (S ++ l)).
  { by apply (H l p fuel _ [] Hs Hf), char_map_empty. }
  clear. induction l as [|c l IH]; intros p fuel map S Hs Hf Hm; (destruct fuel as [|fuel]; [lia|]).
  - apply cstr_nil in Hs. exists map. rewrite app_nil_r. split; [|done]. apply kloop_exit. kx. by kld.
  - apply cstr_cons in Hs as (Hc & Hc0 & Hcr & Hs).
    destruct (IH (p + 1) fuel (map_set map c) (c :: S) Hs ltac:(cbn in Hf; lia)) as (map' & Hr & Hm').
    { by apply char_map_set. }
    exists map'. split; [|eapply char_map_ext; [|exact Hm']; set_solver].
    erewrite kloop_next; [exact Hr|]. kx. kld. by destruct (Z.eqb_spec c 0).
Qed.

Lemma delimiter_map_spec m p l fuel :
  cstr m p l -> (length l < fuel)%nat ->
  exists map, delimiter_map fuel p m = Done (map, m) /\ char_map map (0 :: l).
Proof.
  intros Hs Hf. unfold delimiter_map.
  enough (H : forall l p fuel map S, cstr m p l -> (length l < fuel)%nat -> char_map map S ->
    exists map', kloop fuel (fun '(map, ctrl) => (let* c := ld ctrl in let map := map_set map c in
      if c =? 0 then kret (inr map) else kret (inl (map, ctrl + 1)))%K) (map, p) m =
      Done (map', m) /\ char_map map' (S ++ 0 :: l)).
  { by apply (H l p fuel _ [] Hs Hf), char_map_empty. }
  clear. induction l as [|c l IH]; intros p fuel map S Hs Hf Hm; (destruct fuel as [|fuel]; [lia|]).
  - apply cstr_nil in Hs. exists (map_set map 0). split.
    + apply kloop_exit. kx. by kld.
    + eapply char_map_ext; [|apply char_map_set; [exact Hm|lia]]. set_solver.
  - apply cstr_cons in Hs as (Hc & Hc0 & Hcr & Hs).
    destruct (IH (p + 1) fuel (map_set map c) (c :: S) Hs ltac:(cbn in Hf; lia)) as (map' & Hr & Hm').
    { by apply char_map_set. }
    exists map'. split; [|eapply char_map_ext; [|exact Hm']; set_solver].
    erewrite kloop_next; [exact Hr|]. kx. kld. by destruct (Z.eqb_spec c 0).
Qed.

Definition in_set (S : list Z) (c : Z) : bool := bool_decide (c ∈ S).

(** Under a map, the loops run as with the set itself. *)
Lemma run_length_ext f g l :
  (forall c, 0 <= c < 256 -> f c = g c) -> Forall (fun c => 0 <= c < 256) l ->
  run_length f l = run_length g l.
Proof.
  intros Hfg Hl. induction Hl as [|c l Hc Hl IH]; [done|]. cbn [run_length]. by rewrite Hfg, IH.
Qed.

Lemma cstr_bytes m p l : cstr m p l -> Forall (fun c => 0 <= c < 256) (l ++ [0]).
Proof. intros [H _]. apply Forall_forall. intros c. by apply (bytes_range m p). Qed.

Lemma skip_count (f : Z -> bool) l : forall m p n fuel,
  bytes_at m p l -> (exists c, l !! run_length f l = Some c) -> (run_length f l < fuel)%nat ->
  kloop fuel (fun '(n, s) => (let* c := ld s in
    if f c then kret (inl (n + 1, s + 1)) else kret (inr n))%K) (n, p) m =
  Done (n + Z.of_nat (run_length f l), m).
Proof.
  induction l as [|c l IH]; intros m p n fuel Hb [d Hd] Hf; [done|]. destruct fuel as [|fuel]; [lia|].
  destruct Hb as (Hc & _ & Hb). cbn [run_length] in *. destruct (f c) eqn:Hfc.
  - erewrite kloop_next; [|kx; kld; rewrite Hfc; reflexivity].
    rewrite IH; [|done|by exists d|lia]. do 2 f_equal. lia.
  - erewrite kloop_exit; [by rewrite Z.add_0_r|]. kx. kld. by rewrite Hfc.
Qed.

(** [strspn] counts the leading bytes that are in the set. *)
Lemma strspn_spec m p q l S fuel :
  cstr m p l -> cstr m q S -> (length l < fuel)%nat -> (length S < fuel)%nat ->
  strspn fuel p q m = Done (Z.of_nat (run_length (in_set S) (l ++ [0])), m).
Proof.
  intros Hl HS Hf1 Hf2. destruct (control_map_spec m q S fuel HS Hf2) as (map & Hr & Hmap & Hm).
  assert (H0 : 0 ∉ S) by (intros H0; destruct HS as [_ HS]; by apply (proj1 (Forall_forall _ _) HS 0 H0)).
  unfold strspn. kx. rewrite Hr. destruct l as [|c l].
  - pose proof (cstr_nil _ _ Hl). kld. cbn [app run_length]. unfold in_set. by rewrite bool_decide_false.
  - destruct (cstr_cons _ _ _ _ Hl) as (Hc & Hc0 & _). kld. destruct (Z.eqb_spec c 0); [done|].
    assert (Hrl : run_length (map_test map) ((c :: l) ++ [0]) = run_length (in_set S) ((c :: l) ++ [0])).
    { apply run_length_ext; [exact Hm|by eapply cstr_bytes]. }
    assert (Hend : exists d, ((c :: l) ++ [0]) !! run_length (map_test map) ((c :: l) ++ [0]) = Some d).
    { apply run_length_cstr. rewrite Hm by lia. by apply bool_decide_false. }
    pose proof (skip_count (map_test map) ((c :: l) ++ [0]) m p 0 fuel (proj1 Hl) Hend) as H.
    unfold kbind, kret in H. rewrite H, Hrl; [done|].
    destruct Hend as [d Hd%lookup_lt_Some]. rewrite length_app in Hd. cbn [length] in *. lia.
Qed.

Lemma run_length_lt f l : f 0 = false -> (run_length f (l ++ [0%Z]) < S (length l))%nat.
Proof.
  intros Hf. destruct (run_length_cstr f l Hf) as [c Hc%lookup_lt_Some].
  rewrite length_app in Hc. cbn in Hc. lia.
Qed.

(** [strcspn] counts the leading bytes that are not in the set. *)
Lemma strcspn_spec m p q l S fuel :
  cstr m p l -> cstr m q S -> (length l < fuel)%nat -> (length S < fuel)%nat ->
  strcspn fuel p q m = Done (Z.of_nat (run_length (fun c => negb (in_set (0 :: S) c)) (l ++ [0])), m).
Proof.
  intros Hl HS Hf1 Hf2. destruct (control_map_spec m q S fuel HS Hf2) as (map & Hr & Hmap).
  assert (H0 : alter (fun b => Z.lor b 1) 0%nat map = map_set map 0) by done.
  apply (char_map_set _ _ 0) in Hmap; [|lia]. rewrite <- H0 in Hmap. destruct Hmap as [_ Hm].
  unfold strcspn. kx. rewrite Hr. cbv zeta. set (map' := alter _ _ map) in *.
  pose proof (skip_count (fun c => negb (map_test map' c)) (l ++ [0]) m p 0 fuel (proj1 Hl)) as H.
  assert (Hz : negb (map_test map' 0) = false).
  { rewrite Hm by lia. rewrite bool_decide_true; [done|set_solver]. }
  rewrite <- (run_length_ext (fun c => negb (map_test map' c))).
  - pose proof (run_length_lt (fun c => negb (map_test map' c)) l Hz). rewrite Z.add_0_l in H. rewrite <- H; [|by apply run_length_cstr|lia].
    apply kloop_ext. intros [n s] m'. kx. destruct (ld s m') as [[c m'']| | |]; try done.
    by destruct (map_test map' c).
  - intros c Hc. by rewrite Hm.
  - by eapply cstr_bytes.
Qed.

(** [strpbrk] gives the first place of a byte of the set. *)
Lemma strpbrk_spec m p q l D fuel :
  cstr m p l -> cstr m q D -> (length l < fuel)%nat -> (length D < fuel)%nat ->
  let k := run_length (fun c => negb (in_set (0 :: D) c)) (l ++ [0]) in
  strpbrk fuel p q m = Done (if (k <? length l)%nat then p + Z.of_nat k else 0, m).
Proof.
  intros Hl HS Hf1 Hf2. destruct (control_map_spec m q D fuel HS Hf2) as (map & Hr & _ & Hm).
  unfold strpbrk. kx. rewrite Hr. clear Hr HS Hf2 q. cbv zeta. revert p fuel Hl Hf1.
  induction l as [|c l IH]; intros p fuel Hl Hf; (destruct fuel as [|fuel]; [lia|]).
  - apply cstr_nil in Hl. erewrite kloop_exit; [|kld; reflexivity]. reflexivity.
  - apply cstr_cons in Hl as (Hc & Hc0 & Hcr & Hl). cbn [app run_length length] in *.
    assert (Hset : in_set (0 :: D) c = map_test map c).
    { rewrite Hm by done. unfold in_set. apply bool_decide_ext. set_solver. }
    rewrite Hset. destruct (map_test map c) eqn:Hmc; cbn [negb].
    + erewrite kloop_exit; [by rewrite Z.add_0_r|]. kld. destruct (Z.eqb_spec c 0); [lia|]. by rewrite Hmc.
    + erewrite kloop_next; [|kld; destruct (Z.eqb_spec c 0); [lia|]; rewrite Hmc; reflexivity].
      rewrite IH by (done || lia). do 2 f_equal.
      destruct (Nat.ltb_spec (run_length (fun c => negb (in_set (0 :: D) c)) (l ++ [0])) (length l)),
        (Nat.ltb_spec (S (run_length (fun c => negb (in_set (0 :: D) c)) (l ++ [0]))) (S (length l))); lia.
Qed.

(** *** Tokens *)

(** The token loop of [strtok_r]: to the first delimiter, which is overwritten. *)
Lemma token_loop map D l : forall m p fuel,
  cstr m p l -> char_map map (0 :: D) -> (length l < fuel)%nat ->
  let k := run_length (fun c => negb (in_set (0 :: D) c)) (l ++ [0]) in
  kloop fuel (fun str => (let* c := ld str in
    if c =? 0 then kret (inr str)
    else if map_test map c then st str 0 ;;; kret (inr (str + 1))
    else kret (inl (str + 1)))%K) p m =
  if (k <? length l)%nat then Done (p + Z.of_nat k + 1, <[p + Z.of_nat k := 0]> m)
  else Done (p + Z.of_nat (length l), m).
Proof.
  induction l as [|c l IH]; intros m p fuel Hl Hmap Hf k; (destruct fuel as [|fuel]; [lia|]); subst k.
  - apply cstr_nil in Hl. erewrite kloop_exit; [|kx; kld; reflexivity]. cbn [length]. destruct (Nat.ltb_spec (run_length (fun c => negb (in_set (0 :: D) c)) ([] ++ [0])) 0); [lia|].
    by rewrite Z.add_0_r.
  - apply cstr_cons in Hl as (Hc & Hc0 & Hcr & Hl). cbn [app run_length length] in *.
    pose proof (proj2 Hmap) as Hm.
    replace (in_set (0 :: D) c) with (map_test map c) by (by rewrite Hm).
    destruct (map_test map c) eqn:Hmc; cbn [negb].
    + erewrite kloop_exit.
      2:{ kx. kld. destruct (Z.eqb_spec c 0); [lia|]. rewrite Hmc. rewrite st_run by (eauto || lia). reflexivity. }
      by rewrite Z.add_0_r.
    + erewrite kloop_next; [|kx; kld; destruct (Z.eqb_spec c 0); [lia|]; rewrite Hmc; reflexivity].
      rewrite IH by (done || lia).
      set (k := run_length (fun c => negb (in_set (0 :: D) c)) (l ++ [0])).
      destruct (Nat.ltb_spec k (length l)), (Nat.ltb_spec (S k) (S (length l))); try lia.
      * replace (p + Z.of_nat (S k)) with (p + 1 + Z.of_nat k) by lia. done.
      * do 2 f_equal. lia.
Qed.

(** The next token of a string: the number of delimiters before it, the token,
    and what follows the delimiter that ends it. *)
Definition next_token (D l : list Z) : option (nat * list Z * list Z) :=
  let skip := run_length (in_set D) l in
  match drop skip l with
  | [] => None
  | rest => let k := run_length (fun c => negb (in_set D c)) rest in
            Some (skip, take k rest, drop (S k) rest)
  end.

Lemma run_length_term f g l :
  (forall c, c <> 0 -> f c = g c) -> f 0 = false -> Forall (fun c => c <> 0) l ->
  run_length f (l ++ [0]) = run_length g l.
Proof.
  intros Hfg Hf Hl. induction Hl as [|c l Hc Hl IH]; cbn [app run_length]; [by rewrite Hf|].
  by rewrite Hfg, IH.
Qed.

Lemma in_set_zero D c : c <> 0 -> in_set (0 :: D) c = in_set D c.
Proof. intros Hc. apply bool_decide_ext. set_solver. Qed.

Lemma cstr_cut m p l k c :
  cstr m p l -> l !! k = Some c ->
  cstr (<[p + Z.of_nat k := 0]> m) p (take k l) /\
  cstr (<[p + Z.of_nat k := 0]> m) (p + Z.of_nat k + 1) (drop (S k) l).
Proof.
  intros Hs Hk. pose proof (lookup_lt_Some _ _ _ Hk) as Hlt. pose proof (proj2 Hs) as Hnz.
  rewrite <- (take_drop_middle l k c Hk) in Hs.
  apply cstr_app in Hs as [Hb Hs]. rewrite length_take, Nat.min_l in Hs by lia.
  apply cstr_cons in Hs as (Hc & Hc0 & _ & Hs). split.
  - split; [|by apply Forall_take]. apply bytes_app. split.
    + revert Hb. apply bytes_frame. intros i Hi. rewrite length_take, Nat.min_l in Hi by lia.
      rewrite lookup_insert_ne; [done|lia].
    + rewrite length_take, Nat.min_l by lia. cbn [bytes_at]. rewrite lookup_insert_eq. by split_and!.
  - revert Hs. apply cstr_frame. intros i Hi. rewrite lookup_insert_ne; [done|lia].
Qed.

(** The run of [strtok_r], from the lengths of the delimiters and the token. *)
Lemma strtok_r_exec m string q lasts l D fuel p :
  p = (if string =? 0 then lasts else string) ->
  cstr m p l -> cstr m q D -> (length l < fuel)%nat -> (length D < fuel)%nat ->
  let sk := run_length (in_set D) l in
  let k := run_length (fun c => negb (in_set D c)) (drop sk l) in
  cstr m (p + Z.of_nat sk) (drop sk l) /\
  strtok_r fuel string q lasts m =
    if (k <? length l - sk)%nat then
      Done ((if p + Z.of_nat sk =? p + Z.of_nat sk + Z.of_nat k + 1 then 0 else p + Z.of_nat sk,
             p + Z.of_nat sk + Z.of_nat k + 1), <[p + Z.of_nat sk + Z.of_nat k := 0]> m)
    else Done ((if p + Z.of_nat sk =? p + Z.of_nat sk + Z.of_nat (length l - sk) then 0 else p + Z.of_nat sk,
             p + Z.of_nat sk + Z.of_nat (length l - sk)), m).
Proof.
  intros Hp Hl HD Hf1 Hf2 sk k. destruct (delimiter_map_spec m q D fuel HD Hf2) as (map & Hr & Hmap).
  pose proof (proj2 Hmap) as Hm. pose proof (proj2 Hl) as Hnz.
  assert (H0 : 0 ∉ D) by (intros H0; destruct HD as [_ HD]; by apply (proj1 (Forall_forall _ _) HD 0 H0)).
  pose proof (run_length_le (in_set D) l) as Hsk. fold sk in Hsk.
  set (f := fun c => map_test map c && negb (c =? 0)).
  assert (Hskip : run_length f (l ++ [0]) = sk).
  { rewrite (run_length_ext f (fun c => in_set D c)).
    - apply run_length_term; [done| |done]. unfold in_set. by rewrite bool_decide_false.
    - intros c Hc. unfold f. rewrite Hm by done. unfold in_set. destruct (Z.eqb_spec c 0) as [->|].
      + by rewrite andb_false_r, bool_decide_false.
      + rewrite andb_true_r. apply bool_decide_ext. set_solver.
    - by eapply cstr_bytes. }
  assert (Hend : exists c, (l ++ [0]) !! run_length f (l ++ [0]) = Some c)
    by (apply run_length_cstr; unfold f; by rewrite andb_false_r).
  pose proof (skip_loop f kret (l ++ [0]) m p fuel (proj1 Hl) Hend ltac:(lia)) as Hloop1. rewrite Hskip in Hloop1.
  assert (Hrest : cstr m (p + Z.of_nat sk) (drop sk l)).
  { rewrite <- (take_drop sk l) in Hl. apply cstr_app in Hl as [_ Hl].
    by rewrite length_take, Nat.min_l in Hl by lia. }
  split; [done|].
  pose proof (token_loop map D (drop sk l) m (p + Z.of_nat sk) fuel Hrest Hmap) as Hloop2.
  rewrite length_drop in Hloop2. specialize (Hloop2 ltac:(lia)). cbv zeta in Hloop2.
  rewrite (run_length_term _ (fun c => negb (in_set D c))) in Hloop2;
    [|intros c Hc; by rewrite in_set_zero|unfold in_set; rewrite bool_decide_true; [done|set_solver]
     |by apply Forall_drop].
  fold k in Hloop2. unfold strtok_r. kx. rewrite Hr. cbv zeta. rewrite <- Hp.
  unfold kbind, kret, f in Hloop1, Hloop2. rewrite Hloop1. rewrite Hloop2.
  by destruct (k <? length l - sk)%nat.
Qed.

Lemma strtok_r_run m string q lasts l D fuel p :
  p = (if string =? 0 then lasts else string) ->
  cstr m p l -> cstr m q D -> (length l < fuel)%nat -> (length D < fuel)%nat ->
  match next_token D l with
  | None => strtok_r fuel string q lasts m = Done ((0, p + Z.of_nat (length l)), m)
  | Some (skip, token, rest) =>
      exists m' next, strtok_r fuel string q lasts m = Done ((p + Z.of_nat skip, next), m') /\
        cstr m' (p + Z.of_nat skip) token /\ cstr m' next rest /\
        forall i, i <> p + Z.of_nat (skip + length token) -> m' !! i = m !! i
  end.
Proof.
  intros Hp Hl HD Hf1 Hf2. destruct (strtok_r_exec m string q lasts l D fuel p Hp Hl HD Hf1 Hf2) as [Hrest Hrun].
  rewrite Hrun. clear Hrun Hp HD. unfold next_token. set (sk := run_length (in_set D) l) in *.
  destruct (drop sk l) as [|c l'] eqn:Hdrop.
  - assert (Hls : length l = sk).
    { apply (f_equal length) in Hdrop. rewrite length_drop in Hdrop. cbn in Hdrop.
      pose proof (run_length_le (in_set D) l). fold sk in H. lia. }
    rewrite Hls, Nat.sub_diag. cbn [Nat.ltb Nat.leb]. by rewrite Z.add_0_r, Z.eqb_refl.
  - assert (Hlen : (length l - sk = length (c :: l'))%nat) by (rewrite <- length_drop, Hdrop; done).
    rewrite Hlen. set (k := run_length (fun c => negb (in_set D c)) (c :: l')).
    destruct (Nat.ltb_spec k (length (c :: l'))) as [Hk|Hk].
    + destruct (lookup_lt_is_Some_2 (c :: l') k Hk) as [d Hd].
      destruct (cstr_cut m _ _ k d Hrest Hd) as [Ht Hn]. eexists _, _. split.
      { destruct (Z.eqb_spec (p + Z.of_nat sk) (p + Z.of_nat sk + Z.of_nat k + 1)); [lia|reflexivity]. }
      split_and!; [done|done|]. intros i Hi. rewrite length_take, Nat.min_l in Hi by lia.
      rewrite lookup_insert_ne; [done|lia].
    + assert (Hk' : k = length (c :: l')) by (pose proof (run_length_le (fun c => negb (in_set D c)) (c :: l')); fold k in H; lia).
      eexists m, _. split.
      { destruct (Z.eqb_spec (p + Z.of_nat sk) (p + Z.of_nat sk + Z.of_nat (length (c :: l')))) as [He|]; [|reflexivity].
        cbn [length] in He. lia. }
      rewrite Hk', firstn_all, skipn_all2 by (cbn; lia). split_and!; [done| |done].
      rewrite <- (app_nil_r (c :: l')) in Hrest. by apply cstr_app in Hrest as [_ Hrest].
Qed.

(** ** The other routines *)

(** [strnset] writes at most [n] characters and returns the place behind them,
    not the start of the string. *)
Lemma strnset_spec l : forall m p c n fuel,
  cstr m p l -> (length l < fuel)%nat ->
  let k := Nat.min n (length l) in
  strnset fuel p c (Z.of_nat n) m =
    Done (p + Z.of_nat k, write_at p (replicate k (c mod 256)) m).
Proof.
  unfold strnset. induction l as [|b l IH]; intros m p c n fuel Hs Hf; (destruct fuel as [|fuel]; [lia|]); cbv zeta.
  - apply cstr_nil in Hs. erewrite kloop_exit.
    2:{ kx. instantiate (1 := m). instantiate (1 := p). destruct (Z.eqb_spec (Z.of_nat n) 0); [done|]. by kld. }
    rewrite Nat.min_0_r. by rewrite Z.add_0_r.
  - apply cstr_cons in Hs as (Hb & Hb0 & _ & Hs). destruct n as [|n]; [erewrite kloop_exit; by rewrite ?Z.add_0_r|].
    erewrite kloop_next.
    2:{ kx. change (Z.of_nat (S n) =? 0) with false. cbn beta iota. kld. destruct (Z.eqb_spec b 0); [lia|].
        unfold st. rewrite Hb. reflexivity. }
    cbn [length] in *. replace (Z.of_nat (S n) - 1) with (Z.of_nat n) by lia.
    rewrite IH; [|revert Hs; apply cstr_frame; intros i Hi; rewrite lookup_insert_ne; [done|lia]|lia].
    rewrite <- Nat.succ_min_distr. cbn [replicate write_at]. do 2 f_equal. lia.
Qed.

Lemma strset_spec l : forall m p c fuel,
  cstr m p l -> (length l < fuel)%nat ->
  strset fuel p c m = Done (p, write_at p (replicate (length l) (c mod 256)) m).
Proof.
  intros m p c fuel Hs Hf. unfold strset. kx. cbv zeta.
  enough (H : forall l fuel m q, cstr m q l -> (length l < fuel)%nat ->
    kloop fuel (fun s => (let* b := ld s in if b =? 0 then kret (inr tt) else st s c ;;; kret (inl (s + 1)))%K) q m =
    Done (tt, write_at q (replicate (length l) (c mod 256)) m)).
  { specialize (H l fuel m p Hs Hf). unfold kbind, kret in H. by rewrite H. }
  clear. induction l as [|b l IH]; intros fuel m q Hs Hf; (destruct fuel as [|fuel]; [lia|]).
  - apply cstr_nil in Hs. apply kloop_exit. kx. by kld.
  - apply cstr_cons in Hs as (Hb & Hb0 & _ & Hs). erewrite kloop_next.
    2:{ kx. kld. destruct (Z.eqb_spec b 0); [lia|]. unfold st. rewrite Hb. reflexivity. }
    cbn [length] in *. rewrite IH; [done| |lia].
    revert Hs. apply cstr_frame. intros i Hi. rewrite lookup_insert_ne; [done|lia].
Qed.

(** [memchr] gives the first place of a byte in a block. *)
Lemma memchr_spec m p l ch fuel :
  bytes_at m p l -> (length l < fuel)%nat ->
  let k := run_length (fun c => negb (c =? ch mod 256)) l in
  memchr fuel p ch (Z.of_nat (length l)) m = Done (if (k <? length l)%nat then p + Z.of_nat k else 0, m).
Proof.
  unfold memchr. intros Hb Hf.
  enough (H : forall l fuel p, bytes_at m p l -> (length l < fuel)%nat ->
    let k := run_length (fun c => negb (c =? ch mod 256)) l in
    kloop fuel (fun '(buf, n) => (if n =? 0 then kret (inr (buf, n)) else let* c := ld buf in
      if c =? ch mod 256 then kret (inr (buf, n)) else kret (inl (buf + 1, n - 1)))%K) (p, Z.of_nat (length l)) m =
    Done ((p + Z.of_nat k, Z.of_nat (length l - k)), m)).
  { specialize (H l fuel p Hb Hf). unfold kbind, kret in H. kx. rewrite H. cbv zeta.
    pose proof (run_length_le (fun c => negb (c =? ch mod 256)) l).
    destruct (Nat.ltb_spec (run_length (fun c => negb (c =? ch mod 256)) l) (length l)),
      (Z.eqb_spec (Z.of_nat (length l - run_length (fun c => negb (c =? ch mod 256)) l)) 0); (done || lia). }
  clear. induction l as [|b l IH]; intros fuel p Hb Hf; (destruct fuel as [|fuel]; [lia|]); cbv zeta.
  - erewrite kloop_exit; by rewrite ?Z.add_0_r.
  - destruct Hb as (Hb & _ & Hl). cbn [run_length length] in *. destruct (Z.eqb_spec b (ch mod 256)) as [Hc|Hc]; cbn [negb].
    + erewrite kloop_exit; [by rewrite Z.add_0_r, Nat.sub_0_r|]. kx.
      change (Z.of_nat (S (length l)) =? 0) with false. cbn beta iota. kld.
      destruct (Z.eqb_spec b (ch mod 256)); [done|lia].
    + erewrite kloop_next.
      2:{ kx. change (Z.of_nat (S (length l)) =? 0) with false. cbn beta iota. kld.
          destruct (Z.eqb_spec b (ch mod 256)); [lia|]. reflexivity. }
      replace (Z.of_nat (S (length l)) - 1) with (Z.of_nat (length l)) by lia.
      rewrite IH by (done || lia). cbn [Nat.sub]. do 3 f_equal. lia.
Qed.

(** The last place of [c] in the first [k] bytes of [l], or 0. *)
Fixpoint last_index (c : Z) (l : list Z) (k : nat) : nat :=
  match k with
  | O => 0
  | S k => if decide (l !! k = Some c) then k else last_index c l k
  end.

Lemma last_index_spec c l k :
  (last_index c l k <= k)%nat /\
  (l !! last_index c l k = Some c \/ last_index c l k = 0%nat) /\
  forall j, (last_index c l k < j < k)%nat -> l !! j <> Some c.
Proof.
  induction k as [|k (H1 & H2 & H3)]; cbn [last_index]; [split_and!; [lia|auto|lia]|].
  destruct (decide (l !! k = Some c)) as [Hk|Hk]; split_and!; [lia|auto|lia|lia|done|].
  intros j Hj. destruct (decide (j = k)) as [->|]; [done|]. apply H3. lia.
Qed.

(** [strrchr] gives the last place of a character, its terminator included. *)
Lemma strrchr_spec m p l ch fuel :
  cstr m p l -> (S (length l) < fuel)%nat ->
  let k := last_index (ch mod 256) (l ++ [0]) (S (length l)) in
  strrchr fuel p ch m =
    Done (if decide ((l ++ [0]) !! k = Some (ch mod 256)) then p + Z.of_nat k else 0, m).
Proof.
  intros Hs Hf k. unfold strrchr. kx. cbv zeta.
  pose proof (scan_end m l p fuel (fun s => s + 1) Hs ltac:(lia)) as H. unfold kbind, kret in H. rewrite H. clear H.
  enough (H : forall j fuel, (j <= S (length l))%nat -> (0 < j)%nat -> (j < fuel)%nat ->
    kloop fuel (fun s => (let s := s - 1 in if s =? p then kret (inr s) else
      let* c := ld s in if c =? ch mod 256 then kret (inr s) else kret (inl s))%K) (p + Z.of_nat j) m =
    Done (p + Z.of_nat (last_index (ch mod 256) (l ++ [0]) j), m)).
  { specialize (H (S (length l)) fuel ltac:(lia) ltac:(lia) ltac:(lia)). unfold kbind, kret in H. fold k in H.
    replace (p + Z.of_nat (length l) + 1) with (p + Z.of_nat (S (length l))) by lia. rewrite H.
    destruct (last_index_spec (ch mod 256) (l ++ [0]) (S (length l))) as (Hle & _). fold k in Hle.
    destruct (lookup_lt_is_Some_2 (l ++ [0]) k) as [c Hc].
    { destruct (decide (k = S (length l))) as [He|]; [|rewrite length_app; cbn [length]; lia].
      exfalso. subst k. cbn [last_index] in He. destruct (decide _); [lia|].
      destruct (last_index_spec (ch mod 256) (l ++ [0]) (length l)). lia. }
    destruct (bytes_lookup _ _ _ _ _ (proj1 Hs) Hc) as [Hm _]. kld. rewrite Hc.
    destruct (Z.eqb_spec c (ch mod 256)) as [->|]; [by rewrite decide_True|by rewrite decide_False by congruence]. }
  clear k Hf fuel. intros j fuel. revert j. induction fuel as [|fuel IH]; intros j Hj Hj0 Hjf; [lia|].
  destruct j as [|j]; [lia|]. destruct (lookup_lt_is_Some_2 (l ++ [0]) j) as [c Hc]; [rewrite length_app; cbn; lia|].
  destruct (bytes_lookup _ _ _ _ _ (proj1 Hs) Hc) as [Hm _].
  assert (Hp : p + Z.of_nat (S j) - 1 = p + Z.of_nat j) by lia. cbn [last_index]. rewrite Hc.
  destruct (decide (j = 0%nat)) as [->|Hj1].
  - erewrite kloop_exit; [|kx; cbv zeta; rewrite Hp, Z.add_0_r, Z.eqb_refl; reflexivity].
    destruct (decide _); by rewrite Z.add_0_r.
  - destruct (Z.eqb_spec c (ch mod 256)) as [->|Hne].
    + rewrite decide_True by done. apply kloop_exit. kx. cbv zeta. rewrite Hp.
      destruct (Z.eqb_spec (p + Z.of_nat j) p); [lia|]. kld. by rewrite Z.eqb_refl.
    + rewrite decide_False by congruence. erewrite kloop_next; [apply IH; lia|]. kx. cbv zeta. rewrite Hp.
      destruct (Z.eqb_spec (p + Z.of_nat j) p); [lia|]. kld. by destruct (Z.eqb_spec c (ch mod 256)).
Qed.

(** [stricmp] gives 0 exactly for strings that differ in case only. *)
Definition same_letters (l1 l2 : list Z) : Prop := lower_char <$> l1 = lower_char <$> l2.

Lemma stricmp_spec l1 : forall m p1 p2 l2 fuel,
  cstr m p1 l1 -> cstr m p2 l2 -> (length l1 < fuel)%nat ->
  exists r, stricmp fuel p1 p2 m = Done (r, m) /\ (r = 0 <-> same_letters l1 l2).
Proof.
  assert (Hlow : forall c, 0 <= c < 256 -> c <> 0 -> lower_char c <> 0).
  { intros c Hc Hc0. unfold lower_char, s8. destruct (Z.ltb_spec c 128);
      repeat case_match; breflect; lia. }
  unfold stricmp, same_letters.
  induction l1 as [|a l1 IH]; intros m p1 p2 l2 fuel H1 H2 Hf; (destruct fuel as [|fuel]; [lia|]).
  - apply cstr_nil in H1. destruct l2 as [|b l2].
    + apply cstr_nil in H2. exists 0. split; [|done]. apply kloop_exit. kx. by kld.
    + apply cstr_cons in H2 as (Hb & Hb0 & Hbr & H2). exists (0 - lower_char b). split.
      * apply kloop_exit. kx. by kld.
      * specialize (Hlow b Hbr Hb0). split; [lia|done].
  - apply cstr_cons in H1 as (Ha & Ha0 & Har & H1). destruct l2 as [|b l2].
    + apply cstr_nil in H2. exists (lower_char a - 0). specialize (Hlow a Har Ha0). split.
      * apply kloop_exit. kx. cbv zeta. kld. change (lower_char 0) with 0.
        destruct (Z.eqb_spec (lower_char a) 0); [lia|]. done.
      * split; [lia|done].
    + apply cstr_cons in H2 as (Hb & Hb0 & Hbr & H2). destruct (decide (lower_char a = lower_char b)) as [He|Hne].
      * destruct (IH m (p1 + 1) (p2 + 1) l2 fuel H1 H2 ltac:(cbn in Hf; lia)) as (r & Hr & Hz). exists r. split.
        { erewrite kloop_next; [exact Hr|]. kx. cbv zeta. kld. rewrite He, Z.eqb_refl.
          destruct (Z.eqb_spec (lower_char b) 0) as [H0|]; [by apply Hlow in H0|done]. }
        rewrite Hz, !fmap_cons, He. split; [by intros ->|by intros [= ->]].
      * exists (lower_char a - lower_char b). split.
        { apply kloop_exit. kx. cbv zeta. kld. destruct (Z.eqb_spec (lower_char a) (lower_char b)); [lia|].
          by rewrite andb_false_r. }
        rewrite !fmap_cons. split; [lia|]. by intros [= ? ?].
Qed.

(** With a count of 0, [strnicmp] does not stop: the counter wraps around and
    the strings are compared in full. *)
Lemma strnicmp_zero_compares :
  strnicmp 8 10 20 0 (write_at 10 [97; 0] (write_at 20 [98; 0] ∅)) =
  Done (-1, write_at 10 [97; 0] (write_at 20 [98; 0] ∅)).
Proof. vm_compute. reflexivity. Qed.

(** [strncat] appends at most [n] bytes and always a terminator. *)
Lemma strncat_spec m d p l1 l2 n fuel :
  cstr m d l1 -> cstr m p l2 ->
  mapped m d (length l1 + S (Nat.min n (length l2))) ->
  apart d (length l1 + S (Nat.min n (length l2))) p (S (length l2)) ->
  (length l1 < fuel)%nat -> (length l2 < fuel)%nat ->
  strncat fuel d p (Z.of_nat n) m = Done (d, write_at (d + Z.of_nat (length l1)) (take n l2 ++ [0]) m).
Proof.
  intros H1 H2 Hm Ha Hf1 Hf2. unfold strncat. kx. cbv zeta.
  pose proof (scan_end m l1 d fuel (fun s => s + 1) H1 Hf1) as H. unfold kbind, kret in H. rewrite H. clear H.
  replace (d + Z.of_nat (length l1) + 1 - 1) with (d + Z.of_nat (length l1)) by lia.
  enough (H : forall l2 n m q p fuel, cstr m p l2 -> mapped m q (S (Nat.min n (length l2))) ->
    apart q (S (Nat.min n (length l2))) p (S (length l2)) -> (length l2 < fuel)%nat ->
    kloop fuel (fun '(n, s1, s2) => (if n =? 0 then st s1 0 ;;; kret (inr d) else
      let* c := ld s2 in st s1 c ;;;
      if c =? 0 then kret (inr d) else kret (inl (n - 1, s1 + 1, s2 + 1)))%K) (Z.of_nat n, q, p) m =
    Done (d, write_at q (take n l2 ++ [0]) m)).
  { unfold kbind, kret in H. apply H; [done| | |done].
    - intros i Hi. apply Hm. lia.
    - unfold apart in *. lia. }
  clear. induction l2 as [|c l2 IH]; intros n m q p fuel Hs Hm Ha Hf; (destruct fuel as [|fuel]; [lia|]).
  - apply cstr_nil in Hs. destruct (mapped_cons _ _ _ Hm) as [Hq _]. rewrite take_nil. apply kloop_exit. kx.
    destruct (Z.eqb_spec (Z.of_nat n) 0); [|kld]; by rewrite st_run by (done || lia).
  - apply cstr_cons in Hs as (Hc & Hc0 & Hcr & Hs). destruct (mapped_cons _ _ _ Hm) as [Hq Hm'].
    destruct n as [|n].
    + apply kloop_exit. kx. change (Z.of_nat 0 =? 0) with true. cbn beta iota. by rewrite st_run by (done || lia).
    + unfold apart in *. cbn [length] in *. rewrite <- Nat.succ_min_distr in *. erewrite kloop_next.
      2:{ kx. change (Z.of_nat (S n) =? 0) with false. cbn beta iota. kld. rewrite st_run by (done || lia).
          destruct (Z.eqb_spec c 0); [lia|]. reflexivity. }
      replace (Z.of_nat (S n) - 1) with (Z.of_nat n) by lia.
      rewrite IH; [done| |by apply mapped_insert|lia|lia].
      revert Hs. apply cstr_frame. intros i Hi. rewrite lookup_insert_ne; [done|lia].
Qed.

Lemma is_delim_spec m q D c fuel :
  cstr m q D -> (length D < fuel)%nat -> 0 <= c < 256 ->
  is_delim fuel c q m = Done (in_set D c, m).
Proof.
  intros HD Hf Hc. unfold is_delim. revert q fuel HD Hf.
  induction D as [|b D IH]; intros q fuel HD Hf; (destruct fuel as [|fuel]; [lia|]).
  - apply cstr_nil in HD. apply kloop_exit. kx. by kld.
  - apply cstr_cons in HD as (Hb & Hb0 & Hbr & HD). unfold in_set in *.
    assert (Hcb : (s8 c =? s8 b) = (c =? b)).
    { unfold s8. destruct (Z.ltb_spec c 128), (Z.ltb_spec b 128), (Z.eqb_spec c b); lia. }
    destruct (Z.eqb_spec c b) as [->|Hne].
    + rewrite bool_decide_true by set_solver. apply kloop_exit. kx. kld. destruct (Z.eqb_spec b 0); [lia|].
      by rewrite Hcb.
    + erewrite kloop_next; [|kx; kld; destruct (Z.eqb_spec b 0); [lia|]; rewrite Hcb; reflexivity].
      rewrite IH; [|done|cbn in Hf; lia]. do 2 f_equal. apply bool_decide_ext. set_solver.
Qed.

(** [strsep] returns the string up to the first delimiter and moves on behind
    it; empty fields are returned as such, and after the last one the saved
    pointer is [NULL]. *)
Lemma strsep_spec m p q l D fuel :
  p <> 0 -> cstr m p l -> cstr m q D ->
  (length l < fuel)%nat -> (length D < fuel)%nat ->
  let k := run_length (fun c => negb (in_set D c)) l in
  strsep fuel p q m =
    if (k <? length l)%nat then Done ((p, p + Z.of_nat k + 1), <[p + Z.of_nat k := 0]> m)
    else Done ((p, 0), m).
Proof.
  intros Hp0 Hl HD Hf1 Hf2. unfold strsep. cbv zeta. destruct (Z.eqb_spec p 0); [done|].
  enough (H : forall l fuel s F, cstr m s l -> (length l < fuel)%nat -> (length D < F)%nat ->
    let k := run_length (fun c => negb (in_set D c)) l in
    kloop fuel (fun s => (let* c := ld s in if c =? 0 then kret (inr (p, 0)) else
      let* found := is_delim F c q in
      if found then st (s + 1 - 1) 0 ;;; kret (inr (p, s + 1)) else kret (inl (s + 1)))%K) s m =
    if (k <? length l)%nat then Done ((p, s + Z.of_nat k + 1), <[s + Z.of_nat k := 0]> m)
    else Done ((p, 0), m)) by by apply H.
  clear -HD. induction l as [|c l IH]; intros fuel s F Hs Hf HF; (destruct fuel as [|fuel]; [lia|]); cbv zeta.
  - apply cstr_nil in Hs. apply kloop_exit. kx. by kld.
  - apply cstr_cons in Hs as (Hc & Hc0 & Hcr & Hs). cbn [run_length length] in *.
    pose proof (is_delim_spec m q D c F HD HF Hcr) as Hd. destruct (in_set D c); cbn [negb].
    + apply kloop_exit. kx. kld. destruct (Z.eqb_spec c 0); [lia|]. rewrite Hd, Z.add_0_r.
      replace (s + 1 - 1) with s by lia. by rewrite st_run by (eauto || lia).
    + erewrite kloop_next; [|kx; kld; destruct (Z.eqb_spec c 0); [lia|]; rewrite Hd; reflexivity].
      rewrite IH by (done || lia). set (k := run_length (fun c => negb (in_set D c)) l).
      destruct (Nat.ltb_spec k (length l)), (Nat.ltb_spec (S k) (S (length l))); try lia; [|done].
      by replace (s + Z.of_nat (S k)) with (s + 1 + Z.of_nat k) by lia.
Qed.

(** ** Properties *)

(** [memmove] returns its destination and moves the block: the destination
    holds the bytes the source held before, also where the blocks overlap in
    either direction, and no other byte of memory changes. *)
Theorem memmove_moves m d p l fuel :
  bytes_at m p l -> mapped m d (length l) -> (length l < fuel)%nat ->
  exists m', memmove fuel d p (Z.of_nat (length l)) m = Done (d, m') /\ bytes_at m' d l /\
    forall i, ~ (d <= i < d + Z.of_nat (length l)) -> m' !! i = m !! i.
Proof.
  intros Hb Hm Hf. exists (write_at d l m). split_and!.
  - unfold memmove. destruct ((d <=? p) || (p + Z.of_nat (length l) <=? d)) eqn:Hc.
    + pose proof (move_up l m d p fuel Hb Hm) as H. unfold kbind, kret in H. kx.
      rewrite H; [done| |done]. apply orb_true_iff in Hc as [?|?]; breflect; lia.
    + breflect. pose proof (move_down l m d p fuel Hb Hm) as Hr. unfold kbind, kret in Hr. kx.
      rewrite Hr; [done|lia|done].
  - apply write_bytes, Forall_forall. intros c. by apply (bytes_range m p).
  - intros i Hi. by apply write_lookup_out.
Qed.

(** [strtok_r] returns the next maximal run of bytes that are not
    delimiters as a string of its own, remembers the rest of the string behind
    the delimiter, and changes no byte but that delimiter; it returns [NULL]
    exactly if only delimiters are left. *)
Theorem strtok_r_token m string q lasts l D fuel p :
  p = (if string =? 0 then lasts else string) ->
  cstr m p l -> cstr m q D -> (length l < fuel)%nat -> (length D < fuel)%nat ->
  match next_token D l with
  | None => strtok_r fuel string q lasts m = Done ((0, p + Z.of_nat (length l)), m)
  | Some (skip, token, rest) =>
      exists m' next, strtok_r fuel string q lasts m = Done ((p + Z.of_nat skip, next), m') /\
        cstr m' (p + Z.of_nat skip) token /\ cstr m' next rest /\
        forall i, i <> p + Z.of_nat (skip + length token) -> m' !! i = m !! i
  end.
Proof. apply strtok_r_run. Qed.

(** ** Witnesses *)

(** The bytes 1, 2, 3, 4 at address 100 and a string with two words at 200. *)
Definition demo_mem : mem := write_at 100 [1; 2; 3; 4; 0; 0] (write_at 200 [32; 97; 98; 32; 99; 0] (write_at 300 [32; 0] ∅)).

Lemma memmove_moves_witness :
  exists m', memmove 5 102 100 4 demo_mem = Done (102, m') /\ bytes_at m' 102 [1; 2; 3; 4] /\
    forall i, ~ (102 <= i < 106) -> m' !! i = demo_mem !! i.
Proof.
  apply (memmove_moves demo_mem 102 100 [1; 2; 3; 4] 5).
  - vm_compute. intuition congruence.
  - intros i Hi. assert (i = 102 \/ i = 103 \/ i = 104 \/ i = 105) as [->|[->|[->| ->]]] by (cbn in Hi; lia);
      vm_compute; eauto.
  - cbn. lia.
Defined.

Lemma strtok_r_token_witness :
  exists m' next, strtok_r 10 200 300 0 demo_mem = Done ((201, next), m') /\
    cstr m' 201 [97; 98] /\ cstr m' next [99].
Proof.
  pose proof (strtok_r_token demo_mem 200 300 0 [32; 97; 98; 32; 99] [32] 10 200) as H.
  change (next_token [32] [32; 97; 98; 32; 99]) with (Some (1%nat, [97; 98], [99])) in H.
  destruct H as (m' & next & H1 & H2 & H3 & _).
  - done.
  - split; [vm_compute; intuition congruence|]. repeat constructor; lia.
  - split; [vm_compute; intuition congruence|]. repeat constructor; lia.
  - cbn. lia.
  - cbn. lia.
  - by exists m', next.
Defined.
