(* ===== verification/Ctype.v ===== *)
(** * Character classes (lib/ctype.c, include/ctype.h)

    The table of character classes and the functions and macros that read it.
    The functions index the table with any [int]; outside of [-1 .. 255] that
    is an access outside of the array.  The macros convert to [unsigned char]
    first. *)

From S2P Require Import Prelude.

Definition _UPPER : Z := 1.
Definition _LOWER : Z := 2.
Definition _DIGIT : Z := 4.
Definition _SPACE : Z := 8.
Definition _PUNCT : Z := 16.
Definition _CONTROL : Z := 32.
Definition _BLANK : Z := 64.
Definition _HEX : Z := 128.
Definition _LEADBYTE : Z := 32768.

(** The table, its first entry being that of [EOF]; C fills the rest with 0. *)
Definition _ctype : list Z :=
  [0] ++ replicate 9 _CONTROL ++ replicate 5 (_SPACE + _CONTROL) ++ replicate 18 _CONTROL ++
  [_SPACE + _BLANK] ++ replicate 15 _PUNCT ++ replicate 10 (_DIGIT + _HEX) ++ replicate 7 _PUNCT ++
  replicate 6 (_UPPER + _HEX) ++ replicate 20 _UPPER ++ replicate 6 _PUNCT ++
  replicate 6 (_LOWER + _HEX) ++ replicate 20 _LOWER ++ replicate 4 _PUNCT ++ [_CONTROL] ++
  replicate 128 0.

(** [_pctype[c]] *)
Definition _pctype (c : Z) : option Z :=
  if c <? -1 then None else _ctype !! Z.to_nat (c + 1).

Definition _isctype (c mask : Z) : option Z :=
  if u32 (c + 1) <=? 256 then (fun v => Z.land v mask) <$> _pctype c else Some 0.

Definition class (mask c : Z) : option Z := (fun v => Z.land v mask) <$> _pctype c.

Definition isalpha : Z -> option Z := class (Z.lor _UPPER _LOWER).
Definition isupper : Z -> option Z := class _UPPER.
Definition islower : Z -> option Z := class _LOWER.
Definition isdigit : Z -> option Z := class _DIGIT.
Definition isxdigit : Z -> option Z := class _HEX.
Definition isspace : Z -> option Z := class _SPACE.
Definition ispunct : Z -> option Z := class _PUNCT.
Definition isalnum : Z -> option Z := class (Z.lor (Z.lor _UPPER _LOWER) _DIGIT).
Definition isprint : Z -> option Z :=
  class (Z.lor (Z.lor (Z.lor (Z.lor _BLANK _PUNCT) _UPPER) _LOWER) _DIGIT).
Definition isgraph : Z -> option Z := class (Z.lor (Z.lor (Z.lor _PUNCT _UPPER) _LOWER) _DIGIT).
Definition iscntrl : Z -> option Z := class _CONTROL.
Definition isleadbyte : Z -> option Z := class _LEADBYTE.

Definition toupper (c : Z) : option Z :=
  (fun v => if Z.land v _LOWER =? 0 then c else c - (97 - 65)) <$> _pctype c.
Definition tolower (c : Z) : option Z :=
  (fun v => if Z.land v _UPPER =? 0 then c else c + (97 - 65)) <$> _pctype c.

(** The macros of ctype.h, as tests. *)
Definition is_class (mask c : Z) : bool :=
  negb (Z.land (_ctype !!! Z.to_nat (c mod 256 + 1)) mask =? 0).

Definition m_isspace (c : Z) : bool := is_class _SPACE c.
Definition m_isdigit (c : Z) : bool := is_class _DIGIT c.
Definition m_isalpha (c : Z) : bool := is_class (Z.lor _UPPER _LOWER) c.
Definition m_islower (c : Z) : bool := is_class _LOWER c.
Definition m_isupper (c : Z) : bool := is_class _UPPER c.
Definition m_toupper (c : Z) : Z := if m_islower c then c - 97 + 65 else c.
Definition m_tolower (c : Z) : Z := if m_isupper c then c - 65 + 97 else c.

(** ** The classes *)

(** A fact about all characters can be computed. *)
Lemma all_chars (P : Z -> bool) :
  forallb P (seqZ (-1) 257) = true -> forall c, -1 <= c < 256 -> P c = true.
Proof.
  intros H c Hc. apply (proj1 (forallb_forall P (seqZ (-1) 257)) H). apply list_elem_of_In, elem_of_seqZ. lia.
Qed.

Definition between (a b c : Z) : bool := (a <=? c) && (c <=? b).

Definition yes (o : option Z) : bool := match o with Some v => negb (v =? 0) | None => false end.

Lemma class_in_range mask c : -1 <= c < 256 -> exists v, class mask c = Some v.
Proof.
  intros Hc. unfold class, _pctype. destruct (Z.ltb_spec c (-1)); [lia|].
  destruct (lookup_lt_is_Some_2 _ctype (Z.to_nat (c + 1))) as [v ->]; [|by eexists].
  change (length _ctype) with 257%nat. lia.
Qed.

(** C39: for every [unsigned char] and [EOF] the class functions return, and
    they classify characters as ASCII does: letters, digits, hexadecimal
    digits, white space, control, punctuation and printing characters. *)
Theorem ctype_classes c :
  -1 <= c < 256 ->
  yes (isupper c) = between 65 90 c /\ yes (islower c) = between 97 122 c /\
  yes (isalpha c) = (between 65 90 c || between 97 122 c) /\
  yes (isdigit c) = between 48 57 c /\
  yes (isxdigit c) = (between 48 57 c || between 65 70 c || between 97 102 c) /\
  yes (isalnum c) = (between 48 57 c || between 65 90 c || between 97 122 c) /\
  yes (isspace c) = (between 9 13 c || (c =? 32)) /\
  yes (iscntrl c) = (between 0 31 c || (c =? 127)) /\
  yes (isprint c) = between 32 126 c /\ yes (isgraph c) = between 33 126 c /\
  yes (ispunct c) = (between 33 126 c && negb (between 48 57 c || between 65 90 c || between 97 122 c)) /\
  toupper c = Some (if between 97 122 c then c - 32 else c) /\
  tolower c = Some (if between 65 90 c then c + 32 else c).
Proof.
  intros Hc. repeat split; apply (bool_decide_eq_true_1 _); revert c Hc; apply all_chars; vm_compute; reflexivity.
Qed.

Lemma ctype_classes_witness : yes (isupper 65) = true /\ toupper 97 = Some 65.
Proof.
  destruct (ctype_classes 65 ltac:(lia)) as (H & _).
  destruct (ctype_classes 97 ltac:(lia)) as (_ & _ & _ & _ & _ & _ & _ & _ & _ & _ & _ & H' & _). done.
Defined.

(** Below [EOF] and above 255 a class function reads outside of the table. *)
Lemma class_outside mask c : c < -1 \/ 256 <= c -> class mask c = None.
Proof.
  intros Hc. unfold class, _pctype. destruct (Z.ltb_spec c (-1)); [done|].
  rewrite lookup_ge_None_2; [done|]. change (length _ctype) with 257%nat. lia.
Qed.

(** The macros on bytes. *)
Lemma macro_classes c : 0 <= c < 256 ->
  m_isspace c = (between 9 13 c || (c =? 32)) /\ m_isdigit c = between 48 57 c /\
  m_isalpha c = (between 65 90 c || between 97 122 c) /\
  m_toupper c = (if between 97 122 c then c - 32 else c) /\
  m_tolower c = (if between 65 90 c then c + 32 else c).
Proof.
  intros Hc.
  assert (Hall : forall c, -1 <= c < 256 ->
    (c =? -1) || (Bool.eqb (m_isspace c) (between 9 13 c || (c =? 32)) && Bool.eqb (m_isdigit c) (between 48 57 c) &&
    Bool.eqb (m_isalpha c) (between 65 90 c || between 97 122 c) &&
    (m_toupper c =? (if between 97 122 c then c - 32 else c)) &&
    (m_tolower c =? (if between 65 90 c then c + 32 else c))) = true).
  { apply all_chars. vm_compute. reflexivity. }
  specialize (Hall c ltac:(lia)). destruct (Z.eqb_spec c (-1)); [lia|]. cbn [orb] in Hall.
  rewrite !andb_true_iff, !eqb_true_iff, !Z.eqb_eq in Hall. tauto.
Qed.
