(* ===== verification/Strtol.v ===== *)
(** * Numbers and strings (lib/strtol.c, lib/xtoa.c)

    [strtoxl] and [strtoxll] read a number from a string; the two bodies are
    the same up to the widths, so that the model has one body over a record of
    limits.  [xtoa] writes a number to a buffer.  The readers return the
    number, the end pointer they store and whether they set [errno] to
    [ERANGE].

    The theorems: unsigned numbers are read correctly in every base and
    saturate, a number written by [ultoa] is read back, and every number with
    a minus sign that fits is taken for an overflow by [strtol]. *)

From S2P Require Import Prelude Cmem Ctype.

Definition FL_UNSIGNED : Z := 1.
Definition FL_NEG : Z := 2.
Definition FL_OVERFLOW : Z := 4.
Definition FL_READDIGIT : Z := 8.

Definition flag (flags f : Z) : bool := negb (Z.land flags f =? 0).

(** What differs between the two widths: the limit of the overflow test of the
    digit loop, the smallest and the largest signed and the largest unsigned
    number (as unsigned numbers), the number of values, and the type of the
    variable [c]. *)
Record limits := mkLimits {
  lim_div : Z;
  lim_min : Z;
  lim_max : Z;
  lim_umax : Z;
  lim_wrap : Z;
  lim_char : Z -> Z }.

Definition long_limits : limits :=
  mkLimits 4294967295 2147483648 2147483647 4294967295 4294967296 s8.
Definition int64_limits : limits :=
  mkLimits 9223372036854775807 9223372036854775808 9223372036854775807
           18446744073709551615 18446744073709551616 (fun b => b).

Section Code.
Local Open Scope k_scope.

(** [while (isspace(c)) c = *p++;] *)
Definition skip_spaces (conv : Z -> Z) (fuel : nat) (c p : Z) : K mem (Z * Z) :=
  kloop fuel (fun '(c, p) =>
    if m_isspace c then let* b := ld p in kret (inl (conv b, p + 1))
    else kret (inr (c, p))) (c, p).

(** The value of a digit or letter, if [c] is one. *)
Definition digit_value (c : Z) : option Z :=
  if m_isdigit c then Some (u32 (c - 48))
  else if m_isalpha c then Some (u32 (m_toupper c - 65 + 10))
  else None.

(** The digit loop: flags, number, character and pointer. *)
Definition digit_loop (lim : limits) (fuel : nat) (ibase flags number c p : Z) : K mem (Z * Z * Z) :=
  let maxval := lim_div lim / ibase in
  kloop fuel (fun '(flags, number, c, p) =>
    match digit_value c with
    | None => kret (inr (flags, number, p))
    | Some digval =>
        if ibase <=? digval then kret (inr (flags, number, p))
        else
          let flags := Z.lor flags FL_READDIGIT in
          let '(flags, number) :=
            if (number <? maxval) || ((number =? maxval) && (digval <=? lim_div lim mod ibase))
            then (flags, number * ibase + digval)
            else (Z.lor flags FL_OVERFLOW, number) in
          let* b := ld p in
          kret (inl (flags, number, lim_char lim b, p + 1))
    end) (flags, number, c, p).

(** Sign, saturation and the final negation. *)
Definition finish (lim : limits) (flags number nptr p : Z) : Z * Z * bool :=
  let '(number, p, erange) :=
    if negb (flag flags FL_READDIGIT) then (0, nptr, false)
    else if flag flags FL_OVERFLOW ||
            (negb (flag flags FL_UNSIGNED) &&
             ((flag flags FL_NEG && (number <? lim_min lim)) ||
              (negb (flag flags FL_NEG) && (lim_max lim <? number)))) then
      (if flag flags FL_UNSIGNED then lim_umax lim
       else if flag flags FL_NEG then lim_min lim
       else lim_max lim, p, true)
    else (number, p, false) in
  let number := if flag flags FL_NEG then (- number) mod lim_wrap lim else number in
  (number, p, erange).

Definition strtox (lim : limits) (fuel : nat) (nptr ibase flags : Z) : K mem (Z * Z * bool) :=
  let p := nptr in
  let* b := ld p in
  let* (c, p) := skip_spaces (lim_char lim) fuel (lim_char lim b) (p + 1) in
  let* (flags, c, p) :=
    if c =? 45 then let* b := ld p in kret (Z.lor flags FL_NEG, lim_char lim b, p + 1)
    else if c =? 43 then let* b := ld p in kret (flags, lim_char lim b, p + 1)
    else kret (flags, c, p) in
  if (ibase <? 0) || (ibase =? 1) || (36 <? ibase) then kret (0, nptr, false)
  else
    let* ibase :=
      if ibase =? 0 then
        if negb (c =? 48) then kret 10
        else let* x := ld p in
             if (x =? 120) || (x =? 88) then kret 16 else kret 8
      else kret ibase in
    let* (c, p) :=
      if ibase =? 16 then
        if c =? 48 then
          let* x := ld p in
          if (x =? 120) || (x =? 88) then
            let p := p + 1 in
            let* b := ld p in kret (lim_char lim b, p + 1)
          else kret (c, p)
        else kret (c, p)
      else kret (c, p) in
    let* (flags, number, p) := digit_loop lim fuel ibase flags 0 c p in
    kret (finish lim flags number nptr (p - 1)).

Definition strtoxl : nat -> Z -> Z -> Z -> K mem (Z * Z * bool) := strtox long_limits.
Definition strtoxll : nat -> Z -> Z -> Z -> K mem (Z * Z * bool) := strtox int64_limits.

Definition strtol (fuel : nat) (nptr ibase : Z) : K mem (Z * Z * bool) :=
  let* (number, p, erange) := strtoxl fuel nptr ibase 0 in
  kret (s32 number, p, erange).

Definition strtoul (fuel : nat) (nptr ibase : Z) : K mem (Z * Z * bool) :=
  strtoxl fuel nptr ibase FL_UNSIGNED.

(** A 64-bit pattern as a signed number. *)
Definition s64 (z : Z) : Z :=
  if z mod 18446744073709551616 <? 9223372036854775808 then z mod 18446744073709551616
  else z mod 18446744073709551616 - 18446744073709551616.

Definition strtoll (fuel : nat) (nptr ibase : Z) : K mem (Z * Z * bool) :=
  let* (number, p, erange) := strtoxll fuel nptr ibase 0 in
  kret (s64 number, p, erange).

Definition strtoull (fuel : nat) (nptr ibase : Z) : K mem (Z * Z * bool) :=
  strtoxll fuel nptr ibase FL_UNSIGNED.

Definition atol (fuel : nat) (nptr : Z) : K mem Z :=
  let p := nptr in
  let* p := kloop fuel (fun p =>
    let* c := ld p in
    if m_isspace c then kret (inl (p + 1)) else kret (inr p)) p in
  let* c := ld p in
  let p := p + 1 in
  let sign := c in
  let* (c, p) :=
    if (c =? 45) || (c =? 43) then let* c := ld p in kret (c, p + 1) else kret (c, p) in
  let* total := kloop fuel (fun '(total, c, p) =>
    if m_isdigit c then
      let total := s32 (10 * total + (c - 48)) in
      let* c := ld p in
      kret (inl (total, c, p + 1))
    else kret (inr total)) (0, c, p) in
  kret (if sign =? 45 then s32 (- total) else total).

Definition atoi (fuel : nat) (nptr : Z) : K mem Z := atol fuel nptr.

(** ** Writing numbers *)

Definition digit_char (digval : Z) : Z := if 9 <? digval then digval - 10 + 97 else digval + 48.

(** [do { store the lowest digit } while (val > 0);] *)
Definition put_digits (fuel : nat) (val p radix : Z) : K mem Z :=
  kloop fuel (fun '(val, p) =>
    let digval := val mod radix in
    let val := val / radix in
    st p (digit_char digval) ;;;
    if 0 <? val then kret (inl (val, p + 1)) else kret (inr (p + 1))) (val, p).

(** [do { swap the ends } while (firstdig < p);] *)
Definition reverse_digits (fuel : nat) (firstdig p : Z) : K mem unit :=
  kloop fuel (fun '(firstdig, p) =>
    let* temp := ld p in
    let* x := ld firstdig in
    st p x ;;;
    st firstdig temp ;;;
    let p := p - 1 in
    let firstdig := firstdig + 1 in
    if firstdig <? p then kret (inl (firstdig, p)) else kret (inr tt)) (firstdig, p).

Definition xtoa (fuel : nat) (val buf radix : Z) (negative : bool) : K mem unit :=
  let p := buf in
  let* (val, p) :=
    if negative then st p 45 ;;; kret (u32 (- val), p + 1) else kret (val, p) in
  let firstdig := p in
  let* p := put_digits fuel val p radix in
  st p 0 ;;;
  reverse_digits fuel firstdig (p - 1).

Definition itoa (fuel : nat) (val buf radix : Z) : K mem Z :=
  (if (radix =? 10) && (val <? 0) then xtoa fuel (u32 val) buf radix true
   else xtoa fuel (u32 val) buf radix false) ;;;
  kret buf.

Definition ltoa (fuel : nat) (val buf radix : Z) : K mem Z :=
  xtoa fuel (u32 val) buf radix ((radix =? 10) && (val <? 0)) ;;;
  kret buf.

Definition ultoa (fuel : nat) (val buf radix : Z) : K mem Z :=
  xtoa fuel val buf radix false ;;;
  kret buf.
End Code.

(** ** Values of digit strings *)

Definition value (b : Z) (ds : list Z) : Z := foldl (fun n d => n * b + d) 0 ds.

(** [cs] are the characters of the digits [ds] in base [b]. *)
Definition spells (b : Z) (cs ds : list Z) : Prop :=
  Forall2 (fun c d => 0 <= c < 256 /\ digit_value c = Some d /\ 0 <= d < b) cs ds.

Definition is_digit_of (b c : Z) : bool :=
  match digit_value c with Some d => d <? b | None => false end.

Lemma fold_value_ge b ds : forall n, 1 <= b -> 0 <= n -> Forall (fun d => 0 <= d) ds ->
  n <= foldl (fun n d => n * b + d) n ds.
Proof.
  induction ds as [|d ds IH]; intros n Hb Hn Hd; cbn [foldl]; [lia|]. inversion Hd; subst.
  etrans; [|apply IH; [done|nia|done]]. nia.
Qed.

(** The overflow test of the digit loop is exact. *)
Lemma overflow_test lim b n d :
  1 <= b -> 0 <= n -> 0 <= d < b -> 0 <= lim ->
  ((n <? lim / b) || ((n =? lim / b) && (d <=? lim mod b))) = (n * b + d <=? lim).
Proof.
  intros Hb Hn Hd Hl. pose proof (Z.div_mod lim b ltac:(lia)) as Hdm.
  pose proof (Z.mod_pos_bound lim b ltac:(lia)).
  destruct (Z.ltb_spec n (lim / b)), (Z.eqb_spec n (lim / b)), (Z.leb_spec d (lim mod b)),
    (Z.leb_spec (n * b + d) lim); cbn [orb andb]; (done || nia).
Qed.

Lemma flag_read f : flag (Z.lor f FL_READDIGIT) FL_READDIGIT = true.
Proof.
  unfold flag, FL_READDIGIT. apply negb_true_iff, Z.eqb_neq. intros H.
  apply (f_equal (fun z => Z.testbit z 3)) in H. rewrite Z.land_spec, Z.lor_spec in H.
  change (Z.testbit 8 3) with true in H. by rewrite orb_true_r in H.
Qed.

Lemma flag_lor f g h : flag (Z.lor f g) h = flag f h || flag g h.
Proof.
  unfold flag. rewrite Z.land_lor_distr_l.
  destruct (Z.eqb_spec (Z.land f h) 0) as [H1|H1], (Z.eqb_spec (Z.land g h) 0) as [H2|H2]; cbn [negb orb].
  - by rewrite H1, H2.
  - apply negb_true_iff, Z.eqb_neq. intros H. apply Z.lor_eq_0_iff in H. tauto.
  - apply negb_true_iff, Z.eqb_neq. intros H. apply Z.lor_eq_0_iff in H. tauto.
  - apply negb_true_iff, Z.eqb_neq. intros H. apply Z.lor_eq_0_iff in H. tauto.
Qed.

(** The flags and the number after the digits: all of them keep the flags they
    had, digits have been read, and the overflow flag tells whether the value
    is beyond the limit. *)
Definition read_ok (lim b flags number : Z) (ds : list Z) (flags' number' : Z) : Prop :=
  flag flags' FL_READDIGIT = (flag flags FL_READDIGIT || negb (bool_decide (ds = []))) /\
  flag flags' FL_UNSIGNED = flag flags FL_UNSIGNED /\ flag flags' FL_NEG = flag flags FL_NEG /\
  let v := foldl (fun n d => n * b + d) number ds in
  flag flags' FL_OVERFLOW = (flag flags FL_OVERFLOW || (lim <? v)) /\
  (v <= lim -> number' = v) /\ 0 <= number'.

Lemma is_digit_loop_end (lim : limits) b fuel flags number c p m :
  is_digit_of b c = false -> (0 < fuel)%nat ->
  digit_loop lim fuel b flags number c p m = Done ((flags, number, p), m).
Proof.
  intros Hd Hf. destruct fuel as [|fuel]; [lia|]. unfold digit_loop. apply kloop_exit.
  unfold is_digit_of in Hd. destruct (digit_value c) as [d|]; [|done].
  destruct (Z.ltb_spec d b); [done|]. by destruct (Z.leb_spec b d); [|lia].
Qed.

Section Digits.
Context (lim : limits) (b : Z) (Hb : 2 <= b) (Hlim : 0 <= lim_div lim).
(** The conversion of a byte does not change what the character is. *)
Context (Hconv : forall c, 0 <= c < 256 -> digit_value (lim_char lim c) = digit_value c).

Lemma digit_loop_run cs : forall ds t flags number c0 q m fuel,
  spells b cs ds -> is_digit_of b t = false -> 0 <= t < 256 ->
  0 <= number -> (number <= lim_div lim \/ flag flags FL_OVERFLOW = true) ->
  bytes_at m (q + 1) (drop 1 (cs ++ [t])) -> (cs ++ [t]) !! 0%nat = Some c0 ->
  (length cs < fuel)%nat ->
  exists flags' number', digit_loop lim fuel b flags number (lim_char lim c0) (q + 1) m =
    Done ((flags', number', q + Z.of_nat (length cs) + 1), m) /\
    read_ok (lim_div lim) b flags number ds flags' number'.
Proof.
  induction cs as [|c cs IH]; intros ds t flags number c0 q m fuel Hsp Ht Htr Hn Hok Hm Hc0 Hf.
  - inversion Hsp; subst. cbn in Hc0. injection Hc0 as <-. exists flags, number. split.
    + rewrite is_digit_loop_end; [cbn [length]; by rewrite Z.add_0_r| |done].
      unfold is_digit_of in *. by rewrite Hconv.
    + unfold read_ok. cbn [foldl]. rewrite bool_decide_true by done. cbn [negb]. rewrite orb_false_r.
      split_and!; try done. destruct Hok as [Hok|Hok]; [|by rewrite Hok].
      destruct (Z.ltb_spec (lim_div lim) number); [lia|]. by rewrite orb_false_r.
  - inversion Hsp as [|? d ? ds' (Hcr & Hd & Hdb) Hsp']; subst. cbn in Hc0. injection Hc0 as <-.
    destruct fuel as [|fuel]; [lia|].
    destruct ((cs ++ [t]) !! 0%nat) as [c1|] eqn:Hc1; [|by destruct cs].
    assert (Hmem : m !! (q + 1) = Some c1 /\ bytes_at m (q + 1 + 1) (drop 1 (cs ++ [t]))).
    { cbn [app drop] in Hm. destruct (cs ++ [t]) as [|x l]; [done|]. cbn in Hc1. injection Hc1 as ->.
      destruct Hm as (? & _ & ?). by split. }
    destruct Hmem as [Hm1 Hm2].
    set (ok := number * b + d <=? lim_div lim).
    set (flags1 := if ok then Z.lor flags FL_READDIGIT else Z.lor (Z.lor flags FL_READDIGIT) FL_OVERFLOW).
    set (number1 := if ok then number * b + d else number).
    assert (Hflags1 : flag flags1 FL_READDIGIT = true /\ flag flags1 FL_UNSIGNED = flag flags FL_UNSIGNED /\
      flag flags1 FL_NEG = flag flags FL_NEG /\ flag flags1 FL_OVERFLOW = flag flags FL_OVERFLOW || negb ok).
    { subst flags1. destruct ok; rewrite !flag_lor, ?orb_false_r, ?orb_true_r; done. }
    destruct Hflags1 as (HR & HU & HN & HO).
    destruct (IH ds' t flags1 number1 c1 (q + 1) m fuel) as (flags' & number' & Hr & Hread); try done.
    { subst number1. destruct ok; nia. }
    { subst number1 flags1. destruct ok eqn:Ho; [left; subst ok; breflect; lia|right].
      by rewrite HO, orb_true_r. }
    { cbn [length] in Hf. lia. }
    exists flags', number'. split.
    + unfold digit_loop in *. erewrite kloop_next; [rewrite Hr; cbn [length]; do 3 f_equal; lia|].
      rewrite Hconv, Hd by done. destruct (Z.leb_spec b d); [lia|].
      rewrite (overflow_test (lim_div lim) b number d) by lia. fold ok. kx.
      destruct ok; kld; reflexivity.
    + destruct Hread as (R1 & R2 & R3 & R4). rewrite HR in R1. rewrite HU in R2. rewrite HN in R3. rewrite HO in R4.
      unfold read_ok. cbn [orb] in R1. rewrite R1, R2, R3. rewrite bool_decide_false by done.
      rewrite orb_true_r. do 3 (split; [done|]). cbv zeta in *. cbn [foldl]. destruct ok eqn:Ho; subst number1.
      * destruct R4 as (R4 & R5 & R6). by rewrite R4, orb_false_r.
      * destruct R4 as (R4 & R5 & R6). subst ok. breflect.
        assert (Hge : number * b + d <= foldl (fun n d => n * b + d) (number * b + d) ds').
        { apply fold_value_ge; [lia|nia|]. clear -Hsp'. induction Hsp' as [|x y l1 l2 (_ & _ & ?) _ IH]; constructor; [lia|done]. }
        split_and!; [|lia|done]. rewrite R4, orb_true_r. cbn [orb].
        destruct (Z.ltb_spec (lim_div lim) (foldl (fun n d => n * b + d) (number * b + d) ds')); [|lia].
        by rewrite orb_true_r.
Qed.
End Digits.

(** ** Reading a number *)

(** A conversion of bytes that keeps characters apart as the code needs it. *)
Definition conv_ok (conv : Z -> Z) : Prop :=
  forall c, 0 <= c < 256 ->
    digit_value (conv c) = digit_value c /\ m_isspace (conv c) = m_isspace c /\
    forall k, 0 <= k < 128 -> (conv c =? k) = (c =? k).

Lemma s8_conv : conv_ok s8.
Proof.
  intros c Hc. split_and!.
  - apply (bool_decide_eq_true_1 _). assert (H : -1 <= c < 256) by lia.
    apply (all_chars (fun c => (c =? -1) || bool_decide (digit_value (s8 c) = digit_value c))) in H;
      [|vm_compute; reflexivity]. destruct (Z.eqb_spec c (-1)); [lia|done].
  - unfold m_isspace, is_class. assert (s8 c mod 256 = c mod 256) as ->; [|done].
    unfold s8. destruct (Z.ltb_spec c 128); [done|].
    rewrite <- (Z_mod_plus_full (c - 256) 1 256). f_equal. lia.
  - intros k Hk. unfold s8. destruct (Z.ltb_spec c 128); [done|].
    destruct (Z.eqb_spec (c - 256) k), (Z.eqb_spec c k); lia.
Qed.

Lemma id_conv : conv_ok (fun b => b).
Proof. done. Qed.

Lemma skip_spaces_run conv sp : forall c0 c q m fuel,
  conv_ok conv -> Forall (fun x => m_isspace x = true) sp -> m_isspace c = false ->
  bytes_at m q (sp ++ [c]) -> (sp ++ [c]) !! 0%nat = Some c0 -> (length sp < fuel)%nat ->
  skip_spaces conv fuel (conv c0) (q + 1) m = Done ((conv c, q + Z.of_nat (length sp) + 1), m).
Proof.
  unfold skip_spaces. induction sp as [|x sp IH]; intros c0 c q m fuel Hcv Hsp Hc Hm H0 Hf;
    (destruct fuel as [|fuel]; [lia|]); cbn [app] in *; destruct Hm as (Hm0 & Hr & Hm).
  - cbn in H0. injection H0 as <-. apply kloop_exit. rewrite (proj1 (proj2 (Hcv c Hr))), Hc.
    cbn [length]. by rewrite Z.add_0_r.
  - cbn in H0. injection H0 as <-. inversion Hsp; subst.
    destruct ((sp ++ [c]) !! 0%nat) as [c1|] eqn:Hc1; [|by destruct sp].
    assert (Hm1 : m !! (q + 1) = Some c1).
    { replace (q + 1) with (q + 1 + Z.of_nat 0) by lia. by eapply bytes_lookup. }
    erewrite kloop_next; [|rewrite (proj1 (proj2 (Hcv x Hr))), H1; kx; kld; reflexivity].
    rewrite (IH c1 c (q + 1) m fuel); [|done..|cbn [length] in Hf; lia]. cbn [length]. do 3 f_equal. lia.
Qed.

(** A digit is neither white space nor a sign. *)
Lemma digit_not_special c d :
  0 <= c < 256 -> digit_value c = Some d -> m_isspace c = false /\ c <> 45 /\ c <> 43.
Proof.
  intros Hc Hd. destruct (macro_classes c Hc) as (Hs & Hdg & Ha & _).
  unfold digit_value in Hd. rewrite Hs. rewrite Hdg, Ha in Hd. unfold between in *.
  destruct ((48 <=? c) && (c <=? 57)) eqn:E1; [|destruct (((65 <=? c) && (c <=? 90)) || ((97 <=? c) && (c <=? 122))) eqn:E2; [|done]].
  - breflect. split_and!; [|lia|lia]. destruct (Z.leb_spec 9 c), (Z.leb_spec c 13), (Z.eqb_spec c 32); (done || lia).
  - apply orb_true_iff in E2 as [E2|E2]; breflect; (split_and!; [|lia|lia]);
      destruct (Z.leb_spec 9 c), (Z.leb_spec c 13), (Z.eqb_spec c 32); (done || lia).
Qed.

(** An ['x'] is a hexadecimal prefix only behind a zero; as a digit it is 33. *)
Lemma hex_digit_not_x c d : 0 <= c < 256 -> digit_value c = Some d -> d < 16 -> c <> 120 /\ c <> 88.
Proof. intros Hc Hd Hlt. split; intros ->; vm_compute in Hd; injection Hd as <-; lia. Qed.

Definition sign_flags (sg : option bool) (flags : Z) : Z :=
  if decide (sg = Some true) then Z.lor flags FL_NEG else flags.

(** The text of a number: white space, an optional sign (true for minus),
    digits and the character behind them. *)
Definition number_text (sp : list Z) (sg : option bool) (cs : list Z) (t : Z) : list Z :=
  sp ++ (match sg with Some true => [45] | Some false => [43] | None => [] end) ++ cs ++ [t].

Definition text_len (sp : list Z) (sg : option bool) (cs : list Z) : Z :=
  Z.of_nat (length sp + (match sg with Some _ => 1 | None => 0 end) + length cs).

Section Read.
Context (lim : limits) (b : Z) (Hb : 2 <= b <= 36) (Hlim : 0 <= lim_div lim).
Context (Hcv : conv_ok (lim_char lim)).

(** From the first digit on. *)
Lemma number_run m nptr q flags fuel cs ds t c0 :
  spells b cs ds -> cs <> [] -> is_digit_of b t = false -> 0 <= t < 256 ->
  (b = 16 -> t <> 120 /\ t <> 88) -> flag flags FL_OVERFLOW = false -> flag flags FL_READDIGIT = false ->
  bytes_at m q (cs ++ [t]) -> cs !! 0%nat = Some c0 -> (length cs < fuel)%nat ->
  exists flags' number',
    (let* ibase := kret b in
     let* (c, p) :=
       if ibase =? 16 then
         if lim_char lim c0 =? 48 then
           let* x := ld (q + 1) in
           if (x =? 120) || (x =? 88) then
             let p := q + 1 + 1 in let* b := ld p in kret (lim_char lim b, p + 1)
           else kret (lim_char lim c0, q + 1)
         else kret (lim_char lim c0, q + 1)
       else kret (lim_char lim c0, q + 1) in
     let* (flags, number, p) := digit_loop lim fuel ibase flags 0 c p in
     kret (finish lim flags number nptr (p - 1)))%K m =
    Done (finish lim flags' number' nptr (q + Z.of_nat (length cs)), m) /\
    read_ok (lim_div lim) b flags 0 ds flags' number'.
Proof.
  intros Hsp Hne Ht Htr Hx HO HR Hm Hc0 Hf. destruct cs as [|c cs]; [done|]. cbn in Hc0. injection Hc0 as <-.
  inversion Hsp as [|? d ? ds' (Hcr & Hd & Hdb) Hsp']; subst.
  cbn [app] in Hm. destruct Hm as (Hm0 & _ & Hm).
  destruct ((cs ++ [t]) !! 0%nat) as [x|] eqn:Hx0; [|by destruct cs].
  assert (Hmx : m !! (q + 1) = Some x).
  { replace (q + 1) with (q + 1 + Z.of_nat 0) by lia. by eapply bytes_lookup. }
  assert (Hnx : b = 16 -> ((x =? 120) || (x =? 88)) = false).
  { intros ->. destruct cs as [|c1 cs]; cbn in Hx0; injection Hx0 as <-.
    - destruct (Hx eq_refl). destruct (Z.eqb_spec t 120), (Z.eqb_spec t 88); (done || lia).
    - inversion Hsp' as [|? d1 ? ? (Hc1 & Hd1 & Hl1) _]; subst.
      destruct (hex_digit_not_x c1 d1 Hc1 Hd1 ltac:(lia)).
      destruct (Z.eqb_spec c1 120), (Z.eqb_spec c1 88); (done || lia). }
  destruct (digit_loop_run lim b ltac:(lia) Hlim (fun c Hc => proj1 (Hcv c Hc)) (c :: cs) (d :: ds') t flags 0 c q m fuel)
    as (flags' & number' & Hr & Hread); try done; [left; lia|].
  exists flags', number'. split; [|done]. kx.
  destruct (Z.eqb_spec b 16) as [->|].
  - destruct (lim_char lim c =? 48); [kld; rewrite Hnx by done|]; rewrite Hr; do 3 f_equal; lia.
  - rewrite Hr. do 3 f_equal. lia.
Qed.

Lemma strtox_run m p flags fuel sp sg cs ds t :
  Forall (fun x => m_isspace x = true) sp -> spells b cs ds -> cs <> [] ->
  is_digit_of b t = false -> 0 <= t < 256 -> (b = 16 -> t <> 120 /\ t <> 88) ->
  flag flags FL_OVERFLOW = false -> flag flags FL_READDIGIT = false ->
  bytes_at m p (number_text sp sg cs t) -> (length (number_text sp sg cs t) < fuel)%nat ->
  exists flags' number',
    strtox lim fuel p b flags m = Done (finish lim flags' number' p (p + text_len sp sg cs), m) /\
    read_ok (lim_div lim) b (sign_flags sg flags) 0 ds flags' number'.
Proof.
  intros Hspc Hsp Hne Ht Htr Hx HO HR Hm Hf. unfold number_text in *.
  destruct cs as [|c0 cs]; [done|]. inversion Hsp as [|? d0 ? ds0 (Hcr & Hd & Hdb) _]; subst.
  destruct (digit_not_special c0 d0 Hcr Hd) as (Hns & H45 & H43).
  set (sgl := match sg with Some true => [45] | Some false => [43] | None => [] end) in *.
  set (x := match sg with Some true => 45 | Some false => 43 | None => c0 end).
  assert (Htxt : exists tl, sgl ++ (c0 :: cs) ++ [t] = x :: tl).
  { subst sgl x. destruct sg as [[|]|]; cbn [app]; eauto. }
  destruct Htxt as [tl Htl].
  assert (Hxs : m_isspace x = false) by (subst x; destruct sg as [[|]|]; [reflexivity|reflexivity|done]).
  assert (Hm1 : bytes_at m p (sp ++ [x])).
  { rewrite Htl in Hm. replace (sp ++ x :: tl) with ((sp ++ [x]) ++ tl) in Hm by by rewrite <- app_assoc.
    by apply bytes_app in Hm as [Hm _]. }
  apply bytes_app in Hm as [_ Hm]. set (q := p + Z.of_nat (length sp)) in *.
  destruct ((sp ++ [x]) !! 0%nat) as [f0|] eqn:Hf0; [|by destruct sp].
  assert (Hmf : m !! p = Some f0).
  { replace p with (p + Z.of_nat 0) by lia. by eapply bytes_lookup. }
  rewrite !length_app in Hf. cbn [length] in Hf.
  pose proof (skip_spaces_run (lim_char lim) sp f0 x p m fuel Hcv Hspc Hxs Hm1 Hf0 ltac:(lia)) as Hskip.
  fold q in Hskip. set (r := q + Z.of_nat (length sgl)).
  assert (Hm2 : bytes_at m r ((c0 :: cs) ++ [t])) by (apply bytes_app in Hm as [_ Hm]; exact Hm).
  destruct (number_run m p r (sign_flags sg flags) fuel (c0 :: cs) (d0 :: ds0) t c0)
    as (flags' & number' & Hrun & Hread); try done.
  { unfold sign_flags. destruct (decide _); [|done]. by rewrite flag_lor, HO. }
  { unfold sign_flags. destruct (decide _); [|done]. by rewrite flag_lor, HR. }
  { cbn [length]. lia. }
  exists flags', number'. split; [|done].
  unfold strtox. kx. cbv zeta. kld. rewrite Hskip. clear Hskip.
  assert (Hk : forall c k, 0 <= c < 256 -> 0 <= k < 128 -> (lim_char lim c =? k) = (c =? k))
    by (intros c k Hc Hk'; by apply Hcv).
  assert (Hxr : 0 <= x < 256) by (subst x; destruct sg as [[|]|]; lia).
  rewrite !Hk by lia.
  assert (Hbase : (b <? 0) || (b =? 1) || (36 <? b) = false).
  { destruct (Z.ltb_spec b 0), (Z.eqb_spec b 1), (Z.ltb_spec 36 b); (done || lia). }
  assert (Hb0 : (b =? 0) = false) by (destruct (Z.eqb_spec b 0); [lia|done]).
  assert (Hlen : p + text_len sp sg (c0 :: cs) = r + Z.of_nat (length (c0 :: cs))).
  { unfold text_len, r, q, sgl. destruct sg as [[|]|]; cbn [length]; lia. }
  rewrite Hlen. unfold kbind, kret in Hrun. cbv beta in Hrun.
  destruct (Hm2) as (Hmc0 & _).
  subst x sgl. destruct sg as [[|]|]; cbn [Z.eqb Pos.eqb length app] in *.
  - replace (q + 1) with r by (subst r; lia). kld. rewrite Hbase, Hb0. exact Hrun.
  - replace (q + 1) with r by (subst r; lia). kld. rewrite Hbase, Hb0. exact Hrun.
  - destruct (Z.eqb_spec c0 45); [lia|]. destruct (Z.eqb_spec c0 43); [lia|].
    replace (q + 1) with (r + 1) by (subst r; lia). rewrite Hbase, Hb0. exact Hrun.
Qed.
End Read.

(** A number as it stands in memory at [p]. *)
Record number_at (m : mem) (p b : Z) (sp : list Z) (sg : option bool) (cs ds : list Z) (t : Z) : Prop := {
  na_base : 2 <= b <= 36;
  na_spaces : Forall (fun x => m_isspace x = true) sp;
  na_digits : spells b cs ds;
  na_some : cs <> [];
  na_end : is_digit_of b t = false;
  na_endr : 0 <= t < 256;
  na_hex : b = 16 -> t <> 120 /\ t <> 88;
  na_mem : bytes_at m p (number_text sp sg cs t) }.

Lemma spells_length b cs ds : spells b cs ds -> cs <> [] -> ds <> [].
Proof. intros H Hc. by inversion H; subst. Qed.

Lemma strtoxl_run m p b sp sg cs ds t flags fuel :
  number_at m p b sp sg cs ds t -> (length (number_text sp sg cs t) < fuel)%nat ->
  flag flags FL_OVERFLOW = false -> flag flags FL_READDIGIT = false -> flag flags FL_NEG = false ->
  exists flags' number',
    strtoxl fuel p b flags m = Done (finish long_limits flags' number' p (p + text_len sp sg cs), m) /\
    flag flags' FL_READDIGIT = true /\ flag flags' FL_UNSIGNED = flag flags FL_UNSIGNED /\
    flag flags' FL_NEG = bool_decide (sg = Some true) /\
    flag flags' FL_OVERFLOW = (4294967295 <? value b ds) /\
    (value b ds <= 4294967295 -> number' = value b ds).
Proof.
  intros [Hb Hsp Hcs Hne Ht Htr Hx Hm] Hf HO HR HN.
  destruct (strtox_run long_limits b Hb ltac:(done) s8_conv m p flags fuel sp sg cs ds t)
    as (flags' & number' & Hr & H1 & H2 & H3 & H4 & H5 & _); try done.
  exists flags', number'. split; [exact Hr|].
  assert (Hsf : flag (sign_flags sg flags) FL_UNSIGNED = flag flags FL_UNSIGNED /\
    flag (sign_flags sg flags) FL_OVERFLOW = false /\ flag (sign_flags sg flags) FL_READDIGIT = false /\
    flag (sign_flags sg flags) FL_NEG = bool_decide (sg = Some true)).
  { unfold sign_flags. destruct (decide (sg = Some true)) as [Hs|Hs].
    - rewrite bool_decide_true by done. rewrite !flag_lor, HO, HR, HN, ?orb_false_r. done.
    - rewrite bool_decide_false by done. done. }
  destruct Hsf as (S1 & S2 & S3 & S4). rewrite H1, H2, H3, H4, S1, S2, S3, S4.
  split_and!; [|done..]. rewrite bool_decide_false; [done|]. by eapply spells_length.
Qed.

(** The two outcomes of [finish] once digits have been read. *)
Lemma finish_read lim flags number nptr p :
  flag flags FL_READDIGIT = true ->
  finish lim flags number nptr p =
  let over := flag flags FL_OVERFLOW ||
    (negb (flag flags FL_UNSIGNED) &&
     ((flag flags FL_NEG && (number <? lim_min lim)) || (negb (flag flags FL_NEG) && (lim_max lim <? number)))) in
  let number := if over then (if flag flags FL_UNSIGNED then lim_umax lim
                              else if flag flags FL_NEG then lim_min lim else lim_max lim) else number in
  (if flag flags FL_NEG then (- number) mod lim_wrap lim else number, p, over).
Proof.
  intros HR. unfold finish. rewrite HR. cbn [negb]. cbv zeta.
  destruct (flag flags FL_OVERFLOW || _); reflexivity.
Qed.

(** ** Writing a number *)

Lemma fmap_rev {A B} (f : A -> B) l : f <$> rev l = rev (f <$> l).
Proof. induction l as [|x l IH]; [done|]. cbn [rev]. by rewrite fmap_app, IH. Qed.

(** The digits of [val], the lowest first. *)
Fixpoint digs (n : nat) (val radix : Z) : list Z :=
  match n with
  | O => []
  | S n => val mod radix :: (if 0 <? val / radix then digs n (val / radix) radix else [])
  end.

Lemma digs_value n : forall val radix,
  2 <= radix -> 0 <= val < radix ^ Z.of_nat n -> (0 < n)%nat ->
  value radix (rev (digs n val radix)) = val /\
  Forall (fun d => 0 <= d < radix) (digs n val radix) /\ digs n val radix <> [] /\
  (length (digs n val radix) <= n)%nat.
Proof.
  induction n as [|n IH]; intros val radix Hr Hv Hn; [lia|]. cbn [digs rev].
  pose proof (Z.mod_pos_bound val radix ltac:(lia)). pose proof (Z.div_mod val radix ltac:(lia)) as Hdm.
  unfold value. rewrite foldl_app. fold (value radix (rev (if 0 <? val / radix then digs n (val / radix) radix else []))).
  cbn [foldl]. assert (0 <= val / radix) by (apply Z.div_pos; lia).
  destruct (Z.ltb_spec 0 (val / radix)) as [Hq|Hq].
  - destruct n as [|n]; [rewrite Z.pow_1_r in Hv; rewrite Z.div_small in Hq by lia; lia|].
    destruct (IH (val / radix) radix Hr) as (H1 & H2 & H3 & H4); [|lia|].
    + split; [lia|]. apply Z.div_lt_upper_bound; [lia|].
      rewrite <- Z.pow_succ_r by lia. replace (Z.succ (Z.of_nat (S n))) with (Z.of_nat (S (S n))) by lia. lia.
    + rewrite H1. split_and!; [lia|by constructor|done|cbn [length]; lia].
  - cbn [rev]. unfold value. cbn [foldl]. split_and!; [nia|constructor; [lia|constructor]|done|cbn; lia].
Qed.

Lemma put_digits_run n : forall val p radix m,
  2 <= radix <= 36 -> 0 <= val < radix ^ Z.of_nat n -> (0 < n)%nat -> mapped m p n ->
  put_digits n val p radix m =
  Done (p + Z.of_nat (length (digs n val radix)), write_at p (digit_char <$> digs n val radix) m).
Proof.
  unfold put_digits. induction n as [|n IH]; intros val p radix m Hr Hv Hn Hm; [lia|].
  apply mapped_cons in Hm as [Hp Hm]. pose proof (Z.mod_pos_bound val radix ltac:(lia)).
  assert (Hc : 0 <= digit_char (val mod radix) < 256).
  { unfold digit_char. destruct (Z.ltb_spec 9 (val mod radix)); lia. }
  cbn [digs]. destruct (Z.ltb_spec 0 (val / radix)) as [Hq|Hq].
  - destruct n as [|n]; [rewrite Z.pow_1_r in Hv; rewrite Z.div_small in Hq by lia; lia|].
    erewrite kloop_next.
    2:{ kx. cbv zeta. rewrite st_run by done. destruct (Z.ltb_spec 0 (val / radix)); [|lia]. reflexivity. }
    rewrite IH; [|done| |lia|by apply mapped_insert].
    + rewrite fmap_cons. cbn [write_at length]. do 2 f_equal. lia.
    + split; [lia|]. apply Z.div_lt_upper_bound; [lia|].
      rewrite <- Z.pow_succ_r by lia. replace (Z.succ (Z.of_nat (S n))) with (Z.of_nat (S (S n))) by lia. lia.
  - apply kloop_exit. kx. cbv zeta. rewrite st_run by done. destruct (Z.ltb_spec 0 (val / radix)); [lia|]. done.
Qed.

(** Swapping the ends and moving inwards reverses the digits in place. *)
Lemma reverse_run n : forall l a m fuel,
  (length l <= n)%nat -> l <> [] -> (length l <= fuel)%nat -> bytes_at m a l ->
  reverse_digits fuel a (a + Z.of_nat (length l) - 1) m = Done (tt, write_at a (rev l) m).
Proof.
  unfold reverse_digits. induction n as [|n IH]; intros l a m fuel Hn Hne Hf Hb; (destruct l as [|x l]; [done|]); [cbn in Hn; lia|].
  destruct fuel as [|fuel]; [cbn in Hf; lia|]. destruct (id Hb) as (Hx & Hxr & Hl).
  destruct l as [|y mid] using rev_ind; [|clear IHmid].
  - cbn [length] in *. apply kloop_exit. kx. cbv zeta. replace (a + Z.of_nat 1 - 1) with a by lia.
    kld. rewrite st_run; [|by eexists|lia]. rewrite st_run; [|apply lookup_insert_is_Some'; by left|lia].
    destruct (Z.ltb_spec (a + 1) (a - 1)); [lia|]. cbn [rev app write_at]. by rewrite insert_insert_eq.
  - apply bytes_app in Hl as [Hmid (Hy & Hyr & _)]. cbn [length] in *. rewrite length_app in *. cbn [length] in *.
    set (e := a + 1 + Z.of_nat (length mid)) in *.
    replace (a + Z.of_nat (S (length mid + 1)) - 1) with e by (subst e; lia).
    assert (Hrev : write_at a (rev (x :: mid ++ [y])) m =
      write_at (a + 1) (rev mid) (<[a := y]> (<[e := x]> m))).
    { cbn [rev]. rewrite rev_app_distr. cbn [rev app write_at]. rewrite write_app. cbn [write_at].
      rewrite length_rev. fold e. rewrite insert_insert_ne by (subst e; lia).
      rewrite <- write_insert by (rewrite length_rev; subst e; lia). done. }
    rewrite Hrev. clear Hrev.
    assert (Hstep : forall s, (let* temp := ld e in let* x := ld a in st e x ;;; st a temp ;;; s)%K m =
      (s : K mem (Z * Z + unit)) (<[a := y]> (<[e := x]> m))).
    { intros s. kx. do 2 kld. rewrite st_run; [|by eexists|lia].
      rewrite st_run; [done|apply lookup_insert_is_Some'; right; by eexists|lia]. }
    destruct mid as [|z mid].
    + apply kloop_exit. rewrite Hstep. cbv zeta. destruct (Z.ltb_spec (a + 1) (e - 1)); [subst e; cbn [length] in *; lia|].
      done.
    + destruct (decide (mid = [])) as [->|Hmne].
      * apply kloop_exit. rewrite Hstep. cbv zeta. cbn [length rev app write_at] in *.
        destruct (Z.ltb_spec (a + 1) (e - 1)); [subst e; lia|]. unfold kret. do 2 f_equal. symmetry. apply insert_id.
        destruct Hmid as (Hz & _). rewrite !lookup_insert_ne by (subst e; lia). done.
      * erewrite kloop_next; [|rewrite Hstep; cbv zeta; destruct (Z.ltb_spec (a + 1) (e - 1)); [reflexivity|]].
        -- replace (e - 1) with (a + 1 + Z.of_nat (length (z :: mid)) - 1) by (subst e; lia).
           apply IH; [cbn [length] in *; lia|done|cbn [length] in *; lia|].
           revert Hmid. apply bytes_frame. intros i Hi. rewrite !lookup_insert_ne by (subst e; lia). done.
        -- exfalso. destruct mid; [done|]. subst e. cbn [length] in *. lia.
Qed.

Lemma digit_char_value d : 0 <= d < 36 -> digit_value (digit_char d) = Some d /\ 0 <= digit_char d < 256 /\ digit_char d <> 0.
Proof.
  intros Hd. assert (H : -1 <= d < 256) by lia.
  apply (all_chars (fun d => negb (between 0 35 d) || (bool_decide (digit_value (digit_char d) = Some d) &&
    between 1 255 (digit_char d)))) in H; [|vm_compute; reflexivity].
  unfold between in H. destruct (Z.leb_spec 0 d), (Z.leb_spec d 35); try lia. cbn [andb negb orb] in H.
  rewrite !andb_true_iff, bool_decide_eq_true, !Z.leb_le in H. split_and!; [tauto|lia..].
Qed.

(** The digits written at [p], reversed and terminated. *)
Lemma write_digits_run n val p radix m :
  2 <= radix <= 36 -> 0 <= val < radix ^ Z.of_nat n -> (0 < n)%nat -> mapped m p (S n) ->
  let text := digit_char <$> rev (digs n val radix) in
  exists m', (let* q := put_digits n val p radix in st q 0 ;;; reverse_digits n p (q - 1))%K m = Done (tt, m') /\
    cstr m' p text /\
    forall i, ~ (p <= i <= p + Z.of_nat (length text)) -> m' !! i = m !! i.
Proof.
  intros Hr Hv Hn Hm text. destruct (digs_value n val radix ltac:(lia) Hv Hn) as (_ & Hds & Hne & Hlen).
  set (ds := digs n val radix) in *. set (k := length ds) in *.
  assert (Hchars : Forall (fun c => 0 <= c < 256) (digit_char <$> ds) /\ Forall (fun c => c <> 0) (digit_char <$> ds)).
  { split; apply Forall_fmap; eapply Forall_impl; [exact Hds| |exact Hds|]; intros d Hd; cbn beta in *;
      destruct (digit_char_value d ltac:(lia)) as (_ & ? & ?); done. }
  destruct Hchars as [Hc1 Hc2].
  set (m1 := write_at p (digit_char <$> ds) m). set (m2 := <[p + Z.of_nat k := 0]> m1).
  assert (Hlk : length (digit_char <$> ds) = k) by by rewrite length_fmap.
  assert (Hb2 : bytes_at m2 p (digit_char <$> ds)).
  { eapply bytes_frame; [|apply write_bytes; exact Hc1]. intros i Hi. subst m2. rewrite lookup_insert_ne; [done|lia]. }
  assert (Htext : text = rev (digit_char <$> ds)) by (subst text; by rewrite fmap_rev).
  clearbody text. exists (write_at p text m2). split_and!.
  - kx. rewrite put_digits_run; [|done..|intros i Hi; apply Hm; lia]. fold ds k m1.
    rewrite st_run; [|rewrite <- Hlk; subst m1; rewrite write_lookup_out by lia; apply Hm; lia|lia]. fold m2.
    pose proof (reverse_run k (digit_char <$> ds) p m2 n ltac:(lia)) as Hrev. rewrite Hlk in Hrev.
    rewrite Hrev; [by rewrite Htext| |lia|done]. by destruct ds.
  - split; [|rewrite Htext; by apply Forall_rev]. apply bytes_app. split.
    + apply write_bytes. rewrite Htext. by apply Forall_rev.
    + cbn [bytes_at]. rewrite write_lookup_out by lia. subst m2.
      rewrite Htext, length_rev, Hlk, lookup_insert_eq. by split_and!.
  - intros i Hi. rewrite Htext, length_rev, Hlk in Hi. rewrite write_lookup_out by (rewrite Htext, length_rev, Hlk; lia).
    subst m2 m1. rewrite lookup_insert_ne by lia. apply write_lookup_out. lia.
Qed.

(** What [xtoa] leaves in the buffer: a terminated string, with a sign if asked. *)
Definition xtoa_text (n : nat) (val radix : Z) (negative : bool) : list Z :=
  if negative then 45 :: (digit_char <$> rev (digs n (u32 (- val)) radix))
  else digit_char <$> rev (digs n val radix).

Lemma xtoa_run n val buf radix negative m :
  2 <= radix <= 36 -> is_u32 val -> W32 <= radix ^ Z.of_nat n -> (0 < n)%nat -> mapped m buf (S (S n)) ->
  exists m', xtoa n val buf radix negative m = Done (tt, m') /\ cstr m' buf (xtoa_text n val radix negative).
Proof.
  intros Hr Hv Hp Hn Hm. unfold xtoa, xtoa_text. destruct negative.
  - destruct (mapped_cons _ _ _ Hm) as [Hb Hm'].
    destruct (write_digits_run n (u32 (- val)) (buf + 1) radix (<[buf := 45]> m)) as (m' & Hrun & [Hs Hz] & Hfr).
    + done.
    + pose proof (u32_range (- val)). u32_lia.
    + done.
    + by apply mapped_insert.
    + exists m'. split.
      * kx. cbv zeta. rewrite st_run by (done || lia). unfold kbind, kret in Hrun. exact Hrun.
      * split; [|constructor; [lia|done]]. cbn [app bytes_at]. split_and!; [|lia|lia|done].
        rewrite Hfr by lia. by rewrite lookup_insert_eq.
  - destruct (write_digits_run n val buf radix m) as (m' & Hrun & Hs & _); [done|u32_lia|done| |].
    + intros i Hi. apply Hm. lia.
    + exists m'. split; [|done]. kx. cbv zeta. unfold kbind, kret in Hrun. exact Hrun.
Qed.

Lemma ultoa_run n val buf radix m :
  2 <= radix <= 36 -> 0 <= val < radix ^ Z.of_nat n -> (0 < n)%nat -> mapped m buf (S n) ->
  exists m', ultoa n val buf radix m = Done (buf, m') /\ cstr m' buf (xtoa_text n val radix false).
Proof.
  intros Hr Hv Hn Hm. destruct (write_digits_run n val buf radix m Hr Hv Hn Hm) as (m' & Hrun & Hs & _).
  exists m'. split; [|done]. unfold ultoa, xtoa. kx. cbv zeta. unfold kbind, kret in Hrun. by rewrite Hrun.
Qed.

(** The digits are spelled by their characters. *)
Lemma digs_spell n val radix :
  2 <= radix <= 36 -> 0 <= val < radix ^ Z.of_nat n -> (0 < n)%nat ->
  spells radix (digit_char <$> rev (digs n val radix)) (rev (digs n val radix)) /\
  digit_char <$> rev (digs n val radix) <> [] /\ (length (digit_char <$> rev (digs n val radix)) <= n)%nat.
Proof.
  intros Hr Hv Hn. destruct (digs_value n val radix ltac:(lia) Hv Hn) as (_ & Hds & Hne & Hlen). split_and!.
  - unfold spells. apply Forall2_fmap_l, Forall_Forall2_diag, Forall_rev.
    eapply Forall_impl; [exact Hds|]. intros d Hd. cbn beta in *.
    destruct (digit_char_value d ltac:(lia)) as (? & ? & _). done.
  - destruct (digs n val radix) as [|d ds] using rev_ind; [done|]. by rewrite rev_app_distr.
  - by rewrite length_fmap, length_rev.
Qed.

(** ** [atol] *)

Lemma s32_fold x d : s32 (10 * s32 x + d) = s32 (10 * x + d).
Proof.
  apply s32_cong. unfold u32. rewrite Z.add_mod, Z.mul_mod by done.
  destruct (s32_bounds x) as [_ Hu]. unfold u32 in Hu. rewrite Hu. by rewrite <- Z.mul_mod, <- Z.add_mod.
Qed.

Lemma decimal_digit c d : 0 <= c < 256 -> digit_value c = Some d -> 0 <= d < 10 -> m_isdigit c = true /\ d = c - 48.
Proof.
  intros Hc Hd Hlt. destruct (macro_classes c Hc) as (_ & Hdg & Ha & Hu & _).
  unfold digit_value in Hd. destruct (m_isdigit c) eqn:E.
  - symmetry in Hdg. unfold between in Hdg. breflect. injection Hd as <-. split; [done|]. by rewrite u32_small by u32_lia.
  - exfalso. rewrite Ha, Hu in Hd. unfold between in *.
    destruct (((65 <=? c) && (c <=? 90)) || ((97 <=? c) && (c <=? 122))) eqn:E2; [|done]. injection Hd as <-.
    apply orb_true_iff in E2 as [E2|E2]; breflect.
    + destruct (Z.leb_spec 97 c); [lia|]. cbn [andb] in Hlt. rewrite u32_small in Hlt by u32_lia. lia.
    + destruct (Z.leb_spec 97 c), (Z.leb_spec c 122); try lia. cbn [andb] in Hlt. rewrite u32_small in Hlt by u32_lia. lia.
Qed.

Lemma atol_digits cs : forall ds t total c0 q m fuel,
  spells 10 cs ds -> m_isdigit t = false -> bytes_at m (q + 1) (drop 1 (cs ++ [t])) ->
  (cs ++ [t]) !! 0%nat = Some c0 -> (length cs < fuel)%nat ->
  kloop fuel (fun '(total, c, p) => (if m_isdigit c then
      let total := s32 (10 * total + (c - 48)) in let* c := ld p in kret (inl (total, c, p + 1))
    else kret (inr total))%K) (s32 total, c0, q + 1) m =
  Done (s32 (foldl (fun n d => n * 10 + d) total ds), m).
Proof.
  induction cs as [|c cs IH]; intros ds t total c0 q m fuel Hsp Ht Hm H0 Hf; (destruct fuel as [|fuel]; [lia|]).
  - inversion Hsp; subst. cbn in H0. injection H0 as <-. apply kloop_exit. by rewrite Ht.
  - inversion Hsp as [|? d ? ds' (Hcr & Hd & Hdb) Hsp']; subst. cbn in H0. injection H0 as <-.
    destruct (decimal_digit c d Hcr Hd Hdb) as [Hdig ->].
    destruct ((cs ++ [t]) !! 0%nat) as [c1|] eqn:Hc1; [|by destruct cs].
    cbn [app drop] in Hm. rewrite drop_0 in Hm. destruct (cs ++ [t]) as [|x l] eqn:Hl; [done|]. cbn in Hc1. injection Hc1 as ->.
    destruct Hm as (Hm1 & _ & Hm2). erewrite kloop_next.
    2:{ rewrite Hdig. kx. cbv beta zeta. kld. rewrite s32_fold. reflexivity. }
    replace (10 * total + (c - 48)) with (total * 10 + (c - 48)) by lia.
    rewrite (IH ds' t); [done|done|done|by rewrite Hl|by rewrite Hl|cbn [length] in Hf; lia].
Qed.

Lemma spells_first b cs ds c0 :
  spells b cs ds -> cs !! 0%nat = Some c0 -> exists d, digit_value c0 = Some d /\ 0 <= c0 < 256.
Proof.
  intros H Hc. destruct H as [|c d cs ds (Hr & Hd & _) _]; [done|]. cbn in Hc. injection Hc as <-. eauto.
Qed.

(** [atol] gives the number modulo [2 ^ 32]. *)
Lemma atol_run m p sg cs ds t fuel :
  spells 10 cs ds -> cs <> [] -> m_isdigit t = false -> bytes_at m p (number_text [] sg cs t) ->
  (length cs < fuel)%nat ->
  atol fuel p m = Done (if decide (sg = Some true) then s32 (- value 10 ds) else s32 (value 10 ds), m).
Proof.
  intros Hsp Hne Ht Hm Hf. destruct cs as [|c0 cs]; [done|].
  destruct (spells_first 10 (c0 :: cs) ds c0 Hsp eq_refl) as (d0 & Hd0 & Hcr).
  destruct (digit_not_special c0 d0 Hcr Hd0) as (Hns & H45 & H43). unfold number_text in Hm. cbn [app] in Hm.
  assert (Hgo : forall q, bytes_at m q (c0 :: cs ++ [t]) ->
    kloop fuel (fun '(total, c, p) => (if m_isdigit c then
      let total := s32 (10 * total + (c - 48)) in let* c := ld p in kret (inl (total, c, p + 1))
    else kret (inr total))%K) (0, c0, q + 1) m = Done (s32 (value 10 ds), m)).
  { intros q (_ & _ & Hq). apply (atol_digits (c0 :: cs) ds t 0 c0 q m fuel); try done. }
  assert (Hneg : s32 (- s32 (value 10 ds)) = s32 (- value 10 ds)).
  { apply s32_cong. destruct (s32_bounds (value 10 ds)) as [_ Hu].
    rewrite <- (Z.sub_0_l (s32 _)), <- (Z.sub_0_l (value 10 ds)), <- u32_sub_r, Hu. by rewrite u32_sub_r. }
  destruct fuel as [|fuel]; [lia|]. unfold atol. cbv zeta. unfold kbind at 1. destruct sg as [[|]|]; cbn [app] in Hm.
  - destruct Hm as (Hm0 & _ & Hm1). destruct (id Hm1) as (Hmc & _).
    erewrite kloop_exit; [|kx; kld; reflexivity]. cbv beta iota. kx. do 2 kld. cbn [Z.eqb Pos.eqb orb].
    specialize (Hgo (p + 1) Hm1). unfold kbind, kret in Hgo. rewrite (ld_run _ _ _ Hmc). rewrite Hgo.
    rewrite decide_True by done. by rewrite Hneg.
  - destruct Hm as (Hm0 & _ & Hm1). destruct (id Hm1) as (Hmc & _).
    erewrite kloop_exit; [|kx; kld; reflexivity]. cbv beta iota. kx. do 2 kld. cbn [Z.eqb Pos.eqb orb].
    specialize (Hgo (p + 1) Hm1). unfold kbind, kret in Hgo. rewrite (ld_run _ _ _ Hmc). rewrite Hgo. done.
  - destruct (id Hm) as (Hmc & _).
    erewrite kloop_exit; [|kx; kld; rewrite Hns; reflexivity]. cbv beta iota. kx. do 2 kld.
    destruct (Z.eqb_spec c0 45); [lia|]. destruct (Z.eqb_spec c0 43); [lia|]. cbn [orb].
    specialize (Hgo p Hm). unfold kbind, kret in Hgo. rewrite Hgo. done.
Qed.

(** ** Properties *)

(** [strtoul] skips white space and an optional plus sign, reads the digits
    of any base from 2 to 36 and returns their value; a value beyond
    [UINT32_MAX] gives [UINT32_MAX] and [ERANGE]; the end pointer is set behind
    the last digit. *)
Theorem strtoul_reads m p b sp sg cs ds t fuel :
  number_at m p b sp sg cs ds t -> sg <> Some true -> (length (number_text sp sg cs t) < fuel)%nat ->
  strtoul fuel p b m =
    Done ((Z.min (value b ds) 4294967295, p + text_len sp sg cs, 4294967295 <? value b ds), m).
Proof.
  intros Hn Hsg Hf. destruct (strtoxl_run m p b sp sg cs ds t FL_UNSIGNED fuel Hn Hf)
    as (flags' & number' & Hr & H1 & H2 & H3 & H4 & H5); [done..|].
  unfold strtoul. rewrite Hr, finish_read by done. cbv zeta. rewrite H2, H3, H4.
  rewrite bool_decide_false by done. change (flag FL_UNSIGNED FL_UNSIGNED) with true. cbn [negb andb].
  rewrite orb_false_r. cbn [lim_umax long_limits].
  destruct (Z.ltb_spec 4294967295 (value b ds)).
  - by rewrite Z.min_r by lia.
  - by rewrite H5, Z.min_l by lia.
Qed.

(** C38: without a minus sign [strtol] returns the value of the digits, and
    [INT32_MAX] with [ERANGE] if the value is larger; but every number with a
    minus sign whose magnitude is below [2 ^ 31] is taken for an overflow, so
    that [strtol] returns [INT32_MIN] with [ERANGE] for it.  Larger magnitudes
    with a minus sign are not covered. *)
Theorem strtol_reads m p b sp sg cs ds t fuel :
  number_at m p b sp sg cs ds t -> (length (number_text sp sg cs t) < fuel)%nat ->
  (sg <> Some true -> strtol fuel p b m =
     Done ((Z.min (value b ds) 2147483647, p + text_len sp sg cs, 2147483647 <? value b ds), m)) /\
  (sg = Some true -> value b ds < 2147483648 -> strtol fuel p b m =
     Done ((-2147483648, p + text_len sp sg cs, true), m)).
Proof.
  intros Hn Hf. destruct (strtoxl_run m p b sp sg cs ds t 0 fuel Hn Hf)
    as (flags' & number' & Hr & H1 & H2 & H3 & H4 & H5); [done..|].
  assert (Hv : 0 <= value b ds).
  { destruct Hn as [Hb _ Hcs _ _ _ _ _]. apply (fold_value_ge b ds 0); [lia|lia|].
    clear -Hcs. induction Hcs as [|x y l1 l2 (_ & _ & ?) _ IH]; constructor; [lia|done]. }
  split.
  - intros Hsg. unfold strtol. kx. rewrite Hr, finish_read by done. cbv zeta. rewrite H2, H3, H4.
    rewrite bool_decide_false by done. change (flag 0 FL_UNSIGNED) with false. cbn [negb andb orb].
    cbn [lim_max long_limits]. destruct (Z.ltb_spec 4294967295 (value b ds)).
    + destruct (Z.ltb_spec 2147483647 (value b ds)); [|lia]. rewrite Z.min_r by lia. done.
    + rewrite H5 by done. cbn [orb]. destruct (Z.ltb_spec 2147483647 (value b ds)).
      * by rewrite Z.min_r by lia.
      * rewrite Z.min_l by lia. by rewrite s32_small by lia.
  - intros Hsg Hlt. unfold strtol. kx. rewrite Hr, finish_read by done. cbv zeta. rewrite H2, H3, H4.
    rewrite bool_decide_true by done. change (flag 0 FL_UNSIGNED) with false. cbn [negb andb orb].
    cbn [lim_min lim_wrap long_limits]. rewrite H5 by lia.
    destruct (Z.ltb_spec 4294967295 (value b ds)); [lia|]. cbn [orb].
    destruct (Z.ltb_spec (value b ds) 2147483648); [|lia]. done.
Qed.

(** A number written by [ultoa] in any base from 2 to 36 is read back by
    [strtoul]. *)
Theorem ultoa_strtoul val buf radix m :
  2 <= radix <= 36 -> is_u32 val -> mapped m buf 33 ->
  exists m' stop, ultoa 32 val buf radix m = Done (buf, m') /\
    strtoul 64 buf radix m' = Done ((val, stop, false), m') /\ m' !! stop = Some 0.
Proof.
  intros Hr Hv Hm. assert (Hpow : 0 <= val < radix ^ Z.of_nat 32).
  { split; [apply Hv|]. apply (Z.lt_le_trans _ (2 ^ 32)); [apply Hv|].
    apply Z.pow_le_mono_l. lia. }
  destruct (ultoa_run 32 val buf radix m Hr Hpow ltac:(lia) Hm) as (m' & Hrun & [Hb Hz]).
  destruct (digs_value 32 val radix ltac:(lia) Hpow ltac:(lia)) as (Hval & _).
  destruct (digs_spell 32 val radix Hr Hpow ltac:(lia)) as (Hsp & Hne & Hlen). unfold xtoa_text in *.
  set (ds := digs 32 val radix) in *. set (text := digit_char <$> rev ds) in *.
  assert (Hn : number_at m' buf radix [] None text (rev ds) 0) by by split.
  assert (Hl : (length (number_text [] None text 0) < 64)%nat).
  { unfold number_text. cbn [app]. rewrite length_app. cbn [length]. lia. }
  destruct (strtoxl_run m' buf radix [] None text (rev ds) 0 FL_UNSIGNED 64 Hn Hl)
    as (flags' & number' & Hs & H1 & H2 & H3 & H4 & H5); [done..|].
  exists m', (buf + Z.of_nat (length text)). split_and!; [done| |].
  - unfold strtoul. rewrite Hs, finish_read by done. cbv zeta. rewrite H2, H3, H4, Hval.
    rewrite bool_decide_false by done. change (flag FL_UNSIGNED FL_UNSIGNED) with true. cbn [negb andb].
    rewrite orb_false_r. destruct (Z.ltb_spec 4294967295 val); [u32_lia|].
    rewrite H5 by (rewrite Hval; lia). by rewrite Hval.
  - apply bytes_app in Hb as [_ (Hb & _)]. done.
Qed.

(** [atoi] reads back what [itoa] writes in decimal, for every [int],
    negative ones and [INT_MIN] included. *)
Theorem itoa_atoi v buf m :
  -2147483648 <= v < 2147483648 -> mapped m buf 34 ->
  exists m', itoa 32 v buf 10 m = Done (buf, m') /\ atoi 64 buf m' = Done (v, m').
Proof.
  intros Hv Hm. set (neg := v <? 0).
  destruct (xtoa_run 32 (u32 v) buf 10 neg m) as (m' & Hrun & [Hb Hz]); [lia|apply u32_range|vm_compute; congruence|lia|exact Hm|].
  exists m'. split.
  { unfold itoa. change (10 =? 10) with true. cbn [andb]. fold neg. kx. destruct neg; by rewrite Hrun. }
  set (a := if neg then u32 (- u32 v) else u32 v).
  assert (Ha : 0 <= a < 10 ^ Z.of_nat 32).
  { assert (is_u32 a) by (subst a; destruct neg; apply u32_range). change (10 ^ Z.of_nat 32) with (10 ^ 32). u32_lia. }
  destruct (digs_value 32 a 10 ltac:(lia) Ha ltac:(lia)) as (Hval & _).
  destruct (digs_spell 32 a 10 ltac:(lia) Ha ltac:(lia)) as (Hsp & Hne & Hlen).
  unfold atoi. erewrite (atol_run m' buf (if neg then Some true else None) _ _ 0); [|exact Hsp|done|done| |lia].
  2:{ unfold number_text. cbn [app]. unfold xtoa_text in Hb. subst a. destruct neg; exact Hb. }
  rewrite Hval. subst a neg. do 2 f_equal. destruct (Z.ltb_spec v 0).
  - rewrite decide_True by done. rewrite <- (s32_range v) at 2 by lia. apply s32_cong.
    rewrite <- (Z.sub_0_l (u32 (- u32 v))), u32_sub_r, Z.sub_0_l, Z.opp_involutive. apply u32_idemp.
  - rewrite decide_False by done. rewrite u32_small by u32_lia. apply s32_small; lia.
Qed.

(** ** Witnesses *)

(** The text [ -12] at address 100, [7] at address 200 and a buffer at 300. *)
Definition demo_text : mem :=
  write_at 100 [32; 45; 49; 50; 0] (write_at 200 [55; 0] (write_at 300 (replicate 34 0) ∅)).

Lemma demo_minus : number_at demo_text 100 10 [32] (Some true) [49; 50] [1; 2] 0.
Proof.
  split; [lia|by repeat constructor| |done|done|lia|done|vm_compute; intuition congruence].
  repeat constructor; lia.
Qed.

Lemma strtoul_reads_witness : strtoul 10 200 10 demo_text = Done ((7, 201, false), demo_text).
Proof.
  refine (strtoul_reads demo_text 200 10 [] None [55] [7] 0 10 _ _ _).
  - split; [lia|constructor| |done|done|lia|done|vm_compute; intuition congruence].
    repeat constructor; lia.
  - done.
  - cbn. lia.
Defined.

Lemma strtol_reads_witness : strtol 10 100 10 demo_text = Done ((-2147483648, 104, true), demo_text).
Proof.
  refine (proj2 (strtol_reads demo_text 100 10 [32] (Some true) [49; 50] [1; 2] 0 10 demo_minus _) _ _).
  - cbn. lia.
  - done.
  - vm_compute. done.
Defined.

Lemma ultoa_strtoul_witness :
  exists m' stop, ultoa 32 255 300 16 demo_text = Done (300, m') /\
    strtoul 64 300 16 m' = Done ((255, stop, false), m') /\ m' !! stop = Some 0.
Proof.
  apply (ultoa_strtoul 255 300 16 demo_text).
  - lia.
  - done.
  - intros i Hi. apply (bytes_mapped demo_text 300 (replicate 33 0)); [vm_compute; intuition congruence|exact Hi].
Defined.

Lemma itoa_atoi_witness :
  exists m', itoa 32 (-2147483648) 300 10 demo_text = Done (300, m') /\ atoi 64 300 m' = Done (-2147483648, m').
Proof.
  apply (itoa_atoi (-2147483648) 300 demo_text).
  - lia.
  - intros i Hi. apply (bytes_mapped demo_text 300 (replicate 34 0)); [vm_compute; intuition congruence|exact Hi].
Defined.
