(* ===== verification/Time.v ===== *)
(** * Calendar time (lib/time.c)

    [gmtime_r] breaks a time down into a calendar date, [mktime] normalises a
    date and converts it back.  Fields are [int]s and times [long]s, both with
    32-bit arithmetic; division and remainder round towards zero as in C.

    The theorems: [gmtime_r] gives the fields their documented ranges for every
    time from 1970 to 2038, and [mktime] takes the date back to the time it
    came from without changing it. *)

From S2P Require Import Prelude Cmem.

Record tm := mkTm {
  tm_sec : Z;
  tm_min : Z;
  tm_hour : Z;
  tm_mday : Z;
  tm_mon : Z;
  tm_year : Z;
  tm_wday : Z;
  tm_yday : Z;
  tm_isdst : Z }.

Definition YEAR0 : Z := 1900.
Definition EPOCH_YR : Z := 1970.
Definition SECS_DAY : Z := 24 * 60 * 60.
Definition TIME_MAX : Z := 2147483647.

Definition LEAPYEAR (year : Z) : bool :=
  (Z.rem year 4 =? 0) && (negb (Z.rem year 100 =? 0) || (Z.rem year 400 =? 0)).

Definition YEARSIZE (year : Z) : Z := if LEAPYEAR year then 366 else 365.

Definition _ytab (leap : bool) : list Z :=
  if leap then [31; 29; 31; 30; 31; 30; 31; 31; 30; 31; 30; 31]
  else [31; 28; 31; 30; 31; 30; 31; 31; 30; 31; 30; 31].

(** The days of a month; an index outside of the table is a fault. *)
Definition ytab (year mon : Z) : option Z :=
  if mon <? 0 then None else _ytab (LEAPYEAR year) !! Z.to_nat mon.

(** ** [gmtime_r] *)

(** [while (dayno >= YEARSIZE(year)) { dayno -= YEARSIZE(year); year++; }] *)
Fixpoint year_loop (fuel : nat) (dayno year : Z) : outcome (Z * Z) :=
  if YEARSIZE year <=? dayno then
    match fuel with
    | O => Hang
    | S fuel => year_loop fuel (dayno - YEARSIZE year) (year + 1)
    end
  else Done (dayno, year).

(** The same over the months of a year. *)
Fixpoint month_loop (fuel : nat) (dayno year mon : Z) : outcome (Z * Z) :=
  match ytab year mon with
  | None => Fault
  | Some n =>
      if n <=? dayno then
        match fuel with
        | O => Hang
        | S fuel => month_loop fuel (dayno - n) year (mon + 1)
        end
      else Done (dayno, mon)
  end.

(** The date of a day: year, day of the year, month and day of the month. *)
Definition gm_date (fuel : nat) (dayno : Z) : outcome (Z * Z * Z * Z) :=
  match year_loop fuel dayno EPOCH_YR with
  | Done (yday, year) =>
      match month_loop fuel yday year 0 with
      | Done (d, mon) => Done (year, yday, mon, d + 1)
      | Panic msg => Panic msg
      | Fault => Fault
      | Hang => Hang
      end
  | Panic msg => Panic msg
  | Fault => Fault
  | Hang => Hang
  end.

Definition gmtime_r (fuel : nat) (timer : Z) : outcome tm :=
  let time := u32 timer in
  let dayclock := time mod SECS_DAY in
  let dayno := time / SECS_DAY in
  match gm_date fuel dayno with
  | Done (year, yday, mon, mday) =>
      Done (mkTm (dayclock mod 60) (dayclock mod 3600 / 60) (dayclock / 3600) mday mon
                 (year - YEAR0) ((dayno + 4) mod 7) yday 0)
  | Panic msg => Panic msg
  | Fault => Fault
  | Hang => Hang
  end.

Definition localtime_r (_timezone : Z) (fuel : nat) (timer : Z) : outcome tm :=
  gmtime_r fuel (s32 (timer - _timezone)).

(** ** [mktime] *)

(** Carrying: [hi += lo / base; lo %= base; if (lo < 0) { lo += base; hi--; }] *)
Definition carry (lo hi base : Z) : Z * Z :=
  let hi := s32 (hi + Z.quot lo base) in
  let lo := Z.rem lo base in
  if lo <? 0 then (lo + base, s32 (hi - 1)) else (lo, hi).

(** [while (day < 0)]: back to earlier months. *)
Fixpoint back_loop (fuel : nat) (day mon year : Z) : outcome (Z * Z * Z) :=
  if day <? 0 then
    match fuel with
    | O => Hang
    | S fuel =>
        let '(mon, year) := if mon - 1 <? 0 then (11, s32 (year - 1)) else (mon - 1, year) in
        match ytab (YEAR0 + year) mon with
        | Some n => back_loop fuel (day + n) mon year
        | None => Fault
        end
    end
  else Done (day, mon, year).

(** [while (day >= _ytab[...][tm_mon])]: on to later months. *)
Fixpoint forth_loop (fuel : nat) (day mon year : Z) : outcome (Z * Z * Z) :=
  match ytab (YEAR0 + year) mon with
  | None => Fault
  | Some n =>
      if n <=? day then
        match fuel with
        | O => Hang
        | S fuel =>
            let '(mon, year) := if mon + 1 =? 12 then (0, s32 (year + 1)) else (mon + 1, year) in
            forth_loop fuel (day - n) mon year
        end
      else Done (day, mon, year)
  end.

(** [while (month < tm_mon) { yday += _ytab[...][month]; month++; }] *)
Fixpoint yday_loop (k : nat) (year month yday : Z) : option Z :=
  match k with
  | O => Some yday
  | S k => match ytab year month with
           | Some n => yday_loop k year (month + 1) (yday + n)
           | None => None
           end
  end.

Definition b2z (b : bool) : Z := if b then 1 else 0.

(** The days before a year, and whether the bounds of the code are exceeded. *)
Definition year_days (tm_year : Z) : Z * Z :=
  let year := EPOCH_YR in
  let n := tm_year - year in
  let overflow := b2z (Z.quot TIME_MAX 365 <? n) in
  let day := s32 (n * 365) in
  let overflow := overflow + b2z (TIME_MAX - day <? Z.quot n 4 + 1) in
  let day := day + (Z.quot n 4 + b2z (negb (Z.rem tm_year 4 =? 0) && (Z.rem tm_year 4 <? Z.rem year 4))) in
  let day := day - (Z.quot n 100 + b2z (negb (Z.rem tm_year 100 =? 0) && (Z.rem tm_year 100 <? Z.rem year 100))) in
  let day := day + (Z.quot n 400 + b2z (negb (Z.rem tm_year 400 =? 0) && (Z.rem tm_year 400 <? Z.rem year 400))) in
  (s32 day, overflow).

(** The conversion of a normalised date that is not before 1970; [mday] is the
    day of the month less 1. *)
Definition date_seconds (_timezone _dstbias : Z) (sec min hour mday mon year isdst : Z) : outcome (Z * tm) :=
  let tm_year := year + YEAR0 in
  let '(day, overflow) := year_days tm_year in
  match yday_loop (Z.to_nat mon) tm_year 0 0 with
  | None => Fault
  | Some yday =>
      let yday := yday + mday in
      let overflow := overflow + b2z (s32 (day + yday) <? 0) in
      let day := s32 (day + yday) in
      let wday := Z.rem (s32 (day + 4)) 7 in
      let seconds := (hour * 60 + min) * 60 + sec in
      let overflow := overflow + b2z (Z.quot (TIME_MAX - seconds) SECS_DAY <? day) in
      let seconds := s32 (seconds + day * SECS_DAY) in
      let overflow := overflow +
        b2z (((0 <? _timezone) && (TIME_MAX - _timezone <? seconds)) ||
             ((_timezone <? 0) && (seconds <? - _timezone))) in
      let seconds := s32 (seconds + _timezone) in
      let dst := if isdst =? 0 then 0 else _dstbias in
      let overflow := overflow + b2z (seconds <? dst) in
      let seconds := s32 (seconds - dst) in
      Done (if overflow =? 0 then seconds else -1,
            mkTm sec min hour (mday + 1) mon year wday yday isdst)
  end.

(** The result and the normalised date. *)
Definition mktime (_timezone _dstbias : Z) (fuel : nat) (t : tm) : outcome (Z * tm) :=
  let '(sec, min) := carry (tm_sec t) (tm_min t) 60 in
  let '(min, hour) := carry min (tm_hour t) 60 in
  let '(hour, day) := carry hour 0 24 in
  let '(mon, year) := carry (tm_mon t) (tm_year t) 12 in
  let day := s32 (day + (tm_mday t - 1)) in
  match back_loop fuel day mon year with
  | Done (day, mon, year) =>
      match forth_loop fuel day mon year with
      | Done (mday, mon, year) =>
          if year <? EPOCH_YR - YEAR0 then
            Done (-1, mkTm sec min hour (mday + 1) mon year (tm_wday t) (tm_yday t) (tm_isdst t))
          else date_seconds _timezone _dstbias sec min hour mday mon year (tm_isdst t)
      | Panic msg => Panic msg
      | Fault => Fault
      | Hang => Hang
      end
  | Panic msg => Panic msg
  | Fault => Fault
  | Hang => Hang
  end.

(** ** Days *)

(** The days a 32-bit time can reach, from 1 January 1970 to 19 January 2038. *)
Definition DAYS : Z := 24856.

(** The days before a year, which the loop of [gmtime_r] counts and [mktime]
    computes. *)
Definition year_start (year : Z) : Z := fst (year_days year).

Lemma years_ok year : 1970 <= year <= 2038 ->
  year_days year = (year_start year, 0) /\ year_start (year + 1) = year_start year + YEARSIZE year.
Proof.
  intros Hy. assert (H : forallb (fun y => bool_decide (year_days y = (year_start y, 0)) &&
      (year_start (y + 1) =? year_start y + YEARSIZE y)) (seqZ 1970 69) = true) by (vm_compute; reflexivity).
  assert (Hin : In year (seqZ 1970 69)) by (apply list_elem_of_In, elem_of_seqZ; lia).
  apply (proj1 (forallb_forall _ _) H) in Hin. rewrite andb_true_iff, bool_decide_eq_true, Z.eqb_eq in Hin. done.
Qed.

Lemma year_loop_run : forall fuel rem year,
  1970 <= year <= 2038 -> 0 <= rem -> year_start year + rem < DAYS -> 2038 - year <= Z.of_nat fuel ->
  exists rem' year', year_loop fuel rem year = Done (rem', year') /\ 1970 <= year' <= 2038 /\
    0 <= rem' < YEARSIZE year' /\ year_start year' + rem' = year_start year + rem.
Proof.
  induction fuel as [|fuel IH]; intros rem year Hy Hr Hd Hf; cbn [year_loop];
    (destruct (Z.leb_spec (YEARSIZE year) rem) as [Hle|Hlt]; [|exists rem, year; split_and!; (done || lia)]);
    destruct (years_ok year Hy) as [_ Hn].
  - assert (year = 2038) as -> by lia. exfalso.
    change (year_start (2038 + 1)) with 25202 in Hn. unfold DAYS in Hd. lia.
  - destruct (decide (year = 2038)) as [->|Hne].
    { exfalso. change (year_start (2038 + 1)) with 25202 in Hn. unfold DAYS in Hd. lia. }
    destruct (IH (rem - YEARSIZE year) (year + 1)) as (rem' & year' & H1 & H2 & H3 & H4); try lia.
    exists rem', year'. split_and!; (done || lia).
Qed.

(** The months depend on the year only through its being a leap year. *)
Lemma ytab_leap y y' mon : LEAPYEAR y = LEAPYEAR y' -> ytab y mon = ytab y' mon.
Proof. intros H. unfold ytab. by rewrite H. Qed.

Lemma month_loop_leap y y' : LEAPYEAR y = LEAPYEAR y' -> forall fuel d mon,
  month_loop fuel d y mon = month_loop fuel d y' mon.
Proof.
  intros H. induction fuel as [|fuel IH]; intros d mon; cbn [month_loop]; rewrite (ytab_leap y y' mon H); [done|].
  destruct (ytab y' mon); [|done]. by rewrite IH.
Qed.

Lemma yday_loop_leap y y' : LEAPYEAR y = LEAPYEAR y' -> forall k mon d,
  yday_loop k y mon d = yday_loop k y' mon d.
Proof.
  intros H. induction k as [|k IH]; intros mon d; cbn [yday_loop]; [done|]. rewrite (ytab_leap y y' mon H).
  destruct (ytab y' mon); [|done]. by rewrite IH.
Qed.

(** What the two conversions say about a day of a year. *)
Definition yday_ok (year yday : Z) : bool :=
  match month_loop 70 yday year 0 with
  | Done (d, mon) =>
      (0 <=? mon) && (mon <? 12) && (0 <=? d) && (d <=? 30) &&
      match ytab year mon with Some n => d + 1 <=? n | None => false end &&
      match yday_loop (Z.to_nat mon) year 0 0 with
      | Some n => n + d =? yday
      | None => false
      end
  | _ => false
  end.

Lemma all_ydays_ok :
  forallb (yday_ok 1972) (seqZ 0 366) && forallb (yday_ok 1970) (seqZ 0 365) = true.
Proof. vm_compute. reflexivity. Qed.

Lemma ydays_ok year yday : 0 <= yday < YEARSIZE year -> yday_ok year yday = true.
Proof.
  intros Hd. assert (Hleap : yday_ok year yday = yday_ok (if LEAPYEAR year then 1972 else 1970) yday).
  { assert (H : LEAPYEAR year = LEAPYEAR (if LEAPYEAR year then 1972 else 1970)) by (by destruct (LEAPYEAR year)).
    unfold yday_ok. rewrite (month_loop_leap _ _ H). destruct (month_loop 70 yday _ 0) as [[d mon]| | |]; try done.
    by rewrite (ytab_leap _ _ _ H), (yday_loop_leap _ _ H). }
  rewrite Hleap. unfold YEARSIZE in Hd. pose proof all_ydays_ok as [H1 H2]%andb_true_iff.
  destruct (LEAPYEAR year).
  - apply (proj1 (forallb_forall _ _) H1). apply list_elem_of_In, elem_of_seqZ. lia.
  - apply (proj1 (forallb_forall _ _) H2). apply list_elem_of_In, elem_of_seqZ. lia.
Qed.

(** The date of a day, and that it leads back to the day. *)
Record date_of (d year yday mon mday : Z) : Prop := {
  do_gm : gm_date 70 d = Done (year, yday, mon, mday);
  do_year : 1970 <= year <= 2038;
  do_mon : 0 <= mon < 12;
  do_mday : 1 <= mday <= 31;
  do_yday : 0 <= yday < YEARSIZE year;
  do_month : exists n, ytab year mon = Some n /\ mday <= n;
  do_back : exists y n, year_days year = (y, 0) /\ y + yday = d /\
    yday_loop (Z.to_nat mon) year 0 0 = Some n /\ n + mday - 1 = yday }.

Lemma day_date d : 0 <= d < DAYS -> exists year yday mon mday, date_of d year yday mon mday.
Proof.
  intros Hd. destruct (year_loop_run 70 d 1970) as (yday & year & Hl & Hy & Hr & Hs).
  { lia. }
  { lia. }
  { change (year_start 1970) with 0. lia. }
  { lia. }
  change (year_start 1970) with 0 in Hs. destruct (years_ok year Hy) as [Hyd _].
  pose proof (ydays_ok year yday Hr) as Hok. unfold yday_ok in Hok.
  destruct (month_loop 70 yday year 0) as [[k mon]| | |] eqn:Hm; try done. rewrite !andb_true_iff in Hok.
  destruct Hok as [[[[[H1 H2] H3] H4] H5] H6]. destruct (ytab year mon) as [n|] eqn:Hn; [|done].
  destruct (yday_loop (Z.to_nat mon) year 0 0) as [j|] eqn:Hj; [|done]. breflect.
  exists year, yday, mon, (k + 1). split; try done; try lia.
  - unfold gm_date. change EPOCH_YR with 1970. by rewrite Hl, Hm.
  - exists n. split; [done|lia].
  - exists (year_start year), j. split_and!; (done || lia).
Qed.

(** Splitting a time into days, hours, minutes and seconds. *)
Lemma clock_split t :
  0 <= t -> let s := t mod SECS_DAY in
  0 <= s mod 60 < 60 /\ 0 <= s mod 3600 / 60 < 60 /\ 0 <= s / 3600 < 24 /\ 0 <= t / SECS_DAY /\
  (s / 3600 * 60 + s mod 3600 / 60) * 60 + s mod 60 = s /\ t = t / SECS_DAY * SECS_DAY + s /\ 0 <= s < SECS_DAY.
Proof.
  intros Ht s. assert (Hs : 0 <= s < 86400) by (apply Z.mod_pos_bound; done).
  pose proof (Z.mod_pos_bound s 60 ltac:(lia)). pose proof (Z.mod_pos_bound s 3600 ltac:(lia)).
  pose proof (Z.div_mod s 3600 ltac:(lia)). pose proof (Z.div_mod (s mod 3600) 60 ltac:(lia)).
  pose proof (Z.mod_pos_bound (s mod 3600) 60 ltac:(lia)).
  assert (Hm : (s mod 3600) mod 60 = s mod 60).
  { rewrite Z.mod_mod_divide; [done|]. by exists 60. }
  pose proof (Z.div_mod t SECS_DAY ltac:(done)) as Ht2. fold s in Ht2.
  assert (0 <= t / SECS_DAY) by (apply Z.div_pos; [lia|done]). unfold SECS_DAY in *. split_and!; lia.
Qed.

Lemma carry_none lo hi base :
  0 <= lo < base -> -2147483648 <= hi < 2147483648 -> carry lo hi base = (lo, hi).
Proof.
  intros Hl Hh. unfold carry. rewrite Z.quot_small, Z.rem_small, Z.add_0_r by lia.
  destruct (Z.ltb_spec lo 0); [lia|]. by rewrite s32_range by lia.
Qed.

Lemma gmtime_run t :
  0 <= t <= TIME_MAX -> exists year yday mon mday,
    date_of (t / SECS_DAY) year yday mon mday /\
    gmtime_r 70 t = Done (mkTm (t mod SECS_DAY mod 60) (t mod SECS_DAY mod 3600 / 60) (t mod SECS_DAY / 3600)
                            mday mon (year - YEAR0) ((t / SECS_DAY + 4) mod 7) yday 0).
Proof.
  intros Ht. unfold TIME_MAX in Ht. destruct (day_date (t / SECS_DAY)) as (year & yday & mon & mday & Hd).
  { unfold DAYS, SECS_DAY. split; [apply Z.div_pos; lia|apply Z.div_lt_upper_bound; lia]. }
  exists year, yday, mon, mday. split; [done|]. unfold gmtime_r. rewrite u32_small by u32_lia.
  by rewrite (do_gm _ _ _ _ _ Hd).
Qed.

(** [mktime] on a date that is normalised already. *)
Lemma mktime_run t year yday mon mday :
  0 <= t <= TIME_MAX -> date_of (t / SECS_DAY) year yday mon mday ->
  let s := t mod SECS_DAY in
  let date := mkTm (s mod 60) (s mod 3600 / 60) (s / 3600) mday mon (year - YEAR0) ((t / SECS_DAY + 4) mod 7) yday 0 in
  mktime 0 0 1 date = Done (t, date).
Proof.
  intros Ht Hd s date. unfold TIME_MAX in Ht.
  destruct (clock_split t ltac:(lia)) as (H1 & H2 & H3 & H4 & H5 & H6 & H7). fold s in H1, H2, H3, H5, H6, H7.
  destruct Hd as [_ Hy Hm Hmd Hyd (n & Hn & Hmn) (y & k & Hyy & Hyd' & Hk & Hkk)].
  unfold mktime, date. cbn [tm_sec tm_min tm_hour tm_mday tm_mon tm_year tm_wday tm_yday tm_isdst].
  unfold YEAR0, EPOCH_YR in *. rewrite !carry_none by lia. rewrite Z.add_0_l, s32_range by lia.
  cbn [back_loop]. destruct (Z.ltb_spec (mday - 1) 0); [lia|].
  cbn [forth_loop]. unfold YEAR0. replace (1900 + (year - 1900)) with year by lia. rewrite Hn.
  destruct (Z.leb_spec n (mday - 1)); [lia|]. destruct (Z.ltb_spec (year - 1900) (1970 - 1900)); [lia|].
  unfold date_seconds, YEAR0. replace (year - 1900 + 1900) with year by lia. rewrite Hyy, Hk.
  replace (k + (mday - 1)) with yday by lia. rewrite Hyd', H5.
  set (d := t / SECS_DAY) in *. assert (Hdr : 0 <= d < 24856).
  { unfold d, SECS_DAY. split; [apply Z.div_pos; lia|apply Z.div_lt_upper_bound; lia]. }
  rewrite !(s32_range d), (s32_range (d + 4)) by lia. replace (s + d * SECS_DAY) with t by lia.
  change (0 =? 0) with true. cbv iota beta zeta. rewrite !Z.add_0_r, !(s32_range t), !Z.sub_0_r, !(s32_range t) by lia.
  rewrite Z.rem_mod_nonneg by lia.
  destruct (Z.ltb_spec d 0); [lia|]. destruct (Z.ltb_spec t 0); [lia|].
  change (0 <? 0) with false. cbn [andb orb b2z].
  destruct (Z.ltb_spec (Z.quot (TIME_MAX - s) SECS_DAY) d) as [Hq|Hq].
  - exfalso. clearbody d. unfold TIME_MAX in *. change SECS_DAY with 86400 in *. rewrite Z.quot_div_nonneg in Hq by lia.
    assert (d <= (2147483647 - s) / 86400) by (apply Z.div_le_lower_bound; lia). lia.
  - cbn [b2z Z.add Z.eqb]. by replace (mday - 1 + 1) with mday by lia.
Qed.

(** ** Properties *)

(** C40: for every time from 1970 to the end of the 32-bit range, [mktime]
    takes the date that [gmtime_r] gives back to that time and leaves the date,
    which is normalised, as it is (in UTC, without daylight saving). *)
Theorem gmtime_mktime t :
  0 <= t <= TIME_MAX ->
  exists date, gmtime_r 70 t = Done date /\ mktime 0 0 1 date = Done (t, date).
Proof.
  intros Ht. destruct (gmtime_run t Ht) as (year & yday & mon & mday & Hd & Hg).
  eexists. split; [exact Hg|]. by apply mktime_run.
Qed.

Lemma gmtime_mktime_witness :
  exists date, gmtime_r 70 1000000000 = Done date /\ mktime 0 0 1 date = Done (1000000000, date).
Proof. apply (gmtime_mktime 1000000000). unfold TIME_MAX. lia. Defined.

(** The fields of a date are in the ranges that time.h documents. *)
Lemma gmtime_fields t :
  0 <= t <= TIME_MAX ->
  exists date n, gmtime_r 70 t = Done date /\
    0 <= tm_sec date <= 59 /\ 0 <= tm_min date <= 59 /\ 0 <= tm_hour date <= 23 /\
    ytab (YEAR0 + tm_year date) (tm_mon date) = Some n /\ 1 <= tm_mday date <= n /\
    0 <= tm_mon date <= 11 /\ 70 <= tm_year date <= 138 /\ 0 <= tm_wday date <= 6 /\
    0 <= tm_yday date < YEARSIZE (YEAR0 + tm_year date).
Proof.
  intros Ht. destruct (gmtime_run t Ht) as (year & yday & mon & mday & [_ H1 H2 H3 H4 (n & H5 & H6) _] & Hg).
  destruct (clock_split t ltac:(lia)) as (C1 & C2 & C3 & _).
  pose proof (Z.mod_pos_bound (t / SECS_DAY + 4) 7 ltac:(lia)).
  eexists _, n. split; [exact Hg|]. cbn [tm_sec tm_min tm_hour tm_mday tm_mon tm_year tm_wday tm_yday tm_isdst].
  unfold YEAR0. replace (1900 + (year - 1900)) with year by lia. split_and!; try done; lia.
Qed.
