(* ===== verification/Qsort.v ===== *)
(** * Sorting and searching (lib/qsort.c, lib/bsearch.c)

    [qsort] sorts an array in place: a quicksort that keeps the pending parts
    in two arrays of 30 pointers, with a selection sort for short parts.
    [bsearch] searches a sorted array.  Pointers are byte offsets from the
    start of the array, whose elements are [width] bytes apart; an access
    outside of the array is a fault, and so is a push on full stacks.

    The theorems: with a comparison that is a total preorder, [qsort] returns,
    its result is a sorted permutation of the array, it stays inside the array
    and its stacks never overflow; [bsearch] finds an element that compares
    equal to the key exactly if there is one. *)

From Stdlib Require Import Sorting.Sorted.
From S2P Require Import Prelude Cmem.

Definition CUTOFF : Z := 8.

(** The size of [lostk] and [histk]. *)
Definition STKSIZE : nat := 30.

Section Code.
Context {A : Type} (comp : A -> A -> Z) (width : Z).
Local Open Scope k_scope.

(** The element a pointer points to. *)
Definition elem (p : Z) : K (list A) A :=
  let* a := kget in
  if p <? 0 then kfault else kopt (a !! Z.to_nat (p / width)).

Definition comp_at (p q : Z) : K (list A) Z :=
  let* x := elem p in
  let* y := elem q in
  kret (comp x y).

(** Exchanging two elements, byte by byte. *)
Definition swap (p q : Z) : K (list A) unit :=
  if p =? q then kret tt
  else
    let* x := elem p in
    let* y := elem q in
    kmod (fun a => <[Z.to_nat (q / width) := x]> (<[Z.to_nat (p / width) := y]> a)).

(** [for (p = lo + width; p <= hi; p += width) if (comp(p, max) > 0) max = p;] *)
Definition find_max (fuel : nat) (lo hi : Z) : K (list A) Z :=
  kloop fuel (fun '(max, p) =>
    if p <=? hi then
      let* c := comp_at p max in
      kret (inl (if 0 <? c then p else max, p + width))
    else kret (inr max)) (lo, lo + width).

Definition shortsort (fuel : nat) (lo hi : Z) : K (list A) unit :=
  kloop fuel (fun hi =>
    if lo <? hi then
      let* max := find_max fuel lo hi in
      swap max hi ;;;
      kret (inl (hi - width))
    else kret (inr tt)) hi.

(** [do { l += width; } while (l <= hi && comp(l, lo) <= 0);] *)
Definition scan_up (fuel : nat) (lo hi l : Z) : K (list A) Z :=
  kloop fuel (fun l =>
    let l := l + width in
    if l <=? hi then
      let* c := comp_at l lo in
      if c <=? 0 then kret (inl l) else kret (inr l)
    else kret (inr l)) l.

(** [do { h -= width; } while (h > lo && comp(h, lo) >= 0);] *)
Definition scan_down (fuel : nat) (lo h : Z) : K (list A) Z :=
  kloop fuel (fun h =>
    let h := h - width in
    if lo <? h then
      let* c := comp_at h lo in
      if 0 <=? c then kret (inl h) else kret (inr h)
    else kret (inr h)) h.

(** The [for (;;)] loop. *)
Definition partition (fuel : nat) (lo hi : Z) : K (list A) (Z * Z) :=
  kloop fuel (fun '(l, h) =>
    let* l := scan_up fuel lo hi l in
    let* h := scan_down fuel lo h in
    if h <? l then kret (inr (l, h))
    else swap l h ;;; kret (inl (l, h))) (lo, hi + width).

(** [lostk[stkptr] = lo; histk[stkptr] = hi; ++stkptr;], the top first. *)
Definition push (stk : list (Z * Z)) (lo hi : Z) : K (list A) (list (Z * Z)) :=
  if (length stk <? STKSIZE)%nat then kret ((lo, hi) :: stk) else kfault.

(** [--stkptr; if (stkptr >= 0) { ... goto recurse; }] *)
Definition pop (stk : list (Z * Z)) : K (list A) ((Z * Z * list (Z * Z)) + unit) :=
  match stk with
  | [] => kret (inr tt)
  | (lo, hi) :: stk => kret (inl (lo, hi, stk))
  end.

(** From the label [recurse] to the next jump to it. *)
Definition recurse (fuel : nat) (lo hi : Z) (stk : list (Z * Z)) : K (list A) ((Z * Z * list (Z * Z)) + unit) :=
  let size := (hi - lo) / width + 1 in
  if size <=? CUTOFF then
    shortsort fuel lo hi ;;;
    pop stk
  else
    let mid := lo + (size / 2) * width in
    swap mid lo ;;;
    let* (l, h) := partition fuel lo hi in
    swap lo h ;;;
    if hi - l <=? h - 1 - lo then
      let* stk := if lo + width <? h then push stk lo (h - width) else kret stk in
      if l <? hi then kret (inl (l, hi, stk)) else pop stk
    else
      let* stk := if l <? hi then push stk l hi else kret stk in
      if lo + width <? h then kret (inl (lo, h - width, stk)) else pop stk.

Definition qsort (fuel : nat) (num : Z) : K (list A) unit :=
  if (num <? 2) || (width =? 0) then kret tt
  else kloop fuel (fun '(lo, hi, stk) => recurse fuel lo hi stk) (0, width * (num - 1), []).

(** The pointer found, or [None] for [NULL]. *)
Definition bsearch (fuel : nat) (key : A) (num : Z) : K (list A) (option Z) :=
  kloop fuel (fun '(lo, hi, num) =>
    if lo <=? hi then
      let half := num / 2 in
      if negb (half =? 0) then
        let mid := lo + (if num mod 2 =? 1 then half else half - 1) * width in
        let* x := elem mid in
        let result := comp key x in
        if result =? 0 then kret (inr (Some mid))
        else if result <? 0 then
          kret (inl (lo, mid - width, if num mod 2 =? 1 then half else half - 1))
        else kret (inl (mid + width, hi, half))
      else if negb (num =? 0) then
        let* x := elem lo in
        kret (inr (if comp key x =? 0 then Some lo else None))
      else kret (inr None)
    else kret (inr None)) (0, (num - 1) * width, num).
End Code.

(** ** Rearrangements *)

Definition exch {A} (a : list A) (i j : nat) : list A :=
  match a !! i, a !! j with
  | Some x, Some y => <[j := x]> (<[i := y]> a)
  | _, _ => a
  end.

Lemma exch_lookup {A} (a : list A) i j x y k :
  a !! i = Some x -> a !! j = Some y ->
  exch a i j !! k = if decide (k = j) then Some x else if decide (k = i) then Some y else a !! k.
Proof.
  intros Hi Hj. unfold exch. rewrite Hi, Hj. pose proof (lookup_lt_Some _ _ _ Hi). pose proof (lookup_lt_Some _ _ _ Hj).
  destruct (decide (k = j)) as [->|]; [by rewrite list_lookup_insert_eq by (rewrite length_insert; lia)|].
  rewrite list_lookup_insert_ne by done.
  destruct (decide (k = i)) as [->|]; [by rewrite list_lookup_insert_eq|]. by rewrite list_lookup_insert_ne.
Qed.

Lemma exch_length {A} (a : list A) i j : length (exch a i j) = length a.
Proof. unfold exch. destruct (a !! i), (a !! j); by rewrite ?length_insert. Qed.

Lemma exch_perm {A} (a : list A) i j : exch a i j ≡ₚ a.
Proof.
  destruct (a !! i) as [x|] eqn:Hi; [|unfold exch; by rewrite Hi].
  destruct (a !! j) as [y|] eqn:Hj; [|unfold exch; by rewrite Hi, Hj].
  apply Permutation_inj. split; [apply exch_length|].
  exists (fun k => if decide (k = j) then i else if decide (k = i) then j else k). split.
  - intros k1 k2. repeat destruct (decide _); congruence.
  - intros k. rewrite (exch_lookup a i j x y) by done. repeat destruct (decide _); congruence.
Qed.

(** [a'] comes from [a] by exchanging elements at indices from [lo] to [hi]. *)
Definition rearr {A} (lo hi : nat) : list A -> list A -> Prop :=
  rtc (fun a a' => exists i j, (lo <= i <= hi)%nat /\ (lo <= j <= hi)%nat /\ a' = exch a i j).

(** Every element at an index from [lo] to [hi] satisfies [P]. *)
Definition seg_all {A} (P : A -> Prop) (lo hi : nat) (a : list A) : Prop :=
  forall i x, (lo <= i <= hi)%nat -> a !! i = Some x -> P x.

Section Rearr.
Context {A : Type}.
Implicit Types a : list A.

Lemma rearr_once lo hi a i j :
  (lo <= i <= hi)%nat -> (lo <= j <= hi)%nat -> rearr lo hi a (exch a i j).
Proof. intros Hi Hj. apply rtc_once. eauto. Qed.

Lemma rearr_wide lo hi lo' hi' a a' :
  (lo' <= lo)%nat -> (hi <= hi')%nat -> rearr lo hi a a' -> rearr lo' hi' a a'.
Proof.
  intros Hl Hh. induction 1 as [|a a1 a' (i & j & Hi & Hj & ->) _ IH]; [constructor|].
  eapply rtc_l; [|exact IH]. exists i, j. split_and!; (done || lia).
Qed.

Lemma rearr_length lo hi a a' : rearr lo hi a a' -> length a' = length a.
Proof. induction 1 as [|a a1 a' (i & j & _ & _ & ->) _ IH]; [done|]. by rewrite IH, exch_length. Qed.

Lemma rearr_perm lo hi a a' : rearr lo hi a a' -> a' ≡ₚ a.
Proof. induction 1 as [|a a1 a' (i & j & _ & _ & ->) _ IH]; [done|]. by rewrite IH, exch_perm. Qed.

Lemma rearr_outside lo hi a a' k :
  rearr lo hi a a' -> (k < lo \/ hi < k)%nat -> a' !! k = a !! k.
Proof.
  intros H Hk. induction H as [|a a1 a' (i & j & Hi & Hj & ->) _ IH]; [done|]. rewrite IH.
  unfold exch. destruct (a !! i), (a !! j); try done. rewrite !list_lookup_insert_ne by lia. done.
Qed.

Lemma rearr_seg P lo hi a a' : rearr lo hi a a' -> seg_all P lo hi a -> seg_all P lo hi a'.
Proof.
  induction 1 as [|a a1 a' (i & j & Hi & Hj & ->) _ IH]; [done|]. intros Hs. apply IH. intros k z Hk.
  destruct (a !! i) as [x|] eqn:Ei; [|unfold exch; rewrite Ei; by apply Hs].
  destruct (a !! j) as [y|] eqn:Ej; [|unfold exch; rewrite Ei, Ej; by apply Hs].
  rewrite (exch_lookup a i j x y) by done. repeat destruct (decide _).
  - intros [= <-]. by eapply (Hs i).
  - intros [= <-]. by eapply (Hs j).
  - by apply Hs.
Qed.
End Rearr.

Section Sort.
Context {A : Type} (comp : A -> A -> Z) (width : Z) (Hw : 0 < width).
Implicit Types a : list A.

(** The comparison is a total preorder. *)
Definition le (x y : A) : Prop := comp x y <= 0.
Context (Htotal : forall x y, 0 <= comp x y <-> comp y x <= 0).
Context (Htrans : forall x y z, le x y -> le y z -> le x z).

Lemma le_refl x : le x x.
Proof.
  unfold le. destruct (Z.le_gt_cases (comp x x) 0) as [|H]; [done|]. apply Htotal. lia.
Qed.

Lemma not_le x y : 0 < comp x y -> le y x.
Proof. intros H. apply Htotal. lia. Qed.

(** The pointer to an element. *)
Definition ptr (i : nat) : Z := width * Z.of_nat i.

Lemma ptr_leb i j : (ptr i <=? ptr j) = (i <=? j)%nat.
Proof. unfold ptr. destruct (Z.leb_spec (width * Z.of_nat i) (width * Z.of_nat j)), (Nat.leb_spec i j); (done || nia). Qed.

Lemma ptr_ltb i j : (ptr i <? ptr j) = (i <? j)%nat.
Proof. unfold ptr. destruct (Z.ltb_spec (width * Z.of_nat i) (width * Z.of_nat j)), (Nat.ltb_spec i j); (done || nia). Qed.

Lemma ptr_eqb i j : (ptr i =? ptr j) = (i =? j)%nat.
Proof. unfold ptr. destruct (Z.eqb_spec (width * Z.of_nat i) (width * Z.of_nat j)), (Nat.eqb_spec i j); (done || nia). Qed.

Lemma ptr_S i : ptr i + width = ptr (S i).
Proof. unfold ptr. lia. Qed.

Lemma ptr_pred i : (0 < i)%nat -> ptr i - width = ptr (i - 1).
Proof. unfold ptr. intros H. replace (Z.of_nat i) with (Z.of_nat (i - 1) + 1) by lia. lia. Qed.

Lemma ptr_div i : ptr i / width = Z.of_nat i.
Proof. unfold ptr. rewrite Z.mul_comm. apply Z.div_mul. lia. Qed.

Lemma elem_run a i x : a !! i = Some x -> elem width (ptr i) a = Done (x, a).
Proof.
  intros H. unfold elem. kx. destruct (Z.ltb_spec (ptr i) 0) as [Hn|_]; [unfold ptr in Hn; nia|].
  by rewrite ptr_div, Nat2Z.id, H.
Qed.

Lemma comp_at_run a i j x y :
  a !! i = Some x -> a !! j = Some y -> comp_at comp width (ptr i) (ptr j) a = Done (comp x y, a).
Proof.
  intros Hi Hj. unfold comp_at. kx. rewrite (elem_run a i x Hi), (elem_run a j y Hj). done.
Qed.

Lemma swap_run a i j x y :
  a !! i = Some x -> a !! j = Some y -> swap width (ptr i) (ptr j) a = Done (tt, exch a i j).
Proof.
  intros Hi Hj. unfold swap, exch. rewrite ptr_eqb, Hi, Hj. destruct (Nat.eqb_spec i j) as [<-|Hne].
  - assert (x = y) as -> by congruence. unfold kret. rewrite list_insert_insert_eq. by rewrite list_insert_id.
  - kx. rewrite (elem_run a i x Hi), (elem_run a j y Hj). by rewrite !ptr_div, !Nat2Z.id.
Qed.

Lemma in_array (a : list A) i : (i < length a)%nat -> exists x, a !! i = Some x.
Proof. apply lookup_lt_is_Some_2. Qed.

(** ** Selection sort *)

Lemma find_max_run a lo hi fuel :
  (lo <= hi < length a)%nat -> (hi - lo < fuel)%nat ->
  exists mx x, find_max comp width fuel (ptr lo) (ptr hi) a = Done (ptr mx, a) /\
    (lo <= mx <= hi)%nat /\ a !! mx = Some x /\ seg_all (fun y => le y x) lo hi a.
Proof.
  intros Hlh Hf. unfold find_max. rewrite ptr_S.
  enough (H : forall fuel mx p x, (lo <= mx < p)%nat -> (mx <= hi)%nat -> (p <= S hi)%nat -> (S hi - p < fuel)%nat ->
    a !! mx = Some x -> (forall k y, (lo <= k < p)%nat -> a !! k = Some y -> le y x) ->
    exists mx' x', kloop fuel (fun '(max, p) => (if p <=? ptr hi then
        let* c := comp_at comp width p max in kret (inl (if 0 <? c then p else max, p + width))
      else kret (inr max))%K) (ptr mx, ptr p) a = Done (ptr mx', a) /\
      (lo <= mx' <= hi)%nat /\ a !! mx' = Some x' /\ seg_all (fun y => le y x') lo hi a).
  { destruct (in_array a lo) as [x Hx]; [lia|]. apply (H fuel lo (S lo) x); [lia..|done|].
    intros k y Hk Hy. assert (k = lo) as -> by lia. assert (y = x) as -> by congruence. apply le_refl. }
  clear fuel Hf. induction fuel as [|fuel IH]; intros mx p x Hmx Hmh Hp Hf Hx Hle; [lia|].
  destruct (decide (p <= hi)%nat) as [Hpl|Hpl].
  - destruct (in_array a p) as [y Hy]; [lia|].
    destruct (Z.ltb_spec 0 (comp y x)) as [Hgt|Hng].
    + destruct (IH p (S p) y) as (mx' & x' & Hr & H); try lia; try done.
      { intros k z Hk Hz. destruct (decide (k = p)) as [->|]; [assert (z = y) as -> by congruence; apply le_refl|].
        eapply Htrans; [apply (Hle k z); [lia|done]|by apply not_le]. }
      exists mx', x'. split; [|done]. erewrite kloop_next; [exact Hr|].
      rewrite ptr_leb. destruct (Nat.leb_spec p hi); [|lia]. kx. rewrite (comp_at_run a p mx y x Hy Hx), ptr_S.
      by destruct (Z.ltb_spec 0 (comp y x)); [|lia].
    + destruct (IH mx (S p) x) as (mx' & x' & Hr & H); try lia; try done.
      { intros k z Hk Hz. destruct (decide (k = p)) as [->|]; [assert (z = y) as -> by congruence; unfold le; lia|].
        apply (Hle k z); [lia|done]. }
      exists mx', x'. split; [|done]. erewrite kloop_next; [exact Hr|].
      rewrite ptr_leb. destruct (Nat.leb_spec p hi); [|lia]. kx. rewrite (comp_at_run a p mx y x Hy Hx), ptr_S.
      by destruct (Z.ltb_spec 0 (comp y x)); [lia|].
  - exists mx, x. split; [|split_and!; [lia|lia|done|]].
    + apply kloop_exit. rewrite ptr_leb. by destruct (Nat.leb_spec p hi); [lia|].
    + intros k y Hk. apply Hle. lia.
Qed.

(** The elements at indices from [lo] to [hi] are in order. *)
Definition seg_sorted (lo hi : nat) (a : list A) : Prop :=
  forall i j x y, (lo <= i < j)%nat -> (j <= hi)%nat -> a !! i = Some x -> a !! j = Some y -> le x y.

Lemma shortsort_run F : forall n a lo hi fuel,
  (hi - lo = n)%nat -> (lo <= hi < length a)%nat -> (hi - lo < fuel)%nat -> (hi - lo < F)%nat ->
  exists a', kloop fuel (fun hi => (if ptr lo <? hi then
      let* max := find_max comp width F (ptr lo) hi in swap width max hi ;;; kret (inl (hi - width))
    else kret (inr tt))%K) (ptr hi) a = Done (tt, a') /\
    rearr lo hi a a' /\ seg_sorted lo hi a'.
Proof.
  induction n as [|n IH]; intros a lo hi fuel Hn Hlh Hf HF; (destruct fuel as [|fuel]; [lia|]).
  - exists a. split; [|split; [constructor|intros i j x y Hi Hj; lia]]. apply kloop_exit. rewrite ptr_ltb.
    by destruct (Nat.ltb_spec lo hi); [lia|].
  - destruct (find_max_run a lo hi F Hlh HF) as (mx & x & Hfm & Hmx & Hx & Hall).
    destruct (in_array a hi) as [y Hy]; [lia|]. set (a1 := exch a mx hi).
    assert (Hr1 : rearr lo hi a a1) by (apply rearr_once; lia).
    assert (Hhi : a1 !! hi = Some x) by (subst a1; rewrite (exch_lookup a mx hi x y) by done; by rewrite decide_True).
    pose proof (rearr_seg _ _ _ _ _ Hr1 Hall) as Hall1.
    destruct (IH a1 lo (hi - 1)%nat fuel) as (a' & Hr & Hre & Hs); try (rewrite ?(rearr_length _ _ _ _ Hr1); lia).
    exists a'. split_and!.
    + erewrite kloop_next; [exact Hr|]. rewrite ptr_ltb. destruct (Nat.ltb_spec lo hi); [|lia]. kx. rewrite Hfm.
      rewrite (swap_run a mx hi x y Hx Hy). by rewrite ptr_pred by lia.
    + etrans; [exact Hr1|]. eapply rearr_wide; [..|exact Hre]; lia.
    + intros i j u v Hi Hj Hu Hv. destruct (decide (j = hi)) as [->|].
      * rewrite (rearr_outside _ _ _ _ hi Hre) in Hv by lia. assert (v = x) as -> by congruence.
        eapply (rearr_seg (fun y => le y x) lo (hi - 1) a1 a'); [done| |split; [apply Hi|lia]|done].
        intros k z Hk. apply Hall1. lia.
      * by eapply (Hs i j); [lia|lia|..].
Qed.
(** ** Partitioning *)

Lemma scan_up_run a lo hi p : forall fuel l,
  (lo <= l <= hi)%nat -> (hi < length a)%nat -> (hi - l < fuel)%nat -> a !! lo = Some p ->
  exists l', scan_up comp width fuel (ptr lo) (ptr hi) (ptr l) a = Done (ptr l', a) /\
    (l < l' <= S hi)%nat /\
    (forall k x, (l < k < l')%nat -> a !! k = Some x -> le x p) /\
    (forall x, (l' <= hi)%nat -> a !! l' = Some x -> 0 < comp x p).
Proof.
  unfold scan_up. induction fuel as [|fuel IH]; intros l Hl Hh Hf Hp; [lia|].
  destruct (decide (S l <= hi)%nat) as [Hs|Hs]; [destruct (in_array a (S l)) as [x Hx]; [lia|];
    destruct (Z.leb_spec (comp x p) 0) as [Hc|Hc]|].
  - destruct (IH (S l)) as (l' & Hr & Hl' & Hle & Hst); [lia..|done|]. exists l'. split; [|split_and!; [lia..| |done]].
    + erewrite kloop_next; [exact Hr|]. cbv beta zeta. rewrite ptr_S, ptr_leb. destruct (Nat.leb_spec (S l) hi); [|lia].
      kx. rewrite (comp_at_run a (S l) lo x p Hx Hp). by destruct (Z.leb_spec (comp x p) 0); [|lia].
    + intros k y Hk Hy. destruct (decide (k = S l)) as [->|]; [assert (y = x) as -> by congruence; done|].
      apply (Hle k y); [lia|done].
  - exists (S l). split; [|split_and!; [lia..| |]].
    + apply kloop_exit. cbv beta zeta. rewrite ptr_S, ptr_leb. destruct (Nat.leb_spec (S l) hi); [|lia].
      kx. rewrite (comp_at_run a (S l) lo x p Hx Hp). by destruct (Z.leb_spec (comp x p) 0); [lia|].
    + intros k y Hk. lia.
    + intros y _ Hy. assert (y = x) as -> by congruence. lia.
  - exists (S l). split; [|split_and!; [lia..| |]].
    + apply kloop_exit. cbv beta zeta. rewrite ptr_S, ptr_leb. by destruct (Nat.leb_spec (S l) hi); [lia|].
    + intros k y Hk. lia.
    + intros y Hy. lia.
Qed.

Lemma scan_down_run a lo p : forall fuel h,
  (lo < h <= length a)%nat -> (h - lo <= fuel)%nat -> a !! lo = Some p ->
  exists h', scan_down comp width fuel (ptr lo) (ptr h) a = Done (ptr h', a) /\
    (lo <= h' < h)%nat /\
    (forall k x, (h' < k < h)%nat -> a !! k = Some x -> le p x) /\
    (forall x, (lo < h')%nat -> a !! h' = Some x -> comp x p < 0).
Proof.
  unfold scan_down. induction fuel as [|fuel IH]; intros h Hh Hf Hp; [lia|].
  destruct (decide (lo < h - 1)%nat) as [Hs|Hs]; [destruct (in_array a (h - 1)) as [x Hx]; [lia|];
    destruct (Z.leb_spec 0 (comp x p)) as [Hc|Hc]|].
  - destruct (IH (h - 1)%nat) as (h' & Hr & Hh' & Hle & Hst); [lia..|done|]. exists h'. split; [|split_and!; [lia..| |done]].
    + erewrite kloop_next; [exact Hr|]. cbv beta zeta. rewrite ptr_pred, ptr_ltb by lia. destruct (Nat.ltb_spec lo (h - 1)); [|lia].
      kx. rewrite (comp_at_run a (h - 1) lo x p Hx Hp). by destruct (Z.leb_spec 0 (comp x p)); [|lia].
    + intros k y Hk Hy. destruct (decide (k = h - 1)%nat) as [->|].
      * assert (y = x) as -> by congruence. by apply Htotal.
      * apply (Hle k y); [lia|done].
  - exists (h - 1)%nat. split; [|split_and!; [lia..| |]].
    + apply kloop_exit. cbv beta zeta. rewrite ptr_pred, ptr_ltb by lia. destruct (Nat.ltb_spec lo (h - 1)); [|lia].
      kx. rewrite (comp_at_run a (h - 1) lo x p Hx Hp). by destruct (Z.leb_spec 0 (comp x p)); [lia|].
    + intros k y Hk. lia.
    + intros y _ Hy. assert (y = x) as -> by congruence. lia.
  - exists (h - 1)%nat. split; [|split_and!; [lia..| |]].
    + apply kloop_exit. cbv beta zeta. rewrite ptr_pred, ptr_ltb by lia. by destruct (Nat.ltb_spec lo (h - 1)); [lia|].
    + intros k y Hk. lia.
    + intros y Hy. lia.
Qed.

(** What holds between two exchanges: the elements after the pivot up to [l]
    are not above it, those from [h] on are not below it. *)
Definition part_inv (lo hi l h : nat) (p : A) a : Prop :=
  (lo <= l < h)%nat /\ (h <= S hi)%nat /\ (hi < length a)%nat /\ a !! lo = Some p /\
  seg_all (fun x => le x p) lo l a /\ seg_all (fun x => le p x) h hi a.

(** When the scans have crossed, at [l] and [h]. *)
Definition crossed (lo hi l h : nat) (p : A) a : Prop :=
  (lo <= h < l)%nat /\ (l <= S hi)%nat /\ (hi < length a)%nat /\ a !! lo = Some p /\
  seg_all (fun x => le x p) lo (l - 1) a /\ seg_all (fun x => le p x) (S h) hi a.

Lemma part_inv_exch lo hi l h p a x y :
  (lo < l < h)%nat -> (h <= hi < length a)%nat -> a !! lo = Some p -> a !! l = Some x -> a !! h = Some y ->
  le p x -> le y p -> seg_all (fun x => le x p) lo (l - 1) a -> seg_all (fun x => le p x) (S h) hi a ->
  part_inv lo hi l h p (exch a l h).
Proof.
  intros Hl Hh Hp Hx Hy Hpx Hyp Hlow Hhigh. split_and!; [lia..| | | |].
  - rewrite exch_length. lia.
  - rewrite (exch_lookup a l h x y), !decide_False by (done || lia). done.
  - intros k z Hk. rewrite (exch_lookup a l h x y) by done. destruct (decide (k = h)); [lia|].
    destruct (decide (k = l)) as [->|]; [by intros [= <-]|]. apply Hlow. lia.
  - intros k z Hk. rewrite (exch_lookup a l h x y) by done. destruct (decide (k = h)) as [->|]; [by intros [= <-]|].
    destruct (decide (k = l)); [lia|]. apply Hhigh. lia.
Qed.

Lemma partition_run lo hi p F : forall fuel l h a,
  part_inv lo hi l h p a -> (h - l < fuel)%nat -> (S hi - lo <= F)%nat ->
  exists l' h' a', kloop fuel (fun '(l, h) => (
      let* l := scan_up comp width F (ptr lo) (ptr hi) l in
      let* h := scan_down comp width F (ptr lo) h in
      if h <? l then kret (inr (l, h)) else swap width l h ;;; kret (inl (l, h)))%K) (ptr l, ptr h) a =
    Done ((ptr l', ptr h'), a') /\ rearr lo hi a a' /\ crossed lo hi l' h' p a'.
Proof.
  induction fuel as [|fuel IH]; intros l h a (Hlh & Hh & Hlen & Hp & Hlow & Hhigh) Hf HF; [lia|].
  destruct (scan_up_run a lo hi p F l) as (l' & Hup & Hl' & Hle & Hst); [lia..|done|].
  destruct (scan_down_run a lo p F h) as (h' & Hdn & Hh' & Hge & Hsd); [lia..|done|].
  assert (Hlow' : seg_all (fun x => le x p) lo (l' - 1) a).
  { intros k x Hk Hx. destruct (decide (k <= l)%nat); [apply (Hlow k x); [lia|done]|apply (Hle k x); [lia|done]]. }
  assert (Hhigh' : seg_all (fun x => le p x) (S h') hi a).
  { intros k x Hk Hx. destruct (decide (h <= k)%nat); [apply (Hhigh k x); [lia|done]|apply (Hge k x); [lia|done]]. }
  destruct (decide (h' < l')%nat) as [Hc|Hc].
  - exists l', h', a. split; [|split; [constructor|by split_and!; try lia]].
    apply kloop_exit. kx. rewrite Hup, Hdn. rewrite ptr_ltb. by destruct (Nat.ltb_spec h' l'); [|lia].
  - destruct (in_array a l') as [x Hx]; [lia|]. destruct (in_array a h') as [y Hy]; [lia|].
    specialize (Hst x ltac:(lia) Hx). specialize (Hsd y ltac:(lia) Hy).
    assert (l' <> h') by (intros ->; assert (x = y) as -> by congruence; lia).
    destruct (IH l' h' (exch a l' h')) as (l2 & h2 & a2 & Hr & Hre & Hcr); [|lia..|].
    { apply (part_inv_exch lo hi l' h' p a x y); try done; try lia; [by apply not_le|unfold le; lia]. }
    exists l2, h2, a2. split; [|split; [|done]].
    + erewrite kloop_next; [exact Hr|]. kx. rewrite Hup, Hdn. rewrite ptr_ltb. destruct (Nat.ltb_spec h' l'); [lia|].
      by rewrite (swap_run a l' h' x y).
    + etrans; [apply (rearr_once lo hi a l' h'); lia|exact Hre].
Qed.

(** After the pivot is put in place at [h]. *)
Definition split_at (lo hi l h : nat) (p : A) a : Prop :=
  (lo <= h < l)%nat /\ (l <= S hi)%nat /\
  seg_all (fun x => le x p) lo (l - 1) a /\ seg_all (fun x => le p x) h hi a.

Lemma crossed_split lo hi l h p a :
  (lo <= hi)%nat -> crossed lo hi l h p a -> split_at lo hi l h p (exch a lo h) /\ rearr lo hi a (exch a lo h).
Proof.
  intros Hlohi (Hh & Hl & Hlen & Hp & Hlow & Hhigh). destruct (in_array a h) as [y Hy]; [lia|].
  split; [split_and!; [lia..| |]|apply rearr_once; lia].
  - assert (Hr : rearr lo (l - 1) a (exch a lo h)) by (apply rearr_once; lia). by apply (rearr_seg _ _ _ _ _ Hr).
  - intros k z Hk. rewrite (exch_lookup a lo h p y) by done.
    destruct (decide (k = h)); [intros [= <-]; apply le_refl|].
    destruct (decide (k = lo)); [lia|]. apply Hhigh. lia.
Qed.

(** ** The parts still to be sorted *)

(** A part is a pair of indices, of its first and its last element. *)
Definition within (s : nat * nat) (i : nat) : Prop := (s.1 <= i <= s.2)%nat.

(** The number of elements of a part, none if there is nothing to sort. *)
Definition part_size (s : nat * nat) : nat := if (s.1 <? s.2)%nat then S s.2 - s.1 else 0.

Fixpoint disjoint (pend : list (nat * nat)) : Prop :=
  match pend with
  | [] => True
  | s :: pend => (forall s' i, s' ∈ pend -> within s i -> ~ within s' i) /\ disjoint pend
  end.

(** Two elements that are not in one part that is still to be sorted are in
    order. *)
Definition pending (n : nat) (pend : list (nat * nat)) a : Prop :=
  length a = n /\ disjoint pend /\ Forall (fun s => (s.1 < s.2 < n)%nat) pend /\
  forall i j x y, (i < j)%nat -> a !! i = Some x -> a !! j = Some y ->
    le x y \/ exists s, s ∈ pend /\ within s i /\ within s j.

(** Sorting or splitting the first part keeps the elements of other parts in
    order with it. *)
Lemma pending_outside n s pend a a' i j x y :
  pending n (s :: pend) a -> rearr s.1 s.2 a a' -> (i < j)%nat -> a' !! i = Some x -> a' !! j = Some y ->
  le x y \/ (within s i /\ within s j) \/ exists s', s' ∈ pend /\ within s' i /\ within s' j.
Proof.
  intros (Hlen & [Hd _] & Hf & Hp) Hr Hij Hx Hy.
  assert (Hsep : forall k k', within s k -> ~ within s k' -> ~ exists s', s' ∈ s :: pend /\ within s' k /\ within s' k').
  { intros k k' Hk Hk' (s' & [->|Hs']%elem_of_cons & H1 & H2); [done|]. by apply (Hd s' k). }
  assert (Hout : forall k, ~ within s k -> a' !! k = a !! k).
  { intros k Hk. apply (rearr_outside _ _ _ _ _ Hr). unfold within in Hk. lia. }
  destruct (decide (s.1 <= i <= s.2)%nat) as [Hi|Hi], (decide (s.1 <= j <= s.2)%nat) as [Hj|Hj].
  - right; left. done.
  - left. rewrite (Hout j Hj) in Hy. apply (rearr_seg (fun x => le x y) _ _ _ _ Hr) with i; [|done..].
    intros k z Hk Hz. destruct (Hp k j z y) as [|Hs]; [unfold within in Hj; lia|done..|].
    by destruct (Hsep k j Hk Hj).
  - left. rewrite (Hout i Hi) in Hx. apply (rearr_seg (fun y => le x y) _ _ _ _ Hr) with j; [|done..].
    intros k z Hk Hz. destruct (Hp i k x z) as [|(s' & Hs & H1 & H2)]; [unfold within in Hi; lia|done..|].
    destruct (Hsep k i Hk Hi). eauto.
  - rewrite (Hout i Hi) in Hx. rewrite (Hout j Hj) in Hy.
    destruct (Hp i j x y Hij Hx Hy) as [|(s' & [->|Hs']%elem_of_cons & H1 & H2)]; [by left|done|].
    right; right. by exists s'.
Qed.

Lemma pending_sorted n s pend a a' :
  pending n (s :: pend) a -> rearr s.1 s.2 a a' -> seg_sorted s.1 s.2 a' -> pending n pend a'.
Proof.
  intros HP Hr Hs. pose proof HP as (Hlen & [_ Hd] & Hf & _). apply Forall_cons in Hf as [_ Hf].
  split_and!; [by rewrite (rearr_length _ _ _ _ Hr)|done..|]. intros i j x y Hij Hx Hy.
  destruct (pending_outside n s pend a a' i j x y) as [?|[[Hi Hj]|?]]; eauto.
  left. unfold within in Hi, Hj. by eapply (Hs i j); [lia|lia|..].
Qed.

(** The parts of a split that have two elements or more. *)
Definition part_of (lo hi : nat) : list (nat * nat) := if (lo <? hi)%nat then [(lo, hi)] else [].

Lemma elem_of_part s lo hi : s ∈ part_of lo hi <-> s = (lo, hi) /\ (lo < hi)%nat.
Proof.
  unfold part_of. destruct (Nat.ltb_spec lo hi); rewrite ?list_elem_of_singleton, ?elem_of_nil; (lia || naive_solver).
Qed.

Lemma disjoint_app p1 p2 :
  disjoint (p1 ++ p2) <-> disjoint p1 /\ disjoint p2 /\
    forall s s' i, s ∈ p1 -> s' ∈ p2 -> within s i -> ~ within s' i.
Proof.
  induction p1 as [|s p1 IH]; cbn [app disjoint].
  - split; [|naive_solver]. intros H. split_and!; [done..|]. intros s s' i Hs. by apply elem_of_nil in Hs.
  - rewrite IH. setoid_rewrite elem_of_app. setoid_rewrite elem_of_cons. naive_solver.
Qed.

Lemma disjoint_perm p1 p2 : p1 ≡ₚ p2 -> disjoint p1 -> disjoint p2.
Proof.
  induction 1 as [|s p1 p2 Hp IH|s1 s2 p|]; cbn [disjoint]; [done|..|by eauto].
  - intros [H1 H2]. split; [|by apply IH]. intros s' i Hs. apply H1. by rewrite Hp.
  - setoid_rewrite elem_of_cons. naive_solver.
Qed.

Lemma pending_perm n p1 p2 a : p1 ≡ₚ p2 -> pending n p1 a -> pending n p2 a.
Proof.
  intros Hp (H1 & H2 & H3 & H4). split_and!; [done|by eapply disjoint_perm|by rewrite <- Hp|].
  intros i j x y Hij Hx Hy. destruct (H4 i j x y Hij Hx Hy) as [|(s & Hs & ?)]; [by left|right].
  exists s. by rewrite <- Hp.
Qed.

Lemma pending_split n lo hi l h p pend a a' :
  pending n ((lo, hi) :: pend) a -> rearr lo hi a a' -> split_at lo hi l h p a' ->
  pending n (part_of lo (h - 1) ++ part_of l hi ++ pend) a'.
Proof.
  intros HP Hr (Hh & Hl & Hlow & Hhigh). pose proof HP as (Hlen & [Hd1 Hd] & Hf & _).
  apply Forall_cons in Hf as [Hlh Hf]. cbn [fst snd] in Hlh. unfold within in Hd1; cbn [fst snd] in Hd1. split_and!.
  - by rewrite (rearr_length _ _ _ _ Hr).
  - rewrite !disjoint_app. unfold part_of, within. split_and!.
    + destruct (_ <? _)%nat; cbn; [|done]. split; [|done]. intros s' i Hs. by apply elem_of_nil in Hs.
    + destruct (_ <? _)%nat; cbn; [|done]. split; [|done]. intros s' i Hs. by apply elem_of_nil in Hs.
    + done.
    + intros s s' i [-> H1]%elem_of_part Hs' Hi. cbn [fst snd] in Hi. apply Hd1; [done|lia].
    + intros s s' i [-> H1]%elem_of_part [[-> H2]%elem_of_part|Hs']%elem_of_app Hi; cbn [fst snd] in *; [lia|].
      apply Hd1; [done|lia].
  - rewrite !Forall_app. split_and!; [..|done]; apply Forall_forall; intros s [-> H1]%elem_of_part; cbn; lia.
  - intros i j x y Hij Hx Hy. setoid_rewrite elem_of_app. setoid_rewrite elem_of_app. setoid_rewrite elem_of_part.
    destruct (pending_outside n (lo, hi) pend a a' i j x y) as [?|[[Hi Hj]|?]]; [done..|by left| |naive_solver].
    unfold within in Hi, Hj; cbn [fst snd] in Hi, Hj.
    destruct (decide (j < h)%nat); [right; exists (lo, h - 1)%nat; unfold within; cbn; split; [left; split; [done|lia]|lia]|].
    destruct (decide (l <= i)%nat); [right; exists (l, hi); unfold within; cbn; split; [right; left; split; [done|lia]|lia]|].
    left. apply (Htrans x p y); [apply (Hlow i x); [lia|done]|apply (Hhigh j y); [lia|done]].
Qed.

Lemma pending_all n a : length a = n -> (2 <= n)%nat -> pending n [(0%nat, (n - 1)%nat)] a.
Proof.
  intros Hn H2. split_and!; [done| | |].
  - split; [|done]. intros s' i Hs. by apply elem_of_nil in Hs.
  - apply Forall_singleton. cbn. lia.
  - intros i j x y Hij Hx%lookup_lt_Some Hy%lookup_lt_Some. right. exists (0, n - 1)%nat.
    unfold within. cbn [fst snd]. split; [set_solver|lia].
Qed.

Lemma pending_nil n a : pending n [] a -> seg_sorted 0 (n - 1) a.
Proof.
  intros (_ & _ & _ & Hp) i j x y Hij Hj Hx Hy. destruct (Hp i j x y) as [|(s & Hs & _)]; [lia|done..|].
  by apply elem_of_nil in Hs.
Qed.

(** ** The stack and the number of rounds *)

(** The part at depth [k] has at most [n / 2 ^ k] elements: the smaller part
    of a split is always on top of the larger one. *)
Fixpoint stack_ok (n : nat) (pend : list (nat * nat)) : Prop :=
  match pend with
  | [] => True
  | s :: pend => Z.of_nat (part_size s) * 2 ^ Z.of_nat (length pend) <= Z.of_nat n /\ stack_ok n pend
  end.

Definition weight (pend : list (nat * nat)) : nat := sum_list_with (fun s => 2 * part_size s - 1)%nat pend.

(** The pointers of the parts, as the code has them. *)
Definition ptrs (s : nat * nat) : Z * Z := (ptr s.1, ptr s.2).

Definition next (pend : list (nat * nat)) : (Z * Z * list (Z * Z)) + unit :=
  match pend with
  | [] => inr tt
  | s :: pend => inl (ptrs s, map ptrs pend)
  end.

Lemma pop_next pend a : pop (map ptrs pend) a = Done (next pend, a).
Proof. by destruct pend. Qed.

Lemma push_run n s lo hi pend a :
  Z.of_nat n < W32 -> (9 <= part_size s)%nat -> stack_ok n (s :: pend) ->
  push (map ptrs pend) (ptr lo) (ptr hi) a = Done (map ptrs ((lo, hi) :: pend), a).
Proof.
  intros Hn Hs [Hk _]. unfold push. rewrite length_map. destruct (Nat.ltb_spec (length pend) STKSIZE) as [|H30]; [done|exfalso].
  assert (2 ^ 30 <= 2 ^ Z.of_nat (length pend)) by (apply Z.pow_le_mono_r; unfold STKSIZE in H30; lia).
  unfold W32 in Hn. nia.
Qed.

Lemma stack_ok_split n s big small pend :
  stack_ok n (s :: pend) -> (part_size big + part_size small <= part_size s)%nat ->
  (part_size small <= part_size big)%nat ->
  stack_ok n (part_of small.1 small.2 ++ part_of big.1 big.2 ++ pend).
Proof.
  intros [Hs Hp] Hsum Hle. assert (0 < 2 ^ Z.of_nat (length pend)) by lia.
  destruct big as [bl bh], small as [sl sh]. unfold part_of. cbn [fst snd].
  destruct (Nat.ltb_spec sl sh), (Nat.ltb_spec bl bh); cbn [app stack_ok length]; split_and?; try done; try nia.
  rewrite Nat2Z.inj_succ, Z.pow_succ_r by lia. nia.
Qed.

Lemma weight_split s p1 p2 pend :
  (part_size p1 + part_size p2 < part_size s)%nat ->
  (weight (part_of p1.1 p1.2 ++ part_of p2.1 p2.2 ++ pend) < weight (s :: pend))%nat.
Proof.
  destruct p1 as [l1 h1], p2 as [l2 h2]. unfold part_of, weight. cbn [fst snd]. intros H.
  destruct (l1 <? h1)%nat, (l2 <? h2)%nat; cbn [app sum_list_with]; lia.
Qed.

(** Going on with the first part of a split, having pushed the second. *)
Lemma next_parts lo hi pend a :
  (if ptr lo <? ptr hi then kret (inl (ptr lo, ptr hi, map ptrs pend)) else pop (map ptrs pend)) a =
  Done (next (part_of lo hi ++ pend), a).
Proof. rewrite ptr_ltb. unfold part_of. destruct (lo <? hi)%nat; [done|apply pop_next]. Qed.

Lemma left_test lo h : (ptr lo + width <? ptr h) = (lo <? h - 1)%nat.
Proof. rewrite ptr_S, ptr_ltb. destruct (Nat.ltb_spec (S lo) h), (Nat.ltb_spec lo (h - 1)); (done || lia). Qed.

Lemma larger_test lo hi l h : (lo <= h)%nat -> (l <= S hi)%nat ->
  (ptr hi - ptr l <=? ptr h - 1 - ptr lo) = (S hi - l <=? h - lo)%nat.
Proof.
  intros Hh Hl. unfold ptr.
  destruct (Z.leb_spec (width * Z.of_nat hi - width * Z.of_nat l) (width * Z.of_nat h - 1 - width * Z.of_nat lo)) as [H|H],
    (Nat.leb_spec (S hi - l) (h - lo)) as [H'|H']; try done; exfalso.
  - assert (Z.of_nat h - Z.of_nat lo <= Z.of_nat hi - Z.of_nat l) by lia. nia.
  - assert (Z.of_nat hi - Z.of_nat l <= Z.of_nat h - Z.of_nat lo - 1) by lia. nia.
Qed.

(** The end of a round on a long part: the larger part of the split is pushed
    and the smaller one comes next. *)
Lemma choose_run n lo hi l h pend a :
  Z.of_nat n < W32 -> (9 <= part_size (lo, hi))%nat -> stack_ok n ((lo, hi) :: pend) ->
  (lo <= h < l)%nat -> (l <= S hi)%nat ->
  exists pend', ((if ptr hi - ptr l <=? ptr h - 1 - ptr lo then
      let* stk := if ptr lo + width <? ptr h then push (map ptrs pend) (ptr lo) (ptr h - width) else kret (map ptrs pend) in
      if ptr l <? ptr hi then kret (inl (ptr l, ptr hi, stk)) else pop stk
    else
      let* stk := if ptr l <? ptr hi then push (map ptrs pend) (ptr l) (ptr hi) else kret (map ptrs pend) in
      if ptr lo + width <? ptr h then kret (inl (ptr lo, ptr h - width, stk)) else pop stk)%K) a =
    Done (next pend', a) /\ pend' ≡ₚ part_of lo (h - 1) ++ part_of l hi ++ pend /\
    stack_ok n pend' /\ (weight pend' < weight ((lo, hi) :: pend))%nat.
Proof.
  intros Hn H9 Hok Hh Hl. rewrite larger_test, left_test by lia.
  assert (Hsz : (part_size (l, hi) + part_size (lo, h - 1) < part_size (lo, hi))%nat).
  { unfold part_size in *; cbn [fst snd] in *.
    destruct (Nat.ltb_spec lo hi), (Nat.ltb_spec l hi), (Nat.ltb_spec lo (h - 1)); lia. }
  assert (Hcmp : if (S hi - l <=? h - lo)%nat then (part_size (l, hi) <= part_size (lo, h - 1))%nat
    else (part_size (lo, h - 1) <= part_size (l, hi))%nat).
  { unfold part_size; cbn [fst snd]. clear Hsz H9 Hok.
    destruct (Nat.leb_spec (S hi - l) (h - lo)), (Nat.ltb_spec l hi), (Nat.ltb_spec lo (h - 1)); lia. }
  destruct (S hi - l <=? h - lo)%nat.
  - exists (part_of l hi ++ part_of lo (h - 1) ++ pend). split; [|split_and!].
    + rewrite <- next_parts. unfold part_of at 1 2. destruct (Nat.ltb_spec lo (h - 1)); [|done].
      rewrite ptr_pred by lia. kx. rewrite (push_run n (lo, hi)) by done. done.
    + solve_Permutation.
    + apply (stack_ok_split n (lo, hi) (lo, h - 1)%nat (l, hi)); [done|lia..].
    + apply (weight_split (lo, hi) (l, hi) (lo, h - 1)%nat). lia.
  - exists (part_of lo (h - 1) ++ part_of l hi ++ pend). split; [|split_and!; [done|..]].
    + rewrite <- next_parts, <- left_test. rewrite ptr_ltb. unfold part_of. destruct (l <? hi)%nat; kx.
      * rewrite (push_run n (lo, hi)) by done. rewrite left_test, ptr_ltb. destruct (Nat.ltb_spec lo (h - 1)); [|done]. by rewrite ptr_pred by lia.
      * rewrite left_test, ptr_ltb. destruct (Nat.ltb_spec lo (h - 1)); [|done]. by rewrite ptr_pred by lia.
    + apply (stack_ok_split n (lo, hi) (l, hi) (lo, h - 1)%nat); [done|lia..].
    + apply (weight_split (lo, hi) (lo, h - 1)%nat (l, hi)). lia.
Qed.

(** ** A round *)

Lemma size_of_part lo hi : (lo < hi)%nat -> (ptr hi - ptr lo) / width + 1 = Z.of_nat (part_size (lo, hi)).
Proof.
  intros H. unfold ptr, part_size. cbn [fst snd]. destruct (Nat.ltb_spec lo hi); [|lia].
  replace (width * Z.of_nat hi - width * Z.of_nat lo) with ((Z.of_nat hi - Z.of_nat lo) * width) by lia.
  rewrite Z.div_mul by lia. lia.
Qed.

Lemma mid_ptr lo k : ptr lo + Z.of_nat k / 2 * width = ptr (lo + k / 2).
Proof. unfold ptr. rewrite Nat2Z.inj_add, Nat2Z.inj_div. lia. Qed.

(** The part is split around an element of its middle. *)
Lemma split_run lo hi mid fuel a :
  (lo < hi < length a)%nat -> (lo <= mid <= hi)%nat -> (S hi - lo < fuel)%nat ->
  exists l h p a1 a', swap width (ptr mid) (ptr lo) a = Done (tt, a1) /\
    (exists a2, partition comp width fuel (ptr lo) (ptr hi) a1 = Done ((ptr l, ptr h), a2) /\
      swap width (ptr lo) (ptr h) a2 = Done (tt, a')) /\
    rearr lo hi a a' /\ split_at lo hi l h p a'.
Proof.
  intros Hlh Hm Hf. destruct (in_array a mid) as [p Hp]; [lia|]. destruct (in_array a lo) as [x Hx]; [lia|].
  set (a1 := exch a mid lo). assert (Hr1 : rearr lo hi a a1) by (apply rearr_once; lia).
  assert (Hlen : length a1 = length a) by apply exch_length.
  assert (Hp1 : a1 !! lo = Some p) by (subst a1; rewrite (exch_lookup a mid lo p x) by done; by rewrite decide_True).
  destruct (partition_run lo hi p fuel fuel lo (S hi) a1) as (l & h & a2 & Hpt & Hr2 & Hcr); [|lia..|].
  { split_and!; [lia..|done| |]; intros k y Hk; [|lia]. assert (k = lo) as -> by lia.
    intros Hy. assert (y = p) as -> by congruence. apply le_refl. }
  pose proof Hcr as (Hh & Hl & Hlen2 & Hp2 & _). destruct (in_array a2 h) as [y Hy]; [lia|].
  destruct (crossed_split lo hi l h p a2) as [Hs Hr3]; [lia|done|].
  exists l, h, p, a1, (exch a2 lo h). split_and!; [by apply (swap_run a mid lo p x)|exists a2; split| |done].
  - unfold partition. rewrite ptr_S. exact Hpt.
  - by apply (swap_run a2 lo h p y).
  - etrans; [exact Hr1|]. by etrans.
Qed.

Lemma recurse_run n s pend fuel a :
  pending n (s :: pend) a -> stack_ok n (s :: pend) -> Z.of_nat n < W32 -> (n < fuel)%nat ->
  exists pend' a', recurse comp width fuel (ptrs s).1 (ptrs s).2 (map ptrs pend) a = Done (next pend', a') /\
    a' ≡ₚ a /\ pending n pend' a' /\ stack_ok n pend' /\ (weight pend' < weight (s :: pend))%nat.
Proof.
  destruct s as [lo hi]. cbn [ptrs fst snd]. intros HP Hok Hn Hf.
  pose proof HP as (Hlen & _ & [Hlh _]%Forall_cons & _). cbn [fst snd] in Hlh.
  assert (Hsz : (part_size (lo, hi) = S hi - lo)%nat) by (unfold part_size; cbn [fst snd]; destruct (Nat.ltb_spec lo hi); lia).
  unfold recurse. rewrite size_of_part by lia. destruct (Z.leb_spec (Z.of_nat (part_size (lo, hi))) CUTOFF) as [Hc|Hc].
  - destruct (shortsort_run fuel _ a lo hi fuel eq_refl) as (a' & Hr & Hre & Hs); [lia..|].
    exists pend, a'. kx. unfold shortsort. rewrite Hr, pop_next. split_and!; [done|by eapply rearr_perm| |apply Hok|].
    + by apply (pending_sorted n (lo, hi) pend a).
    + unfold weight. cbn [sum_list_with]. lia.
  - rewrite mid_ptr. unfold CUTOFF in Hc.
    assert (part_size (lo, hi) / 2 <= hi - lo)%nat by (apply Nat.Div0.div_le_upper_bound; lia).
    destruct (split_run lo hi (lo + part_size (lo, hi) / 2) fuel a) as (l & h & p & a1 & a' & Hs1 & (a2 & Hpt & Hs2) & Hre & Hsp); [lia..|].
    destruct (choose_run n lo hi l h pend a') as (pend' & Hch & Hpm & Hok' & Hwt); [done|lia|done|apply Hsp|apply Hsp|].
    exists pend', a'. cbv zeta. unfold kbind at 1. rewrite Hs1. unfold kbind at 1. rewrite Hpt. cbv beta.
    unfold kbind at 1. rewrite Hs2. rewrite Hch. split_and!; [done|by eapply rearr_perm| |done..].
    eapply pending_perm; [symmetry; exact Hpm|]. by eapply pending_split.
Qed.

Lemma rounds_run n F : forall fuel s pend a,
  pending n (s :: pend) a -> stack_ok n (s :: pend) -> Z.of_nat n < W32 -> (n < F)%nat ->
  (weight (s :: pend) <= fuel)%nat ->
  exists a', kloop fuel (fun '(lo, hi, stk) => recurse comp width F lo hi stk) (ptrs s, map ptrs pend) a = Done (tt, a') /\
    a' ≡ₚ a /\ pending n [] a'.
Proof.
  induction fuel as [|fuel IH]; intros s pend a HP Hok Hn HF Hw';
    destruct (recurse_run n s pend F a HP Hok Hn HF) as (pend' & a1 & Hr & Hpm & HP' & Hok' & Hlt); [lia|].
  destruct pend' as [|s' pend'].
  - exists a1. split_and!; [|done..]. apply kloop_exit. exact Hr.
  - destruct (IH s' pend' a1) as (a' & Hr' & Hpm' & HP''); [done..|lia|]. exists a'. split_and!; [|by etrans|done].
    erewrite kloop_next; [exact Hr'|exact Hr].
Qed.

Lemma sorted_of_segments a : seg_sorted 0 (length a - 1) a -> StronglySorted le a.
Proof.
  induction a as [|x a IH]; intros Hs; constructor.
  - apply IH. intros i j u v Hi Hj Hu Hv. apply (Hs (S i) (S j) u v); [lia|cbn [length]; lia|done..].
  - apply List.Forall_forall. intros y Hy. apply list_elem_of_In, list_elem_of_lookup in Hy as [j Hj].
    pose proof (lookup_lt_Some _ _ _ Hj). apply (Hs 0%nat (S j) x y); [lia|cbn [length]; lia|done..].
Qed.

Lemma qsort_run a fuel :
  width * Z.of_nat (length a) < 2 ^ 31 -> (2 * length a <= fuel)%nat ->
  exists a', qsort comp width fuel (Z.of_nat (length a)) a = Done (tt, a') /\ a' ≡ₚ a /\ StronglySorted le a'.
Proof.
  intros Hsmall Hf. unfold qsort. destruct (Z.eqb_spec width 0); [lia|]. rewrite orb_false_r.
  destruct (Z.ltb_spec (Z.of_nat (length a)) 2).
  - exists a. split_and!; [done..|]. apply sorted_of_segments. intros i j x y Hi Hj. lia.
  - replace (0, width * (Z.of_nat (length a) - 1), []) with (ptrs (0, length a - 1)%nat, map ptrs [])
      by (unfold ptrs, ptr; cbn [map fst snd]; repeat f_equal; lia).
    assert (Hsz : part_size (0, length a - 1)%nat = length a).
    { unfold part_size. cbn [fst snd]. destruct (Nat.ltb_spec 0 (length a - 1)); lia. }
    destruct (rounds_run (length a) fuel fuel (0, length a - 1)%nat [] a) as (a' & Hr & Hpm & HP);
      [apply pending_all; lia| |unfold W32; nia|lia|unfold weight; cbn [sum_list_with]; lia|].
    { split; [|done]. rewrite Hsz. cbn [length]. lia. }
    exists a'. split_and!; [exact Hr|done|]. apply sorted_of_segments. rewrite (Permutation_length Hpm).
    by apply pending_nil.
Qed.

(** ** Searching *)

Definition equal_to (key x : A) : Prop := comp key x = 0.

Lemma sorted_lookup a i j x y :
  StronglySorted le a -> (i <= j)%nat -> a !! i = Some x -> a !! j = Some y -> le x y.
Proof.
  intros Hs. revert i j. induction Hs as [|z a _ IH Hall]; intros i j Hij Hx Hy; [done|].
  destruct i as [|i], j as [|j]; [| |lia|by apply (IH i j); [lia|..]].
  - assert (x = y) as -> by congruence. apply le_refl.
  - injection Hx as ->. rewrite List.Forall_forall in Hall. apply Hall, list_elem_of_In.
    by eapply list_elem_of_lookup_2.
Qed.

Lemma below_key a key i j x y :
  StronglySorted le a -> a !! i = Some x -> comp key x < 0 -> (i <= j)%nat -> a !! j = Some y -> ~ equal_to key y.
Proof.
  intros Hs Hx Hc Hij Hy He. unfold equal_to in He. pose proof (sorted_lookup a i j x y Hs Hij Hx Hy).
  assert (le y key) by (apply Htotal; lia). assert (H' : le x key) by by apply (Htrans x y key).
  apply Htotal in H'. lia.
Qed.

Lemma above_key a key i j x y :
  StronglySorted le a -> a !! i = Some x -> 0 < comp key x -> (j <= i)%nat -> a !! j = Some y -> ~ equal_to key y.
Proof.
  intros Hs Hx Hc Hij Hy He. unfold equal_to in He. pose proof (sorted_lookup a j i y x Hs Hij Hy Hx).
  assert (H' : le key x) by (apply (Htrans key y x); unfold le; (done || lia)). unfold le in H'. lia.
Qed.

(** The result of a search for [key]. *)
Definition found (a : list A) (key : A) (r : option Z) : Prop :=
  match r with
  | Some p => exists i x, p = ptr i /\ a !! i = Some x /\ equal_to key x
  | None => forall x, x ∈ a -> ~ equal_to key x
  end.

(** The elements outside of the [num] elements from [lo] on differ from the
    key. *)
Definition narrowed (a : list A) (key : A) (lo num : nat) : Prop :=
  (lo + num <= length a)%nat /\
  forall i x, (i < lo \/ lo + num <= i)%nat -> a !! i = Some x -> ~ equal_to key x.

Lemma narrowed_none a key lo : narrowed a key lo 0 -> found a key None.
Proof.
  intros [_ H] x [i Hi]%list_elem_of_lookup. apply (H i x); [lia|done].
Qed.

Lemma narrowed_left a key lo num k x :
  StronglySorted le a -> narrowed a key lo num -> a !! (lo + k)%nat = Some x -> (k < num)%nat -> comp key x < 0 ->
  narrowed a key lo k.
Proof.
  intros Hs [Hn H] Hx Hk Hc. split; [lia|]. intros i y Hi Hy.
  destruct (decide (i < lo)%nat); [by apply (H i y); [lia|]|].
  by apply (below_key a key (lo + k) i x y); [..|lia|].
Qed.

Lemma narrowed_right a key lo num k x :
  StronglySorted le a -> narrowed a key lo num -> a !! (lo + k)%nat = Some x -> (k < num)%nat -> 0 < comp key x ->
  narrowed a key (S (lo + k)) (num - S k).
Proof.
  intros Hs [Hn H] Hx Hk Hc. split; [lia|]. intros i y Hi Hy.
  destruct (decide (lo + num <= i)%nat); [by apply (H i y); [lia|]|].
  by apply (above_key a key (lo + k) i x y); [..|lia|].
Qed.

(** The element that the search compares with the key. *)
Definition probe (num : nat) : nat := if Z.of_nat num mod 2 =? 1 then num / 2 else num / 2 - 1.

Lemma probe_spec num : (2 <= num)%nat ->
  (if Z.of_nat num mod 2 =? 1 then Z.of_nat num / 2 else Z.of_nat num / 2 - 1) = Z.of_nat (probe num) /\
  (probe num < num)%nat /\ (num - S (probe num) = num / 2)%nat.
Proof.
  intros H. unfold probe. assert (1 <= num / 2)%nat by (by apply Nat.div_le_lower_bound).
  pose proof (Nat.div_mod_eq num 2). pose proof (Nat.mod_upper_bound num 2 ltac:(done)).
  pose proof (Nat2Z.inj_mod num 2) as Hm. change (Z.of_nat 2) with 2 in Hm.
  pose proof (Nat2Z.inj_div num 2) as Hd. change (Z.of_nat 2) with 2 in Hd. rewrite <- Hm, <- Hd.
  destruct (Z.eqb_spec (Z.of_nat (num mod 2)) 1); lia.
Qed.

Lemma bsearch_run a key : StronglySorted le a -> forall fuel lo num,
  narrowed a key lo num -> (num < fuel)%nat ->
  exists r, kloop fuel (fun '(lo, hi, num) => (if lo <=? hi then
      let half := num / 2 in
      if negb (half =? 0) then
        let mid := lo + (if num mod 2 =? 1 then half else half - 1) * width in
        let* x := elem width mid in
        let result := comp key x in
        if result =? 0 then kret (inr (Some mid))
        else if result <? 0 then kret (inl (lo, mid - width, if num mod 2 =? 1 then half else half - 1))
        else kret (inl (mid + width, hi, half))
      else if negb (num =? 0) then
        let* x := elem width lo in kret (inr (if comp key x =? 0 then Some lo else None))
      else kret (inr None)
    else kret (inr None))%K) (ptr lo, ptr lo + (Z.of_nat num - 1) * width, Z.of_nat num) a = Done (r, a) /\ found a key r.
Proof.
  intros Hs. induction fuel as [|fuel IH]; intros lo num Hn Hf; [lia|].
  destruct (decide (num = 0)%nat) as [->|H0].
  { exists None. split; [|by eapply narrowed_none]. apply kloop_exit. by destruct (Z.leb_spec (ptr lo) (ptr lo + (Z.of_nat 0 - 1) * width)); [lia|]. }
  assert (Hle : (ptr lo <=? ptr lo + (Z.of_nat num - 1) * width) = true) by (apply Z.leb_le; nia).
  destruct (decide (num = 1)%nat) as [->|H1].
  { destruct (in_array a lo) as [x Hx]; [destruct Hn; lia|]. exists (if comp key x =? 0 then Some (ptr lo) else None). split.
    - apply kloop_exit. rewrite Hle. cbv zeta. change (negb (Z.of_nat 1 / 2 =? 0)) with false.
      change (negb (Z.of_nat 1 =? 0)) with true. kx. by rewrite (elem_run a lo x Hx).
    - destruct (Z.eqb_spec (comp key x) 0) as [He|He]; [by exists lo, x|]. apply (narrowed_none a key lo).
      destruct Hn as [Hn H]. split; [lia|]. intros i y _ Hy. destruct (decide (i = lo)) as [->|]; [|apply (H i y); [lia|done]].
      assert (y = x) as -> by congruence. done. }
  destruct (probe_spec num) as (Hp & Hlt & Hrest); [lia|].
  destruct (in_array a (lo + probe num)) as [x Hx]; [destruct Hn; lia|].
  assert (Hhalf : negb (Z.of_nat num / 2 =? 0) = true).
  { pose proof (Z.div_le_lower_bound (Z.of_nat num) 2 1). destruct (Z.eqb_spec (Z.of_nat num / 2) 0); [lia|done]. }
  assert (Hmid : ptr lo + Z.of_nat (probe num) * width = ptr (lo + probe num)) by (unfold ptr; lia).
  destruct (Z.eqb_spec (comp key x) 0) as [He|He]; [|destruct (Z.ltb_spec (comp key x) 0) as [Hc|Hc]].
  - exists (Some (ptr (lo + probe num))). split; [|by exists (lo + probe num)%nat, x]. apply kloop_exit.
    rewrite Hle. cbv zeta. rewrite Hhalf, Hp, Hmid. kx. rewrite (elem_run a _ x Hx). by rewrite He.
  - destruct (IH lo (probe num)) as (r & Hr & Hfd); [by eapply narrowed_left|lia|]. exists r. split; [|done].
    erewrite kloop_next; [exact Hr|]. rewrite Hle. cbv zeta. rewrite Hhalf, Hp, Hmid. kx. rewrite (elem_run a _ x Hx).
    destruct (Z.eqb_spec (comp key x) 0); [done|]. destruct (Z.ltb_spec (comp key x) 0); [|lia].
    unfold kret. repeat f_equal. unfold ptr. lia.
  - destruct (IH (S (lo + probe num)) (num - S (probe num))%nat) as (r & Hr & Hfd); [by eapply narrowed_right; (done || lia)|lia|].
    exists r. split; [|done]. erewrite kloop_next; [exact Hr|]. rewrite Hle. cbv zeta. rewrite Hhalf, Hp, Hmid. kx.
    rewrite (elem_run a _ x Hx). destruct (Z.eqb_spec (comp key x) 0); [done|]. destruct (Z.ltb_spec (comp key x) 0); [lia|].
    assert (Hh : Z.of_nat num / 2 = Z.of_nat (num - S (probe num))) by (rewrite Hrest, Nat2Z.inj_div; done).
    assert (He' : ptr (S (lo + probe num)) + (Z.of_nat (num - S (probe num)) - 1) * width = ptr lo + (Z.of_nat num - 1) * width)
      by (rewrite Nat2Z.inj_sub by lia; unfold ptr; lia).
    unfold kret. by rewrite Hh, ptr_S, He'.
Qed.

End Sort.

(** C37: with a comparison that is a total preorder and an array of less than
    2 GB, [qsort] returns after at most two rounds per element, without an
    access outside of the array and without exceeding its two stacks of 30
    pointers; the result is a permutation of the array, in order. *)
Theorem qsort_sorts {A} (comp : A -> A -> Z) width (a : list A) fuel :
  0 < width ->
  (forall x y, 0 <= comp x y <-> comp y x <= 0) ->
  (forall x y z, le comp x y -> le comp y z -> le comp x z) ->
  width * Z.of_nat (length a) < 2 ^ 31 ->
  (2 * length a <= fuel)%nat ->
  exists a', qsort comp width fuel (Z.of_nat (length a)) a = Done (tt, a') /\
    a' ≡ₚ a /\ StronglySorted (le comp) a'.
Proof. intros Hw Ht Htr. by apply qsort_run. Qed.

Lemma qsort_sorts_witness :
  exists a', qsort Z.sub 4 100 11 [5; 3; 9; 1; 7; 3; 0; 8; 2; 6; 4] = Done (tt, a') /\
    a' ≡ₚ [5; 3; 9; 1; 7; 3; 0; 8; 2; 6; 4] /\ StronglySorted (le Z.sub) a'.
Proof.
  apply (qsort_sorts Z.sub 4 [5; 3; 9; 1; 7; 3; 0; 8; 2; 6; 4] 100); unfold le; cbn [length]; lia.
Defined.

(** In a sorted array, [bsearch] returns a pointer to an element that
    compares equal to the key if the array has one, and [NULL] otherwise,
    without an access outside of the array. *)
Theorem bsearch_finds {A} (comp : A -> A -> Z) width (a : list A) key fuel :
  0 < width ->
  (forall x y, 0 <= comp x y <-> comp y x <= 0) ->
  (forall x y z, le comp x y -> le comp y z -> le comp x z) ->
  StronglySorted (le comp) a ->
  (length a < fuel)%nat ->
  exists r, bsearch comp width fuel key (Z.of_nat (length a)) a = Done (r, a) /\ found comp width a key r.
Proof.
  intros Hw Ht Htr Hs Hf. unfold bsearch.
  destruct (bsearch_run comp width Hw Ht Htr a key Hs fuel 0 (length a)) as (r & Hr & Hfd); [|done|].
  { split; [lia|]. intros i x [Hi|Hi] Hx%lookup_lt_Some; lia. }
  exists r. split; [|done]. unfold ptr in Hr. by rewrite Z.mul_0_r, Z.add_0_l in Hr.
Qed.

Lemma bsearch_finds_witness :
  exists r, bsearch Z.sub 4 10 7 5 [1; 3; 5; 7; 9] = Done (r, [1; 3; 5; 7; 9]) /\
    found Z.sub 4 [1; 3; 5; 7; 9] 7 r.
Proof.
  apply (bsearch_finds Z.sub 4 [1; 3; 5; 7; 9] 7 10); unfold le; cbn [length]; try lia.
  repeat constructor; lia.
Defined.
