(* ===== verification/Vmm.v ===== *)
(** * User address space (sys/krnl/vmm.c)

    Ranges of user pages are reserved in the resource map [vmap], committed by
    mapping frames, protected, decommitted and released.  A file map is a
    range whose pages name a filemap object in their page table entries until
    they are fetched.  The handle table and the page tables are those of the
    other components; what vmm.c needs of objects, files and the heap is the
    interface [FileMapOps].  The contents of pages are not part of the state.

    The theorems: [vmalloc], [vmfree] and [vmprotect] implement an address
    space that knows which pages are reserved and with which protection they
    are committed; [valid_range] lets a range at the top of the kernel pass. *)

From S2P Require Import Prelude Rmap Pframe Pdir Owns Kmem Hndl.

Definition VMAP_ENTRIES : Z := 1024.
Definition VMEM_START : Z := 64 * 1024.
Definition KERNELSPACE (addr : Z) : bool := OSBASE <=? addr.

Definition PAGE_NOACCESS : Z := 0x01.
Definition PAGE_READONLY : Z := 0x02.
Definition PAGE_READWRITE : Z := 0x04.
Definition PAGE_EXECUTE : Z := 0x10.
Definition PAGE_EXECUTE_READ : Z := 0x20.
Definition PAGE_EXECUTE_READWRITE : Z := 0x40.
Definition PAGE_GUARD : Z := 0x100.

Definition MEM_COMMIT : Z := 0x1000.
Definition MEM_RESERVE : Z := 0x2000.
Definition MEM_DECOMMIT : Z := 0x4000.
Definition MEM_RELEASE : Z := 0x8000.
Definition MEM_ALIGN64K : Z := 0x10000000.

Definition ENOMEM : Z := 12.
Definition EFAULT : Z := 14.
Definition EINVAL : Z := 22.
Definition ENOSYS : Z := 40.

Definition OBJECT_FILE : Z := 5.
Definition OBJECT_FILEMAP : Z := 8.

Definition VM : Z := mctag "VM".
Definition FMAP : Z := mctag "FMAP".
Definition STK : Z := mctag "STK".

(** [struct filemap] without its object header. *)
Record filemap := Filemap {
  fm_file : Z;
  fm_offset : Z;
  fm_addr : Z;
  fm_size : Z;
  fm_protect : Z;
  fm_pages : Z;
  fm_self : Z;
}.

Definition set_fm_pages (n : Z) (fm : filemap) : filemap :=
  Filemap (fm_file fm) (fm_offset fm) (fm_addr fm) (fm_size fm) (fm_protect fm) n (fm_self fm).

Record vmm (W : Type) := Vmm {
  vm_hs : handles W;
  vmap : list rmap;
  vm_lost : Z;
  fmaps : gmap Z filemap;
}.
Arguments Vmm {W}.
Arguments vm_hs {W}.
Arguments vmap {W}.
Arguments vm_lost {W}.
Arguments fmaps {W}.

(** What vmm.c calls of the heap, the objects and the files.  Waiting lets
    other threads run, so that each may change the state. *)
Class FileMapOps (W : Type) := {
  kmalloc_filemap : K (vmm W) Z;
  init_object : Z -> Z -> K (vmm W) unit;
  set_signaled : Z -> Z -> K (vmm W) unit;
  wait_for_object : Z -> K (vmm W) Z;
  unlock_filemap : Z -> K (vmm W) Z;
  pread : Z -> Z -> Z -> Z -> K (vmm W) Z;
  pwrite : Z -> Z -> Z -> Z -> K (vmm W) Z;
}.

Local Open Scope k_scope.

(** The result for a protection that does not exist. *)
Definition BADFLAGS : Z := 0xFFFFFFFF.

Definition pte_flags_from_protect (protect : Z) : Z :=
  if protect =? PAGE_NOACCESS then 0
  else if (protect =? PAGE_READONLY) || (protect =? PAGE_EXECUTE) || (protect =? PAGE_EXECUTE_READ) then PT_USER
  else if (protect =? PAGE_READWRITE) || (protect =? PAGE_EXECUTE_READWRITE) then Z.lor PT_USER PT_WRITABLE
  else if (protect =? Z.lor PAGE_READONLY PAGE_GUARD) || (protect =? Z.lor PAGE_EXECUTE PAGE_GUARD) ||
          (protect =? Z.lor PAGE_EXECUTE_READ PAGE_GUARD) then PT_GUARD
  else if (protect =? Z.lor PAGE_READWRITE PAGE_GUARD) || (protect =? Z.lor PAGE_EXECUTE_READWRITE PAGE_GUARD)
    then Z.lor PT_GUARD PT_WRITABLE
  else BADFLAGS.

Section vmm.
Context {W : Type} `{!ObjectOps W} `{!FileMapOps W}.
Local Abbreviation V := (vmm W).

Definition set_hs (h : handles W) (s : V) : V := Vmm h (vmap s) (vm_lost s) (fmaps s).
Definition set_vmap (m : list rmap) (lost : Z) (s : V) : V := Vmm (vm_hs s) m lost (fmaps s).
Definition set_fmaps (f : gmap Z filemap) (s : V) : V := Vmm (vm_hs s) (vmap s) (vm_lost s) f.

Definition with_hs {A} (m : K (handles W) A) : K V A := kzoom vm_hs set_hs m.

Definition vm_mmu (s : V) : mmu := hs_mmu (vm_hs s).
Definition set_vmmu (p : mmu) (s : V) : V := set_hs (set_hmmu p (vm_hs s)) s.
Definition with_vmmu {A} (m : K mmu A) : K V A := kzoom vm_mmu set_vmmu m.

Definition vm_alloc (n : Z) : K V Z := fun s =>
  let '(idx, m) := rmap_alloc (vmap s) n in Done (idx, set_vmap m (vm_lost s) s).

Definition vm_alloc_align (n align : Z) : K V Z := fun s =>
  let '(idx, (m, lost)) := rmap_alloc_align (vmap s) (vm_lost s) n align in Done (idx, set_vmap m lost s).

(** [true] if the range is not free. *)
Definition vm_reserve (off n : Z) : K V bool := fun s =>
  let '(failed, (m, lost)) := rmap_reserve (vmap s) (vm_lost s) off n in Done (failed, set_vmap m lost s).

Definition vm_free (off n : Z) : K V unit := fun s =>
  let '(m, lost) := rmap_free (vmap s) (vm_lost s) off n in Done (tt, set_vmap m lost s).

Definition valid_range (addr size : Z) : K V bool :=
  let pages := PAGES size in
  let* s := kget in
  kret (if addr <? VMEM_START then false
        else if KERNELSPACE (u32 (addr + pages * PAGESIZE)) then false
        else if negb (rmap_status (vmap s) (BTOP addr) pages =? 1) then false
        else true).

(** [pfdb[pfn].owner], read and written *)
Definition get_owner (pfn : Z) : K V Z :=
  let* s := kget in
  let* e := kopt (pfdb (m_pf (vm_mmu s)) !! Z.to_nat pfn) in kret (word e).
Definition set_owner (pfn h : Z) : K V unit :=
  let* s := kget in
  let* e := kopt (pfdb (m_pf (vm_mmu s)) !! Z.to_nat pfn) in
  with_vmmu (with_pf (kmod (fun p => set_pfdb (<[Z.to_nat pfn := PF (tag e) h]> (pfdb p)) p))).

(** The fields of the filemap at an address. *)
Definition get_fm (a : Z) : K V filemap := let* s := kget in kopt (fmaps s !! a).
Definition put_fm (a : Z) (fm : filemap) : K V unit := kmod (fun s => set_fmaps (<[a := fm]> (fmaps s)) s).

Definition free_filemap (a : Z) : K V Z :=
  let* fm := get_fm a in
  let* _ := with_hs (hunprotect (fm_file fm)) in
  let* rc := with_hs (hfree (fm_file fm)) in
  if rc <? 0 then kret rc
  else
    let* fm := get_fm a in
    vm_free (BTOP (fm_addr fm)) (PAGES (fm_size fm)) ;;;
    let* _ := with_hs (hunprotect (fm_self fm)) in
    let* rc := with_hs (hfree (fm_self fm)) in
    if rc <? 0 then kret rc else kret 0.

Definition fetch_file_page (a addr : Z) : K V Z :=
  let* fm := get_fm a in
  let* filp := with_hs (olock (fm_file fm) OBJECT_FILE) in
  if filp =? 0 then kret (- EBADF)
  else
    let* pfn := with_vmmu (with_pf (alloc_pageframe FMAP)) in
    if pfn =? NOFRAME then
      let* _ := with_hs (orel filp) in kret (- ENOMEM)
    else
      with_vmmu (map_page addr pfn (Z.lor PT_WRITABLE PT_PRESENT)) ;;;
      let pos := u32 (addr - fm_addr fm) in
      let* rc := pread filp addr PAGESIZE (fm_offset fm + pos) in
      if rc <? 0 then
        let* _ := with_hs (orel filp) in
        with_vmmu (unmap_page addr) ;;;
        with_vmmu (with_pf (free_pageframe pfn)) ;;;
        kret rc
      else
        let* fm := get_fm a in
        set_owner pfn (fm_self fm) ;;;
        with_vmmu (map_page addr pfn (Z.lor (fm_protect fm) PT_PRESENT)) ;;;
        let* _ := with_hs (orel filp) in
        kret 0.

Definition save_file_page (a addr : Z) : K V Z :=
  let* fm := get_fm a in
  let* filp := with_hs (olock (fm_file fm) OBJECT_FILE) in
  if filp =? 0 then kret (- EBADF)
  else
    let pos := u32 (addr - fm_addr fm) in
    let* rc := pwrite filp addr PAGESIZE (fm_offset fm + pos) in
    if rc <? 0 then
      let* _ := with_hs (orel filp) in kret rc
    else
      with_vmmu (clear_dirty addr) ;;;
      let* _ := with_hs (orel filp) in
      kret 0.

(** [junk] is what the memory for the map holds. *)
Definition init_vmm (junk : list rmap) : K V unit :=
  kmod (fun s => set_vmap (rmap_init junk VMAP_ENTRIES) (vm_lost s) s) ;;;
  vm_free (BTOP VMEM_START) (BTOP (OSBASE - VMEM_START)).

(** The loop of [vmalloc] that commits pages; [false] if there is no frame. *)
Fixpoint commit_pages (n : nat) (vaddr flags t : Z) : K mmu bool :=
  match n with
  | O => kret true
  | S n' =>
      let* mapped := page_mapped vaddr in
      let* ok :=
        (if mapped then
           set_page_flags vaddr (Z.lor flags PT_PRESENT) ;;; kret true
         else
           let* pfn := with_pf (alloc_pageframe t) in
           if pfn =? NOFRAME then kret false
           else map_page vaddr pfn (Z.lor flags PT_PRESENT) ;;; kret true) in
      if ok then commit_pages n' (u32 (vaddr + PAGESIZE)) flags t else kret false
  end.

(** The first half of [vmalloc]: the address of the range, or an error. *)
Definition vm_place (addr size type : Z) : K V (Z + Z) :=
  let pages := PAGES size in
  if has MEM_RESERVE type then
    if addr =? 0 then
      let* idx :=
        (if has MEM_ALIGN64K type then vm_alloc_align pages (64 * 1024 / PAGESIZE) else vm_alloc pages) in
      let addr := PTOB idx in
      if addr =? 0 then kret (inr (- ENOMEM)) else kret (inl addr)
    else
      let* failed := vm_reserve (BTOP addr) pages in
      if failed then kret (inr (- ENOMEM)) else kret (inl addr)
  else
    let* ok := valid_range addr size in
    if ok then kret (inl addr) else kret (inr (- EFAULT)).

(** The address and [*rc]. *)
Definition vmalloc (addr size type protect t : Z) : K V (Z * Z) :=
  let pages := PAGES size in
  let flags := pte_flags_from_protect protect in
  if size =? 0 then kret (0, - EINVAL)
  else if has MEM_COMMIT type && (flags =? BADFLAGS) then kret (0, - EINVAL)
  else
    let addr := PAGEADDR addr in
    let type := if (addr =? 0) && has MEM_COMMIT type then Z.lor type MEM_RESERVE else type in
    let t := if t =? 0 then VM else t in
    let* r := vm_place addr size type in
    match r with
    | inr rc => kret (0, rc)
    | inl addr =>
        if has MEM_COMMIT type then
          let* ok := with_vmmu (commit_pages (Z.to_nat pages) addr flags t) in
          if ok then kret (addr, 0) else kret (0, - ENOMEM)
        else kret (addr, 0)
    end.

(** [for (i = 0; i < pages; i++) { map_page(vaddr, pfn, flags); vaddr += PAGESIZE; }] *)
Fixpoint map_file_pages (n : nat) (vaddr h flags : Z) : K mmu unit :=
  match n with
  | O => kret tt
  | S n' => map_page vaddr h flags ;;; map_file_pages n' (u32 (vaddr + PAGESIZE)) h flags
  end.

Definition vmmap (junk : list Z) (addr size protect filp offset : Z) : K V (Z * Z) :=
  let pages := PAGES size in
  let flags := pte_flags_from_protect protect in
  if (size =? 0) || (flags =? BADFLAGS) then kret (0, - EINVAL)
  else
    let addr := PAGEADDR addr in
    let* r :=
      (if addr =? 0 then
         let* idx := vm_alloc pages in
         let addr := PTOB idx in
         if addr =? 0 then kret (inr (- ENOMEM)) else kret (inl addr)
       else
         let* failed := vm_reserve (BTOP addr) pages in
         if failed then kret (inr (- ENOMEM)) else kret (inl addr)) in
    match r with
    | inr rc => kret (0, rc)
    | inl addr =>
        let* fm := kmalloc_filemap in
        if fm =? 0 then
          vm_free (BTOP addr) pages ;;; kret (0, - ENOMEM)
        else
          init_object fm OBJECT_FILEMAP ;;;
          let* self := with_hs (halloc junk fm) in
          let* file := with_hs (halloc junk filp) in
          if (self <? 0) || (file <? 0) then kret (0, - ENFILE)
          else
            let* _ := with_hs (hprotect self) in
            let* _ := with_hs (hprotect file) in
            set_signaled fm 1 ;;;
            put_fm fm (Filemap file offset addr size (Z.lor flags PT_FILE) pages self) ;;;
            let flags := Z.lor (Z.land flags (W32 - 1 - PT_USER)) PT_FILE in
            with_vmmu (map_file_pages (Z.to_nat pages) addr self flags) ;;;
            kret (addr, 0)
    end.

Definition FPD : Z := Z.lor PT_FILE (Z.lor PT_PRESENT PT_DIRTY).

(** [if (newfm != fm) { ... fm = newfm; rc = wait_for_object(fm, INFINITE); ... }];
    [leave] is what is done with the filemap that is locked, if there is one.
    The result is the error that is returned, or the filemap that is locked. *)
Definition change_filemap (leave : Z -> K V Z) (fm newfm : Z) : K V (Z + Z) :=
  if newfm =? fm then kret (inr fm)
  else
    let* rc := (if fm =? 0 then kret 0 else leave fm) in
    if rc <? 0 then kret (inl rc)
    else
      let* rc := wait_for_object newfm in
      if rc <? 0 then kret (inl rc) else kret (inr newfm).

(** The loop of [vmsync]: an error that is returned, or the locked filemap. *)
Fixpoint sync_pages (n : nat) (vaddr fm : Z) : K V (Z + Z) :=
  match n with
  | O => kret (inr fm)
  | S n' =>
      let* mapped := with_vmmu (page_directory_mapped vaddr) in
      let* r :=
        (if mapped then
           let* flags := with_vmmu (get_page_flags vaddr) in
           if Z.land flags FPD =? FPD then
             let* pa := with_vmmu (virt2phys vaddr) in
             let* h := get_owner (BTOP pa) in
             let* newfm := with_hs (hlookup h) in
             let* r := change_filemap unlock_filemap fm newfm in
             match r with
             | inl rc => kret (inl rc)
             | inr fm =>
                 let* rc := save_file_page fm vaddr in
                 if rc <? 0 then kret (inl rc) else kret (inr fm)
             end
           else kret (inr fm)
         else kret (inr fm)) in
      match r with
      | inl rc => kret (inl rc)
      | inr fm => sync_pages n' (u32 (vaddr + PAGESIZE)) fm
      end
  end.

Definition vmsync (addr size : Z) : K V Z :=
  let pages := PAGES size in
  if size =? 0 then kret 0
  else
    let addr := PAGEADDR addr in
    let* ok := valid_range addr size in
    if negb ok then kret (- EINVAL)
    else
      let* r := sync_pages (Z.to_nat pages) addr 0 in
      match r with
      | inl rc => kret rc
      | inr fm =>
          if fm =? 0 then kret 0
          else
            let* rc := unlock_filemap fm in
            if rc <? 0 then kret rc else kret 0
      end.

(** [if (fm->pages == 0) rc = free_filemap(fm); else rc = unlock_filemap(fm);] *)
Definition leave_filemap (a : Z) : K V Z :=
  let* fm := get_fm a in
  if fm_pages fm =? 0 then free_filemap a else unlock_filemap a.

(** The loop of [vmfree]. *)
Fixpoint free_range (n : nat) (vaddr fm : Z) : K V (Z + Z) :=
  match n with
  | O => kret (inr fm)
  | S n' =>
      let* mapped := with_vmmu (page_directory_mapped vaddr) in
      let* r :=
        (if mapped then
           let* flags := with_vmmu (get_page_flags vaddr) in
           let* pa := with_vmmu (virt2phys vaddr) in
           let pfn := BTOP pa in
           if has PT_FILE flags then
             let* h := (if has PT_PRESENT flags then get_owner pfn else kret pfn) in
             let* newfm := with_hs (hlookup h) in
             let* r := change_filemap leave_filemap fm newfm in
             match r with
             | inl rc => kret (inl rc)
             | inr a =>
                 let* fm := get_fm a in
                 put_fm a (set_fm_pages (s32 (fm_pages fm - 1)) fm) ;;;
                 with_vmmu (unmap_page vaddr) ;;;
                 (if has PT_PRESENT flags then with_vmmu (with_pf (free_pageframe pfn)) else kret tt) ;;;
                 kret (inr a)
             end
           else if has PT_PRESENT flags then
             with_vmmu (unmap_page vaddr) ;;;
             with_vmmu (with_pf (free_pageframe pfn)) ;;;
             kret (inr fm)
           else kret (inr fm)
         else kret (inr fm)) in
      match r with
      | inl rc => kret (inl rc)
      | inr fm => free_range n' (u32 (vaddr + PAGESIZE)) fm
      end
  end.

Definition vmfree (addr size type : Z) : K V Z :=
  let pages := PAGES size in
  if size =? 0 then kret 0
  else
    let addr := PAGEADDR addr in
    let* ok := valid_range addr size in
    if negb ok then kret (- EINVAL)
    else
      let* r :=
        (if has (Z.lor MEM_DECOMMIT MEM_RELEASE) type then free_range (Z.to_nat pages) addr 0
         else kret (inr 0)) in
      match r with
      | inl rc => kret rc
      | inr fm =>
          if negb (fm =? 0) then
            let* rc := leave_filemap fm in
            if rc <? 0 then kret rc else kret 0
          else if has MEM_RELEASE type then
            vm_free (BTOP addr) pages ;;; kret 0
          else kret 0
      end.

Definition vmrealloc (addr oldsize newsize type protect t : Z) : K V Z := kret 0.

(** The loop of [vmprotect]. *)
Fixpoint protect_pages (n : nat) (vaddr flags : Z) : K mmu unit :=
  match n with
  | O => kret tt
  | S n' =>
      let* mapped := page_mapped vaddr in
      (if mapped then
         let* f := get_page_flags vaddr in
         set_page_flags vaddr (Z.lor (Z.land f (W32 - 1 - PT_PROTECTMASK)) flags)
       else kret tt) ;;;
      protect_pages n' (u32 (vaddr + PAGESIZE)) flags
  end.

Definition vmprotect (addr size protect : Z) : K V Z :=
  let pages := PAGES size in
  if size =? 0 then kret 0
  else
    let addr := PAGEADDR addr in
    let* ok := valid_range addr size in
    if negb ok then kret (- EINVAL)
    else
      let flags := pte_flags_from_protect protect in
      if flags =? BADFLAGS then kret (- EINVAL)
      else
        with_vmmu (protect_pages (Z.to_nat pages) addr flags) ;;;
        kret 0.

Definition vmlock (addr size : Z) : K V Z := kret (- ENOSYS).

Definition vmunlock (addr size : Z) : K V Z := kret (- ENOSYS).

(** The loops of [miomap] and [miounmap]. *)
Fixpoint map_io_pages (n : nat) (vaddr pfn flags : Z) : K mmu unit :=
  match n with
  | O => kret tt
  | S n' => map_page vaddr pfn flags ;;; map_io_pages n' (u32 (vaddr + PAGESIZE)) (u32 (pfn + 1)) flags
  end.

Fixpoint unmap_io_pages (n : nat) (vaddr : Z) : K mmu unit :=
  match n with
  | O => kret tt
  | S n' => unmap_page vaddr ;;; unmap_io_pages n' (u32 (vaddr + PAGESIZE))
  end.

Definition miomap (physaddr size protect : Z) : K V Z :=
  let flags := pte_flags_from_protect protect in
  let pfn := BTOP physaddr in
  let pages := PAGES size in
  let* idx := vm_alloc pages in
  let addr := PTOB idx in
  if addr =? 0 then kret 0
  else
    with_vmmu (map_io_pages (Z.to_nat pages) addr pfn (Z.lor flags PT_PRESENT)) ;;;
    kret addr.

Definition miounmap (addr size : Z) : K V unit :=
  let pages := PAGES size in
  with_vmmu (unmap_io_pages (Z.to_nat pages) addr) ;;;
  vm_free (BTOP addr) pages.

(** The fields of the thread information block that describe the stack. *)
Record stack := Stack { stacktop : Z; stacklimit : Z; stackbase : Z }.

(** [tib] is that of the running thread, if it has one. *)
Definition guard_page_handler (tib : option stack) (addr : Z) : K V (Z * option stack) :=
  match tib with
  | None => kret (- EFAULT, tib)
  | Some st =>
      if (addr <? stacklimit st) || (stacktop st <=? addr) then kret (- EFAULT, tib)
      else if stacklimit st <=? stackbase st then kret (- EFAULT, tib)
      else
        let* pfn := with_vmmu (with_pf (alloc_pageframe STK)) in
        if pfn =? NOFRAME then kret (- ENOMEM, tib)
        else
          let limit := u32 (stacklimit st - PAGESIZE) in
          with_vmmu (map_page limit pfn (Z.lor PT_GUARD (Z.lor PT_WRITABLE PT_PRESENT))) ;;;
          kret (0, Some (Stack (stacktop st) limit (stackbase st)))
  end.

Definition fetch_page (addr : Z) : K V Z :=
  let* h := with_vmmu (virt2pfn addr) in
  let* fm := with_hs (olock h OBJECT_FILEMAP) in
  if fm =? 0 then kret (- EBADF)
  else
    let* rc := wait_for_object fm in
    if rc <? 0 then
      let* _ := with_hs (orel fm) in kret rc
    else
      let* mapped := with_vmmu (page_mapped addr) in
      let* rc := (if negb mapped then fetch_file_page fm addr else kret 0) in
      if rc <? 0 then
        let* _ := unlock_filemap fm in
        let* _ := with_hs (orel fm) in
        kret rc
      else
        let* rc := unlock_filemap fm in
        if rc <? 0 then kret rc
        else
          let* _ := with_hs (orel fm) in
          kret 0.

Record meminfo := Meminfo {
  physmem_total : Z;
  physmem_avail : Z;
  virtmem_total : Z;
  virtmem_avail : Z;
  pagesize : Z;
}.

(** [for (r = &vmap[1]; r <= rlim; r++) free += r->size;] *)
Fixpoint sum_sizes (n r : nat) (m : list rmap) (free : Z) : Z :=
  match n with
  | O => free
  | S n' => sum_sizes n' (S r) m (u32 (free + size (m !!! r)))
  end.

Definition mem_sysinfo : K V (Z * meminfo) :=
  let* s := kget in
  let free := sum_sizes (rlim_of (vmap s)) 1 (vmap s) 0 in
  let pf := m_pf (vm_mmu s) in
  kret (0, Meminfo (u32 (totalmem pf * PAGESIZE)) (u32 (freemem pf * PAGESIZE))
             (OSBASE - VMEM_START) (u32 (free * PAGESIZE)) PAGESIZE).

End vmm.

(** ** Pages and flags *)

(** The address of page [p]. *)
Definition va (p : Z) : Z := u32 (p * PAGESIZE).

Lemma va_next p : u32 (va p + PAGESIZE) = va (p + 1).
Proof. unfold va. rewrite u32_add_l. f_equal. lia. Qed.

Lemma va_small p : 0 <= p < 1048576 -> va p = p * 4096.
Proof. intros H. unfold va, PAGESIZE. apply u32_small. u32_lia. Qed.

Lemma va_page p : 0 <= p < 1048576 -> PTABIDX (va p) = p.
Proof. intros H. rewrite va_small, PTABIDX_div by done. by apply Z.div_mul. Qed.

Lemma va_BTOP p : 0 <= p < 1048576 -> BTOP (va p) = p.
Proof. apply va_page. Qed.

Lemma PAGEADDR_va addr : is_u32 addr -> PAGEADDR addr = va (BTOP addr) /\ 0 <= BTOP addr < 1048576.
Proof.
  intros H. change (BTOP addr) with (PTABIDX addr). rewrite PTABIDX_div.
  assert (0 <= addr / 4096 < 1048576) as Hd.
  { split; [apply Z.div_pos|apply Z.div_lt_upper_bound]; u32_lia. }
  split; [|done]. rewrite va_small by done. by apply land_pfnmask.
Qed.

Lemma has_low f x : 0 <= f < 4096 -> has f x = has f (x mod 4096).
Proof. intros Hf. unfold has. by rewrite land_low. Qed.

(** The flags that [get_page_flags] returns show those of the entry. *)
Lemma has_flags f x : Z.land PT_FLAGMASK f = f -> has f (Z.land x PT_FLAGMASK) = has f x.
Proof. intros Hf. unfold has. by rewrite <- Z.land_assoc, Hf. Qed.

(** The page table flags that protections stand for. *)
Definition prot_flags (f : Z) : Prop :=
  f = 0 \/ f = PT_USER \/ f = Z.lor PT_USER PT_WRITABLE \/ f = PT_GUARD \/ f = Z.lor PT_GUARD PT_WRITABLE.

Lemma pte_flags_spec protect :
  pte_flags_from_protect protect = BADFLAGS \/
  (pte_flags_from_protect protect <> BADFLAGS /\ prot_flags (pte_flags_from_protect protect)).
Proof.
  unfold pte_flags_from_protect, prot_flags. repeat ctest; auto; right; (split; [done|tauto]).
Qed.

Lemma prot_flags_facts f : prot_flags f ->
  0 <= f < 4096 /\ 0 <= Z.lor f PT_PRESENT < 4096 /\ has PT_PRESENT (Z.lor f PT_PRESENT) = true /\
  has PT_FILE (Z.lor f PT_PRESENT) = false /\ Z.land (Z.lor f PT_PRESENT) PT_PROTECTMASK = f.
Proof. by intros [-> |[-> |[-> |[-> | ->]]]]. Qed.

(** The flags that [vmprotect] gives to a page. *)
Lemma reprotect_facts f x : prot_flags f ->
  let f' := Z.lor (Z.land (Z.land x PT_FLAGMASK) (W32 - 1 - PT_PROTECTMASK)) f in
  0 <= f' < 4096 /\ has PT_PRESENT f' = has PT_PRESENT x /\ has PT_FILE f' = has PT_FILE x /\
  Z.land f' PT_PROTECTMASK = f.
Proof.
  intros Hf f'. set (m := Z.land PT_FLAGMASK (W32 - 1 - PT_PROTECTMASK)).
  assert (Hf' : f' = Z.lor (Z.land x m) f) by (unfold f', m; by rewrite Z.land_assoc).
  assert (Hand : forall g, Z.land f' g = Z.lor (Z.land x (Z.land m g)) (Z.land f g))
    by (intros g; by rewrite Hf', Z.land_lor_distr_l, Z.land_assoc).
  assert (Hp : Z.land f PT_PRESENT = 0 /\ Z.land f PT_FILE = 0 /\ Z.land f PT_PROTECTMASK = f).
  { by destruct Hf as [-> |[-> |[-> |[-> | ->]]]]. }
  destruct Hp as (Hp1 & Hp2 & Hp3). split_and!.
  - rewrite Hf'. apply Z.lor_nonneg. split; [apply Z.land_nonneg; right; done|]. by destruct Hf as [-> |[-> |[-> |[-> | ->]]]].
  - rewrite Hf', land_low by done. apply Z.log2_lt_cancel. change (Z.log2 4096) with 12. assert (0 <= x mod 4096 < 4096) by (apply Z.mod_pos_bound; lia).
    rewrite Z.log2_lor; [|apply Z.land_nonneg; left; lia|by destruct Hf as [-> |[-> |[-> |[-> | ->]]]]].
    apply Z.max_lub_lt; [|by destruct Hf as [-> |[-> |[-> |[-> | ->]]]]].
    pose proof (Z.log2_land (x mod 4096) m ltac:(lia) ltac:(done)) as Hl. change (Z.log2 m) with 10 in Hl. lia.
  - unfold has. by rewrite Hand, Hp1, Z.lor_0_r.
  - unfold has. by rewrite Hand, Hp2, Z.lor_0_r.
  - rewrite Hand, Hp3. change (Z.land m PT_PROTECTMASK) with 0. by rewrite Z.land_0_r.
Qed.

(** ** Ownership of user pages *)

Lemma pages_of_0 p : pages_of p 0 = ∅.
Proof. apply set_eq. intros q. rewrite elem_of_pages. set_solver by lia. Qed.

(** The flags of live pages change, their frames stay. *)
Lemma owns_reflag m m' live :
  owns m live ∅ -> mmu_wf m' -> m_pf m' = m_pf m -> pdir m' = pdir m ->
  (forall q, q ∈ live -> view m' q / 4096 = view m q / 4096 /\ has PT_PRESENT (view m' q) = true) ->
  owns m' live ∅.
Proof.
  intros [fl [Hw R Hu Hi Hp]] Hw' Hm Hpd Hv. exists fl.
  assert (Hus : forall u f, uses m' live ∅ u f -> uses m live ∅ u f).
  { intros [q|d|g] f; simpl; [|by rewrite Hpd|done]. intros [Hq ->]. by rewrite (proj1 (Hv q Hq)). }
  split; rewrite ?Hm; [done..| | |].
  - intros u f H%Hus. by apply (Hu u).
  - intros u u' f H%Hus H'%Hus. by apply (Hi u u' f).
  - intros q Hq. by apply Hv.
Qed.

Lemma owns_set_flags m live v flags :
  owns m live ∅ -> PTABIDX v ∈ live -> 0 <= flags < 4096 -> has PT_PRESENT flags = true ->
  exists m', set_page_flags v flags m = Done (tt, m') /\ owns m' live ∅ /\ m_pf m' = m_pf m /\
    updated v (view m (PTABIDX v) / 4096 * 4096 + flags) m m'.
Proof.
  intros O Hq Hf Hpr. pose proof O as [fl [Hw _ _ _ Hp]]. pose proof (present_pde _ _ (Hp _ Hq)) as Hd.
  destruct (set_page_flags_spec m v flags Hd Hw Hf) as (m' & E & Hw' & Hm & Hpd & Hup).
  exists m'. split_and!; [done| |done..]. apply (owns_reflag m m' live O Hw' Hm Hpd). intros q Hin. rewrite Hup.
  destruct (decide (q = PTABIDX v)) as [->|]; [|split; [done|by apply Hp]].
  rewrite has_low, Z.add_comm, Z.mod_add, Z.div_add, (Z.mod_small flags), (Z.div_small flags) by done. done.
Qed.

(** [unmap_page(v); free_pageframe(pfn);] on a live page. *)
Lemma owns_drop_page m live v :
  owns m live ∅ -> PTABIDX v ∈ live ->
  exists m1 m2, unmap_page v m = Done (tt, m1) /\
    with_pf (free_pageframe (view m (PTABIDX v) / 4096)) m1 = Done (tt, m2) /\
    owns m2 (live ∖ {[PTABIDX v]}) ∅ /\ updated v 0 m m2 /\ freemem (m_pf m2) = freemem (m_pf m) + 1.
Proof.
  intros O Hq. pose proof O as [fl [Hw _ _ _ Hp]]. pose proof (present_pde _ _ (Hp _ Hq)) as Hd.
  destruct (owns_disown _ _ _ _ O Hq) as (_ & O1). set (f := view m (PTABIDX v) / 4096) in *.
  destruct (owns_unmap_page m _ _ v O1) as (m1 & E1 & O2 & Hup & _ & Hm); [set_solver|done|].
  destruct (owns_free_pageframe m1 _ _ f O2) as (m2 & E2 & O3 & Hv & _ & _ & Hfm & _); [set_solver|].
  exists m1, m2. split_and!; [done..| | |by rewrite Hfm, Hm].
  - by assert (({[f]} ∪ ∅) ∖ {[f]} = (∅ : gset Z)) as <- by set_solver.
  - intros n. by rewrite Hv, Hup.
Qed.

(** ** The loops *)

(** One page is committed. *)
Lemma commit_step flags t n p m live :
  owns m live ∅ -> prot_flags flags -> t <> FREE -> 0 <= p < 1048576 ->
  (has PT_PRESENT (view m p) = true -> p ∈ live) ->
  (freemem (m_pf m) < 2 /\ commit_pages (S n) (va p) flags t m = Panic "out of memory") \/
  exists m1, commit_pages (S n) (va p) flags t m = commit_pages n (va (p + 1)) flags t m1 /\
    owns m1 ({[p]} ∪ live) ∅ /\ (forall q, q <> p -> view m1 q = view m q) /\
    view m1 p mod 4096 = Z.lor flags PT_PRESENT /\ freemem (m_pf m) - 2 <= freemem (m_pf m1).
Proof.
  intros O Hfl Ht Hp Hpr. destruct (prot_flags_facts flags Hfl) as (_ & Hb & Hpb & _).
  assert (Hpm : page_mapped (va p) m = Done (has PT_PRESENT (view m p), m)) by (by rewrite page_mapped_view, va_page by lia).
  cbn [commit_pages]. rewrite va_next. destruct (has PT_PRESENT (view m p)) eqn:Hm.
  - right. assert (Hin : PTABIDX (va p) ∈ live) by (rewrite va_page by lia; by apply Hpr).
    destruct (owns_set_flags m live (va p) _ O Hin Hb Hpb) as (m1 & E & O1 & Hm1 & Hup). kx. rewrite Hpm, E.
    exists m1. split; [done|]. rewrite va_page in * by lia.
    replace ({[p]} ∪ live) with live by set_solver. split_and!; [done|..|rewrite Hm1; lia].
    + intros q Hq. by rewrite Hup, va_page, decide_False by lia.
    + rewrite Hup, va_page, decide_True by lia. by rewrite Z.add_comm, Z.mod_add, Z.mod_small by lia.
  - assert (Hnl : PTABIDX (va p) ∉ live).
    { rewrite va_page by lia. intros Hin. pose proof O as [fl [_ _ _ _ Hpr']]. by rewrite Hpr' in Hm. }
    destruct (owns_alloc_pageframe m live ∅ t O Ht)
      as [[Hfm E]|(f & m1 & E & _ & O1 & Hv1 & _ & _ & Hfm1 & _)]; kx; rewrite Hpm, E; [left; split; [lia|done]|].
    pose proof (held_range _ _ _ f O1 ltac:(set_solver)) as Hfr.
    destruct (Z.eqb_spec f NOFRAME) as [->|_]; [unfold NOFRAME in Hfr; lia|].
    destruct (owns_map_held m1 live _ (va p) f _ O1 Hnl ltac:(set_solver) Hb Hpb)
      as [[Hfm E2]|(m2 & E2 & O2 & Hup & _ & Hfm2 & _)]; rewrite E2; [left; split; [lia|done]|right].
    exists m2. split; [done|]. rewrite va_page in * by lia.
    assert (({[f]} ∪ ∅) ∖ {[f]} = (∅ : gset Z)) as Hemp by set_solver. rewrite Hemp in O2. split_and!; [done|..|lia].
    + intros q Hq. by rewrite Hup, va_page, decide_False, Hv1 by lia.
    + rewrite Hup, va_page, decide_True by lia. rewrite PTOB_small, lor_pte, Z.add_comm by done.
      by rewrite Z.mod_add, Z.mod_small by lia.
Qed.

Lemma commit_pages_spec flags t : forall n p m live,
  owns m live ∅ -> prot_flags flags -> t <> FREE -> 0 <= p -> p + Z.of_nat n <= 1048576 ->
  (forall q, p <= q < p + Z.of_nat n -> has PT_PRESENT (view m q) = true -> q ∈ live) ->
  (freemem (m_pf m) < 2 * Z.of_nat n /\ commit_pages n (va p) flags t m = Panic "out of memory") \/
  exists m', commit_pages n (va p) flags t m = Done (true, m') /\
    owns m' (pages_of p (Z.of_nat n) ∪ live) ∅ /\ view_outside p (Z.of_nat n) m m' /\
    (forall q, p <= q < p + Z.of_nat n -> view m' q mod 4096 = Z.lor flags PT_PRESENT) /\
    freemem (m_pf m) - 2 * Z.of_nat n <= freemem (m_pf m').
Proof.
  induction n as [|n IH]; intros p m live O Hfl Ht Hp Hn Hpr.
  { right. exists m. cbn. split_and!; [done| |done|lia|lia].
    by rewrite pages_of_0, union_empty_l_L. }
  destruct (commit_step flags t n p m live O Hfl Ht) as [[Hf E]|(m1 & E & O1 & Hv1 & Hlow & Hf1)];
    [lia|apply Hpr; lia|left; split; [lia|done]|]. rewrite E.
  destruct (IH (p + 1) m1 ({[p]} ∪ live) O1 Hfl Ht) as [[Hf E2]|(m' & E2 & O2 & Hv2 & Hin & Hf2)]; [lia|lia| |left; split; [lia|done]|].
  { intros q Hq. rewrite Hv1 by lia. intros Hp'. apply elem_of_union. right. apply Hpr; [lia|done]. }
  right. exists m'. split_and!; [done|..|lia].
  - replace (Z.of_nat (S n)) with (Z.of_nat n + 1) by lia. rewrite pages_of_S by lia.
    by rewrite (union_comm_L {[p]}), <- union_assoc_L.
  - intros q Hq. rewrite Hv2, Hv1 by lia. done.
  - intros q Hq. destruct (decide (q = p)) as [->|]; [|apply Hin; lia]. by rewrite Hv2 by lia.
Qed.

(** The entry of a page after [vmprotect]. *)
Definition reprot (flags e : Z) : Z :=
  if has PT_PRESENT e
  then e / 4096 * 4096 + Z.lor (Z.land (Z.land e PT_FLAGMASK) (W32 - 1 - PT_PROTECTMASK)) flags
  else e.

Lemma protect_pages_spec flags : forall n p m,
  mmu_wf m -> prot_flags flags -> 0 <= p -> p + Z.of_nat n <= 1048576 ->
  exists m', protect_pages n (va p) flags m = Done (tt, m') /\ mmu_wf m' /\ m_pf m' = m_pf m /\ pdir m' = pdir m /\
    view_outside p (Z.of_nat n) m m' /\
    forall q, p <= q < p + Z.of_nat n -> view m' q = reprot flags (view m q).
Proof.
  induction n as [|n IH]; intros p m Hw Hfl Hp Hn.
  { exists m. split_and!; [done..|]. intros q Hq. lia. }
  assert (Hstep : exists m1, protect_pages (S n) (va p) flags m = protect_pages n (va (p + 1)) flags m1 /\
    mmu_wf m1 /\ m_pf m1 = m_pf m /\ pdir m1 = pdir m /\
    (forall q, view m1 q = if decide (q = p) then reprot flags (view m p) else view m q)).
  { assert (Hpm : page_mapped (va p) m = Done (has PT_PRESENT (view m p), m)) by (by rewrite page_mapped_view, va_page by lia).
    cbn [protect_pages]. rewrite va_next. kx. rewrite Hpm. unfold reprot. destruct (has PT_PRESENT (view m p)) eqn:Hm.
    - assert (Hd : has PT_PRESENT (pde m (va p)) = true) by (apply present_pde; by rewrite va_page by lia).
      rewrite get_page_flags_view, va_page by (done || lia).
      destruct (reprotect_facts flags (view m p) Hfl) as (Hb & _).
      destruct (set_page_flags_spec m (va p) _ Hd Hw Hb) as (m1 & E & Hw1 & Hm1 & Hd1 & Hup). rewrite E.
      exists m1. split_and!; [done..|]. intros q. rewrite Hup, va_page by lia. done.
    - exists m. split_and!; [done..|]. intros q. by destruct (decide (q = p)) as [->|]. }
  destruct Hstep as (m1 & E & Hw1 & Hm1 & Hd1 & Hv1). rewrite E.
  destruct (IH (p + 1) m1 Hw1 Hfl) as (m' & E' & Hw' & Hm' & Hd' & Hv' & Hin); [lia..|]. rewrite E'.
  exists m'. split_and!; [done|done|congruence|congruence|..].
  - intros q Hq. by rewrite Hv', Hv1, decide_False by lia.
  - intros q Hq. destruct (decide (q = p)) as [->|]; [by rewrite Hv', Hv1, decide_True by lia|].
    by rewrite Hin, Hv1, decide_False by lia.
Qed.

Lemma reprot_facts flags e : prot_flags flags -> 0 <= e ->
  reprot flags e / 4096 = e / 4096 /\ has PT_PRESENT (reprot flags e) = has PT_PRESENT e /\
  has PT_FILE (reprot flags e) = has PT_FILE e /\
  (has PT_PRESENT e = true -> Z.land (reprot flags e) PT_PROTECTMASK = flags).
Proof.
  intros Hfl He. unfold reprot. destruct (has PT_PRESENT e) eqn:Hp; [|by rewrite Hp].
  destruct (reprotect_facts flags e Hfl) as (Hb & H1 & H2 & H3). set (f := Z.lor _ flags) in *.
  assert (Hmod : (e / 4096 * 4096 + f) mod 4096 = f) by (by rewrite Z.add_comm, Z.mod_add, Z.mod_small).
  split_and!.
  - by rewrite Z.add_comm, Z.div_add, Z.div_small by lia.
  - by rewrite has_low, Hmod, H1.
  - by rewrite has_low, Hmod, H2.
  - intros _. by rewrite land_low, Hmod.
Qed.

Section Spec.
Context {W : Type} `{!ObjectOps W} `{!FileMapOps W}.
Implicit Types s : vmm W.

Lemma set_vmmu_id s : set_vmmu (vm_mmu s) s = s.
Proof. by destruct s as [[]]. Qed.

Lemma free_step n p s live :
  owns (vm_mmu s) live ∅ -> 0 <= p < 1048576 ->
  (has PT_PRESENT (view (vm_mmu s) p) = true -> p ∈ live) -> has PT_FILE (view (vm_mmu s) p) = false ->
  exists m1, free_range (S n) (va p) 0 s = free_range n (va (p + 1)) 0 (set_vmmu m1 s) /\
    owns m1 (live ∖ {[p]}) ∅ /\ (forall q, q <> p -> view m1 q = view (vm_mmu s) q) /\
    has PT_PRESENT (view m1 p) = false /\ has PT_FILE (view m1 p) = false.
Proof.
  intros O Hp Hl Hfile. cbn [free_range]. rewrite va_next. unfold with_vmmu. kx.
  pose proof O as [fl [Hw _ _ _ Hpr]].
  assert (Hq : PTABIDX (va p) = p) by (by apply va_page).
  assert (Hnone : has PT_PRESENT (view (vm_mmu s) p) = false -> owns (vm_mmu s) (live ∖ {[p]}) ∅).
  { intros Hm. replace (live ∖ {[p]}) with live; [done|]. apply set_eq. intros q. rewrite elem_of_difference, elem_of_singleton.
    split; [|tauto]. intros Hin. split; [done|]. intros ->. by rewrite Hpr in Hm. }
  unfold page_directory_mapped. kx. unfold GET_PDE. rewrite has_test, negb_involutive.
  destruct (has PT_PRESENT (pde (vm_mmu s) (va p))) eqn:Hd.
  2:{ assert (Hv : view (vm_mmu s) p = 0).
      { unfold view. unfold pde in Hd. rewrite PDEIDX_PTABIDX, Hq in Hd. by rewrite Hd. }
      exists (vm_mmu s). rewrite Hv in *. by split_and!; auto. }
  rewrite set_vmmu_id, get_page_flags_view, Hq by done. rewrite set_vmmu_id, virt2phys_view, Hq by done.
  rewrite !has_flags, Hfile by done. destruct (has PT_PRESENT (view (vm_mmu s) p)) eqn:Hm.
  2:{ exists (vm_mmu s). rewrite Hm. by split_and!; auto. }
  destruct (owns_drop_page (vm_mmu s) live (va p) O) as (m1 & m2 & E1 & E2 & O2 & Hup & _); [rewrite Hq; auto|].
  rewrite set_vmmu_id, E1. cbn [vm_mmu set_vmmu set_hs vm_hs hs_mmu set_hmmu]. rewrite Hq in E2.
  assert (BTOP (view (vm_mmu s) p / 4096 * 4096 + va p mod 4096) = view (vm_mmu s) p / 4096) as ->.
  { unfold BTOP, PAGESHIFT. rewrite Z.shiftr_div_pow2 by lia. change (2 ^ 12) with 4096.
    rewrite Z.div_add_l, (Z.div_small (_ mod _)), Z.add_0_r by (try apply Z.mod_pos_bound; lia). done. }
  rewrite E2. exists m2. rewrite Hq in O2. split_and!; [done..| | |].
  - intros q Hne. by rewrite Hup, Hq, decide_False.
  - by rewrite Hup, Hq, decide_True.
  - by rewrite Hup, Hq, decide_True.
Qed.
Lemma free_range_spec : forall n p s live,
  owns (vm_mmu s) live ∅ -> 0 <= p -> p + Z.of_nat n <= 1048576 ->
  (forall q, p <= q < p + Z.of_nat n -> has PT_PRESENT (view (vm_mmu s) q) = true -> q ∈ live) ->
  (forall q, p <= q < p + Z.of_nat n -> has PT_FILE (view (vm_mmu s) q) = false) ->
  exists m', free_range n (va p) 0 s = Done (inr 0, set_vmmu m' s) /\
    owns m' (live ∖ pages_of p (Z.of_nat n)) ∅ /\ view_outside p (Z.of_nat n) (vm_mmu s) m' /\
    forall q, p <= q < p + Z.of_nat n -> has PT_PRESENT (view m' q) = false /\ has PT_FILE (view m' q) = false.
Proof.
  induction n as [|n IH]; intros p s live O Hp Hn Hl Hf.
  { exists (vm_mmu s). cbn [free_range]. rewrite set_vmmu_id, pages_of_0, difference_empty_L. split_and!; [done..|lia]. }
  destruct (free_step n p s live O) as (m1 & E & O1 & Hv1 & Hp1 & Hf1); [lia|apply Hl; lia|apply Hf; lia|]. rewrite E.
  destruct (IH (p + 1) (set_vmmu m1 s) (live ∖ {[p]}) O1) as (m' & E' & O' & Hv' & Hin); [lia|lia|..].
  { intros q Hq. cbn. rewrite Hv1 by lia. intros Hpr. apply elem_of_difference. split; [apply Hl; [lia|done]|set_solver by lia]. }
  { intros q Hq. cbn. rewrite Hv1 by lia. apply Hf. lia. }
  exists m'. split_and!; [done|..].
  - replace (Z.of_nat (S n)) with (Z.of_nat n + 1) by lia. by rewrite pages_of_S, <- difference_difference_l_L by lia.
  - intros q Hq. rewrite Hv' by lia. cbn. by rewrite Hv1 by lia.
  - intros q Hq. destruct (decide (q = p)) as [->|]; [|apply Hin; lia]. rewrite Hv' by lia. cbn. by split.
Qed.

(** ** The address space *)

(** The pages of user space. *)
Definition upage (q : Z) : Prop := 16 <= q < 524288.

(** What a process sees of a page: whether it is reserved, and with which
    protection it is committed. *)
Definition reserved (s : vmm W) (q : Z) : Prop := upage q /\ ~ In_free (vmap s) q.

Definition committed (s : vmm W) (q : Z) : option Z :=
  let e := view (vm_mmu s) q in
  if has PT_PRESENT e then Some (Z.land e PT_PROTECTMASK) else None.

Definition map_full (m : list rmap) : Prop := size (m !!! 0%nat) = offset (m !!! 0%nat).

(** Frames are used once; the committed pages of user space are live and
    reserved; there are no file pages. *)
Record vinv (live : gset Z) (s : vmm W) : Prop := {
  vi_map : rmap_wf (vmap s);
  vi_lost : is_u32 (vm_lost s);
  vi_free : forall q, In_free (vmap s) q -> upage q;
  vi_owns : owns (vm_mmu s) live ∅;
  vi_live : forall q, upage q -> has PT_PRESENT (view (vm_mmu s) q) = true -> q ∈ live;
  vi_file : forall q, upage q -> has PT_FILE (view (vm_mmu s) q) = false;
  vi_resv : forall q, q ∈ live -> ~ In_free (vmap s) q;
}.

(** The range of [n] pages from [p] on. *)
Definition in_range (p n q : Z) : Prop := p <= q < p + n.

#[global] Instance in_range_dec p n q : Decision (in_range p n q).
Proof. unfold in_range. apply _. Defined.

Lemma PAGES_bound sz : 0 < sz <= W32 - 4096 -> 0 < PAGES sz < 1048576.
Proof.
  intros H. unfold PAGES, PAGESHIFT, PAGESIZE. rewrite u32_small by u32_lia.
  rewrite Z.shiftr_div_pow2 by lia. change (2 ^ 12) with 4096.
  split; [apply Z.div_str_pos; lia|apply Z.div_lt_upper_bound; u32_lia].
Qed.

(** A range below the top of the address space is valid if all its pages are
    reserved; the last page of user space is never in a valid range. *)
Lemma valid_range_spec p sz s live :
  vinv live s -> 0 < sz <= W32 - 4096 -> 0 <= p -> p + PAGES sz < 1048576 ->
  exists b, valid_range (va p) sz s = Done (b, s) /\
    (b = true <-> p + PAGES sz < 524288 /\ forall q, in_range p (PAGES sz) q -> reserved s q).
Proof.
  intros I Hsz Hp Hn. pose proof (PAGES_bound sz Hsz) as Hpg. unfold valid_range. kx. eexists. split; [done|].
  assert (Hend : u32 (va p + PAGES sz * PAGESIZE) = (p + PAGES sz) * 4096).
  { rewrite va_small by lia. unfold PAGESIZE. rewrite u32_small; [lia|u32_lia]. }
  rewrite Hend, va_BTOP, va_small by lia. unfold VMEM_START, KERNELSPACE, OSBASE.
  destruct (Z.ltb_spec (p * 4096) (64 * 1024)) as [Hlow|Hlow].
  { split; [done|]. intros [_ H]. destruct (H p) as [Hu _]; [unfold in_range; lia|]. unfold upage in Hu. lia. }
  destruct (Z.leb_spec 0x80000000 ((p + PAGES sz) * 4096)) as [Hk|Hk]; [split; [done|lia]|].
  destruct I as [[cap [R C]] _ _ _ _ _ _].
  pose proof (rmap_status_from_rep cap [] (ents (vmap s)) (vmap s) p (PAGES sz) R C ltac:(lia) ltac:(lia) ltac:(u32_lia)) as Hst.
  cbn [length] in Hst. unfold rmap_status. rewrite (rep_rlim _ _ _ R).
  destruct (Z.eqb_spec (rmap_status_from (length (ents (vmap s))) 1 (vmap s) p (PAGES sz)) 1) as [E|E].
  - rewrite E in Hst. cbn [negb]. split; [|done]. intros _. split; [lia|]. intros q Hq.
    split; [unfold upage, in_range in *; lia|]. apply Hst. exact Hq.
  - cbn [negb]. split; [done|]. intros [_ H]. exfalso.
    assert (Hno : forall y, In_range p (PAGES sz) y -> ~ covers (ents (vmap s)) y) by (intros y Hy; by apply H).
    destruct (rmap_status_from _ _ _ _ _) as [|[]|[]]; try done.
    + apply (Hno p); [unfold In_range; lia|]. apply Hst. unfold In_range. lia.
    + destruct Hst as [(y & Hy & Hc) _]. by apply (Hno y).
Qed.
(** Why there is no place for [n] pages at page [p0], or anywhere if [p0] is 0. *)
Definition no_place (s : vmm W) (p0 n type rc : Z) : Prop :=
  let free x := forall q, in_range x n q -> In_free (vmap s) q in
  if has MEM_RESERVE type then
    rc = - ENOMEM /\
    if p0 =? 0 then forall x, (has MEM_ALIGN64K type = true -> x mod 16 = 0) -> ~ free x else ~ free p0
  else rc = - EFAULT /\ ~ (p0 + n < 524288 /\ forall q, in_range p0 n q -> reserved s q).

(** The place chosen: page [p]; [k] pages below are lost if the map is full. *)
Definition place (s : vmm W) (p0 n type p k : Z) : Prop :=
  (forall q, in_range p n q -> upage q) /\ 0 <= k /\ (k <> 0 -> map_full (vmap s)) /\
  (p0 <> 0 -> p = p0) /\
  (has MEM_RESERVE type = true -> (p0 = 0 -> has MEM_ALIGN64K type = true -> p mod 16 = 0) /\
     forall q, in_range p n q -> In_free (vmap s) q) /\
  (has MEM_RESERVE type = false -> p = p0 /\ k = 0 /\ forall q, in_range p n q -> reserved s q).

(** [k] pages below [p] and [n] pages from [p] on are no longer free. *)
Definition shrunk (s s' : vmm W) (p n k : Z) : Prop :=
  forall q, In_free (vmap s') q <-> In_free (vmap s) q /\ ~ in_range (p - k) (n + k) q.

Lemma set_vmap_id s : set_vmap (vmap s) (vm_lost s) s = s.
Proof. by destruct s. Qed.

Lemma vinv_shrunk live s m lost p n k :
  vinv live s -> rmap_wf m -> is_u32 lost -> shrunk s (set_vmap m lost s) p n k -> vinv live (set_vmap m lost s).
Proof.
  intros [H1 H2 H3 H4 H5 H6 H7] Hm Hl Hs. split; try done.
  - intros q [Hq _]%Hs. by apply H3.
  - intros q Hq [Hf _]%Hs. by apply (H7 q).
Qed.

Lemma PTOB_va p : 0 <= p < 1048576 -> PTOB p = va p.
Proof. intros H. rewrite PTOB_small, Z.shiftl_mul_pow2, va_small by lia. done. Qed.

Lemma va_zero p : 0 <= p < 1048576 -> (va p =? 0) = (p =? 0).
Proof. intros H. rewrite va_small by done. destruct (Z.eqb_spec (p * 4096) 0), (Z.eqb_spec p 0); (done || lia). Qed.

Lemma reserve_place live s p n m lost :
  vinv live s -> 0 < n < 1048576 -> 0 < p -> p + n < 2097152 ->
  rmap_reserve (vmap s) (vm_lost s) p n = (false, (m, lost)) ->
  (forall q, in_range p n q -> In_free (vmap s) q) /\
  exists k, 0 <= k /\ (k <> 0 -> map_full (vmap s)) /\ shrunk s (set_vmap m lost s) p n k /\
    vinv live (set_vmap m lost s).
Proof.
  intros I Hn Hp Hb E.
  pose proof (rmap_reserve_spec (vmap s) (vm_lost s) p n (vi_map _ _ I) ltac:(lia) Hp ltac:(u32_lia) (vi_lost _ _ I)) as Hr.
  rewrite E in Hr. destruct Hr as (Hw & Hall & k & Hk & -> & Hfull & Hfree & _). split; [exact Hall|].
  exists k. split_and!; [lia|exact Hfull|exact Hfree|]. eapply vinv_shrunk; [exact I|done|apply u32_range|exact Hfree].
Qed.

Lemma vm_place_reserve live s p0 sz type :
  vinv live s -> 0 < sz <= W32 - 4096 -> 0 <= p0 -> p0 + PAGES sz < 1048576 -> has MEM_RESERVE type = true ->
  exists r s', vm_place (va p0) sz type s = Done (r, s') /\ vinv live s' /\ vm_mmu s' = vm_mmu s /\
    match r with
    | inr rc => s' = s /\ no_place s p0 (PAGES sz) type rc
    | inl a => exists p k, a = va p /\ place s p0 (PAGES sz) type p k /\ shrunk s s' p (PAGES sz) k
    end.
Proof.
  intros I Hsz Hp Hn Hres. pose proof (PAGES_bound sz Hsz) as Hpg. unfold vm_place, no_place, place. rewrite Hres, va_zero by lia.
  set (n := PAGES sz) in *. pose proof (vi_free _ _ I) as Hup.
  assert (Hrange : forall idx, (forall q, in_range idx n q -> In_free (vmap s) q) -> 16 <= idx /\ idx + n <= 524288).
  { intros idx H. pose proof (Hup idx (H idx ltac:(unfold in_range; lia))). pose proof (Hup (idx + n - 1) (H (idx + n - 1) ltac:(unfold in_range; lia))).
    unfold upage in *. lia. }
  destruct (Z.eqb_spec p0 0) as [->|Hp0].
  - destruct (has MEM_ALIGN64K type) eqn:Hal; unfold vm_alloc_align, vm_alloc; kx.
    + change (64 * 1024 / PAGESIZE) with 16.
      pose proof (rmap_alloc_align_spec (vmap s) (vm_lost s) n 16 (vi_map _ _ I) ltac:(lia) ltac:(lia) ltac:(u32_lia) (vi_lost _ _ I)) as Ha.
      destruct (rmap_alloc_align (vmap s) (vm_lost s) n 16) as [idx [m lost]].
      destruct Ha as (_ & [(-> & -> & -> & Hno)|(Hi & Hmod & Er & Hall)]).
      * exists (inr (- ENOMEM)), s. rewrite set_vmap_id. split_and!; [done..|]. intros x Hx. by apply Hno, Hx.
      * destruct (Hrange idx Hall) as [Hi1 Hi2]. destruct (reserve_place live s idx n m lost I) as (_ & k & Hk & Hfull & Hsh & I'); [lia..|done|].
        rewrite PTOB_va, va_zero by lia. destruct (Z.eqb_spec idx 0); [lia|].
        eexists (inl _), _. split_and!; [done..|]. exists idx, k. split_and!; try done. intros q Hq. apply Hup, Hall, Hq.
    + pose proof (rmap_alloc_spec (vmap s) n (vi_map _ _ I) ltac:(u32_lia)) as Ha.
      destruct (rmap_alloc (vmap s) n) as [idx m]. destruct Ha as (Hw & [(-> & -> & Hno)|(Hi & Hall & Hfree & _)]).
      * exists (inr (- ENOMEM)), s. rewrite set_vmap_id. split_and!; [done..|]. intros x _. apply Hno.
      * destruct (Hrange idx Hall) as [Hi1 Hi2]. rewrite PTOB_va, va_zero by lia. destruct (Z.eqb_spec idx 0); [lia|].
        assert (Hsh : shrunk s (set_vmap m (vm_lost s) s) idx n 0) by (intros q; rewrite Z.sub_0_r, Z.add_0_r; apply Hfree).
        eexists (inl _), _. split_and!; [done|by apply (vinv_shrunk live s m _ idx n 0 I Hw (vi_lost _ _ I))|done|].
        exists idx, 0. split_and!; try done. intros q Hq. apply Hup, Hall, Hq.
  - unfold vm_reserve; kx. rewrite va_BTOP by lia.
    pose proof (rmap_reserve_spec (vmap s) (vm_lost s) p0 n (vi_map _ _ I) ltac:(lia) ltac:(lia) ltac:(u32_lia) (vi_lost _ _ I)) as Hr.
    destruct (rmap_reserve (vmap s) (vm_lost s) p0 n) as [[] [m lost]] eqn:Er.
    + destruct Hr as (-> & -> & Hno). exists (inr (- ENOMEM)), s. rewrite set_vmap_id. by split_and!.
    + destruct (reserve_place live s p0 n m lost I) as (Hall & k & Hk & Hfull & Hsh & I'); [lia..|done|].
      eexists (inl _), _. split_and!; [done..|]. exists p0, k. split_and!; try done. intros q Hq. apply Hup, Hall, Hq.
Qed.

Lemma vm_place_spec live s p0 sz type :
  vinv live s -> 0 < sz <= W32 - 4096 -> 0 <= p0 -> p0 + PAGES sz < 1048576 ->
  exists r s', vm_place (va p0) sz type s = Done (r, s') /\ vinv live s' /\ vm_mmu s' = vm_mmu s /\
    match r with
    | inr rc => s' = s /\ no_place s p0 (PAGES sz) type rc
    | inl a => exists p k, a = va p /\ place s p0 (PAGES sz) type p k /\ shrunk s s' p (PAGES sz) k
    end.
Proof.
  intros I Hsz Hp Hn. destruct (has MEM_RESERVE type) eqn:Hres; [by apply vm_place_reserve|].
  pose proof (PAGES_bound sz Hsz) as Hpg. unfold vm_place, no_place, place. rewrite Hres.
  destruct (valid_range_spec p0 sz s live I Hsz Hp Hn) as (b & E & Hb). kx. rewrite E. destruct b.
  - destruct (proj1 Hb eq_refl) as [_ Hall]. eexists (inl _), s. split_and!; [done..|]. exists p0, 0.
    split_and!; try done; [intros q Hq; by apply Hall|]. intros q. rewrite Z.sub_0_r, Z.add_0_r. split; [|tauto].
    intros Hf. split; [done|]. intros Hq. by destruct (Hall q Hq).
  - eexists (inr _), s. split_and!; [done..|]. intros H. by apply Hb in H.
Qed.
(** ** The operations *)

(** Nothing outside of user space is mapped differently. *)
Definition user_only (s s' : vmm W) : Prop :=
  forall q, ~ upage q -> view (vm_mmu s') q = view (vm_mmu s) q.

(** The pages that are live outside of user space stay live. *)
Definition kernel_live (live live' : gset Z) : Prop := forall q, ~ upage q -> q ∈ live -> q ∈ live'.

Lemma kernel_live_refl live : kernel_live live live.
Proof. by intros q. Qed.
Local Hint Resolve kernel_live_refl : core.

Lemma has_lor f x g : Z.land g f = 0 -> has f (Z.lor x g) = has f x.
Proof. intros H. unfold has. by rewrite Z.land_lor_distr_l, H, Z.lor_0_r. Qed.

(** Committing at an unspecified address also reserves. *)
Definition full_type (p0 type : Z) : Z :=
  if (p0 =? 0) && has MEM_COMMIT type then Z.lor type MEM_RESERVE else type.

Lemma full_type_commit p0 type : has MEM_COMMIT (full_type p0 type) = has MEM_COMMIT type.
Proof. unfold full_type. destruct (_ && _); [by apply has_lor|done]. Qed.

(** What [vmalloc] may return, and the state after it. *)
Inductive vmalloc_result (s : vmm W) (addr sz type protect : Z) : Z -> Z -> vmm W -> Prop :=
| vr_invalid :
    sz = 0 \/ (has MEM_COMMIT type = true /\ pte_flags_from_protect protect = BADFLAGS) ->
    vmalloc_result s addr sz type protect 0 (- EINVAL) s
| vr_none rc :
    no_place s (BTOP addr) (PAGES sz) (full_type (BTOP addr) type) rc ->
    vmalloc_result s addr sz type protect 0 rc s
| vr_done p k s' :
    place s (BTOP addr) (PAGES sz) (full_type (BTOP addr) type) p k ->
    shrunk s s' p (PAGES sz) k ->
    (forall q, committed s' q =
      if has MEM_COMMIT type && bool_decide (in_range p (PAGES sz) q)
      then Some (pte_flags_from_protect protect) else committed s q) ->
    vmalloc_result s addr sz type protect (va p) 0 s'.

Lemma vinv_commit live s m p n flags :
  vinv live s -> owns m (pages_of p n ∪ live) ∅ -> view_outside p n (vm_mmu s) m -> prot_flags flags ->
  (forall q, in_range p n q -> view m q mod 4096 = Z.lor flags PT_PRESENT /\ ~ In_free (vmap s) q) ->
  vinv (pages_of p n ∪ live) (set_vmmu m s) /\
  forall q, committed (set_vmmu m s) q = if bool_decide (in_range p n q) then Some flags else committed s q.
Proof.
  intros [H1 H2 H3 H4 H5 H6 H7] O Hv Hfl Hin. destruct (prot_flags_facts flags Hfl) as (_ & Hb & Hp & Hf & Hpr).
  split; [split|]; cbn [set_vmmu set_hs vmap vm_lost]; try done.
  - intros q Hq Hq'. apply elem_of_union. rewrite elem_of_pages. destruct (decide (in_range p n q)); [by left|right].
    cbn in Hq'. rewrite Hv in Hq' by done. by apply H5.
  - intros q Hq. cbn. destruct (decide (in_range p n q)) as [Hr|Hr]; [|rewrite Hv by done; by apply H6].
    by rewrite has_low, (proj1 (Hin q Hr)).
  - intros q [Hq|Hq]%elem_of_union; [|by apply H7]. rewrite elem_of_pages in Hq. by apply (Hin q).
  - intros q. unfold committed. cbn. case_bool_decide as Hr; [|by rewrite Hv].
    by rewrite has_low, (land_low (view m q)), (proj1 (Hin q Hr)), Hp, Hpr by done.
Qed.

Lemma vmalloc_run live s addr sz type protect t :
  vinv live s -> is_u32 addr -> 0 <= sz <= W32 - 4096 -> BTOP addr + PAGES sz < 1048576 -> t <> FREE ->
  (freemem (m_pf (vm_mmu s)) < 2 * PAGES sz /\ vmalloc addr sz type protect t s = Panic "out of memory") \/
  exists a rc s' live', vmalloc addr sz type protect t s = Done ((a, rc), s') /\ vinv live' s' /\
    vmalloc_result s addr sz type protect a rc s' /\ user_only s s' /\ kernel_live live live'.
Proof.
  intros I Ha Hsz Hn Ht. unfold vmalloc. destruct (PAGEADDR_va addr Ha) as [-> Hb].
  destruct (Z.eqb_spec sz 0) as [->|Hsz0]; [right; eexists 0, _, s, live; split_and!; [done|done|constructor; by left|done..]|].
  destruct (has MEM_COMMIT type && (pte_flags_from_protect protect =? BADFLAGS)) eqn:Hbad.
  { apply andb_true_iff in Hbad as [Hc Hf%Z.eqb_eq]. right; eexists 0, _, s, live; split_and!; [done|done|constructor; by right|done..]. }
  rewrite va_zero by done. fold (full_type (BTOP addr) type). cbv zeta. rewrite full_type_commit.
  destruct (vm_place_spec live s (BTOP addr) sz (full_type (BTOP addr) type) I) as (r & s1 & E & I1 & Hm & Hr); [lia..|].
  kx. rewrite E. destruct r as [a|rc].
  2:{ destruct Hr as [-> Hno]. right. eexists 0, rc, s, live. split_and!; [reflexivity|exact I|by apply vr_none|by intros q|apply kernel_live_refl]. }
  destruct Hr as (p & k & -> & Hpl & Hsh). pose proof (PAGES_bound sz ltac:(lia)) as Hpg. set (n := PAGES sz) in *.
  assert (Hr : 16 <= p /\ p + n <= 524288).
  { destruct Hpl as (Hu & _). pose proof (Hu p ltac:(unfold in_range; lia)). pose proof (Hu (p + n - 1) ltac:(unfold in_range; lia)).
    unfold upage in *. lia. }
  destruct (has MEM_COMMIT type) eqn:Hc.
  2:{ right. eexists _, 0, s1, live. split_and!; [done|done| |intros q _; by rewrite Hm|done]. eapply vr_done; [exact Hpl|exact Hsh|].
      intros q. rewrite Hc. cbn [andb]. unfold committed. by rewrite Hm. }
  cbn [andb] in Hbad. destruct (pte_flags_spec protect) as [Hbf|[_ Hfl]]; [by rewrite Hbf in Hbad|].
  set (t' := if t =? 0 then VM else t). assert (Ht' : t' <> FREE) by (unfold t'; by destruct (t =? 0)).
  destruct (commit_pages_spec (pte_flags_from_protect protect) t' (Z.to_nat n) p (vm_mmu s1) live (vi_owns _ _ I1) Hfl Ht')
    as [[Hfm E2]|(m & E2 & O2 & Hv2 & Hin & _)]; [lia|lia| | |]; rewrite ?Z2Nat.id in * by lia.
  { intros q Hq Hp. apply (vi_live _ _ I1); [unfold upage; lia|done]. }
  { left. split; [by rewrite <- Hm|]. unfold with_vmmu. kx. by rewrite E2. }
  right. destruct (vinv_commit live s1 m p n (pte_flags_from_protect protect) I1 O2 Hv2 Hfl) as [I2 Hcm].
  { intros q Hq. split; [by apply Hin|]. intros [_ H]%Hsh. apply H. unfold in_range in *. destruct Hpl as (_ & Hk & _). lia. }
  eexists _, 0, _, _. split_and!; [unfold with_vmmu; kx; by rewrite E2|exact I2| | |intros q _ Hq; set_solver].
  2:{ intros q Hq. cbn. rewrite Hv2, Hm; [done|]. unfold upage in Hq. lia. }
  eapply vr_done; [exact Hpl|exact Hsh|]. intros q. rewrite Hcm, Hc. fold n. cbn [andb]. destruct (bool_decide _); [done|]. unfold committed. by rewrite Hm.
Qed.

(** What [vmprotect] does to the address space. *)
Inductive vmprotect_result (s : vmm W) (p n flags : Z) : Z -> vmm W -> Prop :=
| pr_invalid :
    flags = BADFLAGS \/ ~ (p + n < 524288 /\ forall q, in_range p n q -> reserved s q) ->
    vmprotect_result s p n flags (- EINVAL) s
| pr_done s' :
    (forall q, in_range p n q -> reserved s q) -> (forall q, reserved s' q <-> reserved s q) ->
    (forall q, committed s' q =
      if bool_decide (in_range p n q) then const flags <$> committed s q else committed s q) ->
    vmprotect_result s p n flags 0 s'.

Lemma vmprotect_run live s addr sz protect :
  vinv live s -> is_u32 addr -> 0 < sz <= W32 - 4096 -> BTOP addr + PAGES sz < 1048576 ->
  exists rc s', vmprotect addr sz protect s = Done (rc, s') /\ vinv live s' /\ user_only s s' /\
    vmprotect_result s (BTOP addr) (PAGES sz) (pte_flags_from_protect protect) rc s'.
Proof.
  intros I Ha Hsz Hn. set (p := BTOP addr) in *. set (flags := pte_flags_from_protect protect). unfold vmprotect. destruct (PAGEADDR_va addr Ha) as [-> Hb]. fold p in Hb |- *.
  destruct (Z.eqb_spec sz 0) as [|_]; [lia|]. pose proof (PAGES_bound sz Hsz) as Hpg. set (n := PAGES sz) in *.
  destruct (valid_range_spec p sz s live I Hsz ltac:(lia) Hn) as (b & E & Hv). kx. rewrite E.
  destruct b; cbn [negb]; [|eexists _, s; split_and!; [done..|]; constructor; right; intros H; by apply Hv in H].
  destruct (proj1 Hv eq_refl) as [Hlt Hall]. fold flags.
  destruct (Z.eqb_spec flags BADFLAGS) as [Hbad|Hbad]; [eexists _, s; split_and!; [done..|]; constructor; by left|].
  destruct (pte_flags_spec protect) as [?|[_ Hfl]]; [done|]. fold flags in Hfl.
  pose proof (vi_owns _ _ I) as O. pose proof O as [fl [Hw _ _ _ Hpr]].
  destruct (protect_pages_spec flags (Z.to_nat n) p (vm_mmu s) Hw Hfl) as (m & E2 & Hw' & Hm & Hd & Hout & Hin); [lia..|].
  rewrite Z2Nat.id in * by lia. assert (He : forall q, 0 <= view (vm_mmu s) q) by (intros q; by apply (view_u32 _ q Hw)).
  assert (Hq : forall q, view m q = if decide (in_range p n q) then reprot flags (view (vm_mmu s) q) else view (vm_mmu s) q).
  { intros q. destruct (decide (in_range p n q)); [by apply Hin|by apply Hout]. }
  eexists _, _. split; [unfold with_vmmu; kx; by rewrite E2|]. split_and!; [| |constructor; [done..|]].
  - destruct I as [H1 H2 H3 H4 H5 H6 H7]. split; try done.
    + apply (owns_reflag (vm_mmu s) m live O Hw' Hm Hd). intros q Hq'. rewrite Hq.
      destruct (decide _); [|split; [done|by apply Hpr]]. destruct (reprot_facts flags _ Hfl (He q)) as (-> & -> & _). split; [done|by apply Hpr].
    + intros q Hu. cbn. rewrite Hq. destruct (decide _); [|by apply H5].
      destruct (reprot_facts flags _ Hfl (He q)) as (_ & -> & _). by apply H5.
    + intros q Hu. cbn. rewrite Hq. destruct (decide _); [|by apply H6].
      destruct (reprot_facts flags _ Hfl (He q)) as (_ & _ & -> & _). by apply H6.
  - intros q Hu. cbn. rewrite Hq, decide_False; [done|]. intros Hr. by destruct (Hall q Hr).
  - intros q. unfold committed. cbn. rewrite Hq. case_bool_decide as Hr; [rewrite decide_True by done|by rewrite decide_False].
    destruct (reprot_facts flags _ Hfl (He q)) as (_ & -> & _ & Hf). destruct (has PT_PRESENT _); [cbn; by rewrite Hf|done].
Qed.
Lemma release_frees type : has MEM_RELEASE type = true -> has (Z.lor MEM_DECOMMIT MEM_RELEASE) type = true.
Proof.
  unfold has. rewrite !negb_true_iff, !Z.eqb_neq, Z.land_lor_distr_r. intros H1 H2%Z.lor_eq_0_iff. tauto.
Qed.

(** The pages of the range are taken back. *)
Lemma vinv_decommit live s m p n :
  vinv live s -> owns m (live ∖ pages_of p n) ∅ -> view_outside p n (vm_mmu s) m ->
  (forall q, in_range p n q -> has PT_PRESENT (view m q) = false /\ has PT_FILE (view m q) = false) ->
  vinv (live ∖ pages_of p n) (set_vmmu m s) /\
  forall q, committed (set_vmmu m s) q = if bool_decide (in_range p n q) then None else committed s q.
Proof.
  intros [H1 H2 H3 H4 H5 H6 H7] O Hv Hin. split; [split|]; try done.
  - intros q Hu. cbn. destruct (decide (in_range p n q)) as [Hr|Hr]; [by rewrite (proj1 (Hin q Hr))|].
    rewrite Hv by done. intros Hp. apply elem_of_difference. rewrite elem_of_pages. auto.
  - intros q Hu. cbn. destruct (decide (in_range p n q)) as [Hr|Hr]; [by apply Hin|]. rewrite Hv by done. by apply H6.
  - intros q [Hq _]%elem_of_difference. by apply H7.
  - intros q. unfold committed. cbn. case_bool_decide as Hr; [by rewrite (proj1 (Hin q Hr))|by rewrite Hv].
Qed.

(** The range is free again, or it is lost because the map is full. *)
Lemma vm_free_spec live s p n :
  vinv live s -> 0 < n -> p + n <= 524288 -> (forall q, in_range p n q -> reserved s q) ->
  (forall q, in_range p n q -> q ∉ live) ->
  exists s', vm_free p n s = Done (tt, s') /\ vinv live s' /\ vm_mmu s' = vm_mmu s /\
    ((forall q, reserved s' q <-> reserved s q /\ ~ in_range p n q) \/
     (map_full (vmap s) /\ forall q, reserved s' q <-> reserved s q)).
Proof.
  intros I Hn Hp Hall Hnl. assert (H16 : 16 <= p) by (destruct (Hall p) as [Hu _]; [unfold in_range; lia|unfold upage in Hu; lia]).
  pose proof (rmap_free_spec (vmap s) (vm_lost s) p n (vi_map _ _ I) Hn ltac:(lia) ltac:(u32_lia)
    ltac:(intros y Hy; by apply Hall)) as Hf.
  unfold vm_free. destruct (rmap_free (vmap s) (vm_lost s) p n) as [m lost]. eexists. split; [done|].
  destruct I as [H1 H2 H3 H4 H5 H6 H7]. destruct Hf as (Hw & [(-> & Hfree & _)|(-> & -> & Hfull)]).
  - split_and!; [split; try done|done|left]; cbn [set_vmap vmap vm_lost].
    + intros q [Hq|Hq]%Hfree; [by apply H3|by apply Hall].
    + intros q Hq [Hf|Hf]%Hfree; [by apply (H7 q)|by apply (Hnl q)].
    + intros q. unfold reserved. cbn [set_vmap vmap]. rewrite Hfree. change (In_range p n q) with (in_range p n q). tauto.
  - split_and!; [split; try done; apply u32_range|done|right]. split; [exact Hfull|done].
Qed.

(** What [vmfree] does to the address space. *)
Inductive vmfree_result (s : vmm W) (p n type : Z) : Z -> vmm W -> Prop :=
| fr_invalid :
    ~ (p + n < 524288 /\ forall q, in_range p n q -> reserved s q) -> vmfree_result s p n type (- EINVAL) s
| fr_done s' :
    (forall q, in_range p n q -> reserved s q) ->
    (forall q, committed s' q =
      if has (Z.lor MEM_DECOMMIT MEM_RELEASE) type && bool_decide (in_range p n q) then None else committed s q) ->
    (if has MEM_RELEASE type
     then (forall q, reserved s' q <-> reserved s q /\ ~ in_range p n q) \/
          (map_full (vmap s) /\ forall q, reserved s' q <-> reserved s q)
     else forall q, reserved s' q <-> reserved s q) ->
    vmfree_result s p n type 0 s'.

Lemma vmfree_run live s addr sz type :
  vinv live s -> is_u32 addr -> 0 < sz <= W32 - 4096 -> BTOP addr + PAGES sz < 1048576 ->
  exists rc s' live', vmfree addr sz type s = Done (rc, s') /\ vinv live' s' /\
    vmfree_result s (BTOP addr) (PAGES sz) type rc s' /\ user_only s s' /\ kernel_live live live'.
Proof.
  intros I Ha Hsz Hn. unfold vmfree. destruct (PAGEADDR_va addr Ha) as [-> Hb]. set (p := BTOP addr) in *.
  destruct (Z.eqb_spec sz 0) as [|_]; [lia|]. pose proof (PAGES_bound sz Hsz) as Hpg. set (n := PAGES sz) in *.
  destruct (valid_range_spec p sz s live I Hsz ltac:(lia) Hn) as (b & E & Hv). kx. rewrite E.
  destruct b; cbn [negb]; [|eexists _, s, live; split_and!; [done|done|constructor; intros H; by apply Hv in H|done..]].
  destruct (proj1 Hv eq_refl) as [Hlt Hall]. fold n in Hlt, Hall.
  destruct (has (Z.lor MEM_DECOMMIT MEM_RELEASE) type) eqn:Hd.
  2:{ assert (Hr : has MEM_RELEASE type = false) by (destruct (has MEM_RELEASE type) eqn:Hr; [by rewrite release_frees in Hd|done]).
      rewrite Hr. cbn [negb Z.eqb]. eexists _, s, live. split_and!; [done|done|constructor; rewrite ?Hd, ?Hr; done|done..]. }
  destruct (free_range_spec (Z.to_nat n) p s live (vi_owns _ _ I)) as (m & E2 & O & Hout & Hin); [lia..| | |].
  { intros q Hq. apply (vi_live _ _ I). apply Hall. unfold in_range. lia. }
  { intros q Hq. apply (vi_file _ _ I). apply Hall. unfold in_range. lia. }
  rewrite Z2Nat.id in * by lia. rewrite E2. cbn [negb Z.eqb].
  destruct (vinv_decommit live s m p n I O Hout Hin) as [I1 Hc].
  assert (Hu : user_only s (set_vmmu m s)).
  { intros q Hq. cbn. apply Hout. intros Hr. by destruct (Hall q Hr). }
  assert (Hk : kernel_live live (live ∖ pages_of p n)).
  { intros q Hq Hin'. apply elem_of_difference. split; [done|]. rewrite elem_of_pages. intros Hr. by destruct (Hall q Hr). }
  destruct (has MEM_RELEASE type) eqn:Hr.
  2:{ eexists _, _, _. split_and!; [done|exact I1| |done..]. constructor; rewrite ?Hd, ?Hr; done. }
  rewrite va_BTOP by lia.
  destruct (vm_free_spec _ (set_vmmu m s) p n I1) as (s' & E3 & I2 & Hm & Hres); [lia|lia|done| |].
  { intros q Hq [_ Hx]%elem_of_difference. apply Hx. by rewrite elem_of_pages. }
  rewrite E3. eexists _, s', _. split_and!; [done|exact I2| |intros q Hq; rewrite Hm; by apply Hu|done]. constructor; rewrite ?Hd, ?Hr; [done| |exact Hres].
  intros q. cbn [andb]. rewrite <- Hc. unfold committed. by rewrite Hm.
Qed.

(** ** Sequences of operations *)

Inductive vop :=
| Valloc (addr sz type protect t : Z)
| Vfree (addr sz type : Z)
| Vprotect (addr sz protect : Z).

(** The calls that the theorems are about: the range ends below the top of the
    address space, and the tag of the frames is not the one of free frames. *)
Definition vop_ok (o : vop) : Prop :=
  match o with
  | Valloc addr sz _ _ t => is_u32 addr /\ 0 <= sz <= W32 - 4096 /\ BTOP addr + PAGES sz < 1048576 /\ t <> FREE
  | Vfree addr sz _ | Vprotect addr sz _ => is_u32 addr /\ 0 <= sz <= W32 - 4096 /\ BTOP addr + PAGES sz < 1048576
  end.

(** What a call gives back: an address with [*rc], or the code alone. *)
Inductive vres := Placed (a rc : Z) | Code (rc : Z).

Definition vrun (o : vop) : K (vmm W) vres :=
  match o with
  | Valloc addr sz type protect t => let* r := vmalloc addr sz type protect t in kret (Placed r.1 r.2)
  | Vfree addr sz type => let* rc := vmfree addr sz type in kret (Code rc)
  | Vprotect addr sz protect => let* rc := vmprotect addr sz protect in kret (Code rc)
  end.

Lemma vrun_inv live s o : vinv live s -> vop_ok o ->
  vrun o s = Panic "out of memory" \/ exists r s' live', vrun o s = Done (r, s') /\ vinv live' s' /\ user_only s s' /\ kernel_live live live'.
Proof.
  intros I. destruct o as [addr sz type protect t|addr sz type|addr sz protect]; cbn [vop_ok vrun].
  - intros (Ha & Hs & Hn & Ht).
    destruct (vmalloc_run live s addr sz type protect t I Ha Hs Hn Ht) as [[_ E]|(a & rc & s' & live' & E & I' & _ & Hu & Hk)];
      kx; rewrite E; [by left|right; by eexists _, s', live'].
  - intros (Ha & Hs & Hn). right. destruct (decide (sz = 0)) as [->|]; [by eexists _, s, live|]. kx.
    destruct (vmfree_run live s addr sz type I Ha ltac:(lia) Hn) as (rc & s' & live' & E & I' & _ & Hu & Hk). rewrite E. by eexists _, s', live'.
  - intros (Ha & Hs & Hn). right. destruct (decide (sz = 0)) as [->|]; [by eexists _, s, live|]. kx.
    destruct (vmprotect_run live s addr sz protect I Ha ltac:(lia) Hn) as (rc & s' & E & I' & Hu & _). rewrite E. by eexists _, s', live.
Qed.

(** The operations one after the other. *)
Fixpoint vruns (os : list vop) : K (vmm W) unit :=
  match os with
  | [] => kret tt
  | o :: os => let* _ := vrun o in vruns os
  end.

Lemma vruns_inv : forall os live s, vinv live s -> Forall vop_ok os ->
  vruns os s = Panic "out of memory" \/ exists s' live', vruns os s = Done (tt, s') /\ vinv live' s' /\ user_only s s' /\ kernel_live live live'.
Proof.
  induction os as [|o os IH]; intros live s I Hos; [right; by exists s, live|].
  apply Forall_cons in Hos as [Ho Hos]. cbn [vruns]. kx.
  destruct (vrun_inv live s o I Ho) as [E|(r & s1 & live1 & E & I1 & Hu1 & Hk1)]; rewrite E; [by left|].
  destruct (IH live1 s1 I1 Hos) as [?|(s' & live' & E' & I' & Hu' & Hk')]; [by left|right]. exists s', live'. split_and!; [done..| |].
  - intros q Hq. by rewrite Hu', Hu1.
  - intros q Hq Hin. by apply Hk', Hk1.
Qed.
(** ** The start *)

(** Before [init_vmm] nothing is mapped in user space. *)
Definition fresh_space (live : gset Z) (s : vmm W) : Prop :=
  is_u32 (vm_lost s) /\ owns (vm_mmu s) live ∅ /\
  (forall q, q ∈ live -> ~ upage q) /\
  forall q, upage q -> has PT_PRESENT (view (vm_mmu s) q) = false /\ has PT_FILE (view (vm_mmu s) q) = false.

Lemma init_vmm_run live s junk :
  fresh_space live s -> length junk = 1024%nat ->
  exists s', init_vmm junk s = Done (tt, s') /\ vinv live s' /\ vm_mmu s' = vm_mmu s /\
    forall q, upage q -> ~ reserved s' q.
Proof.
  intros (Hl & O & Hlive & Hview) Hj. unfold init_vmm, vm_free. kx. cbn [vmap set_vmap vm_lost].
  set (m := rmap_init junk VMAP_ENTRIES). change (BTOP VMEM_START) with 16. change (BTOP (OSBASE - VMEM_START)) with 524272.
  pose proof (rmap_init_rep junk VMAP_ENTRIES ltac:(done) Hj) as R. fold m in R.
  assert (He : ents m = []) by apply (rep_ents _ _ _ R). assert (Hw : rmap_wf m) by exact (rep_wf _ _ _ R I).
  assert (Hnone : forall q, ~ In_free m q) by (intros q; unfold In_free; rewrite He; by intros []).
  pose proof (rmap_free_spec m (vm_lost s) 16 524272 Hw ltac:(lia) ltac:(lia) ltac:(u32_lia) ltac:(auto)) as Hf.
  destruct (rmap_free m (vm_lost s) 16 524272) as [m' lost]. eexists. split; [done|].
  destruct Hf as (Hw' & [(-> & Hfree & _)|(_ & _ & Hfull)]).
  2:{ exfalso. destruct R as [_ (j & E & _)]. rewrite E in Hfull. by cbn in Hfull. }
  assert (Hin : forall q, In_free m' q <-> upage q).
  { intros q. rewrite Hfree. unfold In_range, upage. pose proof (Hnone q). split; [intros [?|?]; [done|lia]|right; lia]. }
  split_and!; [split; try done|done|]; cbn [set_vmap vmap vm_lost].
  - intros q. by rewrite Hin.
  - intros q Hu Hp. change (has PT_PRESENT (view (vm_mmu s) q) = true) in Hp. by rewrite (proj1 (Hview q Hu)) in Hp.
  - intros q Hu. by apply Hview.
  - intros q Hq. rewrite Hin. by apply Hlive.
  - intros q Hu [_ Hr]. cbn in Hr. by apply Hr, Hin.
Qed.
End Spec.

(** What an operation may return, and the address space after it. *)
Inductive vop_spec {W} (s : vmm W) : vop -> vres -> vmm W -> Prop :=
| vs_alloc addr sz type protect t a rc s' :
    vmalloc_result s addr sz type protect a rc s' -> vop_spec s (Valloc addr sz type protect t) (Placed a rc) s'
| vs_free addr sz type rc s' :
    sz <> 0 -> vmfree_result s (BTOP addr) (PAGES sz) type rc s' -> vop_spec s (Vfree addr sz type) (Code rc) s'
| vs_protect addr sz protect rc s' :
    sz <> 0 -> vmprotect_result s (BTOP addr) (PAGES sz) (pte_flags_from_protect protect) rc s' ->
    vop_spec s (Vprotect addr sz protect) (Code rc) s'
| vs_free_empty addr type : vop_spec s (Vfree addr 0 type) (Code 0) s
| vs_protect_empty addr protect : vop_spec s (Vprotect addr 0 protect) (Code 0) s.

(** C11: whatever sequence of [vmalloc], [vmfree] and [vmprotect] a process
    runs on a fresh address space, with ranges that end below the top of the
    address space and a tag other than [FREE], the calls return or the machine panics for lack of memory;
    afterwards a committed page is reserved, no two committed pages share a
    frame, none shares a frame with a page table or a live page of the kernel,
    and no page outside of user space is mapped differently than before. *)
Theorem vmm_isolation {W} `{!ObjectOps W} `{!FileMapOps W} (live : gset Z) (s : vmm W) junk os :
  fresh_space live s -> length junk = 1024%nat -> Forall vop_ok os ->
  let run := (init_vmm junk ;;; vruns os) s in
  run = Panic "out of memory" \/
  exists s', run = Done (tt, s') /\ user_only s s' /\
    (forall q, upage q -> committed s' q <> None -> reserved s' q) /\
    (forall q q', upage q -> committed s' q <> None -> (upage q' /\ committed s' q' <> None) \/ q' ∈ live ->
       view (vm_mmu s') q / 4096 = view (vm_mmu s') q' / 4096 -> q = q') /\
    (forall q d, upage q -> committed s' q <> None -> has PT_PRESENT (default 0 (pdir (vm_mmu s') !! d)) = true ->
       view (vm_mmu s') q / 4096 <> default 0 (pdir (vm_mmu s') !! d) / 4096).
Proof.
  intros Hs Hj Hos. destruct (init_vmm_run live s junk Hs Hj) as (s1 & E1 & I1 & Hm1 & _). cbv zeta. kx. rewrite E1.
  destruct (vruns_inv os live s1 I1 Hos) as [E|(s' & live' & E & I & Hu & Hk)]; rewrite E; [by left|right].
  assert (Hlive : forall q, upage q -> committed s' q <> None -> q ∈ live').
  { intros q Hq Hc. apply (vi_live _ _ I _ Hq). unfold committed in Hc. by destruct (has PT_PRESENT _). }
  assert (Hall : forall q', (upage q' /\ committed s' q' <> None) \/ q' ∈ live -> q' ∈ live').
  { intros q' [[? ?]|Hq]; [by apply Hlive|]. apply Hk; [|done]. by apply Hs. }
  pose proof (vi_owns _ _ I) as [fl [_ _ _ Hi _]]. exists s'. split_and!; [done|intros q Hq; by rewrite Hu, Hm1|..].
  - intros q Hq Hc. split; [done|]. apply (vi_resv _ _ I). by apply Hlive.
  - intros q q' Hq Hc Hq' He. specialize (Hall q' Hq').
    by injection (Hi (UPage q) (UPage q') _ (conj (Hlive q Hq Hc) eq_refl) (conj Hall He)).
  - intros q d Hq Hc Hd He. by discriminate (Hi (UPage q) (UTable d) _ (conj (Hlive q Hq Hc) eq_refl) (conj Hd He)).
Qed.

(** C12: [vmalloc], [vmfree] and [vmprotect] implement an address space of
    pages that are free, reserved or committed with a protection: each returns
    exactly the error the specification names and then changes nothing, or
    takes a range as the specification says and changes the protection of its
    pages only, or there are fewer free frames than the commitment may need.
    The code that [vmalloc] stores through [rc] is part of its result.  This
    is for ranges that end below the top of the address space and tags other
    than [FREE]. *)
Theorem vmm_refines {W} `{!ObjectOps W} `{!FileMapOps W} (live : gset Z) (s : vmm W) o :
  vinv live s -> vop_ok o ->
  (exists addr sz type protect t, o = Valloc addr sz type protect t /\
     freemem (m_pf (vm_mmu s)) < 2 * PAGES sz /\ vrun o s = Panic "out of memory") \/
  exists r s' live', vrun o s = Done (r, s') /\ vinv live' s' /\ vop_spec s o r s'.
Proof.
  intros I. destruct o as [addr sz type protect t|addr sz type|addr sz protect]; cbn [vop_ok vrun].
  - intros (Ha & Hs & Hn & Ht).
    destruct (vmalloc_run live s addr sz type protect t I Ha Hs Hn Ht) as [[Hf E]|(a & rc & s' & live' & E & I' & Hr & _)];
      kx; rewrite E; [left; by eexists _, _, _, _, _|right]. eexists _, s', live'. split_and!; [done..|]. by eapply vs_alloc.
  - intros (Ha & Hs & Hn). right. destruct (decide (sz = 0)) as [->|].
    { eexists _, s, live. split_and!; [done..|apply vs_free_empty]. }
    kx. destruct (vmfree_run live s addr sz type I Ha ltac:(lia) Hn) as (rc & s' & live' & E & I' & Hr & _).
    rewrite E. eexists _, s', live'. split_and!; [done..|]. by apply vs_free.
  - intros (Ha & Hs & Hn). right. destruct (decide (sz = 0)) as [->|].
    { eexists _, s, live. split_and!; [done..|apply vs_protect_empty]. }
    kx. destruct (vmprotect_run live s addr sz protect I Ha ltac:(lia) Hn) as (rc & s' & E & I' & _ & Hr).
    rewrite E. eexists _, s', live. split_and!; [done..|]. by apply vs_protect.
Qed.

(** Releasing a range that [vmalloc] has placed and committed gives back
    the address space as it was, if the range does not touch the last page of
    user space and the map has room. *)
Theorem vmalloc_vmfree {W} `{!ObjectOps W} `{!FileMapOps W} (live : gset Z) (s : vmm W) sz protect t p s1 :
  vinv live s -> 0 < sz <= W32 - 4096 -> t <> FREE -> ~ map_full (vmap s) -> ~ map_full (vmap s1) ->
  vmalloc 0 sz (Z.lor MEM_RESERVE MEM_COMMIT) protect t s = Done ((va p, 0), s1) ->
  0 <= p -> p + PAGES sz < 524288 ->
  exists s2 live2, vmfree (va p) sz MEM_RELEASE s1 = Done (0, s2) /\ vinv live2 s2 /\
    (forall q, reserved s2 q <-> reserved s q) /\ (forall q, committed s2 q = committed s q).
Proof.
  intros I Hsz Ht Hfull Hfull1 E Hp Hlt. pose proof (PAGES_bound sz Hsz) as Hpg.
  destruct (vmalloc_run live s 0 sz (Z.lor MEM_RESERVE MEM_COMMIT) protect t I ltac:(done) ltac:(lia) ltac:(change (BTOP 0) with 0; lia) Ht)
    as [[_ E']|(a & rc & s1' & live1 & E' & I1 & Hr & _)]; rewrite E in E'; [done|].
  injection E' as <- <- <-. inversion Hr as [|rc Hno|p' k s'' Hpl Hsh Hcm]; subst.
  { destruct Hno as [? _]. done. }
  destruct Hpl as (Hu & Hk & Hkf & _ & Hres & _). assert (k = 0) as -> by (destruct (decide (k = 0)); [done|by destruct Hfull; apply Hkf]).
  assert (p' = p) as ->.
  { pose proof (Hu p' ltac:(unfold in_range; lia)) as Hup. unfold upage in Hup. rewrite !va_small in H by lia. lia. }
  destruct (Hres ltac:(done)) as [_ Hfree]. unfold shrunk in Hsh. rewrite Z.sub_0_r, Z.add_0_r in Hsh.
  assert (Hresv : forall q, reserved s1 q <-> reserved s q \/ in_range p (PAGES sz) q).
  { intros q. unfold reserved. rewrite (Hsh q). split; [|intros [?|Hq]; [tauto|split; [by apply Hu|tauto]]].
    intros [Hq Hn]. destruct (decide (in_range p (PAGES sz) q)); [by right|left]. tauto. }
  assert (Hva : is_u32 (va p)) by apply u32_range.
  destruct (vmfree_run live1 s1 (va p) sz MEM_RELEASE I1 Hva Hsz) as (rc & s2 & live2 & E2 & I2 & Hf & _); [rewrite va_BTOP by lia; lia|].
  rewrite va_BTOP in Hf by lia. inversion Hf as [Hno|s2' Hall Hc2 Hr2]; subst.
  { destruct Hno. split; [done|]. intros q Hq. apply Hresv. by right. }
  cbn in Hr2. destruct Hr2 as [Hr2|[? _]]; [|done]. exists s2, live2. split_and!; [done..| |].
  - intros q. rewrite Hr2, Hresv. split; [tauto|]. intros Hq. split; [by left|]. intros Hin. by apply Hq, Hfree.
  - intros q. rewrite Hc2, Hcm. cbn. case_bool_decide as Hin; [|done]. unfold committed.
    destruct (has PT_PRESENT _) eqn:Hpr; [|done]. destruct (vi_resv _ _ I q); [|by apply Hfree].
    apply (vi_live _ _ I); [by apply Hu|done].
Qed.

(** C21: a range of kernel pages that reaches the top of the address space
    passes [valid_range], because the address behind it wraps around to 0:
    [vmprotect], which any process may call, makes the mapped pages of such a
    range writable in user mode. *)
Theorem vmprotect_kernel_range {W} `{!ObjectOps W} `{!FileMapOps W} (live : gset Z) (s : vmm W) p sz :
  vinv live s -> 524288 <= p -> 0 < sz <= W32 - 4096 -> p + PAGES sz = 1048576 ->
  exists s', vmprotect (va p) sz PAGE_READWRITE s = Done (0, s') /\
    forall q, p <= q < 1048576 -> has PT_PRESENT (view (vm_mmu s) q) = true ->
      has PT_USER (view (vm_mmu s') q) = true /\ has PT_WRITABLE (view (vm_mmu s') q) = true.
Proof.
  intros I Hp Hsz Hn. pose proof (PAGES_bound sz Hsz) as Hpg. unfold vmprotect.
  destruct (PAGEADDR_va (va p) (u32_range _)) as [-> _]. rewrite va_BTOP by lia. destruct (Z.eqb_spec sz 0) as [|_]; [lia|].
  assert (Hvr : valid_range (va p) sz s = Done (true, s)).
  { unfold valid_range. kx. assert (u32 (va p + PAGES sz * PAGESIZE) = 0) as ->.
    { unfold va. rewrite u32_add_l. unfold PAGESIZE. replace (p * 4096 + PAGES sz * 4096) with (1 * W32) by (unfold W32; lia).
      unfold u32. by rewrite Z.mod_mul. }
    rewrite va_BTOP, va_small by lia. destruct (Z.ltb_spec (p * 4096) VMEM_START); [unfold VMEM_START in *; lia|].
    cbn [KERNELSPACE OSBASE Z.leb Z.compare]. pose proof (vi_map _ _ I) as [cap [R C]].
    pose proof (rmap_status_from_rep cap [] (ents (vmap s)) (vmap s) p (PAGES sz) R C ltac:(lia) ltac:(lia) ltac:(u32_lia)) as Hst.
    cbn [length] in Hst. unfold rmap_status. rewrite (rep_rlim _ _ _ R).
    assert (Hno : forall y, In_range p (PAGES sz) y -> ~ covers (ents (vmap s)) y).
    { intros y Hy Hc. pose proof (vi_free _ _ I y Hc) as Hu. unfold upage, In_range in *. lia. }
    destruct (rmap_status_from _ _ _ _ _) as [|[]|[]]; try done; exfalso.
    - apply (Hno p); [unfold In_range; lia|]. apply Hst. unfold In_range. lia.
    - destruct Hst as [(y & Hy & Hc) _]. by apply (Hno y). }
  kx. rewrite Hvr. cbn [negb]. set (flags := pte_flags_from_protect PAGE_READWRITE). change (flags =? BADFLAGS) with false. cbv iota.
  assert (Hfl : prot_flags flags) by (right; right; by left). pose proof (vi_owns _ _ I) as [fl [Hw _ _ _ _]].
  destruct (protect_pages_spec flags (Z.to_nat (PAGES sz)) p (vm_mmu s) Hw Hfl) as (m & E2 & _ & _ & _ & _ & Hin); [lia..|].
  unfold with_vmmu. kx. rewrite E2. eexists. split; [done|]. intros q Hq Hpr. cbn. rewrite Hin by lia.
  destruct (reprot_facts flags (view (vm_mmu s) q) Hfl) as (_ & _ & _ & Hf); [by apply (view_u32 _ q Hw)|]. specialize (Hf Hpr).
  assert (Hsub : forall f, Z.land PT_PROTECTMASK f = f -> has f (reprot flags (view (vm_mmu s) q)) = has f flags).
  { intros f Hf'. rewrite <- Hf at 2. unfold has. by rewrite <- Z.land_assoc, Hf'. }
  by rewrite !Hsub.
Qed.

(** ** A small machine *)

#[export] Instance unit_objects : ObjectOps unit := {|
  close_object := fun _ w => (0, w);
  destroy_object := fun _ w => (0, w);
|}.

#[export] Instance unit_files : FileMapOps unit := {|
  kmalloc_filemap := kret 0;
  init_object := fun _ _ => kret tt;
  set_signaled := fun _ _ => kret tt;
  wait_for_object := fun _ => kret 0;
  unlock_filemap := fun _ => kret 0;
  pread := fun _ _ _ _ => kret 0;
  pwrite := fun _ _ _ _ => kret 0;
|}.

Definition demo_vmm : vmm unit := Vmm (Handles demo_mmu [] HEND ∅ tt) [] 0 ∅.
Definition demo_vjunk : list rmap := replicate 1024 (Rmap 0 0).
Definition demo_vstarted : vmm unit :=
  match init_vmm demo_vjunk demo_vmm with Done (_, s) => s | _ => demo_vmm end.

Lemma demo_fresh : fresh_space ∅ demo_vmm.
Proof.
  split_and!; [by split|exact demo_owns|by intros q ?%elem_of_empty|]. intros q _.
  unfold view. cbn [vm_mmu vm_hs demo_vmm hs_mmu demo_mmu pdir]. by rewrite lookup_empty.
Qed.

Lemma demo_vstarted_inv : vinv ∅ demo_vstarted.
Proof.
  destruct (init_vmm_run ∅ demo_vmm demo_vjunk demo_fresh) as (s & E & I & _); [apply length_replicate|].
  unfold demo_vstarted. by rewrite E.
Qed.

Definition demo_vops : list vop :=
  [Valloc 0 8192 (Z.lor MEM_RESERVE MEM_COMMIT) PAGE_READWRITE 0; Vprotect 0x10000 4096 PAGE_READONLY;
   Vfree 0x11000 4096 MEM_RELEASE].

Lemma vmm_isolation_witness :
  (init_vmm demo_vjunk ;;; vruns demo_vops) demo_vmm = Panic "out of memory" \/
  exists s', (init_vmm demo_vjunk ;;; vruns demo_vops) demo_vmm = Done (tt, s') /\ user_only demo_vmm s'.
Proof.
  destruct (vmm_isolation ∅ demo_vmm demo_vjunk demo_vops demo_fresh) as [H|(s' & H & Hu & _)].
  - apply length_replicate.
  - repeat apply Forall_cons_2; [..|apply Forall_nil_2]; cbn [vop_ok]; unfold is_u32; split_and!; vm_compute; congruence.
  - left. exact H.
  - right. exists s'. exact (conj H Hu).
Defined.

Lemma vmm_refines_witness :
  exists r s' live', vrun (Vprotect 0x10000 4096 PAGE_READONLY) demo_vstarted = Done (r, s') /\ vinv live' s' /\
    vop_spec demo_vstarted (Vprotect 0x10000 4096 PAGE_READONLY) r s'.
Proof.
  destruct (vmm_refines ∅ demo_vstarted (Vprotect 0x10000 4096 PAGE_READONLY) demo_vstarted_inv)
    as [(addr & sz & type & protect & t & H & _)|H]; [cbn [vop_ok]; unfold is_u32; split_and!; vm_compute; congruence|discriminate|exact H].
Defined.

Lemma vmalloc_vmfree_witness :
  exists s1 s2 live2, vmalloc 0 4096 (Z.lor MEM_RESERVE MEM_COMMIT) PAGE_READWRITE 0 demo_vstarted = Done ((va 16, 0), s1) /\
    vmfree (va 16) 4096 MEM_RELEASE s1 = Done (0, s2) /\ vinv live2 s2.
Proof.
  assert (exists s1, vmalloc 0 4096 (Z.lor MEM_RESERVE MEM_COMMIT) PAGE_READWRITE 0 demo_vstarted = Done ((va 16, 0), s1) /\
    size (vmap s1 !!! 0%nat) <> offset (vmap s1 !!! 0%nat)) as (s1 & E & Hf)
    by (eexists; split; [vm_compute; reflexivity|vm_compute; discriminate]).
  destruct (vmalloc_vmfree ∅ demo_vstarted 4096 PAGE_READWRITE 0 16 s1 demo_vstarted_inv) as (s2 & live2 & E2 & I2 & _);
    [split; vm_compute; congruence|vm_compute; discriminate|vm_compute; discriminate|exact Hf|exact E|lia|vm_compute; congruence|].
  exists s1, s2, live2. exact (conj E (conj E2 I2)).
Defined.

Lemma vmprotect_kernel_range_witness :
  exists s', vmprotect 0xFFFFF000 4096 PAGE_READWRITE demo_vstarted = Done (0, s').
Proof.
  destruct (vmprotect_kernel_range ∅ demo_vstarted 1048575 4096 demo_vstarted_inv) as (s' & E & _); [done..|].
  exists s'. exact E.
Defined.
