(* ===== verification/Dlist.v ===== *)
(** * Doubly linked lists

    The queues of the kernel are linked in both directions through records that
    are found by their addresses; 0 is the null pointer.  [Links] says which
    fields of a record are the links. *)

From S2P Require Import Prelude.

Class Links (A : Type) := {
  l_prev : A -> Z;
  l_next : A -> Z;
  set_l_prev : Z -> A -> A;
  set_l_next : Z -> A -> A;
  prev_of_set_prev v r : l_prev (set_l_prev v r) = v;
  next_of_set_prev v r : l_next (set_l_prev v r) = l_next r;
  prev_of_set_next v r : l_prev (set_l_next v r) = l_prev r;
  next_of_set_next v r : l_next (set_l_next v r) = v;
}.

(** The last element, or [d]. *)
Definition last_of (d : Z) (l : list Z) : Z := default d (last l).

Lemma last_of_cons d t l : last_of d (t :: l) = last_of t l.
Proof.
  unfold last_of. destruct l as [|z l _] using rev_ind; [done|]. by rewrite app_comm_cons, !last_snoc.
Qed.

Lemma last_of_app d l t : last_of d (l ++ [t]) = t.
Proof. unfold last_of. by rewrite last_snoc. Qed.

Lemma last_of_elem d l : l <> [] -> last_of d l ∈ l.
Proof. unfold last_of. destruct (last l) eqn:E; [intros _; by apply last_Some_elem_of|by apply last_None in E]. Qed.

Lemma hd_elem (d : Z) l : l <> [] -> hd d l ∈ l.
Proof. destruct l; [done|]. intros _. by left. Qed.

(** A list without null has a null end only if it is empty. *)
Lemma hd_zero l : 0 ∉ l -> hd 0 l = 0 <-> l = [].
Proof. destruct l as [|a l]; [done|]. intros H0. split; [cbn; intros ->; by destruct H0; left|done]. Qed.

Lemma last_zero l : 0 ∉ l -> last_of 0 l = 0 <-> l = [].
Proof.
  intros H0. split; [|by intros ->]. intros E. destruct (decide (l = [])) as [|Hne]; [done|].
  pose proof (last_of_elem 0 l Hne) as Hin. by rewrite E in Hin.
Qed.

(** The ends of a list that an element leaves. *)
Lemma drop_head (t : Z) l1 l2 : NoDup (l1 ++ t :: l2) ->
  (if t =? hd 0 (l1 ++ t :: l2) then hd 0 l2 else hd 0 (l1 ++ t :: l2)) = hd 0 (l1 ++ l2).
Proof.
  intros (_ & Hd & _)%NoDup_app. destruct l1 as [|a l1]; cbn [app hd]; [by rewrite Z.eqb_refl|].
  destruct (Z.eqb_spec t a) as [->|]; [|done]. destruct (Hd a); by left.
Qed.

Lemma drop_tail (t : Z) l1 l2 : NoDup (l1 ++ t :: l2) ->
  (if t =? last_of 0 (l1 ++ t :: l2) then last_of 0 l1 else last_of 0 (l1 ++ t :: l2)) = last_of 0 (l1 ++ l2).
Proof.
  intros (_ & _ & [Hnt _]%NoDup_cons)%NoDup_app. destruct l2 as [|z l2 _] using rev_ind.
  - by rewrite last_of_app, app_nil_r, Z.eqb_refl.
  - rewrite app_comm_cons, !app_assoc, !last_of_app. destruct (Z.eqb_spec t z) as [->|]; [set_solver|done].
Qed.

(** Distinct addresses are at most as many as there are records. *)
Lemma nodup_size {A} (m : gmap Z A) l : NoDup l -> (forall a, a ∈ l -> is_Some (m !! a)) -> (length l <= size m)%nat.
Proof.
  intros Hn Hl. rewrite <- size_dom, <- (size_list_to_set (C := gset Z) l) by done. apply subseteq_size.
  intros a Ha%elem_of_list_to_set. by apply elem_of_dom, Hl.
Qed.

Section Dlist.
Context {A : Type} `{!Links A}.

(** The links of [l] in the records [m]: [prv] is before the first element and
    [nxt] behind the last. *)
Fixpoint dlist (m : gmap Z A) (prv : Z) (l : list Z) (nxt : Z) : Prop :=
  match l with
  | [] => True
  | t :: l' => (exists r, m !! t = Some r /\ l_prev r = prv /\ l_next r = hd nxt l') /\ dlist m t l' nxt
  end.

Lemma dlist_app m prv l1 l2 nxt :
  dlist m prv (l1 ++ l2) nxt <-> dlist m prv l1 (hd nxt l2) /\ dlist m (last_of prv l1) l2 nxt.
Proof.
  revert prv. induction l1 as [|t l1 IH]; intros prv; cbn [app dlist]; [unfold last_of; cbn; tauto|].
  rewrite IH, last_of_cons. destruct l1; cbn [app hd]; tauto.
Qed.

(** Only the links of the elements matter. *)
Definition same_links (m m' : gmap Z A) (t : Z) : Prop :=
  (fun r => (l_prev r, l_next r)) <$> m !! t = (fun r => (l_prev r, l_next r)) <$> m' !! t.

Lemma same_links_refl m t : same_links m m t.
Proof. done. Qed.

Lemma dlist_frame m m' prv l nxt :
  (forall t, t ∈ l -> same_links m m' t) -> dlist m prv l nxt -> dlist m' prv l nxt.
Proof.
  revert prv. induction l as [|t l IH]; intros prv Hs; [done|]. intros [(r & Hr & Hp & Hn) Hl].
  split; [|apply IH; [|done]; intros t' Ht'; apply Hs; by right].
  specialize (Hs t ltac:(by left)). unfold same_links in Hs. rewrite Hr in Hs. destruct (m' !! t) as [r'|]; [|done].
  exists r'. injection Hs as Hp' Hn'. split_and!; [done|congruence..].
Qed.

Lemma same_links_ne m t r t' : t' <> t -> same_links m (<[t := r]> m) t'.
Proof. intros H. unfold same_links. by rewrite lookup_insert_ne. Qed.

Lemma same_links_upd m t r r' t' : m !! t = Some r -> l_prev r' = l_prev r -> l_next r' = l_next r -> same_links m (<[t := r']> m) t'.
Proof.
  intros Hr Hp Hn. destruct (decide (t' = t)) as [->|Hne]; [|by apply same_links_ne]. unfold same_links.
  rewrite Hr, lookup_insert_eq. cbn. by rewrite Hp, Hn.
Qed.

Lemma dlist_lookup m prv l nxt t : dlist m prv l nxt -> t ∈ l -> exists r, m !! t = Some r.
Proof.
  revert prv. induction l as [|t' l IH]; intros prv; [by intros _ ?%elem_of_nil|].
  intros [(r & Hr & _) Hl] [->|Hin]%elem_of_cons; eauto.
Qed.

Lemma dlist_at m l1 t l2 r :
  dlist m 0 (l1 ++ t :: l2) 0 -> m !! t = Some r -> l_prev r = last_of 0 l1 /\ l_next r = hd 0 l2.
Proof.
  rewrite dlist_app. cbn [dlist]. intros (_ & (r' & Hr' & Hp & Hn) & _) Hr. assert (r' = r) as -> by congruence. done.
Qed.

(** Changing what is before the first element, or behind the last one. *)
Lemma dlist_set_prev m prv l nxt t v r :
  NoDup (t :: l) -> dlist m prv (t :: l) nxt -> m !! t = Some r ->
  dlist (<[t := set_l_prev v r]> m) v (t :: l) nxt.
Proof.
  intros [Hn _]%NoDup_cons [(r' & Hr' & _ & Hnx) Hl] Hr. assert (r' = r) as -> by congruence. split.
  - exists (set_l_prev v r). rewrite lookup_insert_eq, prev_of_set_prev, next_of_set_prev. done.
  - eapply dlist_frame; [|exact Hl]. intros t' Ht'. apply same_links_ne. by intros ->.
Qed.

Lemma dlist_set_next m prv l t nxt v r :
  NoDup (l ++ [t]) -> dlist m prv (l ++ [t]) nxt -> m !! t = Some r ->
  dlist (<[t := set_l_next v r]> m) prv (l ++ [t]) v.
Proof.
  intros (_ & Hd & _)%NoDup_app. rewrite !dlist_app. cbn [dlist hd].
  intros [Hl [(r' & Hr' & Hpv & _) _]] Hr. assert (r' = r) as -> by congruence. split.
  - eapply dlist_frame; [|exact Hl]. intros t' Ht'. apply same_links_ne. intros ->. apply (Hd t Ht'). by left.
  - split; [|done]. exists (set_l_next v r). rewrite lookup_insert_eq, prev_of_set_next, next_of_set_next. done.
Qed.

(** The records after [t] has been unlinked from [l1 ++ t :: l2]. *)
Definition bypass (m : gmap Z A) (prv nxt : Z) : gmap Z A :=
  let m1 := if nxt =? 0 then m else match m !! nxt with Some r => <[nxt := set_l_prev prv r]> m | None => m end in
  if prv =? 0 then m1 else match m1 !! prv with Some r => <[prv := set_l_next nxt r]> m1 | None => m1 end.

Lemma bypass_dlist m l1 t l2 :
  NoDup (l1 ++ t :: l2) -> 0 ∉ l1 ++ t :: l2 -> dlist m 0 (l1 ++ t :: l2) 0 ->
  dlist (bypass m (last_of 0 l1) (hd 0 l2)) 0 (l1 ++ l2) 0.
Proof.
  intros (Hn1 & Hd & [Hnt Hn2]%NoDup_cons)%NoDup_app H0. rewrite !dlist_app. cbn [dlist hd]. intros (Hl1 & _ & Hl2). unfold bypass.
  set (m1 := if hd 0 l2 =? 0 then m else _).
  assert (H1 : dlist m1 (last_of 0 l1) l2 0 /\ forall a, a ∉ l2 -> m1 !! a = m !! a).
  { unfold m1. destruct l2 as [|b l2]; cbn [hd]; [done|]. destruct (Z.eqb_spec b 0) as [->|Hb]; [set_solver|].
    destruct (dlist_lookup _ _ _ _ b Hl2) as [rb Hrb]; [by left|]. rewrite Hrb. split; [by eapply dlist_set_prev|].
    intros a Ha. rewrite lookup_insert_ne; [done|set_solver]. }
  destruct H1 as [H1 Ho]. assert (Hl1' : dlist m1 0 l1 t).
  { eapply dlist_frame; [|exact Hl1]. intros a Ha. unfold same_links. rewrite Ho; [done|]. intros Ha2. apply (Hd a Ha). by right. }
  destruct l1 as [|z l1 _] using rev_ind; [done|]. rewrite last_of_app in *.
  destruct (Z.eqb_spec z 0) as [->|Hz]; [set_solver|].
  destruct (dlist_lookup _ _ _ _ z Hl1') as [rz Hrz]; [set_solver|]. rewrite Hrz. split; [by eapply dlist_set_next|].
  eapply dlist_frame; [|exact H1]. intros a Ha. apply same_links_ne. intros ->. apply (Hd z); [set_solver|by right].
Qed.

(** What it does to a record outside of the list. *)
Lemma bypass_ne m prv nxt a : a <> prv -> a <> nxt -> bypass m prv nxt !! a = m !! a.
Proof.
  intros Hp Hn. unfold bypass. set (m1 := if nxt =? 0 then m else _).
  assert (H1 : m1 !! a = m !! a).
  { unfold m1. destruct (nxt =? 0); [done|]. destruct (m !! nxt); [|done]. by rewrite lookup_insert_ne. }
  destruct (prv =? 0); [done|]. destruct (m1 !! prv); [|done]. by rewrite lookup_insert_ne.
Qed.

(** The part of a record that is no link is kept. *)
Lemma bypass_same {B} (f : A -> B) m prv nxt a :
  (forall v r, f (set_l_prev v r) = f r) -> (forall v r, f (set_l_next v r) = f r) ->
  f <$> bypass m prv nxt !! a = f <$> m !! a.
Proof.
  intros Hp Hn. unfold bypass. set (m1 := if nxt =? 0 then m else _).
  assert (H1 : forall a, f <$> m1 !! a = f <$> m !! a).
  { intros b. unfold m1. destruct (nxt =? 0); [done|]. destruct (m !! nxt) as [r|] eqn:E; [|done].
    destruct (decide (b = nxt)) as [->|]; [rewrite lookup_insert_eq, E; cbn; by rewrite Hp|by rewrite lookup_insert_ne]. }
  destruct (prv =? 0); [apply H1|]. destruct (m1 !! prv) as [r|] eqn:E; [|apply H1]. rewrite <- H1.
  destruct (decide (a = prv)) as [->|]; [rewrite lookup_insert_eq, E; cbn; by rewrite Hn|by rewrite lookup_insert_ne].
Qed.

(** A record at the end of a list. *)
Definition append (m : gmap Z A) (lst w : Z) (r : A) : gmap Z A :=
  let m1 := <[w := set_l_prev lst (set_l_next 0 r)]> m in
  if lst =? 0 then m1 else match m1 !! lst with Some rl => <[lst := set_l_next w rl]> m1 | None => m1 end.

Lemma append_dlist m l w r :
  NoDup l -> w ∉ l -> 0 ∉ l -> dlist m 0 l 0 -> dlist (append m (last_of 0 l) w r) 0 (l ++ [w]) 0.
Proof.
  intros Hn Hw H0 Hl. unfold append. set (m1 := <[w := _]> m).
  assert (Hl1 : dlist m1 0 l 0) by (eapply dlist_frame; [|exact Hl]; intros a Ha; apply same_links_ne; by intros ->).
  assert (Hw1 : m1 !! w = Some (set_l_prev (last_of 0 l) (set_l_next 0 r))) by apply lookup_insert_eq.
  rewrite dlist_app. cbn [dlist hd]. destruct l as [|z l _] using rev_ind.
  - cbn. split; [done|]. split; [|done]. eexists. split; [exact Hw1|]. by rewrite prev_of_set_prev, next_of_set_prev, next_of_set_next.
  - rewrite last_of_app in *. destruct (Z.eqb_spec z 0) as [->|Hz]; [set_solver|].
    destruct (dlist_lookup _ _ _ _ z Hl1) as [rz Hrz]; [set_solver|]. rewrite Hrz. split; [by eapply dlist_set_next|].
    split; [|done]. eexists. rewrite lookup_insert_ne by set_solver. split; [exact Hw1|].
    by rewrite prev_of_set_prev, next_of_set_prev, next_of_set_next.
Qed.

Lemma append_ne m lst w r a : a <> lst -> a <> w -> append m lst w r !! a = m !! a.
Proof.
  intros Hl Hw. unfold append. destruct (lst =? 0); [by rewrite lookup_insert_ne|].
  destruct (<[w := _]> m !! lst); rewrite ?lookup_insert_ne by done; done.
Qed.

Lemma append_same {B} (f : A -> B) m lst w r a :
  m !! w = Some r -> (forall v r, f (set_l_prev v r) = f r) -> (forall v r, f (set_l_next v r) = f r) ->
  f <$> append m lst w r !! a = f <$> m !! a.
Proof.
  intros Hr Hp Hn. unfold append. set (m1 := <[w := _]> m).
  assert (H1 : forall a, f <$> m1 !! a = f <$> m !! a).
  { intros b. unfold m1. destruct (decide (b = w)) as [->|]; [rewrite lookup_insert_eq, Hr; cbn; by rewrite Hp, Hn|by rewrite lookup_insert_ne]. }
  destruct (lst =? 0); [apply H1|]. destruct (m1 !! lst) as [rl|] eqn:E; [|apply H1]. rewrite <- H1.
  destruct (decide (a = lst)) as [->|]; [rewrite lookup_insert_eq, E; cbn; by rewrite Hn|by rewrite lookup_insert_ne].
Qed.
End Dlist.
