(* ===== verification/Dpc.v ===== *)
(** * Deferred procedure calls (sys/krnl/sched.c)

    Interrupt handlers leave the longer part of their work in a queue of
    deferred procedure calls, which [dispatch] runs before it picks a thread.
    The queue is singly linked through the control blocks; a flag in each block
    says whether it is queued.  The procedures are a parameter: [call] runs the
    procedure at an address on its argument.  Interrupts are not modelled, so
    [queue_dpc], which masks them around [queue_irq_dpc], is the same operation.

    The theorem: the queue runs each call once, in the order of queueing, and
    is then empty. *)

From S2P Require Import Prelude.

Definition DPC_QUEUED_BIT : Z := 0.
Definition DPC_EXECUTING_BIT : Z := 1.
Definition DPC_QUEUED : Z := Z.shiftl 1 DPC_QUEUED_BIT.
Definition DPC_EXECUTING : Z := Z.shiftl 1 DPC_EXECUTING_BIT.

(** struct dpc *)
Record dpc := Dpc {
  d_proc : Z;
  d_arg : Z;
  d_next : Z;
  d_flags : Z;
}.

Definition set_d_proc (v : Z) (d : dpc) : dpc := Dpc v (d_arg d) (d_next d) (d_flags d).
Definition set_d_arg (v : Z) (d : dpc) : dpc := Dpc (d_proc d) v (d_next d) (d_flags d).
Definition set_d_next (v : Z) (d : dpc) : dpc := Dpc (d_proc d) (d_arg d) v (d_flags d).
Definition set_d_flags (v : Z) (d : dpc) : dpc := Dpc (d_proc d) (d_arg d) (d_next d) v.

(** The blocks, by address, and the global variables. *)
Record dpcs := Dpcs {
  dpc_blocks : gmap Z dpc;
  dpc_queue_head : Z;
  dpc_queue_tail : Z;
  in_dpc : Z;
  dpc_total : Z;
  dpc_lost : Z;
}.

Definition set_blocks (m : gmap Z dpc) (q : dpcs) : dpcs :=
  Dpcs m (dpc_queue_head q) (dpc_queue_tail q) (in_dpc q) (dpc_total q) (dpc_lost q).
Definition set_dhead (v : Z) (q : dpcs) : dpcs :=
  Dpcs (dpc_blocks q) v (dpc_queue_tail q) (in_dpc q) (dpc_total q) (dpc_lost q).
Definition set_dtail (v : Z) (q : dpcs) : dpcs :=
  Dpcs (dpc_blocks q) (dpc_queue_head q) v (in_dpc q) (dpc_total q) (dpc_lost q).
Definition set_in_dpc (v : Z) (q : dpcs) : dpcs :=
  Dpcs (dpc_blocks q) (dpc_queue_head q) (dpc_queue_tail q) v (dpc_total q) (dpc_lost q).
Definition set_dtotal (v : Z) (q : dpcs) : dpcs :=
  Dpcs (dpc_blocks q) (dpc_queue_head q) (dpc_queue_tail q) (in_dpc q) v (dpc_lost q).
Definition set_dlost (v : Z) (q : dpcs) : dpcs :=
  Dpcs (dpc_blocks q) (dpc_queue_head q) (dpc_queue_tail q) (in_dpc q) (dpc_total q) v.

Local Open Scope k_scope.

Definition get_dpc (d : Z) : K dpcs dpc := let* q := kget in kopt (dpc_blocks q !! d).
Definition upd_dpc (d : Z) (f : dpc -> dpc) : K dpcs unit :=
  let* r := get_dpc d in kmod (fun q => set_blocks (<[d := f r]> (dpc_blocks q)) q).

Definition init_dpc (d : Z) : K dpcs unit :=
  upd_dpc d (set_d_proc 0) ;;;
  upd_dpc d (set_d_arg 0) ;;;
  upd_dpc d (set_d_next 0) ;;;
  upd_dpc d (set_d_flags 0).

Definition queue_irq_dpc (d proc arg : Z) : K dpcs unit :=
  let* r := get_dpc d in
  if negb (Z.land (d_flags r) DPC_QUEUED =? 0) then
    kmod (fun q => set_dlost (u32 (dpc_lost q + 1)) q)
  else
    upd_dpc d (set_d_proc proc) ;;;
    upd_dpc d (set_d_arg arg) ;;;
    upd_dpc d (set_d_next 0) ;;;
    let* q := kget in
    (if negb (dpc_queue_tail q =? 0) then upd_dpc (dpc_queue_tail q) (set_d_next d) else kret tt) ;;;
    kmod (set_dtail d) ;;;
    let* q := kget in
    (if dpc_queue_head q =? 0 then kmod (set_dhead d) else kret tt) ;;;
    let* r := get_dpc d in
    upd_dpc d (set_d_flags (Z.setbit (d_flags r) DPC_QUEUED_BIT)).

Definition queue_dpc (d proc arg : Z) : K dpcs unit := queue_irq_dpc d proc arg.

Definition get_next_dpc : K dpcs Z :=
  let* q := kget in
  if negb (dpc_queue_head q =? 0) then
    let d := dpc_queue_head q in
    let* r := get_dpc d in
    kmod (set_dhead (d_next r)) ;;;
    let* q := kget in
    (if dpc_queue_tail q =? d then kmod (set_dtail 0) else kret tt) ;;;
    kret d
  else kret 0.

Section Run.
Context {S : Type}.
Variable getq : S -> dpcs.
Variable setq : dpcs -> S -> S.
Variable call : Z -> Z -> K S unit.

Definition on_queue {A} (m : K dpcs A) : K S A := kzoom getq setq m.

(** The loop of [dispatch_dpc_queue], at most [fuel] rounds of it. *)
Fixpoint dpc_loop (fuel : nat) : K S unit :=
  match fuel with
  | O => khang
  | Datatypes.S fuel' =>
    let* d := on_queue get_next_dpc in
    if d =? 0 then kret tt
    else
      let* r := on_queue (get_dpc d) in
      on_queue (upd_dpc d (set_d_flags (Z.clearbit (d_flags r) DPC_QUEUED_BIT))) ;;;
      let* r' := on_queue (get_dpc d) in
      (if Z.land (d_flags r') DPC_EXECUTING =? 0 then
         on_queue (upd_dpc d (set_d_flags (Z.setbit (d_flags r') DPC_EXECUTING_BIT))) ;;;
         call (d_proc r) (d_arg r) ;;;
         let* r'' := on_queue (get_dpc d) in
         on_queue (upd_dpc d (set_d_flags (Z.clearbit (d_flags r'') DPC_EXECUTING_BIT))) ;;;
         on_queue (kmod (fun q => set_dtotal (u32 (dpc_total q + 1)) q))
       else kret tt) ;;;
      dpc_loop fuel'
  end.

Definition dispatch_dpc_queue (fuel : nat) : K S unit :=
  let* q := on_queue kget in
  if negb (in_dpc q =? 0) then kpanic "sched: nested execution of dpc queue"
  else
    on_queue (kmod (set_in_dpc 1)) ;;;
    dpc_loop fuel ;;;
    on_queue (kmod (set_in_dpc 0)).

Definition check_dpc_queue (fuel : nat) : K S unit :=
  let* q := on_queue kget in
  if negb (dpc_queue_head q =? 0) then dispatch_dpc_queue fuel else kret tt.
End Run.

(** ** The queue as a list *)

Fixpoint dchain (m : gmap Z dpc) (l : list Z) : Prop :=
  match l with
  | [] => True
  | d :: l' => (exists r, m !! d = Some r /\ d_next r = hd 0 l') /\ dchain m l'
  end.

(** The blocks of [l] are queued, in this order, and no others. *)
Record dq (l : list Z) (q : dpcs) : Prop := {
  dq_chain : dchain (dpc_blocks q) l;
  dq_head : dpc_queue_head q = hd 0 l;
  dq_tail : dpc_queue_tail q = default 0 (last l);
  dq_nodup : NoDup l;
  dq_null : dpc_blocks q !! 0 = None;
  dq_flag : forall d r, dpc_blocks q !! d = Some r -> (Z.testbit (d_flags r) DPC_QUEUED_BIT = true <-> d ∈ l);
}.

Lemma dchain_lookup m l d : dchain m l -> d ∈ l -> exists r, m !! d = Some r.
Proof.
  induction l as [|d' l IH]; [by intros _ ?%elem_of_nil|]. intros [(r & Hr & _) Hl] [->|Hin]%elem_of_cons; eauto.
Qed.

Lemma dchain_frame m m' l :
  (forall d, d ∈ l -> d_next <$> m' !! d = d_next <$> m !! d) -> dchain m l -> dchain m' l.
Proof.
  induction l as [|d l IH]; [done|]. intros Hf [(r & Hr & Hn) Hl]. split; [|apply IH; [|done]; intros d' Hd'; apply Hf; by right].
  specialize (Hf d ltac:(by left)). rewrite Hr in Hf. destruct (m' !! d) as [r'|]; [|done]. exists r'. split; [done|].
  change (Some (d_next r') = Some (d_next r)) in Hf. congruence.
Qed.

(** A block at the end. *)
Lemma dchain_snoc m l z d r r' :
  NoDup (l ++ [z]) -> d ∉ l ++ [z] -> dchain m (l ++ [z]) -> m !! z = Some r -> m !! d = Some r' -> d_next r' = 0 ->
  dchain (<[z := set_d_next d r]> m) (l ++ [z; d]).
Proof.
  intros Hn Hd. induction l as [|x l IH]; cbn [app dchain hd].
  - intros _ Hz Hr' Hx. split; [by exists (set_d_next d r); rewrite lookup_insert_eq|]. split; [|done]. exists r'.
    rewrite lookup_insert_ne; [done|set_solver].
  - apply NoDup_cons in Hn as [Hx Hn]. intros [(rx & Hrx & Hnx) Hl] Hz Hr' H0. split; [|apply IH; [done|set_solver|done..]].
    exists rx. rewrite lookup_insert_ne by set_solver. split; [done|]. rewrite Hnx. by destruct l.
Qed.

Lemma get_dpc_run d r q : dpc_blocks q !! d = Some r -> get_dpc d q = Done (r, q).
Proof. intros H. unfold get_dpc. kx. by rewrite H. Qed.

Lemma upd_dpc_run d r f q :
  dpc_blocks q !! d = Some r -> upd_dpc d f q = Done (tt, set_blocks (<[d := f r]> (dpc_blocks q)) q).
Proof. intros H. unfold upd_dpc. by rewrite (kbind_done _ _ _ _ _ (get_dpc_run d r q H)). Qed.

Lemma land_bit x p : 0 <= p -> (Z.land x (Z.shiftl 1 p) =? 0) = negb (Z.testbit x p).
Proof.
  intros Hp. rewrite Z.shiftl_1_l. destruct (Z.testbit x p) eqn:E.
  - apply Z.eqb_neq. intros H. assert (Z.testbit (Z.land x (2 ^ p)) p = false) by (rewrite H; apply Z.testbit_0_l).
    rewrite Z.land_spec, E, Z.pow2_bits_true in *; done.
  - apply Z.eqb_eq. apply Z.bits_inj'. intros n Hn. rewrite Z.land_spec, Z.pow2_bits_eqb, Z.testbit_0_l by done.
    destruct (Z.eqb_spec p n) as [<-|]; [by rewrite E|apply andb_false_r].
Qed.

Lemma clear_set_bit x p : 0 <= p -> Z.testbit x p = false -> Z.clearbit (Z.setbit x p) p = x.
Proof.
  intros Hp Hx. apply Z.bits_inj'. intros k Hk. rewrite Z.clearbit_eqb by done.
  destruct (Z.eqb_spec p k) as [<-|Hne]; [by rewrite andb_false_r|]. by rewrite Z.setbit_neq, andb_true_r.
Qed.

Lemma init_dpc_run d r q : dpc_blocks q !! d = Some r ->
  init_dpc d q = Done (tt, set_blocks (<[d := Dpc 0 0 0 0]> (dpc_blocks q)) q).
Proof.
  intros Hr. unfold init_dpc. kx.
  do 4 (erewrite upd_dpc_run by (cbn [dpc_blocks set_blocks]; rewrite ?lookup_insert_eq; done); cbn [dpc_blocks set_blocks]; rewrite ?insert_insert_eq).
  done.
Qed.

(** Queueing a block that is not queued puts it at the end. *)
Definition queued (d proc arg : Z) (r : dpc) (l : list Z) (q : dpcs) : dpcs :=
  let m := <[d := Dpc proc arg 0 (Z.setbit (d_flags r) DPC_QUEUED_BIT)]> (dpc_blocks q) in
  let m := match last l with
           | Some z => match dpc_blocks q !! z with Some rz => <[z := set_d_next d rz]> m | None => m end
           | None => m
           end in
  Dpcs m (hd d l) d (in_dpc q) (dpc_total q) (dpc_lost q).

Lemma dq_fresh l q d r : dq l q -> dpc_blocks q !! d = Some r -> Z.testbit (d_flags r) DPC_QUEUED_BIT = false -> d ∉ l.
Proof. intros Q Hr Hb Hin. apply (dq_flag _ _ Q d r Hr) in Hin. congruence. Qed.

Lemma dq_no_null l q : dq l q -> 0 ∉ l.
Proof. intros Q Hin. destruct (dchain_lookup _ _ _ (dq_chain _ _ Q) Hin) as [r Hr]. by rewrite (dq_null _ _ Q) in Hr. Qed.

Lemma queue_lost_run l q d r proc arg :
  dq l q -> dpc_blocks q !! d = Some r -> d ∈ l ->
  queue_irq_dpc d proc arg q = Done (tt, set_dlost (u32 (dpc_lost q + 1)) q).
Proof.
  intros Q Hr Hin. unfold queue_irq_dpc, DPC_QUEUED. rewrite (kbind_done _ _ _ _ _ (get_dpc_run d r q Hr)), land_bit by done.
  by rewrite (proj2 (dq_flag _ _ Q d r Hr) Hin).
Qed.

Lemma queue_run l q d r proc arg :
  dq l q -> dpc_blocks q !! d = Some r -> d ∉ l -> queue_irq_dpc d proc arg q = Done (tt, queued d proc arg r l q).
Proof.
  intros Q Hr Hin. assert (Hb : Z.testbit (d_flags r) DPC_QUEUED_BIT = false).
  { destruct (Z.testbit _ _) eqn:E; [|done]. by destruct Hin; apply (dq_flag _ _ Q d r Hr). }
  assert (H0 : d <> 0) by (intros ->; by rewrite (dq_null _ _ Q) in Hr).
  unfold queue_irq_dpc, DPC_QUEUED. rewrite (kbind_done _ _ _ _ _ (get_dpc_run d r q Hr)), land_bit, Hb by done. cbn [negb].
  kx. do 3 (erewrite upd_dpc_run by (cbn [dpc_blocks set_blocks]; rewrite ?lookup_insert_eq; done); cbn [dpc_blocks set_blocks]; rewrite ?insert_insert_eq).
  cbn [dpc_queue_tail set_blocks]. rewrite (dq_tail _ _ Q). unfold queued. destruct l as [|z l _] using rev_ind.
  - cbn [last default negb Z.eqb]. cbn [dpc_queue_head set_dtail set_blocks]. rewrite (dq_head _ _ Q). cbn [hd Z.eqb].
    erewrite get_dpc_run by (cbn [dpc_blocks set_dhead set_dtail set_blocks]; by rewrite lookup_insert_eq).
    erewrite upd_dpc_run by (cbn [dpc_blocks set_dhead set_dtail set_blocks]; by rewrite lookup_insert_eq).
    cbn [dpc_blocks set_dhead set_dtail set_blocks]. by rewrite insert_insert_eq.
  - rewrite last_snoc. change (default 0 (Some z)) with z. assert (Hz : z ∈ l ++ [z]) by set_solver.
    destruct (dchain_lookup _ _ _ (dq_chain _ _ Q) Hz) as [rz Hrz]. rewrite Hrz.
    assert (Hz0 : z <> 0) by (intros ->; by rewrite (dq_null _ _ Q) in Hrz). assert (Hzd : z <> d) by (intros ->; done).
    destruct (Z.eqb_spec z 0) as [|_]; [done|]. cbn [negb].
    erewrite upd_dpc_run by (cbn [dpc_blocks set_blocks]; rewrite lookup_insert_ne by done; exact Hrz).
    cbn [dpc_queue_head set_dtail set_blocks]. rewrite (dq_head _ _ Q).
    assert (Hh : hd 0 (l ++ [z]) <> 0).
    { intros E. apply (dq_no_null _ _ Q). destruct l; cbn in E |- *; rewrite <- E; by left. }
    destruct (Z.eqb_spec (hd 0 (l ++ [z])) 0) as [|_]; [done|].
    erewrite get_dpc_run by (cbn [dpc_blocks set_dtail set_blocks]; rewrite lookup_insert_ne by done; by rewrite lookup_insert_eq).
    erewrite upd_dpc_run by (cbn [dpc_blocks set_dtail set_blocks]; rewrite lookup_insert_ne by done; by rewrite lookup_insert_eq).
    unfold set_blocks, set_dtail. cbn [dpc_blocks dpc_queue_head dpc_queue_tail in_dpc dpc_total dpc_lost d_flags]. do 2 f_equal.
    rewrite (dq_head _ _ Q). f_equal; [|by destruct l].
    rewrite (insert_insert_ne _ d z) by done. by rewrite insert_insert_eq.
Qed.

Lemma queue_dq l q d r proc arg :
  dq l q -> dpc_blocks q !! d = Some r -> d ∉ l -> dq (l ++ [d]) (queued d proc arg r l q).
Proof.
  intros Q Hr Hin. assert (H0 : d <> 0) by (intros ->; by rewrite (dq_null _ _ Q) in Hr).
  set (rd := Dpc proc arg 0 (Z.setbit (d_flags r) DPC_QUEUED_BIT)).
  assert (Hflag : forall a ra, <[d := rd]> (dpc_blocks q) !! a = Some ra -> Z.testbit (d_flags ra) DPC_QUEUED_BIT = true <-> a ∈ l ++ [d]).
  { intros a ra. destruct (decide (a = d)) as [->|Hne].
    - rewrite lookup_insert_eq. intros [= <-]. cbn [d_flags rd]. rewrite Z.setbit_eq by done. split; [set_solver|done].
    - rewrite lookup_insert_ne by done. intros Ha. rewrite (dq_flag _ _ Q a ra Ha). set_solver. }
  assert (Hnd : NoDup (l ++ [d])) by (apply NoDup_app; split_and!; [apply Q|set_solver|apply NoDup_singleton]).
  unfold queued. fold rd. destruct l as [|z l _] using rev_ind.
  - split; cbn [dpc_blocks dpc_queue_head dpc_queue_tail last hd app]; try done.
    + cbn [dchain]. split; [|done]. exists rd. by rewrite lookup_insert_eq.
    + rewrite lookup_insert_ne by done. apply Q.
  - rewrite last_snoc. assert (Hz : z ∈ l ++ [z]) by set_solver.
    destruct (dchain_lookup _ _ _ (dq_chain _ _ Q) Hz) as [rz Hrz]. rewrite Hrz.
    assert (Hz0 : z <> 0) by (intros ->; by rewrite (dq_null _ _ Q) in Hrz). assert (Hzd : z <> d) by (intros ->; done).
    split; cbn [dpc_blocks dpc_queue_head dpc_queue_tail].
    + rewrite <- app_assoc. cbn [app]. apply (dchain_snoc _ _ _ _ _ rd); [apply Q|done| |by rewrite lookup_insert_ne|by rewrite lookup_insert_eq|done].
      apply (dchain_frame (dpc_blocks q)); [|apply Q]. intros a Ha. rewrite lookup_insert_ne; [done|set_solver].
    + by destruct l.
    + by rewrite last_snoc.
    + done.
    + rewrite !lookup_insert_ne by done. apply Q.
    + intros a ra Ha. destruct (decide (a = z)) as [->|Hne].
      * rewrite lookup_insert_eq in Ha. injection Ha as <-. change (d_flags (set_d_next d rz)) with (d_flags rz).
        apply Hflag. by rewrite lookup_insert_ne.
      * rewrite lookup_insert_ne in Ha by done. by apply Hflag.
Qed.

(** The queue after its first block has been handled. *)
Definition handled (d : Z) (r : dpc) (l : list Z) (q : dpcs) : dpcs :=
  Dpcs (<[d := set_d_flags (Z.clearbit (d_flags r) DPC_QUEUED_BIT) r]> (dpc_blocks q)) (hd 0 l) (default 0 (last l))
    (in_dpc q) (u32 (dpc_total q + 1)) (dpc_lost q).

Lemma handled_dq d r l q : dq (d :: l) q -> dpc_blocks q !! d = Some r -> dq l (handled d r l q).
Proof.
  intros Q Hr. pose proof (dq_nodup _ _ Q) as [Hd Hn]%NoDup_cons. split; cbn [handled dpc_blocks dpc_queue_head dpc_queue_tail]; try done.
  - apply (dchain_frame (dpc_blocks q)); [|apply (dq_chain _ _ Q)]. intros a Ha. rewrite lookup_insert_ne; [done|set_solver].
  - rewrite lookup_insert_ne by (intros ->; by rewrite (dq_null _ _ Q) in Hr). apply Q.
  - intros a ra. destruct (decide (a = d)) as [->|Hne].
    + rewrite lookup_insert_eq. intros [= <-]. cbn [d_flags set_d_flags]. rewrite Z.clearbit_eq. split; [done|]. by intros ?%Hd.
    + rewrite lookup_insert_ne by done. intros Ha. rewrite (dq_flag _ _ Q a ra Ha). set_solver.
Qed.

Lemma get_next_run d r l q : dq (d :: l) q -> dpc_blocks q !! d = Some r ->
  get_next_dpc q = Done (d, set_dtail (default 0 (last l)) (set_dhead (hd 0 l) q)).
Proof.
  intros Q Hr. assert (H0 : d <> 0) by (intros ->; by rewrite (dq_null _ _ Q) in Hr).
  unfold get_next_dpc. kx. rewrite (dq_head _ _ Q). cbn [hd]. destruct (Z.eqb_spec d 0) as [|_]; [done|]. cbn [negb].
  rewrite (get_dpc_run d r q Hr). destruct (dq_chain _ _ Q) as [(r' & Hr' & Hnx) _]. assert (r' = r) as -> by congruence. rewrite Hnx.
  cbn [dpc_queue_tail set_dhead]. rewrite (dq_tail _ _ Q). pose proof (dq_nodup _ _ Q) as [Hd _]%NoDup_cons.
  destruct l as [|z l _] using rev_ind.
  - cbn [last]. change (default 0 (Some d)) with d. by rewrite Z.eqb_refl.
  - rewrite app_comm_cons, !last_snoc. change (default 0 (Some z)) with z. destruct (Z.eqb_spec z d) as [->|_]; [set_solver|].
    unfold set_dtail, set_dhead. cbn [dpc_blocks dpc_queue_head dpc_queue_tail in_dpc dpc_total dpc_lost].
    do 3 f_equal. rewrite (dq_tail _ _ Q). by rewrite app_comm_cons, last_snoc.
Qed.

Lemma get_next_empty q : dq [] q -> get_next_dpc q = Done (0, q).
Proof. intros Q. unfold get_next_dpc. kx. by rewrite (dq_head _ _ Q). Qed.

(** ** Running the queue *)

Section Runs.
Context {S : Type}.
Variable getq : S -> dpcs.
Variable setq : dpcs -> S -> S.
Variable call : Z -> Z -> K S unit.

(** The state has a queue as one of its parts. *)
Definition has_queue : Prop :=
  (forall q s, getq (setq q s) = q) /\ (forall s, setq (getq s) s = s) /\
  (forall q q' s, setq q (setq q' s) = setq q s).

(** The same outcome with another queue. *)
Definition with_queue (q : dpcs) (o : outcome (unit * S)) : outcome (unit * S) :=
  match o with
  | Done (u, s) => Done (u, setq q s)
  | Panic msg => Panic msg
  | Fault => Fault
  | Hang => Hang
  end.

(** The procedures do not look at the queue and do not change it. *)
Definition ignores_queue (m : K S unit) : Prop := forall q s, m (setq q s) = with_queue q (m s).

(** The calls that are in the queue, and running them one after the other. *)
Definition calls_of (q : dpcs) (l : list Z) : list (Z * Z) :=
  map (fun d => match dpc_blocks q !! d with Some r => (d_proc r, d_arg r) | None => (0, 0) end) l.

Fixpoint run_calls (l : list (Z * Z)) : K S unit :=
  match l with
  | [] => kret tt
  | (p, a) :: l' => call p a ;;; run_calls l'
  end.

Hypothesis Hq : has_queue.
Hypothesis Hcall : forall p a, ignores_queue (call p a).

Lemma run_calls_ignores l : ignores_queue (run_calls l).
Proof.
  induction l as [|[p a] l IH]; intros q s; [done|]. cbn [run_calls]. unfold kbind. rewrite Hcall.
  destruct (call p a s) as [[u s']| | |]; [|done..]. apply IH.
Qed.

Lemma with_queue_twice q q' o : with_queue q (with_queue q' o) = with_queue q o.
Proof. destruct o as [[u s]| | |]; cbn; [|done..]. by rewrite (proj2 (proj2 Hq)). Qed.

Lemma on_queue_run {A} (m : K dpcs A) q s a q' :
  getq s = q -> m q = Done (a, q') -> on_queue getq setq m s = Done (a, setq q' s).
Proof. intros E H. unfold on_queue, kzoom. by rewrite E, H. Qed.

Lemma on_queue_set {A} (m : K dpcs A) q s a q' :
  m q = Done (a, q') -> on_queue getq setq m (setq q s) = Done (a, setq q' s).
Proof. intros H. erewrite on_queue_run; [|apply Hq|exact H]. by rewrite (proj2 (proj2 Hq)). Qed.

(** One round of the loop. *)
Lemma dpc_round n d r l s :
  dq (d :: l) (getq s) -> dpc_blocks (getq s) !! d = Some r -> Z.testbit (d_flags r) DPC_EXECUTING_BIT = false ->
  dpc_loop getq setq call (Datatypes.S n) s =
    (call (d_proc r) (d_arg r) ;;; (fun s' => dpc_loop getq setq call n (setq (handled d r l (getq s)) s'))) s.
Proof.
  intros Q Hr Hx. assert (H0 : d <> 0) by (intros ->; by rewrite (dq_null _ _ Q) in Hr). cbn [dpc_loop]. set (q := getq s) in *.
  rewrite (kbind_done _ _ _ _ _ (on_queue_run _ q s _ _ eq_refl (get_next_run d r l q Q Hr))).
  destruct (Z.eqb_spec d 0) as [|_]; [done|]. set (q1 := set_dtail _ _).
  rewrite (kbind_done _ _ _ _ _ (on_queue_set _ q1 s _ _ (get_dpc_run d r q1 Hr))).
  rewrite (kbind_done _ _ _ _ _ (on_queue_set _ q1 s _ _ (upd_dpc_run d r _ q1 Hr))). cbn [dpc_blocks q1 set_dtail set_dhead].
  set (r1 := set_d_flags _ r). set (q2 := set_blocks _ q1). assert (H2 : dpc_blocks q2 !! d = Some r1) by apply lookup_insert_eq.
  rewrite (kbind_done _ _ _ _ _ (on_queue_set _ q2 s _ _ (get_dpc_run d r1 q2 H2))).
  assert (Hx1 : Z.testbit (d_flags r1) DPC_EXECUTING_BIT = false) by (cbn [d_flags set_d_flags r1]; rewrite Z.clearbit_neq; done).
  unfold DPC_EXECUTING. rewrite land_bit, Hx1 by done. cbn [negb].
  unfold kbind. rewrite (on_queue_set _ q2 s _ _ (upd_dpc_run d r1 _ q2 H2)).
  set (r2 := set_d_flags _ r1). set (q3 := set_blocks _ q2). rewrite Hcall.
  destruct (call (d_proc r) (d_arg r) s) as [[u s']| | |]; [|done..]. cbn [with_queue].
  assert (H3 : dpc_blocks q3 !! d = Some r2) by apply lookup_insert_eq.
  rewrite (on_queue_set _ q3 s' _ _ (get_dpc_run d r2 q3 H3)), (on_queue_set _ q3 s' _ _ (upd_dpc_run d r2 _ q3 H3)).
  rewrite (on_queue_set _ _ s' _ _ eq_refl). f_equal. f_equal. unfold handled. subst q3 q2 q1 r2. subst r1.
  unfold set_dtotal, set_blocks, set_dtail, set_dhead.
  cbn [dpc_blocks dpc_queue_head dpc_queue_tail in_dpc dpc_total dpc_lost d_flags d_proc d_arg d_next set_d_flags].
  rewrite !insert_insert_eq. cbn [d_flags set_d_flags] in Hx1. rewrite clear_set_bit by done. reflexivity.
Qed.

(** The queue when all is done: the calls have been counted. *)
Fixpoint handled_all (l : list Z) (q : dpcs) : dpcs :=
  match l with
  | [] => q
  | d :: l' => handled_all l' (match dpc_blocks q !! d with Some r => handled d r l' q | None => q end)
  end.

Definition none_executing (l : list Z) (q : dpcs) : Prop :=
  forall d r, d ∈ l -> dpc_blocks q !! d = Some r -> Z.testbit (d_flags r) DPC_EXECUTING_BIT = false.

Lemma handled_later d r l q a : a <> d -> dpc_blocks (handled d r l q) !! a = dpc_blocks q !! a.
Proof. intros H. cbn [handled dpc_blocks]. by rewrite lookup_insert_ne. Qed.

Lemma calls_of_handled d r l l' q : d ∉ l' -> calls_of (handled d r l q) l' = calls_of q l'.
Proof.
  intros Hd. apply map_ext_in. intros a Ha%list_elem_of_In. rewrite handled_later; [done|set_solver].
Qed.

Lemma dpc_loop_run l : forall n s,
  dq l (getq s) -> none_executing l (getq s) -> (length l < n)%nat ->
  dpc_loop getq setq call n s = with_queue (handled_all l (getq s)) (run_calls (calls_of (getq s) l) s).
Proof.
  destruct Hq as (Hgs & Hsg & Hss). induction l as [|d l IH]; intros [|n] s Q Hx Hn; [cbn in Hn; lia| |cbn in Hn; lia|].
  - cbn [dpc_loop]. by rewrite (kbind_done _ _ _ _ _ (on_queue_run _ _ s _ _ eq_refl (get_next_empty _ Q))).
  - destruct (dq_chain _ _ Q) as [(r & Hr & _) _]. pose proof (dq_nodup _ _ Q) as [Hd _]%NoDup_cons.
    rewrite (dpc_round n d r l s Q Hr) by (apply (Hx d r); [by left|done]).
    cbn [calls_of map run_calls handled_all]. rewrite Hr. unfold kbind.
    destruct (call (d_proc r) (d_arg r) s) as [[u s1]| | |]; [|done..].
    set (q1 := handled d r l (getq s)). rewrite (IH n); rewrite ?Hgs.
    + rewrite (run_calls_ignores _ q1 s1), with_queue_twice. unfold q1. by rewrite calls_of_handled.
    + by apply handled_dq.
    + intros a ra Ha. unfold q1. rewrite handled_later by set_solver. apply Hx. by right.
    + cbn in Hn. lia.
Qed.

(** [dispatch_dpc_queue] is running the calls of the queue. *)
Lemma dispatch_dpc_queue_run l n s :
  dq l (getq s) -> none_executing l (getq s) -> in_dpc (getq s) = 0 -> (length l < n)%nat ->
  dispatch_dpc_queue getq setq call n s =
    with_queue (set_in_dpc 0 (handled_all l (set_in_dpc 1 (getq s)))) (run_calls (calls_of (getq s) l) s).
Proof.
  intros Q Hx Hi Hn. pose proof Hq as (Hgs & Hsg & Hss). unfold dispatch_dpc_queue.
  rewrite (kbind_done _ _ _ _ _ (on_queue_run kget _ s _ _ eq_refl eq_refl)), Hi. cbn [negb Z.eqb]. rewrite Hsg.
  rewrite (kbind_done _ _ _ _ _ (on_queue_run (kmod (set_in_dpc 1)) _ s _ _ eq_refl eq_refl)).
  set (q1 := set_in_dpc 1 (getq s)). unfold kbind. rewrite (dpc_loop_run l n); rewrite ?Hgs; [|by destruct Q; split|done|done].
  change (calls_of q1 l) with (calls_of (getq s) l). rewrite (run_calls_ignores _ q1 s), with_queue_twice.
  destruct (run_calls _ s) as [[[] s1]| | |]; [|done..]. cbn [with_queue].
  by rewrite (on_queue_set _ (handled_all l q1) s1 _ _ eq_refl).
Qed.

Lemma handled_all_spec l : forall q, dq l q -> 0 <= dpc_total q < W32 ->
  dq [] (handled_all l q) /\ in_dpc (handled_all l q) = in_dpc q /\
  dpc_total (handled_all l q) = u32 (dpc_total q + Z.of_nat (length l)) /\ dpc_lost (handled_all l q) = dpc_lost q.
Proof.
  induction l as [|d l IH]; intros q Q Ht; [split; [done|]; split; [done|]; split; [|done]; cbn; rewrite Z.add_0_r; symmetry; by apply u32_small|].
  destruct (dq_chain _ _ Q) as [(r & Hr & _) _]. cbn [handled_all]. rewrite Hr.
  destruct (IH (handled d r l q)) as (H1 & H2 & H3 & H4); [by apply handled_dq|apply u32_range|].
  split; [done|]. split; [done|]. split; [|done]. rewrite H3. cbn [handled dpc_total length]. rewrite u32_add_l. f_equal. lia.
Qed.
End Runs.

(** C24: [dispatch_dpc_queue] is equivalent to calling the procedures of the
    queued blocks one after the other, each once, on their arguments and in
    the order in which they were queued. Afterwards the queue is empty, no
    block is marked as queued, and the calls have been counted. This needs
    procedures that leave the queue alone and blocks that are not already
    executing; one round of the loop for each block and one more are enough. *)
Theorem dpc_queue_runs_all {S} (getq : S -> dpcs) setq call l n s :
  has_queue getq setq -> (forall p a, ignores_queue setq (call p a)) ->
  dq l (getq s) -> none_executing l (getq s) -> in_dpc (getq s) = 0 -> 0 <= dpc_total (getq s) < W32 -> (length l < n)%nat ->
  exists q', dispatch_dpc_queue getq setq call n s = with_queue setq q' (run_calls call (calls_of (getq s) l) s) /\
    dq [] q' /\ in_dpc q' = 0 /\ dpc_total q' = u32 (dpc_total (getq s) + Z.of_nat (length l)).
Proof.
  intros Hq Hc Q Hx Hi Ht Hn. eexists. split; [by apply dispatch_dpc_queue_run|].
  destruct (handled_all_spec l (set_in_dpc 1 (getq s))) as (H1 & H2 & H3 & _); [by destruct Q; split|done|].
  split; [by destruct H1; split|]. by split.
Qed.

(** Two queued calls, and a state that records calls. *)
Definition demo_dpcs : dpcs := Dpcs (<[16 := Dpc 100 1 32 1]> {[32 := Dpc 200 2 0 1]}) 16 32 0 0 0.
Definition demo_set (q : dpcs) (s : dpcs * list (Z * Z)) : dpcs * list (Z * Z) := (q, s.2).
Definition demo_call (p a : Z) : K (dpcs * list (Z * Z)) unit := kmod (fun s => (s.1, s.2 ++ [(p, a)])).

Lemma demo_dq : dq [16; 32] demo_dpcs.
Proof.
  split; cbn [dpc_blocks dpc_queue_head dpc_queue_tail demo_dpcs]; try done.
  - split; [exists (Dpc 100 1 32 1); split; reflexivity|]. split; [exists (Dpc 200 2 0 1); split; reflexivity|done].
  - apply NoDup_cons. split; [set_solver|apply NoDup_singleton].
  - intros d r [[<- <-]|[Hne [<- <-]%lookup_singleton_Some]]%lookup_insert_Some; cbn; split; try done; set_solver.
Qed.

Lemma dpc_queue_runs_all_witness :
  exists q', dispatch_dpc_queue fst demo_set demo_call 3 (demo_dpcs, []) = Done (tt, (q', [(100, 1); (200, 2)])) /\
    dq [] q' /\ in_dpc q' = 0 /\ dpc_total q' = 2.
Proof.
  apply (dpc_queue_runs_all fst demo_set demo_call [16; 32] 3 (demo_dpcs, [])).
  - split; [done|]. split; [by intros []|done].
  - done.
  - exact demo_dq.
  - intros d r _. cbn [fst dpc_blocks demo_dpcs]. intros [[<- <-]|[Hne [<- <-]%lookup_singleton_Some]]%lookup_insert_Some; reflexivity.
  - reflexivity.
  - cbn. unfold W32. lia.
  - cbn. lia.
Defined.
