(* ===== verification/Sched.v ===== *)
(** * Scheduler (sys/krnl/sched.c, include/bitops.h)

    Threads that can run are kept in one doubly linked queue per priority;
    [thread_ready_summary] has a bit for each queue that is not empty.  Threads
    are named by the addresses of their control blocks, and 0 is the null
    pointer.  A context switch is a change of [current], the thread that
    [self()] returns; code behind a call of [dispatch] runs when the thread is
    current again and is modelled as an operation of its own.  The deferred
    procedure calls that [dispatch] runs first are the section variable
    [check_dpc_queue].

    The theorems: whatever the order of operations, the queues hold exactly
    the ready threads, each in the queue of its priority, and the summary is
    right; [dispatch] runs the first thread of the highest queue. *)

From Stdlib Require Import Btauto.
From S2P Require Import Prelude Dlist Dpc.

Definition DEFAULT_QUANTUM : Z := 36.
Definition THREAD_PRIORITY_LEVELS : Z := 32.
Definition PRIORITY_TIME_CRITICAL : Z := 15.

Definition THREAD_STATE_INITIALIZED : Z := 0.
Definition THREAD_STATE_READY : Z := 1.
Definition THREAD_STATE_RUNNING : Z := 2.
Definition THREAD_STATE_WAITING : Z := 3.
Definition THREAD_STATE_TERMINATED : Z := 4.
Definition THREAD_STATE_SUSPENDED : Z := 5.
Definition THREAD_STATE_TRANSITION : Z := 6.

Definition THREAD_FPU_ENABLED : Z := 2.
Definition THREAD_ALERTABLE : Z := 4.
Definition THREAD_INTERRUPTED : Z := 8.

Definition EPERM : Z := 1.
Definition EINTR : Z := 4.
Definition EBUSY : Z := 16.
Definition EINVAL : Z := 22.

(** The fields of [struct thread] that the scheduler uses. *)
Record thread := Thread {
  t_state : Z;
  quantum : Z;
  wait_reason : Z;
  t_flags : Z;
  priority : Z;
  base_priority : Z;
  suspend_count : Z;
  context_switches : Z;
  preempts : Z;
  next_ready : Z;
  prev_ready : Z;
}.

Definition set_t_state (v : Z) (t : thread) : thread :=
  Thread v (quantum t) (wait_reason t) (t_flags t) (priority t) (base_priority t) (suspend_count t)
    (context_switches t) (preempts t) (next_ready t) (prev_ready t).
Definition set_quantum (v : Z) (t : thread) : thread :=
  Thread (t_state t) v (wait_reason t) (t_flags t) (priority t) (base_priority t) (suspend_count t)
    (context_switches t) (preempts t) (next_ready t) (prev_ready t).
Definition set_wait_reason (v : Z) (t : thread) : thread :=
  Thread (t_state t) (quantum t) v (t_flags t) (priority t) (base_priority t) (suspend_count t)
    (context_switches t) (preempts t) (next_ready t) (prev_ready t).
Definition set_t_flags (v : Z) (t : thread) : thread :=
  Thread (t_state t) (quantum t) (wait_reason t) v (priority t) (base_priority t) (suspend_count t)
    (context_switches t) (preempts t) (next_ready t) (prev_ready t).
Definition set_priority (v : Z) (t : thread) : thread :=
  Thread (t_state t) (quantum t) (wait_reason t) (t_flags t) v (base_priority t) (suspend_count t)
    (context_switches t) (preempts t) (next_ready t) (prev_ready t).
Definition set_base_priority (v : Z) (t : thread) : thread :=
  Thread (t_state t) (quantum t) (wait_reason t) (t_flags t) (priority t) v (suspend_count t)
    (context_switches t) (preempts t) (next_ready t) (prev_ready t).
Definition set_suspend_count (v : Z) (t : thread) : thread :=
  Thread (t_state t) (quantum t) (wait_reason t) (t_flags t) (priority t) (base_priority t) v
    (context_switches t) (preempts t) (next_ready t) (prev_ready t).
Definition set_context_switches (v : Z) (t : thread) : thread :=
  Thread (t_state t) (quantum t) (wait_reason t) (t_flags t) (priority t) (base_priority t) (suspend_count t)
    v (preempts t) (next_ready t) (prev_ready t).
Definition set_preempts (v : Z) (t : thread) : thread :=
  Thread (t_state t) (quantum t) (wait_reason t) (t_flags t) (priority t) (base_priority t) (suspend_count t)
    (context_switches t) v (next_ready t) (prev_ready t).
Definition set_next_ready (v : Z) (t : thread) : thread :=
  Thread (t_state t) (quantum t) (wait_reason t) (t_flags t) (priority t) (base_priority t) (suspend_count t)
    (context_switches t) (preempts t) v (prev_ready t).
Definition set_prev_ready (v : Z) (t : thread) : thread :=
  Thread (t_state t) (quantum t) (wait_reason t) (t_flags t) (priority t) (base_priority t) (suspend_count t)
    (context_switches t) (preempts t) (next_ready t) v.

Record sched := Sched {
  threads : gmap Z thread;
  ready_queue_head : list Z;
  ready_queue_tail : list Z;
  thread_ready_summary : Z;
  preempt : Z;
  current : Z;               (** what [self()] returns *)
  dpcq : dpcs;
}.

Definition set_threads (m : gmap Z thread) (s : sched) : sched :=
  Sched m (ready_queue_head s) (ready_queue_tail s) (thread_ready_summary s) (preempt s) (current s) (dpcq s).
Definition set_head (p : nat) (v : Z) (s : sched) : sched :=
  Sched (threads s) (<[p := v]> (ready_queue_head s)) (ready_queue_tail s) (thread_ready_summary s) (preempt s) (current s) (dpcq s).
Definition set_tail (p : nat) (v : Z) (s : sched) : sched :=
  Sched (threads s) (ready_queue_head s) (<[p := v]> (ready_queue_tail s)) (thread_ready_summary s) (preempt s) (current s) (dpcq s).
Definition set_summary (v : Z) (s : sched) : sched :=
  Sched (threads s) (ready_queue_head s) (ready_queue_tail s) v (preempt s) (current s) (dpcq s).
Definition set_preempt (v : Z) (s : sched) : sched :=
  Sched (threads s) (ready_queue_head s) (ready_queue_tail s) (thread_ready_summary s) v (current s) (dpcq s).
Definition set_current (v : Z) (s : sched) : sched :=
  Sched (threads s) (ready_queue_head s) (ready_queue_tail s) (thread_ready_summary s) (preempt s) v (dpcq s).

Definition set_dpcq (q : dpcs) (s : sched) : sched :=
  Sched (threads s) (ready_queue_head s) (ready_queue_tail s) (thread_ready_summary s) (preempt s) (current s) q.

Local Open Scope k_scope.

(** Reading and changing the control block at an address. *)
Definition get_th (t : Z) : K sched thread := let* s := kget in kopt (threads s !! t).
Definition upd_th (t : Z) (f : thread -> thread) : K sched unit :=
  let* r := get_th t in kmod (fun s => set_threads (<[t := f r]> (threads s)) s).

(** [ready_queue_head[p]] and [ready_queue_tail[p]] *)
Definition qindex (p : Z) : K sched nat :=
  if (0 <=? p) && (p <? THREAD_PRIORITY_LEVELS) then kret (Z.to_nat p) else kfault.
Definition get_head (p : Z) : K sched Z :=
  let* i := qindex p in let* s := kget in kopt (ready_queue_head s !! i).
Definition get_tail (p : Z) : K sched Z :=
  let* i := qindex p in let* s := kget in kopt (ready_queue_tail s !! i).
Definition put_head (p v : Z) : K sched unit := let* i := qindex p in kmod (set_head i v).
Definition put_tail (p v : Z) : K sched unit := let* i := qindex p in kmod (set_tail i v).

(** [thread_ready_summary |= (1 << p)] and [thread_ready_summary &= ~(1 << p)] *)
Definition set_ready_bit (p : Z) : K sched unit :=
  kmod (fun s => set_summary (Z.lor (thread_ready_summary s) (Z.shiftl 1 p)) s).
Definition clear_ready_bit (p : Z) : K sched unit :=
  kmod (fun s => set_summary (Z.ldiff (thread_ready_summary s) (Z.shiftl 1 p)) s).

Definition insert_ready_head (t : Z) : K sched unit :=
  let* r := get_th t in
  let* h := get_head (priority r) in
  if h =? 0 then
    upd_th t (set_prev_ready 0) ;;; upd_th t (set_next_ready 0) ;;;
    put_tail (priority r) t ;;; put_head (priority r) t ;;;
    set_ready_bit (priority r)
  else
    upd_th t (set_next_ready h) ;;;
    upd_th t (set_prev_ready 0) ;;;
    upd_th h (set_prev_ready t) ;;;
    put_head (priority r) t.

Definition insert_ready_tail (t : Z) : K sched unit :=
  let* r := get_th t in
  let* l := get_tail (priority r) in
  if l =? 0 then
    upd_th t (set_prev_ready 0) ;;; upd_th t (set_next_ready 0) ;;;
    put_tail (priority r) t ;;; put_head (priority r) t ;;;
    set_ready_bit (priority r)
  else
    upd_th t (set_next_ready 0) ;;;
    upd_th t (set_prev_ready l) ;;;
    upd_th l (set_next_ready t) ;;;
    put_tail (priority r) t.

Definition remove_from_ready_queue (t : Z) : K sched unit :=
  let* r := get_th t in
  (if negb (next_ready r =? 0) then upd_th (next_ready r) (set_prev_ready (prev_ready r)) else kret tt) ;;;
  (if negb (prev_ready r =? 0) then upd_th (prev_ready r) (set_next_ready (next_ready r)) else kret tt) ;;;
  let* h := get_head (priority r) in
  (if t =? h then put_head (priority r) (next_ready r) else kret tt) ;;;
  let* l := get_tail (priority r) in
  (if t =? l then put_tail (priority r) (prev_ready r) else kret tt) ;;;
  let* l := get_tail (priority r) in
  if l =? 0 then clear_ready_bit (priority r) else kret tt.

Definition mark_thread_ready (t charge boost : Z) : K sched unit :=
  let* r := get_th t in
  if 0 <? suspend_count r then upd_th t (set_t_state THREAD_STATE_SUSPENDED)
  else if negb (Z.land (t_flags r) THREAD_INTERRUPTED =? 0) && (t_state r =? THREAD_STATE_READY) then kret tt
  else
    upd_th t (set_quantum (s32 (quantum r - charge))) ;;;
    let newprio := base_priority r + boost in
    let newprio := if PRIORITY_TIME_CRITICAL <? newprio then PRIORITY_TIME_CRITICAL else newprio in
    (if priority r <? newprio then upd_th t (set_priority newprio) else kret tt) ;;;
    if t_state r =? THREAD_STATE_READY then kpanic "thread already ready"
    else
      upd_th t (set_t_state THREAD_STATE_READY) ;;;
      let* r := get_th t in
      (if 0 <? quantum r then insert_ready_head t
       else
         upd_th t (set_quantum DEFAULT_QUANTUM) ;;;
         (if base_priority r <? priority r then upd_th t (set_priority (priority r - 1)) else kret tt) ;;;
         insert_ready_tail t) ;;;
      let* r := get_th t in
      let* s := kget in
      let* c := get_th (current s) in
      if priority c <? priority r then kmod (set_preempt 1) else kret tt.

(** [find_highest_bit] of include/bitops.h. *)
Fixpoint highest_bit_loop (n : nat) (mask : Z) : Z :=
  match n with
  | O => 0
  | S n' => if negb (Z.testbit mask 31) then highest_bit_loop n' (u32 (Z.shiftl mask 1)) else Z.of_nat n
  end.
Definition find_highest_bit (mask : Z) : Z := highest_bit_loop 31 mask.

Definition find_ready_thread : K sched Z :=
  let* s := kget in
  if thread_ready_summary s =? 0 then kret 0
  else
    let prio := find_highest_bit (thread_ready_summary s) in
    let* t := get_head prio in
    let* r := get_th t in
    (if next_ready r =? 0 then
       put_tail prio 0 ;;; put_head prio 0 ;;;
       clear_ready_bit prio
     else
       upd_th (next_ready r) (set_prev_ready 0) ;;;
       put_head prio (next_ready r)) ;;;
    upd_th t (set_next_ready 0) ;;;
    upd_th t (set_prev_ready 0) ;;;
    kret t.

Definition mark_thread_running : K sched unit :=
  let* s := kget in
  upd_th (current s) (set_t_state THREAD_STATE_RUNNING) ;;;
  let* r := get_th (current s) in
  upd_th (current s) (set_context_switches (u32 (context_switches r + 1))).

Section dispatch.
Variable check_dpc_queue : K sched unit.

Definition dispatch : K sched unit :=
  let* s := kget in
  let cur := current s in
  kmod (set_preempt 0) ;;;
  check_dpc_queue ;;;
  let* t := find_ready_thread in
  if t =? 0 then kpanic "No thread ready to run"
  else if t =? cur then upd_th t (set_t_state THREAD_STATE_RUNNING)
  else
    let* c := get_th cur in
    (if negb (Z.land (t_flags c) THREAD_FPU_ENABLED =? 0)
     then let* r := get_th t in upd_th t (set_t_flags (Z.ldiff (t_flags r) THREAD_FPU_ENABLED))
     else kret tt) ;;;
    kmod (set_current t) ;;;
    mark_thread_running.

Definition preempt_thread : K sched unit :=
  let* s := kget in
  let t := current s in
  let* r := get_th t in
  upd_th t (set_preempts (u32 (preempts r + 1))) ;;;
  (if quantum r <=? 0 then
     upd_th t (set_quantum DEFAULT_QUANTUM) ;;;
     (if base_priority r <? priority r then upd_th t (set_priority (priority r - 1)) else kret tt)
   else kret tt) ;;;
  upd_th t (set_t_state THREAD_STATE_READY) ;;;
  insert_ready_tail t ;;;
  dispatch.

Definition enter_wait (reason : Z) : K sched unit :=
  let* s := kget in
  upd_th (current s) (set_t_state THREAD_STATE_WAITING) ;;;
  upd_th (current s) (set_wait_reason reason) ;;;
  dispatch.

(** [enter_alertable_wait] up to the call of [dispatch], [sigs] is the result
    of [signals_ready], and what it does when the thread runs again. *)
Definition begin_alertable_wait (sigs : bool) (reason : Z) : K sched Z :=
  let* s := kget in
  let t := current s in
  if sigs then kret (- EINTR)
  else
    upd_th t (set_t_state THREAD_STATE_WAITING) ;;;
    upd_th t (set_wait_reason reason) ;;;
    let* r := get_th t in
    upd_th t (set_t_flags (Z.ldiff (t_flags r) THREAD_INTERRUPTED)) ;;;
    let* r := get_th t in
    upd_th t (set_t_flags (Z.lor (t_flags r) THREAD_ALERTABLE)) ;;;
    dispatch ;;;
    kret 0.

Definition end_alertable_wait : K sched Z :=
  let* s := kget in
  let t := current s in
  let* r := get_th t in
  upd_th t (set_t_flags (Z.ldiff (t_flags r) THREAD_ALERTABLE)) ;;;
  let* r := get_th t in
  if negb (Z.land (t_flags r) THREAD_INTERRUPTED =? 0) then
    upd_th t (set_t_flags (Z.ldiff (t_flags r) THREAD_INTERRUPTED)) ;;;
    kret (- EINTR)
  else kret 0.

Definition interrupt_thread (t : Z) : K sched Z :=
  let* r := get_th t in
  if negb (t_state r =? THREAD_STATE_WAITING) then kret (- EBUSY)
  else if Z.land (t_flags r) THREAD_ALERTABLE =? 0 then kret (- EPERM)
  else
    upd_th t (set_t_flags (Z.lor (t_flags r) THREAD_INTERRUPTED)) ;;;
    mark_thread_ready t 1 1 ;;;
    kret 0.

Definition yield : K sched unit :=
  let* s := kget in
  upd_th (current s) (set_quantum 0) ;;;
  mark_thread_ready (current s) 0 0 ;;;
  dispatch.

Definition suspend_thread (t : Z) : K sched Z :=
  let* r := get_th t in
  let prevcount := suspend_count r in
  upd_th t (set_suspend_count (s32 (prevcount + 1))) ;;;
  (if prevcount =? 0 then
     if t_state r =? THREAD_STATE_READY then
       remove_from_ready_queue t ;;;
       upd_th t (set_t_state THREAD_STATE_SUSPENDED)
     else if t_state r =? THREAD_STATE_RUNNING then
       upd_th t (set_t_state THREAD_STATE_SUSPENDED) ;;;
       dispatch
     else kret tt
   else kret tt) ;;;
  kret prevcount.

Definition resume_thread (t : Z) : K sched Z :=
  let* r := get_th t in
  let prevcount := suspend_count r in
  (if 0 <? prevcount then
     upd_th t (set_suspend_count (prevcount - 1)) ;;;
     if prevcount - 1 =? 0 then
       if (t_state r =? THREAD_STATE_SUSPENDED) || (t_state r =? THREAD_STATE_INITIALIZED)
       then mark_thread_ready t 0 0 else kret tt
     else kret tt
   else kret tt) ;;;
  kret prevcount.

Definition get_thread_priority (t : Z) : K sched Z := let* r := get_th t in kret (priority r).

Definition set_thread_priority (t prio : Z) : K sched Z :=
  if (prio <? 0) || (THREAD_PRIORITY_LEVELS <=? prio) then kret (- EINVAL)
  else
    let* r := get_th t in
    if base_priority r =? prio then kret 0
    else
      let* s := kget in
      (if t =? current s then
         if prio <? priority r then
           upd_th t (set_priority prio) ;;; upd_th t (set_base_priority prio) ;;;
           mark_thread_ready t 0 0 ;;;
           dispatch
         else
           upd_th t (set_priority prio) ;;; upd_th t (set_base_priority prio)
       else
         if t_state r =? THREAD_STATE_READY then
           remove_from_ready_queue t ;;;
           upd_th t (set_priority prio) ;;; upd_th t (set_base_priority prio) ;;;
           upd_th t (set_t_state THREAD_STATE_TRANSITION) ;;;
           mark_thread_ready t 0 0
         else
           upd_th t (set_priority prio) ;;; upd_th t (set_base_priority prio)) ;;;
      kret 0.
End dispatch.

(** The queues are linked through the control blocks. *)
#[global] Instance thread_links : Links thread.
Proof. by refine {| l_prev := prev_ready; l_next := next_ready; set_l_prev := set_prev_ready; set_l_next := set_next_ready |}. Defined.

Lemma dlist_set_prev_ready m prv l nxt t v r :
  NoDup (t :: l) -> dlist m prv (t :: l) nxt -> m !! t = Some r -> dlist (<[t := set_prev_ready v r]> m) v (t :: l) nxt.
Proof. exact (dlist_set_prev m prv l nxt t v r). Qed.

Lemma dlist_set_next_ready m prv l t nxt v r :
  NoDup (l ++ [t]) -> dlist m prv (l ++ [t]) nxt -> m !! t = Some r -> dlist (<[t := set_next_ready v r]> m) prv (l ++ [t]) v.
Proof. exact (dlist_set_next m prv l t nxt v r). Qed.

Lemma ready_at m l1 t l2 r :
  dlist m 0 (l1 ++ t :: l2) 0 -> m !! t = Some r -> prev_ready r = last_of 0 l1 /\ next_ready r = hd 0 l2.
Proof. exact (dlist_at m l1 t l2 r). Qed.

(** ** The ready queues *)

(** The queue of deferred calls between operations. *)
Definition dpcs_wf (q : dpcs) : Prop :=
  exists l, dq l q /\ none_executing l q /\ in_dpc q = 0 /\ 0 <= dpc_total q < W32.

(** [Q p] is the queue of priority [p]; the thread [x] is in no queue whatever
    its state says ([x] is 0 if there is no such thread). *)
Record sinv (x : Z) (Q : Z -> list Z) (s : sched) : Prop := {
  si_heads : length (ready_queue_head s) = 32%nat;
  si_tails : length (ready_queue_tail s) = 32%nat;
  si_head : forall p, 0 <= p < 32 -> ready_queue_head s !! Z.to_nat p = Some (hd 0 (Q p));
  si_tail : forall p, 0 <= p < 32 -> ready_queue_tail s !! Z.to_nat p = Some (last_of 0 (Q p));
  si_list : forall p, 0 <= p < 32 -> dlist (threads s) 0 (Q p) 0;
  si_nodup : forall p, 0 <= p < 32 -> NoDup (Q p);
  si_mem : forall t r p, threads s !! t = Some r -> t <> x -> 0 <= p < 32 ->
             (t ∈ Q p <-> t_state r = THREAD_STATE_READY /\ priority r = p);
  si_out : forall p, 0 <= p < 32 -> x ∉ Q p;
  si_sum : forall p, 0 <= p < 32 -> Z.testbit (thread_ready_summary s) p = true <-> Q p <> [];
  si_bits : 0 <= thread_ready_summary s < 2 ^ 32;
  si_thread : forall t r, threads s !! t = Some r ->
             t <> 0 /\ 0 <= priority r < 32 /\ 0 <= base_priority r < 32;
  si_current : is_Some (threads s !! current s);
  si_dpcs : dpcs_wf (dpcq s);
}.

Definition qput (p : Z) (l : list Z) (Q : Z -> list Z) : Z -> list Z :=
  fun p' => if decide (p' = p) then l else Q p'.

Lemma qput_eq p l Q : qput p l Q p = l.
Proof. unfold qput. by rewrite decide_True. Qed.

Lemma qput_ne p l Q p' : p' <> p -> qput p l Q p' = Q p'.
Proof. intros H. unfold qput. by rewrite decide_False. Qed.

(** A queue is empty if its head is null. *)
Lemma hd_null s x Q p : sinv x Q s -> 0 <= p < 32 -> hd 0 (Q p) = 0 <-> Q p = [].
Proof.
  intros I Hp. split; [|by intros ->]. destruct (Q p) as [|t l] eqn:E; [done|]. cbn. intros ->.
  pose proof (si_list _ _ _ I p Hp) as Hl. rewrite E in Hl. destruct Hl as [(r & Hr & _) _].
  by destruct (si_thread _ _ _ I 0 r Hr).
Qed.

Lemma last_null s x Q p : sinv x Q s -> 0 <= p < 32 -> last_of 0 (Q p) = 0 <-> Q p = [].
Proof.
  intros I Hp. split; [|by intros ->]. intros E. destruct (decide (Q p = [])) as [|Hne]; [done|].
  pose proof (last_of_elem 0 _ Hne) as Hin. rewrite E in Hin.
  destruct (dlist_lookup _ _ _ _ _ (si_list _ _ _ I p Hp) Hin) as [r Hr]. by destruct (si_thread _ _ _ I 0 r Hr).
Qed.

(** Fields of a control block that has no links to it change. *)
Definition keeps_links (f : thread -> thread) : Prop :=
  forall r, prev_ready (f r) = prev_ready r /\ next_ready (f r) = next_ready r.

(** The links of the control blocks may differ, nothing else. *)
Definition unlinked (r : thread) : thread := set_next_ready 0 (set_prev_ready 0 r).

Definition relinked (m m' : gmap Z thread) : Prop := forall a, unlinked <$> m' !! a = unlinked <$> m !! a.

Lemma relinked_refl m : relinked m m.
Proof. by intros a. Qed.

Lemma relinked_trans m1 m2 m3 : relinked m1 m2 -> relinked m2 m3 -> relinked m1 m3.
Proof. intros H1 H2 a. by rewrite H2, H1. Qed.

Lemma relinked_prev m t r v : m !! t = Some r -> relinked m (<[t := set_prev_ready v r]> m).
Proof. intros Hr a. destruct (decide (a = t)) as [->|]; [by rewrite lookup_insert_eq, Hr|by rewrite lookup_insert_ne]. Qed.

Lemma relinked_next m t r v : m !! t = Some r -> relinked m (<[t := set_next_ready v r]> m).
Proof. intros Hr a. destruct (decide (a = t)) as [->|]; [by rewrite lookup_insert_eq, Hr|by rewrite lookup_insert_ne]. Qed.

Lemma relinked_lookup m m' a r' : relinked m m' -> m' !! a = Some r' ->
  exists r, m !! a = Some r /\ unlinked r' = unlinked r.
Proof.
  intros H Hr. specialize (H a). rewrite Hr in H. destruct (m !! a) as [r|]; [|done]. exists r. split; [done|].
  change (Some (unlinked r') = Some (unlinked r)) in H. congruence.
Qed.

Lemma relinked_some m m' a r : relinked m m' -> m !! a = Some r -> exists r', m' !! a = Some r' /\ unlinked r' = unlinked r.
Proof.
  intros H Hr. specialize (H a). rewrite Hr in H. destruct (m' !! a) as [r'|]; [|done]. exists r'. split; [done|].
  change (Some (unlinked r') = Some (unlinked r)) in H. congruence.
Qed.

(** Fields that do not depend on the links. *)
Lemma unlinked_fields r r' : unlinked r' = unlinked r ->
  t_state r' = t_state r /\ priority r' = priority r /\ base_priority r' = base_priority r /\
  suspend_count r' = suspend_count r /\ quantum r' = quantum r /\ t_flags r' = t_flags r.
Proof. unfold unlinked, set_next_ready, set_prev_ready. cbn. by intros [=]. Qed.

(** ** The summary *)

Lemma testbit_one p k : 0 <= p -> 0 <= k -> Z.testbit (Z.shiftl 1 p) k = bool_decide (k = p).
Proof.
  intros Hp Hk. rewrite Z.shiftl_1_l. destruct (decide (k = p)) as [->|Hne].
  - rewrite Z.pow2_bits_true by done. by rewrite bool_decide_eq_true_2.
  - rewrite Z.pow2_bits_false by lia. by rewrite bool_decide_eq_false_2.
Qed.

Lemma bits_bound x : 0 <= x -> (forall k, 32 <= k -> Z.testbit x k = false) -> x < 2 ^ 32.
Proof.
  intros Hx Hk. destruct (Z.lt_ge_cases x (2 ^ 32)) as [|Hge]; [done|exfalso].
  assert (32 <= Z.log2 x) by (apply Z.log2_le_pow2; lia). pose proof (Z.bit_log2 x ltac:(lia)) as Hb. by rewrite Hk in Hb.
Qed.

Lemma bits_high x k : 0 <= x < 2 ^ 32 -> 32 <= k -> Z.testbit x k = false.
Proof.
  intros Hx Hk. destruct (decide (x = 0)) as [->|]; [apply Z.bits_0|].
  apply Z.bits_above_log2; [lia|]. assert (Z.log2 x < 32) by (apply Z.log2_lt_pow2; lia). lia.
Qed.

Definition put_bit (b : bool) (p x : Z) : Z := if b then Z.lor x (Z.shiftl 1 p) else Z.ldiff x (Z.shiftl 1 p).

Lemma put_bit_spec b p x k : 0 <= p -> 0 <= k ->
  Z.testbit (put_bit b p x) k = if decide (k = p) then b else Z.testbit x k.
Proof.
  intros Hp Hk. unfold put_bit. destruct b; rewrite ?Z.lor_spec, ?Z.ldiff_spec, testbit_one by done;
    destruct (decide (k = p)); rewrite ?bool_decide_eq_true_2, ?bool_decide_eq_false_2 by done; btauto.
Qed.

Lemma put_bit_bound b p x : 0 <= p < 32 -> 0 <= x < 2 ^ 32 -> 0 <= put_bit b p x < 2 ^ 32.
Proof.
  intros Hp Hx. assert (H0 : 0 <= put_bit b p x).
  { unfold put_bit. assert (0 <= Z.shiftl 1 p) by (apply Z.shiftl_nonneg; lia).
    destruct b; [apply Z.lor_nonneg; lia|apply Z.ldiff_nonneg; lia]. }
  split; [done|]. apply bits_bound; [done|]. intros k Hk. rewrite put_bit_spec, decide_False by lia. by apply bits_high.
Qed.

Lemma put_bit_same b p x : 0 <= p -> 0 <= x -> Z.testbit x p = b -> put_bit b p x = x.
Proof.
  intros Hp Hx Hb. apply Z.bits_inj'. intros k Hk. rewrite put_bit_spec by done. destruct (decide (k = p)) as [->|]; done.
Qed.

(** ** Changing one queue *)

(** The state after a queue has been changed. *)
Definition requeued (p : Z) (l : list Z) (m' : gmap Z thread) (s : sched) : sched :=
  Sched m' (<[Z.to_nat p := hd 0 l]> (ready_queue_head s)) (<[Z.to_nat p := last_of 0 l]> (ready_queue_tail s))
    (put_bit (bool_decide (l <> [])) p (thread_ready_summary s)) (preempt s) (current s) (dpcq s).

Lemma sinv_requeue x x' Q s p l m' :
  sinv x Q s -> 0 <= p < 32 -> relinked (threads s) m' ->
  (forall p' t, 0 <= p' < 32 -> p' <> p -> t ∈ Q p' -> same_links (threads s) m' t) ->
  dlist m' 0 l 0 -> NoDup l -> x' ∉ l -> (forall p', 0 <= p' < 32 -> p' <> p -> x' ∉ Q p') ->
  (forall t r, threads s !! t = Some r -> t <> x' -> (t ∈ l <-> t_state r = THREAD_STATE_READY /\ priority r = p)) ->
  (forall r, threads s !! x = Some r -> x <> x' -> priority r = p) ->
  sinv x' (qput p l Q) (requeued p l m' s).
Proof.
  intros I Hp Hre Hsl Hl Hnd Hx Hx' Hmem Hxp. destruct I as [H1 H2 H3 H4 H5 H6 H7 H8 H9 H10 H11 H12 H13].
  split; cbn [requeued threads ready_queue_head ready_queue_tail thread_ready_summary current]; rewrite ?length_insert; try done.
  - intros p' Hp'. destruct (decide (p' = p)) as [->|Hne].
    + rewrite qput_eq, list_lookup_insert_eq by lia. done.
    + rewrite qput_ne, list_lookup_insert_ne by lia. by apply H3.
  - intros p' Hp'. destruct (decide (p' = p)) as [->|Hne].
    + rewrite qput_eq, list_lookup_insert_eq by lia. done.
    + rewrite qput_ne, list_lookup_insert_ne by lia. by apply H4.
  - intros p' Hp'. destruct (decide (p' = p)) as [->|Hne]; [by rewrite qput_eq|]. rewrite qput_ne by done.
    eapply dlist_frame; [|by apply H5]. intros t Ht. by apply (Hsl p').
  - intros p' Hp'. destruct (decide (p' = p)) as [->|Hne]; [by rewrite qput_eq|]. rewrite qput_ne by done. by apply H6.
  - intros t r' p' Hr' Ht Hp'. destruct (relinked_lookup _ _ _ _ Hre Hr') as (r & Hr & Hu).
    destruct (unlinked_fields _ _ Hu) as (-> & -> & _). destruct (decide (p' = p)) as [->|Hne].
    + rewrite qput_eq. by apply Hmem.
    + rewrite qput_ne by done. destruct (decide (t = x)) as [->|Hx0]; [|by apply H7].
      split; [intros Hin; by destruct (H8 p' Hp')|]. intros [_ Hpr]. by rewrite (Hxp r Hr Ht) in Hpr.
  - intros p' Hp'. destruct (decide (p' = p)) as [->|Hne]; [by rewrite qput_eq|]. rewrite qput_ne by done. by apply Hx'.
  - intros p' Hp'. rewrite put_bit_spec by lia. destruct (decide (p' = p)) as [->|Hne].
    + rewrite qput_eq. apply bool_decide_eq_true.
    + rewrite qput_ne by done. by apply H9.
  - by apply put_bit_bound.
  - intros t r' Hr'. destruct (relinked_lookup _ _ _ _ Hre Hr') as (r & Hr & Hu).
    destruct (unlinked_fields _ _ Hu) as (_ & -> & -> & _). by apply H11.
  - destruct H12 as [r Hr]. destruct (relinked_some _ _ _ _ Hre Hr) as (r' & -> & _). by eexists.
Qed.

(** ** Steps of the code *)

Lemma qindex_run p s : 0 <= p < 32 -> qindex p s = Done (Z.to_nat p, s).
Proof.
  intros H. unfold qindex, THREAD_PRIORITY_LEVELS. destruct (Z.leb_spec 0 p); [|lia]. by destruct (Z.ltb_spec p 32); [|lia].
Qed.

Lemma get_head_run x Q s p : sinv x Q s -> 0 <= p < 32 -> get_head p s = Done (hd 0 (Q p), s).
Proof. intros I Hp. unfold get_head. kx. rewrite qindex_run by done. by rewrite (si_head _ _ _ I p Hp). Qed.

Lemma get_tail_run x Q s p : sinv x Q s -> 0 <= p < 32 -> get_tail p s = Done (last_of 0 (Q p), s).
Proof. intros I Hp. unfold get_tail. kx. rewrite qindex_run by done. by rewrite (si_tail _ _ _ I p Hp). Qed.

Lemma put_head_run p v s : 0 <= p < 32 -> put_head p v s = Done (tt, set_head (Z.to_nat p) v s).
Proof. intros Hp. unfold put_head. kx. by rewrite qindex_run. Qed.

Lemma put_tail_run p v s : 0 <= p < 32 -> put_tail p v s = Done (tt, set_tail (Z.to_nat p) v s).
Proof. intros Hp. unfold put_tail. kx. by rewrite qindex_run. Qed.

Lemma get_th_run t r s : threads s !! t = Some r -> get_th t s = Done (r, s).
Proof. intros H. unfold get_th. kx. by rewrite H. Qed.

Lemma upd_th_run t r f s : threads s !! t = Some r -> upd_th t f s = Done (tt, set_threads (<[t := f r]> (threads s)) s).
Proof. intros H. unfold upd_th. kx. by rewrite (get_th_run t r s H). Qed.

(** Steps through updates whose control blocks are known. *)
Ltac upds :=
  repeat (first [erewrite upd_th_run by (cbn [threads set_threads]; first [eassumption | by rewrite lookup_insert_eq
            | rewrite lookup_insert_ne by congruence; eassumption])
          | erewrite get_th_run by (cbn [threads set_threads]; first [eassumption | by rewrite lookup_insert_eq
            | rewrite lookup_insert_ne by congruence; eassumption])];
          cbn [threads set_threads]).

Lemma queue_no_null x Q s p : sinv x Q s -> 0 <= p < 32 -> 0 ∉ Q p.
Proof.
  intros I Hp Hin. destruct (dlist_lookup _ _ _ _ _ (si_list _ _ _ I p Hp) Hin) as [r Hr].
  by destruct (si_thread _ _ _ I 0 r Hr).
Qed.

Lemma queues_apart x Q s p p' t :
  sinv x Q s -> 0 <= p < 32 -> 0 <= p' < 32 -> p' <> p -> t ∈ Q p' -> t <> x /\ t ∉ Q p.
Proof.
  intros I Hp Hp' Hne Hin. assert (t <> x) as Hx by (intros ->; by apply (si_out _ _ _ I p' Hp')). split; [done|].
  destruct (dlist_lookup _ _ _ _ _ (si_list _ _ _ I p' Hp') Hin) as [r Hr].
  rewrite (si_mem _ _ _ I t r p' Hr Hx Hp') in Hin. rewrite (si_mem _ _ _ I t r p Hr Hx Hp). lia.
Qed.

(** The thread [t] joins the queue of its priority. *)
Lemma sinv_enqueue Q s t r l m' :
  sinv t Q s -> threads s !! t = Some r -> t_state r = THREAD_STATE_READY ->
  l ≡ₚ t :: Q (priority r) -> relinked (threads s) m' ->
  (forall a, a ∉ l -> same_links (threads s) m' a) -> dlist m' 0 l 0 ->
  sinv 0 (qput (priority r) l Q) (requeued (priority r) l m' s).
Proof.
  intros I Hr Hst Hl Hre Hsl Hdl. destruct (si_thread _ _ _ I t r Hr) as (Ht0 & Hp & _). set (p := priority r) in *.
  assert (Hin : forall a, a ∈ l <-> a = t \/ a ∈ Q p) by (intros a; by rewrite Hl, elem_of_cons).
  apply (sinv_requeue t 0 Q s p l m' I Hp Hre); [|done| | | | |].
  - intros p' a Hp' Hnp Ha. apply Hsl. rewrite Hin. destruct (queues_apart _ _ _ p p' a I Hp Hp' Hnp Ha). tauto.
  - rewrite Hl. apply NoDup_cons. split; [by apply (si_out _ _ _ I)|by apply (si_nodup _ _ _ I)].
  - rewrite Hin. intros [?|Ha]; [done|]. by apply (queue_no_null _ _ _ p I Hp).
  - intros p' Hp' _. by apply (queue_no_null _ _ _ p' I).
  - intros a ra Hra _. rewrite Hin. destruct (decide (a = t)) as [->|Hat].
    + assert (ra = r) as -> by congruence. split; [done|]. by left.
    + rewrite (si_mem _ _ _ I a ra p Hra Hat Hp). tauto.
  - intros ra Hra _. by simplify_eq.
Qed.

Lemma keep_head x Q s p : sinv x Q s -> 0 <= p < 32 ->
  <[Z.to_nat p := hd 0 (Q p)]> (ready_queue_head s) = ready_queue_head s.
Proof. intros I Hp. by apply list_insert_id, (si_head _ _ _ I). Qed.

Lemma keep_tail x Q s p : sinv x Q s -> 0 <= p < 32 ->
  <[Z.to_nat p := last_of 0 (Q p)]> (ready_queue_tail s) = ready_queue_tail s.
Proof. intros I Hp. by apply list_insert_id, (si_tail _ _ _ I). Qed.

Lemma keep_bit x Q s p : sinv x Q s -> 0 <= p < 32 ->
  put_bit (bool_decide (Q p <> [])) p (thread_ready_summary s) = thread_ready_summary s.
Proof.
  intros I Hp. apply put_bit_same; [lia|apply (si_bits _ _ _ I)|]. pose proof (si_sum _ _ _ I p Hp) as Hs.
  case_bool_decide; [by apply Hs|]. destruct (Z.testbit _ p) eqn:E; [|done]. by destruct (proj1 Hs eq_refl).
Qed.

(** The links of a thread that is alone in its queue. *)
Definition alone (t : Z) (r : thread) (m : gmap Z thread) : gmap Z thread :=
  <[t := set_next_ready 0 (set_prev_ready 0 r)]> (<[t := set_prev_ready 0 r]> m).

Lemma alone_spec m t r : m !! t = Some r -> relinked m (alone t r m) /\ dlist (alone t r m) 0 [t] 0 /\
  forall a, a <> t -> same_links m (alone t r m) a.
Proof.
  intros Hr. split_and!.
  - eapply relinked_trans; [by apply relinked_prev|]. apply relinked_next. by rewrite lookup_insert_eq.
  - split; [|done]. eexists. unfold alone. rewrite lookup_insert_eq. done.
  - intros a Ha. unfold alone, same_links. by rewrite !lookup_insert_ne.
Qed.

Lemma insert_ready_head_run Q s t r :
  sinv t Q s -> threads s !! t = Some r -> t_state r = THREAD_STATE_READY ->
  exists s', insert_ready_head t s = Done (tt, s') /\ sinv 0 (qput (priority r) (t :: Q (priority r)) Q) s' /\
    relinked (threads s) (threads s') /\ current s' = current s /\ preempt s' = preempt s.
Proof.
  intros I Hr Hst. destruct (si_thread _ _ _ I t r Hr) as (Ht0 & Hp & _). set (p := priority r) in *.
  unfold insert_ready_head. kx. rewrite (get_th_run t r s Hr). fold p. rewrite (get_head_run t Q s p I Hp).
  destruct (Z.eqb_spec (hd 0 (Q p)) 0) as [E|E].
  - apply (hd_null s t Q p I Hp) in E. upds. rewrite !put_tail_run, !put_head_run by done.
    destruct (alone_spec _ _ _ Hr) as (Hre & Hdl & Hsl). eexists. split; [done|]. split_and!; [|exact Hre|done..]. rewrite E.
    apply (sinv_enqueue Q s t r [t] _ I Hr Hst); fold p; [by rewrite E|exact Hre| |exact Hdl].
    intros a Ha. apply Hsl. set_solver.
  - destruct (Q p) as [|h l] eqn:Eq; [done|]. cbn [hd] in *. pose proof (si_list _ _ _ I p Hp) as Hdl. rewrite Eq in Hdl.
    destruct (dlist_lookup _ _ _ _ h Hdl) as [rh Hrh]; [by left|].
    pose proof (si_out _ _ _ I p Hp) as Hout. rewrite Eq in Hout. assert (h <> t) as Hht by set_solver.
    pose proof (si_nodup _ _ _ I p Hp) as Hnd. rewrite Eq in Hnd.
    upds. erewrite upd_th_run by (cbn [threads set_threads]; by rewrite !lookup_insert_ne). cbn [threads set_threads].
    rewrite put_head_run by done. eexists. split; [done|].
    set (m2 := <[t := set_prev_ready 0 (set_next_ready h r)]> (<[t := set_next_ready h r]> (threads s))).
    assert (Hre2 : relinked (threads s) m2).
    { apply (relinked_trans _ (<[t := set_next_ready h r]> (threads s))); [by apply relinked_next|].
      apply relinked_prev. by rewrite lookup_insert_eq. }
    assert (Hm2 : m2 !! h = Some rh) by (unfold m2; by rewrite !lookup_insert_ne).
    assert (Hre : relinked (threads s) (<[h := set_prev_ready t rh]> m2)) by (apply (relinked_trans _ m2 _ Hre2); by apply relinked_prev).
    split_and!; [|exact Hre|done..].
    replace (set_head _ t _) with (requeued p (t :: h :: l) (<[h := set_prev_ready t rh]> m2) s).
    + apply (sinv_enqueue Q s t r (t :: h :: l) _ I Hr Hst); fold p; [by rewrite Eq|exact Hre|..].
      * intros a Ha. unfold m2, same_links. rewrite !lookup_insert_ne by set_solver. done.
      * split; [eexists; rewrite lookup_insert_ne by done; unfold m2; by rewrite lookup_insert_eq|].
        apply (dlist_set_prev_ready m2 0); [done| |done]. eapply dlist_frame; [|exact Hdl]. intros a Ha. unfold m2, same_links.
        rewrite !lookup_insert_ne by set_solver. done.
    + unfold requeued. rewrite last_of_cons. pose proof (keep_tail t Q s p I Hp) as Hk. pose proof (keep_bit t Q s p I Hp) as Hb.
      rewrite Eq in Hk, Hb. rewrite !last_of_cons in *. rewrite Hk.
      rewrite bool_decide_eq_true_2 in Hb by done. rewrite bool_decide_eq_true_2 by done. by rewrite Hb.
Qed.

Lemma insert_ready_tail_run Q s t r :
  sinv t Q s -> threads s !! t = Some r -> t_state r = THREAD_STATE_READY ->
  exists s', insert_ready_tail t s = Done (tt, s') /\ sinv 0 (qput (priority r) (Q (priority r) ++ [t]) Q) s' /\
    relinked (threads s) (threads s') /\ current s' = current s /\ preempt s' = preempt s.
Proof.
  intros I Hr Hst. destruct (si_thread _ _ _ I t r Hr) as (Ht0 & Hp & _). set (p := priority r) in *.
  unfold insert_ready_tail. kx. rewrite (get_th_run t r s Hr). fold p. rewrite (get_tail_run t Q s p I Hp).
  destruct (Z.eqb_spec (last_of 0 (Q p)) 0) as [E|E].
  - apply (last_null s t Q p I Hp) in E. upds. rewrite !put_tail_run, !put_head_run by done.
    destruct (alone_spec _ _ _ Hr) as (Hre & Hdl & Hsl). eexists. split; [done|]. split_and!; [|exact Hre|done..]. rewrite E.
    apply (sinv_enqueue Q s t r [t] _ I Hr Hst); fold p; [by rewrite E|exact Hre| |exact Hdl].
    intros a Ha. apply Hsl. set_solver.
  - destruct (Q p) as [|z l _] eqn:Eq using rev_ind; [done|]. rewrite last_of_app in *.
    pose proof (si_list _ _ _ I p Hp) as Hdl. rewrite Eq in Hdl. destruct (dlist_lookup _ _ _ _ z Hdl) as [rz Hrz]; [set_solver|].
    pose proof (si_out _ _ _ I p Hp) as Hout. rewrite Eq in Hout. assert (z <> t) as Hzt by set_solver.
    pose proof (si_nodup _ _ _ I p Hp) as Hnd. rewrite Eq in Hnd.
    upds. erewrite upd_th_run by (cbn [threads set_threads]; by rewrite !lookup_insert_ne). cbn [threads set_threads].
    rewrite put_tail_run by done. eexists. split; [done|].
    set (m2 := <[t := set_prev_ready z (set_next_ready 0 r)]> (<[t := set_next_ready 0 r]> (threads s))).
    assert (Hre2 : relinked (threads s) m2).
    { apply (relinked_trans _ (<[t := set_next_ready 0 r]> (threads s))); [by apply relinked_next|].
      apply relinked_prev. by rewrite lookup_insert_eq. }
    assert (Hm2 : m2 !! z = Some rz) by (unfold m2; by rewrite !lookup_insert_ne).
    assert (Hre : relinked (threads s) (<[z := set_next_ready t rz]> m2)) by (apply (relinked_trans _ m2 _ Hre2); by apply relinked_next).
    split_and!; [|exact Hre|done..].
    replace (set_tail _ t _) with (requeued p ((l ++ [z]) ++ [t]) (<[z := set_next_ready t rz]> m2) s).
    + apply (sinv_enqueue Q s t r ((l ++ [z]) ++ [t]) _ I Hr Hst); fold p; [rewrite Eq; solve_Permutation|exact Hre|..].
      * intros a Ha. unfold m2, same_links. rewrite !lookup_insert_ne by set_solver. done.
      * apply dlist_app. rewrite last_of_app. split.
        -- apply (dlist_set_next_ready m2 0 l z 0 t rz); [done| |done]. eapply dlist_frame; [|exact Hdl]. intros a Ha. unfold m2, same_links.
           rewrite !lookup_insert_ne by set_solver. done.
        -- split; [|done]. eexists. rewrite lookup_insert_ne by done. unfold m2. by rewrite lookup_insert_eq.
    + unfold requeued. rewrite last_of_app. pose proof (keep_head t Q s p I Hp) as Hk. pose proof (keep_bit t Q s p I Hp) as Hb.
      rewrite Eq in Hk, Hb. assert (hd 0 ((l ++ [z]) ++ [t]) = hd 0 (l ++ [z])) as -> by (by destruct l). rewrite Hk.
      rewrite bool_decide_eq_true_2 in Hb by (by destruct l). rewrite bool_decide_eq_true_2 by (by destruct l). by rewrite Hb.
Qed.

(** Making [v] the predecessor of the first element, if there is one. *)
Lemma relink_first s v l nxt prv :
  NoDup l -> 0 ∉ l -> dlist (threads s) prv l nxt ->
  exists m, (if negb (hd 0 l =? 0) then upd_th (hd 0 l) (set_prev_ready v) else kret tt) s = Done (tt, set_threads m s) /\
    relinked (threads s) m /\ dlist m v l nxt /\ forall a, a ∉ l -> m !! a = threads s !! a.
Proof.
  intros Hnd H0 Hdl. destruct l as [|b l]; cbn [hd].
  { exists (threads s). split_and!; [by destruct s|apply relinked_refl|done..]. }
  destruct (Z.eqb_spec b 0) as [->|Hb]; [by destruct H0; left|]. cbn [negb].
  destruct (dlist_lookup _ _ _ _ b Hdl) as [rb Hrb]; [by left|]. rewrite (upd_th_run b rb _ s Hrb).
  eexists. split; [done|]. split_and!; [by apply relinked_prev|by apply (dlist_set_prev_ready _ prv)|].
  intros a Ha. rewrite lookup_insert_ne; [done|]. set_solver.
Qed.

(** Making [v] the successor of the last element, if there is one. *)
Lemma relink_last s v l nxt prv :
  NoDup l -> 0 ∉ l -> dlist (threads s) prv l nxt ->
  exists m, (if negb (last_of 0 l =? 0) then upd_th (last_of 0 l) (set_next_ready v) else kret tt) s = Done (tt, set_threads m s) /\
    relinked (threads s) m /\ dlist m prv l v /\ forall a, a ∉ l -> m !! a = threads s !! a.
Proof.
  intros Hnd H0 Hdl. destruct l as [|b l _] using rev_ind.
  { exists (threads s). split_and!; [by destruct s|apply relinked_refl|done..]. }
  rewrite last_of_app. destruct (Z.eqb_spec b 0) as [->|Hb]; [destruct H0; set_solver|]. cbn [negb].
  destruct (dlist_lookup _ _ _ _ b Hdl) as [rb Hrb]; [set_solver|]. rewrite (upd_th_run b rb _ s Hrb).
  eexists. split; [done|]. split_and!; [by apply relinked_next|by eapply dlist_set_next_ready|].
  intros a Ha. rewrite lookup_insert_ne; [done|]. set_solver.
Qed.

(** A thread leaves its queue. *)
Lemma sinv_dequeue Q s t r l m' :
  sinv 0 Q s -> threads s !! t = Some r -> Q (priority r) ≡ₚ t :: l -> relinked (threads s) m' ->
  (forall a, a ∉ t :: l -> same_links (threads s) m' a) -> dlist m' 0 l 0 ->
  sinv t (qput (priority r) l Q) (requeued (priority r) l m' s).
Proof.
  intros I Hr Hl Hre Hsl Hdl. destruct (si_thread _ _ _ I t r Hr) as (Ht0 & Hp & _). set (p := priority r) in *.
  pose proof (si_nodup _ _ _ I p Hp) as Hnd. rewrite Hl in Hnd. apply NoDup_cons in Hnd as [Hnt Hnd].
  assert (Hin : forall a, a ∈ Q p <-> a = t \/ a ∈ l) by (intros a; by rewrite Hl, elem_of_cons).
  apply (sinv_requeue 0 t Q s p l m' I Hp Hre); [|done|done|done| | |].
  - intros p' a Hp' Hnp Ha. apply Hsl. rewrite elem_of_cons, <- Hin. by apply (queues_apart _ _ _ p p' a I Hp Hp' Hnp Ha).
  - intros p' Hp' Hnp Ha. destruct (queues_apart _ _ _ p p' t I Hp Hp' Hnp Ha) as [_ H]. apply H, Hin. by left.
  - intros a ra Hra Hat. assert (Ha0 : a <> 0) by apply (si_thread _ _ _ I a ra Hra).
    rewrite <- (si_mem _ _ _ I a ra p Hra Ha0 Hp), Hin. tauto.
  - intros ra Hra. by destruct (si_thread _ _ _ I 0 ra Hra).
Qed.

(** The end of [remove_from_ready_queue]: the ends of the queue and the summary. *)
Lemma drop_ends s p l1 t l2 :
  0 <= p < 32 -> ready_queue_head s !! Z.to_nat p = Some (hd 0 (l1 ++ t :: l2)) ->
  ready_queue_tail s !! Z.to_nat p = Some (last_of 0 (l1 ++ t :: l2)) ->
  NoDup (l1 ++ t :: l2) -> 0 ∉ l1 ++ t :: l2 -> Z.testbit (thread_ready_summary s) p = true -> 0 <= thread_ready_summary s ->
  (let* h := get_head p in
   (if t =? h then put_head p (hd 0 l2) else kret tt) ;;;
   let* l := get_tail p in
   (if t =? l then put_tail p (last_of 0 l1) else kret tt) ;;;
   let* l := get_tail p in
   if l =? 0 then clear_ready_bit p else kret tt) s = Done (tt, requeued p (l1 ++ l2) (threads s) s).
Proof.
  intros Hp Hh Ht Hnd H0 Hbit Hsum. pose proof (lookup_lt_Some _ _ _ Ht) as Hlen.
  apply NoDup_app in Hnd as (_ & Hd & [Hnt _]%NoDup_cons).
  unfold get_head, get_tail. kx. rewrite qindex_run, Hh by done.
  assert (Hhd : (if t =? hd 0 (l1 ++ t :: l2) then put_head p (hd 0 l2) else fun s => Done (tt, s)) s =
    Done (tt, set_head (Z.to_nat p) (hd 0 (l1 ++ l2)) s)).
  { destruct l1 as [|a l1]; cbn [app hd]; [rewrite Z.eqb_refl; by apply put_head_run|].
    destruct (Z.eqb_spec t a) as [->|]; [destruct (Hd a); by left|]. unfold set_head. cbn [app hd] in Hh.
    rewrite list_insert_id by done. by destruct s. }
  rewrite Hhd. set (s1 := set_head _ _ s). rewrite qindex_run by done. cbn [ready_queue_tail s1 set_head]. rewrite Ht.
  assert (Htl : (if t =? last_of 0 (l1 ++ t :: l2) then put_tail p (last_of 0 l1) else fun s => Done (tt, s)) s1 =
    Done (tt, set_tail (Z.to_nat p) (last_of 0 (l1 ++ l2)) s1)).
  { destruct l2 as [|z l2 _] using rev_ind.
    - rewrite last_of_app, app_nil_r, Z.eqb_refl. by apply put_tail_run.
    - assert (Hz : forall w, last_of 0 (l1 ++ w ++ [z]) = z) by (intros w; by rewrite app_assoc, last_of_app).
      rewrite app_comm_cons in Ht |- *. rewrite Hz in Ht |- *. rewrite Hz. destruct (Z.eqb_spec t z) as [->|]; [destruct Hnt; set_solver|].
      unfold set_tail. rewrite list_insert_id by done. done. }
  rewrite Htl. set (s2 := set_tail _ _ s1). rewrite qindex_run by done. cbn [ready_queue_tail s2 s1 set_head set_tail].
  rewrite list_lookup_insert_eq by done. unfold requeued.
  destruct (decide (l1 ++ l2 = [])) as [En|En].
  - subst s2 s1. rewrite En. rewrite bool_decide_eq_false_2 by (intros Hn; by apply Hn). done.
  - rewrite bool_decide_eq_true_2 by done. rewrite (put_bit_same true p (thread_ready_summary s)) by (done || lia).
    destruct (Z.eqb_spec (last_of 0 (l1 ++ l2)) 0) as [Ez|_]; [|done].
    pose proof (last_of_elem 0 _ En) as Hin. rewrite Ez in Hin. destruct H0. set_solver.
Qed.

Lemma remove_run Q s t r :
  sinv 0 Q s -> threads s !! t = Some r -> t_state r = THREAD_STATE_READY ->
  exists l s', remove_from_ready_queue t s = Done (tt, s') /\ Q (priority r) ≡ₚ t :: l /\
    sinv t (qput (priority r) l Q) s' /\ relinked (threads s) (threads s') /\ current s' = current s /\ preempt s' = preempt s.
Proof.
  intros I Hr Hst. destruct (si_thread _ _ _ I t r Hr) as (Ht0 & Hp & _). set (p := priority r) in *.
  assert (Hin : t ∈ Q p) by by apply (si_mem _ _ _ I t r p).
  apply list_elem_of_split in Hin as (l1 & l2 & Eq). pose proof (si_nodup _ _ _ I p Hp) as Hnd. rewrite Eq in Hnd.
  pose proof (queue_no_null _ _ _ p I Hp) as H0. rewrite Eq in H0.
  pose proof (si_list _ _ _ I p Hp) as Hdl. rewrite Eq in Hdl. destruct (ready_at _ _ _ _ _ Hdl Hr) as [Hpv Hnx].
  apply NoDup_app in Hnd as (Hnd1 & Hd & [Hnt Hnd2]%NoDup_cons). apply dlist_app in Hdl as [Hdl1 [_ Hdl2]]. cbn [hd] in Hdl1.
  destruct (relink_first s (last_of 0 l1) l2 0 t Hnd2 ltac:(set_solver) Hdl2) as (m1 & E1 & Hre1 & Hl2 & Ho1).
  destruct (relink_last (set_threads m1 s) (hd 0 l2) l1 t 0 Hnd1 ltac:(set_solver)) as (m2 & E2 & Hre2 & Hl1 & Ho2).
  { eapply dlist_frame; [|exact Hdl1]. intros a Ha. unfold same_links. cbn. rewrite Ho1; [done|]. intros Ha2. apply (Hd a Ha). by right. }
  cbn [threads set_threads] in Hre2, Ho2.
  assert (I' : sinv t (qput p (l1 ++ l2) Q) (requeued p (l1 ++ l2) m2 s)).
  { apply (sinv_dequeue Q s t r); [done|done|fold p; rewrite Eq; solve_Permutation|by eapply relinked_trans|..].
    - intros a Ha. unfold same_links. rewrite Ho2, Ho1 by set_solver. done.
    - apply dlist_app. split; [done|]. eapply dlist_frame; [|exact Hl2]. intros a Ha. unfold same_links. rewrite Ho2; [done|].
      intros Ha1. apply (Hd a Ha1). by right. }
  exists (l1 ++ l2), (requeued p (l1 ++ l2) m2 s). split_and!; [|rewrite Eq; solve_Permutation|done|by eapply relinked_trans|done..].
  unfold remove_from_ready_queue. rewrite (kbind_done _ _ _ _ _ (get_th_run t r s Hr)). fold p. rewrite Hpv, Hnx.
  rewrite (kbind_done _ _ _ _ _ E1), (kbind_done _ _ _ _ _ E2). apply (drop_ends (set_threads m2 s) p l1 t l2 Hp).
  - cbn. rewrite (si_head _ _ _ I p Hp). by rewrite Eq.
  - cbn. rewrite (si_tail _ _ _ I p Hp). by rewrite Eq.
  - rewrite <- Eq. by apply (si_nodup _ _ _ I).
  - done.
  - apply (si_sum _ _ _ I p Hp). rewrite Eq. by destruct l1.
  - apply (si_bits _ _ _ I).
Qed.

(** ** The highest queue *)

Lemma highest_bit_loop_spec mask : forall n,
  0 < mask < 2 ^ 32 -> (n <= 31)%nat -> (forall k, Z.of_nat n < k -> Z.testbit mask k = false) ->
  let b := highest_bit_loop n (u32 (Z.shiftl mask (31 - Z.of_nat n))) in
  0 <= b <= Z.of_nat n /\ Z.testbit mask b = true /\ forall k, b < k -> Z.testbit mask k = false.
Proof.
  induction n as [|n IH]; intros Hm Hn Hk; cbv zeta; cbn [highest_bit_loop].
  { split; [lia|]. split; [|done]. destruct (Z.testbit mask 0) eqn:E; [done|exfalso].
    assert (mask = 0) as ->; [|lia]. apply Z.bits_inj'. intros k Hk0. rewrite Z.bits_0.
    destruct (decide (k = 0)) as [->|]; [done|]. apply Hk. lia. }
  assert (Hbit : Z.testbit (u32 (Z.shiftl mask (31 - Z.of_nat (S n)))) 31 = Z.testbit mask (Z.of_nat (S n))).
  { unfold u32. change W32 with (2 ^ 32). rewrite Z.mod_pow2_bits_low by lia. rewrite Z.shiftl_spec by lia. f_equal. lia. }
  rewrite Hbit. destruct (Z.testbit mask (Z.of_nat (S n))) eqn:E; cbn [negb]; [split_and!; [lia|lia|done|done]|].
  replace (u32 (Z.shiftl (u32 (Z.shiftl mask (31 - Z.of_nat (S n)))) 1)) with (u32 (Z.shiftl mask (31 - Z.of_nat n))).
  - destruct (IH Hm ltac:(lia)) as (Hb & Hb1 & Hb2).
    { intros k Hkn. destruct (decide (k = Z.of_nat (S n))) as [->|]; [done|]. apply Hk. lia. }
    split_and!; [lia|lia|done..].
  - rewrite (Z.shiftl_mul_pow2 (u32 _)) by lia. unfold u32 at 2 3. rewrite Zmult_mod_idemp_l.
    rewrite <- Z.shiftl_mul_pow2, Z.shiftl_shiftl by lia. unfold u32. do 2 f_equal. lia.
Qed.

Lemma find_highest_bit_spec mask : 0 < mask < 2 ^ 32 ->
  0 <= find_highest_bit mask < 32 /\ Z.testbit mask (find_highest_bit mask) = true /\
  forall k, find_highest_bit mask < k -> Z.testbit mask k = false.
Proof.
  intros Hm. destruct (highest_bit_loop_spec mask 31 Hm) as (H1 & H2 & H3); [lia|intros k Hk; apply bits_high; lia|].
  change (31 - Z.of_nat 31) with 0 in *. rewrite Z.shiftl_0_r, u32_small in * by exact (conj (Z.lt_le_incl _ _ (proj1 Hm)) (proj2 Hm)).
  unfold find_highest_bit. split; [lia|done].
Qed.

(** The first thread of the highest queue that is not empty. *)
Definition first_ready (Q : Z -> list Z) (p t : Z) (l : list Z) : Prop :=
  0 <= p < 32 /\ Q p = t :: l /\ forall p', p < p' < 32 -> Q p' = [].

Lemma find_ready_thread_run Q s :
  sinv 0 Q s ->
  (find_ready_thread s = Done (0, s) /\ forall p, 0 <= p < 32 -> Q p = []) \/
  exists p t l s', find_ready_thread s = Done (t, s') /\ first_ready Q p t l /\ sinv t (qput p l Q) s' /\
    relinked (threads s) (threads s') /\ current s' = current s /\ preempt s' = preempt s.
Proof.
  intros I. unfold find_ready_thread. rewrite (kbind_done _ _ s s s eq_refl). pose proof (si_bits _ _ _ I) as Hb.
  destruct (Z.eqb_spec (thread_ready_summary s) 0) as [E|E].
  { left. split; [done|]. intros p Hp. destruct (decide (Q p = [])) as [|Hne]; [done|].
    apply (si_sum _ _ _ I p Hp) in Hne. by rewrite E, Z.bits_0 in Hne. }
  right. destruct (find_highest_bit_spec (thread_ready_summary s)) as (Hp & Hbit & Hhi); [lia|].
  set (p := find_highest_bit (thread_ready_summary s)) in *. pose proof Hbit as Hne. apply (si_sum _ _ _ I p Hp) in Hne.
  destruct (Q p) as [|t l] eqn:Eq; [done|]. pose proof (si_list _ _ _ I p Hp) as Hdl. rewrite Eq in Hdl.
  destruct (dlist_lookup _ _ _ _ t Hdl) as [r Hr]; [by left|].
  assert (Ht0 : t <> 0) by apply (si_thread _ _ _ I t r Hr).
  assert (priority r = p) as Hpr by (apply (si_mem _ _ _ I t r p Hr Ht0 Hp); rewrite Eq; by left).
  pose proof (si_nodup _ _ _ I p Hp) as Hnd. rewrite Eq in Hnd. pose proof (queue_no_null _ _ _ p I Hp) as H0. rewrite Eq in H0.
  destruct (ready_at _ [] _ _ _ Hdl Hr) as [_ Hnx]. pose proof Hnd as [Hnt Hnd2]%NoDup_cons. destruct Hdl as [_ Hdl].
  destruct (relink_first s 0 l 0 t Hnd2 ltac:(set_solver) Hdl) as (m1 & E1 & Hre1 & Hl1 & Ho1).
  assert (Hrt : m1 !! t = Some r) by (by rewrite Ho1).
  set (m2 := <[t := set_prev_ready 0 (set_next_ready 0 r)]> (<[t := set_next_ready 0 r]> m1)).
  assert (Hre : relinked (threads s) m2).
  { apply (relinked_trans _ m1 _ Hre1), (relinked_trans _ (<[t := set_next_ready 0 r]> m1)); [by apply relinked_next|].
    apply relinked_prev. by rewrite lookup_insert_eq. }
  assert (I' : sinv t (qput p l Q) (requeued p l m2 s)).
  { rewrite <- Hpr. apply (sinv_dequeue Q s t r); [done|done|by rewrite Hpr, Eq|done|..].
    - intros a Ha. unfold same_links, m2. rewrite !lookup_insert_ne, Ho1 by set_solver. done.
    - eapply dlist_frame; [|exact Hl1]. intros a Ha. unfold same_links, m2. rewrite !lookup_insert_ne by (by intros ->). done. }
  exists p, t, l, (requeued p l m2 s). split; [|split; [|split; [exact I'|split; [exact Hre|done]]]].
  2:{ split_and!; [lia|lia|done|]. intros p' Hp'. destruct (decide (Q p' = [])) as [|Hne']; [done|].
      apply (si_sum _ _ _ I p' ltac:(lia)) in Hne'. by rewrite Hhi in Hne' by lia. }
  rewrite (kbind_done _ _ _ _ _ (get_head_run 0 Q s p I Hp)), Eq. cbn [hd]. rewrite (kbind_done _ _ _ _ _ (get_th_run t r s Hr)).
  rewrite Hnx. set (s1 := Sched m1 (<[Z.to_nat p := hd 0 l]> (ready_queue_head s)) (<[Z.to_nat p := last_of 0 l]> (ready_queue_tail s))
    (put_bit (bool_decide (l <> [])) p (thread_ready_summary s)) (preempt s) (current s) (dpcq s)).
  assert (E2 : (if hd 0 l =? 0 then put_tail p 0 ;;; put_head p 0 ;;; clear_ready_bit p
    else upd_th (hd 0 l) (set_prev_ready 0) ;;; put_head p (hd 0 l)) s = Done (tt, s1)).
  { destruct (Z.eqb_spec (hd 0 l) 0) as [Eh|Eh].
    - destruct l as [|b l]; [|cbn [hd] in Eh; subst b; destruct H0; set_solver]. cbn [hd] in E1. injection E1 as E1.
      kx. rewrite put_tail_run, put_head_run by done. unfold s1. rewrite bool_decide_eq_false_2 by (intros Hn; by apply Hn).
      cbn. assert (m1 = threads s) as -> by (by rewrite E1). done.
    - cbn [negb] in E1. kx. rewrite E1, put_head_run by done. destruct l as [|b l]; [done|].
      unfold s1. pose proof (keep_tail 0 Q s p I Hp) as Hk. rewrite Eq, !last_of_cons in Hk. rewrite last_of_cons, Hk.
      rewrite bool_decide_eq_true_2, put_bit_same by (done || lia). done. }
  rewrite (kbind_done _ _ _ _ _ E2). kx. rewrite (upd_th_run t r _ s1) by exact Hrt. cbn [threads set_threads s1].
  erewrite upd_th_run by (cbn [threads set_threads]; by rewrite lookup_insert_eq). done.
Qed.

(** ** Fields of a thread *)

(** A control block that keeps its links and stays within its bounds. *)
Definition thread_ok (r : thread) : Prop := 0 <= priority r < 32 /\ 0 <= base_priority r < 32.

Lemma sinv_upd x Q s t r r' :
  sinv x Q s -> threads s !! t = Some r -> prev_ready r' = prev_ready r -> next_ready r' = next_ready r -> thread_ok r' ->
  (t <> x -> (t_state r' = THREAD_STATE_READY <-> t_state r = THREAD_STATE_READY) /\
             (t_state r = THREAD_STATE_READY -> priority r' = priority r)) ->
  sinv x Q (set_threads (<[t := r']> (threads s)) s).
Proof.
  intros [H1 H2 H3 H4 H5 H6 H7 H8 H9 H10 H11 H12 H13] Hr Hpv Hnx Hok Hst. split; try done.
  - intros p Hp. eapply dlist_frame; [|by apply H5]. intros a _. unfold same_links. cbn.
    destruct (decide (a = t)) as [->|]; [rewrite lookup_insert_eq, Hr; cbn; by rewrite Hpv, Hnx|by rewrite lookup_insert_ne].
  - intros a ra p Hra Ha Hp. cbn in Hra. destruct (decide (a = t)) as [->|]; [|rewrite lookup_insert_ne in Hra by done; by apply H7].
    rewrite lookup_insert_eq in Hra. injection Hra as <-. rewrite (H7 t r p Hr Ha Hp). destruct (Hst Ha) as [H H'].
    split; [intros [Hs <-]|intros [Hs <-]]; (split; [by apply H|]); [by apply H'|]. symmetry. apply H'. by apply H.
  - intros a ra Hra. cbn in Hra. destruct (decide (a = t)) as [->|]; [|rewrite lookup_insert_ne in Hra by done; by apply H11].
    rewrite lookup_insert_eq in Hra. injection Hra as <-. split; [by apply (H11 t r)|exact Hok].
  - cbn. destruct (decide (current s = t)) as [->|]; [rewrite lookup_insert_eq; by eexists|by rewrite lookup_insert_ne].
Qed.

(** A thread that is not ready is in no queue. *)
Lemma sinv_loosen Q s t r : sinv 0 Q s -> threads s !! t = Some r -> t_state r <> THREAD_STATE_READY -> sinv t Q s.
Proof.
  intros I Hr Hst. pose proof I as [H1 H2 H3 H4 H5 H6 H7 H8 H9 H10 H11 H12 H13]. split; try done.
  - intros a ra p Hra _ Hp. apply H7; [done| |done]. by apply (H11 a ra).
  - intros p Hp Hin. apply (H7 t r p Hr) in Hin; [by destruct Hin|by apply (H11 t r)|done].
Qed.

Lemma sinv_tighten Q s t r : sinv t Q s -> threads s !! t = Some r -> t_state r <> THREAD_STATE_READY -> sinv 0 Q s.
Proof.
  intros I Hr Hst. pose proof I as [H1 H2 H3 H4 H5 H6 H7 H8 H9 H10 H11 H12 H13]. split; try done.
  - intros a ra p Hra _ Hp. destruct (decide (a = t)) as [->|]; [|by apply H7]. assert (ra = r) as -> by congruence.
    split; [intros Hin; by destruct (H8 p Hp)|by intros []].
  - intros p Hp. by apply (queue_no_null _ _ _ p I).
Qed.

(** Nothing but the thread [t] and links has changed. *)
Definition only_thread (t : Z) (s s' : sched) : Prop :=
  current s' = current s /\ forall a, a <> t -> unlinked <$> threads s' !! a = unlinked <$> threads s !! a.

Lemma only_thread_refl t s : only_thread t s s.
Proof. by split. Qed.

Lemma only_thread_trans t s1 s2 s3 : only_thread t s1 s2 -> only_thread t s2 s3 -> only_thread t s1 s3.
Proof. intros [H1 H2] [H3 H4]. split; [congruence|]. intros a Ha. by rewrite H4, H2. Qed.

Lemma only_thread_upd t r s : only_thread t s (set_threads (<[t := r]> (threads s)) s).
Proof. split; [done|]. intros a Ha. cbn. by rewrite lookup_insert_ne. Qed.

Lemma only_thread_relinked t s s' : current s' = current s -> relinked (threads s) (threads s') -> only_thread t s s'.
Proof. intros Hc Hr. split; [done|]. intros a _. apply Hr. Qed.

(** ** Making a thread ready *)

(** The control block of a thread that is made ready, and whether it goes to
    the head of its queue. *)
Definition readied (charge boost : Z) (r : thread) : thread * bool :=
  let q := s32 (quantum r - charge) in
  let pr := Z.max (priority r) (Z.min (base_priority r + boost) PRIORITY_TIME_CRITICAL) in
  if 0 <? q then (set_t_state THREAD_STATE_READY (set_priority pr (set_quantum q r)), true)
  else (set_t_state THREAD_STATE_READY (set_priority (if base_priority r <? pr then pr - 1 else pr)
          (set_quantum DEFAULT_QUANTUM r)), false).

Definition enqueue (Q : Z -> list Z) (r : thread) (front : bool) (t : Z) : Z -> list Z :=
  qput (priority r) (if front then t :: Q (priority r) else Q (priority r) ++ [t]) Q.

Lemma readied_ok charge boost r : 0 <= boost -> thread_ok r ->
  thread_ok (readied charge boost r).1 /\ t_state (readied charge boost r).1 = THREAD_STATE_READY /\
  prev_ready (readied charge boost r).1 = prev_ready r /\ next_ready (readied charge boost r).1 = next_ready r.
Proof.
  intros Hb (Hp & Hbp). unfold readied, PRIORITY_TIME_CRITICAL.
  destruct (0 <? _); cbn; (split; [|done]); split_and!; try done; cbn; try lia; destruct (Z.ltb_spec (base_priority r)
    (Z.max (priority r) (Z.min (base_priority r + boost) 15))); lia.
Qed.

Lemma sinv_preempt x Q s v : sinv x Q s -> sinv x Q (set_preempt v s).
Proof. by intros [H1 H2 H3 H4 H5 H6 H7 H8 H9 H10 H11 H12 H13]; split. Qed.

(** An update of the priority that is skipped if nothing would change. *)
Lemma upd_prio_run (b : bool) t r v w s :
  threads s !! t = Some r -> (b = true -> v = w) -> (b = false -> w = priority r) ->
  (if b then upd_th t (set_priority v) else kret tt) s = Done (tt, set_threads (<[t := set_priority w r]> (threads s)) s).
Proof.
  intros Hr Hv Hw. destruct b; [rewrite (Hv eq_refl); by apply upd_th_run|]. rewrite (Hw eq_refl). unfold kret. do 2 f_equal.
  assert (set_priority (priority r) r = r) as -> by (by destruct r). rewrite insert_id by done. by destruct s.
Qed.

(** The end of [mark_thread_ready]. *)
Lemma signal_preempt_run Q s t r :
  sinv 0 Q s -> threads s !! t = Some r ->
  exists v, (let* r := get_th t in let* s := kget in let* c := get_th (current s) in
    if priority c <? priority r then kmod (set_preempt 1) else kret tt) s = Done (tt, set_preempt v s).
Proof.
  intros I Hr. destruct (si_current _ _ _ I) as [c Hc]. kx. rewrite (get_th_run t r s Hr), (get_th_run _ c s Hc).
  destruct (priority c <? priority r); [by eexists|]. exists (preempt s). by destruct s.
Qed.

(** The updates of [mark_thread_ready] up to the insertion in a queue. *)
Lemma mark_thread_ready_eq s t r charge boost :
  threads s !! t = Some r -> suspend_count r <= 0 -> t_state r <> THREAD_STATE_READY ->
  mark_thread_ready t charge boost s =
    ((if (readied charge boost r).2 then insert_ready_head t else insert_ready_tail t) ;;;
     let* r := get_th t in let* s := kget in let* c := get_th (current s) in
     if priority c <? priority r then kmod (set_preempt 1) else kret tt)
    (set_threads (<[t := (readied charge boost r).1]> (threads s)) s).
Proof.
  intros Hr Hsc Hst. unfold mark_thread_ready, readied. rewrite (kbind_done _ _ _ _ _ (get_th_run t r s Hr)).
  destruct (Z.ltb_spec 0 (suspend_count r)); [lia|]. destruct (Z.eqb_spec (t_state r) THREAD_STATE_READY) as [|_]; [done|].
  rewrite andb_false_r. rewrite (kbind_done _ _ _ _ _ (upd_th_run t r _ s Hr)). cbv zeta. set (q := s32 (quantum r - charge)).
  assert (Hnp : (if PRIORITY_TIME_CRITICAL <? base_priority r + boost then PRIORITY_TIME_CRITICAL else base_priority r + boost) =
    Z.min (base_priority r + boost) PRIORITY_TIME_CRITICAL).
  { destruct (Z.ltb_spec PRIORITY_TIME_CRITICAL (base_priority r + boost)); lia. }
  rewrite Hnp. set (np := Z.min _ _). set (pr := Z.max (priority r) np). set (r1 := set_quantum q r).
  assert (Hp1 : (if priority r <? np then upd_th t (set_priority np) else kret tt) (set_threads (<[t := r1]> (threads s)) s) =
    Done (tt, set_threads (<[t := set_priority pr r1]> (threads s)) s)).
  { rewrite (upd_prio_run _ t r1 np pr) by (cbn; rewrite ?lookup_insert_eq; done || (destruct (Z.ltb_spec (priority r) np); intros; (done || (cbn; lia)))).
    cbn. by rewrite insert_insert_eq. }
  rewrite (kbind_done _ _ _ _ _ Hp1). set (r2 := set_priority pr r1).
  rewrite (kbind_done _ _ _ _ _ (upd_th_run t r2 _ _ (lookup_insert_eq _ _ _))). cbn [set_threads threads]. rewrite insert_insert_eq.
  set (r3 := set_t_state THREAD_STATE_READY r2).
  rewrite (kbind_done _ _ _ _ _ (get_th_run t r3 _ (lookup_insert_eq _ _ _))). cbn [set_threads threads].
  change (quantum r3) with q. destruct (0 <? q); [done|]. cbn [fst snd].
  set (r4 := set_quantum DEFAULT_QUANTUM r3). set (w := if base_priority r <? pr then pr - 1 else pr).
  assert (Hp2 : (if base_priority r3 <? priority r3 then upd_th t (set_priority (priority r3 - 1)) else kret tt)
      (set_threads (<[t := r4]> (threads s)) s) = Done (tt, set_threads (<[t := set_priority w r4]> (threads s)) s)).
  { rewrite (upd_prio_run _ t r4 _ w) by (cbn; rewrite ?lookup_insert_eq; done || (unfold w; cbn; intros ->; done)).
    cbn. by rewrite insert_insert_eq. }
  assert (Htl : (upd_th t (set_quantum DEFAULT_QUANTUM) ;;;
      (if base_priority r3 <? priority r3 then upd_th t (set_priority (priority r3 - 1)) else kret tt) ;;;
      insert_ready_tail t) (set_threads (<[t := r3]> (threads s)) s) =
    insert_ready_tail t (set_threads (<[t := set_priority w r4]> (threads s)) s)).
  { rewrite (kbind_done _ _ _ _ _ (upd_th_run t r3 _ _ (lookup_insert_eq _ _ _))). cbn [set_threads threads].
    rewrite insert_insert_eq. by rewrite (kbind_done _ _ _ _ _ Hp2). }
  apply kbind_same. exact Htl.
Qed.

Lemma mark_ready_run Q s t r charge boost :
  sinv 0 Q s -> threads s !! t = Some r -> 0 <= boost -> suspend_count r <= 0 -> t_state r <> THREAD_STATE_READY ->
  exists s', mark_thread_ready t charge boost s = Done (tt, s') /\
    sinv 0 (enqueue Q (readied charge boost r).1 (readied charge boost r).2 t) s' /\ only_thread t s s' /\
    exists r', threads s' !! t = Some r' /\ unlinked r' = unlinked (readied charge boost r).1.
Proof.
  intros I Hr Hb Hsc Hst. pose proof (sinv_loosen _ _ _ _ I Hr Hst) as It.
  destruct (si_thread _ _ _ I t r Hr) as (Ht0 & Hok).
  destruct (readied_ok charge boost r Hb Hok) as (Hok' & Hst' & Hpv & Hnx).
  rewrite (mark_thread_ready_eq s t r) by done.
  assert (It' : sinv t Q (set_threads (<[t := (readied charge boost r).1]> (threads s)) s)).
  { apply (sinv_upd t Q s t r); [done..|]. by intros []. }
  assert (Hins : exists s1, (if (readied charge boost r).2 then insert_ready_head t else insert_ready_tail t)
      (set_threads (<[t := (readied charge boost r).1]> (threads s)) s) = Done (tt, s1) /\
    sinv 0 (enqueue Q (readied charge boost r).1 (readied charge boost r).2 t) s1 /\
    relinked (<[t := (readied charge boost r).1]> (threads s)) (threads s1) /\ current s1 = current s).
  { unfold enqueue. destruct (readied charge boost r) as [r1 []]; cbn [fst snd] in *.
    - destruct (insert_ready_head_run Q _ t r1 It') as (s1 & E & I1 & Hre & Hc & _); [by cbn; rewrite lookup_insert_eq|done|]. by exists s1.
    - destruct (insert_ready_tail_run Q _ t r1 It') as (s1 & E & I1 & Hre & Hc & _); [by cbn; rewrite lookup_insert_eq|done|]. by exists s1. }
  destruct Hins as (s1 & E1 & I1 & Hre & Hc).
  destruct (relinked_some _ _ t _ Hre (lookup_insert_eq _ _ _)) as (r' & Hr' & Hu).
  destruct (signal_preempt_run _ s1 t r' I1 Hr') as (v & Ev).
  exists (set_preempt v s1). split_and!; [|by apply sinv_preempt| |by exists r'].
  - by rewrite (kbind_done _ _ _ _ _ E1).
  - split; [exact Hc|]. intros a Ha. cbn. rewrite Hre. by rewrite lookup_insert_ne.
Qed.

(** ** Dispatching *)

(** The panics of the scheduler. *)
Definition sched_panic (m : string) : Prop := m = "thread already ready" \/ m = "No thread ready to run".

(** The code returns in a state with [P], or it panics. *)
Definition panics_or {S A} (o : outcome (A * S)) (P : A -> S -> Prop) : Prop :=
  match o with
  | Done (a, s) => P a s
  | Panic m => sched_panic m
  | _ => False
  end.

Lemma panics_or_bind {S A B} (m : K S A) (f : A -> K S B) s P R :
  panics_or (m s) P -> (forall a s', P a s' -> panics_or (f a s') R) -> panics_or (kbind m f s) R.
Proof. unfold kbind, panics_or. intros H Hf. destruct (m s) as [[a s']| | |]; auto. by apply Hf. Qed.

Lemma panics_or_mono {S A} (o : outcome (A * S)) (P R : A -> S -> Prop) :
  panics_or o P -> (forall a s, P a s -> R a s) -> panics_or o R.
Proof. unfold panics_or. destruct o as [[]| | |]; auto. Qed.

(** No thread disappears, and none appears. *)
Definition keep_threads (s s' : sched) : Prop := forall t, is_Some (threads s !! t) <-> is_Some (threads s' !! t).

Lemma keep_threads_upd s t r r' : threads s !! t = Some r -> keep_threads s (set_threads (<[t := r']> (threads s)) s).
Proof. intros Hr a. cbn [threads set_threads]. rewrite lookup_insert_is_Some'. split; [by right|]. intros [->|?]; [by eexists|done]. Qed.

Lemma same_is_Some (o o' : option thread) : unlinked <$> o' = unlinked <$> o -> is_Some o <-> is_Some o'.
Proof. destruct o, o'; done. Qed.

Lemma keep_threads_same s s' : (forall a, unlinked <$> threads s' !! a = unlinked <$> threads s !! a) -> keep_threads s s'.
Proof. intros H a. apply same_is_Some, H. Qed.

Lemma keep_threads_relinked s s' : relinked (threads s) (threads s') -> keep_threads s s'.
Proof. apply keep_threads_same. Qed.

Lemma keep_threads_refl s : keep_threads s s.
Proof. by intros t. Qed.

Lemma keep_threads_trans s1 s2 s3 : keep_threads s1 s2 -> keep_threads s2 s3 -> keep_threads s1 s3.
Proof. intros H1 H2 a. by rewrite (H1 a). Qed.

Lemma sinv_current x Q s t : sinv x Q s -> is_Some (threads s !! t) -> sinv x Q (set_current t s).
Proof. intros [H1 H2 H3 H4 H5 H6 H7 H8 H9 H10 H11 H12 H13] Ht. by split. Qed.

(** The thread [t] that has left its queue becomes the running thread. *)
Definition switch_to (cur t : Z) : K sched unit :=
  if t =? 0 then kpanic "No thread ready to run"
  else if t =? cur then upd_th t (set_t_state THREAD_STATE_RUNNING)
  else
    let* c := get_th cur in
    (if negb (Z.land (t_flags c) THREAD_FPU_ENABLED =? 0)
     then let* r := get_th t in upd_th t (set_t_flags (Z.ldiff (t_flags r) THREAD_FPU_ENABLED))
     else kret tt) ;;;
    kmod (set_current t) ;;;
    mark_thread_running.

Lemma switch_to_run Q s t r :
  sinv t Q s -> threads s !! t = Some r ->
  exists s' r', switch_to (current s) t s = Done (tt, s') /\ sinv 0 Q s' /\ current s' = t /\
    threads s' !! t = Some r' /\ t_state r' = THREAD_STATE_RUNNING /\ priority r' = priority r /\
    base_priority r' = base_priority r /\ suspend_count r' = suspend_count r /\
    forall a, a <> t -> threads s' !! a = threads s !! a.
Proof.
  intros I Hr. destruct (si_thread _ _ _ I t r Hr) as (Ht0 & Hok). unfold switch_to.
  destruct (Z.eqb_spec t 0) as [|_]; [done|].
  assert (Hset : forall s0 r0, threads s0 !! t = Some r0 -> sinv t Q s0 -> t_state r0 <> THREAD_STATE_READY -> sinv 0 Q s0)
    by (intros s0 r0 H0 I0 Hs; by apply (sinv_tighten Q s0 t r0)).
  destruct (Z.eqb_spec t (current s)) as [Ec|Ec].
  { rewrite (upd_th_run t r _ s Hr). eexists _, _. split; [done|]. cbn [threads set_threads current]. rewrite lookup_insert_eq.
    split_and!; try done; [|by intros a Ha; rewrite lookup_insert_ne].
    eapply Hset; [cbn [threads set_threads]; by rewrite lookup_insert_eq| |done]. by apply (sinv_upd t Q s t r). }
  destruct (si_current _ _ _ I) as [c Hc]. rewrite (kbind_done _ _ _ _ _ (get_th_run _ c s Hc)).
  assert (Hfl : exists r1, (if negb (Z.land (t_flags c) THREAD_FPU_ENABLED =? 0)
     then let* r := get_th t in upd_th t (set_t_flags (Z.ldiff (t_flags r) THREAD_FPU_ENABLED)) else kret tt) s =
     Done (tt, set_threads (<[t := set_t_flags r1 r]> (threads s)) s)).
  { destruct (negb _).
    - rewrite (kbind_done _ _ _ _ _ (get_th_run t r s Hr)), (upd_th_run t r _ s Hr). by eexists.
    - exists (t_flags r). unfold kret. do 2 f_equal. assert (set_t_flags (t_flags r) r = r) as -> by (by destruct r).
      rewrite insert_id by done. by destruct s. }
  destruct Hfl as (fl & E). rewrite (kbind_done _ _ _ _ _ E). unfold mark_thread_running. kx. cbn [set_current set_threads current threads].
  erewrite upd_th_run by (cbn [threads set_threads set_current current]; by rewrite lookup_insert_eq). cbn [set_current set_threads current threads]. rewrite insert_insert_eq.
  erewrite get_th_run by (cbn [threads set_threads set_current current]; by rewrite lookup_insert_eq). cbn [set_current set_threads current threads].
  erewrite upd_th_run by (cbn [threads set_threads set_current current]; by rewrite lookup_insert_eq). cbn [set_current set_threads current threads]. rewrite insert_insert_eq.
  set (r5 := set_context_switches _ _). exists (set_current t (set_threads (<[t := r5]> (threads s)) s)), r5. split; [done|].
  cbn [threads set_threads set_current current]. rewrite lookup_insert_eq. split_and!; try done; [|by intros a Ha; rewrite lookup_insert_ne].
  apply (Hset _ r5); [cbn [threads set_threads set_current]; by rewrite lookup_insert_eq| |done].
  apply sinv_current; [|cbn [threads set_threads]; rewrite lookup_insert_eq; by eexists].
  by apply (sinv_upd t Q s t r).
Qed.

(** A thread that does not run; if it is ready it is not suspended. *)
Definition calm (r : thread) : Prop :=
  (t_state r = THREAD_STATE_READY -> suspend_count r <= 0) /\ t_state r <> THREAD_STATE_RUNNING /\ - 2 ^ 31 <= suspend_count r.

Lemma calm_unlinked r r' : unlinked r' = unlinked r -> calm r -> calm r'.
Proof. intros Hu. destruct (unlinked_fields _ _ Hu) as (Hs & _ & _ & Hc & _). unfold calm. by rewrite Hs, Hc. Qed.

Definition calm_but (x : Z) (s : sched) : Prop := forall a r, a <> x -> threads s !! a = Some r -> calm r.

(** Only the control block of [t] has changed. *)
Lemma calm_step x y s s' t :
  calm_but x s -> y = x \/ x = t \/ threads s' !! x = None -> (forall a, a <> t -> unlinked <$> threads s' !! a = unlinked <$> threads s !! a) ->
  (t <> y -> forall r, threads s' !! t = Some r -> calm r) -> calm_but y s'.
Proof.
  intros Hs Hxy Ho Ht a r' Hne Hr'. destruct (decide (a = t)) as [->|Hat]; [by apply Ht|]. specialize (Ho a Hat). rewrite Hr' in Ho.
  destruct (threads s !! a) as [r|] eqn:Hr; [|done]. change (Some (unlinked r') = Some (unlinked r)) in Ho.
  apply (calm_unlinked r); [congruence|]. apply (Hs a); [|done]. intros ->. by destruct Hxy as [->|[->|Hx]]; [..|congruence].
Qed.

(** The state in which [dispatch] is called: the queues are right and nothing
    runs. *)
Definition at_rest (s : sched) : Prop := (exists Q, sinv 0 Q s) /\ calm_but 0 s.

(** The state between operations: the queues are right and the current thread
    is the one that runs. *)
Definition good (s : sched) : Prop :=
  (exists Q, sinv 0 Q s) /\ calm_but (current s) s /\
  exists r, threads s !! current s = Some r /\ t_state r = THREAD_STATE_RUNNING /\ - 2 ^ 31 <= suspend_count r <= 0.

(** Deferred procedure calls keep the queues right and the threads alive. *)
Definition dpcs_ok (check_dpc_queue : K sched unit) : Prop :=
  forall s, at_rest s -> panics_or (check_dpc_queue s) (fun _ s' =>
    at_rest s' /\ current s' = current s /\ keep_threads s s').

(** From [s1] the processor has been given to [t], the first thread of the
    highest queue. *)
Definition switched (Q : Z -> list Z) (p t : Z) (l : list Z) (s1 s' : sched) : Prop :=
  sinv 0 (qput p l Q) s' /\ current s' = t /\
  (exists r r', threads s1 !! t = Some r /\ threads s' !! t = Some r' /\ t_state r' = THREAD_STATE_RUNNING /\
     priority r' = priority r /\ base_priority r' = base_priority r /\ suspend_count r' = suspend_count r) /\
  forall a, a <> t -> unlinked <$> threads s' !! a = unlinked <$> threads s1 !! a.

Lemma keep_only t s s' : only_thread t s s' -> is_Some (threads s !! t) -> is_Some (threads s' !! t) -> keep_threads s s'.
Proof.
  intros [_ Ho] Ht Ht' a. destruct (decide (a = t)) as [->|Hne]; [done|]. by apply same_is_Some, Ho.
Qed.

Lemma no_null_thread x Q s : sinv x Q s -> threads s !! 0 = None.
Proof. intros I. destruct (threads s !! 0) as [r|] eqn:Hr; [|done]. by destruct (si_thread _ _ _ I 0 r Hr). Qed.

(** [mark_thread_ready] on any thread. *)
Lemma mark_safe Q s t r charge boost :
  sinv 0 Q s -> threads s !! t = Some r -> 0 <= boost -> (t_state r = THREAD_STATE_READY -> suspend_count r <= 0) -> - 2 ^ 31 <= suspend_count r ->
  panics_or (mark_thread_ready t charge boost s) (fun _ s' => (exists Q', sinv 0 Q' s') /\ only_thread t s s' /\
    exists r', threads s' !! t = Some r' /\ calm r').
Proof.
  intros I Hr Hb Hsu Hlo. destruct (si_thread _ _ _ I t r Hr) as (Ht0 & Hok & Hokb).
  destruct (Z.le_gt_cases (suspend_count r) 0) as [Hs|Hs].
  - destruct (decide (t_state r = THREAD_STATE_READY)) as [Hst|Hst].
    + unfold mark_thread_ready. rewrite (kbind_done _ _ _ _ _ (get_th_run t r s Hr)).
      destruct (Z.ltb_spec 0 (suspend_count r)); [lia|]. rewrite Hst. cbn [Z.eqb Pos.eqb THREAD_STATE_READY].
      destruct (negb _); cbn [andb];
        [split; [by exists Q|split; [apply only_thread_refl|exists r; split; [done|split; [done|by rewrite Hst]]]]|].
      rewrite (kbind_done _ _ _ _ _ (upd_th_run t r _ s Hr)). cbv zeta. unfold kbind.
      destruct (_ <? _); [|by left]. erewrite upd_th_run; [by left|]. cbn [threads set_threads]. by rewrite lookup_insert_eq.
    + destruct (mark_ready_run Q s t r charge boost I Hr Hb Hs Hst) as (s' & E & I' & Ho & r' & Hr' & Hu'). rewrite E.
      split; [by eexists|]. split; [done|]. exists r'. split; [done|]. apply (calm_unlinked _ _ Hu').
      unfold readied. by destruct (0 <? _).
  - unfold mark_thread_ready. rewrite (kbind_done _ _ _ _ _ (get_th_run t r s Hr)).
    destruct (Z.ltb_spec 0 (suspend_count r)); [|lia]. rewrite (upd_th_run t r _ s Hr).
    assert (t_state r <> THREAD_STATE_READY) as Hst by (intros Hst; specialize (Hsu Hst); lia).
    split; [exists Q|split; [apply only_thread_upd|eexists; cbn [threads set_threads]; rewrite lookup_insert_eq; split; [done|by split]]].
    apply (sinv_upd 0 Q s t r); [done..|]. intros _. by split; [split|].
Qed.

(** ** Operations *)

Lemma upd_again t r f s :
  upd_th t f (set_threads (<[t := r]> (threads s)) s) = Done (tt, set_threads (<[t := f r]> (threads s)) s).
Proof.
  erewrite upd_th_run by (cbn [threads set_threads]; by rewrite lookup_insert_eq). cbn [threads set_threads].
  by rewrite insert_insert_eq.
Qed.

Lemma get_again t r s :
  get_th t (set_threads (<[t := r]> (threads s)) s) = Done (r, set_threads (<[t := r]> (threads s)) s).
Proof. apply get_th_run. cbn [threads set_threads]. by rewrite lookup_insert_eq. Qed.

(** Steps through updates of one control block, [Hr] is its contents. *)
Ltac first_upd Hr := rewrite (kbind_done _ _ _ _ _ (upd_th_run _ _ _ _ Hr)).
Ltac first_get Hr := rewrite (kbind_done _ _ _ _ _ (get_th_run _ _ _ Hr)).
Ltac again := repeat first
  [ rewrite (kbind_done _ _ _ _ _ (upd_again _ _ _ _)) | rewrite (kbind_done _ _ _ _ _ (get_again _ _ _)) ].
Ltac getst := rewrite (kbind_done _ _ _ _ _ (eq_refl : kget _ = Done (_, _))).

(** The current thread gives the processor away. *)
Lemma leave_cpu s r r' :
  good s -> threads s !! current s = Some r -> prev_ready r' = prev_ready r -> next_ready r' = next_ready r ->
  thread_ok r' -> t_state r' <> THREAD_STATE_READY -> t_state r' <> THREAD_STATE_RUNNING -> - 2 ^ 31 <= suspend_count r' ->
  at_rest (set_threads (<[current s := r']> (threads s)) s).
Proof.
  intros ([Q I] & Hc & r0 & Hr0 & Hst0 & Hsc0) Hr Hpv Hnx Hok Hs1 Hs2 Hlo. assert (r0 = r) as -> by congruence. split.
  - exists Q. apply (sinv_upd 0 Q s (current s) r); [done..|]. intros _. rewrite Hst0. by split; [split|].
  - apply (calm_step (current s) 0 s _ (current s) Hc); [by right; left|apply only_thread_upd|].
    intros _ r1. cbn [threads set_threads]. rewrite lookup_insert_eq. by intros [= <-].
Qed.

(** The current thread runs on. *)
Lemma stay_cpu s r r' :
  good s -> threads s !! current s = Some r -> prev_ready r' = prev_ready r -> next_ready r' = next_ready r ->
  thread_ok r' -> t_state r' = t_state r -> - 2 ^ 31 <= suspend_count r' <= 0 -> good (set_threads (<[current s := r']> (threads s)) s).
Proof.
  intros ([Q I] & Hc & r0 & Hr0 & Hst0 & Hsc0) Hr Hpv Hnx Hok Hs Hsc. assert (r0 = r) as -> by congruence. split_and!.
  - exists Q. apply (sinv_upd 0 Q s (current s) r); [done..|]. intros _. rewrite Hs, Hst0. by split.
  - apply (calm_step (current s) (current s) s _ (current s) Hc); [by left|apply only_thread_upd|done].
  - exists r'. cbn [threads set_threads current]. rewrite lookup_insert_eq. split; [done|]. split; [congruence|exact Hsc].
Qed.

(** A change of another thread. *)
Lemma good_only s s' t :
  good s -> t <> current s -> only_thread t s s' -> (exists Q, sinv 0 Q s') ->
  (forall r, threads s' !! t = Some r -> calm r) -> good s'.
Proof.
  intros (_ & Hc & r0 & Hr0 & Hst0 & Hsc0) Ht [Hcu Ho] HQ Hr. split; [done|]. rewrite Hcu. split.
  - apply (calm_step (current s) (current s) s s' t Hc); [by left|done|by intros _].
  - specialize (Ho (current s) ltac:(done)). rewrite Hr0 in Ho. destruct (threads s' !! current s) as [r1|]; [|done].
    change (Some (unlinked r1) = Some (unlinked r0)) in Ho. exists r1. split; [done|].
    destruct (unlinked_fields r0 r1 ltac:(congruence)) as (-> & _ & _ & -> & _). done.
Qed.

Lemma other_upd s t r r' :
  good s -> t <> current s -> threads s !! t = Some r -> prev_ready r' = prev_ready r -> next_ready r' = next_ready r ->
  thread_ok r' -> (t_state r' = THREAD_STATE_READY <-> t_state r = THREAD_STATE_READY) ->
  (t_state r = THREAD_STATE_READY -> priority r' = priority r) -> calm r' ->
  good (set_threads (<[t := r']> (threads s)) s).
Proof.
  intros Hg Ht Hr Hpv Hnx Hok Hst Hpr Hca. apply (good_only s _ t Hg Ht); [apply only_thread_upd| |].
  - destruct Hg as ([Q I] & _). exists Q. by apply (sinv_upd 0 Q s t r).
  - intros r1. cbn [threads set_threads]. rewrite lookup_insert_eq. by intros [= <-].
Qed.

Lemma good_thread s t r : good s -> threads s !! t = Some r -> t <> 0 /\ thread_ok r /\
  (t <> current s -> calm r) /\ (t = current s -> t_state r = THREAD_STATE_RUNNING /\ - 2 ^ 31 <= suspend_count r <= 0).
Proof.
  intros ([Q I] & Hc & r0 & Hr0 & Hst0 & Hsc0) Hr. destruct (si_thread _ _ _ I t r Hr) as (H0 & Hok). split_and!; [done..| |].
  - intros Hne. by apply (Hc t).
  - intros ->. by assert (r0 = r) as <- by congruence.
Qed.

(** [mark_thread_ready] on a thread that does not run. *)
Lemma mark_other s t r charge boost :
  good s -> threads s !! t = Some r -> t <> current s -> 0 <= boost ->
  panics_or (mark_thread_ready t charge boost s) (fun _ s' => good s' /\ only_thread t s s' /\ keep_threads s s').
Proof.
  intros Hg Hr Hne Hb. destruct (good_thread s t r Hg Hr) as (_ & _ & Hca & _). destruct (Hca Hne) as (Hsu & _ & Hlo).
  pose proof Hg as ([Q I] & _). eapply panics_or_mono; [by apply (mark_safe Q s t r charge boost)|].
  intros _ s' (HQ & Ho & r' & Hr' & Hc'). split; [|split; [done|by apply (keep_only t)]].
  apply (good_only s s' t); [done..|]. intros r1 Hr1. by assert (r1 = r') as -> by congruence.
Qed.

Lemma mark_good s t r charge boost :
  good s -> threads s !! t = Some r -> t <> current s -> 0 <= boost ->
  panics_or (mark_thread_ready t charge boost s) (fun _ s' => good s' /\ keep_threads s s').
Proof.
  intros Hg Hr Hne Hb. eapply panics_or_mono; [by apply (mark_other s t r charge boost)|]. by intros _ s' (? & _ & ?).
Qed.

(** [mark_thread_ready] on the current thread, before [dispatch]. *)
Lemma mark_current s r r' charge boost :
  good s -> threads s !! current s = Some r -> prev_ready r' = prev_ready r -> next_ready r' = next_ready r ->
  thread_ok r' -> t_state r' = t_state r -> - 2 ^ 31 <= suspend_count r' <= 0 -> 0 <= boost ->
  panics_or (mark_thread_ready (current s) charge boost (set_threads (<[current s := r']> (threads s)) s))
    (fun _ s' => at_rest s' /\ keep_threads s s').
Proof.
  intros Hg Hr Hpv Hnx Hok Hst Hsc Hb. pose proof (stay_cpu s r r' Hg Hr Hpv Hnx Hok Hst Hsc) as Hg1.
  set (s1 := set_threads _ s) in *. assert (Hr1 : threads s1 !! current s1 = Some r').
  { cbn [threads s1 set_threads current]. by rewrite lookup_insert_eq. }
  destruct (good_thread s1 _ r' Hg1 Hr1) as (_ & _ & _ & Hrun). destruct (Hrun eq_refl) as [Hrun1 _].
  pose proof Hg1 as ([Q I] & Hc & _). eapply panics_or_mono; [apply (mark_safe Q s1 (current s) r' charge boost I Hr1 Hb); [by rewrite Hrun1|apply Hsc]|].
  intros _ s' (HQ & Ho & r2 & Hr2 & Hc2). split; [split; [done|]|].
  - apply (calm_step (current s) 0 s1 s' (current s) Hc); [by right; left|apply Ho|]. intros _ r3 Hr3. by assert (r3 = r2) as -> by congruence.
  - eapply keep_threads_trans; [apply (keep_threads_upd s (current s) r r' Hr)|by apply (keep_only (current s))].
Qed.

(** [dispatch] after the deferred calls have led to [s1]. *)
Lemma dispatch_done dpc Q s s1 :
  dpc (set_preempt 0 s) = Done (tt, s1) -> sinv 0 Q s1 -> current s1 = current s ->
  ((forall p, 0 <= p < 32 -> Q p = []) /\ dispatch dpc s = Panic "No thread ready to run") \/
  exists p t l s', first_ready Q p t l /\ dispatch dpc s = Done (tt, s') /\ switched Q p t l s1 s'.
Proof.
  intros E1 I1 Hc1. unfold dispatch. getst. cbv zeta. rewrite (kbind_done _ _ _ _ _ (eq_refl : kmod (set_preempt 0) s = _)).
  rewrite (kbind_done _ _ _ _ _ E1).
  destruct (find_ready_thread_run Q s1 I1) as [[E2 Hno]|(p & t & l & s2 & E2 & Hf & I2 & Hre & Hc2 & _)];
    rewrite (kbind_done _ _ _ _ _ E2); [by left|right].
  assert (Hin : t ∈ Q p) by (destruct Hf as (_ & -> & _); by left).
  destruct (dlist_lookup _ _ _ _ t (si_list _ _ _ I1 p (proj1 Hf)) Hin) as [r Hr].
  destruct (relinked_some _ _ _ _ Hre Hr) as (r2 & Hr2 & Hu). destruct (unlinked_fields _ _ Hu) as (_ & Hp & Hb & Hs & _).
  destruct (switch_to_run _ s2 t r2 I2 Hr2) as (s3 & r3 & E3 & I3 & Hc3 & Hr3 & Hst & Hp3 & Hb3 & Hs3 & Hoth).
  exists p, t, l, s3. split; [exact Hf|]. split.
  - change (switch_to (current s) t s2 = Done (tt, s3)). by rewrite <- Hc1, <- Hc2.
  - split; [done|]. split; [done|]. split; [exists r, r3; split_and!; congruence|]. intros a Ha. rewrite Hoth by done. apply Hre.
Qed.

Lemma switched_keep Q p t l s1 s' : switched Q p t l s1 s' -> keep_threads s1 s'.
Proof.
  intros (_ & _ & (r & r' & Hr & Hr' & _) & Ho) a. destruct (decide (a = t)) as [->|Hne]; [rewrite Hr, Hr'; by split|].
  by apply same_is_Some, Ho.
Qed.

Lemma switched_good Q p t l s1 s' :
  sinv 0 Q s1 -> calm_but 0 s1 -> first_ready Q p t l -> switched Q p t l s1 s' -> good s'.
Proof.
  intros I1 Hsu1 (Hp & Hq & _) (I' & Hcu & (r & r' & Hr & Hr' & Hst & _ & _ & Hs) & Ho). split; [by eexists|]. rewrite Hcu.
  assert (Ht0 : t <> 0) by (intros ->; by rewrite (no_null_thread _ _ _ I1) in Hr). destruct (Hsu1 t r Ht0 Hr) as (H1 & _ & H3). split.
  - apply (calm_step 0 t s1 s' t Hsu1); [right; right; by apply (no_null_thread _ _ _ I')|done|done].
  - exists r'. split; [done|]. split; [done|]. rewrite Hs. split; [done|]. apply H1.
    apply (si_mem _ _ _ I1 t r p Hr Ht0 Hp). rewrite Hq. by left.
Qed.

Section Safe.
Variable dpc : K sched unit.
Hypothesis Hdpc : dpcs_ok dpc.

Lemma dispatch_run s : at_rest s -> panics_or (dispatch dpc s) (fun _ s' => good s' /\ keep_threads s s').
Proof.
  intros [[Q I] Hsu]. pose proof (Hdpc (set_preempt 0 s) (conj (ex_intro _ Q (sinv_preempt 0 Q s 0 I)) Hsu)) as Hd.
  destruct (dpc (set_preempt 0 s)) as [[[] s1]|m| |] eqn:E1; [|unfold dispatch, kbind; cbn; rewrite E1; exact Hd|done..].
  destruct Hd as ([[Q1 I1] Hsu1] & Hc1 & Hk1).
  destruct (dispatch_done dpc Q1 s s1 E1 I1 Hc1) as [[_ ->]|(p & t & l & s' & Hf & -> & Hsw)]; [by right|].
  split; [by apply (switched_good Q1 p t l s1)|]. apply (keep_threads_trans s s1); [done|by apply (switched_keep Q1 p t l)].
Qed.

(** What every operation leads to. *)
Definition safe {A} (o : outcome (A * sched)) (s : sched) : Prop :=
  panics_or o (fun _ s' => good s' /\ keep_threads s s').

Lemma dispatch_safe s0 s : at_rest s -> keep_threads s0 s -> safe (dispatch dpc s) s0.
Proof.
  intros Hs Hk. eapply panics_or_mono; [by apply dispatch_run|]. intros _ s' [Hg Hk']. split; [done|].
  by apply (keep_threads_trans s0 s).
Qed.

Lemma safe_ret {A B} (o : K sched A) (b : B) s0 s : safe (o s) s0 -> safe ((o ;;; kret b) s) s0.
Proof. intros H. unfold safe. by eapply panics_or_bind; [exact H|]. Qed.

Lemma safe_from {A} (o : outcome (A * sched)) s0 s : keep_threads s0 s -> safe o s -> safe o s0.
Proof. intros Hk H. eapply panics_or_mono; [exact H|]. intros a s' [Hg Hk']. split; [done|]. by apply (keep_threads_trans s0 s). Qed.

Lemma enter_wait_safe reason s : good s -> safe (enter_wait dpc reason s) s.
Proof.
  intros Hg. pose proof Hg as (_ & _ & r & Hr & Hst & Hlo & Hhi). destruct (good_thread s _ r Hg Hr) as (_ & Hok & _).
  unfold enter_wait. getst. first_upd Hr. again. apply dispatch_safe; [|by eapply keep_threads_upd].
  by apply (leave_cpu s r).
Qed.

Lemma begin_alertable_wait_safe sigs reason s : good s -> safe (begin_alertable_wait dpc sigs reason s) s.
Proof.
  intros Hg. pose proof Hg as (_ & _ & r & Hr & Hst & Hlo & Hhi). destruct (good_thread s _ r Hg Hr) as (_ & Hok & _).
  unfold begin_alertable_wait. getst. cbv zeta. destruct sigs; [by split; [|apply keep_threads_refl]|].
  first_upd Hr. again. apply safe_ret, dispatch_safe; [|by eapply keep_threads_upd]. by apply (leave_cpu s r).
Qed.

Lemma end_alertable_wait_safe s : good s -> safe (end_alertable_wait s) s.
Proof.
  intros Hg. pose proof Hg as (_ & _ & r & Hr & Hst & Hlo & Hhi). destruct (good_thread s _ r Hg Hr) as (_ & Hok & _).
  unfold end_alertable_wait. getst. cbv zeta. first_get Hr. first_upd Hr. again.
  destruct (negb _); again; (split; [by apply (stay_cpu s r)|by eapply keep_threads_upd]).
Qed.

Lemma interrupt_thread_safe t s : good s -> is_Some (threads s !! t) -> safe (interrupt_thread t s) s.
Proof.
  intros Hg [r Hr]. destruct (good_thread s t r Hg Hr) as (_ & Hok & Hca & Hrun). unfold interrupt_thread. first_get Hr.
  destruct (Z.eqb_spec (t_state r) THREAD_STATE_WAITING) as [Hst|Hst]; cbn [negb]; [|by split; [|apply keep_threads_refl]].
  destruct (_ =? _); [by split; [|apply keep_threads_refl]|]. first_upd Hr.
  assert (Hne : t <> current s) by (intros E; destruct (Hrun E) as [E' _]; by rewrite Hst in E'). apply safe_ret.
  set (r' := set_t_flags _ r). apply (safe_from _ s _ (keep_threads_upd s t r r' Hr)), (mark_good _ t r').
  - apply (other_upd s t r); try done. by apply Hca.
  - cbn [threads set_threads]. by rewrite lookup_insert_eq.
  - done.
  - done.
Qed.

Lemma yield_safe s : good s -> safe (yield dpc s) s.
Proof.
  intros Hg. pose proof Hg as (_ & _ & r & Hr & Hst & Hlo & Hhi). destruct (good_thread s _ r Hg Hr) as (_ & Hok & _).
  unfold yield. getst. first_upd Hr. eapply panics_or_bind; [by apply (mark_current s r)|].
  intros _ s' [Hs' Hk]. by apply dispatch_safe.
Qed.

Lemma preempt_thread_safe s : good s -> safe (preempt_thread dpc s) s.
Proof.
  intros Hg. pose proof Hg as ([Q I] & Hc & r & Hr & Hst & Hlo & Hhi). destruct (good_thread s _ r Hg Hr) as (_ & [Hok Hokb] & _).
  unfold preempt_thread. getst. cbv zeta. first_get Hr. first_upd Hr.
  set (w := if quantum r <=? 0 then if base_priority r <? priority r then priority r - 1 else priority r else priority r).
  set (q := if quantum r <=? 0 then DEFAULT_QUANTUM else quantum r). set (r0 := set_preempts _ r).
  assert (E : (if quantum r <=? 0 then upd_th (current s) (set_quantum DEFAULT_QUANTUM) ;;;
      (if base_priority r <? priority r then upd_th (current s) (set_priority (priority r - 1)) else kret tt) else kret tt)
      (set_threads (<[current s := r0]> (threads s)) s) =
    Done (tt, set_threads (<[current s := set_priority w (set_quantum q r0)]> (threads s)) s)).
  { unfold w, q. destruct (quantum r <=? 0); [|by destruct r]. again. destruct (base_priority r <? priority r); [apply upd_again|by destruct r]. }
  rewrite (kbind_done _ _ _ _ _ E). again. set (r1 := set_t_state _ _).
  assert (Hw : 0 <= w < 32).
  { unfold w. destruct (quantum r <=? 0); [|done]. destruct (Z.ltb_spec (base_priority r) (priority r)); lia. }
  assert (I1 : sinv (current s) Q (set_threads (<[current s := r1]> (threads s)) s)).
  { apply (sinv_upd (current s) Q s (current s) r); [|done..]. apply (sinv_loosen Q s _ r); [done..|]. by rewrite Hst. }
  destruct (insert_ready_tail_run Q _ (current s) r1 I1) as (s2 & E2 & I2 & Hre & Hcu & _); [apply lookup_insert_eq|done|].
  rewrite (kbind_done _ _ _ _ _ E2). apply dispatch_safe.
  - split; [by eexists|]. apply (calm_step (current s) 0 s s2 (current s) Hc); [by right; left| |].
    + intros a Ha. rewrite Hre. cbn [threads set_threads]. by rewrite lookup_insert_ne.
    + intros _ r2 Hr2. destruct (relinked_lookup _ _ _ _ Hre Hr2) as (r3 & Hr3 & Hu). cbn [threads set_threads] in Hr3.
      rewrite lookup_insert_eq in Hr3. injection Hr3 as <-. by apply (calm_unlinked r1).
  - apply (keep_threads_trans s (set_threads (<[current s := r1]> (threads s)) s)); [by eapply keep_threads_upd|by apply keep_threads_relinked].
Qed.

Lemma resume_thread_safe t s : good s -> is_Some (threads s !! t) -> safe (resume_thread t s) s.
Proof.
  intros Hg [r Hr]. destruct (good_thread s t r Hg Hr) as (_ & Hok & Hca & Hrun). unfold resume_thread. first_get Hr. cbv zeta.
  apply safe_ret. destruct (Z.ltb_spec 0 (suspend_count r)) as [Hpos|]; [|by split; [|apply keep_threads_refl]].
  assert (Hne : t <> current s) by (intros E; destruct (Hrun E); lia).
  assert (Hst : t_state r <> THREAD_STATE_READY) by (intros E; destruct (Hca Hne) as [H _]; specialize (H E); lia).
  first_upd Hr. set (r' := set_suspend_count _ r). apply (safe_from _ s _ (keep_threads_upd s t r r' Hr)).
  assert (Hg' : good (set_threads (<[t := r']> (threads s)) s)).
  { apply (other_upd s t r); try done. split; [done|]. split; [by apply Hca|]. cbn. lia. }
  destruct (_ =? 0); [|by split; [|apply keep_threads_refl]]. destruct (_ || _); [|by split; [|apply keep_threads_refl]].
  apply (mark_good _ t r'); try done. cbn [threads set_threads]. by rewrite lookup_insert_eq.
Qed.

(** The ready thread [t] leaves its queue; its block may then be replaced. *)
Lemma unready_run Q s t r :
  sinv 0 Q s -> threads s !! t = Some r -> t_state r = THREAD_STATE_READY ->
  exists s' r1, remove_from_ready_queue t s = Done (tt, s') /\ threads s' !! t = Some r1 /\ unlinked r1 = unlinked r /\
    only_thread t s s' /\
    forall r2, prev_ready r2 = prev_ready r1 -> next_ready r2 = next_ready r1 -> thread_ok r2 -> t_state r2 <> THREAD_STATE_READY ->
      exists Q', sinv 0 Q' (set_threads (<[t := r2]> (threads s')) s').
Proof.
  intros I Hr Hst. destruct (remove_run Q s t r I Hr Hst) as (l & s' & E & _ & I' & Hre & Hc & _).
  destruct (relinked_some _ _ _ _ Hre Hr) as (r1 & Hr1 & Hu). exists s', r1. split; [done|]. split; [done|]. split; [done|].
  split; [by apply only_thread_relinked|]. intros r2 Hpv Hnx Hok Hst2. eexists. apply (sinv_tighten _ _ t r2); [|apply lookup_insert_eq|done].
  by apply (sinv_upd t _ s' t r1).
Qed.

Lemma suspend_thread_safe t s : good s -> is_Some (threads s !! t) -> safe (suspend_thread dpc t s) s.
Proof.
  intros Hg [r Hr]. destruct (good_thread s t r Hg Hr) as (_ & Hok & Hca & Hrun). unfold suspend_thread. first_get Hr. cbv zeta.
  first_upd Hr. apply safe_ret. set (r' := set_suspend_count _ r). destruct (s32_bounds (suspend_count r + 1)) as [[Hrg _] _].
  destruct (decide (t = current s)) as [->|Hne].
  - destruct (Hrun eq_refl) as (Hst & Hlo & Hhi). destruct (Z.eqb_spec (suspend_count r) 0) as [E0|E0].
    + rewrite Hst. cbn [Z.eqb Pos.eqb THREAD_STATE_RUNNING THREAD_STATE_READY]. again.
      apply dispatch_safe; [|by eapply keep_threads_upd]. by apply (leave_cpu s r).
    + split; [|by eapply keep_threads_upd]. apply (stay_cpu s r); try done. cbn [suspend_count set_suspend_count r']. rewrite s32_range by lia. lia.
  - destruct (Hca Hne) as (Hsu & Hnr & Hlo). destruct (Z.eqb_spec (suspend_count r) 0) as [E0|E0].
    + destruct (Z.eqb_spec (t_state r) THREAD_STATE_READY) as [Hst|Hst].
      * pose proof Hg as ([Q I] & _). assert (I1 : sinv 0 Q (set_threads (<[t := r']> (threads s)) s)) by by apply (sinv_upd 0 Q s t r).
        destruct (unready_run _ _ t r' I1) as (s2 & r2 & E2 & Hr2 & Hu & Ho & HQ); [apply lookup_insert_eq|done|].
        destruct (unlinked_fields _ _ Hu) as (_ & Hp & Hb & Hc & _). rewrite (kbind_done _ _ _ _ _ E2), (upd_th_run _ _ _ _ Hr2).
        assert (Ho' : only_thread t s (set_threads (<[t := set_t_state THREAD_STATE_SUSPENDED r2]> (threads s2)) s2)).
        { eapply only_thread_trans; [apply only_thread_upd|]. eapply only_thread_trans; [exact Ho|]. apply only_thread_upd. }
        split; [apply (good_only s _ t Hg Hne Ho')|].
        -- apply HQ; try done. destruct Hok as [H1 H2]. by split; cbn; rewrite ?Hp, ?Hb.
        -- intros r3. cbn [threads set_threads]. rewrite lookup_insert_eq. intros [= <-]. split_and!; [done..|]. cbn. by rewrite Hc.
        -- apply (keep_only t _ _ Ho'); [by eexists|]. cbn [threads set_threads]. rewrite lookup_insert_eq. by eexists.
      * destruct (Z.eqb_spec (t_state r) THREAD_STATE_RUNNING) as [|_]; [done|]. split; [|by eapply keep_threads_upd].
        by apply (other_upd s t r).
    + split; [|by eapply keep_threads_upd]. apply (other_upd s t r); try done. split_and!; [|done|done]. intros Hst. specialize (Hsu Hst).
      cbn [suspend_count set_suspend_count r']. rewrite s32_range by lia. lia.
Qed.

Lemma set_thread_priority_safe t prio s : good s -> is_Some (threads s !! t) -> safe (set_thread_priority dpc t prio s) s.
Proof.
  intros Hg [r Hr]. destruct (good_thread s t r Hg Hr) as (_ & Hok & Hca & Hrun). unfold set_thread_priority, THREAD_PRIORITY_LEVELS.
  destruct (Z.ltb_spec prio 0) as [|Hp0]; [by split; [|apply keep_threads_refl]|].
  destruct (Z.leb_spec 32 prio) as [|Hp1]; [by split; [|apply keep_threads_refl]|]. cbn [orb]. first_get Hr.
  destruct (_ =? prio); [by split; [|apply keep_threads_refl]|]. getst. apply safe_ret.
  destruct (Z.eqb_spec t (current s)) as [->|Hne].
  - destruct (Hrun eq_refl) as (Hst & Hlo & Hhi). destruct (prio <? priority r).
    + first_upd Hr. again. eapply panics_or_bind; [by apply (mark_current s r)|]. intros _ s' [Hs' Hk]. by apply dispatch_safe.
    + first_upd Hr. rewrite upd_again. split; [|by eapply keep_threads_upd]. by apply (stay_cpu s r).
  - destruct (Hca Hne) as (Hsu & Hnr & Hlo). destruct (Z.eqb_spec (t_state r) THREAD_STATE_READY) as [Hst|Hst].
    + pose proof Hg as ([Q I] & _). destruct (unready_run _ _ t r I Hr Hst) as (s2 & r2 & E2 & Hr2 & Hu & Ho & HQ).
      destruct (unlinked_fields _ _ Hu) as (_ & _ & _ & Hc & _). rewrite (kbind_done _ _ _ _ _ E2). first_upd Hr2. again.
      set (r3 := set_t_state _ _). assert (Ho' : only_thread t s (set_threads (<[t := r3]> (threads s2)) s2)).
      { eapply only_thread_trans; [exact Ho|]. apply only_thread_upd. }
      apply (safe_from _ s (set_threads (<[t := r3]> (threads s2)) s2)).
      { apply (keep_only t _ _ Ho'); [by eexists|]. cbn [threads set_threads]. rewrite lookup_insert_eq. by eexists. }
      apply (mark_good _ t r3); [|by cbn [threads set_threads]; rewrite lookup_insert_eq|by rewrite (proj1 Ho')|done].
      apply (good_only s _ t Hg Hne Ho'); [by apply HQ|]. intros r4. cbn [threads set_threads]. rewrite lookup_insert_eq. intros [= <-].
      split_and!; [done..|]. cbn. by rewrite Hc.
    + first_upd Hr. rewrite upd_again. split; [|by eapply keep_threads_upd]. by apply (other_upd s t r).
Qed.
End Safe.

(** The operations of the scheduler. *)
Inductive sop :=
| SReady (t charge boost : Z)
| SPreempt
| SWait (reason : Z)
| SAlertableWait (sigs : bool) (reason : Z)
| SAlertableWaitEnd
| SInterrupt (t : Z)
| SYield
| SSuspend (t : Z)
| SResume (t : Z)
| SPriority (t prio : Z).

Definition srun (dpc : K sched unit) (o : sop) : K sched Z :=
  match o with
  | SReady t charge boost => mark_thread_ready t charge boost ;;; kret 0
  | SPreempt => preempt_thread dpc ;;; kret 0
  | SWait reason => enter_wait dpc reason ;;; kret 0
  | SAlertableWait sigs reason => begin_alertable_wait dpc sigs reason
  | SAlertableWaitEnd => end_alertable_wait
  | SInterrupt t => interrupt_thread t
  | SYield => yield dpc ;;; kret 0
  | SSuspend t => suspend_thread dpc t
  | SResume t => resume_thread t
  | SPriority t prio => set_thread_priority dpc t prio
  end.

(** Thread arguments are control blocks; a thread that runs is not made ready
    and priorities are not lowered by a boost. *)
Definition sop_ok (s : sched) (o : sop) : Prop :=
  match o with
  | SReady t charge boost => is_Some (threads s !! t) /\ t <> current s /\ 0 <= boost
  | SInterrupt t | SSuspend t | SResume t | SPriority t _ => is_Some (threads s !! t)
  | _ => True
  end.

Definition sstep (dpc : K sched unit) (s s' : sched) : Prop :=
  exists o v, sop_ok s o /\ srun dpc o s = Done (v, s').

Lemma srun_safe dpc o s : dpcs_ok dpc -> good s -> sop_ok s o -> safe (srun dpc o s) s.
Proof.
  intros Hd Hg. destruct o as [t charge boost| |reason|sigs reason| |t| |t|t|t prio]; cbn [srun sop_ok]; intros Hok.
  - destruct Hok as ([r Hr] & Hne & Hb). apply safe_ret. by apply (mark_good s t r).
  - by apply safe_ret, preempt_thread_safe.
  - by apply safe_ret, enter_wait_safe.
  - by apply begin_alertable_wait_safe.
  - by apply end_alertable_wait_safe.
  - by apply interrupt_thread_safe.
  - by apply safe_ret, yield_safe.
  - by apply suspend_thread_safe.
  - by apply resume_thread_safe.
  - by apply set_thread_priority_safe.
Qed.

Lemma sstep_good dpc s s' : dpcs_ok dpc -> sstep dpc s s' -> good s -> good s' /\ keep_threads s s'.
Proof. intros Hd (o & v & Hok & E) Hg. pose proof (srun_safe dpc o s Hd Hg Hok) as H. unfold safe in H. by rewrite E in H. Qed.

(** ** The deferred calls of the kernel *)

(** [check_dpc_queue] on the queue of the scheduler; a round for each block and
    one more are enough. *)
Definition run_dpcs (call : Z -> Z -> K sched unit) : K sched unit :=
  fun s => check_dpc_queue dpcq set_dpcq call (S (size (dpc_blocks (dpcq s)))) s.

(** Procedures that leave the queue of deferred calls alone and the ready
    queues right. *)
Definition calls_ok (call : Z -> Z -> K sched unit) : Prop :=
  forall p a, ignores_queue set_dpcq (call p a) /\
    forall s, at_rest s -> panics_or (call p a s) (fun _ s' => at_rest s' /\ current s' = current s /\ keep_threads s s').

Lemma sched_has_queue : has_queue dpcq set_dpcq.
Proof. split; [done|]. split; [by intros []|done]. Qed.

Lemma run_calls_ok call l s : calls_ok call -> at_rest s ->
  panics_or (run_calls call l s) (fun _ s' => at_rest s' /\ current s' = current s /\ keep_threads s s').
Proof.
  intros Hc. revert s. induction l as [|[p a] l IH]; intros s Hs; [by split; [|split; [|apply keep_threads_refl]]|].
  cbn [run_calls]. eapply panics_or_bind; [by apply Hc|]. intros _ s1 (Hs1 & Hcu & Hk).
  eapply panics_or_mono; [by apply IH|]. intros _ s2 (Hs2 & Hcu2 & Hk2). split; [done|]. split; [congruence|].
  by apply (keep_threads_trans s s1).
Qed.

Lemma sinv_dpcq x Q s q : sinv x Q s -> dpcs_wf q -> sinv x Q (set_dpcq q s).
Proof. by intros [H1 H2 H3 H4 H5 H6 H7 H8 H9 H10 H11 H12 H13] Hq; split. Qed.

Lemma queue_length l q : dq l q -> (length l <= size (dpc_blocks q))%nat.
Proof.
  intros Q. apply nodup_size; [apply Q|]. intros d Hd. by destruct (dchain_lookup _ _ _ (dq_chain _ _ Q) Hd) as [r ->].
Qed.

Lemma run_dpcs_ok call : calls_ok call -> dpcs_ok (run_dpcs call).
Proof.
  intros Hc s Hs. pose proof Hs as [[Q I] _]. destruct (si_dpcs _ _ _ I) as (l & Hq & Hx & Hi & Ht).
  unfold run_dpcs, check_dpc_queue. rewrite (kbind_done _ _ _ _ _ (on_queue_run dpcq set_dpcq kget _ s _ _ eq_refl eq_refl)).
  destruct sched_has_queue as (_ & Hid & _). rewrite Hid.
  destruct (negb _); [|by split; [|split; [|apply keep_threads_refl]]]. pose proof (queue_length l _ Hq) as Hlen.
  rewrite (dispatch_dpc_queue_run dpcq set_dpcq call sched_has_queue (fun p a => proj1 (Hc p a)) l) by (done || lia).
  pose proof (run_calls_ok call (calls_of (dpcq s) l) s Hc Hs) as H. destruct (run_calls _ _ s) as [[[] s1]| | |]; [|done..].
  cbn [with_queue]. destruct H as ([[Q1 I1] Hsu] & Hcu & Hk). split; [split; [|done]|by split].
  destruct (handled_all_spec l (set_in_dpc 1 (dpcq s))) as (H1 & _ & H3 & _); [by destruct Hq; split|done|].
  exists Q1. apply sinv_dpcq; [done|]. exists []. split; [by destruct H1; split|].
  split; [by intros d r ?%elem_of_nil|]. split; [done|]. cbn [dpc_total set_in_dpc]. rewrite H3. apply u32_range.
Qed.

(** ** Round robin *)

Definition no_dpcs : K sched unit := kret tt.

Definition prio_of (s : sched) (a : Z) : option (Z * Z) := (fun r => (base_priority r, priority r)) <$> threads s !! a.

Lemma prio_of_unlinked s s' a : unlinked <$> threads s' !! a = unlinked <$> threads s !! a -> prio_of s' a = prio_of s a.
Proof.
  unfold prio_of. destruct (threads s' !! a) as [r'|], (threads s !! a) as [r|]; try done. intros H.
  change (Some (unlinked r') = Some (unlinked r)) in H. destruct (unlinked_fields r r' ltac:(congruence)) as (_ & Hp & Hb & _).
  cbn. by rewrite Hp, Hb.
Qed.

(** The threads of [L] share the processor: the first one runs, the others are
    the queue of priority [p], all have this base priority, and no thread of
    higher priority is ready. *)
Record sharing (p : Z) (L : list Z) (s : sched) : Prop := {
  sh_good : good s;
  sh_queue : exists Q, sinv 0 Q s /\ L = current s :: Q p /\ forall p', p < p' < 32 -> Q p' = [];
  sh_prio : forall a, a ∈ L -> prio_of s a = Some (p, p);
}.

Lemma prio_of_some s a r p : threads s !! a = Some r -> prio_of s a = Some (p, p) -> base_priority r = p /\ priority r = p.
Proof. unfold prio_of. intros ->. cbn. by intros [= -> ->]. Qed.

(** The block of a thread that yields. *)
Lemma readied_yield r p : base_priority r = p -> priority r = p ->
  readied 0 0 (set_quantum 0 r) =
    (set_t_state THREAD_STATE_READY (set_priority p (set_quantum DEFAULT_QUANTUM r)), false).
Proof.
  intros <- Hp. unfold readied. cbn [quantum set_quantum base_priority priority]. rewrite Hp.
  change (0 <? s32 (0 - 0)) with false. cbv iota zeta. rewrite Z.add_0_r.
  rewrite (Z.max_l _ (Z.min _ _)) by lia. rewrite Z.ltb_irrefl. by destruct r.
Qed.

Lemma dispatch_sharing p t l Q s :
  0 <= p < 32 -> sinv 0 Q s -> calm_but 0 s -> Q p = t :: l -> (forall p', p < p' < 32 -> Q p' = []) ->
  (forall a, a ∈ t :: l -> prio_of s a = Some (p, p)) ->
  exists s', dispatch no_dpcs s = Done (tt, s') /\ sharing p (t :: l) s'.
Proof.
  intros Hp I Hc Hq Hhi Hpr.
  destruct (dispatch_done no_dpcs Q s (set_preempt 0 s) eq_refl) as [[Hno _]|(p0 & t0 & l0 & s' & Hf & E & Hsw)];
    [by apply sinv_preempt|done|by rewrite (Hno p Hp) in Hq|].
  pose proof Hf as (Hp0 & Hq0 & Hhi0). assert (p0 = p) as ->.
  { destruct (Z.lt_trichotomy p0 p) as [H|[H|H]]; [by rewrite (Hhi0 p) in Hq by lia|done|by rewrite (Hhi p0) in Hq0 by lia]. }
  rewrite Hq in Hq0. injection Hq0 as <- <-. exists s'. split; [done|].
  pose proof Hsw as (I' & Hcu & (r & r' & Hr & Hr' & _ & Hpr' & Hb' & _) & Ho). split.
  - by apply (switched_good Q p t l (set_preempt 0 s) s'); [apply sinv_preempt|..].
  - exists (qput p l Q). split; [done|]. split; [by rewrite qput_eq, Hcu|]. intros p' Hp'. rewrite qput_ne by lia. by apply Hhi.
  - intros a Ha. rewrite <- (Hpr a Ha). destruct (decide (a = t)) as [->|Hne].
    + change (threads (set_preempt 0 s)) with (threads s) in Hr. unfold prio_of. rewrite Hr, Hr'. cbn. by rewrite Hpr', Hb'.
    + apply (prio_of_unlinked (set_preempt 0 s)), Ho, Hne.
Qed.

Lemma yield_sharing p c l s : 0 <= p < 32 -> sharing p (c :: l) s ->
  exists s', yield no_dpcs s = Done (tt, s') /\ sharing p (l ++ [c]) s'.
Proof.
  intros Hp [Hg (Q & I & HL & Hhi) Hpr]. injection HL as -> ->. pose proof Hg as (_ & Hc & r & Hr & Hst & Hlo & Hsc).
  destruct (prio_of_some s _ r p Hr (Hpr _ ltac:(by left))) as [Hb Hpp]. destruct (good_thread s _ r Hg Hr) as (_ & Hok & _).
  unfold yield. getst. first_upd Hr. set (s1 := set_threads _ s).
  assert (I1 : sinv 0 Q s1) by (by apply (sinv_upd 0 Q s (current s) r)).
  destruct (mark_ready_run Q s1 (current s) (set_quantum 0 r) 0 0 I1) as (s2 & E2 & I2 & Ho & r2 & Hr2 & Hu);
    [apply lookup_insert_eq|done|done|by cbn; rewrite Hst|].
  rewrite (kbind_done _ _ _ _ _ E2). rewrite (readied_yield r p Hb Hpp) in I2, Hu. cbn [fst snd] in I2, Hu. unfold enqueue in I2.
  set (Q2 := qput _ _ Q) in I2. change (priority _) with p in (value of Q2).
  assert (Hc2 : calm_but 0 s2).
  { apply (calm_step (current s) 0 s s2 (current s) Hc); [by right; left| |].
    - intros a Ha. rewrite (proj2 Ho) by done. cbn [threads s1 set_threads]. by rewrite lookup_insert_ne.
    - intros _ r3 Hr3. assert (r3 = r2) as -> by congruence. by apply (calm_unlinked _ _ Hu). }
  assert (Hp2 : forall a, a ∈ current s :: Q p -> prio_of s2 a = Some (p, p)).
  { intros a Ha. destruct (decide (a = current s)) as [->|Hne].
    - unfold prio_of. rewrite Hr2. destruct (unlinked_fields _ _ Hu) as (_ & Hp2 & Hb2 & _). cbn. rewrite Hp2, Hb2. cbn. by rewrite Hb.
    - rewrite <- (Hpr a Ha). apply prio_of_unlinked. rewrite (proj2 Ho) by done. cbn [threads s1 set_threads]. by rewrite lookup_insert_ne. }
  assert (HQ2 : Q2 p = Q p ++ [current s]) by (unfold Q2; apply qput_eq).
  destruct (Q p ++ [current s]) as [|t l] eqn:El; [by destruct (Q p)|].
  apply (dispatch_sharing p t l Q2 s2); [done..| |].
  - intros p' Hp'. unfold Q2. rewrite qput_ne by lia. by apply Hhi.
  - intros a Ha. apply Hp2. rewrite <- El in Ha. set_solver.
Qed.

(** [L'] is [L] rotated by [k] places. *)
Definition rotated (k : nat) (L L' : list Z) : Prop :=
  length L' = length L /\ forall i, (i < length L)%nat -> L' !! i = L !! ((i + k) mod length L)%nat.

Lemma rotated_refl L : rotated 0 L L.
Proof. split; [done|]. intros i Hi. by rewrite Nat.add_0_r, Nat.mod_small. Qed.

Lemma rotated_step k L c l : rotated k L (c :: l) -> rotated (S k) L (l ++ [c]).
Proof.
  intros [Hl Hi]. cbn in Hl. split; [rewrite length_app; cbn; lia|]. intros i Hlt. destruct (decide (i < length l)%nat) as [H|H].
  - rewrite lookup_app_l by done. rewrite Nat.add_succ_r. apply (Hi (S i)). lia.
  - assert (i = length l) as -> by lia. rewrite list_lookup_middle by done. change (Some c) with ((c :: l) !! 0%nat).
    rewrite Hi by lia. f_equal. rewrite Nat.add_0_l. replace (length l + S k)%nat with (k + 1 * length L)%nat by lia.
    symmetry. apply Nat.Div0.mod_add.
Qed.

Fixpoint yields (n : nat) : K sched unit :=
  match n with
  | O => kret tt
  | S n' => yields n' ;;; yield no_dpcs
  end.

Lemma yields_sharing p L s k : 0 <= p < 32 -> L <> [] -> sharing p L s ->
  exists s' L', yields k s = Done (tt, s') /\ sharing p L' s' /\ rotated k L L'.
Proof.
  intros Hp Hne Hs. induction k as [|k IH]; [exists s, L; split; [done|]; split; [done|apply rotated_refl]|].
  destruct IH as (s1 & L1 & E & Hs1 & Hro). pose proof Hs1 as [_ (Q & _ & HL & _) _].
  destruct L1 as [|c l]; [done|]. destruct (yield_sharing p c l s1 Hp Hs1) as (s2 & E2 & Hs2).
  exists s2, (l ++ [c]). cbn [yields]. rewrite (kbind_done _ _ _ _ _ E). split; [done|]. split; [done|by apply rotated_step].
Qed.

(** C23: Round robin. Let the current thread and the threads [l] of its queue
    have the same base priority, with no ready thread above them and no
    deferred calls. Then any number [k] of calls of [yield] succeeds, and the
    processor goes round: after [k] calls the thread at place [k] modulo the
    number of these threads runs, so that each of them runs again and again. *)
Theorem round_robin p l s k :
  0 <= p < 32 -> sharing p (current s :: l) s ->
  exists s', yields k s = Done (tt, s') /\ (current s :: l) !! (k mod S (length l))%nat = Some (current s').
Proof.
  intros Hp Hs. destruct (yields_sharing p (current s :: l) s k Hp ltac:(done) Hs) as (s' & L' & E & [_ (Q & _ & -> & _) _] & _ & Hi).
  exists s'. split; [done|]. symmetry. apply (Hi 0%nat). cbn. lia.
Qed.

(** C22: [dispatch] runs a thread of the highest priority. The deferred calls
    have led to [s1] with the queues [Q] and at least one ready thread. Then
    [dispatch] succeeds, the thread that runs now was the first of its queue,
    no ready thread had a higher priority, the queue has lost this thread and
    no other one, and all other control blocks are as they were but for the
    links of the queues. *)
Theorem dispatch_picks_highest dpc s s1 Q t0 r0 :
  dpc (set_preempt 0 s) = Done (tt, s1) -> current s1 = current s -> sinv 0 Q s1 ->
  threads s1 !! t0 = Some r0 -> t_state r0 = THREAD_STATE_READY ->
  exists s' t l r r', dispatch dpc s = Done (tt, s') /\ current s' = t /\ threads s1 !! t = Some r /\
    t_state r = THREAD_STATE_READY /\ Q (priority r) = t :: l /\
    (forall a ra, threads s1 !! a = Some ra -> t_state ra = THREAD_STATE_READY -> priority ra <= priority r) /\
    threads s' !! t = Some r' /\ t_state r' = THREAD_STATE_RUNNING /\ priority r' = priority r /\
    sinv 0 (qput (priority r) l Q) s' /\
    forall a, a <> t -> unlinked <$> threads s' !! a = unlinked <$> threads s1 !! a.
Proof.
  intros E Hc I Hr0 Hst0. assert (Hq : forall a ra, threads s1 !! a = Some ra -> t_state ra = THREAD_STATE_READY ->
    0 <= priority ra < 32 /\ a ∈ Q (priority ra)).
  { intros a ra Ha Hs. destruct (si_thread _ _ _ I a ra Ha) as (H0 & Hp & _). split; [done|]. by apply (si_mem _ _ _ I a ra). }
  destruct (dispatch_done dpc Q s s1 E I Hc) as [[Hno _]|(p & t & l & s' & (Hp & Hqp & Hhi) & Ed & I' & Hcu & (r & r' & Hr & Hr' & Hst & Hpr & _) & Ho)].
  { destruct (Hq t0 r0 Hr0 Hst0) as [Hp0 Hin]. rewrite (Hno _ Hp0) in Hin. by apply elem_of_nil in Hin. }
  assert (Hmem : t_state r = THREAD_STATE_READY /\ priority r = p).
  { apply (si_mem _ _ _ I t r p Hr); [by apply (si_thread _ _ _ I t r)|done|]. rewrite Hqp. by left. }
  destruct Hmem as [Hs <-]. exists s', t, l, r, r'. do 5 (split; [done|]). split; [|done]. intros a ra Ha Hsa.
  destruct (Hq a ra Ha Hsa) as [Hpa Hin]. destruct (Z.le_gt_cases (priority ra) (priority r)) as [|Hgt]; [done|].
  rewrite (Hhi (priority ra)) in Hin by lia. by apply elem_of_nil in Hin.
Qed.

(** C13: Safety of the scheduler. Start with queues that hold exactly the ready
    threads, each once, in the queue of its priority, linked in both
    directions, with the right heads, tails and summary. After any sequence of
    operations - making threads ready, preemption, waits, interrupts, yields,
    suspending and resuming, changes of priority - the queues are right again,
    exactly the current thread is in the running state, a ready thread is not
    suspended, no thread is lost; and the next operation leads to such a state
    as well or stops with one of the two panics of the scheduler: it never
    follows a bad pointer. *)
Theorem ready_queues_safe call s s' :
  calls_ok call -> good s -> rtc (sstep (run_dpcs call)) s s' ->
  (exists Q, sinv 0 Q s') /\
  (forall t r, threads s' !! t = Some r -> (t_state r = THREAD_STATE_RUNNING <-> t = current s') /\
     (t_state r = THREAD_STATE_READY -> suspend_count r <= 0)) /\
  keep_threads s s' /\
  forall o, sop_ok s' o -> panics_or (srun (run_dpcs call) o s') (fun _ s'' => good s'').
Proof.
  intros Hd%run_dpcs_ok Hg Hst. assert (H : good s' /\ keep_threads s s').
  { induction Hst as [s|s s1 s' H1 H2 IH]; [by split; [|apply keep_threads_refl]|].
    destruct (sstep_good _ s s1 Hd H1 Hg) as [Hg1 Hk1]. destruct (IH Hg1) as [Hg' Hk']. split; [done|].
    by apply (keep_threads_trans s s1). }
  destruct H as [Hg' Hk]. split; [apply Hg'|]. split; [|split; [done|]].
  - intros t r Hr. destruct (good_thread s' t r Hg' Hr) as (_ & _ & Hca & Hrun). destruct (decide (t = current s')) as [E|Hne].
    + destruct (Hrun E) as (Hs & _ & Hc). by split.
    + destruct (Hca Hne) as (H1 & H2 & _). by split; [split|].
  - intros o Hok. eapply panics_or_mono; [by apply (srun_safe _ o s')|]. by intros _ s'' [? _].
Qed.

(** ** A scheduler with three threads, two of them ready *)

Definition demo_thread (st nxt prv : Z) : thread := Thread st 36 0 0 8 8 0 0 0 nxt prv.

Definition demo : sched :=
  Sched (<[1 := demo_thread THREAD_STATE_RUNNING 0 0]> (<[2 := demo_thread THREAD_STATE_READY 3 0]>
          {[3 := demo_thread THREAD_STATE_READY 0 2]}))
    (<[8%nat := 2]> (replicate 32 0)) (<[8%nat := 3]> (replicate 32 0)) 256 0 1 (Dpcs ∅ 0 0 0 0 0).

Definition demo_queues (p : Z) : list Z := if decide (p = 8) then [2; 3] else [].

Lemma demo_cases t r : threads demo !! t = Some r ->
  (t = 1 /\ r = demo_thread THREAD_STATE_RUNNING 0 0) \/ (t = 2 /\ r = demo_thread THREAD_STATE_READY 3 0) \/
  (t = 3 /\ r = demo_thread THREAD_STATE_READY 0 2).
Proof.
  cbn [threads demo]. intros [[<- <-]|[_ [[<- <-]|[_ [<- <-]%lookup_singleton_Some]]%lookup_insert_Some]]%lookup_insert_Some; auto.
Qed.

Lemma demo_slot v p : 0 <= p < 32 ->
  <[8%nat := v]> (replicate 32 0) !! Z.to_nat p = Some (if decide (p = 8) then v else 0).
Proof.
  intros Hp. destruct (decide (p = 8)) as [->|Hne]; [done|].
  rewrite list_lookup_insert_ne by lia. rewrite lookup_replicate. split; [done|lia].
Qed.

Lemma demo_sinv : sinv 0 demo_queues demo.
Proof.
  split; unfold demo_queues.
  - done.
  - done.
  - intros p Hp. cbn [ready_queue_head demo]. rewrite demo_slot by done. by destruct (decide (p = 8)).
  - intros p Hp. cbn [ready_queue_tail demo]. rewrite demo_slot by done. by destruct (decide (p = 8)).
  - intros p _. destruct (decide (p = 8)); [|done]. split; [eexists; split_and!; vm_compute; reflexivity|].
    split; [eexists; split_and!; vm_compute; reflexivity|done].
  - intros p _. destruct (decide (p = 8)); [|apply NoDup_nil_2]. apply NoDup_cons. split; [set_solver|]. apply NoDup_singleton.
  - intros t r p Hr _ _. destruct (demo_cases t r Hr) as [[-> ->]|[[-> ->]|[-> ->]]]; destruct (decide (p = 8)) as [->|];
      cbn; split; try set_solver; intros [H1 H2]; congruence || set_solver.
  - intros p _. destruct (decide (p = 8)); set_solver.
  - intros p Hp. cbn [thread_ready_summary demo]. change 256 with (2 ^ 8). rewrite Z.pow2_bits_eqb by done.
    destruct (Z.eqb_spec 8 p) as [<-|Hne]; [done|]. rewrite decide_False by done. by split.
  - done.
  - intros t r Hr. destruct (demo_cases t r Hr) as [[-> ->]|[[-> ->]|[-> ->]]]; cbn; lia.
  - by eexists.
  - exists []. split; [|split; [|done]].
    + split; try done. apply NoDup_nil_2.
    + by intros d r ?%elem_of_nil.
Qed.

Lemma demo_good : good demo.
Proof.
  split; [exists demo_queues; apply demo_sinv|]. split.
  - intros a r Hne Hr. destruct (demo_cases a r Hr) as [[-> ->]|[[-> ->]|[-> ->]]]; [done|..]; by split_and!.
  - eexists. split; [reflexivity|]. split; [reflexivity|]. split; done.
Qed.

Lemma no_dpcs_ok : dpcs_ok no_dpcs.
Proof. intros s Hs. split; [done|]. split; [done|apply keep_threads_refl]. Qed.

Lemma demo_sharing : sharing 8 [1; 2; 3] demo.
Proof.
  split; [apply demo_good| |].
  - exists demo_queues. split; [apply demo_sinv|]. split; [reflexivity|]. intros p' Hp'. unfold demo_queues. by rewrite decide_False by lia.
  - intros a Ha. rewrite !elem_of_cons in Ha. destruct Ha as [->|[->|[->|Ha]]]; [vm_compute; reflexivity..|]. by apply elem_of_nil in Ha.
Qed.

Lemma round_robin_witness :
  exists s', yields 5 demo = Done (tt, s') /\ [1; 2; 3] !! (5 mod 3)%nat = Some (current s').
Proof. apply (round_robin 8 [2; 3] demo 5); [lia|apply demo_sharing]. Defined.

Lemma dispatch_picks_highest_witness :
  exists s' t l r r', dispatch no_dpcs demo = Done (tt, s') /\ current s' = t /\ threads (set_preempt 0 demo) !! t = Some r /\
    t_state r = THREAD_STATE_READY /\ demo_queues (priority r) = t :: l /\
    (forall a ra, threads (set_preempt 0 demo) !! a = Some ra -> t_state ra = THREAD_STATE_READY -> priority ra <= priority r) /\
    threads s' !! t = Some r' /\ t_state r' = THREAD_STATE_RUNNING /\ priority r' = priority r /\
    sinv 0 (qput (priority r) l demo_queues) s' /\
    forall a, a <> t -> unlinked <$> threads s' !! a = unlinked <$> threads (set_preempt 0 demo) !! a.
Proof.
  apply (dispatch_picks_highest no_dpcs demo (set_preempt 0 demo) demo_queues 2 (demo_thread THREAD_STATE_READY 3 0));
    [reflexivity|reflexivity|apply sinv_preempt, demo_sinv|vm_compute; reflexivity|reflexivity].
Defined.

(** A deferred call that wakes the thread at [a], as the drivers' calls do. *)
Definition wake (p a : Z) : K sched unit :=
  let* s := kget in
  if decide (is_Some (threads s !! a)) then mark_thread_ready a 0 0 else kret tt.

(** Code that does not look at the queue of deferred calls. *)
Definition blind {A} (m : K sched A) : Prop := forall q s,
  m (set_dpcq q s) = match m s with
                     | Done (a, s') => Done (a, set_dpcq q s')
                     | Panic msg => Panic msg
                     | Fault => Fault
                     | Hang => Hang
                     end.

Lemma blind_ret {A} (a : A) : blind (kret a).
Proof. done. Qed.

Lemma blind_bind {A B} (m : K sched A) (f : A -> K sched B) : blind m -> (forall a, blind (f a)) -> blind (kbind m f).
Proof. intros Hm Hf q s. unfold kbind. rewrite Hm. destruct (m s) as [[a s']| | |]; [apply Hf|done..]. Qed.

Lemma blind_get {A} (f : sched -> K sched A) :
  (forall q s, f (set_dpcq q s) = f s) -> (forall s, blind (f s)) -> blind (kbind kget f).
Proof. intros H Hf q s. unfold kbind, kget. rewrite H. apply Hf. Qed.

Lemma blind_opt {A} (o : option A) : blind (kopt o).
Proof. by destruct o. Qed.

Lemma blind_mod f : (forall q s, f (set_dpcq q s) = set_dpcq q (f s)) -> blind (kmod f).
Proof. intros H q s. unfold kmod. by rewrite H. Qed.

Lemma blind_if {A} (b : bool) (m m' : K sched A) : blind m -> blind m' -> blind (if b then m else m').
Proof. by destruct b. Qed.

Create HintDb blind.
#[local] Hint Resolve blind_ret blind_bind blind_get blind_opt blind_mod blind_if : blind.
Ltac blindly := repeat first [solve [auto with blind] | match goal with |- forall _, _ => intro end | reflexivity | apply blind_get | apply blind_bind | apply blind_if | apply blind_mod].

Lemma blind_get_th t : blind (get_th t).
Proof. unfold get_th. blindly. Qed.

Lemma blind_upd_th t f : blind (upd_th t f).
Proof. unfold upd_th. apply blind_bind; [apply blind_get_th|]. blindly. Qed.

Lemma blind_index p : blind (qindex p).
Proof. unfold qindex. by destruct (_ && _). Qed.

#[local] Hint Resolve blind_get_th blind_upd_th blind_index : blind.

Lemma blind_heads p v : blind (get_head p) /\ blind (get_tail p) /\ blind (put_head p v) /\ blind (put_tail p v) /\ blind (set_ready_bit p).
Proof. unfold get_head, get_tail, put_head, put_tail, set_ready_bit. split_and!; blindly. Qed.

Lemma blind_insert t : blind (insert_ready_head t) /\ blind (insert_ready_tail t).
Proof.
  unfold insert_ready_head, insert_ready_tail. split; (apply blind_bind; [auto with blind|]; intros r);
    (apply blind_bind; [apply (blind_heads _ 0)|]; intros h; apply blind_if; repeat (apply blind_bind; [|intros _]); auto with blind;
     apply (blind_heads _ t)).
Qed.

Lemma blind_mark t charge boost : blind (mark_thread_ready t charge boost).
Proof.
  unfold mark_thread_ready. apply blind_bind; [auto with blind|]. intros r. apply blind_if; [auto with blind|]. apply blind_if; [done|].
  apply blind_bind; [auto with blind|]. intros _. cbv zeta. apply blind_bind; [auto with blind|]. intros _. apply blind_if; [done|].
  apply blind_bind; [auto with blind|]. intros _. apply blind_bind; [auto with blind|]. intros r'. apply blind_bind.
  - apply blind_if; [apply blind_insert|]. apply blind_bind; [auto with blind|]. intros _. apply blind_bind; [auto with blind|].
    intros _. apply blind_insert.
  - blindly.
Qed.

Lemma wake_ok : calls_ok wake.
Proof.
  intros p a. split.
  - intros q s. unfold wake, kbind, kget. change (threads (set_dpcq q s)) with (threads s).
    destruct (decide _); [|done]. rewrite blind_mark. by destruct (mark_thread_ready _ _ _ s) as [[]| | |].
  - intros s Hs. unfold wake. getst. destruct (decide (is_Some (threads s !! a))) as [[r Hr]|];
      [|by split; [|split; [|apply keep_threads_refl]]].
    pose proof Hs as [[Q I] Hc]. assert (Ha : a <> 0) by (intros ->; by rewrite (no_null_thread _ _ _ I) in Hr).
    destruct (Hc a r Ha Hr) as (H1 & _ & H3). eapply panics_or_mono; [by apply (mark_safe Q s a r)|].
    intros _ s' (HQ & Ho & r' & Hr' & Hc'). split; [split; [done|]|split; [apply Ho|by apply (keep_only a)]].
    apply (calm_step 0 0 s s' a Hc); [by left|apply Ho|]. intros _ r1 Hr1. by assert (r1 = r') as -> by congruence.
Qed.

Lemma ready_queues_safe_witness : exists s', sstep (run_dpcs wake) demo s' /\ (exists Q, sinv 0 Q s') /\ keep_threads demo s'.
Proof.
  destruct (srun (run_dpcs wake) SYield demo) as [[v s']| | |] eqn:E; [|vm_compute in E; discriminate..].
  assert (Hs : sstep (run_dpcs wake) demo s') by (exists SYield, v; by split).
  destruct (ready_queues_safe wake demo s' wake_ok demo_good (rtc_once _ _ Hs)) as (HQ & _ & Hk & _).
  exists s'. exact (conj Hs (conj HQ Hk)).
Defined.
