(* ===== verification/Object.v ===== *)
(** * Waiting for objects (sys/krnl/object.c)

    Threads wait for threads, events, timers, mutexes, semaphores and others.
    All of them start with a [struct object], which says whether the object is
    signaled and heads a doubly linked list of wait blocks; the wait blocks of
    one thread are linked as well, since a thread can wait for several objects.
    A wait block lives on the kernel stack of the waiting thread, its address is
    an argument of the operations.

    A wait is two operations: what happens up to the call of [enter_wait], and
    what the thread does when it runs again.  The scheduler is the one of
    Sched.v, the timers of timed waits are those of Timer.v. *)

From S2P Require Import Prelude Timer Dlist Dpc Sched.

Definition MAX_WAIT_OBJECTS : Z := 16.
Definition WAIT_ALL : Z := 0.
Definition WAIT_ANY : Z := 1.

Definition OBJECT_THREAD : Z := 0.
Definition OBJECT_EVENT : Z := 1.
Definition OBJECT_TIMER : Z := 2.
Definition OBJECT_MUTEX : Z := 3.
Definition OBJECT_SEMAPHORE : Z := 4.
Definition OBJECT_FILE : Z := 5.
Definition OBJECT_SOCKET : Z := 6.
Definition OBJECT_IOMUX : Z := 7.
Definition OBJECT_FILEMAP : Z := 8.

Definition THREAD_WAIT_OBJECT : Z := 0.
Definition INFINITE : Z := 4294967295.
Definition MSECS_PER_TICK : Z := 10.
Definition EBADF : Z := 9.
Definition ETIMEOUT : Z := 70.

(** A [struct object] with the fields of [struct event] ([manual_reset]),
    [struct sem] ([count]), [struct mutex] ([owner], [recursion]) and [struct
    thread] ([exitcode]); an object has those of its type. *)
Record kobject := KObject {
  o_type : Z;
  signaled : Z;
  waitlist_head : Z;
  waitlist_tail : Z;
  manual_reset : Z;
  count : Z;
  owner : Z;
  recursion : Z;
  exitcode : Z;
}.

Definition set_signaled (v : Z) (o : kobject) : kobject :=
  KObject (o_type o) v (waitlist_head o) (waitlist_tail o) (manual_reset o) (count o) (owner o) (recursion o) (exitcode o).
Definition set_waitlist_head (v : Z) (o : kobject) : kobject :=
  KObject (o_type o) (signaled o) v (waitlist_tail o) (manual_reset o) (count o) (owner o) (recursion o) (exitcode o).
Definition set_waitlist_tail (v : Z) (o : kobject) : kobject :=
  KObject (o_type o) (signaled o) (waitlist_head o) v (manual_reset o) (count o) (owner o) (recursion o) (exitcode o).
Definition set_manual_reset (v : Z) (o : kobject) : kobject :=
  KObject (o_type o) (signaled o) (waitlist_head o) (waitlist_tail o) v (count o) (owner o) (recursion o) (exitcode o).
Definition set_count (v : Z) (o : kobject) : kobject :=
  KObject (o_type o) (signaled o) (waitlist_head o) (waitlist_tail o) (manual_reset o) v (owner o) (recursion o) (exitcode o).
Definition set_owner (v : Z) (o : kobject) : kobject :=
  KObject (o_type o) (signaled o) (waitlist_head o) (waitlist_tail o) (manual_reset o) (count o) v (recursion o) (exitcode o).
Definition set_recursion (v : Z) (o : kobject) : kobject :=
  KObject (o_type o) (signaled o) (waitlist_head o) (waitlist_tail o) (manual_reset o) (count o) (owner o) v (exitcode o).

(** struct waitblock *)
Record waitblock := WaitBlock {
  wb_thread : Z;
  wb_object : Z;
  waittype : Z;
  wb_waitkey : Z;
  wb_next : Z;
  next_wait : Z;
  prev_wait : Z;
}.

Definition set_wb_object (v : Z) (w : waitblock) : waitblock :=
  WaitBlock (wb_thread w) v (waittype w) (wb_waitkey w) (wb_next w) (next_wait w) (prev_wait w).
Definition set_wb_next (v : Z) (w : waitblock) : waitblock :=
  WaitBlock (wb_thread w) (wb_object w) (waittype w) (wb_waitkey w) v (next_wait w) (prev_wait w).
Definition set_next_wait (v : Z) (w : waitblock) : waitblock :=
  WaitBlock (wb_thread w) (wb_object w) (waittype w) (wb_waitkey w) (wb_next w) v (prev_wait w).
Definition set_prev_wait (v : Z) (w : waitblock) : waitblock :=
  WaitBlock (wb_thread w) (wb_object w) (waittype w) (wb_waitkey w) (wb_next w) (next_wait w) v.

(** The fields [waitlist] and [waitkey] of [struct thread]. *)
Record twait := TWait { waitlist : Z; waitkey : Z }.
Definition set_waitlist (v : Z) (w : twait) : twait := TWait v (waitkey w).
Definition set_waitkey (v : Z) (w : twait) : twait := TWait (waitlist w) v.

Record kernel := Kernel {
  k_sched : sched;
  objects : gmap Z kobject;
  waitblocks : gmap Z waitblock;
  waits : gmap Z twait;
  k_wheel : twheel;
}.

Definition set_sched (v : sched) (k : kernel) : kernel := Kernel v (objects k) (waitblocks k) (waits k) (k_wheel k).
Definition set_objects (v : gmap Z kobject) (k : kernel) : kernel := Kernel (k_sched k) v (waitblocks k) (waits k) (k_wheel k).
Definition set_waitblocks (v : gmap Z waitblock) (k : kernel) : kernel := Kernel (k_sched k) (objects k) v (waits k) (k_wheel k).
Definition set_waits (v : gmap Z twait) (k : kernel) : kernel := Kernel (k_sched k) (objects k) (waitblocks k) v (k_wheel k).
Definition set_wheel (v : twheel) (k : kernel) : kernel := Kernel (k_sched k) (objects k) (waitblocks k) (waits k) v.

Local Open Scope k_scope.

Definition on_sched {A} (m : K sched A) : K kernel A := kzoom k_sched set_sched m.
Definition on_wheel {A} (m : K twheel A) : K kernel A := kzoom k_wheel set_wheel m.
Definition self : K kernel Z := let* k := kget in kret (current (k_sched k)).

Definition get_obj (o : Z) : K kernel kobject := let* k := kget in kopt (objects k !! o).
Definition upd_obj (o : Z) (f : kobject -> kobject) : K kernel unit :=
  let* r := get_obj o in kmod (fun k => set_objects (<[o := f r]> (objects k)) k).
Definition get_wb (w : Z) : K kernel waitblock := let* k := kget in kopt (waitblocks k !! w).
Definition upd_wb (w : Z) (f : waitblock -> waitblock) : K kernel unit :=
  let* r := get_wb w in kmod (fun k => set_waitblocks (<[w := f r]> (waitblocks k)) k).
Definition get_wait (t : Z) : K kernel twait := let* k := kget in kopt (waits k !! t).
Definition upd_wait (t : Z) (f : twait -> twait) : K kernel unit :=
  let* r := get_wait t in kmod (fun k => set_waits (<[t := f r]> (waits k)) k).

(** As many rounds as there are wait blocks, and one more. *)
Definition rounds (k : kernel) : nat := S (size (waitblocks k)).

(** ** Wait lists *)

Definition insert_in_waitlist (obj wb : Z) : K kernel unit :=
  upd_wb wb (set_next_wait 0) ;;;
  let* o := get_obj obj in
  upd_wb wb (set_prev_wait (waitlist_tail o)) ;;;
  (if negb (waitlist_tail o =? 0) then upd_wb (waitlist_tail o) (set_next_wait wb) else kret tt) ;;;
  upd_obj obj (set_waitlist_tail wb) ;;;
  let* o := get_obj obj in
  if waitlist_head o =? 0 then upd_obj obj (set_waitlist_head wb) else kret tt.

Definition remove_from_waitlist (wb : Z) : K kernel unit :=
  let* r := get_wb wb in
  (if negb (next_wait r =? 0) then upd_wb (next_wait r) (set_prev_wait (prev_wait r)) else kret tt) ;;;
  let* r := get_wb wb in
  (if negb (prev_wait r =? 0) then upd_wb (prev_wait r) (set_next_wait (next_wait r)) else kret tt) ;;;
  let* r := get_wb wb in
  let* o := get_obj (wb_object r) in
  (if wb =? waitlist_head o then upd_obj (wb_object r) (set_waitlist_head (next_wait r)) else kret tt) ;;;
  let* o := get_obj (wb_object r) in
  (if wb =? waitlist_tail o then upd_obj (wb_object r) (set_waitlist_tail (prev_wait r)) else kret tt) ;;;
  upd_wb wb (set_wb_object 0) ;;;
  upd_wb wb (set_prev_wait 0) ;;;
  upd_wb wb (set_next_wait 0).

Fixpoint ready_loop (fuel : nat) (t wb : Z) (any all : bool) : K kernel bool :=
  match fuel with
  | O => khang
  | S fuel' =>
    if wb =? 0 then kret (any || all)
    else
      let* r := get_wb wb in
      let* o := get_obj (wb_object r) in
      if waittype r =? WAIT_ANY then
        if negb (signaled o =? 0) then
          upd_wait t (set_waitkey (wb_waitkey r)) ;;;
          ready_loop fuel' t (wb_next r) true all
        else ready_loop fuel' t (wb_next r) any all
      else
        if signaled o =? 0 then ready_loop fuel' t (wb_next r) any false
        else
          upd_wait t (set_waitkey (wb_waitkey r)) ;;;
          ready_loop fuel' t (wb_next r) any all
  end.

Definition thread_ready_to_run (t : Z) : K kernel bool :=
  let* k := kget in
  let* w := get_wait t in
  ready_loop (rounds k) t (waitlist w) false true.

Fixpoint cancel_loop (fuel : nat) (wb : Z) : K kernel unit :=
  match fuel with
  | O => khang
  | S fuel' =>
    if wb =? 0 then kret tt
    else
      remove_from_waitlist wb ;;;
      let* r := get_wb wb in
      cancel_loop fuel' (wb_next r)
  end.

Definition cancel_wait (t : Z) : K kernel unit :=
  let* k := kget in
  let* w := get_wait t in
  cancel_loop (rounds k) (waitlist w) ;;;
  upd_wait t (set_waitlist 0).

Definition release_thread (t : Z) : K kernel unit :=
  cancel_wait t ;;;
  on_sched (mark_thread_ready t 1 1).

Fixpoint release_loop (fuel : nat) (wb key : Z) : K kernel unit :=
  match fuel with
  | O => khang
  | S fuel' =>
    if wb =? 0 then kret tt
    else
      let* r := get_wb wb in
      let* rdy := thread_ready_to_run (wb_thread r) in
      (if rdy then
         upd_wait (wb_thread r) (set_waitkey key) ;;;
         release_thread (wb_thread r)
       else kret tt) ;;;
      release_loop fuel' (next_wait r) key
  end.

Definition release_waiters (obj key : Z) : K kernel unit :=
  let* k := kget in
  let* o := get_obj obj in
  release_loop (rounds k) (waitlist_head o) key.

(** ** Objects *)

(** What object.c calls of the files, sockets, multiplexers, threads and of the
    heap, and the address of [expire_waitable_timer]. *)
Class ObjectKinds := {
  dequeue_event_from_iomux : Z -> K kernel Z;
  close_file : Z -> K kernel Z;
  closesocket : Z -> K kernel Z;
  close_iomux : Z -> K kernel Z;
  destroy_file : Z -> K kernel Z;
  destroy_thread : Z -> K kernel Z;
  kfree_object : Z -> K kernel unit;
  expire_handler : Z;
}.

Definition no_object : kobject := KObject 0 0 0 0 0 0 0 0 0.

(** The memory of an object is there before the object is. *)
Definition init_object (o type : Z) : K kernel unit :=
  kmod (fun k => let r := default no_object (objects k !! o) in
    set_objects (<[o := KObject type 0 0 0 (manual_reset r) (count r) (owner r) (recursion r) (exitcode r)]> (objects k)) k).

Definition exit_thread (t : Z) : K kernel unit :=
  upd_obj t (set_signaled 1) ;;;
  let* o := get_obj t in
  release_waiters t (exitcode o).

Definition init_event (e manual initial : Z) : K kernel unit :=
  init_object e OBJECT_EVENT ;;;
  upd_obj e (set_manual_reset manual) ;;;
  upd_obj e (set_signaled (s16 initial)).

(** The loop of [pulse_event]: it goes on only when a thread was released. *)
Fixpoint pulse_loop (fuel : nat) (e wb : Z) : K kernel unit :=
  match fuel with
  | O => khang
  | S fuel' =>
    if wb =? 0 then kret tt
    else
      let* r := get_wb wb in
      let* rdy := thread_ready_to_run (wb_thread r) in
      if rdy then
        release_thread (wb_thread r) ;;;
        let* o := get_obj e in
        if manual_reset o =? 0 then kret tt else pulse_loop fuel' e (next_wait r)
      else pulse_loop fuel' e wb
  end.

Definition pulse_event (e : Z) : K kernel unit :=
  upd_obj e (set_signaled 1) ;;;
  let* k := kget in
  let* o := get_obj e in
  pulse_loop (rounds k) e (waitlist_head o) ;;;
  upd_obj e (set_signaled 0).

Fixpoint set_event_loop (fuel : nat) (e wb : Z) : K kernel unit :=
  match fuel with
  | O => khang
  | S fuel' =>
    if wb =? 0 then kret tt
    else
      let* r := get_wb wb in
      let* rdy := thread_ready_to_run (wb_thread r) in
      if rdy then
        release_thread (wb_thread r) ;;;
        let* o := get_obj e in
        if manual_reset o =? 0 then upd_obj e (set_signaled 0)
        else set_event_loop fuel' e (next_wait r)
      else set_event_loop fuel' e (next_wait r)
  end.

Definition set_event (e : Z) : K kernel unit :=
  upd_obj e (set_signaled 1) ;;;
  let* k := kget in
  let* o := get_obj e in
  set_event_loop (rounds k) e (waitlist_head o).

Definition reset_event (e : Z) : K kernel unit := upd_obj e (set_signaled 0).

Definition init_sem (s initial_count : Z) : K kernel unit :=
  init_object s OBJECT_SEMAPHORE ;;;
  upd_obj s (set_count initial_count) ;;;
  upd_obj s (set_signaled (if 0 <? initial_count then 1 else 0)).

(** The loop that [release_sem] and [set_sem] share. *)
Fixpoint sem_loop (fuel : nat) (s wb : Z) : K kernel unit :=
  match fuel with
  | O => khang
  | S fuel' =>
    if wb =? 0 then kret tt
    else
      let* r := get_wb wb in
      let* rdy := thread_ready_to_run (wb_thread r) in
      if rdy then
        let* o := get_obj s in
        upd_obj s (set_count (u32 (count o - 1))) ;;;
        release_thread (wb_thread r) ;;;
        let* o := get_obj s in
        if count o =? 0 then upd_obj s (set_signaled 0)
        else sem_loop fuel' s (next_wait r)
      else sem_loop fuel' s (next_wait r)
  end.

Definition signal_sem (s : Z) : K kernel unit :=
  let* o := get_obj s in
  if 0 <? count o then
    upd_obj s (set_signaled 1) ;;;
    let* k := kget in
    let* o := get_obj s in
    sem_loop (rounds k) s (waitlist_head o)
  else kret tt.

Definition release_sem (s n : Z) : K kernel Z :=
  let* o := get_obj s in
  let prevcount := count o in
  upd_obj s (set_count (u32 (count o + n))) ;;;
  signal_sem s ;;;
  kret prevcount.

Definition set_sem (s n : Z) : K kernel Z :=
  let* o := get_obj s in
  let prevcount := count o in
  upd_obj s (set_count n) ;;;
  signal_sem s ;;;
  kret prevcount.

Definition init_mutex (m : Z) (owned : bool) : K kernel unit :=
  init_object m OBJECT_MUTEX ;;;
  if owned then
    let* t := self in
    upd_obj m (set_owner t) ;;; upd_obj m (set_signaled 0) ;;; upd_obj m (set_recursion 1)
  else
    upd_obj m (set_owner 0) ;;; upd_obj m (set_signaled 1) ;;; upd_obj m (set_recursion 0).

(** The first waiting thread that can run, 0 if there is none. *)
Fixpoint first_ready_loop (fuel : nat) (wb : Z) : K kernel Z :=
  match fuel with
  | O => khang
  | S fuel' =>
    if wb =? 0 then kret 0
    else
      let* r := get_wb wb in
      let* rdy := thread_ready_to_run (wb_thread r) in
      if rdy then kret wb
      else
        let* r := get_wb wb in
        first_ready_loop fuel' (next_wait r)
  end.

Definition release_mutex (m : Z) : K kernel Z :=
  let* t := self in
  let* o := get_obj m in
  if negb (owner o =? t) then kret (- EPERM)
  else
    upd_obj m (set_recursion (s32 (recursion o - 1))) ;;;
    let* o := get_obj m in
    if 0 <? recursion o then kret 0
    else
      upd_obj m (set_signaled 1) ;;;
      upd_obj m (set_owner 0) ;;;
      let* k := kget in
      let* o := get_obj m in
      let* wb := first_ready_loop (rounds k) (waitlist_head o) in
      (if negb (wb =? 0) then
         let* r := get_wb wb in
         upd_obj m (set_owner (wb_thread r)) ;;;
         upd_obj m (set_recursion 1) ;;;
         upd_obj m (set_signaled 0) ;;;
         release_thread (wb_thread r)
       else kret tt) ;;;
      kret 0.

Definition unlock_filemap (m : Z) : K kernel Z :=
  upd_obj m (set_signaled 1) ;;;
  let* k := kget in
  let* o := get_obj m in
  let* wb := first_ready_loop (rounds k) (waitlist_head o) in
  (if negb (wb =? 0) then
     upd_obj m (set_signaled 0) ;;;
     let* r := get_wb wb in
     release_thread (wb_thread r)
   else kret tt) ;;;
  kret 0.

(** ** Waitable timers *)

Definition expire_waitable_timer (t : Z) : K kernel unit :=
  upd_obj t (set_signaled 1) ;;;
  release_waiters t 0.

Definition modify_waitable_timer (t e : Z) : K kernel unit :=
  on_wheel (Timer.mod_timer t e) ;;; kret tt.

Definition cancel_waitable_timer (t : Z) : K kernel unit :=
  let* tm := on_wheel (Timer.get_timer t) in
  if Timer.active tm then on_wheel (Timer.del_timer t) ;;; kret tt else kret tt.

Section Kinds.
Context `{!ObjectKinds}.

Definition init_waitable_timer (t e : Z) : K kernel unit :=
  init_object t OBJECT_TIMER ;;;
  on_wheel (Timer.init_timer t expire_handler t) ;;;
  let* tm := on_wheel (Timer.get_timer t) in
  on_wheel (Timer.set_timer t (Timer.with_expires tm e)) ;;;
  let* k := kget in
  if 0 <=? s32 (Timer.ticks (k_wheel k) - e) then upd_obj t (set_signaled 1)
  else on_wheel (Timer.add_timer t).

Definition enter_object (obj : Z) : K kernel Z :=
  let* o := get_obj obj in
  if o_type o =? OBJECT_THREAD then kret (exitcode o)
  else if o_type o =? OBJECT_EVENT then
    (if manual_reset o =? 0 then upd_obj obj (set_signaled 0) else kret tt) ;;; kret 0
  else if o_type o =? OBJECT_MUTEX then
    upd_obj obj (set_signaled 0) ;;;
    let* t := self in
    upd_obj obj (set_owner t) ;;;
    upd_obj obj (set_recursion 1) ;;;
    kret 0
  else if o_type o =? OBJECT_SEMAPHORE then
    upd_obj obj (set_count (u32 (count o - 1))) ;;;
    let* o := get_obj obj in
    (if count o =? 0 then upd_obj obj (set_signaled 0) else kret tt) ;;;
    kret 0
  else if o_type o =? OBJECT_IOMUX then dequeue_event_from_iomux obj
  else if o_type o =? OBJECT_FILEMAP then upd_obj obj (set_signaled 0) ;;; kret 0
  else kret 0.

(** [close_object] releases the threads that wait, whatever they wait for. *)
Fixpoint close_loop (fuel : nat) (obj : Z) : K kernel unit :=
  match fuel with
  | O => khang
  | S fuel' =>
    let* o := get_obj obj in
    if waitlist_head o =? 0 then kret tt
    else
      let* r := get_wb (waitlist_head o) in
      upd_wait (wb_thread r) (set_waitkey (- EINTR)) ;;;
      release_thread (wb_thread r) ;;;
      close_loop fuel' obj
  end.

Definition close_object (obj : Z) : K kernel Z :=
  let* k := kget in
  close_loop (rounds k) obj ;;;
  let* o := get_obj obj in
  if (o_type o =? OBJECT_THREAD) || (o_type o =? OBJECT_EVENT) || (o_type o =? OBJECT_MUTEX) ||
     (o_type o =? OBJECT_SEMAPHORE) || (o_type o =? OBJECT_FILEMAP) then kret 0
  else if o_type o =? OBJECT_TIMER then cancel_waitable_timer obj ;;; kret 0
  else if o_type o =? OBJECT_FILE then close_file obj
  else if o_type o =? OBJECT_SOCKET then closesocket obj
  else if o_type o =? OBJECT_IOMUX then close_iomux obj
  else kret (- EBADF).

Definition destroy_object (obj : Z) : K kernel Z :=
  let* o := get_obj obj in
  if o_type o =? OBJECT_THREAD then destroy_thread obj
  else if (o_type o =? OBJECT_EVENT) || (o_type o =? OBJECT_TIMER) || (o_type o =? OBJECT_MUTEX) ||
     (o_type o =? OBJECT_SEMAPHORE) || (o_type o =? OBJECT_IOMUX) || (o_type o =? OBJECT_SOCKET) ||
     (o_type o =? OBJECT_FILEMAP) then kfree_object obj ;;; kret 0
  else if o_type o =? OBJECT_FILE then destroy_file obj
  else kret (- EBADF).

(** ** Waits *)

Variable dpc : K sched unit.

(** A wait returns at once, gives the processor away, or is a sleep. *)
Inductive wait_result :=
| Returns (rc : Z)
| Blocks
| Sleeps (ms : Z).

(** From the call of [enter_wait] or [enter_alertable_wait] on; [sigs] is the
    result of [signals_ready], [tmr] the timer of a timed wait. *)
Definition begin_wait (alertable sigs : bool) (tmr : option Z) : K kernel wait_result :=
  let* t := self in
  if alertable then
    let* rc := on_sched (begin_alertable_wait dpc sigs THREAD_WAIT_OBJECT) in
    if rc <? 0 then
      cancel_wait t ;;;
      upd_wait t (set_waitkey rc) ;;;
      (match tmr with Some tm => cancel_waitable_timer tm | None => kret tt end) ;;;
      let* w := get_wait t in
      kret (Returns (waitkey w))
    else kret Blocks
  else
    on_sched (enter_wait dpc THREAD_WAIT_OBJECT) ;;;
    kret Blocks.

(** When the thread runs again. *)
Definition end_wait (alertable : bool) (tmr : option Z) : K kernel Z :=
  let* t := self in
  (if alertable then
     let* rc := on_sched end_alertable_wait in
     if rc <? 0 then cancel_wait t ;;; upd_wait t (set_waitkey rc) else kret tt
   else kret tt) ;;;
  (match tmr with Some tm => cancel_waitable_timer tm | None => kret tt end) ;;;
  let* w := get_wait t in
  kret (waitkey w).

(** A wait block on the stack; [insert_in_waitlist] sets the links. *)
Definition new_wb (w t obj type key : Z) : K kernel unit :=
  kmod (fun k => set_waitblocks (<[w := WaitBlock t obj type key 0 0 0]> (waitblocks k)) k).

(** The timer of a timed wait is the last object of the list. *)
Definition add_timeout (t last wbtmo tmr timeout : Z) : K kernel unit :=
  let timeout := if timeout <? MSECS_PER_TICK then MSECS_PER_TICK else timeout in
  let* k := kget in
  init_waitable_timer tmr (u32 (Timer.ticks (k_wheel k) + timeout / MSECS_PER_TICK)) ;;;
  upd_wb last (set_wb_next wbtmo) ;;;
  new_wb wbtmo t tmr WAIT_ANY (- ETIMEOUT) ;;;
  insert_in_waitlist tmr wbtmo.

Definition wait_for_one_object (obj timeout : Z) (alertable sigs : bool) (wb wbtmo tmr : Z) : K kernel wait_result :=
  let* t := self in
  let* o := get_obj obj in
  if negb (signaled o =? 0) then let* rc := enter_object obj in kret (Returns rc)
  else if (o_type o =? OBJECT_MUTEX) && (owner o =? t) then
    upd_obj obj (set_recursion (s32 (recursion o + 1))) ;;;
    kret (Returns 0)
  else if timeout =? 0 then kret (Returns (- ETIMEOUT))
  else
    upd_wait t (set_waitlist wb) ;;;
    new_wb wb t obj WAIT_ANY 0 ;;;
    insert_in_waitlist obj wb ;;;
    if timeout =? INFINITE then begin_wait alertable sigs None
    else
      add_timeout t wb wbtmo tmr timeout ;;;
      begin_wait alertable sigs (Some tmr).

Definition wait_for_object (obj timeout wb wbtmo tmr : Z) : K kernel wait_result :=
  wait_for_one_object obj timeout false false wb wbtmo tmr.

(** The test of [wait_for_all_objects]. *)
Fixpoint all_signaled (t : Z) (objs : list Z) : K kernel bool :=
  match objs with
  | [] => kret true
  | obj :: objs' =>
    let* o := get_obj obj in
    if o_type o =? OBJECT_MUTEX then
      if (signaled o =? 0) || negb (owner o =? t) then kret false else all_signaled t objs'
    else
      if signaled o =? 0 then kret false else all_signaled t objs'
  end.

Fixpoint enter_all (t : Z) (objs : list Z) (rc : Z) : K kernel Z :=
  match objs with
  | [] => kret rc
  | obj :: objs' =>
    let* o := get_obj obj in
    if negb (signaled o =? 0) then
      let* r := enter_object obj in
      enter_all t objs' (Z.lor rc r)
    else
      (if (o_type o =? OBJECT_MUTEX) && (owner o =? t)
       then upd_obj obj (set_recursion (s32 (recursion o + 1))) else kret tt) ;;;
      enter_all t objs' rc
  end.

(** The wait blocks of [objs], the first one is number [n] of the array [wba]. *)
Fixpoint setup_waits (t type : Z) (wba : nat -> Z) (n : nat) (objs : list Z) : K kernel unit :=
  match objs with
  | [] => kret tt
  | obj :: objs' =>
    (if (n =? 0)%nat then upd_wait t (set_waitlist (wba n))
     else upd_wb (wba (n - 1)%nat) (set_wb_next (wba n))) ;;;
    new_wb (wba n) t obj type (Z.of_nat n) ;;;
    insert_in_waitlist obj (wba n) ;;;
    setup_waits t type wba (S n) objs'
  end.

Definition wait_for_all_objects (objs : list Z) (timeout : Z) (alertable sigs : bool) (wba : nat -> Z) (wbtmo tmr : Z) :
    K kernel wait_result :=
  let* t := self in
  let count := length objs in
  if (count =? 0)%nat then
    if timeout =? INFINITE then kret (Returns (- EINVAL)) else kret (Sleeps timeout)
  else if MAX_WAIT_OBJECTS <? Z.of_nat count then kret (Returns (- EINVAL))
  else
    let* all := all_signaled t objs in
    if all then let* rc := enter_all t objs 0 in kret (Returns rc)
    else if timeout =? 0 then kret (Returns (- ETIMEOUT))
    else
      setup_waits t WAIT_ALL wba 0 objs ;;;
      if timeout =? INFINITE then begin_wait alertable sigs None
      else
        add_timeout t (wba (count - 1)%nat) wbtmo tmr timeout ;;;
        begin_wait alertable sigs (Some tmr).

(** The test of [wait_for_any_object]: the result if there is one. *)
Fixpoint any_signaled (t n : Z) (objs : list Z) : K kernel (option Z) :=
  match objs with
  | [] => kret None
  | obj :: objs' =>
    let* o := get_obj obj in
    if negb (signaled o =? 0) then
      let* rc := enter_object obj in
      kret (Some (if rc =? 0 then n else rc))
    else if (o_type o =? OBJECT_MUTEX) && (owner o =? t) then
      upd_obj obj (set_recursion (s32 (recursion o + 1))) ;;;
      kret (Some n)
    else any_signaled t (n + 1) objs'
  end.

Definition wait_for_any_object (objs : list Z) (timeout : Z) (alertable sigs : bool) (wba : nat -> Z) (wbtmo tmr : Z) :
    K kernel wait_result :=
  let* t := self in
  let count := length objs in
  if (count =? 0)%nat then
    if timeout =? INFINITE then kret (Returns (- EINVAL)) else kret (Sleeps timeout)
  else if MAX_WAIT_OBJECTS <? Z.of_nat count then kret (Returns (- EINVAL))
  else
    let* r := any_signaled t 0 objs in
    match r with
    | Some rc => kret (Returns rc)
    | None =>
      if timeout =? 0 then kret (Returns (- ETIMEOUT))
      else
        setup_waits t WAIT_ANY wba 0 objs ;;;
        if timeout =? INFINITE then begin_wait alertable sigs None
        else
          add_timeout t (wba (count - 1)%nat) wbtmo tmr timeout ;;;
          begin_wait alertable sigs (Some tmr)
    end.
End Kinds.

(** ** Steps of the code *)

#[global] Instance waitblock_links : Links waitblock.
Proof. by refine {| l_prev := prev_wait; l_next := next_wait; set_l_prev := set_prev_wait; set_l_next := set_next_wait |}. Defined.

Lemma get_obj_run o r k : objects k !! o = Some r -> get_obj o k = Done (r, k).
Proof. intros H. unfold get_obj. kx. by rewrite H. Qed.

Lemma upd_obj_run o r f k : objects k !! o = Some r -> upd_obj o f k = Done (tt, set_objects (<[o := f r]> (objects k)) k).
Proof. intros H. unfold upd_obj. by rewrite (kbind_done _ _ _ _ _ (get_obj_run o r k H)). Qed.

Lemma get_wb_run w r k : waitblocks k !! w = Some r -> get_wb w k = Done (r, k).
Proof. intros H. unfold get_wb. kx. by rewrite H. Qed.

Lemma upd_wb_run w r f k : waitblocks k !! w = Some r -> upd_wb w f k = Done (tt, set_waitblocks (<[w := f r]> (waitblocks k)) k).
Proof. intros H. unfold upd_wb. by rewrite (kbind_done _ _ _ _ _ (get_wb_run w r k H)). Qed.

Lemma get_wait_run t r k : waits k !! t = Some r -> get_wait t k = Done (r, k).
Proof. intros H. unfold get_wait. kx. by rewrite H. Qed.

Lemma upd_wait_run t r f k : waits k !! t = Some r -> upd_wait t f k = Done (tt, set_waits (<[t := f r]> (waits k)) k).
Proof. intros H. unfold upd_wait. by rewrite (kbind_done _ _ _ _ _ (get_wait_run t r k H)). Qed.

(** Rewrites with the next step of a run. *)
Tactic Notation "step" uconstr(E) := rewrite (kbind_done _ _ _ _ _ E).

(** ** Wait lists and wait blocks *)

(** An object without the ends of its wait list. *)
Definition ocore (o : kobject) : kobject := set_waitlist_head 0 (set_waitlist_tail 0 o).

(** A wait block without the links of the wait list. *)
Definition wcore (w : waitblock) : waitblock := set_next_wait 0 (set_prev_wait 0 w).

(** The blocks of a thread, linked by [wb_next]. *)
Fixpoint wchain (m : gmap Z waitblock) (l : list Z) : Prop :=
  match l with
  | [] => True
  | w :: l' => (exists r, m !! w = Some r /\ wb_next r = hd 0 l') /\ wchain m l'
  end.

(** [W o] is the wait list of the object [o] and [B t] the list of the wait
    blocks of the thread [t], all of them waiting for any of their objects.
    The [waitlist] of the thread [x] does not matter. *)
Record winv (x : Z) (B W : Z -> list Z) (k : kernel) : Prop := {
  wi_obj : forall o r, objects k !! o = Some r -> waitlist_head r = hd 0 (W o) /\ waitlist_tail r = last_of 0 (W o);
  wi_none : forall o, objects k !! o = None -> W o = [];
  wi_list : forall o, dlist (waitblocks k) 0 (W o) 0;
  wi_nodup : forall o, NoDup (W o);
  wi_mem : forall o w, w ∈ W o -> exists r, waitblocks k !! w = Some r /\ wb_object r = o /\ w ∈ B (wb_thread r);
  wi_chain : forall t, wchain (waitblocks k) (B t);
  wi_bnodup : forall t, NoDup (B t);
  wi_block : forall t w, w ∈ B t -> exists r, waitblocks k !! w = Some r /\ wb_thread r = t /\ waittype r = WAIT_ANY /\ w ∈ W (wb_object r);
  wi_apart : forall t w1 w2 r1 r2, w1 ∈ B t -> w2 ∈ B t -> waitblocks k !! w1 = Some r1 -> waitblocks k !! w2 = Some r2 ->
               wb_object r1 = wb_object r2 -> w1 = w2;
  wi_wait : forall t r, waits k !! t = Some r -> t <> x -> waitlist r = hd 0 (B t);
  wi_idle : forall t, waits k !! t = None -> B t = [];
  wi_null : waitblocks k !! 0 = None;
  wi_thread : waits k !! 0 = None;
}.

Lemma wchain_frame m m' l : (forall w, w ∈ l -> wb_next <$> m' !! w = wb_next <$> m !! w) -> wchain m l -> wchain m' l.
Proof.
  induction l as [|w l IH]; [done|]. intros Hf [(r & Hr & Hn) Hl]. split; [|apply IH; [|done]; intros w' Hw'; apply Hf; by right].
  specialize (Hf w ltac:(by left)). rewrite Hr in Hf. destruct (m' !! w) as [r'|]; [|done]. exists r'. split; [done|].
  change (Some (wb_next r') = Some (wb_next r)) in Hf. congruence.
Qed.

Lemma wlist_no_null x B W k o : winv x B W k -> 0 ∉ W o.
Proof. intros I H. destruct (wi_mem _ _ _ _ I o 0 H) as (r & Hr & _). by rewrite (wi_null _ _ _ _ I) in Hr. Qed.

Lemma wcore_fields r r' : wcore r' = wcore r ->
  wb_thread r' = wb_thread r /\ wb_object r' = wb_object r /\ waittype r' = waittype r /\ wb_waitkey r' = wb_waitkey r /\ wb_next r' = wb_next r.
Proof. unfold wcore, set_next_wait, set_prev_wait. cbn. by intros [=]. Qed.

(** The list [l] without the elements of [S]. *)
Definition minus (S l : list Z) : list Z := filter (fun a => a ∉ S) l.

Lemma minus_id S l : (forall a, a ∈ l -> a ∉ S) -> minus S l = l.
Proof.
  intros H. induction l as [|a l IH]; [done|]. unfold minus in *. rewrite filter_cons_True by (apply H; by left).
  f_equal. apply IH. intros b Hb. apply H. by right.
Qed.

Lemma minus_mid w l1 l2 : NoDup (l1 ++ w :: l2) -> minus [w] (l1 ++ w :: l2) = l1 ++ l2.
Proof.
  intros (_ & Hd & [Hn _]%NoDup_cons)%NoDup_app. unfold minus. rewrite filter_app, filter_cons_False by set_solver.
  f_equal; apply minus_id; intros a Ha ->%list_elem_of_singleton; [apply (Hd w Ha); by left|done].
Qed.

Lemma minus_cons w S l : minus (w :: S) l = minus S (minus [w] l).
Proof. unfold minus. rewrite list_filter_filter. apply list_filter_iff. intros a. set_solver. Qed.

Lemma elem_of_minus a S l : (a ∈ minus S l) <-> (a ∉ S) /\ (a ∈ l).
Proof. unfold minus. by rewrite list_elem_of_filter. Qed.

(** The block [w] of the thread [x] leaves the wait list of its object. *)
Definition removed (w o : Z) (r : waitblock) (ro : kobject) (l1 l2 : list Z) (k : kernel) : kernel :=
  Kernel (k_sched k) (<[o := set_waitlist_tail (last_of 0 (l1 ++ l2)) (set_waitlist_head (hd 0 (l1 ++ l2)) ro)]> (objects k))
    (<[w := set_next_wait 0 (set_prev_wait 0 (set_wb_object 0 r))]> (bypass (waitblocks k) (last_of 0 l1) (hd 0 l2)))
    (waits k) (k_wheel k).

(** The conditional updates of a link. *)
Lemma upd_prev_run n v k : (n <> 0 -> is_Some (waitblocks k !! n)) ->
  (if negb (n =? 0) then upd_wb n (set_prev_wait v) else kret tt) k =
  Done (tt, set_waitblocks (if n =? 0 then waitblocks k else
    match waitblocks k !! n with Some r => <[n := set_prev_wait v r]> (waitblocks k) | None => waitblocks k end) k).
Proof.
  intros H. destruct (Z.eqb_spec n 0) as [|Hn]; [by destruct k|]. cbn [negb]. destruct (H Hn) as [r Hr].
  by rewrite (upd_wb_run n r _ k Hr), Hr.
Qed.

Lemma upd_next_run n v k : (n <> 0 -> is_Some (waitblocks k !! n)) ->
  (if negb (n =? 0) then upd_wb n (set_next_wait v) else kret tt) k =
  Done (tt, set_waitblocks (if n =? 0 then waitblocks k else
    match waitblocks k !! n with Some r => <[n := set_next_wait v r]> (waitblocks k) | None => waitblocks k end) k).
Proof.
  intros H. destruct (Z.eqb_spec n 0) as [|Hn]; [by destruct k|]. cbn [negb]. destruct (H Hn) as [r Hr].
  by rewrite (upd_wb_run n r _ k Hr), Hr.
Qed.

(** The conditional updates of the ends. *)
Lemma upd_end_run (b : bool) o r f v k :
  objects k !! o = Some r -> (b = true -> f r = v) -> (b = false -> r = v) ->
  (if b then upd_obj o f else kret tt) k = Done (tt, set_objects (<[o := v]> (objects k)) k).
Proof.
  intros Hr H1 H2. destruct b; [rewrite (upd_obj_run o r _ k Hr); by rewrite H1|]. rewrite <- (H2 eq_refl).
  rewrite insert_id by done. by destruct k.
Qed.

Lemma remove_wb_run w o r ro l1 l2 k :
  waitblocks k !! w = Some r -> wb_object r = o -> objects k !! o = Some ro -> dlist (waitblocks k) 0 (l1 ++ w :: l2) 0 ->
  NoDup (l1 ++ w :: l2) -> 0 ∉ l1 ++ w :: l2 ->
  waitlist_head ro = hd 0 (l1 ++ w :: l2) -> waitlist_tail ro = last_of 0 (l1 ++ w :: l2) ->
  remove_from_waitlist w k = Done (tt, removed w o r ro l1 l2 k).
Proof.
  intros Hr Ho Hro Hdl Hnd H0 Hh Ht. destruct (dlist_at _ _ _ _ _ Hdl Hr) as [Hp Hn]. cbn [l_prev l_next waitblock_links] in Hp, Hn.
  pose proof Hnd as (_ & Hd & [Hnw _]%NoDup_cons)%NoDup_app.
  assert (Hn0 : hd 0 l2 <> 0 -> is_Some (waitblocks k !! hd 0 l2) /\ hd 0 l2 <> w).
  { intros H. assert (Hin : hd 0 l2 ∈ l2) by (apply hd_elem; by intros ->).
    split; [|by intros E; rewrite E in Hin]. eapply dlist_lookup; [exact Hdl|]. set_solver. }
  assert (Hp0 : last_of 0 l1 <> 0 -> is_Some (waitblocks k !! last_of 0 l1) /\ last_of 0 l1 <> w).
  { intros H. assert (Hin : last_of 0 l1 ∈ l1) by (apply last_of_elem; by intros ->).
    split; [|intros E; rewrite E in Hin; apply (Hd w Hin); by left]. eapply dlist_lookup; [exact Hdl|]. set_solver. }
  unfold remove_from_waitlist. step (get_wb_run w r k Hr). rewrite Hn, Hp.
  step (upd_prev_run (hd 0 l2) (last_of 0 l1) k (fun H => proj1 (Hn0 H))).
  set (m1 := if hd 0 l2 =? 0 then _ else _).
  assert (Hm1 : forall a, a <> hd 0 l2 -> m1 !! a = waitblocks k !! a).
  { intros a Ha. unfold m1. destruct (hd 0 l2 =? 0); [done|]. destruct (waitblocks k !! hd 0 l2); [|done]. by rewrite lookup_insert_ne. }
  assert (Hw1 : m1 !! w = Some r).
  { destruct (decide (hd 0 l2 = 0)) as [E|E]; [unfold m1; by rewrite E|]. rewrite Hm1; [done|]. intros E'. by destruct (Hn0 E). }
  step (get_wb_run w r (set_waitblocks m1 k) Hw1). rewrite Hn, Hp.
  assert (Hp1 : last_of 0 l1 <> 0 -> is_Some (m1 !! last_of 0 l1)).
  { intros H. destruct (decide (last_of 0 l1 = hd 0 l2)) as [E|E]; [|rewrite Hm1 by done; by apply Hp0].
    destruct (Hn0 ltac:(congruence)) as [[x Hx] _]. rewrite E. unfold m1. rewrite Hx. destruct (hd 0 l2 =? 0); [by eexists|].
    rewrite lookup_insert_eq. by eexists. }
  step (upd_next_run (last_of 0 l1) (hd 0 l2) (set_waitblocks m1 k) Hp1). cbn [waitblocks set_waitblocks].
  change (if last_of 0 l1 =? 0 then m1 else _) with (bypass (waitblocks k) (last_of 0 l1) (hd 0 l2)). set (m2 := bypass _ _ _).
  assert (Hw2 : m2 !! w = Some r).
  { assert (Hw0 : w <> 0) by (intros ->; set_solver). unfold m2. rewrite bypass_ne; [done|intros E..].
    - destruct (Hp0 ltac:(congruence)); congruence.
    - destruct (Hn0 ltac:(congruence)); congruence. }
  set (k2 := set_waitblocks m2 (set_waitblocks m1 k)). step (get_wb_run w r k2 Hw2). rewrite Hn, Hp, Ho.
  step (get_obj_run o ro k2 Hro). rewrite Hh.
  assert (E3 : (if w =? hd 0 (l1 ++ w :: l2) then upd_obj o (set_waitlist_head (hd 0 l2)) else kret tt) k2 =
    Done (tt, set_objects (<[o := set_waitlist_head (hd 0 (l1 ++ l2)) ro]> (objects k2)) k2)).
  { pose proof (drop_head w l1 l2 Hnd) as E. apply (upd_end_run _ o ro); [done|intros Eb; by rewrite Eb in E; rewrite E|].
    intros Eb. rewrite Eb in E. rewrite <- E, <- Hh. by destruct ro. }
  step E3. set (ro1 := set_waitlist_head _ ro). set (k3 := set_objects _ k2).
  step (get_obj_run o ro1 k3 (lookup_insert_eq _ _ _)). change (waitlist_tail ro1) with (waitlist_tail ro). rewrite Ht.
  assert (E4 : (if w =? last_of 0 (l1 ++ w :: l2) then upd_obj o (set_waitlist_tail (last_of 0 l1)) else kret tt) k3 =
    Done (tt, set_objects (<[o := set_waitlist_tail (last_of 0 (l1 ++ l2)) ro1]> (objects k3)) k3)).
  { pose proof (drop_tail w l1 l2 Hnd) as E. apply (upd_end_run _ o ro1); [apply lookup_insert_eq|intros Eb; by rewrite Eb in E; rewrite E|].
    intros Eb. rewrite Eb in E. rewrite <- E, <- Ht. by destruct ro. }
  step E4. set (k4 := set_objects _ k3). step (upd_wb_run w r (set_wb_object 0) k4 Hw2).
  step (upd_wb_run w _ (set_prev_wait 0) (set_waitblocks (<[w := set_wb_object 0 r]> (waitblocks k4)) k4) (lookup_insert_eq _ _ _)).
  erewrite upd_wb_run by (cbn [waitblocks set_waitblocks]; apply lookup_insert_eq).
  unfold k4, k3, k2, removed, set_waitblocks, set_objects. cbn [waitblocks objects k_sched waits k_wheel]. by rewrite !insert_insert_eq.
Qed.

Lemma wlists_apart x B W k a o o' : winv x B W k -> a ∈ W o -> a ∈ W o' -> o = o'.
Proof.
  intros I H H'. destruct (wi_mem _ _ _ _ I o a H) as (r & Hr & Ho & _). destruct (wi_mem _ _ _ _ I o' a H') as (r' & Hr' & Ho' & _).
  congruence.
Qed.

Lemma blocks_apart x B W k a t t' : winv x B W k -> a ∈ B t -> a ∈ B t' -> t = t'.
Proof.
  intros I H H'. destruct (wi_block _ _ _ _ I t a H) as (r & Hr & Ho & _). destruct (wi_block _ _ _ _ I t' a H') as (r' & Hr' & Ho' & _).
  congruence.
Qed.

(** What a change of other blocks keeps of a block. *)
Lemma wcore_lookup (m m' : gmap Z waitblock) a r : wcore <$> m' !! a = wcore <$> m !! a -> m !! a = Some r ->
  exists r', m' !! a = Some r' /\ wcore r' = wcore r.
Proof.
  intros H Hr. rewrite Hr in H. destruct (m' !! a) as [r'|]; [|done]. exists r'. split; [done|].
  change (Some (wcore r') = Some (wcore r)) in H. congruence.
Qed.

Lemma wcore_lookup_rev (m m' : gmap Z waitblock) a r' : wcore <$> m' !! a = wcore <$> m !! a -> m' !! a = Some r' ->
  exists r, m !! a = Some r /\ wcore r' = wcore r.
Proof. intros H Hr. destruct (wcore_lookup m' m a r' (eq_sym H) Hr) as (r & Hr' & E). by exists r. Qed.

Lemma removed_winv x B W k w l r o ro l1 l2 :
  winv x B W k -> B x = w :: l -> waitblocks k !! w = Some r -> wb_object r = o -> objects k !! o = Some ro ->
  W o = l1 ++ w :: l2 -> winv x (qput x l B) (qput o (l1 ++ l2) W) (removed w o r ro l1 l2 k).
Proof.
  intros I HB Hr Ho Hro HW. pose proof (wi_nodup _ _ _ _ I o) as Hnd. rewrite HW in Hnd.
  pose proof (wlist_no_null _ _ _ _ o I) as H0. rewrite HW in H0.
  pose proof Hnd as (Hn1 & Hd & [Hnw Hn2]%NoDup_cons)%NoDup_app.
  pose proof (wi_bnodup _ _ _ _ I x) as HnB. rewrite HB in HnB. apply NoDup_cons in HnB as [Hwl HnB].
  set (m' := waitblocks (removed w o r ro l1 l2 k)).
  assert (Hmw : m' !! w = Some (set_next_wait 0 (set_prev_wait 0 (set_wb_object 0 r)))) by apply lookup_insert_eq.
  assert (Hcore : forall a, a <> w -> wcore <$> m' !! a = wcore <$> waitblocks k !! a).
  { intros a Ha. cbn [m' waitblocks removed]. rewrite lookup_insert_ne by done. by apply bypass_same. }
  assert (Hout : forall a, a ∉ W o -> m' !! a = waitblocks k !! a \/ a = 0).
  { intros a Ha. rewrite HW in Ha. destruct (decide (a = 0)) as [->|Ha0]; [by right|left]. cbn [m' waitblocks removed].
    rewrite lookup_insert_ne by set_solver. apply bypass_ne; intros ->.
    - destruct l1 as [|z l1 _] using rev_ind; [done|]. rewrite last_of_app in Ha. set_solver.
    - destruct l2; [done|]. cbn [hd] in Ha. set_solver. }
  assert (HBw : forall t, w ∉ qput x l B t).
  { intros t. destruct (decide (t = x)) as [->|Hne]; [by rewrite qput_eq|]. rewrite qput_ne by done. intros Hin. apply Hne.
    apply (blocks_apart _ _ _ _ w t x I Hin). rewrite HB. by left. }
  assert (HBin : forall t a, a ∈ qput x l B t -> a ∈ B t).
  { intros t a. destruct (decide (t = x)) as [->|Hne]; [rewrite qput_eq, HB; by right|by rewrite qput_ne]. }
  assert (HWin : forall o' a, a ∈ W o' -> a <> w -> a ∈ qput o (l1 ++ l2) W o').
  { intros o' a Ha Hne. destruct (decide (o' = o)) as [->|Hno]; [|by rewrite qput_ne]. rewrite qput_eq. rewrite HW in Ha. set_solver. }
  split.
  - intros o' r'. cbn [objects removed]. destruct (decide (o' = o)) as [->|Hne].
    + rewrite lookup_insert_eq, qput_eq. intros [= <-]. done.
    + rewrite lookup_insert_ne, qput_ne by done. apply (wi_obj _ _ _ _ I).
  - intros o' H. cbn [objects removed] in H. apply lookup_insert_None in H as [H Hne]. rewrite qput_ne by done. by apply (wi_none _ _ _ _ I).
  - intros o'. destruct (decide (o' = o)) as [->|Hne].
    + rewrite qput_eq. cbn [waitblocks removed]. eapply dlist_frame; [|apply (bypass_dlist (waitblocks k) l1 w l2 Hnd H0); rewrite <- HW; apply I].
      intros a Ha. apply same_links_ne. intros ->. set_solver.
    + rewrite qput_ne by done. eapply dlist_frame; [|apply (wi_list _ _ _ _ I o')]. intros a Ha. unfold same_links. fold m'.
      destruct (Hout a) as [->| ->]; [|done|]; [intros Ha'; by destruct (Hne (wlists_apart _ _ _ _ a _ _ I Ha Ha'))|].
      by destruct (wlist_no_null _ _ _ _ o' I).
  - intros o'. destruct (decide (o' = o)) as [->|Hne]; [rewrite qput_eq|rewrite qput_ne by done; apply I].
    apply NoDup_app. split_and!; [done|intros a Ha; set_solver|done].
  - intros o' a Ha. assert (Ha' : a ∈ W o' /\ a <> w).
    { destruct (decide (o' = o)) as [->|Hne]; [rewrite qput_eq in Ha; rewrite HW; set_solver|]. rewrite qput_ne in Ha by done. split; [done|].
      intros ->. apply Hne. apply (wlists_apart _ _ _ _ w _ _ I Ha). rewrite HW. set_solver. }
    destruct Ha' as [Ha' Haw]. destruct (wi_mem _ _ _ _ I o' a Ha') as (ra & Hra & Hoa & HBa).
    destruct (wcore_lookup _ m' a ra (Hcore a Haw) Hra) as (ra' & Hra' & E). destruct (wcore_fields _ _ E) as (Et & Eo & _).
    exists ra'. rewrite Et, Eo. split; [done|]. split; [done|]. destruct (decide (wb_thread ra = x)) as [Ex|Hne]; [|by rewrite qput_ne].
    rewrite Ex in *. rewrite qput_eq. rewrite HB in HBa. set_solver.
  - intros t. eapply wchain_frame; [|].
    2:{ destruct (decide (t = x)) as [->|Hne]; [rewrite qput_eq|rewrite qput_ne by done; apply (wi_chain _ _ _ _ I t)].
        pose proof (wi_chain _ _ _ _ I x) as Hch. rewrite HB in Hch. apply Hch. }
    intros a Ha. fold m'. assert (Haw : a <> w) by (intros ->; by destruct (HBw t)). specialize (Hcore a Haw).
    destruct (m' !! a) as [ra'|], (waitblocks k !! a) as [ra|]; try done. change (Some (wcore ra') = Some (wcore ra)) in Hcore.
    destruct (wcore_fields ra ra' ltac:(congruence)) as (_ & _ & _ & _ & E). cbn. by rewrite E.
  - intros t. destruct (decide (t = x)) as [->|Hne]; [by rewrite qput_eq|rewrite qput_ne by done; apply I].
  - intros t a Ha. destruct (wi_block _ _ _ _ I t a (HBin t a Ha)) as (ra & Hra & Hta & Hty & HWa).
    assert (Haw : a <> w) by (intros ->; by destruct (HBw t)).
    destruct (wcore_lookup _ m' a ra (Hcore a Haw) Hra) as (ra' & Hra' & E). destruct (wcore_fields _ _ E) as (Et & Eo & Ety & _).
    exists ra'. rewrite Et, Eo, Ety. split_and!; [done..|]. by apply HWin.
  - intros t a1 a2 r1' r2' H1 H2 E1 E2 E.
    assert (Ha1 : a1 <> w) by (intros ->; by destruct (HBw t)). assert (Ha2 : a2 <> w) by (intros ->; by destruct (HBw t)).
    destruct (wcore_lookup_rev _ m' a1 r1' (Hcore a1 Ha1) E1) as (r1 & Hr1 & Ec1).
    destruct (wcore_lookup_rev _ m' a2 r2' (Hcore a2 Ha2) E2) as (r2 & Hr2 & Ec2).
    apply (wi_apart _ _ _ _ I t a1 a2 r1 r2 (HBin t a1 H1) (HBin t a2 H2) Hr1 Hr2).
    destruct (wcore_fields _ _ Ec1) as (_ & <- & _). by destruct (wcore_fields _ _ Ec2) as (_ & <- & _).
  - intros t rt Hrt Hne. rewrite qput_ne by done. by apply (wi_wait _ _ _ _ I).
  - intros t Ht. destruct (decide (t = x)) as [->|Hne]; [|rewrite qput_ne by done; by apply (wi_idle _ _ _ _ I)].
    rewrite (wi_idle _ _ _ _ I x Ht) in HB. done.
  - assert (Hw0 : w <> 0) by (intros ->; set_solver). specialize (Hcore 0 ltac:(done)). rewrite (wi_null _ _ _ _ I) in Hcore.
    fold m'. by destruct (m' !! 0).
  - apply I.
Qed.

(** Only the functions' values matter. *)
Lemma winv_ext x B B' W W' k : (forall t, B t = B' t) -> (forall o, W o = W' o) -> winv x B W k -> winv x B' W' k.
Proof.
  intros EB EW I. split; intros; rewrite <- ?EB, <- ?EW in *; try by apply I.
  - destruct (wi_mem _ _ _ _ I o w) as (r & ? & ? & ?); [done|]. exists r. by rewrite <- EB.
  - destruct (wi_block _ _ _ _ I t w) as (r & ? & ? & ? & ?); [done|]. exists r. by rewrite <- EW.
  - by apply (wi_apart _ _ _ _ I t w1 w2 r1 r2).
Qed.

(** The objects are as before but for the ends of their wait lists. *)
Definition same_objects (k k' : kernel) : Prop := forall o, ocore <$> objects k' !! o = ocore <$> objects k !! o.

Definition only_waits (k k' : kernel) : Prop :=
  k_sched k' = k_sched k /\ k_wheel k' = k_wheel k /\ waits k' = waits k /\ same_objects k k'.

Lemma only_waits_refl k : only_waits k k.
Proof. by repeat split. Qed.

Lemma only_waits_trans k1 k2 k3 : only_waits k1 k2 -> only_waits k2 k3 -> only_waits k1 k3.
Proof. intros (?&?&?&H) (?&?&?&H'). split_and!; [congruence..|]. intros o. by rewrite H', H. Qed.

Lemma removed_only w o r ro l1 l2 k : objects k !! o = Some ro -> only_waits k (removed w o r ro l1 l2 k).
Proof.
  intros Hro. split_and!; try done. intros o'. cbn [objects removed].
  destruct (decide (o' = o)) as [->|]; [by rewrite lookup_insert_eq, Hro|by rewrite lookup_insert_ne].
Qed.

(** One block of a thread is removed. *)
Lemma remove_block x B W k w l :
  winv x B W k -> B x = w :: l ->
  exists k' r', remove_from_waitlist w k = Done (tt, k') /\ winv x (qput x l B) (fun o => minus [w] (W o)) k' /\ only_waits k k' /\
    waitblocks k' !! w = Some r' /\ wb_next r' = hd 0 l.
Proof.
  intros I HB. assert (Hin : w ∈ B x) by (rewrite HB; by left).
  destruct (wi_block _ _ _ _ I x w Hin) as (r & Hr & Ht & _ & HW). set (o := wb_object r) in *.
  destruct (objects k !! o) as [ro|] eqn:Hro; [|rewrite (wi_none _ _ _ _ I o Hro) in HW; by apply elem_of_nil in HW].
  destruct (wi_obj _ _ _ _ I o ro Hro) as [Hh Htl]. pose proof (wi_nodup _ _ _ _ I o) as Hnd.
  pose proof (wlist_no_null _ _ _ _ o I) as H0. pose proof (wi_list _ _ _ _ I o) as Hdl.
  apply list_elem_of_split in HW as (l1 & l2 & EW). rewrite EW in *.
  exists (removed w o r ro l1 l2 k). eexists. split; [by apply remove_wb_run|]. split; [|split; [by apply removed_only|]].
  - apply (winv_ext x (qput x l B) _ (qput o (l1 ++ l2) W)); [done| |by apply removed_winv].
    intros o'. destruct (decide (o' = o)) as [->|Hne]; [rewrite qput_eq, EW; symmetry; by apply minus_mid|].
    rewrite qput_ne by done. symmetry. apply minus_id. intros a Ha ->%list_elem_of_singleton. apply Hne.
    apply (wlists_apart _ _ _ _ w o' o I Ha). rewrite EW. set_solver.
  - split; [apply lookup_insert_eq|]. pose proof (wi_chain _ _ _ _ I x) as Hch. rewrite HB in Hch. destruct Hch as [(r1 & Hr1 & Hn) _].
    assert (r1 = r) as -> by congruence. exact Hn.
Qed.

Lemma cancel_loop_run x l : forall n B W k, winv x B W k -> B x = l -> (length l < n)%nat ->
  exists k', cancel_loop n (hd 0 l) k = Done (tt, k') /\ winv x (qput x [] B) (fun o => minus l (W o)) k' /\ only_waits k k'.
Proof.
  induction l as [|w l IH]; intros [|n] B W k I HB Hn; [cbn in Hn; lia| |cbn in Hn; lia|].
  - exists k. split; [done|]. split; [|apply only_waits_refl]. apply (winv_ext x B _ W); [| |done].
    + intros t. destruct (decide (t = x)) as [->|]; [by rewrite qput_eq|by rewrite qput_ne].
    + intros o. symmetry. apply minus_id. intros a _ ?%elem_of_nil. done.
  - assert (Hw0 : w <> 0).
    { intros ->. destruct (wi_block _ _ _ _ I x 0) as (r & Hr & _); [rewrite HB; by left|]. by rewrite (wi_null _ _ _ _ I) in Hr. }
    destruct (remove_block x B W k w l I HB) as (k1 & r1 & E1 & I1 & Ho1 & Hr1 & Hn1).
    destruct (IH n (qput x l B) _ k1 I1 (qput_eq _ _ _)) as (k2 & E2 & I2 & Ho2); [cbn in Hn; lia|].
    exists k2. split_and!; [|apply (winv_ext x (qput x [] (qput x l B)) _ (fun o => minus l (minus [w] (W o)))); [| |done]|
      by apply (only_waits_trans k k1)].
    + cbn [cancel_loop hd]. destruct (Z.eqb_spec w 0); [done|]. step E1. step (get_wb_run w r1 k1 Hr1). by rewrite Hn1.
    + intros t. destruct (decide (t = x)) as [->|]; [by rewrite !qput_eq|by rewrite !qput_ne].
    + intros o. symmetry. apply minus_cons.
Qed.

(** A change of the threads' fields. *)
Lemma winv_waits x x' B W k m :
  winv x B W k -> (forall t r, m !! t = Some r -> t <> x' -> waitlist r = hd 0 (B t)) -> (forall t, m !! t = None -> B t = []) ->
  m !! 0 = None -> winv x' B W (set_waits m k).
Proof. by intros [H1 H2 H3 H4 H5 H6 H7 H8 H9 H10 H11 H12 H13] ? ? ?; split. Qed.

Lemma winv_loosen t B W k : winv 0 B W k -> winv t B W k.
Proof.
  intros I. pose proof I as [H1 H2 H3 H4 H5 H6 H7 H8 H9 H10 H11 H12 H13]. split; try done.
  intros a r Hr _. apply (H10 a r Hr). intros ->. congruence.
Qed.

Lemma blocks_bound B W k t : winv 0 B W k -> (length (B t) < rounds k)%nat.
Proof.
  intros I. unfold rounds. apply Nat.lt_succ_r, nodup_size; [apply I|]. intros a Ha.
  destruct (wi_block _ _ _ _ I t a Ha) as (r & -> & _). by eexists.
Qed.

Lemma wlist_bound B W k o : winv 0 B W k -> (length (W o) < rounds k)%nat.
Proof.
  intros I. unfold rounds. apply Nat.lt_succ_r, nodup_size; [apply I|]. intros a Ha.
  destruct (wi_mem _ _ _ _ I o a Ha) as (r & -> & _). by eexists.
Qed.

(** The thread [t] no longer waits. *)
Definition cancelled (t : Z) (B W : Z -> list Z) (w : twait) (k k' : kernel) : Prop :=
  winv 0 (qput t [] B) (fun o => minus (B t) (W o)) k' /\ k_sched k' = k_sched k /\ k_wheel k' = k_wheel k /\
  same_objects k k' /\ waits k' = <[t := set_waitlist 0 w]> (waits k).

Lemma cancel_run t B W k w : winv 0 B W k -> waits k !! t = Some w ->
  exists k', cancel_wait t k = Done (tt, k') /\ cancelled t B W w k k'.
Proof.
  intros I Hw. assert (Ht0 : t <> 0) by (intros ->; by rewrite (wi_thread _ _ _ _ I) in Hw).
  destruct (cancel_loop_run t (B t) (rounds k) B W k (winv_loosen t B W k I) eq_refl (blocks_bound B W k t I)) as (k1 & E1 & I1 & Hs & Hwh & Hwt & Ho).
  unfold cancel_wait. step (eq_refl : kget k = Done (k, k)). step (get_wait_run t w k Hw).
  rewrite (wi_wait _ _ _ _ I t w Hw Ht0). step E1. rewrite <- Hwt in Hw. rewrite (upd_wait_run t w _ k1 Hw).
  eexists. split; [done|]. split_and!; try done; [|by cbn; rewrite Hwt].
  apply (winv_waits t); [done| | |].
  - intros a r. destruct (decide (a = t)) as [->|Hne]; [rewrite lookup_insert_eq, qput_eq; by intros [= <-]|].
    rewrite lookup_insert_ne by done. intros Hr _. by apply (wi_wait _ _ _ _ I1 a r).
  - intros a. destruct (decide (a = t)) as [->|Hne]; [by rewrite lookup_insert_eq|]. rewrite lookup_insert_ne by done. apply (wi_idle _ _ _ _ I1 a).
  - rewrite lookup_insert_ne by done. apply I1.
Qed.

(** The key of the last signaled object of the blocks [l]. *)
Fixpoint ready_key (k : kernel) (l : list Z) (v : Z) : Z :=
  match l with
  | [] => v
  | w :: l' =>
    match waitblocks k !! w with
    | Some r => match objects k !! wb_object r with
                | Some o => ready_key k l' (if signaled o =? 0 then v else wb_waitkey r)
                | None => ready_key k l' v
                end
    | None => ready_key k l' v
    end
  end.

Lemma ready_key_waits k m l v : ready_key (set_waits m k) l v = ready_key k l v.
Proof. revert v. induction l as [|w l IH]; intros v; [done|]. cbn [ready_key]. cbn [waitblocks set_waits objects]. destruct (waitblocks k !! w); [|done]. by destruct (objects k !! _). Qed.

Lemma ready_loop_run t l : forall n any w k,
  wchain (waitblocks k) l -> waits k !! t = Some w -> waitblocks k !! 0 = None ->
  (forall a, a ∈ l -> exists r, waitblocks k !! a = Some r /\ waittype r = WAIT_ANY /\ is_Some (objects k !! wb_object r)) ->
  (length l < n)%nat ->
  ready_loop n t (hd 0 l) any true k = Done (true, set_waits (<[t := set_waitkey (ready_key k l (waitkey w)) w]> (waits k)) k).
Proof.
  induction l as [|a l IH]; intros [|n] any w k Hch Hw H0 Hl Hn; [cbn in Hn; lia| |cbn in Hn; lia|].
  - cbn [ready_loop hd ready_key]. rewrite orb_true_r. assert (set_waitkey (waitkey w) w = w) as -> by (by destruct w).
    rewrite insert_id by done. by destruct k.
  - destruct (Hl a) as (r & Hr & Hty & o & Ho); [by left|]. destruct Hch as [(r' & Hr' & Hnx) Hch]. assert (r' = r) as -> by congruence.
    cbn [ready_loop hd ready_key]. destruct (Z.eqb_spec a 0) as [->|_]; [by rewrite H0 in Hr|]. step (get_wb_run a r k Hr).
    step (get_obj_run _ o k Ho). rewrite Hty, Z.eqb_refl, Hr, Ho, Hnx.
    assert (Hl' : forall b, b ∈ l -> exists r, waitblocks k !! b = Some r /\ waittype r = WAIT_ANY /\ is_Some (objects k !! wb_object r))
      by (intros b Hb; apply Hl; by right).
    destruct (signaled o =? 0); cbn [negb]; [apply IH; try done; cbn in Hn; lia|]. step (upd_wait_run t w _ k Hw).
    rewrite (IH n true (set_waitkey (wb_waitkey r) w)); [|done|apply lookup_insert_eq|done|done|cbn in Hn; lia].
    rewrite ready_key_waits. cbn [waits set_waits]. rewrite insert_insert_eq. reflexivity.
Qed.

(** A thread that waits for any of its objects is always found ready. *)
Lemma ready_run t B W k w : winv 0 B W k -> waits k !! t = Some w ->
  thread_ready_to_run t k = Done (true, set_waits (<[t := set_waitkey (ready_key k (B t) (waitkey w)) w]> (waits k)) k).
Proof.
  intros I Hw. assert (Ht0 : t <> 0) by (intros ->; by rewrite (wi_thread _ _ _ _ I) in Hw). unfold thread_ready_to_run.
  step (eq_refl : kget k = Done (k, k)). step (get_wait_run t w k Hw). rewrite (wi_wait _ _ _ _ I t w Hw Ht0).
  apply ready_loop_run; [apply I|done|apply I| |by apply (blocks_bound B W)].
  intros a Ha. destruct (wi_block _ _ _ _ I t a Ha) as (r & Hr & _ & Hty & HW). exists r. split; [done|]. split; [done|].
  destruct (objects k !! wb_object r) as [o|] eqn:Ho; [by eexists|]. rewrite (wi_none _ _ _ _ I _ Ho) in HW. by apply elem_of_nil in HW.
Qed.

(** ** Releasing threads *)

(** The wait lists and the scheduler are right; the threads that wait exist. *)
Record kbase (B W : Z -> list Z) (k : kernel) : Prop := {
  kb_waits : winv 0 B W k;
  kb_good : good (k_sched k);
  kb_known : forall t, B t <> [] -> is_Some (threads (k_sched k) !! t);
  kb_fields : forall t, is_Some (threads (k_sched k) !! t) -> is_Some (waits k !! t);
}.

(** A change of an object that is not one of its wait list. *)
Lemma kbase_obj B W k o r r' : kbase B W k -> objects k !! o = Some r -> waitlist_head r' = waitlist_head r ->
  waitlist_tail r' = waitlist_tail r -> kbase B W (set_objects (<[o := r']> (objects k)) k).
Proof.
  intros [I Hg Hk Hf] Hr Hh Ht. split; try done. destruct I as [H1 H2 H3 H4 H5 H6 H7 H8 H9 H10 H11 H12 H13]. split; try done.
  - intros o' r0. cbn [objects set_objects]. destruct (decide (o' = o)) as [->|]; [|rewrite lookup_insert_ne by done; apply H1].
    rewrite lookup_insert_eq. intros [= <-]. rewrite Hh, Ht. by apply H1.
  - intros o' H. cbn [objects set_objects] in H. apply lookup_insert_None in H as [H _]. by apply H2.
Qed.

(** A change of a thread's [waitkey]. *)
Lemma kbase_key B W k t w v : kbase B W k -> waits k !! t = Some w -> kbase B W (set_waits (<[t := set_waitkey v w]> (waits k)) k).
Proof.
  intros [I Hg Hk Hf] Hw. assert (Hone : forall a, is_Some (<[t := set_waitkey v w]> (waits k) !! a) <-> is_Some (waits k !! a)).
  { intros a. rewrite lookup_insert_is_Some'. split; [|by right]. intros [->|?]; [by eexists|done]. }
  split; try done; [|intros a Ha; apply Hone; by apply Hf].
  apply (winv_waits 0); [done| | |].
  - intros a r. destruct (decide (a = t)) as [->|Hne]; [|rewrite lookup_insert_ne by done; apply (wi_wait _ _ _ _ I)].
    rewrite lookup_insert_eq. intros [= <-] Ht0. by apply (wi_wait _ _ _ _ I t w).
  - intros a Ha. apply (wi_idle _ _ _ _ I). apply eq_None_not_Some. intros H%Hone. by rewrite Ha in H; destruct H.
  - rewrite lookup_insert_ne; [apply I|]. intros ->. by rewrite (wi_thread _ _ _ _ I) in Hw.
Qed.

(** What an operation on wait lists keeps: the other objects, the running
    thread and all threads; wait lists only get shorter. *)
Record freeing (B B' W W' : Z -> list Z) (k k' : kernel) : Prop := {
  fr_fewer : forall o a, a ∈ W' o -> a ∈ W o;
  fr_blocks : forall t a, a ∈ B' t -> a ∈ B t;
  fr_current : current (k_sched k') = current (k_sched k);
  fr_wheel : k_wheel k' = k_wheel k;
}.

Lemma freeing_refl B W k : freeing B B W W k k.
Proof. by split. Qed.

Lemma freeing_trans B1 B2 B3 W1 W2 W3 k1 k2 k3 :
  freeing B1 B2 W1 W2 k1 k2 -> freeing B2 B3 W2 W3 k2 k3 -> freeing B1 B3 W1 W3 k1 k3.
Proof. intros [H1 H2 H3 H4] [H5 H6 H7 H8]. split; [auto..|congruence|congruence]. Qed.

Lemma release_thread_run B W k t :
  kbase B W k -> B t <> [] -> t <> current (k_sched k) ->
  panics_or (release_thread t k) (fun _ k' =>
    kbase (qput t [] B) (fun o => minus (B t) (W o)) k' /\ same_objects k k' /\ freeing B (qput t [] B) W (fun o => minus (B t) (W o)) k k').
Proof.
  intros Hk HB Hne. pose proof Hk as [I Hg Hkn Hf]. destruct (Hkn t HB) as [r Hr]. destruct (Hf t ltac:(by eexists)) as [w Hw].
  destruct (cancel_run t B W k w I Hw) as (k1 & E1 & I1 & Hs & Hwh & Ho & Hwt). unfold release_thread. step E1.
  unfold on_sched, kzoom. rewrite Hs. pose proof (mark_other (k_sched k) t r 1 1 Hg Hr Hne ltac:(done)) as Hm.
  destruct (mark_thread_ready t 1 1 (k_sched k)) as [[[] s']|m| |]; [|done..]. destruct Hm as (Hg' & Ht & Hkp).
  assert (Hkeep : forall a, is_Some (threads s' !! a) -> is_Some (threads (k_sched k) !! a)).
  { intros a [ra Ha]. destruct (decide (a = t)) as [->|Hat]; [by eexists|]. destruct Ht as [_ Ht]. specialize (Ht a Hat). rewrite Ha in Ht.
    by destruct (threads (k_sched k) !! a). }
  split; [|split; [exact Ho|]].
  - split; [by destruct I1; split|done| |].
    + intros a. destruct (decide (a = t)) as [->|Hat]; [by rewrite qput_eq|]. rewrite qput_ne by done. intros Ha. by apply Hkp, Hkn.
    + intros a Ha. cbn [waits set_sched]. rewrite Hwt, lookup_insert_is_Some'. right. by apply Hf, Hkeep.
  - split; [intros o a Ha%elem_of_minus; by destruct Ha| |by destruct Ht|done].
    intros a b. destruct (decide (a = t)) as [->|Hat]; [rewrite qput_eq; by intros ?%elem_of_nil|by rewrite qput_ne].
Qed.

(** The object [e] is [r] but for the ends of its wait list, and the others
    are as before. *)
Definition obj_is (e : Z) (r : kobject) (k : kernel) : Prop := ocore <$> objects k !! e = Some (ocore r).
Definition objs_but (e : Z) (k k' : kernel) : Prop := forall o, o <> e -> ocore <$> objects k' !! o = ocore <$> objects k !! o.

Lemma obj_is_lookup e r k : obj_is e r k -> exists r', objects k !! e = Some r' /\ ocore r' = ocore r.
Proof. unfold obj_is. destruct (objects k !! e) as [r'|]; [|done]. intros H. exists r'. split; [done|]. change (Some (ocore r') = Some (ocore r)) in H. congruence. Qed.

Lemma ocore_fields r r' : ocore r' = ocore r -> o_type r' = o_type r /\ signaled r' = signaled r /\ manual_reset r' = manual_reset r /\
  count r' = count r /\ owner r' = owner r /\ recursion r' = recursion r /\ exitcode r' = exitcode r.
Proof. unfold ocore, set_waitlist_head, set_waitlist_tail. cbn. by intros [=]. Qed.

Lemma obj_is_same e r k k' : same_objects k k' -> obj_is e r k -> obj_is e r k'.
Proof. intros H. unfold obj_is. by rewrite H. Qed.

Lemma same_but e k k' : same_objects k k' -> objs_but e k k'.
Proof. intros H o _. apply H. Qed.

Lemma objs_but_trans e k1 k2 k3 : objs_but e k1 k2 -> objs_but e k2 k3 -> objs_but e k1 k3.
Proof. intros H1 H2 o Ho. by rewrite H2, H1. Qed.

(** An update of the object [e] that commutes with the ends of the list. *)
Lemma upd_obj_is e r k f : obj_is e r k -> (forall r, ocore (f r) = f (ocore r)) -> (forall r, waitlist_head (f r) = waitlist_head r) ->
  (forall r, waitlist_tail (f r) = waitlist_tail r) ->
  exists k', upd_obj e f k = Done (tt, k') /\ obj_is e (f r) k' /\ objs_but e k k' /\ k_sched k' = k_sched k /\ waits k' = waits k /\
    waitblocks k' = waitblocks k /\ k_wheel k' = k_wheel k /\ forall B W, kbase B W k -> kbase B W k'.
Proof.
  intros He Hf Hh Ht. destruct (obj_is_lookup e r k He) as (r0 & Hr0 & E). rewrite (upd_obj_run e r0 f k Hr0).
  eexists. split; [done|]. split_and!; try done.
  - unfold obj_is. cbn [objects set_objects]. rewrite lookup_insert_eq. cbn. by rewrite Hf, E, <- Hf.
  - intros o Ho. cbn [objects set_objects]. by rewrite lookup_insert_ne.
  - intros B W Hk. by apply (kbase_obj B W k e r0).
Qed.

(** The first block of a wait list. *)
Lemma head_block B W k o w l : winv 0 B W k -> W o = w :: l ->
  exists r, waitblocks k !! w = Some r /\ w <> 0 /\ next_wait r = hd 0 l /\ B (wb_thread r) <> [] /\ minus (B (wb_thread r)) (W o) = l.
Proof.
  intros I HW. destruct (wi_mem _ _ _ _ I o w) as (r & Hr & Ho & HB); [rewrite HW; by left|]. exists r.
  pose proof (wi_list _ _ _ _ I o) as Hdl. rewrite HW in Hdl. destruct (dlist_at _ [] w l r Hdl Hr) as [_ Hn].
  pose proof (wi_nodup _ _ _ _ I o) as Hnd. rewrite HW in Hnd. apply NoDup_cons in Hnd as [Hwl _].
  split; [done|]. split; [intros ->; by rewrite (wi_null _ _ _ _ I) in Hr|]. split; [exact Hn|]. split; [by intros E; rewrite E in HB; apply elem_of_nil in HB|].
  rewrite HW. unfold minus. rewrite filter_cons_False by (intros H; by apply H). apply minus_id. intros a Ha HaB.
  destruct (wi_mem _ _ _ _ I o a) as (ra & Hra & Hoa & _); [rewrite HW; by right|].
  assert (a = w) as -> by (apply (wi_apart _ _ _ _ I _ a w ra r HaB HB Hra Hr); congruence). done.
Qed.

(** The first waiter is found ready; only its [waitkey] changes. *)
Lemma visit_head B W k o w l : kbase B W k -> W o = w :: l -> B (current (k_sched k)) = [] ->
  exists r k1, get_wb w k = Done (r, k) /\ w <> 0 /\ next_wait r = hd 0 l /\ B (wb_thread r) <> [] /\ minus (B (wb_thread r)) (W o) = l /\
    wb_thread r <> current (k_sched k) /\ thread_ready_to_run (wb_thread r) k = Done (true, k1) /\
    kbase B W k1 /\ k_sched k1 = k_sched k /\ objects k1 = objects k /\ k_wheel k1 = k_wheel k /\ waitblocks k1 = waitblocks k /\
    is_Some (waits k1 !! wb_thread r).
Proof.
  intros Hk HW Hcur. pose proof Hk as [I Hg Hkn Hf]. destruct (head_block B W k o w l I HW) as (r & Hr & Hw0 & Hn & HB & Hm).
  destruct (Hf _ (Hkn _ HB)) as [tw Htw]. exists r.
  exists (set_waits (<[wb_thread r := set_waitkey (ready_key k (B (wb_thread r)) (waitkey tw)) tw]> (waits k)) k).
  split; [by apply get_wb_run|]. split_and!; try done.
  - intros E. by rewrite E in HB.
  - by apply (ready_run _ B W).
  - by apply kbase_key.
  - cbn [waits set_waits]. rewrite lookup_insert_eq. by eexists.
Qed.

(** The thread of the first block is released; the rest of the list stays. *)
Lemma release_head B W k t o l :
  kbase B W k -> B t <> [] -> t <> current (k_sched k) -> minus (B t) (W o) = l -> B (current (k_sched k)) = [] ->
  panics_or (release_thread t k) (fun _ k' => exists B' W',
    kbase B' W' k' /\ W' o = l /\ B' (current (k_sched k')) = [] /\ same_objects k k' /\ freeing B B' W W' k k').
Proof.
  intros Hk HB Hne Hm Hcur. eapply panics_or_mono; [by apply (release_thread_run B W k t)|]. intros _ k' (Hk' & Ho & Hf).
  eexists _, _. split; [exact Hk'|]. split; [exact Hm|]. split_and!; [|done..]. apply elem_of_nil_inv. intros a Ha.
  rewrite (fr_current _ _ _ _ _ _ Hf) in Ha. apply (fr_blocks _ _ _ _ _ _ Hf) in Ha. rewrite Hcur in Ha. by apply elem_of_nil in Ha.
Qed.

(** A step that changes neither wait lists nor the scheduler. *)
Lemma freeing_from B B' W W' k k0 k' :
  k_sched k = k_sched k0 -> k_wheel k = k_wheel k0 -> freeing B B' W W' k k' -> freeing B B' W W' k0 k'.
Proof. intros Hs Hw [F1 F2 F3 F4]. split; [done..|congruence|congruence]. Qed.

(** All threads that wait for [o] are released. *)
Lemma release_loop_run o key l : forall n B W k,
  kbase B W k -> W o = l -> B (current (k_sched k)) = [] -> (length l < n)%nat ->
  panics_or (release_loop n (hd 0 l) key k) (fun _ k' => exists B' W',
    kbase B' W' k' /\ W' o = [] /\ same_objects k k' /\ freeing B B' W W' k k').
Proof.
  induction l as [|w l IH]; intros [|n] B W k Hk HW Hcur Hn; [cbn in Hn; lia| |cbn in Hn; lia|].
  - exists B, W. split; [done|]. split; [done|]. split; [by intros o'|apply freeing_refl].
  - destruct (visit_head B W k o w l Hk HW Hcur) as (r & k1 & E & Hw0 & Hnx & HB & Hm & Hne & E1 & Hk1 & Hs1 & Ho1 & Hwh1 & Hwb1 & tw & Htw).
    cbn [release_loop hd]. destruct (Z.eqb_spec w 0); [done|]. step E. step E1. rewrite Hnx.
    eapply panics_or_bind; [step (upd_wait_run _ tw _ k1 Htw); apply (release_head B W _ (wb_thread r) o l); [by apply kbase_key|done| |done|]; cbn; by rewrite Hs1|].
    intros _ k3 (B3 & W3 & Hk3 & HW3 & Hcur3 & Ho3 & Hf3). eapply panics_or_mono; [apply (IH n B3 W3 k3); [done..|cbn in Hn; lia]|].
    intros _ k4 (B4 & W4 & Hk4 & HW4 & Ho4 & Hf4). exists B4, W4. split; [done|]. split; [done|]. split.
    + intros o'. rewrite Ho4, Ho3. cbn [objects set_waits]. by rewrite Ho1.
    + eapply freeing_trans; [|exact Hf4]. by eapply freeing_from; [| |exact Hf3].
Qed.

(** The waiters of an event. *)
Lemma set_event_loop_run e ro l : forall n B W k,
  kbase B W k -> W e = l -> obj_is e ro k -> B (current (k_sched k)) = [] -> (length l < n)%nat ->
  panics_or (set_event_loop n e (hd 0 l) k) (fun _ k' => exists B' W',
    kbase B' W' k' /\ objs_but e k k' /\ freeing B B' W W' k k' /\
    if (manual_reset ro =? 0) && negb (bool_decide (l = [])) then obj_is e (set_signaled 0 ro) k' /\ W' e = tail l
    else obj_is e ro k' /\ W' e = []).
Proof.
  induction l as [|w l IH]; intros [|n] B W k Hk HW He Hcur Hn; [cbn in Hn; lia| |cbn in Hn; lia|].
  - exists B, W. split; [done|]. split; [by intros o'|]. split; [apply freeing_refl|]. rewrite bool_decide_eq_true_2 by done.
    by rewrite andb_false_r.
  - destruct (visit_head B W k e w l Hk HW Hcur) as (r & k1 & E & Hw0 & Hnx & HB & Hm & Hne & E1 & Hk1 & Hs1 & Ho1 & Hwh1 & Hwb1 & _).
    cbn [set_event_loop hd]. destruct (Z.eqb_spec w 0); [done|]. step E. step E1. rewrite Hnx.
    eapply panics_or_bind; [apply (release_head B W k1 (wb_thread r) e l); [done..| |done|]; by rewrite Hs1|].
    intros _ k3 (B3 & W3 & Hk3 & HW3 & Hcur3 & Ho3 & Hf3). rewrite bool_decide_eq_false_2 by done. cbn [negb tail]. rewrite andb_true_r.
    assert (He3 : obj_is e ro k3) by (apply (obj_is_same e ro k1); [done|]; unfold obj_is; by rewrite Ho1).
    assert (Hb3 : objs_but e k k3) by (intros o Ho; rewrite Ho3; by rewrite Ho1).
    apply (freeing_from _ _ _ _ k1 k) in Hf3; [|done..].
    destruct (obj_is_lookup e ro k3 He3) as (r3 & Hr3 & Ec). destruct (ocore_fields _ _ Ec) as (_ & _ & Hma & _).
    step (get_obj_run e r3 k3 Hr3). rewrite Hma. destruct (Z.eqb_spec (manual_reset ro) 0) as [Em|Em].
    + destruct (upd_obj_is e ro k3 (set_signaled 0) He3) as (k4 & E4 & He4 & Hb4 & Hs4 & _ & _ & Hwh4 & Hk4); [done..|]. rewrite E4.
      exists B3, W3. split; [by apply Hk4|]. split; [by apply (objs_but_trans e k k3)|]. split; [|done].
      destruct Hf3 as [F1 F2 F3 F4]. by split; [..|congruence|congruence].
    + eapply panics_or_mono; [apply (IH n B3 W3 k3); [done..|cbn in Hn; lia]|].
      intros _ k4 (B4 & W4 & Hk4 & Hb4 & Hf4 & Hpost). exists B4, W4. split; [done|]. split; [by apply (objs_but_trans e k k3)|].
      split; [by eapply freeing_trans|]. by destruct (Z.eqb_spec (manual_reset ro) 0).
Qed.

(** The semaphore after [n] threads want a resource. *)
Definition sem_after (n : nat) (ro : kobject) : kobject :=
  let c := Z.max 0 (count ro - Z.of_nat n) in
  set_signaled (if c =? 0 then 0 else signaled ro) (set_count c ro).

(** The waiters of a semaphore: as many as there are resources are released,
    those that wait longest. *)
Lemma sem_loop_run s l : forall n ro B W k,
  kbase B W k -> W s = l -> obj_is s ro k -> 0 < count ro < W32 -> B (current (k_sched k)) = [] -> (length l < n)%nat ->
  panics_or (sem_loop n s (hd 0 l) k) (fun _ k' => exists B' W',
    kbase B' W' k' /\ objs_but s k k' /\ freeing B B' W W' k k' /\
    obj_is s (sem_after (length l) ro) k' /\ W' s = drop (Z.to_nat (count ro)) l).
Proof.
  induction l as [|w l IH]; intros [|n] ro B W k Hk HW He Hc Hcur Hn; [cbn in Hn; lia| |cbn in Hn; lia|].
  - exists B, W. split; [done|]. split; [by intros o'|]. split; [apply freeing_refl|]. rewrite drop_nil. split; [|done].
    unfold sem_after. cbn [length]. rewrite Z.max_r by lia. rewrite Z.sub_0_r. destruct (Z.eqb_spec (count ro) 0); [lia|]. by destruct ro.
  - destruct (visit_head B W k s w l Hk HW Hcur) as (r & k1 & E & Hw0 & Hnx & HB & Hm & Hne & E1 & Hk1 & Hs1 & Ho1 & Hwh1 & Hwb1 & _).
    cbn [sem_loop hd]. destruct (Z.eqb_spec w 0); [done|]. step E. step E1. rewrite Hnx.
    assert (He1 : obj_is s ro k1) by (unfold obj_is; by rewrite Ho1). destruct (obj_is_lookup s ro k1 He1) as (r1 & Hr1 & Ec1).
    destruct (ocore_fields _ _ Ec1) as (_ & _ & _ & Hcn & _). step (get_obj_run s r1 k1 Hr1). rewrite Hcn, u32_small by (unfold is_u32; lia).
    destruct (upd_obj_is s ro k1 (set_count (count ro - 1)) He1) as (k2 & E2 & He2 & Hb2 & Hs2 & _ & _ & Hwh2 & Hk2); [done..|]. step E2.
    eapply panics_or_bind; [apply (release_head B W k2 (wb_thread r) s l); [by apply Hk2|done| |done|]; by rewrite Hs2, Hs1|].
    intros _ k3 (B3 & W3 & Hk3 & HW3 & Hcur3 & Ho3 & Hf3). set (ro2 := set_count (count ro - 1) ro) in *.
    assert (He3 : obj_is s ro2 k3) by (by apply (obj_is_same s ro2 k2)).
    assert (Hb3 : objs_but s k k3) by (intros o Ho; rewrite Ho3, Hb2 by done; by rewrite Ho1).
    apply (freeing_from _ _ _ _ k2 k) in Hf3; [|congruence..].
    destruct (obj_is_lookup s ro2 k3 He3) as (r3 & Hr3 & Ec3). destruct (ocore_fields _ _ Ec3) as (_ & _ & _ & Hc3 & _).
    step (get_obj_run s r3 k3 Hr3). rewrite Hc3. change (count ro2) with (count ro - 1). destruct (Z.eqb_spec (count ro - 1) 0) as [Em|Em].
    + destruct (upd_obj_is s ro2 k3 (set_signaled 0) He3) as (k4 & E4 & He4 & Hb4 & Hs4 & _ & _ & Hwh4 & Hk4); [done..|]. rewrite E4.
      exists B3, W3. split; [by apply Hk4|]. split; [by apply (objs_but_trans s k k3)|]. split; [destruct Hf3 as [F1 F2 F3 F4]; by split; [..|congruence|congruence]|].
      assert (Ec : count ro = 1) by lia. unfold sem_after. cbn [length]. rewrite Ec, Z.max_l by lia. split; [|by rewrite HW3].
      unfold ro2 in He4. by rewrite Em in He4.
    + eapply panics_or_mono; [apply (IH n ro2 B3 W3 k3); [done..|cbn; lia|done|cbn in Hn; lia]|].
      intros _ k4 (B4 & W4 & Hk4 & Hb4 & Hf4 & Hpost & HW4). exists B4, W4. split; [done|]. split; [by apply (objs_but_trans s k k3)|].
      split; [by eapply freeing_trans|]. split.
      * unfold sem_after in *. cbn [count set_count ro2 length signaled] in *.
        replace (Z.max 0 (count ro - Z.of_nat (S (length l)))) with (Z.max 0 (count ro - 1 - Z.of_nat (length l))) by lia. exact Hpost.
      * rewrite HW4. cbn [count set_count ro2]. replace (Z.to_nat (count ro)) with (S (Z.to_nat (count ro - 1))) by lia. done.
Qed.

(** Looking for the first waiter that can run. *)
Lemma first_ready_run B W k o : kbase B W k -> B (current (k_sched k)) = [] ->
  exists k1, first_ready_loop (rounds k) (hd 0 (W o)) k = Done (hd 0 (W o), k1) /\ kbase B W k1 /\
    k_sched k1 = k_sched k /\ objects k1 = objects k /\ k_wheel k1 = k_wheel k /\ waitblocks k1 = waitblocks k.
Proof.
  intros Hk Hcur. unfold rounds. cbn [first_ready_loop]. destruct (W o) as [|w l] eqn:HW; [by exists k|].
  destruct (visit_head B W k o w l Hk HW Hcur) as (r & k1 & E & Hw0 & Hnx & HB & Hm & Hne & E1 & Hk1 & Hs1 & Ho1 & Hwh1 & Hwb1 & _).
  cbn [hd]. destruct (Z.eqb_spec w 0); [done|]. step E. step E1. by exists k1.
Qed.

(** ** Starting to wait *)

(** The block [w] of the thread [x] is put behind the blocks of [x] and at the
    end of the wait list of [obj]. *)
Definition chained (l : list Z) (w : Z) (r : waitblock) (m : gmap Z waitblock) : gmap Z waitblock :=
  <[w := r]> (match last l with
              | Some z => match m !! z with Some rz => <[z := set_wb_next w rz]> m | None => m end
              | None => m
              end).

Definition link_block (l : list Z) (w t obj key : Z) : K kernel unit :=
  (match last l with Some z => upd_wb z (set_wb_next w) | None => kret tt end) ;;;
  new_wb w t obj WAIT_ANY key ;;;
  insert_in_waitlist obj w.

Definition inserted (lo : list Z) (w obj : Z) (r : waitblock) (ro : kobject) (m : gmap Z waitblock) (k : kernel) : kernel :=
  Kernel (k_sched k) (<[obj := set_waitlist_tail w (set_waitlist_head (hd w lo) ro)]> (objects k))
    (append m (last_of 0 lo) w r) (waits k) (k_wheel k).

Lemma insert_wb_run lo w obj r ro k :
  waitblocks k !! w = Some r -> objects k !! obj = Some ro -> waitlist_head ro = hd 0 lo -> waitlist_tail ro = last_of 0 lo ->
  0 ∉ lo -> w ∉ lo -> dlist (waitblocks k) 0 lo 0 ->
  insert_in_waitlist obj w k = Done (tt, inserted lo w obj r ro (waitblocks k) k).
Proof.
  intros Hr Hro Hh Ht H0 Hw Hdl. unfold insert_in_waitlist. step (upd_wb_run w r _ k Hr). set (k1 := set_waitblocks _ k).
  step (get_obj_run obj ro k1 Hro). rewrite Ht. step (upd_wb_run w _ _ k1 (lookup_insert_eq _ _ _)).
  cbn [waitblocks k1 set_waitblocks]. rewrite insert_insert_eq.
  set (m1 := <[w := set_prev_wait (last_of 0 lo) (set_next_wait 0 r)]> (waitblocks k)). set (k2 := set_waitblocks m1 _).
  assert (Hlast : last_of 0 lo <> 0 -> is_Some (waitblocks k2 !! last_of 0 lo)).
  { intros Hne. assert (Hin : last_of 0 lo ∈ lo) by (apply last_of_elem; by intros ->).
    change (waitblocks k2) with m1. unfold m1. rewrite lookup_insert_ne by (intros E; by rewrite <- E in Hin).
    destruct (dlist_lookup _ _ _ _ _ Hdl Hin) as [rl ->]. by eexists. }
  step (upd_next_run (last_of 0 lo) w k2 Hlast). set (k3 := set_waitblocks _ k2).
  step (upd_obj_run obj ro _ k3 Hro). step (get_obj_run obj _ _ (lookup_insert_eq _ _ _)).
  change (waitlist_head (set_waitlist_tail w ro)) with (waitlist_head ro). rewrite Hh.
  assert (Hb : forall v, objects (set_objects (<[obj := v]> (objects k3)) k3) = <[obj := v]> (objects k)) by done.
  assert (Hm : waitblocks k3 = append (waitblocks k) (last_of 0 lo) w r) by done. unfold inserted. rewrite <- Hm.
  destruct lo as [|a lo]; cbn [hd].
  - cbn [Z.eqb]. erewrite upd_obj_run by (rewrite Hb; apply lookup_insert_eq). by rewrite Hb, insert_insert_eq.
  - destruct (Z.eqb_spec a 0) as [->|_]; [by destruct H0; left|]. unfold kret. do 3 f_equal. cbn [hd] in Hh. rewrite <- Hh. by destruct ro.
Qed.

(** A wait block without any links. *)
Definition bcore (w : waitblock) : waitblock := wcore (set_wb_next 0 w).

Lemma bcore_fields r r' : bcore r' = bcore r ->
  wb_thread r' = wb_thread r /\ wb_object r' = wb_object r /\ waittype r' = waittype r /\ wb_waitkey r' = wb_waitkey r.
Proof. unfold bcore, wcore, set_next_wait, set_prev_wait, set_wb_next. cbn. by intros [=]. Qed.

Lemma bcore_lookup (m m' : gmap Z waitblock) a r : bcore <$> m' !! a = bcore <$> m !! a -> m !! a = Some r ->
  exists r', m' !! a = Some r' /\ bcore r' = bcore r.
Proof.
  intros H Hr. rewrite Hr in H. destruct (m' !! a) as [r'|]; [|done]. exists r'. split; [done|].
  change (Some (bcore r') = Some (bcore r)) in H. congruence.
Qed.

Lemma wchain_lookup m l a : wchain m l -> a ∈ l -> is_Some (m !! a).
Proof. induction l as [|w l IH]; [by intros _ ?%elem_of_nil|]. intros [(r & Hr & _) Hl] [->|Ha]%elem_of_cons; [by exists r|auto]. Qed.

Section Chained.
Context (m : gmap Z waitblock) (l : list Z) (w : Z) (r : waitblock).
Context (Hn : NoDup l) (Hw : w ∉ l) (Hl : wchain m l).

Lemma chained_eq : chained l w r m !! w = Some r.
Proof. apply lookup_insert_eq. Qed.

Lemma chained_out a : a <> w -> a ∉ l -> chained l w r m !! a = m !! a.
Proof.
  intros Ha Hal. unfold chained. rewrite lookup_insert_ne by done. destruct (last l) as [z|] eqn:E; [|done].
  destruct (m !! z); [|done]. rewrite lookup_insert_ne; [done|]. intros ->. apply Hal. by apply last_Some_elem_of.
Qed.

Lemma chained_same {B} (f : waitblock -> B) a : (forall v r, f (set_wb_next v r) = f r) -> a <> w ->
  f <$> chained l w r m !! a = f <$> m !! a.
Proof.
  intros Hf Ha. unfold chained. rewrite lookup_insert_ne by done. destruct (last l) as [z|] eqn:E; [|done].
  destruct (m !! z) as [rz|] eqn:Ez; [|done]. destruct (decide (a = z)) as [->|]; [|by rewrite lookup_insert_ne].
  rewrite lookup_insert_eq, Ez. cbn. by rewrite Hf.
Qed.

Lemma chained_wchain : wb_next r = 0 -> wchain (chained l w r m) (l ++ [w]).
Proof.
  intros Hr. assert (Hend : forall m', m' !! w = Some r -> wchain m' [w]) by (intros m' H; split; [by exists r|done]).
  destruct l as [|z l' _] using rev_ind; [apply Hend, lookup_insert_eq|]. unfold chained. rewrite last_snoc.
  destruct (wchain_lookup m (l' ++ [z]) z Hl) as [rz Hrz]; [set_solver|]. rewrite Hrz.
  set (m1 := <[w := r]> (<[z := set_wb_next w rz]> m)). assert (Hm1 : m1 !! w = Some r) by apply lookup_insert_eq.
  assert (Hz : m1 !! z = Some (set_wb_next w rz)) by (unfold m1; rewrite lookup_insert_ne by set_solver; apply lookup_insert_eq).
  assert (Ho : forall a, a ∈ l' -> m1 !! a = m !! a).
  { intros a Ha. apply NoDup_app in Hn as (_ & Hd & _). unfold m1. rewrite !lookup_insert_ne; [done| |set_solver].
    intros ->. apply (Hd a Ha). by left. }
  clearbody m1. clear Hn Hw. revert Hl Ho. induction l' as [|a l' IH]; cbn [app wchain hd].
  - intros _ _. split; [exists (set_wb_next w rz); by split|by apply Hend].
  - intros [(ra & Hra & Hnx) Hch] Ho. split; [|apply IH; [done|]; intros b Hb; apply Ho; by right].
    exists ra. rewrite Ho by by left. split; [done|]. rewrite Hnx. by destruct l'.
Qed.
End Chained.

Lemma last_of_cases (l : list Z) : last_of 0 l = 0 \/ last_of 0 l ∈ l.
Proof. destruct (decide (l = [])) as [->|H]; [by left|right; by apply last_of_elem]. Qed.

(** What [link_block] has to find: a free block, an object that the thread does
    not wait for yet. *)
Record linkable (x : Z) (B W : Z -> list Z) (k : kernel) (w obj : Z) (ro : kobject) : Prop := {
  lk_inv : winv x B W k;
  lk_null : w <> 0;
  lk_free : forall t, w ∉ B t;
  lk_obj : objects k !! obj = Some ro;
  lk_new : forall a ra, a ∈ B x -> waitblocks k !! a = Some ra -> wb_object ra <> obj;
  lk_wait : is_Some (waits k !! x);
}.

Lemma linkable_out x B W k w obj ro o : linkable x B W k w obj ro -> w ∉ W o.
Proof. intros L H. destruct (wi_mem _ _ _ _ (lk_inv _ _ _ _ _ _ _ L) o w H) as (r & _ & _ & HB). by apply (lk_free _ _ _ _ _ _ _ L) in HB. Qed.

Section Link.
Context (x : Z) (B W : Z -> list Z) (k : kernel) (w obj key : Z) (ro : kobject).
Context (L : linkable x B W k w obj ro).

Let I := lk_inv _ _ _ _ _ _ _ L.
Let r := WaitBlock x obj WAIT_ANY key 0 0 0.
Let m1 := chained (B x) w r (waitblocks k).
Let m' := append m1 (last_of 0 (W obj)) w r.
Let k' := inserted (W obj) w obj r ro m1 k.

Lemma link_prep_run :
  ((match last (B x) with Some z => upd_wb z (set_wb_next w) | None => kret tt end) ;;; new_wb w x obj WAIT_ANY key) k =
  Done (tt, set_waitblocks m1 k).
Proof.
  unfold m1, chained. destruct (last (B x)) as [z|] eqn:E; [|by destruct k].
  destruct (wchain_lookup _ _ z (wi_chain _ _ _ _ I x)) as [rz Hrz]; [by apply last_Some_elem_of|].
  step (upd_wb_run z rz _ k Hrz). rewrite Hrz. by destruct k.
Qed.

Lemma link_block_eq : link_block (B x) w x obj key k = Done (tt, k').
Proof.
  unfold link_block. pose proof link_prep_run as E. apply kbind_inv in E as ([] & k1 & E1 & E2). step E1. step E2.
  destruct (wi_obj _ _ _ _ I obj ro (lk_obj _ _ _ _ _ _ _ L)) as [Hh Ht].
  rewrite (insert_wb_run (W obj) w obj r ro);
    [done|apply chained_eq|apply L|exact Hh|exact Ht|by apply (wlist_no_null _ _ _ _ obj I)|by apply (linkable_out _ _ _ _ _ _ _ _ L)|].
  eapply dlist_frame; [|apply (wi_list _ _ _ _ I obj)]. intros a Ha. unfold same_links. cbn [waitblocks set_waitblocks].
  symmetry. apply chained_same; [done|]. intros ->. by apply (linkable_out _ _ _ _ _ _ _ obj L).
Qed.

Lemma link_core a : a <> w -> bcore <$> m' !! a = bcore <$> waitblocks k !! a.
Proof.
  intros Ha. unfold m'. rewrite (append_same bcore) by (apply chained_eq || done). by apply chained_same.
Qed.

Lemma link_at : exists r', m' !! w = Some r' /\ bcore r' = bcore r.
Proof. apply (bcore_lookup m1); [by apply append_same; [apply chained_eq|..]|apply chained_eq]. Qed.

Lemma link_lists o : dlist m' 0 (qput obj (W obj ++ [w]) W o) 0.
Proof.
  assert (Hch : forall o, dlist m1 0 (W o) 0).
  { intros o'. eapply dlist_frame; [|apply (wi_list _ _ _ _ I o')]. intros a Ha. unfold same_links. symmetry. apply chained_same; [done|].
    intros ->. by apply (linkable_out _ _ _ _ _ _ _ o' L). }
  destruct (decide (o = obj)) as [->|Hne].
  - rewrite qput_eq. apply append_dlist; [apply I|by apply (linkable_out _ _ _ _ _ _ _ _ L)|by apply (wlist_no_null _ _ _ _ obj I)|apply Hch].
  - rewrite qput_ne by done. eapply dlist_frame; [|apply Hch]. intros a Ha. unfold same_links, m'. rewrite append_ne; [done| |].
    + intros E. destruct (last_of_cases (W obj)) as [H|H]; [rewrite H in E; subst a; by apply (wlist_no_null _ _ _ _ o I)|].
      rewrite <- E in H. apply Hne. by apply (wlists_apart _ _ _ _ a _ _ I).
    + intros ->. by apply (linkable_out _ _ _ _ _ _ _ o L).
Qed.

Lemma link_chain t : wchain m' (qput x (B x ++ [w]) B t).
Proof.
  assert (Hm : forall l, wchain m1 l -> wchain m' l).
  { intros l. apply wchain_frame. intros a _. unfold m'. apply append_same; [apply chained_eq|done..]. }
  apply Hm. destruct (decide (t = x)) as [->|Hne].
  - rewrite qput_eq. apply chained_wchain; [apply I|apply L|apply I|done].
  - rewrite qput_ne by done. eapply wchain_frame; [|apply (wi_chain _ _ _ _ I t)]. intros a Ha. unfold m1. rewrite chained_out; [done| |].
    + intros ->. by apply (lk_free _ _ _ _ _ _ _ L t).
    + intros Hx. apply Hne. by apply (blocks_apart _ _ _ _ a _ _ I).
Qed.

Lemma in_link_blocks t a : a ∈ qput x (B x ++ [w]) B t <-> (a ∈ B t) \/ (t = x /\ a = w).
Proof. destruct (decide (t = x)) as [->|Hne]; [rewrite qput_eq; set_solver|rewrite qput_ne by done; naive_solver]. Qed.

Lemma in_link_list o a : a ∈ qput obj (W obj ++ [w]) W o <-> (a ∈ W o) \/ (o = obj /\ a = w).
Proof. destruct (decide (o = obj)) as [->|Hne]; [rewrite qput_eq; set_solver|rewrite qput_ne by done; naive_solver]. Qed.

Lemma link_winv : winv x (qput x (B x ++ [w]) B) (qput obj (W obj ++ [w]) W) k'.
Proof.
  pose proof (fun t => lk_free _ _ _ _ _ _ _ L t) as HwB. destruct link_at as (rw & Hrw & Hcw). destruct (bcore_fields _ _ Hcw) as (Ewt & Ewo & Ewy & _).
  assert (Hold : forall a ra, a <> w -> waitblocks k !! a = Some ra -> exists ra', m' !! a = Some ra' /\
    wb_thread ra' = wb_thread ra /\ wb_object ra' = wb_object ra /\ waittype ra' = waittype ra).
  { intros a ra Ha Hra. destruct (bcore_lookup _ m' a ra (link_core a Ha) Hra) as (ra' & Hra' & E). exists ra'.
    destruct (bcore_fields _ _ E) as (? & ? & ? & _). done. }
  assert (Hne : forall t a, a ∈ B t -> a <> w) by (intros t a Ha ->; by apply (HwB t)).
  split; change (waitblocks k') with m'.
  - intros o r0. cbn [objects k' inserted]. destruct (decide (o = obj)) as [->|Ho].
    + rewrite lookup_insert_eq, qput_eq. intros [= <-]. cbn. rewrite last_of_app. split; [by destruct (W obj)|done].
    + rewrite lookup_insert_ne, qput_ne by done. apply I.
  - intros o H. cbn [objects k' inserted] in H. apply lookup_insert_None in H as [H Ho]. rewrite qput_ne by done. by apply I.
  - apply link_lists.
  - intros o. destruct (decide (o = obj)) as [->|Ho]; [rewrite qput_eq|rewrite qput_ne by done; apply I].
    apply NoDup_app. split_and!; [apply I| |apply NoDup_singleton]. intros a Ha ->%list_elem_of_singleton. by apply (linkable_out _ _ _ _ _ _ _ _ L) in Ha.
  - intros o a [Ha|[-> ->]]%in_link_list.
    + destruct (wi_mem _ _ _ _ I o a Ha) as (ra & Hra & Hoa & HB). destruct (Hold a ra (Hne _ _ HB) Hra) as (ra' & Hra' & Et & Eo & _).
      exists ra'. rewrite Et, Eo. split; [done|]. split; [done|]. apply in_link_blocks. by left.
    + exists rw. rewrite Ewt, Ewo. split; [done|]. split; [done|]. apply in_link_blocks. by right.
  - apply link_chain.
  - intros t. destruct (decide (t = x)) as [->|Ht]; [rewrite qput_eq|rewrite qput_ne by done; apply I].
    apply NoDup_app. split_and!; [apply I| |apply NoDup_singleton]. intros a Ha ->%list_elem_of_singleton. by apply HwB in Ha.
  - intros t a [Ha|[-> ->]]%in_link_blocks.
    + destruct (wi_block _ _ _ _ I t a Ha) as (ra & Hra & Hta & Hty & HW). destruct (Hold a ra (Hne _ _ Ha) Hra) as (ra' & Hra' & Et & Eo & Ey).
      exists ra'. rewrite Et, Eo, Ey. split_and!; [done..|]. apply in_link_list. by left.
    + exists rw. rewrite Ewt, Ewo, Ewy. split_and!; [done..|]. apply in_link_list. by right.
  - assert (Hnew : forall a ra, a ∈ B x -> m' !! a = Some ra -> wb_object ra <> obj).
    { intros a ra Ha Hra. destruct (wi_block _ _ _ _ I x a Ha) as (ra0 & Hra0 & _). destruct (Hold a ra0 (Hne _ _ Ha) Hra0) as (ra' & Hra' & _ & Eo & _).
      assert (ra' = ra) as -> by congruence. rewrite Eo. by apply (lk_new _ _ _ _ _ _ _ L a ra0). }
    intros t a1 a2 r1 r2 [H1|[-> ->]]%in_link_blocks [H2|[E ->]]%in_link_blocks E1 E2 E3; [| | |done].
    + destruct (wi_block _ _ _ _ I t a1 H1) as (q1 & Hq1 & _). destruct (wi_block _ _ _ _ I t a2 H2) as (q2 & Hq2 & _).
      destruct (Hold a1 q1 (Hne _ _ H1) Hq1) as (q1' & Hq1' & _ & Eo1 & _). destruct (Hold a2 q2 (Hne _ _ H2) Hq2) as (q2' & Hq2' & _ & Eo2 & _).
      apply (wi_apart _ _ _ _ I t a1 a2 q1 q2 H1 H2 Hq1 Hq2). congruence.
    + subst t. assert (r2 = rw) as -> by congruence. by destruct (Hnew a1 r1 H1 E1); rewrite E3.
    + assert (r1 = rw) as -> by congruence. by destruct (Hnew a2 r2 H2 E2); rewrite <- E3.
  - intros t rt Hrt Ht. rewrite qput_ne by done. by apply (wi_wait _ _ _ _ I t rt).
  - intros t Ht. destruct (decide (t = x)) as [->|Htx]; [|rewrite qput_ne by done; by apply (wi_idle _ _ _ _ I)].
    destruct (lk_wait _ _ _ _ _ _ _ L) as [wx Hwx]. change (waits k !! x = None) in Ht. congruence.
  - pose proof (link_core 0 ltac:(symmetry; apply L)) as H. rewrite (wi_null _ _ _ _ I) in H. by destruct (m' !! 0).
  - apply I.
Qed.

Lemma link_only : only_waits k k'.
Proof.
  split_and!; try done. intros o. cbn [objects k' inserted].
  destruct (decide (o = obj)) as [->|]; [by rewrite lookup_insert_eq, (lk_obj _ _ _ _ _ _ _ L)|by rewrite lookup_insert_ne].
Qed.
End Link.

(** ** Emptying a semaphore *)

(** C28: [set_sem] to 0 leaves a semaphore that had resources signaled. The next
    wait for it succeeds at once although there is nothing to take, and leaves
    2^32 - 1 resources behind. *)
Theorem set_sem_zero_underflows `{!ObjectKinds} dpc k s r timeout alertable sigs wb wbtmo tmr :
  objects k !! s = Some r -> o_type r = OBJECT_SEMAPHORE -> signaled r <> 0 ->
  exists k1 k2 r2, set_sem s 0 k = Done (count r, k1) /\
    wait_for_one_object dpc s timeout alertable sigs wb wbtmo tmr k1 = Done (Returns 0, k2) /\
    objects k2 !! s = Some r2 /\ signaled r2 <> 0 /\ count r2 = W32 - 1.
Proof.
  intros Hr Ht Hs. set (k1 := set_objects (<[s := set_count 0 r]> (objects k)) k).
  set (k2 := set_objects (<[s := set_count (W32 - 1) (set_count 0 r)]> (objects k1)) k1).
  exists k1, k2, (set_count (W32 - 1) (set_count 0 r)). split; [|split; [|split; [apply lookup_insert_eq|done]]].
  - unfold set_sem. step (get_obj_run s r k Hr). step (upd_obj_run s r _ k Hr). unfold signal_sem. rewrite kbind_assoc.
    by step (get_obj_run s (set_count 0 r) k1 (lookup_insert_eq _ _ _)).
  - unfold wait_for_one_object, self. rewrite (kbind_done _ _ k1 (current (k_sched k1)) k1 eq_refl).
    assert (Hr1 : objects k1 !! s = Some (set_count 0 r)) by apply lookup_insert_eq. step (get_obj_run s _ k1 Hr1).
    change (signaled (set_count 0 r)) with (signaled r). destruct (Z.eqb_spec (signaled r) 0); [done|]. cbn [negb].
    unfold enter_object. rewrite kbind_assoc. step (get_obj_run s _ k1 Hr1). change (o_type (set_count 0 r)) with (o_type r). rewrite Ht. cbn [Z.eqb].
    change (OBJECT_SEMAPHORE =? OBJECT_THREAD) with false. change (OBJECT_SEMAPHORE =? OBJECT_EVENT) with false.
    change (OBJECT_SEMAPHORE =? OBJECT_MUTEX) with false. change (OBJECT_SEMAPHORE =? OBJECT_SEMAPHORE) with true. cbv iota.
    rewrite kbind_assoc. step (upd_obj_run s _ (set_count (u32 (count (set_count 0 r) - 1))) k1 Hr1).
    rewrite kbind_assoc. by step (get_obj_run s (set_count (W32 - 1) (set_count 0 r)) k2 (lookup_insert_eq _ _ _)).
Qed.

Definition plain_kinds : ObjectKinds :=
  {| dequeue_event_from_iomux := fun _ => kret 0; close_file := fun _ => kret 0; closesocket := fun _ => kret 0; close_iomux := fun _ => kret 0;
     destroy_file := fun _ => kret 0; destroy_thread := fun _ => kret 0; kfree_object := fun _ => kret tt; expire_handler := 1 |}.

#[local] Existing Instance plain_kinds.

(** A semaphore with five resources. *)
Definition sem_kernel : kernel := Kernel demo {[10 := KObject OBJECT_SEMAPHORE 1 0 0 0 5 0 0 0]} ∅ ∅ Timer.boot.

Lemma set_sem_zero_underflows_witness : exists k1 k2 r2,
  set_sem 10 0 sem_kernel = Done (5, k1) /\
  wait_for_one_object (kret tt) 10 INFINITE false false 50 51 60 k1 = Done (Returns 0, k2) /\
  objects k2 !! 10 = Some r2 /\ signaled r2 <> 0 /\ count r2 = W32 - 1.
Proof.
  by apply (set_sem_zero_underflows (kret tt) sem_kernel 10
    (KObject OBJECT_SEMAPHORE 1 0 0 0 5 0 0 0)).
Defined.
