(* ===== verification/Awake.v ===== *)
(** * Waiting threads and their wait blocks (sys/krnl/sched.c, sys/krnl/object.c)

    A thread that waits for objects has wait blocks: what takes its blocks away
    makes it ready.  The scheduler puts no thread to sleep but the one that
    calls [enter_wait] or [enter_alertable_wait]; the operations on objects take
    the blocks of a thread away in [release_thread] only, which makes it ready,
    and for the thread that runs. *)

From S2P Require Import Prelude Timer Dpc Sched Object.

Local Open Scope k_scope.

(** ** Code that keeps to a relation *)

Definition relates {S A} (R : S -> S -> Prop) (m : K S A) : Prop := forall s a s', m s = Done (a, s') -> R s s'.

Lemma rel_run {S A} (R : S -> S -> Prop) (m : K S A) s a s' : relates R m -> m s = Done (a, s') -> R s s'.
Proof. intros H. apply H. Qed.

Section Relates.
Context {S : Type} (R : S -> S -> Prop) `{!PreOrder R}.

Lemma rel_ret {A} (a : A) : relates R (kret a).
Proof. intros s b s' [= _ <-]. reflexivity. Qed.
Lemma rel_get : relates R kget.
Proof. intros s b s' [= _ <-]. reflexivity. Qed.
Lemma rel_opt {A} (o : option A) : relates R (kopt o).
Proof. destruct o; [apply rel_ret|done]. Qed.
Lemma rel_panic {A} m : relates R (@kpanic S A m).
Proof. done. Qed.
Lemma rel_fault {A} : relates R (@kfault S A).
Proof. done. Qed.
Lemma rel_hang {A} : relates R (@khang S A).
Proof. done. Qed.
Lemma rel_bind {A B} (m : K S A) (f : A -> K S B) : relates R m -> (forall a, relates R (f a)) -> relates R (kbind m f).
Proof. intros Hm Hf s b s' (a & s1 & E1 & E2)%kbind_inv. transitivity s1; [by apply (Hm s a)|by apply (Hf a s1 b)]. Qed.
End Relates.

Create HintDb awake discriminated.
#[export] Hint Resolve rel_ret rel_get rel_opt rel_panic rel_fault rel_hang : awake.

(** Through the code, to the operations that the database knows. *)
Ltac related := repeat match goal with
  | |- relates _ (kbind _ _) => apply rel_bind; [apply _| |intros ?]
  | |- relates _ (if ?b then _ else _) => destruct b
  | |- relates _ (match ?x with _ => _ end) => destruct x
  | |- relates _ (let _ := _ in _) => cbv zeta
  | |- relates _ _ => solve [eauto with awake typeclass_instances]
  end.

(** ** Threads that do not fall asleep *)

(** Who waits in [s'] waited in [s], for the same reason. *)
Definition no_sleep (s s' : sched) : Prop := forall a r', threads s' !! a = Some r' -> t_state r' = THREAD_STATE_WAITING ->
  exists r, threads s !! a = Some r /\ t_state r = THREAD_STATE_WAITING /\ wait_reason r = wait_reason r'.

#[export] Instance no_sleep_preorder : PreOrder no_sleep.
Proof.
  split; [by intros s a r Hr Hs; exists r|]. intros s1 s2 s3 H1 H2 a r3 Hr3 Hs3. destruct (H2 a r3 Hr3 Hs3) as (r2 & Hr2 & Hs2 & E2). destruct (H1 a r2 Hr2 Hs2) as (r1 & Hr1 & Hs1 & E1). exists r1. split_and!; [done|done|congruence].
Qed.

Lemma ns_mod f : (forall s, threads (f s) = threads s) -> relates no_sleep (kmod f).
Proof. intros Hf s a s' [= _ <-] b r. rewrite Hf. intros Hr Hs. by exists r. Qed.

Lemma ns_get t : relates no_sleep (get_th t).
Proof. unfold get_th. related. Qed.

Lemma ns_upd t f : (forall r, t_state (f r) = THREAD_STATE_WAITING -> t_state r = THREAD_STATE_WAITING /\ wait_reason r = wait_reason (f r)) -> relates no_sleep (upd_th t f).
Proof.
  intros Hf s a s' (r & s1 & E1 & E2)%kbind_inv. unfold get_th in E1. rewrite kbind_kget in E1. destruct (threads s !! t) as [r0|] eqn:Hr; [|done]. injection E1 as <- <-. injection E2 as _ <-. intros b rb. cbn [threads set_threads].
  intros [[<- <-]|[Hne Hb]]%lookup_insert_Some Hs; [destruct (Hf r0 Hs); by exists r0|by exists rb].
Qed.

Lemma ns_state t v : v <> THREAD_STATE_WAITING -> relates no_sleep (upd_th t (set_t_state v)).
Proof. intros Hv. apply ns_upd. by intros r ?. Qed.

#[export] Hint Resolve ns_get : awake.
#[export] Hint Extern 1 (relates no_sleep (kmod _)) => (apply ns_mod; by intros []) : awake.
#[export] Hint Extern 1 (relates no_sleep (upd_th _ (set_t_state _))) => (by apply ns_state) : awake.
#[export] Hint Extern 2 (relates no_sleep (upd_th _ _)) => (by apply ns_upd) : awake.

Ltac no_sleep m := unfold m; related.

Lemma ns_qindex p : relates no_sleep (qindex p). Proof. no_sleep qindex. Qed.
#[export] Hint Resolve ns_qindex : awake.
Lemma ns_get_head p : relates no_sleep (get_head p). Proof. no_sleep get_head. Qed.
Lemma ns_get_tail p : relates no_sleep (get_tail p). Proof. no_sleep get_tail. Qed.
Lemma ns_put_head p v : relates no_sleep (put_head p v). Proof. no_sleep put_head. Qed.
Lemma ns_put_tail p v : relates no_sleep (put_tail p v). Proof. no_sleep put_tail. Qed.
Lemma ns_set_bit p : relates no_sleep (set_ready_bit p). Proof. no_sleep set_ready_bit. Qed.
Lemma ns_clear_bit p : relates no_sleep (clear_ready_bit p). Proof. no_sleep clear_ready_bit. Qed.
#[export] Hint Resolve ns_get_head ns_get_tail ns_put_head ns_put_tail ns_set_bit ns_clear_bit : awake.
Lemma ns_insert_head t : relates no_sleep (insert_ready_head t). Proof. no_sleep insert_ready_head. Qed.
Lemma ns_insert_tail t : relates no_sleep (insert_ready_tail t). Proof. no_sleep insert_ready_tail. Qed.
Lemma ns_remove t : relates no_sleep (remove_from_ready_queue t). Proof. no_sleep remove_from_ready_queue. Qed.
#[export] Hint Resolve ns_insert_head ns_insert_tail ns_remove : awake.
Lemma ns_mark t charge boost : relates no_sleep (mark_thread_ready t charge boost). Proof. no_sleep mark_thread_ready. Qed.
Lemma ns_find : relates no_sleep find_ready_thread. Proof. no_sleep find_ready_thread. Qed.
Lemma ns_running : relates no_sleep mark_thread_running. Proof. no_sleep mark_thread_running. Qed.
#[export] Hint Resolve ns_mark ns_find ns_running : awake.

(** A thread that has been made ready does not wait. *)
Definition awake (t : Z) (s : sched) : Prop := forall r, threads s !! t = Some r -> t_state r <> THREAD_STATE_WAITING.

Lemma awake_later t s s' : no_sleep s s' -> awake t s -> awake t s'.
Proof. intros H Ha r Hr Hs. destruct (H t r Hr Hs) as (r0 & Hr0 & Hs0 & _). by apply (Ha r0). Qed.

Lemma upd_state_awake t v s a s' : v <> THREAD_STATE_WAITING -> upd_th t (set_t_state v) s = Done (a, s') -> awake t s'.
Proof.
  intros Hv (r & s1 & E1 & E2)%kbind_inv. unfold get_th in E1. rewrite kbind_kget in E1. destruct (threads s !! t) as [r0|] eqn:Hr; [|done]. injection E1 as <- <-. injection E2 as _ <-.
  intros r. cbn [threads set_threads]. rewrite lookup_insert_eq. by intros [= <-].
Qed.

Lemma mark_awake t charge boost s a s' : mark_thread_ready t charge boost s = Done (a, s') -> awake t s'.
Proof.
  intros (r & s1 & E1 & E2)%kbind_inv. destruct (0 <? suspend_count r); [by eapply upd_state_awake; [|exact E2]|]. destruct (negb _ && _) eqn:Eb.
  - injection E2 as _ <-. unfold get_th in E1. rewrite kbind_kget in E1. destruct (threads s !! t) as [r0|] eqn:Hr; [|done]. injection E1 as <- <-. intros r1 Hr1. assert (r1 = r0) as -> by congruence.
    apply andb_true_iff in Eb as [_ ->%Z.eqb_eq]. done.
  - apply kbind_inv in E2 as (? & s2 & _ & E2). apply kbind_inv in E2 as (? & s3 & _ & E2). destruct (t_state r =? _); [done|]. apply kbind_inv in E2 as (? & s4 & E4 & E2). apply (awake_later t s4); [|by eapply upd_state_awake; [|exact E4]].
    eapply rel_run; [|exact E2]; related.
Qed.

(** Deferred procedures that put no thread to sleep. *)
Definition calls_awake (call : Z -> Z -> K sched unit) : Prop := forall p a, relates no_sleep (call p a).

Lemma ns_queue {A} (m : K dpcs A) : relates no_sleep (on_queue dpcq set_dpcq m).
Proof. intros s a s' E. unfold on_queue, kzoom in E. destruct (m (dpcq s)) as [[b q]| | |]; [|done..]. injection E as _ <-. intros t r Hr Hs. by exists r. Qed.
#[export] Hint Resolve ns_queue : awake.

Lemma ns_dpcs call : calls_awake call -> relates no_sleep (run_dpcs call).
Proof.
  intros Hc s a s' E. unfold run_dpcs in E. revert s a s' E. assert (H : forall n, relates no_sleep (check_dpc_queue dpcq set_dpcq call n)); [|by intros s a s'; apply H]. intros n. unfold check_dpc_queue, dispatch_dpc_queue. related.
  induction n as [|n IH]; cbn [dpc_loop]; related; apply Hc.
Qed.

Section Sleep.
Variable dpc : K sched unit.
Hypothesis Hdpc : relates no_sleep dpc.
Hint Resolve Hdpc : awake.

Lemma ns_dispatch : relates no_sleep (dispatch dpc). Proof. no_sleep dispatch. Qed.
Hint Resolve ns_dispatch : awake.
Lemma ns_preempt : relates no_sleep (preempt_thread dpc). Proof. no_sleep preempt_thread. Qed.
Lemma ns_end_alertable : relates no_sleep end_alertable_wait. Proof. no_sleep end_alertable_wait. Qed.
Lemma ns_interrupt t : relates no_sleep (interrupt_thread t). Proof. no_sleep interrupt_thread. Qed.
Lemma ns_yield : relates no_sleep (yield dpc). Proof. no_sleep yield. Qed.
Lemma ns_suspend t : relates no_sleep (suspend_thread dpc t). Proof. no_sleep suspend_thread. Qed.
Lemma ns_resume t : relates no_sleep (resume_thread t). Proof. no_sleep resume_thread. Qed.
Lemma ns_priority t p : relates no_sleep (set_thread_priority dpc t p). Proof. no_sleep set_thread_priority. Qed.

(** Only the current thread falls asleep, for [reason]. *)
Definition sleeps_for (reason : Z) (s s' : sched) : Prop := forall a r', threads s' !! a = Some r' -> t_state r' = THREAD_STATE_WAITING ->
  (a = current s /\ wait_reason r' = reason) \/ exists r, threads s !! a = Some r /\ t_state r = THREAD_STATE_WAITING /\ wait_reason r = wait_reason r'.

Lemma sleeps_later reason s s1 s' : sleeps_for reason s s1 -> no_sleep s1 s' -> sleeps_for reason s s'.
Proof. intros H1 H2 a r' Hr' Hs'. destruct (H2 a r' Hr' Hs') as (r1 & Hr1 & Hs1 & <-). by apply (H1 a r1). Qed.

(** The two updates with which a wait begins. *)
Lemma falls_asleep reason s a1 s1 a2 s2 : upd_th (current s) (set_t_state THREAD_STATE_WAITING) s = Done (a1, s1) -> upd_th (current s) (set_wait_reason reason) s1 = Done (a2, s2) -> sleeps_for reason s s2.
Proof.
  intros (r & q & E1 & E2)%kbind_inv (r1 & q1 & E3 & E4)%kbind_inv. unfold get_th in E1, E3. rewrite kbind_kget in E1, E3. destruct (threads s !! current s) as [r0|] eqn:Hr; [|done]. injection E1 as <- <-. injection E2 as _ <-. cbn [threads set_threads] in E3.
  rewrite lookup_insert_eq in E3. injection E3 as <- <-. injection E4 as _ <-. intros a r' Hr' Hs'. cbn in Hr'. rewrite insert_insert_eq in Hr'. apply lookup_insert_Some in Hr' as [[<- <-]|[Hne Hr']]; [by left|right; by exists r'].
Qed.

Lemma enter_wait_sleeps reason s a s' : enter_wait dpc reason s = Done (a, s') -> sleeps_for reason s s'.
Proof.
  unfold enter_wait. rewrite kbind_kget. intros (a1 & s1 & E1 & E)%kbind_inv. apply kbind_inv in E as (a2 & s2 & E2 & E3). apply (sleeps_later reason s s2); [by apply (falls_asleep reason s a1 s1 a2 s2)|]. by apply (ns_dispatch s2 a).
Qed.

Lemma begin_alertable_sleeps sigs reason s rc s' : begin_alertable_wait dpc sigs reason s = Done (rc, s') -> if sigs then s' = s else rc = 0 /\ sleeps_for reason s s'.
Proof.
  unfold begin_alertable_wait. rewrite kbind_kget. destruct sigs; [by intros [= _ <-]|]. intros (a1 & s1 & E1 & E)%kbind_inv. apply kbind_inv in E as (a2 & s2 & E2 & E3). split.
  - repeat (apply kbind_inv in E3 as (? & ? & _ & E3)). by injection E3 as <- _.
  - apply (sleeps_later reason s s2); [by apply (falls_asleep reason s a1 s1 a2 s2)|]. eapply rel_run; [|exact E3]; related.
Qed.

End Sleep.
#[export] Hint Resolve ns_dispatch ns_preempt ns_end_alertable ns_interrupt ns_yield ns_suspend ns_resume ns_priority : awake.

(** ** Kernel objects *)

(** A thread that waits for objects has a wait block. *)
Definition wakeable (k : kernel) : Prop := forall t r w, threads (k_sched k) !! t = Some r -> t_state r = THREAD_STATE_WAITING -> wait_reason r = THREAD_WAIT_OBJECT ->
  waits k !! t = Some w -> waitlist w <> 0.

Definition stays_wakeable (k k' : kernel) : Prop := wakeable k -> wakeable k'.

#[export] Instance stays_preorder : PreOrder stays_wakeable.
Proof. split; [intros k H; exact H|]. intros k1 k2 k3 H1 H2 H. by apply H2, H1. Qed.

(** The scheduler and the lists of wait blocks do not change. *)
Definition quiet (k k' : kernel) : Prop := k_sched k' = k_sched k /\ forall t, waitlist <$> waits k' !! t = waitlist <$> waits k !! t.

#[export] Instance quiet_preorder : PreOrder quiet.
Proof. split; [intros k; by split|]. intros k1 k2 k3 [H1 H2] [H3 H4]. split; [congruence|]. intros t. by rewrite H4. Qed.

Lemma quiet_wait k k' t w : quiet k k' -> waits k' !! t = Some w -> exists w0, waits k !! t = Some w0 /\ waitlist w0 = waitlist w.
Proof. intros [_ H] Hw. specialize (H t). rewrite Hw in H. destruct (waits k !! t) as [w0|]; [|done]. injection H as H. by exists w0. Qed.

Lemma quiet_stays k k' : quiet k k' -> stays_wakeable k k'.
Proof. intros HQ H t r w Hr Hs Hw Ht. destruct (quiet_wait k k' t w HQ Ht) as (w0 & Ht0 & <-). destruct HQ as [Es _]. rewrite Es in Hr. by apply (H t r w0). Qed.

Lemma rel_quiet {A} (m : K kernel A) : relates quiet m -> relates stays_wakeable m.
Proof. intros Hm k a k' E. by apply quiet_stays, (Hm k a). Qed.

Lemma qu_mod f : (forall k, k_sched (f k) = k_sched k /\ waits (f k) = waits k) -> relates quiet (kmod f).
Proof. intros Hf k a k' [= _ <-]. destruct (Hf k) as [E1 E2]. split; [done|]. intros t. by rewrite E2. Qed.
#[export] Hint Extern 1 (relates quiet (kmod _)) => (apply qu_mod; by intros []) : awake.

Lemma qu_get_obj o : relates quiet (get_obj o). Proof. unfold get_obj. related. Qed.
Lemma qu_get_wb w : relates quiet (get_wb w). Proof. unfold get_wb. related. Qed.
Lemma qu_get_wait t : relates quiet (get_wait t). Proof. unfold get_wait. related. Qed.
Lemma qu_self : relates quiet self. Proof. unfold self. related. Qed.
#[export] Hint Resolve qu_get_obj qu_get_wb qu_get_wait qu_self : awake.
Lemma qu_upd_obj o f : relates quiet (upd_obj o f). Proof. unfold upd_obj. related. Qed.
Lemma qu_upd_wb w f : relates quiet (upd_wb w f). Proof. unfold upd_wb. related. Qed.
Lemma qu_wheel {A} (m : K twheel A) : relates quiet (on_wheel m).
Proof. intros k a k' E. unfold on_wheel, kzoom in E. destruct (m (k_wheel k)) as [[b h]| | |]; [|done..]. by injection E as _ <-. Qed.
Lemma qu_key t v : relates quiet (upd_wait t (set_waitkey v)).
Proof.
  intros k a k' (w & q & E1 & E2)%kbind_inv. unfold get_wait in E1. rewrite kbind_kget in E1. destruct (waits k !! t) as [w0|] eqn:Hw; [|done]. injection E1 as <- <-. injection E2 as _ <-. split; [done|]. intros b. cbn.
  destruct (decide (b = t)) as [->|Hne]; [by rewrite lookup_insert_eq, Hw|by rewrite lookup_insert_ne].
Qed.
#[export] Hint Resolve qu_upd_obj qu_upd_wb qu_wheel qu_key : awake.

Lemma qu_init_object o ty : relates quiet (init_object o ty). Proof. unfold init_object. related. Qed.
Lemma qu_new_wb w t o ty key : relates quiet (new_wb w t o ty key). Proof. unfold new_wb. related. Qed.
Lemma qu_insert o w : relates quiet (insert_in_waitlist o w). Proof. unfold insert_in_waitlist. related. Qed.
Lemma qu_remove w : relates quiet (remove_from_waitlist w). Proof. unfold remove_from_waitlist. related. Qed.
#[export] Hint Resolve qu_init_object qu_new_wb qu_insert qu_remove : awake.
Lemma qu_ready_loop t n : forall wb any all, relates quiet (ready_loop n t wb any all).
Proof. induction n as [|n IH]; intros wb any all; cbn [ready_loop]; related; apply IH. Qed.
#[export] Hint Resolve qu_ready_loop : awake.
Lemma qu_ready t : relates quiet (thread_ready_to_run t). Proof. unfold thread_ready_to_run. related. Qed.
Lemma qu_cancel_loop n : forall wb, relates quiet (cancel_loop n wb).
Proof. induction n as [|n IH]; intros wb; cbn [cancel_loop]; related; apply IH. Qed.
#[export] Hint Resolve qu_ready qu_cancel_loop : awake.
Lemma qu_first_ready n : forall wb, relates quiet (first_ready_loop n wb).
Proof. induction n as [|n IH]; intros wb; cbn [first_ready_loop]; related; apply IH. Qed.
Lemma qu_stop tm : relates quiet (cancel_waitable_timer tm). Proof. unfold cancel_waitable_timer. related. Qed.
#[export] Hint Resolve qu_first_ready qu_stop : awake.

(** The wait list of [t] is emptied. *)
Lemma cancel_effect t k a k' : cancel_wait t k = Done (a, k') -> k_sched k' = k_sched k /\ forall b, b <> t -> waitlist <$> waits k' !! b = waitlist <$> waits k !! b.
Proof.
  unfold cancel_wait. rewrite kbind_kget. intros (w & k1 & E1 & E)%kbind_inv. apply kbind_inv in E as (? & k2 & E2 & E3). pose proof (qu_get_wait _ _ _ _ E1) as Q1. pose proof (qu_cancel_loop _ _ _ _ _ E2) as Q2.
  assert (Q : quiet k k2) by (by transitivity k1). apply kbind_inv in E3 as (w2 & k3 & E3 & E4). pose proof (qu_get_wait _ _ _ _ E3) as Q3. assert (Q' : quiet k k3) by (by transitivity k2). injection E4 as _ <-. destruct Q' as [Es Ew]. split; [done|].
  intros b Hne. cbn. rewrite lookup_insert_ne by done. apply Ew.
Qed.

(** Cancelling the wait of a thread that does not sleep. *)
Lemma cancel_stays t k a k' : cancel_wait t k = Done (a, k') -> awake t (k_sched k) -> stays_wakeable k k'.
Proof.
  intros E Ha H b r w Hr Hs Hwr Hw. destruct (cancel_effect t k a k' E) as [Es Ew]. rewrite Es in Hr. destruct (decide (b = t)) as [->|Hne]; [by destruct (Ha r Hr)|]. specialize (Ew b Hne). rewrite Hw in Ew.
  destruct (waits k !! b) as [w0|] eqn:Hw0; [|done]. injection Ew as ->. by apply (H b r w0).
Qed.

(** A thread that loses its blocks is made ready. *)
Lemma st_release_thread t : relates stays_wakeable (release_thread t).
Proof.
  intros k a k' (u & k1 & E1 & E2)%kbind_inv H b r w Hr Hs Hwr Hw. destruct (cancel_effect t k u k1 E1) as [Es Ew]. unfold on_sched, kzoom in E2. destruct (mark_thread_ready t 1 1 (k_sched k1)) as [[v s']| | |] eqn:E; [|done..]. injection E2 as _ <-. cbn in Hr, Hw.
  destruct (decide (b = t)) as [->|Hne]; [by destruct (mark_awake _ _ _ _ _ _ E r Hr)|]. destruct (ns_mark t 1 1 _ _ _ E b r Hr Hs) as (r0 & Hr0 & Hs0 & E0). rewrite Es in Hr0. specialize (Ew b Hne). rewrite Hw in Ew.
  destruct (waits k !! b) as [w0|] eqn:Hw0; [|done]. injection Ew as ->. apply (H b r0 w0); [done|done|congruence|done].
Qed.
#[export] Hint Resolve st_release_thread : awake.
#[export] Hint Extern 9 (relates stays_wakeable _) => (apply rel_quiet) : awake.

Lemma st_release_loop key n : forall wb, relates stays_wakeable (release_loop n wb key).
Proof. induction n as [|n IH]; intros wb; cbn [release_loop]; related; apply IH. Qed.
Lemma st_pulse_loop e n : forall wb, relates stays_wakeable (pulse_loop n e wb).
Proof. induction n as [|n IH]; intros wb; cbn [pulse_loop]; related; apply IH. Qed.
Lemma st_event_loop e n : forall wb, relates stays_wakeable (set_event_loop n e wb).
Proof. induction n as [|n IH]; intros wb; cbn [set_event_loop]; related; apply IH. Qed.
Lemma st_sem_loop s n : forall wb, relates stays_wakeable (sem_loop n s wb).
Proof. induction n as [|n IH]; intros wb; cbn [sem_loop]; related; apply IH. Qed.
Lemma st_close_loop o n : relates stays_wakeable (close_loop n o).
Proof. induction n as [|n IH]; cbn [close_loop]; related; apply IH. Qed.
#[export] Hint Resolve st_release_loop st_pulse_loop st_event_loop st_sem_loop st_close_loop : awake.
Lemma st_release_waiters o key : relates stays_wakeable (release_waiters o key). Proof. unfold release_waiters. related. Qed.
Lemma st_signal_sem s : relates stays_wakeable (signal_sem s). Proof. unfold signal_sem. related. Qed.
#[export] Hint Resolve st_release_waiters st_signal_sem : awake.

(** The operations that signal objects. *)
Lemma st_set_event e : relates stays_wakeable (set_event e). Proof. unfold set_event. related. Qed.
Lemma st_pulse_event e : relates stays_wakeable (pulse_event e). Proof. unfold pulse_event. related. Qed.
Lemma st_release_sem s n : relates stays_wakeable (release_sem s n). Proof. unfold release_sem. related. Qed.
Lemma st_set_sem s n : relates stays_wakeable (set_sem s n). Proof. unfold set_sem. related. Qed.
Lemma st_release_mutex m : relates stays_wakeable (release_mutex m). Proof. unfold release_mutex. related. Qed.
Lemma st_unlock_filemap m : relates stays_wakeable (unlock_filemap m). Proof. unfold unlock_filemap. related. Qed.
Lemma st_expire t : relates stays_wakeable (expire_waitable_timer t). Proof. unfold expire_waitable_timer. related. Qed.
Lemma st_exit t : relates stays_wakeable (exit_thread t). Proof. unfold exit_thread. related. Qed.
Lemma qu_init_event e m i : relates quiet (init_event e m i). Proof. unfold init_event. related. Qed.
Lemma qu_init_sem s n : relates quiet (init_sem s n). Proof. unfold init_sem. related. Qed.
Lemma qu_init_mutex m o : relates quiet (init_mutex m o). Proof. unfold init_mutex. related. Qed.
Lemma qu_reset_event e : relates quiet (reset_event e). Proof. unfold reset_event. related. Qed.
#[export] Hint Resolve st_set_event st_pulse_event st_release_sem st_set_sem st_release_mutex st_unlock_filemap st_expire st_exit qu_init_event qu_init_sem qu_init_mutex qu_reset_event : awake.

(** ** Waits *)

(** The thread [t] has a wait block. *)
Definition listed_wait (t : Z) (k : kernel) : Prop := forall w, waits k !! t = Some w -> waitlist w <> 0.

Lemma listed_quiet t k k' : quiet k k' -> listed_wait t k -> listed_wait t k'.
Proof. intros HQ H w Hw. destruct (quiet_wait k k' t w HQ Hw) as (w0 & Hw0 & <-). by apply H. Qed.

Lemma set_list_stays t v k a k' : upd_wait t (set_waitlist v) k = Done (a, k') -> v <> 0 -> k_sched k' = k_sched k /\ stays_wakeable k k' /\ listed_wait t k'.
Proof.
  intros (w & q & E1 & E2)%kbind_inv Hv. unfold get_wait in E1. rewrite kbind_kget in E1. destruct (waits k !! t) as [w0|] eqn:Hw; [|done]. injection E1 as <- <-. injection E2 as _ <-. split; [done|]. split.
  - intros H b r w Hr Hs Hwr. cbn. intros [[<- <-]|[Hne Hb]]%lookup_insert_Some; [done|]. by apply (H b r w).
  - intros w. cbn. rewrite lookup_insert_eq. by intros [= <-].
Qed.

(** The current thread gives the processor away. *)
Lemma sleep_stays k s' : sleeps_for THREAD_WAIT_OBJECT (k_sched k) s' -> listed_wait (current (k_sched k)) k -> stays_wakeable k (set_sched s' k).
Proof.
  intros HS HL H t r w Hr Hs Hwr Hw. destruct (HS t r Hr Hs) as [[-> _]|(r0 & Hr0 & Hs0 & E0)]; [by apply HL|]. apply (H t r0 w); [done|done|congruence|done].
Qed.

Lemma sched_stays {A} (m : K sched A) : relates no_sleep m -> relates stays_wakeable (on_sched m).
Proof.
  intros Hm k a k' E H t r w. unfold on_sched, kzoom in E. destruct (m (k_sched k)) as [[b s']| | |] eqn:Em; [|done..]. injection E as _ <-. cbn. intros Hr Hs Hwr Hw.
  destruct (Hm _ _ _ Em t r Hr Hs) as (r0 & Hr0 & Hs0 & E0). apply (H t r0 w); [done|done|congruence|done].
Qed.

Section Waits.
Context {Kinds : ObjectKinds}.
Variable dpc : K sched unit.
Hypothesis Hdpc : relates no_sleep dpc.

Lemma qu_break {A} (f : Z -> A) t rc tmr : relates quiet (upd_wait t (set_waitkey rc) ;;; (match tmr with Some tm => cancel_waitable_timer tm | None => kret tt end) ;;; let* w := get_wait t in kret (f (waitkey w))).
Proof. related. Qed.

Lemma begin_wait_stays alertable sigs tmr k a k' : begin_wait dpc alertable sigs tmr k = Done (a, k') -> awake (current (k_sched k)) (k_sched k) -> listed_wait (current (k_sched k)) k -> stays_wakeable k k'.
Proof.
  intros E Ha HL. unfold begin_wait, self in E. rewrite (kbind_done _ _ k (current (k_sched k)) k eq_refl) in E. destruct alertable; apply kbind_inv in E as (rc & k1 & E1 & E2); unfold on_sched, kzoom in E1.
  - destruct (begin_alertable_wait dpc sigs THREAD_WAIT_OBJECT (k_sched k)) as [[v s']| | |] eqn:Eb; [|done..]. injection E1 as <- <-. pose proof (begin_alertable_sleeps dpc Hdpc _ _ _ _ _ Eb) as Hb. destruct sigs.
    + subst s'. destruct (v <? 0); [|injection E2 as _ <-; exact (fun Hw => Hw)]. apply kbind_inv in E2 as (u & k2 & Ec & E2). intros Hk. apply (quiet_stays k2); [by apply (qu_break _ _ _ _ _ _ _ E2)|]. by apply (cancel_stays _ _ _ _ Ec Ha).
    + destruct Hb as [-> Hb]. injection E2 as _ <-. by apply sleep_stays.
  - destruct (enter_wait dpc THREAD_WAIT_OBJECT (k_sched k)) as [[v s']| | |] eqn:Eb; [|done..]. injection E1 as <- <-. injection E2 as _ <-. apply sleep_stays; [|done]. by apply (enter_wait_sleeps dpc Hdpc _ _ v).
Qed.

Lemma end_wait_stays alertable tmr k a k' : end_wait alertable tmr k = Done (a, k') -> awake (current (k_sched k)) (k_sched k) -> stays_wakeable k k'.
Proof.
  intros E Ha. unfold end_wait, self in E. rewrite (kbind_done _ _ k (current (k_sched k)) k eq_refl) in E. apply kbind_inv in E as (u & k1 & E1 & E2).
  assert (Q2 : quiet k1 k') by (eapply rel_run; [|exact E2]; related). intros Hk. apply (quiet_stays k1); [done|]. destruct alertable; [|by injection E1 as _ <-]. apply kbind_inv in E1 as (rc & k2 & E1 & E3).
  assert (H2 : wakeable k2) by (by apply (sched_stays _ ns_end_alertable _ _ _ E1)). unfold on_sched, kzoom in E1. destruct (end_alertable_wait (k_sched k)) as [[v s']| | |] eqn:Ee; [|done..]. injection E1 as <- <-. destruct (v <? 0); [|by injection E3 as _ <-].
  apply kbind_inv in E3 as (w & k3 & Ec & E3). apply (quiet_stays k3); [by apply (qu_key _ _ _ _ _ E3)|]. apply (cancel_stays _ _ _ _ Ec); [|done]. cbn. by apply (awake_later _ _ _ (ns_end_alertable _ _ _ Ee)).
Qed.

Lemma qu_enter obj k r : objects k !! obj = Some r -> o_type r <> OBJECT_IOMUX -> forall a k', enter_object obj k = Done (a, k') -> quiet k k'.
Proof.
  intros Hr Ht a k' E. unfold enter_object in E. rewrite (kbind_done _ _ _ _ _ (get_obj_run obj r k Hr)) in E. apply Z.eqb_neq in Ht. rewrite Ht in E. eapply rel_run; [|exact E]; related.
Qed.

Lemma qu_add_timeout t last wbtmo tmr timeout : relates quiet (add_timeout t last wbtmo tmr timeout).
Proof. unfold add_timeout, init_waitable_timer. related. Qed.

(** From the first wait block on. *)
Lemma block_stays timeout last wbtmo tmr alertable sigs k a k' :
  (if timeout =? INFINITE then begin_wait dpc alertable sigs None else add_timeout (current (k_sched k)) last wbtmo tmr timeout ;;; begin_wait dpc alertable sigs (Some tmr)) k = Done (a, k') ->
  awake (current (k_sched k)) (k_sched k) -> listed_wait (current (k_sched k)) k -> stays_wakeable k k'.
Proof.
  destruct (timeout =? INFINITE); [by apply begin_wait_stays|]. intros (u & k1 & E1 & E2)%kbind_inv Ha HL H. pose proof (qu_add_timeout _ _ _ _ _ _ _ _ E1) as Q. pose proof Q as [Es _].
  apply (begin_wait_stays _ _ _ _ _ _ E2); [by rewrite Es|rewrite Es; by apply (listed_quiet _ k)|by apply (quiet_stays k)].
Qed.

Lemma wait_one_stays obj ro timeout alertable sigs wb wbtmo tmr k a k' : objects k !! obj = Some ro -> o_type ro <> OBJECT_IOMUX -> wb <> 0 -> awake (current (k_sched k)) (k_sched k) ->
  wait_for_one_object dpc obj timeout alertable sigs wb wbtmo tmr k = Done (a, k') -> stays_wakeable k k'.
Proof.
  intros Hr Ht Hwb Ha E H. unfold wait_for_one_object, self in E. rewrite (kbind_done _ _ k (current (k_sched k)) k eq_refl), (kbind_done _ _ _ _ _ (get_obj_run obj ro k Hr)) in E.
  destruct (negb (signaled ro =? 0)); [apply kbind_inv in E as (rc & k1 & E1 & E2); injection E2 as _ <-; by apply (quiet_stays k k1 (qu_enter obj k ro Hr Ht _ _ E1))|].
  destruct (_ && _); [apply kbind_inv in E as (u & k1 & E1 & E2); injection E2 as _ <-; by apply (quiet_stays k k1 (qu_upd_obj _ _ _ _ _ E1))|]. destruct (timeout =? 0); [by injection E as _ <-|].
  apply kbind_inv in E as (u & k1 & E1 & E). destruct (set_list_stays _ _ _ _ _ E1 Hwb) as (Es1 & H1 & HL1). apply kbind_inv in E as (u2 & k2 & E2 & E). apply kbind_inv in E as (u3 & k3 & E3 & E).
  assert (Q : quiet k1 k3) by (transitivity k2; [apply (qu_new_wb _ _ _ _ _ _ _ _ E2)|apply (qu_insert _ _ _ _ _ E3)]). pose proof Q as [Es _]. rewrite <- Es1, <- Es in E.
  apply (block_stays _ _ _ _ _ _ _ _ _ E); [rewrite Es, Es1; done|rewrite Es, Es1; by apply (listed_quiet _ k1)|]. by apply (quiet_stays k1 k3 Q), H1.
Qed.

Lemma qu_setup t ty wba objs : forall n, relates quiet (setup_waits t ty wba (S n) objs).
Proof. induction objs as [|o objs IH]; intros n; cbn [setup_waits]; [related|]. change (S n =? 0)%nat with false. cbv iota. related. Qed.

Lemma qu_any objs : forall n t k a k', (forall o, o ∈ objs -> exists r, objects k !! o = Some r /\ o_type r <> OBJECT_IOMUX) -> any_signaled t n objs k = Done (a, k') -> quiet k k'.
Proof.
  induction objs as [|o objs IH]; intros n t k a k' Ho E; cbn [any_signaled] in E; [by injection E as _ <-|]. destruct (Ho o ltac:(by left)) as (r & Hr & Ht). rewrite (kbind_done _ _ _ _ _ (get_obj_run o r k Hr)) in E.
  destruct (negb _); [apply kbind_inv in E as (rc & k1 & E1 & E2); injection E2 as _ <-; by apply (qu_enter o k r Hr Ht rc)|]. destruct (_ && _); [apply kbind_inv in E as (u & k1 & E1 & E2); injection E2 as _ <-; by apply (qu_upd_obj _ _ _ _ _ E1)|].
  apply (IH _ _ _ _ _ ltac:(intros o' Ho'; apply Ho; by right) E).
Qed.

Lemma wait_any_stays objs timeout alertable sigs wba wbtmo tmr k a k' : (forall o, o ∈ objs -> exists r, objects k !! o = Some r /\ o_type r <> OBJECT_IOMUX) ->
  (forall i, (i < length objs)%nat -> wba i <> 0) -> awake (current (k_sched k)) (k_sched k) -> wait_for_any_object dpc objs timeout alertable sigs wba wbtmo tmr k = Done (a, k') -> stays_wakeable k k'.
Proof.
  intros Ho Hwba Ha E H. unfold wait_for_any_object, self in E. rewrite (kbind_done _ _ k (current (k_sched k)) k eq_refl) in E. destruct (Nat.eqb_spec (length objs) 0) as [|Hlen]; [destruct (_ =? _); by injection E as _ <-|]. destruct (_ <? _); [by injection E as _ <-|].
  apply kbind_inv in E as (r & k1 & E1 & E). pose proof (qu_any _ _ _ _ _ _ Ho E1) as Q1. pose proof (quiet_stays _ _ Q1 H) as H1. destruct r as [rc|]; [by injection E as _ <-|]. destruct (timeout =? 0); [by injection E as _ <-|].
  apply kbind_inv in E as (u & k2 & E2 & E). destruct objs as [|o objs]; [done|]. cbn [setup_waits] in E2. change (0 =? 0)%nat with true in E2. cbv iota in E2. apply kbind_inv in E2 as (u1 & k3 & E3 & E2).
  destruct (set_list_stays _ _ _ _ _ E3 (Hwba 0%nat ltac:(cbn; lia))) as (Es3 & H3 & HL3). assert (Q : quiet k3 k2) by (eapply rel_run; [|exact E2]; apply rel_bind; [apply _|related|intros ?]; apply rel_bind; [apply _|related|intros ?]; apply qu_setup).
  pose proof Q as [Es _]. pose proof Q1 as [Es1 _]. rewrite <- Es1, <- Es3, <- Es in E. apply (block_stays _ _ _ _ _ _ _ _ _ E); [by rewrite Es, Es3, Es1|rewrite Es, Es3, Es1; by apply (listed_quiet _ k3)|]. by apply (quiet_stays k3 k2 Q), H3.
Qed.

(** The operations of the scheduler; a wait for objects is not one of them. *)
Lemma st_srun o : (forall reason, o = SWait reason -> reason <> THREAD_WAIT_OBJECT) -> (forall sigs reason, o = SAlertableWait sigs reason -> reason <> THREAD_WAIT_OBJECT) -> relates stays_wakeable (on_sched (srun dpc o)).
Proof.
  intros H1 H2. assert (Hother : forall reason s s' k, reason <> THREAD_WAIT_OBJECT -> sleeps_for reason s s' -> k_sched k = s -> stays_wakeable k (set_sched s' k)).
  { intros reason s s' k Hne HS <- H t r w Hr Hs Hwr Hw. destruct (HS t r Hr Hs) as [[-> E]|(r0 & Hr0 & Hs0 & E0)]; [congruence|]. apply (H t r0 w); [done|done|congruence|done]. }
  destruct o as [t charge boost| |reason|sigs reason| |t| |t|t|t prio]; cbn [srun]; try solve [apply sched_stays; related].
  - intros k a k' E. unfold on_sched, kzoom in E. destruct ((enter_wait dpc reason ;;; kret 0) (k_sched k)) as [[v s']| | |] eqn:Em; [|done..]. injection E as _ <-. apply kbind_inv in Em as (u & s1 & E1 & E2). injection E2 as _ <-. apply (Hother reason (k_sched k)); [by apply H1|by apply (enter_wait_sleeps dpc Hdpc _ _ u)|done].
  - intros k a k' E. unfold on_sched, kzoom in E. destruct (begin_alertable_wait dpc sigs reason (k_sched k)) as [[v s']| | |] eqn:Em; [|done..]. injection E as _ <-. pose proof (begin_alertable_sleeps dpc Hdpc _ _ _ _ _ Em) as Hb. destruct sigs; [subst s'; by destruct k|].
    apply (Hother reason (k_sched k)); [by apply (H2 false)|by apply Hb|done].
Qed.
End Waits.
