(* ===== verification/Waits.v ===== *)
(** * Correctness of waiting (sys/krnl/object.c)

    The operations of Object.v run in any order, by any thread, together with
    those of the scheduler.  The theorems: the wait lists stay right, and no
    wakeup is lost, that is nobody waits for a signaled object, a free mutex or
    a semaphore with resources left, and a thread that sleeps for objects has
    wait blocks (Awake.v), so that nobody sleeps who was released; resources and
    mutexes go to those who wait longest.  Waits for all of several objects are
    outside of these theorems, since thread_ready_to_run may refuse their
    threads, and so are I/O multiplexers.  Three of the theorems show errors of
    the code. *)

From S2P Require Import Prelude Timer Dlist Dpc Sched Object Awake.

Local Open Scope k_scope.

(** ** Timers of timed waits *)

Lemma tinv_init s t h a :
  Timer.tinv s -> (forall tm, Timer.timers s !! t = Some tm -> Timer.active tm = false) ->
  exists s', Timer.init_timer t h a s = Done (tt, s') /\ Timer.tinv s' /\
    Timer.timers s' = <[t := Timer.mkTimer 0 false h a]> (Timer.timers s) /\ Timer.ticks s' = Timer.ticks s.
Proof.
  intros [Hl (T & c & b & E & HW & Hb & Hty)] Hi.
  destruct (Timer.init_timer_wheel s T c b E t h a HW Hi) as (s1 & Hr1 & HW1 & Ht1 & Hc1 & _). exists s1.
  split_and!; [done| |done|apply Hc1]. eapply Timer.tinv_wheel; [done..|]. by eapply Timer.typed_put; [done| |done].
Qed.

Lemma tinv_expires s t tm e :
  Timer.tinv s -> Timer.timers s !! t = Some tm -> Timer.active tm = false -> is_u32 e ->
  Timer.tinv (Timer.put_timer t (Timer.with_expires tm e) s).
Proof.
  intros [Hl (T & c & b & E & HW & Hb & Hty)] Htm Ha He. eapply (Timer.tinv_wheel s); [done|done|done| |].
  - apply Timer.put_wheel; [exact HW| |done]. intros n i. by eapply Timer.inactive_free.
  - exact (Timer.typed_put s (Timer.put_timer t (Timer.with_expires tm e) s) t (Timer.with_expires tm e) Hty He eq_refl).
Qed.

Lemma tinv_add s t tm : Timer.tinv s -> Timer.timers s !! t = Some tm -> 
  exists s', Timer.add_timer t s = Done (tt, s') /\ Timer.tinv s' /\ is_Some (Timer.timers s' !! t).
Proof.
  intros [Hl (T & c & b & E & HW & Hb & Hty)] Htm.
  destruct (Timer.add_wheel s T c b E HW t tm Htm (Hty _ _ Htm)) as (s1 & b1 & E1 & Hr1 & HW1 & Ht1 & Hc1 & _). exists s1.
  split_and!; [done| |rewrite Ht1; by rewrite lookup_insert_eq]. eapply Timer.tinv_wheel; [done..|]. eapply Timer.typed_put; [done| |done]. exact (Hty _ _ Htm).
Qed.

Lemma tinv_del s t tm : Timer.tinv s -> Timer.timers s !! t = Some tm -> exists rc s', Timer.del_timer t s = Done (rc, s') /\ Timer.tinv s'.
Proof.
  intros [Hl (T & c & b & E & HW & Hb & Hty)] Htm.
  destruct (Timer.del_wheel s T c b E t tm HW Htm) as (s1 & b1 & Hr1 & HW1 & Ht1 & Hc1 & _). eexists _, s1.
  split; [done|]. eapply Timer.tinv_wheel; [done..|]. eapply Timer.typed_put; [done| |done]. exact (Hty _ _ Htm).
Qed.

Lemma tinv_mod s t tm e : Timer.tinv s -> Timer.timers s !! t = Some tm -> is_u32 e -> exists rc s', Timer.mod_timer t e s = Done (rc, s') /\ Timer.tinv s'.
Proof.
  intros [Hl (T & c & b & E & HW & Hb & Hty)] Htm He. destruct (Timer.mod_wheel s T c b E t tm e HW Htm He) as (s1 & b1 & E1 & Hr1 & HW1 & Ht1 & Hc1 & _). eexists _, s1.
  split; [done|]. eapply Timer.tinv_wheel; [done..|]. by eapply Timer.typed_put; [done| |done].
Qed.

(** ** The invariant *)

(** A semaphore is signaled if it has resources, a mutex if it has no owner. *)
Definition obj_ok (r : kobject) : Prop :=
  (o_type r = OBJECT_SEMAPHORE -> 0 <= count r < W32 /\ (signaled r <> 0 <-> count r <> 0)) /\
  (o_type r = OBJECT_MUTEX -> (signaled r <> 0 <-> owner r = 0)).

Lemma obj_ok_core r r' : ocore r' = ocore r -> obj_ok r -> obj_ok r'.
Proof. intros E. destruct (ocore_fields _ _ E) as (Ht & Hs & _ & Hc & Ho & _). unfold obj_ok. by rewrite Ht, Hs, Hc, Ho. Qed.

(** [kbase], and nobody waits for a signaled object. *)
Record kstate (B W : Z -> list Z) (k : kernel) : Prop := {
  ks_base : kbase B W k;
  ks_obj : forall o r, objects k !! o = Some r -> obj_ok r /\ (signaled r <> 0 -> W o = []);
  ks_null : objects k !! 0 = None;
  ks_timers : Timer.tinv (k_wheel k);
}.

Definition kgood (k : kernel) : Prop := exists B W, kstate B W k.

(** A change of the object [e] that releases threads. *)
Lemma kstate_step e ro B W B' W' k k' :
  kstate B W k -> kbase B' W' k' -> objs_but e k k' -> freeing B B' W W' k k' -> obj_is e ro k' -> e <> 0 -> obj_ok ro ->
  (signaled ro <> 0 -> W' e = []) -> kstate B' W' k'.
Proof.
  intros [_ Ho H0 Ht] Hb Hbut Hf He He0 Hok Hs. split; [done| | |].
  - intros o r Hr. destruct (decide (o = e)) as [->|Hne].
    + destruct (obj_is_lookup e ro k' He) as (r1 & Hr1 & Ec). assert (r1 = r) as -> by congruence. split; [by apply (obj_ok_core ro)|].
      destruct (ocore_fields _ _ Ec) as (_ & -> & _). done.
    + specialize (Hbut o Hne). rewrite Hr in Hbut. destruct (objects k !! o) as [r0|] eqn:Hr0; [|done].
      change (Some (ocore r) = Some (ocore r0)) in Hbut. destruct (Ho o r0 Hr0) as [Hok0 Hs0]. assert (Ec : ocore r = ocore r0) by congruence.
      split; [by apply (obj_ok_core r0)|]. destruct (ocore_fields _ _ Ec) as (_ & -> & _). intros H. apply elem_of_nil_inv. intros a Ha.
      apply (fr_fewer _ _ _ _ _ _ Hf) in Ha. rewrite (Hs0 H) in Ha. by apply elem_of_nil in Ha.
  - specialize (Hbut 0 (not_eq_sym He0)). rewrite H0 in Hbut. by destruct (objects k' !! 0).
  - by rewrite (fr_wheel _ _ _ _ _ _ Hf).
Qed.

Lemma obj_nonzero B W k o r : kstate B W k -> objects k !! o = Some r -> o <> 0.
Proof. intros K Hr ->. by rewrite (ks_null _ _ _ K) in Hr. Qed.

(** The current thread is not in the middle of a wait. *)
Definition not_waiting (k : kernel) : Prop := forall w, waits k !! current (k_sched k) = Some w -> waitlist w = 0.

Lemma current_blocks B W k : kbase B W k -> not_waiting k -> B (current (k_sched k)) = [].
Proof.
  intros [I Hg Hkn Hf] Hn. destruct (Hg) as (_ & _ & r & Hr & _). destruct (Hf (current (k_sched k))) as [w Hw]; [by eexists|].
  assert (H0 : current (k_sched k) <> 0) by (intros E; rewrite E, (wi_thread _ _ _ _ I) in Hw; done).
  pose proof (wi_wait _ _ _ _ I _ w Hw H0) as E. rewrite (Hn w Hw) in E. symmetry in E. apply hd_zero in E; [done|].
  intros Hin. destruct (wi_block _ _ _ _ I _ 0 Hin) as (rb & Hrb & _). by rewrite (wi_null _ _ _ _ I) in Hrb.
Qed.

(** The first update of an operation on [e]. *)
Lemma start_obj B W k e r f :
  kstate B W k -> objects k !! e = Some r -> (forall r, ocore (f r) = f (ocore r)) -> (forall r, waitlist_head (f r) = waitlist_head r) ->
  (forall r, waitlist_tail (f r) = waitlist_tail r) ->
  exists k1 r1, upd_obj e f k = Done (tt, k1) /\ objects k1 !! e = Some r1 /\ waitlist_head r1 = hd 0 (W e) /\ obj_is e (f r) k1 /\
    kbase B W k1 /\ objs_but e k k1 /\ k_sched k1 = k_sched k /\ k_wheel k1 = k_wheel k /\ rounds k1 = rounds k.
Proof.
  intros K Hr Hf Hh Ht. destruct (upd_obj_is e r k f) as (k1 & E & He & Hb & Hs & Hw & Hwb & Hwh & Hk); [unfold obj_is; by rewrite Hr|done..|].
  destruct (obj_is_lookup _ _ _ He) as (r1 & Hr1 & Ec). specialize (Hk B W (ks_base _ _ _ K)).
  exists k1, r1. split; [done|]. split; [done|]. split; [apply (wi_obj _ _ _ _ (kb_waits _ _ _ Hk) e r1 Hr1)|].
  split_and!; try done. unfold rounds. by rewrite Hwb.
Qed.

(** ** Signaling operations *)

Definition kpost {A} (_ : A) (k' : kernel) : Prop := kgood k'.

(** What happens behind the first update. *)
Lemma finish_obj {A} (a : A) e ro B W B' W' k k1 k' :
  kstate B W k -> objs_but e k k1 -> k_sched k1 = k_sched k -> k_wheel k1 = k_wheel k -> e <> 0 ->
  kbase B' W' k' -> objs_but e k1 k' -> freeing B B' W W' k1 k' -> obj_is e ro k' -> obj_ok ro -> (signaled ro <> 0 -> W' e = []) ->
  kpost a k'.
Proof.
  intros K Hb Hs Hw He0 Hk' Hb' Hf He Hok Hsg. exists B', W'.
  apply (kstate_step e ro B W _ _ k); [done|done|by apply (objs_but_trans e k k1)|by apply (freeing_from _ _ _ _ k1)|done..].
Qed.

Lemma not_special r : o_type r <> OBJECT_SEMAPHORE -> o_type r <> OBJECT_MUTEX -> obj_ok r.
Proof. by split. Qed.

Lemma set_event_safe B W k e r :
  kstate B W k -> not_waiting k -> objects k !! e = Some r -> o_type r = OBJECT_EVENT -> panics_or (set_event e k) kpost.
Proof.
  intros K Hn Hr Ht. pose proof (current_blocks _ _ _ (ks_base _ _ _ K) Hn) as Hcur.
  destruct (start_obj B W k e r (set_signaled 1) K Hr) as (k1 & r1 & E & Hr1 & Hh & He & Hk1 & Hb1 & Hs1 & Hw1 & Hrd); [done..|].
  unfold set_event. step E. step (eq_refl : kget k1 = Done (k1, k1)). step (get_obj_run e r1 k1 Hr1). rewrite Hh.
  eapply panics_or_mono; [apply (set_event_loop_run e (set_signaled 1 r) (W e) (rounds k1) B W k1 Hk1); [done|done|by rewrite Hs1|]|].
  { apply (wlist_bound B), Hk1. }
  intros u k' (B' & W' & Hk' & Hb' & Hf' & Hp). destruct (_ && _); destruct Hp as [He' HW'].
  - eapply (finish_obj _ e _ B W B' W' k k1); try done; [by apply (obj_nonzero B W k e r)|by apply not_special; cbn; rewrite Ht].
  - eapply (finish_obj _ e _ B W B' W' k k1); try done; [by apply (obj_nonzero B W k e r)|by apply not_special; cbn; rewrite Ht].
Qed.

Lemma reset_event_safe B W k e r :
  kstate B W k -> objects k !! e = Some r -> o_type r = OBJECT_EVENT -> panics_or (reset_event e k) kpost.
Proof.
  intros K Hr Ht. destruct (start_obj B W k e r (set_signaled 0) K Hr) as (k1 & r1 & E & Hr1 & Hh & He & Hk1 & Hb1 & Hs1 & Hw1 & Hrd); [done..|].
  unfold reset_event. rewrite E. eapply (finish_obj _ e _ B W B W k k1); try done; [by apply (obj_nonzero B W k e r)|by apply not_special; cbn; rewrite Ht].
Qed.

Lemma release_waiters_safe B W k e r key (key' : kobject -> Z) :
  kstate B W k -> not_waiting k -> objects k !! e = Some r -> o_type r <> OBJECT_SEMAPHORE -> o_type r <> OBJECT_MUTEX ->
  (forall r1, ocore r1 = ocore (set_signaled 1 r) -> key' r1 = key) ->
  panics_or ((upd_obj e (set_signaled 1) ;;; let* o := get_obj e in release_waiters e (key' o)) k) kpost.
Proof.
  intros K Hn Hr Ht1 Ht2 Hkey. pose proof (current_blocks _ _ _ (ks_base _ _ _ K) Hn) as Hcur.
  destruct (start_obj B W k e r (set_signaled 1) K Hr) as (k1 & r1 & E & Hr1 & Hh & He & Hk1 & Hb1 & Hs1 & Hw1 & Hrd); [done..|].
  step E. step (get_obj_run e r1 k1 Hr1). rewrite Hkey by (destruct (obj_is_lookup _ _ _ He) as (? & ? & ?); congruence).
  unfold release_waiters. step (eq_refl : kget k1 = Done (k1, k1)). step (get_obj_run e r1 k1 Hr1). rewrite Hh.
  eapply panics_or_mono; [apply (release_loop_run e key (W e) (rounds k1) B W k1 Hk1); [done|by rewrite Hs1|]|].
  { apply (wlist_bound B), Hk1. }
  intros u k' (B' & W' & Hk' & HW' & Ho' & Hf'). eapply (finish_obj _ e (set_signaled 1 r) B W B' W' k k1); try done.
  - by apply (obj_nonzero B W k e r).
  - by apply same_but.
  - by apply (obj_is_same e _ k1).
Qed.

Lemma exit_thread_safe B W k t r :
  kstate B W k -> not_waiting k -> objects k !! t = Some r -> o_type r = OBJECT_THREAD -> panics_or (exit_thread t k) kpost.
Proof.
  intros K Hn Hr Ht. apply (release_waiters_safe B W k t r (exitcode r) exitcode K Hn Hr); [by rewrite Ht..|].
  intros r1 Ec. by destruct (ocore_fields _ _ Ec) as (_ & _ & _ & _ & _ & _ & ->).
Qed.

Lemma expire_safe B W k t r :
  kstate B W k -> not_waiting k -> objects k !! t = Some r -> o_type r = OBJECT_TIMER -> panics_or (expire_waitable_timer t k) kpost.
Proof.
  intros K Hn Hr Ht. pose proof (release_waiters_safe B W k t r 0 (fun _ => 0) K Hn Hr) as H. unfold expire_waitable_timer.
  destruct (start_obj B W k t r (set_signaled 1) K Hr) as (k1 & r1 & E & Hr1 & _); [done..|]. step E. revert H. step E.
  step (get_obj_run t r1 k1 Hr1). intros H. by apply H; [rewrite Ht..|].
Qed.

(** All threads that wait for an object that is closed are released. *)
Lemma close_loop_run o l : forall n B W k,
  kbase B W k -> W o = l -> is_Some (objects k !! o) -> B (current (k_sched k)) = [] -> (length l < n)%nat ->
  panics_or (close_loop n o k) (fun _ k' => exists B' W', kbase B' W' k' /\ W' o = [] /\ same_objects k k' /\ freeing B B' W W' k k').
Proof.
  induction l as [|w l IH]; intros [|n] B W k Hk HW [r Hr] Hcur Hn; [cbn in Hn; lia| |cbn in Hn; lia|]; cbn [close_loop]; step (get_obj_run o r k Hr); pose proof Hk as [I Hg Hkn Hf];
    destruct (wi_obj _ _ _ _ I o r Hr) as [-> _]; rewrite HW; cbn [hd].
  - exists B, W. split; [done|]. split; [done|]. split; [by intros o'|apply freeing_refl].
  - destruct (head_block B W k o w l I HW) as (b & Hb & Hw0 & _ & HB & Hm). destruct (Z.eqb_spec w 0); [done|]. step (get_wb_run w b k Hb). destruct (Hf _ (Hkn _ HB)) as [tw Htw]. step (upd_wait_run _ tw (set_waitkey (- EINTR)) k Htw).
    eapply panics_or_bind; [apply (release_head B W _ (wb_thread b) o l); [by apply kbase_key|done|intros E; by rewrite E in HB|done|done]|].
    intros _ k3 (B3 & W3 & Hk3 & HW3 & Hcur3 & Ho3 & Hf3). assert (Hr3 : is_Some (objects k3 !! o)) by (specialize (Ho3 o); cbn in Ho3; rewrite Hr in Ho3; by destruct (objects k3 !! o)).
    eapply panics_or_mono; [apply (IH n B3 W3 k3); [done..|cbn in Hn; lia]|]. intros _ k4 (B4 & W4 & Hk4 & HW4 & Ho4 & Hf4). exists B4, W4. split; [done|]. split; [done|]. split; [intros o'; rewrite Ho4; apply Ho3|].
    eapply freeing_trans; [|exact Hf4]. by eapply freeing_from; [| |exact Hf3].
Qed.

(** The waiters of an event that is pulsed; all of them are found ready. *)
Lemma pulse_loop_run e ro l : forall n B W k,
  kbase B W k -> W e = l -> obj_is e ro k -> B (current (k_sched k)) = [] -> (length l < n)%nat ->
  panics_or (pulse_loop n e (hd 0 l) k) (fun _ k' => exists B' W',
    kbase B' W' k' /\ same_objects k k' /\ freeing B B' W W' k k' /\ W' e = if manual_reset ro =? 0 then tail l else []).
Proof.
  induction l as [|w l IH]; intros [|n] B W k Hk HW He Hcur Hn; [cbn in Hn; lia| |cbn in Hn; lia|].
  - exists B, W. split; [done|]. split; [by intros o'|]. split; [apply freeing_refl|]. by destruct (_ =? _).
  - destruct (visit_head B W k e w l Hk HW Hcur) as (r & k1 & E & Hw0 & Hnx & HB & Hm & Hne & E1 & Hk1 & Hs1 & Ho1 & Hwh1 & Hwb1 & _).
    cbn [pulse_loop hd]. destruct (Z.eqb_spec w 0); [done|]. step E. step E1. rewrite Hnx.
    eapply panics_or_bind; [apply (release_head B W k1 (wb_thread r) e l); [done..| |done|]; by rewrite Hs1|].
    intros _ k3 (B3 & W3 & Hk3 & HW3 & Hcur3 & Ho3 & Hf3).
    assert (Hso : same_objects k k3) by (intros o; rewrite Ho3; by rewrite Ho1). pose proof (obj_is_same e ro k k3 Hso He) as He3.
    apply (freeing_from _ _ _ _ k1 k) in Hf3; [|done..].
    destruct (obj_is_lookup e ro k3 He3) as (r3 & Hr3 & Ec). destruct (ocore_fields _ _ Ec) as (_ & _ & Hma & _).
    step (get_obj_run e r3 k3 Hr3). rewrite Hma. destruct (Z.eqb_spec (manual_reset ro) 0) as [Em|Em].
    + exists B3, W3. done.
    + eapply panics_or_mono; [apply (IH n B3 W3 k3); [done..|cbn in Hn; lia]|].
      intros _ k4 (B4 & W4 & Hk4 & Hb4 & Hf4 & Hpost). exists B4, W4. split; [done|]. split; [intros o; by rewrite Hb4|].
      split; [by eapply freeing_trans|]. by destruct (Z.eqb_spec (manual_reset ro) 0).
Qed.

Lemma pulse_event_safe B W k e r :
  kstate B W k -> not_waiting k -> objects k !! e = Some r -> o_type r = OBJECT_EVENT -> panics_or (pulse_event e k) kpost.
Proof.
  intros K Hn Hr Ht. pose proof (current_blocks _ _ _ (ks_base _ _ _ K) Hn) as Hcur.
  destruct (start_obj B W k e r (set_signaled 1) K Hr) as (k1 & r1 & E & Hr1 & Hh & He & Hk1 & Hb1 & Hs1 & Hw1 & Hrd); [done..|].
  unfold pulse_event. step E. step (eq_refl : kget k1 = Done (k1, k1)). step (get_obj_run e r1 k1 Hr1). rewrite Hh.
  eapply panics_or_bind; [apply (pulse_loop_run e (set_signaled 1 r) (W e) (rounds k1) B W k1 Hk1); [done|done|by rewrite Hs1|]|].
  { apply (wlist_bound B), Hk1. }
  intros u k2 (B' & W' & Hk2 & Ho2 & Hf2 & _). pose proof (obj_is_same e _ k1 k2 Ho2 He) as He2.
  destruct (upd_obj_is e _ k2 (set_signaled 0) He2) as (k3 & E3 & He3 & Hb3 & Hs3 & _ & _ & Hwh3 & Hk3); [done..|]. rewrite E3.
  eapply (finish_obj _ e _ B W B' W' k k1); try done.
  - by apply (obj_nonzero B W k e r).
  - by apply Hk3.
  - apply (objs_but_trans e k1 k2); [by apply same_but|done].
  - destruct Hf2 as [F1 F2 F3 F4]. by split; [..|congruence|congruence].
  - by apply not_special; cbn; rewrite Ht.
Qed.

(** A semaphore that has got [c] resources while [n] threads wait. *)
Definition sem_given (c : Z) (n : nat) (r : kobject) : kobject :=
  if c =? 0 then set_count 0 r else sem_after n (set_signaled 1 (set_count c r)).

Lemma give_sem_run B W k s r c :
  kstate B W k -> not_waiting k -> objects k !! s = Some r -> 0 <= c < W32 ->
  panics_or ((upd_obj s (set_count c) ;;; signal_sem s) k) (fun _ k' => exists B' W',
    kbase B' W' k' /\ objs_but s k k' /\ freeing B B' W W' k k' /\
    obj_is s (sem_given c (length (W s)) r) k' /\ W' s = drop (Z.to_nat c) (W s)).
Proof.
  intros K Hn Hr Hc. pose proof (current_blocks _ _ _ (ks_base _ _ _ K) Hn) as Hcur.
  destruct (start_obj B W k s r (set_count c) K Hr) as (k1 & r1 & E & Hr1 & Hh & He & Hk1 & Hb1 & Hs1 & Hw1 & Hrd); [done..|].
  step E. unfold signal_sem. step (get_obj_run s r1 k1 Hr1). destruct (obj_is_lookup _ _ _ He) as (r1' & Hr1' & Ec).
  assert (r1' = r1) as -> by congruence. destruct (ocore_fields _ _ Ec) as (_ & _ & _ & Hcn & _). rewrite Hcn. cbn [count set_count].
  unfold sem_given. destruct (Z.ltb_spec 0 c) as [Hpos|Hz].
  - destruct (upd_obj_is s _ k1 (set_signaled 1) He) as (k2 & E2 & He2 & Hb2 & Hs2 & _ & Hwb2 & Hwh2 & Hk2); [done..|]. step E2.
    specialize (Hk2 B W Hk1). destruct (obj_is_lookup _ _ _ He2) as (r2 & Hr2 & _).
    step (eq_refl : kget k2 = Done (k2, k2)). step (get_obj_run s r2 k2 Hr2).
    rewrite (proj1 (wi_obj _ _ _ _ (kb_waits _ _ _ Hk2) s r2 Hr2)).
    eapply panics_or_mono; [apply (sem_loop_run s (W s) (rounds k2) (set_signaled 1 (set_count c r)) B W k2 Hk2); [done|done|cbn; lia|by rewrite Hs2, Hs1|]|].
    { apply (wlist_bound B), Hk2. }
    intros _ k' (B' & W' & Hk' & Hb' & Hf' & He' & HW'). exists B', W'. destruct (Z.eqb_spec c 0); [lia|].
    split; [done|]. split; [apply (objs_but_trans s k k2); [by apply (objs_but_trans s k k1)|done]|].
    split; [by apply (freeing_from _ _ _ _ k2); [congruence..|]|]. done.
  - assert (c = 0) as -> by lia. exists B, W. split; [done|]. split; [done|]. split; [|done].
    apply (freeing_from _ _ _ _ k1); [done..|apply freeing_refl].
Qed.

Lemma sem_given_ok c n r :
  o_type r = OBJECT_SEMAPHORE -> obj_ok r -> 0 <= c < W32 -> (c = 0 -> count r = 0) -> obj_ok (sem_given c n r).
Proof.
  intros Ht [Hok _] Hc Hz. destruct (Hok Ht) as [_ Hs]. unfold sem_given, sem_after. destruct (Z.eqb_spec c 0) as [->|Hne].
  - split; [|by cbn; rewrite Ht]. intros _. cbn. split; [done|]. rewrite Hs, Hz by done. done.
  - split; [|by cbn; rewrite Ht]. intros _. cbn. split; [lia|]. destruct (Z.eqb_spec (Z.max 0 (c - Z.of_nat n)) 0); lia.
Qed.

Lemma sem_given_empty c n r : signaled (sem_given c n r) <> 0 -> c <> 0 -> (n <= Z.to_nat c)%nat.
Proof.
  unfold sem_given, sem_after. destruct (Z.eqb_spec c 0) as [->|Hne]; [done|]. cbn.
  destruct (Z.eqb_spec (Z.max 0 (c - Z.of_nat n)) 0); [done|]. lia.
Qed.

(** Giving resources keeps the invariant, unless they are all taken away. *)
Lemma give_sem_safe {A} (a : A) B W k s r c :
  kstate B W k -> not_waiting k -> objects k !! s = Some r -> o_type r = OBJECT_SEMAPHORE -> 0 <= c < W32 -> (c = 0 -> count r = 0) ->
  panics_or ((upd_obj s (set_count c) ;;; signal_sem s ;;; kret a) k) kpost.
Proof.
  intros K Hn Hr Ht Hc Hz. pose proof (give_sem_run B W k s r c K Hn Hr Hc) as H. revert H. unfold kbind.
  destruct (upd_obj s (set_count c) k) as [[[] k1]| | |]; [|done..]. destruct (signal_sem s k1) as [[[] k2]| | |]; [|done..].
  intros (B' & W' & Hk' & Hb' & Hf' & He' & HW'). exists B', W'. destruct (ks_obj _ _ _ K s r Hr) as [Hok Hsg].
  apply (kstate_step s _ B W _ _ k _ K Hk' Hb' Hf' He'); [by apply (obj_nonzero B W k s r)|by apply sem_given_ok|].
  intros Hs. rewrite HW'. destruct (decide (c = 0)) as [->|Hne].
  - rewrite drop_0. apply Hsg. exact Hs.
  - apply drop_ge. by apply (sem_given_empty c (length (W s)) r).
Qed.

Lemma release_sem_safe B W k s r n :
  kstate B W k -> not_waiting k -> objects k !! s = Some r -> o_type r = OBJECT_SEMAPHORE -> 0 <= n -> count r + n < W32 ->
  panics_or (release_sem s n k) kpost.
Proof.
  intros K Hn Hr Ht Hn0 Hlt. destruct (ks_obj _ _ _ K s r Hr) as [[Hok _] _]. destruct (Hok Ht) as [Hc _].
  unfold release_sem. step (get_obj_run s r k Hr). rewrite u32_small by (unfold is_u32; lia).
  apply (give_sem_safe _ B W k s r); try done; lia.
Qed.

Lemma set_sem_safe B W k s r n :
  kstate B W k -> not_waiting k -> objects k !! s = Some r -> o_type r = OBJECT_SEMAPHORE -> 0 <= n < W32 -> (n = 0 -> count r = 0) ->
  panics_or (set_sem s n k) kpost.
Proof. intros K Hn Hr Ht Hn0 Hz. unfold set_sem. step (get_obj_run s r k Hr). by apply (give_sem_safe _ B W k s r). Qed.

(** The mutex after its owner has left it, while the blocks [l] wait. *)
Definition handed (k : kernel) (l : list Z) (n : Z) (r : kobject) : kobject :=
  match l with
  | [] => set_owner 0 (set_signaled 1 (set_recursion n r))
  | w :: _ => set_signaled 0 (set_recursion 1 (set_owner (match waitblocks k !! w with Some b => wb_thread b | None => 0 end)
                (set_signaled 1 (set_recursion n r))))
  end.

(** Several updates of one object. *)
Lemma upd_obj_seq e r k f :
  obj_is e r k -> (forall r, ocore (f r) = f (ocore r)) -> (forall r, waitlist_head (f r) = waitlist_head r) ->
  (forall r, waitlist_tail (f r) = waitlist_tail r) ->
  exists k', upd_obj e f k = Done (tt, k') /\ obj_is e (f r) k' /\ objs_but e k k' /\ k_sched k' = k_sched k /\
    waitblocks k' = waitblocks k /\ k_wheel k' = k_wheel k /\ forall B W, kbase B W k -> kbase B W k'.
Proof. intros He Hf Hh Ht. destruct (upd_obj_is e r k f He Hf Hh Ht) as (k' & ? & ? & ? & ? & _ & ? & ? & ?). by exists k'. Qed.

Lemma kstate_upd B W e r k f :
  kstate B W k -> obj_is e r k -> (forall r, ocore (f r) = f (ocore r)) -> (forall r, waitlist_head (f r) = waitlist_head r) ->
  (forall r, waitlist_tail (f r) = waitlist_tail r) -> obj_ok (f r) -> (signaled (f r) <> 0 -> W e = []) ->
  exists k', upd_obj e f k = Done (tt, k') /\ kstate B W k' /\ obj_is e (f r) k' /\ k_sched k' = k_sched k /\ waits k' = waits k /\
    waitblocks k' = waitblocks k /\ k_wheel k' = k_wheel k.
Proof.
  intros K He Hf Hh Ht Hok Hsg. destruct (upd_obj_is e r k f He Hf Hh Ht) as (k' & E & He' & Hb & Hs & Hw & Hwb & Hwh & Hk).
  exists k'. split; [done|]. split; [|done]. destruct (obj_is_lookup _ _ _ He) as (r0 & Hr0 & _).
  apply (kstate_step e (f r) B W _ _ k _ K (Hk _ _ (ks_base _ _ _ K)) Hb); [|done|by apply (obj_nonzero B W k e r0)|done..].
  apply (freeing_from _ _ _ _ k'); [done..|apply freeing_refl].
Qed.

Lemma release_mutex_run B W k m r :
  kstate B W k -> not_waiting k -> objects k !! m = Some r -> owner r = current (k_sched k) -> s32 (recursion r - 1) <= 0 ->
  panics_or (release_mutex m k) (fun rc k' => rc = 0 /\ exists B' W',
    kbase B' W' k' /\ objs_but m k k' /\ freeing B B' W W' k k' /\
    obj_is m (handed k (W m) (s32 (recursion r - 1)) r) k' /\ W' m = tail (W m)).
Proof.
  intros K Hn Hr Hown Hrec. pose proof (current_blocks _ _ _ (ks_base _ _ _ K) Hn) as Hcur.
  unfold release_mutex, self. rewrite (kbind_done _ _ k (current (k_sched k)) k eq_refl). step (get_obj_run m r k Hr).
  rewrite Hown, Z.eqb_refl. cbn [negb]. assert (He : obj_is m r k) by (unfold obj_is; by rewrite Hr).
  set (n := s32 (recursion r - 1)) in *.
  destruct (upd_obj_seq m r k (set_recursion n) He) as (k1 & E1 & He1 & Hb1 & Hs1 & Hwb1 & Hw1 & Hk1); [done..|]. step E1.
  destruct (obj_is_lookup _ _ _ He1) as (r1 & Hr1 & Ec1). step (get_obj_run m r1 k1 Hr1).
  destruct (ocore_fields _ _ Ec1) as (_ & _ & _ & _ & _ & -> & _). cbn [recursion set_recursion]. destruct (Z.ltb_spec 0 n); [lia|].
  destruct (upd_obj_seq m _ k1 (set_signaled 1) He1) as (k2 & E2 & He2 & Hb2 & Hs2 & Hwb2 & Hw2 & Hk2); [done..|]. step E2.
  destruct (upd_obj_seq m _ k2 (set_owner 0) He2) as (k3 & E3 & He3 & Hb3 & Hs3 & Hwb3 & Hw3 & Hk3); [done..|]. step E3.
  assert (Kb3 : kbase B W k3) by (apply Hk3, Hk2, Hk1, K). assert (Hb : objs_but m k k3).
  { apply (objs_but_trans m k k2); [by apply (objs_but_trans m k k1)|done]. }
  assert (Hsc : k_sched k3 = k_sched k) by congruence. assert (Hwh : k_wheel k3 = k_wheel k) by congruence.
  destruct (obj_is_lookup _ _ _ He3) as (r3 & Hr3 & _). step (eq_refl : kget k3 = Done (k3, k3)). step (get_obj_run m r3 k3 Hr3).
  rewrite (proj1 (wi_obj _ _ _ _ (kb_waits _ _ _ Kb3) m r3 Hr3)).
  destruct (first_ready_run B W k3 m Kb3) as (k4 & E4 & Kb4 & Hs4 & Ho4 & Hw4 & Hwb4); [by rewrite Hsc|]. step E4.
  assert (He4 : obj_is m (set_owner 0 (set_signaled 1 (set_recursion n r))) k4) by (unfold obj_is; by rewrite Ho4).
  assert (Hb4 : objs_but m k k4) by (intros o Ho; rewrite Ho4; by apply Hb).
  destruct (W m) as [|w l] eqn:HW; cbn [hd tail handed].
  - split; [done|]. exists B, W. split; [done|]. split; [done|]. split; [|done].
    apply (freeing_from _ _ _ _ k4); [congruence..|apply freeing_refl].
  - destruct (head_block B W k4 m w l (kb_waits _ _ _ Kb4) HW) as (rw & Hrw & Hw0 & _ & HBw & Hm). destruct (Z.eqb_spec w 0); [done|]. cbn [negb].
    unfold kbind at 1. step (get_wb_run w rw k4 Hrw). assert (Hrw' : waitblocks k !! w = Some rw) by congruence. rewrite Hrw'.
    destruct (upd_obj_seq m _ k4 (set_owner (wb_thread rw)) He4) as (k5 & E5 & He5 & Hb5 & Hs5 & Hwb5 & Hw5 & Hk5); [done..|]. step E5.
    destruct (upd_obj_seq m _ k5 (set_recursion 1) He5) as (k6 & E6 & He6 & Hb6 & Hs6 & Hwb6 & Hw6 & Hk6); [done..|]. step E6.
    destruct (upd_obj_seq m _ k6 (set_signaled 0) He6) as (k7 & E7 & He7 & Hb7 & Hs7 & Hwb7 & Hw7 & Hk7); [done..|]. step E7.
    assert (Hs : k_sched k7 = k_sched k) by congruence.
    pose proof (release_head B W k7 (wb_thread rw) m l (Hk7 _ _ (Hk6 _ _ (Hk5 _ _ Kb4))) HBw) as Hrel. rewrite Hs in Hrel.
    assert (Hne : wb_thread rw <> current (k_sched k)) by (intros E; by rewrite E in HBw).
    specialize (Hrel Hne Hm Hcur). destruct (release_thread (wb_thread rw) k7) as [[[] k8]| | |]; [|done..].
    destruct Hrel as (B' & W' & Kb8 & HW8 & _ & Ho8 & Hf8). split; [done|]. exists B', W'. split; [done|].
    split; [|split; [by apply (freeing_from _ _ _ _ k7); [congruence..|]|split; [by apply (obj_is_same m _ k7)|done]]].
    intros o Ho. rewrite Ho8, Hb7, Hb6, Hb5 by done. by apply Hb4.
Qed.

Lemma release_mutex_safe B W k m r :
  kstate B W k -> not_waiting k -> objects k !! m = Some r -> o_type r = OBJECT_MUTEX -> panics_or (release_mutex m k) kpost.
Proof.
  intros K Hn Hr Ht. pose proof (obj_nonzero B W k m r K Hr) as Hm0. destruct (ks_obj _ _ _ K m r Hr) as [[_ Hok] Hsg]. specialize (Hok Ht).
  assert (Hno : o_type r <> OBJECT_SEMAPHORE) by (by rewrite Ht).
  destruct (decide (owner r = current (k_sched k))) as [Hown|Hown].
  2:{ unfold release_mutex, self. rewrite (kbind_done _ _ k (current (k_sched k)) k eq_refl). step (get_obj_run m r k Hr).
      destruct (Z.eqb_spec (owner r) (current (k_sched k))); [done|]. by exists B, W. }
  assert (Hcur : current (k_sched k) <> 0).
  { destruct (kb_good _ _ _ (ks_base _ _ _ K)) as ([Q I] & _ & rc & Hrc & _). intros E. rewrite E in Hrc. by rewrite (no_null_thread _ _ _ I) in Hrc. }
  destruct (Z.le_gt_cases (s32 (recursion r - 1)) 0) as [Hrec|Hrec].
  - eapply panics_or_mono; [by apply (release_mutex_run B W k m r)|]. intros rc k' (_ & B' & W' & Hk' & Hb' & Hf' & He' & HW').
    exists B', W'. apply (kstate_step m _ B W _ _ k _ K Hk' Hb' Hf' He' Hm0).
    + destruct (W m) as [|w l] eqn:HW; [by split|]. split; [done|]. intros _. cbn [handed signaled set_signaled owner set_recursion set_owner].
      split; [done|]. intros E. exfalso. destruct (wi_mem _ _ _ _ (kb_waits _ _ _ (ks_base _ _ _ K)) m w) as (rw & Hrw & _ & HB); [rewrite HW; by left|].
      rewrite Hrw in E. rewrite E in HB. rewrite (wi_idle _ _ _ _ (kb_waits _ _ _ (ks_base _ _ _ K)) 0) in HB by apply K. by apply elem_of_nil in HB.
    + intros Hs. rewrite HW'. by destruct (W m).
  - unfold release_mutex, self. rewrite (kbind_done _ _ k (current (k_sched k)) k eq_refl). step (get_obj_run m r k Hr).
    rewrite Hown, Z.eqb_refl. cbn [negb].
    destruct (kstate_upd B W m r k (set_recursion (s32 (recursion r - 1))) K) as (k1 & E1 & K1 & He1 & _);
      [unfold obj_is; by rewrite Hr|done|done|done|by split|exact Hsg|].
    step E1. destruct (obj_is_lookup _ _ _ He1) as (r1 & Hr1 & Ec1). step (get_obj_run m r1 k1 Hr1).
    destruct (ocore_fields _ _ Ec1) as (_ & _ & _ & _ & _ & -> & _). cbn [recursion set_recursion].
    destruct (Z.ltb_spec 0 (s32 (recursion r - 1))); [|lia]. by exists B, W.
Qed.

Lemma unlock_filemap_safe B W k m r :
  kstate B W k -> not_waiting k -> objects k !! m = Some r -> o_type r = OBJECT_FILEMAP -> panics_or (unlock_filemap m k) kpost.
Proof.
  intros K Hn Hr Ht. pose proof (current_blocks _ _ _ (ks_base _ _ _ K) Hn) as Hcur. pose proof (obj_nonzero B W k m r K Hr) as Hm0.
  assert (Hok : forall v, obj_ok (set_signaled v r)) by (intros v; apply not_special; cbn; by rewrite Ht).
  destruct (start_obj B W k m r (set_signaled 1) K Hr) as (k1 & r1 & E & Hr1 & Hh & He & Hk1 & Hb1 & Hs1 & Hw1 & _); [done..|].
  unfold unlock_filemap. step E. step (eq_refl : kget k1 = Done (k1, k1)). step (get_obj_run m r1 k1 Hr1). rewrite Hh.
  destruct (first_ready_run B W k1 m Hk1) as (k2 & E2 & Kb2 & Hs2 & Ho2 & Hw2 & Hwb2); [by rewrite Hs1|]. step E2.
  assert (He2 : obj_is m (set_signaled 1 r) k2) by (unfold obj_is; by rewrite Ho2).
  assert (Hb2 : objs_but m k k2) by (intros o Ho; rewrite Ho2; by apply Hb1).
  destruct (W m) as [|w l] eqn:HW; cbn [hd].
  - exists B, W. apply (kstate_step m (set_signaled 1 r) B W B W k k2 K Kb2 Hb2); [|exact He2|done|apply Hok|done].
    apply (freeing_from _ _ _ _ k2); [congruence..|apply freeing_refl].
  - destruct (head_block B W k2 m w l (kb_waits _ _ _ Kb2) HW) as (rw & Hrw & Hw0 & _ & HBw & Hm). destruct (Z.eqb_spec w 0); [done|]. cbn [negb].
    destruct (upd_obj_seq m _ k2 (set_signaled 0) He2) as (k3 & E3 & He3 & Hb3 & Hs3 & Hwb3 & Hw3 & Hk3); [done..|].
    eapply panics_or_bind.
    { step E3. step (get_wb_run w rw k3 ltac:(by rewrite Hwb3)). apply (release_head B W k3 (wb_thread rw) m l); [by apply Hk3|done| |done|].
      - intros E'. rewrite Hs3, Hs2, Hs1 in E'. by rewrite E' in HBw.
      - by rewrite Hs3, Hs2, Hs1. }
    intros u k4 (B' & W' & Kb4 & HW4 & _ & Ho4 & Hf4). exists B', W'.
    apply (kstate_step m (set_signaled 0 r) B W _ _ k _ K Kb4); [| |by apply (obj_is_same m _ k3)|done|apply Hok|done].
    + intros o Ho. rewrite Ho4, Hb3 by done. by apply Hb2.
    + apply (freeing_from _ _ _ _ k3); [congruence..|done].
Qed.

(** ** Parts of a wait *)

(** The invariant while the [waitlist] of the thread [x] is not up to date. *)
Record kloose (x : Z) (B W : Z -> list Z) (k : kernel) : Prop := {
  kl_waits : winv x B W k;
  kl_good : good (k_sched k);
  kl_known : forall t, B t <> [] -> is_Some (threads (k_sched k) !! t);
  kl_fields : forall t, is_Some (threads (k_sched k) !! t) -> is_Some (waits k !! t);
  kl_obj : forall o r, objects k !! o = Some r -> obj_ok r /\ (signaled r <> 0 -> W o = []);
  kl_null : objects k !! 0 = None;
  kl_timers : Timer.tinv (k_wheel k);
}.

Lemma kstate_loose B W k : kstate B W k <-> kloose 0 B W k.
Proof. split; [intros [[? ? ? ?] ? ? ?]; by split|intros [? ? ? ? ? ? ?]; by split]. Qed.

(** [t] gets another [waitlist]. *)
Lemma loosen_more x B W k t w v : kloose x B W k -> x = 0 \/ x = t -> waits k !! t = Some w ->
  kloose t B W (set_waits (<[t := set_waitlist v w]> (waits k)) k).
Proof.
  intros [I Hg Hk Hf Ho H0 Ht] Hx Hw. assert (Ht0 : t <> 0) by (intros ->; by rewrite (wi_thread _ _ _ _ I) in Hw). split; try done.
  - apply (winv_waits x); [done| | |by rewrite lookup_insert_ne; [apply I|]].
    + intros a r. destruct (decide (a = t)) as [->|Hne]; [done|]. rewrite lookup_insert_ne by done. intros Hr _.
      apply (wi_wait _ _ _ _ I a r Hr). destruct Hx as [->| ->]; [|done]. intros ->. by rewrite (wi_thread _ _ _ _ I) in Hr.
    + intros a [Ha _]%lookup_insert_None. by apply (wi_idle _ _ _ _ I).
  - intros a Ha. cbn [waits set_waits]. rewrite lookup_insert_is_Some'. right. by apply Hf.
Qed.

Lemma loosen B W k t w v : kstate B W k -> waits k !! t = Some w -> kloose t B W (set_waits (<[t := set_waitlist v w]> (waits k)) k).
Proof. intros K%kstate_loose Hw. by apply (loosen_more 0); [|left|]. Qed.

Lemma tighten B W k t w : kloose t B W k -> waits k !! t = Some w -> waitlist w = hd 0 (B t) -> kstate B W k.
Proof.
  intros [I Hg Hk Hf Ho H0 Ht] Hw Hl. split; [split| | |]; try done. destruct I as [H1 H2 H3 H4 H5 H6 H7 H8 H9 H10 H11 H12 H13]. split; try done.
  intros a r Hr Ha. destruct (decide (a = t)) as [->|]; [congruence|by apply H10].
Qed.

(** A new object where nobody waits. *)
Lemma loose_init x B W k o r' :
  kloose x B W k -> o <> 0 -> W o = [] -> waitlist_head r' = 0 -> waitlist_tail r' = 0 -> obj_ok r' ->
  kloose x B W (set_objects (<[o := r']> (objects k)) k).
Proof.
  intros [I Hg Hk Hf Ho H0 Ht] Hne HW Hh Htl Hok. split; try done.
  - destruct I as [H1 H2 H3 H4 H5 H6 H7 H8 H9 H10 H11 H12 H13]. split; try done.
    + intros o' r0. cbn [objects set_objects]. destruct (decide (o' = o)) as [->|]; [|rewrite lookup_insert_ne by done; apply H1].
      rewrite lookup_insert_eq, HW. by intros [= <-].
    + intros o' H. cbn [objects set_objects] in H. apply lookup_insert_None in H as [H _]. by apply H2.
  - intros o' r0. cbn [objects set_objects]. destruct (decide (o' = o)) as [->|]; [|rewrite lookup_insert_ne by done; apply Ho].
    rewrite lookup_insert_eq. by intros [= <-].
  - cbn [objects set_objects]. by rewrite lookup_insert_ne.
Qed.

(** Nobody waits for an object whose list is empty or that is not there. *)
Definition free_object (k : kernel) (o : Z) : Prop := o <> 0 /\ forall r, objects k !! o = Some r -> waitlist_head r = 0.

Lemma free_object_list x B W k o : winv x B W k -> free_object k o -> W o = [].
Proof.
  intros I [_ Hr]. destruct (objects k !! o) as [r|] eqn:E; [|by apply (wi_none _ _ _ _ I)].
  destruct (wi_obj _ _ _ _ I o r E) as [Hh _]. rewrite (Hr r eq_refl) in Hh. symmetry in Hh. apply hd_zero in Hh; [done|by apply (wlist_no_null _ _ _ _ _ I)].
Qed.

(** A block that is in no list. *)
Definition free_block (k : kernel) (w : Z) : Prop := w <> 0 /\ forall r, waitblocks k !! w = Some r -> wb_object r = 0.

Lemma free_block_out x B W k w t : winv x B W k -> objects k !! 0 = None -> free_block k w -> w ∉ B t.
Proof.
  intros I H0 [_ Hf] Hin. destruct (wi_block _ _ _ _ I t w Hin) as (r & Hr & _ & _ & HW). rewrite (Hf r Hr) in HW.
  rewrite (wi_none _ _ _ _ I 0 H0) in HW. by apply elem_of_nil in HW.
Qed.

(** The thread [x] begins to wait for [obj] as well. *)
Lemma loose_link x B W k w obj key ro :
  kloose x B W k -> linkable x B W k w obj ro -> signaled ro = 0 -> is_Some (threads (k_sched k) !! x) ->
  exists k', link_block (B x) w x obj key k = Done (tt, k') /\
    kloose x (qput x (B x ++ [w]) B) (qput obj (W obj ++ [w]) W) k' /\ only_waits k k'.
Proof.
  intros [I Hg Hk Hf Ho H0 Ht] L Hs Hx. eexists. split; [by apply link_block_eq|].
  pose proof (link_winv x B W k w obj key ro L) as I'. pose proof (link_only x B W k w obj key ro L) as Hon. split; [|exact Hon].
  destruct Hon as (Es & Ew & Ewt & Eo). set (k' := inserted _ _ _ _ _ _ _) in *. split; try done.
  - intros t. destruct (decide (t = x)) as [->|Hne]; [done|]. rewrite qput_ne by done. apply Hk.
  - intros o r Hr. specialize (Eo o). rewrite Hr in Eo. destruct (objects k !! o) as [r0|] eqn:Hr0; [|done].
    change (Some (ocore r) = Some (ocore r0)) in Eo. assert (Ec : ocore r = ocore r0) by congruence. destruct (Ho o r0 Hr0) as [Hok Hsg].
    split; [by apply (obj_ok_core r0)|]. destruct (ocore_fields _ _ Ec) as (_ & -> & _). intros Hsr.
    rewrite qput_ne; [by apply Hsg|]. intros ->. rewrite (lk_obj _ _ _ _ _ _ _ L) in Hr0. by assert (r0 = ro) as -> by congruence.
  - specialize (Eo 0). rewrite H0 in Eo. by destruct (objects k' !! 0).
Qed.

Lemma kstate_sched B W k s' : kstate B W k -> good s' -> keep_threads (k_sched k) s' -> kstate B W (set_sched s' k).
Proof.
  intros [[I Hg Hk Hf] Ho H0 Ht] Hg' Hkt. split; [split| | |]; try done.
  - by destruct I; split.
  - intros t Hb. by apply Hkt, Hk.
  - intros t Hb. by apply Hf, Hkt.
Qed.

Lemma kstate_wheel B W k h : kstate B W k -> Timer.tinv h -> kstate B W (set_wheel h k).
Proof. intros [[I Hg Hk Hf] Ho H0 Ht] Hh. split; [split| | |]; try done. by destruct I; split. Qed.

Lemma kstate_key B W k t w v : kstate B W k -> waits k !! t = Some w -> kstate B W (set_waits (<[t := set_waitkey v w]> (waits k)) k).
Proof. intros [Hb Ho H0 Ht] Hw. split; try done. by apply kbase_key. Qed.

(** The thread [t] stops waiting. *)
Lemma cancel_kstate B W k t w : kstate B W k -> waits k !! t = Some w ->
  exists k' B' W', cancel_wait t k = Done (tt, k') /\ kstate B' W' k' /\ k_sched k' = k_sched k /\ k_wheel k' = k_wheel k /\
    waits k' !! t = Some (set_waitlist 0 w).
Proof.
  intros [[I Hg Hk Hf] Ho H0 Ht] Hw. destruct (cancel_run t B W k w I Hw) as (k' & E & I' & Es & Eh & Eo & Ew).
  exists k'. eexists _, _. split; [done|]. split; [|split_and!; [done..|rewrite Ew; apply lookup_insert_eq]]. split; [split; [exact I'| | |]| | |].
  - by rewrite Es.
  - rewrite Es. intros a Ha. apply Hk. intros E0. apply Ha. destruct (decide (a = t)) as [->|]; [by rewrite qput_eq|by rewrite qput_ne].
  - rewrite Es. intros a Ha. rewrite Ew, lookup_insert_is_Some'. right. by apply Hf.
  - intros o r Hr. specialize (Eo o). rewrite Hr in Eo. destruct (objects k !! o) as [r0|] eqn:Hr0; [|done].
    change (Some (ocore r) = Some (ocore r0)) in Eo. assert (Ec : ocore r = ocore r0) by congruence. destruct (Ho o r0 Hr0) as [Hok Hsg].
    split; [by apply (obj_ok_core r0)|]. destruct (ocore_fields _ _ Ec) as (_ & -> & _). intros Hsr. by rewrite (Hsg Hsr).
  - specialize (Eo 0). rewrite H0 in Eo. by destruct (objects k' !! 0).
  - by rewrite Eh.
Qed.

(** The timer of a wait, if it has one. *)
Definition stop_timer (tmr : option Z) : K kernel unit :=
  match tmr with Some tm => cancel_waitable_timer tm | None => kret tt end.

Definition has_timer (k : kernel) (tmr : option Z) : Prop :=
  match tmr with Some tm => is_Some (Timer.timers (k_wheel k) !! tm) | None => True end.

Lemma stop_timer_kstate B W k tmr : kstate B W k -> has_timer k tmr ->
  exists k', stop_timer tmr k = Done (tt, k') /\ kstate B W k' /\ k_sched k' = k_sched k /\ waits k' = waits k.
Proof.
  intros K Ht. destruct tmr as [t|]; [|by exists k]. destruct Ht as [tm Htm]. cbn [stop_timer]. unfold cancel_waitable_timer, on_wheel.
  assert (E : kzoom k_wheel set_wheel (Timer.get_timer t) k = Done (tm, k)).
  { unfold kzoom, Timer.get_timer. kx. rewrite Htm. by destruct k. }
  step E. destruct (Timer.active tm); [|by exists k]. destruct (tinv_del _ t tm (ks_timers _ _ _ K) Htm) as (rc & s' & E' & Hi).
  exists (set_wheel s' k). split; [|by split; [apply kstate_wheel|]]. unfold kbind, kzoom. by rewrite E'.
Qed.

Section Waiting.
Context `{!ObjectKinds}.
Variable dpc : K sched unit.
Hypothesis Hdpc : dpcs_ok dpc.

Lemma current_wait B W k : kstate B W k -> exists w, waits k !! current (k_sched k) = Some w.
Proof.
  intros K. destruct (kb_good _ _ _ (ks_base _ _ _ K)) as (_ & _ & r & Hr & _).
  destruct (kb_fields _ _ _ (ks_base _ _ _ K) (current (k_sched k))) as [w Hw]; [by eexists|]. by exists w.
Qed.

(** The end of a wait that was broken off, and of one that is over. *)
Lemma wait_over {A} (f : Z -> A) B W k t w tmr : kstate B W k -> has_timer k tmr -> waits k !! t = Some w ->
  panics_or ((stop_timer tmr ;;; let* w := get_wait t in kret (f (waitkey w))) k) kpost.
Proof.
  intros K Ht Hw. destruct (stop_timer_kstate B W k tmr K Ht) as (k1 & E & K1 & _ & Ew). step E. rewrite <- Ew in Hw.
  step (get_wait_run t w k1 Hw). by exists B, W.
Qed.

Lemma break_wait {A} (f : Z -> A) B W k t w rc tmr : kstate B W k -> has_timer k tmr -> waits k !! t = Some w ->
  panics_or ((cancel_wait t ;;; upd_wait t (set_waitkey rc) ;;; stop_timer tmr ;;; let* w := get_wait t in kret (f (waitkey w))) k) kpost.
Proof.
  intros K Ht Hw. destruct (cancel_kstate B W k t w K Hw) as (k1 & B1 & W1 & E1 & K1 & Es & Eh & Hw1). step E1.
  step (upd_wait_run t _ _ k1 Hw1). eapply (wait_over f B1 W1); [by apply kstate_key| |apply lookup_insert_eq].
  destruct tmr; [|done]. cbn [has_timer k_wheel set_waits]. by rewrite Eh.
Qed.

Lemma on_sched_safe {A C} (m : K sched A) (f : A -> K kernel C) B W k :
  kstate B W k -> safe (m (k_sched k)) (k_sched k) ->
  (forall a s', m (k_sched k) = Done (a, s') -> kstate B W (set_sched s' k) -> panics_or (f a (set_sched s' k)) kpost) ->
  panics_or (kbind (on_sched m) f k) kpost.
Proof.
  intros K Hs Hf. unfold kbind, on_sched, kzoom. unfold safe in Hs. destruct (m (k_sched k)) as [[a s']| | |]; [|done..].
  destruct Hs as [Hg Hk]. apply Hf; [done|]. by apply kstate_sched.
Qed.

Lemma begin_wait_safe B W k alertable sigs tmr : kstate B W k -> has_timer k tmr -> panics_or (begin_wait dpc alertable sigs tmr k) kpost.
Proof.
  intros K Ht. destruct (current_wait B W k K) as [w Hw]. pose proof (kb_good _ _ _ (ks_base _ _ _ K)) as Hg. unfold begin_wait, self.
  rewrite (kbind_done _ _ k (current (k_sched k)) k eq_refl). destruct alertable.
  - apply (on_sched_safe _ _ B W k K); [by apply begin_alertable_wait_safe|]. intros rc s' E K'.
    destruct (rc <? 0) eqn:Erc; [|by exists B, W]. destruct sigs.
    + injection E as <- <-. change (k_sched k) with (k_sched k) in *. apply (break_wait Returns B W _ _ w _ tmr K'); [by destruct tmr|exact Hw].
    + unfold begin_alertable_wait in E. kinv. done.
  - apply (on_sched_safe _ _ B W k K); [by apply enter_wait_safe|]. intros [] s' E K'. by exists B, W.
Qed.

Lemma end_wait_safe B W k alertable tmr : kstate B W k -> has_timer k tmr -> panics_or (end_wait alertable tmr k) kpost.
Proof.
  intros K Ht. destruct (current_wait B W k K) as [w Hw]. pose proof (kb_good _ _ _ (ks_base _ _ _ K)) as Hg. unfold end_wait, self.
  rewrite (kbind_done _ _ k (current (k_sched k)) k eq_refl). destruct alertable; [|by apply (wait_over (fun v => v) B W k _ w tmr)].
  rewrite kbind_assoc. apply (on_sched_safe _ _ B W k K); [by apply end_alertable_wait_safe|]. intros rc s' E K'.
  destruct (rc <? 0).
  - rewrite kbind_assoc. apply (break_wait (fun v => v) B W _ _ w _ tmr K'); [by destruct tmr|exact Hw].
  - apply (wait_over (fun v => v) B W _ _ w tmr K'); [by destruct tmr|exact Hw].
Qed.

(** Entering a signaled object. *)
Lemma enter_object_kstate B W k obj r :
  kstate B W k -> objects k !! obj = Some r -> signaled r <> 0 -> o_type r <> OBJECT_IOMUX ->
  exists rc k', enter_object obj k = Done (rc, k') /\ kstate B W k'.
Proof.
  intros K Hr Hs Hio. destruct (ks_obj _ _ _ K obj r Hr) as [[Hsem Hmut] Hsg]. specialize (Hsg Hs).
  assert (He : obj_is obj r k) by (unfold obj_is; by rewrite Hr). unfold enter_object. step (get_obj_run obj r k Hr).
  destruct (Z.eqb_spec (o_type r) OBJECT_THREAD) as [|H0]; [by eexists _, k|].
  destruct (Z.eqb_spec (o_type r) OBJECT_EVENT) as [H1|H1].
  { destruct (manual_reset r =? 0); [|by eexists _, k].
    destruct (kstate_upd B W obj r k (set_signaled 0) K He) as (k1 & E1 & K1 & _); [done..|by apply not_special; cbn; rewrite H1|done|].
    exists 0, k1. by step E1. }
  destruct (Z.eqb_spec (o_type r) OBJECT_MUTEX) as [H2|H2].
  { destruct (current_wait B W k K) as [w Hw].
    assert (Hc : current (k_sched k) <> 0) by (intros E; rewrite E, (wi_thread _ _ _ _ (kb_waits _ _ _ (ks_base _ _ _ K))) in Hw; done).
    destruct (upd_obj_seq obj r k (set_signaled 0) He) as (k1 & E1 & He1 & Hb1 & Hs1 & _ & Hw1 & Hk1); [done..|]. step E1. unfold self.
    rewrite (kbind_done _ _ k1 (current (k_sched k1)) k1 eq_refl).
    destruct (upd_obj_seq obj _ k1 (set_owner (current (k_sched k1))) He1) as (k2 & E2 & He2 & Hb2 & Hs2 & _ & Hw2 & Hk2); [done..|]. step E2.
    destruct (upd_obj_seq obj _ k2 (set_recursion 1) He2) as (k3 & E3 & He3 & Hb3 & Hs3 & _ & Hw3 & Hk3); [done..|]. step E3.
    exists 0, k3. split; [done|].
    eapply (kstate_step obj _ B W B W k k3 K (Hk3 _ _ (Hk2 _ _ (Hk1 _ _ (ks_base _ _ _ K))))); [| |exact He3|by apply (obj_nonzero B W k obj r)| |done].
    - apply (objs_but_trans obj k k2); [by apply (objs_but_trans obj k k1)|done].
    - apply (freeing_from _ _ _ _ k3); [congruence..|apply freeing_refl].
    - split; [by cbn; rewrite H2|]. intros _. cbn. rewrite Hs1. by split. }
  destruct (Z.eqb_spec (o_type r) OBJECT_SEMAPHORE) as [H3|H3].
  { destruct (Hsem H3) as [Hc Hcs]. assert (Hc0 : count r <> 0) by tauto. rewrite u32_small by (unfold is_u32; lia).
    destruct (upd_obj_seq obj r k (set_count (count r - 1)) He) as (k1 & E1 & He1 & Hb1 & Hs1 & _ & Hw1 & Hk1); [done..|]. step E1.
    destruct (obj_is_lookup _ _ _ He1) as (r1 & Hr1 & Ec1). step (get_obj_run obj r1 k1 Hr1).
    destruct (ocore_fields _ _ Ec1) as (_ & _ & _ & -> & _). cbn [count set_count]. destruct (Z.eqb_spec (count r - 1) 0) as [Ez|Ez].
    - destruct (upd_obj_seq obj _ k1 (set_signaled 0) He1) as (k2 & E2 & He2 & Hb2 & Hs2 & _ & Hw2 & Hk2); [done..|]. step E2.
      exists 0, k2. split; [done|]. eapply (kstate_step obj _ B W B W k k2 K (Hk2 _ _ (Hk1 _ _ (ks_base _ _ _ K)))); [| |exact He2|by apply (obj_nonzero B W k obj r)| |done].
      + by apply (objs_but_trans obj k k1).
      + apply (freeing_from _ _ _ _ k2); [congruence..|apply freeing_refl].
      + split; [|by cbn; rewrite H3]. intros _. cbn. lia.
    - exists 0, k1. split; [done|]. eapply (kstate_step obj _ B W B W k k1 K (Hk1 _ _ (ks_base _ _ _ K)) Hb1); [|exact He1|by apply (obj_nonzero B W k obj r)| |done].
      + apply (freeing_from _ _ _ _ k1); [congruence..|apply freeing_refl].
      + split; [|by cbn; rewrite H3]. intros _. cbn. lia. }
  destruct (Z.eqb_spec (o_type r) OBJECT_IOMUX) as [|_]; [done|].
  destruct (Z.eqb_spec (o_type r) OBJECT_FILEMAP) as [H4|H4]; [|by eexists _, k].
  destruct (kstate_upd B W obj r k (set_signaled 0) K He) as (k1 & E1 & K1 & _); [done..|by apply not_special; cbn; rewrite H4|done|].
  exists 0, k1. by step E1.
Qed.

(** Taking a mutex once more. *)
Lemma again_mutex B W k obj r :
  kstate B W k -> objects k !! obj = Some r ->
  exists k', upd_obj obj (set_recursion (s32 (recursion r + 1))) k = Done (tt, k') /\ kstate B W k'.
Proof.
  intros K Hr. destruct (ks_obj _ _ _ K obj r Hr) as [Hok Hsg].
  destruct (kstate_upd B W obj r k (set_recursion (s32 (recursion r + 1))) K) as (k1 & E1 & K1 & _); [unfold obj_is; by rewrite Hr|done..|by exists k1].
Qed.

(** The timer of a timed wait is new and has not expired. *)
Lemma init_waitable_timer_loose x B W k t n :
  kloose x B W k -> free_object k t -> (forall tm, Timer.timers (k_wheel k) !! t = Some tm -> Timer.active tm = false) -> 0 < n < 2 ^ 31 ->
  exists k' r, init_waitable_timer t (u32 (Timer.ticks (k_wheel k) + n)) k = Done (tt, k') /\ kloose x B W k' /\
    objects k' !! t = Some r /\ signaled r = 0 /\ k_sched k' = k_sched k /\ waits k' = waits k /\ waitblocks k' = waitblocks k /\
    has_timer k' (Some t) /\ forall o, o <> t -> objects k' !! o = objects k !! o.
Proof.
  intros L Hfree Hin Hn. pose proof (free_object_list _ _ _ _ _ (kl_waits _ _ _ _ L) Hfree) as HW. destruct Hfree as [Ht0 _].
  unfold init_waitable_timer. set (e := u32 _). set (r0 := default no_object (objects k !! t)).
  set (r := KObject OBJECT_TIMER 0 0 0 (manual_reset r0) (count r0) (owner r0) (recursion r0) (exitcode r0)).
  set (k1 := set_objects (<[t := r]> (objects k)) k). assert (E0 : init_object t OBJECT_TIMER k = Done (tt, k1)) by reflexivity. step E0.
  assert (L1 : kloose x B W k1) by (apply loose_init; try done; by apply not_special).
  destruct (tinv_init (k_wheel k) t expire_handler t (kl_timers _ _ _ _ L) Hin) as (h1 & E1 & I1 & Ht1 & Hk1). set (k2 := set_wheel h1 k1).
  assert (E1' : on_wheel (Timer.init_timer t expire_handler t) k1 = Done (tt, k2)) by (unfold on_wheel, kzoom; cbn [k_wheel k1 set_objects]; by rewrite E1).
  step E1'. set (tm := Timer.mkTimer 0 false expire_handler t). assert (Htm : Timer.timers h1 !! t = Some tm) by (rewrite Ht1; apply lookup_insert_eq).
  assert (E2 : on_wheel (Timer.get_timer t) k2 = Done (tm, k2)).
  { unfold on_wheel, kzoom, Timer.get_timer. kx. cbn [k_wheel k2 set_wheel]. by rewrite Htm. }
  step E2. set (h2 := Timer.put_timer t (Timer.with_expires tm e) h1). set (k3 := set_wheel h2 k2).
  assert (E3 : on_wheel (Timer.set_timer t (Timer.with_expires tm e)) k2 = Done (tt, k3)) by reflexivity. step E3.
  rewrite (kbind_done _ _ k3 k3 k3 eq_refl).
  assert (Hneg : (0 <=? s32 (Timer.ticks (k_wheel k3) - e)) = false).
  { apply Z.leb_gt. cbn [k_wheel k3 set_wheel h2 Timer.put_timer Timer.ticks]. rewrite Hk1. unfold e.
    rewrite (s32_cong _ (- n)) by (rewrite u32_sub_r; f_equal; lia). rewrite s32_range by lia. lia. }
  rewrite Hneg. assert (I2 : Timer.tinv h2) by (apply tinv_expires; [done..|apply u32_range]).
  destruct (tinv_add h2 t (Timer.with_expires tm e) I2) as (h3 & E4 & I3 & Hh3); [apply lookup_insert_eq|].
  exists (set_wheel h3 k3), r. split; [unfold on_wheel, kzoom; cbn [k_wheel k3 set_wheel]; by rewrite E4|].
  split; [destruct L1 as [J ? ? ? ? ? ?]; split; try done; by destruct J; split|]. split; [apply lookup_insert_eq|].
  split_and!; try done.
  intros o Ho. cbn [objects set_wheel k3 k2 k1 set_objects]. by rewrite lookup_insert_ne.
Qed.
(** Rewrites with a run of three steps. *)
Ltac step3 E :=
  let a := fresh in let k1 := fresh in let k2 := fresh in let b := fresh in let E1 := fresh in let E2 := fresh in let E3 := fresh in
  apply kbind_inv in E as (a & k1 & E1 & E2); apply kbind_inv in E2 as (b & k2 & E2 & E3); destruct a, b; step E1; step E2; step E3.

(** ** Waiting *)

(** The thread [x] has put its blocks [l] into wait lists. *)
Record waiting_for (x : Z) (l : list Z) (B W : Z -> list Z) (k : kernel) : Prop := {
  wf_loose : kloose x B W k;
  wf_blocks : B x = l;
  wf_head : exists w, waits k !! x = Some w /\ (l <> [] -> waitlist w = hd 0 l);
  wf_thread : is_Some (threads (k_sched k) !! x);
}.

Lemma linkable_free x B W k w obj ro :
  winv x B W k -> w <> 0 -> (forall t, w ∉ B t) -> objects k !! obj = Some ro -> (forall a, a ∈ W obj -> a ∉ B x) -> is_Some (waits k !! x) ->
  linkable x B W k w obj ro.
Proof.
  intros I Hw0 Hw Hro Hnew Hx. split; try done. intros a ra Ha Hra Ho. destruct (wi_block _ _ _ _ I x a Ha) as (r & Hr & _ & _ & HW).
  assert (r = ra) as -> by congruence. rewrite Ho in HW. by apply (Hnew a).
Qed.

(** One more block. *)
Lemma wait_more x l B W k w obj ro key :
  waiting_for x l B W k -> w <> 0 -> (forall t, w ∉ B t) -> objects k !! obj = Some ro -> signaled ro = 0 -> (forall a, a ∈ W obj -> a ∉ l) ->
  exists k', ((match last l with Some z => upd_wb z (set_wb_next w) | None => upd_wait x (set_waitlist w) end) ;;;
              new_wb w x obj WAIT_ANY key ;;; insert_in_waitlist obj w) k = Done (tt, k') /\
    waiting_for x (l ++ [w]) (qput x (l ++ [w]) B) (qput obj (W obj ++ [w]) W) k' /\
    k_sched k' = k_sched k /\ k_wheel k' = k_wheel k /\ same_objects k k'.
Proof.
  intros [L <- (wx & Hwx & Hhd) Hx] Hw0 Hw Hro Hs Hnew. destruct (last (B x)) as [z|] eqn:El.
  - assert (Hlk : linkable x B W k w obj ro) by (apply linkable_free; [apply L|done..|by eexists]).
    destruct (loose_link x B W k w obj key ro L Hlk Hs Hx) as (k' & E & L' & Es & Ew & Ewt & Eo). unfold link_block in E. rewrite El in E.
    exists k'. split; [exact E|]. split; [|done]. split; [done|apply qput_eq| |by rewrite Es]. exists wx. rewrite Ewt. split; [done|]. intros _.
    rewrite Hhd by (intros Hz; by rewrite Hz in El). by destruct (B x).
  - assert (Hnil : B x = []) by (by apply last_None). set (k1 := set_waits (<[x := set_waitlist w wx]> (waits k)) k).
    assert (L1 : kloose x B W k1) by (apply (loosen_more x); [done|by right|done]). step (upd_wait_run x wx _ k Hwx). fold k1.
    assert (Hlk : linkable x B W k1 w obj ro) by (apply linkable_free; [apply L1|done..|eexists; apply lookup_insert_eq]).
    destruct (loose_link x B W k1 w obj key ro L1 Hlk Hs Hx) as (k' & E & L' & Es & Ew & Ewt & Eo). unfold link_block in E. rewrite El in E.
    exists k'. split; [exact E|]. split; [|by split_and!]. split; [done|apply qput_eq| |by rewrite Es].
    exists (set_waitlist w wx). rewrite Ewt, Hnil. split; [apply lookup_insert_eq|done].
Qed.

(** The loop over the objects; block [i] of the array [wba] waits for object [i]. *)
Lemma setup_waits_run x wba objs : forall n B W k,
  waiting_for x (wba <$> seq 0 n) B W k -> NoDup (wba <$> seq 0 (n + length objs)) ->
  (forall i, (n <= i < n + length objs)%nat -> wba i <> 0 /\ forall t, wba i ∉ B t) ->
  NoDup objs -> (forall o, o ∈ objs -> (exists ro, objects k !! o = Some ro /\ signaled ro = 0) /\ forall a, a ∈ W o -> a ∉ (wba <$> seq 0 n)) ->
  exists B' W' k', setup_waits x WAIT_ANY wba n objs k = Done (tt, k') /\ waiting_for x (wba <$> seq 0 (n + length objs)) B' W' k' /\
    (forall t a, a ∈ B' t -> a ∈ B t \/ a ∈ (wba <$> seq n (length objs))) /\ (forall o, o ∉ objs -> W' o = W o) /\
    k_sched k' = k_sched k /\ k_wheel k' = k_wheel k /\ same_objects k k'.
Proof.
  induction objs as [|obj objs IH]; intros n B W k Hwf Hnd Hfree Hno Hobj.
  { exists B, W, k. rewrite Nat.add_0_r. split_and!; try done. auto. }
  apply NoDup_cons in Hno as [Hni Hno]. destruct (Hobj obj) as [(ro & Hro & Hs) Hnew]; [by left|].
  destruct (Hfree n) as [Hw0 Hw]; [cbn; lia|].
  destruct (wait_more x _ B W k (wba n) obj ro (Z.of_nat n) Hwf Hw0 Hw Hro Hs Hnew) as (k1 & E1 & Hwf1 & Es1 & Ew1 & Eo1).
  assert (Hsq : (wba <$> seq 0 n) ++ [wba n] = wba <$> seq 0 (S n)) by (by rewrite seq_S, fmap_app).
  rewrite Hsq in Hwf1. assert (Hlt : forall i, (S n <= i < S n + length objs)%nat -> wba i ∉ wba <$> seq 0 (S n)).
  { intros i Hi (j & Hj & Hjs)%list_elem_of_fmap. apply elem_of_seq in Hjs.
    replace (n + length (obj :: objs))%nat with (S n + length objs)%nat in Hnd by (cbn; lia).
    assert (i = j); [|lia]. eapply (NoDup_lookup _ i j (wba i) Hnd); rewrite list_lookup_fmap, lookup_seq_lt by lia; [done|]. by rewrite Hj. }
  destruct (IH (S n) _ _ k1 Hwf1) as (B2 & W2 & k2 & E2 & Hwf2 & HB2 & HW2 & Es2 & Ew2 & Eo2).
  - by replace (S n + length objs)%nat with (n + length (obj :: objs))%nat by (cbn; lia).
  - intros i Hi. destruct (Hfree i) as [H0 Hb]; [cbn; lia|]. split; [done|]. intros t.
    destruct (decide (t = x)) as [->|]; [rewrite qput_eq; by apply Hlt|by rewrite qput_ne].
  - done.
  - intros o Ho. destruct (Hobj o) as [(r & Hr & Hsr) Hn]; [by right|]. split.
    + pose proof (Eo1 o) as Ec. rewrite Hr in Ec. destruct (objects k1 !! o) as [r1|] eqn:Hr1; [|done].
      change (Some (ocore r1) = Some (ocore r)) in Ec. assert (Ec' : ocore r1 = ocore r) by congruence. exists r1. split; [done|].
      by destruct (ocore_fields _ _ Ec') as (_ & -> & _).
    + intros a. rewrite qput_ne by (intros ->; done). rewrite <- Hsq. intros Ha [Hz| ->%list_elem_of_singleton]%elem_of_app; [by apply (Hn a)|].
      destruct (wi_mem _ _ _ _ (kl_waits _ _ _ _ (wf_loose _ _ _ _ _ Hwf)) o _ Ha) as (r' & _ & _ & HB). by apply Hw in HB.
  - exists B2, W2, k2. split; [|split; [|split; [|split]]].
    + cbn [setup_waits]. destruct n as [|n]; cbn [Nat.eqb].
      * change (last (wba <$> seq 0 0)) with (@None Z) in E1. by step3 E1.
      * rewrite seq_S, fmap_app, last_app in E1. cbn in E1. cbn [Nat.sub]. rewrite Nat.sub_0_r. by step3 E1.
    + by replace (n + length (obj :: objs))%nat with (S n + length objs)%nat by (cbn; lia).
    + intros t a [Ha|Ha]%HB2.
      * destruct (decide (t = x)) as [->|]; [|rewrite qput_ne in Ha by done; by left]. rewrite qput_eq, <- Hsq in Ha. rewrite (wf_blocks _ _ _ _ _ Hwf).
        apply elem_of_app in Ha as [Ha|Ha]; [by left|]. right. cbn. set_solver.
      * right. cbn. set_solver.
    + intros o Ho. rewrite HW2 by set_solver. rewrite qput_ne by set_solver. done.
    + split_and!; [congruence..|]. intros o. by rewrite (Eo2 o), (Eo1 o).
Qed.
(** The current thread blocks, with a timer unless it waits for ever. *)
Lemma block_safe l last_wb B W k timeout alertable sigs wbtmo tmr :
  waiting_for (current (k_sched k)) l B W k -> last l = Some last_wb -> 0 <= timeout < W32 ->
  (timeout <> INFINITE -> wbtmo <> 0 /\ (forall t, wbtmo ∉ B t) /\ tmr <> 0 /\ W tmr = [] /\
     forall tm, Timer.timers (k_wheel k) !! tmr = Some tm -> Timer.active tm = false) ->
  panics_or ((if timeout =? INFINITE then begin_wait dpc alertable sigs None
              else add_timeout (current (k_sched k)) last_wb wbtmo tmr timeout ;;; begin_wait dpc alertable sigs (Some tmr)) k) kpost.
Proof.
  intros Hwf Hl Hto Hfree. assert (Hl0 : l <> []) by (intros ->; done). destruct (Z.eqb_spec timeout INFINITE) as [|Hne].
  { destruct Hwf as [L Hb (w & Hw & Hhd) _]. apply (begin_wait_safe B W); [|done]. apply (tighten B W k (current (k_sched k)) w L Hw). by rewrite Hb, Hhd. }
  destruct (Hfree Hne) as (Hw0 & Hwn & Ht0 & HWt & Hin). unfold add_timeout. set (n := _ / MSECS_PER_TICK).
  assert (Hn : 0 < n < 2 ^ 31).
  { unfold n, MSECS_PER_TICK, W32 in *. destruct (Z.ltb_spec timeout 10); [done|].
    split; [apply Z.div_str_pos; lia|apply Z.div_lt_upper_bound; lia]. }
  rewrite kbind_assoc, (kbind_done _ _ k k k eq_refl), kbind_assoc.
  assert (Hfr : free_object k tmr).
  { split; [done|]. intros r Hr. destruct (wi_obj _ _ _ _ (kl_waits _ _ _ _ (wf_loose _ _ _ _ _ Hwf)) tmr r Hr) as [-> _]. by rewrite HWt. }
  destruct (init_waitable_timer_loose _ B W k tmr n (wf_loose _ _ _ _ _ Hwf) Hfr Hin Hn) as (k1 & r & E1 & L1 & Hr & Hs & Es & Ewt & _ & Hht & _).
  step E1. set (x := current (k_sched k)) in *.
  assert (Hwf1 : waiting_for x l B W k1) by (destruct Hwf; split; [done|done|by rewrite Ewt|by rewrite Es]).
  destruct (wait_more x l B W k1 wbtmo tmr r (- ETIMEOUT) Hwf1 Hw0 Hwn Hr Hs) as (k2 & E2 & Hwf2 & Es2 & Ew2 & _).
  { intros a. rewrite HWt. by intros ?%elem_of_nil. }
  rewrite Hl in E2. step E2. destruct Hwf2 as [L2 Hb (w & Hw & Hhd) _].
  apply (begin_wait_safe (qput x (l ++ [wbtmo]) B) (qput tmr (W tmr ++ [wbtmo]) W)).
  - apply (tighten _ _ k2 x w L2 Hw). rewrite Hb. apply Hhd. by destruct l.
  - cbn [has_timer]. by rewrite Ew2.
Qed.

(** The block and the timer of a timed wait. *)
Definition fresh_timeout (k : kernel) (wbtmo tmr : Z) : Prop :=
  free_block k wbtmo /\ free_object k tmr /\ forall tm, Timer.timers (k_wheel k) !! tmr = Some tm -> Timer.active tm = false.

(** The current thread waits for any of [objs]. *)
Lemma wait_any_safe B W k objs timeout alertable sigs wba wbtmo tmr :
  kstate B W k -> not_waiting k -> objs <> [] -> NoDup objs -> NoDup (wba <$> seq 0 (length objs)) -> 0 <= timeout < W32 ->
  (forall i, (i < length objs)%nat -> free_block k (wba i)) ->
  (forall o, o ∈ objs -> exists ro, objects k !! o = Some ro /\ signaled ro = 0) ->
  (timeout <> INFINITE -> fresh_timeout k wbtmo tmr /\ (tmr ∉ objs) /\ wbtmo ∉ (wba <$> seq 0 (length objs))) ->
  let t := current (k_sched k) in
  panics_or ((setup_waits t WAIT_ANY wba 0 objs ;;;
              if timeout =? INFINITE then begin_wait dpc alertable sigs None
              else add_timeout t (wba (length objs - 1)%nat) wbtmo tmr timeout ;;; begin_wait dpc alertable sigs (Some tmr)) k) kpost.
Proof.
  intros K Hnw Hne Hno Hnd Hto Hfree Hobj Htmo t. destruct (current_wait B W k K) as [w Hw].
  pose proof (ks_base _ _ _ K) as Kb. pose proof (current_blocks B W k Kb Hnw) as Hnil. fold t in Hw, Hnil.
  assert (L : kloose t B W k).
  { apply kstate_loose in K as [I ? ? ? ? ? ?]. split; try done. destruct I; split; try done.
    intros a r Hr _. apply wi_wait; [done|]. intros ->. congruence. }
  assert (Hout : forall w t, free_block k w -> w ∉ B t) by (intros w' t' Hf; by apply (free_block_out _ _ _ _ _ _ (kl_waits _ _ _ _ L) (ks_null _ _ _ K))).
  assert (Hwf : waiting_for t (wba <$> seq 0 0) B W k).
  { split; [done|done|exists w; split; [exact Hw|intros Hz; by destruct Hz]|]. destruct (kb_good _ _ _ Kb) as (_ & _ & r & Hr & _). by eexists. }
  destruct (setup_waits_run t wba objs 0 B W k Hwf Hnd) as (B1 & W1 & k1 & E1 & Hwf1 & HB1 & HW1 & Es & Ew & Eo); [|done| |].
  { intros i Hi. split; [apply Hfree; lia|]. intros t'. apply Hout, Hfree. lia. }
  { intros o Ho. split; [by apply Hobj|]. intros a _ ?%elem_of_nil. done. }
  step E1. unfold t. rewrite <- Es. apply (block_safe (wba <$> seq 0 (length objs)) _ B1 W1 k1); [by rewrite Es| |done|].
  - destruct objs as [|o objs]; [done|]. cbn [length]. rewrite seq_S, fmap_app, last_app. cbn. by rewrite Nat.sub_0_r.
  - intros Hn. destruct (Htmo Hn) as (([Hb0 Hb] & Hfo & Hin) & Hto' & Hwb). rewrite HW1, Ew by done. split_and!; [done| | |by apply (free_object_list _ _ _ _ _ (kl_waits _ _ _ _ L))|done].
    + intros t' [Ha|Ha]%HB1; [|done]. by apply (Hout wbtmo t').
    + apply Hfo.
Qed.

Lemma kbind_block {S A} (m1 m2 m3 : Prelude.K S unit) (f : Prelude.K S A) s :
  ((m1 ;;; m2 ;;; m3 ;;; kret tt) ;;; f) s = (m1 ;;; m2 ;;; m3 ;;; f) s.
Proof. unfold kbind. destruct (m1 s) as [[[] ?]| | |]; try done. destruct (m2 _) as [[[] ?]| | |]; try done. by destruct (m3 _) as [[[] ?]| | |]. Qed.

Lemma wait_for_one_object_safe B W k obj ro timeout alertable sigs wb wbtmo tmr :
  kstate B W k -> not_waiting k -> objects k !! obj = Some ro -> o_type ro <> OBJECT_IOMUX -> 0 <= timeout < W32 -> free_block k wb ->
  (timeout <> INFINITE -> fresh_timeout k wbtmo tmr /\ tmr <> obj /\ wbtmo <> wb) ->
  panics_or (wait_for_one_object dpc obj timeout alertable sigs wb wbtmo tmr k) kpost.
Proof.
  intros K Hnw Hro Hio Hto Hfree Htmo. unfold wait_for_one_object, self. rewrite (kbind_done _ _ k (current (k_sched k)) k eq_refl).
  step (get_obj_run obj ro k Hro). destruct (Z.eqb_spec (signaled ro) 0) as [Hs|Hs]; cbn [negb].
  2: { destruct (enter_object_kstate B W k obj ro K Hro Hs Hio) as (rc & k' & E & K'). step E. by exists B, W. }
  destruct ((o_type ro =? OBJECT_MUTEX) && (owner ro =? current (k_sched k))).
  { destruct (again_mutex B W k obj ro K Hro) as (k' & E & K'). step E. by exists B, W. }
  destruct (timeout =? 0); [by exists B, W|].
  pose proof (wait_any_safe B W k [obj] timeout alertable sigs (fun _ => wb) wbtmo tmr K Hnw) as P. cbn [setup_waits length seq] in P.
  rewrite kbind_block in P. apply P; try done.
  - apply NoDup_singleton.
  - apply NoDup_singleton.
  - intros o ->%list_elem_of_singleton. by exists ro.
  - intros Hn. destruct (Htmo Hn) as (? & ? & ?). split_and!; [done| |]; by intros ?%list_elem_of_singleton.
Qed.

(** The objects found not to be signaled. *)
Lemma any_signaled_kstate B W t objs : forall k n,
  kstate B W k -> (forall o, o ∈ objs -> exists ro, objects k !! o = Some ro /\ o_type ro <> OBJECT_IOMUX) ->
  exists r k', any_signaled t n objs k = Done (r, k') /\ kstate B W k' /\
    (r = None -> k' = k /\ forall o, o ∈ objs -> exists ro, objects k !! o = Some ro /\ signaled ro = 0).
Proof.
  induction objs as [|o objs IH]; intros k n K Hobj.
  { exists None, k. split_and!; try done. intros _. split; [done|]. by intros o ?%elem_of_nil. }
  destruct (Hobj o) as (ro & Hro & Hio); [by left|]. cbn [any_signaled]. step (get_obj_run o ro k Hro).
  destruct (Z.eqb_spec (signaled ro) 0) as [Hs|Hs]; cbn [negb].
  2: { destruct (enter_object_kstate B W k o ro K Hro Hs Hio) as (rc & k' & E & K'). step E. by eexists _, k'. }
  destruct ((o_type ro =? OBJECT_MUTEX) && (owner ro =? t)).
  { destruct (again_mutex B W k o ro K Hro) as (k' & E & K'). step E. by eexists _, k'. }
  destruct (IH k (n + 1) K) as (r & k' & E & K' & Hn); [intros o' Ho; apply Hobj; by right|].
  exists r, k'. split_and!; [done..|]. intros Hr. destruct (Hn Hr) as [-> Hall]. split; [done|].
  intros o' [->|Ho]%elem_of_cons; [by exists ro|by apply Hall].
Qed.

Lemma wait_for_any_object_safe B W k objs timeout alertable sigs wba wbtmo tmr :
  kstate B W k -> not_waiting k -> NoDup objs -> NoDup (wba <$> seq 0 (length objs)) -> 0 <= timeout < W32 ->
  (forall i, (i < length objs)%nat -> free_block k (wba i)) ->
  (forall o, o ∈ objs -> exists ro, objects k !! o = Some ro /\ o_type ro <> OBJECT_IOMUX) ->
  (timeout <> INFINITE -> fresh_timeout k wbtmo tmr /\ (tmr ∉ objs) /\ wbtmo ∉ (wba <$> seq 0 (length objs))) ->
  panics_or (wait_for_any_object dpc objs timeout alertable sigs wba wbtmo tmr k) kpost.
Proof.
  intros K Hnw Hno Hnd Hto Hfree Hobj Htmo. unfold wait_for_any_object, self. rewrite (kbind_done _ _ k (current (k_sched k)) k eq_refl).
  destruct (Nat.eqb_spec (length objs) 0) as [Hz|Hz]; [destruct (timeout =? INFINITE); by exists B, W|].
  destruct (MAX_WAIT_OBJECTS <? Z.of_nat (length objs)); [by exists B, W|].
  destruct (any_signaled_kstate B W (current (k_sched k)) objs k 0 K Hobj) as (r & k' & E & K' & Hn). step E.
  destruct r as [rc|]; [by exists B, W|]. destruct (Hn eq_refl) as [-> Hall]. destruct (timeout =? 0); [by exists B, W|].
  by apply (wait_any_safe B W); [..|intros ->|done|done|done|done|done|done].
Qed.

(** ** New objects *)

Lemma init_kstate B W k o r' :
  kstate B W k -> free_object k o -> waitlist_head r' = 0 -> waitlist_tail r' = 0 -> obj_ok r' ->
  kgood (set_objects (<[o := r']> (objects k)) k).
Proof.
  intros K%kstate_loose Hf Hh Ht Hok. exists B, W. apply kstate_loose, loose_init; [done|apply Hf| |done..].
  by apply (free_object_list _ _ _ _ _ (kl_waits _ _ _ _ K)).
Qed.

(** An update of an object that has just been written. *)
Lemma upd_new o r f k :
  upd_obj o f (set_objects (<[o := r]> (objects k)) k) = Done (tt, set_objects (<[o := f r]> (objects k)) k).
Proof. rewrite (upd_obj_run o r) by apply lookup_insert_eq. cbn [objects set_objects]. by rewrite insert_insert_eq. Qed.

Lemma init_object_run o type k : let r := default no_object (objects k !! o) in
  init_object o type k =
  Done (tt, set_objects (<[o := KObject type 0 0 0 (manual_reset r) (count r) (owner r) (recursion r) (exitcode r)]> (objects k)) k).
Proof. reflexivity. Qed.

Ltac upd_new := match goal with |- context [set_objects (<[?o := ?r]> (objects ?k)) ?k] =>
  first [rewrite (kbind_done _ _ _ _ _ (upd_new o r _ k))|rewrite (upd_new o r _ k)] end.

Lemma init_event_safe B W k e manual initial : kstate B W k -> free_object k e -> panics_or (init_event e manual initial k) kpost.
Proof.
  intros K Hf. unfold init_event. step (init_object_run e OBJECT_EVENT k). do 2 upd_new. apply (init_kstate B W); [done..|]. by apply not_special.
Qed.

Lemma init_sem_safe B W k s n : kstate B W k -> free_object k s -> 0 <= n < W32 -> panics_or (init_sem s n k) kpost.
Proof.
  intros K Hf Hn. unfold init_sem. step (init_object_run s OBJECT_SEMAPHORE k). do 2 upd_new. apply (init_kstate B W); [done..|].
  split; [|done]. intros _. cbn. split; [done|]. destruct (Z.ltb_spec 0 n); lia.
Qed.

Lemma init_mutex_safe B W k m owned : kstate B W k -> free_object k m -> panics_or (init_mutex m owned k) kpost.
Proof.
  intros K Hf. unfold init_mutex. step (init_object_run m OBJECT_MUTEX k). destruct owned.
  - unfold self. erewrite (kbind_done _ _ _ (current (k_sched k))) by reflexivity. do 3 upd_new. apply (init_kstate B W); [done..|].
    split; [done|]. intros _. cbn. split; [done|]. intros E. destruct (kb_good _ _ _ (ks_base _ _ _ K)) as ((Q & I) & _ & r & Hr & _).
    rewrite E in Hr. by rewrite (no_null_thread _ _ _ I) in Hr.
  - do 3 upd_new. apply (init_kstate B W); [done..|]. by split.
Qed.

(** A timer that is set, changed or stopped by its user. *)
Lemma init_timer_safe B W k t n : kstate B W k -> free_object k t -> (forall tm, Timer.timers (k_wheel k) !! t = Some tm -> Timer.active tm = false) -> 0 < n < 2 ^ 31 ->
  panics_or (init_waitable_timer t (u32 (Timer.ticks (k_wheel k) + n)) k) kpost.
Proof.
  intros K Hf Ht Hn. destruct (init_waitable_timer_loose 0 B W k t n (proj1 (kstate_loose B W k) K) Hf Ht Hn) as (k' & r & E & L & _). rewrite E. exists B, W. by apply kstate_loose.
Qed.

Lemma modify_timer_safe B W k t e : kstate B W k -> has_timer k (Some t) -> is_u32 e -> panics_or (modify_waitable_timer t e k) kpost.
Proof.
  intros K [tm Htm] He. destruct (tinv_mod _ t tm e (ks_timers _ _ _ K) Htm He) as (rc & s' & E & Hi). unfold modify_waitable_timer, kbind, on_wheel, kzoom. rewrite E. exists B, W. by apply kstate_wheel.
Qed.

(** The kinds of objects that [close_object] closes by itself. *)
Definition closable (k : kernel) (o : Z) : Prop := exists r, objects k !! o = Some r /\
  (o_type r = OBJECT_THREAD \/ o_type r = OBJECT_EVENT \/ o_type r = OBJECT_MUTEX \/ o_type r = OBJECT_SEMAPHORE \/ o_type r = OBJECT_FILEMAP \/ (o_type r = OBJECT_TIMER /\ has_timer k (Some o))).

Lemma close_object_safe B W k o : kstate B W k -> not_waiting k -> closable k o -> panics_or (close_object o k) kpost.
Proof.
  intros K Hn (r & Hr & Ht). pose proof (current_blocks _ _ _ (ks_base _ _ _ K) Hn) as Hcur. unfold close_object. rewrite kbind_kget.
  eapply panics_or_bind; [apply (close_loop_run o (W o) (rounds k) B W k (ks_base _ _ _ K)); [done|by eexists|done|apply (wlist_bound B), K]|].
  intros u k' (B' & W' & Hk' & HW' & Ho' & Hf'). destruct (ks_obj _ _ _ K o r Hr) as [Hok _].
  assert (K' : kstate B' W' k') by (apply (kstate_step o r B W B' W' k k'); try done; [by apply same_but|unfold obj_is; by rewrite Ho', Hr|by apply (obj_nonzero B W k o r)]).
  assert (He : obj_is o r k') by (unfold obj_is; by rewrite Ho', Hr). destruct (obj_is_lookup o r k' He) as (r' & Hr' & Ec). destruct (ocore_fields _ _ Ec) as (Et & _). step (get_obj_run o r' k' Hr'). rewrite Et.
  destruct Ht as [-> |[-> |[-> |[-> |[-> |[-> Htm]]]]]]; try (by exists B', W'). cbn.
  destruct (stop_timer_kstate B' W' k' (Some o) K') as (k2 & E & K2 & _); [cbn; by rewrite (fr_wheel _ _ _ _ _ _ Hf')|]. cbn [stop_timer] in E. step E. by exists B', W'.
Qed.

(** ** The operations of the kernel objects *)

Inductive kop :=
| KInitEvent (e manual initial : Z)
| KInitSem (s n : Z)
| KInitMutex (m : Z) (owned : bool)
| KSetEvent (e : Z)
| KResetEvent (e : Z)
| KPulseEvent (e : Z)
| KReleaseSem (s n : Z)
| KSetSem (s n : Z)
| KReleaseMutex (m : Z)
| KUnlockFilemap (m : Z)
| KExpire (t : Z)
| KExit (t : Z)
| KWait (obj timeout : Z) (alertable sigs : bool) (wb wbtmo tmr : Z)
| KWaitAny (objs : list Z) (timeout : Z) (alertable sigs : bool) (wba : nat -> Z) (wbtmo tmr : Z)
| KEndWait (alertable : bool) (tmr : option Z)
| KInitTimer (t e : Z)
| KModifyTimer (t e : Z)
| KCancelTimer (t : Z)
| KClose (o : Z)
| KSched (o : sop).

Definition krun (o : kop) : Prelude.K kernel unit :=
  match o with
  | KInitEvent e manual initial => init_event e manual initial
  | KInitSem s n => init_sem s n
  | KInitMutex m owned => init_mutex m owned
  | KSetEvent e => set_event e
  | KResetEvent e => reset_event e
  | KPulseEvent e => pulse_event e
  | KReleaseSem s n => release_sem s n ;;; kret tt
  | KSetSem s n => set_sem s n ;;; kret tt
  | KReleaseMutex m => release_mutex m ;;; kret tt
  | KUnlockFilemap m => unlock_filemap m ;;; kret tt
  | KExpire t => expire_waitable_timer t
  | KExit t => exit_thread t
  | KWait obj timeout alertable sigs wb wbtmo tmr => wait_for_one_object dpc obj timeout alertable sigs wb wbtmo tmr ;;; kret tt
  | KWaitAny objs timeout alertable sigs wba wbtmo tmr => wait_for_any_object dpc objs timeout alertable sigs wba wbtmo tmr ;;; kret tt
  | KEndWait alertable tmr => end_wait alertable tmr ;;; kret tt
  | KInitTimer t e => init_waitable_timer t e
  | KModifyTimer t e => modify_waitable_timer t e
  | KCancelTimer t => cancel_waitable_timer t
  | KClose o => close_object o ;;; kret tt
  | KSched o => on_sched (srun dpc o) ;;; kret tt
  end.

Definition typed (k : kernel) (o type : Z) : Prop := exists r, objects k !! o = Some r /\ o_type r = type.

(** What the scheduler is asked to wait for; waits for objects are the operations
    [KWait] and [KWaitAny]. *)
Definition reason_of (o : sop) : option Z := match o with SWait reason | SAlertableWait _ reason => Some reason | _ => None end.

(** Arguments are objects of the right kind, wait blocks and timers of a wait
    are not in use, a timer is set to a time to come, a thread that calls does
    not wait, the count of a semaphore does not overflow and is not set to 0
    while it has resources. *)
Definition kop_ok (k : kernel) (o : kop) : Prop :=
  match o with
  | KInitEvent e _ _ => free_object k e
  | KInitSem s n => free_object k s /\ 0 <= n < W32
  | KInitMutex m _ => free_object k m
  | KSetEvent e | KResetEvent e | KPulseEvent e => not_waiting k /\ typed k e OBJECT_EVENT
  | KReleaseSem s n => not_waiting k /\ exists r, objects k !! s = Some r /\ o_type r = OBJECT_SEMAPHORE /\ 0 <= n /\ count r + n < W32
  | KSetSem s n => not_waiting k /\ exists r, objects k !! s = Some r /\ o_type r = OBJECT_SEMAPHORE /\ 0 <= n < W32 /\ (n = 0 -> count r = 0)
  | KReleaseMutex m => not_waiting k /\ typed k m OBJECT_MUTEX
  | KUnlockFilemap m => not_waiting k /\ typed k m OBJECT_FILEMAP
  | KExpire t => not_waiting k /\ typed k t OBJECT_TIMER
  | KExit t => not_waiting k /\ typed k t OBJECT_THREAD
  | KWait obj timeout _ _ wb wbtmo tmr =>
      not_waiting k /\ (exists r, objects k !! obj = Some r /\ o_type r <> OBJECT_IOMUX) /\ 0 <= timeout < W32 /\ free_block k wb /\
      (timeout <> INFINITE -> fresh_timeout k wbtmo tmr /\ tmr <> obj /\ wbtmo <> wb)
  | KWaitAny objs timeout _ _ wba wbtmo tmr =>
      not_waiting k /\ NoDup objs /\ NoDup (wba <$> seq 0 (length objs)) /\ 0 <= timeout < W32 /\
      (forall i, (i < length objs)%nat -> free_block k (wba i)) /\
      (forall o, o ∈ objs -> exists r, objects k !! o = Some r /\ o_type r <> OBJECT_IOMUX) /\
      (timeout <> INFINITE -> fresh_timeout k wbtmo tmr /\ (tmr ∉ objs) /\ wbtmo ∉ (wba <$> seq 0 (length objs)))
  | KEndWait _ tmr => has_timer k tmr
  | KInitTimer t e => free_object k t /\ (forall tm, Timer.timers (k_wheel k) !! t = Some tm -> Timer.active tm = false) /\ exists n, 0 < n < 2 ^ 31 /\ e = u32 (Timer.ticks (k_wheel k) + n)
  | KModifyTimer t e => has_timer k (Some t) /\ is_u32 e
  | KCancelTimer t => has_timer k (Some t)
  | KClose o => not_waiting k /\ closable k o
  | KSched o => sop_ok (k_sched k) o /\ reason_of o <> Some THREAD_WAIT_OBJECT
  end.

Definition kstep (k k' : kernel) : Prop := exists o, kop_ok k o /\ krun o k = Done (tt, k').

Lemma panics_ret {A C} (m : Prelude.K kernel A) (c : C) k : panics_or (m k) kpost -> panics_or ((m ;;; kret c) k) kpost.
Proof. intros P. eapply panics_or_bind; [exact P|]. by intros a k'. Qed.

Lemma krun_safe k o : kgood k -> kop_ok k o -> panics_or (krun o k) kpost.
Proof.
  intros (B & W & K). destruct o; cbn [krun kop_ok].
  - by apply (init_event_safe B W).
  - intros [? ?]. by apply (init_sem_safe B W).
  - by apply (init_mutex_safe B W).
  - intros (? & r & ? & ?). by apply (set_event_safe B W k e r).
  - intros (? & r & ? & ?). by apply (reset_event_safe B W k e r).
  - intros (? & r & ? & ?). by apply (pulse_event_safe B W k e r).
  - intros (? & r & ? & ? & ? & ?). by apply panics_ret, (release_sem_safe B W k s r).
  - intros (? & r & ? & ? & ? & ?). by apply panics_ret, (set_sem_safe B W k s r).
  - intros (? & r & ? & ?). by apply panics_ret, (release_mutex_safe B W k m r).
  - intros (? & r & ? & ?). by apply panics_ret, (unlock_filemap_safe B W k m r).
  - intros (? & r & ? & ?). by apply (expire_safe B W k t r).
  - intros (? & r & ? & ?). by apply (exit_thread_safe B W k t r).
  - intros (? & (r & ? & ?) & ? & ? & ?). by apply panics_ret, (wait_for_one_object_safe B W k obj r).
  - intros (? & ? & ? & ? & ? & ? & ?). by apply panics_ret, (wait_for_any_object_safe B W).
  - intros ?. by apply panics_ret, (end_wait_safe B W).
  - intros (? & ? & n & ? & ->). by apply (init_timer_safe B W).
  - intros [? ?]. by apply (modify_timer_safe B W).
  - intros Ht. destruct (stop_timer_kstate B W k (Some t) K Ht) as (k' & E & K' & _). cbn [stop_timer] in E. rewrite E. by exists B, W.
  - intros [? ?]. by apply panics_ret, (close_object_safe B W).
  - intros [Hok _]. apply (on_sched_safe _ _ B W k K); [|by intros ? ? ? ?; exists B, W].
    apply srun_safe; [done|apply (kb_good _ _ _ (ks_base _ _ _ K))|done].
Qed.

(** The thread that runs does not sleep. *)
Lemma current_awake k : kgood k -> awake (current (k_sched k)) (k_sched k).
Proof. intros (B & W & K). destruct (kb_good _ _ _ (ks_base _ _ _ K)) as (_ & _ & r & Hr & Hs & _). intros r' Hr'. assert (r' = r) as -> by congruence. by rewrite Hs. Qed.

(** Every operation leaves the threads that wait for objects their wait blocks. *)
Lemma krun_wakeable k o u k' : relates no_sleep dpc -> kgood k -> kop_ok k o -> krun o k = Done (u, k') -> wakeable k -> wakeable k'.
Proof.
  intros Hns Hg Hok E. pose proof (current_awake k Hg) as Hcur. change (stays_wakeable k k'). destruct o; cbn [krun kop_ok] in *; try solve [eapply rel_run; [|exact E]; related];
    try (apply kbind_inv in E as (a & k1 & E & E2); injection E2 as _ <-).
  - destruct Hok as (_ & (r & Hr & Ht) & _ & (Hwb & _) & _). by apply (wait_one_stays dpc Hns obj r timeout alertable sigs wb wbtmo tmr k a k1).
  - destruct Hok as (_ & _ & _ & _ & Hwb & Ho & _). apply (wait_any_stays dpc Hns objs timeout alertable sigs wba wbtmo tmr k a k1); [done|intros i Hi; by apply Hwb|done|done].
  - by apply (end_wait_stays alertable tmr k a k1).
  - eapply rel_run; [|exact E]. unfold init_waitable_timer. related.
  - eapply rel_run; [|exact E]. unfold modify_waitable_timer. related.
  - destruct Hok as (Hn & r & Hr & Ht), Hg as (B & W & K). unfold close_object in E. rewrite kbind_kget in E. apply kbind_inv in E as (v & k2 & E1 & E). transitivity k2; [by apply (st_close_loop _ _ _ _ _ E1)|].
    pose proof (close_loop_run o (W o) (rounds k) B W k (ks_base _ _ _ K) eq_refl (mk_is_Some _ _ Hr) (current_blocks _ _ _ (ks_base _ _ _ K) Hn) ltac:(apply (wlist_bound B), K)) as P. rewrite E1 in P. destruct P as (B2 & W2 & _ & _ & Ho & _).
    assert (He : obj_is o r k2) by (unfold obj_is; by rewrite Ho, Hr). destruct (obj_is_lookup o r k2 He) as (r2 & Hr2 & Ec). destruct (ocore_fields _ _ Ec) as (Et & _). rewrite (kbind_done _ _ _ _ _ (get_obj_run o r2 k2 Hr2)), Et in E.
    apply quiet_stays. destruct Ht as [Ht|[Ht|[Ht|[Ht|[Ht|[Ht _]]]]]]; rewrite Ht in E; cbn in E; (eapply rel_run; [|exact E]; related).
  - destruct Hok as [_ Hr]. eapply rel_run; [|exact E]. apply st_srun; [done|intros reason ->; cbn in Hr; congruence|intros sigs reason ->; cbn in Hr; congruence].
Qed.
End Waiting.

(** ** Wait lists as seen from the kernel *)

(** The blocks of the wait list of [o], first one first. *)
Definition queued (k : kernel) (o : Z) (l : list Z) : Prop :=
  exists r, objects k !! o = Some r /\ waitlist_head r = hd 0 l /\ (0 ∉ l) /\ dlist (waitblocks k) 0 l 0.

Lemma dlist_unique (m : gmap Z waitblock) l1 : forall l2 p1 p2,
  (0 ∉ l1) -> (0 ∉ l2) -> hd 0 l1 = hd 0 l2 -> dlist m p1 l1 0 -> dlist m p2 l2 0 -> l1 = l2.
Proof.
  induction l1 as [|a l1 IH]; intros [|b l2] p1 p2 H1 H2 Hh; cbn in Hh; [done|set_solver|set_solver|]. subst b.
  intros [(r1 & Hr1 & _ & E1) D1] [(r2 & Hr2 & _ & E2) D2]. assert (r2 = r1) as -> by congruence. f_equal.
  apply (IH l2 a a); [set_solver|set_solver|congruence|done..].
Qed.

Lemma queued_list B W k o l : kbase B W k -> queued k o l -> W o = l.
Proof.
  intros [I _ _ _] (r & Hr & Hh & H0 & Hd). apply (dlist_unique (waitblocks k) (W o) l 0 0); [by apply (wlist_no_null _ _ _ _ _ I)|done| |apply I|done].
  rewrite <- Hh. symmetry. apply (wi_obj _ _ _ _ I o r Hr).
Qed.

Lemma list_queued B W k o r : kbase B W k -> objects k !! o = Some r -> queued k o (W o).
Proof.
  intros [I _ _ _] Hr. exists r. split; [done|]. split; [apply (wi_obj _ _ _ _ I o r Hr)|]. split; [by apply (wlist_no_null _ _ _ _ _ I)|apply I].
Qed.

Lemma empty_list B W k o r : kbase B W k -> objects k !! o = Some r -> W o = [] -> waitlist_head r = 0.
Proof. intros [I _ _ _] Hr E. destruct (wi_obj _ _ _ _ I o r Hr) as [-> _]. by rewrite E. Qed.

(** ** Theorems *)

(** What [B] and [W] say of the threads that wait for objects: each has wait
    blocks, and each of its blocks is in the list of an object that is not
    signaled. *)
Definition waits_rightly (B W : Z -> list Z) (k : kernel) : Prop :=
  forall t r, threads (k_sched k) !! t = Some r -> t_state r = THREAD_STATE_WAITING -> wait_reason r = THREAD_WAIT_OBJECT ->
    B t <> [] /\ forall wb, wb ∈ B t -> exists b o, waitblocks k !! wb = Some b /\ wb_thread b = t /\ (wb ∈ W (wb_object b)) /\ objects k !! wb_object b = Some o /\ signaled o = 0.

Lemma kgood_waits k : kgood k -> wakeable k -> exists B W, winv 0 B W k /\ waits_rightly B W k.
Proof.
  intros (B & W & K) Hw. pose proof (ks_base _ _ _ K) as [I Hg Hkn Hf]. exists B, W. split; [done|]. intros t r Hr Hs Hwr. destruct (Hf t (mk_is_Some _ _ Hr)) as [w Hwt].
  assert (Ht0 : t <> 0) by (intros ->; by rewrite (wi_thread _ _ _ _ I) in Hwt). pose proof (Hw t r w Hr Hs Hwr Hwt) as Hne. rewrite (wi_wait _ _ _ _ I t w Hwt Ht0) in Hne. split; [by intros E; rewrite E in Hne|]. intros wb Hwb.
  destruct (wi_block _ _ _ _ I t wb Hwb) as (b & Hb & Hbt & _ & Hbo). exists b. destruct (objects k !! wb_object b) as [o|] eqn:Ho; [|by rewrite (wi_none _ _ _ _ I _ Ho) in Hbo; apply elem_of_nil in Hbo]. exists o. split_and!; try done.
  destruct (decide (signaled o = 0)) as [|Hsg]; [done|]. destruct (ks_obj _ _ _ K _ o Ho) as [_ He]. rewrite (He Hsg) in Hbo. by apply elem_of_nil in Hbo.
Qed.

(** C14: Kernel objects and the scheduler together.  After any sequence of
    operations on events, semaphores, mutexes, file maps, waitable timers and
    threads, of waits for one object or for any of several with and without
    time-outs, of objects being closed and of scheduler operations ([kop_ok]: a
    semaphore is not set to 0 while it has resources; waits for all of several
    objects are left out), with deferred procedures that put no thread to sleep:
    a thread that sleeps for objects has wait blocks, each in the list of an
    object that is not signaled, so a thread that was released is not asleep any
    more; nobody waits for an object that is signaled, for a semaphore with
    resources or for a mutex without owner; the ready queues are right; and the
    next operation leads to such a state again or ends in a panic of the
    scheduler: no wait list is ever followed to a bad pointer or around for
    ever. *)
Theorem no_lost_wakeups `{!ObjectKinds} call k k' :
  calls_ok call -> calls_awake call -> kgood k -> wakeable k -> rtc (kstep (run_dpcs call)) k k' ->
  (forall o r, objects k' !! o = Some r ->
     (signaled r <> 0 -> waitlist_head r = 0) /\
     (o_type r = OBJECT_SEMAPHORE -> count r <> 0 -> waitlist_head r = 0) /\
     (o_type r = OBJECT_MUTEX -> owner r = 0 -> waitlist_head r = 0)) /\
  (exists B W, winv 0 B W k' /\ waits_rightly B W k') /\ good (k_sched k') /\
  forall o, kop_ok k' o -> panics_or (krun (run_dpcs call) o k') (fun _ k'' => kgood k'' /\ wakeable k'').
Proof.
  intros Hd%run_dpcs_ok Hns%ns_dpcs Hg Hw Hst. assert (Hg' : kgood k' /\ wakeable k').
  { induction Hst as [k|k k1 k' (o & Hok & E) H2 IH]; [done|]. apply IH; [|by apply (krun_wakeable (run_dpcs call) k o tt)]. pose proof (krun_safe _ Hd k o Hg Hok) as Hsafe. by rewrite E in Hsafe. }
  destruct Hg' as [Hg' Hw']. split; [|split; [|split]].
  - destruct Hg' as (B & W & K). intros o r Hr. destruct (ks_obj _ _ _ K o r Hr) as [[Hsem Hmut] Hs].
    assert (He : signaled r <> 0 -> waitlist_head r = 0) by (intros Hz; by apply (empty_list B W k' o r (ks_base _ _ _ K) Hr), Hs).
    split_and!; [done| |]; intros Ht Hx; apply He; [by apply Hsem|by apply Hmut].
  - by apply kgood_waits.
  - destruct Hg' as (B & W & K). apply K.
  - intros o Hok. pose proof (krun_safe _ Hd k' o Hg' Hok) as P. pose proof (krun_wakeable (run_dpcs call) k' o) as Q. destruct (krun (run_dpcs call) o k') as [[u k'']| | |]; [|done..]. split; [exact P|]. by apply (Q u k'').
Qed.

(** C25: [release_sem] serves the waiting threads in the order in which they
    came: with [c] resources after the call, the first [c] blocks leave the
    wait list, the others stay in their order, what is left over is the new
    count, the old count is the result and no other object changes but for the
    wait lists.  The threads wait for this semaphore or for any of several
    objects ([kgood]). *)
Theorem release_sem_fifo k s l r n :
  kgood k -> not_waiting k -> queued k s l -> objects k !! s = Some r -> o_type r = OBJECT_SEMAPHORE -> 0 <= n -> count r + n < W32 ->
  let c := count r + n in
  panics_or (release_sem s n k) (fun rc k' => rc = count r /\ kgood k' /\ queued k' s (drop (Z.to_nat c) l) /\ objs_but s k k' /\
    exists r', objects k' !! s = Some r' /\ count r' = Z.max 0 (c - Z.of_nat (length l))).
Proof.
  intros (B & W & K) Hn Hq Hr Ht Hn0 Hlt c. pose proof (queued_list _ _ _ _ _ (ks_base _ _ _ K) Hq) as HW.
  destruct (ks_obj _ _ _ K s r Hr) as [[Hok _] _]. destruct (Hok Ht) as [Hc _].
  pose proof (release_sem_safe B W k s r n K Hn Hr Ht Hn0 Hlt) as Hs. revert Hs. unfold release_sem. step (get_obj_run s r k Hr).
  rewrite u32_small by (unfold is_u32; lia). fold c. pose proof (give_sem_run B W k s r c K Hn Hr ltac:(lia)) as H. revert H. unfold kbind.
  destruct (upd_obj s (set_count c) k) as [[[] k1]| | |]; [|done..]. destruct (signal_sem s k1) as [[[] k2]| | |]; [|done..].
  intros (B' & W' & Hk' & Hb' & _ & He' & HW') Hg. split; [done|]. split; [exact Hg|].
  destruct (obj_is_lookup _ _ _ He') as (r' & Hr' & Ec). rewrite <- HW, <- HW'. split; [by apply (list_queued B' W' k2 s r')|]. split; [done|].
  exists r'. split; [done|]. destruct (ocore_fields _ _ Ec) as (_ & _ & _ & -> & _). unfold sem_given, sem_after.
  destruct (Z.eqb_spec c 0) as [->|]; [cbn; lia|]. done.
Qed.

(** C26: When the owner leaves a mutex for the last time, the thread that waits
    longest is the owner: the mutex stays closed, recursion count 1, only this
    thread leaves the wait list. If nobody waits, the mutex is open.  The
    threads wait for this mutex or for any of several objects ([kgood]). *)
Theorem release_mutex_hands_over k m l r :
  kgood k -> not_waiting k -> queued k m l -> objects k !! m = Some r -> o_type r = OBJECT_MUTEX ->
  owner r = current (k_sched k) -> recursion r = 1 ->
  panics_or (release_mutex m k) (fun rc k' => rc = 0 /\ kgood k' /\ queued k' m (tail l) /\ objs_but m k k' /\
    exists r', objects k' !! m = Some r' /\
      match l with
      | [] => owner r' = 0 /\ signaled r' = 1
      | w :: _ => signaled r' = 0 /\ recursion r' = 1 /\ exists b, waitblocks k !! w = Some b /\ owner r' = wb_thread b
      end).
Proof.
  intros (B & W & K) Hn Hq Hr Ht Hown Hrec. pose proof (queued_list _ _ _ _ _ (ks_base _ _ _ K) Hq) as HW.
  pose proof (release_mutex_safe B W k m r K Hn Hr Ht) as Hs.
  pose proof (release_mutex_run B W k m r K Hn Hr Hown ltac:(by rewrite Hrec)) as H. destruct (release_mutex m k) as [[rc k']| | |]; [|done..].
  destruct H as (-> & B' & W' & Hk' & Hb' & _ & He' & HW'). split; [done|]. split; [exact Hs|].
  destruct (obj_is_lookup _ _ _ He') as (r' & Hr' & Ec). rewrite <- HW, <- HW'. split; [by apply (list_queued B' W' k' m r')|]. split; [done|].
  exists r'. split; [done|]. destruct (ocore_fields _ _ Ec) as (_ & Es & _ & _ & Eo & Er & _). rewrite Es, Eo, Er. destruct (W m) as [|w l'] eqn:E; [done|].
  split; [done|]. split; [done|]. destruct (head_block B W k m w l' (kb_waits _ _ _ (ks_base _ _ _ K)) E) as (b & Hb & _). exists b.
  split; [done|]. cbn. by rewrite Hb.
Qed.

(** The only thread that waits for [o] is released with the wait key [key]. *)
Lemma release_one B W k o w b key :
  kbase B W k -> W o = [w] -> waitblocks k !! w = Some b -> is_Some (objects k !! o) -> B (current (k_sched k)) = [] ->
  panics_or (release_waiters o key k) (fun _ k' => k_wheel k' = k_wheel k /\
    exists tw, waits k' !! wb_thread b = Some tw /\ waitlist tw = 0 /\ waitkey tw = key).
Proof.
  intros Hk HW Hb [r Hr] Hcur. unfold release_waiters. step (eq_refl : kget k = Done (k, k)). step (get_obj_run o r k Hr).
  rewrite (proj1 (wi_obj _ _ _ _ (kb_waits _ _ _ Hk) o r Hr)), HW.
  destruct (visit_head B W k o w [] Hk HW Hcur) as (b' & k1 & E & Hw0 & Hnx & HB & Hm & Hne & E1 & Hk1 & Hs1 & Ho1 & Hwh1 & Hwb1 & tw & Htw).
  assert (b' = b) as ->. { pose proof (get_wb_run w b k Hb). congruence. }
  assert (Hrd : exists n, rounds k = S (S n)).
  { unfold rounds. destruct (size (waitblocks k)) as [|n] eqn:Ez; [|by exists n]. apply map_size_empty_inv in Ez. by rewrite Ez in Hb. }
  destruct Hrd as [n ->]. cbn [release_loop hd]. destruct (Z.eqb_spec w 0); [done|]. step E. step E1. rewrite Hnx. cbn [hd].
  rewrite kbind_assoc. step (upd_wait_run _ tw _ k1 Htw). set (k2 := set_waits _ k1).
  assert (Hk2 : kbase B W k2) by (by apply kbase_key).
  destruct (cancel_run (wb_thread b) B W k2 (set_waitkey key tw) (kb_waits _ _ _ Hk2)) as (k3 & E3 & _ & Hs3 & Hwh3 & _ & Hwt3); [apply lookup_insert_eq|].
  unfold release_thread. rewrite kbind_assoc. step E3. destruct (kb_known _ _ _ Hk2 _ HB) as [rt Hrt].
  pose proof (mark_other (k_sched k2) (wb_thread b) rt 1 1 (kb_good _ _ _ Hk2) Hrt ltac:(cbn; by rewrite Hs1) ltac:(done)) as Hmk.
  unfold on_sched, kzoom, kbind. rewrite Hs3. destruct (mark_thread_ready (wb_thread b) 1 1 (k_sched k2)) as [[[] s']| | |]; [|done..].
  split; [cbn; by rewrite Hwh3|]. exists (set_waitlist 0 (set_waitkey key tw)). split; [|done].
  cbn [waits set_sched]. rewrite Hwt3. apply lookup_insert_eq.
Qed.

(** C27: A wait that times out returns 0 and not [- ETIMEOUT], whatever wait key
    its block has: [thread_ready_to_run] has just taken the key from the block,
    and [release_waiters] overwrites it with the argument that
    [expire_waitable_timer] passes. So when the thread runs again the end of
    its wait returns 0, as if the object had been signaled. *)
Theorem timed_out_wait_returns_zero k tm r tr w b :
  kgood k -> not_waiting k -> objects k !! tm = Some r -> queued k tm [w] -> waitblocks k !! w = Some b ->
  Timer.timers (k_wheel k) !! tm = Some tr -> Timer.active tr = false ->
  panics_or (expire_waitable_timer tm k) (fun _ k' =>
    forall s', current s' = wb_thread b -> end_wait false (Some tm) (set_sched s' k') = Done (0, set_sched s' k')).
Proof.
  intros (B & W & K) Hn Hr Hq Hb Htr Ha. pose proof (queued_list _ _ _ _ _ (ks_base _ _ _ K) Hq) as HW.
  pose proof (current_blocks _ _ _ (ks_base _ _ _ K) Hn) as Hcur. unfold expire_waitable_timer.
  destruct (upd_obj_is tm r k (set_signaled 1)) as (k1 & E & He & _ & Hs & _ & Hwb & Hwh & Hk); [unfold obj_is; by rewrite Hr|done..|].
  step E. destruct (obj_is_lookup _ _ _ He) as (r1 & Hr1 & _).
  eapply panics_or_mono; [apply (release_one B W k1 tm w b 0 (Hk B W (ks_base _ _ _ K)) HW); [by rewrite Hwb|by exists r1|by rewrite Hs]|].
  intros _ k' (Hwh' & tw & Htw & _ & Hkey) s' Hc. unfold end_wait, self. erewrite (kbind_done _ _ _ (current s')) by reflexivity.
  rewrite Hc. rewrite (kbind_done _ _ _ tt (set_sched s' k') eq_refl).
  assert (Ec : cancel_waitable_timer tm (set_sched s' k') = Done (tt, set_sched s' k')).
  { unfold cancel_waitable_timer, on_wheel, kzoom, Timer.get_timer. kx. cbn [k_wheel set_sched].
    assert (Timer.timers (k_wheel k') !! tm = Some tr) as -> by congruence. cbn. rewrite Ha. by destruct k'. }
  step Ec. rewrite (kbind_done _ _ _ _ _ (get_wait_run (wb_thread b) tw (set_sched s' k') Htw)). by rewrite Hkey.
Qed.

(** The first thread that waits for [e] waits for all of [e] and of another
    object that is not signaled. *)
Record waits_for_both (k : kernel) (e : Z) (b : waitblock) : Prop := {
  wb_first : exists r, objects k !! e = Some r /\ waitblocks k !! waitlist_head r = Some b /\
               exists tw, waits k !! wb_thread b = Some tw /\ waitlist tw = waitlist_head r /\ waitlist_head r <> 0 /\ wb_next b <> waitlist_head r;
  wb_this : wb_object b = e /\ waittype b = WAIT_ALL;
  wb_other : wb_next b <> 0 /\ exists b2 r2, waitblocks k !! wb_next b = Some b2 /\ waittype b2 = WAIT_ALL /\ wb_next b2 = 0 /\
               objects k !! wb_object b2 = Some r2 /\ signaled r2 = 0 /\ wb_object b2 <> e;
}.

Lemma both_not_ready k e b r :
  waits_for_both k e b -> objects k !! e = Some r -> signaled r <> 0 ->
  exists k', thread_ready_to_run (wb_thread b) k = Done (false, k') /\ waits_for_both k' e b /\ objects k' = objects k /\ waitblocks k' = waitblocks k.
Proof.
  intros [(r' & Hr' & Hb & tw & Htw & Hl & Hh0 & Hne) [Ho Hty] (Hn0 & b2 & r2 & Hb2 & Hty2 & Hn2 & Hr2 & Hs2 & Hoe)] Hr Hs.
  assert (r' = r) as -> by congruence. set (k' := set_waits (<[wb_thread b := set_waitkey (wb_waitkey b) tw]> (waits k)) k). exists k'.
  split; [|split; [|done]].
  - unfold thread_ready_to_run. step (eq_refl : kget k = Done (k, k)). step (get_wait_run _ tw k Htw).
    assert (Hrd : exists n, rounds k = S (S (S n))).
    { unfold rounds. pose proof (nodup_size (waitblocks k) [waitlist_head r; wb_next b]) as Hz. cbn [length] in Hz.
      assert (2 <= size (waitblocks k))%nat; [apply Hz|exists (size (waitblocks k) - 2)%nat; lia].
      - apply NoDup_cons. split; [intros Ez%list_elem_of_singleton; by apply Hne|apply NoDup_singleton].
      - intros a [->| ->%list_elem_of_singleton]%elem_of_cons; by eexists. }
    destruct Hrd as [n ->]. rewrite Hl. cbn [ready_loop]. destruct (Z.eqb_spec (waitlist_head r) 0); [done|]. step (get_wb_run _ b k Hb).
    rewrite Ho. step (get_obj_run e r k Hr). rewrite Hty. change (WAIT_ALL =? WAIT_ANY) with false. cbv iota.
    destruct (Z.eqb_spec (signaled r) 0); [done|]. step (upd_wait_run _ tw (set_waitkey (wb_waitkey b)) k Htw). fold k'.
    destruct (Z.eqb_spec (wb_next b) 0); [done|]. step (get_wb_run _ b2 k' Hb2). step (get_obj_run _ r2 k' Hr2). rewrite Hty2.
    change (WAIT_ALL =? WAIT_ANY) with false. cbv iota. by rewrite Hs2, Hn2.
  - split; [|done|by split; [|exists b2, r2]]. exists r. split; [done|]. split; [done|]. eexists. by split; [apply lookup_insert_eq|].
Qed.

(** C29: [pulse_event] goes on to the next waiting thread only if it has released
    one. When the first thread that waits for the event waits for all of two
    objects, the event first and another one that is not signaled, the loop never ends,
    however many rounds it is given. *)
Theorem pulse_event_hangs k e r b n :
  waits_for_both k e b -> objects k !! e = Some r -> (upd_obj e (set_signaled 1) ;;; pulse_loop n e (waitlist_head r)) k = Hang.
Proof.
  intros Hw Hr. step (upd_obj_run e r _ k Hr). set (k1 := set_objects _ k).
  assert (H : exists r1, objects k1 !! e = Some r1 /\ signaled r1 <> 0 /\ waitlist_head r1 = waitlist_head r) by (eexists; by split; [apply lookup_insert_eq|]).
  destruct H as (r1 & Hr1 & Hs1 & Hh1). rewrite <- Hh1.
  assert (Hw1 : waits_for_both k1 e b).
  { destruct Hw as [(r' & Hr' & Hb & tw & Htw & Hl & Hh0) Ht (Hn0 & b2 & r2 & Hb2 & Hty2 & Hn2 & Hr2 & Hs2 & Hoe)].
    assert (r' = r) as -> by congruence. split; [|done|]; [exists r1; rewrite Hh1; split_and!; [done..|by exists tw]|].
    split; [done|]. exists b2, r2. split_and!; try done. cbn [objects k1 set_objects]. by rewrite lookup_insert_ne. }
  clearbody k1. clear Hr Hw Hh1. revert k1 Hr1 Hw1. induction n as [|n IH]; intros k1 Hr1 Hw1; [done|]. cbn [pulse_loop].
  destruct (both_not_ready k1 e b r1 Hw1 Hr1 Hs1) as (k2 & E2 & Hw2 & Eo & _).
  destruct (wb_first _ _ _ Hw1) as (r' & Hr' & Hb & tw & _ & _ & Hh0 & _). assert (r' = r1) as -> by congruence.
  destruct (Z.eqb_spec (waitlist_head r1) 0); [done|]. step (get_wb_run _ b k1 Hb). step E2. apply IH; [by rewrite Eo|done].
Qed.

(** Taking a free mutex. *)
Lemma enter_mutex_run `{!ObjectKinds} m r k : objects k !! m = Some r -> o_type r = OBJECT_MUTEX ->
  enter_object m k = Done (0, set_objects (<[m := set_recursion 1 (set_owner (current (k_sched k)) (set_signaled 0 r))]> (objects k)) k).
Proof.
  intros Hr Ht. unfold enter_object. step (get_obj_run m r k Hr). rewrite Ht.
  change (OBJECT_MUTEX =? OBJECT_THREAD) with false. change (OBJECT_MUTEX =? OBJECT_EVENT) with false.
  change (OBJECT_MUTEX =? OBJECT_MUTEX) with true. cbv iota. step (upd_obj_run m r (set_signaled 0) k Hr).
  unfold self. erewrite (kbind_done _ _ _ (current (k_sched k))) by reflexivity.
  by rewrite (kbind_done _ _ _ _ _ (upd_new m _ _ k)), (kbind_done _ _ _ _ _ (upd_new m _ _ k)).
Qed.

(** C30: [wait_for_all_objects] never takes a mutex that is free: its test wants
    the caller to own a mutex that is signaled, and a signaled mutex has no
    owner. Polling one free mutex ends with [- ETIMEOUT] and changes nothing,
    where [wait_for_any_object] takes the mutex and returns its index 0. *)
Theorem wait_all_refuses_free_mutex `{!ObjectKinds} dpc k m r alertable sigs wba wbtmo tmr :
  kgood k -> objects k !! m = Some r -> o_type r = OBJECT_MUTEX -> signaled r <> 0 ->
  wait_for_all_objects dpc [m] 0 alertable sigs wba wbtmo tmr k = Done (Returns (- ETIMEOUT), k) /\
  exists k' r', wait_for_any_object dpc [m] 0 alertable sigs wba wbtmo tmr k = Done (Returns 0, k') /\
    objects k' !! m = Some r' /\ owner r' = current (k_sched k) /\ signaled r' = 0 /\ recursion r' = 1.
Proof.
  intros (B & W & K) Hr Ht Hs. destruct (ks_obj _ _ _ K m r Hr) as [[_ Hown] _]. apply (Hown Ht) in Hs as Ho. destruct (current_wait B W k K) as [w Hw].
  assert (Hc : current (k_sched k) <> 0) by (intros E; rewrite E, (wi_thread _ _ _ _ (kb_waits _ _ _ (ks_base _ _ _ K))) in Hw; done).
  assert (Hx : (signaled r =? 0) = false) by (by apply Z.eqb_neq). assert (Hm : (o_type r =? OBJECT_MUTEX) = true) by (by apply Z.eqb_eq). split.
  - unfold wait_for_all_objects, self. rewrite (kbind_done _ _ k (current (k_sched k)) k eq_refl). cbn [length Nat.eqb].
    change (MAX_WAIT_OBJECTS <? Z.of_nat 1) with false. cbv iota. cbn [all_signaled]. rewrite kbind_assoc. step (get_obj_run m r k Hr).
    rewrite Hm, Hx, Ho. by destruct (Z.eqb_spec 0 (current (k_sched k))) as [E|_]; [destruct Hc|].
  - set (o := fun f => set_objects (<[m := f r]> (objects k)) k). set (t := current (k_sched k)) in *.
    exists (o (fun r => set_recursion 1 (set_owner t (set_signaled 0 r)))), (set_recursion 1 (set_owner t (set_signaled 0 r))).
    split; [|by split; [apply lookup_insert_eq|]]. unfold wait_for_any_object, self. rewrite (kbind_done _ _ k t k eq_refl). cbn [length Nat.eqb].
    change (MAX_WAIT_OBJECTS <? Z.of_nat 1) with false. cbv iota. cbn [any_signaled]. rewrite kbind_assoc. step (get_obj_run m r k Hr).
    rewrite Hx. cbn [negb]. rewrite kbind_assoc. by step (enter_mutex_run m r k Hr Ht).
Qed.

(** ** A kernel with a semaphore, a mutex of thread 2 and a timer *)

Definition demo_object (o h : Z) : kobject :=
  if o =? 10 then KObject OBJECT_SEMAPHORE 0 h h 0 0 0 0 0
  else if o =? 20 then KObject OBJECT_MUTEX 0 h h 0 0 2 1 0
  else KObject OBJECT_TIMER 0 h h 0 0 0 0 0.

Definition demo_kernel (h : twheel) : kernel :=
  Kernel demo (<[10 := demo_object 10 0]> (<[20 := demo_object 20 0]> {[30 := demo_object 30 0]})) ∅
    (<[1 := TWait 0 0]> (<[2 := TWait 0 0]> {[3 := TWait 0 0]})) h.

Lemma demo_objects h o r : objects (demo_kernel h) !! o = Some r -> (o = 10 \/ o = 20 \/ o = 30) /\ r = demo_object o 0.
Proof. cbn [objects demo_kernel]. intros [[<- <-]|[_ [[<- <-]|[_ [<- <-]%lookup_singleton_Some]]%lookup_insert_Some]]%lookup_insert_Some; auto. Qed.

Lemma demo_waits h t w : waits (demo_kernel h) !! t = Some w -> (t = 1 \/ t = 2 \/ t = 3) /\ w = TWait 0 0.
Proof. cbn [waits demo_kernel]. intros [[<- <-]|[_ [[<- <-]|[_ [<- <-]%lookup_singleton_Some]]%lookup_insert_Some]]%lookup_insert_Some; auto. Qed.

Lemma demo_kstate h : Timer.tinv h -> kstate (fun _ => []) (fun _ => []) (demo_kernel h).
Proof.
  intros Hh. split; [split| | |]; try done.
  - split; try done; try (intros *; by intros ?%elem_of_nil); try (intros _; apply NoDup_nil_2).
    + intros o r [[->|[->| ->]] ->]%demo_objects; done.
    + intros t r [_ ->]%demo_waits. done.
  - apply demo_good.
  - intros t [r Hr]. destruct (demo_cases t r Hr) as [[-> _]|[[-> _]|[-> _]]]; by eexists.
  - intros o r [[->|[->| ->]] ->]%demo_objects; (split; [split|]; try done). 
Qed.

Lemma demo_wheel : exists h, Timer.tinv h /\ Timer.timers h !! 30 = Some (Timer.mkTimer 0 false 1 30).
Proof.
  destruct Timer.init_timers_ready as (s & _ & Hr & Ht & Hk & Hn & _). assert (Hi : Timer.tinv s) by (split; [unfold Timer.lag; by rewrite Hk, Hn|by exists 0]).
  destruct (tinv_init s 30 1 30 Hi) as (h & _ & Hh & Eh & _); [intros tm; by rewrite Ht|]. exists h. split; [done|]. rewrite Eh. apply lookup_insert_eq.
Qed.

#[local] Existing Instance plain_kinds.

(** Thread 1 waits for [o], thread 2 runs. *)
Definition demo_wait (o : Z) : kop := KWait o INFINITE false false 50 51 60.

Lemma demo_wait_ok h o : o = 10 \/ o = 20 \/ o = 30 -> kop_ok (demo_kernel h) (demo_wait o).
Proof.
  intros Ho. cbn [kop_ok demo_wait]. split; [by intros w [_ ->]%demo_waits|]. split; [|split_and!; try done].
  exists (demo_object o 0). by destruct Ho as [->|[->| ->]].
Qed.

Definition outcome_of {A} (f : kernel -> A) (x : outcome (unit * kernel)) : option A :=
  match x with Done (_, k) => Some (f k) | _ => None end.

Lemma demo_waiting h o : Timer.tinv h -> o = 10 \/ o = 20 \/ o = 30 ->
  exists k, krun (run_dpcs wake) (demo_wait o) (demo_kernel h) = Done (tt, k) /\ kgood k /\ not_waiting k /\ queued k o [50] /\
    objects k !! o = Some (demo_object o 50) /\ waitblocks k !! 50 = Some (WaitBlock 1 o WAIT_ANY 0 0 0 0) /\
    k_wheel k = h /\ current (k_sched k) = 2.
Proof.
  intros Hh Ho. pose proof (krun_safe (run_dpcs wake) (run_dpcs_ok _ wake_ok) (demo_kernel h) (demo_wait o)) as P.
  assert (E : outcome_of (fun k => (objects k !! o, waitblocks k !! 50, k_wheel k, current (k_sched k), waits k !! 2))
    (krun (run_dpcs wake) (demo_wait o) (demo_kernel h)) =
    Some (Some (demo_object o 50), Some (WaitBlock 1 o WAIT_ANY 0 0 0 0), h, 2, Some (TWait 0 0))).
  { destruct Ho as [->|[->| ->]]; vm_compute; reflexivity. }
  destruct (krun (run_dpcs wake) (demo_wait o) (demo_kernel h)) as [[[] k]| | |]; [|done..]. injection E as E1 E2 E3 E4 E5. exists k.
  split; [done|]. split; [|split; [|split; [|done]]].
  - apply P; [by eexists _, _; apply demo_kstate|by apply demo_wait_ok].
  - intros w. rewrite E4, E5. by intros [= <-].
  - exists (demo_object o 50). split; [done|]. split; [by destruct Ho as [->|[->| ->]]|]. split; [by intros ?%list_elem_of_singleton|].
    split; [|done]. by eexists.
Qed.

Lemma wake_awake : calls_awake wake.
Proof. intros p a. unfold wake. related. Qed.

Lemma demo_wakeable h : wakeable (demo_kernel h).
Proof. intros t r w Hr Hs. exfalso. cbn in Hr. apply lookup_insert_Some in Hr as [[<- <-]|[_ Hr]]; [done|]. apply lookup_insert_Some in Hr as [[<- <-]|[_ Hr]]; [done|]. by apply lookup_singleton_Some in Hr as [<- <-]. Qed.

Lemma no_lost_wakeups_witness : exists k k', kstep (run_dpcs wake) k k' /\ queued k' 10 [50] /\ (exists B W, winv 0 B W k' /\ waits_rightly B W k') /\
  panics_or (krun (run_dpcs wake) (KReleaseSem 10 1) k') (fun _ k'' => kgood k'' /\ wakeable k'').
Proof.
  destruct demo_wheel as (h & Hh & _). destruct (demo_waiting h 10 Hh) as (k' & E & Hg & Hn & Hq & Hr & _); [auto|].
  assert (Hs : kstep (run_dpcs wake) (demo_kernel h) k') by (exists (demo_wait 10); split; [apply demo_wait_ok; auto|exact E]).
  destruct (no_lost_wakeups wake (demo_kernel h) k' wake_ok wake_awake) as (_ & HB & _ & P); [by eexists _, _; apply demo_kstate|apply demo_wakeable|by apply rtc_once|].
  exists (demo_kernel h), k'. split; [done|]. split; [done|]. split; [exact HB|]. apply P. split; [done|]. exists (demo_object 10 50). by split_and!.
Defined.

Lemma release_sem_fifo_witness : exists k, queued k 10 [50] /\
  panics_or (release_sem 10 1 k) (fun rc k' => rc = 0 /\ queued k' 10 [] /\ exists r', objects k' !! 10 = Some r' /\ count r' = 0).
Proof.
  destruct demo_wheel as (h & Hh & _). destruct (demo_waiting h 10 Hh) as (k & E & Hg & Hn & Hq & Hr & _); [auto|]. exists k. split; [done|].
  eapply panics_or_mono; [apply (release_sem_fifo k 10 [50] (demo_object 10 50) 1); done|]. intros rc k' (-> & _ & Hq' & _ & Hr').
  exact (conj eq_refl (conj Hq' Hr')).
Defined.

Lemma release_mutex_hands_over_witness : exists k, queued k 20 [50] /\ current (k_sched k) = 2 /\
  panics_or (release_mutex 20 k) (fun rc k' => rc = 0 /\ queued k' 20 [] /\ exists r', objects k' !! 20 = Some r' /\ owner r' = 1).
Proof.
  destruct demo_wheel as (h & Hh & _). destruct (demo_waiting h 20 Hh) as (k & E & Hg & Hn & Hq & Hr & Hb & _ & Hc); [auto|]. exists k.
  split; [done|]. split; [done|].
  eapply panics_or_mono; [apply (release_mutex_hands_over k 20 [50] (demo_object 20 50)); [done..|by rewrite Hc|done]|].
  intros rc k' (-> & _ & Hq' & _ & r' & Hr' & _ & _ & b & Hb' & Ho). split; [done|]. split; [done|]. exists r'. split; [done|].
  rewrite Hb in Hb'. injection Hb' as <-. exact Ho.
Defined.

Lemma timed_out_wait_returns_zero_witness : exists k, queued k 30 [50] /\
  panics_or (expire_waitable_timer 30 k) (fun _ k' =>
    forall s', current s' = 1 -> end_wait false (Some 30) (set_sched s' k') = Done (0, set_sched s' k')).
Proof.
  destruct demo_wheel as (h & Hh & Ht). destruct (demo_waiting h 30 Hh) as (k & E & Hg & Hn & Hq & Hr & Hb & Hw & _); [auto|]. exists k.
  split; [done|].
  rewrite <- Hw in Ht.
  exact (timed_out_wait_returns_zero k 30 (demo_object 30 50) (Timer.mkTimer 0 false 1 30) 50 (WaitBlock 1 30 WAIT_ANY 0 0 0 0) Hg Hn Hr Hq Hb Ht eq_refl).
Defined.

(** Thread 1 waits for all of the event 40 and of the semaphore 10. *)
Definition both_kernel : kernel :=
  Kernel demo (<[40 := KObject OBJECT_EVENT 0 50 50 1 0 0 0 0]> {[10 := demo_object 10 51]})
    (<[50 := WaitBlock 1 40 WAIT_ALL 0 51 0 0]> {[51 := WaitBlock 1 10 WAIT_ALL 1 0 0 0]}) {[1 := TWait 50 0]} Timer.boot.

Lemma pulse_event_hangs_witness : (upd_obj 40 (set_signaled 1) ;;; pulse_loop 1000 40 50) both_kernel = Hang.
Proof.
  apply (pulse_event_hangs both_kernel 40 (KObject OBJECT_EVENT 0 50 50 1 0 0 0 0) (WaitBlock 1 40 WAIT_ALL 0 51 0 0) 1000); [|done].
  split; [|done|]; [eexists; split; [done|]; split; [done|]; by exists (TWait 50 0)|].
  split; [done|]. by exists (WaitBlock 1 10 WAIT_ALL 1 0 0 0), (demo_object 10 51).
Defined.

(** The mutex 20 of the demonstration kernel, free. *)
Definition free_kernel (h : twheel) : kernel :=
  set_objects (<[20 := KObject OBJECT_MUTEX 1 0 0 0 0 0 0 0]> (objects (demo_kernel h))) (demo_kernel h).

Lemma wait_all_refuses_free_mutex_witness : exists h k',
  wait_for_all_objects (kret tt) [20] 0 false false (fun _ => 50) 51 60 (free_kernel h) = Done (Returns (- ETIMEOUT), free_kernel h) /\
  wait_for_any_object (kret tt) [20] 0 false false (fun _ => 50) 51 60 (free_kernel h) = Done (Returns 0, k').
Proof.
  destruct demo_wheel as (h & Hh & _). exists h.
  assert (Hg : kgood (free_kernel h)).
  { apply (init_kstate (fun _ => []) (fun _ => [])); [by apply demo_kstate| |done|done|by split]. split; [done|]. intros r [_ ->]%demo_objects. done. }
  destruct (wait_all_refuses_free_mutex (kret tt) (free_kernel h) 20 (KObject OBJECT_MUTEX 1 0 0 0 0 0 0 0) false false (fun _ => 50) 51 60 Hg)
    as (E1 & k' & r' & E2 & _); [apply lookup_insert_eq|done|done|]. exists k'. exact (conj E1 E2).
Defined.

