(* ===== verification/Buf.v ===== *)
(** * The buffer cache (sys/krnl/buf.c, include/os/buf.h)

    Blocks of a device are cached in a pool of buffers.  A hash table finds the
    buffer of a block; buffers that nobody uses are in the free list, or in the
    clean list in the order of use, or in the dirty list if they have to be
    written first.  The [bucket] and [chain] links of the buffers are kept in
    maps of their own, under the addresses of the buffers; 0 is the null
    pointer.

    The device is the map [disk].  A device call gives the processor away, and
    so do [wait_for_buffer] and [yield]; other threads use the pool before the
    call returns.  The operations are cut there: what comes before the call and
    what comes after it are definitions of their own, and the result of the
    device is an argument of the second one.  The threads that wait for a
    buffer are a list (they are linked through [next_waiter] of the thread),
    and [woken] collects the threads that have been made ready with their wait
    keys.  The counters for statistics and the time of the last sync are left
    out. *)

From S2P Require Import Prelude Dlist.
Local Open Scope k_scope.

Definition BUFPOOL_HASHSIZE : Z := 512.

Definition BUF_STATE_FREE : Z := 0.
Definition BUF_STATE_CLEAN : Z := 1.
Definition BUF_STATE_DIRTY : Z := 2.
Definition BUF_STATE_READING : Z := 3.
Definition BUF_STATE_WRITING : Z := 4.
Definition BUF_STATE_LOCKED : Z := 5.
Definition BUF_STATE_UPDATED : Z := 6.
Definition BUF_STATE_INVALID : Z := 7.
Definition BUF_STATE_ERROR : Z := 8.
Definition BUF_STATES : Z := 9.

Definition EINTR : Z := 4.

(** ** State *)

Record buflink := BufLink { bl_next : Z; bl_prev : Z }.

Record buflist := BufList { bl_head : Z; bl_tail : Z }.

Record buf := Buf {
  b_state : Z;
  b_locks : Z;
  b_waiters : list Z;
  b_blkno : Z;
  b_data : list Z;
}.

Definition set_b_state (v : Z) (b : buf) : buf := Buf v (b_locks b) (b_waiters b) (b_blkno b) (b_data b).
Definition set_b_locks (v : Z) (b : buf) : buf := Buf (b_state b) v (b_waiters b) (b_blkno b) (b_data b).
Definition set_b_waiters (v : list Z) (b : buf) : buf := Buf (b_state b) (b_locks b) v (b_blkno b) (b_data b).
Definition set_b_blkno (v : Z) (b : buf) : buf := Buf (b_state b) (b_locks b) (b_waiters b) v (b_data b).
Definition set_b_data (v : list Z) (b : buf) : buf := Buf (b_state b) (b_locks b) (b_waiters b) (b_blkno b) v.

Record bufpool := Pool {
  bufsize : Z;
  nosync : Z;
  ioactive : Z;
  bufs : gmap Z buf;
  bucket : gmap Z buflink;
  chain : gmap Z buflink;
  dirty : buflist;
  clean : buflist;
  freelist : Z;
  bufcount : list Z;
  hashtable : list Z;
  disk : gmap Z (list Z);
  woken : list (Z * Z);
  dirty_event : bool;
}.

Definition set_ioactive (v : Z) (p : bufpool) : bufpool :=
  Pool (bufsize p) (nosync p) v (bufs p) (bucket p) (chain p) (dirty p) (clean p) (freelist p) (bufcount p) (hashtable p) (disk p) (woken p) (dirty_event p).
Definition set_bufs (v : gmap Z buf) (p : bufpool) : bufpool :=
  Pool (bufsize p) (nosync p) (ioactive p) v (bucket p) (chain p) (dirty p) (clean p) (freelist p) (bufcount p) (hashtable p) (disk p) (woken p) (dirty_event p).
Definition set_bucket (v : gmap Z buflink) (p : bufpool) : bufpool :=
  Pool (bufsize p) (nosync p) (ioactive p) (bufs p) v (chain p) (dirty p) (clean p) (freelist p) (bufcount p) (hashtable p) (disk p) (woken p) (dirty_event p).
Definition set_chain (v : gmap Z buflink) (p : bufpool) : bufpool :=
  Pool (bufsize p) (nosync p) (ioactive p) (bufs p) (bucket p) v (dirty p) (clean p) (freelist p) (bufcount p) (hashtable p) (disk p) (woken p) (dirty_event p).
Definition set_dirty (v : buflist) (p : bufpool) : bufpool :=
  Pool (bufsize p) (nosync p) (ioactive p) (bufs p) (bucket p) (chain p) v (clean p) (freelist p) (bufcount p) (hashtable p) (disk p) (woken p) (dirty_event p).
Definition set_clean (v : buflist) (p : bufpool) : bufpool :=
  Pool (bufsize p) (nosync p) (ioactive p) (bufs p) (bucket p) (chain p) (dirty p) v (freelist p) (bufcount p) (hashtable p) (disk p) (woken p) (dirty_event p).
Definition set_freelist (v : Z) (p : bufpool) : bufpool :=
  Pool (bufsize p) (nosync p) (ioactive p) (bufs p) (bucket p) (chain p) (dirty p) (clean p) v (bufcount p) (hashtable p) (disk p) (woken p) (dirty_event p).
Definition set_bufcount (v : list Z) (p : bufpool) : bufpool :=
  Pool (bufsize p) (nosync p) (ioactive p) (bufs p) (bucket p) (chain p) (dirty p) (clean p) (freelist p) v (hashtable p) (disk p) (woken p) (dirty_event p).
Definition set_hashtable (v : list Z) (p : bufpool) : bufpool :=
  Pool (bufsize p) (nosync p) (ioactive p) (bufs p) (bucket p) (chain p) (dirty p) (clean p) (freelist p) (bufcount p) v (disk p) (woken p) (dirty_event p).
Definition set_disk (v : gmap Z (list Z)) (p : bufpool) : bufpool :=
  Pool (bufsize p) (nosync p) (ioactive p) (bufs p) (bucket p) (chain p) (dirty p) (clean p) (freelist p) (bufcount p) (hashtable p) v (woken p) (dirty_event p).
Definition set_woken (v : list (Z * Z)) (p : bufpool) : bufpool :=
  Pool (bufsize p) (nosync p) (ioactive p) (bufs p) (bucket p) (chain p) (dirty p) (clean p) (freelist p) (bufcount p) (hashtable p) (disk p) v (dirty_event p).
Definition set_dirty_event (v : bool) (p : bufpool) : bufpool :=
  Pool (bufsize p) (nosync p) (ioactive p) (bufs p) (bucket p) (chain p) (dirty p) (clean p) (freelist p) (bufcount p) (hashtable p) (disk p) (woken p) v.

(** ** Links *)

Definition get_link (a : Z) : K (gmap Z buflink) buflink := let* m := kget in kopt (m !! a).
Definition set_next (a v : Z) : K (gmap Z buflink) unit :=
  let* r := get_link a in kmod (fun m => <[a := BufLink v (bl_prev r)]> m).
Definition set_prev (a v : Z) : K (gmap Z buflink) unit :=
  let* r := get_link a in kmod (fun m => <[a := BufLink (bl_next r) v]> m).

(** The neighbours of [a] are linked to each other. *)
Definition unlink_buf (a : Z) : K (gmap Z buflink) unit :=
  let* r := get_link a in
  (if negb (bl_next r =? 0) then set_prev (bl_next r) (bl_prev r) else kret tt) ;;;
  let* r := get_link a in
  if negb (bl_prev r =? 0) then set_next (bl_prev r) (bl_next r) else kret tt.

Definition clear_links (a : Z) : K (gmap Z buflink) unit := set_next a 0 ;;; set_prev a 0.

Definition on_chain {A} (m : K (gmap Z buflink) A) : K bufpool A := kzoom chain set_chain m.
Definition on_bucket {A} (m : K (gmap Z buflink) A) : K bufpool A := kzoom bucket set_bucket m.

Definition get_buf (b : Z) : K bufpool buf := let* p := kget in kopt (bufs p !! b).
Definition upd_buf (b : Z) (f : buf -> buf) : K bufpool unit :=
  let* r := get_buf b in kmod (fun p => set_bufs (<[b := f r]> (bufs p)) p).

(** [buf] leaves the list [lst] of the pool, or is put at its end. *)
Definition leave_list (lst : bufpool -> buflist) (set_lst : buflist -> bufpool -> bufpool) (b : Z) : K bufpool unit :=
  on_chain (unlink_buf b) ;;;
  let* r := on_chain (get_link b) in
  kmod (fun p => if bl_head (lst p) =? b then set_lst (BufList (bl_next r) (bl_tail (lst p))) p else p) ;;;
  kmod (fun p => if bl_tail (lst p) =? b then set_lst (BufList (bl_head (lst p)) (bl_prev r)) p else p).

Definition join_list (lst : bufpool -> buflist) (set_lst : buflist -> bufpool -> bufpool) (b : Z) : K bufpool unit :=
  let* p := kget in
  on_chain (set_next b 0 ;;; set_prev b (bl_tail (lst p)) ;;;
            if negb (bl_tail (lst p) =? 0) then set_next (bl_tail (lst p)) b else kret tt) ;;;
  kmod (fun p => set_lst (BufList (bl_head (lst p)) b) p) ;;;
  kmod (fun p => if bl_head (lst p) =? 0 then set_lst (BufList b (bl_tail (lst p))) p else p).

(** ** Buffers *)

Definition bufhash (blkno : Z) : Z := blkno.

Definition change_state (b newstate : Z) : K bufpool unit :=
  let* r := get_buf b in
  let* p := kget in
  let* n := kopt (bufcount p !! Z.to_nat (b_state r)) in
  kmod (fun p => set_bufcount (<[Z.to_nat (b_state r) := n - 1]> (bufcount p)) p) ;;;
  let* p := kget in
  let* n := kopt (bufcount p !! Z.to_nat newstate) in
  kmod (fun p => set_bufcount (<[Z.to_nat newstate := n + 1]> (bufcount p)) p) ;;;
  upd_buf b (set_b_state newstate).

Definition add_lock (b : Z) : K bufpool unit := upd_buf b (fun r => set_b_locks (u16 (b_locks r + 1)) r).

(** The thread [t] is put in front of the waiting threads. *)
Definition wait_for_buffer (t b : Z) : K bufpool unit := upd_buf b (fun r => set_b_waiters (t :: b_waiters r) r).

Fixpoint release_waiters_loop (b key : Z) (ts : list Z) : K bufpool unit :=
  match ts with
  | [] => kret tt
  | t :: ts' =>
    add_lock b ;;;
    kmod (fun p => set_woken (woken p ++ [(t, key)]) p) ;;;
    release_waiters_loop b key ts'
  end.

Definition release_buffer_waiters (b key : Z) : K bufpool unit :=
  let* r := get_buf b in
  release_waiters_loop b key (b_waiters r) ;;;
  upd_buf b (set_b_waiters []).

Definition hash_slot (blkno : Z) : nat := Z.to_nat (bufhash blkno mod BUFPOOL_HASHSIZE).

Definition insert_into_hashtable (b : Z) : K bufpool unit :=
  let* r := get_buf b in
  let slot := hash_slot (b_blkno r) in
  let* p := kget in
  let* first := kopt (hashtable p !! slot) in
  (if negb (first =? 0) then on_bucket (set_prev first b) else kret tt) ;;;
  on_bucket (set_next b first ;;; set_prev b 0) ;;;
  kmod (fun p => set_hashtable (<[slot := b]> (hashtable p)) p).

Definition remove_from_hashtable (b : Z) : K bufpool unit :=
  let* r := get_buf b in
  let slot := hash_slot (b_blkno r) in
  on_bucket (unlink_buf b) ;;;
  let* p := kget in
  let* first := kopt (hashtable p !! slot) in
  (if first =? b then let* l := on_bucket (get_link b) in kmod (fun p => set_hashtable (<[slot := bl_next l]> (hashtable p)) p)
   else kret tt) ;;;
  on_bucket (clear_links b).

(** Along the bucket to the buffer of the block, 0 if there is none. *)
Fixpoint find_in_bucket (fuel : nat) (b blkno : Z) : K bufpool Z :=
  match fuel with
  | O => khang
  | S fuel' =>
    if b =? 0 then kret 0
    else
      let* r := get_buf b in
      if b_blkno r =? blkno then kret b
      else let* l := on_bucket (get_link b) in find_in_bucket fuel' (bl_next l) blkno
  end.

Inductive lookup_result :=
| NotCached
| Cached (b : Z)
| WaitsFor (b : Z).

Definition zeros (p : bufpool) : list Z := replicate (Z.to_nat (bufsize p)) 0.

(** The caller waits for a buffer that is being read or written, as the thread
    [t]; it has the lock when it goes on. *)
Definition lookup_buffer (t blkno : Z) : K bufpool lookup_result :=
  let* p := kget in
  let* first := kopt (hashtable p !! hash_slot blkno) in
  let* b := find_in_bucket (S (size (bufs p))) first blkno in
  if b =? 0 then kret NotCached
  else
    let* r := get_buf b in
    if b_state r =? BUF_STATE_FREE then kpanic "free buffer in cache"
    else if b_state r =? BUF_STATE_CLEAN then
      leave_list clean set_clean b ;;;
      change_state b BUF_STATE_LOCKED ;;;
      on_chain (clear_links b) ;;;
      add_lock b ;;;
      kret (Cached b)
    else if b_state r =? BUF_STATE_DIRTY then
      leave_list dirty set_dirty b ;;;
      change_state b BUF_STATE_UPDATED ;;;
      on_chain (clear_links b) ;;;
      add_lock b ;;;
      kret (Cached b)
    else if (b_state r =? BUF_STATE_READING) || (b_state r =? BUF_STATE_WRITING) then
      wait_for_buffer t b ;;;
      kret (WaitsFor b)
    else if (b_state r =? BUF_STATE_LOCKED) || (b_state r =? BUF_STATE_UPDATED) then
      add_lock b ;;;
      kret (Cached b)
    else if b_state r =? BUF_STATE_INVALID then
      change_state b BUF_STATE_LOCKED ;;;
      add_lock b ;;;
      upd_buf b (set_b_data (zeros p)) ;;;
      kret (Cached b)
    else if b_state r =? BUF_STATE_ERROR then
      add_lock b ;;;
      kret (Cached b)
    else kpanic "invalid buffer state".

(** ** Device calls *)

(** [read_buffer] up to the device call, and behind it with the result [rc]. *)
Definition read_start (b : Z) : K bufpool unit :=
  change_state b BUF_STATE_READING ;;;
  kmod (set_ioactive 1).

Definition read_end (b rc : Z) : K bufpool unit :=
  let* p := kget in
  if negb (rc =? bufsize p) then
    change_state b BUF_STATE_ERROR ;;;
    release_buffer_waiters b rc
  else
    let* r := get_buf b in
    let* d := kopt (disk p !! b_blkno r) in
    upd_buf b (set_b_data d) ;;;
    change_state b BUF_STATE_LOCKED ;;;
    release_buffer_waiters b 0.

(** [write_buffer] up to the device call, if there is one, and behind it. *)
Definition write_start (b : Z) (flush : bool) : K bufpool bool :=
  let* r := get_buf b in
  if b_state r =? BUF_STATE_DIRTY then
    leave_list dirty set_dirty b ;;;
    on_chain (clear_links b) ;;;
    change_state b BUF_STATE_WRITING ;;;
    (if flush then kret tt else kmod (set_ioactive 1)) ;;;
    kret true
  else kret false.

(** The device has the data of the buffer. *)
Definition dev_write (b rc : Z) : K bufpool unit :=
  let* p := kget in
  if rc =? bufsize p then
    let* r := get_buf b in kmod (fun p => set_disk (<[b_blkno r := b_data r]> (disk p)) p)
  else kret tt.

Definition write_end (b rc : Z) : K bufpool unit :=
  let* p := kget in
  if negb (rc =? bufsize p) then
    change_state b BUF_STATE_ERROR ;;;
    release_buffer_waiters b rc
  else
    change_state b BUF_STATE_LOCKED ;;;
    release_buffer_waiters b 0.

(** ** Finding a buffer to use *)

Inductive new_result :=
| NewBuffer (b : Z)
| NewWrites (b : Z)
| NewYields.

(** What a round does with the oldest dirty buffer behind [dev_write]. *)
Definition take_written (b rc : Z) : K bufpool new_result :=
  write_end b rc ;;;
  let* r := get_buf b in
  if negb (rc <? 0) && (b_locks r =? 0) then
    remove_from_hashtable b ;;;
    kret (NewBuffer b)
  else kret NewYields.

(** A round of the loop in [get_new_buffer]. *)
Definition get_new_buffer : K bufpool new_result :=
  let* p := kget in
  if negb (freelist p =? 0) then
    let b := freelist p in
    let* l := on_chain (get_link b) in
    kmod (set_freelist (bl_next l)) ;;;
    on_chain (clear_links b) ;;;
    kret (NewBuffer b)
  else if negb (bl_head (clean p) =? 0) then
    let b := bl_head (clean p) in
    let* l := on_chain (get_link b) in
    (if negb (bl_next l =? 0) then on_chain (set_prev (bl_next l) 0) else kret tt) ;;;
    kmod (fun p => set_clean (BufList (bl_next l) (bl_tail (clean p))) p) ;;;
    kmod (fun p => if bl_tail (clean p) =? b then set_clean (BufList (bl_head (clean p)) (bl_next l)) p else p) ;;;
    on_chain (clear_links b) ;;;
    remove_from_hashtable b ;;;
    kret (NewBuffer b)
  else if negb (bl_head (dirty p) =? 0) then
    let b := bl_head (dirty p) in
    let* io := write_start b false in
    if io then kret (NewWrites b) else take_written b (bufsize p)
  else kret NewYields.

(** The rest of the round when the device call has returned. *)
Definition get_new_written (b rc : Z) : K bufpool new_result := dev_write b rc ;;; take_written b rc.

(** ** Operations *)

Definition release_buffer (b : Z) : K bufpool unit :=
  upd_buf b (fun r => set_b_locks (u16 (b_locks r - 1)) r) ;;;
  let* r := get_buf b in
  if 0 <? b_locks r then kret tt
  else if b_state r =? BUF_STATE_LOCKED then
    change_state b BUF_STATE_CLEAN ;;;
    join_list clean set_clean b
  else if b_state r =? BUF_STATE_UPDATED then
    change_state b BUF_STATE_DIRTY ;;;
    join_list dirty set_dirty b ;;;
    kmod (set_dirty_event true)
  else if (b_state r =? BUF_STATE_INVALID) || (b_state r =? BUF_STATE_ERROR) then
    remove_from_hashtable b ;;;
    change_state b BUF_STATE_FREE ;;;
    let* p := kget in
    on_chain (set_next b (freelist p) ;;; set_prev b 0) ;;;
    kmod (set_freelist b)
  else kpanic "invalid buffer state".

Definition mark_buffer_updated (b : Z) : K bufpool unit :=
  let* r := get_buf b in
  if (b_state r =? BUF_STATE_LOCKED) || (b_state r =? BUF_STATE_INVALID) then change_state b BUF_STATE_UPDATED else kret tt.

Definition mark_buffer_invalid (b : Z) : K bufpool unit :=
  let* r := get_buf b in
  if (b_state r =? BUF_STATE_LOCKED) || (b_state r =? BUF_STATE_UPDATED) then change_state b BUF_STATE_INVALID else kret tt.

(** What the caller of [get_buffer] or [alloc_buffer] has: the buffer (or 0),
    or it waits for a buffer or for the device, or it has to try again. *)
Inductive get_result :=
| Gives (b : Z)
| Waits (b : Z)
| Reads (b : Z)
| Writes (b : Z)
| Yields.

(** A buffer that was in the cache; also what a thread does that has waited. *)
Definition take_cached (b : Z) : K bufpool get_result :=
  let* r := get_buf b in
  if b_state r =? BUF_STATE_ERROR then release_buffer b ;;; kret (Gives 0) else kret (Gives b).

(** A new buffer becomes the buffer of the block and the device is asked for
    the data, or, for [alloc_buffer], the buffer is cleared. *)
Definition get_insert (blkno b : Z) : K bufpool get_result :=
  upd_buf b (set_b_blkno blkno) ;;;
  insert_into_hashtable b ;;;
  add_lock b ;;;
  read_start b ;;;
  kret (Reads b).

Definition alloc_insert (blkno b : Z) : K bufpool get_result :=
  upd_buf b (set_b_blkno blkno) ;;;
  insert_into_hashtable b ;;;
  let* p := kget in
  upd_buf b (set_b_data (zeros p)) ;;;
  change_state b BUF_STATE_LOCKED ;;;
  add_lock b ;;;
  kret (Gives b).

Definition got_new (alloc : bool) (blkno : Z) (n : new_result) : K bufpool get_result :=
  match n with
  | NewBuffer b => if alloc then alloc_insert blkno b else get_insert blkno b
  | NewWrites b => kret (Writes b)
  | NewYields => kret Yields
  end.

(** The call, one more round of [get_new_buffer], the rest of a round after the
    device call, and the end of a read. *)
Definition get_buffer (t blkno : Z) : K bufpool get_result :=
  let* l := lookup_buffer t blkno in
  match l with
  | Cached b => take_cached b
  | WaitsFor b => kret (Waits b)
  | NotCached => let* n := get_new_buffer in got_new false blkno n
  end.

Definition get_buffer_read (b rc : Z) : K bufpool get_result :=
  read_end b rc ;;;
  if rc <? 0 then release_buffer b ;;; kret (Gives 0) else kret (Gives b).

(** What is in the cache is cleared by [alloc_buffer]. *)
Definition alloc_cached (b : Z) : K bufpool get_result :=
  let* r := get_buf b in
  if b_state r =? BUF_STATE_ERROR then release_buffer b ;;; kret (Gives 0)
  else
    let* p := kget in
    upd_buf b (set_b_data (zeros p)) ;;;
    kret (Gives b).

Definition alloc_buffer (t blkno : Z) : K bufpool get_result :=
  let* l := lookup_buffer t blkno in
  match l with
  | Cached b => alloc_cached b
  | WaitsFor b => kret (Waits b)
  | NotCached => let* n := get_new_buffer in got_new true blkno n
  end.

Definition retry (alloc : bool) (blkno : Z) : K bufpool get_result :=
  let* n := get_new_buffer in got_new alloc blkno n.

Definition after_write (alloc : bool) (blkno b rc : Z) : K bufpool get_result :=
  let* n := get_new_written b rc in got_new alloc blkno n.

Definition invalidate (b : Z) : K bufpool unit := mark_buffer_invalid b ;;; release_buffer b.

Definition invalidate_buffer (t blkno : Z) : K bufpool get_result :=
  let* l := lookup_buffer t blkno in
  match l with
  | NotCached => kret (Gives 0)
  | Cached b => invalidate b ;;; kret (Gives 0)
  | WaitsFor b => kret (Waits b)
  end.

Inductive flush_result :=
| FlushDone (rc : Z)
| FlushWrites (b : Z)
| FlushMore.

(** [flush_buffers]: its beginning, a round of its loop up to the device call
    and the rest of the round. *)
Definition flush_begin : K bufpool flush_result :=
  let* p := kget in
  if negb (nosync p =? 0) then kret (FlushDone 0) else kmod (set_ioactive 0) ;;; kret FlushMore.

Definition flush_rest (b rc : Z) : K bufpool flush_result :=
  write_end b rc ;;;
  if rc <? 0 then kret (FlushDone rc)
  else
    let* r := get_buf b in
    (if b_locks r =? 0 then change_state b BUF_STATE_CLEAN ;;; join_list clean set_clean b else kret tt) ;;;
    kret FlushMore.

Definition flush_round (interruptable : bool) : K bufpool flush_result :=
  let* p := kget in
  if bl_head (dirty p) =? 0 then kret (FlushDone 0)
  else if interruptable && negb (ioactive p =? 0) then kret (FlushDone (- EINTR))
  else
    let b := bl_head (dirty p) in
    let* io := write_start b true in
    if io then kret (FlushWrites b) else flush_rest b (bufsize p).

Definition flush_written (b rc : Z) : K bufpool flush_result := dev_write b rc ;;; flush_rest b rc.

(** [sync_buffers]: its beginning (the [sync] procedure of the file system is
    not part of the pool), and the round for the buffer [b]. *)
Definition sync_begin : K bufpool flush_result :=
  let* p := kget in
  if negb (nosync p =? 0) then kret (FlushDone 0)
  else
    let* n := kopt (bufcount p !! Z.to_nat BUF_STATE_UPDATED) in
    if n =? 0 then kret (FlushDone 0) else kmod (set_ioactive 0) ;;; kret FlushMore.

Definition sync_round (interruptable : bool) (b : Z) : K bufpool flush_result :=
  let* r := get_buf b in
  if b_state r =? BUF_STATE_UPDATED then
    let* p := kget in
    if interruptable && negb (ioactive p =? 0) then kret (FlushDone (- EINTR))
    else add_lock b ;;; kret (FlushWrites b)
  else kret FlushMore.

Definition sync_rest (b rc : Z) : K bufpool flush_result :=
  if rc <? 0 then kret (FlushDone rc)
  else
    change_state b BUF_STATE_LOCKED ;;;
    release_buffer b ;;;
    kret FlushMore.

(** ** A new pool *)

(** The free list of the buffers [l], and the other links. *)
Fixpoint free_chain (l : list Z) : gmap Z buflink :=
  match l with
  | [] => ∅
  | b :: l' => <[b := BufLink (hd 0 l') 0]> (free_chain l')
  end.

(** [init_buffer_pool] for the buffers at the addresses [l]. *)
Definition init_buffer_pool (size : Z) (l : list Z) (d : gmap Z (list Z)) : bufpool :=
  let data := replicate (Z.to_nat size) 0 in
  Pool size 0 0 (list_to_map ((fun b => (b, Buf BUF_STATE_FREE 0 [] 0 data)) <$> l))
    (list_to_map ((fun b => (b, BufLink 0 0)) <$> l)) (free_chain l)
    (BufList 0 0) (BufList 0 0) (hd 0 l)
    (<[Z.to_nat BUF_STATE_FREE := Z.of_nat (length l)]> (replicate (Z.to_nat BUF_STATES) 0))
    (replicate (Z.to_nat BUFPOOL_HASHSIZE) 0) d [] false.
