(* ===== verification/Bufcache.v ===== *)
(** * Correctness of the buffer cache (sys/krnl/buf.c)

    The invariant of the pool: the free, clean and dirty lists and the buckets
    of the hash table hold the buffers whose states say so, the counts of the
    states are right, locks and waiting threads go with the states, no block
    has two buffers, and buffers that are clean or locked have the data of the
    device unless they have been changed and not been marked yet.  Then, for
    each operation, what it does to the buffer that it is about. *)

From S2P Require Import Prelude Dlist Buf.
Local Open Scope k_scope.

Tactic Notation "step" uconstr(E) := rewrite (kbind_done _ _ _ _ _ E).

#[global] Instance buflink_links : Links buflink.
Proof.
  by refine {| l_prev := bl_prev; l_next := bl_next; set_l_prev := fun v l => BufLink (bl_next l) v; set_l_next := fun v l => BufLink v (bl_prev l) |}.
Defined.

(** ** Runs on links *)

Lemma get_link_run m a l : m !! a = Some l -> get_link a m = Done (l, m).
Proof. intros H. unfold get_link. kx. by rewrite H. Qed.

Lemma set_next_run m a l v : m !! a = Some l -> set_next a v m = Done (tt, <[a := BufLink v (bl_prev l)]> m).
Proof. intros H. unfold set_next. by step (get_link_run m a l H). Qed.

Lemma set_prev_run m a l v : m !! a = Some l -> set_prev a v m = Done (tt, <[a := BufLink (bl_next l) v]> m).
Proof. intros H. unfold set_prev. by step (get_link_run m a l H). Qed.

Lemma clear_links_run m a l : m !! a = Some l -> clear_links a m = Done (tt, <[a := BufLink 0 0]> m).
Proof.
  intros H. unfold clear_links. step (set_next_run m a l 0 H). rewrite (set_prev_run _ a _ 0 (lookup_insert_eq _ _ _)). by rewrite insert_insert_eq.
Qed.

(** Unlinking an element of a list. *)
Lemma unlink_run m l1 b l2 r :
  NoDup (l1 ++ b :: l2) -> 0 ∉ l1 ++ b :: l2 -> dlist m 0 (l1 ++ b :: l2) 0 -> m !! b = Some r ->
  bl_prev r = last_of 0 l1 /\ bl_next r = hd 0 l2 /\ unlink_buf b m = Done (tt, bypass m (last_of 0 l1) (hd 0 l2)) /\
  bypass m (last_of 0 l1) (hd 0 l2) !! b = Some r.
Proof.
  intros Hn H0 Hd Hr. destruct (dlist_at m l1 b l2 r Hd Hr) as [Hp Hx]. cbn in Hp, Hx.
  assert (Hb1 : b <> last_of 0 l1).
  { intros E. apply NoDup_app in Hn as (_ & Hdj & _). destruct (decide (l1 = [])) as [->|Hne]; [set_solver|].
    pose proof (last_of_elem 0 l1 Hne) as Hin. rewrite <- E in Hin. apply (Hdj b Hin). by left. }
  assert (Hb2 : b <> hd 0 l2).
  { intros E. apply NoDup_app in Hn as (_ & _ & [Hni _]%NoDup_cons). destruct l2 as [|a l2]; [set_solver|]. cbn in E. subst a. apply Hni. by left. }
  split; [done|]. split; [done|]. split; [|by rewrite bypass_ne].
  unfold unlink_buf. step (get_link_run m b r Hr). rewrite Hp, Hx. unfold bypass.
  apply dlist_app in Hd as [Hd1 [_ Hd2]].
  assert (Hk : forall m1, m1 = (if hd 0 l2 =? 0 then m else match m !! hd 0 l2 with Some r => <[hd 0 l2 := set_l_prev (last_of 0 l1) r]> m | None => m end) ->
    (if negb (hd 0 l2 =? 0) then set_prev (hd 0 l2) (last_of 0 l1) else kret tt) m = Done (tt, m1) /\ m1 !! b = Some r /\
    forall a, a ∈ l1 -> is_Some (m1 !! a)).
  { intros m1 ->. destruct (Z.eqb_spec (hd 0 l2) 0) as [E|E]; cbn [negb].
    - split; [done|]. split; [done|]. intros a Ha. by apply (dlist_lookup m 0 l1 _ a Hd1).
    - destruct l2 as [|c l2]; [done|]. destruct (dlist_lookup m b (c :: l2) 0 c Hd2) as [rc Hrc]; [by left|]. cbn [hd] in *. rewrite Hrc.
      split; [by rewrite (set_prev_run m c rc)|]. split; [by rewrite lookup_insert_ne|]. intros a Ha. rewrite lookup_insert_is_Some'. right.
      by apply (dlist_lookup m 0 l1 _ a Hd1). }
  specialize (Hk _ eq_refl) as (E1 & Hr1 & Hk). step E1. set (m1 := if hd 0 l2 =? 0 then m else _) in *.
  step (get_link_run m1 b r Hr1). rewrite Hp, Hx. destruct (Z.eqb_spec (last_of 0 l1) 0) as [E|E]; cbn [negb]; [done|].
  destruct (Hk (last_of 0 l1)) as [rl Hrl]; [apply last_of_elem; by intros ->|]. rewrite Hrl. by rewrite (set_next_run m1 _ rl).
Qed.

(** ** Chains of the pool *)

(** A list that is linked forwards only. *)
Fixpoint slist (m : gmap Z buflink) (l : list Z) : Prop :=
  match l with
  | [] => True
  | b :: l' => (exists r, m !! b = Some r /\ bl_next r = hd 0 l') /\ slist m l'
  end.

Lemma slist_frame m m' l : (forall a, a ∈ l -> m' !! a = m !! a) -> slist m l -> slist m' l.
Proof.
  induction l as [|b l IH]; [done|]. intros Hf [(r & Hr & Hn) Hl]. split; [exists r; rewrite Hf by (by left); done|].
  apply IH; [|done]. intros a Ha. apply Hf. by right.
Qed.

(** The free, clean and dirty lists. *)
Record chains (m : gmap Z buflink) (fl : Z) (c d : buflist) (F C D : list Z) : Prop := {
  ch_free : fl = hd 0 F /\ slist m F;
  ch_clean : c = BufList (hd 0 C) (last_of 0 C) /\ dlist m 0 C 0;
  ch_dirty : d = BufList (hd 0 D) (last_of 0 D) /\ dlist m 0 D 0;
  ch_nodup : NoDup (F ++ C ++ D);
  ch_null : 0 ∉ F ++ C ++ D;
}.

(** A record outside of the lists does not matter. *)
Lemma chains_out m fl c d F C D b l : chains m fl c d F C D -> b ∉ F ++ C ++ D -> chains (<[b := l]> m) fl c d F C D.
Proof.
  intros [[Hf Hsf] [Hc Hdc] [Hd Hdd] Hn H0] Hb. split; try done; split; try done.
  - eapply slist_frame; [|exact Hsf]. intros a Ha. rewrite lookup_insert_ne; [done|]. intros ->. set_solver.
  - eapply dlist_frame; [|exact Hdc]. intros a Ha. apply same_links_ne. intros ->. set_solver.
  - eapply dlist_frame; [|exact Hdd]. intros a Ha. apply same_links_ne. intros ->. set_solver.
Qed.

Lemma chains_swap m fl c d F C D : chains m fl c d F C D -> chains m fl d c F D C.
Proof.
  intros [? ? ? Hn H0]. assert (P : F ++ D ++ C ≡ₚ F ++ C ++ D) by (by rewrite (Permutation_app_comm D C)). split; try done; by rewrite P.
Qed.

Lemma chains_frame m m' fl c d F C C' D c' :
  chains m fl c d F C D -> c' = BufList (hd 0 C') (last_of 0 C') -> dlist m' 0 C' 0 -> (forall a, a ∈ F ++ D -> m' !! a = m !! a) ->
  NoDup (F ++ C' ++ D) -> 0 ∉ C' -> chains m' fl c' d F C' D.
Proof.
  intros [[Hf Hsf] _ [Hd Hdd] _ H0] Hc' Hdl Hm Hn' H0'. split; try done; [split; [done|]|split; [done|]|set_solver].
  - eapply slist_frame; [|exact Hsf]. intros a Ha. apply Hm. set_solver.
  - eapply dlist_frame; [|exact Hdd]. intros a Ha. unfold same_links. rewrite Hm; [done|set_solver].
Qed.

(** [b] leaves the clean list. *)
Lemma chains_leave m fl c d F l1 b l2 D : chains m fl c d F (l1 ++ b :: l2) D ->
  chains (bypass m (last_of 0 l1) (hd 0 l2)) fl (BufList (hd 0 (l1 ++ l2)) (last_of 0 (l1 ++ l2))) d F (l1 ++ l2) D.
Proof.
  intros Hch. pose proof Hch as [_ [_ Hdl] _ Hn H0]. pose proof Hn as (HnF & HdF & (HnC & HdC & HnD)%NoDup_app)%NoDup_app.
  apply (chains_frame _ _ _ _ _ _ _ _ _ _ Hch); [done|apply (bypass_dlist m l1 b l2); [done|set_solver|done]| | |set_solver].
  - intros a Ha. assert (Hal : a ∉ l1 ++ b :: l2).
    { intros Hin. apply elem_of_app in Ha as [Ha|Ha]; [apply (HdF a Ha); set_solver|by apply (HdC a Hin)]. }
    assert (Ha0 : a <> 0) by (intros ->; set_solver). apply bypass_ne.
    + intros E. destruct (decide (l1 = [])) as [->|Hne]; [done|]. pose proof (last_of_elem 0 l1 Hne). rewrite <- E in *. set_solver.
    + intros E. destruct l2 as [|z l2]; [done|]. cbn in E. subst z. set_solver.
  - apply NoDup_app. split; [done|]. assert (Hs : l1 ++ l2 ⊆ l1 ++ b :: l2) by set_solver. split; [set_solver|]. apply NoDup_app. split; [|set_solver].
    apply NoDup_app in HnC as (? & Hdj & [_ ?]%NoDup_cons). apply NoDup_app. split; [done|]. split; [|done]. intros a Ha Ha2. apply (Hdj a Ha). by right.
Qed.

(** [b] comes to the end of the clean list. *)
Lemma chains_join m fl c d F C b D r : chains m fl c d F C D -> b ∉ F ++ C ++ D -> b <> 0 -> m !! b = Some r ->
  chains (append m (last_of 0 C) b r) fl (BufList (hd 0 (C ++ [b])) b) d F (C ++ [b]) D.
Proof.
  intros Hch Hb Hb0 Hr. pose proof Hch as [_ [_ Hdl] _ Hn H0]. pose proof Hn as (HnF & HdF & (HnC & HdC & HnD)%NoDup_app)%NoDup_app.
  apply (chains_frame _ _ _ _ _ _ _ _ _ _ Hch); [by rewrite last_of_app|apply append_dlist; [done|set_solver|set_solver|done]| | |set_solver].
  - intros a Ha. apply append_ne; [|intros ->; set_solver]. intros E. destruct (decide (C = [])) as [->|Hne]; [change (a = 0) in E; set_solver|].
    pose proof (last_of_elem 0 C Hne) as Hin. rewrite <- E in Hin. apply elem_of_app in Ha as [Ha|Ha]; [apply (HdF a Ha); set_solver|by apply (HdC a Hin)].
  - apply NoDup_app. split; [done|]. split; [set_solver|]. apply NoDup_app. split; [|set_solver].
    apply NoDup_app. split; [done|]. split; [set_solver|apply NoDup_singleton].
Qed.

(** The code on a list of the pool. *)
Section Lens.
Context (lst : bufpool -> buflist) (set_lst : buflist -> bufpool -> bufpool).
Context (lens_get : forall v p, lst (set_lst v p) = v) (lens_set : forall v w p, set_lst v (set_lst w p) = set_lst v p).
Context (lens_put : forall p, set_lst (lst p) p = p) (lens_chain : forall v p, lst (set_chain v p) = lst p).
Context (chain_lens : forall v p, chain (set_lst v p) = chain p).

Lemma leave_list_run p l1 b l2 :
  NoDup (l1 ++ b :: l2) -> 0 ∉ l1 ++ b :: l2 -> dlist (chain p) 0 (l1 ++ b :: l2) 0 -> lst p = BufList (hd 0 (l1 ++ b :: l2)) (last_of 0 (l1 ++ b :: l2)) ->
  leave_list lst set_lst b p =
  Done (tt, set_lst (BufList (hd 0 (l1 ++ l2)) (last_of 0 (l1 ++ l2))) (set_chain (bypass (chain p) (last_of 0 l1) (hd 0 l2)) p)).
Proof.
  intros Hn H0 Hd Hl. destruct (dlist_lookup (chain p) 0 (l1 ++ b :: l2) 0 b Hd) as [r Hr]; [set_solver|].
  destruct (unlink_run (chain p) l1 b l2 r Hn H0 Hd Hr) as (Hp & Hx & E & Hr'). set (m' := bypass _ _ _) in *. unfold leave_list.
  set (p1 := set_chain m' p). assert (E1 : on_chain (unlink_buf b) p = Done (tt, p1)) by (unfold on_chain, kzoom; by rewrite E). step E1.
  assert (E2 : on_chain (get_link b) p1 = Done (r, p1)) by (unfold on_chain, kzoom; change (chain p1) with m'; by rewrite (get_link_run m' b r Hr')). step E2.
  unfold kmod, kbind. rewrite Hp, Hx. unfold p1. rewrite lens_chain, Hl. cbn [bl_head bl_tail].
  pose proof (drop_head b l1 l2 Hn) as Eh. pose proof (drop_tail b l1 l2 Hn) as Et. rewrite Z.eqb_sym in Eh, Et.
  destruct (hd 0 (l1 ++ b :: l2) =? b).
  - rewrite lens_get. cbn [bl_head bl_tail]. destruct (last_of 0 (l1 ++ b :: l2) =? b); [rewrite lens_set|]; by rewrite Eh, <- Et.
  - rewrite lens_chain, Hl. cbn [bl_head bl_tail]. destruct (last_of 0 (l1 ++ b :: l2) =? b); [by rewrite Eh, <- Et|].
    rewrite <- Eh, <- Et, <- Hl, <- (lens_chain m' p), lens_put. done.
Qed.

Lemma join_list_run p C b r :
  0 ∉ C -> b ∉ C -> b <> 0 -> dlist (chain p) 0 C 0 -> chain p !! b = Some r -> lst p = BufList (hd 0 C) (last_of 0 C) ->
  join_list lst set_lst b p = Done (tt, set_lst (BufList (hd 0 (C ++ [b])) b) (set_chain (append (chain p) (last_of 0 C) b r) p)).
Proof.
  intros H0 Hb Hb0 Hd Hr Hl. unfold join_list. step (eq_refl : kget p = Done (p, p)). rewrite Hl. cbn [bl_tail].
  assert (E : (set_next b 0 ;;; set_prev b (last_of 0 C) ;;; (if negb (last_of 0 C =? 0) then set_next (last_of 0 C) b else kret tt)) (chain p) =
    Done (tt, append (chain p) (last_of 0 C) b r)).
  { step (set_next_run (chain p) b r 0 Hr). step (set_prev_run _ b _ (last_of 0 C) (lookup_insert_eq _ _ _)). rewrite insert_insert_eq. unfold append.
    destruct (Z.eqb_spec (last_of 0 C) 0) as [E|E]; [done|]. cbn [negb].
    destruct (dlist_lookup (chain p) 0 C 0 (last_of 0 C) Hd) as [rl Hrl]; [apply last_of_elem; by intros ->|].
    assert (Hne : b <> last_of 0 C) by (intros Eb; apply Hb; rewrite Eb; apply last_of_elem; by intros ->).
    rewrite (set_next_run _ (last_of 0 C) rl) by (by rewrite lookup_insert_ne). by rewrite lookup_insert_ne, Hrl. }
  set (p1 := set_chain (append (chain p) (last_of 0 C) b r) p).
  assert (E1 : on_chain (set_next b 0 ;;; set_prev b (last_of 0 C) ;;; (if negb (last_of 0 C =? 0) then set_next (last_of 0 C) b else kret tt)) p = Done (tt, p1))
    by (unfold on_chain, kzoom; by rewrite E).
  step E1. unfold kmod, kbind, p1. rewrite lens_chain, Hl. cbn [bl_head]. rewrite lens_get. cbn [bl_head bl_tail].
  destruct C as [|a C]; cbn [hd app]; [cbn; by rewrite lens_set|]. destruct (Z.eqb_spec a 0) as [->|]; [set_solver|done].
Qed.
End Lens.

(** ** Buckets of the hash table *)

Record buckets (m : gmap Z buflink) (ht : list Z) (H : nat -> list Z) : Prop := {
  bk_length : length ht = 512%nat;
  bk_head : forall i, (i < 512)%nat -> ht !! i = Some (hd 0 (H i));
  bk_list : forall i, dlist m 0 (H i) 0;
  bk_nodup : forall i, NoDup (H i);
  bk_null : forall i, 0 ∉ H i;
  bk_apart : forall i j b, b ∈ H i -> b ∈ H j -> i = j;
}.

Definition hput (i : nat) (l : list Z) (H : nat -> list Z) : nat -> list Z := fun j => if decide (j = i) then l else H j.

Lemma hput_eq i l H : hput i l H i = l.
Proof. unfold hput. by rewrite decide_True. Qed.

Lemma hput_ne i l H j : j <> i -> hput i l H j = H j.
Proof. intros E. unfold hput. by rewrite decide_False. Qed.

Lemma buckets_put m m' ht H i l :
  buckets m ht H -> (i < 512)%nat -> dlist m' 0 l 0 -> NoDup l -> 0 ∉ l -> (forall j a, j <> i -> a ∈ H j -> m' !! a = m !! a) ->
  (forall j a, j <> i -> a ∈ H j -> a ∉ l) -> buckets m' (<[i := hd 0 l]> ht) (hput i l H).
Proof.
  intros [Hl Hh Hd Hn H0 Hap] Hi Hdl Hnl H0l Hf Hdj. split.
  - by rewrite length_insert.
  - intros j Hj. destruct (decide (j = i)) as [->|Hne]; [rewrite hput_eq, list_lookup_insert_eq by lia; done|].
    rewrite hput_ne, list_lookup_insert_ne by done. by apply Hh.
  - intros j. destruct (decide (j = i)) as [->|Hne]; [by rewrite hput_eq|]. rewrite hput_ne by done.
    eapply dlist_frame; [|apply Hd]. intros a Ha. unfold same_links. by rewrite (Hf j a Hne Ha).
  - intros j. destruct (decide (j = i)) as [->|Hne]; [by rewrite hput_eq|by rewrite hput_ne].
  - intros j. destruct (decide (j = i)) as [->|Hne]; [by rewrite hput_eq|by rewrite hput_ne].
  - intros j1 j2 b. unfold hput. destruct (decide (j1 = i)) as [->|N1], (decide (j2 = i)) as [->|N2]; intros B1 B2; [done| | |by apply (Hap j1 j2 b)].
    + by destruct (Hdj j2 b N2 B2).
    + by destruct (Hdj j1 b N1 B1).
Qed.

(** The links after [b] has been put in front of [l]. *)
Definition pushed (m : gmap Z buflink) (b : Z) (l : list Z) : gmap Z buflink :=
  <[b := BufLink (hd 0 l) 0]> (match l with [] => m | a :: _ => match m !! a with Some r => <[a := BufLink (bl_next r) b]> m | None => m end end).

Lemma pushed_ne m b l a : a <> b -> a ∉ l -> pushed m b l !! a = m !! a.
Proof.
  intros Hb Hl. unfold pushed. rewrite lookup_insert_ne by done. destruct l as [|c l]; [done|]. destruct (m !! c); [|done].
  rewrite lookup_insert_ne; [done|]. intros ->. apply Hl. by left.
Qed.

Lemma pushed_dlist m b l : NoDup l -> b ∉ l -> dlist m 0 l 0 -> dlist (pushed m b l) 0 (b :: l) 0.
Proof.
  intros Hn Hb Hd. split; [eexists; split; [apply lookup_insert_eq|done]|]. unfold pushed. destruct l as [|a l]; [done|]. destruct Hd as [(r & Hr & Hp & Hx) Hd].
  rewrite Hr. apply NoDup_cons in Hn as [Ha Hn]. assert (Hab : a <> b) by (intros ->; apply Hb; by left). split.
  - exists (BufLink (bl_next r) b). rewrite lookup_insert_ne, lookup_insert_eq by done. done.
  - eapply dlist_frame; [|exact Hd]. intros c Hc. unfold same_links. rewrite !lookup_insert_ne; [done|intros ->; by apply Ha|intros ->; apply Hb; by right].
Qed.

Definition on_slot (blkno : Z) (H : nat -> list Z) : list Z := H (hash_slot blkno).

Lemma hash_slot_lt blkno : (hash_slot blkno < 512)%nat.
Proof. unfold hash_slot, BUFPOOL_HASHSIZE. pose proof (Z.mod_pos_bound (bufhash blkno) 512). lia. Qed.

Lemma get_buf_run p b r : bufs p !! b = Some r -> get_buf b p = Done (r, p).
Proof. intros E. unfold get_buf. kx. by rewrite E. Qed.

Lemma upd_buf_run p b r f : bufs p !! b = Some r -> upd_buf b f p = Done (tt, set_bufs (<[b := f r]> (bufs p)) p).
Proof. intros E. unfold upd_buf. by step (get_buf_run p b r E). Qed.

Lemma insert_run p b r H :
  bufs p !! b = Some r -> buckets (bucket p) (hashtable p) H -> is_Some (bucket p !! b) -> (forall i, b ∉ H i) -> b <> 0 ->
  let i := hash_slot (b_blkno r) in
  exists p', insert_into_hashtable b p = Done (tt, p') /\ buckets (bucket p') (hashtable p') (hput i (b :: H i) H) /\
    p' = set_hashtable (<[i := b]> (hashtable p)) (set_bucket (pushed (bucket p) b (H i)) p).
Proof.
  intros Hr Hb [lb Hlb] Hnb Hb0 i. pose proof (hash_slot_lt (b_blkno r)) as Hi. fold i in Hi. eexists. split; [|split; [|reflexivity]].
  - unfold insert_into_hashtable. step (get_buf_run p b r Hr). fold i. step (eq_refl : kget p = Done (p, p)).
    rewrite (bk_head _ _ _ Hb i Hi). cbn [kopt]. rewrite (kbind_done _ _ _ _ _ (eq_refl : kret (hd 0 (H i)) p = Done (hd 0 (H i), p))).
    set (m1 := match H i with [] => bucket p | a :: _ => match bucket p !! a with Some r => <[a := BufLink (bl_next r) b]> (bucket p) | None => bucket p end end).
    assert (E1 : (if negb (hd 0 (H i) =? 0) then on_bucket (set_prev (hd 0 (H i)) b) else kret tt) p = Done (tt, set_bucket m1 p) /\ m1 !! b = Some lb).
    { pose proof (bk_list _ _ _ Hb i) as Hd. pose proof (bk_null _ _ _ Hb i) as H0. pose proof (Hnb i) as Hni. unfold m1.
      destruct (H i) as [|a l]; cbn [hd]; [by destruct p|]. destruct Hd as [(ra & Hra & _) _].
      destruct (Z.eqb_spec a 0) as [->|Ha]; [set_solver|]. cbn [negb]. rewrite Hra. unfold on_bucket, kzoom. rewrite (set_prev_run _ a ra b Hra).
      split; [done|]. rewrite lookup_insert_ne; [done|set_solver]. }
    destruct E1 as [E1 Hm1]. step E1.
    assert (E2 : on_bucket (set_next b (hd 0 (H i)) ;;; set_prev b 0) (set_bucket m1 p) = Done (tt, set_bucket (pushed (bucket p) b (H i)) p)).
    { unfold on_bucket, kzoom. cbn [bucket set_bucket]. step (set_next_run m1 b lb (hd 0 (H i)) Hm1).
      rewrite (set_prev_run _ b _ 0 (lookup_insert_eq _ _ _)). by rewrite insert_insert_eq. }
    by step E2.
  - cbn [bucket hashtable set_hashtable set_bucket]. apply (buckets_put _ _ _ _ i (b :: H i) Hb Hi).
    + apply pushed_dlist; [apply Hb|apply Hnb|apply Hb].
    + apply NoDup_cons. split; [apply Hnb|apply Hb].
    + pose proof (bk_null _ _ _ Hb i). set_solver.
    + intros j a Hj Ha. apply pushed_ne; [intros ->; by apply (Hnb j)|]. intros Hai. by destruct (Hj (bk_apart _ _ _ Hb j i a Ha Hai)).
    + intros j a Hj Ha [->|Hai]%elem_of_cons; [by apply (Hnb j)|]. by destruct (Hj (bk_apart _ _ _ Hb j i a Ha Hai)).
Qed.

Lemma unhash_run p b r H l1 l2 :
  bufs p !! b = Some r -> buckets (bucket p) (hashtable p) H -> let i := hash_slot (b_blkno r) in H i = l1 ++ b :: l2 ->
  exists p', remove_from_hashtable b p = Done (tt, p') /\ buckets (bucket p') (hashtable p') (hput i (l1 ++ l2) H) /\
    exists m ht, p' = set_hashtable ht (set_bucket m p) /\ forall a, is_Some (bucket p !! a) -> is_Some (m !! a).
Proof.
  intros Hr Hb i HH. pose proof (hash_slot_lt (b_blkno r)) as Hi. fold i in Hi.
  pose proof (bk_list _ _ _ Hb i) as Hd. pose proof (bk_null _ _ _ Hb i) as H0. pose proof (bk_nodup _ _ _ Hb i) as Hn. rewrite HH in Hd, H0, Hn.
  destruct (dlist_lookup _ _ _ _ b Hd) as [lb Hlb]; [set_solver|].
  destruct (unlink_run (bucket p) l1 b l2 lb Hn H0 Hd Hlb) as (Hp & Hx & E & Hlb'). set (m1 := bypass _ _ _) in *.
  set (ht := <[i := hd 0 (l1 ++ l2)]> (hashtable p)). set (m2 := <[b := BufLink 0 0]> m1).
  exists (set_hashtable ht (set_bucket m2 p)). split; [|split].
  - unfold remove_from_hashtable. step (get_buf_run p b r Hr). fold i. set (p1 := set_bucket m1 p).
    assert (E1 : on_bucket (unlink_buf b) p = Done (tt, p1)) by (unfold on_bucket, kzoom; by rewrite E). step E1. step (eq_refl : kget p1 = Done (p1, p1)).
    change (hashtable p1) with (hashtable p). rewrite (bk_head _ _ _ Hb i Hi), HH. cbn [kopt].
    rewrite (kbind_done _ _ _ _ _ (eq_refl : kret (hd 0 (l1 ++ b :: l2)) p1 = Done (hd 0 (l1 ++ b :: l2), p1))).
    set (p2 := set_hashtable ht p1).
    assert (E2 : (if hd 0 (l1 ++ b :: l2) =? b then let* l := on_bucket (get_link b) in kmod (fun p => set_hashtable (<[i := bl_next l]> (hashtable p)) p)
       else kret tt) p1 = Done (tt, p2)).
    { pose proof (drop_head b l1 l2 Hn) as Eh. rewrite Z.eqb_sym in Eh. unfold p2, ht. destruct (hd 0 (l1 ++ b :: l2) =? b).
      - assert (E3 : on_bucket (get_link b) p1 = Done (lb, p1)) by (unfold on_bucket, kzoom; change (bucket p1) with m1; by rewrite (get_link_run m1 b lb Hlb')).
        step E3. rewrite Hx, Eh. done.
      - rewrite <- Eh. rewrite (list_insert_id (hashtable p)); [by destruct p|]. by rewrite (bk_head _ _ _ Hb i Hi), HH. }
    step E2. unfold on_bucket, kzoom. change (bucket p2) with m1. by rewrite (clear_links_run m1 b lb Hlb').
  - cbn [bucket hashtable set_hashtable set_bucket]. assert (Hsub : forall a, a ∈ l1 ++ l2 -> a ∈ H i) by (intros a; rewrite HH; set_solver).
    apply NoDup_app in Hn as Hn'. destruct Hn' as (Hn1 & Hdj & [Hnb Hn2]%NoDup_cons).
    apply (buckets_put _ _ _ _ i (l1 ++ l2) Hb Hi).
    + eapply dlist_frame; [|apply (bypass_dlist (bucket p) l1 b l2 Hn H0 Hd)]. intros a Ha. apply same_links_ne. intros ->. set_solver.
    + apply NoDup_app. split; [done|]. split; [|done]. intros a Ha Ha2. apply (Hdj a Ha). by right.
    + set_solver.
    + intros j a Hj Ha. assert (Hai : a ∉ l1 ++ b :: l2) by (rewrite <- HH; intros Hai; by destruct (Hj (bk_apart _ _ _ Hb j i a Ha Hai))).
      assert (Ha0 : a <> 0) by (intros ->; by apply (bk_null _ _ _ Hb j)). unfold m2. rewrite lookup_insert_ne by (intros ->; set_solver).
      apply bypass_ne; intros ->; [|destruct l2; [done|set_solver]]. destruct (decide (l1 = [])) as [->|Hne]; [done|]. pose proof (last_of_elem 0 l1 Hne). set_solver.
    + intros j a Hj Ha Hai. by destruct (Hj (bk_apart _ _ _ Hb j i a Ha (Hsub a Hai))).
  - exists m2, ht. split; [done|]. intros a Ha. unfold m2. rewrite lookup_insert_is_Some'. right. pose proof (bypass_same (fun _ => tt) (bucket p) (last_of 0 l1) (hd 0 l2) a) as Eb.
    specialize (Eb ltac:(done) ltac:(done)). fold m1 in Eb. destruct Ha as [la Hla]. rewrite Hla in Eb. destruct (m1 !! a); [by eexists|done].
Qed.

(** ** Counts of the states *)

Definition in_state (s : nat) (kv : Z * buf) : Prop := Z.to_nat (b_state kv.2) = s.
#[global] Instance in_state_dec s kv : Decision (in_state s kv).
Proof. unfold in_state. apply _. Defined.

Definition number (m : gmap Z buf) (s : nat) : Z := Z.of_nat (size (filter (in_state s) m)).

Record counts (m : gmap Z buf) (cnt : list Z) : Prop := {
  cn_length : length cnt = 9%nat;
  cn_number : forall s, (s < 9)%nat -> cnt !! s = Some (number m s);
}.

Lemma number_insert m b r s : m !! b = None -> number (<[b := r]> m) s = number m s + (if decide (Z.to_nat (b_state r) = s) then 1 else 0).
Proof.
  intros Hb. unfold number. rewrite map_filter_insert. destruct (decide (in_state s (b, r))) as [E|E], (decide (Z.to_nat (b_state r) = s)) as [E'|E'];
    [|by destruct (E' E)|by destruct (E E')|].
  - rewrite map_size_insert_None; [lia|]. apply map_lookup_filter_None. by left.
  - rewrite delete_id by done. lia.
Qed.

Lemma number_change m b r r' s : m !! b = Some r ->
  number (<[b := r']> m) s = number m s - (if decide (Z.to_nat (b_state r) = s) then 1 else 0) + (if decide (Z.to_nat (b_state r') = s) then 1 else 0).
Proof.
  intros Hb. rewrite <- (insert_delete_id m b r Hb) at 2. rewrite <- insert_delete_eq. rewrite !number_insert by apply lookup_delete_eq. lia.
Qed.

Lemma counts_same m cnt b r r' : counts m cnt -> m !! b = Some r -> b_state r' = b_state r -> counts (<[b := r']> m) cnt.
Proof. intros [Hl Hn] Hb E. split; [done|]. intros s Hs. rewrite (Hn s Hs), (number_change m b r r' s Hb), E. f_equal. lia. Qed.

Definition valid_state (s : Z) : Prop := 0 <= s < 9.

Lemma change_state_run p b r s :
  counts (bufs p) (bufcount p) -> bufs p !! b = Some r -> valid_state (b_state r) -> valid_state s ->
  exists cnt, change_state b s p = Done (tt, set_bufs (<[b := set_b_state s r]> (bufs p)) (set_bufcount cnt p)) /\
    counts (<[b := set_b_state s r]> (bufs p)) cnt.
Proof.
  intros [Hl Hn] Hb Hs Hs'. unfold valid_state in *. unfold change_state. step (get_buf_run p b r Hb). step (eq_refl : kget p = Done (p, p)).
  set (i := Z.to_nat (b_state r)). set (j := Z.to_nat s). rewrite (Hn i) by lia. cbn [kopt].
  step (eq_refl : kret (number (bufs p) i) p = Done (number (bufs p) i, p)). set (c1 := <[i := number (bufs p) i - 1]> (bufcount p)).
  set (p1 := set_bufcount c1 p).
  rewrite kbind_kmod, kbind_kget. fold c1 p1. change (bufcount p1) with c1.
  set (n := number (bufs p) j - (if decide (i = j) then 1 else 0)).
  assert (Hc1 : c1 !! j = Some n).
  { unfold c1, n. destruct (decide (i = j)) as [E|E]; [rewrite E, list_lookup_insert_eq by lia; done|]. rewrite list_lookup_insert_ne, (Hn j) by lia. f_equal. lia. }
  rewrite Hc1. cbn [kopt]. step (eq_refl : kret n p1 = Done (n, p1)). set (c2 := <[j := n + 1]> c1). set (p2 := set_bufcount c2 p).
  rewrite kbind_kmod. change (set_bufcount _ p1) with p2.
  rewrite (upd_buf_run p2 b r _ Hb). exists c2. split; [done|]. unfold c2, c1, n.
  split; [by rewrite !length_insert|]. intros k Hk. rewrite (number_change _ b r _ k Hb). change (Z.to_nat (b_state (set_b_state s r))) with j. fold i.
  destruct (decide (j = k)) as [<-|Hjk]; [rewrite list_lookup_insert_eq by (rewrite length_insert; lia); f_equal; by destruct (decide (i = j)); lia|].
  rewrite list_lookup_insert_ne by done. destruct (decide (i = k)) as [<-|Hik]; [rewrite list_lookup_insert_eq by lia; f_equal; lia|].
  rewrite list_lookup_insert_ne, (Hn k) by lia. f_equal. lia.
Qed.

(** ** Buffers and lists *)

(** Locks and waiting threads of a buffer in the cache. *)
Record locks_ok (r : buf) : Prop := {
  lo_bounds : 0 <= b_locks r /\ b_locks r + Z.of_nat (length (b_waiters r)) < 65536;
  lo_idle : b_state r = BUF_STATE_FREE \/ b_state r = BUF_STATE_CLEAN \/ b_state r = BUF_STATE_DIRTY \/ b_state r = BUF_STATE_WRITING -> b_locks r = 0;
  lo_held : b_state r = BUF_STATE_LOCKED \/ b_state r = BUF_STATE_UPDATED \/ b_state r = BUF_STATE_INVALID \/ b_state r = BUF_STATE_READING -> 1 <= b_locks r;
  lo_waiters : b_waiters r <> [] -> b_state r = BUF_STATE_READING \/ b_state r = BUF_STATE_WRITING;
}.

(** [x] is a buffer that has been taken out of all lists, [U] are the buffers
    that have been cleared and not been marked as updated yet. *)
Record buf_ok (x : Z) (U : gset Z) (F C D : list Z) (H : nat -> list Z) (dk : gmap Z (list Z)) (b : Z) (r : buf) : Prop := {
  ok_state : valid_state (b_state r);
  ok_free : b ∈ F <-> b <> x /\ b_state r = BUF_STATE_FREE;
  ok_clean : b ∈ C <-> b <> x /\ b_state r = BUF_STATE_CLEAN;
  ok_dirty : b ∈ D <-> b <> x /\ b_state r = BUF_STATE_DIRTY;
  ok_hash : forall i, b ∈ H i <-> b <> x /\ b_state r <> BUF_STATE_FREE /\ hash_slot (b_blkno r) = i;
  ok_out : b = x -> b_locks r = 0 /\ b_waiters r = [];
  ok_locks : b <> x -> locks_ok r;
  ok_data : b <> x -> b ∉ U -> b_state r = BUF_STATE_CLEAN \/ b_state r = BUF_STATE_LOCKED -> dk !! b_blkno r = Some (b_data r);
  ok_fresh : b ∈ U -> b <> x /\ b_state r = BUF_STATE_LOCKED;
}.

(** No two buffers for one block. *)
Definition one_each (x : Z) (m : gmap Z buf) : Prop := forall b1 b2 r1 r2, m !! b1 = Some r1 -> m !! b2 = Some r2 -> b1 <> x -> b2 <> x ->
  b_state r1 <> BUF_STATE_FREE -> b_state r2 <> BUF_STATE_FREE -> b_blkno r1 = b_blkno r2 -> b1 = b2.

Record content (x : Z) (U : gset Z) (F C D : list Z) (H : nat -> list Z) (m : gmap Z buf) (cnt : list Z) (dk : gmap Z (list Z)) : Prop := {
  ct_null : m !! 0 = None;
  ct_none : forall b, m !! b = None -> (b ∉ F) /\ (b ∉ C) /\ (b ∉ D) /\ (forall i, b ∉ H i) /\ b ∉ U;
  ct_buf : forall b r, m !! b = Some r -> buf_ok x U F C D H dk b r;
  ct_one : one_each x m;
  ct_count : counts m cnt;
}.

(** The same lists for [a]. *)
Definition same_place (a : Z) (F F' C C' D D' : list Z) (H H' : nat -> list Z) : Prop :=
  (a ∈ F' <-> a ∈ F) /\ (a ∈ C' <-> a ∈ C) /\ (a ∈ D' <-> a ∈ D) /\ forall i, a ∈ H' i <-> a ∈ H i.

(** Only the buffer [b] changes. *)
Lemma content_move x x' U U' F F' C C' D D' H H' m cnt cnt' dk dk' b r r' :
  content x U F C D H m cnt dk -> m !! b = Some r -> x = 0 \/ x = b -> x' = 0 \/ x' = b ->
  (forall a, a <> b -> same_place a F F' C C' D D' H H') -> (forall a, a <> b -> a ∈ U' <-> a ∈ U) ->
  buf_ok x' U' F' C' D' H' dk' b r' ->
  (forall a ra, a <> b -> m !! a = Some ra -> b_state ra <> BUF_STATE_FREE -> dk' !! b_blkno ra = dk !! b_blkno ra) ->
  (b <> x' -> b_state r' <> BUF_STATE_FREE -> forall a ra, a <> b -> m !! a = Some ra -> b_state ra <> BUF_STATE_FREE -> b_blkno ra <> b_blkno r') ->
  counts (<[b := r']> m) cnt' ->
  content x' U' F' C' D' H' (<[b := r']> m) cnt' dk'.
Proof.
  intros [H0 Hn Hb Ho Hc] Hr Hx Hx' Hpl HU Hok Hdk Hu Hcnt'. assert (Hb0 : b <> 0) by (intros ->; congruence). split.
  - by rewrite lookup_insert_ne.
  - intros a Ha. apply lookup_insert_None in Ha as [Ha Hab]. destruct (Hpl a (not_eq_sym Hab)) as (-> & -> & -> & EH).
    destruct (Hn a Ha) as (? & ? & ? & HH & ?). rewrite (HU a (not_eq_sym Hab)). split_and!; try done. intros i. by rewrite (EH i).
  - intros a ra Ha. destruct (decide (a = b)) as [->|Hab]; [rewrite lookup_insert_eq in Ha; by injection Ha as <-|].
    rewrite lookup_insert_ne in Ha by done. destruct (Hb a ra Ha) as [K1 K2 K3 K4 K5 K6 K7 K8 K9].
    destruct (Hpl a Hab) as (E1 & E2 & E3 & E4). assert (Ea : a <> x' <-> a <> x).
    { assert (a <> 0) by (intros ->; congruence). destruct Hx as [->| ->], Hx' as [->| ->]; tauto. }
    split; [done|by rewrite E1, Ea|by rewrite E2, Ea|by rewrite E3, Ea|intros i; by rewrite E4, Ea|..].
    + intros E. apply K6. destruct (decide (a = x)); [done|]. by apply Ea in n.
    + intros E. by apply K7, Ea.
    + rewrite (HU a Hab). intros E EU Es. rewrite (Hdk a ra Hab Ha) by (intros E0; rewrite E0 in Es; destruct Es; done). apply K8; [by apply Ea|done..].
    + rewrite (HU a Hab), Ea. done.
  - intros b1 b2 r1 r2 H1 H2 N1 N2 S1 S2 E. destruct (decide (b1 = b)) as [->|D1], (decide (b2 = b)) as [->|D2]; [done| | |].
    + rewrite lookup_insert_eq in H1. injection H1 as <-. rewrite lookup_insert_ne in H2 by done. by destruct (Hu N1 S1 b2 r2 D2 H2 S2).
    + rewrite lookup_insert_eq in H2. injection H2 as <-. rewrite lookup_insert_ne in H1 by done. by destruct (Hu N2 S2 b1 r1 D1 H1 S1).
    + rewrite lookup_insert_ne in H1, H2 by done. apply (Ho b1 b2 r1 r2); try done; intros ->; destruct Hx as [->| ->]; done || congruence.
  - done.
Qed.

Definition linked (p : bufpool) : Prop := forall b, is_Some (bufs p !! b) -> is_Some (chain p !! b) /\ is_Some (bucket p !! b).

Record binv (x : Z) (U : gset Z) (F C D : list Z) (H : nat -> list Z) (p : bufpool) : Prop := {
  bi_chains : chains (chain p) (freelist p) (clean p) (dirty p) F C D;
  bi_buckets : buckets (bucket p) (hashtable p) H;
  bi_content : content x U F C D H (bufs p) (bufcount p) (disk p);
  bi_linked : linked p;
}.

(** The fields that the lists live in are the same. *)
Definition same_lists (p p' : bufpool) : Prop :=
  chain p' = chain p /\ freelist p' = freelist p /\ clean p' = clean p /\ dirty p' = dirty p /\ bucket p' = bucket p /\ hashtable p' = hashtable p.

(** The states of buffers that are in use or in transfer: in the hash table and
    in no other list. *)
Definition inner (s : Z) : Prop := 3 <= s < 9.

Lemma place_refl a F C D H : same_place a F F C C D D H H.
Proof. by repeat split. Qed.

Lemma place_lists a F C C' D D' H : (a ∈ C' <-> a ∈ C) -> (a ∈ D' <-> a ∈ D) -> same_place a F F C C' D D' H H.
Proof. intros P1 P2. exact (conj (iff_refl _) (conj P1 (conj P2 (fun i => iff_refl _)))). Qed.

(** The buffer [b] stays where it is. *)
Lemma binv_inner U U' F C D H p p' b r r' :
  binv 0 U F C D H p -> bufs p !! b = Some r -> inner (b_state r) -> inner (b_state r') -> b_blkno r' = b_blkno r -> locks_ok r' ->
  (forall a, a <> b -> a ∈ U' <-> a ∈ U) -> (b ∈ U' -> b_state r' = BUF_STATE_LOCKED) ->
  (b ∉ U' -> b_state r' = BUF_STATE_LOCKED -> disk p' !! b_blkno r = Some (b_data r')) ->
  (forall k, k <> b_blkno r -> disk p' !! k = disk p !! k) ->
  same_lists p p' -> bufs p' = <[b := r']> (bufs p) -> counts (bufs p') (bufcount p') -> binv 0 U' F C D H p'.
Proof.
  intros [Hch Hbk Hct Hlk] Hr Hs Hs' Hblk Hlo HU HUb Hdat Hdk (E1 & E2 & E3 & E4 & E5 & E6) Em Hcn. unfold inner in *.
  pose proof (ct_buf _ _ _ _ _ _ _ _ _ Hct b r Hr) as [K1 K2 K3 K4 K5 K6 K7 K8 K9].
  assert (Hb0 : b <> 0) by (intros ->; by rewrite (ct_null _ _ _ _ _ _ _ _ _ Hct) in Hr). split.
  - by rewrite E1, E2, E3, E4.
  - by rewrite E5, E6.
  - rewrite Em in *. apply (content_move 0 0 U U' F F C C D D H H _ (bufcount p) _ (disk p) _ b r r' Hct Hr); try done; auto using place_refl.
    + split; try done.
      * unfold valid_state. lia.
      * rewrite K2. unfold BUF_STATE_FREE. split; intros [? ?]; lia.
      * rewrite K3. unfold BUF_STATE_CLEAN. split; intros [? ?]; lia.
      * rewrite K4. unfold BUF_STATE_DIRTY. split; intros [? ?]; lia.
      * intros i. rewrite K5, Hblk. unfold BUF_STATE_FREE. split; intros (? & ? & ?); split_and!; done || lia.
      * intros _ HnU Hst. rewrite Hblk. apply Hdat; [done|]. destruct Hst as [Hst|Hst]; [unfold BUF_STATE_CLEAN in Hst; lia|done].
      * intros HbU. by split; [|apply HUb].
    + intros a ra Ha Hra Hsa. apply Hdk. intros E. apply Ha. apply (ct_one _ _ _ _ _ _ _ _ _ Hct a b ra r); try done; [by intros ->; rewrite (ct_null _ _ _ _ _ _ _ _ _ Hct) in Hra|].
      unfold BUF_STATE_FREE. lia.
    + intros _ _ a ra Ha Hra Hsa E. apply Ha. apply (ct_one _ _ _ _ _ _ _ _ _ Hct a b ra r); try done; [by intros ->; rewrite (ct_null _ _ _ _ _ _ _ _ _ Hct) in Hra| |congruence].
      unfold BUF_STATE_FREE. lia.
  - intros a. rewrite E1, E5, Em. intros [->|[_ Ha]]%lookup_insert_is_Some; [apply Hlk; by eexists|by apply Hlk].
Qed.

(** Some buffer of the bucket, if there is one for the block. *)
Lemma find_run blkno p l : forall n prv, (length l < n)%nat -> dlist (bucket p) prv l 0 -> 0 ∉ l -> (forall a, a ∈ l -> is_Some (bufs p !! a)) ->
  exists b, find_in_bucket n (hd 0 l) blkno p = Done (b, p) /\
    ((b = 0 /\ forall a r, a ∈ l -> bufs p !! a = Some r -> b_blkno r <> blkno) \/ ((b ∈ l) /\ exists r, bufs p !! b = Some r /\ b_blkno r = blkno)).
Proof.
  induction l as [|c l IH]; intros [|n] prv Hn Hd H0 Hm; [cbn in Hn; lia| |cbn in Hn; lia|].
  - exists 0. split; [done|]. left. split; [done|]. by intros a r ?%elem_of_nil.
  - destruct Hd as [(lc & Hlc & _ & Hnx) Hd]. destruct (Hm c) as [rc Hrc]; [by left|]. cbn [find_in_bucket hd].
    destruct (Z.eqb_spec c 0) as [->|Hc0]; [set_solver|]. step (get_buf_run p c rc Hrc). destruct (Z.eqb_spec (b_blkno rc) blkno) as [E|E].
    + exists c. split; [done|]. right. split; [by left|by exists rc].
    + assert (El : on_bucket (get_link c) p = Done (lc, p)).
      { unfold on_bucket, kzoom. rewrite (get_link_run _ c lc Hlc). by destruct p. }
      step El. change (bl_next lc) with (l_next lc). rewrite Hnx. destruct (IH n c) as (b & Eb & Hb); [cbn in Hn; lia|done|set_solver|intros a Ha; apply Hm; by right|].
      exists b. split; [exact Eb|]. destruct Hb as [[-> Hall]|[Hb Hr]]; [left|right; split; [by right|done]]. split; [done|].
      intros a r [->|Ha]%elem_of_cons; [congruence|by apply Hall].
Qed.

(** The buffer of a block in the cache. *)
Lemma find_cached U F C D H p blkno :
  binv 0 U F C D H p ->
  exists b, (let* first := kopt (hashtable p !! hash_slot blkno) in find_in_bucket (S (size (bufs p))) first blkno) p = Done (b, p) /\
    ((b = 0 /\ forall a r, bufs p !! a = Some r -> b_state r <> BUF_STATE_FREE -> b_blkno r <> blkno) \/
     (b <> 0 /\ exists r, bufs p !! b = Some r /\ b_blkno r = blkno /\ b_state r <> BUF_STATE_FREE)).
Proof.
  intros [_ Hbk Hct _]. pose proof (hash_slot_lt blkno) as Hi. set (i := hash_slot blkno) in *. rewrite (bk_head _ _ _ Hbk i Hi). cbn [kopt]. rewrite kbind_kret.
  assert (Hm : forall a, a ∈ H i -> is_Some (bufs p !! a)).
  { intros a Ha. destruct (bufs p !! a) as [r|] eqn:E; [by eexists|]. destruct (ct_none _ _ _ _ _ _ _ _ _ Hct a E) as (_ & _ & _ & Hx & _). by destruct (Hx i). }
  destruct (find_run blkno p (H i) (S (size (bufs p))) 0) as (b & E & Hb); [|apply Hbk|apply Hbk|done|].
  { apply le_n_S, nodup_size; [apply Hbk|done]. }
  exists b. split; [done|]. destruct Hb as [[-> Hall]|[Hb (r & Hr & Ek)]]; [left|right].
  - split; [done|]. intros a r Hr Hs Ek. apply (Hall a r); [|done|done]. apply (ok_hash _ _ _ _ _ _ _ _ _ (ct_buf _ _ _ _ _ _ _ _ _ Hct a r Hr)).
    split_and!; [by intros ->; rewrite (ct_null _ _ _ _ _ _ _ _ _ Hct) in Hr|done|by rewrite Ek].
  - split; [intros ->; by apply (bk_null _ _ _ Hbk i)|]. exists r. split_and!; try done.
    apply (ok_hash _ _ _ _ _ _ _ _ _ (ct_buf _ _ _ _ _ _ _ _ _ Hct b r Hr)) in Hb. apply Hb.
Qed.

(** [b] becomes [r'], the disk is the same. *)
Definition changed (b : Z) (r' : buf) (p p' : bufpool) : Prop :=
  bufs p' = <[b := r']> (bufs p) /\ disk p' = disk p /\ bufsize p' = bufsize p.

(** A buffer of the clean or dirty list comes into use. *)
Lemma binv_out U F C D C' D' H p p' b r r' :
  binv 0 U F C D H p -> bufs p !! b = Some r -> b_state r = BUF_STATE_CLEAN \/ b_state r = BUF_STATE_DIRTY -> inner (b_state r') ->
  b_blkno r' = b_blkno r -> locks_ok r' -> (b_state r' = BUF_STATE_LOCKED -> b_state r = BUF_STATE_CLEAN /\ b_data r' = b_data r) ->
  chains (chain p') (freelist p') (clean p') (dirty p') F C' D' -> (forall a, a <> b -> (a ∈ C' <-> a ∈ C) /\ (a ∈ D' <-> a ∈ D)) ->
  b ∉ C' -> b ∉ D' -> bucket p' = bucket p -> hashtable p' = hashtable p -> changed b r' p p' -> counts (bufs p') (bufcount p') -> linked p' ->
  binv 0 U F C' D' H p'.
Proof.
  intros [Hch Hbk Hct Hlk] Hr Hs Hs' Hblk Hlo Hdat Hch' Hpl HC' HD' E5 E6 (Em & Ed & _) Hcn Hlk'. unfold inner in *.
  pose proof (ct_buf _ _ _ _ _ _ _ _ _ Hct b r Hr) as [K1 K2 K3 K4 K5 K6 K7 K8 K9].
  assert (Hb0 : b <> 0) by (intros ->; by rewrite (ct_null _ _ _ _ _ _ _ _ _ Hct) in Hr).
  assert (HbU : b ∉ U) by (intros [_ E]%K9; rewrite E in Hs; by destruct Hs). assert (Hnf : b_state r <> BUF_STATE_FREE) by (destruct Hs as [-> | ->]; done).
  split; [done|by rewrite E5, E6| |done]. rewrite Em, Ed in *.
  apply (content_move 0 0 U U F F C C' D D' H H _ (bufcount p) _ (disk p) _ b r r' Hct Hr); try done; auto.
  - intros a Ha. destruct (Hpl a Ha) as [P1 P2]. by apply place_lists.
  - split; try done.
    + unfold valid_state. lia.
    + rewrite K2. unfold BUF_STATE_FREE. split; intros [? ?]; [done|lia].
    + split; [done|]. unfold BUF_STATE_CLEAN. intros [? ?]. lia.
    + split; [done|]. unfold BUF_STATE_DIRTY. intros [? ?]. lia.
    + intros i. rewrite K5, Hblk. unfold BUF_STATE_FREE. split; intros (? & ? & ?); split_and!; done || lia.
    + intros _ _ Hst. destruct Hst as [Hst|Hst]; [unfold BUF_STATE_CLEAN in Hst; lia|]. destruct (Hdat Hst) as [Hc ->]. rewrite Hblk. apply K8; [done..|by left].
  - intros _ _ a ra Ha Hra Hsa E. apply Ha. apply (ct_one _ _ _ _ _ _ _ _ _ Hct a b ra r); try done; [|congruence].
    by intros ->; rewrite (ct_null _ _ _ _ _ _ _ _ _ Hct) in Hra.
Qed.

(** And one that nobody uses any more goes there. *)
Lemma binv_in U F C D C' D' H p p' b r r' :
  binv 0 U F C D H p -> bufs p !! b = Some r -> inner (b_state r) -> b ∉ U -> b_blkno r' = b_blkno r -> b_locks r' = 0 -> b_waiters r' = [] ->
  (b_state r' = BUF_STATE_CLEAN /\ disk p' !! b_blkno r' = Some (b_data r') /\ (b ∈ C') /\ b ∉ D') \/ (b_state r' = BUF_STATE_DIRTY /\ (b ∈ D') /\ b ∉ C') ->
  chains (chain p') (freelist p') (clean p') (dirty p') F C' D' -> (forall a, a <> b -> (a ∈ C' <-> a ∈ C) /\ (a ∈ D' <-> a ∈ D)) ->
  (forall k, k <> b_blkno r -> disk p' !! k = disk p !! k) ->
  bucket p' = bucket p -> hashtable p' = hashtable p -> bufs p' = <[b := r']> (bufs p) -> counts (bufs p') (bufcount p') -> linked p' ->
  binv 0 U F C' D' H p'.
Proof.
  intros [Hch Hbk Hct Hlk] Hr Hs HbU Hblk Hl0 Hw0 Hcase Hch' Hpl Hdk E5 E6 Em Hcn Hlk'. unfold inner in *.
  pose proof (ct_buf _ _ _ _ _ _ _ _ _ Hct b r Hr) as [K1 K2 K3 K4 K5 K6 K7 K8 K9].
  assert (Hb0 : b <> 0) by (intros ->; by rewrite (ct_null _ _ _ _ _ _ _ _ _ Hct) in Hr).
  assert (Hnf : b_state r <> BUF_STATE_FREE) by (unfold BUF_STATE_FREE; lia).
  assert (Hone : forall a ra, a <> b -> bufs p !! a = Some ra -> b_state ra <> BUF_STATE_FREE -> b_blkno ra <> b_blkno r).
  { intros a ra Ha Hra Hsa E. apply Ha. apply (ct_one _ _ _ _ _ _ _ _ _ Hct a b ra r); try done. by intros ->; rewrite (ct_null _ _ _ _ _ _ _ _ _ Hct) in Hra. }
  assert (Hst : b_state r' = BUF_STATE_CLEAN \/ b_state r' = BUF_STATE_DIRTY) by (destruct Hcase as [(? & _)|(? & _)]; auto).
  split; [done|by rewrite E5, E6| |done]. rewrite Em in *.
  apply (content_move 0 0 U U F F C C' D D' H H _ (bufcount p) _ (disk p) _ b r r' Hct Hr); try done; auto.
  - intros a Ha. destruct (Hpl a Ha) as [P1 P2]. by apply place_lists.
  - split; try done.
    + unfold valid_state. destruct Hst as [-> | ->]; done.
    + rewrite K2. split; intros [_ E]; [done|]. rewrite E in Hst. by destruct Hst.
    + destruct Hcase as [(-> & _ & ? & _)|(-> & _ & ?)]; split; try done. by intros [_ ?].
    + destruct Hcase as [(-> & _ & _ & ?)|(-> & ? & _)]; split; try done. by intros [_ ?].
    + intros i. rewrite K5, Hblk. split; intros (? & ? & ?); split_and!; try done. destruct Hst as [-> | ->]; done.
    + intros _. split; [rewrite Hl0, Hw0; done|done| |by rewrite Hw0]. destruct Hst as [-> | ->]; intros [?|[?|[?|?]]]; done.
    + intros _ _ [Hc|Hc]; destruct Hcase as [(Hx & ? & _)|(Hx & _)]; try done; rewrite Hx in Hc; done.
  - intros a ra Ha Hra Hsa. by apply Hdk, (Hone a ra).
  - intros _ _. by rewrite Hblk.
Qed.

Lemma linked_same p p' b r' : linked p -> is_Some (bufs p !! b) -> bufs p' = <[b := r']> (bufs p) ->
  (forall a, is_Some (chain p !! a) -> is_Some (chain p' !! a)) -> (forall a, is_Some (bucket p !! a) -> is_Some (bucket p' !! a)) -> linked p'.
Proof.
  intros Hl Hb Em Hc Hk a. rewrite Em. intros Ha. assert (Hs : is_Some (bufs p !! a)) by (apply lookup_insert_is_Some in Ha as [<-|[_ Ha]]; done).
  destruct (Hl a Hs). split; auto.
Qed.

Lemma bypass_some (m : gmap Z buflink) prv nxt a : is_Some (m !! a) -> is_Some (bypass m prv nxt !! a).
Proof.
  intros [l Hl]. pose proof (bypass_same (fun _ => tt) m prv nxt a ltac:(done) ltac:(done)) as E. rewrite Hl in E. destruct (bypass m prv nxt !! a); [by eexists|done].
Qed.

Lemma append_some (m : gmap Z buflink) lst b r a : m !! b = Some r -> is_Some (m !! a) -> is_Some (append m lst b r !! a).
Proof.
  intros Hr [l Hl]. pose proof (append_same (fun _ => tt) m lst b r a Hr ltac:(done) ltac:(done)) as E. rewrite Hl in E. destruct (append m lst b r !! a); [by eexists|done].
Qed.

(** ** Steps of the operations *)

Lemma set_clean_same p : set_clean (clean p) p = p.
Proof. by destruct p. Qed.

Lemma set_dirty_same p : set_dirty (dirty p) p = p.
Proof. by destruct p. Qed.

(** [b] has left the lists and its links have been cleared. *)
Definition out_of_lists (U : gset Z) (F C D C' D' : list Z) (b : Z) (p p' : bufpool) : Prop :=
  exists m c d, p' = set_dirty d (set_clean c (set_chain m p)) /\ chains m (freelist p) c d F C' D' /\ (b ∉ F ++ C' ++ D') /\
    (forall a, a <> b -> (a ∈ C' <-> a ∈ C) /\ (a ∈ D' <-> a ∈ D)) /\ (forall a, is_Some (chain p !! a) -> is_Some (m !! a)).

Lemma nodup_mid (b : Z) l1 l2 : NoDup (l1 ++ b :: l2) -> b ∉ l1 ++ l2.
Proof. intros (_ & Hd & [Hn _]%NoDup_cons)%NoDup_app [Hb|Hb]%elem_of_app; [apply (Hd b Hb); by left|done]. Qed.

Lemma mid_other (b a : Z) l1 l2 : a <> b -> a ∈ l1 ++ l2 <-> a ∈ l1 ++ b :: l2.
Proof. intros Ha. set_solver. Qed.

Lemma leave_clean_run U F C D H p b r : binv 0 U F C D H p -> bufs p !! b = Some r -> b_state r = BUF_STATE_CLEAN ->
  exists p' C', leave_list clean set_clean b p = Done (tt, p') /\ out_of_lists U F C D C' D b p p'.
Proof.
  intros [Hch _ Hct _] Hr Hs. pose proof (ct_buf _ _ _ _ _ _ _ _ _ Hct b r Hr) as [_ K2 K3 K4 _ _ _ _ _].
  assert (Hb0 : b <> 0) by (intros ->; by rewrite (ct_null _ _ _ _ _ _ _ _ _ Hct) in Hr). rewrite Hs in *.
  assert (HbC : b ∈ C) by (by apply K3). apply list_elem_of_split in HbC as (l1 & l2 & ->). pose proof Hch as [_ [Hc Hd] _ Hn H0].
  pose proof Hn as (_ & _ & (HnC & _ & _)%NoDup_app)%NoDup_app. eexists _, (l1 ++ l2). split.
  - apply (leave_list_run clean set_clean); [done..|by apply set_clean_same|done|done|done|set_solver|done|done].
  - exists (bypass (chain p) (last_of 0 l1) (hd 0 l2)), (BufList (hd 0 (l1 ++ l2)) (last_of 0 (l1 ++ l2))), (dirty p). split; [reflexivity|]. split; [by apply (chains_leave _ _ (clean p) _ _ _ b)|]. split; [|split].
    + pose proof (nodup_mid b l1 l2 HnC). assert (b ∉ F) by (rewrite K2; by intros [_ ?]). assert (b ∉ D) by (rewrite K4; by intros [_ ?]). set_solver.
    + intros a Ha. split; [by apply mid_other|done].
    + intros a. apply bypass_some.
Qed.

Lemma leave_dirty_run U F C D H p b r : binv 0 U F C D H p -> bufs p !! b = Some r -> b_state r = BUF_STATE_DIRTY ->
  exists p' D', leave_list dirty set_dirty b p = Done (tt, p') /\ out_of_lists U F C D C D' b p p'.
Proof.
  intros [Hch _ Hct _] Hr Hs. pose proof (ct_buf _ _ _ _ _ _ _ _ _ Hct b r Hr) as [_ K2 K3 K4 _ _ _ _ _].
  assert (Hb0 : b <> 0) by (intros ->; by rewrite (ct_null _ _ _ _ _ _ _ _ _ Hct) in Hr). rewrite Hs in *.
  assert (HbD : b ∈ D) by (by apply K4). apply list_elem_of_split in HbD as (l1 & l2 & ->). pose proof Hch as [_ _ [Hc Hd] Hn H0].
  pose proof Hn as (_ & _ & (_ & _ & HnD)%NoDup_app)%NoDup_app. eexists _, (l1 ++ l2). split.
  - apply (leave_list_run dirty set_dirty); [done..|by apply set_dirty_same|done|done|done|set_solver|done|done].
  - exists (bypass (chain p) (last_of 0 l1) (hd 0 l2)), (clean p), (BufList (hd 0 (l1 ++ l2)) (last_of 0 (l1 ++ l2))). split; [reflexivity|]. split; [by apply chains_swap, (chains_leave _ _ (dirty p) _ _ _ b), chains_swap|]. split; [|split].
    + pose proof (nodup_mid b l1 l2 HnD). assert (b ∉ F) by (rewrite K2; by intros [_ ?]). assert (b ∉ C) by (rewrite K3; by intros [_ ?]). set_solver.
    + intros a Ha. split; [done|by apply mid_other].
    + intros a. apply bypass_some.
Qed.

Lemma on_chain_clear p b : is_Some (chain p !! b) -> on_chain (clear_links b) p = Done (tt, set_chain (<[b := BufLink 0 0]> (chain p)) p).
Proof. intros [l Hl]. unfold on_chain, kzoom. by rewrite (clear_links_run _ b l Hl). Qed.

Lemma u16_small z : 0 <= z < 65536 -> u16 z = z.
Proof. apply Z.mod_small. Qed.

Lemma add_lock_run p b r : bufs p !! b = Some r -> 0 <= b_locks r < 65535 ->
  add_lock b p = Done (tt, set_bufs (<[b := set_b_locks (b_locks r + 1) r]> (bufs p)) p).
Proof. intros Hr Hl. unfold add_lock. rewrite (upd_buf_run p b r _ Hr), u16_small by lia. done. Qed.

Lemma insert_some {A} (m : gmap Z A) b v a : is_Some (m !! a) -> is_Some (<[b := v]> m !! a).
Proof. intros Ha. rewrite lookup_insert_is_Some'. by right. Qed.

(** A clean or dirty buffer is found: it is locked, and dirty ones are updated. *)
Lemma take_listed_run U F C D C' D' H p p1 b r s :
  binv 0 U F C D H p -> bufs p !! b = Some r -> (b_state r = BUF_STATE_CLEAN /\ s = BUF_STATE_LOCKED) \/ (b_state r = BUF_STATE_DIRTY /\ s = BUF_STATE_UPDATED) ->
  out_of_lists U F C D C' D' b p p1 ->
  exists p', (change_state b s ;;; on_chain (clear_links b) ;;; add_lock b) p1 = Done (tt, p') /\ binv 0 U F C' D' H p' /\
    changed b (Buf s 1 [] (b_blkno r) (b_data r)) p p'.
Proof.
  intros B Hr Hs (m & c & d & -> & Hch' & Hb & Hpl & Hsm). pose proof B as [_ Hbk Hct Hlk].
  pose proof (ct_buf _ _ _ _ _ _ _ _ _ Hct b r Hr) as [K1 _ _ _ _ _ K7 _ _].
  assert (Hb0 : b <> 0) by (intros ->; by rewrite (ct_null _ _ _ _ _ _ _ _ _ Hct) in Hr). specialize (K7 Hb0) as [_ Hidle _ Hw].
  assert (Hl0 : b_locks r = 0) by (apply Hidle; destruct Hs as [[-> _]|[-> _]]; auto).
  assert (Hw0 : b_waiters r = []) by (destruct (decide (b_waiters r = [])) as [|Hne]; [done|]; destruct Hs as [[E _]|[E _]]; rewrite E in Hw; by destruct (Hw Hne)).
  set (p1 := set_dirty d (set_clean c (set_chain m p))).
  destruct (change_state_run p1 b r s (ct_count _ _ _ _ _ _ _ _ _ Hct) Hr K1) as (cnt & E1 & Hc1); [destruct Hs as [[_ ->]|[_ ->]]; done|]. step E1.
  set (p2 := set_bufs _ (set_bufcount cnt p1)). rewrite (kbind_done _ _ _ _ _ (on_chain_clear p2 b (Hsm b (proj1 (Hlk b ltac:(by eexists)))))).
  set (p3 := set_chain _ p2). rewrite (add_lock_run p3 b (set_b_state s r)) by (cbn; rewrite ?lookup_insert_eq; done || lia). eexists. split; [done|].
  assert (Hchg : changed b (Buf s 1 [] (b_blkno r) (b_data r)) p (set_bufs (<[b := set_b_locks (b_locks (set_b_state s r) + 1) (set_b_state s r)]> (bufs p3)) p3)).
  { split; [|done]. cbn [bufs set_bufs p3 set_chain p2]. rewrite insert_insert_eq. unfold set_b_locks, set_b_state. cbn. by rewrite Hl0, Hw0. }
  split; [|exact Hchg]. eapply (binv_out U F C D C' D' H p _ b r _ B Hr); [tauto| | | | | | | | | | |exact Hchg| |].
  - destruct Hs as [[_ ->]|[_ ->]]; done.
  - done.
  - split; cbn; try done; destruct Hs as [[_ ->]|[_ ->]]; by intros [?|[?|[?|?]]].
  - cbn. destruct Hs as [[? ->]|[_ ->]]; done.
  - cbn. by apply chains_out.
  - done.
  - set_solver.
  - set_solver.
  - done.
  - done.
  - apply (counts_same _ _ b (set_b_state s r)); [exact Hc1|apply lookup_insert_eq|done].
  - eapply (linked_same p _ b); [exact Hlk|by eexists|apply Hchg| |done]. intros a Ha. cbn. apply insert_some. by apply Hsm.
Qed.

(** The invariant. *)
Definition bgood (U : gset Z) (p : bufpool) : Prop := exists F C D H, binv 0 U F C D H p.

(** There is room for one more lock on every buffer. *)
Definition room (p : bufpool) : Prop := forall b r, bufs p !! b = Some r -> b_locks r + Z.of_nat (length (b_waiters r)) < 65535.

Definition not_cached (p : bufpool) (blkno : Z) : Prop := forall b r, bufs p !! b = Some r -> b_state r <> BUF_STATE_FREE -> b_blkno r <> blkno.

(** A buffer that has been found; an invalid one is cleared. *)
Definition locked_buf (p : bufpool) (r : buf) : buf :=
  Buf (if b_state r =? BUF_STATE_CLEAN then BUF_STATE_LOCKED
       else if b_state r =? BUF_STATE_DIRTY then BUF_STATE_UPDATED
       else if b_state r =? BUF_STATE_INVALID then BUF_STATE_LOCKED else b_state r)
    (b_locks r + 1) (b_waiters r) (b_blkno r) (if b_state r =? BUF_STATE_INVALID then zeros p else b_data r).

Definition fresh_if (b : Z) (r : buf) (U : gset Z) : gset Z := if b_state r =? BUF_STATE_INVALID then {[b]} ∪ U else U.

Lemma buf_facts U p b r : bgood U p -> bufs p !! b = Some r -> b <> 0 /\ valid_state (b_state r) /\ locks_ok r /\
  (b ∈ U -> b_state r = BUF_STATE_LOCKED) /\ (b ∉ U -> b_state r = BUF_STATE_CLEAN \/ b_state r = BUF_STATE_LOCKED -> disk p !! b_blkno r = Some (b_data r)).
Proof.
  intros (F & C & D & H & [_ _ Hct _]) Hr. pose proof (ct_buf _ _ _ _ _ _ _ _ _ Hct b r Hr) as [K1 _ _ _ _ _ K7 K8 K9].
  assert (Hb0 : b <> 0) by (intros ->; by rewrite (ct_null _ _ _ _ _ _ _ _ _ Hct) in Hr).
  split_and!; [done|done|by apply K7| |]; [intros E; by apply K9|]. intros HU Hs. by apply K8.
Qed.

(** [b] stays where it is. *)
Lemma good_inner U U' p p' b r r' :
  bgood U p -> bufs p !! b = Some r -> inner (b_state r) -> inner (b_state r') -> b_blkno r' = b_blkno r -> locks_ok r' ->
  (forall a, a <> b -> a ∈ U' <-> a ∈ U) -> (b ∈ U' -> b_state r' = BUF_STATE_LOCKED) ->
  (b ∉ U' -> b_state r' = BUF_STATE_LOCKED -> disk p' !! b_blkno r = Some (b_data r')) ->
  (forall k, k <> b_blkno r -> disk p' !! k = disk p !! k) ->
  same_lists p p' -> bufs p' = <[b := r']> (bufs p) -> counts (bufs p') (bufcount p') -> bgood U' p'.
Proof. intros (F & C & D & H & B) Hr. intros. exists F, C, D, H. by apply (binv_inner U U' F C D H p p' b r r'). Qed.

Lemma good_counts U p : bgood U p -> counts (bufs p) (bufcount p).
Proof. intros (F & C & D & H & [_ _ Hct _]). apply Hct. Qed.

(** An update of a buffer that keeps its state. *)
Lemma good_upd U p b r f :
  bgood U p -> bufs p !! b = Some r -> inner (b_state r) -> b_state (f r) = b_state r -> b_blkno (f r) = b_blkno r -> b_data (f r) = b_data r -> locks_ok (f r) ->
  exists p', upd_buf b f p = Done (tt, p') /\ bgood U p' /\ changed b (f r) p p'.
Proof.
  intros G Hr Hi Es Ek Ed Hl. rewrite (upd_buf_run p b r f Hr). eexists. split; [done|]. split; [|done].
  destruct (buf_facts U p b r G Hr) as (_ & _ & _ & HU & Hd).
  apply (good_inner U U p _ b r (f r) G Hr Hi); [by rewrite Es|done|done|done|by rewrite Es| |done|done|done|].
  - rewrite Es, Ed. intros HnU Hst. apply Hd; [done|by right].
  - exact (counts_same (bufs p) (bufcount p) b r (f r) (good_counts U p G) Hr Es).
Qed.

(** One more lock. *)
Lemma good_lock U p b r :
  bgood U p -> room p -> bufs p !! b = Some r -> inner (b_state r) -> b_state r <> BUF_STATE_WRITING ->
  exists p', add_lock b p = Done (tt, p') /\ bgood U p' /\ changed b (set_b_locks (b_locks r + 1) r) p p'.
Proof.
  intros G Hroom Hr Hi Hw. destruct (buf_facts U p b r G Hr) as (_ & _ & [[Hb1 Hb2] Hidle Hheld Hwt] & _). specialize (Hroom b r Hr).
  destruct (good_upd U p b r (fun r => set_b_locks (u16 (b_locks r + 1)) r) G Hr Hi) as (p' & E & G' & Hc); [done..| |].
  { rewrite u16_small by lia. unfold inner in Hi. split; cbn; [lia| | |done].
    - unfold BUF_STATE_FREE, BUF_STATE_CLEAN, BUF_STATE_DIRTY. intros [?|[?|[?|?]]]; lia || done.
    - lia. }
  exists p'. split; [exact E|]. split; [done|]. rewrite u16_small in Hc by lia. done.
Qed.

Lemma good_state U U' p b r s :
  bgood U p -> bufs p !! b = Some r -> inner (b_state r) -> inner s -> locks_ok (set_b_state s r) -> (forall a, a <> b -> a ∈ U' <-> a ∈ U) ->
  (b ∈ U' -> s = BUF_STATE_LOCKED) -> (b ∉ U' -> s = BUF_STATE_LOCKED -> disk p !! b_blkno r = Some (b_data r)) ->
  exists p', change_state b s p = Done (tt, p') /\ bgood U' p' /\ changed b (set_b_state s r) p p'.
Proof.
  intros G Hr Hi Hi' Hl HU HUs Hd. destruct (buf_facts U p b r G Hr) as (_ & Hv & _).
  destruct (change_state_run p b r s (good_counts U p G) Hr Hv) as (cnt & E & Hc); [unfold inner, valid_state in *; lia|]. eexists. split; [exact E|]. split; [|done].
  by apply (good_inner U U' p _ b r (set_b_state s r) G Hr Hi).
Qed.

Lemma changed_trans b r1 r2 p p1 p2 : changed b r1 p p1 -> changed b r2 p1 p2 -> changed b r2 p p2.
Proof. intros (E1 & E2 & E3) (E4 & E5 & E6). split_and!; [by rewrite E4, E1, insert_insert_eq|congruence|congruence]. Qed.

Lemma changed_lookup b r p p' : changed b r p p' -> bufs p' !! b = Some r.
Proof. intros (-> & _). apply lookup_insert_eq. Qed.

(** What a search for the buffer of a block finds. *)
Definition looked_up (U : gset Z) (t blkno : Z) (p p' : bufpool) (res : lookup_result) : Prop :=
  match res with
  | NotCached => p' = p /\ not_cached p blkno
  | Cached b => exists r, bufs p !! b = Some r /\ b_blkno r = blkno /\ bgood (fresh_if b r U) p' /\ changed b (locked_buf p r) p p' /\
      b_state r <> BUF_STATE_FREE /\ b_state r <> BUF_STATE_READING /\ b_state r <> BUF_STATE_WRITING
  | WaitsFor b => exists r, bufs p !! b = Some r /\ b_blkno r = blkno /\ (b_state r = BUF_STATE_READING \/ b_state r = BUF_STATE_WRITING) /\
      bgood U p' /\ changed b (set_b_waiters (t :: b_waiters r) r) p p'
  end.

(** A clean or dirty buffer is found. *)
Lemma lookup_listed U F C D H p b r :
  binv 0 U F C D H p -> bufs p !! b = Some r -> b_state r = BUF_STATE_CLEAN \/ b_state r = BUF_STATE_DIRTY ->
  exists p', (if b_state r =? BUF_STATE_CLEAN
              then (leave_list clean set_clean b ;;; change_state b BUF_STATE_LOCKED ;;; on_chain (clear_links b) ;;; add_lock b ;;; kret (Cached b)) p
              else (leave_list dirty set_dirty b ;;; change_state b BUF_STATE_UPDATED ;;; on_chain (clear_links b) ;;; add_lock b ;;; kret (Cached b)) p) = Done (Cached b, p') /\
    bgood U p' /\ changed b (locked_buf p r) p p'.
Proof.
  intros B Hr Hs. destruct (buf_facts U p b r ltac:(by exists F, C, D, H) Hr) as (_ & _ & [_ Hidle _ Hw] & _).
  assert (Hl0 : b_locks r = 0) by (apply Hidle; tauto).
  assert (Hw0 : b_waiters r = []) by (destruct (decide (b_waiters r = [])) as [|Hne]; [done|]; apply Hw in Hne; destruct Hs as [E|E]; rewrite E in Hne; by destruct Hne).
  assert (X : forall s m1 C' D', ((b_state r = BUF_STATE_CLEAN /\ s = BUF_STATE_LOCKED) \/ (b_state r = BUF_STATE_DIRTY /\ s = BUF_STATE_UPDATED)) ->
    out_of_lists U F C D C' D' b p m1 ->
    exists p', (change_state b s ;;; on_chain (clear_links b) ;;; add_lock b ;;; kret (Cached b)) m1 = Done (Cached b, p') /\ bgood U p' /\ changed b (locked_buf p r) p p').
  { intros s m1 C' D' Hss Ho. destruct (take_listed_run U F C D C' D' H p m1 b r s B Hr Hss Ho) as (p' & E & B' & Hc). exists p'. split; [|split].
    - apply kbind_inv in E as ([] & q1 & E1 & E2). apply kbind_inv in E2 as ([] & q2 & E2 & E3). step E1. step E2. by step E3.
    - by exists F, C', D', H.
    - unfold locked_buf. rewrite Hl0, Hw0. destruct Hss as [[-> ->]|[-> ->]]; exact Hc. }
  destruct Hs as [Hs|Hs]; rewrite Hs in *; cbn [Z.eqb].
  - destruct (leave_clean_run U F C D H p b r B Hr Hs) as (p1 & C' & E1 & Ho). destruct (X BUF_STATE_LOCKED p1 C' D ltac:(by left) Ho) as (p' & E2 & G & Hc).
    exists p'. split; [|done]. change (BUF_STATE_CLEAN =? BUF_STATE_CLEAN) with true. cbv iota. by step E1.
  - destruct (leave_dirty_run U F C D H p b r B Hr Hs) as (p1 & D' & E1 & Ho). destruct (X BUF_STATE_UPDATED p1 C D' ltac:(by right) Ho) as (p' & E2 & G & Hc).
    exists p'. split; [|done]. change (BUF_STATE_DIRTY =? BUF_STATE_CLEAN) with false. cbv iota. by step E1.
Qed.

Lemma room_changed b r' p p' : room p -> changed b r' p p' -> b_locks r' + Z.of_nat (length (b_waiters r')) < 65535 -> room p'.
Proof.
  intros Hroom (E & _) Hl a ra. rewrite E. destruct (decide (a = b)) as [->|Hne]; [rewrite lookup_insert_eq; by intros [= <-]|].
  rewrite lookup_insert_ne by done. apply Hroom.
Qed.

(** The states that only say that the buffer is held. *)
Lemma locks_state s r : locks_ok r -> b_waiters r = [] -> 1 <= b_locks r -> inner s -> s <> BUF_STATE_WRITING -> locks_ok (set_b_state s r).
Proof.
  intros [[Hb1 Hb2] _ _ _] Hw Hl Hi Hs. unfold inner in Hi. split; cbn; [done| |done|by rewrite Hw].
  unfold BUF_STATE_FREE, BUF_STATE_CLEAN, BUF_STATE_DIRTY. intros [?|[?|[?|?]]]; done || lia.
Qed.

Lemma no_waiters r : locks_ok r -> b_state r <> BUF_STATE_READING -> b_state r <> BUF_STATE_WRITING -> b_waiters r = [].
Proof. intros [_ _ _ Hw] H1 H2. destruct (decide (b_waiters r = [])) as [|Hne]; [done|]. by destruct (Hw Hne). Qed.

Lemma lookup_invalid U p t blkno b r :
  bgood U p -> room p -> bufs p !! b = Some r -> b_state r = BUF_STATE_INVALID -> b_blkno r = blkno ->
  exists res p', (change_state b BUF_STATE_LOCKED ;;; add_lock b ;;; upd_buf b (set_b_data (zeros p)) ;;; kret (Cached b)) p = Done (res, p') /\
    looked_up U t blkno p p' res.
Proof.
  intros G Hroom Hr Hs Ek. destruct (buf_facts U p b r G Hr) as (_ & Hv & Hlo & HU & _). set (U' := {[b]} ∪ U).
  assert (Hw : b_waiters r = []) by (apply no_waiters; [done|by rewrite Hs..]).
  assert (Hl : 1 <= b_locks r) by (apply Hlo; tauto). specialize (Hroom b r Hr) as Hrm.
  destruct (good_state U U' p b r BUF_STATE_LOCKED G Hr) as (p1 & E1 & G1 & C1); [by rewrite Hs|done|by apply locks_state|set_solver|done|set_solver|].
  step E1. pose proof (changed_lookup _ _ _ _ C1) as Hr1.
  destruct (good_lock U' p1 b (set_b_state BUF_STATE_LOCKED r) G1) as (p2 & E2 & G2 & C2); [by apply (room_changed b _ p p1 Hroom C1)|done..|]. step E2.
  pose proof (changed_lookup _ _ _ _ C2) as Hr2. step (upd_buf_run p2 b _ (set_b_data (zeros p)) Hr2). eexists _, _. split; [done|]. exists r.
  assert (C3 : changed b (locked_buf p r) p (set_bufs (<[b := set_b_data (zeros p) (set_b_locks (b_locks (set_b_state BUF_STATE_LOCKED r) + 1) (set_b_state BUF_STATE_LOCKED r))]> (bufs p2)) p2)).
  { eapply changed_trans; [exact C1|]. eapply changed_trans; [exact C2|]. unfold locked_buf. by rewrite Hs. }
  split; [done|]. split; [done|]. split; [|split; [exact C3|by rewrite Hs]]. unfold fresh_if. rewrite Hs. change (BUF_STATE_INVALID =? BUF_STATE_INVALID) with true. cbv iota. fold U'.
  set (r2 := set_b_locks _ _) in *. apply (good_inner U' U' p2 _ b r2 (set_b_data (zeros p) r2) G2 Hr2); [done|done|done| |done|done|set_solver|done|done|done|].
  - destruct (buf_facts U' p2 b _ G2 Hr2) as (_ & _ & [? ? ? ?] & _). by split.
  - exact (counts_same (bufs p2) (bufcount p2) b r2 (set_b_data (zeros p) r2) (good_counts U' p2 G2) Hr2 eq_refl).
Qed.

Lemma lookup_run U p t blkno :
  bgood U p -> room p -> exists res p', lookup_buffer t blkno p = Done (res, p') /\ looked_up U t blkno p p' res.
Proof.
  intros G Hroom. pose proof G as (F & C & D & H & B). destruct (find_cached U F C D H p blkno B) as (b & E & Hb).
  unfold lookup_buffer. rewrite kbind_kget. apply kbind_inv in E as (first & q & E1 & E2). assert (q = p) as -> by (destruct (hashtable p !! _); [by injection E1|done]).
  step E1. step E2. destruct Hb as [[-> Hnc]|(Hb0 & r & Hr & Ek & Hnf)].
  { exists NotCached, p. split; [done|]. split; [done|exact Hnc]. }
  destruct (buf_facts U p b r G Hr) as (_ & Hv & [[Hl1 Hl2] Hidle Hheld Hw] & HU & _). specialize (Hroom b r Hr) as Hrm.
  destruct (Z.eqb_spec b 0); [done|]. step (get_buf_run p b r Hr). destruct (Z.eqb_spec (b_state r) BUF_STATE_FREE); [done|].
  destruct (decide (b_state r = BUF_STATE_CLEAN \/ b_state r = BUF_STATE_DIRTY)) as [Hs|Hs].
  { destruct (lookup_listed U F C D H p b r B Hr Hs) as (p' & E & G' & Hc). exists (Cached b), p'. split.
    - destruct Hs as [Hs|Hs]; rewrite Hs in *; exact E.
    - exists r. unfold fresh_if. split_and!; try done; destruct Hs as [-> | ->]; done. }
  destruct (Z.eqb_spec (b_state r) BUF_STATE_CLEAN) as [|N1]; [tauto|]. destruct (Z.eqb_spec (b_state r) BUF_STATE_DIRTY) as [|N2]; [tauto|].
  assert (Hi : inner (b_state r)) by (unfold inner, valid_state, BUF_STATE_FREE, BUF_STATE_CLEAN, BUF_STATE_DIRTY in *; lia).
  assert (X : b_state r <> BUF_STATE_WRITING -> b_state r <> BUF_STATE_READING -> b_state r <> BUF_STATE_INVALID ->
    exists res p', (add_lock b ;;; kret (Cached b)) p = Done (res, p') /\ looked_up U t blkno p p' res).
  { intros Hx1 Hx2 Hx3. destruct (good_lock U p b r G Hroom Hr Hi Hx1) as (p' & E & G' & Hc). exists (Cached b), p'. split; [by step E|]. exists r. unfold fresh_if, locked_buf.
    destruct (Z.eqb_spec (b_state r) BUF_STATE_INVALID); [done|]. destruct (Z.eqb_spec (b_state r) BUF_STATE_CLEAN); [done|]. destruct (Z.eqb_spec (b_state r) BUF_STATE_DIRTY); [done|].
    by split_and!. }
  destruct (Z.eqb_spec (b_state r) BUF_STATE_READING) as [R|NR], (Z.eqb_spec (b_state r) BUF_STATE_WRITING) as [Wr|NW]; cbn [orb].
  1-3: destruct (good_upd U p b r (fun r => set_b_waiters (t :: b_waiters r) r) G Hr Hi) as (p' & E & G' & Hc); [done..| |
    exists (WaitsFor b), p'; split; [unfold wait_for_buffer; by step E|exists r; split_and!; try done; tauto]].
  1-3: split; cbn [b_locks b_state b_waiters set_b_waiters length]; [lia|done|done|intros _; tauto].
  destruct (Z.eqb_spec (b_state r) BUF_STATE_LOCKED) as [L|NL]; [apply X; rewrite L; done|].
  destruct (Z.eqb_spec (b_state r) BUF_STATE_UPDATED) as [Up|NU]; [apply X; rewrite Up; done|]. cbn [orb].
  destruct (Z.eqb_spec (b_state r) BUF_STATE_INVALID) as [I|NI].
  2: { destruct (Z.eqb_spec (b_state r) BUF_STATE_ERROR) as [Er|NE]; [by apply X|].
       unfold inner, BUF_STATE_READING, BUF_STATE_WRITING, BUF_STATE_LOCKED, BUF_STATE_UPDATED, BUF_STATE_INVALID, BUF_STATE_ERROR in *. lia. }
  by apply (lookup_invalid U p t blkno b r).
Qed.

Lemma inner_out U F C D H p b r : binv 0 U F C D H p -> bufs p !! b = Some r -> inner (b_state r) -> b ∉ F ++ C ++ D.
Proof.
  intros [_ _ Hct _] Hr Hi. unfold inner in Hi. pose proof (ct_buf _ _ _ _ _ _ _ _ _ Hct b r Hr) as [_ K2 K3 K4 _ _ _ _ _].
  unfold BUF_STATE_FREE, BUF_STATE_CLEAN, BUF_STATE_DIRTY in *. rewrite !elem_of_app, K2, K3, K4. intros [[_ E]|[[_ E]|[_ E]]]; lia.
Qed.

Lemma join_clean_run F C D p b :
  chains (chain p) (freelist p) (clean p) (dirty p) F C D -> b ∉ F ++ C ++ D -> b <> 0 -> is_Some (chain p !! b) ->
  exists m c, join_list clean set_clean b p = Done (tt, set_clean c (set_chain m p)) /\ chains m (freelist p) c (dirty p) F (C ++ [b]) D /\
    forall a, is_Some (chain p !! a) -> is_Some (m !! a).
Proof.
  intros Hch Hb Hb0 [l Hl]. pose proof Hch as [_ [Hc Hd] _ Hn H0]. eexists _, _. split; [|split].
  - apply (join_list_run clean set_clean) with (C := C) (r := l); try done; [exact set_clean_same|set_solver|set_solver].
  - by apply chains_join with (c := clean p).
  - intros a. by apply append_some.
Qed.

Lemma join_dirty_run F C D p b :
  chains (chain p) (freelist p) (clean p) (dirty p) F C D -> b ∉ F ++ C ++ D -> b <> 0 -> is_Some (chain p !! b) ->
  exists m d, join_list dirty set_dirty b p = Done (tt, set_dirty d (set_chain m p)) /\ chains m (freelist p) (clean p) d F C (D ++ [b]) /\
    forall a, is_Some (chain p !! a) -> is_Some (m !! a).
Proof.
  intros Hch Hb Hb0 [l Hl]. pose proof Hch as [_ _ [Hc Hd] Hn H0]. eexists _, _. split; [|split].
  - apply (join_list_run dirty set_dirty) with (C := D) (r := l); try done; [exact set_dirty_same|set_solver|set_solver].
  - apply chains_swap, chains_join with (c := dirty p); [by apply chains_swap|set_solver|done|done].
  - intros a. by apply append_some.
Qed.

Lemma chains_push m fl c d F C D b : chains m fl c d F C D -> b ∉ F ++ C ++ D -> b <> 0 ->
  chains (<[b := BufLink fl 0]> m) b c d (b :: F) C D.
Proof.
  intros Hch Hb Hb0. pose proof (chains_out m fl c d F C D b (BufLink fl 0) Hch Hb) as [[Hf Hs] Hc Hd Hn H0]. split; try done.
  - split; [done|]. split; [|done]. exists (BufLink fl 0). rewrite lookup_insert_eq. split; [done|]. cbn. by rewrite Hf.
  - cbn [app]. by apply NoDup_cons.
  - set_solver.
Qed.

(** A buffer in use becomes free. *)
Lemma binv_free U F C D H H' p p' b r r' :
  binv 0 U F C D H p -> bufs p !! b = Some r -> inner (b_state r) -> b ∉ U -> b_state r' = BUF_STATE_FREE -> b_locks r' = 0 -> b_waiters r' = [] ->
  chains (chain p') (freelist p') (clean p') (dirty p') (b :: F) C D -> buckets (bucket p') (hashtable p') H' ->
  (forall a i, a <> b -> a ∈ H' i <-> a ∈ H i) -> (forall i, b ∉ H' i) ->
  changed b r' p p' -> counts (bufs p') (bufcount p') -> linked p' -> binv 0 U (b :: F) C D H' p'.
Proof.
  intros [Hch Hbk Hct Hlk] Hr Hs HbU Hs' Hl0 Hw0 Hch' Hbk' HH Hnb (Em & Ed & _) Hcn Hlk'. unfold inner in *.
  pose proof (ct_buf _ _ _ _ _ _ _ _ _ Hct b r Hr) as [K1 K2 K3 K4 K5 K6 K7 K8 K9].
  assert (Hb0 : b <> 0) by (intros ->; by rewrite (ct_null _ _ _ _ _ _ _ _ _ Hct) in Hr).
  split; [done|done| |done]. rewrite Em, Ed in *.
  apply (content_move 0 0 U U F (b :: F) C C D D H H' _ (bufcount p) _ (disk p) _ b r r' Hct Hr); try done; auto.
  - intros a Ha. split; [set_solver|]. split; [done|]. split; [done|]. intros i. by apply HH.
  - split; try done.
    + unfold valid_state. by rewrite Hs'.
    + split; [done|]. intros _. by left.
    + rewrite K3, Hs'. unfold BUF_STATE_CLEAN. split; intros [_ ?]; [lia|done].
    + rewrite K4, Hs'. unfold BUF_STATE_DIRTY. split; intros [_ ?]; [lia|done].
    + intros i. split; [by intros ?%Hnb|]. by intros (_ & ? & _).
    + intros _. split; [by rewrite Hl0, Hw0|done| |by rewrite Hw0]. rewrite Hs'. intros [?|[?|[?|?]]]; done.
    + rewrite Hs'. by intros _ _ [?|?].
Qed.

(** A buffer after one of its locks has been released. *)
Definition released (r : buf) : buf :=
  if 1 <? b_locks r then set_b_locks (b_locks r - 1) r
  else Buf (if b_state r =? BUF_STATE_LOCKED then BUF_STATE_CLEAN else if b_state r =? BUF_STATE_UPDATED then BUF_STATE_DIRTY else BUF_STATE_FREE)
         0 (b_waiters r) (b_blkno r) (b_data r).

(** The states of buffers that threads hold. *)
Definition held_state (s : Z) : Prop := s = BUF_STATE_LOCKED \/ s = BUF_STATE_UPDATED \/ s = BUF_STATE_INVALID \/ s = BUF_STATE_ERROR.

Lemma held_inner s : held_state s -> inner s /\ s <> BUF_STATE_READING /\ s <> BUF_STATE_WRITING.
Proof. by intros [-> |[-> |[-> | ->]]]. Qed.

(** The last lock of a buffer that can stay in the cache. *)
Lemma release_last_run U F C D H p b r s :
  binv 0 U F C D H p -> bufs p !! b = Some r -> b ∉ U -> b_locks r = 1 ->
  (b_state r = BUF_STATE_LOCKED /\ s = BUF_STATE_CLEAN) \/ (b_state r = BUF_STATE_UPDATED /\ s = BUF_STATE_DIRTY) ->
  let p1 := set_bufs (<[b := set_b_locks 0 r]> (bufs p)) p in
  exists p', (if b_state r =? BUF_STATE_LOCKED then change_state b BUF_STATE_CLEAN ;;; join_list clean set_clean b
              else change_state b BUF_STATE_DIRTY ;;; join_list dirty set_dirty b) p1 = Done (tt, p') /\
    bgood U p' /\ changed b (Buf s 0 (b_waiters r) (b_blkno r) (b_data r)) p p'.
Proof.
  intros B Hr HbU Hl1 Hs p1. pose proof B as [Hch Hbk Hct Hlk]. assert (G : bgood U p) by (by exists F, C, D, H).
  destruct (buf_facts U p b r G Hr) as (Hb0 & Hv & Hlo & _ & Hdat). assert (Hh : held_state (b_state r)) by (unfold held_state; tauto).
  apply held_inner in Hh as (Hi & Hr1 & Hr2). pose proof (no_waiters r Hlo Hr1 Hr2) as Hw. pose proof (inner_out U F C D H p b r B Hr Hi) as Hout.
  assert (Hc1 : counts (bufs p1) (bufcount p1)) by exact (counts_same (bufs p) (bufcount p) b r (set_b_locks 0 r) (ct_count _ _ _ _ _ _ _ _ _ Hct) Hr eq_refl).
  assert (Hrr : bufs p1 !! b = Some (set_b_locks 0 r)) by apply lookup_insert_eq.
  destruct (change_state_run p1 b (set_b_locks 0 r) s Hc1 Hrr Hv) as (cnt & E2 & Hc2); [destruct Hs as [[_ ->]|[_ ->]]; done|].
  set (p2 := set_bufs _ (set_bufcount cnt p1)) in *. set (r' := Buf s 0 (b_waiters r) (b_blkno r) (b_data r)).
  assert (Em : bufs p2 = <[b := r']> (bufs p)) by (cbn [bufs p2 set_bufs p1]; by rewrite insert_insert_eq).
  destruct Hs as [[Hs ->]|[Hs ->]]; rewrite Hs in *.
  - destruct (join_clean_run F C D p2 b Hch Hout Hb0) as (m & c & E3 & Hch3 & Hsm); [apply Hlk; by eexists|]. change (BUF_STATE_LOCKED =? BUF_STATE_LOCKED) with true.
    cbv iota. step E2. rewrite E3. eexists. split; [done|]. assert (Hchg : changed b r' p (set_clean c (set_chain m p2))) by done. split; [|exact Hchg].
    exists F, (C ++ [b]), D, H. apply (binv_in U F C D (C ++ [b]) D H p _ b r r' B Hr); try done; [by rewrite Hs| | |].
    + left. split; [done|]. split; [apply Hdat; [done|by right]|]. set_solver.
    + intros a Ha. set_solver.
    + eapply (linked_same p _ b); [exact Hlk|by eexists|apply Hchg|exact Hsm|done].
  - destruct (join_dirty_run F C D p2 b Hch Hout Hb0) as (m & d & E3 & Hch3 & Hsm); [apply Hlk; by eexists|]. change (BUF_STATE_UPDATED =? BUF_STATE_LOCKED) with false.
    cbv iota. step E2. rewrite E3. eexists. split; [done|]. assert (Hchg : changed b r' p (set_dirty d (set_chain m p2))) by done. split; [|exact Hchg].
    exists F, C, (D ++ [b]), H. apply (binv_in U F C D C (D ++ [b]) H p _ b r r' B Hr); try done; [by rewrite Hs| | |].
    + right. split; [done|]. set_solver.
    + intros a Ha. set_solver.
    + eapply (linked_same p _ b); [exact Hlk|by eexists|apply Hchg|exact Hsm|done].
Qed.

Lemma on_chain_push p b : is_Some (chain p !! b) ->
  on_chain (set_next b (freelist p) ;;; set_prev b 0) p = Done (tt, set_chain (<[b := BufLink (freelist p) 0]> (chain p)) p).
Proof.
  intros [l Hl]. unfold on_chain, kzoom. step (set_next_run (chain p) b l (freelist p) Hl). rewrite (set_prev_run _ b _ 0 (lookup_insert_eq _ _ _)).
  by rewrite insert_insert_eq.
Qed.

(** A buffer in use is in its bucket and can be removed from it. *)
Lemma remove_good_run U F C D H p p1 b r r1 :
  binv 0 U F C D H p -> bufs p !! b = Some r -> b_state r <> BUF_STATE_FREE -> bufs p1 !! b = Some r1 -> b_blkno r1 = b_blkno r ->
  bucket p1 = bucket p -> hashtable p1 = hashtable p ->
  exists m ht H', remove_from_hashtable b p1 = Done (tt, set_hashtable ht (set_bucket m p1)) /\ buckets m ht H' /\
    (forall a i, a <> b -> a ∈ H' i <-> a ∈ H i) /\ (forall i, b ∉ H' i) /\ forall a, is_Some (bucket p !! a) -> is_Some (m !! a).
Proof.
  intros [_ Hbk Hct _] Hr Hnf Hr1 Ek E1 E2. assert (Hb0 : b <> 0) by (intros ->; by rewrite (ct_null _ _ _ _ _ _ _ _ _ Hct) in Hr).
  pose proof (ok_hash _ _ _ _ _ _ _ _ _ (ct_buf _ _ _ _ _ _ _ _ _ Hct b r Hr)) as KH. set (i := hash_slot (b_blkno r)) in *.
  assert (Hin : b ∈ H i) by (by apply KH). apply list_elem_of_split in Hin as (l1 & l2 & HH). rewrite <- E1, <- E2 in Hbk.
  destruct (unhash_run p1 b r1 H l1 l2 Hr1 Hbk) as (p' & E & Hbk' & m & ht & -> & Hm); [by rewrite Ek|]. rewrite Ek in Hbk'. fold i in Hbk'.
  exists m, ht, (hput i (l1 ++ l2) H). split; [done|]. split; [done|]. pose proof (nodup_mid b l1 l2) as Hnd. rewrite <- HH in Hnd. specialize (Hnd (bk_nodup _ _ _ Hbk i)).
  split_and!; [| |by rewrite <- E1].
  - intros a j Ha. unfold hput. destruct (decide (j = i)) as [->|]; [|done]. rewrite HH. by apply mid_other.
  - intros j. unfold hput. destruct (decide (j = i)) as [->|Hne]; [done|]. rewrite KH. by intros (_ & _ & ?).
Qed.

(** The last lock of an invalid buffer. *)
Lemma release_free_run U F C D H p b r :
  binv 0 U F C D H p -> bufs p !! b = Some r -> b ∉ U -> b_locks r = 1 -> b_state r = BUF_STATE_INVALID \/ b_state r = BUF_STATE_ERROR ->
  let p1 := set_bufs (<[b := set_b_locks 0 r]> (bufs p)) p in
  exists p', (remove_from_hashtable b ;;; change_state b BUF_STATE_FREE ;;;
              let* p := kget in on_chain (set_next b (freelist p) ;;; set_prev b 0) ;;; kmod (set_freelist b)) p1 = Done (tt, p') /\
    bgood U p' /\ changed b (Buf BUF_STATE_FREE 0 (b_waiters r) (b_blkno r) (b_data r)) p p'.
Proof.
  intros B Hr HbU Hl1 Hs p1. pose proof B as [Hch Hbk Hct Hlk]. assert (G : bgood U p) by (by exists F, C, D, H).
  destruct (buf_facts U p b r G Hr) as (Hb0 & Hv & Hlo & _ & Hdat). assert (Hh : held_state (b_state r)) by (unfold held_state; tauto).
  apply held_inner in Hh as (Hi & Hr1 & Hr2). pose proof (no_waiters r Hlo Hr1 Hr2) as Hw. pose proof (inner_out U F C D H p b r B Hr Hi) as Hout.
  assert (Hnf : b_state r <> BUF_STATE_FREE) by (destruct Hs as [-> | ->]; done).
  assert (Hrr : bufs p1 !! b = Some (set_b_locks 0 r)) by apply lookup_insert_eq.
  destruct (remove_good_run U F C D H p p1 b r (set_b_locks 0 r) B Hr Hnf Hrr) as (m & ht & H' & E2 & Hbk2 & HH & Hnb & Hm); [done..|]. step E2.
  set (p2 := set_hashtable ht (set_bucket m p1)).
  assert (Hc2 : counts (bufs p2) (bufcount p2)) by exact (counts_same (bufs p) (bufcount p) b r (set_b_locks 0 r) (ct_count _ _ _ _ _ _ _ _ _ Hct) Hr eq_refl).
  destruct (change_state_run p2 b (set_b_locks 0 r) BUF_STATE_FREE Hc2 Hrr Hv) as (cnt & E3 & Hc3); [done|]. step E3.
  set (p3 := set_bufs _ (set_bufcount cnt p2)) in *. rewrite kbind_kget. assert (Hc : is_Some (chain p3 !! b)) by (apply Hlk; by eexists).
  step (on_chain_push p3 b Hc). set (p4 := set_chain _ p3). set (r' := Buf BUF_STATE_FREE 0 (b_waiters r) (b_blkno r) (b_data r)). exists (set_freelist b p4). split; [done|].
  assert (Hchg : changed b r' p (set_freelist b p4)) by (split; [|done]; cbn [bufs set_freelist p4 set_chain p3 set_bufs p1 p2 set_hashtable set_bucket set_bufcount]; by rewrite insert_insert_eq).
  split; [|exact Hchg]. exists (b :: F), C, D, H'. apply (binv_free U F C D H H' p _ b r r' B Hr); try done.
  - apply chains_push; done.
  - eapply (linked_same p _ b); [exact Hlk|by eexists|apply Hchg| |exact Hm]. intros a Ha. cbn. by apply insert_some.
Qed.

Lemma set_event_good U v p : bgood U p -> bgood U (set_dirty_event v p).
Proof. intros (F & C & D & H & [? ? ? ?]). exists F, C, D, H. by split. Qed.

(** [release_buffer] takes a lock away and puts the buffer in the list of its
    new state after the last one. *)
Lemma release_run U p b r :
  bgood U p -> bufs p !! b = Some r -> held_state (b_state r) -> 1 <= b_locks r -> (1 < b_locks r \/ b ∉ U) ->
  exists p', release_buffer b p = Done (tt, p') /\ bgood U p' /\ changed b (released r) p p'.
Proof.
  intros G Hr Hh Hl HU. pose proof G as (F & C & D & H & B). destruct (buf_facts U p b r G Hr) as (Hb0 & Hv & Hlo & HbU & Hdat).
  pose proof (held_inner _ Hh) as (Hi & Hr1 & Hr2). destruct Hlo as [[Hlo1 Hlo2] Hidle Hheld Hwt]. unfold released.
  unfold release_buffer. step (upd_buf_run p b r _ Hr). rewrite u16_small by lia. step (get_buf_run _ b _ (lookup_insert_eq _ _ _)).
  cbn [b_locks b_state set_b_locks]. destruct (Z.ltb_spec 1 (b_locks r)) as [Hlt|Hge].
  { destruct (Z.ltb_spec 0 (b_locks r - 1)); [|lia]. eexists. split; [done|]. split; [|done].
    apply (good_inner U U p _ b r (set_b_locks (b_locks r - 1) r) G Hr Hi); try done.
    - split; cbn; [lia|intros E|intros _; lia|done]. unfold held_state, BUF_STATE_LOCKED, BUF_STATE_UPDATED, BUF_STATE_INVALID, BUF_STATE_ERROR, BUF_STATE_FREE, BUF_STATE_CLEAN, BUF_STATE_DIRTY, BUF_STATE_WRITING in *. lia.
    - intros HnU Hst. apply Hdat; [done|by right].
    - exact (counts_same (bufs p) (bufcount p) b r (set_b_locks (b_locks r - 1) r) (good_counts U p G) Hr eq_refl). }
  destruct (Z.ltb_spec 0 (b_locks r - 1)); [lia|]. assert (Hl1 : b_locks r = 1) by lia. replace (b_locks r - 1) with 0 by lia. assert (HnU : b ∉ U) by (destruct HU; [lia|done]).
  destruct Hh as [Hs|[Hs|Hs]].
  - destruct (release_last_run U F C D H p b r BUF_STATE_CLEAN B Hr HnU Hl1) as (p' & E & G' & Hc); [by left|]. rewrite Hs in *. exists p'. split; [exact E|done].
  - destruct (release_last_run U F C D H p b r BUF_STATE_DIRTY B Hr HnU Hl1) as (p' & E & G' & Hc); [by right|]. rewrite Hs in *.
    apply kbind_inv in E as ([] & q & E1 & E2). exists (set_dirty_event true p'). change (BUF_STATE_UPDATED =? BUF_STATE_LOCKED) with false. cbv iota.
    change (BUF_STATE_UPDATED =? BUF_STATE_UPDATED) with true. cbv iota. split; [step E1; by step E2|]. split; [by apply set_event_good|done].
  - destruct (release_free_run U F C D H p b r B Hr HnU Hl1) as (p' & E & G' & Hc); [tauto|]. exists p'. destruct Hs as [Hs|Hs]; rewrite Hs in *; done.
Qed.

(** ** A buffer to use *)

(** [b] has been taken out of all lists. *)
Lemma binv_taken U F F' C C' D D' H H' p p' b r r' :
  binv 0 U F C D H p -> bufs p !! b = Some r -> b ∉ U -> valid_state (b_state r') -> b_locks r' = 0 -> b_waiters r' = [] ->
  chains (chain p') (freelist p') (clean p') (dirty p') F' C' D' -> buckets (bucket p') (hashtable p') H' ->
  (forall a, a <> b -> same_place a F F' C C' D D' H H') -> b ∉ F' ++ C' ++ D' -> (forall i, b ∉ H' i) ->
  (forall a ra, a <> b -> bufs p !! a = Some ra -> b_state ra <> BUF_STATE_FREE -> disk p' !! b_blkno ra = disk p !! b_blkno ra) ->
  bufs p' = <[b := r']> (bufs p) -> counts (bufs p') (bufcount p') -> linked p' -> binv b U F' C' D' H' p'.
Proof.
  intros [Hch Hbk Hct Hlk] Hr HbU Hv' Hl0 Hw0 Hch' Hbk' Hpl Hout Hnb Hdk Em Hcn Hlk'. rewrite !elem_of_app in Hout.
  split; [done|done| |done]. rewrite Em in *.
  apply (content_move 0 b U U F F' C C' D D' H H' _ (bufcount p) _ (disk p) _ b r r' Hct Hr); try done; auto.
  split; try done; [split; [tauto|]|split; [tauto|]|split; [tauto|]|intros i; split; [by intros ?%Hnb|]]; by intros [? _].
Qed.

(** What a round of [get_new_buffer] finds. *)
Definition taken (U : gset Z) (b : Z) (p : bufpool) : Prop := exists F C D H, binv b U F C D H p.

Definition new_found (U : gset Z) (p p' : bufpool) (res : new_result) : Prop :=
  match res with
  | NewBuffer b => exists r, bufs p !! b = Some r /\ (b_state r = BUF_STATE_FREE \/ b_state r = BUF_STATE_CLEAN) /\ taken U b p' /\ changed b r p p'
  | NewWrites b => exists r, bufs p !! b = Some r /\ b_state r = BUF_STATE_DIRTY /\ bgood U p' /\ changed b (set_b_state BUF_STATE_WRITING r) p p'
  | NewYields => p' = p
  end.

Lemma new_free_run U F C D H p : binv 0 U F C D H p -> freelist p <> 0 ->
  let b := freelist p in
  exists p', (let* l := on_chain (get_link b) in kmod (set_freelist (bl_next l)) ;;; on_chain (clear_links b) ;;; kret (NewBuffer b)) p = Done (NewBuffer b, p') /\
    new_found U p p' (NewBuffer b).
Proof.
  intros B Hf0 b. pose proof B as [Hch Hbk Hct Hlk]. pose proof Hch as [[Hf Hs] Hcl Hdi Hn H0].
  destruct F as [|b' F]; [by cbn in Hf|]. cbn in Hf. assert (b' = b) as -> by done. destruct Hs as [(l & Hl & Hnx) Hs].
  assert (Hb : b ∉ F ++ C ++ D) by (cbn in Hn; by apply NoDup_cons in Hn as [? _]).
  assert (E1 : on_chain (get_link b) p = Done (l, p)) by (unfold on_chain, kzoom; rewrite (get_link_run _ b l Hl); by destruct p). step E1.
  rewrite kbind_kmod. set (p1 := set_freelist (bl_next l) p). step (on_chain_clear p1 b (mk_is_Some _ _ Hl)). eexists. split; [done|].
  destruct (bufs p !! b) as [r|] eqn:Hr. 2: { destruct (ct_none _ _ _ _ _ _ _ _ _ Hct b Hr) as [HF _]. destruct HF. by left. }
  pose proof (ct_buf _ _ _ _ _ _ _ _ _ Hct b r Hr) as [K1 K2 K3 K4 K5 K6 K7 K8 K9].
  assert (Hst : b_state r = BUF_STATE_FREE) by (apply K2; by left). exists r. split; [done|]. split; [by left|].
  assert (Hb0 : b <> 0) by done. specialize (K7 Hb0) as [_ Hidle _ Hw]. split; [|split; [|done]; cbn; by rewrite insert_id].
  exists F, C, D, H. apply (binv_taken U (b :: F) F C C D D H H p _ b r r B Hr); try done.
  - intros HbU%K9. rewrite Hst in HbU. by destruct HbU.
  - apply Hidle. by left.
  - destruct (decide (b_waiters r = [])) as [|Hne]; [done|]. apply Hw in Hne. rewrite Hst in Hne. by destruct Hne.
  - cbn [chain freelist clean dirty set_chain set_freelist p1]. apply chains_out; [|done]. rewrite Hnx. split; try done; [cbn in Hn; by apply NoDup_cons in Hn as [_ ?]|set_solver].
  - intros a Ha. split; [set_solver|done].
  - intros i. rewrite K5. intros (_ & ? & _). done.
  - cbn. by rewrite insert_id.
  - apply Hct.
  - intros a Ha. cbn. destruct (Hlk a Ha) as [? ?]. split; [by apply insert_some|done].
Qed.

(** The first buffer of the clean list leaves it. *)
Lemma pop_clean_run F b C D p :
  chains (chain p) (freelist p) (clean p) (dirty p) F (b :: C) D ->
  exists l m, on_chain (get_link b) p = Done (l, p) /\
    ((if negb (bl_next l =? 0) then on_chain (set_prev (bl_next l) 0) else kret tt) ;;;
     kmod (fun p => set_clean (BufList (bl_next l) (bl_tail (clean p))) p) ;;;
     kmod (fun p => if bl_tail (clean p) =? b then set_clean (BufList (bl_head (clean p)) (bl_next l)) p else p)) p =
    Done (tt, set_clean (BufList (hd 0 C) (last_of 0 C)) (set_chain m p)) /\
    chains m (freelist p) (BufList (hd 0 C) (last_of 0 C)) (dirty p) F C D /\ forall a, is_Some (chain p !! a) -> is_Some (m !! a).
Proof.
  intros Hch. pose proof (chains_leave (chain p) (freelist p) (clean p) (dirty p) F [] b C D Hch) as Hch'. cbn [app] in Hch'. change (last_of 0 []) with 0 in Hch'.
  pose proof Hch as [_ [Hc Hd] _ Hn H0]. pose proof Hd as [(l & Hl & _ & Hnx) Hd']. pose proof Hn as (_ & _ & (HnC & _)%NoDup_app)%NoDup_app.
  change (l_next l) with (bl_next l) in Hnx. exists l, (bypass (chain p) 0 (hd 0 C)).
  assert (E1 : on_chain (get_link b) p = Done (l, p)) by (unfold on_chain, kzoom; rewrite (get_link_run _ b l Hl); by destruct p).
  split; [done|]. split; [|split; [done|intros a; apply bypass_some]]. rewrite Hnx.
  assert (E2 : (if negb (hd 0 C =? 0) then on_chain (set_prev (hd 0 C) 0) else kret tt) p = Done (tt, set_chain (bypass (chain p) 0 (hd 0 C)) p)).
  { unfold bypass. cbn [Z.eqb]. destruct (Z.eqb_spec (hd 0 C) 0) as [E|E]; cbn [negb]; [by destruct p|]. destruct C as [|c C]; [done|]. destruct Hd' as [(lc & Hlc & _) _].
    cbn [hd] in *. rewrite Hlc. unfold on_chain, kzoom. by rewrite (set_prev_run _ c lc 0 Hlc). }
  step E2. rewrite kbind_kmod. unfold kmod. cbn [clean set_clean set_chain bl_head bl_tail]. rewrite Hc. cbn [bl_tail].
  pose proof (drop_tail b [] C HnC) as Et. rewrite Z.eqb_sym in Et. cbn [app] in Et. destruct C as [|c C]; [cbn; by rewrite Z.eqb_refl|].
  destruct (Z.eqb_spec (last_of 0 (b :: c :: C)) b) as [E|E]; [|by rewrite Et].
  assert (Hin : last_of 0 (b :: c :: C) ∈ c :: C) by (change (last_of 0 (c :: C) ∈ c :: C); by apply last_of_elem).
  rewrite E in Hin. apply NoDup_cons in HnC as [? _]. done.
Qed.

Lemma new_clean_run U F C D H p : binv 0 U F C D H p -> bl_head (clean p) <> 0 ->
  let b := bl_head (clean p) in
  exists p', (let* l := on_chain (get_link b) in
    (if negb (bl_next l =? 0) then on_chain (set_prev (bl_next l) 0) else kret tt) ;;;
    kmod (fun p => set_clean (BufList (bl_next l) (bl_tail (clean p))) p) ;;;
    kmod (fun p => if bl_tail (clean p) =? b then set_clean (BufList (bl_head (clean p)) (bl_next l)) p else p) ;;;
    on_chain (clear_links b) ;;; remove_from_hashtable b ;;; kret (NewBuffer b)) p = Done (NewBuffer b, p') /\ new_found U p p' (NewBuffer b).
Proof.
  intros B Hf0 b. pose proof B as [Hch Hbk Hct Hlk]. pose proof Hch as [_ [Hf _] _ Hn H0].
  destruct C as [|b' C]; [by rewrite Hf in Hf0|]. assert (b' = b) as -> by (unfold b; by rewrite Hf). assert (Hb0 : b <> 0) by done.
  destruct (bufs p !! b) as [r|] eqn:Hr. 2: { destruct (ct_none _ _ _ _ _ _ _ _ _ Hct b Hr) as (_ & HC & _). destruct HC. by left. }
  pose proof (ct_buf _ _ _ _ _ _ _ _ _ Hct b r Hr) as [K1 K2 K3 K4 K5 K6 K7 K8 K9]. assert (Hst : b_state r = BUF_STATE_CLEAN) by (apply K3; by left).
  specialize (K7 Hb0) as [_ Hidle _ Hw]. assert (HbF : b ∉ F) by (rewrite K2, Hst; by intros [_ ?]). assert (HbD : b ∉ D) by (rewrite K4, Hst; by intros [_ ?]).
  assert (HbC : b ∉ C) by (apply NoDup_app in Hn as (_ & _ & (HnC & _)%NoDup_app); by apply NoDup_cons in HnC as [? _]).
  destruct (pop_clean_run F b C D p Hch) as (l & m & E1 & E2 & Hch2 & Hm). step E1.
  apply kbind_inv in E2 as ([] & q1 & E2 & E3). apply kbind_inv in E3 as ([] & q2 & E3 & E4). step E2. step E3. step E4. clear E1 E2 E3 E4 q1 q2.
  set (p1 := set_clean _ (set_chain m p)). destruct (Hm b (proj1 (Hlk b (mk_is_Some _ _ Hr)))) as [lb Hlb]. step (on_chain_clear p1 b (mk_is_Some _ _ Hlb)).
  set (p2 := set_chain _ p1). destruct (remove_good_run U F (b :: C) D H p p2 b r r B Hr) as (mb & ht & H' & E5 & Hbk' & HH & Hnb & Hmb); [by rewrite Hst|done..|].
  step E5. eexists. split; [done|]. exists r. split; [done|]. split; [by right|]. split; [|split; [|done]; cbn; by rewrite insert_id].
  exists F, C, D, H'. apply (binv_taken U F F (b :: C) C D D H H' p _ b r r B Hr); try done.
  - intros [_ HbU]%K9. by rewrite Hst in HbU.
  - apply Hidle. tauto.
  - destruct (decide (b_waiters r = [])) as [|Hne]; [done|]. apply Hw in Hne. rewrite Hst in Hne. by destruct Hne.
  - apply (chains_out m); [done|set_solver].
  - intros a Ha. split; [done|]. split; [set_solver|]. split; [done|]. intros i. by apply HH.
  - set_solver.
  - cbn. by rewrite insert_id.
  - apply Hct.
  - intros a Ha. cbn. destruct (Hlk a Ha) as [? ?]. split; [by apply insert_some, Hm|by apply Hmb].
Qed.

Lemma set_ioactive_good U v p : bgood U p -> bgood U (set_ioactive v p).
Proof. intros (F & C & D & H & [? ? ? ?]). exists F, C, D, H. by split. Qed.

(** [write_buffer] up to the call of the device. *)
Lemma write_start_run U p b r flush :
  bgood U p -> bufs p !! b = Some r -> b_state r = BUF_STATE_DIRTY ->
  exists p', write_start b flush p = Done (true, p') /\ bgood U p' /\ changed b (set_b_state BUF_STATE_WRITING r) p p'.
Proof.
  intros (F & C & D & H & B) Hr Hs. unfold write_start. step (get_buf_run p b r Hr). rewrite Hs. change (BUF_STATE_DIRTY =? BUF_STATE_DIRTY) with true. cbv iota.
  destruct (leave_dirty_run U F C D H p b r B Hr Hs) as (p1 & D' & E1 & m & c & d & -> & Hch' & Hb & Hpl & Hsm). step E1. pose proof B as [_ Hbk Hct Hlk].
  set (p1 := set_dirty d (set_clean c (set_chain m p))). destruct (Hsm b (proj1 (Hlk b (mk_is_Some _ _ Hr)))) as [lb Hlb]. step (on_chain_clear p1 b (mk_is_Some _ _ Hlb)).
  set (p2 := set_chain _ p1). pose proof (ct_buf _ _ _ _ _ _ _ _ _ Hct b r Hr) as [K1 _ _ _ _ _ K7 _ _].
  assert (Hb0 : b <> 0) by (intros ->; by rewrite (ct_null _ _ _ _ _ _ _ _ _ Hct) in Hr). specialize (K7 Hb0) as Hlo.
  destruct (change_state_run p2 b r BUF_STATE_WRITING (ct_count _ _ _ _ _ _ _ _ _ Hct) Hr K1) as (cnt & E3 & Hc3); [done|]. step E3.
  set (p3 := set_bufs _ (set_bufcount cnt p2)). assert (Hchg : changed b (set_b_state BUF_STATE_WRITING r) p p3) by done.
  assert (G3 : bgood U p3).
  { exists F, C, D', H. apply (binv_out U F C D C D' H p p3 b r (set_b_state BUF_STATE_WRITING r) B Hr); try done; [by right| | |set_solver|set_solver|].
    - destruct Hlo as [? Hidle Hheld Hw]. split; cbn; [done|intros _; apply Hidle; tauto| |intros _; by right]. by intros [?|[?|[?|?]]].
    - by apply (chains_out m).
    - eapply (linked_same p _ b); [exact Hlk|by eexists|apply Hchg| |done]. intros a Ha. cbn. by apply insert_some, Hsm. }
  destruct flush.
  - step (eq_refl : kret tt p3 = Done (tt, p3)). by exists p3.
  - rewrite kbind_kmod. exists (set_ioactive 1 p3). split; [done|]. split; [by apply set_ioactive_good|done].
Qed.

Lemma dirty_head U F C D H p : binv 0 U F C D H p -> bl_head (dirty p) <> 0 -> exists r, bufs p !! bl_head (dirty p) = Some r /\ b_state r = BUF_STATE_DIRTY.
Proof.
  intros [Hch _ Hct _] Hf. pose proof Hch as [_ _ [Hd _] _ _]. destruct D as [|b D]; [by rewrite Hd in Hf|]. rewrite Hd in *. cbn [bl_head hd] in *.
  destruct (bufs p !! b) as [r|] eqn:Hr. 2: { destruct (ct_none _ _ _ _ _ _ _ _ _ Hct b Hr) as (_ & _ & HD & _). destruct HD. by left. }
  exists r. split; [done|]. apply (ok_dirty _ _ _ _ _ _ _ _ _ (ct_buf _ _ _ _ _ _ _ _ _ Hct b r Hr)). by left.
Qed.

Lemma get_new_run U p : bgood U p -> exists res p', get_new_buffer p = Done (res, p') /\ new_found U p p' res.
Proof.
  intros G. pose proof G as (F & C & D & H & B). unfold get_new_buffer. rewrite kbind_kget. destruct (Z.eqb_spec (freelist p) 0) as [Ef|Ef]; cbn [negb].
  2: { destruct (new_free_run U F C D H p B Ef) as (p' & E & N). by exists (NewBuffer (freelist p)), p'. }
  destruct (Z.eqb_spec (bl_head (clean p)) 0) as [Ec|Ec]; cbn [negb].
  2: { destruct (new_clean_run U F C D H p B Ec) as (p' & E & N). by exists (NewBuffer (bl_head (clean p))), p'. }
  destruct (Z.eqb_spec (bl_head (dirty p)) 0) as [Ed|Ed]; cbn [negb]; [by exists NewYields, p|].
  destruct (dirty_head U F C D H p B Ed) as (r & Hr & Hs). destruct (write_start_run U p _ r false G Hr Hs) as (p' & E & G' & Hc). step E.
  exists (NewWrites (bl_head (dirty p))), p'. split; [done|]. by exists r.
Qed.

(** [b] becomes the buffer of a block that is not in the cache. *)
Lemma binv_entered U U' F C D H H' p p' b r r' :
  binv b U F C D H p -> bufs p !! b = Some r -> inner (b_state r') -> locks_ok r' ->
  (forall a ra, a <> b -> bufs p !! a = Some ra -> b_state ra <> BUF_STATE_FREE -> b_blkno ra <> b_blkno r') ->
  (forall a, a <> b -> a ∈ U' <-> a ∈ U) -> (b_state r' = BUF_STATE_LOCKED <-> b ∈ U') ->
  same_lists p (set_bucket (bucket p) (set_hashtable (hashtable p) p')) ->
  buckets (bucket p') (hashtable p') H' -> (forall a i, a ∈ H' i <-> a ∈ H i \/ (a = b /\ hash_slot (b_blkno r') = i)) ->
  (forall a, is_Some (bucket p !! a) -> is_Some (bucket p' !! a)) -> changed b r' p p' -> counts (bufs p') (bufcount p') -> binv 0 U' F C D H' p'.
Proof.
  intros [Hch Hbk Hct Hlk] Hr Hs' Hlo Hnc HU HUb (E1 & E2 & E3 & E4 & _ & _) Hbk' HH Hsb Hchg Hcn. cbn in E1, E2, E3, E4. pose proof Hchg as (Em & Ed & _). unfold inner in *.
  pose proof (ct_buf _ _ _ _ _ _ _ _ _ Hct b r Hr) as [K1 K2 K3 K4 K5 K6 K7 K8 K9].
  assert (Hb0 : b <> 0) by (intros ->; by rewrite (ct_null _ _ _ _ _ _ _ _ _ Hct) in Hr).
  split; [by rewrite E1, E2, E3, E4|done| |]; [|by apply (linked_same p p' b r'); [done|eexists; done|done|rewrite E1; auto|auto]].
  rewrite Em, Ed in *. apply (content_move b 0 U U' F F C C D D H H' _ (bufcount p) _ (disk p) _ b r r' Hct Hr); try done; auto.
  - intros a Ha. split_and!; try done. intros i. rewrite HH. split; [intros [?|[? _]]; done|by left].
  - split; try done.
    + unfold valid_state. lia.
    + rewrite K2. unfold BUF_STATE_FREE. split; intros [? ?]; [done|lia].
    + rewrite K3. unfold BUF_STATE_CLEAN. split; intros [? ?]; [done|lia].
    + rewrite K4. unfold BUF_STATE_DIRTY. split; intros [? ?]; [done|lia].
    + intros i. rewrite HH, K5. unfold BUF_STATE_FREE. split; [intros [[? _]|[_ ?]]; [done|]|intros (_ & _ & ?); right; done]. split_and!; done || lia.
    + intros _ HnU [Hst|Hst]; [unfold BUF_STATE_CLEAN in Hst; lia|]. by apply HUb in Hst.
    + intros HbU. by split; [|apply HUb].
Qed.

(** The common part of [get_insert] and [alloc_insert]. *)
Lemma enter_run U F C D H p b r blkno :
  binv b U F C D H p -> bufs p !! b = Some r ->
  exists p', (upd_buf b (set_b_blkno blkno) ;;; insert_into_hashtable b) p = Done (tt, p') /\ changed b (set_b_blkno blkno r) p p' /\
    same_lists p (set_bucket (bucket p) (set_hashtable (hashtable p) p')) /\
    (exists H', buckets (bucket p') (hashtable p') H' /\ (forall a i, a ∈ H' i <-> a ∈ H i \/ (a = b /\ hash_slot blkno = i))) /\
    (forall a, is_Some (bucket p !! a) -> is_Some (bucket p' !! a)) /\ counts (bufs p') (bufcount p').
Proof.
  intros [Hch Hbk Hct Hlk] Hr. assert (Hb0 : b <> 0) by (intros ->; by rewrite (ct_null _ _ _ _ _ _ _ _ _ Hct) in Hr).
  pose proof (ok_hash _ _ _ _ _ _ _ _ _ (ct_buf _ _ _ _ _ _ _ _ _ Hct b r Hr)) as KH. assert (HbH : forall i, b ∉ H i) by (intros i; rewrite KH; by intros [? _]).
  step (upd_buf_run p b r _ Hr). set (p1 := set_bufs _ p). destruct (proj2 (Hlk b (mk_is_Some _ _ Hr))) as [lb Hlb].
  destruct (insert_run p1 b (set_b_blkno blkno r) H) as (p' & E & Hbk' & ->); [apply lookup_insert_eq|done|by eexists|done|done|]. rewrite E. eexists. split; [done|].
  cbn [b_blkno set_b_blkno] in Hbk'. split; [done|]. split; [done|]. split; [|split].
  - eexists. split; [exact Hbk'|]. intros a i. unfold hput. destruct (decide (i = hash_slot blkno)) as [->|Hne]; [|split; [by left|intros [?|[_ <-]]; done]].
    rewrite elem_of_cons. tauto.
  - intros a Ha. cbn. unfold pushed. apply insert_some. destruct (H _) as [|c l]; [done|]. destruct (bucket p !! c); [by apply insert_some|done].
  - apply (counts_same _ _ b r); [apply Hct|done|done].
Qed.

(** The results of [get_insert] and [alloc_insert]. *)
Definition reading_buf (blkno : Z) (r : buf) : buf := Buf BUF_STATE_READING 1 [] blkno (b_data r).
Definition cleared_buf (p : bufpool) (blkno : Z) : buf := Buf BUF_STATE_LOCKED 1 [] blkno (zeros p).

Lemma get_insert_run U p b r blkno :
  taken U b p -> bufs p !! b = Some r -> (forall a ra, a <> b -> bufs p !! a = Some ra -> b_state ra <> BUF_STATE_FREE -> b_blkno ra <> blkno) ->
  exists p', get_insert blkno b p = Done (Reads b, p') /\ bgood U p' /\ changed b (reading_buf blkno r) p p'.
Proof.
  intros (F & C & D & H & B) Hr Hnc. destruct (enter_run U F C D H p b r blkno B Hr) as (p1 & E1 & Hc1 & Hsl & (H' & Hbk & HH) & Hsb & Hcn).
  pose proof (ct_buf _ _ _ _ _ _ _ _ _ (bi_content _ _ _ _ _ _ _ B) b r Hr) as [K1 _ _ _ _ K6 _ _ K9]. destruct (K6 eq_refl) as [Hl0 Hw0].
  apply kbind_inv in E1 as ([] & q & E1 & E2). unfold get_insert. step E1. step E2. clear E1 E2 q. pose proof (changed_lookup _ _ _ _ Hc1) as Hr1.
  set (r1 := set_b_blkno blkno r) in *. step (add_lock_run p1 b r1 Hr1 ltac:(cbn; lia)). set (r2 := set_b_locks (b_locks r1 + 1) r1). set (p2 := set_bufs _ p1).
  assert (Hr2 : bufs p2 !! b = Some r2) by apply lookup_insert_eq.
  assert (Hcn2 : counts (bufs p2) (bufcount p2)) by exact (counts_same (bufs p1) (bufcount p1) b r1 r2 Hcn Hr1 eq_refl).
  destruct (change_state_run p2 b r2 BUF_STATE_READING Hcn2 Hr2 K1) as (cnt & E3 & Hcn3); [done|]. unfold read_start.
  rewrite kbind_assoc. step E3. rewrite kbind_kmod. set (p3 := set_bufs _ (set_bufcount cnt p2)). exists (set_ioactive 1 p3). split; [done|].
  assert (Hchg : changed b (reading_buf blkno r) p (set_ioactive 1 p3)).
  { eapply changed_trans; [exact Hc1|]. split; [|done]. cbn [bufs set_ioactive p3 set_bufs set_bufcount p2]. rewrite insert_insert_eq.
    unfold r2, r1, set_b_state, set_b_locks, set_b_blkno, reading_buf. cbn. by rewrite Hl0, Hw0. }
  split; [|exact Hchg]. exists F, C, D, H'. apply (binv_entered U U F C D H H' p _ b r (reading_buf blkno r) B Hr); try done.
  - split; cbn; try done; by intros [?|[?|[?|?]]].
  - split; [done|]. by intros [? _]%K9.
Qed.

Lemma alloc_insert_run U p b r blkno :
  taken U b p -> bufs p !! b = Some r -> (forall a ra, a <> b -> bufs p !! a = Some ra -> b_state ra <> BUF_STATE_FREE -> b_blkno ra <> blkno) ->
  exists p', alloc_insert blkno b p = Done (Gives b, p') /\ bgood ({[b]} ∪ U) p' /\ changed b (cleared_buf p blkno) p p'.
Proof.
  intros (F & C & D & H & B) Hr Hnc. destruct (enter_run U F C D H p b r blkno B Hr) as (p1 & E1 & Hc1 & Hsl & (H' & Hbk & HH) & Hsb & Hcn).
  pose proof (ct_buf _ _ _ _ _ _ _ _ _ (bi_content _ _ _ _ _ _ _ B) b r Hr) as [K1 _ _ _ _ K6 _ _ K9]. destruct (K6 eq_refl) as [Hl0 Hw0].
  apply kbind_inv in E1 as ([] & q & E1 & E2). unfold alloc_insert. step E1. step E2. clear E1 E2 q. pose proof (changed_lookup _ _ _ _ Hc1) as Hr1.
  set (r1 := set_b_blkno blkno r) in *. rewrite kbind_kget. step (upd_buf_run p1 b r1 (set_b_data (zeros p1)) Hr1). set (r2 := set_b_data (zeros p1) r1). set (p2 := set_bufs _ p1).
  assert (Hr2 : bufs p2 !! b = Some r2) by apply lookup_insert_eq.
  assert (Hcn2 : counts (bufs p2) (bufcount p2)) by exact (counts_same (bufs p1) (bufcount p1) b r1 r2 Hcn Hr1 eq_refl).
  destruct (change_state_run p2 b r2 BUF_STATE_LOCKED Hcn2 Hr2 K1) as (cnt & E3 & Hcn3); [done|]. step E3.
  set (r3 := set_b_state _ _). set (p3 := set_bufs _ (set_bufcount cnt p2)). assert (Hr3 : bufs p3 !! b = Some r3) by apply lookup_insert_eq.
  step (add_lock_run p3 b r3 Hr3 ltac:(cbn; lia)). set (r4 := set_b_locks (b_locks r3 + 1) r3). set (p4 := set_bufs _ p3). exists p4. split; [done|].
  assert (Hcn4 : counts (bufs p4) (bufcount p4)) by exact (counts_same (bufs p3) (bufcount p3) b r3 r4 Hcn3 Hr3 eq_refl).
  assert (Hchg : changed b (cleared_buf p blkno) p p4).
  { eapply changed_trans; [exact Hc1|]. split; [|done]. cbn [bufs p4 p3 set_bufs set_bufcount p2]. rewrite !insert_insert_eq.
    unfold r4, r3, r2, r1, set_b_state, set_b_locks, set_b_blkno, cleared_buf, zeros, set_b_data. cbn. rewrite Hl0, Hw0. by rewrite (proj2 (proj2 Hc1)). }
  split; [|exact Hchg]. exists F, C, D, H'. apply (binv_entered U _ F C D H H' p _ b r (cleared_buf p blkno) B Hr); try done.
  - split; cbn; try done; by intros [?|[?|[?|?]]].
  - set_solver.
  - split; [set_solver|done].
Qed.

(** ** The end of a transfer *)

(** The threads that waited for [r] have a lock each. *)
Definition woken_buf (s : Z) (r : buf) : buf := Buf s (b_locks r + Z.of_nat (length (b_waiters r))) [] (b_blkno r) (b_data r).

Lemma release_waiters_run b key ts : forall p r, bufs p !! b = Some r -> 0 <= b_locks r -> b_locks r + Z.of_nat (length ts) < 65536 ->
  release_waiters_loop b key ts p =
  Done (tt, set_woken (woken p ++ ((fun t => (t, key)) <$> ts)) (set_bufs (<[b := set_b_locks (b_locks r + Z.of_nat (length ts)) r]> (bufs p)) p)).
Proof.
  induction ts as [|t ts IH]; intros p r Hr Hl Hb; cbn [release_waiters_loop length] in *.
  - cbn [fmap list_fmap]. rewrite app_nil_r, Z.add_0_r. replace (set_b_locks (b_locks r) r) with r by (by destruct r). rewrite insert_id by done. by destruct p.
  - rewrite Nat2Z.inj_succ in *. step (add_lock_run p b r Hr ltac:(lia)). rewrite kbind_kmod. set (p1 := set_woken _ _).
    rewrite (IH p1 (set_b_locks (b_locks r + 1) r)); [|apply lookup_insert_eq|cbn; lia|cbn; lia]. cbn [b_locks set_b_locks].
    replace (b_locks r + 1 + Z.of_nat (length ts)) with (b_locks r + Z.succ (Z.of_nat (length ts))) by lia.
    unfold p1. cbn [woken set_woken set_bufs bufs]. rewrite insert_insert_eq, <- app_assoc. done.
Qed.

Lemma end_transfer_run p b r s key :
  counts (bufs p) (bufcount p) -> bufs p !! b = Some r -> valid_state (b_state r) -> valid_state s -> 0 <= b_locks r -> b_locks r + Z.of_nat (length (b_waiters r)) < 65536 ->
  exists p', (change_state b s ;;; release_buffer_waiters b key) p = Done (tt, p') /\ changed b (woken_buf s r) p p' /\ same_lists p p' /\ counts (bufs p') (bufcount p').
Proof.
  intros Hcn Hr Hv Hs Hl Hb. destruct (change_state_run p b r s Hcn Hr Hv Hs) as (cnt & E1 & Hcn1). step E1. set (p1 := set_bufs _ _). set (r1 := set_b_state s r) in *.
  assert (Hr1 : bufs p1 !! b = Some r1) by apply lookup_insert_eq. unfold release_buffer_waiters. step (get_buf_run p1 b r1 Hr1).
  step (release_waiters_run b key (b_waiters r1) p1 r1 Hr1 Hl Hb). set (r2 := set_b_locks _ r1). set (p2 := set_woken _ _).
  assert (Hr2 : bufs p2 !! b = Some r2) by apply lookup_insert_eq. rewrite (upd_buf_run p2 b r2 _ Hr2). eexists. split; [done|]. split; [|split; [done|]].
  - split; [|done]. cbn. by rewrite !insert_insert_eq.
  - apply (counts_same (bufs p2) cnt b r2); [|done|done]. by apply (counts_same (bufs p1) cnt b r1).
Qed.

(** The buffer that a transfer has ended for is still in use. *)
Lemma end_transfer_good U p b r s key :
  bgood U p -> bufs p !! b = Some r -> inner (b_state r) -> b ∉ U -> (s = BUF_STATE_LOCKED /\ 1 <= b_locks r + Z.of_nat (length (b_waiters r))) \/ s = BUF_STATE_ERROR ->
  (s = BUF_STATE_LOCKED -> disk p !! b_blkno r = Some (b_data r)) ->
  exists p', (change_state b s ;;; release_buffer_waiters b key) p = Done (tt, p') /\ bgood U p' /\ changed b (woken_buf s r) p p'.
Proof.
  intros G Hr Hi HbU Hs Hd. destruct (buf_facts U p b r G Hr) as (_ & Hv & [[Hl1 Hl2] Hidle Hheld Hw] & _).
  destruct (end_transfer_run p b r s key (good_counts U p G) Hr Hv) as (p' & E & Hc & Hsl & Hcn); [destruct Hs as [[-> _]| ->]; done|done|done|].
  exists p'. split; [done|]. split; [|done]. apply (good_inner U U p p' b r (woken_buf s r) G Hr Hi); try done.
  - destruct Hs as [[-> _]| ->]; done.
  - split; cbn; [lia| | |done].
    + destruct Hs as [[-> _]| ->]; by intros [?|[?|[?|?]]].
    + destruct Hs as [[-> ?]| ->]; [done|]. by intros [?|[?|[?|?]]].
  - intros _. cbn. destruct Hc as (_ & -> & _). auto.
  - intros k _. by destruct Hc as (_ & -> & _).
  - apply Hc.
Qed.

(** What [read_buffer] makes of a buffer. *)
Definition read_buf (p : bufpool) (rc : Z) (r : buf) : buf :=
  if rc =? bufsize p then woken_buf BUF_STATE_LOCKED (set_b_data (default [] (disk p !! b_blkno r)) r) else woken_buf BUF_STATE_ERROR r.

Lemma set_data_good U p b r d :
  bgood U p -> bufs p !! b = Some r -> inner (b_state r) -> b_state r <> BUF_STATE_LOCKED -> bgood U (set_bufs (<[b := set_b_data d r]> (bufs p)) p).
Proof.
  intros G Hr Hi Hs. destruct (buf_facts U p b r G Hr) as (_ & _ & [? ? ? ?] & HU & _).
  apply (good_inner U U p _ b r (set_b_data d r) G Hr Hi); try done. exact (counts_same (bufs p) (bufcount p) b r (set_b_data d r) (good_counts U p G) Hr eq_refl).
Qed.

Lemma read_end_run U p b r rc :
  bgood U p -> bufs p !! b = Some r -> b_state r = BUF_STATE_READING -> (rc = bufsize p -> is_Some (disk p !! b_blkno r)) ->
  exists p', read_end b rc p = Done (tt, p') /\ bgood U p' /\ changed b (read_buf p rc r) p p'.
Proof.
  intros G Hr Hs Hd. destruct (buf_facts U p b r G Hr) as (_ & Hv & [[Hl1 Hl2] Hidle Hheld Hw] & HU & _).
  assert (Hi : inner (b_state r)) by (by rewrite Hs). assert (HbU : b ∉ U) by (intros E%HU; by rewrite Hs in E).
  unfold read_end, read_buf. rewrite kbind_kget. destruct (Z.eqb_spec rc (bufsize p)) as [E|E]; cbn [negb].
  - destruct (Hd E) as [d Hdk]. step (get_buf_run p b r Hr). rewrite Hdk. cbn [kopt default]. rewrite kbind_kret. step (upd_buf_run p b r _ Hr).
    set (r1 := set_b_data d r). set (p1 := set_bufs _ p). assert (Hr1 : bufs p1 !! b = Some r1) by apply lookup_insert_eq.
    destruct (end_transfer_good U p1 b r1 BUF_STATE_LOCKED 0) as (p' & E1 & G' & Hc); try done.
    + apply set_data_good; [done..|by rewrite Hs].
    + left. split; [done|]. assert (1 <= b_locks r) by (apply Hheld; tauto). cbn. lia.
    + exists p'. split; [exact E1|]. split; [done|]. by apply (changed_trans b r1 _ p p1 p').
  - destruct (end_transfer_good U p b r BUF_STATE_ERROR rc G Hr Hi HbU) as (p' & E1 & G' & Hc); [by right|done|]. by exists p'.
Qed.

(** The end of the read of [get_buffer]. *)
Lemma get_buffer_read_run U p b r rc :
  bgood U p -> 0 <= bufsize p -> bufs p !! b = Some r -> b_state r = BUF_STATE_READING -> (rc = bufsize p -> is_Some (disk p !! b_blkno r)) ->
  exists p', get_buffer_read b rc p = Done (Gives (if rc <? 0 then 0 else b), p') /\ bgood U p' /\
    changed b (if rc <? 0 then released (read_buf p rc r) else read_buf p rc r) p p'.
Proof.
  intros G Hsz Hr Hs Hd. destruct (read_end_run U p b r rc G Hr Hs Hd) as (p1 & E1 & G1 & C1). unfold get_buffer_read. step E1.
  destruct (Z.ltb_spec rc 0) as [Hlt|Hge]; [|by exists p1]. pose proof (changed_lookup _ _ _ _ C1) as Hr1.
  destruct (buf_facts U p b r G Hr) as (_ & _ & [_ _ Hheld _] & HU & _). assert (1 <= b_locks r) by (apply Hheld; tauto).
  assert (Er : read_buf p rc r = woken_buf BUF_STATE_ERROR r) by (unfold read_buf; destruct (Z.eqb_spec rc (bufsize p)); [lia|done]).
  destruct (release_run U p1 b _ G1 Hr1) as (p' & E2 & G2 & C2); rewrite ?Er; [unfold held_state; cbn; tauto|cbn; lia|right; intros E%HU; by rewrite Hs in E|].
  exists p'. split; [by step E2|]. split; [done|]. rewrite Er in C2. rewrite Er in C1. by apply (changed_trans b _ _ p p1 p' C1).
Qed.

(** ** Writing *)

(** The device after it has been given the data of [r]. *)
Definition wrote (rc : Z) (r : buf) (p : bufpool) : bufpool := if rc =? bufsize p then set_disk (<[b_blkno r := b_data r]> (disk p)) p else p.

Lemma dev_write_run p b r rc : bufs p !! b = Some r -> dev_write b rc p = Done (tt, wrote rc r p).
Proof. intros Hr. unfold dev_write, wrote. rewrite kbind_kget. destruct (rc =? bufsize p); [|done]. by step (get_buf_run p b r Hr). Qed.

Lemma wrote_good U p b r rc : bgood U p -> bufs p !! b = Some r -> inner (b_state r) -> bgood U (wrote rc r p).
Proof.
  intros G Hr Hi. unfold wrote. destruct (rc =? bufsize p); [|done]. destruct (buf_facts U p b r G Hr) as (_ & _ & Hlo & HU & _).
  apply (good_inner U U p _ b r r G Hr Hi Hi); try done.
  - intros _ _. apply lookup_insert_eq.
  - intros k Hk. cbn. by rewrite lookup_insert_ne.
  - cbn. by rewrite insert_id.
  - apply (good_counts U p G).
Qed.

(** The device has written the buffer or returned an error. *)
Definition write_ok (p : bufpool) (rc : Z) (r : buf) : Prop := 0 <= bufsize p /\ ((rc = bufsize p /\ disk p !! b_blkno r = Some (b_data r)) \/ rc < 0).

Definition written_buf (p : bufpool) (rc : Z) (r : buf) : buf := woken_buf (if rc =? bufsize p then BUF_STATE_LOCKED else BUF_STATE_ERROR) r.

Lemma write_end_eq p b rc : write_end b rc p =
  (change_state b (if rc =? bufsize p then BUF_STATE_LOCKED else BUF_STATE_ERROR) ;;; release_buffer_waiters b (if rc =? bufsize p then 0 else rc)) p.
Proof. unfold write_end. rewrite kbind_kget. by destruct (rc =? bufsize p). Qed.

(** It stays in use if a thread waits for it, or after an error. *)
Lemma write_end_good U p b r rc :
  bgood U p -> bufs p !! b = Some r -> b_state r = BUF_STATE_WRITING -> write_ok p rc r -> b_waiters r <> [] \/ rc < 0 ->
  exists p', write_end b rc p = Done (tt, p') /\ bgood U p' /\ changed b (written_buf p rc r) p p'.
Proof.
  intros G Hr Hs [Hsz Hok] Hw. rewrite write_end_eq. destruct (buf_facts U p b r G Hr) as (_ & _ & [[Hl1 Hl2] _ _ _] & HU & _).
  apply end_transfer_good; [done|done|by rewrite Hs|intros E%HU; by rewrite Hs in E| |].
  - destruct (Z.eqb_spec rc (bufsize p)) as [E|E]; [left|by right]. split; [done|]. destruct Hw as [Hw|Hw]; [|lia]. destruct (b_waiters r); [done|]. cbn [length]. lia.
  - destruct (Z.eqb_spec rc (bufsize p)) as [E|E]; [|done]. intros _. destruct Hok as [[_ ?]|?]; [done|lia].
Qed.

(** Otherwise nobody has it. *)
Lemma write_end_idle U F C D H p b r rc :
  binv 0 U F C D H p -> bufs p !! b = Some r -> b_state r = BUF_STATE_WRITING -> rc = bufsize p -> b_waiters r = [] ->
  exists p', write_end b rc p = Done (tt, p') /\ changed b (Buf BUF_STATE_LOCKED 0 [] (b_blkno r) (b_data r)) p p' /\ same_lists p p' /\
    counts (bufs p') (bufcount p') /\ (b ∉ U) /\ (b ∉ F ++ C ++ D) /\ b <> 0.
Proof.
  intros B Hr Hs Hrc Hw. assert (G : bgood U p) by (by exists F, C, D, H). destruct (buf_facts U p b r G Hr) as (Hb0 & Hv & [[Hl1 Hl2] Hidle _ _] & HU & _).
  rewrite write_end_eq, Hrc, Z.eqb_refl. destruct (end_transfer_run p b r BUF_STATE_LOCKED 0 (good_counts U p G) Hr Hv) as (p' & E & Hc & Hsl & Hcn); [done|done|done|].
  exists p'. split; [done|]. split; [|split_and!; [apply Hsl..|done|intros Eu%HU; by rewrite Hs in Eu|eapply inner_out; [done..|by rewrite Hs]|done]].
  unfold woken_buf in Hc. rewrite Hw, (Hidle ltac:(tauto)) in Hc. exact Hc.
Qed.

Lemma take_written_run U p b r rc :
  bgood U p -> bufs p !! b = Some r -> b_state r = BUF_STATE_WRITING -> write_ok p rc r ->
  exists res p', take_written b rc p = Done (res, p') /\ changed b (written_buf p rc r) p p' /\
    ((res = NewBuffer b /\ taken U b p' /\ rc = bufsize p) \/ (res = NewYields /\ bgood U p')).
Proof.
  intros G Hr Hs Hok. pose proof Hok as [Hsz Hcase]. unfold take_written. destruct (decide (b_waiters r <> [] \/ rc < 0)) as [Hw|Hw].
  - destruct (write_end_good U p b r rc G Hr Hs Hok Hw) as (p' & E & G' & Hc). step E. pose proof (changed_lookup _ _ _ _ Hc) as Hr'. step (get_buf_run p' b _ Hr').
    exists NewYields, p'. split; [|split; [done|by right]]. destruct (Z.ltb_spec rc 0); cbn [negb andb]; [done|]. destruct Hw as [Hw|?]; [|lia].
    destruct (buf_facts U p b r G Hr) as (_ & _ & [[Hl1 _] _ _ _] & _). unfold written_buf, woken_buf. cbn [b_locks]. destruct (b_waiters r); [done|]. cbn [length].
    destruct (Z.eqb_spec (b_locks r + Z.of_nat (S (length l))) 0); [lia|done].
  - assert (Hw0 : b_waiters r = []) by (destruct (b_waiters r); [done|destruct Hw; by left]). assert (Hrc : rc = bufsize p) by (destruct Hcase as [[? _]|?]; [done|tauto]).
    pose proof G as (F & C & D & H & B). destruct (write_end_idle U F C D H p b r rc B Hr Hs Hrc Hw0) as (p1 & E & Hc & (L1 & L2 & L3 & L4 & L5 & L6) & Hcn & HbU & Hout & Hb0).
    step E. pose proof (changed_lookup _ _ _ _ Hc) as Hr1. step (get_buf_run p1 b _ Hr1). destruct (Z.ltb_spec rc 0); [lia|]. cbn [negb andb b_locks Z.eqb].
    set (r1 := Buf BUF_STATE_LOCKED 0 [] (b_blkno r) (b_data r)) in *.
    destruct (remove_good_run U F C D H p p1 b r r1 B Hr) as (m & ht & H' & E2 & Hbk & HH & Hnb & Hm); [by rewrite Hs|done|done|done|done|]. step E2.
    eexists _, _. split; [done|]. assert (Er : written_buf p rc r = r1).
    { unfold written_buf, woken_buf. rewrite Hrc, Z.eqb_refl, Hw0. cbn. destruct (buf_facts U p b r G Hr) as (_ & _ & [_ Hidle _ _] & _). by rewrite Hidle by tauto. }
    rewrite Er. split; [done|]. left. split; [done|]. split; [|done]. exists F, C, D, H'. pose proof Hc as (Em & Ed & _).
    apply (binv_taken U F F C C D D H H' p _ b r r1 B Hr); try done.
    + cbn. rewrite L1, L2, L3, L4. apply B.
    + intros a Ha. split_and!; try done. intros i. by apply HH.
    + intros a ra _ _ _. cbn. by rewrite Ed.
    + apply (linked_same p _ b r1); [apply B|by eexists|exact Em|cbn; rewrite L1; auto|exact Hm].
Qed.

(** What [flush_buffers] makes of a buffer. *)
Definition flushed_buf (p : bufpool) (rc : Z) (r : buf) : buf :=
  if (rc =? bufsize p) && bool_decide (b_waiters r = []) then Buf BUF_STATE_CLEAN 0 [] (b_blkno r) (b_data r) else written_buf p rc r.

Lemma flush_rest_run U p b r rc :
  bgood U p -> bufs p !! b = Some r -> b_state r = BUF_STATE_WRITING -> write_ok p rc r ->
  exists p', flush_rest b rc p = Done (if rc <? 0 then FlushDone rc else FlushMore, p') /\ bgood U p' /\ changed b (flushed_buf p rc r) p p'.
Proof.
  intros G Hr Hs Hok. pose proof Hok as [Hsz Hcase]. unfold flush_rest, flushed_buf. destruct (decide (b_waiters r <> [] \/ rc < 0)) as [Hw|Hw].
  - destruct (write_end_good U p b r rc G Hr Hs Hok Hw) as (p' & E & G' & Hc). step E. pose proof (changed_lookup _ _ _ _ Hc) as Hr'.
    assert (Eb : (rc =? bufsize p) && bool_decide (b_waiters r = []) = false).
    { apply andb_false_iff. destruct Hw as [Hw|Hw]; [right; by apply bool_decide_eq_false|left; apply Z.eqb_neq; lia]. }
    rewrite Eb. exists p'. split; [|done]. destruct (Z.ltb_spec rc 0); [done|]. destruct Hw as [Hw|?]; [|lia]. step (get_buf_run p' b _ Hr').
    destruct (buf_facts U p b r G Hr) as (_ & _ & [[Hl1 _] _ _ _] & _). unfold written_buf, woken_buf. cbn [b_locks]. destruct (b_waiters r); [done|]. cbn [length].
    destruct (Z.eqb_spec (b_locks r + Z.of_nat (S (length l))) 0); [lia|done].
  - assert (Hw0 : b_waiters r = []) by (destruct (b_waiters r); [done|destruct Hw; by left]). assert (Hrc : rc = bufsize p /\ disk p !! b_blkno r = Some (b_data r)) by (destruct Hcase; [done|tauto]).
    destruct Hrc as [Hrc Hdk]. pose proof G as (F & C & D & H & B).
    destruct (write_end_idle U F C D H p b r rc B Hr Hs Hrc Hw0) as (p1 & E & Hc & (L1 & L2 & L3 & L4 & L5 & L6) & Hcn & HbU & Hout & Hb0).
    step E. pose proof (changed_lookup _ _ _ _ Hc) as Hr1. destruct (Z.ltb_spec rc 0); [lia|]. step (get_buf_run p1 b _ Hr1). cbn [b_locks Z.eqb]. set (r1 := Buf BUF_STATE_LOCKED 0 [] (b_blkno r) (b_data r)) in *.
    destruct (change_state_run p1 b r1 BUF_STATE_CLEAN Hcn Hr1) as (cnt & E2 & Hcn2); [done|done|]. set (p2 := set_bufs _ (set_bufcount cnt p1)) in *.
    destruct (join_clean_run F C D p2 b) as (m & c & E3 & Hch3 & Hsm); [cbn; rewrite L1, L2, L3, L4; apply B|done|done|cbn; rewrite L1; apply B; by eexists|].
    exists (set_clean c (set_chain m p2)). split; [rewrite kbind_assoc; step E2; by step E3|].
    rewrite (bool_decide_eq_true_2 _ Hw0), Hrc, Z.eqb_refl. cbn [andb]. set (r' := Buf BUF_STATE_CLEAN 0 [] (b_blkno r) (b_data r)).
    assert (Hchg : changed b r' p (set_clean c (set_chain m p2))) by (apply (changed_trans b r1 r' p p1); [done|split; [|done]]; done). pose proof Hchg as (Em & Ed & _).
    split; [|done]. exists F, (C ++ [b]), D, H. apply (binv_in U F C D (C ++ [b]) D H p _ b r r' B Hr); try done; [by rewrite Hs| | | |].
    + left. split; [done|]. split; [by rewrite Ed|]. set_solver.
    + intros a Ha. set_solver.
    + intros k _. by rewrite Ed.
    + eapply (linked_same p _ b); [apply B|by eexists|exact Em| |cbn; rewrite L5; auto]. intros a Ha. cbn. apply Hsm. cbn. by rewrite L1.
Qed.

(** ** What a holder of a buffer does *)

(** A thread that finds the buffer in error gives it back. *)
Definition kept_buf (r : buf) : buf := if b_state r =? BUF_STATE_ERROR then released r else r.

Lemma changed_refl b r p : bufs p !! b = Some r -> changed b r p p.
Proof. intros Hr. split; [by rewrite insert_id|done]. Qed.

Lemma error_not_fresh U p b r : bgood U p -> bufs p !! b = Some r -> b_state r <> BUF_STATE_LOCKED -> b ∉ U.
Proof. intros G Hr Hs E. by apply Hs, (buf_facts U p b r G Hr). Qed.

Lemma take_cached_run U p b r :
  bgood U p -> bufs p !! b = Some r -> held_state (b_state r) -> 1 <= b_locks r ->
  exists p', take_cached b p = Done (Gives (if b_state r =? BUF_STATE_ERROR then 0 else b), p') /\ bgood U p' /\ changed b (kept_buf r) p p'.
Proof.
  intros G Hr Hh Hl. unfold take_cached, kept_buf. step (get_buf_run p b r Hr). destruct (Z.eqb_spec (b_state r) BUF_STATE_ERROR) as [E|E].
  - destruct (release_run U p b r G Hr Hh Hl) as (p' & E1 & G' & Hc); [right; apply (error_not_fresh U p b r G Hr); by rewrite E|]. exists p'. by step E1.
  - exists p. split; [done|]. split; [done|by apply changed_refl].
Qed.

(** The holder stores data in the buffer. *)
Definition store (b : Z) (d : list Z) : K bufpool unit := upd_buf b (set_b_data d).

Definition stored (b : Z) (r : buf) (U : gset Z) : gset Z := if b_state r =? BUF_STATE_LOCKED then {[b]} ∪ U else U.

Lemma store_run U p b r d :
  bgood U p -> bufs p !! b = Some r -> held_state (b_state r) ->
  exists p', store b d p = Done (tt, p') /\ bgood (stored b r U) p' /\ changed b (set_b_data d r) p p'.
Proof.
  intros G Hr Hh. destruct (held_inner _ Hh) as (Hi & _). unfold store. rewrite (upd_buf_run p b r _ Hr). eexists. split; [done|]. split; [|done].
  destruct (buf_facts U p b r G Hr) as (_ & _ & [? ? ? ?] & HU & _). unfold stored.
  assert (Hcn : counts (<[b := set_b_data d r]> (bufs p)) (bufcount p)) by exact (counts_same (bufs p) (bufcount p) b r (set_b_data d r) (good_counts U p G) Hr eq_refl).
  destruct (Z.eqb_spec (b_state r) BUF_STATE_LOCKED) as [E|E].
  - apply (good_inner U _ p _ b r (set_b_data d r) G Hr Hi); try done; set_solver.
  - apply (good_inner U _ p _ b r (set_b_data d r) G Hr Hi); done.
Qed.

Lemma alloc_cached_run U p b r :
  bgood U p -> bufs p !! b = Some r -> held_state (b_state r) -> 1 <= b_locks r ->
  exists p', alloc_cached b p = Done (Gives (if b_state r =? BUF_STATE_ERROR then 0 else b), p') /\
    bgood (stored b r U) p' /\ changed b (if b_state r =? BUF_STATE_ERROR then released r else set_b_data (zeros p) r) p p'.
Proof.
  intros G Hr Hh Hl. unfold alloc_cached. step (get_buf_run p b r Hr). destruct (Z.eqb_spec (b_state r) BUF_STATE_ERROR) as [E|E].
  - destruct (release_run U p b r G Hr Hh Hl) as (p' & E1 & G' & Hc); [right; apply (error_not_fresh U p b r G Hr); by rewrite E|]. exists p'. step E1.
    split; [done|]. unfold stored. by rewrite E.
  - rewrite kbind_kget. destruct (store_run U p b r (zeros p) G Hr Hh) as (p' & E1 & G' & Hc). exists p'. split; [unfold store in E1; by step E1|done].
Qed.

Definition updated_buf (r : buf) : buf := if (b_state r =? BUF_STATE_LOCKED) || (b_state r =? BUF_STATE_INVALID) then set_b_state BUF_STATE_UPDATED r else r.
Definition invalid_buf (r : buf) : buf := if (b_state r =? BUF_STATE_LOCKED) || (b_state r =? BUF_STATE_UPDATED) then set_b_state BUF_STATE_INVALID r else r.

(** A change of state of a buffer that is held takes it out of [U]. *)
Lemma mark_run U p b r s :
  bgood U p -> bufs p !! b = Some r -> held_state (b_state r) -> 1 <= b_locks r -> s = BUF_STATE_UPDATED \/ s = BUF_STATE_INVALID ->
  exists p', change_state b s p = Done (tt, p') /\ bgood (U ∖ {[b]}) p' /\ changed b (set_b_state s r) p p'.
Proof.
  intros G Hr Hh Hl Hs. destruct (held_inner _ Hh) as (Hi & N1 & N2). destruct (buf_facts U p b r G Hr) as (_ & _ & Hlo & _).
  apply (good_state U); [done|done|done|by destruct Hs as [-> | ->]| |set_solver|set_solver|by destruct Hs as [-> | ->]].
  apply locks_state; [done|by apply no_waiters|done|by destruct Hs as [-> | ->]|by destruct Hs as [-> | ->]].
Qed.

Lemma good_drop U p b r : bgood U p -> bufs p !! b = Some r -> b_state r <> BUF_STATE_LOCKED -> bgood (U ∖ {[b]}) p.
Proof. intros G Hr Hs. assert (E : b ∉ U) by (by apply (error_not_fresh U p b r)). replace (U ∖ {[b]}) with U by set_solver. done. Qed.

Lemma mark_updated_run U p b r :
  bgood U p -> bufs p !! b = Some r -> held_state (b_state r) -> 1 <= b_locks r ->
  exists p', mark_buffer_updated b p = Done (tt, p') /\ bgood (U ∖ {[b]}) p' /\ changed b (updated_buf r) p p'.
Proof.
  intros G Hr Hh Hl. unfold mark_buffer_updated, updated_buf. step (get_buf_run p b r Hr).
  destruct (Z.eqb_spec (b_state r) BUF_STATE_LOCKED) as [E|E]; cbn [orb]; [apply mark_run; tauto|].
  destruct (Z.eqb_spec (b_state r) BUF_STATE_INVALID); [apply mark_run; tauto|]. exists p. split; [done|]. split; [by apply (good_drop U p b r)|by apply changed_refl].
Qed.

Lemma mark_invalid_run U p b r :
  bgood U p -> bufs p !! b = Some r -> held_state (b_state r) -> 1 <= b_locks r ->
  exists p', mark_buffer_invalid b p = Done (tt, p') /\ bgood (U ∖ {[b]}) p' /\ changed b (invalid_buf r) p p'.
Proof.
  intros G Hr Hh Hl. unfold mark_buffer_invalid, invalid_buf. step (get_buf_run p b r Hr).
  destruct (Z.eqb_spec (b_state r) BUF_STATE_LOCKED) as [E|E]; cbn [orb]; [apply mark_run; tauto|].
  destruct (Z.eqb_spec (b_state r) BUF_STATE_UPDATED); [apply mark_run; tauto|]. exists p. split; [done|]. split; [by apply (good_drop U p b r)|by apply changed_refl].
Qed.

Lemma invalid_held r : held_state (b_state r) -> held_state (b_state (invalid_buf r)) /\ b_locks (invalid_buf r) = b_locks r.
Proof. unfold invalid_buf. intros Hh. destruct (_ || _); [|done]. split; [|done]. right. right. by left. Qed.

Lemma invalidate_run U p b r :
  bgood U p -> bufs p !! b = Some r -> held_state (b_state r) -> 1 <= b_locks r ->
  exists p', invalidate b p = Done (tt, p') /\ bgood (U ∖ {[b]}) p' /\ changed b (released (invalid_buf r)) p p'.
Proof.
  intros G Hr Hh Hl. destruct (mark_invalid_run U p b r G Hr Hh Hl) as (p1 & E1 & G1 & C1). unfold invalidate. step E1. pose proof (changed_lookup _ _ _ _ C1) as Hr1.
  destruct (invalid_held r Hh) as [Hh1 Hl1]. destruct (release_run (U ∖ {[b]}) p1 b _ G1 Hr1 Hh1) as (p' & E2 & G2 & C2); [lia|right; set_solver|].
  exists p'. split; [done|]. split; [done|]. by eapply changed_trans.
Qed.

(** The end of the round of [sync_buffers] if the buffer is as it was written. *)
Lemma sync_rest_run U p b r rc :
  bgood U p -> bufs p !! b = Some r -> b_state r = BUF_STATE_UPDATED -> 1 <= b_locks r -> disk p !! b_blkno r = Some (b_data r) -> 0 <= rc ->
  exists p', sync_rest b rc p = Done (FlushMore, p') /\ bgood U p' /\ changed b (released (set_b_state BUF_STATE_LOCKED r)) p p'.
Proof.
  intros G Hr Hs Hl Hd Hrc. unfold sync_rest. destruct (Z.ltb_spec rc 0); [lia|]. destruct (buf_facts U p b r G Hr) as (_ & _ & Hlo & _).
  assert (HbU : b ∉ U) by (apply (error_not_fresh U p b r); [done..|by rewrite Hs]).
  destruct (good_state U U p b r BUF_STATE_LOCKED G Hr) as (p1 & E1 & G1 & C1); [by rewrite Hs|done| |done|done|done|].
  { apply locks_state; try done. apply no_waiters; [done|by rewrite Hs..]. }
  step E1. pose proof (changed_lookup _ _ _ _ C1) as Hr1. destruct (release_run U p1 b _ G1 Hr1) as (p' & E2 & G2 & C2); [by left|done|by right|].
  exists p'. split; [by step E2|]. split; [done|]. by eapply changed_trans.
Qed.
