(* ===== verification/Bufview.v ===== *)
(** * The buffer cache as a store of blocks (sys/krnl/buf.c)

    What the users of the cache see is a store of blocks: the operations of the
    cache are steps of this store, in any order that the threads of the kernel
    run them, as long as each step keeps the rules of [keeps_rules].  Two of
    these rules are not enforced by the code: nobody asks for a block that
    another thread is looking for a new buffer for, and nobody changes a buffer
    that [sync_buffers] is writing.  That the block is not in the cache when
    [get_new_buffer] returns, and that the device has the data of the buffer
    when [sync_buffers] goes on, follow from the rules.  Two theorems at the end
    show what happens in any pool when they are not kept.  A device call
    transfers a buffer or returns an error and leaves the block as it was. *)

From S2P Require Import Prelude Buf Bufcache.
Local Open Scope k_scope.

(** ** The view *)

(** A buffer in one of these states has the data of its block. *)
Definition live (s : Z) : Prop := s = BUF_STATE_CLEAN \/ s = BUF_STATE_DIRTY \/ s = BUF_STATE_WRITING \/ s = BUF_STATE_LOCKED \/ s = BUF_STATE_UPDATED.

(** A buffer in one of these says nothing of it. *)
Definition silent (r : buf) (blk : Z) : Prop := b_blkno r = blk -> b_state r = BUF_STATE_FREE \/ b_state r = BUF_STATE_READING \/ b_state r = BUF_STATE_ERROR.

Definition shows (r : buf) (blk : Z) (d : list Z) : Prop := live (b_state r) /\ b_blkno r = blk /\ b_data r = d.

(** The block has the data [d], in a buffer or on the device. *)
Definition holds (p : bufpool) (blk : Z) (d : list Z) : Prop :=
  (exists b r, bufs p !! b = Some r /\ shows r blk d) \/ (disk p !! blk = Some d /\ forall b r, bufs p !! b = Some r -> silent r blk).

(** The store [A] of the blocks that have data. *)
Definition cview (A : gmap Z (list Z)) (p : bufpool) : Prop := forall blk d, A !! blk = Some d -> holds p blk d.

Lemma live_shown r blk d : shows r blk d -> silent r blk -> False.
Proof. intros (Hl & Hk & _) Hs. destruct (Hs Hk) as [E|[E|E]]; rewrite E in Hl; by destruct Hl as [?|[?|[?|[?|?]]]]. Qed.

Lemma live_cached s : live s -> s <> BUF_STATE_FREE.
Proof. by intros [-> |[-> |[-> |[-> | ->]]]]. Qed.

Lemma good_one U p b1 b2 r1 r2 : bgood U p -> bufs p !! b1 = Some r1 -> bufs p !! b2 = Some r2 ->
  b_state r1 <> BUF_STATE_FREE -> b_state r2 <> BUF_STATE_FREE -> b_blkno r1 = b_blkno r2 -> b1 = b2.
Proof.
  intros G H1 H2. destruct (buf_facts U p b1 r1 G H1) as [N1 _]. destruct (buf_facts U p b2 r2 G H2) as [N2 _]. destruct G as (F & C & D & H & [_ _ Hct _]).
  by apply (ct_one _ _ _ _ _ _ _ _ _ Hct).
Qed.

(** One buffer changes. *)
Lemma view_step U A A' p p' b r r' :
  bgood U p -> cview A p -> bufs p !! b = Some r -> changed b r' p p' ->
  (forall blk d, A' !! blk = Some d -> shows r' blk d \/
     (A !! blk = Some d /\ (shows r blk d -> shows r' blk d \/ (silent r' blk /\ disk p !! blk = Some d)) /\
      (silent r blk -> disk p !! blk = Some d -> silent r' blk \/ shows r' blk d))) -> cview A' p'.
Proof.
  intros G V Hr (Em & Ed & _) HA blk d Hb. destruct (HA blk d Hb) as [Hs|(Ha & H1 & H2)]; [left; exists b, r'; by rewrite Em, lookup_insert_eq|].
  assert (Hput : shows r' blk d -> holds p' blk d) by (intros Hs; left; exists b, r'; by rewrite Em, lookup_insert_eq).
  assert (Hall : (forall a ra, a <> b -> bufs p !! a = Some ra -> silent ra blk) -> silent r' blk -> disk p !! blk = Some d -> holds p' blk d).
  { intros Ho Hs Hd. right. rewrite Ed. split; [done|]. intros a ra. rewrite Em. intros [[<- <-]|[Hne Hra]]%lookup_insert_Some; [done|by apply (Ho a)]. }
  destruct (V blk d Ha) as [(a & ra & Hra & Hs)|[Hd Hall']].
  - destruct (decide (a = b)) as [->|Hne]; [|left; exists a, ra; by rewrite Em, lookup_insert_ne]. assert (ra = r) as -> by congruence.
    destruct (H1 Hs) as [?|[? ?]]; [auto|]. apply Hall; [|done|done]. intros c rc Hc Hrc Ek. destruct (decide (b_state rc = BUF_STATE_FREE)) as [|Hnf]; [by left|].
    destruct Hs as (Hl & Hk & _). destruct Hc. apply (good_one U p c b rc r G Hrc Hr Hnf); [by apply live_cached|congruence].
  - destruct (H2 (Hall' b r Hr) Hd) as [?|?]; [|auto]. apply Hall; [|done|done]. intros c rc _ Hrc. by apply (Hall' c).
Qed.

(** It has the same data as before. *)
Lemma view_same U A p p' b r r' :
  bgood U p -> cview A p -> bufs p !! b = Some r -> changed b r' p p' -> b_blkno r' = b_blkno r -> (live (b_state r) -> live (b_state r') /\ b_data r' = b_data r) ->
  (forall blk, silent r blk -> silent r' blk) -> cview A p'.
Proof.
  intros G V Hr Hc Ek Hl Hs. apply (view_step U A A p p' b r r' G V Hr Hc). intros blk d Ha. right. split; [done|]. split; [|auto].
  intros (H1 & H2 & H3). destruct (Hl H1) as [H4 H5]. left. split; [done|]. split; congruence.
Qed.

(** It has new data. *)
Lemma view_put U A p p' b r r' :
  bgood U p -> cview A p -> bufs p !! b = Some r -> changed b r' p p' -> b_blkno r' = b_blkno r -> live (b_state r') -> cview (<[b_blkno r := b_data r']> A) p'.
Proof.
  intros G V Hr Hc Ek Hl. apply (view_step U A _ p p' b r r' G V Hr Hc). intros blk d [[<- <-]|[Hne Ha]]%lookup_insert_Some; [by left|]. right. split; [done|].
  split; [by intros (_ & ? & _)|]. intros _ _. left. intros E. congruence.
Qed.

(** Its data are lost. *)
Lemma view_drop U A p p' b r r' :
  bgood U p -> cview A p -> bufs p !! b = Some r -> changed b r' p p' -> b_blkno r' = b_blkno r -> cview (delete (b_blkno r) A) p'.
Proof.
  intros G V Hr Hc Ek. apply (view_step U A _ p p' b r r' G V Hr Hc). intros blk d [Hne Ha]%lookup_delete_Some. right. split; [done|].
  split; [by intros (_ & ? & _)|]. intros _ _. left. intros E. congruence.
Qed.

(** It is used for another block; its data are on the device. *)
Lemma view_reuse U A p p' b r r' :
  bgood U p -> cview A p -> bufs p !! b = Some r -> changed b r' p p' -> not_cached p (b_blkno r') ->
  b_state r = BUF_STATE_FREE \/ disk p !! b_blkno r = Some (b_data r) -> b_state r' = BUF_STATE_READING -> cview A p'.
Proof.
  intros G V Hr Hc Hnc Hd Hs'. apply (view_step U A _ p p' b r r' G V Hr Hc). intros blk d Ha. right. split; [done|].
  assert (Hsil : silent r' blk) by (intros _; by right; left). split; [|by left]. intros (Hl & <- & <-). right. split; [done|].
  destruct Hd as [Hf|Hd]; [|done]. by apply live_cached in Hl.
Qed.

Lemma view_alloc U A p p' b r r' :
  bgood U p -> cview A p -> bufs p !! b = Some r -> changed b r' p p' -> not_cached p (b_blkno r') ->
  b_state r = BUF_STATE_FREE \/ disk p !! b_blkno r = Some (b_data r) -> live (b_state r') -> cview (<[b_blkno r' := b_data r']> A) p'.
Proof.
  intros G V Hr Hc Hnc Hd Hs'. apply (view_step U A _ p p' b r r' G V Hr Hc). intros blk d [[<- <-]|[Hne Ha]]%lookup_insert_Some; [by left|]. right. split; [done|].
  assert (Hsil : silent r' blk) by (intros E; by destruct Hne). split; [|by left]. intros (Hl & <- & <-). right. split; [done|].
  destruct Hd as [Hf|Hd]; [|done]. by apply live_cached in Hl.
Qed.

(** The device takes the data of a buffer. *)
Lemma view_wrote U A p b r rc : bgood U p -> cview A p -> bufs p !! b = Some r -> live (b_state r) -> cview A (wrote rc r p).
Proof.
  intros G V Hr Hl blk d Ha. unfold wrote. destruct (rc =? bufsize p); [|by apply V]. destruct (V blk d Ha) as [?|[Hd Hall]]; [by left|]. right.
  split; [|done]. cbn. rewrite lookup_insert_ne; [done|]. intros E. apply (live_shown r blk (b_data r)); [done|by apply (Hall b)].
Qed.

(** [changed] is a composition. *)
Lemma view_silent (r r' : buf) : b_blkno r' = b_blkno r -> (b_state r = BUF_STATE_FREE \/ b_state r = BUF_STATE_READING \/ b_state r = BUF_STATE_ERROR ->
  b_state r' = BUF_STATE_FREE \/ b_state r' = BUF_STATE_READING \/ b_state r' = BUF_STATE_ERROR) -> forall blk, silent r blk -> silent r' blk.
Proof. intros Ek H blk Hs E. apply H, Hs. congruence. Qed.

(** The read of a block has ended. *)
Lemma view_read U A p p' b r r' :
  bgood U p -> cview A p -> bufs p !! b = Some r -> changed b r' p p' -> b_blkno r' = b_blkno r -> b_state r = BUF_STATE_READING ->
  live (b_state r') -> disk p !! b_blkno r = Some (b_data r') -> cview A p'.
Proof.
  intros G V Hr Hc Ek Hs Hl Hd. apply (view_step U A A p p' b r r' G V Hr Hc). intros blk d Ha. right. split; [done|]. split.
  - intros (Hl0 & _). rewrite Hs in Hl0. by destruct Hl0 as [?|[?|[?|[?|?]]]].
  - intros _ Hd'. destruct (decide (b_blkno r = blk)) as [<-|Hne]; [right|left; intros E; congruence]. split; [done|]. split; congruence.
Qed.

(** ** Steps of the cache *)

(** What threads and the device do.  The arguments [t] are the threads that
    call; a step ends where the operation ends or the thread has to wait, and
    the rest of the operation is a step of its own: [OpRetry] after a [yield],
    [OpWritten] after the write of a dirty buffer, [OpRead] after the read, the
    steps [...Woken] after the wait for a buffer.  [OpStore] is the caller that
    changes the data of a buffer. *)
Inductive bop :=
| OpGet (t blkno : Z)
| OpAlloc (t blkno : Z)
| OpInvalidate (t blkno : Z)
| OpRetry (alloc : bool) (blkno : Z)
| OpWritten (alloc : bool) (blkno b rc : Z)
| OpRead (b rc : Z)
| OpGetWoken (b : Z)
| OpAllocWoken (b : Z)
| OpInvalidateWoken (b : Z)
| OpStore (b : Z) (d : list Z)
| OpMarkUpdated (b : Z)
| OpMarkInvalid (b : Z)
| OpRelease (b : Z)
| OpFlushBegin
| OpFlush (interruptable : bool)
| OpFlushWritten (b rc : Z)
| OpSyncBegin
| OpSync (interruptable : bool) (b : Z)
| OpSyncWritten (b rc : Z)
| OpSyncRest (b rc : Z).

(** A flush gives no buffer; it waits for the device or goes on. *)
Definition flushes (m : K bufpool flush_result) : K bufpool get_result :=
  let* f := m in kret (match f with FlushWrites b => Writes b | _ => Gives 0 end).

Definition bop_run (o : bop) : K bufpool get_result :=
  match o with
  | OpGet t blkno => get_buffer t blkno
  | OpAlloc t blkno => alloc_buffer t blkno
  | OpInvalidate t blkno => invalidate_buffer t blkno
  | OpRetry alloc blkno => retry alloc blkno
  | OpWritten alloc blkno b rc => after_write alloc blkno b rc
  | OpRead b rc => get_buffer_read b rc
  | OpGetWoken b => take_cached b
  | OpAllocWoken b => alloc_cached b
  | OpInvalidateWoken b => invalidate b ;;; kret (Gives 0)
  | OpStore b d => store b d ;;; kret (Gives 0)
  | OpMarkUpdated b => mark_buffer_updated b ;;; kret (Gives 0)
  | OpMarkInvalid b => mark_buffer_invalid b ;;; kret (Gives 0)
  | OpRelease b => release_buffer b ;;; kret (Gives 0)
  | OpFlushBegin => flushes flush_begin
  | OpFlush i => flushes (flush_round i)
  | OpFlushWritten b rc => flushes (flush_written b rc)
  | OpSyncBegin => flushes sync_begin
  | OpSync i b => flushes (sync_round i b)
  | OpSyncWritten b rc => dev_write b rc ;;; kret (Gives 0)
  | OpSyncRest b rc => flushes (sync_rest b rc)
  end.

(** A thread holds the buffer [b]. *)
Definition holder (p : bufpool) (b : Z) : Prop := exists r, bufs p !! b = Some r /\ held_state (b_state r) /\ 1 <= b_locks r.

(** The device has transferred the buffer or returned an error. *)
Definition transferred (p : bufpool) (rc : Z) : Prop := rc = bufsize p \/ rc < 0.

(** What a step needs of the pool; [V] are the buffers that have been changed and
    not been marked.  The rules for the threads that are given below say nothing
    of [not_cached] and of the data on the device: they follow from the rules. *)
Definition step_pre (V : gset Z) (o : bop) (p : bufpool) : Prop :=
  match o with
  | OpGet _ _ | OpAlloc _ _ | OpInvalidate _ _ => room p
  | OpRetry _ blkno => not_cached p blkno
  | OpWritten _ blkno b rc => not_cached p blkno /\ transferred p rc /\ exists r, bufs p !! b = Some r /\ b_state r = BUF_STATE_WRITING
  | OpRead b rc => transferred p rc /\ exists r, bufs p !! b = Some r /\ b_state r = BUF_STATE_READING /\ (rc = bufsize p -> is_Some (disk p !! b_blkno r))
  | OpGetWoken b | OpAllocWoken b | OpInvalidateWoken b | OpMarkUpdated b | OpMarkInvalid b => holder p b
  | OpStore b _ => exists r, bufs p !! b = Some r /\ held_state (b_state r) /\ b_state r <> BUF_STATE_ERROR /\ 1 <= b_locks r
  | OpRelease b => exists r, bufs p !! b = Some r /\ held_state (b_state r) /\ 1 <= b_locks r /\
      (1 < b_locks r \/ b ∉ V)
  | OpFlushWritten b rc => transferred p rc /\ exists r, bufs p !! b = Some r /\ b_state r = BUF_STATE_WRITING
  | OpFlushBegin | OpFlush _ | OpSyncBegin => True
  | OpSync _ b => room p /\ is_Some (bufs p !! b)
  | OpSyncWritten b _ => exists r, bufs p !! b = Some r /\ b_state r = BUF_STATE_UPDATED
  | OpSyncRest b rc => rc < 0 \/ exists r, bufs p !! b = Some r /\ b_state r = BUF_STATE_UPDATED /\ 1 <= b_locks r /\ disk p !! b_blkno r = Some (b_data r)
  end.

(** ** Steps of the store *)

Inductive effect :=
| Same
| Put (blk : Z) (d : list Z)
| Lost (blk : Z).

Definition apply_effect (e : effect) (A : gmap Z (list Z)) : gmap Z (list Z) :=
  match e with
  | Same => A
  | Put blk d => <[blk := d]> A
  | Lost blk => delete blk A
  end.

Definition state_of (p : bufpool) (b : Z) : Z := default BUF_STATE_FREE (b_state <$> bufs p !! b).
Definition blk_of (p : bufpool) (b : Z) : Z := default 0 (b_blkno <$> bufs p !! b).
Definition data_of (p : bufpool) (b : Z) : list Z := default [] (b_data <$> bufs p !! b).

(** A buffer that has been given is cleared. *)
Definition clears (p : bufpool) (blk : Z) (g : get_result) : effect :=
  match g with Gives b => if b =? 0 then Same else Put blk (zeros p) | _ => Same end.

(** The effect of a step with the result [g]. *)
Definition effect_of (o : bop) (g : get_result) (p : bufpool) : effect :=
  match o with
  | OpGet _ blk => match g with Gives b => if state_of p b =? BUF_STATE_INVALID then Put blk (zeros p) else Same | _ => Same end
  | OpAlloc _ blk => clears p blk g
  | OpInvalidate _ blk => match g with Gives _ => Lost blk | _ => Same end
  | OpRetry alloc blk => if alloc then clears p blk g else Same
  | OpWritten alloc blk b rc => if rc <? 0 then Lost (blk_of p b) else if alloc then clears p blk g else Same
  | OpAllocWoken b => if state_of p b =? BUF_STATE_INVALID then Same else clears p (blk_of p b) g
  | OpInvalidateWoken b | OpMarkInvalid b => Lost (blk_of p b)
  | OpStore b d => if state_of p b =? BUF_STATE_INVALID then Same else Put (blk_of p b) d
  | OpMarkUpdated b => if state_of p b =? BUF_STATE_INVALID then Put (blk_of p b) (data_of p b) else Same
  | OpFlushWritten b rc => if rc <? 0 then Lost (blk_of p b) else Same
  | _ => Same
  end.

(** The block that the caller of a step gets a buffer for. *)
Definition asked (o : bop) (p : bufpool) : option Z :=
  match o with
  | OpGet _ blk | OpAlloc _ blk | OpRetry _ blk | OpWritten _ blk _ _ => Some blk
  | OpRead b _ | OpGetWoken b | OpAllocWoken b => Some (blk_of p b)
  | _ => None
  end.

(** [b] is a buffer of the block, the caller holds it and it has the data of
    the store. *)
Definition given (A : gmap Z (list Z)) (p : bufpool) (blk b : Z) : Prop :=
  exists r, bufs p !! b = Some r /\ b_blkno r = blk /\ 1 <= b_locks r /\
    (b_state r = BUF_STATE_LOCKED \/ b_state r = BUF_STATE_UPDATED \/ b_state r = BUF_STATE_INVALID) /\ forall d, A !! blk = Some d -> b_data r = d.

Definition gets (o : bop) (g : get_result) (p p' : bufpool) (A : gmap Z (list Z)) : Prop :=
  match asked o p, g with Some blk, Gives b => b = 0 \/ given A p' blk b | _, _ => True end.

(** The buffers whose data a step changes for its caller. *)
Definition dirtied (o : bop) (g : get_result) (p : bufpool) : gset Z :=
  match o, g with
  | OpStore b _, _ => {[b]}
  | (OpAlloc _ _ | OpRetry true _ | OpWritten true _ _ _ | OpAllocWoken _), Gives b => {[b]}
  | OpGet _ _, Gives b => if state_of p b =? BUF_STATE_INVALID then {[b]} else ∅
  | _, _ => ∅
  end.

(** The block that a step looks for a new buffer for. *)
Definition seeks (o : bop) : option Z :=
  match o with
  | OpGet _ blk | OpAlloc _ blk | OpRetry _ blk | OpWritten _ blk _ _ => Some blk
  | _ => None
  end.

(** The thread has to go on looking. *)
Definition goes_on (g : get_result) : bool := match g with Writes _ | Yields => true | _ => false end.

(** The block that a step may bring into the cache. *)
Definition enters (o : bop) (g : get_result) (blk : Z) : Prop := seeks o = Some blk /\ goes_on g = false.

Definition locks_of (p : bufpool) (b : Z) : Z := default 0 (b_locks <$> bufs p !! b).

(** The step changes the data of the updated buffer [a], or gives it back for the
    last time. *)
Definition touches (o : bop) (p : bufpool) (a : Z) : Prop :=
  match o with
  | OpStore b _ | OpAllocWoken b | OpMarkInvalid b | OpInvalidateWoken b | OpSyncRest b _ => a = b
  | OpRelease b => a = b /\ locks_of p b <= 1
  | OpAlloc _ blk | OpInvalidate _ blk => blk_of p a = blk
  | _ => False
  end.

(** What changes from [p] to [p']: at most the blocks [E] come into the cache, and
    an updated buffer stays as it is, and what the device has of it, unless it is
    one of [T]. *)
Record evolves (E T : Z -> Prop) (p p' : bufpool) : Prop := {
  ev_cached a r' : bufs p' !! a = Some r' -> b_state r' <> BUF_STATE_FREE -> E (b_blkno r') \/ exists a0 r0, bufs p !! a0 = Some r0 /\ b_state r0 <> BUF_STATE_FREE /\ b_blkno r0 = b_blkno r';
  ev_held a r : bufs p !! a = Some r -> b_state r = BUF_STATE_UPDATED -> T a \/ exists r', bufs p' !! a = Some r' /\ b_state r' = BUF_STATE_UPDATED /\ b_blkno r' = b_blkno r /\ b_data r' = b_data r /\
    (1 <= b_locks r -> 1 <= b_locks r') /\ (disk p !! b_blkno r = Some (b_data r) -> disk p' !! b_blkno r = Some (b_data r));
}.

(** The invariant of the pool, with the store [A]. *)
Definition cinv (V : gset Z) (A : gmap Z (list Z)) (p : bufpool) : Prop := (exists U, bgood U p /\ U ⊆ V) /\ 0 <= bufsize p /\ cview A p.

Record step_done (V : gset Z) (o : bop) (A : gmap Z (list Z)) (p : bufpool) (g : get_result) (p' : bufpool) : Prop := {
  sd_cinv : cinv (dirtied o g p ∪ V) (apply_effect (effect_of o g p) A) p';
  sd_gets : gets o g p p' (apply_effect (effect_of o g p) A);
  sd_evolves : evolves (enters o g) (touches o p) p p';
  sd_seeks blk : seeks o = Some blk -> goes_on g = true -> not_cached p' blk;
}.

Definition stepped (V : gset Z) (o : bop) (A : gmap Z (list Z)) (p : bufpool) : Prop := exists g p', bop_run o p = Done (g, p') /\ step_done V o A p g p'.

(** ** Evolution *)

Lemma evolves_same E T p p' : bufs p' = bufs p -> disk p' = disk p -> evolves E T p p'.
Proof. intros Eb Ed. split; intros a r; rewrite Eb; intros Hr Hs; right; [by exists a, r|exists r; by rewrite Ed]. Qed.

Lemma evolves_trans E T p1 p2 p3 : evolves E T p1 p2 -> evolves E T p2 p3 -> evolves E T p1 p3.
Proof.
  intros [C1 H1] [C2 H2]. split; intros a r Hr Hs.
  - destruct (C2 a r Hr Hs) as [?|(a0 & r0 & H0 & Hs0 & <-)]; [by left|]. by apply (C1 a0).
  - destruct (H1 a r Hr Hs) as [?|(r1 & Hr1 & Hs1 & Ek1 & Ed1 & Hl1 & Hd1)]; [by left|]. destruct (H2 a r1 Hr1 Hs1) as [?|(r2 & Hr2 & Hs2 & Ek2 & Ed2 & Hl2 & Hd2)]; [by left|]. right. exists r2.
    rewrite Ek1, Ed1 in *. split_and!; auto.
Qed.

Lemma evolves_more E E' T T' p p' : (forall x, E x -> E' x) -> (forall x, T x -> T' x) -> evolves E T p p' -> evolves E' T' p p'.
Proof. intros HE HT [C1 H1]. split; [intros a r Hr Hs; destruct (C1 a r Hr Hs); auto|intros a r Hr Hs; destruct (H1 a r Hr Hs); auto]. Qed.

(** One buffer changes. *)
Lemma evolves_changed E T p p' b r r' : bufs p !! b = Some r -> changed b r' p p' ->
  (b_state r' <> BUF_STATE_FREE -> E (b_blkno r') \/ (b_state r <> BUF_STATE_FREE /\ b_blkno r' = b_blkno r)) ->
  (b_state r = BUF_STATE_UPDATED -> T b \/ (b_state r' = BUF_STATE_UPDATED /\ b_blkno r' = b_blkno r /\ b_data r' = b_data r /\ (1 <= b_locks r -> 1 <= b_locks r'))) -> evolves E T p p'.
Proof.
  intros Hr (Em & Ed & _) HE HT. split; intros a ra; rewrite Em.
  - intros [[<- <-]|[Hne Ha]]%lookup_insert_Some Hs; [destruct (HE Hs) as [?|[? ?]]; [by left|right; by exists b, r]|right; by exists a, ra].
  - intros Ha Hs. destruct (decide (a = b)) as [->|Hne]; [|right; exists ra; rewrite lookup_insert_ne, Ed by done; done]. assert (ra = r) as -> by congruence.
    destruct (HT Hs) as [?|(? & ? & ? & ?)]; [by left|right]. exists r'. by rewrite lookup_insert_eq, Ed.
Qed.

(** A buffer that is not updated keeps its block. *)
Lemma evolves_other E T p p' b r r' : bufs p !! b = Some r -> changed b r' p p' -> b_state r <> BUF_STATE_UPDATED -> (b_state r' <> BUF_STATE_FREE -> b_state r <> BUF_STATE_FREE) -> b_blkno r' = b_blkno r -> evolves E T p p'.
Proof. intros Hr Hc Hs Hf Ek. apply (evolves_changed E T p p' b r r' Hr Hc); [auto|done]. Qed.

(** The buffer is one of [T]. *)
Lemma evolves_touched E (T : Z -> Prop) p p' b r r' : bufs p !! b = Some r -> changed b r' p p' -> T b -> (b_state r' <> BUF_STATE_FREE -> b_state r <> BUF_STATE_FREE) -> b_blkno r' = b_blkno r -> evolves E T p p'.
Proof. intros Hr Hc Hb Hf Ek. apply (evolves_changed E T p p' b r r' Hr Hc); auto. Qed.

(** The device takes the data of a buffer. *)
Lemma evolves_wrote U E T p b r rc : bgood U p -> bufs p !! b = Some r -> b_state r <> BUF_STATE_FREE -> evolves E T p (wrote rc r p).
Proof.
  intros G Hr Hs. unfold wrote. destruct (rc =? bufsize p); [|by apply evolves_same]. split; intros a ra Ha Hsa; right; [by exists a, ra|]. exists ra. split_and!; try done. cbn. intros Hd.
  destruct (decide (b_blkno r = b_blkno ra)) as [Ek|Hne]; [|by rewrite lookup_insert_ne]. assert (a = b) as -> by (apply (good_one U p a b ra r); try done; by rewrite Hsa). rewrite <- Ek, lookup_insert_eq. congruence.
Qed.

Lemma evolves_not_cached E T p p' blk : evolves E T p p' -> not_cached p blk -> ~ E blk -> not_cached p' blk.
Proof. intros [C1 _] Hnc HE a r' Hr Hs <-. destruct (C1 a r' Hr Hs) as [?|(a0 & r0 & H0 & Hs0 & Ek)]; [done|]. by apply (Hnc a0 r0). Qed.

(** ** Each step of the cache is a step of the store *)

Lemma given_intro U A p b r : bgood U p -> cview A p -> bufs p !! b = Some r -> 1 <= b_locks r ->
  b_state r = BUF_STATE_LOCKED \/ b_state r = BUF_STATE_UPDATED \/ b_state r = BUF_STATE_INVALID -> given A p (b_blkno r) b.
Proof.
  intros G V Hr Hl Hs. exists r. split_and!; try done. intros d Ha. destruct (V _ _ Ha) as [(a & ra & Hra & Hl' & Ek & Ed)|[_ Hall]].
  - assert (a = b) as -> by (apply (good_one U p a b ra r G Hra Hr); [by apply live_cached|destruct Hs as [-> |[-> | ->]]; done|done]). congruence.
  - destruct (Hall b r Hr eq_refl) as [E|[E|E]]; rewrite E in Hs; by destruct Hs as [?|[?|?]].
Qed.

Lemma state_of_eq p b r : bufs p !! b = Some r -> state_of p b = b_state r /\ blk_of p b = b_blkno r /\ data_of p b = b_data r.
Proof. intros Hr. unfold state_of, blk_of, data_of. by rewrite Hr. Qed.

Lemma cinv_intro U V A b r' p p' : bgood U p' -> U ⊆ V -> 0 <= bufsize p -> changed b r' p p' -> cview A p' -> cinv V A p'.
Proof. intros G HU Hsz (_ & _ & Es) HV. split; [by exists U|]. split; [by rewrite Es|done]. Qed.

Lemma cinv_more V V' A p : cinv V A p -> V ⊆ V' -> cinv V' A p.
Proof. intros ((U & G & HU) & H) HV. split; [|done]. exists U. split; [done|set_solver]. Qed.

(** Releasing a buffer keeps what it shows. *)
Lemma released_blkno r : b_blkno (released r) = b_blkno r.
Proof. unfold released. by destruct (1 <? b_locks r). Qed.

Lemma held_cached s : held_state s -> s <> BUF_STATE_FREE.
Proof. by intros [-> |[-> |[-> | ->]]]. Qed.

Lemma released_same U A p p' b r : bgood U p -> cview A p -> bufs p !! b = Some r -> held_state (b_state r) -> changed b (released r) p p' -> cview A p'.
Proof.
  intros G V Hr Hh Hc. apply (view_same U A p p' b r (released r) G V Hr Hc); [apply released_blkno| |apply view_silent; [apply released_blkno|]].
  - unfold released. destruct (1 <? b_locks r); [done|]. unfold live in *. destruct Hh as [-> |[-> |[-> | ->]]]; cbn; [tauto|tauto| |]; by intros [?|[?|[?|[?|?]]]].
  - unfold released. destruct (1 <? b_locks r); [done|]. destruct Hh as [-> |[-> |[-> | ->]]]; cbn; intros [?|[?|?]]; done || tauto.
Qed.

Lemma release_step V A p b : cinv V A p -> step_pre V (OpRelease b) p -> stepped V (OpRelease b) A p.
Proof.
  intros ((U & G & HU) & Hsz & HV) (r & Hr & Hh & Hl & Hu). assert (Hu' : 1 < b_locks r \/ b ∉ U) by (destruct Hu; [by left|right; set_solver]).
  destruct (release_run U p b r G Hr Hh Hl Hu') as (p' & E & G' & Hc). exists (Gives 0), p'. split; [by cbn; step E|]. split; [|done| |done].
  - apply (cinv_intro U _ A b (released r) p); [done|set_solver|done|done|]. by apply (released_same U A p p' b r).
  - apply (evolves_changed _ _ p p' b r (released r) Hr Hc); [intros _; right; split; [by apply held_cached|apply released_blkno]|]. intros Hs. cbn [touches]. unfold locks_of. rewrite Hr. cbn.
    unfold released. destruct (Z.ltb_spec 1 (b_locks r)); [right; cbn; split_and!; (done || lia)|left; split; [done|lia]].
Qed.

(** A thread that has waited. *)
Lemma error_or (r : buf) : held_state (b_state r) -> b_state r <> BUF_STATE_ERROR -> b_state r = BUF_STATE_LOCKED \/ b_state r = BUF_STATE_UPDATED \/ b_state r = BUF_STATE_INVALID.
Proof. intros [?|[?|[?|?]]] ?; tauto. Qed.

Lemma released_evolves E T p p' b r : bufs p !! b = Some r -> held_state (b_state r) -> b_state r <> BUF_STATE_UPDATED -> changed b (released r) p p' -> evolves E T p p'.
Proof. intros Hr Hh Hs Hc. apply (evolves_other E T p p' b r (released r)); [done|done|done|intros _; by apply held_cached|apply released_blkno]. Qed.

Lemma get_woken_step V A p b : cinv V A p -> holder p b -> stepped V (OpGetWoken b) A p.
Proof.
  intros ((U & G & HU) & Hsz & HV) (r & Hr & Hh & Hl). destruct (take_cached_run U p b r G Hr Hh Hl) as (p' & E & G' & Hc). eexists _, p'. split; [exact E|].
  unfold kept_buf in Hc. destruct (state_of_eq p b r Hr) as (_ & Ek & _).
  assert (V' : cview A p').
  { destruct (Z.eqb_spec (b_state r) BUF_STATE_ERROR); [by apply (released_same U A p p' b r)|]. by apply (view_same U A p p' b r r). }
  split; [eapply (cinv_intro U); [done|set_solver|done|exact Hc|done]| | |done].
  - unfold gets. cbn [effect_of apply_effect asked]. rewrite Ek. destruct (Z.eqb_spec (b_state r) BUF_STATE_ERROR) as [Es|Es]; [by left|]. right.
    apply (given_intro U); [done|done|by apply (changed_lookup b r p)|done|by apply error_or].
  - destruct (Z.eqb_spec (b_state r) BUF_STATE_ERROR) as [Es|Es]; [apply (released_evolves _ _ p p' b r); [done|done|by rewrite Es|done]|].
    apply (evolves_changed _ _ p p' b r r Hr Hc); [intros ?; by right|intros ?; by right].
Qed.

(** The data of a held buffer are changed. *)
Lemma store_view U A p p' b r d : bgood U p -> cview A p -> bufs p !! b = Some r -> held_state (b_state r) -> b_state r <> BUF_STATE_ERROR ->
  changed b (set_b_data d r) p p' -> cview (apply_effect (if b_state r =? BUF_STATE_INVALID then Same else Put (b_blkno r) d) A) p'.
Proof.
  intros G V Hr Hh Hne Hc. destruct (Z.eqb_spec (b_state r) BUF_STATE_INVALID) as [Es|Es]; cbn [apply_effect].
  - apply (view_same U A p p' b r (set_b_data d r) G V Hr Hc); [done| |by apply view_silent]. rewrite Es. by intros [?|[?|[?|[?|?]]]].
  - apply (view_put U A p p' b r (set_b_data d r) G V Hr Hc); [done|]. destruct (error_or r Hh Hne) as [Hs|[Hs|Hs]]; [|..]; unfold live; cbn; tauto || done.
Qed.

Lemma stored_sub b r U V : U ⊆ V -> stored b r U ⊆ {[b]} ∪ V.
Proof. unfold stored. destruct (_ =? _); set_solver. Qed.

Lemma store_step V A p b d : cinv V A p -> step_pre V (OpStore b d) p -> stepped V (OpStore b d) A p.
Proof.
  intros ((U & G & HU) & Hsz & HV) (r & Hr & Hh & Hne & Hl). destruct (store_run U p b r d G Hr Hh) as (p' & E & G' & Hc). exists (Gives 0), p'. split; [by cbn; step E|].
  destruct (state_of_eq p b r Hr) as (Es & Ek & _). split; [|done| |done].
  - cbn [effect_of dirtied]. rewrite Es, Ek. eapply (cinv_intro (stored b r U)); [done|by apply stored_sub|done|exact Hc|]. by apply (store_view U A p p' b r d).
  - by apply (evolves_touched _ _ p p' b r (set_b_data d r)).
Qed.

Lemma given_after U A p b r r' p' : bgood U p' -> cview A p' -> changed b r' p p' -> 1 <= b_locks r' -> held_state (b_state r') -> b_state r' <> BUF_STATE_ERROR ->
  b_blkno r' = b_blkno r -> given A p' (b_blkno r) b.
Proof. intros G V Hc Hl Hh Hne Ek. rewrite <- Ek. apply (given_intro U); [done|done|by apply (changed_lookup b r' p)|done|by apply error_or]. Qed.

Lemma alloc_woken_step V A p b : cinv V A p -> holder p b -> stepped V (OpAllocWoken b) A p.
Proof.
  intros ((U & G & HU) & Hsz & HV) (r & Hr & Hh & Hl). destruct (alloc_cached_run U p b r G Hr Hh Hl) as (p' & E & G' & Hc). eexists _, p'. split; [exact E|].
  destruct (state_of_eq p b r Hr) as (Es & Ek & _). destruct (buf_facts U p b r G Hr) as (Hb0 & _). destruct (Z.eqb_spec (b_state r) BUF_STATE_ERROR) as [Ee|Ee].
  - assert (HU' : stored b r U = U) by (unfold stored; by rewrite Ee). rewrite HU' in G'. split; [| | |done].
    + cbn [effect_of]. rewrite Es, Ee. eapply (cinv_intro U); [done|set_solver|done|exact Hc|]. cbn. by apply (released_same U A p p' b r).
    + by left.
    + apply (released_evolves _ _ p p' b r); [done|done|by rewrite Ee|done].
  - apply Z.eqb_neq in Hb0. pose proof (store_view U A p p' b r (zeros p) G HV Hr Hh Ee Hc) as V'. split; [| | |done].
    + cbn [effect_of dirtied clears]. rewrite Es, Ek, Hb0. eapply (cinv_intro (stored b r U)); [done|by apply stored_sub|done|exact Hc|done].
    + unfold gets. cbn [effect_of asked clears]. rewrite Es, Ek, Hb0. right. by apply (given_after (stored b r U) _ p b r (set_b_data (zeros p) r)).
    + by apply (evolves_touched _ _ p p' b r (set_b_data (zeros p) r)).
Qed.

Lemma mark_updated_step V A p b : cinv V A p -> holder p b -> stepped V (OpMarkUpdated b) A p.
Proof.
  intros ((U & G & HU) & Hsz & HV) (r & Hr & Hh & Hl). destruct (mark_updated_run U p b r G Hr Hh Hl) as (p' & E & G' & Hc). exists (Gives 0), p'. split; [by cbn; step E|].
  destruct (state_of_eq p b r Hr) as (Es & Ek & Ed). split; [|done| |done].
  - cbn [effect_of]. rewrite Es, Ek, Ed. eapply (cinv_intro (U ∖ {[b]})); [done|set_solver|done|exact Hc|].
    unfold updated_buf in Hc. destruct (Z.eqb_spec (b_state r) BUF_STATE_INVALID) as [Ei|Ei]; cbn [apply_effect].
    + rewrite orb_true_r in Hc. apply (view_put U A p p' b r _ G HV Hr Hc); [done|]. unfold live. cbn. tauto.
    + rewrite orb_false_r in Hc. destruct (Z.eqb_spec (b_state r) BUF_STATE_LOCKED) as [El|El]; [|by apply (view_same U A p p' b r r)].
      apply (view_same U A p p' b r _ G HV Hr Hc); [done| |apply view_silent; [done|]].
      * intros _. unfold live. cbn. tauto.
      * rewrite El. by intros [?|[?|?]].
  - apply (evolves_changed _ _ p p' b r _ Hr Hc); [intros _; right; split; [by apply held_cached|unfold updated_buf; by destruct (_ || _)]|]. intros Eu. right. unfold updated_buf. by rewrite Eu.
Qed.

Lemma invalid_blkno r : b_blkno (invalid_buf r) = b_blkno r.
Proof. unfold invalid_buf. by destruct (_ || _). Qed.

Lemma mark_invalid_step V A p b : cinv V A p -> holder p b -> stepped V (OpMarkInvalid b) A p.
Proof.
  intros ((U & G & HU) & Hsz & HV) (r & Hr & Hh & Hl). destruct (mark_invalid_run U p b r G Hr Hh Hl) as (p' & E & G' & Hc). exists (Gives 0), p'. split; [by cbn; step E|].
  destruct (state_of_eq p b r Hr) as (_ & Ek & _). split; [|done| |done].
  - cbn [effect_of apply_effect]. rewrite Ek. eapply (cinv_intro (U ∖ {[b]})); [done|set_solver|done|exact Hc|]. apply (view_drop U A p p' b r _ G HV Hr Hc), invalid_blkno.
  - apply (evolves_touched _ _ p p' b r _ Hr Hc); [done|intros _; by apply held_cached|apply invalid_blkno].
Qed.

(** The buffer is not changed any more. *)
Lemma invalidate_woken_step V A p b : cinv ({[b]} ∪ V) A p -> holder p b -> stepped V (OpInvalidateWoken b) A p.
Proof.
  intros ((U & G & HU) & Hsz & HV) (r & Hr & Hh & Hl). destruct (invalidate_run U p b r G Hr Hh Hl) as (p' & E & G' & Hc). exists (Gives 0), p'. split; [by cbn; step E|].
  destruct (state_of_eq p b r Hr) as (_ & Ek & _). assert (Ek' : b_blkno (released (invalid_buf r)) = b_blkno r) by (by rewrite released_blkno, invalid_blkno). split; [|done| |done].
  - cbn [effect_of apply_effect]. rewrite Ek. eapply (cinv_intro (U ∖ {[b]})); [done|set_solver|done|exact Hc|]. by apply (view_drop U A p p' b r _ G HV Hr Hc).
  - apply (evolves_touched _ _ p p' b r _ Hr Hc); [done|intros _; by apply held_cached|done].
Qed.

(** A new buffer for a block. *)
Record found (V : gset Z) (alloc : bool) (blk : Z) (A : gmap Z (list Z)) (p p' : bufpool) (g : get_result) : Prop := {
  fd_cinv : cinv ((match g with Gives b => if alloc then {[b]} else ∅ | _ => ∅ end) ∪ V) (apply_effect (if alloc then clears p blk g else Same) A) p';
  fd_given : match g with Gives b => b = 0 \/ given (apply_effect (if alloc then clears p blk g else Same) A) p' blk b | _ => True end;
  fd_evolves : evolves (fun k => k = blk /\ goes_on g = false) (fun _ => False) p p';
}.

Lemma enter_step U V A p0 p1 b r0 r1 alloc blk :
  bgood U p0 -> U ⊆ V -> 0 <= bufsize p0 -> cview A p0 -> bufs p0 !! b = Some r0 -> changed b r1 p0 p1 -> taken U b p1 -> not_cached p0 blk -> b_state r0 <> BUF_STATE_UPDATED ->
  b_state r0 = BUF_STATE_FREE \/ disk p0 !! b_blkno r0 = Some (b_data r0) ->
  exists g p', got_new alloc blk (NewBuffer b) p1 = Done (g, p') /\ found V alloc blk A p0 p' g.
Proof.
  intros G HU Hsz HV Hr Hc1 T Hnc Hu Hd. pose proof (changed_lookup _ _ _ _ Hc1) as Hr1. destruct (buf_facts U p0 b r0 G Hr) as (Hb0 & _).
  assert (Hnc1 : forall a ra, a <> b -> bufs p1 !! a = Some ra -> b_state ra <> BUF_STATE_FREE -> b_blkno ra <> blk).
  { intros a ra Ha. destruct Hc1 as (-> & _). rewrite lookup_insert_ne by done. apply Hnc. }
  destruct alloc; cbn [got_new].
  - destruct (alloc_insert_run U p1 b r1 blk T Hr1 Hnc1) as (p2 & E & G2 & Hc2). pose proof (changed_trans _ _ _ _ _ _ Hc1 Hc2) as Hc.
    exists (Gives b), p2. split; [exact E|]. apply Z.eqb_neq in Hb0 as Hb1.
    assert (Ez : zeros p1 = zeros p0) by (unfold zeros; by destruct Hc1 as (_ & _ & ->)).
    assert (V' : cview (<[blk := zeros p0]> A) p2).
    { rewrite <- Ez. apply (view_alloc U A p0 p2 b r0 (cleared_buf p1 blk) G HV Hr Hc); [done|done|]. unfold live. cbn. tauto. }
    split; cbn [clears]; rewrite ?Hb1; cbn [apply_effect].
    + eapply (cinv_intro ({[b]} ∪ U)); [done|set_solver|done|exact Hc|done].
    + right. change blk with (b_blkno (cleared_buf p1 blk)) at 2. apply (given_intro ({[b]} ∪ U)); [done|done|by apply (changed_lookup b _ p0)|done|by left].
    + apply (evolves_changed _ _ p0 p2 b r0 _ Hr Hc); [intros _; by left|done].
  - destruct (get_insert_run U p1 b r1 blk T Hr1 Hnc1) as (p2 & E & G2 & Hc2). pose proof (changed_trans _ _ _ _ _ _ Hc1 Hc2) as Hc.
    exists (Reads b), p2. split; [exact E|]. split; [|done|].
    + eapply (cinv_intro U); [done|set_solver|done|exact Hc|]. by apply (view_reuse U A p0 p2 b r0 (reading_buf blk r1) G HV Hr Hc).
    + apply (evolves_changed _ _ p0 p2 b r0 _ Hr Hc); [intros _; by left|done].
Qed.

(** A buffer in the dirty list goes to the device. *)
Lemma writing_view U A p p' b r : bgood U p -> cview A p -> bufs p !! b = Some r -> b_state r = BUF_STATE_DIRTY ->
  changed b (set_b_state BUF_STATE_WRITING r) p p' -> cview A p'.
Proof.
  intros G V Hr Hs Hc. apply (view_same U A p p' b r _ G V Hr Hc); [done| |apply view_silent; [done|]].
  - intros _. unfold live. cbn. tauto.
  - rewrite Hs. by intros [?|[?|?]].
Qed.

Lemma writing_evolves E T p p' b r : bufs p !! b = Some r -> b_state r = BUF_STATE_DIRTY -> changed b (set_b_state BUF_STATE_WRITING r) p p' -> evolves E T p p'.
Proof. intros Hr Hs Hc. apply (evolves_other E T p p' b r _ Hr Hc); [by rewrite Hs|intros _; by rewrite Hs|done]. Qed.

(** The thread goes on looking: nothing has been brought in. *)
Lemma found_on V alloc blk A p p' g : goes_on g = true -> cinv V A p' -> evolves (fun _ => False) (fun _ => False) p p' -> found V alloc blk A p p' g.
Proof.
  intros Hg HI HE. destruct g as [| | |b|]; try done; (split; [|done|by apply (evolves_more (fun _ => False) _ (fun _ => False))]); cbn [clears]; rewrite union_empty_l_L; by destruct alloc.
Qed.

Lemma new_step U V A p alloc blk : bgood U p -> U ⊆ V -> 0 <= bufsize p -> cview A p -> not_cached p blk ->
  exists g p', retry alloc blk p = Done (g, p') /\ found V alloc blk A p p' g.
Proof.
  intros G HU Hsz HV Hnc. destruct (get_new_run U p G) as (n & p1 & E & N). unfold retry. step E. destruct n as [b|b|]; cbn [new_found] in N.
  - destruct N as (r & Hr & Hs & T & Hc). apply (enter_step U V A p p1 b r r alloc blk); try done; [destruct Hs as [-> | ->]; done|]. destruct Hs as [Hs|Hs]; [by left|right].
    apply (buf_facts U p b r G Hr); [|by left]. apply (error_not_fresh U p b r G Hr). by rewrite Hs.
  - destruct N as (r & Hr & Hs & G' & Hc). exists (Writes b), p1. split; [done|]. apply found_on; [done| |by apply (writing_evolves _ _ p p1 b r)].
    eapply (cinv_intro U); [done|done|done|exact Hc|]. by apply (writing_view U A p p1 b r).
  - subst p1. exists Yields, p. split; [done|]. apply found_on; [done| |by apply evolves_same]. split; [by exists U|done].
Qed.

(** The step that looks for a buffer, with what it finds. *)
Lemma found_done V o A p p' g alloc blk : found V alloc blk A p p' g -> not_cached p blk -> seeks o = Some blk -> asked o p = Some blk -> effect_of o g p = (if alloc then clears p blk g else Same) ->
  (forall b, g = Gives b -> dirtied o g p = if alloc then {[b]} else ∅) -> step_done V o A p g p'.
Proof.
  intros [HI Hg HE] Hnc Es Ea Ee Hd. split; rewrite ?Ee.
  - destruct g as [b| | | |]; [rewrite (Hd b eq_refl); done|..]; (rewrite union_empty_l_L in HI; apply (cinv_more V); [done|set_solver]).
  - unfold gets. rewrite Ea. by destruct g.
  - apply (evolves_more (fun k => k = blk /\ goes_on g = false) _ (fun _ => False) _ p p'); [intros x [-> ?]; by split|done|done].
  - intros k Ek Hgo. assert (k = blk) as -> by congruence. apply (evolves_not_cached _ _ p p' blk HE Hnc). intros [_ ?]. congruence.
Qed.

Lemma retry_step V A p alloc blk : cinv V A p -> not_cached p blk -> stepped V (OpRetry alloc blk) A p.
Proof.
  intros ((U & G & HU) & Hsz & HV) Hnc. destruct (new_step U V A p alloc blk G HU Hsz HV Hnc) as (g & p' & E & HF). exists g, p'. split; [exact E|]. apply (found_done V _ A p p' g alloc blk HF Hnc); try done.
  intros b ->. by destruct alloc.
Qed.

(** [b] is found in the cache. *)
Lemma locked_facts p r : b_blkno (locked_buf p r) = b_blkno r /\ b_locks (locked_buf p r) = b_locks r + 1.
Proof. done. Qed.

Lemma locked_held p r : valid_state (b_state r) -> b_state r <> BUF_STATE_FREE -> b_state r <> BUF_STATE_READING -> b_state r <> BUF_STATE_WRITING ->
  held_state (b_state (locked_buf p r)) /\ (b_state (locked_buf p r) = BUF_STATE_ERROR <-> b_state r = BUF_STATE_ERROR) /\ b_state (locked_buf p r) <> BUF_STATE_INVALID.
Proof.
  intros Hv N1 N2 N3. assert (Hs : b_state r = BUF_STATE_CLEAN \/ b_state r = BUF_STATE_DIRTY \/ held_state (b_state r)).
  { unfold valid_state, held_state, BUF_STATE_FREE, BUF_STATE_READING, BUF_STATE_WRITING, BUF_STATE_CLEAN, BUF_STATE_DIRTY, BUF_STATE_LOCKED, BUF_STATE_UPDATED, BUF_STATE_INVALID, BUF_STATE_ERROR in *. lia. }
  unfold locked_buf, held_state in *. cbn [b_state]. destruct Hs as [-> |[-> |[-> |[-> |[-> | ->]]]]]; cbn; split_and!; tauto || done.
Qed.

(** What a found buffer shows. *)
Lemma locked_view U A p p' b r : bgood U p -> cview A p -> bufs p !! b = Some r -> changed b (locked_buf p r) p p' -> b_state r <> BUF_STATE_FREE ->
  b_state r <> BUF_STATE_READING -> b_state r <> BUF_STATE_WRITING ->
  cview (apply_effect (if b_state r =? BUF_STATE_INVALID then Put (b_blkno r) (zeros p) else Same) A) p'.
Proof.
  intros G V Hr Hc N1 N2 N3. destruct (buf_facts U p b r G Hr) as (_ & Hv & _). destruct (Z.eqb_spec (b_state r) BUF_STATE_INVALID) as [Es|Es]; cbn [apply_effect].
  - assert (Ed : b_data (locked_buf p r) = zeros p) by (unfold locked_buf; by rewrite Es). rewrite <- Ed. apply (view_put U A p p' b r _ G V Hr Hc); [done|].
    unfold locked_buf, live. rewrite Es. cbn. tauto.
  - apply (view_same U A p p' b r _ G V Hr Hc); [done| |apply view_silent; [done|]]; unfold locked_buf; cbn [b_state b_data].
    + destruct (Z.eqb_spec (b_state r) BUF_STATE_INVALID); [done|]. intros Hl. split; [|done]. unfold live in *.
      destruct Hl as [-> |[-> |[? |[-> | ->]]]]; cbn; tauto || done.
    + intros [?|[?|Es']]; [done|done|]. rewrite Es'. cbn. tauto.
Qed.

Lemma waits_view U A p p' b r t : bgood U p -> cview A p -> bufs p !! b = Some r -> changed b (set_b_waiters (t :: b_waiters r) r) p p' -> cview A p'.
Proof. intros G V Hr Hc. apply (view_same U A p p' b r _ G V Hr Hc); [done|done|by apply view_silent]. Qed.

Lemma view_sub A A' p : cview A p -> A' ⊆ A -> cview A' p.
Proof. intros V HA blk d Hd. apply V. by apply (lookup_weaken A' A). Qed.

(** The search for a buffer, with its effect on the store. *)
Definition looked (V : gset Z) (t blk : Z) (A : gmap Z (list Z)) (p p1 : bufpool) (l : lookup_result) : Prop :=
  match l with
  | NotCached => p1 = p /\ not_cached p blk
  | Cached b => let e := if state_of p b =? BUF_STATE_INVALID then Put blk (zeros p) else Same in
      cinv ((if state_of p b =? BUF_STATE_INVALID then {[b]} else ∅) ∪ V) (apply_effect e A) p1 /\ holder p1 b /\ blk_of p1 b = blk /\ state_of p1 b <> BUF_STATE_INVALID /\ zeros p1 = zeros p /\ b <> 0 /\ state_of p 0 = BUF_STATE_FREE /\
      (state_of p b = BUF_STATE_INVALID -> state_of p1 b = BUF_STATE_LOCKED) /\ blk_of p b = blk
  | WaitsFor b => cinv V A p1
  end.

Lemma lookup_step V A p t blk : cinv V A p -> room p -> exists l p1, lookup_buffer t blk p = Done (l, p1) /\ looked V t blk A p p1 l /\ evolves (fun _ => False) (fun _ => False) p p1.
Proof.
  intros ((U & G & HU) & Hsz & HV) Hroom. destruct (lookup_run U p t blk G Hroom) as (l & p1 & E & L). exists l, p1. split; [done|]. destruct l as [|b|b]; cbn [looked_up looked] in *; [destruct L as [-> L]; split; [done|by apply evolves_same]| |].
  - destruct L as (r & Hr & Ek & G1 & Hc & N1 & N2 & N3). destruct (buf_facts U p b r G Hr) as (Hb0 & Hv & [Hl _ _ _] & _). destruct (state_of_eq p b r Hr) as (Es & Ek0 & _).
    destruct (locked_held p r Hv N1 N2 N3) as (Hh & He & Hi). pose proof (changed_lookup _ _ _ _ Hc) as Hr1. destruct (state_of_eq p1 b _ Hr1) as (Es1 & Ek1 & _).
    rewrite Es, Es1, Ek1, Ek0. split; [split; [eapply (cinv_intro (fresh_if b r U)); [done| |done|exact Hc|rewrite <- Ek; by apply (locked_view U A p p1 b r)]|]|].
    + unfold fresh_if. destruct (_ =? _); set_solver.
    + split; [exists (locked_buf p r); split_and!; [done|done|cbn; lia]|]. split_and!; [done|done|unfold zeros; by destruct Hc as (_ & _ & ->)|done| | |done].
      * unfold state_of. destruct G as (F & C & D & H & B). by rewrite (ct_null _ _ _ _ _ _ _ _ _ (bi_content _ _ _ _ _ _ _ B)).
      * intros Ei. unfold locked_buf. by rewrite Ei.
    + apply (evolves_changed _ _ p p1 b r _ Hr Hc); [intros _; by right|]. intros Eu. right. unfold locked_buf. rewrite Eu. cbn. split_and!; (done || lia).
  - destruct L as (r & Hr & Ek & Hs & G1 & Hc). split; [eapply (cinv_intro U); [done|done|done|exact Hc|by apply (waits_view U A p p1 b r t)]|].
    apply (evolves_changed _ _ p p1 b r _ Hr Hc); [intros _; right; split; [destruct Hs as [-> | ->]; done|done]|]. intros Eu. by right.
Qed.

(** The thread waits for a buffer. *)
Lemma waits_done V o A p p1 b : cinv V A p1 -> evolves (fun _ => False) (fun _ => False) p p1 -> effect_of o (Waits b) p = Same -> step_done V o A p (Waits b) p1.
Proof.
  intros HI HE Ee. split; rewrite ?Ee; [apply (cinv_more V); [done|set_solver]|unfold gets; by destruct (asked o p)|by apply (evolves_more (fun _ => False) _ (fun _ => False))|done].
Qed.

Lemma get_step V A p t blk : cinv V A p -> room p -> stepped V (OpGet t blk) A p.
Proof.
  intros HI Hroom. destruct (lookup_step V A p t blk HI Hroom) as (l & p1 & E & L & EV). unfold stepped. cbn [bop_run]. unfold get_buffer. step E. destruct l as [|b|b]; cbn [looked] in L.
  - destruct L as [-> Hnc]. pose proof HI as ((U & G & HU) & Hsz & HV). destruct (new_step U V A p false blk G HU Hsz HV Hnc) as (g & p' & E' & HF). exists g, p'. split; [exact E'|].
    assert (Eg : forall b, g <> Gives b).
    { intros b ->. unfold retry in E'. apply kbind_inv in E' as (n & q & _ & E2). destruct n; cbn in E2; [|done|done].
      unfold get_insert in E2. apply kbind_inv in E2 as (? & ? & _ & E2). apply kbind_inv in E2 as (? & ? & _ & E2). apply kbind_inv in E2 as (? & ? & _ & E2). by apply kbind_inv in E2 as (? & ? & _ & E2). }
    apply (found_done V _ A p p' g false blk HF Hnc); try done; [destruct g; try done; by destruct (Eg b)|]. intros b ->. by destruct (Eg b).
  - destruct L as (HI1 & Hh & Ek & Hi & Hz & Hb0 & H0 & Hlk & _). destruct (get_woken_step _ _ p1 b HI1 Hh) as (g & p' & E' & [HI' Hg EV' _]). exists g, p'. split; [exact E'|].
    assert (Eg : exists a, g = Gives a /\ (state_of p a =? BUF_STATE_INVALID) = (state_of p b =? BUF_STATE_INVALID) /\ (state_of p b = BUF_STATE_INVALID -> a = b)).
    { destruct Hh as (r1 & Hr1 & Hh1 & _). cbn [bop_run] in E'. unfold take_cached in E'. rewrite (kbind_done _ _ _ _ _ (get_buf_run p1 b r1 Hr1)) in E'. destruct (state_of_eq p1 b r1 Hr1) as (Es1 & _).
      destruct (Z.eqb_spec (b_state r1) BUF_STATE_ERROR) as [Ee|Ee].
      - apply kbind_inv in E' as (? & ? & _ & E'). injection E' as <- _. exists 0. split; [done|]. rewrite H0. destruct (Z.eqb_spec (state_of p b) BUF_STATE_INVALID) as [Ei|Ei]; [|by split].
        apply Hlk in Ei. rewrite Es1, Ee in Ei. done.
      - injection E' as <- _. by exists b. }
    destruct Eg as (a & -> & Ea & Eb). unfold gets in *. cbn [asked effect_of apply_effect dirtied] in *. rewrite Ek in Hg. split; [| | |done].
    + cbn [effect_of dirtied]. rewrite Ea. apply (cinv_more _ _ _ _ HI'). destruct (Z.eqb_spec (state_of p b) BUF_STATE_INVALID) as [Ei|Ei]; [rewrite (Eb Ei)|]; set_solver.
    + unfold gets. cbn [asked effect_of]. by rewrite Ea.
    + apply (evolves_trans _ _ p p1 p'); [by apply (evolves_more (fun _ => False) _ (fun _ => False))|]. apply (evolves_more (enters (OpGetWoken b) (Gives a)) _ (touches (OpGetWoken b) p1)); [by intros ? [? _]|done|done].
  - exists (Waits b), p1. split; [done|]. by apply waits_done.
Qed.

Lemma alloc_step V A p t blk : cinv V A p -> room p -> stepped V (OpAlloc t blk) A p.
Proof.
  intros HI Hroom. destruct (lookup_step V A p t blk HI Hroom) as (l & p1 & E & L & EV). unfold stepped. cbn [bop_run]. unfold alloc_buffer. step E. destruct l as [|b|b]; cbn [looked] in L.
  - destruct L as [-> Hnc]. pose proof HI as ((U & G & HU) & Hsz & HV). destruct (new_step U V A p true blk G HU Hsz HV Hnc) as (g & p' & E' & HF). exists g, p'. split; [exact E'|].
    apply (found_done V _ A p p' g true blk HF Hnc); try done. by intros b ->.
  - destruct L as (HI1 & Hh & Ek & Hi & Hz & Hb0 & H0 & Hlk & Ek0). destruct (alloc_woken_step _ _ p1 b HI1 Hh) as (g & p' & E' & [HI' Hg EV' _]). exists g, p'. split; [exact E'|].
    unfold gets in *. cbn [asked effect_of bop_run dirtied] in *. rewrite Ek in *. apply Z.eqb_neq in Hi as Hi'. rewrite Hi' in *.
    assert (Ec : clears p1 blk g = clears p blk g) by (unfold clears; by rewrite Hz). rewrite Ec in *.
    assert (Eg : state_of p b = BUF_STATE_INVALID -> g = Gives b).
    { intros Es. specialize (Hlk Es). destruct Hh as (r1 & Hr1 & Hh1 & _).
      unfold alloc_cached in E'. rewrite (kbind_done _ _ _ _ _ (get_buf_run p1 b r1 Hr1)) in E'. destruct (state_of_eq p1 b r1 Hr1) as (Es1 & _). rewrite Es1 in Hlk. rewrite Hlk in E'.
      change (BUF_STATE_LOCKED =? BUF_STATE_ERROR) with false in E'. cbv iota in E'. rewrite kbind_kget in E'. apply kbind_inv in E' as (? & ? & _ & E'). by injection E' as <- _. }
    assert (EA : apply_effect (clears p blk g) (apply_effect (if state_of p b =? BUF_STATE_INVALID then Put blk (zeros p) else Same) A) = apply_effect (clears p blk g) A).
    { destruct (Z.eqb_spec (state_of p b) BUF_STATE_INVALID) as [Es|Es]; [|done]. rewrite (Eg Es). unfold clears. apply Z.eqb_neq in Hb0. rewrite Hb0. cbn [apply_effect]. apply insert_insert_eq. }
    rewrite EA in *. assert (Hgo : goes_on g = false) by (unfold alloc_cached in E'; apply kbind_inv in E' as (? & ? & _ & E'); destruct (_ =? _) in E'; [|rewrite kbind_kget in E']; apply kbind_inv in E' as (? & ? & _ & E'); by injection E' as <- _).
    split; [| | |intros k _; congruence].
    + cbn [effect_of dirtied]. apply (cinv_more _ _ _ _ HI'). destruct (Z.eqb_spec (state_of p b) BUF_STATE_INVALID) as [Es|Es]; [rewrite (Eg Es)|]; set_solver.
    + exact Hg.
    + apply (evolves_trans _ _ p p1 p'); [by apply (evolves_more (fun _ => False) _ (fun _ => False))|]. apply (evolves_more (enters (OpAllocWoken b) g) _ (touches (OpAllocWoken b) p1)); [by intros ? [? _]|by intros ? ->|done].
  - exists (Waits b), p1. split; [done|]. by apply waits_done.
Qed.

Lemma invalidate_step V A p t blk : cinv V A p -> room p -> stepped V (OpInvalidate t blk) A p.
Proof.
  intros HI Hroom. destruct (lookup_step V A p t blk HI Hroom) as (l & p1 & E & L & EV). unfold stepped. cbn [bop_run]. unfold invalidate_buffer. step E. destruct l as [|b|b]; cbn [looked] in L.
  - destruct L as [-> _]. exists (Gives 0), p. split; [done|]. split; [|done|by apply evolves_same|done]. destruct HI as ((U & G & HU) & Hsz & HV). split; [exists U; split; [done|set_solver]|]. split; [done|]. apply (view_sub A); [done|]. apply delete_subseteq.
  - destruct L as (HI1 & Hh & Ek & _ & _ & _ & _ & _ & Ek0). assert (HI2 : cinv ({[b]} ∪ V) (apply_effect (if state_of p b =? BUF_STATE_INVALID then Put blk (zeros p) else Same) A) p1) by (apply (cinv_more _ _ _ _ HI1); destruct (_ =? _); set_solver).
    destruct (invalidate_woken_step V _ p1 b HI2 Hh) as (g & p' & E' & [HI' _ EV' _]).
    exists g, p'. split; [exact E'|]. cbn [effect_of dirtied] in *. rewrite Ek in HI'. cbn [bop_run] in E'. apply kbind_inv in E' as (? & ? & _ & E'). injection E' as <- _. cbn [apply_effect] in *. split; [|done| |done].
    + cbn [effect_of dirtied apply_effect]. destruct (state_of p b =? BUF_STATE_INVALID); cbn [apply_effect] in HI'; [|done]. by rewrite delete_insert_eq in HI'.
    + apply (evolves_trans _ _ p p1 p'); [by apply (evolves_more (fun _ => False) _ (fun _ => False))|]. apply (evolves_more (enters (OpInvalidateWoken b) (Gives 0)) _ (touches (OpInvalidateWoken b) p1)); [by intros ? [? _]|by intros ? ->|done].
  - exists (Waits b), p1. split; [done|]. by apply waits_done.
Qed.

Lemma read_step V A p b rc : cinv V A p -> step_pre V (OpRead b rc) p -> stepped V (OpRead b rc) A p.
Proof.
  intros ((U & G & HU) & Hsz & HV) (Htr & r & Hr & Hs & Hd). destruct (get_buffer_read_run U p b r rc G Hsz Hr Hs Hd) as (p' & E & G' & Hc).
  eexists _, p'. split; [exact E|]. destruct (state_of_eq p b r Hr) as (_ & Ek & _).
  destruct (buf_facts U p b r G Hr) as (_ & _ & [_ _ Hheld _] & _). assert (Hl : 1 <= b_locks r) by (apply Hheld; tauto).
  assert (HE : evolves (enters (OpRead b rc) (Gives (if rc <? 0 then 0 else b))) (touches (OpRead b rc) p) p p').
  { apply (evolves_other _ _ p p' b r _ Hr Hc); [by rewrite Hs|intros _; by rewrite Hs|]. destruct (rc <? 0); rewrite ?released_blkno; unfold read_buf; by destruct (_ =? _). }
  unfold read_buf in Hc. destruct Htr as [-> |Hneg].
  - rewrite Z.eqb_refl in Hc. destruct (Z.ltb_spec (bufsize p) 0); [lia|]. destruct (Hd eq_refl) as [d Hdk]. rewrite Hdk in Hc. cbn [default] in Hc.
    set (r' := woken_buf BUF_STATE_LOCKED (set_b_data d r)) in *.
    assert (V' : cview A p') by (apply (view_read U A p p' b r r' G HV Hr Hc); try done; unfold live; cbn; tauto).
    split; [eapply (cinv_intro U); [done|set_solver|done|exact Hc|done]| |done|done]. unfold gets. cbn [effect_of apply_effect asked]. rewrite Ek. right.
    apply (given_after U A p b r r' p'); try done; [cbn; lia|by left].
  - destruct (Z.ltb_spec rc 0); [|lia]. split; [|by left|done|done]. eapply (cinv_intro U); [done|set_solver|done|exact Hc|].
    destruct (Z.eqb_spec rc (bufsize p)); [lia|]. apply (view_same U A p p' b r _ G HV Hr Hc); [by rewrite released_blkno|rewrite Hs; by intros [?|[?|[?|[?|?]]]]|].
    apply view_silent; [by rewrite released_blkno|]. intros _. unfold released. destruct (1 <? _); cbn; tauto.
Qed.

(** The device has taken the data of a dirty buffer, or not. *)
Lemma transferred_ok p rc r : 0 <= bufsize p -> transferred p rc -> write_ok (wrote rc r p) rc r.
Proof.
  intros Hsz [-> |Hneg]; unfold wrote, write_ok.
  - rewrite Z.eqb_refl. split; [done|]. left. split; [done|]. apply lookup_insert_eq.
  - destruct (rc =? bufsize p); split; try done; by right.
Qed.

Lemma wrote_facts rc r p : bufs (wrote rc r p) = bufs p /\ bufsize (wrote rc r p) = bufsize p.
Proof. unfold wrote. by destruct (rc =? bufsize p). Qed.

(** A buffer after the write: it shows the same data, or they are lost. *)
Lemma written_view U A p p' b r r' rc : bgood U p -> cview A p -> bufs p !! b = Some r -> b_state r = BUF_STATE_WRITING -> changed b r' p p' ->
  b_blkno r' = b_blkno r -> b_data r' = b_data r -> (0 <= rc -> live (b_state r')) -> cview (apply_effect (if rc <? 0 then Lost (b_blkno r) else Same) A) p'.
Proof.
  intros G V Hr Hs Hc Ek Ed Hl. destruct (Z.ltb_spec rc 0); cbn [apply_effect]; [by apply (view_drop U A p p' b r r')|].
  apply (view_same U A p p' b r r' G V Hr Hc); [done|auto|apply view_silent; [done|]]. rewrite Hs. by intros [?|[?|?]].
Qed.

Lemma not_cached_wrote p rc r blk : not_cached p blk -> not_cached (wrote rc r p) blk.
Proof. unfold not_cached. by destruct (wrote_facts rc r p) as [-> _]. Qed.

Lemma writing_cached (r : buf) : b_state r = BUF_STATE_WRITING -> b_state r <> BUF_STATE_UPDATED /\ b_state r <> BUF_STATE_FREE.
Proof. by intros ->. Qed.

Lemma written_step V A p alloc blk b rc : cinv V A p -> step_pre V (OpWritten alloc blk b rc) p -> stepped V (OpWritten alloc blk b rc) A p.
Proof.
  intros ((U & G & HU) & Hsz & HV) (Hnc & Htr & r & Hr & Hs). unfold stepped. cbn [bop_run]. unfold after_write, get_new_written. set (p1 := wrote rc r p). destruct (writing_cached r Hs) as [Hnu Hnf].
  assert (G1 : bgood U p1) by (apply (wrote_good U p b r); [done..|by rewrite Hs]).
  assert (V1 : cview A p1) by (apply (view_wrote U A p b r); [done..|unfold live; tauto]). destruct (wrote_facts rc r p) as [Eb Esz]. fold p1 in Eb, Esz.
  assert (Hr1 : bufs p1 !! b = Some r) by (by rewrite Eb). pose proof (transferred_ok p rc r Hsz Htr) as Hok. fold p1 in Hok. assert (Hsz1 : 0 <= bufsize p1) by (by rewrite Esz).
  assert (EV : forall E T, evolves E T p p1) by (intros E T; by apply (evolves_wrote U E T p b r rc)).
  destruct (take_written_run U p1 b r rc G1 Hr1 Hs Hok) as (res & p2 & E2 & Hc2 & Hcase). destruct (state_of_eq p b r Hr) as (_ & Ek & _).
  rewrite kbind_assoc, (kbind_done _ _ _ _ _ (dev_write_run p b r rc Hr)). fold p1. rewrite (kbind_done _ _ _ _ _ E2). destruct Hcase as [(-> & T & Hrc)|(-> & G2)].
  - assert (Hdk : disk p1 !! b_blkno r = Some (b_data r)) by (destruct Hok as [_ [[_ ?]|?]]; [done|lia]).
    destruct (enter_step U V A p1 p2 b r _ alloc blk G1 HU Hsz1 V1 Hr1 Hc2 T) as (g & p' & E3 & [HI Hg HE]); [by apply not_cached_wrote|done|by right|].
    exists g, p'. split; [exact E3|]. assert (Ec : clears p1 blk g = clears p blk g) by (unfold clears, zeros; by rewrite Esz). rewrite Ec in *.
    apply (found_done V _ A p p' g alloc blk); try done; [|cbn [effect_of]; destruct (Z.ltb_spec rc 0); [lia|done]|intros a ->; by destruct alloc].
    split; [done|done|]. by apply (evolves_trans _ _ p p1 p').
  - exists Yields, p2. split; [done|]. assert (HE : forall E T, evolves E T p p2) by (intros E T; apply (evolves_trans _ _ p p1 p2); [done|]; apply (evolves_other _ _ p1 p2 b r _ Hr1 Hc2); done).
    split; [|done|apply HE|].
    + cbn [effect_of clears]. rewrite Ek. replace (if alloc then Same else Same) with Same by (by destruct alloc). eapply (cinv_intro U); [done|set_solver|exact Hsz1|exact Hc2|].
      apply (written_view U A p1 p2 b r _ rc G1 V1 Hr1 Hs Hc2); [done|done|]. intros Hge. unfold written_buf, live. destruct Htr as [-> |?]; [|lia]. rewrite Esz, Z.eqb_refl. cbn. tauto.
    + intros k [= <-] _. apply (evolves_not_cached (fun _ => False) (fun _ => False) p p2 blk); [apply HE|done|tauto].
Qed.

Lemma flush_written_step V A p b rc : cinv V A p -> step_pre V (OpFlushWritten b rc) p -> stepped V (OpFlushWritten b rc) A p.
Proof.
  intros ((U & G & HU) & Hsz & HV) (Htr & r & Hr & Hs). unfold stepped. cbn [bop_run]. unfold flush_written, flushes. set (p1 := wrote rc r p). destruct (writing_cached r Hs) as [Hnu Hnf].
  assert (G1 : bgood U p1) by (apply (wrote_good U p b r); [done..|by rewrite Hs]).
  assert (V1 : cview A p1) by (apply (view_wrote U A p b r); [done..|unfold live; tauto]). destruct (wrote_facts rc r p) as [Eb Esz]. fold p1 in Eb, Esz.
  assert (Hr1 : bufs p1 !! b = Some r) by (by rewrite Eb). pose proof (transferred_ok p rc r Hsz Htr) as Hok. fold p1 in Hok.
  destruct (flush_rest_run U p1 b r rc G1 Hr1 Hs Hok) as (p2 & E2 & G2 & Hc2). destruct (state_of_eq p b r Hr) as (_ & Ek & _).
  rewrite kbind_assoc, (kbind_done _ _ _ _ _ (dev_write_run p b r rc Hr)). fold p1. rewrite (kbind_done _ _ _ _ _ E2). exists (Gives 0), p2. split; [by destruct (rc <? 0)|].
  assert (Ek2 : b_blkno (flushed_buf p1 rc r) = b_blkno r) by (unfold flushed_buf; by destruct (_ && _)). split; [|done| |done].
  - cbn [effect_of]. rewrite Ek. eapply (cinv_intro U); [done|set_solver|by rewrite <- Esz in Hsz|exact Hc2|].
    apply (written_view U A p1 p2 b r _ rc G1 V1 Hr1 Hs Hc2); unfold flushed_buf; [by destruct (_ && _)|by destruct (_ && _)|].
    intros Hge. destruct Htr as [-> |?]; [|lia]. unfold written_buf, live. rewrite Esz, Z.eqb_refl. destruct (bool_decide _); cbn; tauto.
  - apply (evolves_trans _ _ p p1 p2); [by apply (evolves_wrote U _ _ p b r rc)|]. by apply (evolves_other _ _ p1 p2 b r _ Hr1 Hc2).
Qed.

Lemma cinv_ioactive V A v p : cinv V A p -> cinv V A (set_ioactive v p).
Proof. intros ((U & G & HU) & Hsz & HV). split; [exists U; split; [by apply set_ioactive_good|done]|]. by split. Qed.

(** A step that changes no buffer. *)
Lemma idle_done V o A p p' g : cinv V A p' -> evolves (fun _ => False) (fun _ => False) p p' -> effect_of o g p = Same -> asked o p = None -> seeks o = None -> step_done V o A p g p'.
Proof.
  intros HI HE Ee Ea Es. split; rewrite ?Ee; [apply (cinv_more V); [done|set_solver]|unfold gets; by rewrite Ea|by apply (evolves_more (fun _ => False) _ (fun _ => False))|congruence].
Qed.

Lemma flush_begin_step V A p : cinv V A p -> stepped V OpFlushBegin A p.
Proof.
  intros HI. unfold stepped. cbn [bop_run]. unfold flushes, flush_begin. rewrite kbind_assoc, kbind_kget. destruct (negb (nosync p =? 0)).
  - exists (Gives 0), p. split; [done|]. by apply idle_done; [|apply evolves_same|..].
  - rewrite kbind_assoc, kbind_kmod. exists (Gives 0), (set_ioactive 0 p). split; [done|]. by apply idle_done; [apply cinv_ioactive|apply evolves_same|..].
Qed.

Lemma flush_round_step V A p i : cinv V A p -> stepped V (OpFlush i) A p.
Proof.
  intros HI. pose proof HI as ((U & G & HU) & Hsz & HV). unfold stepped. cbn [bop_run]. unfold flushes, flush_round. rewrite kbind_assoc, kbind_kget.
  assert (Hidle : step_done V (OpFlush i) A p (Gives 0) p) by (by apply idle_done; [|apply evolves_same|..]).
  destruct (Z.eqb_spec (bl_head (dirty p)) 0) as [Ed|Ed]; [by exists (Gives 0), p|]. destruct (i && negb (ioactive p =? 0)); [by exists (Gives 0), p|].
  pose proof G as (F & C & D & H & B). destruct (dirty_head U F C D H p B Ed) as (r & Hr & Hs). destruct (write_start_run U p _ r true G Hr Hs) as (p' & E & G' & Hc).
  rewrite kbind_assoc. step E. exists (Writes (bl_head (dirty p))), p'. split; [done|]. apply idle_done; [|by apply (writing_evolves _ _ p p' (bl_head (dirty p)) r)|done..].
  eapply (cinv_intro U); [done|done|done|exact Hc|]. by apply (writing_view U A p p' (bl_head (dirty p)) r).
Qed.

Lemma sync_begin_step V A p : cinv V A p -> stepped V OpSyncBegin A p.
Proof.
  intros HI. unfold stepped. cbn [bop_run]. unfold flushes, sync_begin. rewrite kbind_assoc, kbind_kget.
  assert (Hidle : step_done V OpSyncBegin A p (Gives 0) p) by (by apply idle_done; [|apply evolves_same|..]). destruct (negb (nosync p =? 0)); [by exists (Gives 0), p|].
  pose proof HI as ((U & G & _) & _). rewrite (cn_number _ _ (good_counts U p G)) by (change (Z.to_nat BUF_STATE_UPDATED) with 6%nat; lia). cbn [kopt]. rewrite kbind_assoc, kbind_kret. destruct (_ =? 0); [by exists (Gives 0), p|].
  rewrite kbind_assoc, kbind_kmod. exists (Gives 0), (set_ioactive 0 p). split; [done|]. by apply idle_done; [apply cinv_ioactive|apply evolves_same|..].
Qed.

(** [sync_buffers] locks a buffer that is updated. *)
Lemma sync_round_step V A p i b : cinv V A p -> step_pre V (OpSync i b) p ->
  exists g p', bop_run (OpSync i b) p = Done (g, p') /\ step_done V (OpSync i b) A p g p' /\
    match g with Writes _ => exists r', bufs p' !! b = Some r' /\ b_state r' = BUF_STATE_UPDATED /\ 1 <= b_locks r' | _ => True end.
Proof.
  intros HI (Hroom & r & Hr). pose proof HI as ((U & G & HU) & Hsz & HV). cbn [bop_run]. unfold flushes, sync_round. rewrite kbind_assoc. step (get_buf_run p b r Hr).
  assert (Hidle : step_done V (OpSync i b) A p (Gives 0) p) by (by apply idle_done; [|apply evolves_same|..]).
  destruct (Z.eqb_spec (b_state r) BUF_STATE_UPDATED) as [Es|Es]; [|by exists (Gives 0), p]. rewrite kbind_assoc, kbind_kget.
  destruct (i && negb (ioactive p =? 0)); [by exists (Gives 0), p|]. destruct (good_lock U p b r G Hroom Hr) as (p' & E & G' & Hc); [by rewrite Es..|]. destruct (buf_facts U p b r G Hr) as (_ & _ & [[Hl _] _ _ _] & _).
  rewrite kbind_assoc. step E. exists (Writes b), p'. split; [done|]. split; [|exists (set_b_locks (b_locks r + 1) r); split; [by apply (changed_lookup b _ p)|]; cbn; split; [done|lia]]. apply idle_done; [| |done..].
  - eapply (cinv_intro U); [done|done|done|exact Hc|]. apply (view_same U A p p' b r _ G HV Hr Hc); [done|done|by apply view_silent].
  - apply (evolves_changed _ _ p p' b r _ Hr Hc); [intros ?; by right|]. intros _. right. cbn. split_and!; (done || lia).
Qed.

Lemma sync_written_step V A p b rc : cinv V A p -> step_pre V (OpSyncWritten b rc) p -> stepped V (OpSyncWritten b rc) A p.
Proof.
  intros ((U & G & HU) & Hsz & HV) (r & Hr & Hs). unfold stepped. cbn [bop_run]. step (dev_write_run p b r rc Hr). exists (Gives 0), (wrote rc r p). split; [done|]. apply idle_done; [|apply (evolves_wrote U _ _ p b r rc G Hr); by rewrite Hs|done..].
  split; [exists U; split; [apply (wrote_good U p b r); [done..|by rewrite Hs]|done]|]. split; [by destruct (wrote_facts rc r p) as [_ ->]|].
  apply (view_wrote U A p b r); [done..|unfold live; tauto].
Qed.

Lemma sync_rest_step V A p b rc : cinv V A p -> step_pre V (OpSyncRest b rc) p -> stepped V (OpSyncRest b rc) A p.
Proof.
  intros HI Hok. pose proof HI as ((U & G & HU) & Hsz & HV). unfold stepped. cbn [bop_run]. unfold flushes. destruct (decide (rc < 0)) as [Hneg|Hge].
  { unfold sync_rest. destruct (Z.ltb_spec rc 0); [|lia]. exists (Gives 0), p. split; [done|]. by apply idle_done; [|apply evolves_same|..]. }
  destruct Hok as [?|(r & Hr & Hs & Hl & Hd)]; [lia|]. destruct (sync_rest_run U p b r rc G Hr Hs Hl Hd) as (p' & E & G' & Hc); [lia|]. step E.
  exists (Gives 0), p'. split; [done|]. assert (Ek : b_blkno (released (set_b_state BUF_STATE_LOCKED r)) = b_blkno r) by (by rewrite released_blkno). split; [|done| |done].
  - eapply (cinv_intro U); [done|set_solver|done|exact Hc|].
    apply (view_same U A p p' b r _ G HV Hr Hc Ek); [|apply view_silent; [done|rewrite Hs; by intros [?|[?|?]]]].
    intros _. unfold released, live. destruct (1 <? _); cbn; tauto.
  - apply (evolves_touched _ _ p p' b r _ Hr Hc); [done|intros _; by rewrite Hs|done].
Qed.

Lemma step_all (V : gset Z) (o : bop) (A : gmap Z (list Z)) (p : bufpool) : cinv V A p -> step_pre V o p -> stepped V o A p.
Proof.
  intros HI Hok. destruct o; cbn [step_pre] in Hok.
  - by apply get_step.
  - by apply alloc_step.
  - by apply invalidate_step.
  - by apply retry_step.
  - by apply written_step.
  - by apply read_step.
  - by apply get_woken_step.
  - by apply alloc_woken_step.
  - apply invalidate_woken_step; [|done]. apply (cinv_more V); [done|set_solver].
  - by apply store_step.
  - by apply mark_updated_step.
  - by apply mark_invalid_step.
  - by apply release_step.
  - by apply flush_begin_step.
  - by apply flush_round_step.
  - by apply flush_written_step.
  - by apply sync_begin_step.
  - destruct (sync_round_step V A p interruptable b HI Hok) as (g & p' & E & HD & _). by exists g, p'.
  - by apply sync_written_step.
  - by apply sync_rest_step.
Qed.

(** ** The threads *)

(** The pool and what the threads are at: the blocks that threads look for a new
    buffer for, between the search in the cache and the end of
    [get_new_buffer]; the buffers that [sync_buffers] writes, with the result of
    the device call when there is one; and the buffers that have been changed
    and not been marked as updated yet. *)
Record cworld := World { w_pool : bufpool; w_seeking : gset Z; w_syncing : gmap Z (option Z); w_unmarked : gset Z }.

Definition after (o : bop) (g : get_result) (p' : bufpool) (w : cworld) : cworld :=
  World p'
    (match seeks o with Some blk => if goes_on g then {[blk]} ∪ w_seeking w else w_seeking w ∖ {[blk]} | None => w_seeking w end)
    (match o, g with
     | OpSync _ b, Writes _ => <[b := None]> (w_syncing w)
     | OpSyncWritten b rc, _ => <[b := Some rc]> (w_syncing w)
     | OpSyncRest b _, _ => delete b (w_syncing w)
     | _, _ => w_syncing w
     end)
    (filter (fun b => state_of p' b = BUF_STATE_LOCKED) (dirtied o g (w_pool w) ∪ w_unmarked w)).

(** The step in which [sync_buffers] goes on after the write of [b]. *)
Definition ends_sync (o : bop) (b : Z) : Prop := match o with OpSyncRest c _ => b = c | _ => False end.

(** The rules for the threads.  Those of the interface: a buffer is changed,
    marked and given back by a thread that holds it, and a thread that has
    changed a buffer marks it before it gives it back.  Those that the code of
    the cache does not enforce: nobody asks for a block that another thread is
    looking for a new buffer for, and nobody changes a buffer or gives it back
    for the last time while [sync_buffers] writes it.  The others say which step
    goes on with which operation, that the device transfers a buffer or returns
    an error, and that the counts of locks do not overflow. *)
Definition keeps_rules (o : bop) (w : cworld) : Prop :=
  let p := w_pool w in
  map_Forall (fun b _ => ~ touches o p b \/ ends_sync o b) (w_syncing w) /\
  match o with
  | OpGet _ blk | OpAlloc _ blk => room p /\ blk ∉ w_seeking w
  | OpInvalidate _ _ => room p
  | OpRetry _ blk => blk ∈ w_seeking w
  | OpWritten _ blk b rc => blk ∈ w_seeking w /\ transferred p rc /\ state_of p b = BUF_STATE_WRITING
  | OpRead b rc => transferred p rc /\ state_of p b = BUF_STATE_READING /\ (rc = bufsize p -> is_Some (disk p !! blk_of p b))
  | OpGetWoken b | OpAllocWoken b | OpInvalidateWoken b | OpMarkUpdated b | OpMarkInvalid b => holder p b
  | OpStore b _ => holder p b /\ state_of p b <> BUF_STATE_ERROR
  | OpRelease b => holder p b /\ (locks_of p b <= 1 -> b ∉ w_unmarked w)
  | OpFlushWritten b rc => transferred p rc /\ state_of p b = BUF_STATE_WRITING
  | OpFlushBegin | OpFlush _ | OpSyncBegin => True
  | OpSync _ b => room p /\ is_Some (bufs p !! b) /\ w_syncing w !! b = None
  | OpSyncWritten b rc => transferred p rc /\ w_syncing w !! b = Some None
  | OpSyncRest b rc => w_syncing w !! b = Some (Some rc)
  end.

(** A buffer that [sync_buffers] writes; [st] is the result of the device. *)
Definition sync_ok (p : bufpool) (b : Z) (st : option Z) : Prop :=
  exists r, bufs p !! b = Some r /\ b_state r = BUF_STATE_UPDATED /\ 1 <= b_locks r /\
    forall rc, st = Some rc -> rc < 0 \/ disk p !! b_blkno r = Some (b_data r).

Record winv (A : gmap Z (list Z)) (w : cworld) : Prop := {
  wi_pool : cinv (w_unmarked w) A (w_pool w);
  wi_seeking blk : blk ∈ w_seeking w -> not_cached (w_pool w) blk;
  wi_syncing b st : w_syncing w !! b = Some st -> sync_ok (w_pool w) b st;
}.

Lemma state_of_some p b s : state_of p b = s -> s <> BUF_STATE_FREE -> exists r, bufs p !! b = Some r /\ b_state r = s /\ blk_of p b = b_blkno r.
Proof. unfold state_of, blk_of. destruct (bufs p !! b) as [r|]; cbn; [|by intros ->]. intros E _. by exists r. Qed.

(** The conditions of the steps follow from the rules. *)
Lemma rules_pre o A w : winv A w -> keeps_rules o w -> step_pre (w_unmarked w) o (w_pool w).
Proof.
  intros [HI Hse Hsy] [_ Hr]. destruct o; cbn [step_pre] in *; try done.
  - by destruct Hr.
  - by destruct Hr.
  - by apply Hse.
  - destruct Hr as (? & ? & Hs). destruct (state_of_some _ _ _ Hs) as (r & Hb & Es & _); [done|]. split; [by apply Hse|]. split; [done|by exists r].
  - destruct Hr as (? & Hs & Hd). destruct (state_of_some _ _ _ Hs) as (r & Hb & Es & Ek); [done|]. rewrite Ek in Hd. split; [done|by exists r].
  - destruct Hr as [(r & Hr & Hh & Hl) Hs]. destruct (state_of_eq _ _ _ Hr) as (Es & _). exists r. rewrite Es in Hs. done.
  - destruct Hr as [(r & Hr & Hh & Hl) Hs]. exists r. split_and!; try done. unfold locks_of in Hs. rewrite Hr in Hs. cbn in Hs. destruct (decide (b_locks r <= 1)); [right; auto|left; lia].
  - destruct Hr as (? & Hs). destruct (state_of_some _ _ _ Hs) as (r & Hb & Es & _); [done|]. split; [done|by exists r].
  - by destruct Hr as (? & ? & _).
  - destruct Hr as [_ Hb]. destruct (Hsy _ _ Hb) as (r & Hr & Hs & _). by exists r.
  - destruct (Hsy _ _ Hr) as (r & Hb & Hs & Hl & Hd). destruct (Hd rc eq_refl) as [?|?]; [by left|right; by exists r].
Qed.

Lemma cinv_locked V A p : cinv V A p -> cinv (filter (fun b => state_of p b = BUF_STATE_LOCKED) V) A p.
Proof.
  intros ((U & G & HU) & H). split; [|done]. exists U. split; [done|]. intros b Hb. apply elem_of_filter. split; [|set_solver].
  destruct (bufs p !! b) as [r|] eqn:Hr; [destruct (state_of_eq p b r Hr) as (-> & _); by apply (buf_facts U p b r G Hr)|]. destruct G as (F & C & D & H' & [_ _ Hct _]). by destruct (ct_none _ _ _ _ _ _ _ _ _ Hct b Hr) as (_ & _ & _ & _ & ?).
Qed.

(** A buffer that [sync_buffers] writes stays as it is. *)
Lemma sync_stays E T p p' b st : evolves E T p p' -> ~ T b -> sync_ok p b st -> sync_ok p' b st.
Proof.
  intros [_ HE] HT (r & Hr & Hs & Hl & Hd). destruct (HE b r Hr Hs) as [?|(r' & Hr' & Hs' & Ek & Ed & Hl' & Hd')]; [done|]. exists r'. split_and!; auto. intros rc Erc. rewrite Ek, Ed. destruct (Hd rc Erc); auto.
Qed.

Lemma after_syncing o g p' w A : winv A w -> keeps_rules o w -> bop_run o (w_pool w) = Done (g, p') -> evolves (enters o g) (touches o (w_pool w)) (w_pool w) p' ->
  forall b st, w_syncing (after o g p' w) !! b = Some st -> sync_ok p' b st.
Proof.
  intros HI HR E EV b st. pose proof (rules_pre o A w HI HR) as Hpre. destruct HI as [HI Hse Hsy], HR as [HT HR].
  assert (Hold : forall st, w_syncing w !! b = Some st -> ~ ends_sync o b -> sync_ok p' b st) by (intros st' Hb Ho; refine (sync_stays _ _ _ p' b st' EV _ (Hsy b st' Hb)); by destruct (HT b st' Hb)).
  destruct o as [| | | | | | | | | | | | | | | | |i c|c rc|c rc]; cbn [after w_syncing]; try (intros Hb; by apply Hold; [|intros []]).
  - destruct (sync_round_step _ A _ i c HI Hpre) as (g' & q & E' & _ & Hg). rewrite E in E'. injection E' as <- <-. destruct g as [| | |c'|]; try (intros Hb; by apply Hold; [|intros []]).
    intros [[<- <-]|[Hne Hb]]%lookup_insert_Some; [|apply Hold; [done|intros []]]. destruct Hg as (r & Hr & Hs & Hl). by exists r.
  - intros [[<- <-]|[Hne Hb]]%lookup_insert_Some; [|apply Hold; [done|intros []]]. destruct HR as [Htr Hc]. destruct (Hsy _ _ Hc) as (r & Hr & Hs & Hl & _). cbn [bop_run] in E.
    rewrite (kbind_done _ _ _ _ _ (dev_write_run _ c r rc Hr)) in E. injection E as _ <-. exists r. destruct (wrote_facts rc r (w_pool w)) as [-> _]. split_and!; try done. intros rc' [= <-].
    destruct Htr as [-> |?]; [right|by left]. unfold wrote. rewrite Z.eqb_refl. apply lookup_insert_eq.
  - intros [Hne Hb]%lookup_delete_Some. apply Hold; [done|]. cbn. congruence.
Qed.

Lemma after_seeking o g p' w A blk : winv A w -> evolves (enters o g) (touches o (w_pool w)) (w_pool w) p' -> (forall k, seeks o = Some k -> goes_on g = true -> not_cached p' k) ->
  blk ∈ w_seeking (after o g p' w) -> not_cached p' blk.
Proof.
  intros HI EV Hs Hb. assert (Hold : blk ∈ w_seeking w -> ~ enters o g blk -> not_cached p' blk) by (intros Hb' HE; refine (evolves_not_cached _ _ _ _ blk EV _ HE); by apply (wi_seeking A w HI)).
  cbn [after w_seeking] in Hb. unfold enters in Hold. destruct (seeks o) as [k|] eqn:Ek; [|apply Hold; [done|by intros [? _]]]. destruct (goes_on g) eqn:Eg.
  - apply elem_of_union in Hb as [->%elem_of_singleton|Hb]; [by apply Hs|]. apply Hold; [done|by intros [_ ?]].
  - apply elem_of_difference in Hb as [Hb Hne]. apply Hold; [done|]. intros [[= ->] _]. set_solver.
Qed.

(** What a step of the threads does. *)
Definition coherent (o : bop) (A : gmap Z (list Z)) (w : cworld) : Prop :=
  exists g p', bop_run o (w_pool w) = Done (g, p') /\ winv (apply_effect (effect_of o g (w_pool w)) A) (after o g p' w) /\
    gets o g (w_pool w) p' (apply_effect (effect_of o g (w_pool w)) A).

Lemma world_step (o : bop) (A : gmap Z (list Z)) (w : cworld) : winv A w -> keeps_rules o w -> coherent o A w.
Proof.
  intros HI HR. destruct (step_all (w_unmarked w) o A (w_pool w) (wi_pool _ _ HI) (rules_pre o A w HI HR)) as (g & p' & E & [HC Hg EV Hs]). exists g, p'. split; [done|]. split; [|done]. split.
  - by apply cinv_locked.
  - intros blk. by apply (after_seeking o g p' w A).
  - by apply (after_syncing o g p' w A).
Qed.

(** C4: every step of the buffer cache that keeps the rules for the threads
    ([keeps_rules]: those of the interface, and that nobody asks for a block that
    another thread is bringing in and nobody changes a buffer that
    [sync_buffers] is writing) ends, keeps the invariant of the pool (the free,
    clean and dirty lists, the buckets, the counts of the states, the locks, one
    buffer for each block at most, and clean buffers as the device has them) and
    is a step of the store of blocks: a stored block is read back with the data
    that were stored last, a block that is allocated is clear, and only
    invalidating a block or an error of the device loses data; a buffer that is
    given to a caller is the locked buffer of its block with the data of the
    store. *)
Theorem cache_coherent (o : bop) (A : gmap Z (list Z)) (w : cworld) : winv A w -> keeps_rules o w -> coherent o A w.
Proof. apply world_step. Qed.

(** ** A new pool *)

Definition fresh_buf (size : Z) : buf := Buf BUF_STATE_FREE 0 [] 0 (replicate (Z.to_nat size) 0).

Lemma table_lookup {A} (v : A) (l : list Z) b : (list_to_map ((fun b => (b, v)) <$> l) : gmap Z A) !! b = if decide (b ∈ l) then Some v else None.
Proof.
  induction l as [|a l IH]; cbn; [done|]. destruct (decide (b = a)) as [->|Hne].
  - rewrite lookup_insert_eq, decide_True by (by left). done.
  - rewrite lookup_insert_ne, IH by done. destruct (decide (b ∈ l)), (decide (b ∈ a :: l)); set_solver.
Qed.

Lemma free_chain_lookup l b : is_Some (free_chain l !! b) <-> b ∈ l.
Proof.
  induction l as [|a l IH]; cbn; [rewrite lookup_empty; split; [by intros [? ?]|by intros ?%elem_of_nil]|]. rewrite lookup_insert_is_Some', IH. set_solver.
Qed.

Lemma free_chain_slist l : NoDup l -> slist (free_chain l) l.
Proof.
  induction l as [|a l IH]; [done|]. intros [Ha Hn]%NoDup_cons. split; [exists (BufLink (hd 0 l) 0); split; [apply lookup_insert_eq|done]|].
  eapply slist_frame; [|by apply IH]. intros b Hb. apply lookup_insert_ne. by intros ->.
Qed.

Lemma number_fresh size l s : NoDup l ->
  number (list_to_map ((fun b => (b, fresh_buf size)) <$> l)) s = if decide (0%nat = s) then Z.of_nat (length l) else 0.
Proof.
  induction l as [|a l IH]; intros Hn; [by destruct s|]. apply NoDup_cons in Hn as [Ha Hn]. cbn [fmap list_fmap list_to_map foldr fst snd].
  rewrite number_insert by (rewrite table_lookup; by rewrite decide_False). rewrite (IH Hn). cbn [b_state fresh_buf length]. change (Z.to_nat BUF_STATE_FREE) with 0%nat. destruct (decide (0%nat = s)); lia.
Qed.

Lemma init_good size l d : NoDup l -> 0 ∉ l -> bgood ∅ (init_buffer_pool size l d).
Proof.
  intros Hn H0. exists l, [], [], (fun _ => []). unfold init_buffer_pool. fold (fresh_buf size). split; cbn [bufs bucket chain dirty clean freelist bufcount hashtable disk].
  - split; [split; [done|by apply free_chain_slist]|done|done|by rewrite !app_nil_r|by rewrite !app_nil_r].
  - split; try done; [|intros; apply NoDup_nil_2|intros _; set_solver|intros i j b; set_solver]. intros i Hi. apply lookup_replicate_2. exact Hi.
  - split.
    + rewrite table_lookup. by rewrite decide_False.
    + intros b. rewrite table_lookup. destruct (decide (b ∈ l)) as [|Hb]; [done|]. intros _. split_and!; [done|set_solver..].
    + intros b r. rewrite table_lookup. destruct (decide (b ∈ l)) as [Hb|]; [|done]. intros [= <-]. assert (Hb0 : b <> 0) by (by intros ->).
      split; cbn; try done.
      * split; [by intros ?%elem_of_nil|by intros [_ ?]].
      * split; [by intros ?%elem_of_nil|by intros [_ ?]].
      * intros i. split; [by intros ?%elem_of_nil|by intros (_ & ? & _)].
      * intros _. split; cbn; try done. by intros [?|[?|[?|?]]].
      * by intros _ _ [?|?].
    + intros b1 b2 r1 r2. rewrite !table_lookup. destruct (decide (b1 ∈ l)); [|done]. by intros [= <-] _ _ _ ?.
    + split; [by rewrite length_insert, length_replicate|]. intros s Hs. rewrite number_fresh by done. change (Z.to_nat BUF_STATE_FREE) with 0%nat. destruct s as [|s]; [done|].
      rewrite list_lookup_insert_ne by done. rewrite decide_False by done. by apply lookup_replicate_2.
  - intros b. cbn. rewrite !table_lookup. destruct (decide (b ∈ l)) as [Hb|]; [|by intros [? ?]]. intros _. split; [by apply free_chain_lookup|by eexists].
Qed.

(** The store of a new pool is the device. *)
Lemma init_cinv size l d : NoDup l -> 0 ∉ l -> 0 <= size -> cinv ∅ d (init_buffer_pool size l d).
Proof.
  intros Hn H0 Hs. split; [exists ∅; split; [by apply init_good|done]|]. split; [done|]. intros blk dt Hd. right. split; [done|]. intros b r. cbn. rewrite table_lookup.
  destruct (decide (b ∈ l)); [|done]. intros [= <-] _. by left.
Qed.

(** No thread is at work. *)
Definition new_world (p : bufpool) : cworld := World p ∅ ∅ ∅.

Lemma init_winv size l d : NoDup l -> 0 ∉ l -> 0 <= size -> winv d (new_world (init_buffer_pool size l d)).
Proof. intros Hn H0 Hs. split; [by apply init_cinv|set_solver|done]. Qed.

(** The steps of the threads and of the device. *)
Inductive reaches (A0 : gmap Z (list Z)) (w0 : cworld) : gmap Z (list Z) -> cworld -> Prop :=
| reach_here : reaches A0 w0 A0 w0
| reach_step A w o g p' : reaches A0 w0 A w -> keeps_rules o w -> bop_run o (w_pool w) = Done (g, p') -> reaches A0 w0 (apply_effect (effect_of o g (w_pool w)) A) (after o g p' w).

Lemma reaches_winv A0 w0 A w : winv A0 w0 -> reaches A0 w0 A w -> winv A w.
Proof.
  intros HI. induction 1 as [|A w o g p' _ IH Hok E]; [done|]. destruct (world_step o A w IH Hok) as (g' & p'' & E' & HI' & _). rewrite E in E'. by injection E' as <- <-.
Qed.

(** Buffers in the state [s]. *)
Definition none_in (p : bufpool) (s : Z) : Prop := bufcount p !! Z.to_nat s = Some 0.

Lemma none_in_state U p s b r : bgood U p -> 0 <= s < 9 -> none_in p s -> bufs p !! b = Some r -> b_state r <> s.
Proof.
  intros G Hs Hn Hr E. unfold none_in in Hn. rewrite (cn_number _ _ (good_counts U p G)) in Hn by lia. injection Hn as Hn. unfold number in Hn.
  assert (Hf : filter (in_state (Z.to_nat s)) (bufs p) = ∅) by (apply map_size_empty_iff; lia).
  assert (filter (in_state (Z.to_nat s)) (bufs p) !! b = Some r) by (apply map_lookup_filter_Some; split; [done|]; unfold in_state; cbn; by rewrite E). by rewrite Hf in *.
Qed.

(** C15: whatever the threads of the kernel have done since the pool was made, as
    long as every step keeps the rules for the threads ([keeps_rules]), once no
    buffer is dirty, being written, updated or in use, the device has every block
    of the store with the data that were stored last. *)
Theorem cache_durable (size : Z) (l : list Z) (d A : gmap Z (list Z)) (w : cworld) (blk : Z) (dt : list Z) :
  NoDup l -> 0 ∉ l -> 0 <= size -> reaches d (new_world (init_buffer_pool size l d)) A w ->
  none_in (w_pool w) BUF_STATE_DIRTY -> none_in (w_pool w) BUF_STATE_WRITING -> none_in (w_pool w) BUF_STATE_LOCKED -> none_in (w_pool w) BUF_STATE_UPDATED ->
  A !! blk = Some dt -> disk (w_pool w) !! blk = Some dt.
Proof.
  intros Hn H0 Hs Hre N1 N2 N3 N4 Ha. destruct (wi_pool _ _ (reaches_winv d _ A w (init_winv size l d Hn H0 Hs) Hre)) as ((U & G & _) & _ & V). set (p := w_pool w) in *.
  destruct (V blk dt Ha) as [(b & r & Hr & Hl & Ek & Ed)|[Hd _]]; [|done]. destruct Hl as [Es|[Es|[Es|[Es|Es]]]].
  2: by destruct (none_in_state U p BUF_STATE_DIRTY b r G ltac:(done) N1 Hr Es).
  2: by destruct (none_in_state U p BUF_STATE_WRITING b r G ltac:(done) N2 Hr Es).
  2: by destruct (none_in_state U p BUF_STATE_LOCKED b r G ltac:(done) N3 Hr Es).
  2: by destruct (none_in_state U p BUF_STATE_UPDATED b r G ltac:(done) N4 Hr Es).
  rewrite <- Ek, <- Ed. apply (buf_facts U p b r G Hr); [|by left]. apply (error_not_fresh U p b r G Hr). by rewrite Es.
Qed.

(** ** Steps that do not keep the rules *)

Fixpoint bops_run (os : list bop) : K bufpool (list get_result) :=
  match os with
  | [] => kret []
  | o :: os' => let* g := bop_run o in let* gs := bops_run os' in kret (g :: gs)
  end.

Lemma bops_step o os p g p1 gs p' : bop_run o p = Done (g, p1) -> bops_run os p1 = Done (gs, p') -> bops_run (o :: os) p = Done (g :: gs, p').
Proof. intros E1 E2. cbn [bops_run]. step E1. by step E2. Qed.

(** A buffer in a list. *)
Definition listed (r : buf) : Prop := b_state r = BUF_STATE_FREE \/ b_state r = BUF_STATE_CLEAN \/ b_state r = BUF_STATE_DIRTY.

Lemma listed_idle U p b r : bgood U p -> bufs p !! b = Some r -> listed r -> b_locks r = 0 /\ b_waiters r = [] /\ (b ∉ U) /\ valid_state (b_state r) /\ b <> 0.
Proof.
  intros G Hr Hs. destruct (buf_facts U p b r G Hr) as (Hb0 & Hv & [_ Hi _ Hw] & HU & _). split_and!; [apply Hi; unfold listed in Hs; tauto| | |done|done].
  - destruct (decide (b_waiters r = [])) as [|Hne]; [done|]. apply Hw in Hne. destruct Hs as [E|[E|E]]; rewrite E in Hne; by destruct Hne.
  - intros Hin. apply HU in Hin. destruct Hs as [E|[E|E]]; by rewrite E in Hin.
Qed.

(** There is a buffer that can be used. *)
Lemma new_avail U p b r p' : bgood U p -> bufs p !! b = Some r -> listed r -> get_new_buffer p = Done (NewYields, p') -> False.
Proof.
  intros G Hr Hs E. destruct (listed_idle U p b r G Hr Hs) as (_ & _ & _ & _ & Hb0). pose proof G as (F & C & D & H & B). pose proof B as [Hch _ Hct _].
  pose proof (ct_buf _ _ _ _ _ _ _ _ _ Hct b r Hr) as [_ K1 K2 K3 _ _ _ _ _]. pose proof Hch as [[Ef _] [Ec _] [Ed _] _ Hnull]. rewrite !not_elem_of_app in Hnull. destruct Hnull as (Z1 & Z2 & Z3).
  assert (Hd : forall l : list Z, 0 ∉ l -> forall x, x ∈ l -> hd 0 l <> 0) by (intros [|y l] H0 x Hx; [by apply elem_of_nil in Hx|]; cbn; intros ->; apply H0; by left).
  unfold get_new_buffer in E. rewrite kbind_kget in E. destruct (Z.eqb_spec (freelist p) 0) as [E1|E1]; cbn [negb] in E.
  2: { destruct (new_free_run U F C D H p B E1) as (q & E' & _). cbv zeta in E'. by rewrite E' in E. }
  destruct (Z.eqb_spec (bl_head (clean p)) 0) as [E2|E2]; cbn [negb] in E.
  2: { destruct (new_clean_run U F C D H p B E2) as (q & E' & _). cbv zeta in E'. by rewrite E' in E. }
  destruct (Z.eqb_spec (bl_head (dirty p)) 0) as [E3|E3]; cbn [negb] in E.
  - rewrite Ef in E1. rewrite Ec in E2. rewrite Ed in E3. cbn [bl_head] in *. destruct Hs as [Hs|[Hs|Hs]]; [apply (Hd F Z1 b); tauto|apply (Hd C Z2 b); tauto|apply (Hd D Z3 b); tauto].
  - destruct (dirty_head U F C D H p B E3) as (r' & Hr' & Hs'). destruct (write_start_run U p _ r' false G Hr' Hs') as (q & E' & _). by rewrite (kbind_done _ _ _ _ _ E') in E.
Qed.

Lemma lookup_none U p t blk : bgood U p -> room p -> not_cached p blk -> lookup_buffer t blk p = Done (NotCached, p).
Proof.
  intros G Hroom Hnc. destruct (lookup_run U p t blk G Hroom) as (l & p1 & E & L). destruct l as [|b|b]; cbn [looked_up] in L.
  - by destruct L as [-> _].
  - destruct L as (r & Hr & Ek & _ & _ & Hf & _). by destruct (Hnc b r Hr Hf).
  - destruct L as (r & Hr & Ek & Hs & _). destruct (Hnc b r Hr); [destruct Hs as [-> | ->]; done|done].
Qed.

(** No buffer can be used at once. *)
Definition all_busy (p : bufpool) : Prop := forall b r, bufs p !! b = Some r -> b_state r <> BUF_STATE_FREE /\ b_state r <> BUF_STATE_CLEAN.

Definition is_dirty (p : bufpool) (b : Z) : Prop := exists r, bufs p !! b = Some r /\ b_state r = BUF_STATE_DIRTY.

(** A call for a block that is not in the cache writes a dirty buffer then. *)
Lemma get_writes U p t blk c : bgood U p -> room p -> not_cached p blk -> all_busy p -> is_dirty p c ->
  exists b r p', get_buffer t blk p = Done (Writes b, p') /\ bufs p !! b = Some r /\ b_state r = BUF_STATE_DIRTY /\ b_waiters r = [] /\ bgood U p' /\ changed b (set_b_state BUF_STATE_WRITING r) p p'.
Proof.
  intros G Hroom Hnc Hbusy (rc & Hrc & Hsc). unfold get_buffer. step (lookup_none U p t blk G Hroom Hnc). destruct (get_new_run U p G) as (n & p1 & E & N). step E. destruct n as [b|b|]; cbn [new_found] in N.
  - destruct N as (r & Hr & Hs & _). destruct (Hbusy b r Hr). by destruct Hs.
  - destruct N as (r & Hr & Hs & G' & Hc). exists b, r, p1. destruct (listed_idle U p b r G Hr) as (_ & Hw & _); [unfold listed; tauto|]. done.
  - subst p1. exfalso. apply (new_avail U p c rc p G Hrc); [unfold listed; tauto|done].
Qed.

(** The write of a buffer that nobody waits for has ended: the buffer is the
    caller's. *)
Lemma written_taken U p b r : bgood U p -> 0 <= bufsize p -> bufs p !! b = Some r -> b_state r = BUF_STATE_WRITING -> b_waiters r = [] ->
  exists r1 q, (forall k, after_write false k b (bufsize p) p = get_insert k b q) /\ taken U b q /\ bufs q = <[b := r1]> (bufs p) /\ bufsize q = bufsize p /\ (forall k, k <> b_blkno r -> disk q !! k = disk p !! k).
Proof.
  intros G Hsz Hr Hs Hw. set (p1 := wrote (bufsize p) r p). destruct (wrote_facts (bufsize p) r p) as [Eb Esz]. fold p1 in Eb, Esz. assert (G1 : bgood U p1) by (apply (wrote_good U p b r); [done..|by rewrite Hs]).
  assert (Hr1 : bufs p1 !! b = Some r) by (by rewrite Eb). pose proof (transferred_ok p (bufsize p) r Hsz (or_introl eq_refl)) as Hok. fold p1 in Hok.
  destruct (take_written_run U p1 b r (bufsize p) G1 Hr1 Hs Hok) as (res & q & E & Hc & Hcase). destruct Hcase as [(-> & T & _)|(-> & G2)].
  - exists (written_buf p1 (bufsize p) r), q. split; [intros k; unfold after_write, get_new_written; rewrite kbind_assoc, (kbind_done _ _ _ _ _ (dev_write_run p b r _ Hr)); fold p1; by step E|]. split; [done|].
    destruct Hc as (Em & Ed & Es). rewrite Em, Ed, Es, Eb, Esz. split; [done|]. split; [done|]. intros k Hk. unfold p1, wrote. rewrite Z.eqb_refl. cbn. by rewrite lookup_insert_ne.
  - exfalso. destruct (buf_facts U p b r G Hr) as (_ & _ & [_ Hi _ _] & _). destruct (buf_facts U q b _ G2 (changed_lookup _ _ _ _ Hc)) as (_ & _ & [_ _ Hh _] & _).
    assert (Hl : b_locks (written_buf p1 (bufsize p) r) = 0) by (unfold written_buf; cbn; rewrite Hw, Hi by tauto; done). rewrite Hl in Hh. assert (1 <= 0); [|lia]. apply Hh. left. unfold written_buf. by rewrite Esz, Z.eqb_refl.
Qed.

(** The buffer enters the cache, also when there is one for the block. *)
Lemma get_insert_any U p b r blk : taken U b p -> bufs p !! b = Some r ->
  exists p', get_insert blk b p = Done (Reads b, p') /\ changed b (reading_buf blk r) p p' /\ counts (bufs p') (bufcount p') /\ hashtable p' !! hash_slot blk = Some b /\ b <> 0.
Proof.
  intros (F & C & D & H & B) Hr. pose proof B as [_ Hbk Hct Hlk]. assert (Hb0 : b <> 0) by (intros ->; by rewrite (ct_null _ _ _ _ _ _ _ _ _ Hct) in Hr).
  pose proof (ct_buf _ _ _ _ _ _ _ _ _ Hct b r Hr) as [K1 _ _ _ K5 K6 _ _ _]. destruct (K6 eq_refl) as [Hl0 Hw0]. assert (HbH : forall i, b ∉ H i) by (intros i; rewrite K5; by intros [? _]).
  unfold get_insert. step (upd_buf_run p b r (set_b_blkno blk) Hr). set (r1 := set_b_blkno blk r). set (p1 := set_bufs _ p). assert (Hr1 : bufs p1 !! b = Some r1) by apply lookup_insert_eq.
  destruct (insert_run p1 b r1 H Hr1 Hbk) as (p2 & E2 & Hbk2 & Ep2); [apply (Hlk b (mk_is_Some _ _ Hr))|done|done|]. step E2. cbn [b_blkno r1 set_b_blkno] in Hbk2, Ep2.
  assert (Hr2 : bufs p2 !! b = Some r1) by (by rewrite Ep2). assert (Hcn2 : counts (bufs p2) (bufcount p2)) by (rewrite Ep2; exact (counts_same (bufs p) (bufcount p) b r r1 (ct_count _ _ _ _ _ _ _ _ _ Hct) Hr eq_refl)).
  step (add_lock_run p2 b r1 Hr2 ltac:(cbn; lia)). set (r2 := set_b_locks (b_locks r1 + 1) r1). set (p3 := set_bufs _ p2). assert (Hr3 : bufs p3 !! b = Some r2) by apply lookup_insert_eq.
  destruct (change_state_run p3 b r2 BUF_STATE_READING (counts_same (bufs p2) (bufcount p2) b r1 r2 Hcn2 Hr2 eq_refl) Hr3 K1) as (cnt & E3 & Hcn3); [done|]. unfold read_start.
  rewrite kbind_assoc. step E3. rewrite kbind_kmod. eexists. split; [done|]. split; [|split; [exact Hcn3|split; [|done]]].
  - split; [|split; cbn; by rewrite Ep2]. cbn. rewrite Ep2. cbn. rewrite !insert_insert_eq. unfold r2, r1, set_b_state, set_b_locks, set_b_blkno, reading_buf. cbn. by rewrite Hl0, Hw0.
  - cbn. rewrite Ep2. cbn. apply list_lookup_insert_eq. apply lookup_lt_is_Some. eexists. apply (bk_head _ _ _ Hbk), hash_slot_lt.
Qed.

(** The end of a read. *)
Lemma read_any p b blk x d : counts (bufs p) (bufcount p) -> 0 <= bufsize p -> bufs p !! b = Some (Buf BUF_STATE_READING 1 [] blk x) -> disk p !! blk = Some d ->
  exists p', get_buffer_read b (bufsize p) p = Done (Gives b, p') /\ changed b (Buf BUF_STATE_LOCKED 1 [] blk d) p p' /\ counts (bufs p') (bufcount p') /\ hashtable p' = hashtable p.
Proof.
  intros Hcn Hsz Hr Hd. set (r := Buf BUF_STATE_READING 1 [] blk x) in *. unfold get_buffer_read, read_end. rewrite kbind_assoc, kbind_kget, Z.eqb_refl. cbn [negb]. rewrite kbind_assoc. step (get_buf_run p b r Hr). cbn [b_blkno r]. rewrite Hd.
  cbn [kopt]. rewrite kbind_assoc, kbind_kret, kbind_assoc. step (upd_buf_run p b r (set_b_data d) Hr). set (r1 := set_b_data d r). set (p1 := set_bufs _ p). assert (Hr1 : bufs p1 !! b = Some r1) by apply lookup_insert_eq.
  destruct (end_transfer_run p1 b r1 BUF_STATE_LOCKED 0 (counts_same (bufs p) (bufcount p) b r r1 Hcn Hr eq_refl) Hr1) as (p' & E & Hc & Hsl & Hcn'); [done|done|done|done|]. step E. destruct (Z.ltb_spec (bufsize p) 0); [lia|].
  exists p'. split; [done|]. split; [by apply (changed_trans b r1 _ p p1 p')|]. split; [done|]. apply Hsl.
Qed.

(** A thread finds the first buffer of the bucket. *)
Lemma get_first p t blk b r : hashtable p !! hash_slot blk = Some b -> b <> 0 -> bufs p !! b = Some r -> b_blkno r = blk -> b_state r = BUF_STATE_LOCKED -> 0 <= b_locks r < 65535 ->
  get_buffer t blk p = Done (Gives b, set_bufs (<[b := set_b_locks (b_locks r + 1) r]> (bufs p)) p).
Proof.
  intros Hh Hb0 Hr Ek Hs Hl. unfold get_buffer, lookup_buffer. rewrite kbind_assoc, kbind_kget, Hh. cbn [kopt find_in_bucket]. rewrite kbind_assoc, kbind_kret. apply Z.eqb_neq in Hb0. rewrite Hb0.
  rewrite kbind_assoc, kbind_assoc. step (get_buf_run p b r Hr). rewrite Ek, Z.eqb_refl, kbind_kret, Hb0, kbind_assoc. step (get_buf_run p b r Hr). rewrite Hs. cbn [Z.eqb]. change (BUF_STATE_LOCKED =? _) with false at 1.
  change (BUF_STATE_LOCKED =? BUF_STATE_CLEAN) with false. change (BUF_STATE_LOCKED =? BUF_STATE_DIRTY) with false. change ((BUF_STATE_LOCKED =? BUF_STATE_READING) || (BUF_STATE_LOCKED =? BUF_STATE_WRITING)) with false.
  change ((BUF_STATE_LOCKED =? BUF_STATE_LOCKED) || (BUF_STATE_LOCKED =? BUF_STATE_UPDATED)) with true. cbv iota. rewrite kbind_assoc. step (add_lock_run p b r Hr Hl). rewrite kbind_kret. unfold take_cached.
  set (p1 := set_bufs _ p). assert (Hr1 : bufs p1 !! b = Some (set_b_locks (b_locks r + 1) r)) by apply lookup_insert_eq. step (get_buf_run p1 b _ Hr1). cbn [b_state set_b_locks]. by rewrite Hs.
Qed.

(** The threads [t1] and [t2] ask for the block while no buffer can be used at
    once; each of them writes a buffer.  Then the first one changes the block,
    and [t3] asks for it. *)
Definition fetch_twice (t1 t2 t3 blk b1 b2 size : Z) (d : list Z) : list bop :=
  [OpGet t1 blk; OpGet t2 blk; OpWritten false blk b1 size; OpWritten false blk b2 size; OpRead b1 size; OpRead b2 size; OpStore b1 d; OpMarkUpdated b1; OpGet t3 blk].

(** Both threads have brought the block in. *)
Record cached_twice (blk b1 b2 : Z) (x1 x2 : list Z) (p0 p : bufpool) : Prop := {
  c2_first : bufs p !! b1 = Some (Buf BUF_STATE_READING 1 [] blk x1);
  c2_second : bufs p !! b2 = Some (Buf BUF_STATE_READING 1 [] blk x2);
  c2_counts : counts (bufs p) (bufcount p);
  c2_hash : hashtable p !! hash_slot blk = Some b2;
  c2_disk : disk p !! blk = disk p0 !! blk;
  c2_size : bufsize p = bufsize p0;
}.

Lemma both_fetch U p t1 t2 blk c1 c2 : bgood U p -> 0 <= bufsize p -> room p -> not_cached p blk -> all_busy p -> is_dirty p c1 -> is_dirty p c2 -> c1 <> c2 ->
  exists b1 b2 x1 x2 p', b1 <> b2 /\ b2 <> 0 /\ cached_twice blk b1 b2 x1 x2 p p' /\
    bops_run [OpGet t1 blk; OpGet t2 blk; OpWritten false blk b1 (bufsize p); OpWritten false blk b2 (bufsize p)] p = Done ([Writes b1; Writes b2; Reads b1; Reads b2], p').
Proof.
  intros G Hsz Hroom Hnc Hbusy D1 D2 Hne. destruct (get_writes U p t1 blk c1 G Hroom Hnc Hbusy D1) as (b1 & r1 & p1 & E1 & Hr1 & Hs1 & Hw1 & G1 & (Em1 & Ed1 & Es1)).
  assert (Hlk1 : forall a ra, bufs p1 !! a = Some ra -> exists ra0, bufs p !! a = Some ra0 /\ b_locks ra0 = b_locks ra /\ b_waiters ra0 = b_waiters ra /\ b_blkno ra0 = b_blkno ra /\ b_state ra0 <> BUF_STATE_FREE /\ b_state ra <> BUF_STATE_FREE /\ b_state ra <> BUF_STATE_CLEAN).
  { intros a ra. rewrite Em1. intros [[<- <-]|[Hna Ha]]%lookup_insert_Some; [exists r1; rewrite Hs1; done|]. exists ra. destruct (Hbusy a ra Ha). done. }
  assert (Hroom1 : room p1) by (intros a ra Ha; destruct (Hlk1 a ra Ha) as (r0 & H0 & <- & <- & _); by apply (Hroom a)). assert (Hnc1 : not_cached p1 blk) by (intros a ra Ha _; destruct (Hlk1 a ra Ha) as (r0 & H0 & _ & _ & <- & Hf & _); by apply (Hnc a)).
  assert (Hbusy1 : all_busy p1) by (intros a ra Ha; by destruct (Hlk1 a ra Ha) as (r0 & _ & _ & _ & _ & _ & ? & ?)).
  assert (D3 : exists c, is_dirty p1 c) by (destruct (decide (c1 = b1)) as [->|]; [destruct D2 as (r & Hr & Hs); exists c2, r; by rewrite Em1, lookup_insert_ne|destruct D1 as (r & Hr & Hs); exists c1, r; by rewrite Em1, lookup_insert_ne]).
  destruct D3 as [c D3]. destruct (get_writes U p1 t2 blk c G1 Hroom1 Hnc1 Hbusy1 D3) as (b2 & r2 & p2 & E2 & Hr2 & Hs2 & Hw2 & G2 & (Em2 & Ed2 & Es2)).
  assert (Hb12 : b1 <> b2) by (intros <-; rewrite Em1, lookup_insert_eq in Hr2; injection Hr2 as <-; done). assert (Hb1 : bufs p2 !! b1 = Some (set_b_state BUF_STATE_WRITING r1)) by (by rewrite Em2, lookup_insert_ne, Em1, lookup_insert_eq).
  destruct (written_taken U p2 b1 _ G2 ltac:(congruence) Hb1 eq_refl Hw1) as (q1 & p3 & E3 & T3 & Em3 & Es3 & Ed3). assert (Hq1 : bufs p3 !! b1 = Some q1) by (rewrite Em3; apply lookup_insert_eq).
  assert (Hnc3 : forall a ra, a <> b1 -> bufs p3 !! a = Some ra -> b_state ra <> BUF_STATE_FREE -> b_blkno ra <> blk).
  { intros a ra Ha. rewrite Em3, lookup_insert_ne, Em2 by done. intros [[<- <-]|[Hna Ha2]]%lookup_insert_Some _; [by apply (Hnc1 b2 r2 Hr2); rewrite Hs2|]. apply (Hnc1 a ra Ha2). by apply Hbusy1 in Ha2 as [? _]. }
  destruct (get_insert_run U p3 b1 q1 blk T3 Hq1 Hnc3) as (p4 & E4 & G4 & (Em4 & Ed4 & Es4)).
  assert (Hb2 : bufs p4 !! b2 = Some (set_b_state BUF_STATE_WRITING r2)) by (by rewrite Em4, lookup_insert_ne, Em3, lookup_insert_ne, Em2, lookup_insert_eq).
  destruct (written_taken U p4 b2 _ G4 ltac:(congruence) Hb2 eq_refl Hw2) as (q2 & p5 & E5 & T5 & Em5 & Es5 & Ed5). assert (Hq2 : bufs p5 !! b2 = Some q2) by (rewrite Em5; apply lookup_insert_eq).
  destruct (get_insert_any U p5 b2 q2 blk T5 Hq2) as (p6 & E6 & (Em6 & Ed6 & Es6) & Hcn & Hh & Hb0). exists b1, b2, (b_data q1), (b_data q2), p6. split; [done|]. split; [done|]. split.
  - split; [by rewrite Em6, lookup_insert_ne, Em5, lookup_insert_ne, Em4, lookup_insert_eq|by rewrite Em6, lookup_insert_eq|done|done| |congruence].
    rewrite Ed6, Ed5, Ed4, Ed3, Ed2, Ed1; [done| |].
    + cbn. intros E. apply (Hnc b1 r1 Hr1); [by rewrite Hs1|done].
    + cbn. intros E. apply (Hnc1 b2 r2 Hr2); [by rewrite Hs2|done].
  - assert (Esz2 : bufsize p = bufsize p2) by congruence. assert (Esz4 : bufsize p = bufsize p4) by congruence.
    apply (bops_step (OpGet t1 blk) _ p (Writes b1) p1); [exact E1|]. apply (bops_step (OpGet t2 blk) _ p1 (Writes b2) p2); [exact E2|].
    apply (bops_step _ _ p2 (Reads b1) p4); [cbn [bop_run]; by rewrite Esz2, E3|]. apply (bops_step _ _ p4 (Reads b2) p6); [cbn [bop_run]; by rewrite Esz4, E5|done].
Qed.

Lemma bops_app os1 os2 p gs1 p1 gs2 p2 : bops_run os1 p = Done (gs1, p1) -> bops_run os2 p1 = Done (gs2, p2) -> bops_run (os1 ++ os2) p = Done (gs1 ++ gs2, p2).
Proof.
  revert p gs1. induction os1 as [|o os1 IH]; intros p gs1 E1 E2; [by injection E1 as <- <-|]. cbn [bops_run] in E1. apply kbind_inv in E1 as (g & q & Eg & E1). apply kbind_inv in E1 as (gs & q' & Egs & E1). injection E1 as <- <-.
  cbn [app]. apply (bops_step o _ p g q); [done|]. by apply IH.
Qed.

(** C31: a block is not in the cache, no buffer is free or clean and two are dirty.
    [get_new_buffer] waits for the device then, and [get_buffer] does not look for
    the block again: two threads that ask for the block bring it into two
    buffers.  When one of them has changed the block and marked its buffer, a
    third thread that asks for it gets the other buffer, with the data from the
    device. *)
Theorem block_cached_twice (V : gset Z) (A : gmap Z (list Z)) (p : bufpool) (t1 t2 t3 blk c1 c2 : Z) (d0 d : list Z) :
  cinv V A p -> room p -> not_cached p blk -> all_busy p -> is_dirty p c1 -> is_dirty p c2 -> c1 <> c2 -> disk p !! blk = Some d0 ->
  exists b1 b2 p', bops_run (fetch_twice t1 t2 t3 blk b1 b2 (bufsize p) d) p =
      Done ([Writes b1; Writes b2; Reads b1; Reads b2; Gives b1; Gives b2; Gives 0; Gives 0; Gives b2], p') /\ b1 <> b2 /\
    blk_of p' b1 = blk /\ state_of p' b1 = BUF_STATE_UPDATED /\ data_of p' b1 = d /\ blk_of p' b2 = blk /\ data_of p' b2 = d0.
Proof.
  intros ((U & G & _) & Hsz & _) Hroom Hnc Hbusy D1 D2 Hne Hd. destruct (both_fetch U p t1 t2 blk c1 c2 G Hsz Hroom Hnc Hbusy D1 D2 Hne) as (b1 & b2 & x1 & x2 & p1 & Hb12 & Hb0 & [C1 C2 Hcn Hh Hdk Es] & E0).
  rewrite Hd in Hdk. destruct (read_any p1 b1 blk x1 d0 Hcn ltac:(congruence) C1 Hdk) as (p2 & E1 & (Em2 & Ed2 & Es2) & Hcn2 & Hh2).
  assert (C3 : bufs p2 !! b2 = Some (Buf BUF_STATE_READING 1 [] blk x2)) by (by rewrite Em2, lookup_insert_ne). destruct (read_any p2 b2 blk x2 d0 Hcn2 ltac:(congruence) C3 ltac:(congruence)) as (p3 & E2 & (Em3 & Ed3 & Es3) & Hcn3 & Hh3).
  set (r1 := Buf BUF_STATE_LOCKED 1 [] blk d0) in *. assert (C4 : bufs p3 !! b1 = Some r1) by (by rewrite Em3, lookup_insert_ne, Em2, lookup_insert_eq).
  set (r2 := set_b_data d r1). set (p4 := set_bufs (<[b1 := r2]> (bufs p3)) p3). assert (E3 : store b1 d p3 = Done (tt, p4)) by (unfold store; by rewrite (upd_buf_run p3 b1 r1 _ C4)).
  assert (C5 : bufs p4 !! b1 = Some r2) by apply lookup_insert_eq. destruct (change_state_run p4 b1 r2 BUF_STATE_UPDATED (counts_same (bufs p3) (bufcount p3) b1 r1 r2 Hcn3 C4 eq_refl) C5) as (cnt & E4 & _); [done|done|].
  assert (E5 : mark_buffer_updated b1 p4 = Done (tt, set_bufs (<[b1 := set_b_state BUF_STATE_UPDATED r2]> (bufs p4)) (set_bufcount cnt p4))) by (unfold mark_buffer_updated; by step (get_buf_run p4 b1 r2 C5)). set (p5 := set_bufs _ _) in E5.
  assert (C6 : bufs p5 !! b2 = Some r1) by (cbn; by rewrite !lookup_insert_ne, Em3, lookup_insert_eq). assert (Hh5 : hashtable p5 !! hash_slot blk = Some b2) by (cbn; by rewrite Hh3, Hh2).
  pose proof (get_first p5 t3 blk b2 r1 Hh5 Hb0 C6 eq_refl eq_refl ltac:(done)) as E6. eexists b1, b2, _. split; [|split; [done|]].
  - refine (bops_app [OpGet t1 blk; OpGet t2 blk; OpWritten false blk b1 (bufsize p); OpWritten false blk b2 (bufsize p)] _ p _ p1 _ _ E0 _). assert (Esz2 : bufsize p = bufsize p2) by congruence.
    apply (bops_step _ _ p1 (Gives b1) p2); [cbn [bop_run]; by rewrite <- Es|]. apply (bops_step _ _ p2 (Gives b2) p3); [cbn [bop_run]; by rewrite Esz2|].
    apply (bops_step _ _ p3 (Gives 0) p4); [by cbn [bop_run]; step E3|]. apply (bops_step _ _ p4 (Gives 0) p5); [by cbn [bop_run]; step E5|]. exact (bops_step (OpGet t3 blk) [] p5 (Gives b2) _ [] _ E6 eq_refl).
  - unfold blk_of, state_of, data_of. cbn. by rewrite lookup_insert_eq, !lookup_insert_ne, !lookup_insert_eq by done.
Qed.

(** The buffer [b] is held and updated; [sync_buffers] writes it, and it is changed
    again before the device call returns. *)
Definition update_in_sync (b size : Z) (d : list Z) : list bop :=
  [OpSync false b; OpSyncWritten b size; OpStore b d; OpMarkUpdated b; OpSyncRest b size; OpRelease b].

(** The last lock of a locked buffer, whatever data it has. *)
Lemma release_any U p b r : bgood U p -> bufs p !! b = Some r -> b_state r = BUF_STATE_LOCKED -> b_locks r = 1 ->
  exists p', release_buffer b p = Done (tt, p') /\ changed b (Buf BUF_STATE_CLEAN 0 (b_waiters r) (b_blkno r) (b_data r)) p p'.
Proof.
  intros (F & C & D & H & B) Hr Hs Hl. pose proof B as [Hch _ Hct Hlk]. pose proof (ct_buf _ _ _ _ _ _ _ _ _ Hct b r Hr) as [K1 K2 K3 K4 _ _ _ _ _].
  assert (Hb0 : b <> 0) by (intros ->; by rewrite (ct_null _ _ _ _ _ _ _ _ _ Hct) in Hr). unfold release_buffer. step (upd_buf_run p b r (fun r => set_b_locks (u16 (b_locks r - 1)) r) Hr).
  set (r1 := set_b_locks _ r). set (p1 := set_bufs _ p). assert (Hr1 : bufs p1 !! b = Some r1) by apply lookup_insert_eq. step (get_buf_run p1 b r1 Hr1). assert (El : b_locks r1 = 0) by (cbn; by rewrite Hl). rewrite El. cbn [Z.ltb]. change (0 <? 0) with false.
  cbv iota. change (b_state r1) with (b_state r). rewrite Hs. change (BUF_STATE_LOCKED =? BUF_STATE_LOCKED) with true. cbv iota.
  destruct (change_state_run p1 b r1 BUF_STATE_CLEAN (counts_same (bufs p) (bufcount p) b r r1 (ct_count _ _ _ _ _ _ _ _ _ Hct) Hr eq_refl) Hr1 K1) as (cnt & E & _); [done|]. step E. set (p2 := set_bufs _ _).
  destruct (join_clean_run F C D p2 b Hch) as (m & c & E2 & _); [rewrite !not_elem_of_app, K2, K3, K4, Hs; by split_and!; intros [_ ?]|done|apply (Hlk b (mk_is_Some _ _ Hr))|]. rewrite E2. eexists. split; [done|].
  split; [|done]. cbn. rewrite insert_insert_eq. f_equal. unfold r1, set_b_state, set_b_locks. cbn. by rewrite Hl.
Qed.

(** C32: a buffer is updated and one thread holds it.  [sync_buffers] writes it, and
    before the device call returns the thread changes the data to [d] and marks
    the buffer as updated again.  When the thread gives the buffer back it is
    clean and has [d], and the device has the data from before the change: no
    flush will write them. *)
Theorem sync_loses_update (V : gset Z) (A : gmap Z (list Z)) (p : bufpool) (b : Z) (r : buf) (d : list Z) :
  cinv V A p -> room p -> bufs p !! b = Some r -> b_state r = BUF_STATE_UPDATED -> b_locks r = 1 ->
  exists gs p', bops_run (update_in_sync b (bufsize p) d) p = Done (gs, p') /\
    state_of p' b = BUF_STATE_CLEAN /\ blk_of p' b = b_blkno r /\ data_of p' b = d /\ disk p' !! b_blkno r = Some (b_data r).
Proof.
  intros ((U & G & HU) & Hsz & HV) Hroom Hr Hs Hl. assert (Hi : inner (b_state r)) by (by rewrite Hs). destruct (good_lock U p b r G Hroom Hr Hi) as (p1 & E1 & G1 & Hc1); [by rewrite Hs|]. set (r1 := set_b_locks _ r) in *.
  pose proof (changed_lookup _ _ _ _ Hc1) as Hr1. destruct Hc1 as (Em1 & Ed1 & Es1). set (p2 := wrote (bufsize p) r1 p1). destruct (wrote_facts (bufsize p) r1 p1) as [Em2 Es2]. fold p2 in Em2, Es2.
  assert (G2 : bgood U p2) by (by apply (wrote_good U p1 b r1)). assert (Hr2 : bufs p2 !! b = Some r1) by (by rewrite Em2).
  assert (Hd2 : disk p2 !! b_blkno r = Some (b_data r)) by (unfold p2, wrote; rewrite Es1, Z.eqb_refl; apply lookup_insert_eq).
  destruct (store_run U p2 b r1 d G2 Hr2) as (p3 & E3 & G3 & Hc3); [by right; left|]. assert (HU3 : stored b r1 U = U) by (unfold stored; cbn; by rewrite Hs). rewrite HU3 in G3. pose proof (changed_lookup _ _ _ _ Hc3) as Hr3. destruct Hc3 as (Em3 & Ed3 & Es3). set (r3 := set_b_data d r1) in *.
  assert (HbU : b ∉ U) by (apply (error_not_fresh U p b r G Hr); by rewrite Hs). assert (Hs3 : b_state r3 = BUF_STATE_UPDATED) by done.
  assert (E4 : mark_buffer_updated b p3 = Done (tt, p3)) by (unfold mark_buffer_updated; step (get_buf_run p3 b r3 Hr3); by rewrite Hs3).
  destruct (buf_facts U p3 b r3 G3 Hr3) as (_ & _ & Hlo3 & _). destruct (good_state U ({[b]} ∪ U) p3 b r3 BUF_STATE_LOCKED G3 Hr3) as (p4 & E5 & G4 & Hc4); [by rewrite Hs3|done|apply locks_state; [done|apply no_waiters; [done|by rewrite Hs3..]|cbn; lia|done|done]|set_solver|done|set_solver|].
  pose proof (changed_lookup _ _ _ _ Hc4) as Hr4. destruct Hc4 as (Em4 & Ed4 & Es4). set (r4 := set_b_state _ r3) in *. assert (Hl4 : b_locks r4 = 2) by (cbn; lia).
  destruct (release_run _ p4 b r4 G4 Hr4) as (p5 & E6 & G5 & Hc5); [by left|lia|left; lia|]. unfold released in Hc5. rewrite Hl4 in Hc5. cbn [Z.ltb] in Hc5. change (1 <? 2) with true in Hc5. cbv iota in Hc5. set (r5 := set_b_locks _ r4) in *. pose proof (changed_lookup _ _ _ _ Hc5) as Hr5. destruct Hc5 as (Em5 & Ed5 & Es5).
  destruct (release_any _ p5 b r5 G5 Hr5) as (p6 & E7 & Hc6); [done|cbn; lia|]. pose proof (changed_lookup _ _ _ _ Hc6) as Hr6. destruct Hc6 as (Em6 & Ed6 & Es6).
  exists [Writes b; Gives 0; Gives 0; Gives 0; Gives 0; Gives 0], p6. split.
  - apply (bops_step _ _ p (Writes b) p1); [cbn [bop_run]; unfold flushes, sync_round; rewrite kbind_assoc; step (get_buf_run p b r Hr); rewrite Hs; cbn; by rewrite kbind_assoc, kbind_kget, kbind_assoc; step E1|].
    apply (bops_step _ _ p1 (Gives 0) p2); [cbn [bop_run]; by step (dev_write_run p1 b r1 (bufsize p) Hr1)|]. apply (bops_step _ _ p2 (Gives 0) p3); [by cbn [bop_run]; step E3|]. apply (bops_step _ _ p3 (Gives 0) p3); [by cbn [bop_run]; step E4|].
    apply (bops_step _ _ p3 (Gives 0) p5); [cbn [bop_run]; unfold flushes, sync_rest; destruct (Z.ltb_spec (bufsize p) 0); [lia|]; rewrite kbind_assoc; step E5; rewrite kbind_assoc; by step E6|].
    apply (bops_step _ _ p5 (Gives 0) p6); [by cbn [bop_run]; step E7|done].
  - destruct (state_of_eq p6 b _ Hr6) as (-> & -> & ->). split; [done|]. split; [done|]. split; [done|]. by rewrite Ed6, Ed5, Ed4, Ed3.
Qed.

(** ** Witnesses *)

#[export] Instance room_dec p : Decision (room p).
Proof.
  refine (cast_if (decide (map_Forall (fun _ r => b_locks r + Z.of_nat (length (b_waiters r)) < 65535) (bufs p)))); unfold room, map_Forall in *; auto.
Defined.

#[export] Instance held_state_dec s : Decision (held_state s).
Proof. unfold held_state. apply _. Defined.

#[export] Instance holder_dec p b : Decision (holder p b).
Proof.
  refine (match bufs p !! b as o return (bufs p !! b = o -> Decision (holder p b)) with
          | Some r => fun E => cast_if_and (decide (held_state (b_state r))) (decide (1 <= b_locks r))
          | None => fun E => right _
          end eq_refl); [by exists r|intros (r' & Hr & Hh & Hl); rewrite E in Hr; injection Hr as <-; done..|intros (r' & Hr & _); congruence].
Defined.

#[export] Instance touches_dec o p b : Decision (touches o p b).
Proof. destruct o; cbn [touches]; apply _. Defined.

#[export] Instance ends_sync_dec o b : Decision (ends_sync o b).
Proof. destruct o; cbn [ends_sync]; apply _. Defined.

#[export] Instance transferred_dec p rc : Decision (transferred p rc).
Proof. unfold transferred. apply _. Defined.

#[export] Instance keeps_rules_dec o w : Decision (keeps_rules o w).
Proof. unfold keeps_rules. apply and_dec; [apply _|]. destruct o; apply _. Defined.

(** The threads run the steps [os] by the rules. *)
Fixpoint rules_all (os : list bop) (w : cworld) : bool :=
  match os with
  | [] => true
  | o :: os' => bool_decide (keeps_rules o w) && match bop_run o (w_pool w) with Done (g, p') => rules_all os' (after o g p' w) | _ => false end
  end.

Fixpoint run_world (os : list bop) (A : gmap Z (list Z)) (w : cworld) : gmap Z (list Z) * cworld :=
  match os with
  | [] => (A, w)
  | o :: os' => match bop_run o (w_pool w) with Done (g, p') => run_world os' (apply_effect (effect_of o g (w_pool w)) A) (after o g p' w) | _ => (A, w) end
  end.

Lemma reaches_run A0 w0 os : forall A w, reaches A0 w0 A w -> rules_all os w = true -> reaches A0 w0 (run_world os A w).1 (run_world os A w).2.
Proof.
  induction os as [|o os IH]; intros A w Hre; [done|]. cbn [rules_all run_world]. intros [Hk%bool_decide_eq_true Hr]%andb_true_iff. destruct (bop_run o (w_pool w)) as [[g p']| | |] eqn:E; [|done..]. apply IH; [|done]. by apply reach_step.
Qed.

(** A pool of two buffers; two threads fill it with the blocks 1 and 2. *)
Definition small_pool : bufpool := init_buffer_pool 4 [100; 200] {[1 := [0;0;0;0]; 2 := [0;0;0;0]; 7 := [7;7;7;7]]}.

Definition full_pool : list bop :=
  [OpAlloc 901 1; OpAlloc 902 2; OpMarkUpdated 100; OpMarkUpdated 200; OpRelease 100; OpRelease 200].

Lemma small_addresses : NoDup [100; 200] /\ 0 ∉ [100; 200].
Proof. split; [repeat constructor; set_solver|set_solver]. Qed.

Lemma small_winv os : rules_all os (new_world small_pool) = true -> winv (run_world os (disk small_pool) (new_world small_pool)).1 (run_world os (disk small_pool) (new_world small_pool)).2.
Proof.
  intros Hr. apply (reaches_winv (disk small_pool) (new_world small_pool)); [apply init_winv; [apply small_addresses|apply small_addresses|done]|]. apply reaches_run; [apply reach_here|done].
Qed.

(** The block 1 is allocated, changed, given back and written; then it is changed
    again and [sync_buffers] writes it. *)
Definition write_back : list bop :=
  [OpAlloc 901 1; OpStore 100 [1;2;3;4]; OpMarkUpdated 100; OpRelease 100; OpFlush false; OpFlushWritten 100 4;
   OpGet 901 1; OpStore 100 [5;6;7;8]; OpMarkUpdated 100; OpSync false 100; OpSyncWritten 100 4; OpSyncRest 100 4; OpRelease 100].

Definition small_after (os : list bop) : gmap Z (list Z) * cworld := run_world os (disk small_pool) (new_world small_pool).

(** The thread 901 looks for the block 7 and has written a buffer. *)
Lemma cache_coherent_witness : let w := small_after (full_pool ++ [OpGet 901 7]) in coherent (OpWritten false 7 100 4) w.1 w.2.
Proof.
  apply cache_coherent; [apply small_winv; vm_compute; reflexivity|]. apply (bool_decide_eq_true_1 _). vm_compute. reflexivity.
Defined.

Lemma cache_durable_witness : disk (w_pool (small_after write_back).2) !! 1 = Some [5;6;7;8].
Proof.
  apply (cache_durable 4 [100; 200] (disk small_pool) (small_after write_back).1 (small_after write_back).2);
    [apply small_addresses|apply small_addresses|done|apply reaches_run; [apply reach_here|vm_compute; reflexivity]|vm_compute; reflexivity..].
Defined.

#[export] Instance not_cached_dec p blk : Decision (not_cached p blk).
Proof.
  refine (cast_if (decide (map_Forall (fun _ r => b_state r <> BUF_STATE_FREE -> b_blkno r <> blk) (bufs p)))); unfold not_cached, map_Forall in *; auto.
Defined.

#[export] Instance all_busy_dec p : Decision (all_busy p).
Proof.
  refine (cast_if (decide (map_Forall (fun _ r => b_state r <> BUF_STATE_FREE /\ b_state r <> BUF_STATE_CLEAN) (bufs p)))); unfold all_busy, map_Forall in *; auto.
Defined.

Lemma block_cached_twice_witness : let p := w_pool (small_after full_pool).2 in exists b1 b2 p', bops_run (fetch_twice 901 902 903 7 b1 b2 (bufsize p) [1;2;3;4]) p =
    Done ([Writes b1; Writes b2; Reads b1; Reads b2; Gives b1; Gives b2; Gives 0; Gives 0; Gives b2], p') /\ b1 <> b2 /\
  blk_of p' b1 = 7 /\ state_of p' b1 = BUF_STATE_UPDATED /\ data_of p' b1 = [1;2;3;4] /\ blk_of p' b2 = 7 /\ data_of p' b2 = [7;7;7;7].
Proof.
  apply (block_cached_twice (w_unmarked (small_after full_pool).2) (small_after full_pool).1 _ 901 902 903 7 100 200 [7;7;7;7] [1;2;3;4]).
  - apply wi_pool, small_winv. vm_compute. reflexivity.
  - apply (bool_decide_eq_true_1 _). vm_compute. reflexivity.
  - apply (bool_decide_eq_true_1 _). vm_compute. reflexivity.
  - apply (bool_decide_eq_true_1 _). vm_compute. reflexivity.
  - eexists. split; vm_compute; reflexivity.
  - eexists. split; vm_compute; reflexivity.
  - done.
  - vm_compute. reflexivity.
Defined.

Lemma sync_loses_update_witness : let p := w_pool (small_after [OpAlloc 901 1; OpMarkUpdated 100]).2 in exists gs p', bops_run (update_in_sync 100 (bufsize p) [1;2;3;4]) p = Done (gs, p') /\
  state_of p' 100 = BUF_STATE_CLEAN /\ blk_of p' 100 = 1 /\ data_of p' 100 = [1;2;3;4] /\ disk p' !! 1 = Some [0;0;0;0].
Proof.
  apply (sync_loses_update (w_unmarked (small_after [OpAlloc 901 1; OpMarkUpdated 100]).2) (small_after [OpAlloc 901 1; OpMarkUpdated 100]).1 _ 100 (Buf BUF_STATE_UPDATED 1 [] 1 [0;0;0;0]) [1;2;3;4]).
  - apply wi_pool, small_winv. vm_compute. reflexivity.
  - apply (bool_decide_eq_true_1 _). vm_compute. reflexivity.
  - vm_compute. reflexivity.
  - done.
  - done.
Defined.
