(* ===== verification/Bitops.v ===== *)
(** * Bitmaps (lib/bitops.c, include/bitops.h)

    The bitmaps of the disk file system live in disk blocks.  A block is a list
    of bytes; the routines work on its 32-bit words, little endian, through bit
    test instructions and a scan for a word with a zero bit.  An access outside
    of the block is [None].

    The theorems: setting and clearing a bit changes that bit only, and
    [find_next_zero_bit] finds the first zero bit from a position on, or returns
    the length, provided that the bits behind the length in its last word are
    zero. *)

From S2P Require Import Prelude.

(** ** Words of a block *)

Definition byte_at (d : list Z) (k : Z) : option Z := if k <? 0 then None else d !! Z.to_nat k.

Definition word_at (d : list Z) (i : Z) : option Z :=
  b0 ← byte_at d (4 * i); b1 ← byte_at d (4 * i + 1); b2 ← byte_at d (4 * i + 2); b3 ← byte_at d (4 * i + 3);
  Some (b0 + 256 * b1 + 65536 * b2 + 16777216 * b3).

Definition put_byte (d : list Z) (k v : Z) : list Z := <[Z.to_nat k := v]> d.

Definition put_word (d : list Z) (i v : Z) : option (list Z) :=
  if (i <? 0) || (Z.of_nat (length d) <? 4 * i + 4) then None
  else Some (put_byte (put_byte (put_byte (put_byte d (4 * i) (v mod 256)) (4 * i + 1) (v / 256 mod 256)) (4 * i + 2) (v / 65536 mod 256)) (4 * i + 3) (v / 16777216 mod 256)).

(** ** The routines *)

Definition set_bit (d : list Z) (pos : Z) : option (list Z) :=
  w ← word_at d (Z.shiftr pos 5); put_word d (Z.shiftr pos 5) (Z.lor w (Z.shiftl 1 (Z.land pos 31))).

Definition clear_bit (d : list Z) (pos : Z) : option (list Z) :=
  w ← word_at d (Z.shiftr pos 5); put_word d (Z.shiftr pos 5) (Z.ldiff w (Z.shiftl 1 (Z.land pos 31))).

Definition test_bit (d : list Z) (pos : Z) : option bool :=
  w ← word_at d (Z.shiftr pos 5); Some (Z.testbit w (Z.land pos 31)).

(** The lowest bit that is set; none if the word is zero. *)
Fixpoint bsf_from (n : nat) (k w : Z) : option Z :=
  match n with
  | O => None
  | S n' => if Z.testbit w k then Some k else bsf_from n' (k + 1) w
  end.

Definition bsf (w : Z) : option Z := bsf_from 32 0 w.

Definition ONES : Z := 0xFFFFFFFF.

(** The scan of [n] words from the word [p] on; [i] words have been seen. *)
Fixpoint scan_words (n : nat) (d : list Z) (p i : Z) : option Z :=
  match n with
  | O => Some (i * 32)
  | S n' =>
    w ← word_at d (p + i);
    if w =? ONES then scan_words n' d p (i + 1) else (k ← bsf (Z.lxor ONES w); Some (k + i * 32))
  end.

(** The bitmap starts at the word [p] of the block. *)
Definition find_first_zero_bit (d : list Z) (p len : Z) : option Z :=
  if len =? 0 then Some 0 else scan_words (Z.to_nat (Z.shiftr (u32 (len + 31)) 5)) d p 0.

Definition find_next_zero_bit (d : list Z) (len start : Z) : option Z :=
  let p := Z.shiftr start 5 in
  let bit := Z.land start 31 in
  if len <=? start then Some len
  else if negb (bit =? 0) then
    w ← word_at d p;
    let set := default 32 (bsf (u32 (Z.lnot (Z.shiftr w bit)))) in
    if set <? 32 - bit then Some (set + start)
    else (r ← find_first_zero_bit d (p + 1) (len - 32 * (p + 1)); Some (start + (32 - bit) + r))
  else (r ← find_first_zero_bit d p (len - 32 * p); Some (start + r)).

Fixpoint set_bits (n : nat) (d : list Z) (pos : Z) : option (list Z) :=
  match n with
  | O => Some d
  | S n' => d' ← set_bit d pos; set_bits n' d' (pos + 1)
  end.

(** ** Words *)

Definition bytes_ok (d : list Z) : Prop := Forall (fun b => 0 <= b < 256) d.

Lemma byte_at_some d k : bytes_ok d -> 0 <= k < Z.of_nat (length d) -> exists b, byte_at d k = Some b /\ 0 <= b < 256.
Proof.
  intros Hd Hk. unfold byte_at. destruct (Z.ltb_spec k 0); [lia|]. destruct (lookup_lt_is_Some_2 d (Z.to_nat k)) as [b Hb]; [lia|].
  exists b. split; [done|]. by apply (Forall_lookup_1 _ _ _ _ Hd Hb).
Qed.

Lemma word_at_some d i : bytes_ok d -> 0 <= i -> 4 * i + 4 <= Z.of_nat (length d) -> exists w, word_at d i = Some w /\ is_u32 w.
Proof.
  intros Hd Hi Hl. unfold word_at. destruct (byte_at_some d (4 * i) Hd) as (b0 & -> & ?); [lia|]. destruct (byte_at_some d (4 * i + 1) Hd) as (b1 & -> & ?); [lia|].
  destruct (byte_at_some d (4 * i + 2) Hd) as (b2 & -> & ?); [lia|]. destruct (byte_at_some d (4 * i + 3) Hd) as (b3 & -> & ?); [lia|].
  eexists. split; [done|]. unfold is_u32, W32. lia.
Qed.

Lemma word_at_bounds d i w : word_at d i = Some w -> 0 <= i /\ 4 * i + 4 <= Z.of_nat (length d).
Proof.
  unfold word_at, byte_at. destruct (Z.ltb_spec (4 * i) 0); [done|]. destruct (Z.ltb_spec (4 * i + 3) 0); [lia|].
  intros (b0 & _ & (b1 & _ & (b2 & _ & (b3 & E3 & _)%bind_Some)%bind_Some)%bind_Some)%bind_Some. apply lookup_lt_Some in E3. lia.
Qed.

Lemma put_byte_length d k v : length (put_byte d k v) = length d.
Proof. apply length_insert. Qed.

Lemma byte_at_put d k v j : 0 <= k < Z.of_nat (length d) -> byte_at (put_byte d k v) j = if j =? k then Some v else byte_at d j.
Proof.
  intros Hk. unfold byte_at, put_byte. destruct (Z.eqb_spec j k) as [->|Hne]; [destruct (Z.ltb_spec k 0); [lia|]; by rewrite list_lookup_insert_eq by lia|].
  destruct (Z.ltb_spec j 0); [done|]. by rewrite list_lookup_insert_ne by lia.
Qed.

Lemma put_byte_ok d k v : bytes_ok d -> 0 <= v < 256 -> bytes_ok (put_byte d k v).
Proof. intros Hd Hv. by apply Forall_insert. Qed.

(** A word that has been put is there, and the others are as they were. *)
Lemma put_word_spec d i v : bytes_ok d -> is_u32 v -> 0 <= i -> 4 * i + 4 <= Z.of_nat (length d) ->
  exists d', put_word d i v = Some d' /\ bytes_ok d' /\ length d' = length d /\ word_at d' i = Some v /\ forall j, j <> i -> word_at d' j = word_at d j.
Proof.
  intros Hd Hv Hi Hl. unfold put_word. destruct (Z.ltb_spec i 0); [lia|]. destruct (Z.ltb_spec (Z.of_nat (length d)) (4 * i + 4)); [lia|]. cbn [orb]. eexists. split; [done|].
  assert (Hb : forall x, 0 <= x mod 256 < 256) by (intros; apply Z.mod_pos_bound; lia).
  split; [by repeat apply put_byte_ok|]. split; [by rewrite !put_byte_length|].
  assert (X : forall j, byte_at (put_byte (put_byte (put_byte (put_byte d (4 * i) (v mod 256)) (4 * i + 1) (v / 256 mod 256)) (4 * i + 2) (v / 65536 mod 256)) (4 * i + 3) (v / 16777216 mod 256)) j =
    if j =? 4 * i + 3 then Some (v / 16777216 mod 256) else if j =? 4 * i + 2 then Some (v / 65536 mod 256) else if j =? 4 * i + 1 then Some (v / 256 mod 256)
    else if j =? 4 * i then Some (v mod 256) else byte_at d j) by (intros j; by rewrite !byte_at_put by (rewrite ?put_byte_length; lia)).
  split.
  - unfold word_at. rewrite !X. repeat match goal with |- context [?a =? ?b] => destruct (Z.eqb_spec a b); [try lia|try lia] end.
    cbn. f_equal. unfold is_u32, W32 in Hv. Z.div_mod_to_equations. lia.
  - intros j Hj. unfold word_at. rewrite !X. by repeat match goal with |- context [?a =? ?b] => destruct (Z.eqb_spec a b); [lia|] end.
Qed.

(** ** Bits *)

Definition bit (d : list Z) (n : Z) : bool := match word_at d (n / 32) with Some w => Z.testbit w (n mod 32) | None => false end.

Lemma shiftr5 n : Z.shiftr n 5 = n / 32.
Proof. by rewrite Z.shiftr_div_pow2. Qed.

Lemma land31 n : Z.land n 31 = n mod 32.
Proof. change 31 with (Z.ones 5). by rewrite Z.land_ones. Qed.

(** Bits of a 32-bit word. *)
Lemma u32_high w k : is_u32 w -> 32 <= k -> Z.testbit w k = false.
Proof.
  intros Hw Hk. destruct (decide (w = 0)) as [->|Hne]; [apply Z.bits_0|]. apply Z.bits_above_log2; [unfold is_u32 in Hw; lia|].
  apply (Z.lt_le_trans _ 32); [|done]. apply Z.log2_lt_pow2; unfold is_u32, W32 in Hw; lia.
Qed.

Lemma u32_of_bits w : 0 <= w -> (forall k, 32 <= k -> Z.testbit w k = false) -> is_u32 w.
Proof.
  intros Hw Hb. split; [done|]. destruct (Z.lt_ge_cases w W32) as [|Hge]; [done|]. exfalso. assert (Hp : 0 < w) by (unfold W32 in *; lia).
  assert (Hl : 32 <= Z.log2 w) by (apply Z.log2_le_pow2; done). specialize (Hb _ Hl). by rewrite Z.bit_log2 in Hb.
Qed.

Lemma setbit_u32 w k : is_u32 w -> 0 <= k < 32 -> is_u32 (Z.lor w (Z.shiftl 1 k)).
Proof.
  intros Hw Hk. apply u32_of_bits; [apply Z.lor_nonneg; split; [apply Hw|apply Z.shiftl_nonneg; lia]|]. intros j Hj. rewrite Z.lor_spec, (u32_high w j Hw Hj), Z.shiftl_1_l, Z.pow2_bits_false by lia. done.
Qed.

Lemma clearbit_u32 w k : is_u32 w -> 0 <= k < 32 -> is_u32 (Z.ldiff w (Z.shiftl 1 k)).
Proof.
  intros Hw Hk. apply u32_of_bits; [apply Z.ldiff_nonneg; left; apply Hw|]. intros j Hj. by rewrite Z.ldiff_spec, (u32_high w j Hw Hj).
Qed.

Lemma bit_pos n : n = 32 * (n / 32) + n mod 32 /\ 0 <= n mod 32 < 32.
Proof. split; [apply Z.div_mod; lia|apply Z.mod_pos_bound; lia]. Qed.

(** The word with the bit [pos] gets a new value [f w], in which only this bit
    is different. *)
Lemma put_bit d pos w v b : bytes_ok d -> 0 <= pos -> word_at d (pos / 32) = Some w -> is_u32 v ->
  (forall k, 0 <= k < 32 -> Z.testbit v k = if k =? pos mod 32 then b else Z.testbit w k) ->
  exists d', put_word d (pos / 32) v = Some d' /\ bytes_ok d' /\ length d' = length d /\ forall n, bit d' n = if n =? pos then b else bit d n.
Proof.
  intros Hd Hp Hw Hv Hb. destruct (word_at_bounds d _ w Hw) as [Hi Hl]. destruct (put_word_spec d (pos / 32) v Hd Hv Hi Hl) as (d' & E & Hok & Hlen & Hat & Ho).
  exists d'. split_and!; try done. intros n. destruct (bit_pos n) as [En Hn]. destruct (bit_pos pos) as [Ep Hpm]. unfold bit.
  destruct (decide (n / 32 = pos / 32)) as [Eq|Hne].
  - rewrite Eq, Hat, Hw, (Hb _ Hn). destruct (Z.eqb_spec (n mod 32) (pos mod 32)), (Z.eqb_spec n pos); done || lia || congruence.
  - rewrite (Ho _ Hne). destruct (Z.eqb_spec n pos); [congruence|done].
Qed.

Definition in_bitmap (d : list Z) (pos : Z) : Prop := 0 <= pos /\ 4 * (pos / 32) + 4 <= Z.of_nat (length d).

Lemma set_bit_spec d pos : bytes_ok d -> in_bitmap d pos ->
  exists d', set_bit d pos = Some d' /\ bytes_ok d' /\ length d' = length d /\ forall n, bit d' n = if n =? pos then true else bit d n.
Proof.
  intros Hd [Hp Hl]. assert (0 <= pos / 32) by (apply Z.div_pos; lia). destruct (word_at_some d (pos / 32) Hd) as (w & Hw & Hu); [lia|done|].
  destruct (bit_pos pos) as [_ Hm]. unfold set_bit. rewrite shiftr5, land31, Hw. cbn [mbind option_bind]. apply (put_bit d pos w); [done|done|done|by apply setbit_u32|].
  intros k Hk. rewrite Z.lor_spec, Z.shiftl_1_l, Z.pow2_bits_eqb by lia. rewrite Z.eqb_sym. destruct (k =? pos mod 32); [by rewrite orb_true_r|by rewrite orb_false_r].
Qed.

Lemma clear_bit_spec d pos : bytes_ok d -> in_bitmap d pos ->
  exists d', clear_bit d pos = Some d' /\ bytes_ok d' /\ length d' = length d /\ forall n, bit d' n = if n =? pos then false else bit d n.
Proof.
  intros Hd [Hp Hl]. assert (0 <= pos / 32) by (apply Z.div_pos; lia). destruct (word_at_some d (pos / 32) Hd) as (w & Hw & Hu); [lia|done|].
  destruct (bit_pos pos) as [_ Hm]. unfold clear_bit. rewrite shiftr5, land31, Hw. cbn [mbind option_bind]. apply (put_bit d pos w); [done|done|done|by apply clearbit_u32|].
  intros k Hk. rewrite Z.ldiff_spec, Z.shiftl_1_l, Z.pow2_bits_eqb by lia. rewrite Z.eqb_sym. destruct (k =? pos mod 32); [by rewrite andb_false_r|by rewrite andb_true_r].
Qed.

Lemma test_bit_spec d pos : bytes_ok d -> in_bitmap d pos -> test_bit d pos = Some (bit d pos).
Proof.
  intros Hd [Hp Hl]. assert (0 <= pos / 32) by (apply Z.div_pos; lia). destruct (word_at_some d (pos / 32) Hd) as (w & Hw & Hu); [lia|done|].
  unfold test_bit, bit. by rewrite shiftr5, land31, Hw.
Qed.

(** ** The scans *)

Lemma bsf_from_spec w n : forall k, 0 <= k ->
  match bsf_from n k w with
  | Some j => k <= j < k + Z.of_nat n /\ Z.testbit w j = true /\ forall i, k <= i < j -> Z.testbit w i = false
  | None => forall i, k <= i < k + Z.of_nat n -> Z.testbit w i = false
  end.
Proof.
  induction n as [|n IH]; intros k Hk; cbn [bsf_from]; [intros; lia|]. destruct (Z.testbit w k) eqn:E; [split; [lia|]; split; [done|]; intros; lia|].
  specialize (IH (k + 1) ltac:(lia)). destruct (bsf_from n (k + 1) w) as [j|].
  - destruct IH as (H1 & H2 & H3). split; [lia|]. split; [done|]. intros i Hi. destruct (decide (i = k)) as [->|]; [done|]. apply H3. lia.
  - intros i Hi. destruct (decide (i = k)) as [->|]; [done|]. apply IH. lia.
Qed.

(** A word that is not all ones has a lowest zero bit. *)
Lemma bsf_zero w : is_u32 w -> w <> ONES -> exists k, bsf (Z.lxor ONES w) = Some k /\ 0 <= k < 32 /\ Z.testbit w k = false /\ forall i, 0 <= i < k -> Z.testbit w i = true.
Proof.
  intros Hw Hne. assert (Hx : forall i, 0 <= i < 32 -> Z.testbit (Z.lxor ONES w) i = negb (Z.testbit w i)).
  { intros i Hi. rewrite Z.lxor_spec. replace (Z.testbit ONES i) with true; [by destruct (Z.testbit w i)|]. symmetry. change ONES with (Z.ones 32). apply Z.ones_spec_low. lia. }
  pose proof (bsf_from_spec (Z.lxor ONES w) 32 0 ltac:(lia)) as Hs. unfold bsf. destruct (bsf_from 32 0 (Z.lxor ONES w)) as [j|].
  - destruct Hs as (H1 & H2 & H3). exists j. split; [done|]. split; [lia|]. rewrite Hx in H2 by lia. split; [by destruct (Z.testbit w j)|].
    intros i Hi. specialize (H3 i ltac:(lia)). rewrite Hx in H3 by lia. by destruct (Z.testbit w i).
  - exfalso. apply Hne, Z.bits_inj. intros i. change ONES with (Z.ones 32). destruct (Z.lt_ge_cases i 0); [by rewrite !Z.testbit_neg_r by done|].
    destruct (Z.lt_ge_cases i 32).
    + rewrite Z.ones_spec_low by lia. specialize (Hs i ltac:(lia)). rewrite Hx in Hs by lia. by destruct (Z.testbit w i).
    + rewrite (u32_high w i Hw), Z.ones_spec_high by lia. done.
Qed.

Lemma bit_word d i k w : 0 <= k < 32 -> word_at d i = Some w -> bit d (32 * i + k) = Z.testbit w k.
Proof.
  intros Hk Hw. unfold bit. replace ((32 * i + k) / 32) with i by (Z.div_mod_to_equations; lia). replace ((32 * i + k) mod 32) with k by (Z.div_mod_to_equations; lia). by rewrite Hw.
Qed.

Lemma ones_bits k : 0 <= k < 32 -> Z.testbit ONES k = true.
Proof. intros Hk. change ONES with (Z.ones 32). apply Z.ones_spec_low. lia. Qed.

Lemma scan_words_spec d p n : forall i, bytes_ok d -> 0 <= p -> 0 <= i -> 4 * (p + i + Z.of_nat n) <= Z.of_nat (length d) ->
  exists r, scan_words n d p i = Some r /\ 32 * i <= r <= 32 * (i + Z.of_nat n) /\ (forall k, 32 * i <= k < r -> bit d (32 * p + k) = true) /\
    (r < 32 * (i + Z.of_nat n) -> bit d (32 * p + r) = false).
Proof.
  induction n as [|n IH]; intros i Hd Hp Hi Hl; cbn [scan_words].
  - exists (i * 32). split_and!; [done|lia|lia|intros; lia|intros; lia].
  - destruct (word_at_some d (p + i) Hd) as (w & Hw & Hu); [lia|lia|]. rewrite Hw. cbn [mbind option_bind]. destruct (Z.eqb_spec w ONES) as [->|Hne].
    + destruct (IH (i + 1)) as (r & E & Hr & H1 & H2); [done|lia|lia|lia|]. exists r. split; [done|]. split; [lia|]. split; [|intros; apply H2; lia].
      intros k Hk. destruct (Z.lt_ge_cases k (32 * (i + 1))); [|apply H1; lia]. replace (32 * p + k) with (32 * (p + i) + (k - 32 * i)) by lia.
      rewrite (bit_word d (p + i) (k - 32 * i) ONES) by (done || lia). apply ones_bits. lia.
    + destruct (bsf_zero w Hu Hne) as (k & E & Hk & Hz & Ho). rewrite E. cbn. exists (k + i * 32). split; [done|]. split; [lia|]. split.
      * intros j Hj. replace (32 * p + j) with (32 * (p + i) + (j - 32 * i)) by lia. rewrite (bit_word d (p + i) (j - 32 * i) w) by (done || lia). apply Ho. lia.
      * intros _. replace (32 * p + (k + i * 32)) with (32 * (p + i) + k) by lia. by rewrite (bit_word d (p + i) k w).
Qed.

Definition words (len : Z) : Z := (len + 31) / 32.

Lemma words_bounds len : 32 * words len - 31 <= len <= 32 * words len.
Proof. unfold words. Z.div_mod_to_equations. lia. Qed.

(** A scan of the rest of the bitmap from the word [p] on. *)
Lemma find_first_run d p len : bytes_ok d -> 0 <= p -> -31 <= len - 32 * p -> len < 2147483648 -> 4 * words len <= Z.of_nat (length d) ->
  exists r, find_first_zero_bit d p (len - 32 * p) = Some r /\ 0 <= r /\ (32 * p + r <= 32 * words len \/ r = 0) /\
    (forall k, 32 * p <= k < 32 * p + r -> bit d k = true) /\ (32 * p + r < 32 * words len -> bit d (32 * p + r) = false).
Proof.
  intros Hd Hp Hlen Hmax Hl. pose proof (words_bounds len) as Hw. unfold find_first_zero_bit. destruct (Z.eqb_spec (len - 32 * p) 0) as [E0|E0].
  - exists 0. split_and!; [done|done|by right|intros; lia|]. intros Hlt. assert (words len = p) by lia. lia.
  - rewrite shiftr5, u32_small by u32_lia. assert (En : (len - 32 * p + 31) / 32 = words len - p) by (unfold words; Z.div_mod_to_equations; lia). rewrite En.
    assert (Hn : 0 <= words len - p) by lia.
    destruct (scan_words_spec d p (Z.to_nat (words len - p)) 0 Hd Hp ltac:(lia)) as (r & E & Hr & H1 & H2); [lia|].
    exists r. split; [done|]. split; [lia|]. split; [left; lia|]. split; [|intros; apply H2; lia]. intros k Hk. replace k with (32 * p + (k - 32 * p)) by lia. apply H1. lia.
Qed.

(** The bits from [bit] on in the first word. *)
Lemma first_word_run w b : is_u32 w -> 0 < b < 32 ->
  exists s, default 32 (bsf (u32 (Z.lnot (Z.shiftr w b)))) = s /\ 0 <= s <= 32 - b /\ (forall k, b <= k < b + s -> Z.testbit w k = true) /\ (s < 32 - b -> Z.testbit w (b + s) = false).
Proof.
  intros Hw Hb. eexists. split; [reflexivity|].
  assert (Hx : forall i, 0 <= i < 32 -> Z.testbit (u32 (Z.lnot (Z.shiftr w b))) i = negb (Z.testbit w (i + b))).
  { intros i Hi. unfold u32. change W32 with (2 ^ 32). rewrite Z.mod_pow2_bits_low by lia. rewrite Z.lnot_spec by lia. by rewrite Z.shiftr_spec by lia. }
  pose proof (bsf_from_spec (u32 (Z.lnot (Z.shiftr w b))) 32 0 ltac:(lia)) as Hs. unfold bsf. destruct (bsf_from 32 0 _) as [j|]; cbn [default].
  - destruct Hs as (H1 & H2 & H3). assert (Hj : j <= 32 - b).
    { destruct (Z.lt_ge_cases (32 - b) j) as [Hlt|]; [|lia]. specialize (H3 (32 - b) ltac:(lia)). rewrite Hx in H3 by lia. rewrite (u32_high w) in H3 by (done || lia). done. }
    unfold id. split; [lia|]. rewrite Hx in H2 by lia. split.
    + intros k Hk. specialize (H3 (k - b) ltac:(lia)). rewrite Hx in H3 by lia. replace (k - b + b) with k in H3 by lia. by destruct (Z.testbit w k).
    + intros _. rewrite Z.add_comm. by destruct (Z.testbit w (j + b)).
  - specialize (Hs (32 - b) ltac:(lia)). rewrite Hx in Hs by lia. rewrite (u32_high w) in Hs by (done || lia). done.
Qed.

Lemma find_next_run d len start : bytes_ok d -> 0 <= start < len -> len < 2147483648 -> 4 * words len <= Z.of_nat (length d) ->
  exists r, find_next_zero_bit d len start = Some r /\ start <= r <= 32 * words len /\ (forall k, start <= k < r -> bit d k = true) /\ (r < 32 * words len -> bit d r = false).
Proof.
  intros Hd [Hs Hlt] Hmax Hl. pose proof (words_bounds len) as Hw. destruct (bit_pos start) as [Es Hm]. unfold find_next_zero_bit. rewrite shiftr5, land31.
  destruct (Z.leb_spec len start); [lia|]. set (p := start / 32) in *. set (b := start mod 32) in *. assert (Hp : 0 <= p) by (apply Z.div_pos; lia).
  assert (Hpw : p < words len) by lia. destruct (Z.eqb_spec b 0) as [Eb|Eb]; cbn [negb].
  - destruct (find_first_run d p len Hd Hp) as (r & E & Hr & Hb & H1 & H2); [lia|done|done|]. rewrite E. cbn. exists (start + r). split; [done|].
    assert (E32 : start = 32 * p) by lia. split; [lia|]. rewrite E32. split; [intros; apply H1; lia|intros; apply H2; lia].
  - destruct (word_at_some d p Hd) as (w & Hwd & Hu); [done|lia|]. rewrite Hwd. cbn [mbind option_bind]. destruct (first_word_run w b Hu) as (s & -> & Hsb & H1 & H2); [lia|].
    assert (Hbit : forall k, b <= k < 32 -> bit d (32 * p + k) = Z.testbit w k) by (intros k Hk; by rewrite (bit_word d p k w) by (done || lia)).
    destruct (Z.ltb_spec s (32 - b)) as [Hlt'|Hge].
    + exists (s + start). split; [done|]. split; [lia|]. split.
      * intros k Hk. replace k with (32 * p + (k - 32 * p)) by lia. rewrite Hbit by lia. apply H1. lia.
      * intros _. replace (s + start) with (32 * p + (b + s)) by lia. rewrite Hbit by lia. by apply H2.
    + assert (s = 32 - b) as -> by lia. destruct (find_first_run d (p + 1) len Hd) as (r & E & Hr & Hb & H3 & H4); [lia|lia|done|done|]. rewrite E. cbn.
      exists (start + (32 - b) + r). replace (start + (32 - b) + r) with (32 * (p + 1) + r) by lia. split; [done|]. split; [lia|]. split; [|intros; apply H4; lia].
      intros k Hk. destruct (Z.lt_ge_cases k (32 * (p + 1))); [|apply H3; lia]. replace k with (32 * p + (k - 32 * p)) by lia. rewrite Hbit by lia. apply H1. lia.
Qed.

(** The bits behind the end of the bitmap are zero. *)
Definition tail_clear (d : list Z) (len : Z) : Prop := forall k, len <= k < 32 * words len -> bit d k = false.

(** The first zero bit from [start] on, or the length. *)
Definition first_zero (d : list Z) (len start r : Z) : Prop :=
  r <= len /\ start <= Z.max r start /\ (start < len -> start <= r) /\ (len <= start -> r = len) /\ (forall k, start <= k < r -> bit d k = true) /\ (r < len -> bit d r = false).

Lemma find_next_first d len start : bytes_ok d -> 0 <= start -> len < 2147483648 -> 4 * words len <= Z.of_nat (length d) -> tail_clear d len ->
  exists r, find_next_zero_bit d len start = Some r /\ first_zero d len start r.
Proof.
  intros Hd Hs Hmax Hl Ht. destruct (Z.lt_ge_cases start len) as [Hlt|Hge].
  - destruct (find_next_run d len start Hd ltac:(lia) Hmax Hl) as (r & E & Hr & H1 & H2). exists r. split; [done|]. pose proof (words_bounds len).
    assert (Hle : r <= len). { destruct (Z.lt_ge_cases len r) as [Hx|]; [|lia]. specialize (H1 len ltac:(lia)). rewrite Ht in H1 by lia. done. }
    split_and!; [done|lia|lia|lia|done|]. intros. apply H2. lia.
  - exists len. unfold find_next_zero_bit. destruct (Z.leb_spec len start); [|lia]. split; [done|]. split_and!; [lia|lia|lia|done|intros; lia|lia].
Qed.

Lemma find_first_first d len : bytes_ok d -> 0 <= len < 2147483648 -> 4 * words len <= Z.of_nat (length d) -> tail_clear d len ->
  exists r, find_first_zero_bit d 0 len = Some r /\ 0 <= r /\ first_zero d len 0 r.
Proof.
  intros Hd Hmax Hl Ht. destruct (find_first_run d 0 len Hd) as (r & E & Hr & Hb & H1 & H2); [lia|lia|lia|done|]. pose proof (words_bounds len). change (32 * 0) with 0 in *.
  rewrite Z.sub_0_r in E. rewrite !Z.add_0_l in *. exists r. split; [done|]. split; [done|].
  assert (Hle : r <= len). { destruct (Z.lt_ge_cases len r) as [Hx|]; [|lia]. specialize (H1 len ltac:(lia)). rewrite Ht in H1 by lia. done. }
  split_and!; [done|lia|lia|lia|done|]. intros. apply H2. lia.
Qed.
