(* ===== verification/Blocks.v ===== *)
(** * What the file system relies on of the buffer cache

    The disk file system (sys/fs/dfs) works on the blocks of a device through
    the calls of include/os/buf.h.  [BlockCache] has these calls, with accesses
    to [buf->data], and [CacheSpec] their laws: the cache is a store of blocks
    [A] with the buffers [L] that the caller holds.  A buffer that has been
    changed is [h_dirty] until it is marked, and it must be marked before the
    last lock on it is released.  [get_buffer] may fail, and then nothing has
    changed.  The laws are for one thread that runs alone. *)

From S2P Require Import Prelude.

Record hold := Hold { h_blk : Z; h_locks : Z; h_dirty : bool; h_valid : bool }.

Definition dirtied (h : hold) : hold := Hold (h_blk h) (h_locks h) true (h_valid h).
Definition marked (h : hold) : hold := Hold (h_blk h) (h_locks h) false (h_valid h).
Definition invalidated (h : hold) : hold := Hold (h_blk h) (h_locks h) false false.
Definition locked_by (n : Z) (h : hold) : hold := Hold (h_blk h) (h_locks h + n) (h_dirty h) (h_valid h).

Class BlockCache (C : Type) := {
  c_get : Z -> K C Z;
  c_alloc : Z -> K C Z;
  c_data : Z -> K C (list Z);
  c_store : Z -> list Z -> K C unit;
  c_updated : Z -> K C unit;
  c_invalid : Z -> K C unit;
  c_release : Z -> K C unit;
  c_invalidate : Z -> K C unit;
}.

(** No buffer of [L] is a buffer of the block. *)
Definition unheld (L : gmap Z hold) (blk : Z) : Prop := forall b h, L !! b = Some h -> h_blk h <> blk.

(** [b] is a buffer of the block with one more lock; a new one has the state
    [h]. *)
Definition takes (b blk : Z) (h : hold) (L L' : gmap Z hold) : Prop :=
  (exists h0, L !! b = Some h0 /\ h_blk h0 = blk /\ h_valid h0 = true /\ L' = <[b := locked_by 1 h0]> L) \/
  (L !! b = None /\ unheld L blk /\ L' = <[b := h]> L).

(** A buffer of the block has not been invalidated. *)
Definition usable (L : gmap Z hold) (blk : Z) : Prop := forall b h, L !! b = Some h -> h_blk h = blk -> h_valid h = true.

Lemma unheld_usable L blk : unheld L blk -> usable L blk.
Proof. intros Hu b h Hb E. by destruct (Hu b h Hb). Qed.

(** There are less than [N] buffers in use, with room for a lock on each. *)
Definition roomy (N : nat) (L : gmap Z hold) : Prop := (size L < N)%nat /\ forall b h, L !! b = Some h -> h_locks h < 65534.

Class CacheSpec (C : Type) `{!BlockCache C} := {
  rep : nat -> gmap Z (list Z) -> gmap Z hold -> C -> Prop;
  block_bytes : C -> nat;
  rep_one N A L c b1 b2 h1 h2 : rep N A L c -> L !! b1 = Some h1 -> L !! b2 = Some h2 -> h_blk h1 = h_blk h2 -> b1 = b2;
  get_law N A L c blk : rep N A L c -> roomy N L -> usable L blk -> is_Some (A !! blk) ->
    exists b c', c_get blk c = Done (b, c') /\ block_bytes c' = block_bytes c /\
      ((b = 0 /\ rep N A L c') \/ (b <> 0 /\ exists L', takes b blk (Hold blk 1 false true) L L' /\ rep N A L' c'));
  alloc_law N A L c blk : rep N A L c -> roomy N L -> unheld L blk ->
    exists b c', c_alloc blk c = Done (b, c') /\ block_bytes c' = block_bytes c /\ b <> 0 /\ L !! b = None /\
      rep N (<[blk := replicate (block_bytes c) 0]> A) (<[b := Hold blk 1 true true]> L) c';
  data_law N A L c b h d : rep N A L c -> L !! b = Some h -> h_valid h = true -> A !! h_blk h = Some d -> c_data b c = Done (d, c);
  store_law N A L c b h d : rep N A L c -> L !! b = Some h -> h_valid h = true ->
    exists c', c_store b d c = Done (tt, c') /\ block_bytes c' = block_bytes c /\ rep N (<[h_blk h := d]> A) (<[b := dirtied h]> L) c';
  updated_law N A L c b h : rep N A L c -> L !! b = Some h -> h_valid h = true ->
    exists c', c_updated b c = Done (tt, c') /\ block_bytes c' = block_bytes c /\ rep N A (<[b := marked h]> L) c';
  invalid_law N A L c b h : rep N A L c -> L !! b = Some h ->
    exists c', c_invalid b c = Done (tt, c') /\ block_bytes c' = block_bytes c /\ rep N (delete (h_blk h) A) (<[b := invalidated h]> L) c';
  release_law N A L c b h : rep N A L c -> L !! b = Some h -> h_dirty h = false \/ 1 < h_locks h ->
    exists c', c_release b c = Done (tt, c') /\ block_bytes c' = block_bytes c /\ rep N A (if 1 <? h_locks h then <[b := locked_by (-1) h]> L else delete b L) c';
  invalidate_law N A L c blk : rep N A L c -> roomy N L -> unheld L blk ->
    exists c', c_invalidate blk c = Done (tt, c') /\ block_bytes c' = block_bytes c /\ rep N (delete blk A) L c';
}.
