(* ===== verification/Group.v ===== *)
(** * Free blocks and inodes of the disk file system (sys/fs/dfs/group.c)

    The blocks of the device are divided into groups.  Each group has a bitmap
    of its blocks and one of its inodes, in blocks of their own, and a
    descriptor with the numbers of free ones; the super block has the sums.
    [first_free_block] is a place in the bitmap that the search starts from.

    The descriptors are records here; in memory they are parts of the buffers
    of the descriptor table, [groupdesc_buffers], which stay locked and are
    marked as updated when a descriptor changes. *)

From S2P Require Import Prelude Bitops Blocks.
Local Open Scope k_scope.

Definition NOBLOCK : Z := 0xFFFFFFFF.
Definition NOINODE : Z := 0xFFFFFFFF.

(** The unsigned [-1] of the hints and of [prev_group]. *)
Definition NONE : Z := 0xFFFFFFFF.

Record superblock := Super {
  reserved_inodes : Z;
  group_count : Z;
  inode_count : Z;
  block_count : Z;
  free_inode_count : Z;
  free_block_count : Z;
  blocks_per_group : Z;
  inodes_per_group : Z;
}.

Record groupdesc := Desc {
  gd_block_count : Z;
  block_bitmap_block : Z;
  inode_bitmap_block : Z;
  inode_table_block : Z;
  gd_free_block_count : Z;
  gd_free_inode_count : Z;
}.

Record blkgroup := Grp { desc : groupdesc; first_free_block : Z; first_free_inode : Z }.

Definition set_free_block_count (v : Z) (s : superblock) : superblock :=
  Super (reserved_inodes s) (group_count s) (inode_count s) (block_count s) (free_inode_count s) v (blocks_per_group s) (inodes_per_group s).
Definition set_free_inode_count (v : Z) (s : superblock) : superblock :=
  Super (reserved_inodes s) (group_count s) (inode_count s) (block_count s) v (free_block_count s) (blocks_per_group s) (inodes_per_group s).
Definition set_gd_free_blocks (v : Z) (d : groupdesc) : groupdesc :=
  Desc (gd_block_count d) (block_bitmap_block d) (inode_bitmap_block d) (inode_table_block d) v (gd_free_inode_count d).
Definition set_gd_free_inodes (v : Z) (d : groupdesc) : groupdesc :=
  Desc (gd_block_count d) (block_bitmap_block d) (inode_bitmap_block d) (inode_table_block d) (gd_free_block_count d) v.
Definition set_desc (v : groupdesc) (g : blkgroup) : blkgroup := Grp v (first_free_block g) (first_free_inode g).
Definition set_first_free_block (v : Z) (g : blkgroup) : blkgroup := Grp (desc g) v (first_free_inode g).
Definition set_first_free_inode (v : Z) (g : blkgroup) : blkgroup := Grp (desc g) (first_free_block g) v.

Section Code.
Context {C : Type} `{!BlockCache C}.

Record filsys := Filsys {
  groupdescs_per_block : Z;
  super_dirty : Z;
  super : superblock;
  cache : C;
  groupdesc_buffers : list Z;
  groups : list blkgroup;
}.

Definition set_super (v : superblock) (fs : filsys) : filsys := Filsys (groupdescs_per_block fs) 1 v (cache fs) (groupdesc_buffers fs) (groups fs).
Definition set_cache (v : C) (fs : filsys) : filsys := Filsys (groupdescs_per_block fs) (super_dirty fs) (super fs) v (groupdesc_buffers fs) (groups fs).
Definition set_groups (v : list blkgroup) (fs : filsys) : filsys := Filsys (groupdescs_per_block fs) (super_dirty fs) (super fs) (cache fs) (groupdesc_buffers fs) v.

Definition on_cache {A} (m : K C A) : K filsys A := kzoom cache set_cache m.

(** Division faults if the divisor is 0. *)
Definition udiv (a b : Z) : K filsys Z := if b =? 0 then kfault else kret (a / b).
Definition umod (a b : Z) : K filsys Z := if b =? 0 then kfault else kret (a mod b).

Definition get_group (i : Z) : K filsys blkgroup := let* fs := kget in kopt (groups fs !! Z.to_nat i).
Definition upd_group (i : Z) (f : blkgroup -> blkgroup) : K filsys unit :=
  let* g := get_group i in kmod (fun fs => set_groups (<[Z.to_nat i := f g]> (groups fs)) fs).

Definition mark_group_desc_dirty (group : Z) : K filsys unit :=
  let* fs := kget in
  let* i := udiv group (groupdescs_per_block fs) in
  let* b := kopt (groupdesc_buffers fs !! Z.to_nat i) in
  on_cache (c_updated b).

(** A bit of the bitmap in the buffer is changed. *)
Definition change_bitmap (buf : Z) (f : list Z -> option (list Z)) : K filsys unit :=
  let* d := on_cache (c_data buf) in
  let* d' := kopt (f d) in
  on_cache (c_store buf d').

(** ** Blocks *)

Inductive found_block :=
| NotFound
| Found (group block buf : Z)
| SearchFrom (group : Z).

(** The goal and the blocks behind it in its group. *)
Definition try_goal (goal : Z) : K filsys found_block :=
  let* fs := kget in
  if goal <? block_count (super fs) then
    let* group := udiv goal (blocks_per_group (super fs)) in
    let* block := umod goal (blocks_per_group (super fs)) in
    let* g := get_group group in
    let* buf := on_cache (c_get (block_bitmap_block (desc g))) in
    if buf =? 0 then kret NotFound
    else
      let* d := on_cache (c_data buf) in
      let* set := kopt (test_bit d (s32 block)) in
      if negb set then kret (Found group block buf)
      else
        let* g := get_group group in
        let* next := kopt (find_next_zero_bit d (s32 (gd_block_count (desc g))) (s32 (block + 1))) in
        if negb (u32 next =? gd_block_count (desc g)) then kret (Found group (u32 next) buf)
        else on_cache (c_release buf) ;;; kret (SearchFrom group)
  else kret (SearchFrom 0).

Definition next_group (group count : Z) : Z := if count <=? u32 (group + 1) then 0 else u32 (group + 1).

(** The search through the groups; [n] of them are left. *)
Fixpoint search_groups (n : nat) (group : Z) : K filsys found_block :=
  match n with
  | O => kret NotFound
  | S n' =>
    let* fs := kget in
    let* g := get_group group in
    let next := next_group group (group_count (super fs)) in
    if 0 <? gd_free_block_count (desc g) then
      let* buf := on_cache (c_get (block_bitmap_block (desc g))) in
      if buf =? 0 then kret NotFound
      else
        let* d := on_cache (c_data buf) in
        let* g := get_group group in
        let* block :=
          (if negb (first_free_block g =? NONE)
           then kopt (find_next_zero_bit d (s32 (gd_block_count (desc g))) (s32 (first_free_block g)))
           else
             let* b := kopt (find_first_zero_bit d 0 (s32 (gd_block_count (desc g)))) in
             upd_group group (set_first_free_block (u32 b)) ;;;
             kret b) in
        if negb (u32 block =? gd_block_count (desc g)) then kret (Found group (u32 block) buf)
        else on_cache (c_release buf) ;;; search_groups n' next
    else search_groups n' next
  end.

(** The block is marked as used. *)
Definition take_block (group block buf : Z) : K filsys Z :=
  change_bitmap buf (fun d => set_bit d (s32 block)) ;;;
  on_cache (c_updated buf) ;;;
  kmod (fun fs => set_super (set_free_block_count (u32 (free_block_count (super fs) - 1)) (super fs)) fs) ;;;
  let* g := get_group group in
  (if first_free_block g =? block then upd_group group (set_first_free_block (u32 (block + 1))) else kret tt) ;;;
  upd_group group (fun g => set_desc (set_gd_free_blocks (u32 (gd_free_block_count (desc g) - 1)) (desc g)) g) ;;;
  mark_group_desc_dirty group ;;;
  on_cache (c_release buf) ;;;
  let* fs := kget in
  kret (u32 (block + group * blocks_per_group (super fs))).

Definition new_block (goal : Z) : K filsys Z :=
  let* t := try_goal goal in
  match t with
  | NotFound => kret NOBLOCK
  | Found group block buf => take_block group block buf
  | SearchFrom group =>
    let* fs := kget in
    let* t := search_groups (Z.to_nat (group_count (super fs))) group in
    match t with
    | Found group block buf => take_block group block buf
    | _ => kret NOBLOCK
    end
  end.

(** The blocks that are left, the group of the last one and the buffer of its
    bitmap; the result is false if a bitmap cannot be read. *)
Fixpoint free_loop (blocks : list Z) (prev_group buf : Z) : K filsys (bool * Z) :=
  match blocks with
  | [] => kret (true, buf)
  | blk :: blocks' =>
    let* fs := kget in
    let* group := udiv blk (blocks_per_group (super fs)) in
    let* block := umod blk (blocks_per_group (super fs)) in
    let* buf' :=
      (if negb (group =? prev_group) then
         (if negb (buf =? 0) then on_cache (c_release buf) else kret tt) ;;;
         let* g := get_group group in
         on_cache (c_get (block_bitmap_block (desc g)))
       else kret buf) in
    if negb (group =? prev_group) && (buf' =? 0) then kret (false, 0)
    else
      change_bitmap buf' (fun d => clear_bit d (s32 block)) ;;;
      on_cache (c_updated buf') ;;;
      kmod (fun fs => set_super (set_free_block_count (u32 (free_block_count (super fs) + 1)) (super fs)) fs) ;;;
      let* g := get_group group in
      (if block <? first_free_block g then upd_group group (set_first_free_block block) else kret tt) ;;;
      upd_group group (fun g => set_desc (set_gd_free_blocks (u32 (gd_free_block_count (desc g) + 1)) (desc g)) g) ;;;
      mark_group_desc_dirty group ;;;
      free_loop blocks' group buf'
  end.

Definition free_blocks (blocks : list Z) : K filsys unit :=
  let* r := free_loop blocks NONE 0 in
  if negb (snd r =? 0) then on_cache (c_release (snd r)) else kret tt.

(** ** Inodes *)

(** The group with the most free blocks among those with at least [ave] free
    inodes; [n] groups from [i] on are left. *)
Fixpoint best_group (n : nat) (ave i group : Z) : K filsys Z :=
  match n with
  | O => kret group
  | S n' =>
    let* gi := get_group i in
    let* group' :=
      (if negb (gd_free_inode_count (desc gi) =? 0) && (ave <=? gd_free_inode_count (desc gi)) then
         if group =? NONE then kret i
         else
           let* g := get_group group in
           kret (if gd_free_block_count (desc g) <? gd_free_block_count (desc gi) then i else group)
       else kret group) in
    best_group n' ave (i + 1) group'
  end.

(** The first group with free inodes, from [group] on. *)
Fixpoint free_inode_group (n : nat) (group : Z) : K filsys Z :=
  match n with
  | O => kret group
  | S n' =>
    let* g := get_group group in
    if negb (gd_free_inode_count (desc g) =? 0) then kret group
    else let* fs := kget in free_inode_group n' (next_group group (group_count (super fs)))
  end.

Definition inode_group (parent : Z) (dir : bool) : K filsys Z :=
  let* fs := kget in
  if dir then
    let* ave := udiv (free_inode_count (super fs)) (group_count (super fs)) in
    let* group := best_group (Z.to_nat (group_count (super fs))) ave 0 NONE in
    kret (if group =? NONE then 0 else group)
  else
    let* group := udiv parent (inodes_per_group (super fs)) in
    free_inode_group (Z.to_nat (group_count (super fs))) group.

(** The inode is marked as used. *)
Definition take_inode (group ino buf : Z) : K filsys Z :=
  change_bitmap buf (fun d => set_bit d (s32 ino)) ;;;
  on_cache (c_updated buf) ;;;
  kmod (fun fs => set_super (set_free_inode_count (u32 (free_inode_count (super fs) - 1)) (super fs)) fs) ;;;
  let* g := get_group group in
  (if first_free_inode g =? ino then upd_group group (set_first_free_inode (u32 (ino + 1))) else kret tt) ;;;
  upd_group group (fun g => set_desc (set_gd_free_inodes (u32 (gd_free_inode_count (desc g) - 1)) (desc g)) g) ;;;
  mark_group_desc_dirty group ;;;
  on_cache (c_release buf) ;;;
  let* fs := kget in
  kret (u32 (ino + group * inodes_per_group (super fs))).

Definition new_inode (parent : Z) (dir : bool) : K filsys Z :=
  let* group := inode_group parent dir in
  let* g := get_group group in
  let* buf := on_cache (c_get (inode_bitmap_block (desc g))) in
  if buf =? 0 then kret NOINODE
  else
    let* d := on_cache (c_data buf) in
    let* fs := kget in
    let count := inodes_per_group (super fs) in
    let* g := get_group group in
    let* ino :=
      (if negb (first_free_inode g =? NONE) then kopt (find_next_zero_bit d (s32 count) (s32 (first_free_inode g)))
       else
         let* i := kopt (find_first_zero_bit d 0 (s32 count)) in
         upd_group group (set_first_free_inode (u32 i)) ;;;
         kret i) in
    if u32 ino =? count then on_cache (c_release buf) ;;; kret NOINODE
    else take_inode group (u32 ino) buf.

Definition free_inode (ino : Z) : K filsys unit :=
  let* fs := kget in
  let* group := udiv ino (inodes_per_group (super fs)) in
  let* ino := umod ino (inodes_per_group (super fs)) in
  let* g := get_group group in
  let* buf := on_cache (c_get (inode_bitmap_block (desc g))) in
  if buf =? 0 then kret tt
  else
    change_bitmap buf (fun d => clear_bit d (s32 ino)) ;;;
    on_cache (c_updated buf) ;;;
    kmod (fun fs => set_super (set_free_inode_count (u32 (free_inode_count (super fs) + 1)) (super fs)) fs) ;;;
    let* g := get_group group in
    (if ino <? first_free_inode g then upd_group group (set_first_free_inode ino) else kret tt) ;;;
    upd_group group (fun g => set_desc (set_gd_free_inodes (u32 (gd_free_inode_count (desc g) + 1)) (desc g)) g) ;;;
    mark_group_desc_dirty group ;;;
    on_cache (c_release buf).

End Code.
Arguments filsys : clear implicits.
