(* ===== verification/Groups.v ===== *)
(** * Correctness of block and inode allocation (sys/fs/dfs/group.c)

    [fs_ok] is the invariant: the bitmaps of all groups are in the store, the
    counts in the descriptors and in the super block are the numbers of zero
    bits.  The theorems: [new_block] returns a free block and takes exactly
    that one; [free_blocks] gives back exactly the given blocks; if the hints are
    right, [new_block] fails only if there is no free block.  After a mount the
    hints are unknown, and the first [free_blocks] in a group sets a wrong one:
    the free blocks below it are not found any more. *)

From S2P Require Import Prelude Bitops Blocks Group.
Local Open Scope k_scope.

Tactic Notation "step" uconstr(E) := rewrite (kbind_done _ _ _ _ _ E).

(** ** Zero bits *)

Definition zero_bits (d : list Z) (n : Z) : list Z := filter (fun k => bit d k = false) (seqZ 0 n).
Definition zero_count (d : list Z) (n : Z) : Z := Z.of_nat (length (zero_bits d n)).

Lemma elem_zero_bits d n k : k ∈ zero_bits d n <-> 0 <= k < n /\ bit d k = false.
Proof. unfold zero_bits. rewrite list_elem_of_filter, elem_of_seqZ. intuition lia. Qed.

Lemma zero_bits_nodup d n : NoDup (zero_bits d n).
Proof. apply NoDup_filter, NoDup_seqZ. Qed.

Lemma zero_count_bounds d n : 0 <= n -> 0 <= zero_count d n <= n.
Proof.
  intros Hn. unfold zero_count, zero_bits. pose proof (length_filter (fun k => bit d k = false) (seqZ 0 n)) as Hl. rewrite length_seqZ in Hl. lia.
Qed.

Lemma zero_count_pos d n : 0 < zero_count d n <-> exists k, 0 <= k < n /\ bit d k = false.
Proof.
  unfold zero_count. split.
  - intros Hp. destruct (zero_bits d n) as [|k l] eqn:E; [cbn in Hp; lia|]. exists k. apply elem_zero_bits. rewrite E. by left.
  - intros (k & Hk). apply elem_zero_bits in Hk. destruct (zero_bits d n); [by apply elem_of_nil in Hk|]. cbn. lia.
Qed.

(** One bit more or less. *)
Lemma zero_count_set d d' n k : 0 <= k < n -> bit d k = false -> (forall j, bit d' j = if j =? k then true else bit d j) -> zero_count d' n = zero_count d n - 1.
Proof.
  intros Hk Hz Hb. assert (P : zero_bits d n ≡ₚ k :: zero_bits d' n).
  { apply NoDup_Permutation; [apply zero_bits_nodup|apply NoDup_cons; split; [|apply zero_bits_nodup]|].
    - rewrite elem_zero_bits, Hb, Z.eqb_refl. by intros [_ ?].
    - intros j. rewrite elem_of_cons, !elem_zero_bits, Hb. destruct (Z.eqb_spec j k) as [->|]; intuition congruence. }
  unfold zero_count. apply Permutation_length in P. rewrite P. cbn. lia.
Qed.

Lemma zero_count_clear d d' n k : 0 <= k < n -> bit d k = true -> (forall j, bit d' j = if j =? k then false else bit d j) -> zero_count d' n = zero_count d n + 1.
Proof.
  intros Hk Hz Hb. assert (E : zero_count d n = zero_count d' n - 1); [|lia]. apply (zero_count_set d' d n k Hk); [by rewrite Hb, Z.eqb_refl|].
  intros j. rewrite Hb. destruct (Z.eqb_spec j k) as [->|]; done.
Qed.

(** A bitmap of [n] bits in a block. *)
Record bitmap_ok (d : list Z) (n : Z) : Prop := {
  bm_bytes : bytes_ok d;
  bm_length : 4 * words n <= Z.of_nat (length d);
  bm_bound : 0 <= n < 2147483648;
  bm_tail : tail_clear d n;
}.

Lemma bitmap_in d n k : bitmap_ok d n -> 0 <= k < n -> in_bitmap d k.
Proof.
  intros [_ Hl Hn _] Hk. split; [lia|]. pose proof (words_bounds n). assert (k / 32 < words n) by (apply Z.div_lt_upper_bound; lia). lia.
Qed.

Lemma bitmap_same d d' n k : bitmap_ok d n -> 0 <= k < n -> bytes_ok d' -> length d' = length d -> (exists v, forall j, bit d' j = if j =? k then v else bit d j) -> bitmap_ok d' n.
Proof.
  intros [H1 H2 H3 H4] Hk Hd Hl (v & Hb). split; [done|by rewrite Hl|done|]. intros j Hj. rewrite Hb. destruct (Z.eqb_spec j k); [lia|]. by apply H4.
Qed.

(** ** Blocks and inodes

    The code for the two is the same up to the fields of the records. *)

Inductive kind := Block | Inode.

#[global] Instance kind_eq_dec : EqDecision kind.
Proof. solve_decision. Defined.

Definition k_map (k : kind) (d : groupdesc) : Z := match k with Block => block_bitmap_block d | Inode => inode_bitmap_block d end.
Definition k_free (k : kind) (d : groupdesc) : Z := match k with Block => gd_free_block_count d | Inode => gd_free_inode_count d end.
Definition k_set_free (k : kind) (v : Z) (d : groupdesc) : groupdesc := match k with Block => set_gd_free_blocks v d | Inode => set_gd_free_inodes v d end.
Definition k_hint (k : kind) (g : blkgroup) : Z := match k with Block => first_free_block g | Inode => first_free_inode g end.
Definition k_set_hint (k : kind) (v : Z) (g : blkgroup) : blkgroup := match k with Block => set_first_free_block v g | Inode => set_first_free_inode v g end.
Definition k_total (k : kind) (s : superblock) : Z := match k with Block => free_block_count s | Inode => free_inode_count s end.
Definition k_set_total (k : kind) (v : Z) (s : superblock) : superblock := match k with Block => set_free_block_count v s | Inode => set_free_inode_count v s end.
Definition k_per (k : kind) (s : superblock) : Z := match k with Block => blocks_per_group s | Inode => inodes_per_group s end.
Definition k_count (k : kind) (s : superblock) (d : groupdesc) : Z := match k with Block => gd_block_count d | Inode => inodes_per_group s end.

(** Fields of the other kind, and other fields. *)
Lemma k_free_set k j v d : k_free j (k_set_free k v d) = if decide (j = k) then v else k_free j d.
Proof. by destruct k, j. Qed.
Lemma k_map_set k j v d : k_map j (k_set_free k v d) = k_map j d.
Proof. by destruct k, j. Qed.
Lemma k_count_set k j v d s : k_count j s (k_set_free k v d) = k_count j s d.
Proof. by destruct k, j. Qed.
Lemma k_hint_set k j v g : k_hint j (k_set_hint k v g) = if decide (j = k) then v else k_hint j g.
Proof. by destruct k, j. Qed.
Lemma k_desc_hint k v g : desc (k_set_hint k v g) = desc g.
Proof. by destruct k. Qed.
Lemma k_hint_desc j v g : k_hint j (set_desc v g) = k_hint j g.
Proof. by destruct j. Qed.
Lemma k_total_set k j v s : k_total j (k_set_total k v s) = if decide (j = k) then v else k_total j s.
Proof. by destruct k, j. Qed.
Lemma k_per_set k j v s : k_per j (k_set_total k v s) = k_per j s.
Proof. by destruct k, j. Qed.
Lemma k_count_total k j v s d : k_count j (k_set_total k v s) d = k_count j s d.
Proof. by destruct k, j. Qed.

Section Groups.
Context {C : Type} `{!BlockCache C, !CacheSpec C}.
Implicit Types fs : filsys C.

(** ** Runs of the calls of the cache *)

Lemma on_cache_run {A} (m : K C A) fs a c' : m (cache fs) = Done (a, c') -> on_cache m fs = Done (a, set_cache c' fs).
Proof. intros E. unfold on_cache, kzoom. by rewrite E. Qed.

Lemma on_cache_inv {A} (m : K C A) fs a c' : on_cache m fs = Done (a, set_cache c' fs) -> m (cache fs) = Done (a, c').
Proof. unfold on_cache, kzoom. destruct (m (cache fs)) as [[a0 c0]| | |]; [|done..]. intros [= -> E]. by rewrite E. Qed.

Lemma get_group_run fs i g : groups fs !! Z.to_nat i = Some g -> get_group i fs = Done (g, fs).
Proof. intros E. unfold get_group. rewrite kbind_kget. by rewrite E. Qed.

Lemma upd_group_run fs i g f : groups fs !! Z.to_nat i = Some g -> upd_group i f fs = Done (tt, set_groups (<[Z.to_nat i := f g]> (groups fs)) fs).
Proof. intros E. unfold upd_group. by step (get_group_run fs i g E). Qed.

Lemma udiv_run fs a b : b <> 0 -> udiv a b fs = Done (a / b, fs).
Proof. intros Hb. unfold udiv. by destruct (Z.eqb_spec b 0). Qed.

Lemma umod_run fs a b : b <> 0 -> umod a b fs = Done (a mod b, fs).
Proof. intros Hb. unfold umod. by destruct (Z.eqb_spec b 0). Qed.

(** A buffer that is held once and marked. *)
Definition held1 (blk : Z) : hold := Hold blk 1 false true.

(** [get_buffer] of a block that is not held. *)
Lemma cache_get_run N A L fs blk : rep N A L (cache fs) -> roomy N L -> unheld L blk -> is_Some (A !! blk) ->
  exists b c', on_cache (c_get blk) fs = Done (b, set_cache c' fs) /\
    ((b = 0 /\ rep N A L c') \/ (b <> 0 /\ L !! b = None /\ rep N A (<[b := held1 blk]> L) c')).
Proof.
  intros R Hroom Hun Ha. destruct (get_law N A L (cache fs) blk R Hroom (unheld_usable L blk Hun) Ha) as (b & c' & E & _ & Hcase). exists b, c'. split; [by apply on_cache_run|].
  destruct Hcase as [?|(Hb & L' & Ht & R')]; [by left|]. right. destruct Ht as [(h0 & Hh & Ek & _)|(Hn & _ & ->)]; [by destruct (Hun b h0 Hh)|]. done.
Qed.

Lemma cache_release_run N A L fs b blk : rep N A (<[b := held1 blk]> L) (cache fs) -> L !! b = None ->
  exists c', on_cache (c_release b) fs = Done (tt, set_cache c' fs) /\ rep N A L c'.
Proof.
  intros R Hb. destruct (release_law N A _ (cache fs) b (held1 blk) R) as (c' & E & _ & R'); [apply lookup_insert_eq|by left|]. exists c'. split; [by apply on_cache_run|].
  cbn in R'. by rewrite delete_insert_id in R'.
Qed.

(** A bitmap is changed and its buffer marked. *)
Lemma bitmap_change_run N A L fs b blk d d' f : rep N A (<[b := held1 blk]> L) (cache fs) -> L !! b = None -> A !! blk = Some d -> f d = Some d' ->
  exists c', (change_bitmap b f ;;; on_cache (c_updated b)) fs = Done (tt, set_cache c' fs) /\ rep N (<[blk := d']> A) (<[b := held1 blk]> L) c'.
Proof.
  intros R Hb Ha Hf. unfold change_bitmap. rewrite kbind_assoc. assert (Hl : (<[b := held1 blk]> L) !! b = Some (held1 blk)) by apply lookup_insert_eq.
  step (on_cache_run _ fs _ _ (data_law N A _ (cache fs) b (held1 blk) d R Hl eq_refl Ha)). rewrite kbind_assoc, Hf. cbn [kopt]. rewrite kbind_kret.
  set (fs0 := set_cache (cache fs) fs). destruct (store_law N A _ (cache fs0) b (held1 blk) d' R Hl eq_refl) as (c1 & E1 & _ & R1). step (on_cache_run _ fs0 _ _ E1).
  set (fs1 := set_cache c1 fs0). destruct (updated_law N _ _ (cache fs1) b (dirtied (held1 blk)) R1) as (c2 & E2 & _ & R2); [apply lookup_insert_eq|done|].
  rewrite (on_cache_run _ fs1 _ _ E2). exists c2. split; [done|]. by rewrite !insert_insert_eq in R2.
Qed.

(** The descriptor of a group is marked. *)
Definition desc_held (L : gmap Z hold) fs (i : Z) : Prop :=
  groupdescs_per_block fs <> 0 /\ exists b h, groupdesc_buffers fs !! Z.to_nat (i / groupdescs_per_block fs) = Some b /\ L !! b = Some h /\ h_dirty h = false /\ h_valid h = true.

Lemma desc_mark_run N A L fs i : rep N A L (cache fs) -> desc_held L fs i ->
  exists c', mark_group_desc_dirty i fs = Done (tt, set_cache c' fs) /\ rep N A L c'.
Proof.
  intros R (Hd & b & h & Hb & Hh & Hdirty & Hv). unfold mark_group_desc_dirty. rewrite kbind_kget. step (udiv_run fs i _ Hd). rewrite Hb. cbn [kopt]. rewrite kbind_kret.
  destruct (updated_law N A L (cache fs) b h R Hh Hv) as (c' & E & _ & R'). exists c'. split; [by apply on_cache_run|].
  replace (marked h) with h in R' by (destruct h; cbn in *; by subst). by rewrite insert_id in R'.
Qed.

(** ** The invariant *)

Fixpoint sum_of (f : blkgroup -> Z) (l : list blkgroup) : Z := match l with [] => 0 | g :: l' => f g + sum_of f l' end.

Record group_ok (k : kind) (A : gmap Z (list Z)) (L : gmap Z hold) (s : superblock) (g : blkgroup) : Prop := {
  go_map : exists d, A !! k_map k (desc g) = Some d /\ bitmap_ok d (k_count k s (desc g)) /\ k_free k (desc g) = zero_count d (k_count k s (desc g));
  go_count : k_count k s (desc g) <= k_per k s;
  go_hint : k_hint k g = NONE \/ 0 <= k_hint k g <= k_count k s (desc g);
  go_unheld : unheld L (k_map k (desc g));
}.

Record fs_wf (N : nat) (A : gmap Z (list Z)) (L : gmap Z hold) fs : Prop := {
  fo_room : roomy N L;
  fo_groups : group_count (super fs) = Z.of_nat (length (groups fs));
  fo_per k : 0 < k_per k (super fs) < 2147483648 /\ Z.of_nat (length (groups fs)) * k_per k (super fs) < W32;
  fo_group k i g : groups fs !! i = Some g -> group_ok k A L (super fs) g;
  fo_apart k1 k2 i1 i2 g1 g2 : groups fs !! i1 = Some g1 -> groups fs !! i2 = Some g2 -> k_map k1 (desc g1) = k_map k2 (desc g2) -> k1 = k2 /\ i1 = i2;
  fo_sum k : k_total k (super fs) = sum_of (fun g => k_free k (desc g)) (groups fs);
  fo_desc i : 0 <= i < Z.of_nat (length (groups fs)) -> desc_held L fs i;
  fo_goal goal : 0 <= goal < block_count (super fs) ->
    exists g, groups fs !! Z.to_nat (goal / blocks_per_group (super fs)) = Some g /\ goal mod blocks_per_group (super fs) < gd_block_count (desc g);
}.

Definition fs_ok (N : nat) (A : gmap Z (list Z)) (L : gmap Z hold) fs : Prop := rep N A L (cache fs) /\ fs_wf N A L fs.

(** The block or inode [x] is free. *)
Definition is_free (k : kind) (A : gmap Z (list Z)) fs (x : Z) : Prop :=
  0 <= x /\ exists g d, groups fs !! Z.to_nat (x / k_per k (super fs)) = Some g /\ A !! k_map k (desc g) = Some d /\
    x mod k_per k (super fs) < k_count k (super fs) (desc g) /\ bit d (x mod k_per k (super fs)) = false.

Lemma sum_of_insert f l i g g' : l !! i = Some g -> sum_of f (<[i := g']> l) = sum_of f l - f g + f g'.
Proof.
  revert i. induction l as [|a l IH]; intros i Hi; [done|]. destruct i as [|i].
  - injection Hi as ->. change (<[0%nat := g']> (g :: l)) with (g' :: l). cbn [sum_of]. lia.
  - change (<[S i := g']> (a :: l)) with (a :: <[i := g']> l). cbn [sum_of]. rewrite (IH i Hi). lia.
Qed.

Lemma sum_of_bound k A L s l : 0 < k_per k s -> (forall i g, l !! i = Some g -> group_ok k A L s g) ->
  0 <= sum_of (fun g => k_free k (desc g)) l <= Z.of_nat (length l) * k_per k s.
Proof.
  intros Hp. induction l as [|g l IH]; intros Hl; [cbn; lia|]. cbn [sum_of length].
  destruct (Hl 0%nat g eq_refl) as [(d & _ & Hb & Hf) Hc _ _]. pose proof (zero_count_bounds d (k_count k s (desc g)) ltac:(destruct Hb; lia)).
  specialize (IH (fun i g => Hl (S i) g)). rewrite Hf. lia.
Qed.

(** ** One bit *)

(** The pool after the bit of a group has been set or cleared. *)
Definition one_more (v : bool) : Z := if v then -1 else 1.

Definition changed_fs (k : kind) fs (c' : C) (i : nat) (g : blkgroup) (v : bool) (hint : Z) : filsys C :=
  Filsys (groupdescs_per_block fs) 1 (k_set_total k (k_total k (super fs) + one_more v) (super fs)) c' (groupdesc_buffers fs)
    (<[i := set_desc (k_set_free k (k_free k (desc g) + one_more v) (desc g)) (k_set_hint k hint g)]> (groups fs)).

Lemma changed_group k fs c' i g v hint i' g' : groups fs !! i = Some g -> groups (changed_fs k fs c' i g v hint) !! i' = Some g' ->
  (i' = i /\ g' = set_desc (k_set_free k (k_free k (desc g) + one_more v) (desc g)) (k_set_hint k hint g)) \/ (i' <> i /\ groups fs !! i' = Some g').
Proof.
  intros Hg. cbn [groups changed_fs]. destruct (decide (i' = i)) as [->|Hne].
  - rewrite list_lookup_insert_eq by (by apply lookup_lt_Some in Hg). intros [= <-]. by left.
  - rewrite list_lookup_insert_ne by done. by right.
Qed.

(** It has the same bitmap block, count and distance as in the pool before. *)
Lemma changed_same k fs c' i g v hint i' g' : groups fs !! i = Some g -> groups (changed_fs k fs c' i g v hint) !! i' = Some g' ->
  exists g0, groups fs !! i' = Some g0 /\ forall j, k_map j (desc g') = k_map j (desc g0) /\ k_count j (super (changed_fs k fs c' i g v hint)) (desc g') = k_count j (super fs) (desc g0).
Proof.
  intros Hg [[-> ->]|[_ Hg']]%(changed_group k fs c' i g v hint i' g' Hg).
  - exists g. split; [done|]. intros j. cbn [desc set_desc super changed_fs]. by rewrite k_map_set, k_count_total, k_count_set.
  - exists g'. split; [done|]. intros j. cbn [super changed_fs]. by rewrite k_count_total.
Qed.

Lemma bit_changed N A L fs k i g d d' n v hint c' :
  fs_wf N A L fs -> groups fs !! i = Some g -> A !! k_map k (desc g) = Some d -> 0 <= n < k_count k (super fs) (desc g) -> bit d n = negb v ->
  bytes_ok d' -> length d' = length d -> (forall j, bit d' j = if j =? n then v else bit d j) -> hint = NONE \/ 0 <= hint <= k_count k (super fs) (desc g) ->
  fs_wf N (<[k_map k (desc g) := d']> A) L (changed_fs k fs c' i g v hint).
Proof.
  intros HF Hg Ha Hn Hv Hd' Hl' Hb Hh. pose proof HF as [Hroom Hlen Hper Hgrp Hap Hsum Hdesc Hgoal]. set (fs' := changed_fs k fs c' i g v hint).
  assert (El : length (groups fs') = length (groups fs)) by apply length_insert. split.
  - done.
  - rewrite El. cbn. by destruct k.
  - intros j. rewrite El. cbn [super fs' changed_fs]. rewrite k_per_set. apply Hper.
  - intros j i' g' Hg'. destruct (changed_group k fs c' i g v hint i' g' Hg Hg') as [[-> ->]|[Hne Hg0]].
    + destruct (Hgrp j i g Hg) as [(dj & Haj & Hbj & Hfj) Hcj Hhj Huj]. cbn [desc set_desc super fs' changed_fs].
      split; cbn [desc set_desc]; rewrite ?k_map_set, ?k_count_total, ?k_count_set, ?k_per_set, ?k_hint_desc, ?k_hint_set; try done.
      2: { destruct (decide (j = k)) as [->|]; [|by rewrite ?k_hint_set]. done. }
      destruct (decide (j = k)) as [->|Hjk].
      * rewrite Haj in Ha. injection Ha as ->. exists d'. rewrite lookup_insert_eq. split; [done|]. split; [by apply (bitmap_same d d' _ n); [| | | |exists v]|].
        rewrite k_free_set, decide_True, Hfj by done. symmetry. destruct v; cbn [one_more negb] in *; [by apply (zero_count_set d d' _ n)|by apply (zero_count_clear d d' _ n)].
      * exists dj. rewrite lookup_insert_ne by (intros E; apply Hjk; symmetry; by apply (Hap k j i i g g)). rewrite k_free_set, decide_False by done. done.
    + destruct (Hgrp j i' g' Hg0) as [(dj & Haj & Hbj & Hfj) Hcj Hhj Huj]. cbn [super fs' changed_fs].
      split; rewrite ?k_count_total, ?k_per_set; try done. exists dj. rewrite lookup_insert_ne; [done|]. intros E. apply Hne. symmetry. by apply (Hap k j i i' g g').
  - intros k1 k2 i1 i2 g1 g2 H1 H2. destruct (changed_same k fs c' i g v hint i1 g1 Hg H1) as (g1' & H1' & E1). destruct (changed_same k fs c' i g v hint i2 g2 Hg H2) as (g2' & H2' & E2).
    rewrite (proj1 (E1 k1)), (proj1 (E2 k2)). by apply (Hap k1 k2 i1 i2 g1' g2').
  - intros j. cbn [super groups fs' changed_fs]. rewrite (sum_of_insert _ _ i g) by done. cbn [desc set_desc]. rewrite k_total_set, k_free_set, <- Hsum. destruct (decide (j = k)) as [->|]; lia.
  - intros j. rewrite El. apply Hdesc.
  - intros goal Hgl. assert (Eb : block_count (super fs') = block_count (super fs) /\ blocks_per_group (super fs') = blocks_per_group (super fs)) by (cbn; by destruct k).
    destruct Eb as [E1 E2]. rewrite E1 in Hgl. rewrite E2. destruct (Hgoal goal Hgl) as (g0 & Hg0 & Hm). cbn [groups fs' changed_fs].
    destruct (decide (Z.to_nat (goal / blocks_per_group (super fs)) = i)) as [E|Hne].
    + rewrite E, list_lookup_insert_eq by (by apply lookup_lt_Some in Hg). eexists. split; [done|]. assert (g0 = g) as -> by congruence. by destruct k.
    + rewrite list_lookup_insert_ne by done. by exists g0.
Qed.

Lemma slot_div per i n : 0 <= n < per -> (n + Z.of_nat i * per) / per = Z.of_nat i /\ (n + Z.of_nat i * per) mod per = n.
Proof. intros Hn. rewrite Z.div_add, Z.mod_add by lia. rewrite Z.div_small, Z.mod_small by lia. lia. Qed.

Lemma slot_eq per x i n : 0 <= n < per -> 0 <= x -> Z.to_nat (x / per) = i -> x mod per = n -> x = n + Z.of_nat i * per.
Proof. intros Hn Hx <- <-. assert (0 <= x / per) by (apply Z.div_pos; lia). rewrite Z2Nat.id by done. pose proof (Z.div_mod x per ltac:(lia)). lia. Qed.

(** What is free after a bit has changed. *)
Lemma free_changed N A L fs k i g d d' n v hint c' j x :
  fs_wf N A L fs -> groups fs !! i = Some g -> A !! k_map k (desc g) = Some d -> 0 <= n < k_count k (super fs) (desc g) ->
  (forall j, bit d' j = if j =? n then v else bit d j) ->
  is_free j (<[k_map k (desc g) := d']> A) (changed_fs k fs c' i g v hint) x <->
  (if decide (j = k /\ x = n + Z.of_nat i * k_per k (super fs)) then v = false else is_free j A fs x).
Proof.
  intros HF Hg Ha Hn Hb. pose proof HF as [_ _ Hper Hgrp Hap _ _ _]. destruct (Hper j) as [Hpj _]. destruct (Hper k) as [Hpk _]. pose proof (go_count _ _ _ _ _ (Hgrp k i g Hg)) as Hck.
  set (fs' := changed_fs k fs c' i g v hint). assert (Ep : k_per j (super fs') = k_per j (super fs)) by (cbn; apply k_per_set). unfold is_free. rewrite Ep.
  set (i' := Z.to_nat (x / k_per j (super fs))). set (m := x mod k_per j (super fs)).
  assert (X : j <> k \/ i' <> i -> (exists g0 d0, groups fs' !! i' = Some g0 /\ <[k_map k (desc g) := d']> A !! k_map j (desc g0) = Some d0 /\ m < k_count j (super fs') (desc g0) /\ bit d0 m = false) <->
    (exists g0 d0, groups fs !! i' = Some g0 /\ A !! k_map j (desc g0) = Some d0 /\ m < k_count j (super fs) (desc g0) /\ bit d0 m = false)).
  { intros Hne. split; intros (g0 & d0 & H1 & H2 & H3 & H4).
    - destruct (changed_same k fs c' i g v hint i' g0 Hg H1) as (g1 & Hg1 & E). destruct (E j) as [E1 E2]. exists g1, d0. rewrite <- E1, <- E2. split_and!; try done.
      rewrite lookup_insert_ne in H2; [done|]. intros Em. rewrite E1 in Em. destruct (Hap k j i i' g g1 Hg Hg1 Em). destruct Hne; congruence.
    - assert (Hlt : (i' < length (groups fs'))%nat) by (cbn; rewrite length_insert; by apply lookup_lt_Some in H1). apply lookup_lt_is_Some in Hlt as [g1 Hg1].
      destruct (changed_same k fs c' i g v hint i' g1 Hg Hg1) as (g2 & Hg2 & E). destruct (E j) as [E1 E2]. assert (g2 = g0) as -> by congruence. exists g1, d0. rewrite E1. unfold fs'. rewrite E2.
      split_and!; try done. rewrite lookup_insert_ne; [done|]. intros Em. destruct (Hap k j i i' g g0 Hg H1 Em). destruct Hne; congruence. }
  destruct (decide (j = k)) as [->|Hjk]; [destruct (decide (i' = i)) as [Ei|Hi]|].
  2: { rewrite (X (or_intror Hi)). rewrite decide_False; [done|]. intros [_ ->]. apply Hi. unfold i'. destruct (slot_div (k_per k (super fs)) i n ltac:(lia)) as [-> _]. lia. }
  2: { rewrite (X (or_introl Hjk)). by rewrite decide_False by tauto. }
  clear X. assert (Hg' : groups fs' !! i' = Some (set_desc (k_set_free k (k_free k (desc g) + one_more v) (desc g)) (k_set_hint k hint g))).
  { rewrite Ei. cbn. by rewrite list_lookup_insert_eq by (by apply lookup_lt_Some in Hg). }
  assert (E : (0 <= x /\ exists g0 d0, groups fs' !! i' = Some g0 /\ <[k_map k (desc g) := d']> A !! k_map k (desc g0) = Some d0 /\ m < k_count k (super fs') (desc g0) /\ bit d0 m = false) <->
    0 <= x /\ m < k_count k (super fs) (desc g) /\ bit d' m = false).
  { split; intros (Hx & H1); (split; [done|]).
    - destruct H1 as (g0 & d0 & H1 & H2 & H3 & H4). rewrite Hg' in H1. injection H1 as <-. cbn [desc set_desc super fs' changed_fs] in *. rewrite k_map_set, lookup_insert_eq in H2. injection H2 as <-.
      rewrite k_count_total, k_count_set in H3. done.
    - eexists _, d'. rewrite Hg'. split; [done|]. cbn [desc set_desc super fs' changed_fs]. rewrite k_map_set, lookup_insert_eq, k_count_total, k_count_set. tauto. }
  rewrite E. clear E. rewrite Hb. assert (Hm : 0 <= m < k_per k (super fs)) by (apply Z.mod_pos_bound; lia). destruct (Z.eqb_spec m n) as [Em|Em].
  - destruct (decide (0 <= x)) as [Hx|Hx].
    + rewrite decide_True by (split; [done|]; by apply slot_eq; [lia|..]). split; [tauto|]. intros. split_and!; [done|lia|done].
    + rewrite decide_False by (intros [_ ->]; apply Hx; lia). split; [lia|tauto].
  - rewrite decide_False by (intros [_ ->]; apply Em; unfold m; destruct (slot_div (k_per k (super fs)) i n ltac:(lia)) as [_ ->]; done). rewrite Ei.
    split; [intros (? & ? & ?); split; [done|]; by exists g, d|]. intros (? & g0 & d0 & H1 & H2 & H3 & H4). assert (g0 = g) as -> by congruence. assert (d0 = d) as -> by congruence. done.
Qed.

(** The counts of the code do not wrap around. *)
Lemma counts_small N A L fs k i g : fs_wf N A L fs -> groups fs !! i = Some g -> is_u32 (k_total k (super fs)) /\ is_u32 (k_free k (desc g)).
Proof.
  intros HF Hg. pose proof HF as [_ _ Hper Hgrp _ Hsum _ _]. destruct (Hper k) as [Hp Hw]. pose proof (sum_of_bound k A L (super fs) (groups fs) ltac:(lia) (Hgrp k)). rewrite <- Hsum in *.
  destruct (Hgrp k i g Hg) as [(d & _ & [_ _ Hb _] & Hf) _ _ _]. pose proof (zero_count_bounds d (k_count k (super fs) (desc g)) ltac:(lia)). unfold is_u32, W32 in *. lia.
Qed.

Lemma desc_held_more L fs i b h : desc_held L fs i -> L !! b = None -> desc_held (<[b := h]> L) fs i.
Proof. intros (Hd & b0 & h0 & H1 & H2 & H3) Hb. split; [done|]. exists b0, h0. rewrite lookup_insert_ne by congruence. done. Qed.

(** A bit of a bitmap whose buffer is held; [f] sets or clears it, [h] is the
    new hint. *)
Definition count_bit (k : kind) (group : Z) (v : bool) (newhint : blkgroup -> Z) : K (filsys C) unit :=
  kmod (fun fs => set_super (k_set_total k (u32 (k_total k (super fs) + one_more v)) (super fs)) fs) ;;;
  upd_group group (fun g => k_set_hint k (newhint g) g) ;;;
  upd_group group (fun g => set_desc (k_set_free k (u32 (k_free k (desc g) + one_more v)) (desc g)) g) ;;;
  mark_group_desc_dirty group.

Lemma count_bit_run N A A' L L' fs k i g d d' n v newhint :
  fs_wf N A L fs -> groups fs !! i = Some g -> A !! k_map k (desc g) = Some d -> 0 <= n < k_count k (super fs) (desc g) -> bit d n = negb v ->
  bytes_ok d' -> length d' = length d -> (forall j, bit d' j = if j =? n then v else bit d j) -> newhint g = NONE \/ 0 <= newhint g <= k_count k (super fs) (desc g) ->
  rep N A' L' (cache fs) -> (forall i, desc_held L fs i -> desc_held L' fs i) ->
  exists c', count_bit k (Z.of_nat i) v newhint fs = Done (tt, changed_fs k fs c' i g v (newhint g)) /\ rep N A' L' c'.
Proof.
  intros HF Hg Ha Hn Hv Hd' Hl' Hb Hh R HL. assert (Hi : Z.to_nat (Z.of_nat i) = i) by lia.
  pose proof (bit_changed N A L fs k i g d d' n v (newhint g) (cache fs) HF Hg Ha Hn Hv Hd' Hl' Hb Hh) as HF'.
  destruct (counts_small N _ L _ k i (set_desc (k_set_free k (k_free k (desc g) + one_more v) (desc g)) (k_set_hint k (newhint g) g)) HF') as [U1 U2].
  { cbn. by rewrite list_lookup_insert_eq by (by apply lookup_lt_Some in Hg). }
  cbn [super changed_fs desc set_desc] in U1, U2. rewrite k_total_set, decide_True in U1 by done. rewrite k_free_set, decide_True in U2 by done.
  unfold count_bit. rewrite kbind_kmod, (u32_small _ U1). set (fs1 := set_super _ fs). rewrite (kbind_done _ _ _ _ _ (upd_group_run fs1 (Z.of_nat i) g _ ltac:(by rewrite Hi))).
  rewrite Hi. set (g1 := k_set_hint k (newhint g) g). set (fs2 := set_groups _ fs1).
  assert (Hg2 : groups fs2 !! Z.to_nat (Z.of_nat i) = Some g1) by (rewrite Hi; cbn; by rewrite list_lookup_insert_eq by (by apply lookup_lt_Some in Hg)).
  step (upd_group_run fs2 (Z.of_nat i) g1 _ Hg2). rewrite Hi. assert (Ed : desc g1 = desc g) by apply k_desc_hint. cbv beta. rewrite Ed, (u32_small _ U2). set (fs3 := set_groups _ fs2).
  destruct (desc_mark_run N A' L' fs3 (Z.of_nat i) R) as (c' & E & R').
  { apply HL, (fo_desc _ _ _ _ HF). apply lookup_lt_Some in Hg. lia. }
  rewrite E. exists c'. split; [|done]. do 2 f_equal. unfold changed_fs, set_cache, fs3, fs2, fs1, set_groups, set_super. cbn. f_equal. by rewrite list_insert_insert_eq.
Qed.

(** [take_block] and [take_inode] are the same code. *)
Definition take_bit (k : kind) (group n buf : Z) : K (filsys C) Z :=
  change_bitmap buf (fun d => set_bit d (s32 n)) ;;;
  on_cache (c_updated buf) ;;;
  kmod (fun fs => set_super (k_set_total k (u32 (k_total k (super fs) - 1)) (super fs)) fs) ;;;
  let* g := get_group group in
  (if k_hint k g =? n then upd_group group (k_set_hint k (u32 (n + 1))) else kret tt) ;;;
  upd_group group (fun g => set_desc (k_set_free k (u32 (k_free k (desc g) - 1)) (desc g)) g) ;;;
  mark_group_desc_dirty group ;;;
  on_cache (c_release buf) ;;;
  let* fs := kget in
  kret (u32 (n + group * k_per k (super fs))).

Lemma take_block_bit : take_block = take_bit Block.
Proof. reflexivity. Qed.

Lemma take_inode_bit : take_inode = take_bit Inode.
Proof. reflexivity. Qed.

Lemma k_hint_same k g : k_set_hint k (k_hint k g) g = g.
Proof. by destruct k, g. Qed.

(** The test of the hint. *)
Lemma hint_step {B} k i (t : blkgroup -> bool) v (rest : K (filsys C) B) fs g : groups fs !! Z.to_nat i = Some g ->
  (let* g := get_group i in (if t g then upd_group i (k_set_hint k v) else kret tt) ;;; rest) fs =
  (upd_group i (fun g => k_set_hint k (if t g then v else k_hint k g) g) ;;; rest) fs.
Proof.
  intros Hg. step (get_group_run fs i g Hg). step (upd_group_run fs i g (fun g => k_set_hint k (if t g then v else k_hint k g) g) Hg). cbv beta. destruct (t g).
  - by step (upd_group_run fs i g _ Hg).
  - rewrite kbind_kret, k_hint_same, list_insert_id by done. by destruct fs.
Qed.

Lemma s32_in d n k : bitmap_ok d n -> 0 <= k <= n -> s32 k = k.
Proof. intros [_ _ Hn _] Hk. apply s32_small. lia. Qed.

Lemma wf_cache N A L fs c : fs_wf N A L fs -> fs_wf N A L (set_cache c fs).
Proof. by intros [? ? ? ? ? ? ? ?]; split. Qed.

(** A zero bit is taken. *)
Lemma take_bit_run N A L fs k i g d n b :
  fs_wf N A L fs -> groups fs !! i = Some g -> A !! k_map k (desc g) = Some d -> 0 <= n < k_count k (super fs) (desc g) -> bit d n = false -> L !! b = None ->
  rep N A (<[b := held1 (k_map k (desc g))]> L) (cache fs) ->
  exists d' c', let hint := if k_hint k g =? n then n + 1 else k_hint k g in
    take_bit k (Z.of_nat i) n b fs = Done (n + Z.of_nat i * k_per k (super fs), changed_fs k fs c' i g true hint) /\
    (forall j, bit d' j = if j =? n then true else bit d j) /\ fs_ok N (<[k_map k (desc g) := d']> A) L (changed_fs k fs c' i g true hint).
Proof.
  intros HF Hg Ha Hn Hz Hb R. pose proof HF as [_ _ Hper Hgrp _ _ Hdesc _]. destruct (Hgrp k i g Hg) as [(d0 & Ha0 & Hbm & Hf) Hc Hh _]. assert (d0 = d) as -> by congruence. clear Ha0.
  destruct (set_bit_spec d n) as (d' & Es & Hok & Hlen & Hbit); [apply Hbm|by apply (bitmap_in d (k_count k (super fs) (desc g)))|].
  set (blk := k_map k (desc g)) in *. destruct (bitmap_change_run N A L fs b blk d d' (fun d => set_bit d (s32 n)) R Hb Ha) as (c1 & E1 & R1); [rewrite (s32_in d (k_count k (super fs) (desc g))); [done|done|lia]|].
  apply kbind_inv in E1 as ([] & q & E1 & E2). unfold take_bit. step E1. step E2. clear E1 E2 q. set (fs1 := set_cache c1 fs). rewrite kbind_kmod. set (fs2 := set_super _ fs1).
  rewrite (hint_step k (Z.of_nat i) (fun g => k_hint k g =? n) _ _ fs2 g) by (by rewrite Nat2Z.id).
  set (newhint := fun g => if k_hint k g =? n then u32 (n + 1) else k_hint k g).
  assert (Hn1 : u32 (n + 1) = n + 1) by (apply u32_small; destruct Hbm as [_ _ Hbd _]; unfold is_u32, W32; lia).
  assert (Hhint : newhint g = NONE \/ 0 <= newhint g <= k_count k (super fs) (desc g)) by (unfold newhint; rewrite Hn1; destruct (k_hint k g =? n); [lia|done]).
  destruct (count_bit_run N A (<[blk := d']> A) L (<[b := held1 blk]> L) fs1 k i g d d' n true newhint (wf_cache _ _ _ _ c1 HF) Hg Ha Hn Hz Hok Hlen Hbit Hhint R1) as (c2 & E3 & R2).
  { intros j Hj. by apply desc_held_more. }
  unfold count_bit in E3. rewrite kbind_kmod in E3. change (set_super _ fs1) with fs2 in E3. apply kbind_inv in E3 as ([] & q1 & E3 & E4). apply kbind_inv in E4 as ([] & q2 & E4 & E5).
  step E3. step E4. step E5. clear E3 E4 E5 q1 q2. set (fs3 := changed_fs k fs1 c2 i g true (newhint g)).
  destruct (cache_release_run N _ L fs3 b blk R2 Hb) as (c3 & E6 & R3). step E6. exists d', c3. cbv zeta.
  replace (if k_hint k g =? n then n + 1 else k_hint k g) with (newhint g) by (unfold newhint; by rewrite Hn1).
  split; [|split; [done|split; [done|by apply (bit_changed N A L fs k i g d d' n true)]]].
  rewrite kbind_kget. cbn [super set_cache fs3 changed_fs]. rewrite k_per_set. unfold kret. do 2 f_equal.
  destruct (Hper k) as [Hp Hw]. apply lookup_lt_Some in Hg. apply u32_small. cbn [super fs1 set_cache]. unfold is_u32. nia.
Qed.

(** The part that [free_blocks] and [free_inode] have in common. *)
Definition give_bit (k : kind) (group n buf : Z) : K (filsys C) unit :=
  change_bitmap buf (fun d => clear_bit d (s32 n)) ;;;
  on_cache (c_updated buf) ;;;
  kmod (fun fs => set_super (k_set_total k (u32 (k_total k (super fs) + 1)) (super fs)) fs) ;;;
  let* g := get_group group in
  (if n <? k_hint k g then upd_group group (k_set_hint k n) else kret tt) ;;;
  upd_group group (fun g => set_desc (k_set_free k (u32 (k_free k (desc g) + 1)) (desc g)) g) ;;;
  mark_group_desc_dirty group.

Lemma give_bit_run N A L fs k i g d n b :
  fs_wf N A L fs -> groups fs !! i = Some g -> A !! k_map k (desc g) = Some d -> 0 <= n < k_count k (super fs) (desc g) -> bit d n = true -> L !! b = None ->
  rep N A (<[b := held1 (k_map k (desc g))]> L) (cache fs) ->
  exists d' c', let hint := if n <? k_hint k g then n else k_hint k g in
    give_bit k (Z.of_nat i) n b fs = Done (tt, changed_fs k fs c' i g false hint) /\ (forall j, bit d' j = if j =? n then false else bit d j) /\
    rep N (<[k_map k (desc g) := d']> A) (<[b := held1 (k_map k (desc g))]> L) c' /\ fs_wf N (<[k_map k (desc g) := d']> A) L (changed_fs k fs c' i g false hint).
Proof.
  intros HF Hg Ha Hn Hz Hb R. pose proof HF as [_ _ Hper Hgrp _ _ Hdesc _]. destruct (Hgrp k i g Hg) as [(d0 & Ha0 & Hbm & Hf) Hc Hh _]. assert (d0 = d) as -> by congruence. clear Ha0.
  destruct (clear_bit_spec d n) as (d' & Es & Hok & Hlen & Hbit); [apply Hbm|by apply (bitmap_in d (k_count k (super fs) (desc g)))|].
  set (blk := k_map k (desc g)) in *. destruct (bitmap_change_run N A L fs b blk d d' (fun d => clear_bit d (s32 n)) R Hb Ha) as (c1 & E1 & R1); [rewrite (s32_in d (k_count k (super fs) (desc g))); [done|done|lia]|].
  apply kbind_inv in E1 as ([] & q & E1 & E2). unfold give_bit. step E1. step E2. clear E1 E2 q. set (fs1 := set_cache c1 fs). rewrite kbind_kmod. set (fs2 := set_super _ fs1).
  rewrite (hint_step k (Z.of_nat i) (fun g => n <? k_hint k g) _ _ fs2 g) by (by rewrite Nat2Z.id). set (newhint := fun g => if n <? k_hint k g then n else k_hint k g).
  assert (Hhint : newhint g = NONE \/ 0 <= newhint g <= k_count k (super fs) (desc g)) by (unfold newhint; destruct (n <? k_hint k g); [lia|done]).
  destruct (count_bit_run N A (<[blk := d']> A) L (<[b := held1 blk]> L) fs1 k i g d d' n false newhint (wf_cache _ _ _ _ c1 HF) Hg Ha Hn Hz Hok Hlen Hbit Hhint R1) as (c2 & E3 & R2).
  { intros j Hj. by apply desc_held_more. }
  unfold count_bit in E3. rewrite kbind_kmod in E3. change (set_super _ fs1) with fs2 in E3. exists d', c2. cbv zeta. change (if n <? k_hint k g then n else k_hint k g) with (newhint g).
  split; [exact E3|]. split; [done|]. split; [done|]. by apply (bit_changed N A L fs k i g d d' n false).
Qed.

(** ** The search *)

(** All bits below the hint are set. *)
Definition hint_ok (k : kind) (A : gmap Z (list Z)) (g : blkgroup) : Prop :=
  k_hint k g = NONE \/ forall d m, A !! k_map k (desc g) = Some d -> 0 <= m < k_hint k g -> bit d m = true.

Definition hints_ok (k : kind) (A : gmap Z (list Z)) fs : Prop := forall i g, groups fs !! i = Some g -> hint_ok k A g.

(** The search in the bitmap [d] of a group. *)
Definition find_bit (k : kind) (group count : Z) (d : list Z) (g : blkgroup) : K (filsys C) Z :=
  if negb (k_hint k g =? NONE) then kopt (find_next_zero_bit d (s32 count) (s32 (k_hint k g)))
  else
    let* b := kopt (find_first_zero_bit d 0 (s32 count)) in
    upd_group group (k_set_hint k (u32 b)) ;;;
    kret b.

Definition with_hint (k : kind) (i : nat) (g : blkgroup) (hint : Z) fs : filsys C := set_groups (<[i := k_set_hint k hint g]> (groups fs)) fs.

Lemma with_hint_same k i g fs : groups fs !! i = Some g -> with_hint k i g (k_hint k g) fs = fs.
Proof. intros Hg. unfold with_hint. rewrite k_hint_same, list_insert_id by done. by destruct fs. Qed.

(** It returns a zero bit, or the count if the hint has hidden all of them; the
    hint is set if it was unknown. *)
Lemma find_bit_run A L fs k i g d :
  group_ok k A L (super fs) g -> groups fs !! i = Some g -> A !! k_map k (desc g) = Some d ->
  let count := k_count k (super fs) (desc g) in
  exists n hint, find_bit k (Z.of_nat i) count d g fs = Done (n, with_hint k i g hint fs) /\ u32 n = n /\ 0 <= n <= count /\ (n < count -> bit d n = false) /\ 0 <= hint <= count /\
    (hint_ok k A g -> (forall m, 0 <= m < hint -> bit d m = true) /\ (n = count -> forall m, 0 <= m < count -> bit d m = true)) /\
    (k_hint k g <> NONE -> hint = k_hint k g /\ hint <= n).
Proof.
  intros [(d0 & Ha0 & Hbm & Hf) Hc Hh _] Hg Ha count. assert (d0 = d) as -> by congruence. clear Ha0. fold count in Hbm, Hf, Hc, Hh. pose proof Hbm as [Hby Hle Hbd Htl].
  assert (Hu : forall n, 0 <= n <= count -> u32 n = n) by (intros n Hn; apply u32_small; unfold is_u32, W32; lia).
  unfold find_bit. rewrite (s32_in d count count Hbm) by lia. destruct (Z.eqb_spec (k_hint k g) NONE) as [En|En]; cbn [negb].
  - destruct (find_first_first d count Hby ltac:(lia) Hle Htl) as (r & E & Hr0 & Hr & _ & _ & _ & H1 & H2). rewrite E. cbn [kopt]. rewrite kbind_kret.
    rewrite (kbind_done _ _ _ _ _ (upd_group_run fs (Z.of_nat i) g _ ltac:(by rewrite Nat2Z.id))), Nat2Z.id, (Hu r) by lia. exists r, r. split; [done|]. split_and!; try done; [by apply Hu|].
    intros _. split; [done|]. intros ->. done.
  - destruct Hh as [?|Hh]; [done|]. rewrite (s32_in d count (k_hint k g) Hbm) by lia. destruct (find_next_first d count (k_hint k g) Hby ltac:(lia) ltac:(lia) Hle Htl) as (r & E & Hr & _ & Hs & He & H1 & H2).
    rewrite E. cbn [kopt]. exists r, (k_hint k g). rewrite with_hint_same by done. assert (0 <= r) by (destruct (Z.lt_ge_cases (k_hint k g) count); [lia|rewrite He by lia; lia]).
    split; [done|]. split_and!; try done; [by apply Hu; lia|lia|lia| |intros _; split; [done|]; destruct (Z.lt_ge_cases (k_hint k g) count); lia].
    intros [?|Ho]; [done|]. split; [intros m Hm; by apply (Ho d m)|].
    intros -> m Hm. destruct (Z.lt_ge_cases m (k_hint k g)); [apply (Ho d m); [done|lia]|]. apply H1. lia.
Qed.

(** Only hints and the cache differ. *)
Definition same_fs fs fs' : Prop :=
  super fs' = super fs /\ groupdescs_per_block fs' = groupdescs_per_block fs /\ groupdesc_buffers fs' = groupdesc_buffers fs /\ desc <$> groups fs' = desc <$> groups fs.

Lemma same_refl fs : same_fs fs fs.
Proof. done. Qed.

Lemma same_trans fs1 fs2 fs3 : same_fs fs1 fs2 -> same_fs fs2 fs3 -> same_fs fs1 fs3.
Proof. unfold same_fs. intuition congruence. Qed.

Lemma same_cache fs c : same_fs fs (set_cache c fs).
Proof. done. Qed.

Lemma same_group fs fs' i g' : same_fs fs fs' -> groups fs' !! i = Some g' -> exists g, groups fs !! i = Some g /\ desc g' = desc g.
Proof.
  intros (_ & _ & _ & E) Hg'. assert (E' : (desc <$> groups fs) !! i = Some (desc g')) by (rewrite <- E, list_lookup_fmap, Hg'; done).
  rewrite list_lookup_fmap in E'. destruct (groups fs !! i) as [g|]; [|done]. injection E' as E'. exists g. split; [done|congruence].
Qed.

Lemma same_sym fs fs' : same_fs fs fs' -> same_fs fs' fs.
Proof. unfold same_fs. intuition congruence. Qed.

Lemma same_length fs fs' : same_fs fs fs' -> length (groups fs') = length (groups fs).
Proof. intros (_ & _ & _ & E). by rewrite <- (length_fmap desc (groups fs')), E, length_fmap. Qed.

Lemma same_free k A fs fs' x : same_fs fs fs' -> is_free k A fs x <-> is_free k A fs' x.
Proof.
  assert (X : forall fs fs', same_fs fs fs' -> is_free k A fs x -> is_free k A fs' x).
  { intros f f' HS (Hx & g & d & H1 & H2 & H3 & H4). pose proof HS as (Es & _). destruct (same_group f' f _ g (same_sym _ _ HS) H1) as (g' & Hg' & Ed).
    split; [done|]. exists g', d. rewrite Es, <- Ed. done. }
  intros HS. split; apply X; [done|by apply same_sym].
Qed.

Lemma sum_desc (f : groupdesc -> Z) l l' : desc <$> l' = desc <$> l -> sum_of (fun g => f (desc g)) l' = sum_of (fun g => f (desc g)) l.
Proof. revert l'. induction l as [|g l IH]; intros [|g' l'] E; try done. injection E as E1 E2. cbn [sum_of]. by rewrite E1, (IH l' E2). Qed.

(** The invariant, for hints in their range. *)
Lemma wf_same N A L fs fs' : fs_wf N A L fs -> same_fs fs fs' ->
  (forall k i g, groups fs' !! i = Some g -> k_hint k g = NONE \/ 0 <= k_hint k g <= k_count k (super fs) (desc g)) -> fs_wf N A L fs'.
Proof.
  intros [H1 H2 H3 H4 H5 H6 H7 H8] HS Hh. pose proof HS as (Es & Eg & Eb & Ed). pose proof (same_length _ _ HS) as El. split.
  - done.
  - by rewrite Es, El.
  - intros k. rewrite Es, El. apply H3.
  - intros k i g Hg. destruct (same_group _ _ _ _ HS Hg) as (g0 & Hg0 & E0). destruct (H4 k i g0 Hg0) as [K1 K2 K3 K4]. rewrite Es. split; rewrite ?E0; try done. rewrite <- E0. by apply (Hh k i).
  - intros k1 k2 i1 i2 g1 g2 G1 G2. destruct (same_group _ _ _ _ HS G1) as (g1' & G1' & ->). destruct (same_group _ _ _ _ HS G2) as (g2' & G2' & ->). by apply H5.
  - intros k. rewrite Es, H6. symmetry. by apply (sum_desc (k_free k)).
  - intros i. rewrite El. unfold desc_held. rewrite Eg, Eb. apply H7.
  - intros goal. rewrite Es. intros Hg. destruct (H8 goal Hg) as (g & Hg1 & Hg2). destruct (same_group _ _ _ _ (same_sym _ _ HS) Hg1) as (g' & Hg' & E'). exists g'. by rewrite <- E'.
Qed.

Lemma same_hint k i g hint fs : groups fs !! i = Some g -> same_fs fs (with_hint k i g hint fs).
Proof. intros Hg. split_and!; try done. cbn. rewrite list_fmap_insert, k_desc_hint. apply list_insert_id. by rewrite list_lookup_fmap, Hg. Qed.

Lemma with_hint_group k i g hint fs i' g' : groups fs !! i = Some g -> groups (with_hint k i g hint fs) !! i' = Some g' ->
  (i' = i /\ g' = k_set_hint k hint g) \/ (i' <> i /\ groups fs !! i' = Some g').
Proof.
  intros Hg. cbn. destruct (decide (i' = i)) as [->|Hne].
  - rewrite list_lookup_insert_eq by (by apply lookup_lt_Some in Hg). intros [= <-]. by left.
  - rewrite list_lookup_insert_ne by done. by right.
Qed.

Lemma wf_hint N A L fs k i g hint : fs_wf N A L fs -> groups fs !! i = Some g -> 0 <= hint <= k_count k (super fs) (desc g) -> fs_wf N A L (with_hint k i g hint fs).
Proof.
  intros HF Hg Hh. apply (wf_same N A L fs _ HF (same_hint k i g hint fs Hg)). intros j i' g' [[-> ->]|[_ Hg']]%(with_hint_group k i g hint fs i' g' Hg).
  - rewrite k_hint_set, k_desc_hint. destruct (decide (j = k)) as [->|]; [by right|]. apply (fo_group _ _ _ _ HF j i g Hg).
  - apply (fo_group _ _ _ _ HF j i' g' Hg').
Qed.

Lemma hints_with k j A fs i g hint d : hints_ok j A fs -> groups fs !! i = Some g -> A !! k_map k (desc g) = Some d -> (hint_ok k A g -> forall m, 0 <= m < hint -> bit d m = true) ->
  hints_ok j A (with_hint k i g hint fs).
Proof.
  intros HO Hg Ha Hb i' g' Hg'. destruct (with_hint_group k i g hint fs i' g' Hg Hg') as [[-> ->]|[_ Hg0]]; [|by apply (HO i')].
  unfold hint_ok. rewrite k_desc_hint, k_hint_set. destruct (decide (j = k)) as [->|]; [|by apply (HO i)].
  right. intros d0 m Hd Hm. assert (d0 = d) as -> by congruence. apply Hb; [by apply (HO i)|done].
Qed.

(** The hint of group [i] is known and is at least [h]. *)
Definition hint_kept (k : kind) (i : nat) (h : Z) fs : Prop := exists g, groups fs !! i = Some g /\ k_hint k g <> NONE /\ h <= k_hint k g.

Lemma kept_with k i g hint fs j i' h : groups fs !! i = Some g -> (k_hint k g <> NONE -> hint = k_hint k g) -> hint_kept j i' h fs -> hint_kept j i' h (with_hint k i g hint fs).
Proof.
  intros Hg Hh (g' & Hg' & Hn & Hle). unfold hint_kept. cbn. destruct (decide (i' = i)) as [->|Hne]; [|exists g'; by rewrite list_lookup_insert_ne].
  assert (g' = g) as -> by congruence. rewrite list_lookup_insert_eq by (by apply lookup_lt_Some in Hg). eexists. split; [done|]. rewrite k_hint_set. destruct (decide (j = k)) as [->|]; [|done].
  by rewrite (Hh Hn).
Qed.

(** A zero bit that has been found; the buffer of its bitmap is held. *)
Definition located (N : nat) (k : kind) (A : gmap Z (list Z)) (L : gmap Z hold) fs (group n buf : Z) : Prop :=
  exists i g d, group = Z.of_nat i /\ groups fs !! i = Some g /\ A !! k_map k (desc g) = Some d /\ 0 <= n < k_count k (super fs) (desc g) /\ bit d n = false /\
    L !! buf = None /\ rep N A (<[buf := held1 (k_map k (desc g))]> L) (cache fs).

Definition full (k : kind) (A : gmap Z (list Z)) fs (i : nat) : Prop :=
  forall g d m, groups fs !! i = Some g -> A !! k_map k (desc g) = Some d -> 0 <= m < k_count k (super fs) (desc g) -> bit d m = true.

Lemma full_same k A fs fs' i : same_fs fs fs' -> full k A fs' i -> full k A fs i.
Proof.
  intros HS Hf g d m Hg Ha Hm. destruct (same_group _ _ _ _ (same_sym _ _ HS) Hg) as (g' & Hg' & E). pose proof HS as (Es & _). apply (Hf g' d m Hg'); [by rewrite <- E|by rewrite Es, <- E].
Qed.

(** Bitmaps can always be read. *)
Definition reliable : Prop := forall N A L c blk b c', rep N A L c -> roomy N L -> usable L blk -> is_Some (A !! blk) -> c_get blk c = Done (b, c') -> b <> 0.

(** What a search has done. *)
Definition search_post (N : nat) (A : gmap Z (list Z)) (L : gmap Z hold) fs fs' (t : found_block) : Prop :=
  same_fs fs fs' /\ fs_wf N A L fs' /\ (forall j, hints_ok j A fs -> hints_ok j A fs') /\ (forall j i h, hint_kept j i h fs -> hint_kept j i h fs') /\
  match t with
  | Found group n buf => located N Block A L fs' group n buf
  | _ => rep N A L (cache fs')
  end.

Lemma hints_cache k A fs c : hints_ok k A fs -> hints_ok k A (set_cache c fs).
Proof. done. Qed.

Lemma search_refl N A L fs c t : fs_wf N A L fs -> rep N A L c -> (forall g n b, t <> Found g n b) -> search_post N A L fs (set_cache c fs) t.
Proof. intros HF R Ht. split; [done|]. split; [by apply wf_cache|]. split; [done|]. split; [done|]. destruct t; [done|by destruct (Ht group block buf)|done]. Qed.

Lemma next_group_run fs i : group_count (super fs) = Z.of_nat (length (groups fs)) -> (i < length (groups fs))%nat -> Z.of_nat (length (groups fs)) < W32 ->
  next_group (Z.of_nat i) (group_count (super fs)) = Z.of_nat ((i + 1) mod length (groups fs)).
Proof.
  intros -> Hi Hw. unfold next_group. rewrite u32_small by (unfold is_u32; lia). destruct (Z.leb_spec (Z.of_nat (length (groups fs))) (Z.of_nat i + 1)) as [Hle|Hlt].
  - replace (i + 1)%nat with (length (groups fs)) by lia. by rewrite Nat.Div0.mod_same.
  - rewrite Nat.mod_small by lia. lia.
Qed.

Lemma groups_bound N A L fs : fs_wf N A L fs -> Z.of_nat (length (groups fs)) < W32.
Proof. intros HF. destruct (fo_per _ _ _ _ HF Block) as [Hp Hw]. nia. Qed.

Lemma group_map N A L fs k i g : fs_wf N A L fs -> groups fs !! i = Some g -> exists d, A !! k_map k (desc g) = Some d.
Proof. intros HF Hg. destruct (fo_group _ _ _ _ HF k i g Hg) as [(d & Ha & _) _ _ _]. by exists d. Qed.

(** A group without free blocks is full. *)
Lemma no_free_full N A L fs k i g : fs_wf N A L fs -> groups fs !! i = Some g -> k_free k (desc g) <= 0 -> full k A fs i.
Proof.
  intros HF Hg Hz g0 d m Hg0 Ha Hm. assert (g0 = g) as -> by congruence. destruct (fo_group _ _ _ _ HF k i g Hg) as [(d0 & Ha0 & _ & Hf) _ _ _]. assert (d0 = d) as -> by congruence.
  destruct (bit d m) eqn:E; [done|]. assert (0 < zero_count d (k_count k (super fs) (desc g))) by (apply zero_count_pos; by exists m). lia.
Qed.

(** The bitmap of a group is read and searched. *)
Lemma search_one N A L fs k i g : fs_ok N A L fs -> groups fs !! i = Some g ->
  exists b c, on_cache (c_get (k_map k (desc g))) fs = Done (b, set_cache c fs) /\
    ((b = 0 /\ rep N A L c /\ ~ reliable) \/
     (b <> 0 /\ exists d n hint, let fs' := with_hint k i g hint (set_cache c fs) in
       on_cache (c_data b) (set_cache c fs) = Done (d, set_cache c fs) /\ find_bit k (Z.of_nat i) (k_count k (super fs) (desc g)) d g (set_cache c fs) = Done (n, fs') /\
       u32 n = n /\ fs_wf N A L fs' /\ (forall j, hints_ok j A fs -> hints_ok j A fs') /\ L !! b = None /\ rep N A (<[b := held1 (k_map k (desc g))]> L) c /\
       (n <> k_count k (super fs) (desc g) -> located N k A L fs' (Z.of_nat i) n b) /\ (n = k_count k (super fs) (desc g) -> hints_ok k A fs -> full k A fs i) /\
       (k_hint k g <> NONE -> hint = k_hint k g /\ hint <= n))).
Proof.
  intros [R HF] Hg. pose proof (fo_group _ _ _ _ HF k i g Hg) as HG. pose proof HG as [(d & Ha & _) _ _ Hun].
  destruct (cache_get_run N A L fs _ R (fo_room _ _ _ _ HF) Hun (mk_is_Some _ _ Ha)) as (b & c & E & Hcase). exists b, c. split; [done|].
  destruct Hcase as [[-> R0]|(Hb & HbL & R')].
  { left. split; [done|]. split; [done|]. intros Hrel. by apply (Hrel N A L (cache fs) _ 0 c R (fo_room _ _ _ _ HF) (unheld_usable _ _ Hun) (mk_is_Some _ _ Ha) (on_cache_inv _ _ _ _ E)). }
  right. split; [done|]. set (fs0 := set_cache c fs).
  destruct (find_bit_run A L fs0 k i g d HG Hg Ha) as (n & hint & Ef & Hu & Hn & Hz & Hh & Ho & Hge). exists d, n, hint. cbv zeta.
  assert (Ed : on_cache (c_data b) fs0 = Done (d, fs0)).
  { rewrite (on_cache_run (c_data b) fs0 d c); [done|]. by apply (data_law N A (<[b := held1 (k_map k (desc g))]> L) c b (held1 (k_map k (desc g))) d); [|apply lookup_insert_eq|..]. }
  split; [done|]. split; [done|]. split; [done|]. split; [by apply wf_hint; [apply wf_cache| |]|]. split.
  { intros j HO. apply (hints_with k j A fs0 i g hint d HO Hg Ha), Ho. }
  split; [done|]. split; [done|]. split_and!; [| |exact Hge].
  - intros Hne. exists i, (k_set_hint k hint g), d. rewrite k_desc_hint. split; [done|]. split; [cbn; by rewrite list_lookup_insert_eq by (by apply lookup_lt_Some in Hg)|].
    change (super (with_hint k i g hint fs0)) with (super fs). change (super fs0) with (super fs) in *. split; [done|]. split; [lia|]. split; [apply Hz; lia|done].
  - intros Hn' HO g0 d0 m Hg0 Ha0 Hm. assert (g0 = g) as -> by congruence. assert (d0 = d) as -> by congruence. apply Ho; [by apply (HO i)|done|done].
Qed.

(** A search that went on from a state that is the same. *)
Lemma search_trans N A L fs fs1 fs' t : same_fs fs fs1 -> (forall j, hints_ok j A fs -> hints_ok j A fs1) -> (forall j i h, hint_kept j i h fs -> hint_kept j i h fs1) ->
  search_post N A L fs1 fs' t -> search_post N A L fs fs' t.
Proof. intros HS HO HP (HS' & HF & HO' & HP' & Hm). split; [by apply (same_trans _ fs1)|]. split_and!; auto. Qed.

Lemma shift_group (i j len : nat) : (((i + 1) mod len + j) mod len = (i + S j) mod len)%nat.
Proof. rewrite Nat.Div0.add_mod_idemp_l. f_equal. lia. Qed.

Lemma search_groups_run N A L n : forall fs i, fs_ok N A L fs -> (i < length (groups fs))%nat ->
  exists t fs', search_groups n (Z.of_nat i) fs = Done (t, fs') /\ search_post N A L fs fs' t /\ (forall g, t <> SearchFrom g) /\
    (reliable -> hints_ok Block A fs -> t = NotFound -> forall j, (j < n)%nat -> full Block A fs ((i + j) mod length (groups fs))) /\
    (forall i0 h m b, hint_kept Block i0 h fs -> t = Found (Z.of_nat i0) m b -> h <= m).
Proof.
  induction n as [|n IH]; intros fs i [R HF] Hi.
  { exists NotFound, fs. split; [done|]. split; [|split; [done|split; [lia|done]]]. destruct fs. by apply (search_refl N A L (Filsys _ _ _ _ _ _)). }
  destruct (lookup_lt_is_Some_2 _ _ Hi) as [g Hg]. assert (HgZ : groups fs !! Z.to_nat (Z.of_nat i) = Some g) by (by rewrite Nat2Z.id).
  pose proof (fo_groups _ _ _ _ HF) as Hlen. set (i' := ((i + 1) mod length (groups fs))%nat).
  assert (Hi' : (i' < length (groups fs))%nat) by (apply Nat.mod_upper_bound; lia).
  cbn [search_groups]. rewrite kbind_kget. step (get_group_run fs _ g HgZ). rewrite (next_group_run fs i Hlen Hi (groups_bound _ _ _ _ HF)). fold i'.
  destruct (Z.ltb_spec 0 (gd_free_block_count (desc g))) as [Hfree|Hfree]; last first.
  { destruct (IH fs i' (conj R HF) Hi') as (t & fs' & E & HP & Hns & Hfull & Hlow). exists t, fs'. split; [done|]. split; [done|]. split; [done|]. split; [|done]. intros Hrel HO Ht [|j] Hj.
    - rewrite Nat.add_0_r, Nat.mod_small by done. by apply (no_free_full N A L fs Block i g).
    - rewrite <- shift_group. fold i'. apply Hfull; [done..|lia]. }
  destruct (search_one N A L fs Block i g (conj R HF) Hg) as (b & c & E & Hcase). step E. destruct Hcase as [(-> & R1 & Hrel)|(Hb & d & m & hint & Hone)].
  { exists NotFound, (set_cache c fs). split; [done|]. split; [by apply search_refl|]. split; [done|]. split; done. }
  destruct Hone as (Ed & Ef & Hu & HF1 & HO1 & HbL & R1 & Hloc & Hnf & Hge). destruct (Z.eqb_spec b 0) as [?|_]; [done|]. step Ed. step (get_group_run (set_cache c fs) _ g HgZ).
  unfold find_bit in Ef. cbn [k_hint k_set_hint k_count] in Ef. step Ef. rewrite Hu. set (fs1 := with_hint Block i g hint (set_cache c fs)) in *.
  assert (HS1 : same_fs fs fs1) by (by apply (same_trans _ (set_cache c fs)), same_hint).
  assert (HP1 : forall j i h, hint_kept j i h fs -> hint_kept j i h fs1) by (intros j i0 h; apply (kept_with Block i g hint (set_cache c fs) j i0 h Hg); intros Hne; by apply Hge).
  destruct (Z.eqb_spec m (gd_block_count (desc g))) as [Em|Em]; cbn [negb]; last first.
  { exists (Found (Z.of_nat i) m b), fs1. split; [done|]. split; [split; [done|]; split; [done|]; split; [done|]; split; [done|]; by apply Hloc|]. split; [done|]. split; [done|].
    intros i0 h m' b' (g' & Hg' & Hn' & Hle) [= Ei <- <-]. assert (i0 = i) as -> by lia. assert (g' = g) as -> by congruence. destruct (Hge Hn') as [-> ?]. cbn [k_hint] in *. lia. }
  destruct (cache_release_run N A L fs1 b _ R1 HbL) as (c2 & E2 & R2). step E2. assert (HF2 := wf_cache _ _ _ _ c2 HF1). set (fs2 := set_cache c2 fs1) in *.
  assert (HS2 : same_fs fs fs2) by exact HS1. assert (El : length (groups fs2) = length (groups fs)) by apply length_insert.
  destruct (IH fs2 i' (conj R2 HF2)) as (t & fs' & E' & HP & Hns & Hfull & Hlow); [lia|]. exists t, fs'. split; [done|]. split; [by apply (search_trans N A L fs fs2)|]. split; [done|].
  split; [|intros i0 h m' b' Hk; apply Hlow; by apply (HP1 Block)].
  intros Hrel HO Ht [|j] Hj; [rewrite Nat.add_0_r, Nat.mod_small by done; by apply Hnf|]. rewrite <- shift_group. fold i'. rewrite <- El.
  apply (full_same _ _ fs fs2); [done|]. apply Hfull; [done|by apply HO1|done|lia].
Qed.

(** ** Blocks and inodes are taken *)

(** The hints stay right if the new one is. *)
Lemma hints_changed N A L fs k i g d d' n v hint c' j :
  fs_wf N A L fs -> groups fs !! i = Some g -> A !! k_map k (desc g) = Some d -> (forall m, bit d' m = if m =? n then v else bit d m) ->
  (hint_ok k A g -> hint = NONE \/ forall m, 0 <= m < hint -> bit d' m = true) ->
  hints_ok j A fs -> hints_ok j (<[k_map k (desc g) := d']> A) (changed_fs k fs c' i g v hint).
Proof.
  intros HF Hg Ha Hb Hh HO i' g' Hg'. pose proof (fo_apart _ _ _ _ HF) as Hap. destruct (changed_group k fs c' i g v hint i' g' Hg Hg') as [[-> ->]|[Hne Hg0]].
  - unfold hint_ok. cbn [desc set_desc]. rewrite k_hint_desc, k_hint_set, k_map_set. destruct (decide (j = k)) as [->|Hjk].
    + destruct (Hh (HO i g Hg)) as [?|Hm]; [by left|]. right. intros d0 m. rewrite lookup_insert_eq. intros [= <-]. apply Hm.
    + rewrite lookup_insert_ne by (intros E; apply Hjk; symmetry; by apply (Hap k j i i g g)). by apply (HO i g).
  - unfold hint_ok. rewrite lookup_insert_ne by (intros E; apply Hne; symmetry; by apply (Hap k j i i' g g')). by apply (HO i').
Qed.

(** [x] is a block or an inode of the device. *)
Definition counts (k : kind) fs : list Z := (fun g => k_count k (super fs) (desc g)) <$> groups fs.

Definition valid (k : kind) fs (x : Z) : Prop := 0 <= x /\ exists n, counts k fs !! Z.to_nat (x / k_per k (super fs)) = Some n /\ x mod k_per k (super fs) < n.

Lemma valid_group k fs x : valid k fs x -> exists g, groups fs !! Z.to_nat (x / k_per k (super fs)) = Some g /\ x mod k_per k (super fs) < k_count k (super fs) (desc g).
Proof. intros (Hx & n & Hn & Hm). unfold counts in Hn. rewrite list_lookup_fmap in Hn. destruct (groups fs !! _) as [g|]; [|done]. injection Hn as <-. by exists g. Qed.

Lemma free_valid k A fs x : is_free k A fs x -> valid k fs x.
Proof. intros (Hx & g & d & Hg & _ & Hm & _). split; [done|]. unfold counts. rewrite list_lookup_fmap, Hg. eexists. done. Qed.

Lemma valid_changed k fs c' i g v hint j x : groups fs !! i = Some g -> valid j (changed_fs k fs c' i g v hint) x <-> valid j fs x.
Proof.
  intros Hg. unfold valid. cbn [super changed_fs]. rewrite k_per_set. replace (counts j (changed_fs k fs c' i g v hint)) with (counts j fs); [done|]. symmetry. unfold counts. cbn [super groups changed_fs].
  rewrite list_fmap_insert. cbn [desc set_desc]. rewrite k_count_total, k_count_set. rewrite (list_fmap_ext _ (fun g => k_count j (super fs) (desc g)) _) by (intros; apply k_count_total).
  apply list_insert_id. by rewrite list_lookup_fmap, Hg.
Qed.

Lemma valid_same k fs fs' x : same_fs fs fs' -> valid k fs' x <-> valid k fs x.
Proof. intros (E1 & _ & _ & E2). unfold valid, counts. rewrite E1. change (fun g => k_count k (super fs) (desc g)) with (k_count k (super fs) ∘ desc). by rewrite !list_fmap_compose, E2. Qed.

(** The blocks of the bitmaps. *)
Definition maps fs : list (Z * Z) := (fun g => (k_map Block (desc g), k_map Inode (desc g))) <$> groups fs.

(** What never changes. *)
Definition shape fs : Z * list Z * Z * Z * list (Z * Z) := (groupdescs_per_block fs, groupdesc_buffers fs, blocks_per_group (super fs), inodes_per_group (super fs), maps fs).

Lemma shape_same fs fs' : same_fs fs fs' -> shape fs' = shape fs.
Proof. intros (E1 & E2 & E3 & E). unfold shape. rewrite E1, E2, E3. f_equal. unfold maps. change (fun g => (k_map Block (desc g), k_map Inode (desc g))) with ((fun e => (k_map Block e, k_map Inode e)) ∘ desc). by rewrite !list_fmap_compose, E. Qed.

(** [x] has been taken, and nothing else has changed. *)
Record taken (k : kind) (N : nat) (A A' : gmap Z (list Z)) (L : gmap Z hold) fs fs' (x : Z) : Prop := {
  tk_was : is_free k A fs x;
  tk_ok : fs_ok N A' L fs';
  tk_free j y : is_free j A' fs' y <-> is_free j A fs y /\ ~ (j = k /\ y = x);
  tk_frame blk : (forall i g, groups fs !! i = Some g -> blk <> k_map k (desc g)) -> A' !! blk = A !! blk;
  tk_hints j : hints_ok j A fs -> hints_ok j A' fs';
  tk_small : x < NOBLOCK;
  tk_valid j y : valid j fs' y <-> valid j fs y;
  tk_shape : shape fs' = shape fs;
  tk_kept j i h : hint_kept j i h fs -> hint_kept j i h fs';
}.

Lemma located_free N k A L fs i g d n : fs_wf N A L fs -> groups fs !! i = Some g -> A !! k_map k (desc g) = Some d -> 0 <= n < k_count k (super fs) (desc g) -> bit d n = false ->
  is_free k A fs (n + Z.of_nat i * k_per k (super fs)).
Proof.
  intros HF Hg Ha Hn Hz. pose proof (go_count _ _ _ _ _ (fo_group _ _ _ _ HF k i g Hg)) as Hc. destruct (slot_div (k_per k (super fs)) i n ltac:(lia)) as [E1 E2].
  split; [nia|]. rewrite E1, E2, Nat2Z.id. exists g, d. split_and!; [done|done|lia|done].
Qed.

Lemma slot_small N A L fs k i g n : fs_wf N A L fs -> groups fs !! i = Some g -> 0 <= n < k_count k (super fs) (desc g) -> n + Z.of_nat i * k_per k (super fs) < NOBLOCK.
Proof.
  intros HF Hg Hn. pose proof (go_count _ _ _ _ _ (fo_group _ _ _ _ HF k i g Hg)) as Hc. destruct (fo_per _ _ _ _ HF k) as [Hp Hw]. apply lookup_lt_Some in Hg. unfold NOBLOCK, W32 in *. nia.
Qed.

Lemma changed_shape k fs c' i g v hint : groups fs !! i = Some g ->
  shape (changed_fs k fs c' i g v hint) = shape fs.
Proof. intros Hg. unfold shape. replace (maps (changed_fs k fs c' i g v hint)) with (maps fs); [by destruct k|]. symmetry. unfold maps. cbn [groups changed_fs]. rewrite list_fmap_insert. cbn [desc set_desc]. rewrite !k_map_set. apply list_insert_id. by rewrite list_lookup_fmap, Hg. Qed.

(** A bit that has been found is taken. *)
Lemma take_located N k A L fs group n buf : fs_wf N A L fs -> located N k A L fs group n buf ->
  exists x fs' A', take_bit k group n buf fs = Done (x, fs') /\ taken k N A A' L fs fs' x /\ x / k_per k (super fs) = group /\ x mod k_per k (super fs) = n.
Proof.
  intros HF (i & g & d & -> & Hg & Ha & Hn & Hz & Hb & R). destruct (take_bit_run N A L fs k i g d n buf HF Hg Ha Hn Hz Hb R) as (d' & c' & E & Hbit & Hok). cbv zeta in *.
  set (hint := if k_hint k g =? n then n + 1 else k_hint k g) in *.
  pose proof (go_count _ _ _ _ _ (fo_group _ _ _ _ HF k i g Hg)) as Hc. destruct (slot_div (k_per k (super fs)) i n ltac:(lia)) as [Ed Em].
  do 3 eexists. split; [exact E|]. split; [|done]. split.
  - by apply (located_free N k A L fs i g d).
  - exact Hok.
  - intros j y. rewrite (free_changed N A L fs k i g d d' n true hint c' j y HF Hg Ha Hn Hbit). destruct (decide _); naive_solver.
  - intros blk Hblk. rewrite lookup_insert_ne by (intros E'; by apply (Hblk i g)). done.
  - intros j. apply (hints_changed N A L fs k i g d d' n true hint c' j HF Hg Ha Hbit). unfold hint. intros [En|Ho].
    + left. destruct (Z.eqb_spec (k_hint k g) n) as [E'|]; [|done]. pose proof (slot_small N A L fs k i g n HF Hg Hn). destruct (fo_per _ _ _ _ HF k). unfold NOBLOCK, NONE, W32 in *. nia.
    + right. intros m Hm. rewrite Hbit. destruct (Z.eqb_spec m n); [done|]. apply (Ho d m Ha). destruct (Z.eqb_spec (k_hint k g) n); lia.
  - by apply (slot_small N A L fs k i g).
  - intros j y. by apply valid_changed.
  - by apply changed_shape.
  - intros j i0 h (g0 & Hg0 & Hne & Hle). unfold hint_kept. cbn [groups changed_fs]. destruct (decide (i0 = i)) as [->|Hni]; [|exists g0; by rewrite list_lookup_insert_ne].
    assert (g0 = g) as -> by congruence. rewrite list_lookup_insert_eq by (by apply lookup_lt_Some in Hg). eexists. split; [done|]. rewrite k_hint_desc, k_hint_set. destruct (decide (j = k)) as [->|]; [|done].
    unfold hint. destruct (Z.eqb_spec (k_hint k g) n) as [En|]; [|done]. pose proof (slot_small N A L fs k i g n HF Hg Hn). destruct (fo_per _ _ _ _ HF k). split; [unfold NOBLOCK, NONE, W32 in *; nia|lia].
Qed.

(** ... from a state that was the same before the search. *)
Lemma taken_same k N A A' L fs fs1 fs' x : same_fs fs fs1 -> (forall j, hints_ok j A fs -> hints_ok j A fs1) -> (forall j i h, hint_kept j i h fs -> hint_kept j i h fs1) -> taken k N A A' L fs1 fs' x -> taken k N A A' L fs fs' x.
Proof.
  intros HS HO HP [H1 H2 H3 H4 H5 H6 H8 H7 H9]. split; [by apply (same_free k A fs fs1)|done| | | |done| | |].
  - intros j y. rewrite H3. by rewrite (same_free j A fs fs1).
  - intros blk Hblk. apply H4. intros i g Hg. destruct (same_group _ _ _ _ HS Hg) as (g0 & Hg0 & ->). by apply (Hblk i).
  - intros j Hj. by apply H5, HO.
  - intros j y. by rewrite H8, (valid_same j fs fs1).
  - by rewrite H7, (shape_same fs fs1).
  - intros j i h Hk. by apply H9, HP.
Qed.

(** The goal. *)
Lemma try_goal_run N A L fs goal : fs_ok N A L fs -> 0 <= goal ->
  exists t fs', try_goal goal fs = Done (t, fs') /\ search_post N A L fs fs' t /\ (t = NotFound -> ~ reliable) /\
    (forall group, t = SearchFrom group -> group = 0 \/ exists i, group = Z.of_nat i /\ (i < length (groups fs))%nat) /\
    (forall group n b, t = Found group n b -> goal / blocks_per_group (super fs) = group /\ goal mod blocks_per_group (super fs) <= n).
Proof.
  intros [R HF] Hg0. unfold try_goal. rewrite kbind_kget. destruct (Z.ltb_spec goal (block_count (super fs))) as [Hlt|Hge]; last first.
  { exists (SearchFrom 0), fs. split; [done|]. split; [|split; [done|split; [intros ? [= <-]; by left|done]]]. destruct fs. by apply (search_refl N A L (Filsys _ _ _ _ _ _)). }
  destruct (fo_goal _ _ _ _ HF goal ltac:(lia)) as (g & Hg & Hm). destruct (fo_per _ _ _ _ HF Block) as [Hp _]. cbn [k_per] in Hp. set (per := blocks_per_group (super fs)) in *.
  step (udiv_run fs goal per ltac:(lia)). step (umod_run fs goal per ltac:(lia)). step (get_group_run fs (goal / per) g Hg).
  assert (Hi : goal / per = Z.of_nat (Z.to_nat (goal / per))) by (rewrite Z2Nat.id; [done|]; apply Z.div_pos; lia). set (i := Z.to_nat (goal / per)) in *. rewrite Hi.
  assert (Hb0 : 0 <= goal mod per < gd_block_count (desc g)) by (pose proof (Z.mod_pos_bound goal per ltac:(lia)); lia). set (block := goal mod per) in *.
  destruct (search_one N A L fs Block i g (conj R HF) Hg) as (b & c & E & Hcase). step E. destruct Hcase as [(-> & R1 & Hrel)|(Hb & d & _ & _ & Ed & _ & _ & _ & _ & HbL & R1 & _)].
  { exists NotFound, (set_cache c fs). split; [done|]. split; [by apply search_refl|]. split; [done|]. split; done. }
  destruct (Z.eqb_spec b 0) as [?|_]; [done|]. step Ed. set (fs1 := set_cache c fs) in *. pose proof (fo_group _ _ _ _ HF Block i g Hg) as [(d0 & Ha & Hbm & _) _ _ _].
  assert (d0 = d) as ->. { apply (on_cache_inv (c_data b) fs1 d c) in Ed. cbn [cache fs1 set_cache] in Ed. rewrite (data_law N A _ c b (held1 (k_map Block (desc g))) d0 R1 (lookup_insert_eq _ _ _) eq_refl Ha) in Ed. congruence. }
  assert (Hloc : forall n, 0 <= n < gd_block_count (desc g) -> bit d n = false -> search_post N A L fs fs1 (Found (Z.of_nat i) n b)).
  { intros n Hn Hz. split; [done|]. split; [by apply wf_cache|]. split; [done|]. split; [done|]. exists i, g, d. done. }
  cbn [k_count] in Hbm. pose proof Hbm as [Hby Hle Hbd Htl]. rewrite !(s32_in d (gd_block_count (desc g))) by (done || lia). rewrite (test_bit_spec d block Hby (bitmap_in d _ block Hbm Hb0)). cbn [kopt]. rewrite kbind_kret.
  destruct (bit d block) eqn:Hbit; cbn [negb]; [|exists (Found (Z.of_nat i) block b), fs1; split; [done|]; split; [by apply Hloc|split; [done|split; [done|by intros ? ? ? [= <- <- _]]]]].
  step (get_group_run fs1 (Z.of_nat i) g ltac:(by rewrite Nat2Z.id)). destruct (find_next_first d (gd_block_count (desc g)) (block + 1) Hby ltac:(lia) ltac:(lia) Hle Htl) as (r & Er & Hr & _ & Hs & He & H1 & H2).
  rewrite !(s32_in d (gd_block_count (desc g))) by (done || lia). rewrite Er. cbn [kopt]. rewrite kbind_kret. assert (0 <= r) by (destruct (Z.lt_ge_cases (block + 1) (gd_block_count (desc g))); [lia|rewrite He by lia; lia]).
  rewrite (u32_small r) by (unfold is_u32, W32; lia). destruct (Z.eqb_spec r (gd_block_count (desc g))) as [Er'|Er']; cbn [negb]; [|exists (Found (Z.of_nat i) r b), fs1; split; [done|]; split; [apply Hloc; [lia|apply H2; lia]|split; [done|split; [done|intros ? ? ? [= <- <- _]; split; [done|lia]]]]].
  destruct (cache_release_run N A L fs1 b _ R1 HbL) as (c2 & E2 & R2). step E2. exists (SearchFrom (Z.of_nat i)), (set_cache c2 fs). split; [done|]. split; [by apply search_refl|].
  split; [done|]. split; [|done]. intros ? [= <-]. right. exists i. split; [done|]. by apply lookup_lt_Some in Hg.
Qed.

(** Nothing is free if all groups are full. *)
Lemma full_none k A fs : (forall i, (i < length (groups fs))%nat -> full k A fs i) -> 0 < k_per k (super fs) -> forall x, ~ is_free k A fs x.
Proof.
  intros Hf Hp x (Hx & g & d & Hg & Ha & Hm & Hz). pose proof (lookup_lt_Some _ _ _ Hg) as Hlt. pose proof (Z.mod_pos_bound x _ Hp). rewrite (Hf _ Hlt g d _ Hg Ha) in Hz by lia. done.
Qed.

(** The groups that a full round visits. *)
Lemma round_all i j len : (i < len)%nat -> (j < len)%nat -> exists m, (m < len)%nat /\ ((i + m) mod len = j)%nat.
Proof.
  intros Hi Hj. destruct (Nat.le_gt_cases i j) as [Hle|Hgt].
  - exists (j - i)%nat. split; [lia|]. replace (i + (j - i))%nat with j by lia. by apply Nat.mod_small.
  - exists (j + len - i)%nat. split; [lia|]. replace (i + (j + len - i))%nat with (j + 1 * len)%nat by lia. rewrite Nat.Div0.mod_add. by apply Nat.mod_small.
Qed.

(** What [new_block] and [new_inode] do: nothing, or something free is taken. *)
Definition new_post (k : kind) (none : Z) (N : nat) (A A' : gmap Z (list Z)) (L : gmap Z hold) fs fs' (r : Z) : Prop :=
  (r = none /\ A' = A /\ same_fs fs fs' /\ fs_ok N A L fs' /\ (forall j, hints_ok j A fs -> hints_ok j A fs') /\ forall j i h, hint_kept j i h fs -> hint_kept j i h fs') \/ (r <> none /\ taken k N A A' L fs fs' r).

Lemma post_take k N A L fs fs1 group n buf none : NOBLOCK <= none -> same_fs fs fs1 -> fs_wf N A L fs1 -> (forall j, hints_ok j A fs -> hints_ok j A fs1) -> (forall j i h, hint_kept j i h fs -> hint_kept j i h fs1) -> located N k A L fs1 group n buf ->
  exists r fs' A', take_bit k group n buf fs1 = Done (r, fs') /\ new_post k none N A A' L fs fs' r /\ r <> none /\ r / k_per k (super fs) = group /\ r mod k_per k (super fs) = n.
Proof.
  intros Hnone HS HF HO HP Hloc. destruct (take_located N k A L fs1 group n buf HF Hloc) as (x & fs' & A' & E & HT & Hd & Hm). exists x, fs', A'. split; [done|].
  pose proof (tk_small _ _ _ _ _ _ _ _ HT) as Hx. pose proof HS as [Es _]. rewrite Es in Hd, Hm. split; [|split_and!; [lia|done|done]]. right. split; [lia|]. by apply (taken_same k N A A' L fs fs1).
Qed.

Lemma new_block_run N A L fs goal : fs_ok N A L fs -> 0 <= goal ->
  exists r fs' A', new_block goal fs = Done (r, fs') /\ new_post Block NOBLOCK N A A' L fs fs' r /\
    (reliable -> hints_ok Block A fs -> r = NOBLOCK -> forall x, ~ is_free Block A fs x) /\
    (forall i h, hint_kept Block i h fs -> ~ (goal / blocks_per_group (super fs) = Z.of_nat i /\ goal mod blocks_per_group (super fs) < h) ->
       r = NOBLOCK \/ ~ (r / blocks_per_group (super fs) = Z.of_nat i /\ r mod blocks_per_group (super fs) < h)).
Proof.
  intros HK Hg. pose proof HK as [R HF]. destruct (try_goal_run N A L fs goal HK Hg) as (t & fs1 & E & (HS & HF1 & HO & HKp & Ht) & Hnf & Hfrom & Hgoal). unfold new_block. step E. destruct t as [|group block buf|group].
  - exists NOBLOCK, fs1, A. split; [done|]. split; [left; done|]. split; [intros Hrel; by destruct (Hnf eq_refl)|intros; by left].
  - rewrite take_block_bit. destruct (post_take Block N A L fs fs1 group block buf NOBLOCK ltac:(lia) HS HF1 HO HKp Ht) as (r & fs' & A' & E' & HP & Hr & Hd & Hm). exists r, fs', A'. split; [done|]. split; [done|]. split; [done|].
    destruct (Hgoal _ _ _ eq_refl) as [Eg Hle]. cbn [k_per] in *. intros i h _ Hng. right. rewrite Hd, Hm, <- Eg. intros [? ?]. apply Hng. split; [done|lia].
  - rewrite kbind_kget. pose proof (fo_groups _ _ _ _ HF1) as Hlen. pose proof (same_length _ _ HS) as El. rewrite Hlen, Nat2Z.id. destruct (fo_per _ _ _ _ HF Block) as [Hp _].
    destruct (decide (length (groups fs1) = 0%nat)) as [E0|Hne].
    { rewrite E0. exists NOBLOCK, fs1, A. split; [done|]. split; [left; done|]. split; [intros _ _ _; apply full_none; [lia|lia]|intros; by left]. }
    assert (Hi : exists i, group = Z.of_nat i /\ (i < length (groups fs1))%nat) by (destruct (Hfrom group eq_refl) as [->|(i & -> & ?)]; [exists 0%nat|exists i]; split; (done || lia)).
    destruct Hi as (i & -> & Hi). destruct (search_groups_run N A L (length (groups fs1)) fs1 i (conj Ht HF1) Hi) as (t & fs2 & E2 & (HS2 & HF2 & HO2 & HKp2 & Ht2) & Hns & Hfull & Hlow). step E2.
    assert (HS' : same_fs fs fs2) by (by apply (same_trans _ fs1)). destruct t as [|group block buf|group]; [| |by destruct (Hns group)].
    + exists NOBLOCK, fs2, A. split; [done|]. split; [left; split_and!; auto; by split|]. split; [|intros; by left]. intros Hrel Hh _. apply full_none; [|lia]. intros j Hj. rewrite <- El in Hj. destruct (round_all i j _ Hi Hj) as (m & Hm & <-).
      apply (full_same _ _ fs fs1 _ HS). apply Hfull; auto.
    + rewrite take_block_bit. destruct (post_take Block N A L fs fs2 group block buf NOBLOCK ltac:(lia) HS' HF2 ltac:(auto) ltac:(auto) Ht2) as (r & fs' & A' & E' & HP & Hr & Hd & Hm). exists r, fs', A'. split; [done|]. split; [done|]. split; [done|].
      cbn [k_per] in *. intros i0 h Hkp _. right. rewrite Hd, Hm. intros [-> Hlt]. specialize (Hlow i0 h block buf (HKp _ _ _ Hkp) eq_refl). lia.
Qed.

(** ** Blocks and inodes are given back *)

Definition in_use (k : kind) (A : gmap Z (list Z)) fs (x : Z) : Prop := valid k fs x /\ ~ is_free k A fs x.

Definition hints_known (k : kind) fs : Prop := forall i g, groups fs !! i = Some g -> k_hint k g <> NONE.

(** The hint of group [i] after the [xs] have been given back: the least. *)
Definition low_hint (per : Z) (i : nat) (h : Z) (xs : list Z) : Z :=
  foldl (fun h x => if decide (Z.to_nat (x / per) = i) then Z.min h (x mod per) else h) h xs.

(** The [xs] have been given back, and nothing else has changed. *)
Record freed (k : kind) (N : nat) (A A' : gmap Z (list Z)) (L : gmap Z hold) fs fs' (xs : list Z) : Prop := {
  fr_wf : fs_wf N A' L fs';
  fr_free j y : is_free j A' fs' y <-> is_free j A fs y \/ (j = k /\ y ∈ xs);
  fr_frame blk : (forall i g, groups fs !! i = Some g -> blk <> k_map k (desc g)) -> A' !! blk = A !! blk;
  fr_hints j : hints_known k fs -> hints_known k fs' /\ (hints_ok j A fs -> hints_ok j A' fs');
  fr_valid j y : valid j fs' y <-> valid j fs y;
  fr_shape : shape fs' = shape fs;
  fr_low i g : groups fs !! i = Some g -> exists g', groups fs' !! i = Some g' /\ k_hint k g' = low_hint (k_per k (super fs)) i (k_hint k g) xs;
}.

Lemma map_kept fs fs' i g : shape fs' = shape fs ->
  groups fs' !! i = Some g -> exists g0, groups fs !! i = Some g0 /\ forall k, k_map k (desc g) = k_map k (desc g0).
Proof.
  intros E Hg. assert (E' := f_equal (fun s => s.2 !! i) E). cbn in E'. unfold maps in E'. rewrite !list_lookup_fmap, Hg in E'. destruct (groups fs !! i) as [g0|]; [|done]. injection E' as E1 E2.
  exists g0. split; [done|]. by intros [].
Qed.

Lemma freed_nil k N A L fs : fs_wf N A L fs -> freed k N A A L fs fs [].
Proof. intros HF. split; try done; [|intros i g Hg; by exists g]. intros j y. split; [by left|]. intros [?|[_ []%elem_of_nil]]. done. Qed.

Lemma freed_from k N A A' L fs fs' xs c : freed k N A A' L (set_cache c fs) fs' xs -> freed k N A A' L fs fs' xs.
Proof. intros [H1 H2 H3 H4 H5 H6 H7]. split; [exact H1|exact H2|exact H3|exact H4|exact H5|exact H6|exact H7]. Qed.

Lemma freed_to k N A A' L fs fs' xs c : freed k N A A' L fs fs' xs -> freed k N A A' L fs (set_cache c fs') xs.
Proof. intros [H1 H2 H3 H4 H5 H6 H7]. split; [by apply wf_cache|exact H2|exact H3|exact H4|exact H5|exact H6|exact H7]. Qed.

Lemma shape_per k fs fs' : shape fs' = shape fs -> k_per k (super fs') = k_per k (super fs).
Proof. intros E. injection E as E1 E2 E3 E4 E5. by destruct k. Qed.

Lemma freed_app k N A1 A2 A3 L fs1 fs2 fs3 xs ys : freed k N A1 A2 L fs1 fs2 xs -> freed k N A2 A3 L fs2 fs3 ys -> freed k N A1 A3 L fs1 fs3 (xs ++ ys).
Proof.
  intros [H1 H2 H3 H4 H5 H6 H7] [G1 G2 G3 G4 G5 G6 G7]. split; [done| | | | | |].
  - intros j y. rewrite G2, H2, elem_of_app. naive_solver.
  - intros blk Hblk. rewrite G3; [by apply H3|]. intros i g Hg. destruct (map_kept fs1 fs2 i g H6 Hg) as (g0 & Hg0 & ->). by apply (Hblk i).
  - intros j HK. destruct (H4 j HK) as [HK2 HO2]. destruct (G4 j HK2) as [HK3 HO3]. auto.
  - intros j y. by rewrite G5, H5.
  - by rewrite G6, H6.
  - intros i g Hg. destruct (H7 i g Hg) as (g2 & Hg2 & E2). destruct (G7 i g2 Hg2) as (g3 & Hg3 & E3). exists g3. split; [done|]. rewrite E3, E2, (shape_per k fs1 fs2 H6). unfold low_hint. by rewrite foldl_app.
Qed.

(** What is in use has its bit set. *)
Lemma in_use_bit N A L fs k x : fs_wf N A L fs -> in_use k A fs x ->
  let i := Z.to_nat (x / k_per k (super fs)) in let n := x mod k_per k (super fs) in
  exists g d, groups fs !! i = Some g /\ A !! k_map k (desc g) = Some d /\ 0 <= n < k_count k (super fs) (desc g) /\ bit d n = true /\ x = n + Z.of_nat i * k_per k (super fs) /\ x / k_per k (super fs) = Z.of_nat i.
Proof.
  intros HF [Hv Hnf] i n. destruct (valid_group k fs x Hv) as (g & Hg & Hm). destruct (group_map N A L fs k i g HF Hg) as [d Ha]. destruct (fo_per _ _ _ _ HF k) as [Hp _]. destruct Hv as [Hx _].
  pose proof (Z.mod_pos_bound x (k_per k (super fs)) ltac:(lia)). exists g, d. split; [done|]. split; [done|]. split; [unfold n; lia|]. split.
  - destruct (bit d n) eqn:E; [done|]. destruct Hnf. split; [done|]. by exists g, d.
  - split; [apply slot_eq; [lia|done|done|done]|]. unfold i. rewrite Z2Nat.id; [done|]. apply Z.div_pos; lia.
Qed.

Lemma give_freed N A L fs k x b : fs_wf N A L fs -> in_use k A fs x ->
  let i := Z.to_nat (x / k_per k (super fs)) in let n := x mod k_per k (super fs) in
  forall g, groups fs !! i = Some g -> L !! b = None -> rep N A (<[b := held1 (k_map k (desc g))]> L) (cache fs) ->
  exists A' fs', give_bit k (x / k_per k (super fs)) n b fs = Done (tt, fs') /\ freed k N A A' L fs fs' [x] /\ rep N A' (<[b := held1 (k_map k (desc g))]> L) (cache fs').
Proof.
  intros HF Hu i n g Hg Hb R. destruct (in_use_bit N A L fs k x HF Hu) as (g0 & d & Hg0 & Ha & Hn & Hz & Ex & Ei). fold i n in Hg0, Hn, Hz, Ex, Ei. assert (g0 = g) as -> by congruence.
  rewrite Ei. destruct (give_bit_run N A L fs k i g d n b HF Hg Ha Hn Hz Hb R) as (d' & c' & E & Hbit & R' & HF'). cbv zeta in *. set (hint := if n <? k_hint k g then n else k_hint k g) in *.
  do 2 eexists. split; [exact E|]. split; [|exact R']. split.
  - exact HF'.
  - intros j y. rewrite (free_changed N A L fs k i g d d' n false hint c' j y HF Hg Ha Hn Hbit), list_elem_of_singleton, <- Ex. destruct (decide _); naive_solver.
  - intros blk Hblk. rewrite lookup_insert_ne by (intros E'; by apply (Hblk i g)). done.
  - intros j HK. split.
    + intros i' g' Hg'. destruct (changed_group k fs c' i g false hint i' g' Hg Hg') as [[-> ->]|[Hne Hg'']]; [|by apply (HK i')]. rewrite k_hint_desc, k_hint_set, decide_True by done.
      specialize (HK i g Hg). unfold hint. destruct (Z.ltb_spec n (k_hint k g)); [|done]. pose proof (slot_small N A L fs k i g n HF Hg Hn). destruct (fo_per _ _ _ _ HF k). unfold NOBLOCK, NONE, W32 in *. nia.
    + apply (hints_changed N A L fs k i g d d' n false hint c' j HF Hg Ha Hbit). intros [?|Ho]; [by destruct (HK i g Hg)|]. right. intros m Hm. rewrite Hbit.
      unfold hint in Hm. destruct (Z.ltb_spec n (k_hint k g)); destruct (Z.eqb_spec m n); try lia; apply (Ho d m Ha); lia.
  - intros j y. by apply valid_changed.
  - by apply changed_shape.
  - intros i0 g1 Hg1. cbn [groups changed_fs low_hint foldl]. fold i n. destruct (decide (i = i0)) as [<-|Hne].
    + assert (g1 = g) as -> by congruence. rewrite list_lookup_insert_eq by (by apply lookup_lt_Some in Hg). eexists. split; [done|]. rewrite k_hint_desc, k_hint_set, decide_True by done. unfold hint. destruct (Z.ltb_spec n (k_hint k g)); lia.
    + exists g1. by rewrite list_lookup_insert_ne.
Qed.

(** The buffer that [free_blocks] has in its loop. *)
Definition holding (N : nat) (A : gmap Z (list Z)) (L : gmap Z hold) fs (prev buf : Z) : Prop :=
  (prev = NONE /\ buf = 0 /\ rep N A L (cache fs)) \/
  (exists i g, prev = Z.of_nat i /\ groups fs !! i = Some g /\ buf <> 0 /\ L !! buf = None /\ rep N A (<[buf := held1 (k_map Block (desc g))]> L) (cache fs)).

Lemma holding_release N A L fs prev buf : holding N A L fs prev buf ->
  exists c, (if negb (buf =? 0) then on_cache (c_release buf) else kret tt) fs = Done (tt, set_cache c fs) /\ rep N A L c.
Proof.
  intros [(-> & -> & R)|(i & g & -> & Hg & Hb & HbL & R)].
  - exists (cache fs). split; [|done]. by destruct fs.
  - destruct (Z.eqb_spec buf 0) as [?|_]; [done|]. by apply cache_release_run with (k_map Block (desc g)).
Qed.

(** The bitmap of the next block is fetched unless it is there. *)
Lemma fetch_run N A L fs prev buf i g : fs_wf N A L fs -> holding N A L fs prev buf -> groups fs !! i = Some g ->
  exists b c, (if negb (Z.of_nat i =? prev) then
       (if negb (buf =? 0) then on_cache (c_release buf) else kret tt) ;;;
       let* g := get_group (Z.of_nat i) in on_cache (c_get (block_bitmap_block (desc g)))
     else kret buf) fs = Done (b, set_cache c fs) /\
    ((negb (Z.of_nat i =? prev) && (b =? 0) = true /\ rep N A L c /\ ~ reliable) \/
     (negb (Z.of_nat i =? prev) && (b =? 0) = false /\ b <> 0 /\ L !! b = None /\ rep N A (<[b := held1 (k_map Block (desc g))]> L) c)).
Proof.
  intros HF HH Hg. destruct (Z.eqb_spec (Z.of_nat i) prev) as [Ei|Hne]; cbn [negb andb].
  - exists buf, (cache fs). split; [by destruct fs|]. right. split; [done|]. pose proof (groups_bound _ _ _ _ HF). pose proof (lookup_lt_Some _ _ _ Hg).
    destruct HH as [(E & _)|(i0 & g0 & E & Hg0 & Hb & HbL & R)]; [destruct (fo_per _ _ _ _ HF Block); unfold NONE, W32 in *; nia|]. assert (i0 = i) as -> by lia. assert (g0 = g) as -> by congruence. done.
  - destruct (holding_release N A L fs prev buf HH) as (c0 & E0 & R0). step E0. set (fs0 := set_cache c0 fs). step (get_group_run fs0 (Z.of_nat i) g ltac:(by rewrite Nat2Z.id)).
    destruct (search_one N A L fs0 Block i g (conj R0 (wf_cache _ _ _ _ c0 HF)) Hg) as (b & c & E & Hcase). exists b, c. split; [exact E|].
    destruct Hcase as [(-> & R1 & Hrel)|(Hb & d & _ & _ & _ & _ & _ & _ & _ & HbL & R1 & _)]; [by left|]. right. by destruct (Z.eqb_spec b 0).
Qed.

Lemma give_block_seq {B} group n buf (rest : K (filsys C) B) fs :
  (change_bitmap buf (fun d => clear_bit d (s32 n)) ;;;
   on_cache (c_updated buf) ;;;
   kmod (fun fs => set_super (set_free_block_count (u32 (free_block_count (super fs) + 1)) (super fs)) fs) ;;;
   let* g := get_group group in
   (if n <? first_free_block g then upd_group group (set_first_free_block n) else kret tt) ;;;
   upd_group group (fun g => set_desc (set_gd_free_blocks (u32 (gd_free_block_count (desc g) + 1)) (desc g)) g) ;;;
   mark_group_desc_dirty group ;;;
   rest) fs = (give_bit Block group n buf ;;; rest) fs.
Proof. unfold give_bit. repeat (rewrite kbind_assoc; apply kbind_next; intros ? ?). done. Qed.

Lemma in_use_freed k N A A' L fs fs' x y : freed k N A A' L fs fs' [x] -> in_use k A fs y -> y <> x -> in_use k A' fs' y.
Proof. intros HR [Hv Hn] Hne. split; [by apply (fr_valid _ _ _ _ _ _ _ _ HR)|]. rewrite (fr_free _ _ _ _ _ _ _ _ HR), list_elem_of_singleton. naive_solver. Qed.

Lemma free_loop_run N L xs : forall A fs prev buf, fs_wf N A L fs -> holding N A L fs prev buf -> Forall (in_use Block A fs) xs -> NoDup xs ->
  exists ok b fs' A' m prev', free_loop xs prev buf fs = Done ((ok, b), fs') /\ freed Block N A A' L fs fs' (take m xs) /\ holding N A' L fs' prev' b /\ (reliable -> (length xs <= m)%nat).
Proof.
  induction xs as [|x xs IH]; intros A fs prev buf HF HH Hu Hnd.
  { exists true, buf, fs, A, 0%nat, prev. split; [done|]. split; [by apply freed_nil|]. split; [done|]. cbn. lia. }
  apply NoDup_cons in Hnd as [Hx Hnd]. apply Forall_cons in Hu as [Hux Hu]. destruct (in_use_bit N A L fs Block x HF Hux) as (g & d & Hg & Ha & Hn & Hz & Ex & Ei).
  cbn [free_loop]. rewrite kbind_kget. destruct (fo_per _ _ _ _ HF Block) as [Hp _]. cbn [k_per] in *. set (per := blocks_per_group (super fs)) in *. set (i := Z.to_nat (x / per)) in *. set (n := x mod per) in *.
  step (udiv_run fs x per ltac:(lia)). step (umod_run fs x per ltac:(lia)). rewrite Ei. fold n. destruct (fetch_run N A L fs prev buf i g HF HH Hg) as (b & c & E & Hcase). step E.
  destruct Hcase as [(Eb & R1 & Hrel)|(Eb & Hb & HbL & R1)]; rewrite Eb.
  { exists false, 0, (set_cache c fs), A, 0%nat, NONE. split; [done|]. split; [by apply freed_to, freed_nil|]. split; [by left|done]. }
  destruct (give_freed N A L (set_cache c fs) Block x b (wf_cache _ _ _ _ c HF) Hux g Hg HbL R1) as (A1 & fs1 & E1 & HR & R2). cbn [k_per] in E1. change (super (set_cache c fs)) with (super fs) in E1. fold per in E1.
  rewrite Ei in E1. fold n in E1. rewrite give_block_seq. step E1.
  assert (HH1 : holding N A1 L fs1 (Z.of_nat i) b).
  { right. assert (El : length (groups fs1) = length (groups fs)) by (assert (E0 := f_equal (fun s => length s.2) (fr_shape _ _ _ _ _ _ _ _ HR)); cbn in E0; unfold maps in E0; by rewrite !length_fmap in E0).
    destruct (lookup_lt_is_Some_2 (groups fs1) i) as [g1 Hg1]; [rewrite El; by apply lookup_lt_Some in Hg|]. destruct (map_kept (set_cache c fs) fs1 i g1 (fr_shape _ _ _ _ _ _ _ _ HR) Hg1) as (g0 & Hg0 & Em).
    assert (g0 = g) as -> by (cbn in Hg0; congruence). exists i, g1. rewrite Em. done. }
  destruct (IH A1 fs1 (Z.of_nat i) b (fr_wf _ _ _ _ _ _ _ _ HR) HH1) as (ok & b' & fs' & A' & m & prev' & E' & HR' & HH' & Hm); [|done|].
  { apply list.Forall_forall. intros y Hy. rewrite list.Forall_forall in Hu. apply (in_use_freed Block N A A1 L (set_cache c fs) fs1 x y HR); [by apply Hu|]. intros ->. done. }
  exists ok, b', fs', A', (S m), prev'. split; [done|]. split; [|split; [done|intros Hrel; cbn; specialize (Hm Hrel); lia]].
  apply (freed_app Block N A A1 A' L fs fs1 fs' [x] (take m xs)); [|done]. by apply freed_from with c.
Qed.

Lemma free_blocks_run N A L fs xs : fs_ok N A L fs -> Forall (in_use Block A fs) xs -> NoDup xs ->
  exists fs' A' m, free_blocks xs fs = Done (tt, fs') /\ freed Block N A A' L fs fs' (take m xs) /\ rep N A' L (cache fs') /\ (reliable -> take m xs = xs).
Proof.
  intros [R HF] Hu Hnd. destruct (free_loop_run N L xs A fs NONE 0 HF ltac:(by left) Hu Hnd) as (ok & b & fs1 & A' & m & prev & E & HR & HH & Hm). unfold free_blocks. step E. cbn [snd].
  destruct (holding_release N A' L fs1 prev b HH) as (c & E1 & R1). rewrite E1. exists (set_cache c fs1), A', m. split; [done|]. split; [by apply freed_to|]. split; [done|]. intros Hrel. by apply take_ge, Hm.
Qed.

(** ** Inodes *)

Lemma get_inode_group fs i g : groups fs !! i = Some g -> get_group (Z.of_nat i) fs = Done (g, fs).
Proof. intros Hg. apply get_group_run. by rewrite Nat2Z.id. Qed.

(** The choice of a group for a directory: if it has found one that has free
    inodes. *)
Definition choice fs (group : Z) : Prop := group = NONE \/ exists i g, group = Z.of_nat i /\ groups fs !! i = Some g /\ gd_free_inode_count (desc g) <> 0.

Definition candidate (ave : Z) (g : blkgroup) : bool := negb (gd_free_inode_count (desc g) =? 0) && (ave <=? gd_free_inode_count (desc g)).

Lemma better_run fs ave i gi group : groups fs !! i = Some gi -> Z.of_nat i <> NONE -> choice fs group ->
  exists group', (if candidate ave gi then (if group =? NONE then kret (Z.of_nat i) else (let* g := get_group group in kret (if gd_free_block_count (desc g) <? gd_free_block_count (desc gi) then Z.of_nat i else group)))
      else kret group) fs = Done (group', fs) /\ choice fs group' /\ (group' = NONE -> group = NONE /\ candidate ave gi = false).
Proof.
  intros Hgi Hi Hc. destruct (candidate ave gi) eqn:Ec; [|by exists group]. assert (Hci : choice fs (Z.of_nat i)).
  { right. exists i, gi. split; [done|]. split; [done|]. unfold candidate in Ec. destruct (Z.eqb_spec (gd_free_inode_count (desc gi)) 0); done. }
  destruct (Z.eqb_spec group NONE) as [->|Hne]; [by exists (Z.of_nat i)|]. destruct Hc as [?|(k & g & -> & Hg & Hf)]; [done|]. step (get_inode_group fs k g Hg).
  eexists. split; [done|]. destruct (_ <? _); [done|]. split; [|done]. right. by exists k, g.
Qed.

Lemma best_group_run fs ave n : forall i group, (i + n = length (groups fs))%nat -> Z.of_nat (length (groups fs)) < W32 -> choice fs group ->
  exists group', best_group n ave (Z.of_nat i) group fs = Done (group', fs) /\ choice fs group' /\
    (group' = NONE -> group = NONE /\ forall j g, (i <= j)%nat -> groups fs !! j = Some g -> candidate ave g = false).
Proof.
  induction n as [|n IH]; intros i group Hn Hw Hc.
  { exists group. split; [done|]. split; [done|]. intros ->. split; [done|]. intros j g Hj Hg. apply lookup_lt_Some in Hg. lia. }
  destruct (lookup_lt_is_Some_2 (groups fs) i ltac:(lia)) as [gi Hgi]. cbn [best_group]. step (get_inode_group fs i gi Hgi). replace (Z.of_nat i + 1) with (Z.of_nat (S i)) by lia.
  destruct (better_run fs ave i gi group Hgi) as (group1 & E1 & Hc1 & Hn1); [unfold NONE, W32 in *; lia|done|]. unfold candidate in E1. step E1.
  destruct (IH (S i) group1 ltac:(lia) Hw Hc1) as (group' & E' & Hc' & Hn'). exists group'. split; [done|]. split; [done|]. intros ->. destruct (Hn' eq_refl) as [-> Hrest]. destruct (Hn1 eq_refl) as [-> Hi].
  split; [done|]. intros j g Hj Hg. destruct (decide (j = i)) as [->|]; [by assert (g = gi) as -> by congruence|]. apply (Hrest j); [lia|done].
Qed.

(** Some group has at least the average. *)
Lemma average_reached (f : blkgroup -> Z) l ave : 0 < ave -> (forall g, g ∈ l -> 0 <= f g < ave) -> l <> [] -> sum_of f l < ave * Z.of_nat (length l).
Proof.
  intros Ha. induction l as [|g l IH]; [done|]. intros Hl _. pose proof (Hl g ltac:(by left)). destruct l as [|g' l]; [cbn in *; lia|].
  assert (sum_of f (g' :: l) < ave * Z.of_nat (length (g' :: l))) by (apply IH; [|done]; intros y Hy; apply Hl; by right). cbn [sum_of length] in *. lia.
Qed.

(** A directory gets a group with free inodes if there is one. *)
Lemma no_candidate N A L fs : fs_wf N A L fs -> groups fs <> [] -> (forall j g, groups fs !! j = Some g -> candidate (free_inode_count (super fs) / group_count (super fs)) g = false) ->
  forall j g, groups fs !! j = Some g -> gd_free_inode_count (desc g) = 0.
Proof.
  intros HF Hne Hc j g Hg. rewrite (fo_groups _ _ _ _ HF) in Hc. set (len := Z.of_nat (length (groups fs))) in *. assert (0 < len) by (unfold len; destruct (groups fs); [done|cbn; lia]).
  pose proof (fo_sum _ _ _ _ HF Inode) as Hsum. cbn [k_total k_free] in Hsum. set (tot := free_inode_count (super fs)) in *.
  assert (Hpos : forall j g, groups fs !! j = Some g -> 0 <= gd_free_inode_count (desc g)).
  { intros j0 g0 Hg0. destruct (fo_group _ _ _ _ HF Inode j0 g0 Hg0) as [(d & _ & Hbm & Hf) _ _ _]. cbn [k_free] in Hf. rewrite Hf. apply zero_count_bounds. apply Hbm. }
  assert (Hlow : forall j g, groups fs !! j = Some g -> gd_free_inode_count (desc g) = 0 \/ gd_free_inode_count (desc g) < tot / len).
  { intros j0 g0 Hg0. specialize (Hc j0 g0 Hg0). unfold candidate in Hc. destruct (Z.eqb_spec (gd_free_inode_count (desc g0)) 0); [by left|]. destruct (Z.leb_spec (tot / len) (gd_free_inode_count (desc g0))); [done|by right]. }
  destruct (Z.lt_ge_cases 0 (tot / len)) as [Ha|Ha]; [|destruct (Hlow j g Hg); [done|specialize (Hpos j g Hg); lia]]. exfalso.
  assert (tot < tot / len * len); [|pose proof (Z.mul_div_le tot len ltac:(lia)); lia]. rewrite Hsum at 1. apply average_reached; [done| |done].
  intros y [j0 Hy]%list_elem_of_lookup. specialize (Hpos j0 y Hy). destruct (Hlow j0 y Hy); lia.
Qed.

Lemma free_inode_group_run N A L fs n : forall i, fs_wf N A L fs -> (i < length (groups fs))%nat ->
  exists i' g', free_inode_group n (Z.of_nat i) fs = Done (Z.of_nat i', fs) /\ groups fs !! i' = Some g' /\
    (gd_free_inode_count (desc g') <> 0 \/ forall j g, (j < n)%nat -> groups fs !! ((i + j) mod length (groups fs))%nat = Some g -> gd_free_inode_count (desc g) = 0).
Proof.
  induction n as [|n IH]; intros i HF Hi; destruct (lookup_lt_is_Some_2 _ _ Hi) as [g Hg].
  { exists i, g. split; [done|]. split; [done|]. right. lia. }
  cbn [free_inode_group]. step (get_inode_group fs i g Hg). destruct (Z.eqb_spec (gd_free_inode_count (desc g)) 0) as [E0|Hne]; cbn [negb]; [|by exists i, g; auto].
  rewrite kbind_kget, (next_group_run fs i (fo_groups _ _ _ _ HF) Hi (groups_bound _ _ _ _ HF)). set (i1 := ((i + 1) mod length (groups fs))%nat). assert (Hi1 : (i1 < length (groups fs))%nat) by (apply Nat.mod_upper_bound; lia).
  destruct (IH i1 HF Hi1) as (i' & g' & E & Hg' & Hcase). exists i', g'. split; [done|]. split; [done|]. destruct Hcase as [?|Hz]; [by left|]. right. intros [|j] gj Hj.
  - rewrite Nat.add_0_r, Nat.mod_small by done. intros Hgj. by assert (gj = g) as -> by congruence.
  - rewrite <- shift_group. apply Hz. lia.
Qed.

(** The group for a new inode has a free inode if any group has one. *)
Lemma inode_group_run N A L fs parent dir : fs_wf N A L fs -> groups fs <> [] -> 0 <= parent < Z.of_nat (length (groups fs)) * inodes_per_group (super fs) ->
  exists i g, inode_group parent dir fs = Done (Z.of_nat i, fs) /\ groups fs !! i = Some g /\
    (gd_free_inode_count (desc g) = 0 -> forall j g', groups fs !! j = Some g' -> gd_free_inode_count (desc g') = 0).
Proof.
  intros HF Hne Hpar. unfold inode_group. rewrite kbind_kget. destruct (fo_per _ _ _ _ HF Inode) as [Hp _]. cbn [k_per] in Hp. pose proof (fo_groups _ _ _ _ HF) as Hlen.
  assert (Hpos : (0 < length (groups fs))%nat) by (destruct (groups fs); [done|cbn; lia]). destruct dir.
  - step (udiv_run fs (free_inode_count (super fs)) (group_count (super fs)) ltac:(lia)). rewrite Hlen, Nat2Z.id, <- Hlen. set (ave := free_inode_count (super fs) / group_count (super fs)).
    destruct (best_group_run fs ave (length (groups fs)) 0%nat NONE eq_refl (groups_bound _ _ _ _ HF) ltac:(by left)) as (group & E & Hc & Hn). cbn [Z.of_nat] in E. step E.
    destruct (Z.eqb_spec group NONE) as [->|Hgr].
    + destruct (lookup_lt_is_Some_2 _ _ Hpos) as [g Hg]. exists 0%nat, g. split; [done|]. split; [done|]. intros _. destruct (Hn eq_refl) as [_ Hcand]. apply (no_candidate N A L fs HF Hne). intros j g' Hg'. apply (Hcand j); [lia|done].
    + destruct Hc as [?|(i & g & -> & Hg & Hf)]; [done|]. by exists i, g.
  - step (udiv_run fs parent (inodes_per_group (super fs)) ltac:(lia)). assert (H0 : 0 <= parent / inodes_per_group (super fs) < Z.of_nat (length (groups fs))) by (split; [apply Z.div_pos; lia|apply Z.div_lt_upper_bound; lia]).
    rewrite <- (Z2Nat.id (parent / inodes_per_group (super fs))) by lia. set (i := Z.to_nat (parent / inodes_per_group (super fs))). assert (Hi : (i < length (groups fs))%nat) by (unfold i; lia). rewrite Hlen, Nat2Z.id.
    destruct (free_inode_group_run N A L fs (length (groups fs)) i HF Hi) as (i' & g' & E & Hg' & Hcase). exists i', g'. split; [done|]. split; [done|]. intros H00. destruct Hcase as [?|Hz]; [done|].
    intros j gj Hgj. destruct (round_all i j (length (groups fs)) Hi) as (m & Hm & Em); [by apply lookup_lt_Some in Hgj|]. apply (Hz m gj Hm). by rewrite Em.
Qed.

Lemma new_inode_run N A L fs parent dir : fs_ok N A L fs -> groups fs <> [] -> 0 <= parent < Z.of_nat (length (groups fs)) * inodes_per_group (super fs) ->
  exists r fs' A', new_inode parent dir fs = Done (r, fs') /\ new_post Inode NOINODE N A A' L fs fs' r /\
    (reliable -> hints_ok Inode A fs -> r = NOINODE -> forall x, ~ is_free Inode A fs x).
Proof.
  intros [R HF] Hne Hpar. destruct (inode_group_run N A L fs parent dir HF Hne Hpar) as (i & g & E & Hg & Hnone). unfold new_inode. step E. step (get_inode_group fs i g Hg). destruct (fo_per _ _ _ _ HF Inode) as [Hp _].
  destruct (search_one N A L fs Inode i g (conj R HF) Hg) as (b & c & Eg & Hcase). cbn [k_map] in Eg. step Eg. destruct Hcase as [(-> & R1 & Hrel)|(Hb & d & m & hint & Ed & Ef & Hu & HF1 & HO1 & HbL & R1 & Hloc & Hnf & Hge)].
  { exists NOINODE, (set_cache c fs), A. split; [done|]. split; [left|done]. split_and!; try done. split; [done|by apply wf_cache]. }
  destruct (Z.eqb_spec b 0) as [?|_]; [done|]. step Ed. rewrite kbind_kget. step (get_inode_group (set_cache c fs) i g Hg). unfold find_bit in Ef. cbn [k_hint k_set_hint k_count] in Ef. step Ef. rewrite Hu.
  set (fs1 := with_hint Inode i g hint (set_cache c fs)) in *. assert (HS1 : same_fs fs fs1) by (by apply (same_trans _ (set_cache c fs)), same_hint). change (super (set_cache c fs)) with (super fs).
  assert (HP1 : forall j i h, hint_kept j i h fs -> hint_kept j i h fs1) by (intros j i0 h; apply (kept_with Inode i g hint (set_cache c fs) j i0 h Hg); intros Hn'; by apply Hge).
  destruct (Z.eqb_spec m (inodes_per_group (super fs))) as [Em|Em].
  - destruct (cache_release_run N A L fs1 b _ R1 HbL) as (c2 & E2 & R2). step E2. exists NOINODE, (set_cache c2 fs1), A. split; [done|]. split; [left; split_and!; try done; split; [done|by apply wf_cache]|].
    intros Hrel HO _. apply full_none; [|apply Hp]. intros j Hj. destruct (lookup_lt_is_Some_2 _ _ Hj) as [gj Hgj]. apply (no_free_full N A L fs Inode j gj HF Hgj). cbn [k_free]. rewrite (Hnone) with (j := j); [done| |done].
    destruct (fo_group _ _ _ _ HF Inode i g Hg) as [(d0 & Ha & Hbm & Hf) _ _ _]. cbn [k_free] in Hf. rewrite Hf. assert (~ 0 < zero_count d0 (k_count Inode (super fs) (desc g))); [|pose proof (zero_count_bounds d0 (k_count Inode (super fs) (desc g)) (proj1 (bm_bound _ _ Hbm))); lia].
    intros (k & Hk & Hz)%zero_count_pos. by rewrite (Hnf Em HO g d0 k Hg Ha Hk) in Hz.
  - rewrite take_inode_bit. destruct (post_take Inode N A L fs fs1 (Z.of_nat i) m b NOINODE ltac:(done) HS1 HF1 HO1 HP1 (Hloc Em)) as (r & fs' & A' & E' & HP & Hr & _). exists r, fs', A'. done.
Qed.

Lemma free_inode_run N A L fs x : fs_ok N A L fs -> in_use Inode A fs x ->
  exists fs' A' m, free_inode x fs = Done (tt, fs') /\ freed Inode N A A' L fs fs' (take m [x]) /\ rep N A' L (cache fs') /\ (reliable -> take m [x] = [x]).
Proof.
  intros [R HF] Hu. destruct (in_use_bit N A L fs Inode x HF Hu) as (g & d & Hg & Ha & Hn & Hz & Ex & Ei). unfold free_inode. rewrite kbind_kget. destruct (fo_per _ _ _ _ HF Inode) as [Hp _]. cbn [k_per] in *.
  step (udiv_run fs x (inodes_per_group (super fs)) ltac:(lia)). step (umod_run fs x (inodes_per_group (super fs)) ltac:(lia)). set (i := Z.to_nat (x / inodes_per_group (super fs))) in *.
  step (get_group_run fs (x / inodes_per_group (super fs)) g Hg). destruct (search_one N A L fs Inode i g (conj R HF) Hg) as (b & c & E & Hcase). cbn [k_map] in E. step E.
  destruct Hcase as [(-> & R1 & Hrel)|(Hb & d0 & _ & _ & _ & _ & _ & _ & _ & HbL & R1 & _)].
  { exists (set_cache c fs), A, 0%nat. split; [done|]. split; [by apply freed_to, freed_nil|]. done. }
  destruct (Z.eqb_spec b 0) as [?|_]; [done|]. destruct (give_freed N A L (set_cache c fs) Inode x b (wf_cache _ _ _ _ c HF) Hu g Hg HbL R1) as (A' & fs1 & E1 & HR & R2).
  destruct (cache_release_run N A' L fs1 b _ R2 HbL) as (c3 & E3 & R3). exists (set_cache c3 fs1), A', 1%nat. split; [|split; [by apply freed_to, freed_from with c|done]].
  rewrite <- E3, <- (kbind_done _ (fun _ => on_cache (c_release b)) _ _ _ E1). unfold give_bit. repeat (rewrite kbind_assoc; apply kbind_next; intros ? ?). done.
Qed.

End Groups.
