(* ===== verification/Space.v ===== *)
(** * The free space of the disk file system (sys/fs/dfs/group.c)

    Blocks and inodes are a resource: [space] is the set of those that are
    free.  The four routines of group.c are steps of this set, whatever the
    buffer cache does as long as it keeps to its laws; [drive] runs a client
    that calls them in any order, depending on what it has got so far.  A client
    that gives back only what it holds never gets what it still holds. *)

From S2P Require Import Prelude Bitops Blocks Group Groups.
Local Open Scope k_scope.

Tactic Notation "step" uconstr(E) := rewrite (kbind_done _ _ _ _ _ E).

(** ** The specification *)

Definition space := kind -> Z -> Prop.

Inductive fop :=
| NewBlock (goal : Z)
| FreeBlocks (xs : list Z)
| NewInode (parent : Z) (dir : bool)
| FreeInode (ino : Z).

(** What is given back has been taken; [V] are the blocks and inodes of the
    device. *)
Definition fop_ok (V F : space) (o : fop) : Prop :=
  match o with
  | NewBlock goal => 0 <= goal
  | FreeBlocks xs => NoDup xs /\ Forall (fun x => V Block x /\ ~ F Block x) xs
  | NewInode parent _ => V Inode parent
  | FreeInode ino => V Inode ino /\ ~ F Inode ino
  end.

(** Nothing is taken, or something that was free. *)
Definition takes_one (k : kind) (none r : Z) (F F' : space) : Prop :=
  (r = none /\ forall j x, F' j x <-> F j x) \/ (r <> none /\ F k r /\ forall j x, F' j x <-> F j x /\ ~ (j = k /\ x = r)).

(** The [xs] are given back, or the first of them if a bitmap cannot be read;
    that does not happen under [R]. *)
Definition gives_back (R : Prop) (k : kind) (xs : list Z) (F F' : space) : Prop :=
  exists m, (R -> take m xs = xs) /\ forall j x, F' j x <-> F j x \/ (j = k /\ x ∈ take m xs).

Definition space_step (R : Prop) (F : space) (o : fop) (r : Z) (F' : space) : Prop :=
  match o with
  | NewBlock _ => takes_one Block NOBLOCK r F F'
  | FreeBlocks xs => gives_back R Block xs F F'
  | NewInode _ _ => takes_one Inode NOINODE r F F'
  | FreeInode ino => gives_back R Inode [ino] F F'
  end.

Section Space.
Context {C : Type} `{!BlockCache C, !CacheSpec C}.
Implicit Types fs : filsys C.

Definition fop_run (o : fop) : K (filsys C) Z :=
  match o with
  | NewBlock goal => new_block goal
  | FreeBlocks xs => free_blocks xs ;;; kret 0
  | NewInode parent dir => new_inode parent dir
  | FreeInode ino => free_inode ino ;;; kret 0
  end.

Definition free_space (A : gmap Z (list Z)) fs : space := fun k x => is_free k A fs x.
Definition all_space fs : space := fun k x => valid k fs x.

(** A file system that has been changed by a step. *)
Record moved (N : nat) (A A' : gmap Z (list Z)) (L : gmap Z hold) fs fs' : Prop := {
  mv_ok : fs_ok N A' L fs';
  mv_valid k x : all_space fs' k x <-> all_space fs k x;
  mv_shape : shape fs' = shape fs;
  mv_frame blk : (forall k i g, groups fs !! i = Some g -> blk <> k_map k (desc g)) -> A' !! blk = A !! blk;
}.

Lemma moved_new k none N A A' L fs fs' r : new_post k none N A A' L fs fs' r -> moved N A A' L fs fs' /\ takes_one k none r (free_space A fs) (free_space A' fs').
Proof.
  intros [(-> & -> & HS & HK & _)|(Hr & HT)].
  - split; [split; [done| | |done]|].
    + intros j x. by apply valid_same.
    + by apply shape_same.
    + left. split; [done|]. intros j x. symmetry. by apply same_free.
  - split; [split|].
    + apply (tk_ok _ _ _ _ _ _ _ _ HT).
    + apply (tk_valid _ _ _ _ _ _ _ _ HT).
    + apply (tk_shape _ _ _ _ _ _ _ _ HT).
    + intros blk Hb. apply (tk_frame _ _ _ _ _ _ _ _ HT). intros i g. apply Hb.
    + right. split; [done|]. split; [apply (tk_was _ _ _ _ _ _ _ _ HT)|apply (tk_free _ _ _ _ _ _ _ _ HT)].
Qed.

Lemma moved_freed k N A A' L fs fs' xs m : freed k N A A' L fs fs' (take m xs) -> rep N A' L (cache fs') -> (reliable -> take m xs = xs) -> moved N A A' L fs fs' /\ gives_back reliable k xs (free_space A fs) (free_space A' fs').
Proof.
  intros HR R Hm. split; [split|].
  - split; [done|apply (fr_wf _ _ _ _ _ _ _ _ HR)].
  - apply (fr_valid _ _ _ _ _ _ _ _ HR).
  - apply (fr_shape _ _ _ _ _ _ _ _ HR).
  - intros blk Hb. apply (fr_frame _ _ _ _ _ _ _ _ HR). intros i g. apply Hb.
  - exists m. split; [done|]. apply (fr_free _ _ _ _ _ _ _ _ HR).
Qed.

(** An inode number that is one. *)
Lemma valid_inode N A L fs x : fs_wf N A L fs -> valid Inode fs x -> groups fs <> [] /\ 0 <= x < Z.of_nat (length (groups fs)) * inodes_per_group (super fs).
Proof.
  intros HF Hv. destruct (valid_group Inode fs x Hv) as (g & Hg & _). destruct Hv as [Hx _]. destruct (fo_per _ _ _ _ HF Inode) as [Hp _]. cbn [k_per] in *.
  split; [intros E; by rewrite E in Hg|]. apply lookup_lt_Some in Hg. split; [done|]. pose proof (Z.mul_succ_div_gt x (inodes_per_group (super fs)) ltac:(lia)). nia.
Qed.

(** One call. *)
Lemma fop_step N A L fs o : fs_ok N A L fs -> fop_ok (all_space fs) (free_space A fs) o ->
  exists r fs' A', fop_run o fs = Done (r, fs') /\ moved N A A' L fs fs' /\ space_step reliable (free_space A fs) o r (free_space A' fs').
Proof.
  intros HK Ho. destruct o as [goal|xs|parent dir|ino]; cbn [fop_ok fop_run space_step] in *.
  - destruct (new_block_run N A L fs goal HK Ho) as (r & fs' & A' & E & HP & _). exists r, fs', A'. split; [done|]. by apply moved_new.
  - destruct Ho as [Hnd Hu]. destruct (free_blocks_run N A L fs xs HK Hu Hnd) as (fs' & A' & m & E & HR & R & Hm). exists 0, fs', A'. step E. split; [done|]. by apply moved_freed with m.
  - destruct (valid_inode N A L fs parent (proj2 HK) Ho) as [Hne Hp]. destruct (new_inode_run N A L fs parent dir HK Hne Hp) as (r & fs' & A' & E & HP & _). exists r, fs', A'. split; [done|]. by apply moved_new.
  - destruct (free_inode_run N A L fs ino HK Ho) as (fs' & A' & m & E & HR & R & Hm). exists 0, fs', A'. step E. split; [done|]. by apply moved_freed with m.
Qed.

(** ** Clients *)

(** What a client holds after the calls [hist], the last one first. *)
Fixpoint held (hist : list (fop * Z)) : list (kind * Z) :=
  match hist with
  | [] => []
  | (NewBlock _, r) :: h => if r =? NOBLOCK then held h else (Block, r) :: held h
  | (FreeBlocks xs, _) :: h => filter (fun p => ~ (p.1 = Block /\ p.2 ∈ xs)) (held h)
  | (NewInode _ _, r) :: h => if r =? NOINODE then held h else (Inode, r) :: held h
  | (FreeInode ino, _) :: h => filter (fun p => p <> (Inode, ino)) (held h)
  end.

(** It gives back what it holds, once. *)
Definition legal (V : space) (hist : list (fop * Z)) (o : fop) : Prop :=
  match o with
  | NewBlock goal => 0 <= goal
  | FreeBlocks xs => NoDup xs /\ Forall (fun x => (Block, x) ∈ held hist) xs
  | NewInode parent _ => V Inode parent
  | FreeInode ino => (Inode, ino) ∈ held hist
  end.

(** The client chooses the next call. *)
Fixpoint drive (n : nat) (client : list (fop * Z) -> option fop) (hist : list (fop * Z)) : K (filsys C) (list (fop * Z)) :=
  match n with
  | O => kret hist
  | S n' =>
    match client hist with
    | None => kret hist
    | Some o => let* r := fop_run o in drive n' client ((o, r) :: hist)
    end
  end.

(** What is held is in use and was free at first; if [R] nothing is lost. *)
Record fair (R : Prop) (V F0 F : space) (hist : list (fop * Z)) : Prop := {
  fa_nodup : NoDup (held hist);
  fa_used k x : (k, x) ∈ held hist -> V k x /\ ~ F k x /\ F0 k x;
  fa_free k x : F k x -> F0 k x;
  fa_all : R -> forall k x, F0 k x -> F k x \/ (k, x) ∈ held hist;
}.

Lemma fair_take R V F0 F F' k none hist hist' r : fair R V F0 F hist -> (forall j x, F j x -> V j x) -> takes_one k none r F F' ->
  held hist' = (if r =? none then held hist else (k, r) :: held hist) -> fair R V F0 F' hist'.
Proof.
  intros [H1 H2 H3 H4] HV HT E. destruct HT as [(-> & HF)|(Hr & Hk & HF)].
  - rewrite Z.eqb_refl in E. split; rewrite ?E; [done| | |].
    + intros j x Hx. rewrite HF. by apply H2.
    + intros j x. rewrite HF. apply H3.
    + intros HR j x Hx. rewrite HF. by apply H4.
  - apply Z.eqb_neq in Hr. rewrite Hr in E. split; rewrite ?E.
    + apply NoDup_cons. split; [|done]. intros Hin. by destruct (H2 k r Hin) as (_ & Hn & _).
    + intros j x [[= -> ->]|Hx]%elem_of_cons; [split; [by apply HV|]; split; [|by apply H3]; rewrite HF; tauto|]. destruct (H2 j x Hx) as (? & ? & ?). rewrite HF. tauto.
    + intros j x. rewrite HF. intros [? _]. by apply H3.
    + intros HR j x Hx. rewrite HF, elem_of_cons. destruct (H4 HR j x Hx) as [?|?]; [|tauto]. destruct (decide ((j, x) = (k, r))) as [->|Hne]; [by right; left|]. left. split; [done|]. naive_solver.
Qed.

Lemma fair_give R V F0 F F' k xs hist hist' : fair R V F0 F hist -> Forall (fun x => (k, x) ∈ held hist) xs -> gives_back R k xs F F' ->
  NoDup (held hist') -> (forall j x, (j, x) ∈ held hist' <-> (j, x) ∈ held hist /\ ~ (j = k /\ x ∈ xs)) -> fair R V F0 F' hist'.
Proof.
  intros [H1 H2 H3 H4] Hxs (m & Hm & HF) Hnd E. rewrite list.Forall_forall in Hxs. assert (Ht : forall x, x ∈ take m xs -> x ∈ xs) by (intros x Hx; by apply (subseteq_take m xs)).
  split; [done| | |].
  - intros j x Hx. apply E in Hx as [Hx Hn]. destruct (H2 j x Hx) as (Hv & Hf & H0). split; [done|]. split; [|done]. rewrite HF. intros [?|[-> Hin]]; [done|]. apply Hn. auto.
  - intros j x. rewrite HF. intros [?|[-> Hin]]; [by apply H3|]. by apply H2, Hxs, Ht.
  - intros HR j x Hx. rewrite HF, E, (Hm HR). destruct (H4 HR j x Hx) as [?|?]; [by left; left|]. destruct (decide (j = k /\ x ∈ xs)); tauto.
Qed.

Lemma legal_ok R V F0 F hist o : fair R V F0 F hist -> legal V hist o -> fop_ok V F o.
Proof.
  intros HA Ho. destruct o as [goal|xs|parent dir|ino]; cbn in *; [done| |done|].
  - destruct Ho as [Hnd Hx]. split; [done|]. apply (Forall_impl _ _ _ Hx). intros x Hin. destruct (fa_used _ _ _ _ _ HA Block x Hin) as (? & ? & _). done.
  - destruct (fa_used _ _ _ _ _ HA Inode ino Ho) as (? & ? & _). done.
Qed.

Lemma fair_step R V F0 F F' hist o r : fair R V F0 F hist -> (forall j x, F j x -> V j x) -> legal V hist o -> space_step R F o r F' -> fair R V F0 F' ((o, r) :: hist).
Proof.
  intros HA HV Ho HS. pose proof (fa_nodup _ _ _ _ _ HA) as Hnd. destruct o as [goal|xs|parent dir|ino]; cbn [space_step legal] in *.
  - by apply (fair_take R V F0 F F' Block NOBLOCK hist _ r HA HV HS).
  - destruct Ho as [_ Hx]. apply (fair_give R V F0 F F' Block xs hist _ HA Hx HS); cbn [held]; [by apply NoDup_filter|]. intros j x. rewrite list_elem_of_filter. cbn. tauto.
  - by apply (fair_take R V F0 F F' Inode NOINODE hist _ r HA HV HS).
  - apply (fair_give R V F0 F F' Inode [ino] hist _ HA); [by constructor|done|cbn [held]; by apply NoDup_filter|]. intros j x. cbn [held]. rewrite list_elem_of_filter, list_elem_of_singleton. naive_solver.
Qed.

Lemma moved_trans N A1 A2 A3 L fs1 fs2 fs3 : moved N A1 A2 L fs1 fs2 -> moved N A2 A3 L fs2 fs3 -> moved N A1 A3 L fs1 fs3.
Proof.
  intros [_ Hv1 Hm1 Hf1] [Hok Hv2 Hm2 Hf2]. split; [done|intros k x; by rewrite Hv2, Hv1|by rewrite Hm2|]. intros blk Hb. rewrite Hf2; [by apply Hf1|].
  intros k i g Hg. destruct (map_kept fs1 fs2 i g Hm1 Hg) as (g0 & Hg0 & ->). by apply (Hb k i).
Qed.

Lemma moved_refl N A L fs : fs_ok N A L fs -> moved N A A L fs fs.
Proof. by split. Qed.

Lemma drive_run N L n client : forall A fs hist F0 V, fs_ok N A L fs -> (forall k x, all_space fs k x <-> V k x) -> (forall hist o, client hist = Some o -> legal V hist o) ->
  fair reliable V F0 (free_space A fs) hist ->
  exists hist' fs' A', drive n client hist fs = Done (hist', fs') /\ moved N A A' L fs fs' /\ fair reliable V F0 (free_space A' fs') hist'.
Proof.
  induction n as [|n IH]; intros A fs hist F0 V HK HV Hcl HA; cbn [drive]; [exists hist, fs, A; split; [done|]; split; [by apply moved_refl|done]|].
  destruct (client hist) as [o|] eqn:Ec; [|exists hist, fs, A; split; [done|]; split; [by apply moved_refl|done]].
  assert (HFV : forall j x, free_space A fs j x -> V j x) by (intros j x Hx; by apply HV, (free_valid _ A)). pose proof (Hcl _ _ Ec) as Ho.
  destruct (fop_step N A L fs o HK) as (r & fs1 & A1 & E & HM & HS).
  { assert (Hok := legal_ok _ _ _ _ _ _ HA Ho). destruct o as [goal|xs|parent dir|ino]; cbn [fop_ok] in *; [done| |by apply HV|by rewrite HV]. destruct Hok as [Hnd Hu]. split; [done|]. apply (Forall_impl _ _ _ Hu). intros x [? ?]. by rewrite HV. }
  step E. destruct (IH A1 fs1 ((o, r) :: hist) F0 V (mv_ok _ _ _ _ _ _ HM)) as (hist' & fs' & A' & E' & HM' & HA').
  - intros k x. by rewrite (mv_valid _ _ _ _ _ _ HM), HV.
  - done.
  - by apply (fair_step reliable V F0 (free_space A fs)).
  - exists hist', fs', A'. split; [done|]. split; [by apply moved_trans with A1 fs1|done].
Qed.

(** ** Blocks below the hint *)

(** Some calls of [new_block]. *)
Fixpoint new_blocks (goals : list Z) : K (filsys C) (list Z) :=
  match goals with
  | [] => kret []
  | goal :: goals' => let* r := new_block goal in let* rs := new_blocks goals' in kret (r :: rs)
  end.

(** The block lies below the place [h] in group [i]. *)
Definition below (per : Z) (i : nat) (h x : Z) : Prop := x / per = Z.of_nat i /\ x mod per < h.

Lemma free_small N A L fs x : fs_wf N A L fs -> is_free Block A fs x -> x < NOBLOCK.
Proof.
  intros HF (Hx & g & d & Hg & _ & Hm & _). destruct (fo_per _ _ _ _ HF Block) as [Hp _]. pose proof (slot_small N A L fs Block _ g _ HF Hg (conj (proj1 (Z.mod_pos_bound x _ (proj1 Hp))) Hm)) as Hs.
  rewrite Z2Nat.id in Hs by (apply Z.div_pos; lia). pose proof (Z.div_mod x (k_per Block (super fs)) ltac:(lia)). lia.
Qed.

(** A known hint hides what is below it from [new_block] with another goal. *)
Lemma below_kept N A L fs i h goal : fs_ok N A L fs -> hint_kept Block i h fs -> 0 <= goal -> ~ below (blocks_per_group (super fs)) i h goal ->
  exists r fs' A', new_block goal fs = Done (r, fs') /\ moved N A A' L fs fs' /\ hint_kept Block i h fs' /\ takes_one Block NOBLOCK r (free_space A fs) (free_space A' fs') /\
    (r = NOBLOCK \/ ~ below (blocks_per_group (super fs)) i h r).
Proof.
  intros HK Hkp Hg Hng. destruct (new_block_run N A L fs goal HK Hg) as (r & fs' & A' & E & HP & _ & Hlow). exists r, fs', A'. split; [done|]. destruct (moved_new _ _ _ _ _ _ _ _ _ HP) as [HM HT].
  split; [done|]. split; [destruct HP as [(_ & _ & _ & _ & _ & HKp)|(_ & HTk)]; [by apply HKp|by apply (tk_kept _ _ _ _ _ _ _ _ HTk)]|]. split; [done|]. by apply Hlow.
Qed.

Lemma below_hidden N L i h goals : forall A fs, fs_ok N A L fs -> hint_kept Block i h fs -> Forall (fun goal => 0 <= goal /\ ~ below (blocks_per_group (super fs)) i h goal) goals ->
  exists rs fs' A', new_blocks goals fs = Done (rs, fs') /\ moved N A A' L fs fs' /\ hint_kept Block i h fs' /\
    forall y, below (blocks_per_group (super fs)) i h y -> is_free Block A fs y -> is_free Block A' fs' y /\ (y ∉ rs).
Proof.
  induction goals as [|goal goals IH]; intros A fs HK Hkp Hgs; cbn [new_blocks].
  { exists [], fs, A. split; [done|]. split; [by apply moved_refl|]. split; [done|]. intros y _ Hy. split; [done|]. by intros ?%elem_of_nil. }
  apply Forall_cons in Hgs as [[Hg Hng] Hgs]. destruct (below_kept N A L fs i h goal HK Hkp Hg Hng) as (r & fs1 & A1 & E & HM & Hkp1 & HT & Hr). step E.
  pose proof (shape_per Block fs fs1 (mv_shape _ _ _ _ _ _ HM)) as Eper. cbn [k_per] in Eper. destruct (IH A1 fs1 (mv_ok _ _ _ _ _ _ HM) Hkp1) as (rs & fs' & A' & E' & HM' & Hkp' & Hy'); [by rewrite Eper|]. step E'.
  exists (r :: rs), fs', A'. split; [done|]. split; [by apply (moved_trans _ _ _ _ _ _ _ _ HM HM')|]. split; [done|]. intros y Hb Hf. rewrite Eper in Hy'.
  assert (Hyr : y <> r) by (intros ->; destruct Hr as [->|Hr]; [pose proof (free_small N A L fs _ (proj2 HK) Hf); lia|done]).
  assert (Hf1 : is_free Block A1 fs1 y) by (destruct HT as [(_ & HF)|(_ & _ & HF)]; apply (HF Block y); [done|]; split; [done|]; naive_solver).
  destruct (Hy' y Hb Hf1) as [? Hn]. split; [done|]. by intros [?|?]%elem_of_cons.
Qed.

(** When nothing else is free, nothing is found. *)
Lemma below_none N A L fs i h goal : fs_ok N A L fs -> hint_kept Block i h fs -> 0 <= goal -> ~ below (blocks_per_group (super fs)) i h goal ->
  (forall y, is_free Block A fs y -> below (blocks_per_group (super fs)) i h y) -> exists fs', new_block goal fs = Done (NOBLOCK, fs').
Proof.
  intros HK Hkp Hg Hng Hall. destruct (below_kept N A L fs i h goal HK Hkp Hg Hng) as (r & fs' & A' & E & _ & _ & HT & Hr). exists fs'. rewrite E.
  destruct HT as [(-> & _)|(_ & Hf & _)]; [done|]. destruct Hr as [->|Hr]; [done|]. by destruct Hr, (Hall r).
Qed.

(** The hint that [free_blocks] leaves in a group where it was unknown. *)
Lemma low_hint_least per i x xs : forall h, 0 < per -> x ∈ xs -> Z.to_nat (x / per) = i -> x mod per <= h -> (forall y, y ∈ xs -> Z.to_nat (y / per) = i -> x mod per <= y mod per) -> low_hint per i h xs = x mod per.
Proof.
  assert (Hlow : forall xs h m, m <= h -> (forall y, y ∈ xs -> Z.to_nat (y / per) = i -> m <= y mod per) -> (h = m -> low_hint per i h xs = m) /\ (m <= low_hint per i h xs)).
  { clear x xs. induction xs as [|y xs IH]; intros h m Hm Hall; cbn [low_hint foldl]; [split; [done|lia]|]. destruct (decide (Z.to_nat (y / per) = i)) as [Ey|Hne].
    - pose proof (Hall y ltac:(by left) Ey). destruct (IH (Z.min h (y mod per)) m) as [I1 I2]; [lia|intros z Hz; apply Hall; by right|]. split; [intros ->; apply I1; lia|done].
    - apply IH; [done|]. intros z Hz. apply Hall. by right. }
  induction xs as [|y xs IH]; intros h Hp Hx Hi Hh Hall; [by apply elem_of_nil in Hx|]. cbn [low_hint foldl]. destruct (decide (y = x)) as [->|Hne].
  - rewrite decide_True by done. apply (Hlow xs _ (x mod per)); [lia| |lia]. intros z Hz. apply Hall. by right.
  - apply IH; [done|by apply elem_of_cons in Hx as [?|?]|done| |intros z Hz; apply Hall; by right]. destruct (decide _) as [Ey|]; [|done]. pose proof (Hall y ltac:(by left) Ey). lia.
Qed.

End Space.
