(* ===== verification/Poolblocks.v ===== *)
(** * The buffer pool as the cache of the file system (sys/krnl/buf.c)

    A thread that runs alone calls the operations of Buf.v and waits for the
    device each time they ask for it; [finish_call] runs a call to its end.  The
    device transfers all blocks but those of [bad], which it cannot read.  The
    pool keeps the laws that the disk file system relies on. *)

From S2P Require Import Prelude Buf Bufcache Bufview Blocks.
Local Open Scope k_scope.

Tactic Notation "step" uconstr(E) := rewrite (kbind_done _ _ _ _ _ E).

Definition EIO : Z := 5.

(** ** The calls *)

Section Pool.
Variable bad : gset Z.

Definition read_result (blk : Z) (p : bufpool) : Z := if bool_decide (blk ∈ bad) then - EIO else bufsize p.

(** The rest of a call.  A thread that runs alone never waits for a buffer. *)
Fixpoint finish_call (fuel : nat) (alloc : bool) (blk : Z) (g : get_result) : K bufpool Z :=
  match fuel with
  | O => khang
  | S fuel' =>
    match g with
    | Gives b => kret b
    | Reads b => let* p := kget in let* g' := get_buffer_read b (read_result blk p) in finish_call fuel' alloc blk g'
    | Writes b => let* p := kget in let* g' := after_write alloc blk b (bufsize p) in finish_call fuel' alloc blk g'
    | Yields => let* g' := retry alloc blk in finish_call fuel' alloc blk g'
    | Waits _ => khang
    end
  end.

(** A write and a read at most. *)
Definition FINISH_STEPS : nat := 3.

#[export] Instance pool_cache : BlockCache bufpool := {|
  c_get blk := let* g := get_buffer 0 blk in finish_call FINISH_STEPS false blk g;
  c_alloc blk := let* g := alloc_buffer 0 blk in finish_call FINISH_STEPS true blk g;
  c_data b := let* r := get_buf b in kret (b_data r);
  c_store := store;
  c_updated := mark_buffer_updated;
  c_invalid := mark_buffer_invalid;
  c_release := release_buffer;
  c_invalidate blk := let* g := invalidate_buffer 0 blk in finish_call FINISH_STEPS false blk g ;;; kret tt;
|}.

(** ** What the caller holds *)

Definition held_buf (U : gset Z) (b : Z) (h : hold) (r : buf) : Prop :=
  b_blkno r = h_blk h /\ b_locks r = h_locks h /\
  (if h_valid h then b_state r = BUF_STATE_LOCKED \/ b_state r = BUF_STATE_UPDATED else b_state r = BUF_STATE_INVALID) /\ (h_dirty h = false -> b ∉ U).

Definition covered (U : gset Z) (L : gmap Z hold) (b : Z) (r : buf) : Prop := match L !! b with Some h => held_buf U b h r | None => listed r end.

(** All buffers but [b]. *)
Definition covers_off (b : Z) (U : gset Z) (L : gmap Z hold) (p : bufpool) : Prop :=
  (forall a r, a <> b -> bufs p !! a = Some r -> covered U L a r) /\ (forall a h, a <> b -> L !! a = Some h -> is_Some (bufs p !! a)).

Definition covers (U : gset Z) (L : gmap Z hold) (p : bufpool) : Prop :=
  (forall a r, bufs p !! a = Some r -> covered U L a r) /\ (forall a h, L !! a = Some h -> is_Some (bufs p !! a)).

Record pool_rep (N : nat) (A : gmap Z (list Z)) (L : gmap Z hold) (p : bufpool) : Prop := {
  pr_covers : exists U, bgood U p /\ covers U L p;
  pr_bytes : 0 <= bufsize p;
  pr_view : cview A p;
  pr_number : size (bufs p) = N;
}.

Lemma covers_but b U L p : covers U L p -> covers_off b U L p.
Proof. intros [H1 H2]. split; eauto. Qed.

Lemma covers_at b r U L p : covers_off b U L p -> bufs p !! b = Some r -> covered U L b r -> covers U L p.
Proof.
  intros [H1 H2] Hr Hc. split; intros a x; destruct (decide (a = b)) as [->|]; [|by apply H1| |by apply H2].
  - intros Hx. by assert (x = r) as -> by congruence.
  - intros _. by exists r.
Qed.

Lemma covers_changed b r' U U' L L' p p' : covers_off b U L p -> bufs p' = <[b := r']> (bufs p) -> (forall a, a <> b -> a ∈ U' <-> a ∈ U) -> (forall a, a <> b -> L' !! a = L !! a) -> covers_off b U' L' p'.
Proof.
  intros [H1 H2] Eb HU HL. split; intros a x Ha; rewrite Eb, lookup_insert_ne by done.
  - intros Hx. specialize (H1 a x Ha Hx). unfold covered, held_buf in *. rewrite HL by done. destruct (L !! a) as [h|]; [|done]. rewrite HU by done. done.
  - rewrite HL by done. by apply H2.
Qed.

(** One buffer has changed. *)
Lemma rep_intro N L U p b r r' A' L' U' p' : covers_off b U L p -> size (bufs p) = N -> 0 <= bufsize p -> bufs p !! b = Some r ->
  bufs p' = <[b := r']> (bufs p) -> bufsize p' = bufsize p -> bgood U' p' -> (forall a, a <> b -> a ∈ U' <-> a ∈ U) -> (forall a, a <> b -> L' !! a = L !! a) -> covered U' L' b r' -> cview A' p' -> pool_rep N A' L' p'.
Proof.
  intros Hc HN Hsz Hr Eb Es G' HU HL Hat V. split; [|by rewrite Es|done|].
  - exists U'. split; [done|]. apply (covers_at b r'); [by apply (covers_changed b r' U U' L L' p p')|by rewrite Eb, lookup_insert_eq|done].
  - rewrite Eb, map_size_insert_Some; [done|]. by exists r.
Qed.

Lemma rep_held N A L p b h : pool_rep N A L p -> L !! b = Some h -> exists U r, bgood U p /\ covers U L p /\ bufs p !! b = Some r /\ held_buf U b h r /\ held_state (b_state r) /\ 1 <= b_locks r /\ b_state r <> BUF_STATE_ERROR.
Proof.
  intros [(U & G & Hc) _ _ _] Hh. pose proof Hc as [H1 H2]. destruct (H2 b h Hh) as [r Hr]. exists U, r. specialize (H1 b r Hr). unfold covered in H1. rewrite Hh in H1.
  destruct (buf_facts U p b r G Hr) as (_ & _ & [_ _ Hl _] & _). split_and!; try done; destruct H1 as (_ & _ & Hs & _); unfold held_state; destruct (h_valid h).
  - destruct Hs as [-> | ->]; tauto.
  - rewrite Hs. tauto.
  - apply Hl. tauto.
  - apply Hl. tauto.
  - by destruct Hs as [-> | ->].
  - by rewrite Hs.
Qed.

Lemma pool_data N A L p b h d : pool_rep N A L p -> L !! b = Some h -> h_valid h = true -> A !! h_blk h = Some d -> c_data b p = Done (d, p).
Proof.
  intros HR Hh Hv Ha. destruct (rep_held N A L p b h HR Hh) as (U & r & G & _ & Hr & (Ek & _ & Hs & _) & _ & Hl & _). rewrite Hv in Hs. cbn. step (get_buf_run p b r Hr). unfold kret. do 2 f_equal.
  destruct (given_intro U A p b r G (pr_view _ _ _ _ HR) Hr Hl) as (r0 & Hr0 & _ & _ & _ & Hd); [tauto|]. assert (r0 = r) as -> by congruence. apply Hd. by rewrite Ek.
Qed.

Lemma changed_parts b r p p' : changed b r p p' -> bufs p' = <[b := r]> (bufs p) /\ bufsize p' = bufsize p.
Proof. by intros (? & _ & ?). Qed.

Lemma pool_store N A L p b h d : pool_rep N A L p -> L !! b = Some h -> h_valid h = true ->
  exists p', c_store b d p = Done (tt, p') /\ bufsize p' = bufsize p /\ pool_rep N (<[h_blk h := d]> A) (<[b := dirtied h]> L) p'.
Proof.
  intros HR Hh Hv. destruct (rep_held N A L p b h HR Hh) as (U & r & G & Hc & Hr & (Ek & El & Hs & _) & Hheld & Hl & Hne). destruct HR as [_ Hsz V HN].
  destruct (store_run U p b r d G Hr Hheld) as (p' & E & G' & Hch). destruct (changed_parts _ _ _ _ Hch) as [Eb Es]. exists p'. split; [exact E|]. split; [done|].
  apply (rep_intro N L U p b r (set_b_data d r) _ _ (stored b r U) p' (covers_but b _ _ _ Hc)); try done.
  - intros a Ha. unfold stored. destruct (_ =? _); set_solver.
  - intros a Ha. by rewrite lookup_insert_ne.
  - unfold covered. rewrite lookup_insert_eq. split_and!; try done.
  - assert (Hi : (b_state r =? BUF_STATE_INVALID) = false) by (rewrite Hv in Hs; by destruct Hs as [-> | ->]). pose proof (store_view U A p p' b r d G V Hr Hheld Hne Hch) as V'. rewrite Hi in V'. cbn [apply_effect] in V'. by rewrite <- Ek.
Qed.

Lemma pool_updated N A L p b h : pool_rep N A L p -> L !! b = Some h -> h_valid h = true ->
  exists p', c_updated b p = Done (tt, p') /\ bufsize p' = bufsize p /\ pool_rep N A (<[b := marked h]> L) p'.
Proof.
  intros HR Hh Hv. destruct (rep_held N A L p b h HR Hh) as (U & r & G & Hc & Hr & (Ek & El & Hs & _) & Hheld & Hl & Hne). destruct HR as [_ Hsz V HN]. rewrite Hv in Hs.
  destruct (mark_updated_run U p b r G Hr Hheld Hl) as (p' & E & G' & Hch). destruct (changed_parts _ _ _ _ Hch) as [Eb Es]. exists p'. split; [exact E|]. split; [done|].
  assert (Eu : b_state (updated_buf r) = BUF_STATE_UPDATED /\ b_blkno (updated_buf r) = b_blkno r /\ b_locks (updated_buf r) = b_locks r /\ b_data (updated_buf r) = b_data r) by (unfold updated_buf; by destruct Hs as [Hs|Hs]; rewrite Hs).
  destruct Eu as (E1 & E2 & E3 & E4).
  apply (rep_intro N L U p b r (updated_buf r) _ _ (U ∖ {[b]}) p' (covers_but b _ _ _ Hc)); try done.
  - intros a Ha. set_solver.
  - intros a Ha. by rewrite lookup_insert_ne.
  - unfold covered. rewrite lookup_insert_eq. split_and!; cbn; [by rewrite E2|by rewrite E3|rewrite Hv, E1; by right|set_solver].
  - apply (view_same U A p p' b r (updated_buf r) G V Hr Hch E2); [intros _; split; [rewrite E1; unfold live; tauto|done]|]. apply view_silent; [done|]. intros [Hx|[Hx|Hx]]; destruct Hs as [Hs|Hs]; rewrite Hs in Hx; done.
Qed.

Lemma pool_invalid N A L p b h : pool_rep N A L p -> L !! b = Some h ->
  exists p', c_invalid b p = Done (tt, p') /\ bufsize p' = bufsize p /\ pool_rep N (delete (h_blk h) A) (<[b := invalidated h]> L) p'.
Proof.
  intros HR Hh. destruct (rep_held N A L p b h HR Hh) as (U & r & G & Hc & Hr & (Ek & El & Hs & _) & Hheld & Hl & Hne). destruct HR as [_ Hsz V HN].
  destruct (mark_invalid_run U p b r G Hr Hheld Hl) as (p' & E & G' & Hch). destruct (changed_parts _ _ _ _ Hch) as [Eb Es]. exists p'. split; [exact E|]. split; [done|].
  assert (E1 : b_state (invalid_buf r) = BUF_STATE_INVALID) by (unfold invalid_buf; destruct (h_valid h); [by destruct Hs as [-> | ->]|by rewrite Hs]).
  apply (rep_intro N L U p b r (invalid_buf r) _ _ (U ∖ {[b]}) p' (covers_but b _ _ _ Hc)); try done.
  - intros a Ha. set_solver.
  - intros a Ha. by rewrite lookup_insert_ne.
  - unfold covered. rewrite lookup_insert_eq. split_and!; cbn; [by rewrite invalid_blkno|by rewrite (proj2 (invalid_held r Hheld))|done|set_solver].
  - rewrite <- Ek. apply (view_drop U A p p' b r (invalid_buf r) G V Hr Hch). apply invalid_blkno.
Qed.

Lemma pool_release N A L p b h : pool_rep N A L p -> L !! b = Some h -> h_dirty h = false \/ 1 < h_locks h ->
  exists p', c_release b p = Done (tt, p') /\ bufsize p' = bufsize p /\ pool_rep N A (if 1 <? h_locks h then <[b := locked_by (-1) h]> L else delete b L) p'.
Proof.
  intros HR Hh Hok. destruct (rep_held N A L p b h HR Hh) as (U & r & G & Hc & Hr & (Ek & El & Hs & HU) & Hheld & Hl & Hne). destruct HR as [_ Hsz V HN].
  destruct (release_run U p b r G Hr Hheld Hl) as (p' & E & G' & Hch); [rewrite El; tauto|]. destruct (changed_parts _ _ _ _ Hch) as [Eb Es]. exists p'. split; [exact E|]. split; [done|].
  apply (rep_intro N L U p b r (released r) _ _ U p' (covers_but b _ _ _ Hc)); try done.
  - intros a Ha. destruct (1 <? h_locks h); [by rewrite lookup_insert_ne|by rewrite lookup_delete_ne].
  - unfold covered, released. rewrite El. destruct (1 <? h_locks h); [rewrite lookup_insert_eq; split_and!; cbn; [done|lia|done|done]|]. rewrite lookup_delete_eq. unfold listed. cbn. destruct (_ =? _); [tauto|]. destruct (_ =? _); tauto.
  - by apply (released_same U A p p' b r).
Qed.

(** ** A buffer for a block *)

Lemma rep_room N A L p : pool_rep N A L p -> roomy N L -> room p.
Proof.
  intros [(U & G & [H1 _]) _ _ _] [_ Hroom] b r Hr. specialize (H1 b r Hr). unfold covered in H1. destruct (L !! b) as [h|] eqn:Hh.
  - specialize (Hroom b h Hh). destruct H1 as (_ & El & Hs & _). destruct (buf_facts U p b r G Hr) as (_ & _ & Hlo & _).
    rewrite (no_waiters r Hlo) by (destruct (h_valid h); [by destruct Hs as [-> | ->]|by rewrite Hs]). cbn. lia.
  - destruct (listed_idle U p b r G Hr H1) as (-> & -> & _). cbn. lia.
Qed.

(** Some buffer is not in use. *)
Lemma rep_spare N A L p : pool_rep N A L p -> roomy N L -> exists b r, bufs p !! b = Some r /\ L !! b = None.
Proof.
  intros [_ _ _ HN] [Hs _]. destruct (decide (dom (bufs p) ∖ dom L = ∅)) as [E|Hn].
  - assert (Hsub : dom (bufs p) ⊆ dom L) by set_solver. apply subseteq_size in Hsub. rewrite !size_dom in Hsub. lia.
  - apply set_choose_L in Hn as (b & [[r Hr]%elem_of_dom Hb%not_elem_of_dom]%elem_of_difference). eauto.
Qed.

(** What a call for a block that nobody holds has done. *)
Definition fetched (alloc : bool) (blk : Z) (N : nat) (A : gmap Z (list Z)) (L : gmap Z hold) (p : bufpool) (b : Z) (p' : bufpool) : Prop :=
  bufsize p' = bufsize p /\
  ((b = 0 /\ (alloc = false /\ blk ∈ bad) /\ pool_rep N A L p') \/
   (b <> 0 /\ L !! b = None /\ pool_rep N (if alloc then <[blk := zeros p]> A else A) (<[b := Hold blk 1 alloc true]> L) p')).

(** A buffer that has been read, or not. *)
Lemma finish_reading N A L U p b r blk fuel : bgood U p -> cview A p -> 0 <= bufsize p -> size (bufs p) = N -> covers_off b U L p -> L !! b = None -> b ∉ U -> b <> 0 ->
  bufs p !! b = Some r -> b_state r = BUF_STATE_READING -> b_blkno r = blk -> b_locks r = 1 -> b_waiters r = [] -> is_Some (disk p !! blk) ->
  exists b' p', finish_call (S (S fuel)) false blk (Reads b) p = Done (b', p') /\ fetched false blk N A L p b' p'.
Proof.
  intros G V Hsz HN Hcov HL HbU Hb0 Hr Hs Ek El Ew Hd. cbn [finish_call]. rewrite kbind_kget. set (rc := read_result blk p).
  assert (Htr : transferred p rc) by (unfold rc, read_result, transferred, EIO; destruct (bool_decide _); [right; lia|by left]).
  destruct (get_buffer_read_run U p b r rc G Hsz Hr Hs ltac:(by rewrite Ek)) as (p' & E & G' & Hc). destruct (read_step U A p b rc) as (g & q & E' & [(_ & _ & V') _ _ _]); [by split; [exists U|]|by split; [|exists r; rewrite Ek]|].
  cbn [bop_run] in E'. rewrite E' in E. injection E as -> ->. cbn [effect_of apply_effect] in V'. step E'. cbn [finish_call]. destruct (changed_parts _ _ _ _ Hc) as [Eb Es]. eexists _, p'. split; [done|]. split; [done|].
  unfold read_buf in Hc, Eb. subst rc. unfold read_result in *. destruct (bool_decide_reflect (blk ∈ bad)) as [Hbad|Hbad].
  - left. cbn [Z.ltb Z.compare Z.opp EIO] in *. change ((-EIO) <? 0) with true in *. cbv iota in *. split; [done|]. split; [done|]. destruct (Z.eqb_spec (-EIO) (bufsize p)) as [Ex|_]; [unfold EIO in Ex; lia|].
    apply (rep_intro N L U p b r _ A L U p' Hcov HN Hsz Hr Eb Es G'); [done|done| |done]. unfold covered. rewrite HL. left. unfold released, woken_buf. cbn. rewrite El, Ew. done.
  - right. destruct (Z.ltb_spec (bufsize p) 0); [lia|]. split; [done|]. split; [done|]. rewrite Z.eqb_refl in Eb.
    apply (rep_intro N L U p b r _ A _ U p' Hcov HN Hsz Hr Eb Es G'); [done|intros a Ha; by rewrite lookup_insert_ne| |done].
    unfold covered. rewrite lookup_insert_eq. split_and!; cbn; [done|rewrite El, Ew; done|by left|done].
Qed.

(** A buffer that has been taken for the block; [p0] is the pool before. *)
Lemma finish_new N A L U p0 p1 b r0 r1 alloc blk fuel :
  bgood U p0 -> 0 <= bufsize p0 -> cview A p0 -> size (bufs p0) = N -> covers_off b U L p0 -> L !! b = None -> bufs p0 !! b = Some r0 -> b ∉ U ->
  changed b r1 p0 p1 -> taken U b p1 -> not_cached p0 blk -> b_state r0 = BUF_STATE_FREE \/ disk p0 !! b_blkno r0 = Some (b_data r0) -> (alloc = false -> is_Some (A !! blk)) ->
  exists b' p', (let* g := got_new alloc blk (NewBuffer b) in finish_call (S (S fuel)) alloc blk g) p1 = Done (b', p') /\ fetched alloc blk N A L p0 b' p'.
Proof.
  intros G Hsz V HN Hcov HL Hr HbU Hc1 T Hnc Hd Ha. pose proof (changed_lookup _ _ _ _ Hc1) as Hr1. destruct (buf_facts U p0 b r0 G Hr) as (Hb0 & _).
  assert (Hnc1 : forall a ra, a <> b -> bufs p1 !! a = Some ra -> b_state ra <> BUF_STATE_FREE -> b_blkno ra <> blk).
  { intros a ra Hab. destruct Hc1 as (-> & _). rewrite lookup_insert_ne by done. apply Hnc. }
  destruct alloc; cbn [got_new].
  - destruct (alloc_insert_run U p1 b r1 blk T Hr1 Hnc1) as (p2 & E & G2 & Hc2). pose proof (changed_trans _ _ _ _ _ _ Hc1 Hc2) as Hc. step E. cbn [finish_call]. destruct (changed_parts _ _ _ _ Hc) as [Eb Es].
    exists b, p2. split; [done|]. split; [done|]. right. split; [done|]. split; [done|]. assert (Ez : zeros p1 = zeros p0) by (unfold zeros; by destruct Hc1 as (_ & _ & ->)).
    apply (rep_intro N L U p0 b r0 (cleared_buf p1 blk) _ _ ({[b]} ∪ U) p2 Hcov HN Hsz Hr Eb Es G2); [set_solver|intros a Hab; by rewrite lookup_insert_ne| |].
    + unfold covered. rewrite lookup_insert_eq. split_and!; cbn; [done|done|by left|done].
    + rewrite <- Ez. apply (view_alloc U A p0 p2 b r0 (cleared_buf p1 blk) G V Hr Hc); [done|done|]. unfold live. cbn. tauto.
  - destruct (get_insert_run U p1 b r1 blk T Hr1 Hnc1) as (p2 & E & G2 & Hc2). pose proof (changed_trans _ _ _ _ _ _ Hc1 Hc2) as Hc. step E. destruct (changed_parts _ _ _ _ Hc) as [Eb Es].
    assert (V2 : cview A p2) by (by apply (view_reuse U A p0 p2 b r0 (reading_buf blk r1) G V Hr Hc)).
    assert (Hdk : is_Some (disk p2 !! blk)).
    { destruct (Ha eq_refl) as [d Hda]. destruct (V2 blk d Hda) as [(a & ra & Hra & Hl & Ek & _)|[Hx _]]; [|by exists d]. exfalso. rewrite Eb in Hra. destruct (decide (a = b)) as [->|Hab].
      - rewrite lookup_insert_eq in Hra. injection Hra as <-. by destruct Hl as [?|[?|[?|[?|?]]]].
      - rewrite lookup_insert_ne in Hra by done. apply (Hnc a ra Hra); [by apply live_cached|done]. }
    destruct (finish_reading N A L U p2 b (reading_buf blk r1) blk fuel) as (b' & p' & E' & Hes & Hf); try done; [by rewrite Es|rewrite Eb, map_size_insert_Some; [done|by exists r0]|by apply (covers_changed b (reading_buf blk r1) U U L L p0 p2)|by rewrite Eb, lookup_insert_eq|].
    exists b', p'. split; [done|]. split; [congruence|]. exact Hf.
Qed.

(** The oldest dirty buffer has been written; nobody waits for it. *)
Lemma take_written_yields b rc p p' r' : take_written b rc p = Done (NewYields, p') -> bufs p' !! b = Some r' -> rc < 0 \/ b_locks r' <> 0.
Proof.
  intros E Hr. unfold take_written in E. apply kbind_inv in E as ([] & q & _ & E). apply kbind_inv in E as (r & q' & Eg & E). unfold get_buf in Eg. rewrite kbind_kget in Eg.
  destruct (bufs q !! b) as [rq|] eqn:Hq; [|done]. injection Eg as <- <-. destruct (Z.ltb_spec rc 0); [by left|]. cbn [negb andb] in E. destruct (Z.eqb_spec (b_locks rq) 0).
  - by apply kbind_inv in E as ([] & q2 & _ & E).
  - injection E as <-. right. congruence.
Qed.

Lemma not_cached_changed p p' b r r' blk : not_cached p blk -> bufs p !! b = Some r -> b_state r <> BUF_STATE_FREE -> changed b r' p p' -> b_blkno r' = b_blkno r -> not_cached p' blk.
Proof.
  intros Hnc Hr Hs (Eb & _) Ek a ra. rewrite Eb. destruct (decide (a = b)) as [->|Hne]; [rewrite lookup_insert_eq; intros [= <-] _; rewrite Ek; by apply (Hnc b r)|].
  rewrite lookup_insert_ne by done. apply Hnc.
Qed.

Lemma finish_written N A L U p b r alloc blk fuel :
  bgood U p -> 0 <= bufsize p -> cview A p -> size (bufs p) = N -> covers_off b U L p -> L !! b = None -> bufs p !! b = Some r -> b_state r = BUF_STATE_WRITING -> b_waiters r = [] ->
  not_cached p blk -> (alloc = false -> is_Some (A !! blk)) ->
  exists b' p', finish_call (S (S (S fuel))) alloc blk (Writes b) p = Done (b', p') /\ fetched alloc blk N A L p b' p'.
Proof.
  intros G Hsz V HN Hcov HL Hr Hs Hw Hnc Ha. change (finish_call (S (S (S fuel))) alloc blk (Writes b)) with (let* p := kget in let* g' := after_write alloc blk b (bufsize p) in finish_call (S (S fuel)) alloc blk g').
  rewrite kbind_kget. set (rc := bufsize p). unfold after_write, get_new_written. rewrite kbind_assoc. set (p1 := wrote rc r p).
  assert (G1 : bgood U p1) by (apply (wrote_good U p b r); [done..|by rewrite Hs]). assert (V1 : cview A p1) by (apply (view_wrote U A p b r); [done..|unfold live; tauto]).
  destruct (wrote_facts rc r p) as [Eb Esz]. fold p1 in Eb, Esz. assert (Hr1 : bufs p1 !! b = Some r) by (by rewrite Eb). assert (Hok : write_ok p1 rc r) by (apply transferred_ok; [done|by left]).
  destruct (take_written_run U p1 b r rc G1 Hr1 Hs Hok) as (res & p2 & E2 & Hc2 & Hcase). rewrite kbind_assoc. step (dev_write_run p b r rc Hr). fold p1. step E2.
  destruct Hcase as [(-> & T & _)|(-> & _)].
  2: { exfalso. destruct (buf_facts U p b r G Hr) as (_ & _ & [_ Hi _ _] & _). destruct (take_written_yields _ _ _ _ _ E2 (changed_lookup _ _ _ _ Hc2)) as [?|Hl]; [unfold rc in *; lia|].
       apply Hl. unfold written_buf, woken_buf. cbn. rewrite Hw, Hi by tauto. done. }
  assert (Hdk : disk p1 !! b_blkno r = Some (b_data r)) by (destruct Hok as [_ [[_ ?]|?]]; [done|unfold rc in *; lia]). assert (Hcov1 : covers_off b U L p1) by (unfold covers_off in *; by rewrite Eb).
  destruct (finish_new N A L U p1 p2 b r (written_buf p1 rc r) alloc blk fuel) as (b' & p' & E' & Hes & Hf); try done; [by rewrite Esz|by rewrite Eb| |by apply not_cached_wrote|by right|].
  { intros Hin. apply (buf_facts U p b r G Hr) in Hin. by rewrite Hs in Hin. }
  exists b', p'. split; [done|]. split; [congruence|]. unfold zeros in *. by rewrite Esz in Hf.
Qed.

Lemma cover_none U L b r : covered U L b r -> listed r -> L !! b = None.
Proof.
  unfold covered. destruct (L !! b) as [h|]; [|done]. intros (_ & _ & Hs & _) Hl. exfalso. destruct (h_valid h); [destruct Hs as [Hs|Hs]|]; unfold listed in Hl; rewrite Hs in Hl; by destruct Hl as [?|[?|?]].
Qed.

(** The block is not in the cache. *)
Lemma fetch_new N A L p alloc blk fuel : pool_rep N A L p -> roomy N L -> not_cached p blk -> (alloc = false -> is_Some (A !! blk)) ->
  exists b p', (let* n := get_new_buffer in let* g := got_new alloc blk n in finish_call (S (S (S fuel))) alloc blk g) p = Done (b, p') /\ fetched alloc blk N A L p b p'.
Proof.
  intros HR Hroom Hnc Ha. pose proof HR as [(U & G & Hcov) Hsz V HN]. destruct (get_new_run U p G) as (n & p1 & E & Hn). step E. destruct n as [b|b|]; cbn [new_found] in Hn.
  - destruct Hn as (r & Hr & Hs & T & Hc). assert (Hli : listed r) by (unfold listed; tauto). destruct (listed_idle U p b r G Hr Hli) as (_ & _ & HbU & _).
    apply (finish_new N A L U p p1 b r r alloc blk (S fuel)); try done; [by apply covers_but|apply (cover_none U L b r); [by apply Hcov|done]|].
    destruct Hs as [?|Hs]; [by left|]. right. apply (buf_facts U p b r G Hr); [done|by left].
  - destruct Hn as (r & Hr & Hs & G1 & Hc). cbn [got_new]. rewrite kbind_kret. assert (Hli : listed r) by (unfold listed; tauto). destruct (listed_idle U p b r G Hr Hli) as (_ & Hw & HbU & _).
    destruct (changed_parts _ _ _ _ Hc) as [Eb Es].
    destruct (finish_written N A L U p1 b (set_b_state BUF_STATE_WRITING r) alloc blk fuel) as (b' & p' & E' & Hes & Hf); try done.
    + by rewrite Es.
    + by apply (writing_view U A p p1 b r).
    + rewrite Eb, map_size_insert_Some; [done|by exists r].
    + apply (covers_changed b (set_b_state BUF_STATE_WRITING r) U U L L p p1 (covers_but b _ _ _ Hcov)); done.
    + apply (cover_none U L b r); [by apply Hcov|done].
    + by rewrite Eb, lookup_insert_eq.
    + by apply (not_cached_changed p p1 b r (set_b_state BUF_STATE_WRITING r)); [|done|rewrite Hs| |].
    + exists b', p'. split; [done|]. split; [congruence|]. unfold zeros in *. by rewrite Es in Hf.
  - subst p1. exfalso. destruct (rep_spare N A L p HR Hroom) as (b & r & Hr & HL). destruct Hcov as [H1 _]. specialize (H1 b r Hr). unfold covered in H1. rewrite HL in H1. by apply (new_avail U p b r p).
Qed.

(** The block is in the cache. *)
Lemma fetch_cached N A L U p b r p1 : pool_rep N A L p -> usable L (b_blkno r) -> bgood U p -> covers U L p -> bufs p !! b = Some r -> bgood (fresh_if b r U) p1 -> changed b (locked_buf p r) p p1 ->
  b_state r <> BUF_STATE_FREE -> b_state r <> BUF_STATE_READING -> b_state r <> BUF_STATE_WRITING ->
  let r1 := locked_buf p r in
  bgood U p1 /\ bufs p1 !! b = Some r1 /\ b <> 0 /\ (b_state r1 = BUF_STATE_LOCKED \/ b_state r1 = BUF_STATE_UPDATED) /\ 1 <= b_locks r1 /\ bufsize p1 = bufsize p /\
  exists L', takes b (b_blkno r) (Hold (b_blkno r) 1 false true) L L' /\ pool_rep N A L' p1.
Proof.
  intros HR Hus G Hcov Hr G1 Hc N1 N2 N3 r1. pose proof HR as [_ Hsz V HN]. destruct (changed_parts _ _ _ _ Hc) as [Eb Es]. destruct (buf_facts U p b r G Hr) as (Hb0 & _ & [Hl _ _ _] & _).
  pose proof (proj1 Hcov b r Hr) as Hat. assert (Hni : b_state r <> BUF_STATE_INVALID).
  { unfold covered in Hat. destruct (L !! b) as [h|] eqn:Hh; [|by destruct Hat as [-> |[-> | ->]]]. destruct Hat as (Ek & _ & Hs & _). rewrite (Hus b h Hh (eq_sym Ek)) in Hs. by destruct Hs as [-> | ->]. }
  assert (EU : fresh_if b r U = U) by (unfold fresh_if; by destruct (Z.eqb_spec (b_state r) BUF_STATE_INVALID)). rewrite EU in G1.
  assert (V1 : cview A p1) by (pose proof (locked_view U A p p1 b r G V Hr Hc N1 N2 N3) as V1; by destruct (Z.eqb_spec (b_state r) BUF_STATE_INVALID)).
  assert (Hs1 : b_state r1 = BUF_STATE_LOCKED \/ b_state r1 = BUF_STATE_UPDATED).
  { unfold r1, locked_buf. cbn [b_state]. unfold covered in Hat. destruct (L !! b) as [h|] eqn:Hh.
    - destruct Hat as (Ek & _ & Hs & _). rewrite (Hus b h Hh (eq_sym Ek)) in Hs. destruct Hs as [-> | ->]; cbn; tauto.
    - destruct Hat as [?|[-> | ->]]; [done|cbn; tauto..]. }
  split_and!; try done; [by apply (changed_lookup b r1 p)|cbn; lia|].
  assert (Hrep : forall L', (forall a, a <> b -> L' !! a = L !! a) -> covered U L' b r1 -> pool_rep N A L' p1) by (intros L' HL' Hat'; by apply (rep_intro N L U p b r r1 A L' U p1 (covers_but b _ _ _ Hcov))).
  unfold covered in Hat. destruct (L !! b) as [h|] eqn:Hh.
  - exists (<[b := locked_by 1 h]> L). destruct Hat as (Ek & El & Hs & HU). pose proof (Hus b h Hh (eq_sym Ek)) as Hv. split; [left; by exists h|]. apply Hrep; [intros a Ha; by rewrite lookup_insert_ne|].
    unfold covered. rewrite lookup_insert_eq. split_and!; cbn; [done|by rewrite El|by rewrite Hv|done].
  - exists (<[b := Hold (b_blkno r) 1 false true]> L). destruct (listed_idle U p b r G Hr Hat) as (Hl0 & _ & HbU & _). split; [right; split; [done|]; split; [|done]|].
    + intros a h Hah Ek. destruct Hcov as [H1 H2]. destruct (H2 a h Hah) as [ra Hra]. specialize (H1 a ra Hra). unfold covered in H1. rewrite Hah in H1. destruct H1 as (Ek' & _ & Hs & _).
      assert (a = b); [|congruence]. apply (good_one U p a b ra r G Hra Hr); [|done|congruence]. destruct (h_valid h); [by destruct Hs as [-> | ->]|by rewrite Hs].
    + apply Hrep; [intros a Ha; by rewrite lookup_insert_ne|]. unfold covered. rewrite lookup_insert_eq. split_and!; cbn; [done|by rewrite Hl0|done|done].
Qed.

(** Nobody waits. *)
Lemma no_transfer U L p b r : covers U L p -> bufs p !! b = Some r -> b_state r = BUF_STATE_READING \/ b_state r = BUF_STATE_WRITING -> False.
Proof.
  intros [H1 _] Hr Hs. specialize (H1 b r Hr). unfold covered, held_buf, listed in H1. destruct (L !! b) as [h|]; [|destruct Hs as [Hs|Hs]; rewrite Hs in H1; by destruct H1 as [?|[?|?]]].
  destruct H1 as (_ & _ & H1 & _). destruct (h_valid h), Hs as [Hs|Hs]; rewrite Hs in H1; done || by destruct H1.
Qed.

(** ** The laws *)

Lemma pool_one N A L p b1 b2 h1 h2 : pool_rep N A L p -> L !! b1 = Some h1 -> L !! b2 = Some h2 -> h_blk h1 = h_blk h2 -> b1 = b2.
Proof.
  intros HR H1 H2 E. destruct (rep_held N A L p b1 h1 HR H1) as (U & r1 & G & _ & Hr1 & (E1 & _) & Hs1 & _). destruct (rep_held N A L p b2 h2 HR H2) as (_ & r2 & _ & _ & Hr2 & (E2 & _) & Hs2 & _).
  apply (good_one U p b1 b2 r1 r2 G Hr1 Hr2); [|..]; [destruct Hs1 as [-> |[-> |[-> | ->]]]|destruct Hs2 as [-> |[-> |[-> | ->]]]|congruence]; done.
Qed.

Lemma pool_get N A L p blk : pool_rep N A L p -> roomy N L -> usable L blk -> is_Some (A !! blk) ->
  exists b p', c_get blk p = Done (b, p') /\ bufsize p' = bufsize p /\
    ((b = 0 /\ blk ∈ bad /\ pool_rep N A L p') \/ (b <> 0 /\ exists L', takes b blk (Hold blk 1 false true) L L' /\ pool_rep N A L' p')).
Proof.
  intros HR Hroom Hus Ha. pose proof HR as [(U & G & Hcov) Hsz V HN]. cbn [c_get pool_cache]. unfold get_buffer. rewrite kbind_assoc. destruct (lookup_run U p 0 blk G (rep_room N A L p HR Hroom)) as (l & p1 & E & Hl). step E.
  destruct l as [|b|b]; cbn [looked_up] in Hl.
  - destruct Hl as [-> Hnc]. rewrite kbind_assoc. destruct (fetch_new N A L p false blk 0%nat HR Hroom Hnc ltac:(done)) as (b & p' & E' & Hes & Hf). exists b, p'. split; [exact E'|]. split; [done|].
    destruct Hf as [(-> & [_ Hbad] & R')|(Hb & HL & R')]; [by left|]. right. split; [done|]. eexists. split; [|exact R']. right. split; [done|]. split; [|done].
    intros a h Hah Ek. destruct (rep_held N A L p a h HR Hah) as (_ & ra & _ & _ & Hra & (Ek' & _) & Hs & _). apply (Hnc a ra Hra); [|congruence]. by destruct Hs as [-> |[-> |[-> | ->]]].
  - destruct Hl as (r & Hr & <- & G1 & Hc & N1 & N2 & N3). destruct (fetch_cached N A L U p b r p1 HR Hus G Hcov Hr G1 Hc N1 N2 N3) as (G1' & Hr1 & Hb0 & Hs1 & Hl1 & Es & L' & Ht & R').
    unfold take_cached. rewrite kbind_assoc. step (get_buf_run p1 b _ Hr1). assert (He : b_state (locked_buf p r) =? BUF_STATE_ERROR = false) by (by destruct Hs1 as [-> | ->]). rewrite He, kbind_kret. cbn [finish_call FINISH_STEPS].
    exists b, p1. split; [done|]. split; [done|]. right. split; [done|]. by exists L'.
  - destruct Hl as (r & Hr & _ & Hs & _). exfalso. by apply (no_transfer U L p b r).
Qed.

Lemma pool_alloc N A L p blk : pool_rep N A L p -> roomy N L -> unheld L blk ->
  exists b p', c_alloc blk p = Done (b, p') /\ bufsize p' = bufsize p /\ b <> 0 /\ L !! b = None /\ pool_rep N (<[blk := replicate (Z.to_nat (bufsize p)) 0]> A) (<[b := Hold blk 1 true true]> L) p'.
Proof.
  intros HR Hroom Hun. pose proof HR as [(U & G & Hcov) Hsz V HN]. cbn [c_alloc pool_cache]. unfold alloc_buffer. rewrite kbind_assoc. destruct (lookup_run U p 0 blk G (rep_room N A L p HR Hroom)) as (l & p1 & E & Hl). step E.
  destruct l as [|b|b]; cbn [looked_up] in Hl.
  - destruct Hl as [-> Hnc]. rewrite kbind_assoc. destruct (fetch_new N A L p true blk 0%nat HR Hroom Hnc ltac:(done)) as (b & p' & E' & Hes & Hf). exists b, p'. split; [exact E'|]. split; [done|].
    destruct Hf as [(_ & [? _] & _)|(Hb & HL & R')]; done.
  - destruct Hl as (r & Hr & <- & G1 & Hc & N1 & N2 & N3). destruct (fetch_cached N A L U p b r p1 HR (unheld_usable _ _ Hun) G Hcov Hr G1 Hc N1 N2 N3) as (G1' & Hr1 & Hb0 & Hs1 & Hl1 & Es & L' & Ht & R').
    destruct Ht as [(h0 & Hh0 & Ek0 & _)|(HbL & _ & ->)]; [by destruct (Hun b h0 Hh0)|]. assert (He : b_state (locked_buf p r) =? BUF_STATE_ERROR = false) by (by destruct Hs1 as [-> | ->]).
    assert (Ez : zeros p1 = replicate (Z.to_nat (bufsize p)) 0) by (unfold zeros; by rewrite Es).
    destruct (pool_store N A _ p1 b (Hold (b_blkno r) 1 false true) (zeros p1) R' (lookup_insert_eq _ _ _) eq_refl) as (p2 & E2 & Es2 & R2). exists b, p2.
    unfold alloc_cached. rewrite kbind_assoc. step (get_buf_run p1 b _ Hr1). rewrite He, kbind_assoc, kbind_kget, kbind_assoc. cbn [c_store pool_cache] in E2. unfold store in E2. step E2. rewrite kbind_kret. cbn [finish_call FINISH_STEPS].
    split; [done|]. split; [congruence|]. split; [done|]. split; [done|]. rewrite insert_insert_eq, Ez in R2. exact R2.
  - destruct Hl as (r & Hr & _ & Hs & _). exfalso. by apply (no_transfer U L p b r).
Qed.

Lemma rep_forget N A L p blk : pool_rep N A L p -> pool_rep N (delete blk A) L p.
Proof. intros [H1 H2 H3 H4]. split; try done. apply (view_sub A); [done|]. apply delete_subseteq. Qed.

Lemma pool_invalidate N A L p blk : pool_rep N A L p -> roomy N L -> unheld L blk ->
  exists p', c_invalidate blk p = Done (tt, p') /\ bufsize p' = bufsize p /\ pool_rep N (delete blk A) L p'.
Proof.
  intros HR Hroom Hun. pose proof HR as [(U & G & Hcov) Hsz V HN]. cbn [c_invalidate pool_cache]. unfold invalidate_buffer. rewrite kbind_assoc. destruct (lookup_run U p 0 blk G (rep_room N A L p HR Hroom)) as (l & p1 & E & Hl). step E.
  destruct l as [|b|b]; cbn [looked_up] in Hl.
  - destruct Hl as [-> _]. rewrite kbind_kret. exists p. split; [done|]. split; [done|]. by apply rep_forget.
  - destruct Hl as (r & Hr & <- & G1 & Hc & N1 & N2 & N3). destruct (fetch_cached N A L U p b r p1 HR (unheld_usable _ _ Hun) G Hcov Hr G1 Hc N1 N2 N3) as (G1' & Hr1 & Hb0 & Hs1 & Hl1 & Es & L' & Ht & R').
    destruct Ht as [(h0 & Hh0 & Ek0 & _)|(HbL & _ & ->)]; [by destruct (Hun b h0 Hh0)|]. set (h := Hold (b_blkno r) 1 false true) in *.
    destruct (pool_invalid N A _ p1 b h R' (lookup_insert_eq _ _ _)) as (p2 & E2 & Es2 & R2). destruct (pool_release N _ _ p2 b (invalidated h) R2 (lookup_insert_eq _ _ _) ltac:(by left)) as (p3 & E3 & Es3 & R3).
    cbn [c_invalid c_release pool_cache] in E2, E3. unfold invalidate. rewrite !kbind_assoc. step E2. step E3. rewrite kbind_kret. exists p3. split; [done|]. split; [congruence|].
    cbn [h_locks h invalidated h_blk] in R3. change (1 <? 1) with false in R3. cbv iota in R3. rewrite insert_insert_eq, delete_insert_id in R3 by done. done.
  - destruct Hl as (r & Hr & _ & Hs & _). exfalso. by apply (no_transfer U L p b r).
Qed.

#[export] Instance pool_spec : CacheSpec bufpool.
Proof.
  refine {| rep := pool_rep; block_bytes p := Z.to_nat (bufsize p) |}.
  - apply pool_one.
  - intros N A L p blk HR Hroom Hus Ha. destruct (pool_get N A L p blk HR Hroom Hus Ha) as (b & p' & E & Es & Hcase). exists b, p'. split; [done|]. split; [by rewrite Es|]. destruct Hcase as [(? & _ & ?)|?]; [by left|by right].
  - intros N A L p blk HR Hroom Hun. destruct (pool_alloc N A L p blk HR Hroom Hun) as (b & p' & E & Es & Hb & HL & R'). exists b, p'. split; [done|]. split; [by rewrite Es|]. done.
  - apply pool_data.
  - intros N A L p b h d HR Hh Hv. destruct (pool_store N A L p b h d HR Hh Hv) as (p' & E & Es & R'). exists p'. split; [done|]. by rewrite Es.
  - intros N A L p b h HR Hh Hv. destruct (pool_updated N A L p b h HR Hh Hv) as (p' & E & Es & R'). exists p'. split; [done|]. by rewrite Es.
  - intros N A L p b h HR Hh. destruct (pool_invalid N A L p b h HR Hh) as (p' & E & Es & R'). exists p'. split; [done|]. by rewrite Es.
  - intros N A L p b h HR Hh Hok. destruct (pool_release N A L p b h HR Hh Hok) as (p' & E & Es & R'). exists p'. split; [done|]. by rewrite Es.
  - intros N A L p blk HR Hroom Hun. destruct (pool_invalidate N A L p blk HR Hroom Hun) as (p' & E & Es & R'). exists p'. split; [done|]. by rewrite Es.
Defined.

(** ** A new pool *)

Lemma init_number (l : list Z) (r : buf) : NoDup l -> size (list_to_map ((fun b => (b, r)) <$> l) : gmap Z buf) = length l.
Proof.
  induction l as [|b l IH]; [done|]. intros [Hb Hn]%NoDup_cons. cbn [fmap list_fmap list_to_map foldr curry]. rewrite map_size_insert_None; [cbn; f_equal; by apply IH|].
  apply not_elem_of_list_to_map_1. rewrite <- list_fmap_compose. cbn. rewrite list_elem_of_fmap. by intros (x & -> & Hx).
Qed.

Lemma init_rep size l d : NoDup l -> 0 ∉ l -> 0 <= size -> pool_rep (length l) d ∅ (init_buffer_pool size l d).
Proof.
  intros Hn H0 Hs. destruct (init_cinv size l d Hn H0 Hs) as (_ & _ & V). split; [exists ∅; split; [by apply init_good|]|done|done|by apply init_number].
  split; [|intros a h; by rewrite lookup_empty]. intros b r. cbn. rewrite table_lookup. destruct (decide (b ∈ l)); [|done]. intros [= <-]. unfold covered. rewrite lookup_empty. by left.
Qed.

End Pool.
