(* ===== verification/Volume.v ===== *)
(** * The free space of a volume on the buffer pool (sys/fs/dfs/group.c,
      sys/krnl/buf.c)

    The allocation routines of the disk file system run on the buffer pool,
    whose device cannot read the blocks of [bad].  The four routines are the
    steps of [space_step], and a client never gets what it holds.  If all blocks
    can be read and the hints are right, a routine that finds nothing is right.
    The last theorem is about hints that are not: after a mount they are
    unknown, and the first [free_blocks] in a group sets one that hides the free
    blocks below it. *)

From S2P Require Import Prelude Bitops Buf Bufcache Bufview Blocks Group Groups Space Poolblocks.
Local Open Scope k_scope.

Section Volume.
Variable bad : gset Z.
#[local] Instance volume_cache : BlockCache bufpool := pool_cache bad.
#[local] Instance volume_spec : CacheSpec bufpool := pool_spec bad.
Implicit Types fs : filsys bufpool.

(** The invariant of a volume on the pool. *)
Definition volume_ok (N : nat) (A : gmap Z (list Z)) (L : gmap Z hold) fs : Prop := fs_ok N A L fs.

Lemma all_readable : bad = ∅ -> reliable.
Proof.
  intros Hb N A L p blk b p' R Hroom Hus Ha E ->. destruct (pool_get bad N A L p blk R Hroom Hus Ha) as (b & q & E' & _ & Hcase). assert (E2 := eq_trans (eq_sym E) E'). injection E2 as <- <-.
  destruct Hcase as [(_ & Hin & _)|[? _]]; [|done]. by rewrite Hb, elem_of_empty in Hin.
Qed.

Lemma step_weaken (R R' : Prop) F o r F' : (R' -> R) -> space_step R F o r F' -> space_step R' F o r F'.
Proof. intros H. destruct o; cbn; try done; intros (m & Hm & HF); exists m; split; auto. Qed.

(** C5: each of [new_block], [free_blocks], [new_inode] and [free_inode] returns
    and is a step of the set of free blocks and inodes: [new_block] and
    [new_inode] change nothing, or take one that was free and return it, and the
    other two give back what they have been given, which is in use.  Counters,
    bitmaps and buffers stay consistent, and no block but the bitmaps changes. *)
Theorem space_refined (N : nat) (A : gmap Z (list Z)) (L : gmap Z hold) (fs : filsys bufpool) (o : fop) :
  volume_ok N A L fs -> fop_ok (all_space fs) (free_space A fs) o ->
  exists r fs' A', fop_run o fs = Done (r, fs') /\ moved N A A' L fs fs' /\ space_step (bad = ∅) (free_space A fs) o r (free_space A' fs').
Proof.
  intros HK Ho. destruct (fop_step N A L fs o HK Ho) as (r & fs' & A' & E & HM & HS). exists r, fs', A'. split; [done|]. split; [done|].
  apply (step_weaken reliable); [exact all_readable|done].
Qed.

(** C6: a client that calls the four routines in any order, and gives back only
    what it holds, never gets a block or an inode that it holds, nor one that
    was in use before it started; if the device can read all blocks, nothing is
    lost either: what was free is free or held. *)
Theorem space_exclusive (N : nat) (A : gmap Z (list Z)) (L : gmap Z hold) (fs : filsys bufpool) (client : list (fop * Z) -> option fop) (n : nat) :
  volume_ok N A L fs -> (forall hist o, client hist = Some o -> legal (all_space fs) hist o) ->
  exists hist fs' A', drive n client [] fs = Done (hist, fs') /\ moved N A A' L fs fs' /\ NoDup (held hist) /\
    (forall k x, (k, x) ∈ held hist -> in_use k A' fs' x /\ is_free k A fs x) /\
    (bad = ∅ -> forall k x, is_free k A fs x -> is_free k A' fs' x \/ (k, x) ∈ held hist).
Proof.
  intros HK Hcl. destruct (drive_run N L n client A fs [] (free_space A fs) (all_space fs) HK ltac:(done) Hcl) as (hist & fs' & A' & E & HM & [H1 H2 H3 H4]).
  { split; [constructor|intros k x Hx; by apply elem_of_nil in Hx|done|]. intros _ k x Hx. by left. }
  exists hist, fs', A'. split; [done|]. split; [done|]. split; [done|]. split.
  - intros k x Hx. destruct (H2 k x Hx) as (Hv & Hn & H0). split; [|done]. split; [|done]. by apply (mv_valid _ _ _ _ _ _ HM).
  - intros Hb k x Hx. apply H4; [by apply all_readable|done].
Qed.

(** C18: if the device can read all blocks and the hints are right, [new_block]
    finds no block only if there is none, and [new_inode] no inode only if there
    is none. *)
Theorem disk_full_exact (N : nat) (A : gmap Z (list Z)) (L : gmap Z hold) (fs : filsys bufpool) (goal parent : Z) (dir : bool) :
  bad = ∅ -> volume_ok N A L fs -> 0 <= goal -> valid Inode fs parent -> hints_ok Block A fs -> hints_ok Inode A fs ->
  ((exists fs', new_block goal fs = Done (NOBLOCK, fs')) <-> forall x, ~ is_free Block A fs x) /\
  ((exists fs', new_inode parent dir fs = Done (NOINODE, fs')) <-> forall x, ~ is_free Inode A fs x).
Proof.
  intros Hb HK Hg Hp HB HI. assert (Hrel := all_readable Hb). destruct (valid_inode N A L fs parent (proj2 HK) Hp) as [Hne Hrange].
  destruct (new_block_run N A L fs goal HK Hg) as (r & fs1 & A1 & E1 & P1 & F1). destruct (new_inode_run N A L fs parent dir HK Hne Hrange) as (i & fs2 & A2 & E2 & P2 & F2). split; split.
  - intros (fs' & E). rewrite E in E1. injection E1 as <- _. by apply F1.
  - intros Hn. destruct P1 as [(-> & _)|(_ & HT)]; [by exists fs1|]. by destruct (Hn r (tk_was _ _ _ _ _ _ _ _ HT)).
  - intros (fs' & E). rewrite E in E2. injection E2 as <- _. by apply F2.
  - intros Hn. destruct P2 as [(-> & _)|(_ & HT)]; [by exists fs2|]. by destruct (Hn i (tk_was _ _ _ _ _ _ _ _ HT)).
Qed.

(** C33: the first [free_blocks] in a group whose hint is unknown, as all are
    after a mount, sets the hint to the least block [x] of the group that it gives
    back, since the unknown hint -1 is larger.  [new_block] then never returns
    a free block of the group below [x], however often it is called, unless its
    goal lies there itself; when no other block is free it returns NOBLOCK. *)
Theorem hint_hides_blocks (N : nat) (A : gmap Z (list Z)) (L : gmap Z hold) (fs : filsys bufpool) (xs : list Z) (x : Z) (g : blkgroup) (goals : list Z) :
  let per := blocks_per_group (super fs) in let hidden y := y / per = x / per /\ y < x in
  bad = ∅ -> volume_ok N A L fs -> NoDup xs -> Forall (in_use Block A fs) xs -> x ∈ xs -> (forall y, y ∈ xs -> ~ hidden y) ->
  groups fs !! Z.to_nat (x / per) = Some g -> first_free_block g = NONE -> Forall (fun goal => 0 <= goal /\ ~ hidden goal) goals ->
  exists fs1 rs fs2 A2, free_blocks xs fs = Done (tt, fs1) /\ new_blocks goals fs1 = Done (rs, fs2) /\ volume_ok N A2 L fs2 /\
    (forall y, hidden y -> is_free Block A fs y -> is_free Block A2 fs2 y /\ (y ∉ rs)) /\
    (forall goal, 0 <= goal -> ~ hidden goal -> (forall y, is_free Block A2 fs2 y -> hidden y) -> exists fs3, new_block goal fs2 = Done (NOBLOCK, fs3)).
Proof.
  intros per hidden Hb HK Hnd Hu Hx Hleast Hg Hnone Hgs. destruct (free_blocks_run N A L fs xs HK Hu Hnd) as (fs1 & A1 & m & E & HR & R & Hm). specialize (Hm (all_readable Hb)). rewrite Hm in HR.
  destruct (fo_per _ _ _ _ (proj2 HK) Block) as [Hp _]. cbn [k_per] in Hp. fold per in Hp. set (i := Z.to_nat (x / per)) in *. set (h := x mod per).
  assert (Hpos : forall y, y ∈ xs -> 0 <= y / per) by (intros y Hy; rewrite list.Forall_forall in Hu; destruct (Hu y Hy) as [[? _] _]; apply Z.div_pos; lia).
  assert (Hhid : forall y, hidden y <-> below per i h y).
  { intros y. unfold hidden, below, i, h. rewrite Z2Nat.id by (by apply Hpos). pose proof (Z.div_mod x per ltac:(lia)). pose proof (Z.div_mod y per ltac:(lia)). split; intros [Ey ?]; (split; [done|]); rewrite Ey in *; lia. }
  pose proof (shape_per Block fs fs1 (fr_shape _ _ _ _ _ _ _ _ HR)) as Eper. cbn [k_per] in Eper. fold per in Eper.
  assert (Hkp : hint_kept Block i h fs1).
  { destruct (fr_low _ _ _ _ _ _ _ _ HR i g Hg) as (g1 & Hg1 & Eh). exists g1. split; [done|]. pose proof (Z.mod_pos_bound x per ltac:(lia)). cbn [k_per k_hint] in Eh. fold per in Eh.
    rewrite (low_hint_least per i x xs) in Eh; [fold h in Eh; cbn [k_hint]; rewrite Eh; unfold NONE; lia|lia|done|done|rewrite Hnone; unfold NONE; lia|].
    intros y Hy Ey. destruct (Z.lt_ge_cases (y mod per) (x mod per)) as [Hlt|]; [|done]. destruct (Hleast y Hy). apply Hhid. split; [|done]. rewrite <- Ey, Z2Nat.id; [done|by apply Hpos]. }
  destruct (below_hidden N L i h goals A1 fs1 (conj R (fr_wf _ _ _ _ _ _ _ _ HR)) Hkp) as (rs & fs2 & A2 & E2 & HM & Hkp2 & Hy).
  { rewrite Eper. apply (Forall_impl _ _ _ Hgs). intros goal [? Hn]. by rewrite <- Hhid. }
  rewrite Eper in Hy. pose proof (shape_per Block fs1 fs2 (mv_shape _ _ _ _ _ _ HM)) as Eper2. cbn [k_per] in Eper2. rewrite Eper in Eper2.
  exists fs1, rs, fs2, A2. split; [done|]. split; [done|]. split; [apply HM|]. split.
  - intros y Hh Hf. apply Hy; [by apply Hhid|]. apply (fr_free _ _ _ _ _ _ _ _ HR). by left.
  - intros goal Hg0 Hn Hall. apply (below_none N A2 L fs2 i h goal (mv_ok _ _ _ _ _ _ HM) Hkp2 Hg0); rewrite Eper2; [by rewrite <- Hhid|]. intros y Hf. by apply Hhid, Hall.
Qed.

End Volume.

(** A volume of eight blocks that has just been mounted: the descriptor is in
    block 1, the bitmaps are in the blocks 2 and 3, the blocks 4, 5 and 7 and the
    inodes 1, 2 and 3 are free. *)
Definition demo_disk : gmap Z (list Z) := {[1 := replicate 8 0; 2 := [79;0;0;0;0;0;0;0]; 3 := [1;0;0;0;0;0;0;0]]}.
Definition demo_new : bufpool := init_buffer_pool 8 [100; 200; 300] demo_disk.
Definition demo_pool : bufpool := match c_get (BlockCache := pool_cache ∅) 1 demo_new with Done (_, p) => p | _ => demo_new end.

Definition mounted : filsys bufpool :=
  Filsys 1 0 (Super 1 1 4 8 3 3 8 4) demo_pool [100] [Grp (Desc 8 2 3 4 3 3) NONE NONE].

Definition script (os : list fop) (hist : list (fop * Z)) : option fop := os !! length hist.

(** ** Witnesses *)

Definition demo_held : gmap Z hold := {[100 := Hold 1 1 false true]}.

Lemma volume_rep : pool_rep 3 demo_disk demo_held demo_pool.
Proof.
  assert (R0 : pool_rep 3 demo_disk ∅ demo_new) by (apply (init_rep 8 [100; 200; 300] demo_disk); [repeat constructor; set_solver|set_solver|done]).
  assert (Hroom : roomy 3 ∅) by (split; [rewrite map_size_empty; lia|]; intros b h; by rewrite lookup_empty).
  destruct (pool_get ∅ 3 demo_disk ∅ demo_new 1 R0 Hroom ltac:(by intros b h Hb; rewrite lookup_empty in Hb) ltac:(by eexists)) as (b & p' & E & _ & Hcase). assert (E0 : c_get (BlockCache := pool_cache ∅) 1 demo_new = Done (100, demo_pool)) by (vm_compute; reflexivity).
  rewrite E0 in E. injection E as <- <-. destruct Hcase as [[? _]|(_ & L' & [(h0 & Hh0 & _)|(_ & _ & ->)] & R)]; [done|by rewrite lookup_empty in Hh0|exact R].
Qed.

Lemma demo_bitmaps k : exists d, demo_disk !! k_map k (Desc 8 2 3 4 3 3) = Some d /\ bitmap_ok d (match k with Block => 8 | Inode => 4 end) /\ 3 = zero_count d (match k with Block => 8 | Inode => 4 end).
Proof.
  assert (Hb : forall x : Z, 0 <= x < 256 -> bytes_ok [x;0;0;0;0;0;0;0]) by (intros x Hx; repeat (apply Forall_cons; split; [lia|]); by apply Forall_nil).
  assert (Ht : forall d n, forallb (fun m => negb (bit d m)) (seqZ n (32 * words n - n)) = true -> tail_clear d n).
  { intros d n E m Hm. rewrite forallb_forall in E. specialize (E m). destruct (bit d m); [|done]. discriminate E. apply list_elem_of_In, elem_of_seqZ. lia. }
  destruct k; eexists; (split; [reflexivity|]); (split; [split; [apply Hb; lia|vm_compute; discriminate|lia|apply Ht; vm_compute; reflexivity]|vm_compute; reflexivity]).
Qed.

Lemma demo_held_is b h : demo_held !! b = Some h -> b = 100 /\ h = Hold 1 1 false true.
Proof. unfold demo_held. by intros [<- <-]%lookup_singleton_Some. Qed.

Lemma mounted_ok : @fs_ok bufpool (pool_cache ∅) (pool_spec ∅) 3 demo_disk demo_held mounted.
Proof.
  split; [exact volume_rep|]. split.
  - split; [vm_compute; lia|]. intros b h [-> ->]%demo_held_is. cbn. lia.
  - reflexivity.
  - intros []; cbn; unfold W32; lia.
  - intros k [|i] g Hg; [injection Hg as <-|discriminate Hg]. destruct (demo_bitmaps k) as (d & Hd). split; [exists d; by destruct k|destruct k; cbn; lia|by left; destruct k|].
    intros b h [-> ->]%demo_held_is. by destruct k.
  - intros k1 k2 [|i1] [|i2] g1 g2 H1 H2; [|discriminate H2|discriminate H1..]. injection H1 as <-. injection H2 as <-. by destruct k1, k2.
  - by intros [].
  - intros i Hi. assert (i = 0) as -> by (cbn in Hi; lia). split; [done|]. by exists 100, (Hold 1 1 false true).
  - intros goal Hg. cbn in Hg. exists (Grp (Desc 8 2 3 4 3 3) NONE NONE). cbn. rewrite Z.div_small, Z.mod_small by lia. split; [done|lia].
Qed.

Lemma demo_uses_6 : in_use Block demo_disk mounted 6.
Proof.
  split; [split; [done|]; by exists 8|]. intros (_ & g & d & Hg & Hd & _ & Hb). assert (g = Grp (Desc 8 2 3 4 3 3) NONE NONE) as -> by (vm_compute in Hg; by injection Hg).
  assert (d = [79;0;0;0;0;0;0;0]) as -> by (vm_compute in Hd; by injection Hd). discriminate Hb.
Qed.

Lemma demo_root : valid Inode mounted 0.
Proof. split; [done|]. by exists 4. Qed.

Lemma demo_hints k : hints_ok k demo_disk mounted.
Proof. intros [|i] g Hg; [injection Hg as <-|discriminate Hg]. left. by destruct k. Qed.

Lemma space_refined_witness : exists r fs' A', fop_run (BlockCache0 := pool_cache ∅) (FreeBlocks [6]) mounted = Done (r, fs') /\
  moved (BlockCache0 := pool_cache ∅) (CacheSpec0 := pool_spec ∅) 3 demo_disk A' demo_held mounted fs' /\
  space_step (@empty (gset Z) _ = ∅) (free_space demo_disk mounted) (FreeBlocks [6]) r (free_space A' fs').
Proof. apply (space_refined ∅); [exact mounted_ok|]. split; [repeat constructor; set_solver|]. apply Forall_singleton. exact demo_uses_6. Defined.

Lemma space_exclusive_witness : exists hist fs' A', drive (BlockCache0 := pool_cache ∅) 3 (script [NewBlock 7; NewBlock 0; NewInode 0 true]) [] mounted = Done (hist, fs') /\
  moved (BlockCache0 := pool_cache ∅) (CacheSpec0 := pool_spec ∅) 3 demo_disk A' demo_held mounted fs' /\ NoDup (held hist) /\
  (forall k x, (k, x) ∈ held hist -> in_use k A' fs' x /\ is_free k demo_disk mounted x) /\
  (@empty (gset Z) _ = ∅ -> forall k x, is_free k demo_disk mounted x -> is_free k A' fs' x \/ (k, x) ∈ held hist).
Proof.
  apply (space_exclusive ∅); [exact mounted_ok|]. intros hist o. unfold script. destruct (length hist) as [|[|[|n]]]; [intros [= <-]..|discriminate]; [done|done|exact demo_root].
Defined.

Lemma disk_full_exact_witness :
  ((exists fs', new_block (BlockCache0 := pool_cache ∅) 7 mounted = Done (NOBLOCK, fs')) <-> forall x, ~ is_free Block demo_disk mounted x) /\
  ((exists fs', new_inode (BlockCache0 := pool_cache ∅) 0 true mounted = Done (NOINODE, fs')) <-> forall x, ~ is_free Inode demo_disk mounted x).
Proof. apply (disk_full_exact ∅ 3 demo_disk demo_held mounted 7 0 true); [done|exact mounted_ok|done|exact demo_root|apply demo_hints..]. Defined.

Lemma demo_free_4 : is_free Block demo_disk mounted 4.
Proof. split; [done|]. eexists _, _. split; [reflexivity|]. split; [reflexivity|]. done. Qed.

Lemma hint_hides_blocks_witness : exists fs1 fs2 A2, free_blocks (BlockCache0 := pool_cache ∅) [6] mounted = Done (tt, fs1) /\
  new_blocks (BlockCache0 := pool_cache ∅) [7; 7; 7] fs1 = Done ([7; 6; NOBLOCK], fs2) /\ is_free Block A2 fs2 4.
Proof.
  destruct (hint_hides_blocks ∅ 3 demo_disk demo_held mounted [6] 6 (Grp (Desc 8 2 3 4 3 3) NONE NONE) [7; 7; 7]) as (fs1 & rs & fs2 & A2 & E1 & E2 & _ & H & _).
  - done.
  - exact mounted_ok.
  - repeat constructor; set_solver.
  - apply Forall_singleton. exact demo_uses_6.
  - by left.
  - intros y ->%list_elem_of_singleton [_ ?]. lia.
  - reflexivity.
  - reflexivity.
  - repeat (apply Forall_cons; split; [split; [lia|]; cbn; intros [_ ?]; lia|]). by apply Forall_nil.
  - exists fs1, fs2, A2. split; [exact E1|]. destruct (H 4) as [Hf _]; [split; vm_compute; reflexivity|exact demo_free_4|]. split; [|exact Hf].
    assert (Hrs : match free_blocks (BlockCache0 := pool_cache ∅) [6] mounted with
                  | Done (_, f) => match new_blocks (BlockCache0 := pool_cache ∅) [7; 7; 7] f with Done (rs, _) => rs | _ => [] end
                  | _ => [] end = [7; 6; NOBLOCK]) by (vm_compute; reflexivity).
    change (free_blocks (BlockCache0 := pool_cache ∅) [6] mounted = Done (tt, fs1)) in E1.
    change (new_blocks (BlockCache0 := pool_cache ∅) [7; 7; 7] fs1 = Done (rs, fs2)) in E2.
    rewrite E1, E2 in Hrs. rewrite <- Hrs. exact E2.
Defined.
