(* ===== verification/Dinode.v ===== *)
(** * Inodes of the disk file system (sys/fs/dfs/inode.c)

    An inode of the device is a descriptor of 128 bytes in a block of the inode
    table of its group.  The blocks of the file are the leaves of a tree: the
    descriptor has sixteen entries, the pages of the tree are blocks full of
    entries, and [depth] pages are between the descriptor and a block.

    A [struct inode] in memory is a locked buffer of the inode table and the
    place of the descriptor in it.  The fields of the descriptor are the words
    of the buffer, as in memory, so that two such structures for one inode share
    them.  Fields of [struct filsys] that never change after the mount are in
    [geometry].  The user of the thread, the time and the results of [kmalloc]
    are arguments. *)

From S2P Require Import Prelude Bitops Blocks Group.
Local Open Scope k_scope.

Definition DFS_TOPBLOCKDIR_SIZE : Z := 16.
Definition DFS_MAX_DEPTH : Z := 10.

Definition EIO : Z := 5.
Definition ENOMEM : Z := 12.
Definition EINVAL : Z := 22.

Definition S_IFDIR : Z := 0x4000.

Record geometry := Geo { blocksize : Z; inodes_per_block : Z; log_blkptrs_per_block : Z }.

(** The words of a descriptor; [mode] and [uid] share the first one, [gid] is in
    the second. *)
Definition DESC_WORDS : Z := 32.
Definition D_MODE : Z := 0.
Definition D_GID : Z := 1.
Definition D_CTIME : Z := 3.
Definition D_MTIME : Z := 4.
Definition D_BLOCKS : Z := 5.
Definition D_LINKCOUNT : Z := 8.
Definition D_DEPTH : Z := 9.
Definition D_BLOCKDIR : Z := 16.

(** [i_slot] is the place of the descriptor in the block. *)
Record inode := MkInode { i_ino : Z; i_slot : Z; i_buf : Z }.

(** ** Entries *)

(** Shifts use the low five bits of their count. *)
Definition shr32 (a n : Z) : Z := Z.shiftr a (Z.land n 31).
Definition shl32 (a n : Z) : Z := u32 (Z.shiftl a (Z.land n 31)).

Section Code.
Context {C : Type} `{!BlockCache C}.
Variable geo : geometry.
Let lg : Z := log_blkptrs_per_block geo.

(** The offsets below the top, from the shift of the level above on. *)
Fixpoint split_rest (n : nat) (shift iblock : Z) : list Z :=
  match n with
  | O => []
  | S n' =>
    let iblock' := Z.land iblock (u32 (shl32 1 shift - 1)) in
    let shift' := u32 (shift - lg) in
    shr32 iblock' shift' :: split_rest n' shift' iblock'
  end.

(** There are [DFS_MAX_DEPTH] places for offsets. *)
Definition split_levels (depth iblock : Z) : option (Z * list Z) :=
  if DFS_MAX_DEPTH <=? depth then None
  else
    let shift := u32 (depth * lg) in
    Some (shr32 iblock shift, split_rest (Z.to_nat depth) shift iblock).

(** An entry of the buffer, and a descriptor. *)
Definition get_entry (buf k : Z) : K (filsys C) Z := let* d := on_cache (c_data buf) in kopt (word_at d k).
Definition put_entry (buf k v : Z) : K (filsys C) unit := change_bitmap buf (fun d => put_word d k v).

Definition get_field (i : inode) (f : Z) : K (filsys C) Z := get_entry (i_buf i) (DESC_WORDS * i_slot i + f).
Definition put_field (i : inode) (f v : Z) : K (filsys C) unit := put_entry (i_buf i) (DESC_WORDS * i_slot i + f) v.

Definition mark_inode_dirty (i : inode) : K (filsys C) unit := on_cache (c_updated (i_buf i)).

Definition release (buf : Z) : K (filsys C) unit := on_cache (c_release buf).

(** ** The blocks of a file *)

Fixpoint walk (offsets : list Z) (block : Z) : K (filsys C) Z :=
  match offsets with
  | [] => kret block
  | o :: offsets' =>
    let* buf := on_cache (c_get block) in
    if buf =? 0 then kret NOBLOCK
    else
      let* block' := get_entry buf o in
      release buf ;;;
      if block' =? 0 then kret NOBLOCK else walk offsets' block'
  end.

Definition get_inode_block (i : inode) (iblock : Z) : K (filsys C) Z :=
  let* depth := get_field i D_DEPTH in
  let* s := kopt (split_levels depth iblock) in
  let* block := get_field i (D_BLOCKDIR + fst s) in
  walk (snd s) block.

(** A new page, or None if there is no buffer. *)
Definition new_page (dirblock : Z) : K (filsys C) Z :=
  let* buf := on_cache (c_alloc dirblock) in
  (if buf =? 0 then kret tt else on_cache (c_store buf (replicate (Z.to_nat (blocksize geo)) 0))) ;;;
  kret buf.

(** The buffer of the page [dirblock]; a new page is held already. *)
Definition hold_page (dirblock buf : Z) : K (filsys C) Z := if buf =? 0 then on_cache (c_get dirblock) else kret buf.

(** The pages between the top and the leaf. *)
Fixpoint descend (offsets : list Z) (dirblock buf : Z) : K (filsys C) (option (Z * Z)) :=
  match offsets with
  | [] => kret (Some (dirblock, buf))
  | o :: offsets' =>
    let* buf := hold_page dirblock buf in
    if buf =? 0 then kret None
    else
      let goal := u32 (dirblock + 1) in
      let* dirblock := get_entry buf o in
      if dirblock =? 0 then
        let* dirblock := new_block goal in
        if dirblock =? NOBLOCK then kret None
        else
          put_entry buf o dirblock ;;;
          on_cache (c_updated buf) ;;;
          release buf ;;;
          let* buf := new_page dirblock in
          if buf =? 0 then kret None else descend offsets' dirblock buf
      else release buf ;;; descend offsets' dirblock 0
  end.

(** The entry of the block in the leaf page. *)
Definition set_leaf (i : inode) (dirblock buf o block : Z) : K (filsys C) Z :=
  let* buf := hold_page dirblock buf in
  if buf =? 0 then kret NOBLOCK
  else
    let* block :=
      (if block =? NOBLOCK then
         let* goal := (if o =? 0 then kret (u32 (dirblock + 1)) else (let* b := get_entry buf (o - 1) in kret (u32 (b + 1)))) in
         let* block := new_block goal in
         (if block =? NOBLOCK then kret tt
          else
            let* n := get_field i D_BLOCKS in
            put_field i D_BLOCKS (u32 (n + 1)) ;;;
            mark_inode_dirty i) ;;;
         kret block
       else kret block) in
    if block =? NOBLOCK then kret NOBLOCK
    else
      put_entry buf o block ;;;
      on_cache (c_updated buf) ;;;
      release buf ;;;
      kret block.

(** [block] is stored as block [iblock] of the file; for NOBLOCK a new one is
    allocated. *)
Definition set_inode_block (i : inode) (iblock block : Z) : K (filsys C) Z :=
  let* fs := kget in
  let* group := udiv (i_ino i) (inodes_per_group (super fs)) in
  let goal := u32 (group * blocks_per_group (super fs)) in
  let* depth := get_field i D_DEPTH in
  if depth =? 0 then
    let* block :=
      (if block =? NOBLOCK then
         let* block := new_block goal in
         (if block =? NOBLOCK then kret tt
          else
            let* n := get_field i D_BLOCKS in
            put_field i D_BLOCKS (u32 (n + 1))) ;;;
         kret block
       else kret block) in
    if block =? NOBLOCK then kret NOBLOCK
    else
      put_field i (D_BLOCKDIR + iblock) block ;;;
      mark_inode_dirty i ;;;
      kret block
  else
    let* s := kopt (split_levels depth iblock) in
    let* dirblock := get_field i (D_BLOCKDIR + fst s) in
    let* top :=
      (if dirblock =? 0 then
         let* dirblock := new_block goal in
         if dirblock =? NOBLOCK then kret None
         else
           put_field i (D_BLOCKDIR + fst s) dirblock ;;;
           mark_inode_dirty i ;;;
           let* buf := new_page dirblock in
           kret (if buf =? 0 then None else Some (dirblock, buf))
       else kret (Some (dirblock, 0))) in
    match top with
    | None => kret NOBLOCK
    | Some (dirblock, buf) =>
      let* leaf := descend (removelast (snd s)) dirblock buf in
      match leaf with
      | None => kret NOBLOCK
      | Some (dirblock, buf) => set_leaf i dirblock buf (List.last (snd s) 0) block
      end
    end.

(** ** The tree grows *)

Fixpoint move_entries (n : nat) (i : inode) (buf k : Z) : K (filsys C) unit :=
  match n with
  | O => kret tt
  | S n' =>
    let* b := get_field i (D_BLOCKDIR + k) in
    put_entry buf k b ;;;
    put_field i (D_BLOCKDIR + k) 0 ;;;
    move_entries n' i buf (k + 1)
  end.

(** The entries of the top go to a new page; false if there is none. *)
Definition grow (i : inode) (depth : Z) : K (filsys C) bool :=
  let* b := get_field i D_BLOCKDIR in
  let* dirblock := new_block (u32 (b - 1)) in
  if dirblock =? NOBLOCK then kret false
  else
    let* buf := new_page dirblock in
    if buf =? 0 then kret false
    else
      move_entries (Z.to_nat DFS_TOPBLOCKDIR_SIZE) i buf 0 ;;;
      put_field i D_BLOCKDIR dirblock ;;;
      put_field i D_DEPTH (u32 (depth + 1)) ;;;
      on_cache (c_updated buf) ;;;
      mark_inode_dirty i ;;;
      release buf ;;;
      kret true.

Definition expand_inode (i : inode) : K (filsys C) Z :=
  let* depth := get_field i D_DEPTH in
  let* n := get_field i D_BLOCKS in
  let* ok := (if n =? u32 (DFS_TOPBLOCKDIR_SIZE * shl32 1 (u32 (depth * lg))) then grow i depth else kret true) in
  if ok then
    let* n := get_field i D_BLOCKS in
    set_inode_block i n NOBLOCK
  else kret NOBLOCK.

(** ** Inodes in memory *)

(** The buffer of the inode table and the place in it. *)
Definition inode_place (ino : Z) : K (filsys C) (Z * Z) :=
  let* fs := kget in
  let* group := udiv ino (inodes_per_group (super fs)) in
  let* rest := umod ino (inodes_per_group (super fs)) in
  let* k := udiv rest (inodes_per_block geo) in
  let* slot := umod ino (inodes_per_block geo) in
  let* g := get_group group in
  kret (u32 (inode_table_block (desc g) + k), slot).

(** [mem] is the result of [kmalloc]. *)
Definition get_inode (ino mem : Z) : K (filsys C) (Z + inode) :=
  let* fs := kget in
  if inode_count (super fs) <=? ino then kret (inl (- EINVAL))
  else if mem =? 0 then kret (inl (- ENOMEM))
  else
    let* pl := inode_place ino in
    let* buf := on_cache (c_get (fst pl)) in
    if buf =? 0 then kret (inl (- EIO)) else kret (inr (MkInode ino (snd pl) buf)).

Definition release_inode (i : inode) : K (filsys C) unit := if i_buf i =? 0 then kret tt else release (i_buf i).

Fixpoint clear_fields (n : nat) (i : inode) (f : Z) : K (filsys C) unit :=
  match n with
  | O => kret tt
  | S n' => put_field i f 0 ;;; clear_fields n' i (f + 1)
  end.

(** [memset] of the descriptor. *)
Definition clear_desc (i : inode) : K (filsys C) unit := clear_fields (Z.to_nat DESC_WORDS) i 0.

(** For the user [euid] and [egid] at the time [now]. *)
Definition alloc_inode (euid egid now mem : Z) (parent : inode) (mode : Z) : K (filsys C) (option inode) :=
  let* ino := new_inode (i_ino parent) (negb (Z.land mode S_IFDIR =? 0)) in
  if ino =? NOINODE then kret None
  else if mem =? 0 then kret None
  else
    let* pl := inode_place ino in
    let* buf := on_cache (c_get (fst pl)) in
    if buf =? 0 then kret None
    else
      let i := MkInode ino (snd pl) buf in
      clear_desc i ;;;
      put_field i D_MODE (mode + 65536 * euid) ;;;
      put_field i D_LINKCOUNT 1 ;;;
      put_field i D_GID egid ;;;
      put_field i D_CTIME now ;;;
      put_field i D_MTIME now ;;;
      mark_inode_dirty i ;;;
      kret (Some i).

(** ** The tree shrinks *)

Fixpoint get_entries (n : nat) (buf k : Z) : K (filsys C) (list Z) :=
  match n with
  | O => kret []
  | S n' => let* b := get_entry buf k in let* bs := get_entries n' buf (k + 1) in kret (b :: bs)
  end.

Fixpoint clear_entries (n : nat) (buf k : Z) : K (filsys C) unit :=
  match n with
  | O => kret tt
  | S n' => put_entry buf k 0 ;;; clear_entries n' buf (k + 1)
  end.

Fixpoint invalidate_blocks (bs : list Z) : K (filsys C) unit :=
  match bs with
  | [] => kret tt
  | b :: bs' => on_cache (c_invalidate b) ;;; invalidate_blocks bs'
  end.

(** The [count] entries from [k] on. *)
Definition remove_blocks (buf k count : Z) : K (filsys C) unit :=
  if 0 <? s32 count then
    let* bs := get_entries (Z.to_nat (s32 count)) buf k in
    invalidate_blocks bs ;;;
    free_blocks bs ;;;
    clear_entries (Z.to_nat (s32 count)) buf k
  else kret tt.

(** The pages that [truncate_inode] holds, by their levels: the buffer and the
    block. *)
Definition pages := list (option (Z * Z)).

(** The pages on the way to a block; None if one cannot be read. *)
Fixpoint load_pages (offsets : list Z) (d : nat) (ps : pages) (blk : Z) : K (filsys C) (option pages) :=
  match offsets with
  | [] => kret (Some ps)
  | o :: offsets' =>
    let* p := kopt (ps !! d) in
    let* held :=
      match p with
      | Some (buf, bk) =>
        if bk =? blk then kret buf
        else release buf ;;; on_cache (c_get blk)
      | None => on_cache (c_get blk)
      end in
    if held =? 0 then kret None
    else
      let* blk' := get_entry held o in
      load_pages offsets' (S d) (<[d := Some (held, blk)]> ps) blk'
  end.

(** The pages above a leaf that has been removed, from the level [d] on; true if
    none of them has stayed. *)
Fixpoint remove_pages (d : nat) (offsets : list Z) (ps : pages) : K (filsys C) bool :=
  match d with
  | O => kret true
  | S d' =>
    let* o := kopt (offsets !! d') in
    let* p := kopt (mjoin (ps !! d)) in
    put_entry (fst p) o 0 ;;;
    if o =? 0 then
      free_blocks [snd p] ;;;
      on_cache (c_invalid (fst p)) ;;;
      remove_pages d' offsets ps
    else
      on_cache (c_updated (fst p)) ;;;
      kret false
  end.

(** Blocks are removed from the end; true if all pages could be read. *)
Fixpoint truncate_loop (fuel : nat) (i : inode) (depth iblock blocksleft : Z) (ps : pages) : K (filsys C) (option pages) :=
  if blocksleft =? 0 then kret (Some ps)
  else
    match fuel with
    | O => khang
    | S fuel' =>
      let* s := kopt (split_levels depth iblock) in
      let* blk := get_field i (D_BLOCKDIR + fst s) in
      let* l := load_pages (snd s) 1 ps blk in
      match l with
      | None => kret None
      | Some ps =>
        let* p := kopt (mjoin (ps !! Z.to_nat depth)) in
        let o := List.last (snd s) 0 in
        if o <? blocksleft then
          let count := u32 (o + 1) in
          remove_blocks (fst p) 0 count ;;;
          free_blocks [snd p] ;;;
          on_cache (c_invalid (fst p)) ;;;
          let offsets := removelast (snd s) ++ [0] in
          let* top := remove_pages (Z.to_nat (depth - 1)) offsets ps in
          (if top && (List.hd 0 offsets =? 0) then
             put_field i (D_BLOCKDIR + fst s) 0 ;;;
             mark_inode_dirty i
           else kret tt) ;;;
          truncate_loop fuel' i depth (u32 (iblock - count)) (u32 (blocksleft - count)) ps
        else
          remove_blocks (fst p) (u32 (o + 1 - blocksleft)) blocksleft ;;;
          on_cache (c_updated (fst p)) ;;;
          truncate_loop fuel' i depth (u32 (iblock - blocksleft)) 0 ps
      end
    end.

Fixpoint release_pages (ps : pages) : K (filsys C) unit :=
  match ps with
  | [] => kret tt
  | Some (buf, _) :: ps' => release buf ;;; release_pages ps'
  | None :: ps' => release_pages ps'
  end.

Definition truncate_inode (i : inode) (blocks : Z) : K (filsys C) Z :=
  let* n := get_field i D_BLOCKS in
  if n <? blocks then kret (- EINVAL)
  else if blocks =? n then kret 0
  else if n =? 0 then kret 0
  else
    let* depth := get_field i D_DEPTH in
    if depth =? 0 then
      remove_blocks (i_buf i) (DESC_WORDS * i_slot i + D_BLOCKDIR + blocks) (u32 (n - blocks)) ;;;
      put_field i D_BLOCKS blocks ;;;
      mark_inode_dirty i ;;;
      kret 0
    else
      let* l := truncate_loop (Z.to_nat (n - blocks)) i depth (u32 (n - 1)) (u32 (n - blocks)) (replicate (Z.to_nat DFS_MAX_DEPTH) None) in
      match l with
      | None => kret (- EIO)
      | Some ps =>
        release_pages ps ;;;
        put_field i D_BLOCKS blocks ;;;
        (if blocks =? 0 then put_field i D_DEPTH 0 else kret tt) ;;;
        mark_inode_dirty i ;;;
        kret 0
      end.

(** One name less; the inode goes away with the last one. *)
Definition unlink_inode (i : inode) : K (filsys C) Z :=
  let* n := get_field i D_LINKCOUNT in
  put_field i D_LINKCOUNT (u32 (n - 1)) ;;;
  mark_inode_dirty i ;;;
  if 0 <? s32 (n - 1) then kret 0
  else
    let* rc := truncate_inode i 0 in
    if rc <? 0 then kret rc
    else
      clear_desc i ;;;
      let* fs := kget in
      (if reserved_inodes (super fs) <=? i_ino i then free_inode (i_ino i) else kret tt) ;;;
      kret 0.

End Code.
