(* ===== verification/Dtree.v ===== *)
(** * The block tree of a file (sys/fs/dfs/inode.c)

    The pages and blocks of a file with [n] blocks are [node l q]: for [l = 0]
    the block [q] of the file, for [l > 0] the page that covers its blocks from
    [q * P ^ l] on, where a page has [P] entries.  It is there if the first
    block that it covers is.  [tree] says that the entries of each page are the
    nodes below it, and zero where there are none; [file] adds the descriptor and
    what keeps the nodes apart from everything else.  While a block is appended
    the pages on the way to it are there from the height [h] on.

    [get_inode_block] returns the block of the file; [expand_inode] appends a
    block that was free, at any depth, and adds a level if the tree is full. *)

From S2P Require Import Prelude Bitops Blocks Group Groups Dinode.
Local Open Scope k_scope.

Tactic Notation "step" uconstr(E) := rewrite (kbind_done _ _ _ _ _ E).

(** ** Offsets *)

Section Digits.
Variable geo : geometry.
Let lg : Z := log_blkptrs_per_block geo.
Let P : Z := 2 ^ lg.
Hypothesis Hlg : 4 <= lg.

Lemma fan_pos : 16 <= P.
Proof. unfold P. change 16 with (2 ^ 4). apply Z.pow_le_mono_r; lia. Qed.

Lemma fan_pow (n : nat) : P ^ Z.of_nat n = 2 ^ (Z.of_nat n * lg).
Proof. unfold P. rewrite <- Z.pow_mul_r by lia. f_equal. lia. Qed.

Lemma fan_pow_pos (n : nat) : 0 < P ^ Z.of_nat n.
Proof. apply Z.pow_pos_nonneg; [|lia]. pose proof fan_pos. lia. Qed.

Lemma fan_pow_S (n : nat) : P ^ Z.of_nat (S n) = P * P ^ Z.of_nat n.
Proof. rewrite Nat2Z.inj_succ, Z.pow_succ_r by lia. done. Qed.

(** The offset of the block [x] in the page of height [l + 1]. *)
Definition digit (l : nat) (x : Z) : Z := x / P ^ Z.of_nat l mod P.

(** From height [n] down. *)
Fixpoint digits (n : nat) (x : Z) : list Z := match n with O => [] | S n' => digit n' x :: digits n' x end.

Lemma digit_bounds l x : 0 <= digit l x < P.
Proof. apply Z.mod_pos_bound. pose proof fan_pos. lia. Qed.

Lemma digit_mod l n x : (l < n)%nat -> digit l (x mod P ^ Z.of_nat n) = digit l x.
Proof.
  intros Hl. unfold digit. pose proof (fan_pow_pos l). pose proof fan_pos. replace n with (l + S (n - l - 1))%nat by lia. set (m := (n - l - 1)%nat).
  rewrite Nat2Z.inj_add, Z.pow_add_r by lia. rewrite Z.rem_mul_r by (first [lia|apply fan_pow_pos]). rewrite (Z.mul_comm (P ^ Z.of_nat l)), Z.div_add by lia.
  rewrite (Z.div_small (x mod P ^ Z.of_nat l)) by (apply Z.mod_pos_bound; lia). rewrite Z.add_0_l, fan_pow_S. rewrite Z.rem_mul_r by (first [lia|apply fan_pow_pos]).
  rewrite (Z.mul_comm P), Z.mod_add by lia. by rewrite Z.mod_mod by lia.
Qed.

Lemma digits_mod n m x : (n <= m)%nat -> digits n (x mod P ^ Z.of_nat m) = digits n x.
Proof. intros Hn. induction n as [|n IH]; [done|]. cbn [digits]. rewrite digit_mod by lia. by rewrite IH by lia. Qed.

Lemma shr32_eq x s : 0 <= s <= 31 -> shr32 x s = x / 2 ^ s.
Proof. intros Hs. unfold shr32. change 31 with (Z.ones 5). rewrite Z.land_ones, Z.mod_small by (change (2 ^ 5) with 32; lia). apply Z.shiftr_div_pow2. lia. Qed.

Lemma shl32_eq s : 0 <= s <= 31 -> shl32 1 s = 2 ^ s.
Proof.
  intros Hs. unfold shl32. change 31 with (Z.ones 5). rewrite Z.land_ones, Z.mod_small by (change (2 ^ 5) with 32; lia). rewrite Z.shiftl_1_l. apply u32_small. unfold is_u32, W32.
  split; [apply Z.pow_nonneg; lia|]. change 4294967296 with (2 ^ 32). apply Z.pow_lt_mono_r; lia.
Qed.

Lemma split_rest_eq n : forall x, 0 <= x -> Z.of_nat n * lg <= 31 -> split_rest geo n (Z.of_nat n * lg) x = digits n x.
Proof.
  induction n as [|n IH]; intros x Hx Hn; [done|]. cbn [split_rest digits]. fold lg. set (s := Z.of_nat (S n) * lg) in *. assert (Hs : 0 <= s <= 31) by (unfold s in *; lia).
  assert (Hp : 0 < 2 ^ s) by (apply Z.pow_pos_nonneg; lia). assert (Hb : 2 ^ s < W32) by (unfold W32; change 4294967296 with (2 ^ 32); apply Z.pow_lt_mono_r; lia).
  rewrite shl32_eq by lia. rewrite (u32_small (2 ^ s - 1)) by (unfold is_u32; lia). replace (2 ^ s - 1) with (Z.ones s) by (rewrite Z.ones_equiv; lia).
  rewrite Z.land_ones by lia. replace (s - lg) with (Z.of_nat n * lg) by (unfold s; lia). rewrite u32_small by (unfold is_u32, W32; lia).
  rewrite shr32_eq by lia. rewrite IH by (first [apply Z.mod_pos_bound; lia|lia]). replace (2 ^ s) with (P ^ Z.of_nat (S n)) by (unfold s; apply fan_pow). rewrite (digits_mod n (S n)) by lia. f_equal.
  rewrite <- fan_pow. transitivity (digit n (x mod P ^ Z.of_nat (S n))); [|apply digit_mod; lia]. unfold digit. symmetry. apply Z.mod_small. rewrite fan_pow_S. pose proof (fan_pow_pos n). pose proof fan_pos.
  pose proof (Z.mod_pos_bound x (P * P ^ Z.of_nat n) ltac:(nia)). split; [apply Z.div_pos; lia|apply Z.div_lt_upper_bound; lia].
Qed.

(** The levels of a tree of height [D]. *)
Lemma split_levels_eq (D : nat) x : 0 <= x -> Z.of_nat D * lg <= 31 -> split_levels geo (Z.of_nat D) x = Some (x / P ^ Z.of_nat D, digits D x).
Proof.
  intros Hx HD. unfold split_levels. fold lg. destruct (Z.leb_spec DFS_MAX_DEPTH (Z.of_nat D)) as [H|_]; [unfold DFS_MAX_DEPTH in H; nia|].
  rewrite u32_small by (unfold is_u32, W32; nia). rewrite shr32_eq by nia. rewrite <- fan_pow, Nat2Z.id. by rewrite split_rest_eq.
Qed.

End Digits.

(** ** The tree *)

Section Files.
Context {C : Type} `{!BlockCache C, !CacheSpec C}.
Variable geo : geometry.
Let lg : Z := log_blkptrs_per_block geo.
Let P : Z := 2 ^ lg.
Hypothesis Hlg : 4 <= lg.
Hypothesis Hbs : blocksize geo = 4 * P.
Implicit Types fs : filsys C.

(** The node [q] of height [l] is there: it covers one of the [n] blocks, or it
    is on the way to block [n] and its height is [h] at least. *)
Definition has (n : Z) (h l : nat) (q : Z) : bool := (q * P ^ Z.of_nat l <? n) || ((h <=? l)%nat && (q =? n / P ^ Z.of_nat l)).

Definition page_ok (d : list Z) : Prop := bytes_ok d /\ Z.of_nat (length d) = 4 * P.

Definition entries_ok (n : Z) (h l : nat) (node : nat -> Z -> Z) (d : list Z) (off count q : Z) : Prop :=
  forall k, 0 <= k < count -> word_at d (off + k) = Some (if has n h l (q + k) then node l (q + k) else 0).

Record tree (D : nat) (n : Z) (h : nat) (A : gmap Z (list Z)) (node : nat -> Z -> Z) : Prop := {
  tr_page l q : (l < D)%nat -> 0 <= q -> has n h (S l) q = true -> exists d, A !! node (S l) q = Some d /\ page_ok d /\ entries_ok n h l node d 0 P (q * P);
  tr_apart l q l' q' : (l <= D)%nat -> (l' <= D)%nat -> 0 <= q -> 0 <= q' -> has n h l q = true -> has n h l' q' = true -> node l q = node l' q' -> l = l' /\ q = q';
  tr_small l q : (l <= D)%nat -> 0 <= q -> has n h l q = true -> 0 < node l q < W32;
}.

(** Blocks of bitmaps. *)
Definition system fs (blk : Z) : Prop := exists k i g, groups fs !! i = Some g /\ blk = k_map k (desc g).

(** Block 0, bitmaps and held blocks are not free. *)
Definition kept (A : gmap Z (list Z)) (L : gmap Z hold) fs : Prop :=
  ~ is_free Block A fs 0 /\ (forall blk, system fs blk -> ~ is_free Block A fs blk) /\ (forall b h, L !! b = Some h -> ~ is_free Block A fs (h_blk h)).

(** The descriptor of the inode, in the data of its block. *)
Record desc_ok (i : inode) (D : nat) (n : Z) (h : nat) (cnt : Z) (node : nat -> Z -> Z) (d : list Z) : Prop := {
  do_bytes : bytes_ok d;
  do_length : 0 <= i_slot i /\ 128 * (i_slot i + 1) <= Z.of_nat (length d);
  do_blocks : word_at d (DESC_WORDS * i_slot i + D_BLOCKS) = Some cnt;
  do_depth : word_at d (DESC_WORDS * i_slot i + D_DEPTH) = Some (Z.of_nat D);
  do_top : entries_ok n h D node d (DESC_WORDS * i_slot i + D_BLOCKDIR) 16 0;
}.

(** An open file; [cnt] is the number of blocks in the descriptor. *)
Record file (N : nat) (A : gmap Z (list Z)) (L : gmap Z hold) fs (i : inode) (iblk : Z) (D : nat) (n : Z) (h : nat) (cnt : Z) (node : nat -> Z -> Z) : Prop := {
  fi_wf : fs_wf N A L fs;
  fi_room : (S (size L) < N)%nat;
  fi_kept : kept A L fs;
  fi_hold : exists locks, L !! i_buf i = Some (Hold iblk locks false true) /\ 1 <= locks;
  fi_desc : exists d, A !! iblk = Some d /\ desc_ok i D n h cnt node d;
  fi_tree : tree D n h A node;
  fi_count : 0 <= n <= 16 * P ^ Z.of_nat D /\ n + 1 < W32;
  fi_depth : Z.of_nat D * lg <= 31;
  fi_node l q : (l <= D)%nat -> 0 <= q -> has n h l q = true -> ~ system fs (node l q) /\ unheld L (node l q) /\ in_use Block A fs (node l q);
}.

(** ** Reading *)

Lemma set_cache_id fs : set_cache (cache fs) fs = fs.
Proof. by destruct fs. Qed.

Lemma get_entry_run N A L fs buf h d k v : rep N A L (cache fs) -> L !! buf = Some h -> h_valid h = true -> A !! h_blk h = Some d -> word_at d k = Some v -> get_entry buf k fs = Done (v, fs).
Proof.
  intros R Hh Hv Ha Hw. unfold get_entry. step (on_cache_run _ fs _ _ (data_law N A L (cache fs) buf h d R Hh Hv Ha)). rewrite Hw, set_cache_id. done.
Qed.

Lemma put_entry_run N A L fs buf h d d' k v : rep N A L (cache fs) -> L !! buf = Some h -> h_valid h = true -> A !! h_blk h = Some d -> put_word d k v = Some d' ->
  exists c, put_entry buf k v fs = Done (tt, set_cache c fs) /\ rep N (<[h_blk h := d']> A) (<[buf := dirtied h]> L) c.
Proof.
  intros R Hh Hv Ha Hw. unfold put_entry, change_bitmap. step (on_cache_run _ fs _ _ (data_law N A L (cache fs) buf h d R Hh Hv Ha)). rewrite Hw, set_cache_id. cbn [kopt]. rewrite kbind_kret.
  destruct (store_law N A L (cache fs) buf h d' R Hh Hv) as (c & E & _ & R'). exists c. split; [by apply on_cache_run|done].
Qed.

Lemma mark_held_run N A L fs buf h : rep N A L (cache fs) -> L !! buf = Some h -> h_valid h = true ->
  exists c, on_cache (c_updated buf) fs = Done (tt, set_cache c fs) /\ rep N A (<[buf := marked h]> L) c.
Proof. intros R Hh Hv. destruct (updated_law N A L (cache fs) buf h R Hh Hv) as (c & E & _ & R'). exists c. split; [by apply on_cache_run|done]. Qed.

Lemma has_below n h l x : 0 <= x < n -> has n h l (x / P ^ Z.of_nat l) = true.
Proof.
  intros Hx. unfold has. apply orb_true_iff. left. apply Z.ltb_lt. pose proof (fan_pow_pos geo Hlg l) as Hp. pose proof (Z.mul_div_le x (P ^ Z.of_nat l) Hp). fold lg P in Hp. lia.
Qed.

(** The node below in the direction of the block [x]. *)
Lemma next_node l x : 0 <= x -> x / P ^ Z.of_nat (S l) * P + digit geo l x = x / P ^ Z.of_nat l.
Proof.
  intros Hx. unfold digit. fold lg P. pose proof (fan_pow_pos geo Hlg l) as Hp. pose proof (fan_pos geo Hlg) as HP. pose proof (fan_pow_S geo l) as ES. fold lg P in Hp, HP, ES.
  rewrite ES, (Z.mul_comm P), <- Z.div_div by lia. pose proof (Z.div_mod (x / P ^ Z.of_nat l) P ltac:(lia)). lia.
Qed.

Lemma div_nonneg x l : 0 <= x -> 0 <= x / P ^ Z.of_nat l.
Proof. intros Hx. apply Z.div_pos; [done|]. apply (fan_pow_pos geo Hlg). Qed.

(** The way down to a block of the file. *)
Lemma walk_run N A L D n h node x : tree D n h A node -> roomy N L -> (forall l q, (l <= D)%nat -> 0 <= q -> has n h l q = true -> unheld L (node l q)) -> 0 <= x < n ->
  forall l fs, (l <= D)%nat -> rep N A L (cache fs) ->
  exists r c, walk (digits geo l x) (node l (x / P ^ Z.of_nat l)) fs = Done (r, set_cache c fs) /\ rep N A L c /\ (r = node 0%nat x \/ (r = NOBLOCK /\ ~ reliable)).
Proof.
  intros HT Hroom Hun Hx. induction l as [|l IH]; intros fs Hl R.
  { exists (node 0%nat x), (cache fs). cbn [digits walk]. rewrite Z.pow_0_r, Z.div_1_r, set_cache_id. split; [done|]. split; [done|]. by left. }
  pose proof (has_below n h (S l) x Hx) as Hhas. set (q := x / P ^ Z.of_nat (S l)) in *. assert (Hq : 0 <= q) by (apply div_nonneg; lia).
  destruct (tr_page _ _ _ _ _ HT l q ltac:(lia) Hq Hhas) as (d & Hd & _ & He). cbn [digits walk].
  destruct (cache_get_run N A L fs _ R Hroom (Hun (S l) q Hl Hq Hhas) (mk_is_Some _ _ Hd)) as (b & c & E & Hcase). step E. destruct Hcase as [[-> R1]|(Hb & HbL & R1)].
  { exists NOBLOCK, c. split; [done|]. split; [done|]. right. split; [done|]. intros Hrel. by apply (Hrel N A L (cache fs) _ 0 c R Hroom (unheld_usable _ _ (Hun (S l) q Hl Hq Hhas)) (mk_is_Some _ _ Hd) (on_cache_inv _ _ _ _ E)). }
  destruct (Z.eqb_spec b 0) as [?|_]; [done|]. set (fs1 := set_cache c fs). pose proof (digit_bounds geo Hlg l x) as Hdig. specialize (He (digit geo l x) Hdig). rewrite Z.add_0_l in He.
  unfold q in He. rewrite next_node in He by lia. rewrite has_below in He by done.
  assert (E1 : get_entry b (digit geo l x) fs1 = Done (node l (x / P ^ Z.of_nat l), fs1)) by (by apply (get_entry_run N A (<[b := held1 (node (S l) q)]> L) fs1 b (held1 (node (S l) q)) d); [|apply lookup_insert_eq|..]).
  step E1. destruct (cache_release_run N A L fs1 b _ R1 HbL) as (c2 & E2 & R2). unfold release. step E2.
  pose proof (tr_small _ _ _ _ _ HT l (x / P ^ Z.of_nat l) ltac:(lia) ltac:(apply div_nonneg; lia) (has_below n h l x Hx)) as Hsm. destruct (Z.eqb_spec (node l (x / P ^ Z.of_nat l)) 0); [lia|].
  destruct (IH (set_cache c2 fs1) ltac:(lia) R2) as (r & c3 & E3 & R3 & Hr). exists r, c3. done.
Qed.

(** The block of the file, if the device can be read. *)
Lemma get_inode_block_run N A L fs i iblk D n h cnt node x : file N A L fs i iblk D n h cnt node -> rep N A L (cache fs) -> 0 <= x < n ->
  exists r c, get_inode_block geo i x fs = Done (r, set_cache c fs) /\ rep N A L c /\ (r = node 0%nat x \/ (r = NOBLOCK /\ ~ reliable)).
Proof.
  intros [HF _ _ (locks & HL & _) (d & Hd & [_ _ _ Hdep Htop]) HT [[_ Hn] _] HD Hnode] R Hx. unfold get_inode_block, get_field. step (get_entry_run N A L fs (i_buf i) _ d _ _ R HL eq_refl Hd Hdep).
  rewrite (split_levels_eq geo Hlg D x) by (fold lg; lia). cbn [kopt]. rewrite kbind_kret. cbn [fst snd]. fold lg P. pose proof (fan_pow_pos geo Hlg D) as Hp. fold lg P in Hp.
  assert (Ht : 0 <= x / P ^ Z.of_nat D < 16) by (split; [apply Z.div_pos; lia|apply Z.div_lt_upper_bound; lia]). specialize (Htop _ Ht). rewrite Z.add_0_l, has_below in Htop by lia. rewrite <- Z.add_assoc in Htop.
  step (get_entry_run N A L fs (i_buf i) _ d _ _ R HL eq_refl Hd Htop). apply (walk_run N A L D n h node x HT (fo_room _ _ _ _ HF)); [|done|lia|done].
  intros l q Hl Hq Hh. by apply Hnode.
Qed.

(** ** A node is added *)

Definition with_node (l : nat) (q r : Z) (node : nat -> Z -> Z) : nat -> Z -> Z := fun l' q' => if decide (l' = l /\ q' = q) then r else node l' q'.

Lemma with_node_same l q r node : with_node l q r node l q = r.
Proof. unfold with_node. by rewrite decide_True. Qed.

Lemma with_node_other l q r node l' q' : ~ (l' = l /\ q' = q) -> with_node l q r node l' q' = node l' q'.
Proof. intros H. unfold with_node. by rewrite decide_False. Qed.

Lemma has_step n l l' q : has n l l' q = has n (S l) l' q || ((l' =? l)%nat && (q =? n / P ^ Z.of_nat l')).
Proof.
  unfold has. destruct (_ <? _); [done|]. cbn [orb]. destruct (Nat.leb_spec l l'), (Nat.leb_spec (S l) l'), (Nat.eqb_spec l' l); subst; try lia; cbn; by rewrite ?orb_false_r.
Qed.

Lemma has_old n l l' q : has n l l' q = true -> ~ (l' = l /\ q = n / P ^ Z.of_nat l) -> has n (S l) l' q = true.
Proof.
  intros H Hne. rewrite has_step in H. destruct (Nat.eqb_spec l' l) as [El|]; cbn in H; [|by rewrite orb_false_r in H]. destruct (Z.eqb_spec q (n / P ^ Z.of_nat l')) as [Eq|]; [|by rewrite orb_false_r in H].
  exfalso. apply Hne. split; [done|]. by rewrite Eq, El.
Qed.

Lemma has_new n l : has n l l (n / P ^ Z.of_nat l) = true.
Proof. rewrite has_step, Nat.eqb_refl, Z.eqb_refl. apply orb_true_r. Qed.

(** A node that is not there yet begins at the block [n]. *)
Lemma new_starts n l : 0 <= n -> has n (S l) l (n / P ^ Z.of_nat l) = false -> n / P ^ Z.of_nat l * P ^ Z.of_nat l = n.
Proof.
  intros Hn Hh. unfold has in Hh. apply orb_false_iff in Hh as [H%Z.ltb_ge _]. pose proof (fan_pow_pos geo Hlg l) as Hp. fold lg P in Hp. pose proof (Z.mul_div_le n (P ^ Z.of_nat l) Hp). lia.
Qed.

(** There is nothing below it. *)
Lemma new_empty n l k : 0 <= n -> has n (S (S l)) (S l) (n / P ^ Z.of_nat (S l)) = false -> 0 <= k -> has n (S l) l (n / P ^ Z.of_nat (S l) * P + k) = false.
Proof.
  intros Hn Hh Hk. pose proof (new_starts n (S l) Hn Hh) as E. unfold has. destruct (Nat.leb_spec (S l) l); [lia|]. rewrite orb_false_r. apply Z.ltb_ge.
  pose proof (fan_pow_S geo l) as ES. pose proof (fan_pow_pos geo Hlg l) as Hp. fold lg P in ES, Hp. rewrite ES in *. nia.
Qed.

(** A change of an entry. *)
Lemma entries_put n l node d d' off count q r (m : Z) : entries_ok n (S l) l node d off count q -> has n (S l) l (n / P ^ Z.of_nat l) = false -> m = n / P ^ Z.of_nat l - q -> 0 <= m < count ->
  word_at d' (off + m) = Some r -> (forall j, j <> off + m -> word_at d' j = word_at d j) -> entries_ok n l l (with_node l (n / P ^ Z.of_nat l) r node) d' off count q.
Proof.
  intros He Hh -> Hm E1 E2 k Hk. destruct (decide (k = n / P ^ Z.of_nat l - q)) as [->|Hne].
  - rewrite E1. replace (q + (n / P ^ Z.of_nat l - q)) with (n / P ^ Z.of_nat l) by lia. by rewrite has_new, with_node_same.
  - rewrite E2 by lia. rewrite (He k Hk). rewrite (has_step n l l (q + k)). destruct (Z.eqb_spec (q + k) (n / P ^ Z.of_nat l)); [lia|]. rewrite andb_false_r, orb_false_r. rewrite with_node_other by lia. done.
Qed.

(** The entries of another level, or in another page. *)
Lemma entries_other n l l' node d off count q r : entries_ok n (S l) l' node d off count q -> (l' <> l \/ forall k, 0 <= k < count -> q + k <> n / P ^ Z.of_nat l) ->
  entries_ok n l l' (with_node l (n / P ^ Z.of_nat l) r node) d off count q.
Proof.
  intros He Hne k Hk. rewrite (He k Hk), (has_step n l l' (q + k)). destruct Hne as [Hne|Hne].
  - destruct (Nat.eqb_spec l' l); [done|]. rewrite orb_false_r, with_node_other by tauto. done.
  - specialize (Hne k Hk). destruct (Nat.eqb_spec l' l) as [->|]; [|rewrite orb_false_r, with_node_other by tauto; done]. destruct (Z.eqb_spec (q + k) (n / P ^ Z.of_nat l)); [done|]. rewrite andb_false_r, orb_false_r, with_node_other by tauto. done.
Qed.

(** One entry of a page. *)
Definition put_at (k r : Z) (d d' : list Z) : Prop :=
  bytes_ok d' /\ length d' = length d /\ word_at d' k = Some r /\ forall j, j <> k -> word_at d' j = word_at d j.

Definition zero_page (d : list Z) : Prop := page_ok d /\ forall k, 0 <= k < P -> word_at d k = Some 0.

Lemma div_below n l q : 0 <= n -> (forall k, 0 <= k < P -> q * P + k <> n / P ^ Z.of_nat l) \/ q = n / P ^ Z.of_nat (S l).
Proof.
  intros Hn. destruct (decide (q = n / P ^ Z.of_nat (S l))) as [|Hne]; [by right|]. left. intros k Hk E. apply Hne. pose proof (next_node l n Hn) as En. pose proof (digit_bounds geo Hlg l n) as Hd. fold lg P in Hd.
  rewrite <- E in En. assert (q = (q * P + k) / P) as -> by (rewrite Z.div_add_l, (Z.div_small k) by lia; lia). rewrite <- En, Z.div_add_l, (Z.div_small (digit geo l n)) by lia. lia.
Qed.

(** The parent has an entry for the node [r] of height [l], which is empty. *)
Lemma tree_link D n l A A' node r : let q := n / P ^ Z.of_nat l in
  tree D n (S l) A node -> 0 <= n -> (l <= D)%nat -> has n (S l) l q = false -> 0 < r < W32 -> (forall l' q', (l' <= D)%nat -> 0 <= q' -> has n (S l) l' q' = true -> node l' q' <> r) ->
  ((l < D)%nat -> has n (S l) (S l) (n / P ^ Z.of_nat (S l)) = true -> exists d d', A !! node (S l) (n / P ^ Z.of_nat (S l)) = Some d /\ A' !! node (S l) (n / P ^ Z.of_nat (S l)) = Some d' /\ put_at (digit geo l n) r d d') ->
  ((0 < l)%nat -> exists z, A' !! r = Some z /\ zero_page z) ->
  (forall l' q', (l' < D)%nat -> 0 <= q' -> has n (S l) (S l') q' = true -> ~ (l' = l /\ q' = n / P ^ Z.of_nat (S l)) -> A' !! node (S l') q' = A !! node (S l') q') ->
  tree D n l A' (with_node l q r node).
Proof.
  intros q HT Hn Hl Hh Hr Hnew Hpar Hzero Hoth. assert (Hcase : forall l' q', has n l l' q' = true -> (l' = l /\ q' = q) \/ (~ (l' = l /\ q' = q) /\ has n (S l) l' q' = true)).
  { intros l' q' H. destruct (decide (l' = l /\ q' = q)) as [|Hne]; [by left|]. right. split; [done|]. by apply has_old. }
  split.
  - intros l' q' Hl' Hq' Hh'. destruct (Hcase (S l') q' Hh') as [[Es ->]|[Hne Hold]].
    + destruct (Hzero ltac:(lia)) as (z & Hz & Hpz & Hzz). exists z. rewrite Es, with_node_same. split; [done|]. split; [done|]. intros k Hk. rewrite Z.add_0_l, (Hzz k Hk). unfold q in *. revert Hh. rewrite <- Es. intros Hh. rewrite (new_empty n l' k) by (done || lia). done.
    + rewrite with_node_other by done. destruct (tr_page _ _ _ _ _ HT l' q' Hl' Hq' Hold) as (d & Hd & Hpd & He). destruct (decide (l' = l)) as [->|Hll].
      2: { exists d. rewrite Hoth by (done || tauto). split; [done|]. split; [done|]. apply entries_other; [done|by left]. }
      destruct (decide (q' = n / P ^ Z.of_nat (S l))) as [->|Hqq].
      * destruct (Hpar Hl' Hold) as (d0 & d' & Hd0 & Hd' & Hb & Hlen & Hw & Ho). assert (d0 = d) as -> by congruence. exists d'. split; [done|]. split; [split; [done|rewrite Hlen; apply Hpd]|].
        apply (entries_put n l node d d' 0 P _ r (digit geo l n)); [done|done|pose proof (next_node l n Hn); lia|apply (digit_bounds geo Hlg)|by rewrite Z.add_0_l|]. intros j Hj. apply Ho. lia.
      * exists d. rewrite Hoth by (done || tauto). split; [done|]. split; [done|]. apply entries_other; [done|]. right. destruct (div_below n l q' Hn) as [Hx|]; [done|done].
  - intros l1 q1 l2 q2 Hl1 Hl2 Hq1 Hq2 H1 H2. destruct (Hcase l1 q1 H1) as [[-> ->]|[N1 O1]], (Hcase l2 q2 H2) as [[-> ->]|[N2 O2]]; rewrite ?with_node_same, ?with_node_other by done; [done| | |].
    + intros E. by destruct (Hnew l2 q2 Hl2 Hq2 O2).
    + intros E. by destruct (Hnew l1 q1 Hl1 Hq1 O1).
    + by apply (tr_apart _ _ _ _ _ HT).
  - intros l1 q1 Hl1 Hq1 H1. destruct (Hcase l1 q1 H1) as [[-> ->]|[N1 O1]]; [by rewrite with_node_same|]. rewrite with_node_other by done. by apply (tr_small _ _ _ _ _ HT).
Qed.

(** ** What the file system keeps *)

Lemma wf_frame N A A' L fs : fs_wf N A L fs -> (forall blk, system fs blk -> A' !! blk = A !! blk) -> fs_wf N A' L fs.
Proof.
  intros [H1 H2 H3 H4 H5 H6 H7 H8] HA. split; try done. intros k i g Hg. destruct (H4 k i g Hg) as [Hm Hc Hh Hu]. split; try done. rewrite HA by (by exists k, i, g). done.
Qed.

Lemma free_frame k A A' fs x : (forall blk, system fs blk -> A' !! blk = A !! blk) -> is_free k A' fs x <-> is_free k A fs x.
Proof.
  intros HA. unfold is_free. split; intros (Hx & g & d & Hg & Hd & Hr); (split; [done|]); exists g, d; (split; [done|]); (split; [|done]).
  - rewrite <- HA; [done|]. by eexists k, _, g.
  - rewrite HA; [done|]. by eexists k, _, g.
Qed.

Lemma system_shape fs fs' blk : shape fs' = shape fs -> system fs' blk <-> system fs blk.
Proof.
  intros E. split; intros (k & i & g & Hg & ->).
  - destruct (map_kept fs fs' i g E Hg) as (g0 & Hg0 & ->). by exists k, i, g0.
  - destruct (map_kept fs' fs i g (eq_sym E) Hg) as (g0 & Hg0 & ->). by exists k, i, g0.
Qed.

Lemma desc_shape fs fs' L j : shape fs' = shape fs -> desc_held L fs j -> desc_held L fs' j.
Proof. intros E. unfold desc_held. injection E as E1 E2 _ _ _. by rewrite E1, E2. Qed.

Lemma length_shape fs fs' : shape fs' = shape fs -> length (groups fs') = length (groups fs).
Proof. intros E. injection E as _ _ _ _ E5. assert (E' := f_equal length E5). unfold maps in E'. by rewrite !length_fmap in E'. Qed.

Lemma wf_more N A L fs b h : fs_wf N A L fs -> L !! b = None -> (S (size L) < N)%nat -> h_locks h < 65534 -> ~ system fs (h_blk h) -> fs_wf N A (<[b := h]> L) fs.
Proof.
  intros [H1 H2 H3 H4 H5 H6 H7 H8] Hb HN Hl Hs. split; try done.
  - split; [by rewrite map_size_insert_None|]. intros a ha [[<- <-]|[_ Ha]]%lookup_insert_Some; [done|]. by apply (proj2 H1 a).
  - intros k i g Hg. destruct (H4 k i g Hg) as [Hm Hc Hh Hu]. split; try done. intros a ha [[<- <-]|[_ Ha]]%lookup_insert_Some; [|by apply (Hu a)]. intros E. apply Hs. exists k, i, g. done.
  - intros i Hi. apply desc_held_more; [by apply H7|done].
Qed.

Lemma wf_less N A A0 L fs fs' b h : fs_wf N A (<[b := h]> L) fs' -> fs_wf N A0 L fs -> shape fs' = shape fs -> L !! b = None -> fs_wf N A L fs'.
Proof.
  intros [H1 H2 H3 H4 H5 H6 H7 H8] HF E Hb. split; try done.
  - apply (fo_room _ _ _ _ HF).
  - intros k i g Hg. destruct (H4 k i g Hg) as [Hm Hc Hh Hu]. split; try done. intros a ha Ha. apply (Hu a). rewrite lookup_insert_ne; [done|]. congruence.
  - intros i Hi. apply (desc_shape fs fs'); [done|]. apply (fo_desc _ _ _ _ HF). by rewrite <- (length_shape fs fs').
Qed.

(** A held block is not a bitmap. *)
Lemma held_not_system N A L fs b h : fs_wf N A L fs -> L !! b = Some h -> ~ system fs (h_blk h).
Proof. intros HF Hb (k & i & g & Hg & E). by apply (go_unheld _ _ _ _ _ (fo_group _ _ _ _ HF k i g Hg) b h). Qed.

(** The file system has changed outside of the file. *)
Lemma file_frame N A A' L fs fs' i iblk D n h cnt node : file N A L fs i iblk D n h cnt node -> fs_wf N A' L fs' -> shape fs' = shape fs ->
  (forall blk, ~ system fs blk -> A' !! blk = A !! blk) -> (forall y, is_free Block A' fs' y -> is_free Block A fs y) -> (forall y, valid Block fs' y <-> valid Block fs y) ->
  file N A' L fs' i iblk D n h cnt node.
Proof.
  intros [HF Hroom (K0 & K1 & K2) Hhold Hdesc HT Hn HD Hnode] HF' E HA Hfree Hval. split; try done.
  - split; [auto|]. split; [|intros b hd Hb Hf; by apply (K2 b hd Hb), Hfree]. intros blk Hs Hf. apply (K1 blk); [by apply (system_shape fs fs')|auto].
  - destruct Hhold as (locks & HL & _). destruct Hdesc as (d & Hd & Hok). exists d. split; [|done]. rewrite HA; [done|]. by apply (held_not_system N A L fs (i_buf i) (Hold iblk locks false true)).
  - destruct HT as [T1 T2 T3]. split; try done. intros l q Hl Hq Hh. rewrite HA by (apply Hnode; [lia|done|done]). by apply T1.
  - intros l q Hl Hq Hh. destruct (Hnode l q Hl Hq Hh) as (Hs & Hu & Hv & Hf). split; [by rewrite (system_shape fs fs')|]. split; [done|]. split; [by apply Hval|auto].
Qed.

(** ** A new block *)

(** A page that is held besides [L]. *)
Definition plus (x : option (Z * hold)) (L : gmap Z hold) : gmap Z hold := match x with None => L | Some (b, hd) => <[b := hd]> L end.

Definition page_held (L : gmap Z hold) fs (x : option (Z * hold)) : Prop :=
  match x with None => True | Some (b, hd) => L !! b = None /\ h_locks hd < 65534 /\ ~ system fs (h_blk hd) end.

(** What is known of a block that has just been allocated. *)
Record new_node (A : gmap Z (list Z)) (L : gmap Z hold) fs (D : nat) (n : Z) (h : nat) (node : nat -> Z -> Z) (r : Z) : Prop := {
  nn_small : 0 < r < NOBLOCK;
  nn_system : ~ system fs r;
  nn_unheld : unheld L r;
  nn_used : in_use Block A fs r;
  nn_apart l q : (l <= D)%nat -> 0 <= q -> has n h l q = true -> node l q <> r;
}.

(** Nothing but bitmaps and the free space has changed. *)
Record fs_step (A A' : gmap Z (list Z)) fs fs' : Prop := {
  st_shape : shape fs' = shape fs;
  st_frame blk : ~ system fs blk -> A' !! blk = A !! blk;
  st_free y : is_free Block A' fs' y -> is_free Block A fs y;
  st_valid y : valid Block fs' y <-> valid Block fs y;
}.

Lemma post_step N A A' L fs fs' r : new_post Block NOBLOCK N A A' L fs fs' r -> fs_ok N A' L fs' /\ fs_step A A' fs fs' /\
  (r = NOBLOCK \/ (is_free Block A fs r /\ ~ is_free Block A' fs' r /\ r < NOBLOCK)).
Proof.
  intros [(-> & -> & HS & HK & _)|(Hr & HT)].
  - split; [done|]. split; [split|by left]; [by apply shape_same|done| |].
    + intros y. by apply same_free.
    + intros y. by apply valid_same.
  - split; [apply (tk_ok _ _ _ _ _ _ _ _ HT)|]. split; [split|right].
    + apply (tk_shape _ _ _ _ _ _ _ _ HT).
    + intros blk Hs. apply (tk_frame _ _ _ _ _ _ _ _ HT). intros i g Hg ->. apply Hs. by exists Block, i, g.
    + intros y Hy. by apply (tk_free _ _ _ _ _ _ _ _ HT) in Hy as [? _].
    + apply (tk_valid _ _ _ _ _ _ _ _ HT).
    + split; [apply (tk_was _ _ _ _ _ _ _ _ HT)|]. split; [|apply (tk_small _ _ _ _ _ _ _ _ HT)]. rewrite (tk_free _ _ _ _ _ _ _ _ HT). tauto.
Qed.

Lemma file_new_block N A L fs i iblk D n h cnt node goal x : file N A L fs i iblk D n h cnt node -> rep N A (plus x L) (cache fs) -> page_held L fs x -> 0 <= goal ->
  exists r fs' A', new_block goal fs = Done (r, fs') /\ rep N A' (plus x L) (cache fs') /\ file N A' L fs' i iblk D n h cnt node /\ fs_step A A' fs fs' /\
    (r = NOBLOCK \/ (is_free Block A fs r /\ new_node A' L fs' D n h node r)).
Proof.
  intros HI R Hx Hg. pose proof HI as [HF Hroom (K0 & K1 & K2) _ _ _ _ _ Hnode]. assert (HF1 : fs_wf N A (plus x L) fs) by (destruct x as [[b hd]|]; [destruct Hx as (X1 & X2 & X3); by apply wf_more|done]).
  destruct (new_block_run N A (plus x L) fs goal (conj R HF1) Hg) as (r & fs' & A' & E & HP & _). destruct (post_step _ _ _ _ _ _ _ HP) as ([R' HF2] & HS & Hr). pose proof HS as [S1 S2 S3 S4].
  assert (HF' : fs_wf N A' L fs') by (destruct x as [[b hd]|]; [destruct Hx as (X1 & _); by apply (wf_less N A' A L fs fs' b hd)|done]).
  exists r, fs', A'. split; [done|]. split; [done|]. split; [by apply (file_frame N A A' L fs fs')|]. split; [done|]. destruct Hr as [?|(Hf & Hnf & Hlt)]; [by left|]. right. split; [done|].
  assert (Hr0 : 0 <= r) by apply Hf. split.
  - split; [|done]. destruct (decide (r = 0)) as [->|]; [done|lia].
  - rewrite (system_shape fs fs') by done. intros Hs. by apply (K1 r).
  - intros b hd Hb <-. by apply (K2 b hd).
  - split; [|done]. apply S4. by apply (free_valid _ A).
  - intros l q Hl Hq Hh <-. by destruct (Hnode l q Hl Hq Hh) as (_ & _ & _ & ?).
Qed.

(** ** The node in its place *)

Lemma file_link N A A' L fs i iblk D n l cnt cnt' node r : let node' := with_node l (n / P ^ Z.of_nat l) r node in
  file N A L fs i iblk D n (S l) cnt node -> new_node A L fs D n (S l) node r -> (forall blk, system fs blk -> A' !! blk = A !! blk) -> tree D n l A' node' ->
  (exists d, A' !! iblk = Some d /\ desc_ok i D n l cnt' node' d) -> file N A' L fs i iblk D n l cnt' node'.
Proof.
  intros node' [HF Hroom (K0 & K1 & K2) Hhold _ _ Hn HD Hnode] [R1 R2 R3 [R4 R5] R6] HA HT Hdesc. assert (Hfree : forall y, is_free Block A' fs y <-> is_free Block A fs y) by (intros y; by apply free_frame).
  split; try done.
  - by apply (wf_frame N A).
  - split; [by rewrite Hfree|]. split; [intros blk Hs; rewrite Hfree; by apply K1|intros b hd Hb; rewrite Hfree; by apply (K2 b)].
  - intros l' q' Hl' Hq' Hh. unfold in_use. rewrite Hfree. unfold node'. destruct (decide (l' = l /\ q' = n / P ^ Z.of_nat l)) as [[-> ->]|Hne]; [by rewrite with_node_same|]. rewrite with_node_other by done.
    apply Hnode; [done|done|]. by apply has_old.
Qed.

Lemma put_at_word d k r : bytes_ok d -> is_u32 r -> 0 <= k -> 4 * k + 4 <= Z.of_nat (length d) -> exists d', put_word d k r = Some d' /\ put_at k r d d'.
Proof. intros H1 H2 H3 H4. destruct (put_word_spec d k r H1 H2 H3 H4) as (d' & E & Hb & Hl & Hw & Ho). exists d'. by repeat split. Qed.

(** A page on the way to block [n]. *)
Definition parent (n : Z) (l : nat) (node : nat -> Z -> Z) : Z := node (S l) (n / P ^ Z.of_nat (S l)).

(** The parent is a page. *)
Lemma file_link_page N A A' L fs i iblk D n l cnt node r d d' : let node' := with_node l (n / P ^ Z.of_nat l) r node in
  file N A L fs i iblk D n (S l) cnt node -> (l < D)%nat -> has n (S l) l (n / P ^ Z.of_nat l) = false -> new_node A L fs D n (S l) node r ->
  A !! parent n l node = Some d -> put_at (digit geo l n) r d d' -> A' !! parent n l node = Some d' -> ((0 < l)%nat -> exists z, A' !! r = Some z /\ zero_page z) ->
  (forall blk, blk <> parent n l node -> blk <> r -> A' !! blk = A !! blk) -> file N A' L fs i iblk D n l cnt node'.
Proof.
  intros node' HI Hl Hh HN Hd Hput Hd' Hz Hoth. pose proof HI as [HF Hroom HK (locks & HL & Hlk) (di & Hdi & Hdo) HT [[Hn0 Hn] Hn1] HD Hnode]. pose proof HN as [R1 R2 R3 R4 R6].
  assert (Hq : 0 <= n / P ^ Z.of_nat (S l)) by (by apply div_nonneg). assert (Hpar : has n (S l) (S l) (n / P ^ Z.of_nat (S l)) = true) by apply has_new.
  destruct (Hnode (S l) _ Hl Hq Hpar) as (Ps & Pu & _). fold (parent n l node) in Ps, Pu. assert (Hi : iblk <> parent n l node /\ iblk <> r) by (split; intros E; [by apply (Pu _ _ HL)|by apply (R3 _ _ HL)]).
  apply (file_link N A A' L fs i iblk D n l cnt cnt node r HI HN).
  - intros blk Hs. apply Hoth; intros ->; done.
  - apply (tree_link D n l A A' node r HT Hn0); try done; [lia|unfold NOBLOCK in R1; unfold W32; lia|intros _ _; by exists d, d'|].
    intros l' q' Hl' Hq' Hh' Hne. apply Hoth; [|by apply R6]. intros E. apply Hne. destruct (tr_apart _ _ _ _ _ HT (S l') q' (S l) _ ltac:(lia) ltac:(lia) Hq' Hq Hh' Hpar E) as [? ?]. split; [lia|done].
  - exists di. rewrite Hoth by tauto. split; [done|]. destruct Hdo as [D1 D2 D3 D4 D5]. split; try done. apply entries_other; [|left; lia]. done.
Qed.

(** The parent is the descriptor. *)
Lemma file_link_top N A A' L fs i iblk D n cnt node r d d' : let node' := with_node D (n / P ^ Z.of_nat D) r node in
  file N A L fs i iblk D n (S D) cnt node -> n < 16 * P ^ Z.of_nat D -> has n (S D) D (n / P ^ Z.of_nat D) = false -> new_node A L fs D n (S D) node r ->
  A !! iblk = Some d -> put_at (DESC_WORDS * i_slot i + D_BLOCKDIR + n / P ^ Z.of_nat D) r d d' -> A' !! iblk = Some d' -> ((0 < D)%nat -> exists z, A' !! r = Some z /\ zero_page z) ->
  (forall blk, blk <> iblk -> blk <> r -> A' !! blk = A !! blk) -> file N A' L fs i iblk D n D cnt node'.
Proof.
  intros node' HI Hlt Hh HN Hd Hput Hd' Hz Hoth. pose proof HI as [HF Hroom HK (locks & HL & Hlk) (di & Hdi & Hdo) HT [[Hn0 Hn] Hn1] HD Hnode]. pose proof HN as [R1 R2 R3 R4 R6]. assert (di = d) as -> by congruence.
  pose proof (fan_pow_pos geo Hlg D) as Hp. fold lg P in Hp. assert (Ht : 0 <= n / P ^ Z.of_nat D < 16) by (split; [by apply Z.div_pos|apply Z.div_lt_upper_bound; lia]).
  apply (file_link N A A' L fs i iblk D n D cnt cnt node r HI HN).
  - intros blk Hs. apply Hoth; intros ->; [|done]. by apply (held_not_system N A L fs (i_buf i) (Hold iblk locks false true)).
  - apply (tree_link D n D A A' node r HT Hn0); try done; [unfold NOBLOCK in R1; unfold W32; lia|lia|]. intros l' q' Hl' Hq' Hh' _. apply Hoth; [|apply R6; (done || lia)]. intros E. destruct (Hnode (S l') q' ltac:(lia) Hq' Hh') as (_ & Hu & _). by apply (Hu _ _ HL).
  - exists d'. split; [done|]. destruct Hput as (Hb & Hlen & Hw & Ho). destruct Hdo as [D1 D2 D3 D4 D5]. assert (E1 : forall f, 0 <= f < 16 -> word_at d' (DESC_WORDS * i_slot i + f) = word_at d (DESC_WORDS * i_slot i + f)) by (intros f Hf; apply Ho; unfold D_BLOCKDIR; lia).
    split; [done|by rewrite Hlen|rewrite E1; [done|unfold D_BLOCKS; lia]|rewrite E1; [done|unfold D_DEPTH; lia]|].
    apply (entries_put n D node d d' _ 16 0 r (n / P ^ Z.of_nat D)); [done|done|lia|done|done|]. intros j Hj. by apply Ho.
Qed.

(** ** Calls *)

Definition blank : list Z := replicate (Z.to_nat (blocksize geo)) 0.

Lemma blank_zero : zero_page blank.
Proof.
  pose proof (fan_pos geo Hlg) as HP. fold lg P in HP. assert (Hb : bytes_ok blank) by (apply Forall_replicate; lia). assert (Hl : Z.of_nat (length blank) = 4 * P) by (unfold blank; rewrite length_replicate, Hbs; lia).
  assert (Hz : forall k, 0 <= k < 4 * P -> byte_at blank k = Some 0). { intros k Hk. unfold byte_at. destruct (Z.ltb_spec k 0); [lia|]. apply lookup_replicate_2. rewrite Hbs. lia. }
  split; [by split|]. intros k Hk. unfold word_at. by rewrite !Hz by lia.
Qed.

Lemma new_page_run N A L fs r : rep N A L (cache fs) -> roomy N L -> unheld L r ->
  exists b c, new_page geo r fs = Done (b, set_cache c fs) /\ b <> 0 /\ L !! b = None /\ rep N (<[r := blank]> A) (<[b := Hold r 1 true true]> L) c.
Proof.
  intros R Hroom Hun. destruct (alloc_law N A L (cache fs) r R Hroom Hun) as (b & c & E & _ & Hb & HbL & R1). unfold new_page. step (on_cache_run _ fs _ _ E). destruct (Z.eqb_spec b 0) as [?|_]; [done|].
  set (fs1 := set_cache c fs). destruct (store_law N _ _ (cache fs1) b (Hold r 1 true true) blank R1 (lookup_insert_eq _ _ _) eq_refl) as (c2 & E2 & _ & R2). fold blank. step (on_cache_run _ fs1 _ _ E2).
  exists b, c2. split; [done|]. split; [done|]. split; [done|]. cbn [h_blk] in R2. by rewrite !insert_insert_eq in R2.
Qed.

(** An entry is stored and its page given back. *)
Lemma store_entry_run {B} N A L fs b blk dirty d d' k v (rest : K (filsys C) B) : rep N A (<[b := Hold blk 1 dirty true]> L) (cache fs) -> L !! b = None -> A !! blk = Some d -> put_word d k v = Some d' ->
  exists c, (put_entry b k v ;;; on_cache (c_updated b) ;;; release b ;;; rest) fs = rest (set_cache c fs) /\ rep N (<[blk := d']> A) L c.
Proof.
  intros R Hb Hd Hw. destruct (put_entry_run N A _ fs b (Hold blk 1 dirty true) d d' k v R (lookup_insert_eq _ _ _) eq_refl Hd Hw) as (c1 & E1 & R1). step E1. cbn [h_blk] in R1. rewrite insert_insert_eq in R1.
  destruct (mark_held_run N _ _ (set_cache c1 fs) b (dirtied (Hold blk 1 dirty true)) R1 (lookup_insert_eq _ _ _) eq_refl) as (c2 & E2 & R2). step E2. rewrite insert_insert_eq in R2.
  destruct (cache_release_run N _ L (set_cache c2 (set_cache c1 fs)) b blk R2 Hb) as (c3 & E3 & R3). unfold release. step E3. by exists c3.
Qed.

(** A height that is there already. *)
Lemma has_same n l l' q : has n (S l) l (n / P ^ Z.of_nat l) = true -> has n l l' q = has n (S l) l' q.
Proof.
  intros Hh. rewrite has_step. destruct (Nat.eqb_spec l' l) as [->|]; [|by rewrite orb_false_r]. destruct (Z.eqb_spec q (n / P ^ Z.of_nat l)) as [->|]; [by rewrite Hh|by rewrite andb_false_r, orb_false_r].
Qed.

(** The same nodes are there. *)
Definition same_nodes (D : nat) (n : Z) (h : nat) (n' : Z) (h' : nat) : Prop := forall l q, (l <= D)%nat -> 0 <= q -> has n' h' l q = has n h l q.

Lemma entries_same D n h n' h' l node d off count q : same_nodes D n h n' h' -> (l <= D)%nat -> 0 <= q -> entries_ok n h l node d off count q -> entries_ok n' h' l node d off count q.
Proof. intros E Hl Hq He k Hk. rewrite E by lia. by apply He. Qed.

Lemma file_same N A L fs i iblk D n h n' h' cnt node : same_nodes D n h n' h' -> 0 <= n' <= 16 * P ^ Z.of_nat D /\ n' + 1 < W32 -> file N A L fs i iblk D n h cnt node -> file N A L fs i iblk D n' h' cnt node.
Proof.
  intros E Hn' [HF Hroom HK Hhold (d & Hd & [D1 D2 D3 D4 D5]) [T1 T2 T3] Hn HD Hnode]. pose proof (fan_pos geo Hlg) as HP. fold lg P in HP. split; try done.
  - exists d. split; [done|]. split; try done. by apply (entries_same D n h).
  - split.
    + intros l q Hl Hq. rewrite E by (done || lia). intros Hh. destruct (T1 l q Hl Hq Hh) as (dd & Hdd & Hp & He). exists dd. split; [done|]. split; [done|]. apply (entries_same D n h); [done|lia|nia|done].
    + intros l q l' q' Hl Hl' Hq Hq'. rewrite !E by done. by apply T2.
    + intros l q Hl Hq. rewrite E by done. by apply T3.
  - intros l q Hl Hq. rewrite E by done. by apply Hnode.
Qed.

Lemma file_height N A L fs i iblk D n h h' cnt node : (forall l q, has n h' l q = has n h l q) -> file N A L fs i iblk D n h cnt node -> file N A L fs i iblk D n h' cnt node.
Proof. intros E HI. apply (file_same N A L fs i iblk D n h); [by intros l q _ _|apply HI|done]. Qed.

(** The way to block [n] is complete. *)
Lemma same_next D n : 0 <= n -> same_nodes D n 0 (n + 1) (S D).
Proof.
  intros Hn l q Hl Hq. unfold has. destruct (Nat.leb_spec (S D) l); [lia|]. cbn [andb]. rewrite orb_false_r. pose proof (fan_pow_pos geo Hlg l) as Hp. fold lg P in Hp. pose proof (Z.mul_div_le n _ Hp). pose proof (Z.mul_succ_div_gt n _ Hp).
  change (0 <=? l)%nat with true. cbn [andb]. destruct (Z.ltb_spec (q * P ^ Z.of_nat l) n), (Z.ltb_spec (q * P ^ Z.of_nat l) (n + 1)), (Z.eqb_spec q (n / P ^ Z.of_nat l)); try done; subst; nia.
Qed.

(** ** The way to the new block *)

Definition later (n : Z) (A : gmap Z (list Z)) fs (node : nat -> Z -> Z) (A' : gmap Z (list Z)) fs' (node' : nat -> Z -> Z) : Prop :=
  shape fs' = shape fs /\ (forall y, is_free Block A' fs' y -> is_free Block A fs y) /\ (forall x, 0 <= x < n -> node' 0%nat x = node 0%nat x).

Lemma later_trans n A1 fs1 node1 A2 fs2 node2 A3 fs3 node3 : later n A1 fs1 node1 A2 fs2 node2 -> later n A2 fs2 node2 A3 fs3 node3 -> later n A1 fs1 node1 A3 fs3 node3.
Proof. intros (E1 & F1 & D1) (E2 & F2 & D2). split; [congruence|]. split; [auto|]. intros x Hx. rewrite D2 by done. by apply D1. Qed.

Lemma later_refl n A fs node c : later n A fs node A (set_cache c fs) node.
Proof. done. Qed.

(** A buffer is held that nobody will release. *)
Definition leaked (N : nat) (A : gmap Z (list Z)) (L : gmap Z hold) (c : C) : Prop := exists b hd, L !! b = None /\ h_locks hd = 1 /\ rep N A (<[b := hd]> L) c.

(** [buf] is 0 or holds the page of height [l + 1], which is new. *)
Definition at_page (N : nat) (A : gmap Z (list Z)) (L : gmap Z hold) fs (n : Z) (l : nat) (node : nat -> Z -> Z) (buf : Z) : Prop :=
  (buf = 0 /\ rep N A L (cache fs)) \/
  (buf <> 0 /\ L !! buf = None /\ has n (S (S l)) (S l) (n / P ^ Z.of_nat (S l)) = false /\ rep N A (<[buf := Hold (parent n l node) 1 true true]> L) (cache fs)).

Lemma file_cache N A L fs i iblk D n h cnt node c : file N A L fs i iblk D n h cnt node -> file N A L (set_cache c fs) i iblk D n h cnt node.
Proof. intros HI. apply (file_frame N A A L fs); try done. apply wf_cache, HI. Qed.

(** The page on the way. *)
Lemma parent_page N A L fs i iblk D n l cnt node : file N A L fs i iblk D n (S l) cnt node -> (l < D)%nat ->
  exists d, A !! parent n l node = Some d /\ page_ok d /\ entries_ok n (S l) l node d 0 P (n / P ^ Z.of_nat (S l) * P) /\ ~ system fs (parent n l node) /\ unheld L (parent n l node).
Proof.
  intros [HF _ _ _ _ HT [[Hn _] _] _ Hnode] Hl. assert (Hq : 0 <= n / P ^ Z.of_nat (S l)) by (by apply div_nonneg). destruct (tr_page _ _ _ _ _ HT l _ Hl Hq (has_new n (S l))) as (d & Hd & Hp & He).
  destruct (Hnode (S l) _ Hl Hq (has_new n (S l))) as (Hs & Hu & _). by exists d.
Qed.

Lemma hold_page_run N A L fs i iblk D n l cnt node buf : file N A L fs i iblk D n (S l) cnt node -> (l < D)%nat -> at_page N A L fs n l node buf ->
  exists b c, hold_page (parent n l node) buf fs = Done (b, set_cache c fs) /\
    ((b = 0 /\ rep N A L c /\ buf = 0 /\ ~ reliable) \/
     (b <> 0 /\ L !! b = None /\ exists dirty, rep N A (<[b := Hold (parent n l node) 1 dirty true]> L) c /\ (dirty = true -> has n (S (S l)) (S l) (n / P ^ Z.of_nat (S l)) = false))).
Proof.
  intros HI Hl Hat. destruct (parent_page _ _ _ _ _ _ _ _ _ _ _ HI Hl) as (d & Hd & _ & _ & _ & Hu). unfold hold_page. destruct Hat as [[-> R]|(Hb & HbL & Hnew & R)].
  - destruct (cache_get_run N A L fs _ R (fo_room _ _ _ _ (fi_wf _ _ _ _ _ _ _ _ _ _ _ HI)) Hu (mk_is_Some _ _ Hd)) as (b & c & E & Hcase). exists b, c. split; [exact E|].
    destruct Hcase as [[-> R1]|(Hb & HbL & R1)]; [left|right; split; [done|]; split; [done|]; by exists false]. split; [done|]. split; [done|]. split; [done|]. intros Hrel.
    by apply (Hrel N A L (cache fs) _ 0 c R (fo_room _ _ _ _ (fi_wf _ _ _ _ _ _ _ _ _ _ _ HI)) (unheld_usable _ _ Hu) (mk_is_Some _ _ Hd) (on_cache_inv _ _ _ _ E)).
  - destruct (Z.eqb_spec buf 0) as [?|_]; [done|]. exists buf, (cache fs). split; [by rewrite set_cache_id|]. right. split; [done|]. split; [done|]. by exists true.
Qed.

(** The value of the entry on the way. *)
Lemma entry_on_way n l node d : 0 <= n -> entries_ok n (S l) l node d 0 P (n / P ^ Z.of_nat (S l) * P) ->
  word_at d (digit geo l n) = Some (if has n (S l) l (n / P ^ Z.of_nat l) then node l (n / P ^ Z.of_nat l) else 0).
Proof. intros Hn He. specialize (He (digit geo l n) (digit_bounds geo Hlg l n)). rewrite Z.add_0_l, next_node in He by done. done. Qed.

(** There is nothing below a page that is new. *)
Lemma new_below n l : 0 <= n -> has n (S (S l)) (S l) (n / P ^ Z.of_nat (S l)) = false -> has n (S l) l (n / P ^ Z.of_nat l) = false.
Proof. intros Hn Hh. rewrite <- next_node by done. apply new_empty; [done|done|]. apply (digit_bounds geo Hlg). Qed.

(** A block [r] that has been allocated becomes the page of height [l + 1] below
    the page that [b] holds. *)
Lemma add_page_run {B} N A L fs i iblk D n l cnt node b dirty r (rest : Z -> K (filsys C) B) :
  file N A L fs i iblk D n (S (S l)) cnt node -> (S l < D)%nat -> has n (S (S l)) (S l) (n / P ^ Z.of_nat (S l)) = false -> L !! b = None ->
  rep N A (<[b := Hold (parent n (S l) node) 1 dirty true]> L) (cache fs) -> new_node A L fs D n (S (S l)) node r ->
  exists buf c A' node', (put_entry b (digit geo (S l) n) r ;;; on_cache (c_updated b) ;;; release b ;;; let* buf := new_page geo r in rest buf) fs = rest buf (set_cache c fs) /\ buf <> 0 /\
    file N A' L (set_cache c fs) i iblk D n (S l) cnt node' /\ at_page N A' L (set_cache c fs) n l node' buf /\ later n A fs node A' (set_cache c fs) node' /\ node' (S l) (n / P ^ Z.of_nat (S l)) = r.
Proof.
  intros HI Hl Hh HbL R HN. destruct (parent_page _ _ _ _ _ _ _ _ _ _ _ HI Hl) as (d & Hd & [Hby Hlen] & He & Hps & Hpu). pose proof HN as [R1 R2 R3 R4 R6]. pose proof (digit_bounds geo Hlg (S l) n) as Hdg. fold lg P in Hdg.
  destruct (put_at_word d (digit geo (S l) n) r Hby ltac:(unfold is_u32, W32, NOBLOCK in *; lia) ltac:(lia) ltac:(lia)) as (d' & Hw & Hput).
  destruct (store_entry_run N A L fs b _ dirty d d' _ r (let* buf := new_page geo r in rest buf) R HbL Hd Hw) as (c1 & E1 & RR1). rewrite E1. set (fs1 := set_cache c1 fs).
  destruct (new_page_run N _ L fs1 r RR1 (fo_room _ _ _ _ (fi_wf _ _ _ _ _ _ _ _ _ _ _ HI)) R3) as (buf & c2 & E2 & Hbuf & HbufL & RR2). step E2.
  set (A' := <[r := blank]> (<[parent n (S l) node := d']> A)) in *. assert (Hpr : parent n (S l) node <> r) by (apply R6; [done|apply div_nonneg, HI|apply has_new]).
  exists buf, c2, A', (with_node (S l) (n / P ^ Z.of_nat (S l)) r node). split; [done|]. split; [done|]. assert (Hsys : forall blk, system fs blk -> A' !! blk = A !! blk) by (intros blk Hs; unfold A'; rewrite !lookup_insert_ne by (intros Eb; by rewrite <- Eb in Hs); done).
  split; [|split; [|split; [split; [done|]|apply with_node_same]]].
  - apply (file_link_page N A A' L _ i iblk D n (S l) cnt node r d d' (file_cache _ _ _ _ _ _ _ _ _ _ _ c2 HI) Hl Hh); try done.
    + unfold A'. rewrite lookup_insert_ne by done. apply lookup_insert_eq.
    + intros _. exists blank. split; [apply lookup_insert_eq|exact blank_zero].
    + intros blk H1 H2. unfold A'. by rewrite !lookup_insert_ne.
  - right. split; [done|]. split; [done|]. split; [done|]. unfold parent. rewrite with_node_same. exact RR2.
  - split; [intros y Hy; by apply (free_frame Block A A' fs y Hsys)|]. intros x Hx. apply with_node_other. lia.
Qed.

Lemma descend_run N L i iblk D n cnt : forall l A fs node buf, file N A L fs i iblk D n (S l) cnt node -> (l < D)%nat -> at_page N A L fs n l node buf ->
  exists res fs' A' node' h', descend geo (removelast (digits geo (S l) n)) (parent n l node) buf fs = Done (res, fs') /\ file N A' L fs' i iblk D n h' cnt node' /\ later n A fs node A' fs' node' /\
    match res with
    | Some (dirblock, buf') => h' = 1%nat /\ dirblock = parent n 0 node' /\ at_page N A' L fs' n 0 node' buf' /\ (buf' = 0 -> buf = 0 /\ forall l' q, has n 1 l' q = has n (S l) l' q)
    | None => (h' = S l /\ rep N A' L (cache fs') /\ buf = 0 /\ ~ reliable) \/ leaked N A' L (cache fs')
    end.
Proof.
  induction l as [|l IH]; intros A fs node buf HI Hl Hat.
  { exists (Some (parent n 0 node, buf)), fs, A, node, 1%nat. split; [done|]. split; [done|]. done. }
  destruct (hold_page_run _ _ _ _ _ _ _ _ _ _ _ _ HI Hl Hat) as (b & c & E & Hcase). change (removelast (digits geo (S (S l)) n)) with (digit geo (S l) n :: removelast (digits geo (S l) n)). cbn [descend]. step E.
  set (fs0 := set_cache c fs). assert (HI0 : file N A L fs0 i iblk D n (S (S l)) cnt node) by (by apply file_cache).
  destruct Hcase as [(-> & R & Hbuf & Hrel)|(Hb & HbL & dirty & R & Hdirty)].
  { exists None, fs0, A, node, (S (S l)). split; [done|]. split; [done|]. split; [done|]. by left. }
  destruct (Z.eqb_spec b 0) as [?|_]; [done|]. destruct (parent_page _ _ _ _ _ _ _ _ _ _ _ HI0 Hl) as (d & Hd & _ & He & Hps & Hpu). assert (Hn : 0 <= n) by apply HI.
  pose proof (entry_on_way n (S l) node d Hn He) as Hent. step (get_entry_run N A _ fs0 b (Hold (parent n (S l) node) 1 dirty true) d _ _ R (lookup_insert_eq _ _ _) eq_refl Hd Hent).
  destruct (has n (S (S l)) (S l) (n / P ^ Z.of_nat (S l))) eqn:Hh.
  - pose proof (tr_small _ _ _ _ _ (fi_tree _ _ _ _ _ _ _ _ _ _ _ HI0) (S l) _ ltac:(lia) (div_nonneg n (S l) Hn) Hh) as Hsm. destruct (Z.eqb_spec (node (S l) (n / P ^ Z.of_nat (S l))) 0); [lia|].
    assert (dirty = false) as -> by (destruct dirty; [|done]; specialize (Hdirty eq_refl); apply new_below in Hdirty; [congruence|done]).
    destruct (cache_release_run N A L fs0 b _ R HbL) as (c2 & E2 & R2). unfold release. step E2. set (fs2 := set_cache c2 fs0).
    assert (HI2 : file N A L fs2 i iblk D n (S l) cnt node) by (apply (file_height N A L fs2 i iblk D n (S (S l))); [intros l' q'; by apply has_same|by apply file_cache]).
    destruct (IH A fs2 node 0 HI2 ltac:(lia) ltac:(by left)) as (res & fs' & A' & node' & h' & E' & HI' & HL' & Hres). assert (Hsame : forall l' q, has n (S l) l' q = has n (S (S l)) l' q) by (intros l' q; by apply has_same).
    assert (Hb0 : buf = 0) by (destruct Hat as [[? _]|(_ & _ & Hnew & _)]; [done|]; apply new_below in Hnew; [congruence|done]).
    destruct res as [[dirblock buf']|]; [exists (Some (dirblock, buf')), fs', A', node', h'|destruct Hres as [(-> & R' & _ & Hrel)|Hleak]; [exists None, fs', A', node', (S (S l))|exists None, fs', A', node', h']]; (split; [done|]).
    + split; [done|]. split; [done|]. destruct Hres as (? & ? & ? & Hz). split; [done|]. split; [done|]. split; [done|]. intros Hz0. split; [done|]. intros l' q. destruct (Hz Hz0) as [_ ->]. apply Hsame.
    + split; [apply (file_height N A' L fs' i iblk D n (S l)); [intros l' q; by rewrite Hsame|done]|]. split; [done|]. by left.
    + split; [done|]. split; [done|]. by right.
  - change (0 =? 0) with true. cbv iota. assert (Hx : page_held L fs0 (Some (b, Hold (parent n (S l) node) 1 dirty true))) by done.
    destruct (file_new_block N A L fs0 i iblk D n (S (S l)) cnt node (u32 (parent n (S l) node + 1)) (Some (b, Hold (parent n (S l) node) 1 dirty true)) HI0 R Hx ltac:(apply u32_range)) as (r & fs1 & A1 & E1 & RR1 & HI1 & [S1 S2 S3 S4] & Hr).
    step E1. assert (Hl1 : later n A fs node A1 fs1 node) by done. destruct (Z.eqb_spec r NOBLOCK) as [Er|Er].
    { exists None, fs1, A1, node, (S (S l)). split; [done|]. split; [done|]. split; [done|]. right. by exists b, (Hold (parent n (S l) node) 1 dirty true). }
    destruct Hr as [?|[_ HNN]]; [done|].
    destruct (add_page_run N A1 L fs1 i iblk D n l cnt node b dirty r (fun buf => if buf =? 0 then kret None else descend geo (removelast (digits geo (S l) n)) r buf) HI1 Hl Hh HbL RR1 HNN) as (buf2 & c2 & A2 & node2 & E2 & Hbuf2 & HI2 & Hat2 & Hl2 & Hnr).
    rewrite E2. destruct (Z.eqb_spec buf2 0) as [?|_]; [done|]. rewrite <- Hnr. fold (parent n l node2).
    destruct (IH A2 (set_cache c2 fs1) node2 buf2 HI2 ltac:(lia) Hat2) as (res & fs' & A' & node' & h' & E' & HI' & HL' & Hres). exists res, fs', A', node', h'. split; [done|]. split; [done|].
    split; [apply (later_trans n A fs node A1 fs1 node); [done|]; by apply (later_trans n A1 fs1 node A2 (set_cache c2 fs1) node2)|]. destruct res as [[dirblock buf']|].
    + destruct Hres as (? & ? & ? & Hz). split; [done|]. split; [done|]. split; [done|]. intros Hz0. by destruct (Hz Hz0).
    + destruct Hres as [(_ & _ & ? & _)|?]; [done|by right].
Qed.

(** ** The descriptor *)

(** Nothing but the descriptor has changed. *)
Lemma file_desc N A A' L fs i iblk D n h cnt cnt' node : file N A L fs i iblk D n h cnt node -> (forall blk, blk <> iblk -> A' !! blk = A !! blk) ->
  (exists d, A' !! iblk = Some d /\ desc_ok i D n h cnt' node d) -> file N A' L fs i iblk D n h cnt' node.
Proof.
  intros [HF Hroom (K0 & K1 & K2) (locks & HL & Hlk) _ [T1 T2 T3] Hn HD Hnode] HA Hdesc.
  assert (Hsys : forall blk, system fs blk -> A' !! blk = A !! blk) by (intros blk Hs; apply HA; intros ->; by apply (held_not_system N A L fs _ _ HF HL)).
  assert (Hfree : forall y, is_free Block A' fs y <-> is_free Block A fs y) by (intros y; by apply free_frame). split; try done.
  - by apply (wf_frame N A).
  - split; [by rewrite Hfree|]. split; [intros blk Hs; rewrite Hfree; by apply K1|intros b hd Hb; rewrite Hfree; by apply (K2 b)].
  - by exists locks.
  - split; try done. intros l q Hl Hq Hh. rewrite HA; [by apply T1|]. destruct (Hnode (S l) q Hl Hq Hh) as (_ & Hu & _). intros E. by apply (Hu _ _ HL).
  - intros l q Hl Hq Hh. unfold in_use. rewrite Hfree. by apply Hnode.
Qed.

Lemma new_node_frame A A' L fs D n h node r : new_node A L fs D n h node r -> (forall blk, system fs blk -> A' !! blk = A !! blk) -> new_node A' L fs D n h node r.
Proof. intros [R1 R2 R3 [R4 R5] R6] HA. split; try done. split; [done|]. by rewrite (free_frame Block A A'). Qed.

Lemma desc_word i D n h cnt node d f v : desc_ok i D n h cnt node d -> 0 <= f < 32 -> is_u32 v ->
  exists d', put_word d (DESC_WORDS * i_slot i + f) v = Some d' /\ put_at (DESC_WORDS * i_slot i + f) v d d'.
Proof. intros [H1 [H2 H3] _ _ _] Hf Hv. apply put_at_word; unfold DESC_WORDS; (done || lia). Qed.

Lemma desc_count i D n h cnt cnt' node d d' : desc_ok i D n h cnt node d -> put_at (DESC_WORDS * i_slot i + D_BLOCKS) cnt' d d' -> desc_ok i D n h cnt' node d'.
Proof.
  intros [D1 D2 D3 D4 D5] (Hb & Hlen & Hw & Ho). split; [done|by rewrite Hlen|done|rewrite Ho; [done|unfold D_DEPTH, D_BLOCKS; lia]|].
  intros k Hk. rewrite Ho by (unfold D_BLOCKDIR, D_BLOCKS; lia). by apply D5.
Qed.

Lemma store_desc_run {B} N A L fs i iblk locks dirty d d' f v (rest : K (filsys C) B) : rep N A L (cache fs) -> L !! i_buf i = Some (Hold iblk locks dirty true) -> A !! iblk = Some d ->
  put_word d (DESC_WORDS * i_slot i + f) v = Some d' -> exists c, (put_field i f v ;;; mark_inode_dirty i ;;; rest) fs = rest (set_cache c fs) /\ rep N (<[iblk := d']> A) (<[i_buf i := Hold iblk locks false true]> L) c.
Proof.
  intros R HL Hd Hw. destruct (put_entry_run N A L fs (i_buf i) _ d d' _ v R HL eq_refl Hd Hw) as (c1 & E1 & R1). unfold put_field, mark_inode_dirty. step E1. cbn [h_blk] in R1.
  destruct (mark_held_run N _ _ (set_cache c1 fs) (i_buf i) (dirtied (Hold iblk locks dirty true)) R1 (lookup_insert_eq _ _ _) eq_refl) as (c2 & E2 & R2). step E2. rewrite insert_insert_eq in R2. by exists c2.
Qed.

Lemma store_field_run {B} N A L fs i iblk locks d d' f v (rest : K (filsys C) B) : rep N A L (cache fs) -> L !! i_buf i = Some (Hold iblk locks false true) -> A !! iblk = Some d ->
  put_word d (DESC_WORDS * i_slot i + f) v = Some d' -> exists c, (put_field i f v ;;; mark_inode_dirty i ;;; rest) fs = rest (set_cache c fs) /\ rep N (<[iblk := d']> A) L c.
Proof. intros R HL Hd Hw. destruct (store_desc_run N A L fs i iblk locks false d d' f v rest R HL Hd Hw) as (c & E & R'). exists c. by rewrite (insert_id L) in R'. Qed.

(** A block is allocated and counted. *)
Lemma counted_block_run N A L fs i iblk D n h cnt node goal x : file N A L fs i iblk D n h cnt node -> rep N A (plus x L) (cache fs) -> page_held L fs x -> 0 <= goal -> 0 <= cnt -> cnt + 1 < W32 ->
  exists r fs' A', (let* block := new_block goal in
                    (if block =? NOBLOCK then kret tt else let* n := get_field i D_BLOCKS in put_field i D_BLOCKS (u32 (n + 1)) ;;; mark_inode_dirty i) ;;; kret block) fs = Done (r, fs') /\
    rep N A' (plus x L) (cache fs') /\ later n A fs node A' fs' node /\ (forall blk, ~ system fs blk -> blk <> iblk -> A' !! blk = A !! blk) /\
    ((r = NOBLOCK /\ file N A' L fs' i iblk D n h cnt node) \/ (is_free Block A fs r /\ new_node A' L fs' D n h node r /\ file N A' L fs' i iblk D n h (cnt + 1) node)).
Proof.
  intros HI R Hx Hg Hc0 Hc. destruct (file_new_block N A L fs i iblk D n h cnt node goal x HI R Hx Hg) as (r & fs1 & A1 & E1 & R1 & HI1 & [S1 S2 S3 S4] & Hr). step E1. destruct (Z.eqb_spec r NOBLOCK) as [Er|Er].
  { exists r, fs1, A1. split; [done|]. split; [done|]. split; [done|]. split; [intros; by apply S2|]. by left. }
  destruct Hr as [?|[Hfree HN]]; [done|]. pose proof HI1 as [HF _ _ (locks & HL & _) (d & Hd & Hdo) _ _ _ _]. assert (HLx : plus x L !! i_buf i = Some (Hold iblk locks false true)) by (destruct x as [[b hd]|]; [destruct Hx as [Hx _]; cbn [plus]; rewrite lookup_insert_ne by congruence|]; done).
  destruct (desc_word i D n h cnt node d D_BLOCKS (cnt + 1) Hdo ltac:(unfold D_BLOCKS; lia) ltac:(unfold is_u32; lia)) as (d' & Hw & Hput).
  destruct (store_field_run N A1 (plus x L) fs1 i iblk locks d d' D_BLOCKS (cnt + 1) (kret tt) R1 HLx Hd Hw) as (c & E2 & R2).
  assert (E3 : (let* n := get_field i D_BLOCKS in put_field i D_BLOCKS (u32 (n + 1)) ;;; mark_inode_dirty i) fs1 = Done (tt, set_cache c fs1)).
  { unfold get_field. step (get_entry_run N A1 (plus x L) fs1 (i_buf i) _ d _ _ R1 HLx eq_refl Hd (do_blocks _ _ _ _ _ _ _ Hdo)). rewrite u32_small by (unfold is_u32; lia).
    revert E2. unfold kbind. destruct (put_field _ _ _ _) as [[[] s]| | |]; [|done..]. by destruct (mark_inode_dirty i s) as [[[] s']| | |]. }
  step E3. assert (Hsys : forall blk, system fs1 blk -> <[iblk := d']> A1 !! blk = A1 !! blk) by (intros blk Hs; rewrite lookup_insert_ne; [done|]; intros <-; by apply (held_not_system N A1 L fs1 _ _ HF HL)).
  exists r, (set_cache c fs1), (<[iblk := d']> A1). split; [done|]. split; [done|]. split; [split; [done|split; [|done]]; intros y Hy; apply S3; by apply (free_frame Block A1 (<[iblk := d']> A1) fs1 y Hsys)|].
  split; [intros blk Hb Hne; rewrite lookup_insert_ne by done; by apply S2|]. right. split; [done|]. split; [apply (new_node_frame A1); [by destruct HN; split|done]|].
  apply file_cache, (file_desc N A1 _ L fs1 i iblk D n h cnt); [done|intros blk Hb; by rewrite lookup_insert_ne|]. exists d'. split; [apply lookup_insert_eq|]. by apply (desc_count i D n h cnt (cnt + 1) node d).
Qed.

(** ** The new block *)

(** The outcome: the file has one block more; or it is as before, because of
    [why]; or it has the same blocks and a buffer is lost. *)
Definition added (N : nat) (L : gmap Z hold) (i : inode) (iblk : Z) (D : nat) (n : Z) (h : nat) (why : Prop) (A : gmap Z (list Z)) fs (node : nat -> Z -> Z) (r : Z) fs' : Prop :=
  exists A' node', later n A fs node A' fs' node' /\
    ((r = NOBLOCK /\ ((why /\ rep N A' L (cache fs') /\ file N A' L fs' i iblk D n h n node') \/ (leaked N A' L (cache fs') /\ exists h', file N A' L fs' i iblk D n h' n node'))) \/
     (is_free Block A fs r /\ rep N A' L (cache fs') /\ file N A' L fs' i iblk D n 0 (n + 1) node' /\ node' 0%nat n = r)).

Lemma added_later N L i iblk D n h h1 (why why1 : Prop) A fs node A1 fs1 node1 r fs' : later n A fs node A1 fs1 node1 -> (why1 -> why /\ forall l q, has n h1 l q = has n h l q) ->
  added N L i iblk D n h1 why1 A1 fs1 node1 r fs' -> added N L i iblk D n h why A fs node r fs'.
Proof.
  intros H1 Hw (A' & node' & H2 & Hr). exists A', node'. split; [by apply (later_trans n A fs node A1 fs1 node1)|]. destruct Hr as [[-> [(HW & R & HI)|?]]|(Hf & Hr)].
  - left. split; [done|]. left. destruct (Hw HW) as [? Hh]. split; [done|]. split; [done|]. apply (file_height N A' L fs' i iblk D n h1); [intros l q; by rewrite Hh|done].
  - left. split; [done|]. by right.
  - right. split; [by apply H1|done].
Qed.

Lemma has_leaf n : has n 1 0 (n / P ^ Z.of_nat 0) = false.
Proof. unfold has. rewrite Z.pow_0_r, Z.div_1_r, Z.mul_1_r, Z.ltb_irrefl. done. Qed.

(** The goal of the block in a leaf page. *)
Lemma leaf_goal N A L fs b h d n node dirblock : rep N A L (cache fs) -> L !! b = Some h -> h_valid h = true -> A !! h_blk h = Some d -> entries_ok n 1 0 node d 0 P (n / P ^ Z.of_nat 1 * P) ->
  exists goal, (if digit geo 0 n =? 0 then kret (u32 (dirblock + 1)) else (let* b := get_entry b (digit geo 0 n - 1) in kret (u32 (b + 1)))) fs = Done (goal, fs) /\ 0 <= goal.
Proof.
  intros R Hb Hv Hd He. pose proof (digit_bounds geo Hlg 0 n) as Hdg. fold lg P in Hdg. destruct (Z.eqb_spec (digit geo 0 n) 0) as [|Hne]; [eexists; split; [done|]; apply u32_range|].
  specialize (He (digit geo 0 n - 1) ltac:(lia)). rewrite Z.add_0_l in He. step (get_entry_run N A L fs b h d _ _ R Hb Hv Hd He). eexists. split; [done|]. apply u32_range.
Qed.

Lemma set_leaf_run N A L fs i iblk D n node buf : file N A L fs i iblk D n 1 n node -> (0 < D)%nat -> at_page N A L fs n 0 node buf ->
  exists r fs', set_leaf i (parent n 0 node) buf (digit geo 0 n) NOBLOCK fs = Done (r, fs') /\ added N L i iblk D n 1 (buf = 0 /\ ~ reliable) A fs node r fs'.
Proof.
  intros HI HD Hat. destruct (hold_page_run _ _ _ _ _ _ _ _ _ _ _ _ HI HD Hat) as (b & c & E & Hcase). unfold set_leaf. step E. set (fs0 := set_cache c fs). assert (HI0 : file N A L fs0 i iblk D n 1 n node) by (by apply file_cache).
  destruct Hcase as [(-> & R & Hwhy)|(Hb & HbL & dirty & R & _)]; [exists NOBLOCK, fs0; split; [done|]; exists A, node; split; [done|]; left; split; [done|]; by left|].
  destruct (Z.eqb_spec b 0) as [?|_]; [done|]. destruct (parent_page _ _ _ _ _ _ _ _ _ _ _ HI0 HD) as (d & Hd & [Hby Hlen] & He & Hps & Hpu). destruct (fi_count _ _ _ _ _ _ _ _ _ _ _ HI0) as [[Hn0 _] Hn1].
  destruct (leaf_goal N A _ fs0 b (Hold (parent n 0 node) 1 dirty true) d n node (parent n 0 node) R (lookup_insert_eq _ _ _) eq_refl Hd He) as (goal & EG & Hgoal). change (NOBLOCK =? NOBLOCK) with true. cbv iota. rewrite kbind_assoc. step EG.
  destruct (counted_block_run N A L fs0 i iblk D n 1 n node goal (Some (b, Hold (parent n 0 node) 1 dirty true)) HI0 R ltac:(done) Hgoal Hn0 Hn1) as (r & fs1 & A1 & E1 & R1 & HL1 & HA1 & Hr). step E1.
  destruct Hr as [[-> HI1]|(Hfree & HN & HI1)].
  { exists NOBLOCK, fs1. split; [done|]. exists A1, node. split; [done|]. left. split; [done|]. right. split; [by exists b, (Hold (parent n 0 node) 1 dirty true)|by exists 1%nat]. }
  pose proof HN as [N1 N2 N3 N4 N6]. destruct (Z.eqb_spec r NOBLOCK) as [?|_]; [lia|]. pose proof (digit_bounds geo Hlg 0 n) as Hdg. fold lg P in Hdg. destruct (fi_hold _ _ _ _ _ _ _ _ _ _ _ HI) as (locks & HL & _).
  destruct (put_at_word d (digit geo 0 n) r Hby ltac:(unfold is_u32, W32, NOBLOCK in *; lia) ltac:(lia) ltac:(lia)) as (d' & Hw & Hput).
  assert (Hd1 : A1 !! parent n 0 node = Some d) by (rewrite HA1; [done|done|]; intros E2; by apply (Hpu _ _ HL)).
  destruct (store_entry_run N A1 L fs1 b _ dirty d d' _ r (kret r) R1 HbL Hd1 Hw) as (c2 & E2 & R2). exists r, (set_cache c2 fs1). split; [exact E2|].
  exists (<[parent n 0 node := d']> A1), (with_node 0 (n / P ^ Z.of_nat 0) r node). assert (Hps1 : ~ system fs1 (parent n 0 node)) by (rewrite (system_shape fs0 fs1); [done|apply HL1]).
  assert (HI2 := file_link_page N A1 (<[parent n 0 node := d']> A1) L (set_cache c2 fs1) i iblk D n 0 (n + 1) node r d d' (file_cache _ _ _ _ _ _ _ _ _ _ _ c2 HI1) HD (has_leaf n) ltac:(done) Hd1 Hput (lookup_insert_eq _ _ _) ltac:(lia) ltac:(intros blk H1 H2; by rewrite lookup_insert_ne)).
  assert (Hsys : forall blk, system fs1 blk -> <[parent n 0 node := d']> A1 !! blk = A1 !! blk) by (intros blk Hs; rewrite lookup_insert_ne; [done|]; intros E3; by rewrite E3 in Hps1).
  split; [apply (later_trans n A fs0 node A1 fs1 node); [done|]; split; [done|]; split; [intros y Hy; by apply (free_frame Block _ _ fs1 y Hsys) in Hy|]|].
  - intros x Hx. apply with_node_other. rewrite Z.pow_0_r, Z.div_1_r. lia.
  - right. split; [done|]. split; [done|]. split; [done|]. rewrite Z.pow_0_r, Z.div_1_r. apply with_node_same.
Qed.

(** The block is in the descriptor. *)
Lemma flat_block_run N A L fs i iblk n node goal : file N A L fs i iblk 0 n 1 n node -> rep N A L (cache fs) -> n < 16 -> 0 <= goal ->
  exists r fs', (let* block := (let* block := new_block goal in
                                (if block =? NOBLOCK then kret tt else let* n := get_field i D_BLOCKS in put_field i D_BLOCKS (u32 (n + 1))) ;;; kret block) in
                 if block =? NOBLOCK then kret NOBLOCK else put_field i (D_BLOCKDIR + n) block ;;; mark_inode_dirty i ;;; kret block) fs = Done (r, fs') /\ added N L i iblk 0 n 1 True A fs node r fs'.
Proof.
  intros HI R Hn Hg. destruct (file_new_block N A L fs i iblk 0 n 1 n node goal None HI R ltac:(done) Hg) as (r & fs1 & A1 & E1 & R1 & HI1 & [S1 S2 S3 S4] & Hr). rewrite kbind_assoc. step E1. destruct (Z.eqb_spec r NOBLOCK) as [Er|Er].
  { rewrite kbind_assoc, !kbind_kret, Er. exists NOBLOCK, fs1. split; [done|]. exists A1, node. split; [done|]. left. split; [done|]. by left. }
  destruct Hr as [?|[Hfree HN]]; [done|]. pose proof HI1 as [HF _ _ (locks & HL & _) (d & Hd & Hdo) _ [[Hn0 _] Hn1] _ _]. pose proof HN as [N1 N2 N3 N4 N6]. cbn [plus] in R1.
  destruct (desc_word i 0 n 1 n node d D_BLOCKS (n + 1) Hdo ltac:(unfold D_BLOCKS; lia) ltac:(unfold is_u32; lia)) as (d1 & Hw1 & Hput1). pose proof (desc_count _ _ _ _ _ _ _ _ _ Hdo Hput1) as Hdo1.
  destruct (desc_word i 0 n 1 (n + 1) node d1 (D_BLOCKDIR + n) r Hdo1 ltac:(unfold D_BLOCKDIR; lia) ltac:(unfold is_u32, W32, NOBLOCK in *; lia)) as (d2 & Hw2 & Hput2).
  destruct (put_entry_run N A1 L fs1 (i_buf i) _ d d1 _ _ R1 HL eq_refl Hd Hw1) as (c1 & E2 & R2). cbn [h_blk] in R2. set (fs2 := set_cache c1 fs1).
  assert (E3 : (let* n := get_field i D_BLOCKS in put_field i D_BLOCKS (u32 (n + 1))) fs1 = Done (tt, fs2)).
  { unfold get_field. step (get_entry_run N A1 L fs1 (i_buf i) _ d _ _ R1 HL eq_refl Hd (do_blocks _ _ _ _ _ _ _ Hdo)). by rewrite u32_small by (unfold is_u32; lia). }
  rewrite kbind_assoc. step E3. rewrite kbind_kret. destruct (Z.eqb_spec r NOBLOCK) as [?|_]; [done|].
  destruct (store_desc_run N _ _ fs2 i iblk locks true d1 d2 (D_BLOCKDIR + n) r (kret r) R2 (lookup_insert_eq _ _ _) (lookup_insert_eq _ _ _) Hw2) as (c2 & E4 & R4). rewrite (insert_insert_eq L), (insert_id L) in R4 by done.
  exists r, (set_cache c2 fs2). split; [exact E4|]. set (A2 := <[iblk := d1]> A1) in *.
  assert (HI2 : file N A2 L (set_cache c2 fs2) i iblk 0 n 1 (n + 1) node) by (do 2 apply file_cache; apply (file_desc N A1 _ L fs1 i iblk 0 n 1 n); [done|intros blk Hb; unfold A2; by rewrite lookup_insert_ne|exists d1; split; [apply lookup_insert_eq|done]]).
  assert (Hsys : forall blk, system fs1 blk -> A2 !! blk = A1 !! blk) by (intros blk Hs; unfold A2; rewrite lookup_insert_ne; [done|]; intros <-; by apply (held_not_system N A1 L fs1 _ _ HF HL)).
  assert (Hsys2 : forall blk, system fs1 blk -> <[iblk := d2]> A2 !! blk = A1 !! blk) by (intros blk Hs; rewrite lookup_insert_ne; [by apply Hsys|]; intros <-; by apply (held_not_system N A1 L fs1 _ _ HF HL)).
  exists (<[iblk := d2]> A2), (with_node 0 (n / P ^ Z.of_nat 0) r node). split; [split; [done|]; split; [intros y Hy; apply S3; by apply (free_frame Block _ _ fs1 y Hsys2) in Hy|]|].
  { intros x Hx. apply with_node_other. rewrite Z.pow_0_r, Z.div_1_r. lia. }
  right. split; [done|]. split; [done|]. split; [|rewrite Z.pow_0_r, Z.div_1_r; apply with_node_same].
  apply (file_link_top N A2 _ L _ i iblk 0 n (n + 1) node r d1 d2 HI2); [rewrite Z.pow_0_r; lia|apply has_leaf|by apply (new_node_frame A1)|apply lookup_insert_eq|by rewrite Z.pow_0_r, Z.div_1_r, <- Z.add_assoc|apply lookup_insert_eq|lia|].
  intros blk Hb _. by rewrite lookup_insert_ne.
Qed.

(** A page becomes the top page on the way. *)
Lemma add_top_run {B} N A L fs i iblk l n node r (rest : Z -> K (filsys C) B) : let D := S l in
  file N A L fs i iblk D n (S D) n node -> n < 16 * P ^ Z.of_nat D -> has n (S D) D (n / P ^ Z.of_nat D) = false -> rep N A L (cache fs) -> new_node A L fs D n (S D) node r ->
  exists buf c A' node', (put_field i (D_BLOCKDIR + n / P ^ Z.of_nat D) r ;;; mark_inode_dirty i ;;; let* buf := new_page geo r in rest buf) fs = rest buf (set_cache c fs) /\ buf <> 0 /\
    file N A' L (set_cache c fs) i iblk D n D n node' /\ at_page N A' L (set_cache c fs) n l node' buf /\ later n A fs node A' (set_cache c fs) node' /\ parent n l node' = r.
Proof.
  intros D HI Hlt Hh R HN. pose proof HI as [HF _ _ (locks & HL & _) (d & Hd & Hdo) _ [[Hn0 _] Hn1] _ _]. pose proof HN as [N1 N2 N3 N4 N6]. pose proof (fan_pow_pos geo Hlg D) as Hp. fold lg P in Hp.
  assert (Ht : 0 <= n / P ^ Z.of_nat D < 16) by (split; [by apply Z.div_pos|apply Z.div_lt_upper_bound; lia]).
  destruct (desc_word i D n _ n node d (D_BLOCKDIR + n / P ^ Z.of_nat D) r Hdo ltac:(unfold D_BLOCKDIR; lia) ltac:(unfold is_u32, W32, NOBLOCK in *; lia)) as (d' & Hw & Hput). rewrite Z.add_assoc in Hput.
  destruct (store_field_run N A L fs i iblk locks d d' _ r (let* buf := new_page geo r in rest buf) R HL Hd Hw) as (c1 & E1 & R1). rewrite E1. set (fs1 := set_cache c1 fs).
  destruct (new_page_run N _ L fs1 r R1 (fo_room _ _ _ _ HF) N3) as (buf & c2 & E2 & Hbuf & HbufL & R2). step E2. set (A' := <[r := blank]> (<[iblk := d']> A)) in *.
  assert (Hir : iblk <> r) by (intros E; by apply (N3 _ _ HL)). assert (His : ~ system fs iblk) by (by apply (held_not_system N A L fs _ _ HF HL)).
  exists buf, c2, A', (with_node D (n / P ^ Z.of_nat D) r node). split; [done|]. split; [done|].
  assert (Hsys : forall blk, system fs blk -> A' !! blk = A !! blk) by (intros blk Hs; unfold A'; rewrite !lookup_insert_ne by (intros Eb; by rewrite <- Eb in Hs); done).
  split; [|split; [|split; [split; [done|]|apply with_node_same]]].
  - apply (file_link_top N A A' L _ i iblk D n n node r d d' (file_cache _ _ _ _ _ _ _ _ _ _ _ c2 HI) Hlt Hh); try done.
    + unfold A'. rewrite lookup_insert_ne by done. apply lookup_insert_eq.
    + intros _. exists blank. split; [apply lookup_insert_eq|exact blank_zero].
    + intros blk H1 H2. unfold A'. by rewrite !lookup_insert_ne.
  - right. split; [done|]. split; [done|]. split; [done|]. unfold parent. fold D. rewrite with_node_same. exact R2.
  - split; [intros y Hy; by apply (free_frame Block A A' fs y Hsys)|]. intros x Hx. apply with_node_other. unfold D. lia.
Qed.

Lemma top_page_run N A L fs i iblk l n node goal : let D := S l in file N A L fs i iblk D n (S D) n node -> n < 16 * P ^ Z.of_nat D -> rep N A L (cache fs) -> 0 <= goal ->
  exists res fs' A' node', (let* dirblock := get_field i (D_BLOCKDIR + n / P ^ Z.of_nat D) in
      if dirblock =? 0 then
        let* dirblock := new_block goal in
        if dirblock =? NOBLOCK then kret None
        else put_field i (D_BLOCKDIR + n / P ^ Z.of_nat D) dirblock ;;; mark_inode_dirty i ;;; let* buf := new_page geo dirblock in kret (if buf =? 0 then None else Some (dirblock, buf))
      else kret (Some (dirblock, 0))) fs = Done (res, fs') /\ later n A fs node A' fs' node' /\
    match res with
    | None => has n (S D) D (n / P ^ Z.of_nat D) = false /\ rep N A' L (cache fs') /\ file N A' L fs' i iblk D n (S D) n node'
    | Some (dirblock, buf) => dirblock = parent n l node' /\ file N A' L fs' i iblk D n D n node' /\ at_page N A' L fs' n l node' buf /\ (buf = 0 -> forall l' q, has n D l' q = has n (S D) l' q)
    end.
Proof.
  intros D HI Hlt R Hg. pose proof HI as [_ _ _ (locks & HL & _) (d & Hd & Hdo) HT [[Hn0 _] Hn1] _ _]. pose proof (fan_pow_pos geo Hlg D) as Hp. fold lg P in Hp.
  assert (Ht : 0 <= n / P ^ Z.of_nat D < 16) by (split; [by apply Z.div_pos|apply Z.div_lt_upper_bound; lia]). pose proof (do_top _ _ _ _ _ _ _ Hdo _ Ht) as Hent. rewrite Z.add_0_l, <- Z.add_assoc in Hent.
  unfold get_field. step (get_entry_run N A L fs (i_buf i) _ d _ _ R HL eq_refl Hd Hent). destruct (has n (S D) D (n / P ^ Z.of_nat D)) eqn:Hh.
  - pose proof (tr_small _ _ _ _ _ HT D _ (le_n D) (proj1 Ht) Hh) as Hsm. destruct (Z.eqb_spec (node D (n / P ^ Z.of_nat D)) 0); [lia|]. eexists _, fs, A, node. split; [done|]. split; [done|]. split; [done|].
    assert (Hsame : forall l' q', has n D l' q' = has n (S D) l' q') by (intros l' q'; by apply has_same). split; [by apply (file_height N A L fs i iblk D n (S D))|]. split; [by left|done].
  - change (0 =? 0) with true. cbv iota. destruct (file_new_block N A L fs i iblk D n (S D) n node goal None HI R ltac:(done) Hg) as (r & fs1 & A1 & E1 & R1 & HI1 & [S1 S2 S3 S4] & Hr). step E1.
    assert (Hl1 : later n A fs node A1 fs1 node) by done. destruct (Z.eqb_spec r NOBLOCK) as [Er|Er]; [by exists None, fs1, A1, node|].
    destruct Hr as [?|[_ HN]]; [done|].
    destruct (add_top_run N A1 L fs1 i iblk l n node r (fun buf => kret (if buf =? 0 then None else Some (r, buf))) HI1 Hlt Hh R1 HN) as (buf & c & A' & node' & E2 & Hb & HI2 & Hat & Hl2 & Hpar).
    fold D in E2. rewrite E2. destruct (Z.eqb_spec buf 0) as [?|_]; [done|]. exists (Some (r, buf)), (set_cache c fs1), A', node'. split; [done|]. split; [by apply (later_trans n A fs node A1 fs1 node)|]. done.
Qed.

Lemma last_digits l n : List.last (digits geo (S l) n) 0 = digit geo 0 n.
Proof. induction l as [|l IH]; [done|]. rewrite <- IH. done. Qed.

(** A block is stored behind the last one. *)
Lemma set_inode_block_run N A L fs i iblk D n node : file N A L fs i iblk D n (S D) n node -> n < 16 * P ^ Z.of_nat D -> rep N A L (cache fs) ->
  exists r fs', set_inode_block geo i n NOBLOCK fs = Done (r, fs') /\ added N L i iblk D n (S D) (~ reliable \/ has n (S D) D (n / P ^ Z.of_nat D) = false) A fs node r fs'.
Proof.
  intros HI Hlt R. pose proof HI as [HF _ _ (locks & HL & _) (d & Hd & Hdo) _ [[Hn0 _] _] HD _]. unfold set_inode_block. rewrite kbind_kget. destruct (fo_per _ _ _ _ HF Inode) as [Hp _]. cbn [k_per] in Hp.
  step (udiv_run fs (i_ino i) (inodes_per_group (super fs)) ltac:(lia)). set (goal := u32 _). assert (Hg : 0 <= goal) by apply u32_range. clearbody goal. unfold get_field at 1. step (get_entry_run N A L fs (i_buf i) _ d _ _ R HL eq_refl Hd (do_depth _ _ _ _ _ _ _ Hdo)).
  destruct D as [|l].
  { rewrite Z.pow_0_r in Hlt. destruct (flat_block_run N A L fs i iblk n node goal HI R ltac:(lia) Hg) as (r & fs' & E & HA). exists r, fs'. split; [exact E|]. apply (added_later N L i iblk 0 n _ 1 _ True A fs node A fs node); [done| |done]. intros _. split; [right; apply has_leaf|done]. } destruct (Z.eqb_spec (Z.of_nat (S l)) 0) as [?|_]; [lia|].
  rewrite (split_levels_eq geo Hlg (S l) n) by (fold lg; lia). cbn [kopt]. rewrite kbind_kret. cbn [fst snd]. fold lg P. rewrite last_digits.
  destruct (top_page_run N A L fs i iblk l n node goal HI Hlt R Hg) as (res & fs1 & A1 & node1 & E1 & HL1 & Hres). rewrite <- kbind_assoc. step E1. destruct res as [[dirblock buf]|].
  2: { exists NOBLOCK, fs1. split; [done|]. exists A1, node1. split; [done|]. left. split; [done|]. left. tauto. }
  destruct Hres as (-> & HI1 & Hat1 & Hsame1). destruct (descend_run N L i iblk (S l) n n l A1 fs1 node1 buf HI1 ltac:(lia) Hat1) as (res & fs2 & A2 & node2 & h2 & E2 & HI2 & HL2 & Hres). step E2.
  pose proof (later_trans _ _ _ _ _ _ _ _ _ _ HL1 HL2) as HL3. destruct res as [[dirblock buf2]|].
  2: { exists NOBLOCK, fs2. split; [done|]. exists A2, node2. split; [done|]. left. split; [done|]. destruct Hres as [(-> & R2 & Hb & Hrel)|Hleak]; [left|right; split; [done|by exists h2]]. split; [by left|]. split; [done|].
    apply (file_height N A2 L fs2 i iblk (S l) n (S l)); [intros l' q; by rewrite Hsame1|done]. }
  destruct Hres as (-> & -> & Hat2 & Hsame2). destruct (set_leaf_run N A2 L fs2 i iblk (S l) n node2 buf2 HI2 ltac:(lia) Hat2) as (r & fs3 & E3 & HA). exists r, fs3. split; [done|]. apply (added_later N L i iblk (S l) n _ 1 _ (buf2 = 0 /\ ~ reliable) A fs node A2 fs2 node2 r fs3 HL3); [|done]. intros [Hb2 Hrel]. destruct (Hsame2 Hb2) as [Hb1 Hh]. split; [by left|]. intros l' q. by rewrite Hh, Hsame1.
Qed.

(** ** The tree grows *)

(** The [m] entries from [k] on have gone from the words [base] of [d] to [z]. *)
Record moved_words (base k : Z) (m : nat) (v : Z -> Z) (d z d' z' : list Z) : Prop := {
  mw_desc : bytes_ok d' /\ length d' = length d;
  mw_page : bytes_ok z' /\ length z' = length z;
  mw_moved j : k <= j < k + Z.of_nat m -> word_at d' (base + j) = Some 0 /\ word_at z' j = Some (v j);
  mw_desc_other j : ~ (k <= j < k + Z.of_nat m) -> word_at d' (base + j) = word_at d (base + j);
  mw_page_other j : ~ (k <= j < k + Z.of_nat m) -> word_at z' j = word_at z j;
}.

Lemma moved_cons base k m v d z d1 z1 d' z' : put_at (base + k) 0 d d1 -> put_at k (v k) z z1 -> moved_words base (k + 1) m v d1 z1 d' z' -> moved_words base k (S m) v d z d' z'.
Proof.
  intros (B1 & L1 & W1 & O1) (B2 & L2 & W2 & O2) [[M1 M1'] [M2 M2'] M3 M4 M5]. split; [split; [done|congruence]|split; [done|congruence]| | |].
  - intros j Hj. destruct (decide (j = k)) as [->|]; [rewrite M4, M5 by lia; done|]. apply M3. lia.
  - intros j Hj. rewrite M4 by lia. apply O1. lia.
  - intros j Hj. rewrite M5 by lia. apply O2. lia.
Qed.

Lemma move_entries_run N i iblk r locks buf (v : Z -> Z) : iblk <> r -> i_buf i <> buf -> forall m k A L fs d z dirty,
  let base := DESC_WORDS * i_slot i + D_BLOCKDIR in
  rep N A L (cache fs) -> L !! i_buf i = Some (Hold iblk locks dirty true) -> L !! buf = Some (Hold r 1 true true) -> A !! iblk = Some d -> A !! r = Some z -> bytes_ok d -> page_ok z ->
  0 <= i_slot i /\ 128 * (i_slot i + 1) <= Z.of_nat (length d) -> 0 <= k /\ k + Z.of_nat m <= 16 -> (forall j, k <= j < k + Z.of_nat m -> word_at d (base + j) = Some (v j) /\ is_u32 (v j)) ->
  exists c d' z' dirty', move_entries m i buf k fs = Done (tt, set_cache c fs) /\ rep N (<[r := z']> (<[iblk := d']> A)) (<[i_buf i := Hold iblk locks dirty' true]> L) c /\ moved_words base k m v d z d' z'.
Proof.
  intros Hir Hib. induction m as [|m IH]; intros k A L fs d z dirty base R HLi HLb Hd Hz Hbd [Hbz Hlz] [Hs Hlen] Hk Hv.
  { exists (cache fs), d, z, dirty. split; [by rewrite set_cache_id|]. split; [by rewrite (insert_id A iblk d), (insert_id A r z), (insert_id L) by done|]. split; (done || lia). }
  pose proof (fan_pos geo Hlg) as HP16. fold lg P in HP16. destruct (Hv k ltac:(lia)) as [Hvk Hvu].
  destruct (put_at_word z k (v k) Hbz Hvu ltac:(lia) ltac:(lia)) as (z1 & Hwz & Hputz). destruct (put_at_word d (base + k) 0 Hbd ltac:(unfold is_u32, W32; lia) ltac:(unfold base, DESC_WORDS, D_BLOCKDIR; lia) ltac:(unfold base, DESC_WORDS, D_BLOCKDIR; lia)) as (d1 & Hwd & Hputd).
  cbn [move_entries]. unfold get_field. rewrite Z.add_assoc. fold base. step (get_entry_run N A L fs (i_buf i) _ d _ _ R HLi eq_refl Hd Hvk).
  destruct (put_entry_run N A L fs buf _ z z1 k (v k) R HLb eq_refl Hz Hwz) as (c1 & E1 & R1). step E1. cbn [h_blk dirtied h_locks h_valid] in R1. rewrite (insert_id L) in R1 by done.
  set (fs1 := set_cache c1 fs). assert (Hd1 : <[r := z1]> A !! iblk = Some d) by (by rewrite lookup_insert_ne).
  destruct (put_entry_run N _ L fs1 (i_buf i) _ d d1 (base + k) 0 R1 HLi eq_refl Hd1 Hwd) as (c2 & E2 & R2). unfold put_field. rewrite Z.add_assoc. fold base. step E2. cbn [h_blk dirtied h_locks h_valid] in R2.
  pose proof Hputz as (Bz & Lz & Wz & Oz). pose proof Hputd as (Bd & Ld & Wd & Od).
  destruct (IH (k + 1) _ _ (set_cache c2 fs1) d1 z1 true R2 (lookup_insert_eq _ _ _)) as (c & d' & z' & dirty' & E & R' & HM); [by rewrite lookup_insert_ne|apply lookup_insert_eq|rewrite lookup_insert_ne by done; apply lookup_insert_eq|done|split; [done|by rewrite Lz]|by rewrite Ld|lia| |].
  { intros j Hj. fold base. rewrite Od by lia. apply Hv. lia. }
  exists c, d', z', dirty'. split; [exact E|]. split; [|by apply (moved_cons base k m v d z d1 z1)]. rewrite !insert_insert_eq in R'. rewrite (insert_insert_ne _ iblk r) in R' by done. rewrite insert_insert_eq in R'. done.
Qed.

(** The nodes of a tree that is full are below one page. *)
Lemma has_lower n D l q : (l <= D)%nat -> has n (S (S D)) l q = has n (S D) l q.
Proof. intros Hl. unfold has. destruct (Nat.leb_spec (S (S D)) l), (Nat.leb_spec (S D) l); (done || lia). Qed.

Lemma has_full D q : 0 <= q -> has (16 * P ^ Z.of_nat D) (S D) D q = (q <? 16).
Proof.
  intros Hq. pose proof (fan_pow_pos geo Hlg D) as Hp. fold lg P in Hp. unfold has. destruct (Nat.leb_spec (S D) D); [lia|]. rewrite orb_false_r. destruct (Z.ltb_spec (q * P ^ Z.of_nat D) (16 * P ^ Z.of_nat D)), (Z.ltb_spec q 16); (done || nia).
Qed.

Lemma has_root D q : 0 <= q -> has (16 * P ^ Z.of_nat D) (S (S D)) (S D) q = (q =? 0).
Proof.
  intros Hq. pose proof (fan_pow_pos geo Hlg D) as Hp. pose proof (fan_pow_S geo D) as ES. fold lg P in Hp, ES. pose proof (fan_pos geo Hlg) as HP16. fold lg P in HP16. unfold has. rewrite ES. destruct (Nat.leb_spec (S (S D)) (S D)); [lia|]. rewrite orb_false_r.
  destruct (Z.ltb_spec (q * (P * P ^ Z.of_nat D)) (16 * P ^ Z.of_nat D)), (Z.eqb_spec q 0); try done; nia.
Qed.

Lemma entries_moved D node base d d' z' : moved_words base 0 16 (node D) d blank d' z' -> page_ok z' /\ entries_ok (16 * P ^ Z.of_nat D) (S (S D)) D node z' 0 P 0.
Proof.
  intros [_ [M2 M2'] M3 _ M5]. destruct blank_zero as [[_ Hl] Hz]. split; [split; [done|by rewrite M2']|]. intros k Hk. rewrite !Z.add_0_l, has_lower, has_full by lia.
  destruct (Z.ltb_spec k 16); [by apply M3; lia|]. rewrite M5 by lia. by apply Hz.
Qed.

Lemma tree_grow D A A' node base d d' z' r : let n := 16 * P ^ Z.of_nat D in let node' := with_node (S D) 0 r node in
  tree D n (S D) A node -> (forall l q, (l <= D)%nat -> 0 <= q -> has n (S D) l q = true -> node l q <> r) -> 0 < r < W32 -> moved_words base 0 16 (node D) d blank d' z' -> A' !! r = Some z' ->
  (forall l q, (l < D)%nat -> 0 <= q -> has n (S D) (S l) q = true -> A' !! node (S l) q = A !! node (S l) q) -> tree (S D) n (S (S D)) A' node'.
Proof.
  intros n node' [T1 T2 T3] Hnew Hr HM Hz HA. destruct (entries_moved D node base d d' z' HM) as [Hpz Hez].
  assert (Hlow : forall l q, (l <= D)%nat -> node' l q = node l q) by (intros l q Hl; apply with_node_other; lia). assert (Htop : node' (S D) 0 = r) by apply with_node_same.
  assert (Hcase : forall l q, (l <= S D)%nat -> 0 <= q -> has n (S (S D)) l q = true -> (l = S D /\ q = 0) \/ ((l <= D)%nat /\ has n (S D) l q = true)).
  { intros l q Hl Hq Hh. destruct (decide (l = S D)) as [->|]; [|right; rewrite has_lower in Hh by lia; split; (done || lia)]. left. unfold n in Hh. rewrite has_root in Hh by done. by apply Z.eqb_eq in Hh. }
  split.
  - intros l q Hl Hq Hh. destruct (Hcase (S l) q ltac:(lia) Hq Hh) as [[El ->]|[Hl' Hh']].
    + injection El as ->. exists z'. rewrite Htop. split; [done|]. split; [done|]. intros k Hk. rewrite Hlow by lia. by apply Hez.
    + destruct (T1 l q ltac:(lia) Hq Hh') as (p & Hp & Hpk & He). exists p. rewrite Hlow, HA by (done || lia). split; [done|]. split; [done|]. intros k Hk. rewrite Hlow, has_lower by lia. by apply He.
  - intros l q l' q' Hl Hl' Hq Hq' Hh Hh'. destruct (Hcase l q Hl Hq Hh) as [[-> ->]|[H1 H2]], (Hcase l' q' Hl' Hq' Hh') as [[-> ->]|[H3 H4]]; [done| | |].
    + rewrite Htop, Hlow by done. intros E. by destruct (Hnew l' q' H3 Hq' H4).
    + rewrite Htop, Hlow by done. intros E. by destruct (Hnew l q H1 Hq H2).
    + rewrite !Hlow by done. by apply T2.
  - intros l q Hl Hq Hh. destruct (Hcase l q Hl Hq Hh) as [[-> ->]|[H1 H2]]; [by rewrite Htop|]. rewrite Hlow by done. by apply T3.
Qed.

(** The descriptor has one page, [r], and the depth [D + 1]. *)
Lemma desc_grow i D node d d' z' e e' r : let n := 16 * P ^ Z.of_nat D in let base := DESC_WORDS * i_slot i + D_BLOCKDIR in
  desc_ok i D n (S D) n node d -> moved_words base 0 16 (node D) d blank d' z' -> put_at (DESC_WORDS * i_slot i + D_BLOCKDIR) r d' e -> put_at (DESC_WORDS * i_slot i + D_DEPTH) (Z.of_nat (S D)) e e' ->
  desc_ok i (S D) n (S (S D)) n (with_node (S D) 0 r node) e'.
Proof.
  intros n base [D1 D2 D3 D4 D5] [[M1 M1'] _ M3 M4 _] (B1 & L1 & W1 & O1) (B2 & L2 & W2 & O2). split; [done|by rewrite L2, L1, M1'| |done|].
  - rewrite O2, O1 by (unfold D_BLOCKS, D_DEPTH, D_BLOCKDIR; lia). replace (DESC_WORDS * i_slot i + D_BLOCKS) with (base + (D_BLOCKS - D_BLOCKDIR)) by (unfold base; lia). rewrite M4 by (unfold D_BLOCKS, D_BLOCKDIR; lia).
    rewrite <- D3. f_equal. unfold base. lia.
  - intros k Hk. rewrite O2 by (unfold D_DEPTH, D_BLOCKDIR; lia). rewrite Z.add_0_l. unfold n. rewrite has_root by lia. destruct (Z.eqb_spec k 0) as [->|Hne]; [by rewrite Z.add_0_r, with_node_same|].
    rewrite O1 by lia. apply M3. lia.
Qed.

Lemma file_grow N A A' L fs i iblk D node d d' z' e e' r : let n := 16 * P ^ Z.of_nat D in
  file N A L fs i iblk D n (S D) n node -> Z.of_nat (S D) * lg <= 31 -> new_node A L fs D n (S D) node r -> A !! iblk = Some d ->
  moved_words (DESC_WORDS * i_slot i + D_BLOCKDIR) 0 16 (node D) d blank d' z' -> put_at (DESC_WORDS * i_slot i + D_BLOCKDIR) r d' e -> put_at (DESC_WORDS * i_slot i + D_DEPTH) (Z.of_nat (S D)) e e' ->
  A' !! r = Some z' -> A' !! iblk = Some e' -> (forall blk, blk <> iblk -> blk <> r -> A' !! blk = A !! blk) -> file N A' L fs i iblk (S D) n (S (S D)) n (with_node (S D) 0 r node).
Proof.
  intros n [HF Hroom (K0 & K1 & K2) (locks & HL & Hlk) (d0 & Hd0 & Hdo) HT [Hn Hn1] HD Hnode] HD' [R1 R2 R3 [R4 R5] R6] Hd HM He He' Hz Hi Hoth. assert (d0 = d) as -> by congruence.
  assert (Hsys : forall blk, system fs blk -> A' !! blk = A !! blk) by (intros blk Hs; apply Hoth; intros ->; [by apply (held_not_system N A L fs _ _ HF HL)|done]).
  assert (Hfree : forall y, is_free Block A' fs y <-> is_free Block A fs y) by (intros y; by apply free_frame). pose proof (fan_pow_pos geo Hlg D) as Hp. pose proof (fan_pow_S geo D) as ES. fold lg P in Hp, ES. pose proof (fan_pos geo Hlg) as HP16. fold lg P in HP16. split; try done.
  - by apply (wf_frame N A).
  - split; [by rewrite Hfree|]. split; [intros blk Hs; rewrite Hfree; by apply K1|intros b hd Hb; rewrite Hfree; by apply (K2 b)].
  - by exists locks.
  - exists e'. split; [done|]. by apply (desc_grow i D node d d' z' e e' r).
  - apply (tree_grow D A A' node _ d d' z' r HT R6 ltac:(unfold NOBLOCK in R1; unfold W32; lia) HM Hz). intros l q Hl Hq Hh. apply Hoth; [|by apply R6]. destruct (Hnode (S l) q Hl Hq Hh) as (_ & Hu & _). intros E. by apply (Hu _ _ HL).
  - split; [|done]. rewrite ES. unfold n. nia.
  - intros l q Hl Hq Hh. unfold in_use. rewrite Hfree. destruct (decide (l = S D)) as [->|Hne].
    + unfold n in Hh. rewrite has_root in Hh by done. apply Z.eqb_eq in Hh as ->. by rewrite with_node_same.
    + rewrite has_lower in Hh by lia. rewrite with_node_other by tauto. apply Hnode; (done || lia).
Qed.

(** The last steps: the top entry, the depth, and the buffers. *)
Lemma grow_end_run N A L fs i iblk locks buf r dirty d' e e' depth : i_buf i <> buf -> L !! buf = None -> L !! i_buf i = Some (Hold iblk locks false true) -> iblk <> r ->
  rep N A (<[i_buf i := Hold iblk locks dirty true]> (<[buf := Hold r 1 true true]> L)) (cache fs) -> A !! iblk = Some d' -> put_word d' (DESC_WORDS * i_slot i + D_BLOCKDIR) r = Some e -> put_word e (DESC_WORDS * i_slot i + D_DEPTH) depth = Some e' ->
  exists c, (put_field i D_BLOCKDIR r ;;; put_field i D_DEPTH depth ;;; on_cache (c_updated buf) ;;; mark_inode_dirty i ;;; release buf ;;; kret true) fs = Done (true, set_cache c fs) /\ rep N (<[iblk := e']> A) L c.
Proof.
  intros Hib Hbuf HL Hir R Hd Hw1 Hw2. destruct (put_entry_run N A _ fs (i_buf i) _ d' e _ _ R (lookup_insert_eq _ _ _) eq_refl Hd Hw1) as (c1 & E1 & R1). unfold put_field. step E1. cbn [h_blk dirtied h_locks h_valid] in R1. rewrite insert_insert_eq in R1.
  destruct (put_entry_run N _ _ (set_cache c1 fs) (i_buf i) _ e e' _ _ R1 (lookup_insert_eq _ _ _) eq_refl (lookup_insert_eq _ _ _) Hw2) as (c2 & E2 & R2). step E2. cbn [h_blk dirtied h_locks h_valid] in R2. rewrite !insert_insert_eq in R2.
  destruct (mark_held_run N _ _ (set_cache c2 (set_cache c1 fs)) buf (Hold r 1 true true) R2 ltac:(rewrite lookup_insert_ne by done; apply lookup_insert_eq) eq_refl) as (c3 & E3 & R3). step E3. cbn [marked h_blk h_locks h_valid] in R3.
  rewrite (insert_insert_ne _ buf (i_buf i)), insert_insert_eq in R3 by done.
  destruct (mark_held_run N _ _ (set_cache c3 (set_cache c2 (set_cache c1 fs))) (i_buf i) _ R3 (lookup_insert_eq _ _ _) eq_refl) as (c4 & E4 & R4). unfold mark_inode_dirty. step E4. cbn [marked h_blk h_locks h_valid] in R4.
  rewrite insert_insert_eq, (insert_insert_ne _ (i_buf i) buf), (insert_id L) in R4 by done.
  destruct (cache_release_run N _ L (set_cache c4 (set_cache c3 (set_cache c2 (set_cache c1 fs)))) buf r R4 Hbuf) as (c5 & E5 & R5). unfold release. step E5. by exists c5.
Qed.

Lemma grow_run N A L fs i iblk D node : let n := 16 * P ^ Z.of_nat D in file N A L fs i iblk D n (S D) n node -> Z.of_nat (S D) * lg <= 31 -> rep N A L (cache fs) ->
  exists ok fs' A', grow geo i (Z.of_nat D) fs = Done (ok, fs') /\ rep N A' L (cache fs') /\ shape fs' = shape fs /\ (forall y, is_free Block A' fs' y -> is_free Block A fs y) /\
    (if ok then exists r, file N A' L fs' i iblk (S D) n (S (S D)) n (with_node (S D) 0 r node) else file N A' L fs' i iblk D n (S D) n node).
Proof.
  intros n HI HD' R. pose proof HI as [_ _ _ (locks & HL & _) (d & Hd & Hdo) HT [Hn _] _ _]. pose proof (fan_pow_pos geo Hlg D) as Hp. fold lg P in Hp. unfold grow, get_field.
  pose proof (do_top _ _ _ _ _ _ _ Hdo 0 ltac:(lia)) as Hent. rewrite !Z.add_0_r in Hent. step (get_entry_run N A L fs (i_buf i) _ d _ _ R HL eq_refl Hd Hent). set (goal := u32 _). assert (Hg : 0 <= goal) by apply u32_range. clearbody goal.
  destruct (file_new_block N A L fs i iblk D n (S D) n node goal None HI R ltac:(done) Hg) as (r & fs1 & A1 & E1 & R1 & HI1 & [S1 S2 S3 S4] & Hr). step E1. cbn [plus] in R1.
  destruct (Z.eqb_spec r NOBLOCK) as [Er|Er]; [exists false, fs1, A1; done|]. destruct Hr as [?|[_ HN]]; [done|]. pose proof HN as [N1 N2 N3 N4 N6]. pose proof HI1 as [HF1 _ _ _ (d1 & Hd1 & Hdo1) _ _ _ _].
  destruct (new_page_run N A1 L fs1 r R1 (fo_room _ _ _ _ HF1) N3) as (buf & c & E2 & Hbuf & HbufL & R2). step E2. destruct (Z.eqb_spec buf 0) as [?|_]; [done|]. set (fs2 := set_cache c fs1).
  assert (Hir : iblk <> r) by (intros E; by apply (N3 _ _ HL)). assert (Hib : i_buf i <> buf) by congruence. assert (Hu : forall k, 0 <= k < 16 -> is_u32 (node D k)).
  { intros k Hk. pose proof (tr_small _ _ _ _ _ HT D k (le_n D) ltac:(lia)) as Hs. unfold n in Hs. rewrite has_full in Hs by lia. specialize (Hs ltac:(apply Z.ltb_lt; lia)). unfold is_u32. lia. }
  destruct (move_entries_run N i iblk r locks buf (node D) Hir Hib 16 0 _ _ fs2 d1 blank false R2) as (c3 & d' & z' & dirty' & E3 & R3 & HM);
    [by rewrite lookup_insert_ne|apply lookup_insert_eq|by rewrite lookup_insert_ne|apply lookup_insert_eq|apply Hdo1|apply blank_zero|apply Hdo1|lia| |].
  { intros j Hj. split; [|apply Hu; lia]. rewrite (do_top _ _ _ _ _ _ _ Hdo1 j ltac:(lia)), Z.add_0_l. unfold n. rewrite has_full by lia. destruct (Z.ltb_spec j 16); [done|lia]. }
  change (Z.to_nat DFS_TOPBLOCKDIR_SIZE) with 16%nat. step E3. rewrite insert_insert_ne in R3 by done. rewrite insert_insert_eq in R3. destruct (do_length _ _ _ _ _ _ _ Hdo1) as [Hs Hlen].
  pose proof (mw_desc _ _ _ _ _ _ _ _ HM) as [Hb' Hl']. destruct (put_at_word d' (DESC_WORDS * i_slot i + D_BLOCKDIR) r Hb' ltac:(unfold is_u32, W32, NOBLOCK in *; lia) ltac:(unfold DESC_WORDS, D_BLOCKDIR; lia) ltac:(rewrite Hl'; unfold DESC_WORDS, D_BLOCKDIR; lia)) as (e & Hwe & Hpe).
  pose proof Hpe as (Be & Le & _ & _). assert (HDs : is_u32 (Z.of_nat (S D))) by (unfold is_u32, W32; lia).
  destruct (put_at_word e (DESC_WORDS * i_slot i + D_DEPTH) (Z.of_nat (S D)) Be HDs ltac:(unfold DESC_WORDS, D_DEPTH; lia) ltac:(rewrite Le, Hl'; unfold DESC_WORDS, D_DEPTH; lia)) as (e' & Hwe' & Hpe').
  replace (u32 (Z.of_nat D + 1)) with (Z.of_nat (S D)) by (rewrite u32_small; [lia|unfold is_u32 in *; lia]).
  destruct (grow_end_run N _ L (set_cache c3 fs2) i iblk locks buf r dirty' d' e e' (Z.of_nat (S D)) Hib HbufL HL Hir R3) as (c4 & E4 & R4); [apply lookup_insert_eq|done|done|].
  rewrite insert_insert_eq in R4. exists true, (set_cache c4 (set_cache c3 fs2)), (<[iblk := e']> (<[r := z']> A1)). assert (Hoth : forall blk, blk <> iblk -> blk <> r -> <[iblk := e']> (<[r := z']> A1) !! blk = A1 !! blk) by (intros blk H1 H2; by rewrite !lookup_insert_ne).
  split; [exact E4|]. split; [done|]. split; [done|]. split.
  - intros y Hy. apply S3. apply (free_frame Block A1 _ fs1 y) in Hy; [done|]. intros blk Hsys. apply Hoth; intros ->; [by apply (held_not_system N A1 L fs1 _ _ HF1 HL)|done].
  - exists r. do 3 apply file_cache. apply (file_grow N A1 _ L fs1 i iblk D node d1 d' z' e e' r HI1 HD' HN Hd1 HM Hpe Hpe'); [rewrite lookup_insert_ne by done|..|exact Hoth]; apply lookup_insert_eq.
Qed.

(** The test for a full tree is exact. *)
Lemma full_test D n : 0 <= n <= 16 * P ^ Z.of_nat D /\ n + 1 < W32 -> Z.of_nat D * lg <= 31 -> (n = 0 -> D = 0%nat) ->
  (n =? u32 (DFS_TOPBLOCKDIR_SIZE * shl32 1 (u32 (Z.of_nat D * lg)))) = (n =? 16 * P ^ Z.of_nat D).
Proof.
  intros [Hn Hw] HD H0. assert (Hd : 0 <= Z.of_nat D * lg) by (apply Z.mul_nonneg_nonneg; lia). rewrite (u32_small (Z.of_nat D * lg)) by (unfold is_u32, W32; lia). rewrite (shl32_eq geo) by lia. pose proof (fan_pow geo Hlg D) as EP. fold lg P in EP. rewrite <- EP. change DFS_TOPBLOCKDIR_SIZE with 16.
  assert (Hp : 0 < P ^ Z.of_nat D) by apply (fan_pow_pos geo Hlg D). destruct (decide (16 * P ^ Z.of_nat D < W32)) as [Hs|Hb]; [by rewrite u32_small by (unfold is_u32; lia)|].
  assert (Hz : u32 (16 * P ^ Z.of_nat D) = 0).
  { assert (H28 : 28 <= Z.of_nat D * lg). { destruct (decide (28 <= Z.of_nat D * lg)) as [|Hlt]; [done|]. exfalso. apply Hb. rewrite EP. pose proof (Z.pow_le_mono_r 2 (Z.of_nat D * lg) 27 ltac:(lia) ltac:(lia)). unfold W32. change (2 ^ 27) with 134217728 in *. lia. }
    rewrite EP. replace (Z.of_nat D * lg) with (28 + (Z.of_nat D * lg - 28)) by lia. rewrite Z.pow_add_r by lia. unfold u32, W32. change (2 ^ 28) with 268435456. rewrite Z.mul_assoc. change (16 * 268435456) with 4294967296. rewrite Z.mul_comm. by apply Z.mod_mul. }
  rewrite Hz. destruct (Z.eqb_spec n 0) as [En|], (Z.eqb_spec n (16 * P ^ Z.of_nat D)); try done; [|unfold W32 in *; lia].
  rewrite (H0 En), Z.pow_0_r in Hb. unfold W32 in Hb. lia.
Qed.

(** [expand_inode] is right. *)
Lemma expand_run N A L fs i iblk D n node : file N A L fs i iblk D n (S D) n node -> rep N A L (cache fs) -> (n = 0 -> D = 0%nat) -> (n = 16 * P ^ Z.of_nat D -> Z.of_nat (S D) * lg <= 31) ->
  exists r fs' D', expand_inode geo i fs = Done (r, fs') /\ (D' = D \/ n = 16 * P ^ Z.of_nat D) /\ (n < 16 * P ^ Z.of_nat D' \/ r = NOBLOCK) /\
    added N L i iblk D' n (S D') (n < 16 * P ^ Z.of_nat D -> ~ reliable \/ has n (S D) D (n / P ^ Z.of_nat D) = false) A fs node r fs'.
Proof.
  intros HI R H0 Hd. pose proof HI as [_ _ _ (locks & HL & _) (d & Hde & Hdo) _ Hn HD _]. unfold expand_inode, get_field. step (get_entry_run N A L fs (i_buf i) _ d _ _ R HL eq_refl Hde (do_depth _ _ _ _ _ _ _ Hdo)).
  step (get_entry_run N A L fs (i_buf i) _ d _ _ R HL eq_refl Hde (do_blocks _ _ _ _ _ _ _ Hdo)). fold lg. rewrite (full_test D n Hn HD H0). destruct (Z.eqb_spec n (16 * P ^ Z.of_nat D)) as [->|Hne].
  - destruct (grow_run N A L fs i iblk D node HI (Hd eq_refl) R) as (ok & fs1 & A1 & E1 & R1 & S1 & F1 & Hok). step E1. destruct ok.
    2: { exists NOBLOCK, fs1, D. split; [done|]. split; [by left|]. split; [by right|]. exists A1, node. split; [done|]. left. split; [done|]. left. split; [lia|done]. }
    destruct Hok as (p & HI1). pose proof HI1 as [_ _ _ (locks1 & HL1 & _) (d1 & Hde1 & Hdo1) _ _ _ _]. step (get_entry_run N A1 L fs1 (i_buf i) _ d1 _ _ R1 HL1 eq_refl Hde1 (do_blocks _ _ _ _ _ _ _ Hdo1)).
    assert (Hlt : 16 * P ^ Z.of_nat D < 16 * P ^ Z.of_nat (S D)). { pose proof (fan_pow_pos geo Hlg D) as Hp. pose proof (fan_pow_S geo D) as ES. pose proof (fan_pos geo Hlg) as HP. fold lg P in Hp, ES, HP. rewrite ES. nia. }
    destruct (set_inode_block_run N A1 L fs1 i iblk (S D) _ _ HI1 Hlt R1) as (r & fs' & E & HA). exists r, fs', (S D). split; [exact E|]. split; [by right|]. split; [by left|].
    refine (added_later N L i iblk (S D) _ _ _ _ _ A fs node A1 fs1 _ r fs' _ _ HA); [|intros _; split; [lia|done]]. split; [done|]. split; [done|]. intros x Hx. apply with_node_other. lia.
  - rewrite kbind_kret. step (get_entry_run N A L fs (i_buf i) _ d _ _ R HL eq_refl Hde (do_blocks _ _ _ _ _ _ _ Hdo)). destruct (set_inode_block_run N A L fs i iblk D n node HI ltac:(lia) R) as (r & fs' & E & HA). exists r, fs', D. split; [exact E|]. split; [by left|]. split; [left; lia|].
    refine (added_later N L i iblk D n _ _ _ _ A fs node A fs node r fs' _ _ HA); [done|]. intros Hw. split; [intros _; exact Hw|done].
Qed.

(** ** The disk is full *)

(** The buffer of the page of height [m + 1] on the way stays locked. *)
Definition left_locked (N : nat) (L : gmap Z hold) (n : Z) (node : nat -> Z -> Z) (m : nat) fs' : Prop :=
  exists A' b, L !! b = None /\ rep N A' (<[b := Hold (parent n m node) 1 false true]> L) (cache fs').

(** The page of height [m + 1] is the lowest one on the way to block [n]. *)
Definition lowest (n : Z) (m : nat) : Prop := n mod P ^ Z.of_nat m = 0 /\ n mod P ^ Z.of_nat (S m) <> 0.

Lemma has_part n l : has n (S l) l (n / P ^ Z.of_nat l) = negb (n mod P ^ Z.of_nat l =? 0).
Proof.
  unfold has. destruct (Nat.leb_spec (S l) l); [lia|]. rewrite orb_false_r. pose proof (fan_pow_pos geo Hlg l) as Hp. fold lg P in Hp. pose proof (Z.div_mod n (P ^ Z.of_nat l) ltac:(lia)). pose proof (Z.mod_pos_bound n (P ^ Z.of_nat l) Hp).
  destruct (Z.eqb_spec (n mod P ^ Z.of_nat l) 0), (Z.ltb_spec (n / P ^ Z.of_nat l * P ^ Z.of_nat l) n); cbn; lia.
Qed.

(** The pages above the lowest one are there. *)
Lemma lowest_has n m l : lowest n m -> (m <= l)%nat -> has n (S l) l (n / P ^ Z.of_nat l) = negb (l =? m)%nat.
Proof.
  intros [H0 H1] Hl. rewrite has_part. destruct (Nat.eqb_spec l m) as [->|Hne]; [by rewrite H0|]. destruct (Z.eqb_spec (n mod P ^ Z.of_nat l) 0) as [E|]; [|done]. destruct H1.
  pose proof (fan_pow_pos geo Hlg l) as Hp. pose proof (fan_pow_pos geo Hlg (S m)) as Hq. fold lg P in Hp, Hq. apply Z.mod_divide; [lia|]. apply Z.mod_divide in E; [|lia]. refine (Z.divide_trans _ _ _ _ E).
  exists (P ^ Z.of_nat (l - S m)). rewrite <- Z.pow_add_r by lia. f_equal. lia.
Qed.

Lemma descend_full_run N L i iblk D n cnt m : reliable -> lowest n m -> forall l A fs node, file N A L fs i iblk D n (S l) cnt node -> (l < D)%nat -> (m <= l)%nat -> rep N A L (cache fs) ->
  (forall y, ~ is_free Block A fs y) ->
  exists res fs', descend geo (removelast (digits geo (S l) n)) (parent n l node) 0 fs = Done (res, fs') /\
    match res with
    | Some (dirblock, buf) => m = 0%nat /\ dirblock = parent n 0 node /\ buf = 0 /\ exists c, fs' = set_cache c fs /\ rep N A L c /\ file N A L fs' i iblk D n 1 cnt node
    | None => left_locked N L n node m fs'
    end.
Proof.
  intros Hrel Hlow. induction l as [|l IH]; intros A fs node HI Hl Hm R Hfull.
  { exists (Some (parent n 0 node, 0)), fs. split; [done|]. split; [lia|]. split; [done|]. split; [done|]. exists (cache fs). by rewrite set_cache_id. }
  destruct (hold_page_run _ _ _ _ _ _ _ _ _ _ _ _ HI Hl ltac:(by left)) as (b & c & E & Hcase). change (removelast (digits geo (S (S l)) n)) with (digit geo (S l) n :: removelast (digits geo (S l) n)). cbn [descend]. step E.
  set (fs0 := set_cache c fs). assert (HI0 : file N A L fs0 i iblk D n (S (S l)) cnt node) by (by apply file_cache). assert (Hn : 0 <= n) by apply HI.
  destruct Hcase as [(_ & _ & _ & ?)|(Hb & HbL & dirty & R0 & Hdirty)]; [done|]. assert (dirty = false) as -> by (destruct dirty; [|done]; specialize (Hdirty eq_refl); rewrite (lowest_has n m) in Hdirty by (done || lia); destruct (Nat.eqb_spec (S (S l)) m); [lia|done]).
  destruct (Z.eqb_spec b 0) as [?|_]; [done|]. destruct (parent_page _ _ _ _ _ _ _ _ _ _ _ HI0 Hl) as (d & Hd & _ & He & Hps & Hpu).
  pose proof (entry_on_way n (S l) node d Hn He) as Hent. step (get_entry_run N A _ fs0 b (Hold (parent n (S l) node) 1 false true) d _ _ R0 (lookup_insert_eq _ _ _) eq_refl Hd Hent).
  destruct (has n (S (S l)) (S l) (n / P ^ Z.of_nat (S l))) eqn:Hh; rewrite (lowest_has n m) in Hh by (done || lia); destruct (Nat.eqb_spec (S l) m) as [Em|Hne]; try done.
  - assert (Hh' : has n (S (S l)) (S l) (n / P ^ Z.of_nat (S l)) = true) by (rewrite (lowest_has n m) by (done || lia); by destruct (Nat.eqb_spec (S l) m)).
    pose proof (tr_small _ _ _ _ _ (fi_tree _ _ _ _ _ _ _ _ _ _ _ HI0) (S l) _ ltac:(lia) (div_nonneg n (S l) Hn) Hh') as Hsm. destruct (Z.eqb_spec (node (S l) (n / P ^ Z.of_nat (S l))) 0); [lia|].
    destruct (cache_release_run N A L fs0 b _ R0 HbL) as (c2 & E2 & R2). unfold release. step E2.
    assert (HI2 : file N A L (set_cache c2 fs0) i iblk D n (S l) cnt node) by (apply (file_height N A L _ i iblk D n (S (S l))); [intros l' q'; by apply has_same|by apply file_cache]).
    destruct (IH A (set_cache c2 fs0) node HI2 ltac:(lia) ltac:(lia) R2 Hfull) as (res & fs' & E' & Hres). by exists res, fs'.
  - change (0 =? 0) with true. cbv iota.
    destruct (file_new_block N A L fs0 i iblk D n (S (S l)) cnt node (u32 (parent n (S l) node + 1)) (Some (b, Hold (parent n (S l) node) 1 false true)) HI0 R0 ltac:(done) ltac:(apply u32_range)) as (r & fs1 & A1 & E1 & RR1 & _ & _ & Hr).
    step E1. destruct Hr as [->|[Hf _]]; [|by destruct (Hfull r)]. exists None, fs1. split; [done|]. exists A1, b. by rewrite <- Em.
Qed.

Lemma set_leaf_full_run N A L fs i iblk D n node : reliable -> lowest n 0 -> file N A L fs i iblk D n 1 n node -> (0 < D)%nat -> rep N A L (cache fs) -> (forall y, ~ is_free Block A fs y) ->
  exists fs', set_leaf i (parent n 0 node) 0 (digit geo 0 n) NOBLOCK fs = Done (NOBLOCK, fs') /\ left_locked N L n node 0 fs'.
Proof.
  intros Hrel Hlow HI HD R Hfull. destruct (hold_page_run _ _ _ _ _ _ _ _ _ _ _ _ HI HD ltac:(by left)) as (b & c & E & Hcase). unfold set_leaf. step E. set (fs0 := set_cache c fs). assert (HI0 : file N A L fs0 i iblk D n 1 n node) by (by apply file_cache).
  destruct Hcase as [(_ & _ & _ & ?)|(Hb & HbL & dirty & R0 & Hdirty)]; [done|]. assert (dirty = false) as -> by (destruct dirty; [|done]; specialize (Hdirty eq_refl); by rewrite (lowest_has n 0) in Hdirty by (done || lia)).
  destruct (Z.eqb_spec b 0) as [?|_]; [done|]. destruct (parent_page _ _ _ _ _ _ _ _ _ _ _ HI0 HD) as (d & Hd & _ & He & Hps & Hpu). destruct (fi_count _ _ _ _ _ _ _ _ _ _ _ HI0) as [[Hn0 _] Hn1].
  destruct (leaf_goal N A _ fs0 b (Hold (parent n 0 node) 1 false true) d n node (parent n 0 node) R0 (lookup_insert_eq _ _ _) eq_refl Hd He) as (goal & EG & Hgoal). change (NOBLOCK =? NOBLOCK) with true. cbv iota. rewrite kbind_assoc. step EG.
  destruct (counted_block_run N A L fs0 i iblk D n 1 n node goal (Some (b, Hold (parent n 0 node) 1 false true)) HI0 R0 ltac:(done) Hgoal Hn0 Hn1) as (r & fs1 & A1 & E1 & R1 & _ & _ & Hr). step E1.
  destruct Hr as [[-> _]|[Hf _]]; [|by destruct (Hfull r)]. exists fs1. split; [done|]. by exists A1, b.
Qed.

(** With no free block, the lowest page on the way stays in the cache. *)
Lemma expand_full_run N A L fs i iblk D n node m : reliable -> lowest n m -> (m < D)%nat -> file N A L fs i iblk D n (S D) n node -> rep N A L (cache fs) -> (forall y, ~ is_free Block A fs y) ->
  exists fs', expand_inode geo i fs = Done (NOBLOCK, fs') /\ left_locked N L n node m fs'.
Proof.
  intros Hrel Hlow Hm HI R Hfull. destruct D as [|l]; [lia|]. pose proof HI as [HF _ _ (locks & HL & _) (d & Hde & Hdo) HT Hn HD _]. pose proof (proj1 (proj1 Hn)) as Hn0. set (D := S l) in *. pose proof (fan_pow_pos geo Hlg D) as Hp. fold lg P in Hp.
  assert (Hh : has n (S D) D (n / P ^ Z.of_nat D) = true) by (rewrite (lowest_has n m) by (done || lia); destruct (Nat.eqb_spec D m); [lia|done]).
  assert (Hne : n <> 16 * P ^ Z.of_nat D) by (intros ->; rewrite has_part, Z.mod_mul in Hh; [done|lia]).
  assert (H0 : n = 0 -> D = 0%nat) by (intros ->; rewrite has_part, Zmod_0_l in Hh; done).
  unfold expand_inode, get_field. step (get_entry_run N A L fs (i_buf i) _ d _ _ R HL eq_refl Hde (do_depth _ _ _ _ _ _ _ Hdo)).
  step (get_entry_run N A L fs (i_buf i) _ d _ _ R HL eq_refl Hde (do_blocks _ _ _ _ _ _ _ Hdo)). fold lg. rewrite (full_test D n Hn HD H0). destruct (Z.eqb_spec n (16 * P ^ Z.of_nat D)) as [?|_]; [done|].
  rewrite kbind_kret. step (get_entry_run N A L fs (i_buf i) _ d _ _ R HL eq_refl Hde (do_blocks _ _ _ _ _ _ _ Hdo)).
  unfold set_inode_block. rewrite kbind_kget. destruct (fo_per _ _ _ _ HF Inode) as [Hper _]. cbn [k_per] in Hper.
  step (udiv_run fs (i_ino i) (inodes_per_group (super fs)) ltac:(lia)). set (goal := u32 _). assert (Hg : 0 <= goal) by apply u32_range. clearbody goal. unfold get_field at 1. step (get_entry_run N A L fs (i_buf i) _ d _ _ R HL eq_refl Hde (do_depth _ _ _ _ _ _ _ Hdo)).
  destruct (Z.eqb_spec (Z.of_nat D) 0) as [?|_]; [lia|]. rewrite (split_levels_eq geo Hlg D n) by (fold lg; lia). cbn [kopt]. rewrite kbind_kret. cbn [fst snd]. fold lg P. unfold D at 3 4. rewrite last_digits.
  assert (Ht : 0 <= n / P ^ Z.of_nat D < 16) by (split; [by apply Z.div_pos|apply Z.div_lt_upper_bound; lia]). pose proof (do_top _ _ _ _ _ _ _ Hdo _ Ht) as Hent. rewrite Z.add_0_l, <- Z.add_assoc, Hh in Hent.
  rewrite <- kbind_assoc. unfold get_field at 1. rewrite kbind_assoc. step (get_entry_run N A L fs (i_buf i) _ d _ _ R HL eq_refl Hde Hent).
  pose proof (tr_small _ _ _ _ _ HT D _ (le_n D) (proj1 Ht) Hh) as Hsm. destruct (Z.eqb_spec (node D (n / P ^ Z.of_nat D)) 0); [lia|]. rewrite kbind_kret.
  assert (HI1 : file N A L fs i iblk D n D n node) by (apply (file_height N A L fs i iblk D n (S D)); [intros l' q'; by apply has_same|done]).
  destruct (descend_full_run N L i iblk D n n m Hrel Hlow l A fs node HI1 ltac:(lia) ltac:(lia) R Hfull) as (res & fs1 & E1 & Hres). step E1. destruct res as [[dirblock buf]|]; [|by exists fs1].
  destruct Hres as (-> & -> & -> & c & -> & R1 & HI2). by apply (set_leaf_full_run N A L (set_cache c fs) i iblk D n node Hrel Hlow HI2 ltac:(lia) R1).
Qed.

End Files.
