(* ===== verification/Dshrink.v ===== *)
(** * The block tree shrinks (sys/fs/dfs/inode.c)

    [truncate_inode] removes blocks from the end.  The pages on the way to the
    last block stay locked from one round to the next; a round removes blocks
    of the last leaf page, and when the page is empty the page itself and the
    pages above it that have become empty.  A tree from which the blocks of a
    leaf page have been removed is a tree with a way to the next block, as in
    Dtree.v, and each page that goes away shortens the way. *)

From S2P Require Import Prelude Bitops Blocks Group Groups Dinode Dtree.
Local Open Scope k_scope.

Tactic Notation "step" uconstr(E) := rewrite (kbind_done _ _ _ _ _ E).

Section Shrink.
Context {C : Type} `{!BlockCache C, !CacheSpec C}.
Variable geo : geometry.
Let lg : Z := log_blkptrs_per_block geo.
Let P : Z := 2 ^ lg.
Hypothesis Hlg : 4 <= lg.
Hypothesis Hbs : blocksize geo = 4 * P.
Hypothesis Hword : blocksize geo < W32.
Implicit Types fs : filsys C.

#[local] Notation has := (has geo).
#[local] Notation entries_ok := (entries_ok geo).
#[local] Notation tree := (tree geo).
#[local] Notation file := (file geo).
#[local] Notation digit := (digit geo).

(** ** A node is removed *)

Lemma has_more n l l' q : has n (S l) l' q = true -> has n l l' q = true.
Proof. intros H. by rewrite (has_step geo Hlg), H. Qed.

Lemma has_rest n l l' q : ~ (l' = l /\ q = n / P ^ Z.of_nat l) -> has n l l' q = has n (S l) l' q.
Proof.
  intros Hne. rewrite (has_step geo Hlg n l l' q). destruct (Nat.eqb_spec l' l) as [->|]; [|by rewrite orb_false_r]. fold lg P. destruct (Z.eqb_spec q (n / P ^ Z.of_nat l)); [tauto|]. by rewrite orb_false_r.
Qed.

Lemma entries_clear n l node d d' off count q m : entries_ok n l l node d off count q -> has n (S l) l (n / P ^ Z.of_nat l) = false -> m = n / P ^ Z.of_nat l - q -> 0 <= m < count ->
  word_at d' (off + m) = Some 0 -> (forall j, j <> off + m -> word_at d' j = word_at d j) -> entries_ok n (S l) l node d' off count q.
Proof.
  intros He Hh -> Hm E1 E2 k Hk. destruct (decide (k = n / P ^ Z.of_nat l - q)) as [->|Hne].
  - rewrite E1. replace (q + (n / P ^ Z.of_nat l - q)) with (n / P ^ Z.of_nat l) by lia. by rewrite Hh.
  - rewrite E2 by lia. rewrite (He k Hk), has_rest; [done|]. lia.
Qed.

Lemma entries_keep n l l' node d off count q : entries_ok n l l' node d off count q -> (l' <> l \/ forall k, 0 <= k < count -> q + k <> n / P ^ Z.of_nat l) -> entries_ok n (S l) l' node d off count q.
Proof. intros He Hne k Hk. rewrite (He k Hk), has_rest; [done|]. intros [? ?]. destruct Hne as [?|Hne]; [done|]. by apply (Hne k). Qed.

(** The entry of the node in its parent has been cleared. *)
Lemma tree_unlink D n l A A' node : tree D n l A node -> 0 <= n -> (l <= D)%nat -> has n (S l) l (n / P ^ Z.of_nat l) = false ->
  ((l < D)%nat -> exists d d', A !! node (S l) (n / P ^ Z.of_nat (S l)) = Some d /\ A' !! node (S l) (n / P ^ Z.of_nat (S l)) = Some d' /\ put_at (digit l n) 0 d d') ->
  (forall l' q', (l' < D)%nat -> 0 <= q' -> has n (S l) (S l') q' = true -> ~ (l' = l /\ q' = n / P ^ Z.of_nat (S l)) -> A' !! node (S l') q' = A !! node (S l') q') ->
  tree D n (S l) A' node.
Proof.
  intros [T1 T2 T3] Hn Hl Hh Hpar Hoth. split.
  - intros l' q' Hl' Hq' Hh'. destruct (T1 l' q' Hl' Hq' (has_more n l (S l') q' Hh')) as (d & Hd & Hp & He). destruct (decide (l' = l /\ q' = n / P ^ Z.of_nat (S l))) as [[-> ->]|Hne].
    + destruct (Hpar Hl') as (d0 & d' & Hd0 & Hd' & Hb & Hlen & Hw & Ho). assert (d0 = d) as -> by (unfold P, lg in *; congruence). exists d'. split; [done|]. split; [split; [done|by rewrite Hlen; apply Hp]|].
      apply (entries_clear n l node d d' 0 P _ (digit l n)); [done|done|pose proof (next_node geo Hlg l n Hn) as En; fold lg P in En |- *; lia|apply (digit_bounds geo Hlg)|by rewrite Z.add_0_l|]. intros j Hj. apply Ho. lia.
    + exists d. rewrite Hoth by done. split; [done|]. split; [done|]. apply entries_keep; [done|]. destruct (decide (l' = l)) as [->|]; [right|by left]. destruct (div_below geo Hlg n l q' Hn) as [Hx|Hx]; [exact Hx|]. tauto.
  - intros l1 q1 l2 q2 Hl1 Hl2 Hq1 Hq2 H1 H2. apply T2; try done; by apply has_more.
  - intros l1 q1 Hl1 Hq1 H1. apply T3; try done. by apply has_more.
Qed.

(** ** Blocks of a leaf page are removed *)

(** The blocks of the last leaf page from [m] on. *)
Definition in_leaf (n m : Z) : Prop := (n - 1) / P * P <= m < n.

Lemma leaf_div n m l : 0 < n -> in_leaf n m -> (1 <= l)%nat -> m / P ^ Z.of_nat l = (n - 1) / P ^ Z.of_nat l.
Proof.
  intros Hn [H1 H2] Hl. destruct l as [|l]; [lia|]. pose proof (fan_pos geo Hlg) as HP. pose proof (fan_pow_pos geo Hlg l) as Hp. pose proof (fan_pow_S geo l) as ES. fold lg P in HP, Hp, ES. rewrite ES, <- !Z.div_div by lia. f_equal.
  pose proof (Z.div_mod (n - 1) P ltac:(lia)). pose proof (Z.mod_pos_bound (n - 1) P ltac:(lia)). symmetry. apply (Z.div_unique_pos m P _ (m - (n - 1) / P * P)); lia.
Qed.

Lemma has_cut D n m l q : 0 < n -> in_leaf n m -> (1 <= l <= D)%nat -> has m 1 l q = has n (S D) l q.
Proof.
  intros Hn Hm Hl. unfold Dtree.has. fold lg P. destruct (Nat.leb_spec 1 l); [|lia]. destruct (Nat.leb_spec (S D) l); [lia|]. cbn [andb]. rewrite orb_false_r, (leaf_div n m l) by (done || lia).
  pose proof (fan_pow_pos geo Hlg l) as Hp. fold lg P in Hp. pose proof (Z.mul_div_le (n - 1) _ Hp) as H1. pose proof (Z.mul_succ_div_gt (n - 1) _ Hp) as H2. pose proof (leaf_div n m l Hn Hm ltac:(lia)) as E. pose proof (Z.mul_div_le m _ Hp) as H3. destruct Hm as [_ Hm].
  destruct (Z.ltb_spec (q * P ^ Z.of_nat l) m), (Z.eqb_spec q ((n - 1) / P ^ Z.of_nat l)), (Z.ltb_spec (q * P ^ Z.of_nat l) n); try done; subst; nia.
Qed.

Lemma has_cut_leaf m q : has m 1 0 q = (q <? m).
Proof. unfold Dtree.has. by rewrite orb_false_r, Z.pow_0_r, Z.mul_1_r. Qed.

Lemma has_leaf_block D n q : has n (S D) 0 q = (q <? n).
Proof. unfold Dtree.has. by rewrite orb_false_r, Z.pow_0_r, Z.mul_1_r. Qed.

(** The last leaf page. *)
Definition leaf_page (n : Z) (node : nat -> Z -> Z) : Z := node 1%nat ((n - 1) / P ^ Z.of_nat 1).

Lemma tree_cut D n m A A' node d d' : tree D n (S D) A node -> 0 < n -> in_leaf n m -> (1 <= D)%nat -> A !! leaf_page n node = Some d -> A' !! leaf_page n node = Some d' -> page_ok geo d' ->
  (forall k, 0 <= k < P -> word_at d' k = if (n - 1) / P * P + k <? m then word_at d k else Some 0) ->
  (forall l q, (l < D)%nat -> 0 <= q -> has n (S D) (S l) q = true -> ~ (l = 0%nat /\ q = (n - 1) / P ^ Z.of_nat 1) -> A' !! node (S l) q = A !! node (S l) q) ->
  tree D m 1 A' node.
Proof.
  intros [T1 T2 T3] Hn Hm HD Hd Hd' Hp Hw Hoth. assert (Hh : forall l q, (l <= D)%nat -> has m 1 l q = true -> has n (S D) l q = true).
  { intros [|l] q Hl; [rewrite has_cut_leaf, has_leaf_block; destruct Hm; lia|by rewrite (has_cut D n m) by (done || lia)]. }
  split.
  - intros l q Hl Hq H1. apply Hh in H1; [|lia]. destruct (T1 l q Hl Hq H1) as (e & He & Hpe & Hee). destruct (decide (l = 0%nat /\ q = (n - 1) / P ^ Z.of_nat 1)) as [[-> ->]|Hne].
    + exists d'. split; [done|]. split; [done|]. assert (e = d) as -> by (unfold leaf_page in Hd; congruence). intros k Hk. rewrite Z.add_0_l, has_cut_leaf, (Hw k Hk). specialize (Hee k Hk). rewrite Z.add_0_l, has_leaf_block in Hee. fold lg P in Hee |- *.
      rewrite Z.pow_1_r in *. destruct (Z.ltb_spec ((n - 1) / P * P + k) m); [|done]. rewrite Hee. destruct (Z.ltb_spec ((n - 1) / P * P + k) n); [done|]. destruct Hm. lia.
    + exists e. rewrite Hoth by done. split; [done|]. split; [done|]. intros k Hk. rewrite (Hee k Hk). fold lg P. destruct l as [|l]; [|by rewrite (has_cut D n m) by (done || lia)].
      rewrite has_cut_leaf, has_leaf_block. assert (Hqn : q < (n - 1) / P).
      { rewrite Z.pow_1_r in Hne. unfold Dtree.has in H1. fold lg P in H1. destruct (Nat.leb_spec (S D) 1); [lia|]. rewrite orb_false_r, Z.pow_1_r in H1. apply Z.ltb_lt in H1. pose proof (fan_pos geo Hlg) as HP. fold lg P in HP.
        assert (q <= (n - 1) / P) by (apply Z.div_le_lower_bound; lia). lia. }
      destruct Hm as [Hm Hmn]. fold lg P in Hk. pose proof (fan_pos geo Hlg) as HP. fold lg P in HP. pose proof (Z.mul_le_mono_nonneg_r (q + 1) ((n - 1) / P) P ltac:(lia) ltac:(lia)) as Hx. rewrite Z.mul_add_distr_r in Hx.
      destruct (Z.ltb_spec (q * P + k) m), (Z.ltb_spec (q * P + k) n); (done || lia).
  - intros l1 q1 l2 q2 Hl1 Hl2 Hq1 Hq2 H1 H2. apply T2; auto.
  - intros l1 q1 Hl1 Hq1 H1. apply T3; auto.
Qed.

(** The tree of the file has become smaller. *)
Lemma file_smaller N A A' L fs i iblk D n h cnt n' h' cnt' node : file N A L fs i iblk D n h cnt node -> (forall blk, system fs blk -> A' !! blk = A !! blk) -> tree D n' h' A' node ->
  (exists d, A' !! iblk = Some d /\ desc_ok geo i D n' h' cnt' node d) -> 0 <= n' <= n -> (forall l q, (l <= D)%nat -> 0 <= q -> has n' h' l q = true -> has n h l q = true) -> file N A' L fs i iblk D n' h' cnt' node.
Proof.
  intros [HF Hroom (K0 & K1 & K2) Hhold _ _ [Hn Hn1] HD Hnode] HA HT Hdesc Hn' Hsub. assert (Hfree : forall y, is_free Block A' fs y <-> is_free Block A fs y) by (intros y; by apply free_frame). split; try done.
  - by apply (wf_frame N A).
  - split; [by rewrite Hfree|]. split; [intros blk Hs; rewrite Hfree; by apply K1|intros b hd Hb; rewrite Hfree; by apply (K2 b)].
  - lia.
  - intros l q Hl Hq Hh. unfold in_use. rewrite Hfree. apply Hnode; auto.
Qed.

(** Blocks that do not belong to the file any more have been freed. *)
Lemma file_freed N A A' L fs fs' i iblk D n h cnt node (X : list Z) : file N A L fs i iblk D n h cnt node -> fs_wf N A' L fs' -> shape fs' = shape fs ->
  (forall blk, ~ system fs blk -> A' !! blk = A !! blk) -> (forall y, is_free Block A' fs' y -> is_free Block A fs y \/ y ∈ X) -> (forall y, valid Block fs' y <-> valid Block fs y) ->
  (forall y, y ∈ X -> y <> 0 /\ ~ system fs y /\ unheld L y /\ forall l q, (l <= D)%nat -> 0 <= q -> has n h l q = true -> node l q <> y) -> file N A' L fs' i iblk D n h cnt node.
Proof.
  intros [HF Hroom (K0 & K1 & K2) Hhold Hdesc HT Hn HD Hnode] HF' E HA Hfree Hval HX. split; try done.
  - split; [|split].
    + intros [?|Hx]%Hfree; [done|]. by destruct (HX 0 Hx).
    + intros blk Hs [Hf|Hx]%Hfree; apply (system_shape fs fs' blk E) in Hs; [by apply (K1 blk)|]. by destruct (HX blk Hx) as (_ & ? & _).
    + intros b hd Hb [Hf|Hx]%Hfree; [by apply (K2 b hd)|]. destruct (HX _ Hx) as (_ & _ & Hu & _). by apply (Hu b hd).
  - destruct Hhold as (locks & HL & _). destruct Hdesc as (d & Hd & Hok). exists d. split; [|done]. rewrite HA; [done|]. by apply (held_not_system N A L fs (i_buf i) (Hold iblk locks false true)).
  - destruct HT as [T1 T2 T3]. split; try done. intros l q Hl Hq Hh. rewrite HA by (apply Hnode; [lia|done|done]). by apply T1.
  - intros l q Hl Hq Hh. destruct (Hnode l q Hl Hq Hh) as (Hs & Hu & Hv & Hf). split; [by rewrite (system_shape fs fs')|]. split; [done|]. split; [by apply Hval|]. intros [?|Hx]%Hfree; [done|]. destruct (HX _ Hx) as (_ & _ & _ & Hne). by apply (Hne l q).
Qed.

(** ** The pages that are held *)

(** A page that is locked: the buffer, the block, and whether it has to be marked
    and is valid. *)
Record page := Pg { pb : Z; pk : Z; pd : bool; pv : bool }.

Definition phold (p : page) : hold := Hold (pk p) 1 (pd p) (pv p).

(** The page of each height. *)
Definition set_page (l : nat) (x : option page) (pg : nat -> option page) : nat -> option page := fun l' => if decide (l' = l) then x else pg l'.

Record held_pages (D : nat) (L L' : gmap Z hold) fs (pg : nat -> option page) : Prop := {
  hp_base b h : L !! b = Some h -> L' !! b = Some h;
  hp_split b h : L' !! b = Some h -> L !! b = Some h \/ exists l p, (1 <= l <= D)%nat /\ pg l = Some p /\ pb p = b /\ h = phold p;
  hp_page l p : (1 <= l <= D)%nat -> pg l = Some p -> L !! pb p = None /\ L' !! pb p = Some (phold p) /\ ~ system fs (pk p);
  hp_apart l l' p p' : (1 <= l <= D)%nat -> (1 <= l' <= D)%nat -> pg l = Some p -> pg l' = Some p' -> pb p = pb p' -> l = l';
}.

Lemma set_page_same l x pg : set_page l x pg l = x.
Proof. unfold set_page. by rewrite decide_True. Qed.

Lemma set_page_other l x pg l' : l' <> l -> set_page l x pg l' = pg l'.
Proof. intros H. unfold set_page. by rewrite decide_False. Qed.

Lemma hp_none D L L' fs pg b : held_pages D L L' fs pg -> L' !! b = None -> L !! b = None.
Proof. intros H Hb. destruct (L !! b) as [h|] eqn:E; [|done]. apply (hp_base _ _ _ _ _ H) in E. congruence. Qed.

Lemma hp_put D L L' fs pg l p : held_pages D L L' fs pg -> (1 <= l <= D)%nat -> pg l = None -> L' !! pb p = None -> ~ system fs (pk p) -> held_pages D L (<[pb p := phold p]> L') fs (set_page l (Some p) pg).
Proof.
  intros H Hl Hpg Hb Hs. pose proof H as [H1 H2 H3 H4]. pose proof (hp_none _ _ _ _ _ _ H Hb) as HbL. assert (Hne : forall l' p', (1 <= l' <= D)%nat -> pg l' = Some p' -> l' <> l /\ pb p' <> pb p).
  { intros l' p' Hl' Hp'. split; [congruence|]. destruct (H3 l' p' Hl' Hp') as (_ & HL' & _). congruence. }
  split.
  - intros b h Hbh. rewrite lookup_insert_ne by congruence. auto.
  - intros b h [[<- <-]|[_ Hbh]]%lookup_insert_Some; [right; exists l, p; by rewrite set_page_same|]. destruct (H2 b h Hbh) as [?|(l' & p' & Hl' & Hp' & <- & ->)]; [by left|]. right. exists l', p'.
    destruct (Hne l' p' Hl' Hp'). by rewrite set_page_other.
  - intros l' p' Hl' Hp'. destruct (decide (l' = l)) as [->|Hll]; [rewrite set_page_same in Hp'; injection Hp' as <-; by rewrite lookup_insert_eq|]. rewrite set_page_other in Hp' by done. destruct (Hne l' p' Hl' Hp') as [_ Hnb]. rewrite lookup_insert_ne by done. by apply (H3 l').
  - intros l1 l2 p1 p2 Hl1 Hl2. unfold set_page. destruct (decide (l1 = l)) as [->|], (decide (l2 = l)) as [->|]; [done| | |by apply H4].
    + intros [= <-] Hp2 E. by destruct (Hne l2 p2 Hl2 Hp2).
    + intros Hp1 [= <-] E. by destruct (Hne l1 p1 Hl1 Hp1).
Qed.

Lemma hp_drop D L L' fs pg l p : held_pages D L L' fs pg -> (1 <= l <= D)%nat -> pg l = Some p -> held_pages D L (delete (pb p) L') fs (set_page l None pg).
Proof.
  intros H Hl Hpg. pose proof H as [H1 H2 H3 H4]. destruct (H3 l p Hl Hpg) as (HbL & Hb & Hs). assert (Hne : forall l' p', (1 <= l' <= D)%nat -> l' <> l -> pg l' = Some p' -> pb p' <> pb p).
  { intros l' p' Hl' Hll Hp' E. apply Hll. by apply (H4 l' l p' p). }
  split.
  - intros b h Hbh. rewrite lookup_delete_ne by congruence. auto.
  - intros b h [Hnb Hbh]%lookup_delete_Some. destruct (H2 b h Hbh) as [?|(l' & p' & Hl' & Hp' & <- & ->)]; [by left|]. right. exists l', p'. rewrite set_page_other; [done|]. intros ->. congruence.
  - intros l' p' Hl' Hp'. destruct (decide (l' = l)) as [->|Hll]; [by rewrite set_page_same in Hp'|]. rewrite set_page_other in Hp' by done. rewrite lookup_delete_ne by (apply not_eq_sym; by apply (Hne l')). by apply (H3 l').
  - intros l1 l2 p1 p2 Hl1 Hl2. unfold set_page. destruct (decide (l1 = l)), (decide (l2 = l)); try done. by apply H4.
Qed.

Lemma hp_ext D L L' fs pg pg' : held_pages D L L' fs pg -> (forall l, (1 <= l <= D)%nat -> pg' l = pg l) -> held_pages D L L' fs pg'.
Proof.
  intros [H1 H2 H3 H4] E. split; [done| | |].
  - intros b h Hb. destruct (H2 b h Hb) as [?|(l & p & Hl & Hp & ?)]; [by left|]. right. exists l, p. by rewrite E.
  - intros l p Hl. rewrite E by done. by apply H3.
  - intros l l' p p' Hl Hl'. rewrite !E by done. by apply H4.
Qed.

(** Another state of the page in the same buffer. *)
Lemma hp_change D L L' fs pg l p p' : held_pages D L L' fs pg -> (1 <= l <= D)%nat -> pg l = Some p -> pb p' = pb p -> pk p' = pk p -> held_pages D L (<[pb p := phold p']> L') fs (set_page l (Some p') pg).
Proof.
  intros H Hl Hpg Eb Ek. pose proof (hp_page _ _ _ _ _ H l p Hl Hpg) as (_ & _ & Hs). pose proof (hp_put D L _ fs _ l p' (hp_drop D L L' fs pg l p H Hl Hpg) Hl (set_page_same l None pg)) as H'. rewrite Eb, Ek in H'.
  rewrite insert_delete_eq in H'. apply (hp_ext D _ _ _ (set_page l (Some p') (set_page l None pg))); [apply H'; [apply lookup_delete_eq|done]|]. intros l' _. unfold set_page. by destruct (decide (l' = l)).
Qed.

Lemma hp_shape D L L' fs fs' pg : shape fs' = shape fs -> held_pages D L L' fs pg -> held_pages D L L' fs' pg.
Proof. intros E [H1 H2 H3 H4]. split; try done. intros l p Hl Hp. rewrite (system_shape fs fs' _ E). by apply (H3 l). Qed.

Lemma hp_unheld D L L' fs pg blk : held_pages D L L' fs pg -> unheld L blk -> (forall l p, (1 <= l <= D)%nat -> pg l = Some p -> pk p <> blk) -> unheld L' blk.
Proof. intros H Hu Hp b h Hb. destruct (hp_split _ _ _ _ _ H b h Hb) as [?|(l & p & Hl & Hpg & _ & ->)]; [by apply (Hu b)|]. by apply (Hp l). Qed.

Lemma size_omap {X} (f : X -> option Z) (l : list X) : (size (list_to_set (omap f l) : gset Z) <= length l)%nat.
Proof.
  induction l as [|x l IH]; [done|]. cbn. destruct (f x) as [b|]; [|lia]. cbn [list_to_set]. transitivity (size ({[b]} : gset Z) + size (list_to_set (omap f l) : gset Z))%nat; [|rewrite size_singleton; cbn in IH; lia].
  rewrite size_union_alt. apply Nat.add_le_mono_l, subseteq_size. set_solver.
Qed.

Lemma hp_size D L L' fs pg : held_pages D L L' fs pg -> (size L' <= size L + D)%nat.
Proof.
  intros H. set (S := list_to_set (omap (fun l => pb <$> pg l) (seq 1 D)) : gset Z). assert (Hsub : dom L' ⊆ dom L ∪ S).
  { intros b [h Hb]%elem_of_dom. apply elem_of_union. destruct (hp_split _ _ _ _ _ H b h Hb) as [?|(l & p & Hl & Hp & <- & _)]; [left; apply elem_of_dom; eauto|]. right. apply elem_of_list_to_set, list_elem_of_omap. exists l. split; [apply elem_of_seq; lia|by rewrite Hp]. }
  apply subseteq_size in Hsub. rewrite size_union_alt, !size_dom in Hsub. assert (Hs : (size (S ∖ dom L) <= D)%nat); [|lia].
  transitivity (size S); [apply subseteq_size; set_solver|]. pose proof (size_omap (fun l => pb <$> pg l) (seq 1 D)) as Ho. by rewrite length_seq in Ho.
Qed.

(** The file system with the pages. *)
Lemma hp_wf N A D L L' fs pg : fs_wf N A L fs -> held_pages D L L' fs pg -> (size L + D < N)%nat -> fs_wf N A L' fs.
Proof.
  intros [H1 H2 H3 H4 H5 H6 H7 H8] HP HN. split; try done.
  - split; [pose proof (hp_size _ _ _ _ _ HP); lia|]. intros b h Hb. destruct (hp_split _ _ _ _ _ HP b h Hb) as [?|(l & p & _ & _ & _ & ->)]; [by apply (proj2 H1 b)|cbn; lia].
  - intros k i g Hg. destruct (H4 k i g Hg) as [Hm Hc Hh Hu]. split; try done. intros b h Hb. destruct (hp_split _ _ _ _ _ HP b h Hb) as [?|(l & p & Hl & Hp & _ & ->)]; [by apply (Hu b)|]. intros E. destruct (hp_page _ _ _ _ _ HP l p Hl Hp) as (_ & _ & Hs). apply Hs. by exists k, i, g.
  - intros i Hi. destruct (H7 i Hi) as (Hd & b & h & Hb & Hh & Hr). split; [done|]. exists b, h. split; [done|]. split; [by apply (hp_base _ _ _ _ _ HP)|done].
Qed.

Lemma hp_less N A A0 D L L' fs fs' pg : fs_wf N A L' fs' -> fs_wf N A0 L fs -> shape fs' = shape fs -> held_pages D L L' fs pg -> fs_wf N A L fs'.
Proof.
  intros [H1 H2 H3 H4 H5 H6 H7 H8] HF E HP. split; try done.
  - apply (fo_room _ _ _ _ HF).
  - intros k i g Hg. destruct (H4 k i g Hg) as [Hm Hc Hh Hu]. split; try done. intros b h Hb. apply (Hu b). by apply (hp_base _ _ _ _ _ HP).
  - intros i Hi. apply (desc_shape fs fs'); [done|]. apply (fo_desc _ _ _ _ HF). by rewrite <- (length_shape fs fs').
Qed.

(** ** [remove_blocks] *)

Definition without (xs : list Z) (A : gmap Z (list Z)) : gmap Z (list Z) := foldl (fun A x => delete x A) A xs.

Lemma without_other xs : forall A y, y ∉ xs -> without xs A !! y = A !! y.
Proof. induction xs as [|x xs IH]; intros A y Hy; [done|]. apply not_elem_of_cons in Hy as [H1 H2]. cbn. fold (without xs (delete x A)). rewrite IH by done. by apply lookup_delete_ne. Qed.

Lemma invalidate_blocks_run N L xs : (forall x, x ∈ xs -> unheld L x) -> roomy N L -> forall A fs, rep N A L (cache fs) -> exists c, invalidate_blocks xs fs = Done (tt, set_cache c fs) /\ rep N (without xs A) L c.
Proof.
  intros Hu Hroom. induction xs as [|x xs IH]; intros A fs R; [exists (cache fs); by rewrite set_cache_id|]. cbn [invalidate_blocks].
  destruct (invalidate_law N A L (cache fs) x R Hroom (Hu x (list_elem_of_here _ _))) as (c & E & _ & R1). step (on_cache_run _ fs _ _ E).
  destruct (IH (fun y Hy => Hu y (list_elem_of_further _ _ _ Hy)) (delete x A) (set_cache c fs) R1) as (c' & E' & R'). exists c'. by split.
Qed.

Lemma get_entries_run N A L fs b h d : rep N A L (cache fs) -> L !! b = Some h -> h_valid h = true -> A !! h_blk h = Some d ->
  forall xs k, (forall j x, xs !! j = Some x -> word_at d (k + Z.of_nat j) = Some x) -> get_entries (length xs) b k fs = Done (xs, fs).
Proof.
  intros R Hb Hv Hd. induction xs as [|x xs IH]; intros k Hw; [done|]. cbn [get_entries length]. pose proof (Hw 0%nat x eq_refl) as H0. rewrite Z.add_0_r in H0. step (get_entry_run N A L fs b h d k x R Hb Hv Hd H0).
  assert (Hw' : forall j y, xs !! j = Some y -> word_at d (k + 1 + Z.of_nat j) = Some y) by (intros j y Hy; rewrite <- (Hw (S j) y Hy); f_equal; lia). by step (IH (k + 1) Hw').
Qed.

(** The words from [k] on are zero. *)
Definition cleared (k count : Z) (d d' : list Z) : Prop :=
  bytes_ok d' /\ length d' = length d /\ (forall j, k <= j < k + count -> word_at d' j = Some 0) /\ forall j, ~ (k <= j < k + count) -> word_at d' j = word_at d j.

Lemma clear_entries_run N b h : h_valid h = true -> forall n k A L fs d, rep N A L (cache fs) -> L !! b = Some h -> A !! h_blk h = Some d -> bytes_ok d -> 0 <= k -> 4 * (k + Z.of_nat n) <= Z.of_nat (length d) -> (0 < n)%nat ->
  exists c d', clear_entries n b k fs = Done (tt, set_cache c fs) /\ rep N (<[h_blk h := d']> A) (<[b := dirtied h]> L) c /\ cleared k (Z.of_nat n) d d'.
Proof.
  intros Hv n k A L fs d R Hb Hd Hby Hk Hlen Hn. destruct n as [|n]; [lia|]. clear Hn. revert k A L fs d h Hv R Hb Hd Hby Hk Hlen. induction n as [|n IH]; intros k A L fs d h Hv R Hb Hd Hby Hk Hlen.
  all: destruct (put_at_word d k 0 Hby ltac:(unfold is_u32, W32; lia) Hk ltac:(lia)) as (d1 & Hw & Hb1 & Hl1 & Hw1 & Ho1); destruct (put_entry_run N A L fs b h d d1 k 0 R Hb Hv Hd Hw) as (c & E & R1).
  - exists c, d1. cbn [clear_entries]. step E. split; [done|]. split; [done|]. split; [done|]. split; [done|]. split; [intros j Hj; by replace j with k by lia|]. intros j Hj. apply Ho1. lia.
  - destruct (IH (k + 1) _ _ (set_cache c fs) d1 (dirtied h) Hv R1 (lookup_insert_eq _ _ _) (lookup_insert_eq _ _ _) Hb1 ltac:(lia) ltac:(lia)) as (c' & d' & E' & R' & Hb' & Hl' & Hz & Ho). exists c', d'. change (clear_entries (S (S n)) b k) with (put_entry b k 0 ;;; clear_entries (S n) b (k + 1)). step E.
    split; [exact E'|]. split; [by rewrite !insert_insert_eq in R'|]. split; [done|]. split; [congruence|]. split.
    + intros j Hj. destruct (decide (j = k)) as [->|]; [rewrite Ho by lia; done|]. apply Hz. lia.
    + intros j Hj. rewrite Ho by lia. apply Ho1. lia.
Qed.

Lemma remove_blocks_run N A L fs b h d k xs : fs_ok N A L fs -> L !! b = Some h -> h_valid h = true -> A !! h_blk h = Some d -> bytes_ok d -> ~ system fs (h_blk h) ->
  0 <= k -> 4 * (k + Z.of_nat (length xs)) <= Z.of_nat (length d) -> 0 < Z.of_nat (length xs) < 2147483648 -> (forall j x, xs !! j = Some x -> word_at d (k + Z.of_nat j) = Some x) ->
  Forall (in_use Block A fs) xs -> NoDup xs -> (forall x, x ∈ xs -> unheld L x /\ ~ system fs x) ->
  exists fs' A' d' m, remove_blocks b k (Z.of_nat (length xs)) fs = Done (tt, fs') /\ freed Block N (without xs A) A' L fs fs' (take m xs) /\ (reliable -> take m xs = xs) /\
    rep N (<[h_blk h := d']> A') (<[b := dirtied h]> L) (cache fs') /\ cleared k (Z.of_nat (length xs)) d d'.
Proof.
  intros [R HF] Hb Hv Hd Hby Hs Hk Hlen Hx Hw Hu Hnd Hun. unfold remove_blocks. rewrite s32_small by lia. destruct (Z.ltb_spec 0 (Z.of_nat (length xs))); [|lia]. rewrite Nat2Z.id.
  step (get_entries_run N A L fs b h d R Hb Hv Hd xs k Hw). destruct (invalidate_blocks_run N L xs (fun x Hx => proj1 (Hun x Hx)) (fo_room _ _ _ _ HF) A fs R) as (c & E1 & R1). step E1. set (fs1 := set_cache c fs).
  assert (Hsys : forall blk, system fs blk -> without xs A !! blk = A !! blk) by (intros blk Hblk; apply without_other; intros Hin; by apply (proj2 (Hun blk Hin))).
  assert (HF1 : fs_wf N (without xs A) L fs1) by (apply wf_cache; by apply (wf_frame N A)).
  assert (Hu1 : Forall (in_use Block (without xs A) fs1) xs) by (eapply Forall_impl; [exact Hu|]; intros x [Hv1 Hf]; split; [done|]; intros Hf1; apply Hf; by apply (free_frame Block A (without xs A) fs x Hsys)).
  destruct (free_blocks_run N (without xs A) L fs1 xs (conj R1 HF1) Hu1 Hnd) as (fs2 & A2 & m & E2 & HFr & R2 & Hrel). step E2.
  assert (Hd2 : A2 !! h_blk h = Some d).
  { rewrite (fr_frame _ _ _ _ _ _ _ _ HFr) by (intros i g Hg E; apply Hs; by exists Block, i, g). rewrite without_other; [done|]. intros Hin. by apply (proj1 (Hun _ Hin) b h). }
  destruct (clear_entries_run N b h Hv (length xs) k A2 L fs2 d R2 Hb Hd2 Hby Hk Hlen ltac:(lia)) as (c3 & d' & E3 & R3 & Hc). rewrite E3. exists (set_cache c3 fs2), A2, d', m.
  split; [done|]. split; [|done]. by apply freed_to, (freed_from _ _ _ _ _ _ _ _ c).
Qed.

(** ** The state of a round *)

Record cutting (N : nat) (A : gmap Z (list Z)) (L L' : gmap Z hold) fs (i : inode) (iblk : Z) (D : nat) (n : Z) (h : nat) (cnt : Z) (node : nat -> Z -> Z) (pg : nat -> option page) : Prop := {
  cu_rep : rep N A L' (cache fs);
  cu_file : file N A L fs i iblk D n h cnt node;
  cu_pages : held_pages D L L' fs pg;
  cu_room : (size L + D < N)%nat;
}.

(** A page is on the way to the last block, or it is gone. *)
Definition page_clean (D : nat) (n : Z) (node : nat -> Z -> Z) (l : nat) (p : page) : Prop :=
  pb p <> 0 /\ pd p = false /\
  if pv p then 0 < n /\ pk p = node l ((n - 1) / P ^ Z.of_nat l) else forall l' q', (l' <= D)%nat -> 0 <= q' -> has n (S D) l' q' = true -> node l' q' <> pk p.

Definition clean (D : nat) (n : Z) (node : nat -> Z -> Z) (pg : nat -> option page) : Prop := forall l p, (1 <= l <= D)%nat -> pg l = Some p -> page_clean D n node l p.

(** [pg] in the order of the levels. *)
Definition mirror (D : nat) (pg : nat -> option page) (ps : list (option (Z * Z))) : Prop :=
  length ps = Z.to_nat DFS_MAX_DEPTH /\ forall d, (d < length ps)%nat -> ps !! d = Some (if decide (1 <= d <= D)%nat then (fun p => (pb p, pk p)) <$> pg (S D - d)%nat else None).

Lemma mirror_set D pg ps l p : mirror D pg ps -> (1 <= l <= D)%nat -> mirror D (set_page l (Some p) pg) (<[(S D - l)%nat := Some (pb p, pk p)]> ps).
Proof.
  intros [H1 H2] Hl. split; [by rewrite length_insert|]. intros d Hd. rewrite length_insert in Hd. destruct (decide (d = (S D - l)%nat)) as [->|Hne].
  - rewrite list_lookup_insert_eq by done. rewrite decide_True by lia. replace (S D - (S D - l))%nat with l by lia. by rewrite set_page_same.
  - rewrite list_lookup_insert_ne by lia. rewrite (H2 d Hd). destruct (decide (1 <= d <= D)%nat); [|done]. rewrite set_page_other by lia. done.
Qed.

(** A page on the way. *)
Lemma way_page N A L fs i iblk D n cnt node l : file N A L fs i iblk D n (S D) cnt node -> 0 < n -> (S l <= D)%nat ->
  exists d, A !! node (S l) ((n - 1) / P ^ Z.of_nat (S l)) = Some d /\ page_ok geo d /\ word_at d (digit l (n - 1)) = Some (node l ((n - 1) / P ^ Z.of_nat l)) /\
    ~ system fs (node (S l) ((n - 1) / P ^ Z.of_nat (S l))) /\ unheld L (node (S l) ((n - 1) / P ^ Z.of_nat (S l))).
Proof.
  intros HI Hn Hl. assert (Hq : 0 <= (n - 1) / P ^ Z.of_nat (S l)) by (apply (div_nonneg geo Hlg); lia). pose proof (has_below geo Hlg n (S D) (S l) (n - 1) ltac:(lia)) as Hh.
  destruct (tr_page _ _ _ _ _ _ (fi_tree _ _ _ _ _ _ _ _ _ _ _ _ HI) l _ Hl Hq Hh) as (d & Hd & Hp & He). exists d. split; [done|]. split; [done|]. split.
  - specialize (He (digit l (n - 1)) (digit_bounds geo Hlg l (n - 1))). rewrite Z.add_0_l in He. pose proof (next_node geo Hlg l (n - 1) ltac:(lia)) as En. fold lg P in En, He. rewrite En in He. pose proof (has_below geo Hlg n (S D) l (n - 1) ltac:(lia)) as Hb. fold lg P in Hb. by rewrite Hb in He.
  - destruct (fi_node _ _ _ _ _ _ _ _ _ _ _ _ HI (S l) _ Hl Hq Hh) as (Hs & Hu & _). done.
Qed.

Lemma way_apart N A L fs i iblk D n cnt node l l' : file N A L fs i iblk D n (S D) cnt node -> 0 < n -> (l <= D)%nat -> (l' <= D)%nat -> node l ((n - 1) / P ^ Z.of_nat l) = node l' ((n - 1) / P ^ Z.of_nat l') -> l = l'.
Proof.
  intros HI Hn Hl Hl' E. apply (tr_apart _ _ _ _ _ _ (fi_tree _ _ _ _ _ _ _ _ _ _ _ _ HI) l _ l' _) in E as [? _]; try done; [apply (div_nonneg geo Hlg); lia|apply (div_nonneg geo Hlg); lia|apply (has_below geo Hlg); lia|apply (has_below geo Hlg); lia].
Qed.

(** A page that is not held is read. *)
Lemma read_page_run N A L L' fs i iblk D n cnt node pg l : cutting N A L L' fs i iblk D n (S D) cnt node pg -> clean D n node pg -> 0 < n -> (1 <= l <= D)%nat -> pg l = None ->
  exists b c, on_cache (c_get (node l ((n - 1) / P ^ Z.of_nat l))) fs = Done (b, set_cache c fs) /\
    ((b = 0 /\ ~ reliable /\ rep N A L' c) \/
     (b <> 0 /\ let p := Pg b (node l ((n - 1) / P ^ Z.of_nat l)) false true in exists L'', cutting N A L L'' (set_cache c fs) i iblk D n (S D) cnt node (set_page l (Some p) pg) /\ clean D n node (set_page l (Some p) pg))).
Proof.
  intros [R HI HP HN] Hc Hn Hl Hpg. destruct l as [|l]; [lia|]. destruct (way_page _ _ _ _ _ _ _ _ _ _ l HI Hn ltac:(lia)) as (d & Hd & _ & _ & Hs & Hu). set (blk := node (S l) _) in *.
  assert (HF' : fs_wf N A L' fs) by (apply (hp_wf N A D L L' fs pg); [apply HI|done|done]). assert (Hu' : unheld L' blk).
  { apply (hp_unheld D L L' fs pg blk HP Hu). intros l' p Hl' Hp E. destruct (Hc l' p Hl' Hp) as (_ & _ & Hv). destruct (pv p).
    - destruct Hv as [_ Hk]. rewrite Hk in E. apply (way_apart _ _ _ _ _ _ _ _ _ _ l' (S l) HI Hn ltac:(lia) ltac:(lia)) in E. congruence.
    - apply (Hv (S l) ((n - 1) / P ^ Z.of_nat (S l)) ltac:(lia)); [apply (div_nonneg geo Hlg); lia|apply (has_below geo Hlg); lia|done]. }
  destruct (cache_get_run N A L' fs blk R (fo_room _ _ _ _ HF') Hu' (mk_is_Some _ _ Hd)) as (b & c & E & Hcase). exists b, c. split; [done|]. destruct Hcase as [[-> R1]|(Hb & HbL & R1)].
  { left. split; [done|]. split; [|done]. intros Hrel. by apply (Hrel N A L' (cache fs) _ 0 c R (fo_room _ _ _ _ HF') (unheld_usable _ _ Hu') (mk_is_Some _ _ Hd) (on_cache_inv _ _ _ _ E)). }
  right. split; [done|]. intros p. exists (<[b := phold p]> L'). split; [split; [done|by apply file_cache| |done]|].
  - apply (hp_put D L L' (set_cache c fs) pg (S l) p); try done. by apply (hp_shape D L L' fs).
  - intros l' p' Hl' Hp'. destruct (decide (l' = S l)) as [->|]; [rewrite set_page_same in Hp'; injection Hp' as <-; done|]. rewrite set_page_other in Hp' by done. by apply Hc.
Qed.

(** A page is released. *)
Lemma drop_page_run N A L L' fs i iblk D n h cnt node pg l p : cutting N A L L' fs i iblk D n h cnt node pg -> (1 <= l <= D)%nat -> pg l = Some p -> pd p = false ->
  exists c L'', release (pb p) fs = Done (tt, set_cache c fs) /\ cutting N A L L'' (set_cache c fs) i iblk D n h cnt node (set_page l None pg).
Proof.
  intros [R HI HP HN] Hl Hp Hd. destruct (hp_page _ _ _ _ _ HP l p Hl Hp) as (_ & Hb & _). destruct (release_law N A L' (cache fs) (pb p) (phold p) R Hb (or_introl Hd)) as (c & E & _ & R1). cbn in R1.
  exists c, (delete (pb p) L'). split; [by apply on_cache_run|]. split; [done|by apply file_cache| |done]. apply (hp_shape D L _ fs); [done|]. by apply hp_drop.
Qed.

Lemma cutting_ext N A L L' fs i iblk D n h cnt node pg pg' : (forall l, pg' l = pg l) -> cutting N A L L' fs i iblk D n h cnt node pg -> cutting N A L L' fs i iblk D n h cnt node pg'.
Proof. intros E [R HI HP HN]. split; try done. by apply (hp_ext D L L' fs pg). Qed.

Lemma clean_ext D n node pg pg' : (forall l, pg' l = pg l) -> clean D n node pg -> clean D n node pg'.
Proof. intros E H l p Hl. rewrite E. by apply H. Qed.

(** The page of height [l] on the way is held. *)
Lemma have_page_run N A L L' fs i iblk D n cnt node pg l : let blk := node l ((n - 1) / P ^ Z.of_nat l) in
  cutting N A L L' fs i iblk D n (S D) cnt node pg -> clean D n node pg -> 0 < n -> (1 <= l <= D)%nat ->
  exists b c, match (fun p => (pb p, pk p)) <$> pg l with
              | Some (buf, bk) => if bk =? blk then kret buf else release buf ;;; on_cache (c_get blk)
              | None => on_cache (c_get blk)
              end fs = Done (b, set_cache c fs) /\
    ((b = 0 /\ ~ reliable /\ exists L'', rep N A L'' c) \/
     (b <> 0 /\ let pg' := set_page l (Some (Pg b blk false true)) pg in exists L'', cutting N A L L'' (set_cache c fs) i iblk D n (S D) cnt node pg' /\ clean D n node pg')).
Proof.
  intros blk HC Hc Hn Hl. destruct (pg l) as [p|] eqn:Hp; cbn [fmap option_fmap option_map].
  - destruct (Hc l p Hl Hp) as (Hb & Hd & Hv). destruct (pv p) eqn:Ev.
    + destruct Hv as [_ Hk]. fold blk in Hk. destruct (Z.eqb_spec (pk p) blk) as [_|]; [|done]. exists (pb p), (cache fs). split; [by rewrite set_cache_id|]. right. split; [done|]. set (pg' := set_page l (Some (Pg (pb p) blk false true)) pg).
      assert (Eg : forall l', pg' l' = pg l') by (intros l'; unfold pg', set_page; destruct (decide (l' = l)) as [->|]; [|done]; rewrite Hp; destruct p; cbn in *; congruence).
      exists L'. rewrite set_cache_id. split; [by apply (cutting_ext _ _ _ _ _ _ _ _ _ _ _ _ pg)|by apply (clean_ext _ _ _ pg)].
    + destruct (Z.eqb_spec (pk p) blk) as [Ek|_].
      { exfalso. apply (Hv l ((n - 1) / P ^ Z.of_nat l) ltac:(lia)); [apply (div_nonneg geo Hlg); lia|apply (has_below geo Hlg); lia|done]. }
      destruct (drop_page_run _ _ _ _ _ _ _ _ _ _ _ _ _ l p HC Hl Hp Hd) as (c & L1 & E & HC1). step E.
      assert (Hc1 : clean D n node (set_page l None pg)) by (intros l' p' Hl' Hp'; unfold set_page in Hp'; destruct (decide (l' = l)); [done|by apply Hc]).
      destruct (read_page_run _ _ _ _ _ _ _ _ _ _ _ _ l HC1 Hc1 Hn Hl (set_page_same l None pg)) as (b & c2 & E2 & Hcase). fold blk in E2. exists b, c2. split; [exact E2|]. destruct Hcase as [(-> & Hr & R)|(Hb' & L2 & HC2 & Hc2)]; [left; eauto|].
      right. split; [done|]. set (pg' := set_page l (Some (Pg b blk false true)) pg). assert (Eg : forall l', pg' l' = set_page l (Some (Pg b blk false true)) (set_page l None pg) l') by (intros l'; unfold pg', set_page; by destruct (decide (l' = l))).
      exists L2. split; [by apply (cutting_ext _ _ _ _ _ _ _ _ _ _ _ _ _ _ Eg)|by apply (clean_ext _ _ _ _ _ Eg)].
  - destruct (read_page_run _ _ _ _ _ _ _ _ _ _ _ _ l HC Hc Hn Hl Hp) as (b & c & E & Hcase). fold blk in E. exists b, c. split; [exact E|]. destruct Hcase as [(-> & Hr & R)|(Hb' & L2 & HC2 & Hc2)]; [left; eauto|]. right. split; [done|]. by exists L2.
Qed.

Definition all_held (D : nat) (n : Z) (node : nat -> Z -> Z) (pg : nat -> option page) : Prop := forall l, (1 <= l <= D)%nat -> exists b, b <> 0 /\ pg l = Some (Pg b (node l ((n - 1) / P ^ Z.of_nat l)) false true).

Lemma load_pages_run N A L i iblk D n cnt node : 0 < n -> (D < 10)%nat -> forall l L' fs pg ps, (l <= D)%nat -> cutting N A L L' fs i iblk D n (S D) cnt node pg -> clean D n node pg -> mirror D pg ps ->
  (forall l', (l < l' <= D)%nat -> exists b, b <> 0 /\ pg l' = Some (Pg b (node l' ((n - 1) / P ^ Z.of_nat l')) false true)) ->
  exists res c, load_pages (digits geo l (n - 1)) (S D - l) ps (node l ((n - 1) / P ^ Z.of_nat l)) fs = Done (res, set_cache c fs) /\
    match res with
    | None => ~ reliable /\ exists L'', rep N A L'' c
    | Some ps' => exists L'' pg', cutting N A L L'' (set_cache c fs) i iblk D n (S D) cnt node pg' /\ clean D n node pg' /\ mirror D pg' ps' /\ all_held D n node pg'
    end.
Proof.
  intros Hn HD. induction l as [|l IH]; intros L' fs pg ps Hl HC Hc Hm Hup.
  { exists (Some ps), (cache fs). rewrite set_cache_id. split; [done|]. exists L', pg. split; [done|]. split; [done|]. split; [done|]. intros l Hl'. apply Hup. lia. }
  cbn [digits load_pages]. set (blk := node (S l) ((n - 1) / P ^ Z.of_nat (S l))). destruct Hm as [Hlen Hps].
  assert (E0 : ps !! (S D - S l)%nat = Some ((fun p => (pb p, pk p)) <$> pg (S l))) by (rewrite Hps by (rewrite Hlen; change (Z.to_nat DFS_MAX_DEPTH) with 10%nat; lia); rewrite decide_True by lia; by replace (S D - (S D - S l))%nat with (S l) by lia).
  rewrite (kbind_done (kopt (ps !! (S D - S l)%nat)) _ fs ((fun p => (pb p, pk p)) <$> pg (S l)) fs) by (by rewrite E0).
  destruct (have_page_run _ _ _ _ _ _ _ _ _ _ _ _ (S l) HC Hc Hn ltac:(lia)) as (b & c & E & Hcase). step E.
  destruct Hcase as [(-> & Hr & R)|(Hb & L1 & HC1 & Hc1)]; [exists None, c; done|]. destruct (Z.eqb_spec b 0); [done|]. fold blk in HC1, Hc1. set (pg1 := set_page (S l) (Some (Pg b blk false true)) pg) in *. set (fs1 := set_cache c fs) in *.
  destruct (way_page _ _ _ _ _ _ _ _ _ _ l (cu_file _ _ _ _ _ _ _ _ _ _ _ _ _ HC1) Hn Hl) as (d & Hd & _ & Hw & _). destruct (hp_page _ _ _ _ _ (cu_pages _ _ _ _ _ _ _ _ _ _ _ _ _ HC1) (S l) (Pg b blk false true) ltac:(lia) (set_page_same _ _ _)) as (_ & HbL & _).
  step (get_entry_run N A L1 fs1 b (phold (Pg b blk false true)) d _ _ (cu_rep _ _ _ _ _ _ _ _ _ _ _ _ _ HC1) HbL eq_refl Hd Hw). replace (S (S D - S l)) with (S D - l)%nat by lia.
  destruct (IH L1 fs1 pg1 (<[(S D - S l)%nat := Some (b, blk)]> ps) ltac:(lia) HC1 Hc1) as (res & c2 & E2 & Hres); [by apply (mirror_set D pg ps (S l) (Pg b blk false true) (conj Hlen Hps)); lia| |exists res, c2; done].
  intros l' Hl'. destruct (decide (l' = S l)) as [->|Hne]; [exists b; split; [done|apply set_page_same]|]. unfold pg1. rewrite set_page_other by done. apply Hup. lia.
Qed.

(** ** What has been freed *)

(** From the nodes of [n0] to those of [n]: only nodes of the file are freed, and
    if all bitmaps can be read, all that are not there any more. *)
Record gone (D : nat) (node : nat -> Z -> Z) (A0 : gmap Z (list Z)) fs0 (n0 : Z) (h0 : nat) (A : gmap Z (list Z)) fs (n : Z) (h : nat) : Prop := {
  gn_shape : shape fs = shape fs0;
  gn_keep y : is_free Block A0 fs0 y -> is_free Block A fs y;
  gn_own y : is_free Block A fs y -> is_free Block A0 fs0 y \/ exists l q, (l <= D)%nat /\ 0 <= q /\ has n0 h0 l q = true /\ has n h l q = false /\ node l q = y;
  gn_sub l q : (l <= D)%nat -> 0 <= q -> has n h l q = true -> has n0 h0 l q = true;
  gn_all : reliable -> forall l q, (l <= D)%nat -> 0 <= q -> has n0 h0 l q = true -> has n h l q = true \/ is_free Block A fs (node l q);
}.

Lemma gone_refl D node A fs n h c : gone D node A fs n h A (set_cache c fs) n h.
Proof. split; try done; auto. Qed.

Lemma gone_trans D node A0 fs0 n0 h0 A1 fs1 n1 h1 A2 fs2 n2 h2 : gone D node A0 fs0 n0 h0 A1 fs1 n1 h1 -> gone D node A1 fs1 n1 h1 A2 fs2 n2 h2 -> gone D node A0 fs0 n0 h0 A2 fs2 n2 h2.
Proof.
  intros [S1 K1 O1 B1 F1] [S2 K2 O2 B2 F2]. split; [congruence|auto| |auto|].
  - intros y [Hy|(l & q & Hl & Hq & Hh & Hn & <-)]%O2; [|right; exists l, q; auto]. destruct (O1 y Hy) as [?|(l & q & Hl & Hq & Hh & Hn & <-)]; [by left|]. right. exists l, q. split_and!; try done.
    destruct (has n2 h2 l q) eqn:E; [|done]. by rewrite (B2 l q Hl Hq E) in Hn.
  - intros Hr l q Hl Hq Hh. destruct (F1 Hr l q Hl Hq Hh) as [H1|H1]; [by apply F2|]. right. auto.
Qed.

(** Only pages have changed. *)
Lemma gone_frame D node A A' fs n h n' h' : (forall blk, system fs blk -> A' !! blk = A !! blk) -> (forall l q, (l <= D)%nat -> 0 <= q -> has n' h' l q = has n h l q) -> gone D node A fs n h A' fs n' h'.
Proof.
  intros HA Hh. assert (Hf : forall y, is_free Block A' fs y <-> is_free Block A fs y) by (intros y; by apply free_frame). split; [done|by intros y; rewrite Hf|intros y; rewrite Hf; by left|intros l q Hl Hq; by rewrite Hh|].
  intros _ l q Hl Hq. rewrite Hh by done. by left.
Qed.

(** The blocks of the file from [m] on. *)
Definition blocks_from (node : nat -> Z -> Z) (m n : Z) : list Z := node 0%nat <$> seqZ m (n - m).

Lemma blocks_from_in node m n x : x ∈ blocks_from node m n <-> exists q, m <= q < n /\ x = node 0%nat q.
Proof. unfold blocks_from. rewrite list_elem_of_fmap. setoid_rewrite elem_of_seqZ. split; intros (q & H1 & H2); exists q; (split; [|by (done || lia)]); (done || lia). Qed.

Lemma blocks_from_length node m n : m <= n -> Z.of_nat (length (blocks_from node m n)) = n - m.
Proof. intros H. unfold blocks_from. rewrite length_fmap, length_seqZ. lia. Qed.

Lemma blocks_from_lookup node m n (j : nat) x : blocks_from node m n !! j = Some x -> x = node 0%nat (m + Z.of_nat j) /\ m + Z.of_nat j < n.
Proof. unfold blocks_from. rewrite list_lookup_fmap. intros (q & Hq & ->)%fmap_Some. apply lookup_seqZ in Hq as [-> Hj]. split; [done|lia]. Qed.

Lemma blocks_from_file N A L fs i iblk D n cnt node m : file N A L fs i iblk D n (S D) cnt node -> 0 <= m -> Forall (in_use Block A fs) (blocks_from node m n) /\ NoDup (blocks_from node m n) /\
  forall x, x ∈ blocks_from node m n -> x <> 0 /\ ~ system fs x /\ unheld L x /\ forall l q, (l <= D)%nat -> 0 <= q -> has n (S D) l q = true -> node l q = x -> l = 0%nat /\ m <= q < n.
Proof.
  intros HI Hm. assert (Hh : forall q, m <= q < n -> has n (S D) 0 q = true) by (intros q Hq; rewrite has_leaf_block; lia).
  assert (Ha : forall l q q', (l <= D)%nat -> 0 <= q -> has n (S D) l q = true -> m <= q' < n -> node l q = node 0%nat q' -> l = 0%nat /\ q = q') by (intros l q q' Hl Hq Hlq Hq' E; apply (tr_apart _ _ _ _ _ _ (fi_tree _ _ _ _ _ _ _ _ _ _ _ _ HI) l q 0 q'); auto; lia).
  split; [|split].
  - apply Forall_forall. intros x (q & Hq & ->)%blocks_from_in. apply (fi_node _ _ _ _ _ _ _ _ _ _ _ _ HI 0 q); [lia|lia|auto].
  - apply NoDup_alt. intros j1 j2 x H1 H2. apply blocks_from_lookup in H1 as [-> H1], H2 as [E H2]. destruct (Ha 0%nat (m + Z.of_nat j1) (m + Z.of_nat j2)) as [_ ?]; [lia|lia|apply Hh; lia|lia|done|lia].
  - intros x (q & Hq & ->)%blocks_from_in. destruct (fi_node _ _ _ _ _ _ _ _ _ _ _ _ HI 0%nat q ltac:(lia) ltac:(lia) (Hh q Hq)) as (Hs & Hu & _). pose proof (tr_small _ _ _ _ _ _ (fi_tree _ _ _ _ _ _ _ _ _ _ _ _ HI) 0%nat q ltac:(lia) ltac:(lia) (Hh q Hq)).
    split; [lia|]. split; [done|]. split; [done|]. intros l q' Hl Hq' Hlq E. destruct (Ha l q' q Hl Hq' Hlq Hq E) as [-> ->]. done.
Qed.

(** Blocks [X] have been given back. *)
Record given (A A' : gmap Z (list Z)) fs fs' (X : list Z) : Prop := {
  gv_shape : shape fs' = shape fs;
  gv_frame blk : ~ system fs blk -> A' !! blk = A !! blk;
  gv_free y : is_free Block A' fs' y <-> is_free Block A fs y \/ y ∈ X;
  gv_valid y : valid Block fs' y <-> valid Block fs y;
}.

Lemma freed_given N A A' L fs fs' xs : freed Block N A A' L fs fs' xs -> given A A' fs fs' xs.
Proof.
  intros [_ H2 H3 _ H5 H6]. split; [done| | |by apply (H5 Block)].
  - intros blk Hs. apply H3. intros i g Hg ->. apply Hs. by exists Block, i, g.
  - intros y. rewrite (H2 Block y). tauto.
Qed.

Lemma given_insert A A' fs fs' X blk d : given A A' fs fs' X -> ~ system fs blk -> given (<[blk := d]> A) (<[blk := d]> A') fs fs' X.
Proof.
  intros [H1 H2 H3 H4] Hs. split; try done.
  - intros b Hb. destruct (decide (b = blk)) as [->|]; [by rewrite !lookup_insert_eq|]. rewrite !lookup_insert_ne by done. by apply H2.
  - intros y. rewrite (free_frame Block A' (<[blk := d]> A')), (free_frame Block A (<[blk := d]> A)); [apply H3|intros b Hb; apply lookup_insert_ne; by intros ->|intros b Hb; apply lookup_insert_ne; intros ->; by apply Hs, (system_shape fs fs')].
Qed.

Lemma insert_wf N A L fs blk d : fs_wf N A L fs -> ~ system fs blk -> fs_wf N (<[blk := d]> A) L fs.
Proof. intros HF Hs. apply (wf_frame N A); [done|]. intros b Hb. apply lookup_insert_ne. by intros ->. Qed.

Lemma file_given N A A' L fs fs' i iblk D n h cnt node X : file N A L fs i iblk D n h cnt node -> given A A' fs fs' X -> fs_wf N A' L fs' ->
  (forall y, y ∈ X -> y <> 0 /\ ~ system fs y /\ unheld L y /\ forall l q, (l <= D)%nat -> 0 <= q -> has n h l q = true -> node l q <> y) -> file N A' L fs' i iblk D n h cnt node.
Proof. intros HI [H1 H2 H3 H4] HF HX. apply (file_freed N A A' L fs fs' i iblk D n h cnt node X); try done. intros y. by rewrite H3. Qed.

Lemma gone_given D node A A' fs fs' n h n' h' X : given A A' fs fs' X -> (forall y, y ∈ X -> exists l q, (l <= D)%nat /\ 0 <= q /\ has n h l q = true /\ has n' h' l q = false /\ node l q = y) ->
  (forall l q, (l <= D)%nat -> 0 <= q -> has n' h' l q = true -> has n h l q = true) -> (reliable -> forall l q, (l <= D)%nat -> 0 <= q -> has n h l q = true -> has n' h' l q = true \/ node l q ∈ X) ->
  gone D node A fs n h A' fs' n' h'.
Proof.
  intros [H1 H2 H3 H4] HX Hsub Hall. split; [done|intros y Hy; apply H3; by left| |done|].
  - intros y [?|Hy]%H3; [by left|]. right. by apply HX.
  - intros Hr l q Hl Hq Hh. destruct (Hall Hr l q Hl Hq Hh) as [?|?]; [by left|]. right. apply H3. by right.
Qed.

(** The entries of the leaf page from [m] on. *)
Lemma cleared_leaf n m d d' : 0 < n -> in_leaf n m -> bytes_ok d -> Z.of_nat (length d) = 4 * P -> (forall k, 0 <= k < P -> n <= (n - 1) / P * P + k -> word_at d k = Some 0) -> cleared (m - (n - 1) / P * P) (n - m) d d' ->
  page_ok geo d' /\ forall k, 0 <= k < P -> word_at d' k = if (n - 1) / P * P + k <? m then word_at d k else Some 0.
Proof.
  intros Hn [Hm1 Hm2] Hb Hl H0 (Hb' & Hl' & Hz & Ho). split; [split; [done|by rewrite Hl']|]. intros k Hk. destruct (Z.ltb_spec ((n - 1) / P * P + k) m); [apply Ho; lia|].
  destruct (decide (k < m - (n - 1) / P * P + (n - m))) as [|Hge]; [apply Hz; lia|]. rewrite Ho by lia. apply H0; lia.
Qed.

(** The file without the blocks from [m] on; they are still in use. *)
Lemma file_cut N A L fs i iblk D n cnt node m d d' : let xs := blocks_from node m n in let leaf := leaf_page n node in
  file N A L fs i iblk D n (S D) cnt node -> 0 < n -> in_leaf n m -> 0 <= m -> (1 <= D)%nat -> A !! leaf = Some d -> cleared (m - (n - 1) / P * P) (n - m) d d' ->
  file N (<[leaf := d']> (without xs A)) L fs i iblk D m 1 cnt node.
Proof.
  intros xs leaf HI Hn Hm Hm0 HD Hd Hc. destruct (way_page _ _ _ _ _ _ _ _ _ _ 0 HI Hn HD) as (d0 & Hd0 & [Hb Hl] & _ & Hls & Hlu). fold (leaf_page n node) in Hd0, Hls, Hlu. fold leaf in Hd0, Hls, Hlu. assert (d0 = d) as -> by congruence.
  destruct (blocks_from_file _ _ _ _ _ _ _ _ _ _ m HI Hm0) as (_ & _ & Hxs). pose proof HI as [HF _ _ (locks & HL & _) (di & Hdi & Hdo) HT Hcnt _ Hnode].
  assert (Hq1 : 0 <= (n - 1) / P ^ Z.of_nat 1) by (apply (div_nonneg geo Hlg); lia). pose proof (has_below geo Hlg n (S D) 1 (n - 1) ltac:(lia)) as Hh1. fold lg P in Hh1.
  assert (Hpages : forall l q, (l < D)%nat -> 0 <= q -> has n (S D) (S l) q = true -> ~ (l = 0%nat /\ q = (n - 1) / P ^ Z.of_nat 1) -> <[leaf := d']> (without xs A) !! node (S l) q = A !! node (S l) q).
  { intros l q Hl' Hq Hh Hne. rewrite lookup_insert_ne; [apply without_other; intros Hin; by destruct (Hxs _ Hin) as (_ & _ & _ & Hx); destruct (Hx (S l) q ltac:(lia) Hq Hh eq_refl)|]. intros E. apply Hne.
    destruct (tr_apart _ _ _ _ _ _ HT (S l) q 1%nat _ ltac:(lia) HD Hq Hq1 Hh Hh1 (eq_sym E)) as [? ?]. split; [lia|done]. }
  destruct (tr_page _ _ _ _ _ _ HT 0 _ ltac:(lia) Hq1 Hh1) as (d1 & Hd1 & _ & He). assert (d1 = d) as -> by (unfold leaf, leaf_page in Hd; congruence).
  destruct (cleared_leaf n m d d' Hn Hm Hb Hl) as [Hp Hw]; [|done|].
  { intros k Hk Hge. specialize (He k Hk). rewrite Z.add_0_l, has_leaf_block in He. fold lg P in He. rewrite Z.pow_1_r in He. destruct (Z.ltb_spec ((n - 1) / P * P + k) n); [lia|done]. }
  apply (file_smaller N A _ L fs i iblk D n (S D) cnt m 1 cnt node HI).
  - intros blk Hs. rewrite lookup_insert_ne by (intros E; by rewrite <- E in Hs). apply without_other. intros Hin. by destruct (Hxs _ Hin) as (_ & ? & _).
  - apply (tree_cut D n m A _ node d d' HT Hn Hm HD Hd); [apply lookup_insert_eq|done|done|done].
  - exists di. rewrite lookup_insert_ne by (intros E; by apply (Hlu _ _ HL)). rewrite without_other by (intros Hin; destruct (Hxs _ Hin) as (_ & _ & Hu & _); by apply (Hu _ _ HL)). split; [done|].
    destruct Hdo as [D1 D2 D3 D4 D5]. split; try done. intros k Hk. rewrite (has_cut D n m) by (done || lia). by apply D5.
  - destruct Hm. lia.
  - intros [|l] q Hl' Hq; [rewrite has_cut_leaf, has_leaf_block; destruct Hm; lia|by rewrite (has_cut D n m) by (done || lia)].
Qed.

(** The blocks from [m] on are removed from the leaf page. *)
Lemma cut_leaf_run N A L L' fs i iblk D n cnt node pg m b : let leaf := leaf_page n node in let pg' := set_page 1 (Some (Pg b leaf true true)) pg in
  cutting N A L L' fs i iblk D n (S D) cnt node pg -> clean D n node pg -> pg 1%nat = Some (Pg b leaf false true) -> 0 < n -> in_leaf n m -> 0 <= m -> (1 <= D)%nat ->
  exists fs' A' L'', remove_blocks b (m - (n - 1) / P * P) (n - m) fs = Done (tt, fs') /\ cutting N A' L L'' fs' i iblk D m 1 cnt node pg' /\ gone D node A fs n (S D) A' fs' m 1.
Proof.
  intros leaf pg' [R HI HP HN] Hc Hpg Hn Hm Hm0 HD. set (xs := blocks_from node m n). destruct (blocks_from_file _ _ _ _ _ _ _ _ _ _ m HI Hm0) as (Hu & Hnd & Hxs). fold xs in Hu, Hnd, Hxs.
  destruct (way_page _ _ _ _ _ _ _ _ _ _ 0 HI Hn HD) as (d & Hd & [Hb Hl] & _ & Hls & _). fold (leaf_page n node) in Hd, Hls. fold leaf in Hd, Hls. fold lg P in Hl. pose proof (hp_page _ _ _ _ _ HP 1%nat _ ltac:(lia) Hpg) as (_ & HbL & _).
  assert (HF' : fs_wf N A L' fs) by (apply (hp_wf N A D L L' fs pg); [apply HI|done|done]). assert (Hun : forall x, x ∈ xs -> unheld L' x /\ ~ system fs x).
  { intros x Hx. destruct (Hxs x Hx) as (_ & Hs & Hux & Hna). split; [|done]. apply (hp_unheld D L L' fs pg x HP Hux). intros l p Hlr Hp E. destruct (Hc l p Hlr Hp) as (_ & _ & Hv). destruct (pv p).
    - destruct Hv as [_ Hk]. rewrite Hk in E. destruct (Hna l ((n - 1) / P ^ Z.of_nat l) ltac:(lia)) as [? _]; [apply (div_nonneg geo Hlg); lia|apply (has_below geo Hlg); lia|done|lia].
    - apply blocks_from_in in Hx as (q & Hq & ->). apply (Hv 0%nat q ltac:(lia) ltac:(lia)); [rewrite has_leaf_block; lia|done]. }
  pose proof (blocks_from_length node m n) as Hlen. fold xs in Hlen. pose proof (Z.div_mod (n - 1) P ltac:(pose proof (fan_pos geo Hlg) as HP0; fold lg P in HP0; lia)) as Hdm. pose proof (Z.mod_pos_bound (n - 1) P ltac:(pose proof (fan_pos geo Hlg) as HP0; fold lg P in HP0; lia)) as Hmb. destruct Hm as [Hm1 Hm2] eqn:Em. clear Em. specialize (Hlen ltac:(lia)).
  assert (He : forall j x, xs !! j = Some x -> word_at d (m - (n - 1) / P * P + Z.of_nat j) = Some x).
  { intros j x Hx. apply blocks_from_lookup in Hx as [-> Hj]. pose proof (has_below geo Hlg n (S D) 1 (n - 1) ltac:(lia)) as Hh1. destruct (tr_page _ _ _ _ _ _ (fi_tree _ _ _ _ _ _ _ _ _ _ _ _ HI) 0 _ ltac:(lia) (div_nonneg geo Hlg (n - 1) 1 ltac:(lia)) Hh1) as (d1 & Hd1 & _ & He).
    fold lg P in Hd1, He. assert (d1 = d) as -> by (unfold leaf, leaf_page in Hd; congruence). specialize (He (m - (n - 1) / P * P + Z.of_nat j) ltac:(fold lg P; lia)). rewrite Z.add_0_l, Z.pow_1_r, has_leaf_block in He. fold lg P in He.
    replace ((n - 1) / P * P + (m - (n - 1) / P * P + Z.of_nat j)) with (m + Z.of_nat j) in He by lia. destruct (Z.ltb_spec (m + Z.of_nat j) n); [done|lia]. }
  destruct (remove_blocks_run N A L' fs b _ d (m - (n - 1) / P * P) xs (conj R HF') HbL eq_refl Hd Hb Hls ltac:(lia) ltac:(lia) ltac:(unfold W32 in Hword; lia) He Hu Hnd Hun) as (fs' & A2 & d' & mm & E & HFr & Hrel & R' & Hcl).
  rewrite Hlen in E, Hcl. cbn [h_blk phold pk] in R'. exists fs', (<[leaf := d']> A2), (<[b := dirtied (phold (Pg b leaf false true))]> L'). split; [exact E|].
  pose proof (given_insert _ _ _ _ _ leaf d' (freed_given _ _ _ _ _ _ _ HFr) Hls) as HG. assert (HX : forall y, y ∈ take mm xs -> y ∈ xs) by (intros y Hy; by apply (subseteq_take mm xs)).
  assert (HFL : fs_wf N (<[leaf := d']> A2) L fs') by (apply insert_wf; [apply (hp_less N A2 A D L L' fs fs' pg); [apply HFr|apply HI|apply HFr|done]|]; intros Hs; apply Hls; by apply (system_shape fs fs' leaf (gv_shape _ _ _ _ _ HG))).
  pose proof (file_cut N A L fs i iblk D n cnt node m d d' HI Hn (conj Hm1 Hm2) Hm0 HD Hd Hcl) as HI1. fold xs leaf in HI1.
  assert (Hsub : forall l q, (l <= D)%nat -> has m 1 l q = true -> has n (S D) l q = true) by (intros [|l] q Hlr; [rewrite has_cut_leaf, has_leaf_block; lia|by rewrite (has_cut D n m) by (done || lia)]). split; [split; [done| | |done]|].
  - apply (file_given N _ _ L fs fs' i iblk D m 1 cnt node (take mm xs) HI1 HG HFL). intros y Hy%HX. destruct (Hxs y Hy) as (Hy0 & Hys & Hyu & Hna). split; [done|]. split; [done|]. split; [done|].
    intros l q Hlr Hq Hh Ey. destruct (Hna l q Hlr Hq (Hsub l q Hlr Hh) Ey) as [-> Hq']. rewrite has_cut_leaf in Hh. lia.
  - apply (hp_shape D L _ fs); [apply HG|]. apply (hp_change D L L' fs pg 1 (Pg b leaf false true) (Pg b leaf true true)); done || lia.
  - apply (gone_trans D node A fs n (S D) (<[leaf := d']> (without xs A)) fs n (S D)).
    + apply gone_frame; [|done]. intros blk Hs. rewrite lookup_insert_ne by (intros Eb; by rewrite <- Eb in Hs). apply without_other. intros Hin. by destruct (Hxs _ Hin) as (_ & ? & _).
    + apply (gone_given D node _ _ fs fs' n (S D) m 1 (take mm xs) HG).
      * intros y Hy%HX. apply blocks_from_in in Hy as (q & Hq & ->). exists 0%nat, q. rewrite has_leaf_block, has_cut_leaf. split_and!; (done || lia).
      * intros l q Hlr _. by apply Hsub.
      * intros Hr l q Hlr Hq Hh. rewrite (Hrel Hr). destruct l as [|l]; [|left; by rewrite (has_cut D n m) by (done || lia)]. rewrite has_leaf_block in Hh. rewrite has_cut_leaf. destruct (Z.ltb_spec q m); [by left|]. right. apply blocks_from_in. exists q. split; [lia|done].
Qed.

(** ** A page is removed *)

(** The block and the word with the entry of the node of height [l] on the way to
    block [n]. *)
Definition place (i : inode) (iblk : Z) (D : nat) (n : Z) (node : nat -> Z -> Z) (l : nat) : Z * Z :=
  if decide (l < D)%nat then (node (S l) (n / P ^ Z.of_nat (S l)), digit l n) else (iblk, DESC_WORDS * i_slot i + D_BLOCKDIR + n / P ^ Z.of_nat D).

Lemma file_unlink N A A' L fs i iblk D n l cnt node d d' : let pl := place i iblk D n node l in
  file N A L fs i iblk D n l cnt node -> (l <= D)%nat -> n < 16 * P ^ Z.of_nat D -> has n (S l) l (n / P ^ Z.of_nat l) = false -> A !! fst pl = Some d -> put_at (snd pl) 0 d d' -> A' !! fst pl = Some d' ->
  (forall blk, blk <> fst pl -> blk <> node l (n / P ^ Z.of_nat l) -> A' !! blk = A !! blk) -> file N A' L fs i iblk D n (S l) cnt node.
Proof.
  intros pl HI Hl Hlt Hh Hd Hput Hd' Hoth. pose proof HI as [HF _ _ (locks & HL & _) (di & Hdi & Hdo) HT [[Hn _] _] _ Hnode]. set (q := n / P ^ Z.of_nat l) in *.
  assert (Hq : 0 <= q) by (by apply (div_nonneg geo Hlg)). pose proof (has_new geo Hlg n l) as Hnew. fold lg P q in Hnew. destruct (Hnode l q Hl Hq Hnew) as (Hqs & Hqu & _). assert (Hiq : iblk <> node l q) by (intros E; by apply (Hqu _ _ HL)).
  assert (His : ~ system fs iblk) by (by apply (held_not_system N A L fs (i_buf i) (Hold iblk locks false true))).
  assert (Hsame : forall l' q', (l' < D)%nat -> 0 <= q' -> has n (S l) (S l') q' = true -> node (S l') q' <> node l q) by (intros l' q' Hl' Hq' Hh' E; destruct (tr_apart _ _ _ _ _ _ HT (S l') q' l q ltac:(lia) Hl Hq' Hq (has_more n l _ _ Hh') Hnew E) as [<- ->]; congruence).
  unfold pl, place in *. destruct (decide (l < D)%nat) as [Hlt'|Hge]; cbn [fst snd] in *.
  - assert (Hq1 : 0 <= n / P ^ Z.of_nat (S l)) by (by apply (div_nonneg geo Hlg)). pose proof (has_new geo Hlg n (S l)) as Hh1. fold lg P in Hh1. destruct (Hnode (S l) _ Hlt' Hq1 (has_more n l _ _ Hh1)) as (Hps & Hpu & _).
    apply (file_smaller N A A' L fs i iblk D n l cnt n (S l) cnt node HI); [|apply (tree_unlink D n l A A' node HT Hn Hl Hh)| |lia|intros l' q' _ _; apply has_more].
    + intros blk Hs. apply Hoth; intros E; by rewrite E in Hs.
    + intros _. by exists d, d'.
    + intros l' q' Hl' Hq' Hh' Hne. apply Hoth; [|by apply Hsame]. intros E. apply Hne. destruct (tr_apart _ _ _ _ _ _ HT (S l') q' (S l) _ ltac:(lia) Hlt' Hq' Hq1 (has_more n l _ _ Hh') (has_more n l _ _ Hh1) E) as [? ?]. split; [lia|done].
    + exists di. rewrite Hoth; [|intros E; by apply (Hpu _ _ HL)|done]. split; [done|]. destruct Hdo as [D1 D2 D3 D4 D5]. split; try done. apply entries_keep; [done|]. left. lia.
  - assert (l = D) as -> by lia. assert (di = d) as -> by congruence. destruct Hput as (Hb & Hlen & Hw & Ho). assert (Ht : 0 <= q < 16) by (split; [done|]; pose proof (fan_pow_pos geo Hlg D) as Hp; fold lg P in Hp; apply Z.div_lt_upper_bound; lia).
    apply (file_smaller N A A' L fs i iblk D n D cnt n (S D) cnt node HI); [|apply (tree_unlink D n D A A' node HT Hn Hl Hh)| |lia|intros l' q' _ _; apply has_more].
    + intros blk Hs. apply Hoth; intros E; by rewrite E in Hs.
    + intros ?. lia.
    + intros l' q' Hl' Hq' Hh' _. apply Hoth; [|by apply Hsame]. intros E. destruct (Hnode (S l') q' ltac:(lia) Hq' (has_more n D _ _ Hh')) as (_ & Hu & _). by apply (Hu _ _ HL).
    + exists d'. split; [done|]. destruct Hdo as [D1 D2 D3 D4 D5]. assert (E1 : forall f, 0 <= f < 16 -> word_at d' (DESC_WORDS * i_slot i + f) = word_at d (DESC_WORDS * i_slot i + f)) by (intros f Hf; apply Ho; unfold D_BLOCKDIR; lia).
      split; [done|by rewrite Hlen|rewrite E1; [done|unfold D_BLOCKS; lia]|rewrite E1; [done|unfold D_DEPTH; lia]|]. apply (entries_clear n D node d d' _ 16 0 q); [done|done|fold q; lia|done|done|]. intros j Hj. by apply Ho.
Qed.

(** The node of height [l] is gone, but its entry is still there. *)
Record pending (N : nat) (A : gmap Z (list Z)) (L L' : gmap Z hold) fs (i : inode) (iblk : Z) (D : nat) (n : Z) (l : nat) (cnt : Z) (node : nat -> Z -> Z) (pg : nat -> option page) : Prop := {
  pn_rep : rep N A L' (cache fs);
  pn_pages : held_pages D L L' fs pg;
  pn_room : (size L + D < N)%nat;
  pn_file : let pl := place i iblk D n node l in exists d d', A !! fst pl = Some d /\ put_word d (snd pl) 0 = Some d' /\ ~ system fs (fst pl) /\ file N (<[fst pl := d']> A) L fs i iblk D n (S l) cnt node;
}.

(** The parent of a node, and the word with its entry. *)
Lemma place_ok N A L fs i iblk D n l cnt node : let pl := place i iblk D n node l in
  file N A L fs i iblk D n l cnt node -> (l <= D)%nat -> n < 16 * P ^ Z.of_nat D -> exists d d', A !! fst pl = Some d /\ put_word d (snd pl) 0 = Some d' /\ put_at (snd pl) 0 d d' /\ ~ system fs (fst pl) /\ fst pl <> node l (n / P ^ Z.of_nat l).
Proof.
  intros pl HI Hl Hlt. pose proof HI as [HF _ _ (locks & HL & _) (di & Hdi & Hdo) HT [[Hn _] _] _ Hnode]. assert (Hq : 0 <= n / P ^ Z.of_nat l) by (by apply (div_nonneg geo Hlg)).
  pose proof (has_new geo Hlg n l) as Hnew. fold lg P in Hnew. unfold pl, place. destruct (decide (l < D)%nat) as [Hlt'|Hge]; cbn [fst snd].
  - assert (Hq1 : 0 <= n / P ^ Z.of_nat (S l)) by (by apply (div_nonneg geo Hlg)). pose proof (has_more n l _ _ (has_new geo Hlg n (S l))) as Hh1. fold lg P in Hh1. destruct (tr_page _ _ _ _ _ _ HT l _ Hlt' Hq1 Hh1) as (d & Hd & [Hb Hlen] & _). pose proof (digit_bounds geo Hlg l n).
    destruct (put_at_word d (digit l n) 0 Hb ltac:(unfold is_u32, W32; lia) ltac:(lia) ltac:(lia)) as (d' & Hw & Hput). exists d, d'. split; [done|]. split; [done|]. split; [done|]. split; [by apply Hnode|]. intros E. destruct (tr_apart _ _ _ _ _ _ HT (S l) _ l _ Hlt' Hl Hq1 Hq Hh1 Hnew E). lia.
  - assert (l = D) as -> by lia. assert (Ht : 0 <= n / P ^ Z.of_nat D < 16) by (split; [done|]; pose proof (fan_pow_pos geo Hlg D) as Hp; fold lg P in Hp; apply Z.div_lt_upper_bound; lia).
    destruct Hdo as [Hb [Hs1 Hs2] _ _ _]. destruct (put_at_word di (DESC_WORDS * i_slot i + D_BLOCKDIR + n / P ^ Z.of_nat D) 0 Hb ltac:(unfold is_u32, W32; lia) ltac:(unfold DESC_WORDS, D_BLOCKDIR; lia) ltac:(unfold DESC_WORDS, D_BLOCKDIR; lia)) as (d' & Hw & Hput).
    exists di, d'. split; [done|]. split; [done|]. split; [done|]. split; [by apply (held_not_system N A L fs (i_buf i) (Hold iblk locks false true))|]. destruct (Hnode D _ Hl Hq Hnew) as (_ & Hu & _). intros E. by apply (Hu _ _ HL).
Qed.

Lemma given_delete A A' fs fs' X blk : given A A' fs fs' X -> ~ system fs blk -> given (delete blk A) (delete blk A') fs fs' X.
Proof.
  intros [H1 H2 H3 H4] Hs. split; try done.
  - intros b Hb. destruct (decide (b = blk)) as [->|]; [by rewrite !lookup_delete_eq|]. rewrite !lookup_delete_ne by done. by apply H2.
  - intros y. rewrite (free_frame Block A' (delete blk A')), (free_frame Block A (delete blk A)); [apply H3|intros b Hb; apply lookup_delete_ne; by intros ->|intros b Hb; apply lookup_delete_ne; intros ->; by apply Hs, (system_shape fs fs')].
Qed.

(** The page is given back, and its buffer is not valid any more. *)
Lemma free_page_run N A L L' fs i iblk D n l cnt node pg b dirty : let blk := node l (n / P ^ Z.of_nat l) in
  cutting N A L L' fs i iblk D n l cnt node pg -> (1 <= l <= D)%nat -> n < 16 * P ^ Z.of_nat D -> has n (S l) l (n / P ^ Z.of_nat l) = false -> pg l = Some (Pg b blk dirty true) ->
  exists fs' A' L'', (forall B (rest : K (filsys C) B), (free_blocks [blk] ;;; on_cache (c_invalid b) ;;; rest) fs = rest fs') /\ pending N A' L L'' fs' i iblk D n l cnt node (set_page l (Some (Pg b blk false false)) pg) /\
    gone D node A fs n l A' fs' n (S l) /\ (forall l' q', (l' <= D)%nat -> 0 <= q' -> has n (S l) l' q' = true -> node l' q' <> blk).
Proof.
  intros blk [R HI HP HN] Hl Hlt Hh Hpg. destruct (place_ok _ _ _ _ _ _ _ _ _ _ _ HI ltac:(lia) Hlt) as (d & d' & Hd & Hw & Hput & Hps & Hpne). fold blk in Hpne. set (pl := place i iblk D n node l) in *.
  pose proof HI as [HF _ _ _ _ HT [[Hn _] _] _ Hnode]. assert (Hq : 0 <= n / P ^ Z.of_nat l) by (by apply (div_nonneg geo Hlg)). pose proof (has_new geo Hlg n l) as Hnew. fold lg P in Hnew. destruct (Hnode l _ ltac:(lia) Hq Hnew) as (Hbs' & Hbu & Huse). fold blk in Hbs', Hbu, Huse.
  pose proof (tr_small _ _ _ _ _ _ HT l _ ltac:(lia) Hq Hnew) as Hsm. fold blk in Hsm. destruct (hp_page _ _ _ _ _ HP l _ Hl Hpg) as (_ & HbL & _).
  destruct (free_blocks_run N A L' fs [blk] (conj R (hp_wf N A D L L' fs pg HF HP HN)) ltac:(by apply Forall_singleton) ltac:(apply NoDup_singleton)) as (fs2 & A2 & mm & E & HFr & R2 & Hrel).
  destruct (invalid_law N A2 L' (cache fs2) b _ R2 HbL) as (c & E3 & _ & R3). cbn [h_blk phold pk] in R3. pose proof (freed_given _ _ _ _ _ _ _ HFr) as HG. assert (HX : forall y, y ∈ take mm [blk] -> y = blk) by (intros y Hy; apply list_elem_of_singleton; by apply (subseteq_take mm)).
  exists (set_cache c fs2), (delete blk A2), (<[b := invalidated (phold (Pg b blk dirty true))]> L'). split; [intros B rest; step E; by step (on_cache_run _ fs2 _ _ E3)|].
  pose proof (given_insert _ _ _ _ _ (fst pl) d' (given_delete _ _ _ _ _ blk HG Hbs') Hps) as HG2. assert (Hps2 : forall x, ~ system fs x -> ~ system fs2 x) by (intros x Hx Hs; apply Hx; by apply (system_shape fs fs2 x (gv_shape _ _ _ _ _ HG))).
  assert (HI1 : file N (<[fst pl := d']> (delete blk A)) L fs i iblk D n (S l) cnt node).
  { apply (file_unlink N A _ L fs i iblk D n l cnt node d d' HI ltac:(lia) Hlt Hh Hd Hput); [apply lookup_insert_eq|]. intros x H1 H2. rewrite lookup_insert_ne, lookup_delete_ne by done. done. }
  assert (Hdead : forall l' q', (l' <= D)%nat -> 0 <= q' -> has n (S l) l' q' = true -> node l' q' <> blk) by (intros l' q' Hl' Hq' Hh' Eb; destruct (tr_apart _ _ _ _ _ _ HT l' q' l _ Hl' ltac:(lia) Hq' Hq (has_more n l _ _ Hh') Hnew Eb) as [-> ->]; congruence).
  split; [split; [done| |done|]|split; [|done]].
  - apply (hp_shape D L _ fs); [apply HG|]. apply (hp_change D L L' fs pg l (Pg b blk dirty true) (Pg b blk false false)); done.
  - exists d, d'. fold pl. split; [rewrite lookup_delete_ne by done; by rewrite (gv_frame _ _ _ _ _ HG)|]. split; [done|]. split; [by apply Hps2|]. apply file_cache.
    apply (file_given N _ _ L fs fs2 i iblk D n (S l) cnt node (take mm [blk]) HI1 HG2).
    + apply insert_wf; [|by apply Hps2]. apply (wf_frame N A2); [|intros x Hx; apply lookup_delete_ne; intros <-; by apply (Hps2 blk)]. apply (hp_less N A2 A D L L' fs fs2 pg); [apply HFr|done|apply HFr|done].
    + intros y ->%HX. split; [lia|]. split; [done|]. split; [done|]. done.
  - apply (gone_trans D node A fs n l (delete blk A) fs n l); [apply gone_frame; [|done]; intros x Hx; apply lookup_delete_ne; by intros <-|].
    destruct (gone_given D node _ _ fs fs2 n l n (S l) (take mm [blk]) (given_delete _ _ _ _ _ blk HG Hbs')) as [G1 G2 G3 G4 G5].
    + intros y ->%HX. exists l, (n / P ^ Z.of_nat l). split_and!; (done || lia).
    + intros l' q' _ _. apply has_more.
    + intros Hr l' q' Hl' Hq' Hh'. rewrite (Hrel Hr). destruct (decide (l' = l /\ q' = n / P ^ Z.of_nat l)) as [[-> ->]|Hne]; [right; by apply list_elem_of_singleton|]. left. by rewrite <- has_rest.
    + split; done.
Qed.

(** The entry of a page that is gone is cleared in its parent. *)
Lemma unlink_page_run N A L L' fs i iblk D n l cnt node pg b dirty : let blk := node (S l) (n / P ^ Z.of_nat (S l)) in
  pending N A L L' fs i iblk D n l cnt node pg -> (S l <= D)%nat -> pg (S l) = Some (Pg b blk dirty true) ->
  exists c A' L'', put_entry b (digit l n) 0 fs = Done (tt, set_cache c fs) /\ cutting N A' L L'' (set_cache c fs) i iblk D n (S l) cnt node (set_page (S l) (Some (Pg b blk true true)) pg) /\
    gone D node A fs n (S l) A' (set_cache c fs) n (S l).
Proof.
  intros blk [R HP HN HFi] Hl Hpg. unfold place in HFi. rewrite decide_True in HFi by lia. cbn [fst snd] in HFi. destruct HFi as (d & d' & Hd & Hw & Hs & HI). fold blk in Hd, Hs, HI. destruct (hp_page _ _ _ _ _ HP (S l) _ ltac:(lia) Hpg) as (_ & HbL & _).
  destruct (put_entry_run N A L' fs b _ d d' _ 0 R HbL eq_refl Hd Hw) as (c & E & R1). cbn [h_blk phold pk] in R1. exists c, (<[blk := d']> A), (<[b := dirtied (phold (Pg b blk dirty true))]> L'). split; [done|]. split; [split; [done|by apply file_cache| |done]|].
  - apply (hp_shape D L _ fs); [done|]. apply (hp_change D L L' fs pg (S l) (Pg b blk dirty true) (Pg b blk true true)); (done || lia).
  - apply (gone_trans D node A fs n (S l) (<[blk := d']> A) fs n (S l)); [|apply gone_refl]. apply gone_frame; [|done]. intros x Hx. apply lookup_insert_ne. by intros <-.
Qed.

Lemma unlink_top_run {B} N A L L' fs i iblk D n cnt node pg (rest : K (filsys C) B) : pending N A L L' fs i iblk D n D cnt node pg ->
  exists c A', (put_field i (D_BLOCKDIR + n / P ^ Z.of_nat D) 0 ;;; mark_inode_dirty i ;;; rest) fs = rest (set_cache c fs) /\ cutting N A' L L' (set_cache c fs) i iblk D n (S D) cnt node pg /\
    gone D node A fs n (S D) A' (set_cache c fs) n (S D).
Proof.
  intros [R HP HN HFi]. unfold place in HFi. rewrite decide_False in HFi by lia. cbn [fst snd] in HFi. destruct HFi as (d & d' & Hd & Hw & Hs & HI). destruct (fi_hold _ _ _ _ _ _ _ _ _ _ _ _ HI) as (locks & HL & _). apply (hp_base _ _ _ _ _ HP) in HL.
  rewrite <- Z.add_assoc in Hw. destruct (store_field_run N A L' fs i iblk locks d d' _ 0 rest R HL Hd Hw) as (c & E & R1). exists c, (<[iblk := d']> A). split; [done|]. split; [split; [done|by apply file_cache|by apply (hp_shape D L _ fs)|done]|].
  apply (gone_trans D node A fs n (S D) (<[iblk := d']> A) fs n (S D)); [|apply gone_refl]. apply gone_frame; [|done]. intros x Hx. apply lookup_insert_ne. by intros <-.
Qed.

Lemma mirror_same D pg pg' ps : mirror D pg ps -> (forall l, (fun p => (pb p, pk p)) <$> pg' l = (fun p => (pb p, pk p)) <$> pg l) -> mirror D pg' ps.
Proof. intros [H1 H2] E. split; [done|]. intros d Hd. rewrite (H2 d Hd). by rewrite E. Qed.

Lemma set_page_fmap l p p' pg : pg l = Some p -> pb p' = pb p -> pk p' = pk p -> forall l', (fun p => (pb p, pk p)) <$> set_page l (Some p') pg l' = (fun p => (pb p, pk p)) <$> pg l'.
Proof. intros Hp E1 E2 l'. unfold set_page. destruct (decide (l' = l)) as [->|]; [|done]. rewrite Hp. cbn. by rewrite E1, E2. Qed.

(** A page of the height [l + 1] is empty if it begins with a page that is gone. *)
Lemma empty_above n l : 0 <= n -> has n (S l) l (n / P ^ Z.of_nat l) = false -> has n (S (S l)) (S l) (n / P ^ Z.of_nat (S l)) = negb (digit l n =? 0).
Proof.
  intros Hn Hh. pose proof (new_starts geo Hlg n l Hn Hh) as E. pose proof (next_node geo Hlg l n Hn) as En. pose proof (fan_pow_pos geo Hlg l) as Hp. pose proof (fan_pow_S geo l) as ES. pose proof (digit_bounds geo Hlg l n) as Hdg. unfold Dtree.has. fold lg P in E, En, Hp, ES, Hdg |- *.
  destruct (Nat.leb_spec (S (S l)) (S l)); [lia|]. rewrite orb_false_r, ES. rewrite ES in En. set (q := n / (P * P ^ Z.of_nat l)) in *. rewrite <- En in E. assert (En' : n = q * (P * P ^ Z.of_nat l) + digit l n * P ^ Z.of_nat l) by lia.
  destruct (Z.eqb_spec (digit l n) 0) as [E0|E0]; cbn [negb]; [apply Z.ltb_ge; rewrite E0 in En'; lia|apply Z.ltb_lt; nia].
Qed.

(** All heights above are there. *)
Lemma has_above n l D : 0 <= n -> has n (S (S l)) (S l) (n / P ^ Z.of_nat (S l)) = true -> same_nodes geo D n (S l) n (S D).
Proof.
  intros Hn Hh l' q Hl' Hq. unfold Dtree.has in *. fold lg P in Hh |- *. destruct (Nat.leb_spec (S (S l)) (S l)); [lia|]. rewrite orb_false_r in Hh. apply Z.ltb_lt in Hh. destruct (Nat.leb_spec (S D) l'); [lia|]. cbn [andb]. rewrite orb_false_r.
  destruct (Z.ltb_spec (q * P ^ Z.of_nat l') n) as [|Hge]; [done|]. cbn [orb]. destruct (Nat.leb_spec (S l) l') as [Hle|]; [|done]. cbn [andb]. symmetry. apply Z.eqb_neq. intros ->.
  pose proof (fan_pow_pos geo Hlg (S l)) as Hp. pose proof (fan_pow_pos geo Hlg (l' - S l)) as Hp'. fold lg P in Hp, Hp'. assert (EP : P ^ Z.of_nat l' = P ^ Z.of_nat (S l) * P ^ Z.of_nat (l' - S l)) by (rewrite <- Z.pow_add_r by lia; f_equal; lia).
  rewrite EP, <- Z.div_div in Hge by lia. pose proof (Z.mul_div_le (n / P ^ Z.of_nat (S l)) _ Hp'). nia.
Qed.

Definition page_gone (D : nat) (n : Z) (h : nat) (node : nat -> Z -> Z) (p : page) : Prop :=
  pb p <> 0 /\ pd p = false /\ pv p = false /\ forall l' q', (l' <= D)%nat -> 0 <= q' -> has n h l' q' = true -> node l' q' <> pk p.

Lemma page_gone_more D n h node p : page_gone D n h node p -> page_gone D n (S h) node p.
Proof. intros (H1 & H2 & H3 & H4). split; [done|]. split; [done|]. split; [done|]. intros l q Hl Hq Hh. apply H4; [done|done|]. by apply has_more. Qed.

Lemma page_gone_clean D n node l p : page_gone D n (S D) node p -> page_clean D n node l p.
Proof. intros (H1 & H2 & H3 & H4). split; [done|]. split; [done|]. by rewrite H3. Qed.

(** A page that stays is on the way to the last block. *)
Lemma stays_on_way D n l : 0 <= n -> (l <= D)%nat -> has n (S D) l (n / P ^ Z.of_nat l) = true -> 0 < n /\ n / P ^ Z.of_nat l = (n - 1) / P ^ Z.of_nat l.
Proof.
  intros Hn Hl Hh. unfold Dtree.has in Hh. fold lg P in Hh. destruct (Nat.leb_spec (S D) l); [lia|]. rewrite orb_false_r in Hh. apply Z.ltb_lt in Hh. pose proof (fan_pow_pos geo Hlg l) as Hp. fold lg P in Hp. pose proof (div_nonneg geo Hlg n l Hn) as Hq. fold lg P in Hq.
  split; [nia|]. pose proof (Z.mul_succ_div_gt n _ Hp). apply (Z.div_unique_pos (n - 1) _ _ (n - 1 - P ^ Z.of_nat l * (n / P ^ Z.of_nat l))); lia.
Qed.

Lemma page_stays D n node l b : 0 <= n -> (l <= D)%nat -> has n (S D) l (n / P ^ Z.of_nat l) = true -> b <> 0 -> page_clean D n node l (Pg b (node l (n / P ^ Z.of_nat l)) false true).
Proof. intros Hn Hl Hh Hb. destruct (stays_on_way D n l Hn Hl Hh) as [H1 H2]. split; [done|]. split; [done|]. split; [done|]. cbn [pk]. by rewrite H2. Qed.

Lemma mirror_page D pg ps l p : mirror D pg ps -> (D < 10)%nat -> (1 <= l <= D)%nat -> pg l = Some p -> ps !! (S D - l)%nat = Some (Some (pb p, pk p)).
Proof. intros [H1 H2] HD Hl Hp. rewrite H2 by (rewrite H1; change (Z.to_nat DFS_MAX_DEPTH) with 10%nat; lia). rewrite decide_True by lia. replace (S D - (S D - l))%nat with l by lia. by rewrite Hp. Qed.

(** What [remove_pages] leaves behind. *)
Definition removed (N : nat) (L : gmap Z hold) (i : inode) (iblk : Z) (D : nat) (n : Z) (l : nat) (cnt : Z) (node : nat -> Z -> Z) (ps : list (option (Z * Z))) (A : gmap Z (list Z)) fs (top : bool) fs' : Prop :=
  exists A' L'' pg', (if top then pending N A' L L'' fs' i iblk D n D cnt node pg' /\ ((l < D)%nat -> digit (D - 1) n = 0) else cutting N A' L L'' fs' i iblk D n (S D) cnt node pg') /\
    gone D node A fs n (S l) A' fs' n (S D) /\ mirror D pg' ps /\ clean D n node pg'.

(** The page of height [l + 1] stays. *)
Lemma page_kept_run N A L L' fs i iblk D n l cnt node ps pg b : let blk := node (S l) (n / P ^ Z.of_nat (S l)) in
  cutting N A L L' fs i iblk D n (S l) cnt node pg -> (S l <= D)%nat -> has n (S (S l)) (S l) (n / P ^ Z.of_nat (S l)) = true -> b <> 0 -> pg (S l) = Some (Pg b blk true true) -> mirror D pg ps ->
  (forall l', (1 <= l' <= l)%nat -> exists p, pg l' = Some p /\ page_gone D n (S l) node p) -> (forall l', (S l < l' <= D)%nat -> exists b, b <> 0 /\ pg l' = Some (Pg b (node l' (n / P ^ Z.of_nat l')) false true)) ->
  exists fs', on_cache (c_updated b) fs = Done (tt, fs') /\ removed N L i iblk D n l cnt node ps A fs false fs'.
Proof.
  intros blk [R HI HP HN] Hl Hh Hb Hpg Hm Hlow Hup. pose proof (fi_count _ _ _ _ _ _ _ _ _ _ _ _ HI) as [[Hn _] _]. destruct (hp_page _ _ _ _ _ HP (S l) _ ltac:(lia) Hpg) as (_ & HbL & Hs). destruct (mark_held_run N A L' fs b _ R HbL eq_refl) as (c & E & R1).
  exists (set_cache c fs). split; [done|]. set (p' := Pg b blk false true). pose proof (has_above n l D Hn Hh) as Hsame. exists A, (<[b := phold p']> L'), (set_page (S l) (Some p') pg). split; [split; [done| | |done]|split; [|split]].
  - apply file_cache, (file_same geo Hlg N A L fs i iblk D n (S l)); [done|apply HI|done].
  - apply (hp_shape D L _ fs); [done|]. apply (hp_change D L L' fs pg (S l) (Pg b blk true true) p'); (done || lia).
  - apply (gone_trans D node A fs n (S l) A fs n (S D)); [by apply gone_frame|apply gone_refl].
  - apply (mirror_same D pg); [done|]. by apply (set_page_fmap (S l) (Pg b blk true true)).
  - assert (Hst : forall l', (S l <= l' <= D)%nat -> has n (S D) l' (n / P ^ Z.of_nat l') = true) by (intros l' Hl'; rewrite Hsame; [|lia|by apply (div_nonneg geo Hlg)]; unfold Dtree.has; fold lg P; rewrite Z.eqb_refl; destruct (Nat.leb_spec (S l) l'); [by rewrite orb_true_r|lia]).
    intros l' p Hl' Hp. destruct (decide (l' = S l)) as [->|Hne]; [rewrite set_page_same in Hp; injection Hp as <-; apply page_stays; (done || auto)|]. rewrite set_page_other in Hp by done. destruct (decide (l' <= l)%nat).
    + destruct (Hlow l' ltac:(lia)) as (p0 & Hp0 & Hg). assert (p0 = p) as -> by congruence. destruct Hg as (G1 & G2 & G3 & G4). split; [done|]. split; [done|]. rewrite G3. intros l2 q2 Hl2 Hq2 Hh2. apply G4; [done|done|]. by rewrite <- Hsame.
    + destruct (Hup l' ltac:(lia)) as (b' & Hb' & Hp'). assert (p = Pg b' (node l' (n / P ^ Z.of_nat l')) false true) as -> by congruence. apply page_stays; [done|lia|apply Hst; lia|done].
Qed.

Lemma removed_gone N L i iblk D n l1 l2 cnt node ps A fs A1 fs1 top fs' : (l1 <= l2)%nat -> gone D node A fs n (S l1) A1 fs1 n (S l2) -> (top = true -> (l1 < D)%nat -> (l2 < D)%nat \/ digit (D - 1) n = 0) ->
  removed N L i iblk D n l2 cnt node ps A1 fs1 top fs' -> removed N L i iblk D n l1 cnt node ps A fs top fs'.
Proof.
  intros Hl HG Ht (A' & L'' & pg' & H1 & H2 & H3). exists A', L'', pg'. split; [|split; [by apply (gone_trans D node A fs n (S l1) A1 fs1 n (S l2))|done]]. destruct top; [|done]. destruct H1 as [H1 Hz]. split; [done|]. intros Hl1. destruct (Ht eq_refl Hl1) as [?|?]; auto.
Qed.

Lemma remove_pages_run N L i iblk D n cnt node offsets ps : (D < 10)%nat -> n < 16 * P ^ Z.of_nat D -> (forall l, (1 <= l < D)%nat -> offsets !! (D - S l)%nat = Some (digit l n)) ->
  forall d l A L' fs pg, d = (D - l)%nat -> (1 <= l <= D)%nat -> pending N A L L' fs i iblk D n l cnt node pg -> has n (S l) l (n / P ^ Z.of_nat l) = false -> mirror D pg ps ->
  (forall l', (1 <= l' <= l)%nat -> exists p, pg l' = Some p /\ page_gone D n (S l) node p) -> (forall l', (l < l' <= D)%nat -> exists b, b <> 0 /\ pg l' = Some (Pg b (node l' (n / P ^ Z.of_nat l')) false true)) ->
  exists top fs', remove_pages d offsets ps fs = Done (top, fs') /\ removed N L i iblk D n l cnt node ps A fs top fs'.
Proof.
  intros HD Hlt Hoff. induction d as [|d IH]; intros l A L' fs pg Ed Hl HPn Hh Hm Hlow Hup; cbn [remove_pages].
  { assert (l = D) as -> by lia. exists true, fs. split; [done|]. exists A, L', pg. split; [split; [done|lia]|]. split; [by apply gone_frame|]. split; [done|]. intros l p Hl' Hp. destruct (Hlow l Hl') as (p0 & Hp0 & Hg). assert (p0 = p) as -> by congruence. by apply page_gone_clean. }
  assert (HlD : (S l <= D)%nat) by lia. destruct (Hup (S l) ltac:(lia)) as (b & Hb & Hpg). set (blk := node (S l) (n / P ^ Z.of_nat (S l))) in *. assert (Eo : offsets !! d = Some (digit l n)) by (rewrite <- (Hoff l) by lia; f_equal; lia). rewrite Eo. cbn [kopt]. rewrite kbind_kret.
  pose proof (mirror_page D pg ps (S l) _ Hm HD ltac:(lia) Hpg) as Hps. cbn [pb pk] in Hps. replace (S D - S l)%nat with (S d) in Hps by lia. rewrite (kbind_done (kopt (mjoin (ps !! S d))) _ fs (b, blk) fs) by (by rewrite Hps). cbn [fst snd].
  pose proof (pn_file _ _ _ _ _ _ _ _ _ _ _ _ _ HPn) as (d0 & d0' & _ & _ & _ & HI0). pose proof (fi_count _ _ _ _ _ _ _ _ _ _ _ _ HI0) as [[Hn _] _].
  destruct (unlink_page_run _ _ _ _ _ _ _ _ _ _ _ _ _ b false HPn HlD Hpg) as (c & A1 & L1 & E1 & HC1 & HG1). step E1. fold blk in HC1. set (fs1 := set_cache c fs) in *. set (pg1 := set_page (S l) (Some (Pg b blk true true)) pg) in *.
  assert (Hm1 : mirror D pg1 ps) by (apply (mirror_same D pg); [done|]; by apply (set_page_fmap (S l) (Pg b blk false true))). assert (Hoth : forall l', l' <> S l -> pg1 l' = pg l') by (intros l' Hne; by apply set_page_other). pose proof (empty_above n l Hn Hh) as Hab.
  destruct (Z.eqb_spec (digit l n) 0) as [E0|E0]; cbn [negb] in Hab.
  - destruct (free_page_run _ _ _ _ _ _ _ _ _ _ _ _ _ b true HC1 ltac:(lia) Hlt Hab (set_page_same _ _ _)) as (fs2 & A2 & L2 & E2 & HP2 & HG2 & Hdead). fold blk in E2, HP2, Hdead. rewrite E2.
    destruct (IH (S l) A2 L2 fs2 _ ltac:(lia) ltac:(lia) HP2 Hab) as (top & fs' & E & HR).
    + apply (mirror_same D pg1); [done|]. apply (set_page_fmap (S l) (Pg b blk true true)); [apply set_page_same|done|done].
    + intros l' Hl'. destruct (decide (l' = S l)) as [->|Hne]; [exists (Pg b blk false false); split; [apply set_page_same|]; done|]. rewrite set_page_other, Hoth by done. destruct (Hlow l' ltac:(lia)) as (p & Hp & Hg). exists p. split; [done|]. by apply page_gone_more.
    + intros l' Hl'. rewrite set_page_other, Hoth by lia. apply Hup. lia.
    + exists top, fs'. split; [done|]. apply (removed_gone N L i iblk D n l (S l) cnt node ps A fs A2 fs2); [lia|by apply (gone_trans D node A fs n (S l) A1 fs1 n (S l))| |done]. intros _ _. destruct (decide (S l < D)%nat); [by left|]. right. by replace (D - 1)%nat with l by lia.
  - destruct (page_kept_run _ _ _ _ _ _ _ _ _ _ _ _ ps _ b HC1 HlD Hab Hb (set_page_same _ _ _) Hm1) as (fs' & E & HR).
    + intros l' Hl'. rewrite Hoth by lia. by apply Hlow.
    + intros l' Hl'. rewrite Hoth by lia. apply Hup. lia.
    + step E. exists false, fs'. split; [done|]. apply (removed_gone N L i iblk D n l l cnt node ps A fs A1 fs1); [lia|done|done|done].
Qed.

(** ** A round *)

Lemma digit_mod_fan n : digit 0 n = n mod P.
Proof. unfold Dtree.digit. fold lg P. by rewrite Z.pow_0_r, Z.div_1_r. Qed.

Lemma leaf_digit n m l : 0 < n -> in_leaf n m -> (1 <= l)%nat -> digit l (n - 1) = digit l m.
Proof. intros Hn Hm Hl. unfold Dtree.digit. fold lg P. by rewrite (leaf_div n m l). Qed.

Lemma digits_lookup l n (j : nat) : (j < l)%nat -> digits geo l n !! j = Some (digit (l - S j) n).
Proof. revert j. induction l as [|l IH]; intros j Hj; [lia|]. destruct j as [|j]; cbn [digits]; [cbn; by rewrite Nat.sub_0_r|]. change ((digit l n :: digits geo l n) !! S j) with (digits geo l n !! j). by rewrite IH by lia. Qed.

Lemma digits_length l n : length (digits geo l n) = l.
Proof. induction l as [|l IH]; [done|]. cbn. by rewrite IH. Qed.

Lemma removelast_lookup (xs : list Z) j : (S j < length xs)%nat -> (removelast xs ++ [0]) !! j = xs !! j.
Proof.
  revert j. induction xs as [|x xs IH]; intros j Hj; [cbn in Hj; lia|]. destruct xs as [|y xs]; [cbn in Hj; lia|]. destruct j as [|j]; [done|]. change (removelast (x :: y :: xs)) with (x :: removelast (y :: xs)). apply (IH j). cbn in Hj |- *. lia.
Qed.

Lemma way_offsets D n m : 0 < n -> in_leaf n m -> forall l, (1 <= l < D)%nat -> (removelast (digits geo D (n - 1)) ++ [0]) !! (D - S l)%nat = Some (digit l m).
Proof.
  intros Hn Hm l Hl. rewrite removelast_lookup by (rewrite digits_length; lia). rewrite digits_lookup by lia. replace (D - S (D - S l))%nat with l by lia. f_equal. apply leaf_digit; (done || lia).
Qed.

(** The first offset is zero if all pages on the way are gone. *)
Lemma way_first D n m : 0 < n -> in_leaf n m -> (1 <= D)%nat -> ((1 < D)%nat -> digit (D - 1) m = 0) -> List.hd 0 (removelast (digits geo D (n - 1)) ++ [0]) = 0.
Proof.
  intros Hn Hm HD Hz. destruct D as [|[|D]]; [lia|done|]. pose proof (way_offsets (S (S D)) n m Hn Hm (S D) ltac:(lia)) as Ho. rewrite Nat.sub_diag in Ho. specialize (Hz ltac:(lia)). cbn [Nat.sub] in Hz. rewrite Hz in Ho. destruct (removelast _ ++ [0]); [done|]. by injection Ho as ->.
Qed.

(** The state between rounds. *)
Definition round_end (N : nat) (L : gmap Z hold) (i : inode) (iblk : Z) (D : nat) (cnt : Z) (node : nat -> Z -> Z) (ps : list (option (Z * Z))) (A : gmap Z (list Z)) fs (n : Z) fs' (n' : Z) : Prop :=
  exists A' L' pg, cutting N A' L L' fs' i iblk D n' (S D) cnt node pg /\ clean D n' node pg /\ mirror D pg ps /\ gone D node A fs n (S D) A' fs' n' (S D).

Lemma round_trans N L i iblk D cnt node ps A fs n A1 fs1 n1 fs2 n2 : gone D node A fs n (S D) A1 fs1 n1 (S D) -> round_end N L i iblk D cnt node ps A1 fs1 n1 fs2 n2 -> round_end N L i iblk D cnt node ps A fs n fs2 n2.
Proof. intros HG (A' & L' & pg & H1 & H2 & H3 & H4). exists A', L', pg. split_and!; try done. by apply (gone_trans D node A fs n (S D) A1 fs1 n1 (S D)). Qed.

(** Some of the blocks of the leaf page are removed. *)
Lemma part_leaf_run N A L L' fs i iblk D n cnt node pg ps m b : let leaf := leaf_page n node in
  cutting N A L L' fs i iblk D n (S D) cnt node pg -> clean D n node pg -> mirror D pg ps -> all_held D n node pg -> pg 1%nat = Some (Pg b leaf false true) -> b <> 0 -> 0 < n -> (n - 1) / P * P < m < n -> (1 <= D)%nat ->
  exists fs' , (remove_blocks b (m - (n - 1) / P * P) (n - m) ;;; on_cache (c_updated b)) fs = Done (tt, fs') /\ round_end N L i iblk D cnt node ps A fs n fs' m.
Proof.
  intros leaf HC Hc Hm Hall Hpg Hb Hn Hmr HD. pose proof (fan_pos geo Hlg) as HP. fold lg P in HP. assert (Hq0 : 0 <= (n - 1) / P) by (apply Z.div_pos; lia). assert (Hin : in_leaf n m) by (split; lia).
  destruct (cut_leaf_run _ _ _ _ _ _ _ _ _ _ _ _ m b HC Hc Hpg Hn Hin ltac:(nia) HD) as (fs1 & A1 & L1 & E1 & HC1 & HG1). step E1. fold leaf in HC1. set (pg1 := set_page 1 (Some (Pg b leaf true true)) pg) in *.
  assert (Eleaf : leaf = node 1%nat (m / P ^ Z.of_nat 1)) by (unfold leaf, leaf_page; by rewrite (leaf_div n m 1)). assert (Hh : has m 2 1 (m / P ^ Z.of_nat 1) = true).
  { unfold Dtree.has. fold lg P. apply orb_true_iff. left. rewrite (leaf_div n m 1 Hn Hin) by lia. rewrite Z.pow_1_r. apply Z.ltb_lt. lia. }
  destruct (page_kept_run N A1 L L1 fs1 i iblk D m 0 cnt node ps pg1 b HC1 HD Hh Hb) as (fs2 & E2 & A2 & L2 & pg2 & HC2 & HG2 & Hm2 & Hc2).
  - unfold pg1. rewrite set_page_same, <- Eleaf. done.
  - apply (mirror_same D pg); [done|]. by apply (set_page_fmap 1 (Pg b leaf false true)).
  - intros l' Hl'. lia.
  - intros l' Hl'. unfold pg1. rewrite set_page_other by lia. rewrite (leaf_div n m l') by (done || lia). apply Hall. lia.
  - exists fs2. split; [done|]. exists A2, L2, pg2. split_and!; try done. by apply (gone_trans D node A fs n (S D) A1 fs1 m 1).
Qed.

(** All blocks of the leaf page are removed, with the pages that are empty then. *)
Lemma whole_leaf_run {B} N A L L' fs i iblk D n cnt node pg ps b (rest : K (filsys C) B) : let leaf := leaf_page n node in let m := (n - 1) / P * P in let offsets := removelast (digits geo D (n - 1)) ++ [0] in
  cutting N A L L' fs i iblk D n (S D) cnt node pg -> clean D n node pg -> mirror D pg ps -> all_held D n node pg -> pg 1%nat = Some (Pg b leaf false true) -> b <> 0 -> 0 < n -> (1 <= D < 10)%nat ->
  exists fs', (remove_blocks b 0 (n - m) ;;; free_blocks [leaf] ;;; on_cache (c_invalid b) ;;;
     let* top := remove_pages (D - 1) offsets ps in
     (if top && (List.hd 0 offsets =? 0) then put_field i (D_BLOCKDIR + (n - 1) / P ^ Z.of_nat D) 0 ;;; mark_inode_dirty i else kret tt) ;;; rest) fs = rest fs' /\ round_end N L i iblk D cnt node ps A fs n fs' m.
Proof.
  intros leaf m offsets HC Hc Hm Hall Hpg Hb Hn HD. pose proof (fan_pos geo Hlg) as HP. fold lg P in HP. assert (Hq0 : 0 <= (n - 1) / P) by (apply Z.div_pos; lia). pose proof (Z.mul_div_le (n - 1) P ltac:(lia)) as Hle. assert (Hin : in_leaf n m) by (split; unfold m; lia).
  assert (Hm0 : 0 <= m) by (unfold m; nia). pose proof (fi_count _ _ _ _ _ _ _ _ _ _ _ _ (cu_file _ _ _ _ _ _ _ _ _ _ _ _ _ HC)) as [[_ Hn16] _]. fold lg P in Hn16. assert (Hlt : m < 16 * P ^ Z.of_nat D) by (unfold m; lia).
  destruct (cut_leaf_run _ _ _ _ _ _ _ _ _ _ _ _ m b HC Hc Hpg Hn Hin Hm0 ltac:(lia)) as (fs1 & A1 & L1 & E1 & HC1 & HG1). replace (m - (n - 1) / P * P) with 0 in E1 by (unfold m; lia). step E1. fold leaf in HC1. set (pg1 := set_page 1 (Some (Pg b leaf true true)) pg) in *.
  assert (Eleaf : leaf = node 1%nat (m / P ^ Z.of_nat 1)) by (unfold leaf, leaf_page; by rewrite (leaf_div n m 1)). assert (Hh : has m 2 1 (m / P ^ Z.of_nat 1) = false).
  { unfold Dtree.has. fold lg P. rewrite orb_false_r, (leaf_div n m 1 Hn Hin), Z.pow_1_r by lia. apply Z.ltb_ge. unfold m. lia. }
  destruct (free_page_run N A1 L L1 fs1 i iblk D m 1 cnt node pg1 b true HC1 ltac:(lia) Hlt Hh) as (fs2 & A2 & L2 & E2 & HP2 & HG2 & Hdead); [unfold pg1; by rewrite set_page_same, <- Eleaf|]. rewrite <- Eleaf in E2, HP2, Hdead. rewrite E2. set (pg2 := set_page 1 _ pg1) in *.
  assert (Hup : forall l', (1 < l' <= D)%nat -> exists b, b <> 0 /\ pg2 l' = Some (Pg b (node l' (m / P ^ Z.of_nat l')) false true)) by (intros l' Hl'; unfold pg2, pg1; rewrite !set_page_other by lia; rewrite (leaf_div n m l') by (done || lia); apply Hall; lia).
  destruct (remove_pages_run N L i iblk D m cnt node offsets ps ltac:(lia) Hlt (way_offsets D n m Hn Hin) (D - 1) 1 A2 L2 fs2 pg2 eq_refl ltac:(lia) HP2 Hh) as (top & fs3 & E3 & A3 & L3 & pg3 & HT & HG3 & Hm3 & Hc3); [| |done|].
  - apply (mirror_same D pg1); [apply (mirror_same D pg); [done|]; by apply (set_page_fmap 1 (Pg b leaf false true))|]. apply (set_page_fmap 1 (Pg b leaf true true)); [apply set_page_same|done|done].
  - intros l' Hl'. assert (l' = 1%nat) as -> by lia. exists (Pg b leaf false false). split; [apply set_page_same|done].
  - step E3. assert (HG : gone D node A fs n (S D) A3 fs3 m (S D)) by (apply (gone_trans D node A fs n (S D) A1 fs1 m 1); [done|]; by apply (gone_trans D node A1 fs1 m 1 A2 fs2 m 2)). destruct top; cbn [andb].
    + destruct HT as [HT Hz]. assert (E0 : List.hd 0 offsets = 0) by (by apply (way_first D n m Hn Hin ltac:(lia))). rewrite E0. change (0 =? 0) with true. cbv iota. rewrite kbind_assoc. destruct (unlink_top_run _ _ _ _ _ _ _ _ _ _ _ _ rest HT) as (c & A4 & E4 & HC4 & HG4). rewrite (leaf_div n m D) in E4 by (done || lia). rewrite E4.
      exists (set_cache c fs3). split; [done|]. exists A4, L3, pg3. split_and!; try done. by apply (gone_trans D node A fs n (S D) A3 fs3 m (S D)).
    + rewrite kbind_kret. exists fs3. split; [done|]. by exists A3, L3, pg3.
Qed.

(** ** All rounds *)

Lemma last_digits_pos D n : (1 <= D)%nat -> List.last (digits geo D n) 0 = digit 0 n.
Proof. intros HD. destruct D as [|D]; [lia|]. apply last_digits. Qed.

Lemma truncate_loop_run N L i iblk D cnt node t : (1 <= D)%nat -> 0 <= t -> forall fuel A L' fs n pg ps iblock, (Z.to_nat (n - t) <= fuel)%nat -> t <= n -> (t < n -> iblock = n - 1) ->
  cutting N A L L' fs i iblk D n (S D) cnt node pg -> clean D n node pg -> mirror D pg ps ->
  exists res fs', truncate_loop geo fuel i (Z.of_nat D) iblock (n - t) ps fs = Done (res, fs') /\
    match res with
    | Some ps' => round_end N L i iblk D cnt node ps' A fs n fs' t
    | None => ~ reliable /\ exists A' n', t <= n' <= n /\ gone D node A fs n (S D) A' fs' n' (S D)
    end.
Proof.
  intros HD Ht. induction fuel as [|fuel IH]; intros A L' fs n pg ps iblock Hf Hn Hib HC Hc Hm.
  all: cbn [truncate_loop]; destruct (Z.eqb_spec (n - t) 0) as [E0|E0]; [exists (Some ps), fs; assert (n = t) as -> by lia; split; [done|]; exists A, L', pg; split_and!; try done; by apply gone_frame|].
  { lia. }
  rewrite (Hib ltac:(lia)). pose proof (cu_file _ _ _ _ _ _ _ _ _ _ _ _ _ HC) as HI. pose proof HI as [_ _ _ (locks & HL & _) (d & Hd & Hdo) _ [[_ Hn16] Hnw] HDl _]. fold lg in HDl. fold lg P in Hn16. assert (HD10 : (D < 10)%nat) by nia.
  rewrite (split_levels_eq geo Hlg D (n - 1)) by (fold lg; lia). cbn [kopt]. rewrite kbind_kret. cbn [fst snd]. fold lg P. pose proof (fan_pow_pos geo Hlg D) as Hp. pose proof (fan_pos geo Hlg) as HP. fold lg P in Hp, HP.
  assert (Htop : 0 <= (n - 1) / P ^ Z.of_nat D < 16) by (split; [apply Z.div_pos; lia|apply Z.div_lt_upper_bound; lia]). pose proof (do_top _ _ _ _ _ _ _ _ Hdo _ Htop) as Hent. pose proof (has_below geo Hlg n (S D) D (n - 1) ltac:(lia)) as Hhb. fold lg P in Hhb. rewrite Z.add_0_l, Hhb, <- Z.add_assoc in Hent.
  unfold get_field. step (get_entry_run N A L' fs (i_buf i) _ d _ _ (cu_rep _ _ _ _ _ _ _ _ _ _ _ _ _ HC) (hp_base _ _ _ _ _ (cu_pages _ _ _ _ _ _ _ _ _ _ _ _ _ HC) _ _ HL) eq_refl Hd Hent).
  destruct (load_pages_run N A L i iblk D n cnt node ltac:(lia) HD10 D L' fs pg ps ltac:(lia) HC Hc Hm ltac:(intros; lia)) as (res & c & E & Hres). replace (S D - D)%nat with 1%nat in E by lia. step E. set (fs1 := set_cache c fs) in *.
  destruct res as [ps1|]; [|exists None, fs1; split; [done|]; destruct Hres as [Hrel _]; split; [done|]; exists A, n; split; [lia|apply gone_refl]].
  destruct Hres as (L1 & pg1 & HC1 & Hc1 & Hm1 & Hall). destruct (Hall 1%nat ltac:(lia)) as (b & Hb & Hpg). fold (leaf_page n node) in Hpg. pose proof (mirror_page D pg1 ps1 1 _ Hm1 HD10 ltac:(lia) Hpg) as Hps. cbn [pb pk] in Hps. replace (S D - 1)%nat with D in Hps by lia.
  assert (Hj : mjoin ((ps1 : list (option (Z * Z))) !! D) = Some (b, leaf_page n node)) by (by rewrite Hps).
  rewrite Nat2Z.id. rewrite (kbind_done (kopt (mjoin (ps1 !! D))) _ fs1 (b, leaf_page n node) fs1) by exact (f_equal (fun x => kopt x fs1) Hj). cbn [fst snd]. rewrite last_digits_pos by done. rewrite digit_mod_fan.
  pose proof (Z.div_mod (n - 1) P ltac:(lia)) as Hdm. pose proof (Z.mod_pos_bound (n - 1) P ltac:(lia)) as Hmb. set (o := (n - 1) mod P) in *. assert (HPw : P < W32) by lia. destruct (Z.ltb_spec o (n - t)) as [Hlt|Hge].
  - set (m := (n - 1) / P * P). assert (Em : m = n - 1 - o) by (unfold m; lia). replace (u32 (o + 1)) with (n - m) by (rewrite u32_small; [lia|unfold is_u32, W32 in *; lia]). replace (Z.to_nat (Z.of_nat D - 1)) with (D - 1)%nat by lia.
    rewrite (u32_small (n - t - (n - m))) by (unfold is_u32; lia). replace (n - t - (n - m)) with (m - t) by lia.
    destruct (whole_leaf_run N A L L1 fs1 i iblk D n cnt node pg1 ps1 b (truncate_loop geo fuel i (Z.of_nat D) (u32 (n - 1 - (n - m))) (m - t) ps1) HC1 Hc1 Hm1 Hall Hpg Hb ltac:(lia) ltac:(lia)) as (fs2 & E2 & A2 & L2 & pg2 & HC2 & Hc2 & Hm2 & HG2).
    fold m in E2, HC2, Hc2, HG2. pose proof (gone_trans D node A fs n (S D) A fs1 n (S D) A2 fs2 m (S D) (gone_refl D node A fs n (S D) c) HG2) as HG. rewrite E2. destruct (IH A2 L2 fs2 m pg2 ps1 (u32 (n - 1 - (n - m))) ltac:(lia) ltac:(lia) ltac:(intros ?; rewrite u32_small; [lia|unfold is_u32; lia]) HC2 Hc2 Hm2) as (res & fs' & E3 & Hres). exists res, fs'. split; [done|].
    destruct res as [ps'|]; [by apply (round_trans N L i iblk D cnt node ps' A fs n A2 fs2 m)|]. destruct Hres as (Hrel & A' & n' & Hn' & HG'). split; [done|]. exists A', n'. split; [lia|]. by apply (gone_trans D node A fs n (S D) A2 fs2 m (S D)).
  - replace (u32 (o + 1 - (n - t))) with (t - (n - 1) / P * P) by (rewrite u32_small; [lia|unfold is_u32, W32 in *; lia]).
    destruct (part_leaf_run N A L L1 fs1 i iblk D n cnt node pg1 ps1 t b HC1 Hc1 Hm1 Hall Hpg Hb ltac:(lia) ltac:(lia) HD) as (fs2 & E2 & HR). rewrite <- kbind_assoc. step E2. exists (Some ps1), fs2. split; [|apply (round_trans N L i iblk D cnt node ps1 A fs n A fs1 n); [apply gone_refl|exact HR]]. by destruct fuel.
Qed.

(** ** The end *)

Lemma hp_none_held D L L' fs pg : held_pages D L L' fs pg -> (forall l, (1 <= l <= D)%nat -> pg l = None) -> L' = L.
Proof.
  intros H Hn. apply map_eq. intros b. destruct (L !! b) as [h|] eqn:E; [by apply (hp_base _ _ _ _ _ H)|]. destruct (L' !! b) as [h|] eqn:E'; [|done]. destruct (hp_split _ _ _ _ _ H b h E') as [?|(l & p & Hl & Hp & _)]; [congruence|]. rewrite Hn in Hp by done. done.
Qed.

Lemma release_pages_run N A L i iblk D n h cnt node (ps : list (option (Z * Z))) : forall k d L' fs pg, (d + k = length ps)%nat -> cutting N A L L' fs i iblk D n h cnt node pg -> (forall l p, (1 <= l <= D)%nat -> pg l = Some p -> pd p = false) ->
  (D < length ps)%nat -> (forall d', (d <= d' < length ps)%nat -> ps !! d' = Some (if decide (1 <= d' <= D)%nat then (fun p => (pb p, pk p)) <$> pg (S D - d')%nat else None)) -> (forall l, (1 <= l <= D)%nat -> (S D - l < d)%nat -> pg l = None) ->
  exists c, release_pages (drop d ps) fs = Done (tt, set_cache c fs) /\ rep N A L c.
Proof.
  induction k as [|k IH]; intros d L' fs pg Hd HC Hcl HD Hps Hno.
  { rewrite drop_ge by lia. exists (cache fs). split; [by rewrite set_cache_id|]. assert (L' = L) as <-; [|apply HC]. apply (hp_none_held D L L' fs pg); [apply HC|]. intros l Hl. apply Hno; lia. }
  pose proof (Hps d ltac:(lia)) as Hx. rewrite (drop_S ps _ d Hx). cbn [release_pages].
  assert (Hskip : (forall l, (1 <= l <= D)%nat -> (S D - l < S d)%nat -> pg l = None) -> exists c, release_pages (drop (S d) ps) fs = Done (tt, set_cache c fs) /\ rep N A L c) by (intros Hno'; apply (IH (S d) L' fs pg); (done || lia || (intros; apply Hps; lia))).
  destruct (decide (1 <= d <= D)%nat) as [Hdr|Hdr]; [|apply Hskip; intros l Hl Hlt; destruct (decide (S D - l = d)%nat); [lia|apply Hno; lia]].
  destruct (pg (S D - d)%nat) as [p|] eqn:Hp; cbn [fmap option_fmap option_map].
  2: { apply Hskip. intros l Hl Hlt. destruct (decide (S D - l = d)%nat) as [El|]; [by replace l with (S D - d)%nat by lia|apply Hno; lia]. }
  destruct (drop_page_run _ _ _ _ _ _ _ _ _ _ _ _ _ (S D - d)%nat p HC ltac:(lia) Hp (Hcl (S D - d)%nat p ltac:(lia) Hp)) as (c & L1 & E & HC1). step E. destruct (IH (S d) L1 (set_cache c fs) _ ltac:(lia) HC1) as (c2 & E2 & R2); [|done| | |by exists c2].
  - intros l p' Hl Hp'. unfold set_page in Hp'. destruct (decide (l = (S D - d)%nat)); [done|]. by apply (Hcl l).
  - intros d' Hd'. rewrite Hps by lia. destruct (decide (1 <= d' <= D)%nat); [|done]. rewrite set_page_other by lia. done.
  - intros l Hl Hlt. unfold set_page. destruct (decide (l = (S D - d)%nat)); [done|]. apply Hno; lia.
Qed.

(** Two words of the descriptor are stored before it is marked. *)
Lemma store_two_run {B} N A L fs i iblk locks dirty d d1 d2 f1 v1 f2 v2 (rest : K (filsys C) B) : rep N A (<[i_buf i := Hold iblk locks dirty true]> L) (cache fs) -> L !! i_buf i = Some (Hold iblk locks false true) -> A !! iblk = Some d ->
  put_word d (DESC_WORDS * i_slot i + f1) v1 = Some d1 -> put_word d1 (DESC_WORDS * i_slot i + f2) v2 = Some d2 ->
  exists c, (put_field i f1 v1 ;;; put_field i f2 v2 ;;; mark_inode_dirty i ;;; rest) fs = rest (set_cache c fs) /\ rep N (<[iblk := d2]> A) L c.
Proof.
  intros R HL Hd Hw1 Hw2. destruct (put_entry_run N A _ fs (i_buf i) _ d d1 _ _ R (lookup_insert_eq _ _ _) eq_refl Hd Hw1) as (c1 & E1 & R1). unfold put_field at 1. step E1. cbn [h_blk dirtied h_locks h_valid] in R1. rewrite insert_insert_eq in R1.
  destruct (store_desc_run N _ _ (set_cache c1 fs) i iblk locks true d1 d2 f2 v2 rest R1 (lookup_insert_eq _ _ _) (lookup_insert_eq _ _ _) Hw2) as (c2 & E2 & R2). exists c2. split; [exact E2|].
  rewrite (insert_insert_eq A), (insert_insert_eq L), (insert_id L) in R2 by done. done.
Qed.

(** An empty file of depth 0. *)
Lemma file_empty N A A' L fs i iblk D cnt node d d1 d2 : file N A L fs i iblk D 0 (S D) cnt node -> A !! iblk = Some d -> put_at (DESC_WORDS * i_slot i + D_BLOCKS) 0 d d1 -> put_at (DESC_WORDS * i_slot i + D_DEPTH) 0 d1 d2 ->
  A' !! iblk = Some d2 -> (forall blk, blk <> iblk -> A' !! blk = A !! blk) -> file N A' L fs i iblk 0 0 1 0 node.
Proof.
  intros HI Hd (B1 & L1 & W1 & O1) (B2 & L2 & W2 & O2) Hd2 HA. destruct (fi_desc _ _ _ _ _ _ _ _ _ _ _ _ HI) as (d0 & Hd0 & [D1 D2 D3 D4 D5]). assert (d0 = d) as -> by congruence.
  pose proof HI as [HF Hroom (K0 & K1 & K2) (locks & HL & Hlk) _ _ [_ Hw] HDl _]. assert (Hsys : forall blk, system fs blk -> A' !! blk = A !! blk) by (intros blk Hs; apply HA; intros ->; by apply (held_not_system N A L fs _ _ HF HL)).
  assert (Hfree : forall y, is_free Block A' fs y <-> is_free Block A fs y) by (intros y; by apply free_frame). assert (Hh : forall l q, (l <= 0)%nat -> 0 <= q -> has 0 1 l q = false) by (intros l q Hl Hq; assert (l = 0%nat) as -> by lia; rewrite has_cut_leaf; lia). split; try done.
  - by apply (wf_frame N A).
  - split; [by rewrite Hfree|]. split; [intros blk Hs; rewrite Hfree; by apply K1|intros b hd Hb; rewrite Hfree; by apply (K2 b)].
  - by exists locks.
  - exists d2. split; [done|]. split; [done|by rewrite L2, L1|rewrite O2; [done|unfold D_BLOCKS, D_DEPTH; lia]|done|]. intros k Hk. rewrite O2, O1 by (unfold D_BLOCKDIR, D_BLOCKS, D_DEPTH; lia). rewrite (D5 k Hk), Hh by lia.
    unfold Dtree.has. fold lg P. destruct (Nat.leb_spec (S D) D); [lia|]. rewrite orb_false_r. pose proof (fan_pow_pos geo Hlg D) as Hp. fold lg P in Hp. destruct (Z.ltb_spec ((0 + k) * P ^ Z.of_nat D) 0); [nia|done].
  - split; [intros l q Hl; lia|intros l q l' q' Hl _ Hq _ H; by rewrite Hh in H|intros l q Hl Hq H; by rewrite Hh in H].
  - intros l q Hl Hq H. by rewrite Hh in H.
Qed.

(** ** [truncate_inode] *)

(** The outcome: the first [t] blocks stay and the others are free, unless a
    bitmap cannot be read; or a page of the tree cannot be read. *)
Definition truncated (N : nat) (L : gmap Z hold) (i : inode) (iblk : Z) (D : nat) (n : Z) (node : nat -> Z -> Z) (A : gmap Z (list Z)) fs (t r : Z) fs' : Prop :=
  (r = 0 /\ exists A' D', rep N A' L (cache fs') /\ file N A' L fs' i iblk D' t (S D') t node /\ (D' = D \/ (t = 0 /\ D' = 0%nat)) /\ (t = 0 -> D' = 0%nat \/ n = 0) /\ gone D node A fs n (S D) A' fs' t (S D)) \/
  (r = - EIO /\ ~ reliable /\ exists A' n', t <= n' <= n /\ gone D node A fs n (S D) A' fs' n' (S D)).

Lemma truncate_end_run N A L fs i iblk D n node A1 fs1 t : file N A1 L fs1 i iblk D t (S D) n node -> rep N A1 L (cache fs1) -> 0 <= t -> t < n -> gone D node A fs n (S D) A1 fs1 t (S D) ->
  exists fs', (put_field i D_BLOCKS t ;;; (if t =? 0 then put_field i D_DEPTH 0 else kret tt) ;;; mark_inode_dirty i ;;; kret 0) fs1 = Done (0, fs') /\ truncated N L i iblk D n node A fs t 0 fs'.
Proof.
  intros HI R Ht Htn HG. pose proof HI as [HF _ _ (locks & HL & _) (d & Hd & Hdo) _ [_ Hw] _ _]. destruct (desc_word geo Hlg i D t (S D) n node d D_BLOCKS t Hdo ltac:(unfold D_BLOCKS; lia) ltac:(unfold is_u32; lia)) as (d1 & Hw1 & Hp1). pose proof (desc_count _ _ _ _ _ _ _ _ _ _ Hdo Hp1) as Hdo1.
  assert (HisA : forall A2 : gmap Z (list Z), (forall blk, blk <> iblk -> A2 !! blk = A1 !! blk) -> forall blk, system fs1 blk -> A2 !! blk = A1 !! blk) by (intros A2 HA2 blk Hs; apply HA2; intros ->; by apply (held_not_system N A1 L fs1 _ _ HF HL)).
  assert (Hoth : forall x blk, blk <> iblk -> <[iblk := x]> A1 !! blk = A1 !! blk) by (intros x blk Hb; by rewrite lookup_insert_ne). assert (HGe : forall x c, gone D node A fs n (S D) (<[iblk := x]> A1) (set_cache c fs1) t (S D)).
  { intros x c. apply (gone_trans D node A fs n (S D) A1 fs1 t (S D)); [done|]. apply (gone_trans D node A1 fs1 t (S D) (<[iblk := x]> A1) fs1 t (S D)); [apply gone_frame; [apply HisA, Hoth|done]|apply gone_refl]. }
  destruct (Z.eqb_spec t 0) as [E0|E0].
  - destruct (desc_word geo Hlg i D t (S D) t node d1 D_DEPTH 0 Hdo1 ltac:(unfold D_DEPTH; lia) ltac:(unfold is_u32, W32; lia)) as (d2 & Hw2 & Hp2). rewrite <- (insert_id L (i_buf i) (Hold iblk locks false true) HL) in R.
    destruct (store_two_run N A1 L fs1 i iblk locks false d d1 d2 D_BLOCKS t D_DEPTH 0 (kret 0) R HL Hd Hw1 Hw2) as (c & E & R'). exists (set_cache c fs1). split; [exact E|]. left. split; [done|]. exists (<[iblk := d2]> A1), 0%nat. split; [done|]. rewrite E0 in *.
    split; [|split; [by right|split; [by left|done]]]. apply file_cache, (file_empty N A1 _ L fs1 i iblk D n node d d1 d2 HI Hd Hp1 Hp2); [apply lookup_insert_eq|apply Hoth].
  - destruct (store_field_run N A1 L fs1 i iblk locks d d1 D_BLOCKS t (kret 0) R HL Hd Hw1) as (c & E & R'). exists (set_cache c fs1). split; [refine (eq_trans _ E); apply kbind_next; intros [] s; by rewrite kbind_kret|].
    left. split; [done|]. exists (<[iblk := d1]> A1), D. split; [done|]. split; [|split; [by left|split; [done|done]]]. apply file_cache, (file_desc geo N A1 _ L fs1 i iblk D t (S D) n); [done|apply Hoth|]. exists d1. split; [apply lookup_insert_eq|done].
Qed.

(** The blocks in the descriptor. *)
Lemma truncate_flat_run N A L fs i iblk n node t : file N A L fs i iblk 0 n 1 n node -> rep N A L (cache fs) -> 0 <= t -> t < n ->
  exists fs', (remove_blocks (i_buf i) (DESC_WORDS * i_slot i + D_BLOCKDIR + t) (u32 (n - t)) ;;; put_field i D_BLOCKS t ;;; mark_inode_dirty i ;;; kret 0) fs = Done (0, fs') /\ truncated N L i iblk 0 n node A fs t 0 fs'.
Proof.
  intros HI R Ht Htn. pose proof HI as [HF _ _ (locks & HL & _) (d & Hd & Hdo) HT [[_ Hn16] Hw] HDl _]. rewrite Z.pow_0_r in Hn16. destruct (do_length _ _ _ _ _ _ _ _ Hdo) as [Hs1 Hs2]. set (xs := blocks_from node t n). destruct (blocks_from_file _ _ _ _ _ _ _ _ _ _ t HI Ht) as (Hu & Hnd & Hxs). fold xs in Hu, Hnd, Hxs.
  pose proof (blocks_from_length node t n ltac:(lia)) as Hlen. fold xs in Hlen. assert (His : ~ system fs iblk) by (by apply (held_not_system N A L fs _ _ HF HL)). assert (Hix : iblk ∉ xs) by (intros Hin; destruct (Hxs _ Hin) as (_ & _ & Hux & _); by apply (Hux _ _ HL)).
  assert (He : forall j x, xs !! j = Some x -> word_at d (DESC_WORDS * i_slot i + D_BLOCKDIR + t + Z.of_nat j) = Some x).
  { intros j x Hx. apply blocks_from_lookup in Hx as [-> Hj]. pose proof (do_top _ _ _ _ _ _ _ _ Hdo (t + Z.of_nat j) ltac:(lia)) as He. rewrite Z.add_0_l, has_leaf_block in He. destruct (Z.ltb_spec (t + Z.of_nat j) n); [|lia]. by rewrite Z.add_assoc in He. }
  destruct (remove_blocks_run N A L fs (i_buf i) _ d (DESC_WORDS * i_slot i + D_BLOCKDIR + t) xs (conj R HF) HL eq_refl Hd (do_bytes _ _ _ _ _ _ _ _ Hdo) His ltac:(unfold DESC_WORDS, D_BLOCKDIR; lia) ltac:(unfold DESC_WORDS, D_BLOCKDIR; lia) ltac:(lia) He Hu Hnd) as (fs1 & A1 & d1 & mm & E & HFr & Hrel & R1 & Hb1 & Hl1 & Hz1 & Ho1).
  { intros x Hx. destruct (Hxs x Hx) as (_ & ? & ? & _). done. }
  rewrite Hlen in *. rewrite u32_small by (unfold is_u32, W32; lia). step E. cbn [h_blk dirtied h_locks h_valid] in R1.
  assert (Hdw : exists d2, put_word d1 (DESC_WORDS * i_slot i + D_BLOCKS) t = Some d2 /\ put_at (DESC_WORDS * i_slot i + D_BLOCKS) t d1 d2) by (apply put_at_word; [done|unfold is_u32, W32; lia|unfold DESC_WORDS, D_BLOCKS; lia|rewrite Hl1; unfold DESC_WORDS, D_BLOCKS; lia]). destruct Hdw as (d2 & Hw2 & Hb2 & Hl2 & Hz2 & Ho2).
  destruct (store_desc_run N _ _ fs1 i iblk locks true d1 d2 D_BLOCKS t (kret 0) R1 (lookup_insert_eq _ _ _) (lookup_insert_eq _ _ _) Hw2) as (c & E2 & R2). rewrite (insert_insert_eq A1), (insert_insert_eq L), (insert_id L) in R2 by done.
  exists (set_cache c fs1). split; [exact E2|]. pose proof (given_insert _ _ _ _ _ iblk d2 (freed_given _ _ _ _ _ _ _ HFr) His) as HG. assert (HX : forall y, y ∈ take mm xs -> y ∈ xs) by (intros y Hy; by apply (subseteq_take mm xs)).
  assert (Hsub : forall l q, (l <= 0)%nat -> 0 <= q -> has t 1 l q = true -> has n 1 l q = true) by (intros l q Hl Hq; assert (l = 0%nat) as -> by lia; rewrite !has_cut_leaf; lia).
  assert (Hsys : forall blk, system fs blk -> <[iblk := d2]> (without xs A) !! blk = A !! blk) by (intros blk Hs; rewrite lookup_insert_ne by (intros <-; done); apply without_other; intros Hin; by destruct (Hxs _ Hin) as (_ & ? & _)).
  assert (HI1 : file N (<[iblk := d2]> (without xs A)) L fs i iblk 0 t 1 t node).
  { apply (file_smaller N A _ L fs i iblk 0 n 1 n t 1 t node HI Hsys); [| |lia|exact Hsub].
    - destruct HT as [T1 T2 T3]. split; [intros l q Hl; lia|intros l q l' q' Hl Hl' Hq Hq' H1 H2; apply T2; auto|intros l q Hl Hq H1; apply T3; auto].
    - exists d2. split; [apply lookup_insert_eq|]. destruct Hdo as [D1 D2 D3 D4 D5]. split; [done|by rewrite Hl2, Hl1|done|rewrite Ho2, Ho1 by (unfold D_DEPTH, D_BLOCKS, D_BLOCKDIR; lia); done|].
      intros k Hk. rewrite Ho2 by (unfold D_BLOCKDIR, D_BLOCKS; lia). specialize (D5 k Hk). rewrite has_leaf_block, Z.add_0_l in D5. rewrite has_cut_leaf, Z.add_0_l. destruct (decide (t <= k < n)).
      + rewrite Hz1 by lia. destruct (Z.ltb_spec k t); [lia|done].
      + rewrite Ho1 by lia. rewrite D5. destruct (Z.ltb_spec k n), (Z.ltb_spec k t); (done || lia). }
  left. split; [done|]. exists (<[iblk := d2]> A1), 0%nat. split; [done|]. split; [|split; [by left|split; [by left|]]].
  - apply file_cache, (file_given N _ _ L fs fs1 i iblk 0 t 1 t node (take mm xs) HI1 HG).
    + apply insert_wf; [apply HFr|]. intros Hs. apply His. by apply (system_shape fs fs1 iblk (gv_shape _ _ _ _ _ HG)).
    + intros y Hy%HX. destruct (Hxs y Hy) as (Hy0 & Hys & Hyu & Hna). split; [done|]. split; [done|]. split; [done|]. intros l q Hl Hq Hh Ey. destruct (Hna l q Hl Hq (Hsub l q Hl Hq Hh) Ey) as [-> Hq']. rewrite has_cut_leaf in Hh. lia.
  - apply (gone_trans 0 node A fs n 1 (<[iblk := d2]> A1) fs1 t 1); [|apply gone_refl]. apply (gone_trans 0 node A fs n 1 (<[iblk := d2]> (without xs A)) fs n 1); [by apply gone_frame|]. apply (gone_given 0 node _ _ fs fs1 n 1 t 1 (take mm xs) HG); [|exact Hsub|].
    + intros y Hy%HX. apply blocks_from_in in Hy as (q & Hq & ->). exists 0%nat, q. rewrite has_leaf_block, has_cut_leaf. split_and!; (done || lia).
    + intros Hr l q Hl Hq Hh. rewrite (Hrel Hr). assert (l = 0%nat) as -> by lia. rewrite has_leaf_block in Hh. rewrite has_cut_leaf. destruct (Z.ltb_spec q t); [by left|]. right. apply blocks_from_in. exists q. split; [lia|done].
Qed.

(** [truncate_inode] is right. *)
Lemma truncate_run N A L fs i iblk D n node t : file N A L fs i iblk D n (S D) n node -> rep N A L (cache fs) -> 0 <= t -> (size L + D < N)%nat ->
  exists r fs', truncate_inode geo i t fs = Done (r, fs') /\ (if n <? t then r = - EINVAL /\ fs' = fs else truncated N L i iblk D n node A fs t r fs').
Proof.
  intros HI R Ht HN. pose proof HI as [_ _ _ (locks & HL & _) (d & Hd & Hdo) _ [[Hn _] Hw] HDl _]. fold lg in HDl. unfold truncate_inode, get_field. step (get_entry_run N A L fs (i_buf i) _ d _ _ R HL eq_refl Hd (do_blocks _ _ _ _ _ _ _ _ Hdo)).
  destruct (Z.ltb_spec n t); [by exists (- EINVAL), fs|]. destruct (Z.eqb_spec t n) as [->|Hne].
  { exists 0, fs. split; [done|]. left. split; [done|]. exists A, D. split; [done|]. split; [done|]. split; [by left|]. split; [by right|]. by apply gone_frame. }
  destruct (Z.eqb_spec n 0) as [?|_]; [lia|]. step (get_entry_run N A L fs (i_buf i) _ d _ _ R HL eq_refl Hd (do_depth _ _ _ _ _ _ _ _ Hdo)). destruct D as [|D].
  { destruct (truncate_flat_run N A L fs i iblk n node t HI R Ht ltac:(lia)) as (fs' & E & HT). exists 0, fs'. done. }
  destruct (Z.eqb_spec (Z.of_nat (S D)) 0) as [?|_]; [lia|]. rewrite !u32_small by (unfold is_u32; lia). assert (HC : cutting N A L L fs i iblk (S D) n (S (S D)) n node (fun _ => None)) by (split; [done|done| |done]; split; [done|intros b h Hb; by left|done|done]).
  assert (Hm : mirror (S D) (fun _ => None) (replicate (Z.to_nat DFS_MAX_DEPTH) None)) by (split; [apply length_replicate|]; intros d' Hd'; rewrite length_replicate in Hd'; rewrite lookup_replicate_2 by done; by destruct (decide _)).
  destruct (truncate_loop_run N L i iblk (S D) n node t ltac:(lia) Ht (Z.to_nat (n - t)) A L fs n _ _ (n - 1) ltac:(lia) ltac:(lia) ltac:(done) HC ltac:(done) Hm) as (res & fs1 & E & Hres). step E.
  destruct res as [ps|]; [|exists (- EIO), fs1; split; [done|]; right; split; [done|]; destruct Hres as (? & A' & n' & ? & ?); split; [done|]; by exists A', n'].
  destruct Hres as (A1 & L1 & pg & HC1 & Hc1 & [Hm1 Hm2] & HG). assert (HD10 : (S D < 10)%nat) by nia.
  destruct (release_pages_run N A1 L i iblk (S D) t (S (S D)) n node ps (length ps) 0 L1 fs1 pg ltac:(lia) HC1) as (c & E1 & R1); [intros l p Hl Hp; by destruct (Hc1 l p Hl Hp) as (_ & ? & _)|rewrite Hm1; change (Z.to_nat DFS_MAX_DEPTH) with 10%nat; lia|intros d' Hd'; apply Hm2; lia|intros l _ Hl; lia|].
  rewrite drop_0 in E1. step E1. destruct (truncate_end_run N A L fs i iblk (S D) n node A1 (set_cache c fs1) t) as (fs' & E2 & HT); [by apply file_cache, (cu_file _ _ _ _ _ _ _ _ _ _ _ _ _ HC1)|done|done|lia| |exists 0, fs'; done].
  apply (gone_trans (S D) node A fs n (S (S D)) A1 fs1 t (S (S D))); [done|apply gone_refl].
Qed.

End Shrink.
