(* ===== verification/Inodes.v ===== *)
(** * The blocks of a file as a list (sys/fs/dfs/inode.c)

    A file is a list of blocks: [get_inode_block] looks up one of them and
    [expand_inode] appends one, and [truncate_inode] takes the first ones, whatever
    the depth of the tree is.  The last theorem is about a full disk: [set_inode_block] returns without releasing
    the page that it has locked, so each such call costs a buffer of the pool.
    The theorems hold for all block caches that keep the laws of Blocks.v; the
    witnesses use the buffer pool. *)

From S2P Require Import Prelude Bitops Buf Bufcache Bufview Blocks Group Groups Space Poolblocks Volume Dinode Dtree Dshrink.
Local Open Scope k_scope.

(** A page of the tree is a block full of entries, as [create_filesystem] and
    [open_filesystem] set the fields; blocks have 64 bytes at least. *)
Record geometry_ok (geo : geometry) : Prop := {
  ge_log : 4 <= log_blkptrs_per_block geo;
  ge_size : blocksize geo = 4 * 2 ^ log_blkptrs_per_block geo;
  ge_word : blocksize geo < W32;
}.

(** The blocks under a directory page of height [m]. *)
Definition span (geo : geometry) (m : nat) : Z := (2 ^ log_blkptrs_per_block geo) ^ Z.of_nat m.

(** The blocks under the sixteen entries of a descriptor of depth [D]. *)
Definition capacity (geo : geometry) (D : nat) : Z := 16 * (2 ^ log_blkptrs_per_block geo) ^ Z.of_nat D.

Section Inodes.
Context {C : Type} `{!BlockCache C, !CacheSpec C}.
Variable geo : geometry.
Implicit Types fs : filsys C.

(** The inode has the blocks [bs]; pages are missing below the height [h]. *)
Definition contents (N : nat) (A : gmap Z (list Z)) (L : gmap Z hold) fs (i : inode) (D h : nat) (bs : list Z) : Prop :=
  exists iblk node, file geo N A L fs i iblk D (Z.of_nat (length bs)) h (Z.of_nat (length bs)) node /\ (forall k b, bs !! k = Some b -> b = node 0%nat (Z.of_nat k)) /\ (bs = [] -> D = 0%nat).

(** An open inode whose tree has depth [D] and no page too many. *)
Definition holds (N : nat) (A : gmap Z (list Z)) (L : gmap Z hold) fs (i : inode) (D : nat) (bs : list Z) : Prop := rep N A L (cache fs) /\ contents N A L fs i D (S D) bs.

(** The length of the list fits the words of the descriptor and the shifts. *)
Definition may_grow (D : nat) (bs : list Z) : Prop :=
  Z.of_nat (length bs) + 2 < W32 /\ (Z.of_nat (length bs) = capacity geo D -> Z.of_nat (S D) * log_blkptrs_per_block geo <= 31).

(** The blocks of a list are in use. *)
Lemma contents_used N A L fs i D h bs b : contents N A L fs i D h bs -> b ∈ bs -> in_use Block A fs b.
Proof.
  intros (iblk & node & HI & Hbs & _) [k Hk]%list_elem_of_lookup. rewrite (Hbs k b Hk). apply (fi_node _ _ _ _ _ _ _ _ _ _ _ _ HI); [lia|lia|]. apply lookup_lt_Some in Hk. unfold has. apply orb_true_iff. left. apply Z.ltb_lt. rewrite Z.pow_0_r. lia.
Qed.

Lemma contents_later N A L fs i D bs A' fs' iblk D' h' node node' : let n := Z.of_nat (length bs) in (forall k b, bs !! k = Some b -> b = node 0%nat (Z.of_nat k)) -> (bs = [] -> D = 0%nat) -> (bs <> [] \/ D' = D) ->
  later n A fs node A' fs' node' -> file geo N A' L fs' i iblk D' n h' n node' -> contents N A' L fs' i D' h' bs.
Proof.
  intros n Hbs H0 HD (_ & _ & Hn) HI. exists iblk, node'. split; [done|]. split; [|intros E; destruct HD as [?| ->]; [done|by apply H0]].
  intros k b Hk. rewrite Hn; [by apply Hbs|]. apply lookup_lt_Some in Hk. lia.
Qed.

Hypothesis Hgeo : geometry_ok geo.

(** The block is appended. *)
Lemma contents_append N A L fs i bs A' fs' iblk D' node node' : let n := Z.of_nat (length bs) in (forall k b, bs !! k = Some b -> b = node 0%nat (Z.of_nat k)) -> n + 2 < W32 -> n < capacity geo D' ->
  later n A fs node A' fs' node' -> file geo N A' L fs' i iblk D' n 0 (n + 1) node' -> contents N A' L fs' i D' (S D') (bs ++ [node' 0%nat n]) /\ in_use Block A' fs' (node' 0%nat n).
Proof.
  intros n Hbs Hn Hc (_ & _ & Hnode) HI. assert (E : Z.of_nat (length (bs ++ [node' 0%nat n])) = n + 1) by (rewrite length_app; cbn; lia). split.
  - exists iblk, node'. rewrite E. split; [|split; [|by destruct bs]].
    + apply (file_same geo (ge_log _ Hgeo) N A' L fs' i iblk D' n 0); [apply (same_next geo (ge_log _ Hgeo)); lia|unfold capacity in Hc; lia|done].
    + intros k b [Hk|[Hk Hb]]%lookup_app_Some; [rewrite Hnode by (apply lookup_lt_Some in Hk; lia); by apply Hbs|]. apply list_lookup_singleton_Some in Hb as [Hk0 <-]. f_equal. lia.
  - apply (fi_node _ _ _ _ _ _ _ _ _ _ _ _ HI); [lia|lia|]. pose proof (has_new geo (ge_log _ Hgeo) n 0) as Hh. by rewrite Z.pow_0_r, Z.div_1_r in Hh.
Qed.

(** C17: [get_inode_block] looks up a block of the list: it returns block [k] of
    the file and changes nothing, or the device cannot read a page and it
    returns NOBLOCK. *)
Theorem get_inode_block_lookup (N : nat) (A : gmap Z (list Z)) (L : gmap Z hold) (fs : filsys C) (i : inode) (D : nat) (bs : list Z) (k : nat) (b : Z) : holds N A L fs i D bs -> bs !! k = Some b ->
  exists r fs', get_inode_block geo i (Z.of_nat k) fs = Done (r, fs') /\ holds N A L fs' i D bs /\ groups fs' = groups fs /\ (r = b \/ (r = NOBLOCK /\ ~ reliable)).
Proof.
  intros (R & iblk & node & HI & Hbs & H0) Hk. assert (Hx : 0 <= Z.of_nat k < Z.of_nat (length bs)) by (apply lookup_lt_Some in Hk; lia).
  destruct (get_inode_block_run geo (ge_log _ Hgeo) N A L fs i iblk D _ _ _ node _ HI R Hx) as (r & c & E & R' & Hr). exists r, (set_cache c fs). split; [done|].
  split; [split; [done|]; exists iblk, node; split; [by apply file_cache|done]|]. split; [done|]. by rewrite (Hbs k b Hk).
Qed.

(** C7: [expand_inode] always returns, and no block becomes free.  Either it
    returns a block that was free, which is then in use, and the file has it
    behind its old blocks, which are the same as before; or it returns NOBLOCK and
    the file has its old blocks, and in the worst case a buffer stays locked. *)
Theorem expand_inode_appends (N : nat) (A : gmap Z (list Z)) (L : gmap Z hold) (fs : filsys C) (i : inode) (D : nat) (bs : list Z) : holds N A L fs i D bs -> may_grow D bs ->
  exists r fs' A' D', expand_inode geo i fs = Done (r, fs') /\ (forall y, is_free Block A' fs' y -> is_free Block A fs y) /\
    ((is_free Block A fs r /\ in_use Block A' fs' r /\ (r ∉ bs) /\ holds N A' L fs' i D' (bs ++ [r])) \/
     (r = NOBLOCK /\ (holds N A' L fs' i D' bs \/ (leaked N A' L (cache fs') /\ exists h, contents N A' L fs' i D' h bs)))).
Proof.
  intros HH [Hn Hg]. pose proof HH as (R & iblk & node & HI & Hbs & H0). set (n := Z.of_nat (length bs)) in *.
  destruct (expand_run geo (ge_log _ Hgeo) (ge_size _ Hgeo) N A L fs i iblk D n node HI R) as (r & fs' & D' & E & HD & HC & A' & node' & HL & Hr); [intros E; apply H0, length_zero_iff_nil; lia|done|].
  assert (Hne : bs <> [] \/ D' = D). { destruct HD as [?|HD]; [by right|]. left. intros ->. pose proof (fan_pow_pos geo (ge_log _ Hgeo) D). unfold n in HD. cbn [length] in HD. lia. }
  exists r, fs', A', D'. split; [done|]. split; [apply HL|]. destruct Hr as [[-> [(_ & R' & HI')|[Hleak [h HI']]]]|(Hf & R' & HI' & Er)].
  - right. split; [done|]. left. split; [done|]. by apply (contents_later N A L fs i D bs A' fs' iblk D' (S D') node node').
  - right. split; [done|]. right. split; [done|]. exists h. by apply (contents_later N A L fs i D bs A' fs' iblk D' h node node').
  - left. destruct (contents_append N A L fs i bs A' fs' iblk D' node node' Hbs Hn) as [HB HU]; [|done|done|fold n in HB, HU; rewrite Er in HB, HU].
    + destruct HC as [?|HN]; [done|]. pose proof (free_small N A L fs r (fi_wf _ _ _ _ _ _ _ _ _ _ _ _ HI) Hf). lia.
    + split; [done|]. split; [done|]. split; [|done]. intros Hin. by destruct (contents_used N A L fs i D (S D) bs r (proj2 HH) Hin).
Qed.

(** The page of height [m + 1] in the tree of the file on the way to the block
    behind the last one. *)
Definition dir_page (N : nat) (A : gmap Z (list Z)) (L : gmap Z hold) (fs : filsys C) (i : inode) (D : nat) (bs : list Z) (m : nat) (page : Z) : Prop :=
  let n := Z.of_nat (length bs) in exists iblk node, file geo N A L fs i iblk D n (S D) n node /\ (forall k b, bs !! k = Some b -> b = node 0%nat (Z.of_nat k)) /\ page = parent geo n m node.

(** C34: a file with a directory of depth [D > m] in which the next block begins a
    new page of height [m] but not of height [m + 1] (for [m = 0]: the last page of
    blocks is filled in part) is expanded on a full disk, and the device can read
    all blocks.  [expand_inode] returns NOBLOCK and the buffer of the directory page
    of height [m + 1] on the way stays locked once: it is not among the buffers
    that were locked before, and the caller does not get it. *)
Theorem full_disk_leaks_buffer (N : nat) (A : gmap Z (list Z)) (L : gmap Z hold) (fs : filsys C) (i : inode) (D : nat) (bs : list Z) (m : nat) : holds N A L fs i D bs -> (m < D)%nat ->
  Z.of_nat (length bs) mod span geo m = 0 -> Z.of_nat (length bs) mod span geo (S m) <> 0 -> reliable -> (forall y, ~ is_free Block A fs y) ->
  exists fs' A' b page, expand_inode geo i fs = Done (NOBLOCK, fs') /\ dir_page N A L fs i D bs m page /\ L !! b = None /\ rep N A' (<[b := Hold page 1 false true]> L) (cache fs').
Proof.
  intros (R & iblk & node & HI & Hbs & H0) HD Hm0 Hm1 Hrel Hfull. set (n := Z.of_nat (length bs)) in *.
  destruct (expand_full_run geo (ge_log _ Hgeo) N A L fs i iblk D n node m Hrel (conj Hm0 Hm1) HD HI R Hfull) as (fs' & E & A' & b & Hb & R').
  exists fs', A', b, (parent geo n m node). split; [done|]. split; [by exists iblk, node|done].
Qed.

(** A block or a page of the file. *)
Definition owns (N : nat) (A : gmap Z (list Z)) (L : gmap Z hold) (fs : filsys C) (i : inode) (D : nat) (bs : list Z) (y : Z) : Prop :=
  let n := Z.of_nat (length bs) in exists iblk node l q, file geo N A L fs i iblk D n (S D) n node /\ (l <= D)%nat /\ 0 <= q /\ has geo n (S D) l q = true /\ node l q = y.

Lemma contents_take N A L fs i iblk D bs node (t : nat) : (t <= length bs)%nat -> (forall k b, bs !! k = Some b -> b = node 0%nat (Z.of_nat k)) -> (t = 0%nat -> D = 0%nat) ->
  file geo N A L fs i iblk D (Z.of_nat t) (S D) (Z.of_nat t) node -> contents N A L fs i D (S D) (take t bs).
Proof.
  intros Ht Hbs H0 HI. exists iblk, node. rewrite length_take_le by done. split; [done|]. split; [intros k b [Hk _]%lookup_take_Some; by apply Hbs|]. intros E. apply H0. apply (f_equal length) in E. rewrite length_take_le in E by done. done.
Qed.

(** C8: [truncate_inode] always returns.  It refuses more blocks than the file has.
    Otherwise the file has its first [t] blocks then, which are the same as
    before and in use, no buffer stays locked, and if the device can read all
    blocks the others are free; or a page of the tree cannot be read.  In any case
    only blocks and pages of the file are freed, and none is taken. *)
Theorem truncate_inode_takes (N : nat) (A : gmap Z (list Z)) (L : gmap Z hold) (fs : filsys C) (i : inode) (D : nat) (bs : list Z) (t : nat) : holds N A L fs i D bs -> (size L + D < N)%nat ->
  exists r fs', truncate_inode geo i (Z.of_nat t) fs = Done (r, fs') /\
    (((length bs < t)%nat /\ r = - EINVAL /\ fs' = fs) \/
     ((t <= length bs)%nat /\ exists A' D', (forall y, is_free Block A fs y -> is_free Block A' fs' y) /\ (forall y, is_free Block A' fs' y -> is_free Block A fs y \/ owns N A L fs i D bs y) /\
        (forall b, b ∈ take t bs -> ~ is_free Block A' fs' b) /\
        ((r = 0 /\ holds N A' L fs' i D' (take t bs) /\ (reliable -> forall b, b ∈ drop t bs -> is_free Block A' fs' b)) \/ (r = - EIO /\ ~ reliable)))).
Proof.
  intros HH HN. pose proof HH as (R & iblk & node & HI & Hbs & H0). set (n := Z.of_nat (length bs)) in *. pose proof (ge_log _ Hgeo) as Hlg.
  destruct (truncate_run geo Hlg (ge_size _ Hgeo) (ge_word _ Hgeo) N A L fs i iblk D n node (Z.of_nat t) HI R ltac:(lia) HN) as (r & fs' & E & HT). exists r, fs'. split; [done|]. destruct (Z.ltb_spec n (Z.of_nat t)) as [Hlt|Hge]; [left; destruct HT; split; [lia|done]|]. right. split; [lia|].
  assert (Hleaf : forall n' q, has geo n' (S D) 0 q = (q <? n')) by (intros n' q; apply has_leaf_block). assert (Hin : forall b, b ∈ bs -> exists k : nat, (k < length bs)%nat /\ bs !! k = Some b /\ b = node 0%nat (Z.of_nat k)) by (intros b [k Hk]%list_elem_of_lookup; exists k; split; [by apply lookup_lt_Some in Hk|]; split; [done|by apply Hbs]).
  assert (Hmain : forall A' n', Z.of_nat t <= n' <= n -> gone geo D node A fs n (S D) A' fs' n' (S D) -> (forall y, is_free Block A fs y -> is_free Block A' fs' y) /\ (forall y, is_free Block A' fs' y -> is_free Block A fs y \/ owns N A L fs i D bs y) /\ (forall b, b ∈ take t bs -> ~ is_free Block A' fs' b)).
  { intros A' n' Hn' [G1 G2 G3 G4 G5]. split; [done|]. split.
    - intros y [?|(l & q & Hl & Hq & Hh & _ & Ey)]%G3; [by left|]. right. by exists iblk, node, l, q.
    - intros b Hb Hf. apply list_elem_of_lookup in Hb as [k [Hk Hkt]%lookup_take_Some]. destruct (G3 b Hf) as [Hf0|(l & q & Hl & Hq & Hh & Hn & Ey)]; [destruct (contents_used N A L fs i D (S D) bs b (proj2 HH)) as [_ ?]; [by apply list_elem_of_lookup_2 with k|done]|].
      rewrite (Hbs k b Hk) in Ey. pose proof (lookup_lt_Some _ _ _ Hk) as Hlen. destruct (tr_apart _ _ _ _ _ _ (fi_tree _ _ _ _ _ _ _ _ _ _ _ _ HI) l q 0%nat (Z.of_nat k) Hl ltac:(lia) Hq ltac:(lia) Hh) as [-> ->]; [rewrite Hleaf; lia|done|]. rewrite Hleaf in Hn. lia. }
  destruct HT as [(-> & A' & D' & R' & HI' & HD' & HD0 & HG)|(-> & Hrel & A' & n' & Hn' & HG)].
  - exists A', D'. destruct (Hmain A' (Z.of_nat t) ltac:(lia) HG) as (M1 & M2 & M3). split; [done|]. split; [done|]. split; [done|]. left. split; [done|]. split.
    + split; [done|]. apply (contents_take N A' L fs' i iblk D' bs node t ltac:(lia) Hbs); [|done]. intros Et. destruct (HD0 ltac:(lia)) as [?|En]; [done|]. destruct HD' as [->|[_ ?]]; [|done]. apply H0, length_zero_iff_nil. lia.
    + intros Hrel b Hb. apply list_elem_of_lookup in Hb as [k Hk]. rewrite lookup_drop in Hk. pose proof (lookup_lt_Some _ _ _ Hk) as Hlen. rewrite (Hbs _ b Hk). destruct (gn_all _ _ _ _ _ _ _ _ _ _ _ HG Hrel 0%nat (Z.of_nat (t + k)) ltac:(lia) ltac:(lia)) as [Hh|?]; [rewrite Hleaf; unfold n; apply Z.ltb_lt; lia|rewrite Hleaf in Hh; apply Z.ltb_lt in Hh; lia|done].
  - exists A', D. destruct (Hmain A' n' Hn' HG) as (M1 & M2 & M3). split; [done|]. split; [done|]. split; [done|]. by right.
Qed.

End Inodes.

(** ** Witnesses *)

(** A volume of eight blocks of 128 bytes: the group descriptor is in block 1,
    the bitmaps are in the blocks 2 and 3, the inode table is block 4.  The first
    inode has depth 1, its page is block 5 and its only block is block 6.  Block 7
    is free if [room] is true. *)
Definition small_geo : geometry := Geo 128 1 5.

Definition le_words (ws : list Z) : list Z := flat_map (fun w => [w; 0; 0; 0]) ws.
Definition file_desc_block : list Z := le_words (replicate 5 0 ++ [1] ++ replicate 3 0 ++ [1] ++ replicate 6 0 ++ [5] ++ replicate 15 0).
Definition file_page : list Z := le_words (6 :: replicate 31 0).
Definition file_bitmap (room : bool) : list Z := (if room then 127 else 255) :: replicate 127 0.

Definition file_disk (room : bool) : gmap Z (list Z) :=
  {[1 := replicate 128 0; 2 := file_bitmap room; 3 := 1 :: replicate 127 0; 4 := file_desc_block; 5 := file_page; 6 := replicate 128 0]}.
Definition file_new (room : bool) : bufpool := init_buffer_pool 128 [100; 200; 300; 400; 500] (file_disk room).
Definition got (blk : Z) (p : bufpool) : bufpool := match c_get (BlockCache := pool_cache ∅) blk p with Done (_, p') => p' | _ => p end.
Definition file_pool (room : bool) : bufpool := got 4 (got 1 (file_new room)).

Definition free_of (room : bool) : Z := if room then 1 else 0.
Definition file_group (room : bool) : blkgroup := Grp (Desc 8 2 3 4 (free_of room) 3) NONE NONE.
Definition file_volume (room : bool) : filsys bufpool := Filsys 1 0 (Super 1 1 4 8 3 (free_of room) 8 4) (file_pool room) [100] [file_group room].
Definition file_held : gmap Z hold := <[200 := Hold 4 1 false true]> {[100 := Hold 1 1 false true]}.
Definition file_inode : inode := MkInode 0 0 200.
Definition file_node (l : nat) (q : Z) : Z := match l with O => 6 | S _ => 5 end.

Lemma small_geo_ok : geometry_ok small_geo.
Proof. by split. Qed.

Lemma file_held_is b h : file_held !! b = Some h -> (b = 100 /\ h = Hold 1 1 false true) \/ (b = 200 /\ h = Hold 4 1 false true).
Proof. unfold file_held. intros [[<- <-]|[_ [<- <-]%lookup_singleton_Some]]%lookup_insert_Some; tauto. Qed.

Lemma got_rep N A L p blk b : pool_rep N A L p -> roomy N L -> is_Some (A !! blk) -> unheld L blk -> c_get (BlockCache := pool_cache ∅) blk p = Done (b, got blk p) -> pool_rep N A (<[b := Hold blk 1 false true]> L) (got blk p).
Proof.
  intros R Hroom Ha Hu E0. destruct (pool_get ∅ N A L p blk R Hroom (unheld_usable L blk Hu) Ha) as (b' & p' & E & _ & Hcase). rewrite E0 in E. injection E as <- <-.
  destruct Hcase as [(_ & Hin & _)|(_ & L' & [(h0 & Hh0 & Eh & _)|(_ & _ & ->)] & R')]; [by apply elem_of_empty in Hin|by destruct (Hu _ _ Hh0)|exact R'].
Qed.

Lemma file_rep room : pool_rep 5 (file_disk room) file_held (file_pool room).
Proof.
  assert (R0 : pool_rep 5 (file_disk room) ∅ (file_new room)) by (apply (init_rep 128 [100; 200; 300; 400; 500] (file_disk room)); [repeat constructor; set_solver|set_solver|done]).
  assert (R1 : pool_rep 5 (file_disk room) {[100 := Hold 1 1 false true]} (got 1 (file_new room))).
  { apply (got_rep 5 (file_disk room) ∅ (file_new room) 1 100 R0); [split; [rewrite map_size_empty; lia|]; intros b h; by rewrite lookup_empty|by destruct room; eexists|intros b h; by rewrite lookup_empty|by destruct room; vm_compute]. }
  apply (got_rep 5 (file_disk room) _ (got 1 (file_new room)) 4 200 R1); [split; [rewrite map_size_singleton; lia|]; by intros b h [<- <-]%lookup_singleton_Some|by destruct room; eexists|by intros b h [<- <-]%lookup_singleton_Some|by destruct room; vm_compute].
Qed.

Lemma small_bytes d : forallb (fun x => (0 <=? x) && (x <? 256)) d = true -> bytes_ok d.
Proof. intros E. apply Forall_forall. intros x Hx%list_elem_of_In. rewrite forallb_forall in E. specialize (E x Hx). lia. Qed.

Lemma small_tail d n : forallb (fun m => negb (bit d m)) (seqZ n (32 * words n - n)) = true -> tail_clear d n.
Proof. intros E m Hm. rewrite forallb_forall in E. specialize (E m). destruct (bit d m); [|done]. discriminate E. apply list_elem_of_In, elem_of_seqZ. lia. Qed.

Lemma file_bitmaps room k : let n := match k with Block => 8 | Inode => 4 end in
  exists d, file_disk room !! k_map k (desc (file_group room)) = Some d /\ bitmap_ok d n /\ k_free k (desc (file_group room)) = zero_count d n.
Proof.
  destruct room, k; eexists; (split; [reflexivity|]); (split; [split; [by apply small_bytes|vm_compute; discriminate|lia|by apply small_tail]|vm_compute; reflexivity]).
Qed.

Lemma file_volume_wf room : @fs_wf bufpool 5 (file_disk room) file_held (file_volume room).
Proof.
  split.
  - split; [vm_compute; lia|]. intros b h [[-> ->]|[-> ->]]%file_held_is; cbn; lia.
  - reflexivity.
  - intros []; cbn; unfold W32; lia.
  - intros k [|j] g Hg; [injection Hg as <-|discriminate Hg]. destruct (file_bitmaps room k) as (d & Hd). split; [exists d; by destruct k|destruct k; cbn; lia|by left; destruct k|].
    intros b h [[-> ->]|[-> ->]]%file_held_is; by destruct k.
  - intros k1 k2 [|i1] [|i2] g1 g2 H1 H2; [|discriminate H2|discriminate H1..]. injection H1 as <-. injection H2 as <-. by destruct k1, k2.
  - intros []; by destruct room.
  - intros j Hj. assert (j = 0) as -> by (cbn in Hj; lia). split; [done|]. by exists 100, (Hold 1 1 false true).
  - intros goal Hg. cbn in Hg. exists (file_group room). cbn. rewrite Z.div_small, Z.mod_small by lia. split; [done|lia].
Qed.

(** Only block 7 can be free. *)
Lemma file_free room x : is_free Block (file_disk room) (file_volume room) x -> room = true /\ x = 7.
Proof.
  intros (Hx & g & d & Hg & Hd & Hm & Hb). cbn [k_per super file_volume blocks_per_group] in *. destruct (Z.to_nat (x / 8)) as [|j] eqn:Ej; [injection Hg as <-|discriminate Hg].
  assert (d = file_bitmap room) as -> by (destruct room; vm_compute in Hd; by injection Hd). assert (Hx8 : x mod 8 = x) by (apply Z.mod_small; pose proof (Z.div_mod x 8 ltac:(lia)); pose proof (Z.mod_pos_bound x 8); lia). rewrite Hx8 in *. cbn in Hm.
  assert (Hcases : x = 0 \/ x = 1 \/ x = 2 \/ x = 3 \/ x = 4 \/ x = 5 \/ x = 6 \/ x = 7) by lia. destruct room; (destruct Hcases as [->|[->|[->|[->|[->|[->|[->| ->]]]]]]]; try discriminate Hb; done).
Qed.

Lemma file_has l q : 0 <= q -> has small_geo 1 2 l q = true -> (l <= 1)%nat -> q = 0.
Proof.
  intros Hq Hh Hl. unfold has in Hh. destruct (Nat.leb_spec 2 l); [lia|]. rewrite orb_false_r in Hh. apply Z.ltb_lt in Hh. change (log_blkptrs_per_block small_geo) with 5 in Hh. destruct l as [|[|l]]; [|change ((2 ^ 5) ^ Z.of_nat 1) with 32 in Hh|]; cbn in Hh; lia.
Qed.

Lemma file_entries l d off count : 0 <= count -> forallb (fun k => bool_decide (word_at d (off + k) = Some (if has small_geo 1 2 l (0 + k) then file_node l (0 + k) else 0))) (seqZ 0 count) = true ->
  entries_ok small_geo 1 2 l file_node d off count 0.
Proof. intros Hc E k Hk. rewrite forallb_forall in E. specialize (E k ltac:(apply list_elem_of_In, elem_of_seqZ; lia)). by apply bool_decide_eq_true in E. Qed.

Lemma file_holds room : holds (BlockCache0 := pool_cache ∅) (CacheSpec0 := pool_spec ∅) small_geo 5 (file_disk room) file_held (file_volume room) file_inode 1 [6].
Proof.
  split; [exact (file_rep room)|]. exists 4, file_node. change (Z.of_nat (length [6])) with 1. split; [|split; [|done]].
  2: { intros [|k] b Hk; [by injection Hk as <-|discriminate Hk]. }
  assert (Hnf : forall x, x <> 7 -> ~ is_free Block (file_disk room) (file_volume room) x) by (intros x Hx Hf; by apply file_free in Hf as [_ ?]).
  assert (Hsys : forall x, system (file_volume room) x -> x = 2 \/ x = 3) by (intros x (k & [|j] & g & Hg & ->); [injection Hg as <-; destruct k; tauto|discriminate Hg]).
  split.
  - apply file_volume_wf.
  - vm_compute. lia.
  - split; [by apply Hnf|]. split; [intros x Hx; apply Hnf; apply Hsys in Hx; lia|]. intros b h [[-> ->]|[-> ->]]%file_held_is; by apply Hnf.
  - by exists 1.
  - exists file_desc_block. split; [by destruct room|]. split; [by apply small_bytes|split; by vm_compute|done|done|]. apply file_entries; [lia|by vm_compute].
  - split.
    + intros l q Hl Hq Hh. assert (l = 0%nat) as -> by lia. rewrite (file_has 1 q Hq Hh) by lia. exists file_page. split; [by destruct room|]. split; [split; [by apply small_bytes|done]|]. apply file_entries; [lia|by vm_compute].
    + intros l q l' q' Hl Hl' Hq Hq' Hh Hh' E. rewrite (file_has l q Hq Hh Hl), (file_has l' q' Hq' Hh' Hl'). split; [|done]. destruct l as [|[|l]], l' as [|[|l']]; (done || lia).
    + intros l q _ _ _. destruct l; cbn; unfold W32; lia.
  - split; [cbn; lia|unfold W32; lia].
  - cbn. lia.
  - intros l q Hl Hq Hh. assert (Hx : file_node l q = 5 \/ file_node l q = 6) by (destruct l; cbn; tauto). split; [intros Hs; apply Hsys in Hs; lia|].
    split; [intros b h [[-> ->]|[-> ->]]%file_held_is; cbn; lia|]. split; [|apply Hnf; lia]. split; [lia|]. exists 8. cbn. rewrite Z.div_small, Z.mod_small by lia. split; [done|lia].
Qed.

Lemma get_inode_block_lookup_witness : exists r fs', get_inode_block (BlockCache0 := pool_cache ∅) small_geo file_inode 0 (file_volume true) = Done (r, fs') /\
  holds (BlockCache0 := pool_cache ∅) (CacheSpec0 := pool_spec ∅) small_geo 5 (file_disk true) file_held fs' file_inode 1 [6] /\ groups fs' = groups (file_volume true) /\
  (r = 6 \/ (r = NOBLOCK /\ ~ reliable (BlockCache0 := pool_cache ∅) (CacheSpec0 := pool_spec ∅))).
Proof. apply (get_inode_block_lookup small_geo small_geo_ok 5 (file_disk true) file_held (file_volume true) file_inode 1 [6] 0 6); [apply file_holds|done]. Defined.

Lemma expand_inode_appends_witness : exists r fs' A' D', expand_inode (BlockCache0 := pool_cache ∅) small_geo file_inode (file_volume true) = Done (r, fs') /\
  (forall y, is_free Block A' fs' y -> is_free Block (file_disk true) (file_volume true) y) /\
  ((is_free Block (file_disk true) (file_volume true) r /\ in_use Block A' fs' r /\ (r ∉ [6]) /\ holds (BlockCache0 := pool_cache ∅) (CacheSpec0 := pool_spec ∅) small_geo 5 A' file_held fs' file_inode D' [6; r]) \/
   (r = NOBLOCK /\ (holds (BlockCache0 := pool_cache ∅) (CacheSpec0 := pool_spec ∅) small_geo 5 A' file_held fs' file_inode D' [6] \/
     (leaked (BlockCache0 := pool_cache ∅) (CacheSpec0 := pool_spec ∅) 5 A' file_held (cache fs') /\ exists h, contents small_geo 5 A' file_held fs' file_inode D' h [6])))).
Proof.
  apply (expand_inode_appends (BlockCache0 := pool_cache ∅) (CacheSpec0 := pool_spec ∅) small_geo small_geo_ok 5 (file_disk true) file_held (file_volume true) file_inode 1 [6]); [apply file_holds|]. split; [unfold W32; cbn; lia|]. intros _. cbn. lia.
Defined.

Lemma full_disk_leaks_buffer_witness : exists fs' A' b page, expand_inode (BlockCache0 := pool_cache ∅) small_geo file_inode (file_volume false) = Done (NOBLOCK, fs') /\
  dir_page small_geo 5 (file_disk false) file_held (file_volume false) file_inode 1 [6] 0 page /\ file_held !! b = None /\
  rep (BlockCache0 := pool_cache ∅) (CacheSpec := pool_spec ∅) 5 A' (<[b := Hold page 1 false true]> file_held) (cache fs').
Proof.
  apply (full_disk_leaks_buffer (BlockCache0 := pool_cache ∅) (CacheSpec0 := pool_spec ∅) small_geo small_geo_ok 5 (file_disk false) file_held (file_volume false) file_inode 1 [6] 0); [apply file_holds|lia|done|done|by apply all_readable|].
  intros y Hy. by apply file_free in Hy as [? _].
Defined.

Lemma truncate_inode_takes_witness : exists r fs', truncate_inode (BlockCache0 := pool_cache ∅) small_geo file_inode 0 (file_volume true) = Done (r, fs') /\
  (((1 < 0)%nat /\ r = - EINVAL /\ fs' = file_volume true) \/
   ((0 <= 1)%nat /\ exists A' D', (forall y, is_free Block (file_disk true) (file_volume true) y -> is_free Block A' fs' y) /\
      (forall y, is_free Block A' fs' y -> is_free Block (file_disk true) (file_volume true) y \/ owns small_geo 5 (file_disk true) file_held (file_volume true) file_inode 1 [6] y) /\
      (forall b, b ∈ take 0 [6] -> ~ is_free Block A' fs' b) /\
      ((r = 0 /\ holds (BlockCache0 := pool_cache ∅) (CacheSpec0 := pool_spec ∅) small_geo 5 A' file_held fs' file_inode D' [] /\
        (reliable (BlockCache0 := pool_cache ∅) (CacheSpec0 := pool_spec ∅) -> forall b, b ∈ drop 0 [6] -> is_free Block A' fs' b)) \/ (r = - EIO /\ ~ reliable (BlockCache0 := pool_cache ∅) (CacheSpec0 := pool_spec ∅))))).
Proof. apply (truncate_inode_takes (BlockCache0 := pool_cache ∅) (CacheSpec0 := pool_spec ∅) small_geo small_geo_ok 5 (file_disk true) file_held (file_volume true) file_inode 1 [6] 0); [apply file_holds|vm_compute; lia]. Defined.
